(* ===== verification/_CoqProject ===== *)
-Q . S2P
Prelude.v
SplitProto.v
Netw.v
SplitStats.v
SplitIface.v
Hashtable.v
Lists.v
RlcPrims.v
RlcTm.v
RlcMac.v
SplitCU.v
SplitDU.v
SplitSystem.v
Pdcp.v
RlcAmWindow.v
RlcAmStatus.v
RlcUm.v
RlcAmRx.v
RlcUmTx.v
RlcAmTx.v
RlcAmArq.v
RlcAmEntity.v
RlcUmDar.v
RlcUmEntity.v
RlcRrc.v
RlcBearer.v
RlcAmBearer.v
CuNode.v
MemBlock.v
Crc.v
Osa.v
PdcpData.v
PdcpConfig.v
PdcpBearer.v
MacHeader.v
MacUeList.v
MacUlsch.v
