(* ===== verification/Prelude.v ===== *)
(** * The MAC-RLC functional split of an LTE base station: a verification library

    The repository is an eNB (OpenAirInterface) in which the MAC and the layers above it can
    run on two machines.  The _distributed unit_ (DU) keeps the MAC and the physical layer; the
    _central unit_ (CU) keeps RLC, PDCP and RRC.  The primitives that the MAC calls on the RLC
    and on the RRC are replaced, in the DU, by messages to the CU; the CU runs the real
    primitives and answers; the DU stores the answers in mailboxes, one per logical channel,
    where the MAC finds them at its next call.  This library models the split, the layers on
    both sides of it, and the parts of RLC and PDCP below, and proves what makes them correct.

    ** Parts of the program and files of the library

    - [Prelude]: faults and the result monad of C functions ([cres]), machine integers
      ([u8] ... [i32]), byte buffers and arrays with checked accesses, loops, the tactics and
      hint databases.
    - [SplitProto]: the wire protocol, [src/splits/include/splitproto.h] and
      [src/splits/proto/raw/proto_raw.c].  A packed structure is an instance of the class
      [Packed]; every message of the protocol has one.
    - [Netw]: the UDP wrapper, [src/splits/netw/udp/netw_udp.c].  The operating system is the
      record [os]; the [sscanf] of the C library is written for the one format in use.
    - [SplitStats]: [src/splits/mac-rlc/stats/mr_stats.c].
    - [SplitIface]: what the split needs from the RLC and RRC layers, as a class of operations
      ([RlcService]) with its laws ([RlcServiceOk]), and a reference instance.
    - [Hashtable]: [src/common/utils/hashtable/hashtable.c], the table of the RLC entities.
    - [Lists]: [src/openair2/UTIL/LISTS/list.c], lists of memory blocks that share a store.
    - [RlcPrims]: transport blocks and the keys of the entities ([rlc_mac.c], [rlc.h],
      [mac_rlc_primitives.h]), and the interface of an RLC entity ([RlcEntity],
      [RlcEntityOk]).
    - [RlcTm]: transparent mode, [src/openair2/LAYER2/RLC/TM_v9.3.0/].
    - [RlcMac]: the primitives the MAC calls, [src/openair2/LAYER2/RLC/rlc_mac.c] without the
      split: search of the entity and dispatch to its mode.  With any [RlcEntity] for the
      acknowledged and unacknowledged modes it is an instance of [RlcService].
    - [SplitCU]: the handlers and the receive loop of the CU ([rlc_mac.c] under
      [SPLIT_MAC_RLC_CU], [src/splits/mac-rlc/cu/mr_cu.c]), over any [RlcService].
    - [SplitDU]: the handlers, mailboxes, MAC primitives and receive loop of the DU
      ([rlc_mac.c] and [src/openair2/RRC/LITE/L2_interface.c] under [SPLIT_MAC_RLC_DU],
      [src/splits/mac-rlc/du/mr_du.c]).
    - [SplitSystem]: a DU and a CU with the two networks between them.
    - [Pdcp]: sequence numbers, headers and COUNT of PDCP,
      [src/openair2/LAYER2/PDCP_v10.1.0/].
    - [RlcAmWindow], [RlcAmStatus], [RlcAmRx], [RlcAmTx], [RlcAmArq], [RlcAmEntity]:
      acknowledged mode, [src/openair2/LAYER2/RLC/AM_v9.3.0/]: the windows and the holes of the
      retransmission buffer; the codec of the STATUS PDU; the receiver with its buffer of PDUs
      and segments; the transmitter with its ring of SDUs, segmentation and polling;
      acknowledgement, retransmission and segments of a PDU; the entity with its status reports
      and the requests of the MAC.
    - [RlcUm], [RlcUmTx], [RlcUmDar], [RlcUmEntity]: unacknowledged mode,
      [src/openair2/LAYER2/RLC/UM_v9.3.0/]: the reassembly; the transmitter with its
      segmentation; the receiver with reordering buffer, window and timer; the entity as an
      instance of [RlcEntity].
    - [RlcRrc]: the configuration and release of bearers by RRC and the data requests,
      [src/openair2/LAYER2/RLC/rlc_rrc.c] and [rlc.c].
    - [RlcBearer], [RlcAmBearer]: a bearer of unacknowledged and of acknowledged mode between
      two RLC layers; [CuNode]: the CU with its RLC layer, under any interleaving of requests of
      RRC, SDUs and polls of the DU.
    - [MemBlock]: the pools of memory blocks, [src/openair2/UTIL/MEM/mem_block.c].
    - [Crc]: the checksums of the transport blocks, [src/openair1/PHY/CODING/crc_byte.c].
    - [Osa]: the ciphers and the integrity algorithms, [src/openair2/UTIL/OSA/]; AES in counter
      mode and CMAC are third-party, the class [Crypto] with its laws [CryptoOk].
    - [PdcpData], [PdcpConfig]: the data path of PDCP with its security, and its configuration
      by RRC, [pdcp.c] and [pdcp_security.c].  RLC is the class [RlcRequests], the pools and the
      traffic generator are the class [PdcpEnv].
    - [PdcpBearer]: PDCP over RLC, from the SDU given to PDCP at the eNB to the SDU delivered at
      the user.
    - [MacHeader], [MacUeList], [MacUlsch]: the MAC headers of both directions, the list of the
      users with its sortings, and the reception of an uplink block,
      [src/openair2/LAYER2/MAC/].

    ** How the code is modelled

    A C function is a function of the same name on explicit state.  It returns [Ret] with its
    result and the new state, or [Trap] with the reason why the C abstract machine does not
    continue: an access outside an object, a failed assertion, a call of the exit function, a
    null pointer, a division by zero.  An access to an array or to a buffer is checked against
    the length the object has, so a theorem that concludes [Ret] also says that no access
    leaves an object.  Integers are [Z] with the conversions of the source written out.
    A shared structure is a store: the memory blocks of [Lists], the entities of [RlcMac].
    Threads are turns: one turn of a receive loop is one step, and the functions the MAC calls
    are steps between turns.  Logging and tracing calls are left out.

    ** What the theorems show

    - The split as a whole ([SplitSystem.split_exchange]): the request of the DU and the turn of
      the CU on it run without a fault, and the turns of the reply handler of the DU on the
      logical channels 0 to 10 reach a state in which the MAC reads on each of them what the RLC
      layer of the CU answered, once.  The arrays of the DU have no place for the channels 11 to
      13, so the next turn of the handler is out of bounds
      ([SplitDU.status_data_rep_overflows]): no reply is handled to its end.  The theorem rests on
      the refinement of the CU handler to an abstract poll of the channels
      ([SplitCU.status_data_reply_refines]) and on what the DU handler has stored when it leaves
      the arrays ([SplitDU.status_data_rep_stored]).
    - The protocol: every message is read back as it was packed
      ([SplitProto.message_round_trip]).
    - The CU in service ([CuNode.cu_node_serves]): any allowed interleaving of configuration of
      bearers, SDUs on bearers of unacknowledged mode and polls runs without a fault on the CU with
      the entities of [RlcUmEntity] and [RlcAmBearer], and each poll is answered within its
      transport block; bearers of acknowledged mode may be there, but carry nothing.
    - Layer 2 from end to end ([PdcpBearer.pdcp_bearer_transfer]): a data bearer of unacknowledged
      mode with PDCP sequence numbers of 12 bits that RRC adds to PDCP and RLC of both sides
      delivers the SDUs in order, ciphered and segmented on the way.  It rests on the same facts as
      [PdcpData.pdcp_transfer] (also for signalling bearers and with lost PDUs) and
      [RlcBearer.um_bearer_transfer].  With EEA1 the blocks need three spare octets.
    - Acknowledged mode between two RLC layers ([RlcAmBearer.am_layers_bearer]): whatever whole PDUs
      are lost, repeated or reordered inside the window, and whatever reports are lost, up to the
      first event that is not allowed ([RlcAmEntity.loop_guard]: spare bytes in a PDU,
      more than 32 SDUs in it, more than 31 cuts of an SDU, a PDU misplaced at the wrap, a report
      with negative acknowledgements or for a full window, t-PollRetransmit expired), the SDUs
      delivered are the first ones submitted, and an SDU is confirmed once and only when it was
      delivered.  Below it are the segmentation as the function [pack], the acknowledgements as marks on a list of PDUs
      ([RlcAmTx.am_spec]), the receiver ([RlcAmRx.am_reception], and for any input
      [RlcAmRx.am_state_typed]) and the report of what is missing ([RlcAmEntity.am_status_report]).
    - Unacknowledged mode alone: waiting SDUs are delivered when grants come whose PDUs the code can
      code ([RlcUmTx.um_queue_drains]), the receiver is safe under loss, repetition and reordering
      ([RlcUmDar.um_reception_safe]) and undoes reordering inside of its window
      ([RlcUmDar.um_reordering_transparent]).
    - Configuration: requests of RRC act on the table of the RLC entities like a partial function
      on a finite map ([RlcRrc.config_request_refines]), and removing a user removes its bearers
      ([RlcRrc.remove_ue_releases]).
    - The containers refine their specifications: the hash table a finite map, the ring of
      transparent mode a queue ([RlcTm.tm_ring_is_queue]), the list of the users a set, as long as
      only connected users are removed and the physical layer knows the users of the list
      ([MacUeList.ue_list_refines]); the blocks of the pools are exclusive
      ([MemBlock.mem_blocks_exclusive]).
    - The RLC layer gives no more than the grant on a channel of unacknowledged mode
      ([CuNode.um_channel_within_grant]), and isolates the bearers ([RlcMac.bearer_isolation]) for
      every implementation of the two modes behind the interface.
    - PDCP numbering follows an unbounded counter; STATUS PDUs are decoded as they were encoded.
    - The MAC: downlink and uplink blocks are read as they were built
      ([MacHeader.dl_pdu_round_trip], [MacUlsch.uplink_pdu_delivered]); the readers of headers and
      the sorting in place terminate ([MacHeader.parse_terminates], [MacUeList.sort_UEs_refines]).
    - Codes: the table driven checksums are divisions of polynomials and detect bursts
      ([Crc.crc_functions_divide], [Crc.crc_detects_bursts]); the arithmetic and the S-boxes of
      SNOW 3G are those of its fields ([Osa.osa_field_arithmetic]) and ciphering twice gives the
      message back ([Osa.stream_decrypt_inverts]).
    - Theorems with an error in their conclusion ([SplitDU.status_data_rep_overflows],
      [RlcUmTx.um10_lengthens_last_sdu], [RlcAmRx.am_wrap_misplaces_pdu],
      [PdcpData.forged_pdu_delivered],
      [PdcpConfig.remove_UE_frees_twice], [RlcAmEntity.am_full_window_stalls],
      [RlcAmEntity.am_nacked_pdu_blocks], [RlcAmEntity.am_last_gap_not_reported] and others) state
      exactly where the code departs from its intent.

    ** Bounds and fuel

    Loops over lists, arrays and logical channels are structural.  Fuel appears where a loop
    follows pointers ([Lists.list_free], [Lists.remove_walk]: more than the blocks of the list,
    proved enough; the walks of [MacUeList]: one turn more than the table has places, 17, and its
    square for the sortings, 289), reads bit fields (one unit more than the bits), reads the
    elements of a STATUS PDU (the size of the array, where the code stops), removes holes (twice
    the size of the arrays), walks the reception buffer of [RlcUm] and [RlcUmDar] (one turn for
    each sequence number), and reads the subheaders of a MAC block (the octets of the block and
    one more; 256 for the control elements, whose number is one octet).  In acknowledged mode the
    loops over length indicators have 34 turns and over the SDUs of a PDU 33, one more than a PDU
    holds; those over the ring of SDUs 129; those over sequence numbers 1025, and 2049 where a turn
    may also go to the next element of a report; the one over the reception buffer one for each block
    and one more.  The theorems that use such a function conclude that it returns; the search for a
    PDU after a time-out ([RlcAmEntity.any_stored]) is a loop of the code that need not end.

    What the library takes as a parameter: the memory of a new block ([alloc], with [alloc_ok]: a
    block of the size asked for), whether blocks can be had at all, and for the status of acknowledged
    mode [peek], the members the code reads from the bytes of an SDU.

    ** Not modelled

    The physical layer other than the checksums and the lookup of a user's statistics, the decisions of the MAC scheduler, RRC and the
    core network protocols are outside.  Acknowledged mode is modelled whole; the theorem on its
    bearer is for runs in which t-PollRetransmit does not expire and no report has negative
    acknowledgements, whose effects are in the theorems with an error.  Of PDCP the FIFOs to the network
    driver and [pdcp_run] are left out, of the ciphering the key derivation, which is one call of
    a third-party function.  The spin lock of the DU is not modelled, nor is the loss,
    duplication or reordering of datagrams between the two units. *)
From stdpp Require Import base list gmap numbers.
From coqutil Require Import Byte Word.LittleEndianList.
From Stdlib Require Import ZArith Lia.
Open Scope Z_scope.

(** ** Faults and the result monad of the C code

    [Ret a] is a normal return.  [Trap f] is a run that the C abstract machine
    does not continue: an access outside an object ([FOob]), a failing
    [assert]/[AssertFatal] ([FAssert]), a call of [macphy_exit] ([FExit]),
    a dereference of a null or wild pointer ([FNull]), a division by zero ([FDiv]).
    [FFuel] is not a fault of the code: it marks a loop that ran more turns than the bound its
    model gives it. *)

Inductive fault :=
| FOob
| FAssert
| FExit
| FNull
| FDiv
| FFuel.

Inductive cres (A : Type) : Type :=
| Ret (a : A)
| Trap (f : fault).
Arguments Ret {A} a.
Arguments Trap {A} f.

Global Instance fault_eq_dec : EqDecision fault.
Proof. solve_decision. Defined.

Global Instance cres_ret : MRet cres := fun A a => Ret a.
Global Instance cres_bind : MBind cres :=
  fun A B f m => match m with Ret a => f a | Trap e => Trap e end.
Global Instance cres_fmap : FMap cres :=
  fun A B f m => match m with Ret a => Ret (f a) | Trap e => Trap e end.

(** [c_assert b] is the C [assert(b)]. *)
Definition c_assert (b : bool) : cres unit := if b then Ret tt else Trap FAssert.

(** ** Machine integers

    A w-bit unsigned value is a [Z] in [0, 2^w); a signed one is a [Z] in
    [-2^(w-1), 2^(w-1)).  The functions below are the C conversions. *)

Definition u8 (z : Z) : Z := z mod 2 ^ 8.
Definition u16 (z : Z) : Z := z mod 2 ^ 16.
Definition u32 (z : Z) : Z := z mod 2 ^ 32.
Definition u64 (z : Z) : Z := z mod 2 ^ 64.
Definition i8 (z : Z) : Z := (z + 2 ^ 7) mod 2 ^ 8 - 2 ^ 7.
Definition i16 (z : Z) : Z := (z + 2 ^ 15) mod 2 ^ 16 - 2 ^ 15.
Definition i32 (z : Z) : Z := (z + 2 ^ 31) mod 2 ^ 32 - 2 ^ 31.

(** C's [%] truncates toward zero. *)
Definition c_rem (a b : Z) : Z := Z.rem a b.

(** [b2z] is the C value of a comparison. *)
Definition b2z (b : bool) : Z := if b then 1 else 0.

(** ** Memory objects: byte buffers and arrays *)

Definition zlen {A} (l : list A) : Z := Z.of_nat (length l).

(** [bget b off n]: read [n] elements (bytes) at [off] (the source side of a [memcpy]). *)
Definition bget {A} (b : list A) (off n : Z) : cres (list A) :=
  if (0 <=? off) && (0 <=? n) && (off + n <=? zlen b)
  then Ret (take (Z.to_nat n) (drop (Z.to_nat off) b))
  else Trap FOob.

(** [bput b off d]: write the bytes [d] at [off] (the destination side). *)
Definition bput {A} (b : list A) (off : Z) (d : list A) : cres (list A) :=
  if (0 <=? off) && (off + zlen d <=? zlen b)
  then Ret (take (Z.to_nat off) b ++ d ++ drop (Z.to_nat off + length d) b)
  else Trap FOob.

(** [memcpy dst doff src soff n]. *)
Definition memcpy {A} (dst : list A) (doff : Z) (src : list A) (soff n : Z)
  : cres (list A) :=
  d ← bget src soff n; bput dst doff d.

(** Array element read and write, [a[i]] and [a[i] = x]. *)
Definition aget {A} (a : list A) (i : Z) : cres A :=
  if 0 <=? i then match a !! Z.to_nat i with Some x => Ret x | None => Trap FOob end
  else Trap FOob.

Definition aset {A} (a : list A) (i : Z) (x : A) : cres (list A) :=
  if (0 <=? i) && (i <? zlen a) then Ret (<[Z.to_nat i := x]> a) else Trap FOob.

(** A zero-initialised byte array. *)
Definition zeros (n : nat) : list byte := replicate n Byte.x00.

(** A [for] loop over a state with a body that may trap. *)
Fixpoint for_each {A S} (body : A -> S -> cres S) (l : list A) (s : S) : cres S :=
  match l with
  | [] => Ret s
  | x :: l' => s' ← body x s; for_each body l' s'
  end.

(** [zrange a n] is [a; a+1; ...; a+n-1]. *)
Definition zrange (a : Z) (n : nat) : list Z := seqZ a (Z.of_nat n).

(** One octet of a buffer, as a number. *)
Definition octet (pdu : list byte) (i : Z) : cres Z := b ← aget pdu i; Ret (byte.unsigned b).
Definition put_octet (mem : list byte) (i v : Z) : cres (list byte) := aset mem i (byte.of_Z (u8 v)).

(** The sum of a list. *)
Definition sumZ (l : list Z) : Z := foldr Z.add 0 l.

(** ** Automation *)

Create HintDb c_arith.
Create Rewrite HintDb c_arith.
Create HintDb c_mem.
Create Rewrite HintDb c_mem.

(** Reflect boolean comparisons of the context and the goal. *)
Ltac bool_to_prop :=
  repeat match goal with
  | H : (_ && _)%bool = true |- _ => apply andb_true_iff in H; destruct H
  | H : (_ && _)%bool = false |- _ => apply andb_false_iff in H
  | H : (_ || _)%bool = false |- _ => apply orb_false_iff in H; destruct H
  | H : (_ || _)%bool = true |- _ => apply orb_true_iff in H
  | H : (_ <=? _) = true |- _ => apply Z.leb_le in H
  | H : (_ <=? _) = false |- _ => apply Z.leb_gt in H
  | H : (_ <? _) = true |- _ => apply Z.ltb_lt in H
  | H : (_ <? _) = false |- _ => apply Z.ltb_ge in H
  | H : (_ =? _) = true |- _ => apply Z.eqb_eq in H
  | H : (_ =? _) = false |- _ => apply Z.eqb_neq in H
  | H : negb _ = true |- _ => apply negb_true_iff in H
  | H : negb _ = false |- _ => apply negb_false_iff in H
  end.

(** Case on the innermost boolean test of the goal, keeping the equation. *)
Ltac case_if :=
  match goal with
  | |- context [if ?b then _ else _] =>
      lazymatch b with
      | context [if _ then _ else _] => fail
      | _ => let E := fresh "E" in destruct b eqn:E
      end
  end.

(** Peel the binds of a hypothesis [m ≫= k = Ret x]. *)
Ltac cres_inv :=
  repeat match goal with
  | H : Ret _ = Ret _ |- _ => injection H; clear H; intros; subst
  | H : Trap _ = Ret _ |- _ => discriminate H
  | H : Ret _ = Trap _ |- _ => discriminate H
  | H : mbind _ ?m = Ret _ |- _ =>
      let E := fresh "E" in destruct m eqn:E; cbn [mbind cres_bind] in H
  | H : c_assert ?b = Ret _ |- _ =>
      let E := fresh "E" in
      destruct b eqn:E; cbn [c_assert] in H; [|discriminate H]
  end.

(** ** Integer lemmas *)

Lemma u8_small z : 0 <= z < 2 ^ 8 -> u8 z = z.
Proof. apply Z.mod_small. Qed.
Lemma u16_small z : 0 <= z < 2 ^ 16 -> u16 z = z.
Proof. apply Z.mod_small. Qed.
Lemma u32_small z : 0 <= z < 2 ^ 32 -> u32 z = z.
Proof. apply Z.mod_small. Qed.
Lemma u64_small z : 0 <= z < 2 ^ 64 -> u64 z = z.
Proof. apply Z.mod_small. Qed.
Lemma u8_range z : 0 <= u8 z < 2 ^ 8.
Proof. apply Z.mod_pos_bound. lia. Qed.
Lemma u16_range z : 0 <= u16 z < 2 ^ 16.
Proof. apply Z.mod_pos_bound. lia. Qed.
Lemma u32_range z : 0 <= u32 z < 2 ^ 32.
Proof. apply Z.mod_pos_bound. lia. Qed.
Lemma u64_range z : 0 <= u64 z < 2 ^ 64.
Proof. apply Z.mod_pos_bound. lia. Qed.
Lemma i16_small z : - 2 ^ 15 <= z < 2 ^ 15 -> i16 z = z.
Proof. intros H. unfold i16. rewrite Z.mod_small; lia. Qed.
Lemma i32_small z : - 2 ^ 31 <= z < 2 ^ 31 -> i32 z = z.
Proof. intros H. unfold i32. rewrite Z.mod_small; lia. Qed.
Lemma i8_small z : - 2 ^ 7 <= z < 2 ^ 7 -> i8 z = z.
Proof. intros H. unfold i8. rewrite Z.mod_small; lia. Qed.
Lemma i32_range z : - 2 ^ 31 <= i32 z < 2 ^ 31.
Proof. unfold i32. pose proof (Z.mod_pos_bound (z + 2 ^ 31) (2 ^ 32)). lia. Qed.
Lemma i16_range z : - 2 ^ 15 <= i16 z < 2 ^ 15.
Proof. unfold i16. pose proof (Z.mod_pos_bound (z + 2 ^ 15) (2 ^ 16)). lia. Qed.

(** A signed conversion only depends on the residue. *)
Lemma i32_mod z : i32 (z mod 2 ^ 32) = i32 z.
Proof. unfold i32. rewrite Zplus_mod_idemp_l. reflexivity. Qed.
Lemma mod_i32 z : i32 z mod 2 ^ 32 = z mod 2 ^ 32.
Proof.
  unfold i32. rewrite Zminus_mod_idemp_l. f_equal. lia.
Qed.

#[export] Hint Rewrite u8_small u16_small u32_small u64_small i8_small i16_small i32_small
  using lia : c_arith.
#[export] Hint Resolve u8_range u16_range u32_range u64_range i32_range i16_range : c_arith.

(** ** Bits *)

Lemma testbit_above a n i : 0 <= n <= i -> 0 <= a < 2 ^ n -> Z.testbit a i = false.
Proof.
  intros Hn Ha. destruct (Z.eq_dec a 0) as [->|]; [apply Z.bits_0|].
  apply Z.bits_above_log2; [lia|]. apply Z.log2_lt_pow2; [lia|].
  eapply Z.lt_le_trans; [apply Ha|]. apply Z.pow_le_mono_r; lia.
Qed.

(** Fields at disjoint places of a word add up. *)
Lemma lor_shiftl_add a b n :
  0 <= n -> 0 <= a < 2 ^ n -> Z.lor a (Z.shiftl b n) = a + b * 2 ^ n.
Proof.
  intros Hn Ha.
  assert (H0 : Z.land a (Z.shiftl b n) = 0).
  { apply Z.bits_inj'. intros i Hi. rewrite Z.land_spec, Z.bits_0, Z.shiftl_spec by done.
    destruct (Z.lt_ge_cases i n).
    - rewrite (Z.testbit_neg_r b) by lia. by rewrite andb_false_r.
    - by rewrite (testbit_above a n i) by lia. }
  rewrite <- Z.lxor_lor by done. rewrite <- Z.add_nocarry_lxor by done.
  by rewrite Z.shiftl_mul_pow2.
Qed.

(** A group of [m] bits at place [k] of an octet. *)
Lemma bit_group b k m : 0 <= k -> 0 <= m ->
  Z.shiftr (Z.land b (Z.shiftl (Z.ones m) k)) k = (b / 2 ^ k) mod 2 ^ m.
Proof.
  intros Hk Hm. rewrite Z.shiftr_land, Z.shiftr_shiftl_l, Z.sub_diag, Z.shiftl_0_r by lia.
  by rewrite Z.land_ones, Z.shiftr_div_pow2 by lia.
Qed.

Lemma land_mask k z : 0 <= k -> Z.land z (2 ^ k - 1) = z mod 2 ^ k.
Proof. intros Hk. rewrite <- Z.land_ones by done. f_equal. rewrite Z.ones_equiv. lia. Qed.

(** ** Buffer lemmas *)

Lemma zlen_nonneg {A} (l : list A) : 0 <= zlen l.
Proof. unfold zlen. lia. Qed.

Lemma zlen_app {A} (l k : list A) : zlen (l ++ k) = zlen l + zlen k.
Proof. unfold zlen. rewrite length_app. lia. Qed.

Lemma zlen_zeros n : zlen (zeros n) = Z.of_nat n.
Proof. unfold zlen, zeros. by rewrite length_replicate. Qed.

Lemma bget_ok {A} (b : list A) off n :
  0 <= off -> 0 <= n -> off + n <= zlen b ->
  bget b off n = Ret (take (Z.to_nat n) (drop (Z.to_nat off) b)).
Proof.
  intros. unfold bget.
  rewrite (proj2 (Z.leb_le 0 off)), (proj2 (Z.leb_le 0 n)),
    (proj2 (Z.leb_le (off + n) (zlen b))) by lia. done.
Qed.

Lemma bget_whole {A} (b : list A) : bget b 0 (zlen b) = Ret b.
Proof. rewrite bget_ok by (pose proof (zlen_nonneg b); lia). unfold zlen. by rewrite Nat2Z.id, drop_0, firstn_all. Qed.

Lemma bget_inv {A} (b : list A) off n d :
  bget b off n = Ret d ->
  0 <= off /\ 0 <= n /\ off + n <= zlen b /\
  d = take (Z.to_nat n) (drop (Z.to_nat off) b) /\ zlen d = n.
Proof.
  unfold bget. case_if; intros; [|discriminate]. bool_to_prop. cres_inv.
  repeat split; try lia. unfold zlen in *.
  rewrite length_take, length_drop. lia.
Qed.

Lemma bput_ok {A} (b : list A) off d :
  0 <= off -> off + zlen d <= zlen b ->
  bput b off d = Ret (take (Z.to_nat off) b ++ d ++ drop (Z.to_nat off + length d) b).
Proof.
  intros. unfold bput.
  rewrite (proj2 (Z.leb_le 0 off)), (proj2 (Z.leb_le (off + zlen d) (zlen b))) by lia. done.
Qed.

Lemma bput_inv {A} (b : list A) off d b' :
  bput b off d = Ret b' ->
  0 <= off /\ off + zlen d <= zlen b /\
  b' = take (Z.to_nat off) b ++ d ++ drop (Z.to_nat off + length d) b.
Proof.
  unfold bput. case_if; intros; [|discriminate]. bool_to_prop. cres_inv. repeat split; lia.
Qed.

(** A write keeps the size of the object. *)
Lemma bput_zlen {A} (b : list A) off d b' : bput b off d = Ret b' -> zlen b' = zlen b.
Proof.
  intros (H0 & H1 & ->)%bput_inv. unfold zlen in *.
  rewrite !length_app, length_take, length_drop. lia.
Qed.

(** Reading back what was written. *)
Lemma bget_bput_same {A} (b : list A) off d b' :
  bput b off d = Ret b' -> bget b' off (zlen d) = Ret d.
Proof.
  intros H. pose proof (bput_zlen _ _ _ _ H). apply bput_inv in H as (H1 & H2 & ->).
  rewrite bget_ok by (auto using zlen_nonneg; lia). f_equal.
  unfold zlen in *. rewrite drop_app_ge; rewrite length_take; [|lia].
  replace (Z.to_nat off - Z.to_nat off `min` length b)%nat with 0%nat by lia.
  rewrite drop_0, take_app_le by lia. apply take_ge. lia.
Qed.

(** A read before the written area is not affected. *)
Lemma bget_bput_before {A} (b : list A) off d b' o n :
  bput b off d = Ret b' -> 0 <= o -> 0 <= n -> o + n <= off -> bget b' o n = bget b o n.
Proof.
  intros H Ho Hn Hle. pose proof (bput_zlen _ _ _ _ H) as Hlen.
  apply bput_inv in H as (H1 & H2 & ->).
  pose proof (zlen_nonneg d).
  rewrite !bget_ok by lia. f_equal. unfold zlen in *.
  rewrite drop_app_le by (rewrite length_take; lia).
  rewrite take_app_le by (rewrite length_drop, length_take; lia).
  rewrite skipn_firstn_comm, take_take. f_equal. lia.
Qed.

(** A read after the written area is not affected. *)
Lemma bget_bput_after {A} (b : list A) off d b' o n :
  bput b off d = Ret b' -> 0 <= n -> off + zlen d <= o -> bget b' o n = bget b o n.
Proof.
  intros H Hn Hle. pose proof (bput_zlen _ _ _ _ H) as Hlen.
  apply bput_inv in H as (H1 & H2 & ->).
  unfold bget. rewrite Hlen. case_if; [|done]. bool_to_prop. f_equal. f_equal.
  unfold zlen in *. rewrite drop_app_ge; rewrite length_take; [|lia].
  rewrite drop_app_ge by lia. rewrite drop_drop. f_equal. lia.
Qed.

(** Writing over the middle of a buffer. *)
Lemma bput_mid {A} (a b c d : list A) off : off = zlen a -> zlen d = zlen b -> bput (a ++ b ++ c) off d = Ret (a ++ d ++ c).
Proof.
  intros -> Hd. pose proof (zlen_nonneg c). rewrite bput_ok by (rewrite ?zlen_app; pose proof (zlen_nonneg a); lia). unfold zlen in *. rewrite Nat2Z.id.
  rewrite take_app_length, <- drop_drop, drop_app_length. do 3 f_equal. replace (length d) with (length b) by lia. by rewrite drop_app_length.
Qed.

(** Writing right after a known prefix. *)
Lemma bput_append {A} (b : list A) off d b' pre :
  bput b off d = Ret b' -> off = zlen pre -> take (length pre) b = pre ->
  take (length (pre ++ d)) b' = pre ++ d.
Proof.
  intros (H0 & H1 & ->)%bput_inv -> Hp. unfold zlen in *. rewrite Nat2Z.id.
  rewrite length_app, Hp, app_assoc, take_app_le by (rewrite length_app; lia).
  apply take_ge. rewrite length_app. lia.
Qed.

Lemma aget_ok {A} (a : list A) i x : 0 <= i -> a !! Z.to_nat i = Some x -> aget a i = Ret x.
Proof.
  intros Hi Ha. unfold aget. rewrite (proj2 (Z.leb_le 0 i)) by lia. by rewrite Ha.
Qed.

Lemma aget_oob {A} (a : list A) i : zlen a <= i -> aget a i = Trap FOob.
Proof.
  intros. unfold aget. pose proof (zlen_nonneg a).
  rewrite (proj2 (Z.leb_le 0 i)) by lia.
  rewrite lookup_ge_None_2; [done|]. unfold zlen in *. lia.
Qed.

Lemma aset_ok {A} (a : list A) i x :
  0 <= i < zlen a -> aset a i x = Ret (<[Z.to_nat i := x]> a).
Proof.
  intros. unfold aset. rewrite (proj2 (Z.leb_le 0 i)), (proj2 (Z.ltb_lt i _)) by lia. done.
Qed.

Lemma aset_oob {A} (a : list A) i x : zlen a <= i -> aset a i x = Trap FOob.
Proof.
  intros. unfold aset. rewrite (proj2 (Z.ltb_ge i _)) by lia. by rewrite andb_false_r.
Qed.

Lemma zlen_insert {A} (a : list A) i x : zlen (<[i := x]> a) = zlen a.
Proof. unfold zlen. by rewrite length_insert. Qed.

Lemma aget_lt {A} (tab : list A) i : 0 <= i < zlen tab -> exists x, aget tab i = Ret x.
Proof.
  intros Hi. destruct (lookup_lt_is_Some_2 tab (Z.to_nat i)) as [x Hx]; [unfold zlen in *; lia|].
  exists x. apply aget_ok; [lia|done].
Qed.

(** Octets right behind a known prefix. *)
Lemma put_octet_app A x C v i : i = zlen A ->
  put_octet (A ++ x :: C) i v = Ret (A ++ byte.of_Z (u8 v) :: C).
Proof.
  intros ->. unfold put_octet. rewrite aset_ok by (unfold zlen; rewrite length_app; cbn; lia).
  unfold zlen. rewrite Nat2Z.id. f_equal. by rewrite insert_app_r_alt, Nat.sub_diag by lia.
Qed.

Lemma octet_app A x C i : i = zlen A -> octet (A ++ x :: C) i = Ret (byte.unsigned x).
Proof.
  intros ->. unfold octet. rewrite (aget_ok _ _ x); [done|apply zlen_nonneg|].
  unfold zlen. rewrite Nat2Z.id. by rewrite lookup_app_r, Nat.sub_diag by lia.
Qed.

Lemma zlen_fmap {A B} (f : A -> B) (l : list A) : zlen (f <$> l) = zlen l.
Proof. unfold zlen. by rewrite length_fmap. Qed.

(** Octets of a coded prefix. *)
Lemma octet_enc l data i x : l !! i = Some x -> 0 <= x < 256 ->
  octet ((byte.of_Z <$> l) ++ data) (Z.of_nat i) = Ret x.
Proof.
  intros Hl Hx. unfold octet. rewrite (aget_ok _ _ (byte.of_Z x)).
  - cbn [mbind cres_bind]. f_equal. rewrite byte.unsigned_of_Z. unfold byte.wrap. apply Z.mod_small. lia.
  - lia.
  - rewrite Nat2Z.id, lookup_app_l by (rewrite length_fmap; by eapply lookup_lt_Some).
    by rewrite list_lookup_fmap, Hl.
Qed.

Lemma enc_octet_at pre l data k x : l !! k = Some x -> 0 <= x < 256 ->
  octet ((byte.of_Z <$> pre ++ l) ++ data) (zlen pre + Z.of_nat k) = Ret x.
Proof.
  intros Hl Hx. unfold zlen. rewrite <- Nat2Z.inj_add. apply octet_enc; [|done].
  rewrite lookup_app_r by lia. by replace (length pre + k - length pre)%nat with k by lia.
Qed.

#[export] Hint Resolve zlen_nonneg @bget_bput_same : c_mem.
#[export] Hint Rewrite @zlen_insert @zlen_app zlen_zeros : c_mem.

(** ** Loops *)

Lemma for_each_app {A S} (body : A -> S -> cres S) l1 l2 s :
  for_each body (l1 ++ l2) s = (for_each body l1 s ≫= for_each body l2).
Proof.
  revert s. induction l1 as [|x l1 IH]; intros s; simpl; [done|].
  destruct (body x s); simpl; [apply IH|done].
Qed.

(** An invariant of the body is an invariant of the loop. *)
Lemma for_each_inv {A S} (P : S -> Prop) (body : A -> S -> cres S) l s s' :
  (forall x s1 s2, x ∈ l -> P s1 -> body x s1 = Ret s2 -> P s2) ->
  P s -> for_each body l s = Ret s' -> P s'.
Proof.
  revert s. induction l as [|x l IH]; simpl; intros s Hb Hs H; [by cres_inv|].
  destruct (body x s) as [s1|] eqn:E; simpl in H; [|discriminate].
  eapply IH; [|eapply Hb; [| exact Hs | exact E]|exact H]; [|set_solver].
  intros; eapply Hb; [|eassumption..]. set_solver.
Qed.

(** ** Ranges *)

Lemma zrange_S a n : zrange a (S n) = a :: zrange (a + 1) n.
Proof. unfold zrange. rewrite seqZ_cons by lia. f_equal. f_equal; lia. Qed.

Lemma zrange_snoc n : zrange 0 (S n) = zrange 0 n ++ [Z.of_nat n].
Proof.
  unfold zrange. rewrite Nat2Z.inj_succ, <- Z.add_1_r, seqZ_app by lia. f_equal.
Qed.

Lemma length_zrange a n : length (zrange a n) = n.
Proof. unfold zrange. rewrite length_seqZ. lia. Qed.

Lemma elem_of_zrange a n x : x ∈ zrange a n <-> a <= x < a + Z.of_nat n.
Proof. apply elem_of_seqZ. Qed.
