(* ===== verification/SplitProto.v ===== *)
(** The wire protocol of the MAC-RLC split: the packed structures of
    [splits/include/splitproto.h] and the raw codec of
    [splits/proto/raw/proto_raw.c].

    A packed structure is described by the widths of its fields; its image in
    memory is the little-endian concatenation of the fields (the code copies
    the structures as they are in memory, on x86).  [sp_generic_pack] and
    [sp_generic_identify] are the two primitives every function of the file
    goes through.  A pointer into the message buffer is its offset. *)
From stdpp Require Import base list numbers.
From coqutil Require Import Byte Word.LittleEndianList.
From Stdlib Require Import ZArith Lia.
From S2P Require Import Prelude.
Open Scope Z_scope.

(** ** Packed layouts *)

(** Field [v] of width [w] bytes, as its residue. *)
Definition wrap_field (w : nat) (v : Z) : Z := v mod 2 ^ (Z.of_nat w * 8).

Definition enc (ws : list nat) (vs : list Z) : list byte :=
  mjoin (zip_with le_split ws vs).

Fixpoint dec (ws : list nat) (bs : list byte) : list Z :=
  match ws with
  | [] => []
  | w :: ws' => le_combine (take w bs) :: dec ws' (drop w bs)
  end.

(** A C type with a packed memory image.  [fields] are the values of the
    members in order; [of_fields] rebuilds the value from the unsigned values
    read in memory.  The laws say the two are inverse of each other. *)
Class Packed (T : Type) := {
  layout : list nat;
  fields : T -> list Z;
  of_fields : list Z -> T;
  pk_wf : T -> Prop;
  fields_length x : pk_wf x -> length (fields x) = length layout;
  of_fields_fields x : pk_wf x -> of_fields (zip_with wrap_field layout (fields x)) = x;
  pk_wf_of_fields vs :
    length vs = length layout ->
    Forall2 (fun w v => 0 <= v < 2 ^ (Z.of_nat w * 8)) layout vs ->
    pk_wf (of_fields vs) /\ zip_with wrap_field layout (fields (of_fields vs)) = vs;
}.
Arguments layout T {_}.
Arguments pk_wf {T _} x.

Definition sizeof (T : Type) `{Packed T} : Z := Z.of_nat (sum_list (layout T)).
Definition to_bytes {T} `{Packed T} (x : T) : list byte := enc (layout T) (fields x).
Definition of_bytes {T} `{Packed T} (b : list byte) : T := of_fields (dec (layout T) b).

(** Reading a structure through a pointer into [buf]. *)
Definition sload (T : Type) `{Packed T} (buf : list byte) (off : Z) : cres T :=
  of_bytes <$> bget buf off (sizeof T).

(** Writing a structure through a pointer into [buf]. *)
Definition sstore {T} `{Packed T} (buf : list byte) (off : Z) (x : T) : cres (list byte) :=
  bput buf off (to_bytes x).

(** ** The messages *)

(** [enum split_proto_message_types] *)
Definition S_PROTO_INVALID : Z := 0.
Definition S_PROTO_MR_STATUS_DATA_REQ : Z := 1.
Definition S_PROTO_MR_STATUS_DATA_REP : Z := 2.
Definition S_PROTO_MR_DATA_IND : Z := 3.
Definition S_PROTO_MR_RRC_DATA_REQ : Z := 4.
Definition S_PROTO_MR_RRC_DATA_REQ_REP : Z := 5.
Definition S_PROTO_MR_RRC_DATA_IND : Z := 6.

Record sp_head := { type : Z; vers : Z; len : Z }.

Record spmr_ireq := { ireq_rnti : Z; ireq_frame : Z; ireq_channel : Z }.

Record spmr_rrc_ireq := {
  ri_CC_id : Z; ri_rnti : Z; ri_frame : Z; ri_subframe : Z; ri_srb_id : Z }.

Record spmr_sreq_dreq := {
  sreq_rnti : Z; sreq_frame : Z; sreq_channel : Z; sreq_tb_size : Z }.

(** The arrays of [spmr_srep_drep] have one cell per radio bearer. *)
Definition SREP_CELLS : nat := 14.

Record spmr_srep_drep := {
  srep_rnti : Z;
  srep_frame : Z;
  srep_channel : list Z;
  srep_tb_size : list Z;
  srep_bytes : list Z;
  srep_pdus : list Z;
  srep_creation_time : list Z;
  srep_remaining_bytes : list Z;
  srep_segmented : list Z }.

Record spmr_rrc_dreq := { dq_CC_id : Z; dq_frame : Z; dq_srb_id : Z; dq_num_tb : Z }.

Record spmr_rrc_drep := { dp_CC_id : Z; dp_frame : Z; dp_srb_id : Z }.

(** ** Codec lemmas *)

Lemma length_enc ws vs :
  length vs = length ws -> length (enc ws vs) = sum_list ws.
Proof.
  unfold enc. revert vs. induction ws as [|w ws IH]; intros [|v vs] H; simplify_eq/=; [done|].
  rewrite length_app, length_le_split, IH by lia. lia.
Qed.

Lemma dec_enc ws vs :
  length vs = length ws -> dec ws (enc ws vs) = zip_with wrap_field ws vs.
Proof.
  unfold enc. revert vs. induction ws as [|w ws IH]; intros [|v vs] H; simplify_eq/=; [done|].
  rewrite take_app_le, take_ge by (rewrite length_le_split; lia).
  rewrite drop_app_ge by (rewrite length_le_split; lia).
  rewrite length_le_split, Nat.sub_diag, drop_0, IH, le_combine_split by lia. done.
Qed.

Lemma length_dec ws bs : length (dec ws bs) = length ws.
Proof. revert bs. induction ws; intros; simpl; congruence. Qed.

Lemma dec_range ws bs :
  Forall2 (fun w v => 0 <= v < 2 ^ (Z.of_nat w * 8)) ws (dec ws bs).
Proof.
  revert bs. induction ws as [|w ws IH]; intros bs; simpl; constructor; [|apply IH].
  pose proof (le_combine_bound (take w bs)) as H. split; [lia|].
  eapply Z.lt_le_trans; [apply H|]. apply Z.pow_le_mono_r; [lia|].
  rewrite length_take. lia.
Qed.

Lemma le_split_wrap w v : le_split w (wrap_field w v) = le_split w v.
Proof. symmetry. apply le_split_mod. Qed.

Lemma enc_wrap ws vs : enc ws (zip_with wrap_field ws vs) = enc ws vs.
Proof.
  unfold enc. f_equal. revert vs. induction ws as [|w ws IH]; intros [|v vs]; simpl; try done.
  by rewrite le_split_wrap, IH.
Qed.

Lemma enc_dec ws bs : length bs = sum_list ws -> enc ws (dec ws bs) = bs.
Proof.
  unfold enc. revert bs. induction ws as [|w ws IH]; intros bs H; simpl in *.
  { by destruct bs. }
  rewrite IH by (rewrite length_drop; lia).
  rewrite split_le_combine' by (rewrite length_take; lia).
  apply take_drop.
Qed.

Section Packed.
Context {T : Type} `{Packed T}.

Lemma length_to_bytes x : pk_wf x -> zlen (to_bytes x) = sizeof T.
Proof.
  intros Hx. unfold zlen, to_bytes, sizeof. rewrite length_enc; [done|]. by apply fields_length.
Qed.

Lemma of_bytes_to_bytes x : pk_wf x -> of_bytes (to_bytes x) = x.
Proof.
  intros Hx. unfold of_bytes, to_bytes. rewrite dec_enc by (by apply fields_length).
  by apply of_fields_fields.
Qed.

Lemma to_bytes_of_bytes (b : list byte) : zlen b = sizeof T -> to_bytes (of_bytes b : T) = b.
Proof.
  intros Hb. unfold of_bytes, to_bytes, sizeof, zlen in *.
  rewrite <- enc_wrap.
  destruct (pk_wf_of_fields (dec (layout T) b)) as [_ ->];
    [apply length_dec | apply dec_range | apply enc_dec; lia].
Qed.

Lemma pk_wf_of_bytes (b : list byte) : pk_wf (of_bytes b : T).
Proof. apply pk_wf_of_fields; [apply length_dec | apply dec_range]. Qed.

(** A structure that was stored is loaded back. *)
Lemma sload_sstore buf off (x : T) buf' :
  pk_wf x -> sstore buf off x = Ret buf' -> sload T buf' off = Ret x.
Proof.
  intros Hx Hs. unfold sload, sstore in *. rewrite <- (length_to_bytes x Hx).
  rewrite (bget_bput_same _ _ _ _ Hs). simpl. by rewrite of_bytes_to_bytes.
Qed.

Lemma sload_wf buf off (x : T) : sload T buf off = Ret x -> pk_wf x.
Proof.
  unfold sload. destruct (bget buf off (sizeof T)); simpl; intros; cres_inv.
  apply pk_wf_of_bytes.
Qed.

Lemma sload_ok buf off :
  0 <= off -> off + sizeof T <= zlen buf -> exists x : T, sload T buf off = Ret x.
Proof.
  intros. unfold sload. assert (0 <= sizeof T) by (unfold sizeof; lia).
  rewrite bget_ok by lia. simpl. eauto.
Qed.

Lemma sstore_ok buf off (x : T) :
  pk_wf x -> 0 <= off -> off + sizeof T <= zlen buf ->
  exists b, sstore buf off x = Ret b /\ zlen b = zlen buf.
Proof.
  intros. unfold sstore. eexists. split; [apply bput_ok; try rewrite length_to_bytes; auto|].
  eapply bput_zlen. apply bput_ok; try rewrite length_to_bytes; auto.
Qed.
End Packed.

(** ** The instances *)

Definition in_u (w : nat) (v : Z) : Prop := 0 <= v < 2 ^ (Z.of_nat w * 8).
Definition in_i32 (v : Z) : Prop := - 2 ^ 31 <= v < 2 ^ 31.

Lemma wrap_small w v : in_u w v -> wrap_field w v = v.
Proof. apply Z.mod_small. Qed.

Lemma i32_wrap4 v : in_i32 v -> i32 (wrap_field 4 v) = v.
Proof.
  intros H. unfold wrap_field, in_i32 in *. change (Z.of_nat 4 * 8) with 32.
  rewrite i32_mod. apply i32_small. lia.
Qed.

Lemma wrap4_i32 v : in_u 4 v -> wrap_field 4 (i32 v) = v.
Proof.
  intros H. unfold wrap_field, in_u in *. change (Z.of_nat 4 * 8) with 32 in *.
  rewrite mod_i32. apply Z.mod_small. lia.
Qed.

Lemma in_i32_i32 v : in_i32 (i32 v).
Proof. apply i32_range. Qed.

Definition nthZ (vs : list Z) (i : nat) : Z := default 0 (vs !! i).

(** Solves the third law of [Packed] for a structure of scalars. *)
Ltac solve_packed :=
  repeat match goal with
  | H : Forall2 _ (_ :: _) ?l |- _ => inversion H; clear H; subst
  | H : Forall2 _ [] ?l |- _ => inversion H; clear H; subst
  end;
  unfold nthZ; cbn [lookup list_lookup default option_fmap from_option id zip_with];
  split; [repeat split; first [apply in_i32_i32 | unfold in_u in *; simpl in *; lia]|];
  simpl; rewrite ?wrap4_i32, ?wrap_small by (unfold in_u; lia); reflexivity.

#[refine] Global Instance sp_head_packed : Packed sp_head := {|
  layout := [1; 1; 4]%nat;
  fields h := [type h; vers h; len h];
  of_fields vs := {| type := nthZ vs 0; vers := nthZ vs 1; len := nthZ vs 2 |};
  pk_wf h := in_u 1 (type h) /\ in_u 1 (vers h) /\ in_u 4 (len h) |}.
Proof.
  - intros [] ?; reflexivity.
  - intros [? ? ?] (? & ? & ?). simpl in *. rewrite !wrap_small by done. done.
  - intros vs _ H. solve_packed.
Defined.

#[refine] Global Instance spmr_ireq_packed : Packed spmr_ireq := {|
  layout := [2; 4; 4]%nat;
  fields h := [ireq_rnti h; ireq_frame h; ireq_channel h];
  of_fields vs := {| ireq_rnti := nthZ vs 0; ireq_frame := nthZ vs 1;
                     ireq_channel := nthZ vs 2 |};
  pk_wf h := in_u 2 (ireq_rnti h) /\ in_u 4 (ireq_frame h) /\ in_u 4 (ireq_channel h) |}.
Proof.
  - intros [] ?; reflexivity.
  - intros [? ? ?] (? & ? & ?). simpl in *. rewrite !wrap_small by done. done.
  - intros vs _ H. solve_packed.
Defined.

#[refine] Global Instance spmr_rrc_ireq_packed : Packed spmr_rrc_ireq := {|
  layout := [4; 2; 4; 4; 2]%nat;
  fields h := [ri_CC_id h; ri_rnti h; ri_frame h; ri_subframe h; ri_srb_id h];
  of_fields vs := {| ri_CC_id := i32 (nthZ vs 0); ri_rnti := nthZ vs 1;
                     ri_frame := nthZ vs 2; ri_subframe := nthZ vs 3;
                     ri_srb_id := nthZ vs 4 |};
  pk_wf h := in_i32 (ri_CC_id h) /\ in_u 2 (ri_rnti h) /\ in_u 4 (ri_frame h) /\
             in_u 4 (ri_subframe h) /\ in_u 2 (ri_srb_id h) |}.
Proof.
  - intros [] ?; reflexivity.
  - intros [? ? ? ? ?] (? & ? & ? & ? & ?). simpl in *.
    unfold nthZ; simpl. rewrite i32_wrap4, !wrap_small by done. done.
  - intros vs _ H. solve_packed.
Defined.

#[refine] Global Instance spmr_sreq_dreq_packed : Packed spmr_sreq_dreq := {|
  layout := [2; 4; 4; 4]%nat;
  fields h := [sreq_rnti h; sreq_frame h; sreq_channel h; sreq_tb_size h];
  of_fields vs := {| sreq_rnti := nthZ vs 0; sreq_frame := nthZ vs 1;
                     sreq_channel := nthZ vs 2; sreq_tb_size := nthZ vs 3 |};
  pk_wf h := in_u 2 (sreq_rnti h) /\ in_u 4 (sreq_frame h) /\ in_u 4 (sreq_channel h) /\
             in_u 4 (sreq_tb_size h) |}.
Proof.
  - intros [] ?; reflexivity.
  - intros [? ? ? ?] (? & ? & ? & ?). simpl in *. rewrite !wrap_small by done. done.
  - intros vs _ H. solve_packed.
Defined.

#[refine] Global Instance spmr_rrc_dreq_packed : Packed spmr_rrc_dreq := {|
  layout := [4; 4; 2; 1]%nat;
  fields h := [dq_CC_id h; dq_frame h; dq_srb_id h; dq_num_tb h];
  of_fields vs := {| dq_CC_id := i32 (nthZ vs 0); dq_frame := nthZ vs 1;
                     dq_srb_id := nthZ vs 2; dq_num_tb := nthZ vs 3 |};
  pk_wf h := in_i32 (dq_CC_id h) /\ in_u 4 (dq_frame h) /\ in_u 2 (dq_srb_id h) /\
             in_u 1 (dq_num_tb h) |}.
Proof.
  - intros [] ?; reflexivity.
  - intros [? ? ? ?] (? & ? & ? & ?). simpl in *.
    unfold nthZ; simpl. rewrite i32_wrap4, !wrap_small by done. done.
  - intros vs _ H. solve_packed.
Defined.

#[refine] Global Instance spmr_rrc_drep_packed : Packed spmr_rrc_drep := {|
  layout := [4; 4; 2]%nat;
  fields h := [dp_CC_id h; dp_frame h; dp_srb_id h];
  of_fields vs := {| dp_CC_id := i32 (nthZ vs 0); dp_frame := nthZ vs 1;
                     dp_srb_id := nthZ vs 2 |};
  pk_wf h := in_i32 (dp_CC_id h) /\ in_u 4 (dp_frame h) /\ in_u 2 (dp_srb_id h) |}.
Proof.
  - intros [] ?; reflexivity.
  - intros [? ? ?] (? & ? & ?). simpl in *.
    unfold nthZ; simpl. rewrite i32_wrap4, !wrap_small by done. done.
  - intros vs _ H. solve_packed.
Defined.

(** An array member of [SREP_CELLS] cells. *)
Definition arr_u32 (vs : list Z) : Prop := length vs = SREP_CELLS /\ Forall (in_u 4) vs.
Definition arr_i32 (vs : list Z) : Prop := length vs = SREP_CELLS /\ Forall in_i32 vs.

Lemma zip_wrap_replicate n vs :
  length vs = n -> zip_with wrap_field (replicate n 4%nat) vs = wrap_field 4 <$> vs.
Proof.
  revert vs. induction n as [|n IH]; intros [|v vs] H; simplify_eq/=; [done|].
  by rewrite IH.
Qed.

Lemma fmap_wrap_small vs : Forall (in_u 4) vs -> wrap_field 4 <$> vs = vs.
Proof. induction 1; csimpl; [done|]. by rewrite wrap_small, IHForall. Qed.

Lemma fmap_i32_wrap vs : Forall in_i32 vs -> i32 <$> (wrap_field 4 <$> vs) = vs.
Proof. induction 1; csimpl; [done|]. by rewrite i32_wrap4, IHForall. Qed.

Lemma fmap_wrap_i32 vs : Forall (in_u 4) vs -> wrap_field 4 <$> (i32 <$> vs) = vs.
Proof. induction 1; csimpl; [done|]. by rewrite wrap4_i32, IHForall. Qed.

Lemma Forall2_replicate_l_inv {A B} (P : A -> B -> Prop) n x l :
  Forall2 P (replicate n x) l -> length l = n /\ Forall (P x) l.
Proof.
  revert l. induction n as [|n IH]; intros l H; inversion H; subst; [done|].
  edestruct IH; [eassumption|]. split; [simpl; lia|by constructor].
Qed.

(** The [k]-th array of the body of a reply. *)
Definition cells (vs : list Z) (k : nat) : list Z := take SREP_CELLS (drop (2 + k * SREP_CELLS) vs).

Definition srep_body (x : spmr_srep_drep) : list Z :=
  srep_channel x ++ srep_tb_size x ++ srep_bytes x ++ srep_pdus x ++
  srep_creation_time x ++ srep_remaining_bytes x ++ srep_segmented x.

Definition srep_of_fields (vs : list Z) : spmr_srep_drep := {|
  srep_rnti := nthZ vs 0;
  srep_frame := nthZ vs 1;
  srep_channel := cells vs 0;
  srep_tb_size := cells vs 1;
  srep_bytes := i32 <$> cells vs 2;
  srep_pdus := cells vs 3;
  srep_creation_time := cells vs 4;
  srep_remaining_bytes := cells vs 5;
  srep_segmented := cells vs 6 |}.

Definition srep_wf (x : spmr_srep_drep) : Prop :=
  in_u 2 (srep_rnti x) /\ in_u 4 (srep_frame x) /\
  arr_u32 (srep_channel x) /\ arr_u32 (srep_tb_size x) /\ arr_i32 (srep_bytes x) /\
  arr_u32 (srep_pdus x) /\ arr_u32 (srep_creation_time x) /\
  arr_u32 (srep_remaining_bytes x) /\ arr_u32 (srep_segmented x).

Lemma cells_length vs k :
  length vs = 100%nat -> (k < 7)%nat -> length (cells vs k) = SREP_CELLS.
Proof.
  intros. unfold cells, SREP_CELLS in *. rewrite length_take, length_drop. lia.
Qed.

(** Splits a list of length [n] into its elements. *)
Tactic Notation "explode" int_or_var(n) hyp(l) :=
  match goal with
  | H : length l = _ |- _ =>
      do n (destruct l as [|? l]; [discriminate H|]); destruct l; [clear H|discriminate H]
  end.

Lemma cells_join vs :
  length vs = 100%nat ->
  vs = nthZ vs 0 :: nthZ vs 1 :: cells vs 0 ++ cells vs 1 ++ cells vs 2 ++ cells vs 3 ++
       cells vs 4 ++ cells vs 5 ++ cells vs 6.
Proof.
  intros H. explode 100 vs. reflexivity.
Qed.

Lemma srep_body_length x : srep_wf x -> length (srep_body x) = 98%nat.
Proof.
  intros (_ & _ & [? _] & [? _] & [? _] & [? _] & [? _] & [? _] & [? _]).
  unfold srep_body, SREP_CELLS in *. rewrite !length_app. lia.
Qed.

Lemma srep_law1 x :
  srep_wf x ->
  srep_of_fields (zip_with wrap_field ([2; 4] ++ replicate 98 4)%nat
    (srep_rnti x :: srep_frame x :: srep_body x)) = x.
Proof.
  intros Hx. pose proof (srep_body_length x Hx) as Hb.
  destruct Hx as (Hr & Hf & [L0 ?] & [L1 ?] & [L2 ?] & [L3 ?] & [L4 ?] & [L5 ?] & [L6 ?]).
  cbn [app zip_with]. rewrite zip_wrap_replicate by done.
  rewrite !wrap_small by done. unfold srep_body.
  rewrite !fmap_app, (fmap_wrap_small (srep_channel x)), (fmap_wrap_small (srep_tb_size x)),
    (fmap_wrap_small (srep_pdus x)), (fmap_wrap_small (srep_creation_time x)),
    (fmap_wrap_small (srep_remaining_bytes x)), (fmap_wrap_small (srep_segmented x)) by done.
  assert (L2' : length (wrap_field 4 <$> srep_bytes x) = SREP_CELLS) by by rewrite length_fmap.
  destruct x as [r f c0 c1 c2 c3 c4 c5 c6]; cbn [srep_rnti srep_frame srep_channel
    srep_tb_size srep_bytes srep_pdus srep_creation_time srep_remaining_bytes
    srep_segmented] in *.
  transitivity (Build_spmr_srep_drep r f c0 c1 (i32 <$> (wrap_field 4 <$> c2)) c3 c4 c5 c6);
    [|by rewrite fmap_i32_wrap].
  revert L2'. generalize (wrap_field 4 <$> c2) as w. intros w L2'.
  explode 14 c0. explode 14 c1. explode 14 w. explode 14 c3. explode 14 c4. explode 14 c5. explode 14 c6.
  reflexivity.
Qed.

Lemma srep_law2 vs :
  length vs = 100%nat -> Forall2 (fun w v => 0 <= v < 2 ^ (Z.of_nat w * 8))
    ([2; 4] ++ replicate 98 4)%nat vs ->
  srep_wf (srep_of_fields vs) /\
  zip_with wrap_field ([2; 4] ++ replicate 98 4)%nat
    (srep_rnti (srep_of_fields vs) :: srep_frame (srep_of_fields vs) ::
     srep_body (srep_of_fields vs)) = vs.
Proof.
  intros Hl H. cbn [app] in H.
  apply Forall2_cons_inv_l in H as (r & vs1 & Hr & H1 & ->).
  apply Forall2_cons_inv_l in H1 as (f & vs2 & Hf & H2 & ->).
  apply Forall2_replicate_l_inv in H2 as [Hl2 H2].
  assert (Hc : forall k, (k < 7)%nat -> arr_u32 (cells (r :: f :: vs2) k)).
  { intros k Hk. split; [by apply cells_length|]. unfold cells.
    apply Forall_take. cbn [drop Nat.add]. by apply Forall_drop. }
  split.
  { unfold srep_wf, srep_of_fields; cbn [srep_rnti srep_frame srep_channel
      srep_tb_size srep_bytes srep_pdus srep_creation_time srep_remaining_bytes srep_segmented].
    repeat (split; [first [exact Hr | exact Hf | apply Hc; lia |
      split; [rewrite length_fmap; apply Hc; lia | apply Forall_fmap, Forall_true;
              intros; apply in_i32_i32]]|]). apply Hc; lia. }
  cbn [app zip_with]. rewrite zip_wrap_replicate.
  2: { unfold srep_body, srep_of_fields; cbn [srep_rnti srep_frame srep_channel
      srep_tb_size srep_bytes srep_pdus srep_creation_time srep_remaining_bytes srep_segmented].
    rewrite !length_app, !length_fmap, !cells_length; [reflexivity|done|lia..]. }
  unfold srep_body; rewrite !fmap_app; cbn [srep_rnti srep_frame srep_channel srep_of_fields
    srep_tb_size srep_bytes srep_pdus srep_creation_time srep_remaining_bytes srep_segmented].
  rewrite fmap_wrap_i32, !fmap_wrap_small by (apply Hc; lia).
  rewrite !wrap_small by done. symmetry. by apply cells_join.
Qed.

#[refine] Global Instance spmr_srep_drep_packed : Packed spmr_srep_drep := {|
  layout := ([2; 4] ++ replicate 98 4)%nat;
  fields x := srep_rnti x :: srep_frame x :: srep_body x;
  of_fields := srep_of_fields;
  pk_wf := srep_wf |}.
Proof.
  - intros x Hx. cbn [length app]. rewrite srep_body_length by done. reflexivity.
  - apply srep_law1.
  - intros vs Hl. by apply srep_law2.
Defined.

(** ** The codec functions of [proto_raw.c] *)

Definition sp_generic_pack (data : list byte) (off data_len : Z) (buf : list byte) (len : Z)
  : cres (Z * list byte) :=
  if len <? u32 (off + data_len) then Ret (-1, buf)
  else
    d ← bget data 0 data_len;
    buf' ← bput buf off d;
    Ret (i32 (off + data_len), buf').

(** The pointer that is set is the offset of the structure in the buffer. *)
Definition sp_generic_identify (off : Z) (buf : list byte) (len : Z) : Z * option Z :=
  if len <? off then (-1, None) else (0, Some off).

Definition sp_pack_head (head : sp_head) (buf : list byte) (len : Z) : cres (Z * list byte) :=
  sp_generic_pack (to_bytes head) 0 (sizeof sp_head) buf len.
Definition sp_identify_head (buf : list byte) (len : Z) : Z * option Z :=
  sp_generic_identify 0 buf len.

Definition sp_mr_pack_ireq (ireq : spmr_ireq) (buf : list byte) (len : Z)
  : cres (Z * list byte) :=
  sp_generic_pack (to_bytes ireq) (sizeof sp_head) (sizeof spmr_ireq) buf len.
Definition sp_mr_identify_ireq (buf : list byte) (len : Z) : Z * option Z :=
  sp_generic_identify (sizeof sp_head) buf len.

Definition sp_mr_pack_sreq_dreq (sreq_dreq : spmr_sreq_dreq) (buf : list byte) (len : Z)
  : cres (Z * list byte) :=
  sp_generic_pack (to_bytes sreq_dreq) (sizeof sp_head) (sizeof spmr_sreq_dreq) buf len.
Definition sp_mr_identify_sreq_dreq (buf : list byte) (len : Z) : Z * option Z :=
  sp_generic_identify (sizeof sp_head) buf len.

Definition sp_mr_pack_srep_drep (srep_drep : spmr_srep_drep) (buf : list byte) (len : Z)
  : cres (Z * list byte) :=
  sp_generic_pack (to_bytes srep_drep) (sizeof sp_head) (sizeof spmr_srep_drep) buf len.
Definition sp_mr_identify_srep_drep (buf : list byte) (len : Z) : Z * option Z :=
  sp_generic_identify (sizeof sp_head) buf len.

Definition sp_mr_pack_rrc_dreq (rrc_dreq : spmr_rrc_dreq) (buf : list byte) (len : Z)
  : cres (Z * list byte) :=
  sp_generic_pack (to_bytes rrc_dreq) (sizeof sp_head) (sizeof spmr_rrc_dreq) buf len.
Definition sp_mr_identify_rrc_dreq (buf : list byte) (len : Z) : Z * option Z :=
  sp_generic_identify (sizeof sp_head) buf len.

Definition sp_mr_pack_rrc_drep (rrc_drep : spmr_rrc_drep) (buf : list byte) (len : Z)
  : cres (Z * list byte) :=
  sp_generic_pack (to_bytes rrc_drep) (sizeof sp_head) (sizeof spmr_rrc_drep) buf len.
Definition sp_mr_identify_rrc_drep (buf : list byte) (len : Z) : Z * option Z :=
  sp_generic_identify (sizeof sp_head) buf len.

Definition sp_mr_pack_rrc_ireq (rrc_ireq : spmr_rrc_ireq) (buf : list byte) (len : Z)
  : cres (Z * list byte) :=
  sp_generic_pack (to_bytes rrc_ireq) (sizeof sp_head) (sizeof spmr_rrc_ireq) buf len.
Definition sp_mr_identify_rrc_ireq (buf : list byte) (len : Z) : Z * option Z :=
  sp_generic_identify (sizeof sp_head) buf len.

(** ** Lemmas on the codec functions *)

Lemma sizeof_values :
  sizeof sp_head = 6 /\ sizeof spmr_ireq = 10 /\ sizeof spmr_rrc_ireq = 16 /\
  sizeof spmr_sreq_dreq = 14 /\ sizeof spmr_srep_drep = 398 /\
  sizeof spmr_rrc_dreq = 11 /\ sizeof spmr_rrc_drep = 10.
Proof. repeat split. Qed.

Section Codec.
Context {T : Type} `{Packed T}.

Lemma sp_generic_pack_store (x : T) off buf len :
  pk_wf x -> 0 <= off -> off + sizeof T <= len -> len < 2 ^ 31 ->
  sp_generic_pack (to_bytes x) off (sizeof T) buf len =
  (b ← sstore buf off x; Ret (off + sizeof T, b)).
Proof.
  intros Hx Ho Hle Hlen. unfold sp_generic_pack, sstore.
  assert (0 <= sizeof T) by (unfold sizeof; lia).
  rewrite u32_small by lia. rewrite (proj2 (Z.ltb_ge _ _)) by lia.
  rewrite i32_small by lia.
  pose proof (length_to_bytes x Hx) as Hl.
  rewrite bget_ok by lia. simpl.
  rewrite take_ge; [done|]. rewrite drop_0. unfold zlen in Hl. lia.
Qed.

Lemma sp_generic_pack_refused (x : T) off buf len :
  0 <= off -> off + sizeof T < 2 ^ 32 -> len < off + sizeof T ->
  sp_generic_pack (to_bytes x) off (sizeof T) buf len = Ret (-1, buf).
Proof.
  intros. unfold sp_generic_pack.
  assert (0 <= sizeof T) by (unfold sizeof; lia).
  rewrite u32_small by lia. by rewrite (proj2 (Z.ltb_lt _ _)) by lia.
Qed.

End Codec.

Lemma head_wf t n : 0 <= t < 256 -> pk_wf {| type := t; vers := 1; len := u32 n |}.
Proof. intros. split_and!; [done|done|apply u32_range]. Qed.

(** A message is a header, a structure and a payload; this is what the three
    writes [sp_pack_head], [sp_mr_pack_*] and [memcpy] leave in the buffer. *)
Definition wire {T} `{Packed T} (head : sp_head) (x : T) (data : list byte) : list byte :=
  to_bytes head ++ to_bytes x ++ data.

Lemma wire_zlen {T} `{Packed T} head (x : T) data :
  pk_wf head -> pk_wf x -> zlen (wire head x data) = 6 + sizeof T + zlen data.
Proof.
  intros. unfold wire. rewrite !zlen_app, !length_to_bytes by done.
  change (sizeof sp_head) with 6. lia.
Qed.

Lemma pack_message {T} `{Packed T} head (x : T) data buf n :
  pk_wf head -> pk_wf x -> n = zlen buf -> n < 2 ^ 31 ->
  6 + sizeof T + zlen data <= n ->
  exists b1 b2 b3,
    sp_pack_head head buf n = Ret (6, b1) /\
    sp_generic_pack (to_bytes x) (sizeof sp_head) (sizeof T) b1 n = Ret (6 + sizeof T, b2) /\
    bput b2 (6 + sizeof T) data = Ret b3 /\ zlen b3 = zlen buf /\
    take (length (wire head x data)) b3 = wire head x data.
Proof.
  intros Hh Hx -> Hn Hle. pose proof (zlen_nonneg data).
  assert (0 <= sizeof T) by (unfold sizeof; lia).
  change (sizeof sp_head) with 6.
  destruct (sstore_ok buf 0 head) as (b1 & E1 & L1);
    [done|lia|change (sizeof sp_head) with 6; lia|].
  destruct (sstore_ok b1 6 x) as (b2 & E2 & L2); [done|lia|lia|].
  pose proof (bput_ok b2 (6 + sizeof T) data) as E3.
  specialize (E3 ltac:(lia) ltac:(lia)).
  exists b1, b2. eexists. split_and!; [| |exact E3| |].
  - unfold sp_pack_head.
    rewrite sp_generic_pack_store by (done || (change (sizeof sp_head) with 6; lia)).
    by rewrite E1.
  - rewrite sp_generic_pack_store by (done || lia). by rewrite E2.
  - rewrite (bput_zlen _ _ _ _ E3). lia.
  - unfold sstore in *. unfold wire. rewrite app_assoc.
    eapply bput_append; [exact E3| |].
    { rewrite zlen_app, !length_to_bytes by done. done. }
    eapply bput_append; [exact E2| |].
    { by rewrite length_to_bytes. }
    apply (bput_append _ _ _ _ [] E1); done.
Qed.

(** Reading a message that starts the buffer [b]. *)
Lemma sload_wire_head {T} `{Packed T} head (x : T) data b :
  pk_wf head -> take (length (wire head x data)) b = wire head x data ->
  sload sp_head b 0 = Ret head.
Proof.
  intros Hh Ht. rewrite <- (take_drop (length (wire head x data)) b), Ht.
  unfold wire, sload. rewrite <- !app_assoc.
  pose proof (length_to_bytes head Hh) as Hl. rewrite <- Hl.
  pose proof (zlen_nonneg (to_bytes head)). pose proof (zlen_nonneg (to_bytes x)).
  pose proof (zlen_nonneg data).
  pose proof (zlen_nonneg (drop (length (to_bytes head ++ to_bytes x ++ data)) b)).
  rewrite bget_ok by (rewrite ?zlen_app; lia).
  cbn [fmap cres_fmap]. unfold zlen. rewrite Nat2Z.id. change (Z.to_nat 0) with 0%nat.
  rewrite drop_0, take_app_le, take_ge by lia.
  by rewrite of_bytes_to_bytes.
Qed.

Lemma sload_wire_body {T} `{Packed T} head (x : T) data b :
  pk_wf head -> pk_wf x -> take (length (wire head x data)) b = wire head x data ->
  sload T b 6 = Ret x.
Proof.
  intros Hh Hx Ht. rewrite <- (take_drop (length (wire head x data)) b), Ht.
  unfold wire, sload. rewrite <- !app_assoc.
  pose proof (length_to_bytes head Hh) as Hl. pose proof (length_to_bytes x Hx) as Hl2.
  change (sizeof sp_head) with 6 in Hl. rewrite <- Hl, <- Hl2.
  pose proof (zlen_nonneg (to_bytes head)). pose proof (zlen_nonneg (to_bytes x)).
  pose proof (zlen_nonneg data).
  pose proof (zlen_nonneg (drop (length (to_bytes head ++ to_bytes x ++ data)) b)).
  rewrite bget_ok by (rewrite ?zlen_app; lia).
  cbn [fmap cres_fmap]. unfold zlen. rewrite !Nat2Z.id.
  rewrite drop_app_ge, Nat.sub_diag, drop_0, take_app_le, take_ge by lia.
  by rewrite of_bytes_to_bytes.
Qed.

(** The bytes [o, o+n) of the payload of a message that starts the buffer. *)
Lemma bget_wire_data {T} `{Packed T} head (x : T) data b o n :
  pk_wf head -> pk_wf x -> take (length (wire head x data)) b = wire head x data ->
  0 <= o -> 0 <= n -> o + n <= zlen data ->
  bget b (6 + sizeof T + o) n = bget data o n.
Proof.
  intros Hh Hx Ht Ho Hn Hle. pose proof (wire_zlen head x data Hh Hx) as Hw.
  assert (0 <= sizeof T) by (unfold sizeof; lia).
  assert (Hb : zlen (wire head x data) <= zlen b).
  { apply (f_equal length) in Ht. rewrite length_take in Ht. unfold zlen. lia. }
  rewrite !bget_ok by lia. f_equal.
  rewrite <- (take_drop (length (wire head x data)) b), Ht.
  unfold zlen in *.
  rewrite drop_app_le by lia. rewrite take_app_le by (rewrite length_drop; lia).
  unfold wire. rewrite app_assoc, drop_app_ge.
  - do 2 f_equal. rewrite length_app.
    pose proof (length_to_bytes head Hh). pose proof (length_to_bytes x Hx).
    change (sizeof sp_head) with 6 in *. unfold zlen in *. lia.
  - rewrite length_app.
    pose proof (length_to_bytes head Hh). pose proof (length_to_bytes x Hx).
    change (sizeof sp_head) with 6 in *. unfold zlen in *. lia.
Qed.

(** ** Properties *)

(** C16: round trip of a message.  For every message structure, packing the header, the
    structure and a payload into a buffer where they fit succeeds, and the receiver of the
    buffer identifies the header and the structure at their offsets, reads back the same
    values, and finds the payload behind them. *)
Theorem message_round_trip {T} `{Packed T} head (x : T) data buf :
  pk_wf head -> pk_wf x -> zlen buf < 2 ^ 31 -> 6 + sizeof T + zlen data <= zlen buf ->
  exists b1 b2 b3,
    sp_pack_head head buf (zlen buf) = Ret (6, b1) /\
    sp_generic_pack (to_bytes x) (sizeof sp_head) (sizeof T) b1 (zlen buf) = Ret (6 + sizeof T, b2) /\
    bput b2 (6 + sizeof T) data = Ret b3 /\
    sp_identify_head b3 (zlen b3) = (0, Some 0) /\ sload sp_head b3 0 = Ret head /\
    sp_generic_identify (sizeof sp_head) b3 (zlen b3) = (0, Some 6) /\ sload T b3 6 = Ret x /\
    bget b3 (6 + sizeof T) (zlen data) = Ret data.
Proof.
  intros Hh Hx Hn Hle. destruct (pack_message head x data buf (zlen buf) Hh Hx eq_refl Hn Hle)
    as (b1 & b2 & b3 & E1 & E2 & E3 & L & W).
  pose proof (zlen_nonneg data). assert (0 <= sizeof T) by (unfold sizeof; lia).
  exists b1, b2, b3. split_and!; try done.
  - unfold sp_identify_head, sp_generic_identify. by rewrite (proj2 (Z.ltb_ge _ _)) by lia.
  - by eapply sload_wire_head.
  - unfold sp_generic_identify. change (sizeof sp_head) with 6.
    by rewrite (proj2 (Z.ltb_ge _ _)) by lia.
  - by eapply sload_wire_body.
  - eapply bget_bput_same. exact E3.
Qed.

Definition demo_dreq : spmr_sreq_dreq :=
  of_bytes (le_split 14 123456789012345678901234567).

Lemma message_round_trip_witness :
  exists b1 b2 b3,
    sp_pack_head {| type := S_PROTO_MR_STATUS_DATA_REQ; vers := 1; len := 16 |} (zeros 64) 64 = Ret (6, b1) /\
    sp_mr_pack_sreq_dreq demo_dreq b1 64 = Ret (20, b2) /\
    bput b2 20 [Byte.xff; Byte.x01] = Ret b3 /\
    sload spmr_sreq_dreq b3 6 = Ret demo_dreq /\ bget b3 20 2 = Ret [Byte.xff; Byte.x01].
Proof.
  destruct (message_round_trip {| type := S_PROTO_MR_STATUS_DATA_REQ; vers := 1; len := 16 |}
    demo_dreq [Byte.xff; Byte.x01] (zeros 64)) as (b1 & b2 & b3 & E1 & E2 & E3 & _ & _ & _ & Ex & Ed).
  - apply (head_wf S_PROTO_MR_STATUS_DATA_REQ 16). unfold S_PROTO_MR_STATUS_DATA_REQ. lia.
  - apply pk_wf_of_bytes.
  - vm_compute. reflexivity.
  - vm_compute. discriminate.
  - exists b1, b2, b3. split; [exact E1|]. split; [exact E2|]. split; [exact E3|]. split; [exact Ex|exact Ed].
Defined.

(** The identification functions do not check the structure.  A datagram that holds the
    header and less than a whole status/data reply is identified as a reply, and the handler
    that reads the structure leaves the received bytes. *)
Theorem truncated_reply_identified buf :
  6 <= zlen buf < 6 + sizeof spmr_srep_drep ->
  sp_mr_identify_srep_drep buf (zlen buf) = (0, Some 6) /\ sload spmr_srep_drep buf 6 = Trap FOob.
Proof.
  intros Hl. split.
  - unfold sp_mr_identify_srep_drep, sp_generic_identify. change (sizeof sp_head) with 6.
    by rewrite (proj2 (Z.ltb_ge _ _)) by lia.
  - unfold sload, bget. rewrite (proj2 (Z.leb_gt _ (zlen buf))) by lia. by rewrite andb_false_r.
Qed.

Lemma truncated_reply_identified_witness :
  sp_mr_identify_srep_drep (zeros 10) 10 = (0, Some 6) /\
  sload spmr_srep_drep (zeros 10) 6 = Trap FOob.
Proof.
  apply (truncated_reply_identified (zeros 10)). vm_compute. split; [discriminate|reflexivity].
Defined.
