(* ===== verification/Netw.v ===== *)
(** The network wrapper of the split ([splits/include/netw.h],
    [splits/netw/udp/netw_udp.c]): parsing of the destination, opening of the
    socket, sending and receiving of datagrams.

    The operating system is a parameter: the calls [gethostbyname], [socket],
    [bind], [sendto], [recvfrom] and [close] are the fields of [os].  The
    [sscanf] of the C library is modelled for the one format the code uses. *)
From stdpp Require Import base list numbers.
From coqutil Require Import Byte.
From Stdlib Require Import ZArith Lia.
From S2P Require Import Prelude.
Open Scope Z_scope.

(** ** The operating system *)

Record os := {
  os_gethostbyname : list byte -> option (list byte);
  os_socket : Z;
  os_bind : Z -> Z -> Z;                    (* socket, port *)
  os_sendto : Z -> list byte -> Z -> Z;     (* socket, bytes, flags *)
  os_close : Z -> Z;
}.

(** One datagram handed to the kernel: socket, bytes and flags. *)
Record dgram := { dg_id : Z; dg_data : list byte; dg_flags : Z }.

(** ** Globals of [netw_udp.c] *)

Definition NETW_UDP_MAX_BUF_SIZE : Z := 65507.
Definition NETW_UDP_MAX_DESTINATION : nat := 22.
Definition NETW_FLAG_NO_WAIT : Z := 1.
Definition NETW_FLAG_NO_SIGNALS : Z := 2.
Definition MSG_DONTWAIT : Z := 64.
Definition MSG_NOSIGNAL : Z := 16384.

Record netw := {
  netw_dest : list byte;
  netw_addr : list Z;
  netw_port : Z;
  netw_sin_addr : list byte;             (* netw_senda.sin_addr.s_addr *)
  netw_sin_port : Z;                     (* netw_senda.sin_port, network order *)
}.

Definition netw_init : netw := {|
  netw_dest := zeros NETW_UDP_MAX_DESTINATION;
  netw_addr := [0; 0; 0; 0];
  netw_port := 0;
  netw_sin_addr := zeros 4;
  netw_sin_port := 0 |}.

(** ** The C library: [strchr], [sscanf] *)

Definition ch (b : byte) : Z := byte.unsigned b.
Definition DOT : Z := 46.
Definition COLON : Z := 58.

Fixpoint strchr (s : list byte) (c : Z) : option nat :=
  match s with
  | [] => None
  | b :: s' => if ch b =? c then Some 0%nat else S <$> strchr s' c
  end.

Definition isspace (b : byte) : bool := (ch b =? 32) || ((9 <=? ch b) && (ch b <=? 13)).
Definition isdigit (b : byte) : bool := (48 <=? ch b) && (ch b <=? 57).

Fixpoint skip_space (s : list byte) : list byte :=
  match s with
  | b :: s' => if isspace b then skip_space s' else s
  | [] => []
  end.

(** Decimal digits, with the number of digits read. *)
Fixpoint scan_digits (s : list byte) (acc : Z) (n : nat) : Z * nat * list byte :=
  match s with
  | b :: s' => if isdigit b then scan_digits s' (acc * 10 + (ch b - 48)) (S n) else (acc, n, s)
  | [] => (acc, n, [])
  end.

(** [%d]: the value saturates as a [long] and is stored in an [int]. *)
Definition scan_d (s : list byte) : option (Z * list byte) :=
  let s := skip_space s in
  let '(neg, s) :=
    match s with
    | b :: s' => if ch b =? 45 then (true, s') else if ch b =? 43 then (false, s') else (false, s)
    | [] => (false, [])
    end in
  let '(v, n, s) := scan_digits s 0 0 in
  match n with
  | O => None
  | S _ => Some (i32 (Z.max (- 2 ^ 63) (Z.min (2 ^ 63 - 1) (if neg then - v else v))), s)
  end.

(** A literal character of the format. *)
Definition scan_lit (c : Z) (s : list byte) : option (list byte) :=
  match s with
  | b :: s' => if ch b =? c then Some s' else None
  | [] => None
  end.

(** The rest of the format: a literal then a [%d], as many times as [seps] says. *)
Fixpoint scan_more (seps : list Z) (s : list byte) : list Z :=
  match seps with
  | [] => []
  | c :: seps' =>
      match scan_lit c s with
      | None => []
      | Some s1 =>
          match scan_d s1 with
          | None => []
          | Some (v, s2) => v :: scan_more seps' s2
          end
      end
  end.

(** The values converted by [sscanf(str, "%d.%d.%d.%d:%d", ...)], and its result
    ([EOF] when the input ends before the first conversion). *)
Definition sscanf_addr (s : list byte) : Z * list Z :=
  match scan_d s with
  | None => (match skip_space s with [] => -1 | _ => 0 end, [])
  | Some (v, s1) =>
      let vs := v :: scan_more [DOT; DOT; DOT; COLON] s1 in (zlen vs, vs)
  end.

(** The C string stored in an array. *)
Fixpoint c_string (a : list byte) : cres (list byte) :=
  match a with
  | [] => Trap FOob
  | b :: a' => if ch b =? 0 then Ret [] else s ← c_string a'; Ret (b :: s)
  end.

(** ** The functions of [netw_udp.c] *)

Definition nth_tmp (vs : list Z) (i : nat) : Z := default 0 (vs !! i).

Definition nw_parse_udp (str : list byte) (len : Z) (st : netw) : cres (Z * netw) :=
  match strchr str COLON with
  | None => Trap FNull   (* end - str with end == NULL *)
  | Some k =>
      dest ← memcpy (netw_dest st) 0 str 0 (Z.of_nat k);
      let '(ret, tmp) := sscanf_addr str in
      Ret (ret, {| netw_dest := dest;
                   netw_addr := [i8 (nth_tmp tmp 0); i8 (nth_tmp tmp 1);
                                 i8 (nth_tmp tmp 2); i8 (nth_tmp tmp 3)];
                   netw_port := i16 (nth_tmp tmp 4);
                   netw_sin_addr := netw_sin_addr st;
                   netw_sin_port := netw_sin_port st |})
  end.

Definition nw_close (o : os) (id : Z) : Z := os_close o id.

(** [htons] of a port. *)
Definition htons (p : Z) : Z := let p := u16 p in (p mod 256) * 256 + p / 256.

Definition nw_open (o : os) (dest : option (list byte)) (dest_len : Z) (st : netw)
  : cres (Z * netw) :=
  match dest with
  | None => Ret (-1, st)
  | Some dest =>
      '(n, st) ← nw_parse_udp dest dest_len st;
      if negb (n =? 5) then Ret (-1, st)
      else
        name ← c_string (netw_dest st);
        match os_gethostbyname o name with
        | None => Ret (-1, st)
        | Some h_addr =>
            sin_addr ← memcpy (netw_sin_addr st) 0 h_addr 0 (zlen h_addr);
            let st := {| netw_dest := netw_dest st; netw_addr := netw_addr st;
                         netw_port := netw_port st;
                         netw_sin_addr := sin_addr;
                         netw_sin_port := htons (netw_port st) |} in
            let ret := os_socket o in
            if ret <? 0 then Ret (-1, st)
            else if negb (os_bind o ret (htons (netw_port st)) =? 0) then Ret (-1, st)
            else Ret (ret, st)
        end
  end.

Definition recv_flags (flags : Z) : Z :=
  let f := 0 in
  let f := if negb (Z.land flags NETW_FLAG_NO_WAIT =? 0) then Z.lor f MSG_DONTWAIT else f in
  if negb (Z.land flags NETW_FLAG_NO_SIGNALS =? 0) then Z.lor f MSG_NOSIGNAL else f.

(** [recvfrom] on a datagram socket: an error code, or one datagram, of which the
    bytes that do not fit the buffer are dropped. *)
Inductive recv_result :=
| RecvErr (e : Z)
| RecvData (d : list byte).

Definition nw_recv (r : recv_result) (buf : list byte) (len : Z) : cres (Z * list byte) :=
  match r with
  | RecvErr e => Ret (e, buf)
  | RecvData d =>
      let d := take (Z.to_nat len) d in
      buf' ← bput buf 0 d;
      Ret (zlen d, buf')
  end.

(** The result and the datagram given to the kernel, if any. *)
Definition nw_send (o : os) (id : Z) (buf : list byte) (len : Z) (flags : Z)
  : cres (Z * list dgram) :=
  if NETW_UDP_MAX_BUF_SIZE <? len then Ret (-1, [])
  else
    let f := recv_flags flags in
    d ← bget buf 0 len;
    Ret (os_sendto o id d f, [{| dg_id := id; dg_data := d; dg_flags := f |}]).

(** ** Printed addresses *)

(** The character of a decimal digit. *)
Definition digit (d : Z) : byte := byte.of_Z (48 + d).

(** The decimal digits of a number below [10^n]. *)
Fixpoint print_nat (n : nat) (v : Z) : list byte :=
  match n with
  | O => []
  | S n => if v <? 10 then [digit v] else print_nat n (v / 10) ++ [digit (v mod 10)]
  end.

(** [a.b.c.d:p] *)
Definition print_addr (a b c d p : Z) : list byte :=
  print_nat 3 a ++ byte.of_Z DOT :: print_nat 3 b ++ byte.of_Z DOT :: print_nat 3 c ++
  byte.of_Z DOT :: print_nat 3 d ++ byte.of_Z COLON :: print_nat 5 p.

Lemma ch_of_Z z : 0 <= z < 256 -> ch (byte.of_Z z) = z.
Proof. intros H. unfold ch. rewrite byte.unsigned_of_Z. unfold byte.wrap. apply Z.mod_small. lia. Qed.

Lemma digit_ok d : 0 <= d < 10 -> ch (digit d) = 48 + d /\ isdigit (digit d) = true.
Proof.
  intros Hd. unfold isdigit, digit. rewrite ch_of_Z by lia. split; [done|].
  by rewrite (proj2 (Z.leb_le _ _)), (proj2 (Z.leb_le _ _)) by lia.
Qed.

(** The first character after a number is not a digit. *)
Definition no_digit (s : list byte) : Prop :=
  match s with [] => True | b :: _ => isdigit b = false end.

(** Reading back a printed number. *)
Lemma scan_digits_print n : forall v s acc m, 0 <= v < 10 ^ Z.of_nat n ->
  scan_digits (print_nat n v ++ s) acc m =
  scan_digits s (acc * 10 ^ zlen (print_nat n v) + v) (length (print_nat n v) + m).
Proof.
  induction n as [|n IH]; intros v s acc m Hv.
  { change (10 ^ Z.of_nat 0) with 1 in Hv. cbn [print_nat app length Nat.add].
    change (10 ^ zlen []) with 1. f_equal. lia. }
  assert (Hstep : forall d r a k, 0 <= d < 10 ->
    scan_digits (digit d :: r) a k = scan_digits r (a * 10 + d) (S k)).
  { intros d r a k Hd. cbn [scan_digits]. destruct (digit_ok d Hd) as [-> ->]. f_equal. lia. }
  rewrite Nat2Z.inj_succ, Z.pow_succ_r in Hv by lia.
  cbn [print_nat]. destruct (Z.ltb_spec v 10) as [Hlt|Hge].
  - cbn [app length]. rewrite Hstep by lia. f_equal.
  - rewrite <- app_assoc. cbn [app]. rewrite IH by (Z.div_mod_to_equations; lia).
    rewrite Hstep by (apply Z.mod_pos_bound; lia). rewrite zlen_app, length_app.
    change (zlen [_]) with 1. rewrite Z.pow_add_r by (pose proof (zlen_nonneg (print_nat n (v / 10))); lia).
    f_equal; [|cbn [length]; lia]. change (10 ^ 1) with 10. Z.div_mod_to_equations; lia.
Qed.

Lemma print_head n : forall v, 0 <= v < 10 ^ Z.of_nat (S n) ->
  exists d r, print_nat (S n) v = digit d :: r /\ 0 <= d < 10.
Proof.
  induction n as [|n IH]; intros v Hv.
  { exists v, []. cbn [print_nat]. rewrite (proj2 (Z.ltb_lt v 10)) by lia. split; [done|lia]. }
  cbn [print_nat] in *. destruct (Z.ltb_spec v 10); [exists v, []; split; [done|lia]|].
  destruct (IH (v / 10)) as (d & r & E & Hd).
  { rewrite (Nat2Z.inj_succ (S n)), Z.pow_succ_r in Hv by lia. Z.div_mod_to_equations; lia. }
  exists d, (r ++ [digit (v mod 10)]). rewrite E. done.
Qed.

Lemma scan_d_print n v s :
  0 <= v < 10 ^ Z.of_nat (S n) -> v < 2 ^ 31 -> no_digit s ->
  scan_d (print_nat (S n) v ++ s) = Some (v, s).
Proof.
  intros Hv Hb Hs. pose proof (scan_digits_print (S n) v s 0 0 Hv) as Hscan.
  destruct (print_head n v Hv) as (d & r & E & Hd). rewrite E in *. cbn [app] in *.
  destruct (digit_ok d Hd) as [Hc _]. unfold scan_d. cbn [skip_space]. unfold isspace.
  rewrite Hc. rewrite (proj2 (Z.eqb_neq _ 32)), (proj2 (Z.leb_gt (48 + d) 13)) by lia.
  rewrite andb_false_r. cbn [orb]. rewrite Hc, (proj2 (Z.eqb_neq _ 45)), (proj2 (Z.eqb_neq _ 43)) by lia.
  rewrite Hscan. assert (Hend : forall acc k, scan_digits s acc k = (acc, k, s)).
  { intros acc k. destruct s as [|b s]; [done|]. cbn in *. by rewrite Hs. }
  rewrite Hend. cbn [length Nat.add]. do 2 f_equal. rewrite i32_small by lia. lia.
Qed.

(** The colon is the first one of a printed address. *)
Lemma strchr_skip c l s : Forall (fun b => ch b <> c) l ->
  strchr (l ++ s) c = Nat.add (length l) <$> strchr s c.
Proof.
  induction 1 as [|b l Hb _ IH]; cbn [app strchr length].
  - by destruct (strchr s c).
  - rewrite (proj2 (Z.eqb_neq _ _)) by done. rewrite IH. by destruct (strchr s c).
Qed.

Lemma print_no_char c n : forall v, 0 <= v < 10 ^ Z.of_nat n -> ~ (48 <= c <= 57) ->
  Forall (fun b => ch b <> c) (print_nat n v) /\ (length (print_nat n v) <= n)%nat.
Proof.
  induction n as [|n IH]; intros v Hv Hc; [by split|].
  rewrite Nat2Z.inj_succ, Z.pow_succ_r in Hv by lia.
  assert (Hd : forall d, 0 <= d < 10 -> ch (digit d) <> c).
  { intros d Hd. destruct (digit_ok d Hd) as [-> _]. lia. }
  cbn [print_nat]. case_if; bool_to_prop.
  - split; [|cbn; lia]. constructor; [apply Hd; lia|done].
  - destruct (IH (v / 10)) as [H1 H2]; [Z.div_mod_to_equations; lia|done|]. split.
    + apply Forall_app. split; [done|]. constructor; [|done]. apply Hd, Z.mod_pos_bound. lia.
    + rewrite length_app. cbn. lia.
Qed.

(** The part of a printed address before the colon. *)
Definition print_ip (a b c d : Z) : list byte :=
  print_nat 3 a ++ byte.of_Z DOT :: print_nat 3 b ++ byte.of_Z DOT :: print_nat 3 c ++
  byte.of_Z DOT :: print_nat 3 d.

Lemma print_addr_split a b c d p :
  print_addr a b c d p = print_ip a b c d ++ byte.of_Z COLON :: print_nat 5 p.
Proof. unfold print_addr, print_ip. rewrite <- !app_assoc. cbn [app]. by rewrite <- !app_assoc; cbn [app]; rewrite <- !app_assoc. Qed.

Lemma print_ip_ok a b c d :
  0 <= a < 256 -> 0 <= b < 256 -> 0 <= c < 256 -> 0 <= d < 256 ->
  Forall (fun x => ch x <> COLON) (print_ip a b c d) /\ (length (print_ip a b c d) <= 15)%nat.
Proof.
  intros Ha Hb Hc Hd. unfold print_ip.
  assert (Hnum : forall v, 0 <= v < 256 ->
    Forall (fun x => ch x <> COLON) (print_nat 3 v) /\ (length (print_nat 3 v) <= 3)%nat).
  { intros v Hv. apply print_no_char; [cbn; lia|unfold COLON; lia]. }
  assert (Hdot : ch (byte.of_Z DOT) <> COLON) by (rewrite ch_of_Z by (unfold DOT; lia); done).
  split.
  - repeat (apply Forall_app; split; [by apply Hnum|]; constructor; [done|]). by apply Hnum.
  - rewrite !length_app. cbn [length]. rewrite !length_app. cbn [length]. rewrite length_app. cbn [length].
    pose proof (Hnum a Ha). pose proof (Hnum b Hb). pose proof (Hnum c Hc). pose proof (Hnum d Hd). lia.
Qed.

Lemma scan_printed a b c d p :
  0 <= a < 256 -> 0 <= b < 256 -> 0 <= c < 256 -> 0 <= d < 256 -> 0 <= p < 65536 ->
  sscanf_addr (print_addr a b c d p) = (5, [a; b; c; d; p]).
Proof.
  intros Ha Hb Hc Hd Hp.
  assert (Hdot : forall l, no_digit (byte.of_Z DOT :: l)) by done.
  assert (Hcol : forall l, no_digit (byte.of_Z COLON :: l)) by done.
  assert (Hlit : forall x l, x = DOT \/ x = COLON -> scan_lit x (byte.of_Z x :: l) = Some l).
  { intros x l Hx. unfold scan_lit. rewrite ch_of_Z by (unfold DOT, COLON in Hx; lia).
    by rewrite Z.eqb_refl. }
  unfold sscanf_addr, print_addr.
  rewrite scan_d_print by (try done; change (10 ^ Z.of_nat 3) with 1000; lia). cbn [scan_more].
  do 3 (rewrite Hlit by auto; rewrite scan_d_print by (try done; change (10 ^ Z.of_nat 3) with 1000; lia);
    cbn [scan_more]).
  rewrite Hlit by auto. rewrite <- (app_nil_r (print_nat 5 p)).
  rewrite scan_d_print by (try done; change (10 ^ Z.of_nat 5) with 100000; lia). done.
Qed.

(** ** Properties *)

(** A printed destination is parsed.  For every address and port, parsing the string
    [a.b.c.d:p] converts the five numbers, keeps the address part of the string at the start of
    [netw_dest], and the port that is given to [bind] and put in the socket address is [p] in
    network order although it is kept in a signed 16-bit variable. *)
Theorem destination_parsed a b c d p st :
  0 <= a < 256 -> 0 <= b < 256 -> 0 <= c < 256 -> 0 <= d < 256 -> 0 <= p < 65536 ->
  length (netw_dest st) = NETW_UDP_MAX_DESTINATION ->
  exists st', nw_parse_udp (print_addr a b c d p) (zlen (print_addr a b c d p)) st = Ret (5, st') /\
    netw_addr st' = [i8 a; i8 b; i8 c; i8 d] /\
    htons (netw_port st') = (p mod 256) * 256 + p / 256 /\
    take (length (print_ip a b c d)) (netw_dest st') = print_ip a b c d /\
    drop (length (print_ip a b c d)) (netw_dest st') = drop (length (print_ip a b c d)) (netw_dest st).
Proof.
  intros Ha Hb Hc Hd Hp Hl. unfold nw_parse_udp.
  destruct (print_ip_ok a b c d Ha Hb Hc Hd) as [Hno Hlen].
  rewrite (scan_printed a b c d p) by done. rewrite print_addr_split, (strchr_skip _ _ _ Hno). cbn [strchr].
  rewrite ch_of_Z by (unfold COLON; lia). rewrite Z.eqb_refl. cbn [fmap option_fmap option_map].
  rewrite Nat.add_0_r. unfold memcpy.
  assert (Hz : length (netw_dest st) = 22%nat) by done.
  rewrite bget_ok by (rewrite ?zlen_app; unfold zlen; lia). change (Z.to_nat 0) with 0%nat.
  rewrite Nat2Z.id, drop_0, take_app_length. cbn [mbind cres_bind].
  rewrite bput_ok by (unfold zlen; lia). cbn [mbind cres_bind]. change (Z.to_nat 0) with 0%nat.
  rewrite take_0. cbn [app Nat.add].
  eexists. split; [reflexivity|]. cbn [netw_addr netw_dest netw_port nth_tmp].
  split_and!; [done| | |].
  - unfold htons. change (nth_tmp _ 4) with p. assert (u16 (i16 p) = p) as ->; [|done].
    unfold u16, i16. rewrite Zminus_mod_idemp_l.
    replace (p + 2 ^ 15 - 2 ^ 15) with p by lia. apply Z.mod_small. lia.
  - apply take_app_length.
  - rewrite drop_app_length. done.
Qed.

Lemma destination_parsed_witness :
  exists st', nw_parse_udp (print_addr 192 168 0 1 40000) (zlen (print_addr 192 168 0 1 40000)) netw_init
      = Ret (5, st') /\ netw_addr st' = [-64; -88; 0; 1] /\ htons (netw_port st') = 64 * 256 + 156.
Proof.
  destruct (destination_parsed 192 168 0 1 40000 netw_init) as (st' & E & Ea & Ep & _); try lia.
  - apply length_replicate.
  - exists st'. split; [exact E|]. split; [exact Ea|exact Ep].
Defined.

(** A datagram that is sent is received.  A message that fits a datagram is handed to the
    kernel in one datagram, and the peer that receives this datagram in a large enough buffer
    gets its length and its bytes, with the rest of the buffer unchanged; a longer message is
    refused and nothing is sent. *)
Theorem datagram_transfer o id buf len flags rbuf rlen :
  0 <= len <= zlen buf -> len <= rlen <= zlen rbuf ->
  (len <= NETW_UDP_MAX_BUF_SIZE ->
   exists dg rbuf', nw_send o id buf len flags =
       Ret (os_sendto o id (take (Z.to_nat len) buf) (recv_flags flags), [dg]) /\
     nw_recv (RecvData (dg_data dg)) rbuf rlen = Ret (len, rbuf') /\
     take (Z.to_nat len) rbuf' = take (Z.to_nat len) buf /\
     drop (Z.to_nat len) rbuf' = drop (Z.to_nat len) rbuf) /\
  (NETW_UDP_MAX_BUF_SIZE < len -> nw_send o id buf len flags = Ret (-1, [])).
Proof.
  intros Hl Hr. unfold nw_send. split; intros Hm.
  - rewrite (proj2 (Z.ltb_ge _ _)) by lia. rewrite bget_ok by lia. cbn [mbind cres_bind].
    change (Z.to_nat 0) with 0%nat. rewrite drop_0. set (d := take (Z.to_nat len) buf).
    assert (Hd : length d = Z.to_nat len) by (unfold d, zlen in *; rewrite length_take; lia).
    unfold nw_recv. eexists _, _. split; [reflexivity|]. cbn [dg_data].
    rewrite take_ge by lia. rewrite bput_ok by (unfold zlen in *; lia). cbn [mbind cres_bind].
    change (Z.to_nat 0) with 0%nat. rewrite take_0. cbn [app Nat.add]. rewrite <- Hd. split_and!.
    + do 2 f_equal. unfold zlen. lia.
    + by rewrite take_app_length.
    + by rewrite drop_app_length.
  - by rewrite (proj2 (Z.ltb_lt _ _)) by lia.
Qed.

Lemma datagram_transfer_witness :
  let o := Build_os (fun _ => None) 3 (fun _ _ => 0) (fun _ d _ => zlen d) (fun _ => 0) in
  exists dg rbuf', nw_send o 3 [Byte.x01; Byte.x02] 2 NETW_FLAG_NO_WAIT = Ret (2, [dg]) /\
    nw_recv (RecvData (dg_data dg)) (zeros 4) 4 = Ret (2, rbuf') /\
    take 2 rbuf' = [Byte.x01; Byte.x02] /\ drop 2 rbuf' = zeros 2.
Proof.
  set (o := Build_os (fun _ => None) 3 (fun _ _ => 0) (fun _ d _ => zlen d) (fun _ => 0)).
  destruct (datagram_transfer o 3 [Byte.x01; Byte.x02] 2 NETW_FLAG_NO_WAIT (zeros 4) 4) as [H _].
  - change (zlen [Byte.x01; Byte.x02]) with 2. lia.
  - change (zlen (zeros 4)) with 4. lia.
  - destruct H as (dg & rbuf' & E1 & E2 & E3 & E4); [unfold NETW_UDP_MAX_BUF_SIZE; lia|].
    exists dg, rbuf'. split; [exact E1|]. split; [exact E2|]. split; [exact E3|exact E4].
Defined.
