(* ===== verification/SplitStats.v ===== *)
(** Statistics of the split ([splits/mac-rlc/stats/mr_stats.c]).

    The counters are [uint64_t]; the instants are [struct timespec] with 64-bit
    members.  The clock is read by every prologue and by three of the five
    epilogues: the instant read is an argument.  [printf] is modelled by the
    numbers it is given (the floating-point averages are left out); a report is
    an entry of the output list. *)
From stdpp Require Import base list numbers sets.
From Stdlib Require Import ZArith Lia.
From S2P Require Import Prelude.
Open Scope Z_scope.

Record timespec := { tv_sec : Z; tv_nsec : Z }.

(** [ts_nsec] on 64-bit [long]. *)
Definition i64 (z : Z) : Z := (z + 2 ^ 63) mod 2 ^ 64 - 2 ^ 63.
Definition ts_nsec (t : timespec) : Z := i64 (tv_sec t * 1000000000 + tv_nsec t).
Definition ts0 : timespec := {| tv_sec := 0; tv_nsec := 0 |}.

(** One second in ns. *)
Definition REP_TIEMOUT : Z := 1000000000.

(** The counters of one kind of exchange. *)
Record counters := {
  start : timespec;
  finish : timespec;
  count_req : Z;
  count_res : Z;
  total : Z;
  sent_bytes : Z;
  recv_bytes : Z;
}.
Definition counters0 : counters := Build_counters ts0 ts0 0 0 0 0 0.

(** [DATA IND], [DATA REQ], [STATUS IND], [RRC REQ], [RRC IND]. *)
Record mr_stats := {
  rep_now : timespec;
  rep_last : timespec;
  data_ind : counters;
  data_req : counters;
  status : counters;
  rrc_req : counters;
  rrc_ind : counters;
}.
Definition mr_stats0 : mr_stats :=
  Build_mr_stats ts0 ts0 counters0 counters0 counters0 counters0 counters0.

(** The counters one line of the report prints: requests, responses, time, sent, received. *)
Record report_line := { rl_req : Z; rl_res : Z; rl_total : Z; rl_sent : Z; rl_recv : Z }.
Record report := {
  rp_elapsed : Z;
  rp_ind : report_line;
  rp_req : report_line;
  rp_status : report_line;
  rp_rrc_ind : report_line;
  rp_rrc_req : report_line;
}.

Definition line_of (c : counters) : report_line :=
  Build_report_line (count_req c) (count_res c) (total c) (sent_bytes c) (recv_bytes c).

(** The lines of the two one-way messages print constants for the responses. *)
Definition line_of_ind (c : counters) : report_line :=
  Build_report_line (count_req c) 0 0 (sent_bytes c) 0.

(** The resets of the report: the indicators keep their [total]; the instants stay. *)
Definition reset (c : counters) : counters :=
  Build_counters (start c) (finish c) 0 0 0 0 0.
Definition reset_ind (c : counters) : counters :=
  Build_counters (start c) (finish c) 0 (count_res c) (total c) 0 (recv_bytes c).

Definition report_due (s : mr_stats) : bool :=
  REP_TIEMOUT <? i64 (ts_nsec (rep_now s) - ts_nsec (rep_last s)).

Definition mr_stat_report (s : mr_stats) : mr_stats * list report :=
  if report_due s then
    ({| rep_now := rep_now s;
        rep_last := rep_now s;
        data_ind := reset_ind (data_ind s);
        data_req := reset (data_req s);
        status := reset (status s);
        rrc_req := reset (rrc_req s);
        rrc_ind := reset_ind (rrc_ind s) |},
     [{| rp_elapsed := i64 (ts_nsec (rep_now s) - ts_nsec (rep_last s));
         rp_ind := line_of_ind (data_ind s);
         rp_req := line_of (data_req s);
         rp_status := line_of (status s);
         rp_rrc_ind := line_of_ind (rrc_ind s);
         rp_rrc_req := line_of (rrc_req s) |}])
  else (s, []).

(** The common part of the prologues and of the two-way epilogues. *)
Definition prologue (now : timespec) (req_size : Z) (c : counters) : counters :=
  Build_counters now (finish c) (u64 (count_req c + 1)) (count_res c) (total c)
    (u64 (sent_bytes c + req_size)) (recv_bytes c).

Definition epilogue (now : timespec) (res_size : Z) (c : counters) : counters :=
  let e := i64 (ts_nsec now - ts_nsec (start c)) in
  Build_counters (start c) now (count_req c) (u64 (count_res c + 1)) (u64 (total c + e))
    (sent_bytes c) (u64 (recv_bytes c + res_size)).

Definition with_data_ind (s : mr_stats) (c : counters) : mr_stats :=
  Build_mr_stats (rep_now s) (rep_last s) c (data_req s) (status s) (rrc_req s) (rrc_ind s).
Definition with_data_req (s : mr_stats) (c : counters) : mr_stats :=
  Build_mr_stats (rep_now s) (rep_last s) (data_ind s) c (status s) (rrc_req s) (rrc_ind s).
Definition with_status (s : mr_stats) (c : counters) : mr_stats :=
  Build_mr_stats (rep_now s) (rep_last s) (data_ind s) (data_req s) c (rrc_req s) (rrc_ind s).
Definition with_rrc_req (s : mr_stats) (c : counters) : mr_stats :=
  Build_mr_stats (rep_now s) (rep_last s) (data_ind s) (data_req s) (status s) c (rrc_ind s).
Definition with_rrc_ind (s : mr_stats) (c : counters) : mr_stats :=
  Build_mr_stats (rep_now s) (rep_last s) (data_ind s) (data_req s) (status s) (rrc_req s) c.
Definition with_rep_now (s : mr_stats) (t : timespec) : mr_stats :=
  Build_mr_stats t (rep_last s) (data_ind s) (data_req s) (status s) (rrc_req s) (rrc_ind s).

Definition mr_stat_ind_prologue (now : timespec) (req_size : Z) (s : mr_stats) : mr_stats :=
  with_data_ind s (prologue now req_size (data_ind s)).
Definition mr_stat_ind_epilogue (now : timespec) (s : mr_stats) : mr_stats * list report :=
  mr_stat_report (with_rep_now s now).

Definition mr_stat_req_prologue (now : timespec) (req_size : Z) (s : mr_stats) : mr_stats :=
  with_data_req s (prologue now req_size (data_req s)).
Definition mr_stat_req_epilogue (now : timespec) (res_size : Z) (s : mr_stats)
  : mr_stats * list report :=
  mr_stat_report (with_data_req s (epilogue now res_size (data_req s))).

Definition mr_stat_status_prologue (now : timespec) (req_size : Z) (s : mr_stats) : mr_stats :=
  with_status s (prologue now req_size (status s)).
Definition mr_stat_status_epilogue (now : timespec) (res_size : Z) (s : mr_stats)
  : mr_stats * list report :=
  mr_stat_report (with_status s (epilogue now res_size (status s))).

Definition mr_stat_rrc_req_prologue (now : timespec) (req_size : Z) (s : mr_stats) : mr_stats :=
  with_rrc_req s (prologue now req_size (rrc_req s)).
Definition mr_stat_rrc_req_epilogue (now : timespec) (res_size : Z) (s : mr_stats)
  : mr_stats * list report :=
  mr_stat_report (with_rrc_req s (epilogue now res_size (rrc_req s))).

Definition mr_stat_rrc_ind_prologue (now : timespec) (req_size : Z) (s : mr_stats) : mr_stats :=
  with_rrc_ind s (prologue now req_size (rrc_ind s)).
Definition mr_stat_rrc_ind_epilogue (s : mr_stats) : mr_stats * list report :=
  mr_stat_report s.

(** ** Sequences of calls *)

Inductive stat_op :=
| IndPrologue (now : timespec) (n : Z)
| IndEpilogue (now : timespec)
| ReqPrologue (now : timespec) (n : Z)
| ReqEpilogue (now : timespec) (n : Z)
| StatusPrologue (now : timespec) (n : Z)
| StatusEpilogue (now : timespec) (n : Z)
| RrcReqPrologue (now : timespec) (n : Z)
| RrcReqEpilogue (now : timespec) (n : Z)
| RrcIndPrologue (now : timespec) (n : Z)
| RrcIndEpilogue.

Definition stat_step (o : stat_op) (s : mr_stats) : mr_stats * list report :=
  match o with
  | IndPrologue now n => (mr_stat_ind_prologue now n s, [])
  | IndEpilogue now => mr_stat_ind_epilogue now s
  | ReqPrologue now n => (mr_stat_req_prologue now n s, [])
  | ReqEpilogue now n => mr_stat_req_epilogue now n s
  | StatusPrologue now n => (mr_stat_status_prologue now n s, [])
  | StatusEpilogue now n => mr_stat_status_epilogue now n s
  | RrcReqPrologue now n => (mr_stat_rrc_req_prologue now n s, [])
  | RrcReqEpilogue now n => mr_stat_rrc_req_epilogue now n s
  | RrcIndPrologue now n => (mr_stat_rrc_ind_prologue now n s, [])
  | RrcIndEpilogue => mr_stat_rrc_ind_epilogue s
  end.

Fixpoint stat_run (os : list stat_op) (s : mr_stats) : mr_stats * list report :=
  match os with
  | [] => (s, [])
  | o :: os' =>
      let '(s1, r1) := stat_step o s in
      let '(s2, r2) := stat_run os' s1 in (s2, r1 ++ r2)
  end.

(** ** Lemmas *)

(** Bytes given to the prologues of one kind, and to its reports. *)
Definition status_in (o : stat_op) : Z :=
  match o with StatusPrologue _ n => n | _ => 0 end.
Definition sum_status_in (os : list stat_op) : Z := foldr (fun o z => status_in o + z) 0 os.
Definition sum_status_sent (rs : list report) : Z :=
  foldr (fun r z => rl_sent (rp_status r) + z) 0 rs.

Lemma sum_status_sent_app r1 r2 :
  sum_status_sent (r1 ++ r2) = sum_status_sent r1 + sum_status_sent r2.
Proof. induction r1 as [|r r1 IH]; simpl; [done|]. fold (sum_status_sent (r1 ++ r2)). lia. Qed.

Lemma mr_stat_report_status s :
  let '(s', rs) := mr_stat_report s in
  sent_bytes (status s') + sum_status_sent rs = sent_bytes (status s).
Proof. unfold mr_stat_report. destruct (report_due s); simpl; lia. Qed.

Lemma mod_eq_intro a b k m : 0 < m -> a = b + k * m -> a mod m = b mod m.
Proof. intros ? ->. apply Z.mod_add. lia. Qed.

(** One step, as integers: the sum moves by the bytes of the prologue, up to a wrap. *)
Lemma stat_step_status o s :
  let '(s', rs) := stat_step o s in
  (sent_bytes (status s') + sum_status_sent rs) mod 2 ^ 64 =
  (sent_bytes (status s) + status_in o) mod 2 ^ 64.
Proof.
  destruct o; simpl;
    try (unfold mr_stat_ind_epilogue, mr_stat_req_epilogue, mr_stat_status_epilogue,
           mr_stat_rrc_req_epilogue, mr_stat_rrc_ind_epilogue;
         match goal with |- context [mr_stat_report ?t] =>
           pose proof (mr_stat_report_status t); destruct (mr_stat_report t) end;
         simpl in *; f_equal; lia);
    try (f_equal; lia).
  rewrite Z.add_0_r. unfold u64. rewrite Zmod_mod. done.
Qed.

Lemma stat_run_cons o os s :
  stat_run (o :: os) s =
  let '(s1, r1) := stat_step o s in
  let '(s2, r2) := stat_run os s1 in (s2, r1 ++ r2).
Proof. done. Qed.

(** Only [mr_stat_ind_epilogue] moves [rep_now]. *)
Definition is_ind_epilogue (o : stat_op) : bool :=
  match o with IndEpilogue _ => true | _ => false end.

Lemma report_not_due s : rep_now s = rep_last s -> report_due s = false.
Proof. intros H. unfold report_due. rewrite H, Z.sub_diag. done. Qed.

Lemma stat_step_quiet o s :
  is_ind_epilogue o = false -> rep_now s = rep_last s ->
  (stat_step o s).2 = [] /\ rep_now (stat_step o s).1 = rep_last (stat_step o s).1.
Proof.
  intros Ho Hs. destruct o; try discriminate Ho; simpl; try (split; [done|exact Hs]);
    unfold mr_stat_req_epilogue, mr_stat_status_epilogue, mr_stat_rrc_req_epilogue,
      mr_stat_rrc_ind_epilogue, mr_stat_report;
    rewrite report_not_due by done; (split; [done|exact Hs]).
Qed.

Lemma mr_stat_report_spaced s r : r ∈ (mr_stat_report s).2 -> REP_TIEMOUT < rp_elapsed r.
Proof.
  unfold mr_stat_report. destruct (report_due s) eqn:E; simpl; intros Hr.
  - apply list_elem_of_singleton in Hr. subst r. simpl.
    unfold report_due in E. by bool_to_prop.
  - inversion Hr.
Qed.

Lemma stat_step_report_due o s r :
  r ∈ (stat_step o s).2 -> REP_TIEMOUT < rp_elapsed r.
Proof. destruct o; simpl; first [apply mr_stat_report_spaced | by inversion 1]. Qed.

(** ** Properties *)

(** No byte of a status request is lost by the statistics: after any sequence of
    calls, the bytes reported so far plus the bytes of the running counter are the
    bytes given to [mr_stat_status_prologue], modulo the 64-bit counter. *)
Theorem stat_status_bytes_conserved os s :
  (sent_bytes (status (stat_run os s).1) + sum_status_sent (stat_run os s).2) mod 2 ^ 64 =
  (sent_bytes (status s) + sum_status_in os) mod 2 ^ 64.
Proof.
  revert s. induction os as [|o os IH]; intros s; [done|].
  rewrite stat_run_cons. pose proof (stat_step_status o s) as Hstep.
  destruct (stat_step o s) as [s1 r1]. specialize (IH s1).
  destruct (stat_run os s1) as [s2 r2]. simpl in *. rewrite sum_status_sent_app.
  fold (sum_status_in os).
  rewrite (Z.add_comm (sum_status_sent r1)), Z.add_assoc, Zplus_mod, IH, <- Zplus_mod.
  rewrite <- Z.add_assoc, (Z.add_comm (sum_status_in os)), Z.add_assoc.
  rewrite Zplus_mod, Hstep, <- Zplus_mod. f_equal. lia.
Qed.

Example stat_report_example :
  let ops := [StatusPrologue ts0 20; StatusEpilogue ts0 404;
              IndEpilogue (Build_timespec 2 0); StatusPrologue ts0 20] in
  let '(s', rs) := stat_run ops mr_stats0 in
  (fun r => rl_sent (rp_status r)) <$> rs = [20] /\ sent_bytes (status s') = 20.
Proof. vm_compute. split; reflexivity. Qed.

(** The statistics are never printed unless [mr_stat_ind_epilogue] runs: from the
    initial state, any sequence of the other nine calls produces no report, because
    [rep_now] is only set by that epilogue. *)
Theorem stat_no_report_without_ind_epilogue os :
  forallb (fun o => negb (is_ind_epilogue o)) os = true -> (stat_run os mr_stats0).2 = [].
Proof.
  intros H.
  enough (Hg : forall s, rep_now s = rep_last s -> (stat_run os s).2 = []) by by apply Hg.
  induction os as [|o os IH]; intros s Hs; [done|].
  simpl in H. bool_to_prop. rewrite stat_run_cons.
  destruct (stat_step_quiet o s) as [Hq1 Hq2]; [done..|].
  destruct (stat_step o s) as [s1 r1]. specialize (IH ltac:(done) s1 Hq2).
  destruct (stat_run os s1). simpl in *. by subst.
Qed.

Lemma stat_no_report_without_ind_epilogue_witness :
  (stat_run [StatusPrologue ts0 20; StatusEpilogue (Build_timespec 5 0) 404;
             RrcReqEpilogue (Build_timespec 99 0) 12; RrcIndEpilogue] mr_stats0).2 = [].
Proof. apply stat_no_report_without_ind_epilogue. vm_compute. reflexivity. Defined.

(** Reports are spaced: every report was printed more than [REP_TIEMOUT]
    nanoseconds after the previous one. *)
Theorem stat_reports_spaced os s r :
  r ∈ (stat_run os s).2 -> REP_TIEMOUT < rp_elapsed r.
Proof.
  revert s. induction os as [|o os IH]; intros s; [set_solver|].
  rewrite stat_run_cons. pose proof (stat_step_report_due o s r) as Hd.
  destruct (stat_step o s) as [s1 r1]. specialize (IH s1).
  destruct (stat_run os s1) as [s2 r2]. simpl in *. rewrite elem_of_app. naive_solver.
Qed.

Lemma stat_reports_spaced_witness :
  let r := Build_report 2000000000 (Build_report_line 0 0 0 0 0) (Build_report_line 0 0 0 0 0)
             (Build_report_line 0 0 0 0 0) (Build_report_line 0 0 0 0 0)
             (Build_report_line 0 0 0 0 0) in
  r ∈ (stat_run [IndEpilogue (Build_timespec 2 0)] mr_stats0).2 /\ REP_TIEMOUT < rp_elapsed r.
Proof.
  split; [vm_compute; left|].
  apply (stat_reports_spaced [IndEpilogue (Build_timespec 2 0)] mr_stats0). vm_compute; left.
Defined.
