(* ===== verification/SplitIface.v ===== *)
(** The interface between the split and the RLC/RRC layers: the primitives of
    [openair2/LAYER2/RLC/rlc.h] and [openair2/RRC/LITE/L2_interface.c] that the
    CU-side handlers call, their argument record and the response of the status
    primitive; and what a client may rely on ([RlcServiceOk]). *)
From stdpp Require Import base list gmap numbers.
From coqutil Require Import Byte.
From Stdlib Require Import ZArith Lia.
From S2P Require Import Prelude.
Open Scope Z_scope.

(** [maxDRB] is the constant of the ASN.1 definitions; [NB_RB_MAX] is [maxDRB + 3]. *)
Definition maxDRB : nat := 11.
Definition NB_RB_MAX : nat := maxDRB + 3.
Definition MAX_DLSCH_PAYLOAD_BYTES : nat := 16 * 768.
Definition CCCH_PAYLOAD_SIZE_MAX : nat := 128.
Definition RAB_OFFSET : Z := 7.
Definition BCCH : Z := 3.
Definition CCCH : Z := 0.

Record mac_rlc_status_resp_t := {
  bytes_in_buffer : Z;                   (* rlc_buffer_occupancy_t, int32 *)
  pdus_in_buffer : Z;                    (* rlc_buffer_occupancy_t, int32 *)
  head_sdu_creation_time : Z;            (* frame_t, uint32 *)
  head_sdu_remaining_size_to_send : Z;   (* sdu_size_t, int32 *)
  head_sdu_is_segmented : Z;             (* boolean_t, signed char *)
}.

Definition resp_empty : mac_rlc_status_resp_t := Build_mac_rlc_status_resp_t 0 0 0 0 0.

Definition resp_wf (r : mac_rlc_status_resp_t) : Prop :=
  - 2 ^ 31 <= bytes_in_buffer r < 2 ^ 31 /\
  - 2 ^ 31 <= pdus_in_buffer r < 2 ^ 31 /\
  0 <= head_sdu_creation_time r < 2 ^ 32 /\
  - 2 ^ 31 <= head_sdu_remaining_size_to_send r < 2 ^ 31 /\
  - 2 ^ 7 <= head_sdu_is_segmented r < 2 ^ 7.

(** The arguments the MAC-RLC primitives share. *)
Record mac_args := {
  module_idP : Z;
  rntiP : Z;
  eNB_index : Z;
  frameP : Z;
  enb_flagP : Z;
  MBMS_flagP : Z;
  channel_idP : Z;
}.

(** The RLC and RRC layers under the CU, over a state [S].
    [rlc_data_req] returns the bytes it wrote at the start of the caller's buffer.
    [rlc_data_ind] and [rrc_data_ind] get the caller's buffer, the offset of the data
    in it and its announced size.  [rrc_data_req] returns the C result ([int8_t]) and
    the bytes written at the start of the caller's buffer. *)
Class RlcService (S : Type) := {
  rlc_status_ind : mac_args -> Z -> S -> cres (S * mac_rlc_status_resp_t);
  rlc_data_req : mac_args -> S -> cres (S * list byte);
  rlc_data_ind : mac_args -> list byte -> Z -> Z -> Z -> S -> cres S;
  rrc_data_req : Z -> Z -> Z -> Z -> Z -> Z -> Z -> Z -> S -> cres (S * (Z * list byte));
  rrc_data_ind : Z -> Z -> Z -> Z -> Z -> Z -> list byte -> Z -> Z -> Z -> Z -> Z -> S -> cres S;
}.

(** What the CU relies on, for the states of an invariant and for arguments in range: the
    status primitive answers with a response in range; when it announces data, the data
    primitive that follows it on the same channel answers with at most the bytes of the
    transport block given to the status primitive. *)
Class RlcServiceOk (S : Type) `{RlcService S} := {
  rlc_inv : S -> Prop;
  rlc_args : mac_args -> Prop;
  status_ind_ok a tb s : rlc_inv s -> rlc_args a ->
    exists s' r, rlc_status_ind a tb s = Ret (s', r) /\ rlc_inv s' /\ resp_wf r;
  data_req_ok a tb s s' r : rlc_inv s -> rlc_args a ->
    rlc_status_ind a tb s = Ret (s', r) -> 0 < tb <= Z.of_nat MAX_DLSCH_PAYLOAD_BYTES ->
    0 < bytes_in_buffer r ->
    exists s'' d, rlc_data_req a s' = Ret (s'', d) /\ rlc_inv s'' /\ zlen d <= tb;
}.

(** ** A reference service

    One byte queue per logical channel.  The status primitive announces the length of
    the queue and notes the size of the transport block; the data primitive takes at most
    that many bytes from the front.  It shows that the contract can be met and is the
    service the concrete runs of the development use. *)
Module QueueRlc.

Record queues := { q_data : gmap Z (list byte); q_grant : Z }.

Definition queue (s : queues) (c : Z) : list byte := default [] (q_data s !! c).

Definition q_status (a : mac_args) (tb : Z) (s : queues) : cres (queues * mac_rlc_status_resp_t) :=
  let n := Z.min (zlen (queue s (channel_idP a))) (2 ^ 31 - 1) in
  Ret (Build_queues (q_data s) tb,
       {| bytes_in_buffer := n; pdus_in_buffer := b2z (0 <? n); head_sdu_creation_time := 0;
          head_sdu_remaining_size_to_send := n; head_sdu_is_segmented := 0 |}).

Definition q_take (a : mac_args) (s : queues) : cres (queues * list byte) :=
  let q := queue s (channel_idP a) in
  let n := Z.to_nat (q_grant s) in
  Ret (Build_queues (<[channel_idP a := drop n q]> (q_data s)) 0, take n q).

(** An upward transport block goes to the queue of its channel. *)
Definition q_ind (a : mac_args) (buf : list byte) (off n crcs : Z) (s : queues) : cres queues :=
  d ← bget buf off n;
  Ret (Build_queues (<[channel_idP a := queue s (channel_idP a) ++ d]> (q_data s)) (q_grant s)).

#[global] Instance queue_service : RlcService queues := {|
  rlc_status_ind := q_status;
  rlc_data_req := q_take;
  rlc_data_ind := q_ind;
  rrc_data_req _ _ _ _ _ _ _ _ s := Ret (s, (0, []));
  rrc_data_ind _ _ _ _ _ _ _ _ _ _ _ _ s := Ret s |}.

#[global] #[refine] Instance queue_service_ok : RlcServiceOk queues := {|
  rlc_inv _ := True; rlc_args _ := True |}.
Proof.
  - intros a tb s _ _. eexists _, _. split; [reflexivity|]. split; [done|]. unfold resp_wf. cbn.
    pose proof (zlen_nonneg (queue s (channel_idP a))).
    split_and!; try lia; unfold b2z; case_if; lia.
  - intros a tb s s' r _ _ Hs Htb _. eexists _, _. split; [reflexivity|]. split; [done|].
    cbn in Hs. unfold q_status in Hs. cres_inv. simplify_eq.
    unfold zlen. cbn [q_grant]. rewrite length_take. lia.
Defined.

(** Channel 1 holds five bytes, channel 4 three. *)
Definition demo : queues := {|
  q_data := <[1 := [Byte.x68; Byte.x65; Byte.x6c; Byte.x6c; Byte.x6f]]>
              (<[4 := [Byte.x01; Byte.x02; Byte.x03]]> ∅);
  q_grant := 0 |}.
End QueueRlc.
