(* ===== verification/Hashtable.v ===== *)
(** The chained hash table of [common/utils/hashtable/hashtable.c], which holds the RLC
    entities of the CU.

    A chain is the list of its nodes from the head; a data pointer is a number, 0 for
    [NULL].  The pointers given to [freefunc] are an output of the operations.  The
    specification is a finite map ([gmap]); [ht_rep] relates a table to the map it
    implements. *)
From stdpp Require Import base list gmap numbers sets.
From Stdlib Require Import ZArith Lia.
From S2P Require Import Prelude.
Open Scope Z_scope.

(** [hashtable_rc_t] *)
Inductive hashtable_rc_t :=
| HASH_TABLE_OK
| HASH_TABLE_INSERT_OVERWRITTEN_DATA
| HASH_TABLE_KEY_NOT_EXISTS
| HASH_TABLE_KEY_ALREADY_EXISTS
| HASH_TABLE_BAD_PARAMETER_HASHTABLE
| HASH_TABLE_SYSTEM_ERROR
| HASH_TABLE_MINUS_1.   (* [return -1]: an allocation failed *)

Global Instance hashtable_rc_eq_dec : EqDecision hashtable_rc_t.
Proof. solve_decision. Defined.

(** A node: key and data pointer. *)
Abbreviation hash_node_t := (Z * Z)%type.

Record hash_table_t := {
  size : Z;
  num_elements : Z;
  nodes : list (list hash_node_t);
  hashfunc : Z -> Z;
}.

Definition with_nodes (t : hash_table_t) (n : Z) (l : list (list hash_node_t)) : hash_table_t :=
  Build_hash_table_t (size t) n l (hashfunc t).

(** ** Operations *)

Definition def_hashfunc (keyP : Z) : Z := u64 keyP.

(** [alloc] says whether [malloc] and [calloc] give a block; [garbage] is what [malloc]
    leaves in the member the function does not set. *)
Definition hashtable_create (alloc : bool) (garbage sizeP : Z) (hashfuncP : option (Z -> Z))
  : option hash_table_t :=
  if negb alloc then None
  else Some {|
    size := sizeP;
    num_elements := garbage;
    nodes := replicate (Z.to_nat sizeP) [];
    hashfunc := match hashfuncP with Some f => f | None => def_hashfunc end |}.

(** [hashfunc(keyP) % size]: the operands are unsigned. *)
Definition hash_of (t : hash_table_t) (keyP : Z) : cres Z :=
  if size t =? 0 then Trap FDiv else Ret (u64 (hashfunc t keyP) mod size t).

(** The walk of a chain. *)
Fixpoint chain_find (l : list hash_node_t) (keyP : Z) : option Z :=
  match l with
  | [] => None
  | (k, d) :: l' => if k =? keyP then Some d else chain_find l' keyP
  end.

(** Overwriting the data of the first node with the key. *)
Fixpoint chain_set (l : list hash_node_t) (keyP dataP : Z) : list hash_node_t :=
  match l with
  | [] => []
  | (k, d) :: l' => if k =? keyP then (k, dataP) :: l' else (k, d) :: chain_set l' keyP dataP
  end.

(** Unlinking the first node with the key. *)
Fixpoint chain_remove (l : list hash_node_t) (keyP : Z) : list hash_node_t :=
  match l with
  | [] => []
  | (k, d) :: l' => if k =? keyP then l' else (k, d) :: chain_remove l' keyP
  end.

(** [if (data) freefunc(data)] *)
Definition free_data (d : Z) : list Z := if d =? 0 then [] else [d].

Definition hashtable_destroy (hashtblP : option hash_table_t) : hashtable_rc_t * list Z :=
  match hashtblP with
  | None => (HASH_TABLE_BAD_PARAMETER_HASHTABLE, [])
  | Some t => (HASH_TABLE_OK, mjoin ((fun n => free_data n.2) <$> mjoin (nodes t)))
  end.

Definition hashtable_is_key_exists (hashtblP : option hash_table_t) (keyP : Z)
  : cres hashtable_rc_t :=
  match hashtblP with
  | None => Ret HASH_TABLE_BAD_PARAMETER_HASHTABLE
  | Some t =>
      hash ← hash_of t keyP;
      node ← aget (nodes t) hash;
      match chain_find node keyP with
      | Some _ => Ret HASH_TABLE_OK
      | None => Ret HASH_TABLE_KEY_NOT_EXISTS
      end
  end.

Definition hashtable_get (hashtblP : option hash_table_t) (keyP : Z)
  : cres (hashtable_rc_t * Z) :=
  match hashtblP with
  | None => Ret (HASH_TABLE_BAD_PARAMETER_HASHTABLE, 0)
  | Some t =>
      hash ← hash_of t keyP;
      node ← aget (nodes t) hash;
      match chain_find node keyP with
      | Some d => Ret (HASH_TABLE_OK, d)
      | None => Ret (HASH_TABLE_KEY_NOT_EXISTS, 0)
      end
  end.

(** The result, the table and the pointers given to [freefunc]. *)
Definition hashtable_insert (alloc : bool) (hashtblP : option hash_table_t) (keyP dataP : Z)
  : cres (hashtable_rc_t * option hash_table_t * list Z) :=
  match hashtblP with
  | None => Ret (HASH_TABLE_BAD_PARAMETER_HASHTABLE, None, [])
  | Some t =>
      hash ← hash_of t keyP;
      node ← aget (nodes t) hash;
      match chain_find node keyP with
      | Some d =>
          l ← aset (nodes t) hash (chain_set node keyP dataP);
          Ret (HASH_TABLE_INSERT_OVERWRITTEN_DATA, Some (with_nodes t (num_elements t) l),
               free_data d)
      | None =>
          if negb alloc then Ret (HASH_TABLE_MINUS_1, Some t, [])
          else
            l ← aset (nodes t) hash ((keyP, dataP) :: node);
            Ret (HASH_TABLE_OK, Some (with_nodes t (u64 (num_elements t + 1)) l), [])
      end
  end.

Definition hashtable_remove (hashtblP : option hash_table_t) (keyP : Z)
  : cres (hashtable_rc_t * option hash_table_t * list Z) :=
  match hashtblP with
  | None => Ret (HASH_TABLE_BAD_PARAMETER_HASHTABLE, None, [])
  | Some t =>
      hash ← hash_of t keyP;
      node ← aget (nodes t) hash;
      match chain_find node keyP with
      | Some d =>
          l ← aset (nodes t) hash (chain_remove node keyP);
          Ret (HASH_TABLE_OK, Some (with_nodes t (u64 (num_elements t - 1)) l), free_data d)
      | None => Ret (HASH_TABLE_KEY_NOT_EXISTS, Some t, [])
      end
  end.

(** The calls of the function, in order: a chain is walked to its end, and the next one is
    looked at while fewer elements than [num_elements] were seen. *)
Fixpoint apply_chains (n num : Z) (chains : list (list hash_node_t)) : list hash_node_t :=
  match chains with
  | [] => []
  | c :: chains' =>
      if n <? num then c ++ apply_chains (u32 (n + zlen c)) num chains' else []
  end.

Definition hashtable_apply_funct_on_elements (hashtblP : option hash_table_t)
  : hashtable_rc_t * list hash_node_t :=
  match hashtblP with
  | None => (HASH_TABLE_BAD_PARAMETER_HASHTABLE, [])
  | Some t => (HASH_TABLE_OK, apply_chains 0 (num_elements t) (nodes t))
  end.

(** One node of the resize: it is inserted in [newtbl] and removed, by its key, from the
    table.  The state is [newtbl], the table and the freed pointers; [alloc] says for which
    keys a node is allocated. *)
Definition resize_node (alloc : Z -> bool) (n : hash_node_t)
  (s : option hash_table_t * option hash_table_t * list Z)
  : cres (option hash_table_t * option hash_table_t * list Z) :=
  let '(newtbl, t, freed) := s in
  '(_, newtbl, f1) ← hashtable_insert (alloc n.1) newtbl n.1 n.2;
  '(_, t, f2) ← hashtable_remove t n.1;
  Ret (newtbl, t, freed ++ f1 ++ f2).

(** [next] is read before the node is unlinked, so the walk follows the chain as it was. *)
Definition resize_chain (alloc : Z -> bool) (i : Z)
  (s : option hash_table_t * option hash_table_t * list Z)
  : cres (option hash_table_t * option hash_table_t * list Z) :=
  match s.1.2 with
  | None => Trap FNull
  | Some t => chain ← aget (nodes t) i; for_each (resize_node alloc) chain s
  end.

Definition hashtable_resize (calloc_ok : bool) (alloc : Z -> bool) (garbage : Z)
  (hashtblP : option hash_table_t) (sizeP : Z)
  : cres (hashtable_rc_t * option hash_table_t * list Z) :=
  match hashtblP with
  | None => Ret (HASH_TABLE_BAD_PARAMETER_HASHTABLE, None, [])
  | Some t =>
      let newtbl := {| size := sizeP; num_elements := garbage;
                       nodes := replicate (Z.to_nat sizeP) []; hashfunc := hashfunc t |} in
      if negb calloc_ok then Ret (HASH_TABLE_MINUS_1, Some t, [])
      else
        '(newtbl, tbl, freed) ← for_each (resize_chain alloc) (zrange 0 (Z.to_nat (size t)))
                                  (Some newtbl, Some t, []);
        match newtbl, tbl with
        | Some n, Some t =>
            Ret (HASH_TABLE_OK,
                 Some {| size := size n; num_elements := num_elements t; nodes := nodes n;
                         hashfunc := hashfunc t |}, freed)
        | _, _ => Trap FNull
        end
  end.

(** ** Representation *)

(** The index of the chain of a key. *)
Definition slot_of (t : hash_table_t) (k : Z) : nat := Z.to_nat (u64 (hashfunc t k) mod size t).

Record ht_rep (t : hash_table_t) (m : gmap Z Z) : Prop := {
  rep_pos : 0 < size t;
  rep_len : length (nodes t) = Z.to_nat (size t);
  rep_chain : forall i c, nodes t !! i = Some c ->
    NoDup c.*1 /\ (forall k d, (k, d) ∈ c -> slot_of t k = i);
  rep_find : forall k, exists c, nodes t !! slot_of t k = Some c /\ chain_find c k = m !! k;
}.

(** [num_elements] is exact. *)
Definition ht_count (t : hash_table_t) (m : gmap Z Z) : Prop :=
  num_elements t = Z.of_nat (base.size m).

(** ** Lemmas on chains *)

Lemma chain_find_None c k : chain_find c k = None <-> k ∉ c.*1.
Proof.
  induction c as [|[k' d] c IH]; simpl; [by split; [intros _; apply not_elem_of_nil|]|].
  rewrite not_elem_of_cons. destruct (Z.eqb_spec k' k) as [->|Hne]; [by split; intros; [|by destruct H]|].
  rewrite IH. split; [intros Hn; split; [by apply not_eq_sym|exact Hn]|by intros [_ ?]].
Qed.

Lemma chain_find_Some c k d : NoDup c.*1 -> chain_find c k = Some d <-> (k, d) ∈ c.
Proof.
  induction c as [|[k' d'] c IH]; simpl; intros Hnd; [set_solver|].
  apply NoDup_cons in Hnd as [Hn Hnd]. rewrite elem_of_cons.
  destruct (Z.eqb_spec k' k) as [->|Hne].
  - split; [intros [= ->]; by left|]. intros [[= ->]|Hin]; [done|].
    exfalso. apply Hn. apply list_elem_of_fmap. by exists (k, d).
  - rewrite IH by done. split; [by right|]. intros [[= -> ->]|]; done.
Qed.

Lemma chain_set_keys c k d : (chain_set c k d).*1 = c.*1.
Proof.
  induction c as [|[k' d'] c IH]; csimpl; [done|].
  destruct (Z.eqb_spec k' k); csimpl; congruence.
Qed.

Lemma chain_find_set c k d k' d0 :
  chain_find c k = Some d0 ->
  chain_find (chain_set c k d) k' = if k =? k' then Some d else chain_find c k'.
Proof.
  induction c as [|[k1 d1] c IH]; simpl; [done|].
  destruct (Z.eqb_spec k1 k) as [->|Hne]; simpl; intros Hf; [by destruct (k =? k')|].
  rewrite IH by done. destruct (Z.eqb_spec k k') as [->|]; [|done].
  by rewrite (proj2 (Z.eqb_neq k1 k')).
Qed.

Lemma chain_find_remove c k k' :
  NoDup c.*1 -> chain_find (chain_remove c k) k' = if k =? k' then None else chain_find c k'.
Proof.
  induction c as [|[k1 d1] c IH]; csimpl; [by destruct (k =? k')|].
  intros [Hn Hnd]%NoDup_cons.
  destruct (Z.eqb_spec k1 k) as [->|Hne]; simpl.
  - destruct (Z.eqb_spec k k') as [->|]; [by apply chain_find_None|done].
  - rewrite IH by done. destruct (Z.eqb_spec k k') as [->|]; [|done].
    by rewrite (proj2 (Z.eqb_neq k1 k')).
Qed.

Lemma chain_remove_sub c k : sublist (chain_remove c k) c.
Proof.
  induction c as [|[k1 d1] c IH]; simpl; [done|].
  destruct (k1 =? k); [by apply sublist_cons|by apply sublist_skip].
Qed.

(** ** Lemmas on tables *)

Lemma slot_of_lt t k : 0 < size t -> (slot_of t k < Z.to_nat (size t))%nat.
Proof.
  intros H. unfold slot_of. pose proof (Z.mod_pos_bound (u64 (hashfunc t k)) (size t)). lia.
Qed.

(** The common start of the operations: the chain of the key. *)
Lemma hash_of_rep t m k :
  ht_rep t m -> exists c,
    hash_of t k = Ret (Z.of_nat (slot_of t k)) /\ aget (nodes t) (Z.of_nat (slot_of t k)) = Ret c /\
    nodes t !! slot_of t k = Some c /\ chain_find c k = m !! k /\ NoDup c.*1.
Proof.
  intros [Hp Hl Hc Hf]. destruct (Hf k) as (c & Hn & Hk). exists c.
  unfold hash_of. rewrite (proj2 (Z.eqb_neq _ _)) by lia. split_and!; [| |done|done|].
  - f_equal. unfold slot_of. rewrite Z2Nat.id; [done|].
    pose proof (Z.mod_pos_bound (u64 (hashfunc t k)) (size t)). lia.
  - apply aget_ok; [lia|]. by rewrite Nat2Z.id.
  - by destruct (Hc _ _ Hn).
Qed.

(** Replacing the chain of [k] by [c']. *)
Lemma rep_update t m m' k c' n :
  ht_rep t m -> NoDup c'.*1 -> (forall k' d, (k', d) ∈ c' -> slot_of t k' = slot_of t k) ->
  (forall k', slot_of t k' = slot_of t k -> chain_find c' k' = m' !! k') ->
  (forall k', slot_of t k' <> slot_of t k -> m' !! k' = m !! k') ->
  ht_rep (with_nodes t n (<[slot_of t k := c']> (nodes t))) m'.
Proof.
  intros [Hp Hl Hc Hf] Hnd Hin Hsame Hother.
  pose proof (slot_of_lt t k Hp) as Hlt. constructor; cbn [with_nodes size nodes].
  - done.
  - by rewrite length_insert.
  - intros i c [(<- & <- & _)|[Hne Hi]]%list_lookup_insert_Some; [|by apply Hc].
    split; [done|]. intros k' d Hk'. apply (Hin k' d Hk').
  - intros k'. change (slot_of (with_nodes t n _) k') with (slot_of t k').
    destruct (decide (slot_of t k' = slot_of t k)) as [He|Hne].
    + exists c'. rewrite He, list_lookup_insert_eq by lia. auto.
    + destruct (Hf k') as (c & Hn & Hk). exists c.
      by rewrite list_lookup_insert_ne, Hother by done.
Qed.

(** The counter plays no part in the representation. *)
Lemma rep_num t m n : ht_rep t m -> ht_rep (with_nodes t n (nodes t)) m.
Proof. intros [H1 H2 H3 H4]. by constructor. Qed.

Lemma rep_empty g s f t :
  hashtable_create true g s f = Some t -> 0 < s -> ht_rep t ∅ /\ num_elements t = g.
Proof.
  intros [= <-] Hs. split; [|done]. constructor; cbn [size nodes].
  - done.
  - by rewrite length_replicate.
  - intros i c [-> _]%lookup_replicate. split; [constructor|]. intros k d Hk. by apply not_elem_of_nil in Hk.
  - intros k. exists []. split; [|by rewrite lookup_empty].
    apply lookup_replicate. split; [done|]. by apply (slot_of_lt (Build_hash_table_t s g _ _)).
Qed.

Lemma insert_rep t m k d :
  ht_rep t m -> exists t' f,
    hashtable_insert true (Some t) k d =
      Ret (match m !! k with Some _ => HASH_TABLE_INSERT_OVERWRITTEN_DATA | None => HASH_TABLE_OK end,
           Some t', f) /\
    ht_rep t' (<[k := d]> m) /\ hashfunc t' = hashfunc t /\ size t' = size t /\
    f = match m !! k with Some d0 => free_data d0 | None => [] end /\
    num_elements t' = match m !! k with Some _ => num_elements t | None => u64 (num_elements t + 1) end.
Proof.
  intros Ht. destruct (hash_of_rep t m k Ht) as (c & Eh & Ea & Hn & Hf & Hnd).
  pose proof Ht as [Hp Hl Hc _]. pose proof (slot_of_lt t k Hp).
  assert (Hset : forall c', aset (nodes t) (Z.of_nat (slot_of t k)) c' =
    Ret (<[slot_of t k := c']> (nodes t))).
  { intros. rewrite aset_ok by (unfold zlen; lia). by rewrite Nat2Z.id. }
  unfold hashtable_insert. rewrite Eh. cbn [mbind cres_bind]. rewrite Ea. cbn [mbind cres_bind].
  rewrite Hf. destruct (m !! k) as [d0|] eqn:Em.
  - rewrite Hset. cbn [mbind cres_bind]. eexists _, _. split; [done|]. split; [|done].
    eapply rep_update; [exact Ht|by rewrite chain_set_keys| | |].
    + intros k' d' Hin. assert (Hk' : k' ∈ c.*1).
      { rewrite <- (chain_set_keys c k d). apply list_elem_of_fmap. by exists (k', d'). }
      apply list_elem_of_fmap in Hk' as ([k1 d1] & -> & Hin'). by eapply (Hc _ _ Hn).
    + intros k' Hs. rewrite (chain_find_set _ _ _ _ d0) by done.
      destruct (Z.eqb_spec k k') as [->|Hne]; [by rewrite lookup_insert_eq|].
      rewrite lookup_insert_ne by done. destruct (rep_find _ _ Ht k') as (c1 & Hc1 & <-).
      rewrite Hs in Hc1. congruence.
    + intros k' Hs. apply lookup_insert_ne. congruence.
  - cbn [negb]. rewrite Hset. cbn [mbind cres_bind]. eexists _, _. split; [done|]. split; [|done].
    eapply rep_update; [exact Ht| | | |].
    + csimpl. apply NoDup_cons. split; [|done]. by apply chain_find_None.
    + intros k' d' [[= -> ->]|Hin]%elem_of_cons; [done|]. by eapply (Hc _ _ Hn).
    + intros k' Hs. simpl. destruct (Z.eqb_spec k k') as [->|Hne]; [by rewrite lookup_insert_eq|].
      rewrite lookup_insert_ne by done. destruct (rep_find _ _ Ht k') as (c1 & Hc1 & <-).
      rewrite Hs in Hc1. congruence.
    + intros k' Hs. apply lookup_insert_ne. congruence.
Qed.

Lemma remove_rep t m k :
  ht_rep t m -> exists t' f,
    hashtable_remove (Some t) k =
      Ret (match m !! k with Some _ => HASH_TABLE_OK | None => HASH_TABLE_KEY_NOT_EXISTS end,
           Some t', f) /\
    ht_rep t' (delete k m) /\ hashfunc t' = hashfunc t /\ size t' = size t /\
    f = match m !! k with Some d0 => free_data d0 | None => [] end /\
    num_elements t' = match m !! k with Some _ => u64 (num_elements t - 1) | None => num_elements t end /\
    forall c, nodes t !! slot_of t k = Some c ->
      nodes t' = <[slot_of t k := chain_remove c k]> (nodes t).
Proof.
  intros Ht. destruct (hash_of_rep t m k Ht) as (c & Eh & Ea & Hn & Hf & Hnd).
  pose proof Ht as [Hp Hl Hc _]. pose proof (slot_of_lt t k Hp).
  unfold hashtable_remove. rewrite Eh. cbn [mbind cres_bind]. rewrite Ea. cbn [mbind cres_bind].
  rewrite Hf. destruct (m !! k) as [d0|] eqn:Em.
  - rewrite aset_ok by (unfold zlen; lia). rewrite Nat2Z.id. cbn [mbind cres_bind].
    eexists _, _. split; [done|]. split; [|split_and!; [done..|]].
    2: { intros c1 Hc1. cbn [nodes with_nodes]. congruence. }
    eapply rep_update; [exact Ht| | | |].
    + eapply sublist_NoDup; [exact Hnd|apply fmap_sublist, chain_remove_sub].
    + intros k' d' Hin. eapply (Hc _ _ Hn). eapply elem_of_sublist; [exact Hin|].
      apply chain_remove_sub.
    + intros k' Hs. rewrite chain_find_remove by done.
      destruct (Z.eqb_spec k k') as [->|Hne]; [by rewrite lookup_delete_eq|].
      rewrite lookup_delete_ne by done. destruct (rep_find _ _ Ht k') as (c1 & Hc1 & <-).
      rewrite Hs in Hc1. congruence.
    + intros k' Hs. apply lookup_delete_ne. congruence.
  - eexists _, _. split; [done|]. rewrite delete_id by done. split_and!; [done..|].
    intros c1 Hc1. rewrite Hn in Hc1. injection Hc1 as <-. symmetry. apply list_insert_id.
    rewrite Hn. f_equal. clear -Hf. induction c as [|[k1 d1] c IH]; simpl in *; [done|].
    destruct (k1 =? k); [done|]. by rewrite <- IH.
Qed.

Lemma get_rep t m k :
  ht_rep t m ->
  hashtable_get (Some t) k =
    Ret (match m !! k with Some d => (HASH_TABLE_OK, d) | None => (HASH_TABLE_KEY_NOT_EXISTS, 0) end) /\
  hashtable_is_key_exists (Some t) k =
    Ret (match m !! k with Some _ => HASH_TABLE_OK | None => HASH_TABLE_KEY_NOT_EXISTS end).
Proof.
  intros Ht. destruct (hash_of_rep t m k Ht) as (c & Eh & Ea & Hn & Hf & Hnd).
  unfold hashtable_get, hashtable_is_key_exists. rewrite Eh. cbn [mbind cres_bind]. rewrite Ea.
  cbn [mbind cres_bind]. rewrite Hf. by destruct (m !! k).
Qed.

(** The content of a table is the content of its chains. *)
Lemma rep_elem t m k d : ht_rep t m -> (k, d) ∈ mjoin (nodes t) <-> m !! k = Some d.
Proof.
  intros [Hp Hl Hc Hf]. rewrite list_elem_of_join. split.
  - intros (c & Hk & Hin). apply list_elem_of_lookup in Hin as [i Hi].
    destruct (Hc i c Hi) as [Hnd Hs]. destruct (Hf k) as (c' & Hc' & <-).
    rewrite (Hs k d Hk) in Hc'. assert (c' = c) as -> by congruence. by apply chain_find_Some.
  - intros Hm. destruct (Hf k) as (c & Hn & Hk). exists c. rewrite Hm in Hk.
    destruct (Hc _ _ Hn) as [Hnd _]. split; [by apply chain_find_Some|].
    by eapply list_elem_of_lookup_2.
Qed.

(** Chains with pairwise distinct keys have no duplicate together. *)
Lemma join_NoDup (f : Z -> nat) (ls : list (list hash_node_t)) : forall b,
  (forall i c, ls !! i = Some c -> NoDup c.*1 /\ forall k d, (k, d) ∈ c -> f k = (b + i)%nat) ->
  NoDup (mjoin ls).
Proof.
  induction ls as [|c ls IH]; intros b H; [constructor|]. simpl. apply NoDup_app.
  destruct (H 0%nat c eq_refl) as [Hnd Hs]. split; [by eapply NoDup_fmap_1|]. split.
  - intros [k d] Hk Hin. apply list_elem_of_join in Hin as (c' & Hk' & Hc').
    apply list_elem_of_lookup in Hc' as [i Hi]. destruct (H (S i) c' Hi) as [_ Hs'].
    specialize (Hs k d Hk). specialize (Hs' k d Hk'). lia.
  - apply (IH (S b)). intros i c' Hi. destruct (H (S i) c' Hi) as [H1 H2]. split; [done|].
    intros k d Hk. rewrite (H2 k d Hk). lia.
Qed.

Lemma rep_perm t m : ht_rep t m -> mjoin (nodes t) ≡ₚ map_to_list m.
Proof.
  intros Ht. apply NoDup_Permutation.
  - apply (join_NoDup (slot_of t) _ 0). intros i c Hi. by apply (rep_chain _ _ Ht).
  - apply NoDup_map_to_list.
  - intros [k d]. rewrite (rep_elem t m) by done. by rewrite elem_of_map_to_list.
Qed.

(** With an exact count, the walk sees every element. *)
Lemma apply_chains_all n chains :
  0 <= n -> n + zlen (mjoin chains) < 2 ^ 32 ->
  apply_chains n (n + zlen (mjoin chains)) chains = mjoin chains.
Proof.
  revert n. induction chains as [|c chains IH]; intros n Hn Hb; [done|]. simpl in *.
  rewrite zlen_app in *. pose proof (zlen_nonneg c). pose proof (zlen_nonneg (mjoin chains)).
  rewrite u32_small by lia. case_if; bool_to_prop.
  - f_equal. rewrite Z.add_assoc. apply IH; lia.
  - symmetry. apply app_nil. unfold zlen in *. split; apply nil_length_inv; lia.
Qed.

(** ** The specification over a sequence of operations *)

Inductive ht_op :=
| OpInsert (k d : Z)
| OpRemove (k : Z)
| OpGet (k : Z)
| OpExists (k : Z).

(** What an operation returns: the code, the data of a [get], the freed pointers. *)
Abbreviation ht_out := (hashtable_rc_t * Z * list Z)%type.

Definition spec_step (o : ht_op) (m : gmap Z Z) : gmap Z Z * ht_out :=
  match o with
  | OpInsert k d =>
      (<[k := d]> m,
       match m !! k with
       | Some d0 => (HASH_TABLE_INSERT_OVERWRITTEN_DATA, 0, free_data d0)
       | None => (HASH_TABLE_OK, 0, [])
       end)
  | OpRemove k =>
      (delete k m,
       match m !! k with
       | Some d0 => (HASH_TABLE_OK, 0, free_data d0)
       | None => (HASH_TABLE_KEY_NOT_EXISTS, 0, [])
       end)
  | OpGet k =>
      (m, match m !! k with
          | Some d => (HASH_TABLE_OK, d, [])
          | None => (HASH_TABLE_KEY_NOT_EXISTS, 0, [])
          end)
  | OpExists k =>
      (m, (match m !! k with Some _ => HASH_TABLE_OK | None => HASH_TABLE_KEY_NOT_EXISTS end, 0, []))
  end.

Fixpoint spec_run (l : list ht_op) (m : gmap Z Z) : gmap Z Z * list ht_out :=
  match l with
  | [] => (m, [])
  | o :: l' => let '(m, r) := spec_step o m in let '(m, rs) := spec_run l' m in (m, r :: rs)
  end.

Definition impl_step (o : ht_op) (t : option hash_table_t) : cres (option hash_table_t * ht_out) :=
  match o with
  | OpInsert k d => '(rc, t, f) ← hashtable_insert true t k d; Ret (t, (rc, 0, f))
  | OpRemove k => '(rc, t, f) ← hashtable_remove t k; Ret (t, (rc, 0, f))
  | OpGet k => '(rc, d) ← hashtable_get t k; Ret (t, (rc, d, []))
  | OpExists k => rc ← hashtable_is_key_exists t k; Ret (t, (rc, 0, []))
  end.

Fixpoint impl_run (l : list ht_op) (t : option hash_table_t)
  : cres (option hash_table_t * list ht_out) :=
  match l with
  | [] => Ret (t, [])
  | o :: l' => '(t, r) ← impl_step o t; '(t, rs) ← impl_run l' t; Ret (t, r :: rs)
  end.

Lemma impl_step_ok o t m :
  ht_rep t m -> exists t',
    impl_step o (Some t) = Ret (Some t', (spec_step o m).2) /\ ht_rep t' (spec_step o m).1 /\
    (num_elements t = u64 (Z.of_nat (base.size m)) ->
     num_elements t' = u64 (Z.of_nat (base.size (spec_step o m).1))).
Proof.
  intros Ht. destruct o as [k d|k|k|k]; cbn [impl_step spec_step fst snd].
  - destruct (insert_rep t m k d Ht) as (t' & f & E & Ht' & _ & _ & -> & Hn).
    exists t'. rewrite E. cbn [mbind cres_bind]. split; [by destruct (m !! k)|]. split; [done|].
    rewrite Hn. intros Hc. destruct (m !! k) eqn:Em.
    + by rewrite map_size_insert_Some.
    + rewrite map_size_insert_None by done. rewrite Hc. unfold u64.
      rewrite Zplus_mod_idemp_l. f_equal. lia.
  - destruct (remove_rep t m k Ht) as (t' & f & E & Ht' & _ & _ & -> & Hn & _).
    exists t'. rewrite E. cbn [mbind cres_bind]. split; [by destruct (m !! k)|]. split; [done|].
    rewrite Hn. intros Hc. destruct (m !! k) eqn:Em.
    + rewrite Hc. rewrite map_size_delete_Some by done.
      assert (base.size m <> 0%nat) by (intros H0%map_size_empty_inv; by rewrite H0, lookup_empty in Em).
      unfold u64. rewrite Zminus_mod_idemp_l. f_equal. lia.
    + by rewrite map_size_delete_None.
  - destruct (get_rep t m k Ht) as [E _]. exists t. rewrite E. by destruct (m !! k).
  - destruct (get_rep t m k Ht) as [_ E]. exists t. rewrite E. by destruct (m !! k).
Qed.

Lemma impl_run_ok l : forall t m,
  ht_rep t m -> exists t',
    impl_run l (Some t) = Ret (Some t', (spec_run l m).2) /\ ht_rep t' (spec_run l m).1 /\
    (num_elements t = u64 (Z.of_nat (base.size m)) ->
     num_elements t' = u64 (Z.of_nat (base.size (spec_run l m).1))).
Proof.
  induction l as [|o l IH]; intros t m Ht; [by exists t|].
  destruct (impl_step_ok o t m Ht) as (t1 & E1 & Ht1 & Hc1).
  cbn [impl_run spec_run]. rewrite E1. destruct (spec_step o m) as [m1 r1]. cbn [mbind cres_bind fst snd] in *.
  destruct (IH t1 m1 Ht1) as (t2 & E2 & Ht2 & Hc2). exists t2. rewrite E2.
  destruct (spec_run l m1) as [m2 rs]. cbn [mbind cres_bind fst snd] in *. auto.
Qed.

(** ** Resizing *)

(** The state of the resize: what was moved and what is left make up the map; what was
    moved was also given to [freefunc]; the count of the table went down by as much. *)
Record resize_inv (m : gmap Z Z) (num : Z) (n t : hash_table_t) (fr : list Z)
  (mn mt : gmap Z Z) : Prop := {
  ri_new : ht_rep n mn;
  ri_old : ht_rep t mt;
  ri_disj : mn ##ₘ mt;
  ri_union : mn ∪ mt = m;
  ri_freed : forall k d, mn !! k = Some d -> d <> 0 -> d ∈ fr;
  ri_num : num_elements t = u64 (num - Z.of_nat (base.size mn));
}.

Lemma resize_node_ok m num n t fr mn mt k d c :
  resize_inv m num n t fr mn mt -> nodes t !! slot_of t k = Some ((k, d) :: c) ->
  exists n' t' fr' mn' mt',
    resize_node (fun _ => true) (k, d) (Some n, Some t, fr) = Ret (Some n', Some t', fr') /\
    resize_inv m num n' t' fr' mn' mt' /\
    size n' = size n /\ size t' = size t /\ hashfunc t' = hashfunc t /\ hashfunc n' = hashfunc n /\
    nodes t' = <[slot_of t k := c]> (nodes t).
Proof.
  intros [Hn Ht Hd Hu Hf Hc] Hk.
  assert (Em : mt !! k = Some d).
  { destruct (rep_find _ _ Ht k) as (c' & Hc' & <-). rewrite Hk in Hc'. injection Hc' as <-.
    simpl. by rewrite Z.eqb_refl. }
  assert (En : mn !! k = None) by (eapply map_disjoint_Some_r; done).
  destruct (insert_rep n mn k d Hn) as (n' & f1 & E1 & Hn' & Hh1 & Hs1 & -> & _).
  destruct (remove_rep t mt k Ht) as (t' & f2 & E2 & Ht' & Hh2 & Hs2 & -> & Hc2 & Hnodes).
  rewrite En, Em in *.
  exists n', t', (fr ++ [] ++ free_data d), (<[k := d]> mn), (delete k mt).
  split; [unfold resize_node; cbn [fst snd]; rewrite E1; cbn [mbind cres_bind]; by rewrite E2|].
  split; [constructor|].
  - done.
  - done.
  - apply map_disjoint_insert_l_2; [by rewrite lookup_delete_eq|]. by apply map_disjoint_delete_r.
  - rewrite <- insert_union_l, insert_union_r by done. by rewrite insert_delete_id, Hu.
  - intros k' d' [[<- <-]|[_ Hk']]%lookup_insert_Some Hd'; apply elem_of_app.
    + right. unfold free_data. rewrite (proj2 (Z.eqb_neq _ _)) by done. simpl. by apply list_elem_of_singleton.
    + left. by eapply Hf.
  - rewrite Hc2, Hc, map_size_insert_None by done. unfold u64. rewrite Zminus_mod_idemp_l.
    f_equal. lia.
  - split_and!; [done..|]. rewrite (Hnodes _ Hk). simpl. by rewrite Z.eqb_refl.
Qed.

Lemma resize_chain_ok m num c : forall n t fr mn mt i,
  resize_inv m num n t fr mn mt -> nodes t !! i = Some c ->
  exists n' t' fr' mn' mt',
    for_each (resize_node (fun _ => true)) c (Some n, Some t, fr) = Ret (Some n', Some t', fr') /\
    resize_inv m num n' t' fr' mn' mt' /\
    size n' = size n /\ size t' = size t /\ hashfunc t' = hashfunc t /\ hashfunc n' = hashfunc n /\
    nodes t' = <[i := []]> (nodes t).
Proof.
  induction c as [|[k d] c IH]; intros n t fr mn mt i Hi Hc.
  { exists n, t, fr, mn, mt. split_and!; try done. symmetry. by apply list_insert_id. }
  assert (Hs : slot_of t k = i).
  { destruct (rep_chain _ _ (ri_old _ _ _ _ _ _ _ Hi) _ _ Hc) as [_ H]. apply (H k d). by left. }
  destruct (resize_node_ok m num n t fr mn mt k d c Hi) as
    (n1 & t1 & fr1 & mn1 & mt1 & E1 & Hi1 & S1 & S2 & S3 & S4 & N1); [by rewrite Hs|].
  rewrite Hs in N1.
  destruct (IH n1 t1 fr1 mn1 mt1 i Hi1) as
    (n2 & t2 & fr2 & mn2 & mt2 & E2 & Hi2 & S5 & S6 & S7 & S8 & N2).
  { rewrite N1. apply list_lookup_insert_eq. by eapply lookup_lt_Some. }
  exists n2, t2, fr2, mn2, mt2. cbn [for_each]. rewrite E1. cbn [mbind cres_bind]. rewrite E2.
  split_and!; [done|done|congruence..|]. by rewrite N2, N1, list_insert_insert_eq.
Qed.

Lemma resize_chain_unfold alloc i n t fr c :
  nodes t !! i = Some c ->
  resize_chain alloc (Z.of_nat i) (n, Some t, fr) =
  for_each (resize_node alloc) c (n, Some t, fr).
Proof.
  intros Hc. unfold resize_chain. cbn [fst snd].
  by rewrite (aget_ok _ _ c) by (rewrite ?Nat2Z.id; done || lia).
Qed.

Lemma resize_loop_ok m num k : forall n t fr mn mt i,
  resize_inv m num n t fr mn mt -> (i + k = length (nodes t))%nat ->
  (forall j, (j < i)%nat -> nodes t !! j = Some []) ->
  exists n' t' fr' mn' mt',
    for_each (resize_chain (fun _ => true)) (zrange (Z.of_nat i) k) (Some n, Some t, fr) =
      Ret (Some n', Some t', fr') /\
    resize_inv m num n' t' fr' mn' mt' /\ size n' = size n /\ hashfunc t' = hashfunc t /\
    hashfunc n' = hashfunc n /\ forall c, c ∈ nodes t' -> c = [].
Proof.
  induction k as [|k IH]; intros n t fr mn mt i Hi Hk Hz.
  { exists n, t, fr, mn, mt. split_and!; try done. intros c [j Hj]%list_elem_of_lookup.
    pose proof (lookup_lt_Some _ _ _ Hj). rewrite Hz in Hj by lia. congruence. }
  destruct (lookup_lt_is_Some_2 (nodes t) i) as [c Hc]; [lia|].
  destruct (resize_chain_ok m num c n t fr mn mt i Hi Hc) as
    (n1 & t1 & fr1 & mn1 & mt1 & E1 & Hi1 & S1 & S2 & S3 & S4 & N1).
  destruct (IH n1 t1 fr1 mn1 mt1 (S i) Hi1) as
    (n2 & t2 & fr2 & mn2 & mt2 & E2 & Hi2 & S5 & S6 & S7 & Hall).
  { rewrite N1, length_insert. lia. }
  { intros j Hj. rewrite N1. destruct (decide (j = i)) as [->|].
    - apply list_lookup_insert_eq. lia.
    - rewrite list_lookup_insert_ne by done. apply Hz. lia. }
  exists n2, t2, fr2, mn2, mt2.
  replace (zrange (Z.of_nat i) (S k)) with (Z.of_nat i :: zrange (Z.of_nat (S i)) k).
  2: { unfold zrange. rewrite (seqZ_cons (Z.of_nat i)) by lia. do 2 f_equal; lia. }
  cbn [for_each]. rewrite (resize_chain_unfold _ _ _ _ _ c Hc), E1. cbn [mbind cres_bind]. rewrite E2. split_and!; try done; congruence.
Qed.

(** ** Properties *)

(** C15: the table refines a finite map.  From a table of any positive size, with any hash
    function and whatever [malloc] left in [num_elements], every sequence of insertions,
    removals and searches runs without leaving the array of chains, and returns at each step
    the same code, the same data pointer and the same freed pointers as the map.  The final
    table represents the final map. *)
Theorem hashtable_refines_map garbage sizeP f (ops : list ht_op) :
  0 < sizeP ->
  exists t, impl_run ops (hashtable_create true garbage sizeP f) =
    Ret (Some t, (spec_run ops ∅).2) /\ ht_rep t (spec_run ops ∅).1.
Proof.
  intros Hs. destruct (hashtable_create true garbage sizeP f) as [t0|] eqn:E0; [|done].
  destruct (rep_empty _ _ _ _ E0 Hs) as [Ht0 _].
  destruct (impl_run_ok ops t0 ∅ Ht0) as (t & E & Ht & _). eauto.
Qed.

(** Three keys in two chains; 7 is overwritten, then removed. *)
Definition demo_ops : list ht_op :=
  [OpInsert 7 100; OpInsert 9 0; OpInsert 7 200; OpInsert 4 300; OpGet 7; OpRemove 7; OpGet 7;
   OpExists 9].

Lemma hashtable_refines_map_witness :
  exists t, impl_run demo_ops (hashtable_create true 12345 2 None) =
    Ret (Some t, [(HASH_TABLE_OK, 0, []); (HASH_TABLE_OK, 0, []);
                  (HASH_TABLE_INSERT_OVERWRITTEN_DATA, 0, [100]); (HASH_TABLE_OK, 0, []);
                  (HASH_TABLE_OK, 200, []); (HASH_TABLE_OK, 0, [200]);
                  (HASH_TABLE_KEY_NOT_EXISTS, 0, []); (HASH_TABLE_OK, 0, [])]).
Proof.
  destruct (hashtable_refines_map 12345 2 None demo_ops) as (t & E & _); [lia|].
  exists t. exact E.
Defined.

(** Iteration.  In a table whose counter was zero at the start, after any sequence of
    operations, [hashtable_apply_funct_on_elements] calls the function exactly once for
    every element of the map (for fewer than 2^32 elements, the width of its counter). *)
Theorem hashtable_apply_visits_all sizeP f (ops : list ht_op) :
  0 < sizeP -> Z.of_nat (base.size (spec_run ops ∅).1) < 2 ^ 32 ->
  exists t out visited,
    impl_run ops (hashtable_create true 0 sizeP f) = Ret (Some t, out) /\
    hashtable_apply_funct_on_elements (Some t) = (HASH_TABLE_OK, visited) /\
    visited ≡ₚ map_to_list (spec_run ops ∅).1.
Proof.
  intros Hs Hb. destruct (hashtable_create true 0 sizeP f) as [t0|] eqn:E0; [|done].
  destruct (rep_empty _ _ _ _ E0 Hs) as [Ht0 Hn0].
  destruct (impl_run_ok ops t0 ∅ Ht0) as (t & E & Ht & Hc).
  specialize (Hc ltac:(by rewrite Hn0)). rewrite u64_small in Hc by lia.
  pose proof (rep_perm _ _ Ht) as Hp.
  assert (Hlen : zlen (mjoin (nodes t)) = num_elements t).
  { unfold zlen. rewrite Hp, length_map_to_list. lia. }
  eexists t, _, _. split; [exact E|]. split; [reflexivity|].
  pose proof (apply_chains_all 0 (nodes t) ltac:(lia) ltac:(lia)) as Hall.
  rewrite Z.add_0_l, Hlen in Hall. by rewrite Hall, <- Hp.
Qed.

Lemma hashtable_apply_visits_all_witness :
  exists t out, impl_run demo_ops (hashtable_create true 0 2 None) = Ret (Some t, out) /\
    exists visited, hashtable_apply_funct_on_elements (Some t) = (HASH_TABLE_OK, visited) /\
      visited ≡ₚ [(9, 0); (4, 300)].
Proof.
  destruct (hashtable_apply_visits_all 2 None demo_ops) as (t & out & v & E & Ev & Hv).
  - lia.
  - reflexivity.
  - exists t, out. split; [exact E|]. exists v. split; [exact Ev|]. rewrite Hv. vm_compute.
    reflexivity.
Defined.

(** Resizing frees the data it keeps.  When every allocation succeeds,
    [hashtable_resize] returns a table that holds the same keys and the same pointers, but
    every one of these pointers (other than [NULL]) has been given to [freefunc] on the
    way, because the element is moved by removing it from the old table; and the counter
    has gone down to the initial value of an empty table. *)
Theorem hashtable_resize_frees_kept_data garbage t m sizeP :
  ht_rep t m -> 0 < sizeP -> num_elements t = u64 (Z.of_nat (base.size m)) ->
  exists t' freed,
    hashtable_resize true (fun _ => true) garbage (Some t) sizeP =
      Ret (HASH_TABLE_OK, Some t', freed) /\
    ht_rep t' m /\ num_elements t' = 0 /\
    forall k d, m !! k = Some d -> d <> 0 -> d ∈ freed.
Proof.
  intros Ht Hs Hc.
  set (n0 := {| size := sizeP; num_elements := garbage;
                nodes := replicate (Z.to_nat sizeP) []; hashfunc := hashfunc t |}).
  assert (Hn0 : ht_rep n0 ∅).
  { by destruct (rep_empty garbage sizeP (Some (hashfunc t)) n0 eq_refl Hs). }
  destruct (resize_loop_ok m (num_elements t) (Z.to_nat (size t)) n0 t [] ∅ m 0)
    as (n' & t' & fr & mn & mt & E & [H1 H2 H3 H4 H5 H6] & S1 & S2 & S3 & Hall).
  - constructor; [done|done|apply map_disjoint_empty_l|by rewrite (left_id_L ∅ (∪))| |].
    + intros k d. by rewrite lookup_empty.
    + rewrite Hc. rewrite map_size_empty, Z.sub_0_r. unfold u64. by rewrite Zmod_mod.
  - by rewrite (rep_len _ _ Ht).
  - intros j Hj. lia.
  - assert (mt = ∅) as ->.
    { apply map_empty. intros k. destruct (rep_find _ _ H2 k) as (c & Hn & <-).
      rewrite (Hall c); [done|]. by eapply list_elem_of_lookup_2. }
    rewrite (right_id_L ∅ (∪)) in H4. subst mn.
    eexists _, fr. unfold hashtable_resize. cbn [negb]. fold n0.
    change (Z.of_nat 0) with 0 in E. rewrite E. cbn [mbind cres_bind].
    split; [reflexivity|]. split_and!.
    + replace (hashfunc t') with (hashfunc n') by (rewrite S3; done).
      exact (rep_num _ _ (num_elements t') H1).
    + cbn [num_elements]. rewrite H6, Hc. unfold u64. rewrite Zminus_mod_idemp_l, Z.sub_diag. done.
    + exact H5.
Qed.

Lemma hashtable_resize_frees_kept_data_witness :
  exists t', hashtable_resize true (fun _ => true) 5
    (Some {| size := 1; num_elements := 1; nodes := [[(7, 100)]]; hashfunc := def_hashfunc |}) 4 =
    Ret (HASH_TABLE_OK, Some t', [100]) /\ hashtable_get (Some t') 7 = Ret (HASH_TABLE_OK, 100).
Proof.
  destruct (hashtable_resize_frees_kept_data 5
    {| size := 1; num_elements := 1; nodes := [[(7, 100)]]; hashfunc := def_hashfunc |}
    {[ 7 := 100 ]} 4) as (t' & fr & E & Ht & _ & Hf).
  - constructor; cbn [size nodes].
    + lia.
    + reflexivity.
    + intros [|i] c Hi; [|discriminate]. injection Hi as <-. split; [apply NoDup_singleton|].
      intros k d Hk. apply list_elem_of_singleton in Hk as [= -> ->]. reflexivity.
    + intros k. exists [(7, 100)]. unfold slot_of. cbn [size]. rewrite Z.mod_1_r. split; [done|].
      cbn [chain_find]. destruct (Z.eqb_spec 7 k) as [<-|Hne];
        [by rewrite lookup_singleton_eq|by rewrite lookup_singleton_ne].
  - lia.
  - reflexivity.
  - exists t'. split; [rewrite E|].
    + do 2 f_equal.
      assert (E1 : hashtable_resize true (fun _ => true) 5 (Some {| size := 1; num_elements := 1;
        nodes := [[(7, 100)]]; hashfunc := def_hashfunc |}) 4 =
        Ret (HASH_TABLE_OK, Some {| size := 4; num_elements := 0;
          nodes := [[]; []; []; [(7, 100)]]; hashfunc := def_hashfunc |}, [100])) by reflexivity.
      congruence.
    + apply (get_rep t' _ 7 Ht).
Defined.
