(* ===== verification/Lists.v ===== *)
(** The singly linked lists of memory blocks of [openair2/UTIL/LISTS/list.c].

    A block is its address, a number, 0 for [NULL]; the store [heap] gives the [next] member
    of every block.  The lists share the store, so an operation on one list can disturb
    another one: [lrep] says which blocks a list owns, in order, and the lemmas say which
    members of the store an operation changes. *)
From stdpp Require Import base list gmap numbers sets.
From Stdlib Require Import ZArith Lia.
From S2P Require Import Prelude.
Open Scope Z_scope.

(** The [next] members. *)
Abbreviation heap := (gmap Z Z).

Record list_t := {
  head : Z;
  tail : Z;
  nb_elements : Z;
}.

(** [p->next] and [p->next = v]. *)
Definition get_next (h : heap) (p : Z) : cres Z :=
  match h !! p with Some v => Ret v | None => Trap FNull end.
Definition set_next (h : heap) (p v : Z) : cres heap :=
  match h !! p with Some _ => Ret (<[p := v]> h) | None => Trap FNull end.

(** ** Operations *)

(** The name is for traces only. *)
Definition list_init : list_t := Build_list_t 0 0 0.

Definition list_get_head (l : list_t) : Z := head l.

Definition list_remove_head (l : list_t) (h : heap) : cres (Z * list_t * heap) :=
  let hd := head l in
  if negb (hd =? 0) then
    nx ← get_next h hd;
    let n := i32 (nb_elements l - 1) in
    if nx =? 0 then Ret (hd, Build_list_t 0 0 n, h)
    else h ← set_next h hd 0; Ret (hd, Build_list_t nx (tail l) n, h)
  else Ret (hd, l, h).

(** The search loop of [list_remove_element], from block [hd]; [fuel] bounds the steps. *)
Fixpoint remove_walk (fuel : nat) (hd elementP : Z) (l : list_t) (h : heap)
  : cres (list_t * heap) :=
  match fuel with
  | O => Trap FFuel
  | S fuel =>
      if hd =? 0 then Ret (l, h)
      else
        nx ← get_next h hd;
        if nx =? elementP then
          nx2 ← get_next h elementP;
          h ← set_next h hd nx2;
          Ret (Build_list_t (head l) (if tail l =? elementP then hd else tail l)
                 (i32 (nb_elements l - 1)), h)
        else remove_walk fuel nx elementP l h
  end.

Definition list_remove_element (elementP : Z) (l : list_t) (h : heap)
  : cres (Z * list_t * heap) :=
  if negb (elementP =? 0) then
    if head l =? elementP then
      '(_, l, h) ← list_remove_head l h; Ret (elementP, l, h)
    else
      '(l, h) ← remove_walk (S (base.size h)) (head l) elementP l h;
      Ret (elementP, l, h)
  else Ret (elementP, l, h).

Definition list_add_head (elementP : Z) (l : list_t) (h : heap) : cres (list_t * heap) :=
  if negb (elementP =? 0) then
    let n := i32 (nb_elements l + 1) in
    if head l =? 0 then Ret (Build_list_t elementP elementP n, h)
    else h ← set_next h elementP (head l); Ret (Build_list_t elementP (tail l) n, h)
  else Ret (l, h).

Definition list_add_tail_eurecom (elementP : Z) (l : list_t) (h : heap) : cres (list_t * heap) :=
  if negb (elementP =? 0) then
    let n := i32 (nb_elements l + 1) in
    h ← set_next h elementP 0;
    if tail l =? 0 then Ret (Build_list_t elementP elementP n, h)
    else h ← set_next h (tail l) elementP; Ret (Build_list_t (head l) elementP n, h)
  else Ret (l, h).

(** The results are the sublist and the list. *)
Definition list_add_list (sublistP l : list_t) (h : heap) : cres (list_t * list_t * heap) :=
  if negb (head sublistP =? 0) then
    let n := i32 (nb_elements l + nb_elements sublistP) in
    if tail l =? 0 then
      Ret (list_init, Build_list_t (head sublistP) (tail sublistP) n, h)
    else
      h ← set_next h (tail l) (head sublistP);
      Ret (list_init, Build_list_t (head l) (tail sublistP) n, h)
  else Ret (sublistP, l, h).

(** [list_free]: the blocks given to [free_mem_block], in order. *)
Fixpoint list_free (fuel : nat) (l : list_t) (h : heap) : cres (list Z * list_t * heap) :=
  match fuel with
  | O => Trap FFuel
  | S fuel =>
      '(le, l, h) ← list_remove_head l h;
      if le =? 0 then Ret ([], l, h)
      else '(fr, l, h) ← list_free fuel l (delete le h); Ret (le :: fr, l, h)
  end.

(** ** Representation *)

(** The first block of a list, or [NULL]. *)
Definition first (xs : list Z) : Z := default 0 (xs !! 0%nat).

(** The blocks [xs] are linked in this order and the last one ends the list. *)
Fixpoint linked (h : heap) (xs : list Z) : Prop :=
  match xs with
  | [] => True
  | x :: xs' => x <> 0 /\ h !! x = Some (first xs') /\ linked h xs'
  end.

Record lrep (h : heap) (l : list_t) (xs : list Z) : Prop := {
  lr_head : head l = first xs;
  lr_tail : tail l = default 0 (last xs);
  lr_nb : nb_elements l = zlen xs;
  lr_linked : linked h xs;
  lr_nodup : NoDup xs;
}.

(** ** Lemmas *)

Lemma set_next_ok h p v w : h !! p = Some v -> set_next h p w = Ret (<[p := w]> h).
Proof. unfold set_next. by intros ->. Qed.

Lemma get_next_ok h p v : h !! p = Some v -> get_next h p = Ret v.
Proof. unfold get_next. by intros ->. Qed.

Lemma linked_frame h h' xs :
  (forall x, x ∈ xs -> h' !! x = h !! x) -> linked h xs -> linked h' xs.
Proof.
  induction xs as [|x xs IH]; simpl; intros Hf Hl; [done|]. destruct Hl as (H0 & H1 & H2).
  split_and!; [done|rewrite Hf; [done|by left]|]. apply IH; [|done]. intros y Hy. apply Hf. by right.
Qed.

Lemma linked_nonzero h xs x : linked h xs -> x ∈ xs -> x <> 0.
Proof.
  induction xs as [|y xs IH]; simpl; intros Hl Hx; [by apply not_elem_of_nil in Hx|].
  destruct Hl as (H0 & _ & H2). apply elem_of_cons in Hx as [->|Hx]; [done|by apply IH].
Qed.

Lemma linked_dom h xs x : linked h xs -> x ∈ xs -> is_Some (h !! x).
Proof.
  induction xs as [|y xs IH]; simpl; intros Hl Hx; [by apply not_elem_of_nil in Hx|].
  destruct Hl as (_ & H1 & H2). apply elem_of_cons in Hx as [->|Hx]; [by eexists|by apply IH].
Qed.

Lemma first_nonzero h xs : linked h xs -> xs <> [] -> first xs <> 0.
Proof. destruct xs; simpl; [done|]. intros (H & _). done. Qed.

Lemma first_app xs ys : xs <> [] -> first (xs ++ ys) = first xs.
Proof. by destruct xs. Qed.

(** Linking a list [ys] after the block [t], in place of the blocks [ws]. *)
Lemma linked_relink h xs t ws ys :
  linked h (xs ++ [t] ++ ws) -> linked h ys -> NoDup (xs ++ [t]) ->
  (forall y, y ∈ ys -> y ∉ xs ++ [t]) ->
  linked (<[t := first ys]> h) (xs ++ [t] ++ ys).
Proof.
  induction xs as [|x xs IH]; simpl; intros Hl Hy Hnd Hd.
  - destruct Hl as (H0 & _ & _). split_and!; [done|by rewrite lookup_insert_eq|].
    eapply linked_frame; [|exact Hy]. intros y Hin. apply lookup_insert_ne.
    intros <-. apply (Hd t Hin). by left.
  - destruct Hl as (H0 & H1 & H2). apply NoDup_cons in Hnd as [Hn Hnd].
    assert (x <> t) by (intros ->; apply Hn, elem_of_app; right; by left).
    split_and!; [done| |apply IH; [done..|]].
    + rewrite lookup_insert_ne by done. rewrite H1. f_equal. by destruct xs.
    + intros y Hin Hx. apply (Hd y Hin). by right.
Qed.

Lemma linked_snoc h xs t ys :
  linked h (xs ++ [t]) -> linked h ys -> NoDup (xs ++ [t]) ->
  (forall y, y ∈ ys -> y ∉ xs ++ [t]) ->
  linked (<[t := first ys]> h) (xs ++ [t] ++ ys).
Proof. apply (linked_relink h xs t []). Qed.

Lemma linked_app_r h xs ys : linked h (xs ++ ys) -> linked h ys.
Proof. induction xs as [|x xs IH]; simpl; [done|]. intros (_ & _ & H). by apply IH. Qed.

(** A list has at most as many blocks as the store. *)
Lemma linked_length h xs : linked h xs -> NoDup xs -> (length xs <= base.size h)%nat.
Proof.
  intros Hl Hnd. rewrite <- (size_dom (D := gset Z)), <- (size_list_to_set (C := gset Z) xs) by done.
  apply subseteq_size. intros x Hx%elem_of_list_to_set. apply elem_of_dom. by eapply linked_dom.
Qed.

(** A block that is the whole of a list by itself. *)
Lemma linked_single h x : x <> 0 -> h !! x = Some 0 -> linked h [x].
Proof. done. Qed.

Lemma lrep_init h : lrep h list_init [].
Proof. constructor; try done. constructor. Qed.

Lemma lrep_empty h l : lrep h l [] -> head l = 0 /\ tail l = 0.
Proof. intros [H1 H2 _ _ _]. done. Qed.

Lemma last_Some_app {A} (xs : list A) t : last xs = Some t -> exists ys, xs = ys ++ [t].
Proof.
  intros H. destruct (decide (xs = [])) as [->|Hne]; [done|].
  destruct (exists_last Hne) as (ys & t' & ->). rewrite last_snoc in H. injection H as ->. eauto.
Qed.

(** [list_remove_head] gives the first block and leaves the others; it only writes in the
    block it gives. *)
Lemma remove_head_rep h l x xs :
  lrep h l (x :: xs) -> zlen xs < 2 ^ 31 - 1 ->
  exists l' h', list_remove_head l h = Ret (x, l', h') /\ lrep h' l' xs /\ h' !! x = Some 0 /\
    forall y, y <> x -> h' !! y = h !! y.
Proof.
  intros [H1 H2 H3 (H4 & H5 & H6) H7] Hb. apply NoDup_cons in H7 as [Hn Hnd].
  unfold first in H1. simpl in H1. unfold list_remove_head. rewrite H1.
  rewrite (proj2 (Z.eqb_neq x 0)) by done. cbn [negb]. unfold get_next. rewrite H5.
  cbn [mbind cres_bind]. pose proof (zlen_nonneg xs) as Hz.
  assert (Hlen : i32 (nb_elements l - 1) = zlen xs).
  { rewrite H3. unfold zlen in *. simpl. rewrite i32_small; lia. }
  rewrite Hlen. destruct xs as [|y xs].
  - simpl. eexists _, _. split; [done|]. split_and!; try done.
  - assert (Hy : first (y :: xs) <> 0) by (by apply (first_nonzero h)).
    rewrite (proj2 (Z.eqb_neq _ 0)) by done. unfold set_next. rewrite H5. cbn [mbind cres_bind].
    eexists _, _. split; [done|]. split_and!.
    + constructor; try done. eapply linked_frame; [|exact H6]. intros z Hz'.
      apply lookup_insert_ne. by intros ->.
    + by rewrite lookup_insert_eq.
    + intros z Hz'. by rewrite lookup_insert_ne.
Qed.

Lemma remove_head_empty h l : lrep h l [] -> list_remove_head l h = Ret (0, l, h).
Proof. intros [H _]%lrep_empty. unfold list_remove_head. by rewrite H. Qed.

(** [list_add_tail_eurecom] appends a block that is in no way linked to the list. *)
Lemma add_tail_rep h l xs x :
  lrep h l xs -> x <> 0 -> is_Some (h !! x) -> x ∉ xs -> zlen xs < 2 ^ 31 - 1 ->
  exists l' h', list_add_tail_eurecom x l h = Ret (l', h') /\ lrep h' l' (xs ++ [x]) /\
    forall y, y <> x -> y ∉ xs -> h' !! y = h !! y.
Proof.
  intros [H1 H2 H3 H4 H5] Hx [v Hv] Hn Hb. unfold list_add_tail_eurecom.
  rewrite (proj2 (Z.eqb_neq x 0)) by done. cbn [negb]. rewrite (set_next_ok _ _ _ _ Hv).
  cbn [mbind cres_bind]. rewrite H3. pose proof (zlen_nonneg xs).
  assert (Hlen : i32 (zlen xs + 1) = zlen (xs ++ [x])).
  { rewrite zlen_app. change (zlen [x]) with 1. rewrite i32_small; lia. }
  rewrite Hlen. destruct (last xs) as [t|] eqn:Et; simpl in H2; rewrite H2.
  - apply last_Some_app in Et as [ys ->].
    assert (Ht0 : t <> 0) by (eapply linked_nonzero; [exact H4|set_solver]).
    assert (Htx : x <> t) by (intros ->; apply Hn; set_solver).
    rewrite (proj2 (Z.eqb_neq t 0)) by done.
    destruct (linked_dom h _ t H4) as [w Hw]; [set_solver|].
    rewrite (set_next_ok _ _ w) by (by rewrite lookup_insert_ne). cbn [mbind cres_bind]. eexists _, _. split; [done|].
    split; [constructor|].
    + rewrite H1. symmetry. apply first_app. by destruct ys.
    + simpl. by rewrite last_snoc.
    + done.
    + rewrite <- app_assoc. change x with (first [x]) at 1. apply linked_snoc.
      * eapply linked_frame; [|exact H4]. intros y Hy. apply lookup_insert_ne. by intros ->.
      * apply linked_single; [done|apply lookup_insert_eq].
      * done.
      * set_solver.
    + apply NoDup_app. split_and!; [done|set_solver|apply NoDup_singleton].
    + intros y Hy Hys. rewrite !lookup_insert_ne; [done|done|]. intros ->. set_solver.
  - apply last_None in Et as ->. simpl. eexists _, _. split; [done|]. split; [constructor|]; try done.
    + simpl. split_and!; [done|apply lookup_insert_eq|done].
    + apply NoDup_singleton.
    + intros y Hy _. by rewrite lookup_insert_ne.
Qed.

(** [list_add_list] appends the blocks of one list to another one and empties the first. *)
Lemma add_list_rep h s l ys xs :
  lrep h s ys -> lrep h l xs -> (forall y, y ∈ ys -> y ∉ xs) -> zlen xs + zlen ys < 2 ^ 31 ->
  exists s' l' h', list_add_list s l h = Ret (s', l', h') /\ lrep h' s' [] /\
    lrep h' l' (xs ++ ys) /\ forall y, y ∉ xs -> h' !! y = h !! y.
Proof.
  intros [S1 S2 S3 S4 S5] [H1 H2 H3 H4 H5] Hd Hb. unfold list_add_list. rewrite S1.
  pose proof (zlen_nonneg xs). pose proof (zlen_nonneg ys).
  destruct (decide (ys = [])) as [->|Hne].
  { exists s, l, h. split; [done|]. rewrite app_nil_r. split_and!; done. }
  rewrite (proj2 (Z.eqb_neq _ 0)) by (by eapply first_nonzero). cbn [negb].
  assert (Hlen : i32 (nb_elements l + nb_elements s) = zlen (xs ++ ys)).
  { rewrite H3, S3, zlen_app, i32_small; lia. }
  rewrite Hlen. destruct (last xs) as [t|] eqn:Et; simpl in H2; rewrite H2.
  - apply last_Some_app in Et as [zs ->].
    assert (Ht0 : t <> 0) by (eapply linked_nonzero; [exact H4|set_solver]).
    rewrite (proj2 (Z.eqb_neq t 0)) by done. unfold set_next.
    destruct (linked_dom h _ t H4) as [w Hw]; [set_solver|]. rewrite Hw. cbn [mbind cres_bind].
    eexists _, _, _. split; [done|]. split; [apply lrep_init|]. split; [constructor|].
    + rewrite H1. symmetry. apply first_app. by destruct zs.
    + rewrite S2, last_app. destruct (last ys) eqn:El; [done|]. apply last_None in El. done.
    + done.
    + rewrite <- app_assoc. by apply linked_snoc.
    + apply NoDup_app. split_and!; [done|set_solver|done].
    + intros y Hy. rewrite lookup_insert_ne; [done|]. intros ->. set_solver.
  - apply last_None in Et as ->. simpl. eexists _, _, _. split; [done|].
    split; [apply lrep_init|]. split; [|done]. by constructor.
Qed.

(** The search of [list_remove_element] from the block [p] of the list. *)
Lemma remove_walk_found h l x ys xs : forall fuel p,
  linked h (p :: xs ++ x :: ys) -> NoDup (p :: xs ++ x :: ys) -> (length xs < fuel)%nat ->
  remove_walk fuel p x l h =
  Ret (Build_list_t (head l) (if tail l =? x then default 0 (last (p :: xs)) else tail l)
         (i32 (nb_elements l - 1)), <[default 0 (last (p :: xs)) := first ys]> h).
Proof.
  induction xs as [|y xs IH]; intros [|fuel] p Hl Hnd Hf; try (simpl in Hf; lia);
    cbn [app linked] in Hl; destruct Hl as (H0 & H1 & H2); cbn [remove_walk];
    rewrite (proj2 (Z.eqb_neq p 0)) by done; rewrite (get_next_ok _ _ _ H1); cbn [mbind cres_bind].
  - change (first (x :: ys)) with x. rewrite Z.eqb_refl. destruct H2 as (_ & H3 & _).
    rewrite (get_next_ok _ _ _ H3). cbn [mbind cres_bind].
    by rewrite (set_next_ok _ _ _ _ H1).
  - change (first (y :: xs ++ x :: ys)) with y. rewrite (proj2 (Z.eqb_neq y x)).
    2: { apply NoDup_cons in Hnd as [_ Hnd]. apply NoDup_cons in Hnd as [Hn _].
         intros ->. apply Hn. set_solver. }
    rewrite IH; [done|done|by apply NoDup_cons in Hnd as [_ Hnd]|simpl in Hf; lia].
Qed.

(** ** Properties *)

(** Removal of an element.  Whatever its place in the list, [list_remove_element] takes
    exactly this block out: the other blocks stay in the list in the same order, the head,
    the tail and the count are right, and no block outside the list is written. *)
Theorem list_remove_element_spec h l xs x ys :
  lrep h l (xs ++ x :: ys) -> zlen (xs ++ x :: ys) < 2 ^ 31 ->
  exists l' h', list_remove_element x l h = Ret (x, l', h') /\ lrep h' l' (xs ++ ys) /\
    forall y, y ∉ xs ++ x :: ys -> h' !! y = h !! y.
Proof.
  intros Hr Hb. unfold list_remove_element.
  assert (Hx0 : x <> 0) by (eapply linked_nonzero; [apply (lr_linked _ _ _ Hr)|set_solver]).
  rewrite (proj2 (Z.eqb_neq x 0)) by done. cbn [negb].
  destruct xs as [|p xs].
  { simpl in *. rewrite (lr_head _ _ _ Hr). change (first (x :: ys)) with x. rewrite Z.eqb_refl.
    destruct (remove_head_rep h l x ys Hr) as (l' & h' & E & Hr' & _ & Hf).
    { unfold zlen in *. simpl in Hb. lia. }
    rewrite E. cbn [mbind cres_bind]. eexists _, _. split_and!; [done|done|].
    intros y Hy. apply Hf. set_solver. }
  destruct Hr as [H1 H2 H3 H4 H5]. rewrite H1. change (first ((p :: xs) ++ x :: ys)) with p.
  assert (Hpx : p <> x) by (intros ->; apply NoDup_cons in H5 as [Hn _]; apply Hn; set_solver).
  rewrite (proj2 (Z.eqb_neq p x)) by done. cbn [app] in H4, H5.
  rewrite (remove_walk_found h l x ys xs) by
    (done || (pose proof (linked_length h _ H4 H5) as Hl; simpl in Hl; rewrite length_app in Hl; lia)).
  cbn [mbind cres_bind]. eexists _, _. split; [reflexivity|].
  destruct (exists_last (l := p :: xs)) as (zs & t & Ez); [done|].
  rewrite Ez, last_snoc. cbn [default id]. change (p :: xs ++ x :: ys) with ((p :: xs) ++ x :: ys) in *.
  rewrite Ez in *. apply NoDup_app in H5 as (Hnd1 & Hdis & Hnd2). apply NoDup_cons in Hnd2 as [Hnx Hnd2].
  assert (Hly : linked h ys) by (apply (linked_app_r h [x]), (linked_app_r h (zs ++ [t])); done).
  split; [constructor; cbn [head tail nb_elements]|].
  - by rewrite H1, !(first_app (zs ++ [t])) by (by destruct zs).
  - rewrite H2, last_app. destruct ys as [|y ys].
    + cbn [last default id]. by rewrite Z.eqb_refl, app_nil_r, last_snoc.
    + change (last (x :: y :: ys)) with (last (y :: ys)).
      destruct (last (y :: ys)) as [t'|] eqn:Et; [|by apply last_None in Et].
      rewrite last_app, Et. cbn [default id]. rewrite (proj2 (Z.eqb_neq t' x)); [done|]. intros ->.
      apply Hnx. by apply last_Some_elem_of.
  - rewrite H3, !zlen_app in *. unfold zlen in *. simpl in *. rewrite i32_small; lia.
  - rewrite <- app_assoc. apply (linked_relink h zs t (x :: ys)); [by rewrite <- app_assoc in H4|done|done|].
    intros y Hy Hy'. apply (Hdis y Hy'). by right.
  - apply NoDup_app. split_and!; [done| |done]. intros y Hy Hy'. apply (Hdis y Hy). by right.
  - intros y Hy. apply lookup_insert_ne. intros ->. set_solver.
Qed.

(** Three blocks 10, 20, 30 linked in this order. *)
Definition demo_heap : heap := <[10 := 20]> (<[20 := 30]> (<[30 := 0]> ∅)).
Definition demo_list : list_t := {| head := 10; tail := 30; nb_elements := 3 |}.

Lemma demo_lrep : lrep demo_heap demo_list [10; 20; 30].
Proof.
  constructor; try reflexivity.
  - repeat split; discriminate.
  - apply (bool_decide_unpack _). reflexivity.
Qed.

Lemma list_remove_element_spec_witness :
  exists l' h', list_remove_element 20 demo_list demo_heap = Ret (20, l', h') /\
    lrep h' l' [10; 30].
Proof.
  destruct (list_remove_element_spec demo_heap demo_list [10] 20 [30]) as (l' & h' & E & Hr & _).
  - exact demo_lrep.
  - reflexivity.
  - exists l', h'. split; [exact E|exact Hr].
Defined.

(** Emptying a list by its head. *)
Lemma list_free_rep xs : forall h l fuel,
  lrep h l xs -> zlen xs < 2 ^ 31 -> (length xs < fuel)%nat ->
  exists l' h', list_free fuel l h = Ret (xs, l', h') /\ lrep h' l' [] /\
    (forall y, y ∈ xs -> h' !! y = None) /\ (forall y, y ∉ xs -> h' !! y = h !! y).
Proof.
  induction xs as [|x xs IH]; intros h l [|fuel] Hr Hb Hf; try (simpl in Hf; lia); cbn [list_free].
  { rewrite (remove_head_empty h l Hr). cbn [mbind cres_bind]. exists l, h. split_and!; try done.
    intros y Hy. by apply not_elem_of_nil in Hy. }
  assert (Hb' : zlen xs < 2 ^ 31 - 1) by (unfold zlen in *; simpl in Hb; lia).
  destruct (remove_head_rep h l x xs Hr Hb') as (l1 & h1 & E & Hr1 & Hx & Hother).
  rewrite E. cbn [mbind cres_bind].
  pose proof (linked_nonzero _ _ x (lr_linked _ _ _ Hr) ltac:(by left)) as Hx0.
  rewrite (proj2 (Z.eqb_neq x 0)) by done.
  pose proof (lr_nodup _ _ _ Hr) as [Hn Hnd]%NoDup_cons.
  destruct (IH (delete x h1) l1 fuel) as (l2 & h2 & E2 & Hr2 & Hin & Hout).
  - destruct Hr1 as [G1 G2 G3 G4 G5]. constructor; try done.
    eapply linked_frame; [|exact G4]. intros y Hy. apply lookup_delete_ne. by intros ->.
  - lia.
  - simpl in Hf. lia.
  - rewrite E2. cbn [mbind cres_bind]. exists l2, h2. split_and!; [done|done| |].
    + intros y [->|Hy]%elem_of_cons; [|by apply Hin].
      by rewrite Hout, lookup_delete_eq.
    + intros y [Hyx Hy]%not_elem_of_cons. rewrite Hout, lookup_delete_ne by done. by apply Hother.
Qed.

(** Appending several blocks. *)
Definition push_all (xs : list Z) (lh : list_t * heap) : cres (list_t * heap) :=
  for_each (fun x lh => list_add_tail_eurecom x lh.1 lh.2) xs lh.

Lemma push_all_rep ys : forall h l xs,
  lrep h l xs -> NoDup (xs ++ ys) -> (forall y, y ∈ ys -> y <> 0 /\ is_Some (h !! y)) ->
  zlen (xs ++ ys) < 2 ^ 31 ->
  exists l' h', push_all ys (l, h) = Ret (l', h') /\ lrep h' l' (xs ++ ys).
Proof.
  induction ys as [|y ys IH]; intros h l xs Hr Hnd Hy Hb.
  { rewrite app_nil_r. by exists l, h. }
  assert (Hnd' : NoDup ((xs ++ [y]) ++ ys)) by by rewrite <- app_assoc.
  pose proof Hnd' as (_ & Hdis & _)%NoDup_app.
  assert (Hyx : y ∉ xs).
  { apply NoDup_app in Hnd as (_ & Hd & _). intros Hin. apply (Hd y Hin). by left. }
  assert (Hb2 : zlen xs < 2 ^ 31 - 1).
  { rewrite zlen_app in Hb. unfold zlen in *. simpl in Hb. lia. }
  destruct (Hy y ltac:(by left)) as [Hy0 Hyd].
  destruct (add_tail_rep h l xs y Hr Hy0 Hyd Hyx Hb2) as (l1 & h1 & E1 & Hr1 & Hf1).
  destruct (IH h1 l1 (xs ++ [y])) as (l2 & h2 & E2 & Hr2); [done|done| |by rewrite <- app_assoc|].
  - intros z Hz. destruct (Hy z ltac:(by right)) as [Hz0 Hzd]. split; [done|].
    assert (Hzn : z ∉ xs ++ [y]) by (intros Hin; by apply (Hdis z Hin)).
    apply not_elem_of_app in Hzn as [Hzx Hzy]. rewrite Hf1; [done| |done].
    intros ->. apply Hzy. by left.
  - exists l2, h2. unfold push_all in *. cbn [for_each fst snd]. rewrite E1. cbn [mbind cres_bind].
    rewrite E2. split; [done|]. by rewrite <- app_assoc in Hr2.
Qed.

(** The path of the transport blocks of an RLC entity to the MAC.  Blocks appended one by
    one to a list ([list_add_tail_eurecom]), moved to another list ([list_add_list]) and
    taken from its head until it is empty ([list_remove_head], through [list_free]) come out
    once each and in the order they were appended; the two lists end up empty and the blocks
    outside them are not written. *)
Theorem list_transfer_fifo h ys :
  NoDup ys -> (forall y, y ∈ ys -> y <> 0 /\ is_Some (h !! y)) -> zlen ys < 2 ^ 31 ->
  exists l1 h1 s l2 h2 l3 h3,
    push_all ys (list_init, h) = Ret (l1, h1) /\ nb_elements l1 = zlen ys /\
    list_add_list l1 list_init h1 = Ret (s, l2, h2) /\ lrep h2 s [] /\ nb_elements l2 = zlen ys /\
    list_free (S (length ys)) l2 h2 = Ret (ys, l3, h3) /\ lrep h3 l3 [].
Proof.
  intros Hnd Hy Hb.
  destruct (push_all_rep ys h list_init [] (lrep_init h) Hnd Hy Hb) as (l1 & h1 & E1 & Hr1).
  simpl in Hr1.
  destruct (add_list_rep h1 l1 list_init ys [] Hr1 (lrep_init h1)) as (s & l2 & h2 & E2 & Hs & Hr2 & _).
  { intros y _. apply not_elem_of_nil. }
  { change (zlen []) with 0. lia. }
  destruct (list_free_rep ys h2 l2 (S (length ys)) Hr2 Hb) as (l3 & h3 & E3 & Hr3 & _); [lia|].
  exists l1, h1, s, l2, h2, l3, h3.
  split_and!; [done|by apply (lr_nb _ _ _ Hr1)|done|done|by apply (lr_nb _ _ _ Hr2)|done|done].
Qed.

Lemma list_transfer_fifo_witness :
  exists l1 h1 s l2 h2 l3 h3,
    push_all [10; 30; 20] (list_init, demo_heap) = Ret (l1, h1) /\
    list_add_list l1 list_init h1 = Ret (s, l2, h2) /\
    list_free 4 l2 h2 = Ret ([10; 30; 20], l3, h3).
Proof.
  destruct (list_transfer_fifo demo_heap [10; 30; 20])
    as (l1 & h1 & s & l2 & h2 & l3 & h3 & E1 & _ & E2 & _ & _ & E3 & _).
  - apply (bool_decide_unpack _). reflexivity.
  - intros y Hy. repeat (apply elem_of_cons in Hy as [->|Hy]; [split; [lia|by eexists]|]).
    by apply not_elem_of_nil in Hy.
  - reflexivity.
  - exists l1, h1, s, l2, h2, l3, h3. split; [exact E1|]. split; [exact E2|exact E3].
Defined.
