(* ===== verification/RlcPrims.v ===== *)
(** The data exchanged between the MAC and the RLC entities
    ([openair2/COMMON/mac_rlc_primitives.h]), the conversion between byte buffers and lists of
    transport blocks ([mac_rlc_serialize_tb] and [mac_rlc_deserialize_tb] of
    [openair2/LAYER2/RLC/rlc_mac.c]), the keys of the table of RLC entities ([rlc.h]) and the
    interface of an RLC entity. *)
From stdpp Require Import base list numbers.
From coqutil Require Import Byte.
From Stdlib Require Import ZArith Lia.
From S2P Require Import Prelude SplitIface.
Open Scope Z_scope.

(** [struct mac_tb_req]: the memory at [data_ptr] and the announced size. *)
Record mac_tb_req := { tr_data : list byte; tr_size : Z }.

(** [struct mac_tb_ind]: the memory at [data_ptr]; [size] is an [unsigned short]. *)
Record mac_tb_ind := { ti_data : list byte; ti_size : Z; ti_error : Z }.

(** [struct mac_data_ind]: the counters are [unsigned short]. *)
Record mac_data_ind := { di_data : list mac_tb_ind; di_no_tb : Z; di_tb_size : Z }.

(** [struct mac_status_resp]. *)
Record mac_status_resp := {
  sr_bytes : Z;          (* unsigned int *)
  sr_pdus : Z;           (* unsigned short *)
  sr_creation_time : Z;  (* uint32_t *)
  sr_remaining : Z;      (* uint32_t *)
  sr_segmented : Z;      (* unsigned char *)
}.

(** ** Serialisation *)

(** The loop takes the blocks from the head; [tbs_size] is the place of the next one. *)
Fixpoint serialize_loop (tbs : list mac_tb_req) (tbs_size : Z) (buffer : list byte)
  : cres (Z * list byte) :=
  match tbs with
  | [] => Ret (tbs_size, buffer)
  | tb :: tbs' =>
      buffer ← memcpy buffer tbs_size (tr_data tb) 0 (tr_size tb);
      serialize_loop tbs' (i32 (tbs_size + tr_size tb)) buffer
  end.

Definition mac_rlc_serialize_tb (buffer : list byte) (tbs : list mac_tb_req)
  : cres (Z * list byte) := serialize_loop tbs 0 buffer.

(** ** Deserialisation *)

(** One turn per block to read.  [off] is the place of [buffer_pP] in its object and [alloc]
    says which of the requests for a memory block succeed. *)
Fixpoint deserialize_loop (alloc : nat -> bool) (fuel : nat) (buffer : list byte) (off tb_size : Z)
  (crcs : option (list Z)) (nb_tb_read tbs_size : Z) : cres (list mac_tb_ind * Z) :=
  match fuel with
  | O => Ret ([], nb_tb_read)
  | S fuel' =>
      if alloc fuel' then
        err ← match crcs with Some c => aget c nb_tb_read | None => Ret 0 end;
        d ← bget buffer (off + tbs_size) tb_size;
        let tb := {| ti_data := d; ti_size := u16 tb_size; ti_error := u8 err |} in
        '(l, n) ← deserialize_loop alloc fuel' buffer off tb_size crcs
                    (u32 (nb_tb_read + 1)) (i32 (tbs_size + tb_size));
        Ret (tb :: l, n)
      else deserialize_loop alloc fuel' buffer off tb_size crcs nb_tb_read tbs_size
  end.

Definition mac_rlc_deserialize_tb (alloc : nat -> bool) (buffer : list byte) (off tb_size num_tb : Z)
  (crcs : option (list Z)) : cres mac_data_ind :=
  '(l, n) ← deserialize_loop alloc (Z.to_nat num_tb) buffer off tb_size crcs 0 0;
  Ret {| di_data := l; di_no_tb := u16 n; di_tb_size := u16 (Z.shiftl tb_size 3) |}.

(** ** Keys *)

Definition RLC_COLL_KEY_VALUE (eNB_iD rNTI iS_eNB rB_iD iS_sRB : Z) : Z :=
  Z.lor (Z.lor (Z.lor (Z.lor (u64 eNB_iD) (u64 (Z.shiftl (u64 rNTI) 8)))
    (u64 (Z.shiftl (u64 iS_eNB) 24))) (u64 (Z.shiftl (u64 rB_iD) 25)))
    (u64 (Z.shiftl (u64 iS_sRB) 33)).

Definition RLC_COLL_KEY_MBMS_VALUE (eNB_iD rNTI iS_eNB sERVICE_ID sESSION_ID : Z) : Z :=
  Z.lor (Z.lor (Z.lor (Z.lor (Z.lor (u64 eNB_iD) (u64 (Z.shiftl (u64 rNTI) 8)))
    (u64 (Z.shiftl (u64 iS_eNB) 24))) (u64 (Z.shiftl (u64 sERVICE_ID) 32)))
    (u64 (Z.shiftl (u64 sESSION_ID) 37))) (u64 (Z.shiftl (u64 1) 63)).

(** ** The interface of an RLC entity

    The three primitives [rlc_xx_mac_status_indication], [rlc_xx_mac_data_request] and
    [rlc_xx_mac_data_indication] of a mode, over its entity [E]; the SDUs given to the upper
    layer are an output of the indication. *)
Class RlcEntity (E : Type) := {
  ent_status : mac_args -> Z -> E -> cres (E * mac_status_resp);
  ent_data_request : mac_args -> E -> cres (E * list mac_tb_req);
  ent_data_indication : mac_args -> mac_data_ind -> E -> cres (E * list (list byte));
}.

(** The bytes of a list of transport blocks. *)
Definition tbs_bytes (tbs : list mac_tb_req) : list byte :=
  mjoin ((fun t => take (Z.to_nat (tr_size t)) (tr_data t)) <$> tbs).

(** A block is well formed when its memory holds the announced size. *)
Definition tb_ok (t : mac_tb_req) : Prop := 0 <= tr_size t <= zlen (tr_data t).

(** What the dispatcher and the CU rely on: on the states of the invariant, the status is total,
    and the request that follows it gives well-formed blocks that fit the announced size, which
    is that of a transport block (its size is an [int16_t]).  It is an interface between the
    files: [RlcUmEntity.um_entity_ok] proves it of the entity of [rlc_um.c] in every state its
    operations reach, [CuNode.am_idle_ok] of the entity of [rlc_am.c] while nothing was
    submitted to it or received by it.  With traffic the entity of [rlc_am.c] does not meet it,
    nor does that of [rlc_tm.c], which ignores the grant. *)
Class RlcEntityOk (E : Type) `{RlcEntity E} := {
  ent_inv : E -> Prop;
  ent_status_ok a tb e : ent_inv e ->
    exists e' r, ent_status a tb e = Ret (e', r) /\ ent_inv e' /\
      0 <= sr_bytes r < 2 ^ 31 /\ 0 <= sr_pdus r < 2 ^ 16 /\
      0 <= sr_creation_time r < 2 ^ 32 /\ 0 <= sr_remaining r < 2 ^ 31 /\
      0 <= sr_segmented r < 2 ^ 7;
  ent_data_request_ok a tb e e' r : ent_inv e -> 0 < tb < 2 ^ 15 ->
    ent_status a tb e = Ret (e', r) ->
    exists e'' tbs, ent_data_request a e' = Ret (e'', tbs) /\ ent_inv e'' /\
      Forall tb_ok tbs /\ zlen (tbs_bytes tbs) <= tb;
}.

(** ** Lemmas *)

(** The key as a number with one digit per field. *)
Lemma key_value m r e b s :
  0 <= m < 2 ^ 8 -> 0 <= r < 2 ^ 16 -> 0 <= e < 2 -> 0 <= b < 2 ^ 8 -> 0 <= s < 2 ->
  RLC_COLL_KEY_VALUE m r e b s = m + r * 2 ^ 8 + e * 2 ^ 24 + b * 2 ^ 25 + s * 2 ^ 33.
Proof.
  intros Hm Hr He Hb Hs. unfold RLC_COLL_KEY_VALUE.
  rewrite (u64_small m), (u64_small r), (u64_small e), (u64_small b), (u64_small s) by lia.
  rewrite !u64_small by (rewrite Z.shiftl_mul_pow2 by lia; lia).
  rewrite (lor_shiftl_add m), (lor_shiftl_add (m + r * 2 ^ 8)),
    (lor_shiftl_add (m + r * 2 ^ 8 + e * 2 ^ 24)),
    (lor_shiftl_add (m + r * 2 ^ 8 + e * 2 ^ 24 + b * 2 ^ 25)) by lia. done.
Qed.

(** Bit 63 tells the keys of the multicast bearers. *)
Lemma key_mbms_bit m r e sv ss :
  Z.testbit (RLC_COLL_KEY_MBMS_VALUE m r e sv ss) 63 = true.
Proof.
  unfold RLC_COLL_KEY_MBMS_VALUE. rewrite Z.lor_spec. by rewrite orb_true_r.
Qed.

Lemma memcpy_ok {A} (dst : list A) doff (src : list A) soff n :
  0 <= soff -> 0 <= n -> soff + n <= zlen src -> 0 <= doff -> doff + n <= zlen dst ->
  exists b, memcpy dst doff src soff n = Ret b /\ zlen b = zlen dst /\
    bput dst doff (take (Z.to_nat n) (drop (Z.to_nat soff) src)) = Ret b.
Proof.
  intros. unfold memcpy. rewrite bget_ok by lia. cbn [mbind cres_bind].
  assert (Hz : zlen (take (Z.to_nat n) (drop (Z.to_nat soff) src)) = n).
  { unfold zlen in *. rewrite length_take, length_drop. lia. }
  rewrite bput_ok by lia. eexists. split; [done|]. split; [|done].
  eapply bput_zlen. by apply bput_ok; lia.
Qed.

(** The loop writes the blocks one after the other, after the prefix [pre]. *)
Lemma serialize_loop_ok tbs : forall pre buffer,
  Forall tb_ok tbs -> take (length pre) buffer = pre ->
  zlen pre + zlen (tbs_bytes tbs) <= zlen buffer -> zlen buffer < 2 ^ 31 ->
  exists b, serialize_loop tbs (zlen pre) buffer = Ret (zlen pre + zlen (tbs_bytes tbs), b) /\
    zlen b = zlen buffer /\
    take (length (pre ++ tbs_bytes tbs)) b = pre ++ tbs_bytes tbs.
Proof.
  induction tbs as [|t tbs IH]; intros pre buffer Hok Hpre Hle Hb.
  { exists buffer. unfold tbs_bytes. simpl. rewrite app_nil_r, Z.add_0_r. done. }
  apply Forall_cons_1 in Hok as [Ht Hok]. unfold tb_ok in Ht.
  set (d := take (Z.to_nat (tr_size t)) (tr_data t)).
  assert (Hd : zlen d = tr_size t) by (unfold d, zlen in *; rewrite length_take; lia).
  change (tbs_bytes (t :: tbs)) with (d ++ tbs_bytes tbs) in *. rewrite zlen_app in Hle.
  pose proof (zlen_nonneg pre). pose proof (zlen_nonneg (tbs_bytes tbs)).
  destruct (memcpy_ok buffer (zlen pre) (tr_data t) 0 (tr_size t)) as (b1 & E1 & L1 & P1); [lia..|].
  change (Z.to_nat 0) with 0%nat in P1. rewrite drop_0 in P1. fold d in P1.
  pose proof (bput_append _ _ _ _ pre P1 eq_refl Hpre) as Hpre1.
  cbn [serialize_loop]. rewrite E1. cbn [mbind cres_bind].
  assert (Hz : zlen (pre ++ d) = zlen pre + tr_size t) by (rewrite zlen_app; lia).
  rewrite i32_small by lia. rewrite <- Hz.
  destruct (IH (pre ++ d) b1) as (b2 & E2 & L2 & P2); [done|done|lia|lia|].
  exists b2. rewrite E2. rewrite <- app_assoc in P2. split_and!; [|lia|done].
  do 2 f_equal. rewrite !zlen_app. lia.
Qed.

Lemma serialize_ok tbs buffer :
  Forall tb_ok tbs -> zlen (tbs_bytes tbs) <= zlen buffer -> zlen buffer < 2 ^ 31 ->
  exists b, mac_rlc_serialize_tb buffer tbs = Ret (zlen (tbs_bytes tbs), b) /\
    zlen b = zlen buffer /\ bget b 0 (zlen (tbs_bytes tbs)) = Ret (tbs_bytes tbs).
Proof.
  intros Hok Hle Hb.
  destruct (serialize_loop_ok tbs [] buffer Hok eq_refl) as (b & E & L & P);
    [change (zlen []) with 0; lia|done|].
  exists b. split; [exact E|]. split; [done|]. simpl in P. pose proof (zlen_nonneg (tbs_bytes tbs)).
  rewrite bget_ok by lia. unfold zlen. rewrite Nat2Z.id. simpl. by rewrite drop_0, P.
Qed.

(** The deserialised blocks are the consecutive slices of the buffer. *)
Lemma deserialize_loop_ok buffer off n k : forall read done,
  0 <= off -> 0 <= n -> 0 <= done -> off + done + Z.of_nat k * n <= zlen buffer ->
  zlen buffer < 2 ^ 31 -> 0 <= read -> read + Z.of_nat k < 2 ^ 16 ->
  exists l, deserialize_loop (fun _ => true) k buffer off n None read done =
      Ret (l, read + Z.of_nat k) /\
    length l = k /\ Forall (fun t => zlen (ti_data t) = n) l /\
    Ret (mjoin (ti_data <$> l)) = bget buffer (off + done) (Z.of_nat k * n).
Proof.
  induction k as [|k IH]; intros read don Ho Hn Hd Hle Hb Hr Hk.
  { exists []. rewrite bget_ok by lia. simpl. rewrite Z.add_0_r. split_and!; done. }
  cbn [deserialize_loop mbind cres_bind].
  destruct (IH (read + 1) (don + n)) as (l & E & Hl & Hf & Hj); [lia..|].
  rewrite bget_ok by lia. cbn [mbind cres_bind].
  rewrite (u32_small (read + 1)), (i32_small (don + n)) by lia. rewrite E. cbn [mbind cres_bind].
  eexists. split; [do 2 f_equal; lia|]. split; [simpl; lia|]. split.
  { constructor; [|done]. cbn [ti_data]. unfold zlen in *. rewrite length_take, length_drop. lia. }
  csimpl. rewrite bget_ok in Hj by lia. injection Hj as ->. rewrite bget_ok by lia. f_equal.
  replace (off + (don + n)) with (off + don + n) by lia.
  rewrite (Z2Nat.inj_add (off + don) n), <- drop_drop by lia.
  replace (Z.to_nat (Z.of_nat (S k) * n)) with (Z.to_nat n + Z.to_nat (Z.of_nat k * n))%nat by lia.
  rewrite <- (take_take_drop (drop (Z.to_nat (off + don)) buffer)). done.
Qed.

(** ** A reference entity

    A byte queue: the status notes the grant, the request takes at most that many bytes as one
    transport block, the indication delivers the blocks as they are. *)
Module QueueEntity.
Record qent := { qe_data : list byte; qe_grant : Z }.

#[global] Instance qent_ops : RlcEntity qent := {|
  ent_status _ tb e :=
    let n := Z.min (zlen (qe_data e)) (2 ^ 31 - 1) in
    Ret (Build_qent (qe_data e) tb, Build_mac_status_resp n (b2z (0 <? n)) 0 n 0);
  ent_data_request _ e :=
    let d := take (Z.to_nat (qe_grant e)) (qe_data e) in
    Ret (Build_qent (drop (Z.to_nat (qe_grant e)) (qe_data e)) 0, [Build_mac_tb_req d (zlen d)]);
  ent_data_indication _ di e := Ret (e, ti_data <$> di_data di) |}.

#[global] #[refine] Instance qent_ok : RlcEntityOk qent := {| ent_inv _ := True |}.
Proof.
  - intros a tb e _. eexists _, _. split; [reflexivity|]. split; [done|].
    pose proof (zlen_nonneg (qe_data e)). cbn [sr_bytes sr_pdus sr_creation_time sr_remaining sr_segmented].
    split_and!; try lia; unfold b2z; case_if; lia.
  - intros a tb e e' r _ Htb E. cbn in E. cres_inv. eexists _, _. split; [reflexivity|].
    cbn [qe_data qe_grant]. split; [done|]. split.
    + constructor; [|constructor]. unfold tb_ok. simpl. pose proof (zlen_nonneg (take (Z.to_nat tb) (qe_data e))). lia.
    + unfold tbs_bytes, zlen. simpl. rewrite app_nil_r, Nat2Z.id, !length_take. lia.
Defined.
End QueueEntity.

(** ** Properties *)

(** The keys of the RLC entities do not collide.  Two unicast bearers with fields in the
    range of their types (module on 8 bits, RNTI on 16, one-bit flags, bearer below 256) have
    the same key only when all five fields are the same, and no unicast key is the key of a
    multicast bearer, whatever its service and session. *)
Theorem rlc_keys_distinct m r e b s m' r' e' b' s' :
  0 <= m < 2 ^ 8 -> 0 <= r < 2 ^ 16 -> 0 <= e < 2 -> 0 <= b < 2 ^ 8 -> 0 <= s < 2 ->
  0 <= m' < 2 ^ 8 -> 0 <= r' < 2 ^ 16 -> 0 <= e' < 2 -> 0 <= b' < 2 ^ 8 -> 0 <= s' < 2 ->
  (RLC_COLL_KEY_VALUE m r e b s = RLC_COLL_KEY_VALUE m' r' e' b' s' <->
   (m, r, e, b, s) = (m', r', e', b', s')) /\
  forall m2 r2 e2 sv ss,
    RLC_COLL_KEY_VALUE m r e b s <> RLC_COLL_KEY_MBMS_VALUE m2 r2 e2 sv ss.
Proof.
  intros Hm Hr He Hb Hs Hm' Hr' He' Hb' Hs'. split.
  - rewrite !key_value by done. split; [|by intros [= -> -> -> -> ->]].
    intros H. assert (m = m' /\ r = r' /\ e = e' /\ b = b' /\ s = s') as (-> & -> & -> & -> & ->)
      by lia. done.
  - intros m2 r2 e2 sv ss H. pose proof (key_mbms_bit m2 r2 e2 sv ss) as Hbit.
    rewrite <- H, key_value in Hbit by done.
    rewrite (testbit_above _ 34) in Hbit; [done|lia|lia].
Qed.

Lemma rlc_keys_distinct_witness :
  RLC_COLL_KEY_VALUE 0 4660 1 3 0 <> RLC_COLL_KEY_VALUE 0 4660 1 3 1 /\
  RLC_COLL_KEY_VALUE 0 4660 1 3 0 <> RLC_COLL_KEY_MBMS_VALUE 0 4660 1 2 0.
Proof.
  destruct (rlc_keys_distinct 0 4660 1 3 0 0 4660 1 3 1) as [H1 H2].
  all: try lia.
  split; [|apply H2]. intros H. apply H1 in H. discriminate H.
Defined.

(** Round trip between the buffer of the MAC and the transport blocks.  Cutting [k]
    blocks of [n] bytes out of a buffer gives [k] blocks of [n] bytes, counts them, and
    serialising these blocks into a buffer that is large enough writes back exactly the bytes
    that were cut. *)
Theorem tb_round_trip buffer off n (k : nat) out :
  0 <= off -> 0 <= n -> off + Z.of_nat k * n <= zlen buffer -> zlen buffer < 2 ^ 31 ->
  Z.of_nat k < 2 ^ 16 -> Z.of_nat k * n <= zlen out -> zlen out < 2 ^ 31 ->
  exists di out',
    mac_rlc_deserialize_tb (fun _ => true) buffer off n (Z.of_nat k) None = Ret di /\
    length (di_data di) = k /\ di_no_tb di = Z.of_nat k /\
    mac_rlc_serialize_tb out ((fun t => Build_mac_tb_req (ti_data t) n) <$> di_data di) =
      Ret (Z.of_nat k * n, out') /\
    bget out' 0 (Z.of_nat k * n) = bget buffer off (Z.of_nat k * n).
Proof.
  intros Ho Hn Hle Hb Hk Hout Hob.
  destruct (deserialize_loop_ok buffer off n k 0 0) as (l & E & Hl & Hf & Hj); [lia..|].
  unfold mac_rlc_deserialize_tb. rewrite Nat2Z.id, E. cbn [mbind cres_bind].
  set (tbs := (fun t => Build_mac_tb_req (ti_data t) n) <$> l).
  assert (Hbytes : tbs_bytes tbs = mjoin (ti_data <$> l)).
  { unfold tbs_bytes, tbs. f_equal. rewrite <- list_fmap_compose. apply list_fmap_ext.
    intros i t Ht. simpl. eapply Forall_lookup_1 in Hf; [|exact Ht]. apply take_ge.
    unfold zlen in Hf. lia. }
  rewrite Z.add_0_r in Hj. symmetry in Hj. pose proof (bget_inv _ _ _ _ Hj) as (_ & _ & _ & _ & Hz).
  destruct (serialize_ok tbs out) as (out' & Es & _ & Hg).
  - apply Forall_fmap. eapply Forall_impl; [|exact Hf]. intros t Ht. unfold compose, tb_ok. simpl in *. lia.
  - rewrite Hbytes. lia.
  - done.
  - eexists _, out'. split; [reflexivity|]. cbn [di_data di_no_tb]. fold tbs. split_and!; [done| | |].
    + rewrite Z.add_0_l. apply u16_small. lia.
    + rewrite Es, Hbytes, Hz. done.
    + rewrite Hj. by rewrite <- Hz, <- Hbytes.
Qed.

Lemma tb_round_trip_witness :
  exists di out',
    mac_rlc_deserialize_tb (fun _ => true) [Byte.x00; Byte.x01; Byte.x02; Byte.x03; Byte.x04] 1 2 2
      None = Ret di /\
    mac_rlc_serialize_tb (zeros 4) ((fun t => Build_mac_tb_req (ti_data t) 2) <$> di_data di) =
      Ret (4, out') /\
    bget out' 0 4 = Ret [Byte.x01; Byte.x02; Byte.x03; Byte.x04].
Proof.
  destruct (tb_round_trip [Byte.x00; Byte.x01; Byte.x02; Byte.x03; Byte.x04] 1 2 2 (zeros 4))
    as (di & out' & E1 & _ & _ & E2 & E3).
  all: try (unfold zlen; simpl; lia).
  exists di, out'. split; [exact E1|]. split; [exact E2|]. exact E3.
Defined.
