(* ===== verification/RlcTm.v ===== *)
(** RLC transparent mode ([openair2/LAYER2/RLC/TM_v9.3.0/rlc_tm.c] and [rlc_tm_init.c]).

    The SDUs to send wait in a ring of [size_input_sdus_buffer] cells; [ring_rep] relates the
    ring to the queue it implements.  A memory block is the list of its bytes; [alloc] says
    whether a request for a block succeeds.  Sizes of SDUs are in bits, as in the code. *)
From stdpp Require Import base list numbers sets.
From coqutil Require Import Byte.
From Stdlib Require Import ZArith Lia.
From S2P Require Import Prelude SplitIface RlcPrims.
Open Scope Z_scope.

Inductive rlc_protocol_state_t :=
| RLC_NULL_STATE
| RLC_DATA_TRANSFER_READY_STATE
| RLC_LOCAL_SUSPEND_STATE.

(** [struct rlc_tm_tx_sdu_management]: the memory at [first_byte] and the size in bits. *)
Record tm_sdu := { sdu_mem : list byte; sdu_size : Z }.

Record rlc_tm_entity := {
  allocation : Z;
  protocol_state : rlc_protocol_state_t;
  is_uplink_downlink : Z;
  is_data_plane : Z;
  rb_id : Z;
  input_sdus : option (list (option tm_sdu));
  size_input_sdus_buffer : Z;    (* uint16_t *)
  nb_sdu : Z;                    (* uint16_t *)
  next_sdu_index : Z;            (* uint16_t *)
  current_sdu_index : Z;         (* uint16_t *)
  pdus_to_mac_layer : list mac_tb_req;
  rlc_pdu_size : Z;              (* sdu_size_t *)
  buffer_occupancy : Z;          (* rlc_buffer_occupancy_t *)
  output_sdu_size_to_write : Z;  (* unsigned int *)
  output_sdu_in_construction : option (list byte);
}.

(** The members of the transmission side that change together. *)
Definition set_tx (e : rlc_tm_entity) (ring : option (list (option tm_sdu)))
  (nb next cur : Z) (pdus : list mac_tb_req) (bo : Z) : rlc_tm_entity :=
  Build_rlc_tm_entity (allocation e) (protocol_state e) (is_uplink_downlink e) (is_data_plane e)
    (rb_id e) ring (size_input_sdus_buffer e) nb next cur pdus (rlc_pdu_size e) bo
    (output_sdu_size_to_write e) (output_sdu_in_construction e).

Definition set_pdu_size (e : rlc_tm_entity) (n : Z) : rlc_tm_entity :=
  Build_rlc_tm_entity (allocation e) (protocol_state e) (is_uplink_downlink e) (is_data_plane e)
    (rb_id e) (input_sdus e) (size_input_sdus_buffer e) (nb_sdu e) (next_sdu_index e)
    (current_sdu_index e) (pdus_to_mac_layer e) n (buffer_occupancy e)
    (output_sdu_size_to_write e) (output_sdu_in_construction e).

Definition set_rx (e : rlc_tm_entity) (n : Z) (o : option (list byte)) : rlc_tm_entity :=
  Build_rlc_tm_entity (allocation e) (protocol_state e) (is_uplink_downlink e) (is_data_plane e)
    (rb_id e) (input_sdus e) (size_input_sdus_buffer e) (nb_sdu e) (next_sdu_index e)
    (current_sdu_index e) (pdus_to_mac_layer e) (rlc_pdu_size e) (buffer_occupancy e) n o.

(** ** Configuration ([rlc_tm_init.c]) *)

(** [memset] of the entity, then the members the function sets.  The ring is always
    allocated, since [memset] has cleared [input_sdus_alloc]. *)
Definition rlc_tm_init (alloc : bool) (e : rlc_tm_entity) : cres rlc_tm_entity :=
  if negb alloc then Trap FNull
  else Ret {|
    allocation := allocation e; protocol_state := RLC_NULL_STATE;
    is_uplink_downlink := 0; is_data_plane := 0; rb_id := 0;
    input_sdus := Some (replicate 16 None); size_input_sdus_buffer := 16;
    nb_sdu := 0; next_sdu_index := 0; current_sdu_index := 0; pdus_to_mac_layer := [];
    rlc_pdu_size := 0; buffer_occupancy := 0; output_sdu_size_to_write := 0;
    output_sdu_in_construction := None |}.

Definition rlc_tm_reset_state_variables (e : rlc_tm_entity) : rlc_tm_entity :=
  let e := set_tx e (input_sdus e) 0 0 0 (pdus_to_mac_layer e) 0 in
  set_rx e 0 (output_sdu_in_construction e).

Definition rlc_tm_configure (is_uplink_downlinkP : Z) (e : rlc_tm_entity) : rlc_tm_entity :=
  rlc_tm_reset_state_variables
    (Build_rlc_tm_entity (allocation e) (protocol_state e) is_uplink_downlinkP (is_data_plane e)
       (rb_id e) (input_sdus e) (size_input_sdus_buffer e) (nb_sdu e) (next_sdu_index e)
       (current_sdu_index e) (pdus_to_mac_layer e) (rlc_pdu_size e) (buffer_occupancy e)
       (output_sdu_size_to_write e) (output_sdu_in_construction e)).

Definition rlc_tm_set_debug_infos (srb_flagP rb_idP : Z) (e : rlc_tm_entity) : rlc_tm_entity :=
  Build_rlc_tm_entity (allocation e) (protocol_state e) (is_uplink_downlink e)
    (if negb (srb_flagP =? 0) then 0 else 1) rb_idP (input_sdus e) (size_input_sdus_buffer e)
    (nb_sdu e) (next_sdu_index e) (current_sdu_index e) (pdus_to_mac_layer e) (rlc_pdu_size e)
    (buffer_occupancy e) (output_sdu_size_to_write e) (output_sdu_in_construction e).

(** The part of [config_req_rlc_tm] after the entity was found.  The arguments of
    [rlc_tm_set_debug_infos] are given in the order of the call; [boolean_t] is a signed
    char. *)
Definition config_req_rlc_tm (alloc : bool) (srb_flagP is_uplink_downlinkP rb_idP : Z)
  (e : rlc_tm_entity) : cres rlc_tm_entity :=
  e ← rlc_tm_init alloc e;
  let e := Build_rlc_tm_entity (allocation e) RLC_DATA_TRANSFER_READY_STATE
    (is_uplink_downlink e) (is_data_plane e) (rb_id e) (input_sdus e) (size_input_sdus_buffer e)
    (nb_sdu e) (next_sdu_index e) (current_sdu_index e) (pdus_to_mac_layer e) (rlc_pdu_size e)
    (buffer_occupancy e) (output_sdu_size_to_write e) (output_sdu_in_construction e) in
  let e := rlc_tm_set_debug_infos (i8 rb_idP) (u16 srb_flagP) e in
  Ret (rlc_tm_configure is_uplink_downlinkP e).

(** The blocks of the ring that are freed, and the cleared entity. *)
Definition rlc_tm_cleanup (e : rlc_tm_entity) : list tm_sdu * list mac_tb_req * rlc_tm_entity :=
  (match input_sdus e with
   | Some ring => omap id (take (Z.to_nat (size_input_sdus_buffer e)) ring)
   | None => []
   end,
   pdus_to_mac_layer e,
   {| allocation := 0; protocol_state := RLC_NULL_STATE; is_uplink_downlink := 0;
      is_data_plane := 0; rb_id := 0; input_sdus := None; size_input_sdus_buffer := 0;
      nb_sdu := 0; next_sdu_index := 0; current_sdu_index := 0; pdus_to_mac_layer := [];
      rlc_pdu_size := 0; buffer_occupancy := 0; output_sdu_size_to_write := 0;
      output_sdu_in_construction := None |}).

(** ** Transmission *)

(** [input_sdus[i]]: the ring must have been allocated. *)
Definition ring_get (e : rlc_tm_entity) (i : Z) : cres (option tm_sdu) :=
  match input_sdus e with Some r => aget r i | None => Trap FNull end.
Definition ring_set (e : rlc_tm_entity) (i : Z) (x : option tm_sdu)
  : cres (list (option tm_sdu)) :=
  match input_sdus e with Some r => aset r i x | None => Trap FNull end.

(** [x % size_input_sdus_buffer] on non-negative operands. *)
Definition ring_next (e : rlc_tm_entity) (i : Z) : cres Z :=
  if size_input_sdus_buffer e =? 0 then Trap FDiv
  else Ret (u16 ((i + 1) mod size_input_sdus_buffer e)).

(** The result says whether the SDU was stored (it is freed otherwise). *)
Definition rlc_tm_data_req (sdu : tm_sdu) (e : rlc_tm_entity) : cres (bool * rlc_tm_entity) :=
  c ← ring_get e (next_sdu_index e);
  match c with
  | None =>
      ring ← ring_set e (next_sdu_index e) (Some sdu);
      next ← ring_next e (next_sdu_index e);
      Ret (true, set_tx e (Some ring) (u16 (nb_sdu e + 1)) next (current_sdu_index e)
             (pdus_to_mac_layer e) (i32 (buffer_occupancy e + Z.shiftr (sdu_size sdu) 3)))
  | Some _ => Ret (false, e)
  end.

(** The loop of [rlc_tm_no_segment]: its guard is the current cell of the ring;
    [nb_pdu_to_transmit] is 1 and is never changed.  [fuel] bounds the number of turns. *)
Fixpoint no_segment_loop (alloc : bool) (fuel : nat) (e : rlc_tm_entity) : cres rlc_tm_entity :=
  match fuel with
  | O => Trap FFuel
  | S fuel =>
      c ← ring_get e (current_sdu_index e);
      match c with
      | None => Ret e
      | Some sdu =>
          if negb alloc then Ret e
          else
            d ← bget (sdu_mem sdu) 0 (Z.shiftr (rlc_pdu_size e + 7) 3);
            let tb := {| tr_data := d; tr_size := Z.shiftr (rlc_pdu_size e) 3 |} in
            ring ← ring_set e (current_sdu_index e) None;
            cur ← ring_next e (current_sdu_index e);
            no_segment_loop alloc fuel
              (set_tx e (Some ring) (u16 (nb_sdu e - 1)) (next_sdu_index e) cur
                 (pdus_to_mac_layer e ++ [tb])
                 (i32 (buffer_occupancy e - Z.shiftr (sdu_size sdu) 3)))
      end
  end.

Definition rlc_tm_no_segment (alloc : bool) (e : rlc_tm_entity) : cres rlc_tm_entity :=
  no_segment_loop alloc
    (S (match input_sdus e with Some r => length r | None => 0 end)) e.

(** The members of the response that the code leaves unset are [garbage]. *)
Definition rlc_tm_mac_status_indication (garbage tb_sizeP : Z) (e : rlc_tm_entity)
  : cres (rlc_tm_entity * mac_status_resp) :=
  let e := set_pdu_size e tb_sizeP in
  let bytes := u32 (buffer_occupancy e) in
  if rlc_pdu_size e =? 0 then Trap FDiv
  else Ret (e, {| sr_bytes := bytes; sr_pdus := u16 (bytes / u32 (rlc_pdu_size e));
                  sr_creation_time := u32 garbage; sr_remaining := u32 garbage;
                  sr_segmented := u8 garbage |}).

(** The transport blocks handed to the MAC. *)
Definition rlc_tm_mac_data_request (alloc : bool) (e : rlc_tm_entity)
  : cres (rlc_tm_entity * list mac_tb_req) :=
  e ← rlc_tm_no_segment alloc e;
  let pdus := pdus_to_mac_layer e in
  let e := set_tx e (input_sdus e) (nb_sdu e) (next_sdu_index e) (current_sdu_index e) []
             (buffer_occupancy e) in
  if rlc_pdu_size e =? 0 then Trap FDiv else Ret (e, pdus).

(** ** Reception *)

(** The SDU given to [rlc_data_ind], if any. *)
Definition rlc_tm_send_sdu (alloc : bool) (src : list byte) (length_in_bitsP : Z)
  (e : rlc_tm_entity) : cres (rlc_tm_entity * list (list byte)) :=
  let length_in_bytes := Z.shiftr (length_in_bitsP + 7) 3 in
  let out := match output_sdu_in_construction e with
             | Some o => Some o
             | None => if alloc then Some (zeros (Z.to_nat length_in_bytes)) else None
             end in
  match out with
  | None => Ret (set_rx e (output_sdu_size_to_write e) None, [])
  | Some o =>
      o ← memcpy o (output_sdu_size_to_write e) src 0 length_in_bytes;
      d ← bget o 0 length_in_bytes;
      Ret (set_rx e (output_sdu_size_to_write e) None, [d])
  end.

Fixpoint rx_loop (alloc : bool) (tbs : list mac_tb_ind) (tb_size : Z) (e : rlc_tm_entity)
  : cres (rlc_tm_entity * list (list byte)) :=
  match tbs with
  | [] => Ret (e, [])
  | tb :: tbs' =>
      '(e, o) ← rlc_tm_send_sdu alloc (ti_data tb) tb_size e;
      '(e, os) ← rx_loop alloc tbs' tb_size e;
      Ret (e, o ++ os)
  end.

Definition rlc_tm_rx (alloc : bool) (di : mac_data_ind) (e : rlc_tm_entity)
  : cres (rlc_tm_entity * list (list byte)) :=
  rx_loop alloc (di_data di) (di_tb_size di) (set_rx e 0 (output_sdu_in_construction e)).

Definition rlc_tm_mac_data_indication := rlc_tm_rx.

#[global] Instance tm_entity_ops : RlcEntity rlc_tm_entity := {|
  ent_status _ tb e := rlc_tm_mac_status_indication 0 tb e;
  ent_data_request _ e := rlc_tm_mac_data_request true e;
  ent_data_indication _ di e := rlc_tm_mac_data_indication true di e |}.

(** ** The ring as a queue *)

(** The bytes announced by the SDUs of a queue. *)
Definition queue_bytes (q : list tm_sdu) : Z := foldr (fun s n => Z.shiftr (sdu_size s) 3 + n) 0 q.

Record ring_rep (e : rlc_tm_entity) (q : list tm_sdu) : Prop := {
  rr_size : size_input_sdus_buffer e = 16;
  rr_cur : 0 <= current_sdu_index e < 16;
  rr_len : (length q <= 16)%nat;
  rr_next : next_sdu_index e = (current_sdu_index e + zlen q) mod 16;
  rr_nb : nb_sdu e = zlen q;
  rr_bo : buffer_occupancy e = queue_bytes q;
  rr_sizes : Forall (fun s => 0 <= sdu_size s < 2 ^ 16) q;
  rr_ring : exists r, input_sdus e = Some r /\ length r = 16%nat /\
    forall i, 0 <= i < 16 -> r !! Z.to_nat i = Some (q !! Z.to_nat ((i - current_sdu_index e) mod 16));
}.

(** What one SDU becomes when a transport block of [n] units is requested. *)
Definition pdu_of (n : Z) (s : tm_sdu) : mac_tb_req :=
  {| tr_data := take (Z.to_nat (Z.shiftr (n + 7) 3)) (sdu_mem s); tr_size := Z.shiftr n 3 |}.

Lemma queue_bytes_bound q :
  Forall (fun s => 0 <= sdu_size s < 2 ^ 16) q -> 0 <= queue_bytes q <= zlen q * 8192.
Proof.
  induction 1 as [|s q Hs Hq IH]; [done|]. cbn [queue_bytes foldr]. fold (queue_bytes q).
  rewrite Z.shiftr_div_pow2 by lia. unfold zlen in *. simpl length. rewrite Nat2Z.inj_succ.
  assert (0 <= sdu_size s / 2 ^ 3 < 8192) by (Z.div_mod_to_equations; lia). lia.
Qed.

Lemma queue_bytes_app q s :
  queue_bytes (q ++ [s]) = queue_bytes q + Z.shiftr (sdu_size s) 3.
Proof.
  unfold queue_bytes. rewrite foldr_app. simpl. generalize (Z.shiftr (sdu_size s) 3) as b.
  intros b. induction q as [|x q IH]; simpl; lia.
Qed.

(** Reading a cell of the ring. *)
Lemma ring_get_rep e q i :
  ring_rep e q -> 0 <= i < 16 ->
  ring_get e i = Ret (q !! Z.to_nat ((i - current_sdu_index e) mod 16)).
Proof.
  intros Hr Hi. destruct (rr_ring _ _ Hr) as (r & E & _ & Hl). unfold ring_get. rewrite E.
  apply aget_ok; [lia|]. by apply Hl.
Qed.

Lemma ring_next_rep e q i :
  ring_rep e q -> 0 <= i < 16 -> ring_next e i = Ret ((i + 1) mod 16).
Proof.
  intros Hr Hi. unfold ring_next. rewrite (rr_size _ _ Hr). cbn [Z.eqb].
  rewrite u16_small; [done|]. pose proof (Z.mod_pos_bound (i + 1) 16). lia.
Qed.

Lemma data_req_push e q s :
  ring_rep e q -> (length q < 16)%nat -> 0 <= sdu_size s < 2 ^ 16 ->
  exists e', rlc_tm_data_req s e = Ret (true, e') /\ ring_rep e' (q ++ [s]).
Proof.
  intros Hr Hl Hs. pose proof Hr as [R1 R2 R3 R4 R5 R6 R7 (r & R8 & R9 & R10)].
  set (n := next_sdu_index e) in *. set (c := current_sdu_index e) in *.
  assert (Hn : 0 <= n < 16) by (rewrite R4; apply Z.mod_pos_bound; lia).
  assert (Hidx : (n - c) mod 16 = zlen q).
  { rewrite R4. unfold zlen in *. Z.div_mod_to_equations. lia. }
  unfold rlc_tm_data_req. fold n. rewrite (ring_get_rep e q n Hr Hn). fold c. rewrite Hidx.
  rewrite lookup_ge_None_2 by (unfold zlen; lia). cbn [mbind cres_bind].
  unfold ring_set. rewrite R8. rewrite aset_ok by (unfold zlen; lia). cbn [mbind cres_bind].
  rewrite (ring_next_rep e q n Hr Hn). cbn [mbind cres_bind]. eexists. split; [reflexivity|].
  pose proof (queue_bytes_bound q R7). unfold zlen in *.
  assert (Hbs : 0 <= Z.shiftr (sdu_size s) 3 < 8192).
  { rewrite Z.shiftr_div_pow2 by lia. Z.div_mod_to_equations. lia. }
  constructor; cbn [set_tx size_input_sdus_buffer current_sdu_index next_sdu_index nb_sdu
    buffer_occupancy input_sdus]; try done.
  - rewrite length_app. simpl. lia.
  - fold c. rewrite R4. unfold zlen. rewrite length_app. simpl.
    rewrite Nat2Z.inj_add. simpl. rewrite Zplus_mod_idemp_l. f_equal. lia.
  - rewrite R5, u16_small by lia. unfold zlen. rewrite length_app. simpl. lia.
  - rewrite R6, queue_bytes_app, i32_small by lia. done.
  - apply Forall_app. split; [done|by constructor].
  - eexists. split; [done|]. split; [by rewrite length_insert|]. intros i Hi. fold c.
    destruct (decide (i = n)) as [->|Hne].
    + rewrite list_lookup_insert_eq by lia. rewrite Hidx. unfold zlen. rewrite Nat2Z.id.
      by rewrite list_lookup_middle.
    + rewrite list_lookup_insert_ne by lia. rewrite R10 by done. fold c.
      assert (Hd : (i - c) mod 16 <> Z.of_nat (length q)) by (Z.div_mod_to_equations; lia).
      pose proof (Z.mod_pos_bound (i - c) 16 ltac:(lia)).
      destruct (Z.lt_ge_cases ((i - c) mod 16) (Z.of_nat (length q))).
      * by rewrite lookup_app_l by lia.
      * rewrite !lookup_ge_None_2; [done|rewrite length_app; simpl; lia|lia].
Qed.

Lemma data_req_full e q s :
  ring_rep e q -> length q = 16%nat -> rlc_tm_data_req s e = Ret (false, e).
Proof.
  intros Hr Hl. pose proof Hr as [R1 R2 R3 R4 R5 R6 R7 _].
  assert (Hn : next_sdu_index e = current_sdu_index e).
  { rewrite R4. unfold zlen. rewrite Hl. Z.div_mod_to_equations. lia. }
  unfold rlc_tm_data_req. rewrite Hn, (ring_get_rep e q _ Hr R2), Z.sub_diag.
  by destruct q.
Qed.

(** One turn of the loop on a non-empty queue. *)
Lemma no_segment_pop fuel e s q :
  ring_rep e (s :: q) -> 0 <= rlc_pdu_size e -> Z.shiftr (rlc_pdu_size e + 7) 3 <= zlen (sdu_mem s) ->
  exists e', no_segment_loop true (S fuel) e = no_segment_loop true fuel e' /\
    ring_rep e' q /\ rlc_pdu_size e' = rlc_pdu_size e /\
    pdus_to_mac_layer e' = pdus_to_mac_layer e ++ [pdu_of (rlc_pdu_size e) s].
Proof.
  intros Hr Hp Hm. pose proof Hr as [R1 R2 R3 R4 R5 R6 R7 (r & R8 & R9 & R10)].
  set (c := current_sdu_index e) in *.
  assert (Hsh : 0 <= Z.shiftr (rlc_pdu_size e + 7) 3) by (apply Z.shiftr_nonneg; lia).
  apply Forall_cons_1 in R7 as [Hs R7]. pose proof (queue_bytes_bound q R7).
  cbn [no_segment_loop]. fold c. rewrite (ring_get_rep e _ c Hr R2). fold c. rewrite Z.sub_diag.
  change (Z.to_nat (0 mod 16)) with 0%nat. cbn [mbind cres_bind lookup list_lookup negb].
  rewrite bget_ok by lia. cbn [mbind cres_bind]. unfold ring_set. rewrite R8.
  rewrite aset_ok by (unfold zlen; lia). cbn [mbind cres_bind].
  rewrite (ring_next_rep e _ c Hr R2). cbn [mbind cres_bind].
  eexists. split; [reflexivity|].
  unfold zlen in *. simpl length in *.
  split; [|split; [done|by cbn [set_tx pdus_to_mac_layer]; unfold pdu_of; rewrite drop_0]].
  constructor; cbn [set_tx size_input_sdus_buffer current_sdu_index next_sdu_index nb_sdu
    buffer_occupancy input_sdus].
  - done.
  - apply Z.mod_pos_bound. lia.
  - lia.
  - rewrite R4. unfold zlen. rewrite Zplus_mod_idemp_l. f_equal. lia.
  - rewrite R5, u16_small by lia. unfold zlen. lia.
  - rewrite R6. cbn [queue_bytes foldr]. fold (queue_bytes q). rewrite i32_small; lia.
  - done.
  - eexists. split; [done|]. split; [by rewrite length_insert|]. intros i Hi.
    destruct (decide (i = c)) as [->|Hne].
    + rewrite list_lookup_insert_eq by lia. f_equal. symmetry. apply lookup_ge_None_2.
      Z.div_mod_to_equations. lia.
    + rewrite list_lookup_insert_ne by lia. rewrite R10 by done. fold c. f_equal.
      replace (Z.to_nat ((i - c) mod 16)) with (S (Z.to_nat ((i - (c + 1) mod 16) mod 16))); [done|].
      Z.div_mod_to_equations. lia.
Qed.

Lemma no_segment_drains q : forall fuel e,
  ring_rep e q -> (length q < fuel)%nat -> 0 <= rlc_pdu_size e ->
  Forall (fun s => Z.shiftr (rlc_pdu_size e + 7) 3 <= zlen (sdu_mem s)) q ->
  exists e', no_segment_loop true fuel e = Ret e' /\ ring_rep e' [] /\
    rlc_pdu_size e' = rlc_pdu_size e /\
    pdus_to_mac_layer e' = pdus_to_mac_layer e ++ (pdu_of (rlc_pdu_size e) <$> q).
Proof.
  induction q as [|s q IH]; intros [|fuel] e Hr Hf Hp Hm; try (simpl in Hf; lia).
  { exists e. cbn [no_segment_loop]. rewrite (ring_get_rep e [] _ Hr (rr_cur _ _ Hr)).
    rewrite lookup_nil. cbn [mbind cres_bind]. split_and!; [done|done|done|by rewrite app_nil_r]. }
  apply Forall_cons_1 in Hm as [Hs Hm].
  destruct (no_segment_pop fuel e s q Hr Hp Hs) as (e1 & E1 & Hr1 & P1 & D1).
  destruct (IH fuel e1) as (e2 & E2 & Hr2 & P2 & D2); [done|simpl in Hf; lia|lia|by rewrite P1|].
  exists e2. rewrite E1, E2, P2, D2, D1, P1. split_and!; [done..|]. by rewrite <- app_assoc.
Qed.

Lemma ring_rep_init alloc_e : exists e, rlc_tm_init true alloc_e = Ret e /\ ring_rep e [].
Proof.
  eexists. split; [reflexivity|]. constructor; cbn; try done; try lia.
  eexists. split; [done|]. split; [done|]. intros i Hi. rewrite lookup_nil.
  change [None; _; _; _; _; _; _; _; _; _; _; _; _; _; _; _] with (replicate 16 (None : option tm_sdu)).
  apply lookup_replicate. split; [done|lia].
Qed.

(** ** Properties *)

Lemma data_request_drains e q :
  ring_rep e q -> pdus_to_mac_layer e = [] -> 0 < rlc_pdu_size e ->
  Forall (fun s => Z.shiftr (rlc_pdu_size e + 7) 3 <= zlen (sdu_mem s)) q ->
  exists e', rlc_tm_mac_data_request true e = Ret (e', pdu_of (rlc_pdu_size e) <$> q) /\
    ring_rep e' [] /\ pdus_to_mac_layer e' = [] /\ buffer_occupancy e' = 0.
Proof.
  intros Hr Hpd Hp Hm. unfold rlc_tm_mac_data_request, rlc_tm_no_segment.
  destruct (rr_ring _ _ Hr) as (r & -> & Hl & _).
  destruct (no_segment_drains q (S (length r)) e Hr) as (e1 & E & Hr1 & P1 & D1);
    [pose proof (rr_len _ _ Hr); lia|lia|done|].
  rewrite E. cbn [mbind cres_bind].
  rewrite (proj2 (Z.eqb_neq _ 0)) by (cbn [set_tx rlc_pdu_size]; lia).
  rewrite D1, Hpd. cbn [app]. eexists. split; [reflexivity|].
  split; [|split; [done|apply (rr_bo _ _ Hr1)]].
  destruct Hr1 as [G1 G2 G3 G4 G5 G6 G7 G8]. by constructor.
Qed.

(** What happens to an entity: an SDU of the upper layer, or the two calls of the MAC of one TTI,
    which offer [n] units. *)
Inductive tm_event :=
| TmSubmit (s : tm_sdu)
| TmRequest (n : Z).

(** The entity, and for each request the bytes announced and the blocks given. *)
Definition tm_step (ev : tm_event) (eo : rlc_tm_entity * list (Z * list mac_tb_req))
  : cres (rlc_tm_entity * list (Z * list mac_tb_req)) :=
  match ev with
  | TmSubmit s => '(_, e) ← rlc_tm_data_req s eo.1; Ret (e, eo.2)
  | TmRequest n =>
      '(e, r) ← rlc_tm_mac_status_indication 0 n eo.1;
      '(e, tbs) ← rlc_tm_mac_data_request true e;
      Ret (e, eo.2 ++ [(sr_bytes r, tbs)])
  end.

(** The same events on a queue of at most 16 SDUs: one that finds it full is dropped, and a request
    takes all that wait. *)
Fixpoint tm_queue (q : list tm_sdu) (evs : list tm_event) : list (Z * list mac_tb_req) * list tm_sdu :=
  match evs with
  | [] => ([], q)
  | TmSubmit s :: evs => tm_queue (take 16 (q ++ [s])) evs
  | TmRequest n :: evs => let '(o, q') := tm_queue [] evs in ((queue_bytes q, pdu_of n <$> q) :: o, q')
  end.

(** The SDUs have sizes of 16 bits, and a request finds SDUs whose memory holds the units it
    copies. *)
Fixpoint tm_fits (q : list tm_sdu) (evs : list tm_event) : Prop :=
  match evs with
  | [] => True
  | TmSubmit s :: evs => 0 <= sdu_size s < 2 ^ 16 /\ tm_fits (take 16 (q ++ [s])) evs
  | TmRequest n :: evs => 0 < n /\ Forall (fun s => Z.shiftr (n + 7) 3 <= zlen (sdu_mem s)) q /\ tm_fits [] evs
  end.

Lemma submit_rep e q s : ring_rep e q -> pdus_to_mac_layer e = [] -> 0 <= sdu_size s < 2 ^ 16 ->
  exists b e', rlc_tm_data_req s e = Ret (b, e') /\ ring_rep e' (take 16 (q ++ [s])) /\ pdus_to_mac_layer e' = [].
Proof.
  intros Hr Hpd Hs. pose proof (rr_len _ _ Hr) as Hl. destruct (decide (length q = 16%nat)) as [Hf|Hf].
  - exists false, e. rewrite (data_req_full e q s Hr Hf). by rewrite take_app_le, take_ge by lia.
  - destruct (data_req_push e q s Hr) as (e1 & E1 & Hr1); [lia|done|]. exists true, e1. split; [done|].
    rewrite take_ge by (rewrite length_app; simpl; lia). split; [done|].
    unfold rlc_tm_data_req in E1. cres_inv. destruct a; cres_inv; by simplify_eq.
Qed.

Lemma request_rep e q n : ring_rep e q -> pdus_to_mac_layer e = [] -> 0 < n ->
  Forall (fun s => Z.shiftr (n + 7) 3 <= zlen (sdu_mem s)) q ->
  exists e1 r e2, rlc_tm_mac_status_indication 0 n e = Ret (e1, r) /\ sr_bytes r = queue_bytes q /\
    rlc_tm_mac_data_request true e1 = Ret (e2, pdu_of n <$> q) /\ ring_rep e2 [] /\ pdus_to_mac_layer e2 = [].
Proof.
  intros Hr Hpd Hn Hm. pose proof (queue_bytes_bound _ (rr_sizes _ _ Hr)) as Hb. pose proof (rr_len _ _ Hr).
  assert (Hr1 : ring_rep (set_pdu_size e n) q) by (destruct Hr; by constructor).
  destruct (data_request_drains (set_pdu_size e n) q Hr1 Hpd Hn Hm) as (e2 & E2 & Hr2 & Hp2 & _).
  eexists (set_pdu_size e n), _, e2. unfold rlc_tm_mac_status_indication. cbn [rlc_pdu_size set_pdu_size].
  rewrite (proj2 (Z.eqb_neq n 0)) by lia. split; [reflexivity|]. split; [|done].
  cbn [sr_bytes buffer_occupancy set_pdu_size]. rewrite (rr_bo _ _ Hr), u32_small; [done|]. unfold zlen in Hb. lia.
Qed.

Lemma tm_run_rep evs : forall e q out, ring_rep e q -> pdus_to_mac_layer e = [] -> tm_fits q evs ->
  exists e', for_each tm_step evs (e, out) = Ret (e', out ++ (tm_queue q evs).1) /\ ring_rep e' (tm_queue q evs).2.
Proof.
  induction evs as [|[s|n] evs IH]; intros e q out Hr Hpd Hf; cbn [for_each tm_step tm_queue tm_fits fst snd] in *.
  - exists e. by rewrite app_nil_r.
  - destruct Hf as [Hs Hf]. destruct (submit_rep e q s Hr Hpd Hs) as (b & e1 & -> & Hr1 & Hp1). cbn [mbind cres_bind].
    by apply IH.
  - destruct Hf as (Hn & Hm & Hf). destruct (request_rep e q n Hr Hpd Hn Hm) as (e1 & r & e2 & -> & Hb & E2 & Hr2 & Hp2).
    cbn [mbind cres_bind]. rewrite E2. cbn [mbind cres_bind].
    destruct (IH e2 [] (out ++ [(sr_bytes r, pdu_of n <$> q)]) Hr2 Hp2 Hf) as (e' & E & Hr'). exists e'. rewrite E, Hb.
    destruct (tm_queue [] evs) as [o q']. cbn [fst snd] in *. by rewrite <- app_assoc.
Qed.


(** An SDU of two bytes. *)
Definition demo_sdu (b : byte) : tm_sdu := {| sdu_mem := [b; b]; sdu_size := 16 |}.


(** Transparent mode can give more bytes than the MAC granted.  The loop that should take
    one SDU per request takes all of them, so with nine or more SDUs waiting and a grant of
    [8 * m] units the blocks add up to at least [9 * m] bytes, more than the grant. *)
Theorem tm_blocks_exceed_grant e q m :
  ring_rep e q -> pdus_to_mac_layer e = [] -> (9 <= length q)%nat -> 0 < m ->
  Forall (fun s => m <= zlen (sdu_mem s)) q ->
  exists e1 r e2 tbs,
    rlc_tm_mac_status_indication 0 (8 * m) e = Ret (e1, r) /\
    rlc_tm_mac_data_request true e1 = Ret (e2, tbs) /\ length tbs = length q /\
    8 * m < zlen (tbs_bytes tbs).
Proof.
  intros Hr Hpd Hl Hm Hmem.
  assert (Hsh : Z.shiftr (8 * m + 7) 3 = m /\ Z.shiftr (8 * m) 3 = m).
  { rewrite !Z.shiftr_div_pow2 by lia. Z.div_mod_to_equations. lia. }
  destruct Hsh as [Hsh1 Hsh2].
  assert (Hr1 : ring_rep (set_pdu_size e (8 * m)) q).
  { destruct Hr as [G1 G2 G3 G4 G5 G6 G7 G8]. by constructor. }
  destruct (data_request_drains _ q Hr1 Hpd) as (e2 & E2 & _);
    [cbn [rlc_pdu_size set_pdu_size]; lia|cbn [rlc_pdu_size set_pdu_size]; by rewrite Hsh1|].
  eexists _, _, e2, _. split; [|split; [exact E2|split; [by rewrite length_fmap|]]].
  - unfold rlc_tm_mac_status_indication. cbn [rlc_pdu_size set_pdu_size].
    rewrite (proj2 (Z.eqb_neq (8 * m) 0)) by lia. reflexivity.
  - cbn [rlc_pdu_size set_pdu_size].
    assert (Hlen : zlen (tbs_bytes (pdu_of (8 * m) <$> q)) = zlen q * m).
    { clear -Hmem Hsh1 Hsh2 Hm. induction Hmem as [|s q Hs Hq IH]; [done|]. csimpl.
      change (tbs_bytes (?a :: ?l)) with (take (Z.to_nat (tr_size a)) (tr_data a) ++ tbs_bytes l).
      rewrite zlen_app, IH. unfold pdu_of. cbn [tr_size tr_data]. rewrite Hsh1, Hsh2.
      unfold zlen in *. rewrite !length_take. simpl length. lia. }
    rewrite Hlen. unfold zlen. nia.
Qed.

(** Nine SDUs of one byte in the ring. *)
Definition demo_nine : list tm_sdu :=
  replicate 9 {| sdu_mem := [Byte.x2a]; sdu_size := 8 |}.

Definition demo_ring : rlc_tm_entity := {|
  allocation := 1; protocol_state := RLC_DATA_TRANSFER_READY_STATE; is_uplink_downlink := 0;
  is_data_plane := 0; rb_id := 0;
  input_sdus := Some ((Some <$> demo_nine) ++ replicate 7 None); size_input_sdus_buffer := 16;
  nb_sdu := 9; next_sdu_index := 9; current_sdu_index := 0; pdus_to_mac_layer := [];
  rlc_pdu_size := 0; buffer_occupancy := 9; output_sdu_size_to_write := 0;
  output_sdu_in_construction := None |}.

Lemma demo_ring_rep : ring_rep demo_ring demo_nine.
Proof.
  constructor; try (cbn; (done || lia)).
  - apply Forall_replicate. simpl. lia.
  - eexists. split; [reflexivity|]. split; [done|]. intros i Hi. cbn [demo_ring current_sdu_index].
    rewrite Z.sub_0_r, Z.mod_small by lia. remember (Z.to_nat i) as k eqn:Ek.
    assert (Hk : (k < 16)%nat) by lia. clear -Hk.
    do 16 (destruct k as [|k]; [reflexivity|]). lia.
Qed.

Lemma tm_blocks_exceed_grant_witness :
  exists e1 r e2 tbs,
    rlc_tm_mac_status_indication 0 8 demo_ring = Ret (e1, r) /\
    rlc_tm_mac_data_request true e1 = Ret (e2, tbs) /\ 8 < zlen (tbs_bytes tbs).
Proof.
  destruct (tm_blocks_exceed_grant demo_ring demo_nine 1) as (e1 & r & e2 & tbs & E1 & E2 & _ & Hz).
  - exact demo_ring_rep.
  - reflexivity.
  - simpl. lia.
  - lia.
  - apply Forall_replicate. unfold zlen. simpl. lia.
  - exists e1, r, e2, tbs. split; [exact E1|]. split; [exact E2|exact Hz].
Defined.

(** The status primitive divides by the size of the grant. *)
Lemma tm_status_zero_grant garbage e : rlc_tm_mac_status_indication garbage 0 e = Trap FDiv.
Proof. reflexivity. Qed.

(** The configuration of a bearer stores the SRB flag as its identifier and takes its
    identifier for the SRB flag. *)
Lemma tm_config_swaps_arguments srb_flag dir rb e :
  0 <= rb < 128 -> 0 <= srb_flag < 128 ->
  exists e', config_req_rlc_tm true srb_flag dir rb e = Ret e' /\
    RlcTm.rb_id e' = srb_flag /\ is_data_plane e' = (if rb =? 0 then 1 else 0).
Proof.
  intros Hr Hs. eexists. split; [reflexivity|]. cbn. rewrite u16_small, i8_small by lia.
  split; [done|]. by destruct (rb =? 0).
Qed.

(** Reception in transparent mode.  The blocks cut out of the buffer of the MAC reach the
    upper layer one by one, in order and unchanged, for blocks below 8192 bytes (their size in
    bits is an [unsigned short]). *)
Theorem tm_rx_delivers buffer off n (k : nat) e :
  0 <= off -> 0 <= n < 8192 -> off + Z.of_nat k * n <= zlen buffer -> zlen buffer < 2 ^ 31 ->
  Z.of_nat k < 2 ^ 16 -> output_sdu_in_construction e = None ->
  exists di e' sdus,
    mac_rlc_deserialize_tb (fun _ => true) buffer off n (Z.of_nat k) None = Ret di /\
    rlc_tm_mac_data_indication true di e = Ret (e', sdus) /\ length sdus = k /\
    Forall (fun d => zlen d = n) sdus /\ Ret (mjoin sdus) = bget buffer off (Z.of_nat k * n).
Proof.
  intros Ho Hn Hle Hb Hk Hout.
  destruct (deserialize_loop_ok buffer off n k 0 0) as (l & E & Hl & Hf & Hj); [lia..|].
  unfold mac_rlc_deserialize_tb. rewrite Nat2Z.id, E. cbn [mbind cres_bind].
  assert (Hrx : forall e, output_sdu_in_construction e = None -> output_sdu_size_to_write e = 0 ->
    exists e', rx_loop true l (u16 (Z.shiftl n 3)) e = Ret (e', ti_data <$> l)).
  { clear -Hf Hn. assert (Hbits : u16 (Z.shiftl n 3) = 8 * n).
    { rewrite Z.shiftl_mul_pow2 by lia. rewrite u16_small; lia. }
    rewrite Hbits. assert (Hsh : Z.shiftr (8 * n + 7) 3 = n).
    { rewrite Z.shiftr_div_pow2 by lia. Z.div_mod_to_equations. lia. }
    induction Hf as [|t l Ht Hf IH]; intros e Hc Hw; [by exists e|].
    cbn [rx_loop]. unfold rlc_tm_send_sdu. rewrite Hc, Hsh, Hw.
    destruct (memcpy_ok (zeros (Z.to_nat n)) 0 (ti_data t) 0 n) as (b & Eb & Hbl & Pb);
      [lia|lia|lia|lia|rewrite zlen_zeros; lia|].
    rewrite Eb. cbn [mbind cres_bind]. rewrite drop_0 in Pb.
    replace (take (Z.to_nat n) (ti_data t)) with (ti_data t) in Pb
      by (symmetry; apply take_ge; unfold zlen in Ht; lia).
    pose proof (bget_bput_same _ _ _ _ Pb) as Hg. rewrite Ht in Hg. rewrite Hg. cbn [mbind cres_bind].
    destruct (IH (set_rx e 0 None)) as [e' ->]; [done|done|]. cbn [mbind cres_bind]. by exists e'. }
  destruct (Hrx (set_rx e 0 (output_sdu_in_construction e))) as [e' Er]; [done|done|].
  rewrite Z.add_0_r in Hj. eexists _, e', _. split; [reflexivity|].
  split; [exact Er|]. split; [by rewrite length_fmap|]. split; [by apply Forall_fmap|done].
Qed.

Lemma tm_rx_delivers_witness :
  exists di e' sdus,
    mac_rlc_deserialize_tb (fun _ => true) [Byte.x0a; Byte.x0b; Byte.x0c; Byte.x0d] 0 2 2 None = Ret di /\
    rlc_tm_mac_data_indication true di demo_ring = Ret (e', sdus) /\ length sdus = 2%nat.
Proof.
  destruct (tm_rx_delivers [Byte.x0a; Byte.x0b; Byte.x0c; Byte.x0d] 0 2 2 demo_ring)
    as (di & e' & sdus & E1 & E2 & Hl & _).
  all: try (unfold zlen; simpl; lia).
  - reflexivity.
  - exists di, e', sdus. split; [exact E1|]. split; [exact E2|exact Hl].
Defined.
