(* ===== verification/RlcMac.v ===== *)
(** The MAC side of the RLC layer: the local parts of [mac_rlc_data_req],
    [mac_rlc_data_ind] and [mac_rlc_status_ind] of [openair2/LAYER2/RLC/rlc_mac.c], which find
    the entity of a logical channel in the hash table and call the primitives of its mode.

    The acknowledged and unacknowledged entities are reached through [RlcEntity]; the
    transparent one is [RlcTm].  The entities live in a store indexed by the pointers of the
    hash table.  With the primitives of the RRC layer this is an [RlcService]: the CU of the
    split runs on it. *)
From stdpp Require Import base list gmap numbers sets.
From coqutil Require Import Byte.
From Stdlib Require Import ZArith Lia.
From S2P Require Import Prelude SplitIface Hashtable RlcPrims RlcTm.
Open Scope Z_scope.

(** [rlc_union_t]: the mode and the entity of the mode. *)
Inductive rlc_union (AM UM : Type) :=
| RLC_MODE_NONE
| RLC_MODE_AM (e : AM)
| RLC_MODE_UM (e : UM)
| RLC_MODE_TM (e : rlc_tm_entity).
Arguments RLC_MODE_NONE {AM UM}.
Arguments RLC_MODE_AM {AM UM} e.
Arguments RLC_MODE_UM {AM UM} e.
Arguments RLC_MODE_TM {AM UM} e.

(** [rlc_mbms_id_t]: service and session. *)
Record rlc_mbms_id := { service_id : Z; session_id : Z }.

(** The globals: the table of entities, the entities by address, the multicast sessions of a
    logical channel by module, and the SDUs given to the upper layers. *)
Record rlc_state (AM UM : Type) := {
  rlc_coll_p : option hash_table_t;
  rlc_heap : gmap Z (rlc_union AM UM);
  rlc_mbms_lcid2service_session_id_eNB : list (list rlc_mbms_id);
  rlc_mbms_lcid2service_session_id_ue : list (list rlc_mbms_id);
  rlc_delivered : list (list byte);
}.
Arguments Build_rlc_state {AM UM} _ _ _ _ _.
Arguments rlc_coll_p {AM UM} _.
Arguments rlc_heap {AM UM} _.
Arguments rlc_mbms_lcid2service_session_id_eNB {AM UM} _.
Arguments rlc_mbms_lcid2service_session_id_ue {AM UM} _.
Arguments rlc_delivered {AM UM} _.

Section Dispatch.
Context {AM UM : Type} `{RlcEntity AM} `{RlcEntity UM}.

Definition set_entity (s : rlc_state AM UM) (p : Z) (u : rlc_union AM UM) : rlc_state AM UM :=
  Build_rlc_state (rlc_coll_p s) (<[p := u]> (rlc_heap s))
    (rlc_mbms_lcid2service_session_id_eNB s) (rlc_mbms_lcid2service_session_id_ue s)
    (rlc_delivered s).

Definition add_delivered (s : rlc_state AM UM) (l : list (list byte)) : rlc_state AM UM :=
  Build_rlc_state (rlc_coll_p s) (rlc_heap s) (rlc_mbms_lcid2service_session_id_eNB s)
    (rlc_mbms_lcid2service_session_id_ue s) (rlc_delivered s ++ l).

(** ** The key of a logical channel *)

Definition srb_flag_of (channel : Z) : Z := if channel <=? 2 then 1 else 0.
Definition rb_id_of (channel : Z) : Z := if 2 <? channel then u16 (channel - 2) else u16 channel.

Definition channel_key (a : mac_args) : Z :=
  RLC_COLL_KEY_VALUE (module_idP a) (rntiP a) (enb_flagP a) (rb_id_of (channel_idP a))
    (srb_flag_of (channel_idP a)).

Definition mbms_key (tab : list (list rlc_mbms_id)) (a : mac_args) : cres Z :=
  row ← aget tab (module_idP a);
  id ← aget row (channel_idP a);
  Ret (RLC_COLL_KEY_MBMS_VALUE (module_idP a) (rntiP a) (enb_flagP a) (service_id id)
         (session_id id)).

(** [hashtable_get(rlc_coll_p, key, &rlc_union_p)], then the access to the entity. *)
Definition find_entity (key : Z) (s : rlc_state AM UM) : cres (option (Z * rlc_union AM UM)) :=
  '(rc, p) ← hashtable_get (rlc_coll_p s) key;
  match rc with
  | HASH_TABLE_OK =>
      match rlc_heap s !! p with Some u => Ret (Some (p, u)) | None => Trap FNull end
  | _ => Ret None
  end.

(** ** [mac_rlc_data_req] *)

(** The primitive of the mode, and the new entity. *)
Definition union_data_request (a : mac_args) (u : rlc_union AM UM)
  : cres (rlc_union AM UM * list mac_tb_req) :=
  match u with
  | RLC_MODE_NONE => Ret (u, [])
  | RLC_MODE_AM e => '(e, l) ← ent_data_request a e; Ret (RLC_MODE_AM e, l)
  | RLC_MODE_UM e => '(e, l) ← ent_data_request a e; Ret (RLC_MODE_UM e, l)
  | RLC_MODE_TM e => '(e, l) ← ent_data_request a e; Ret (RLC_MODE_TM e, l)
  end.

(** [max_mbms] is [RLC_MAX_MBMS_LC], a constant of the build.  The result is the size and the
    buffer of the caller. *)
Definition mac_rlc_data_req (max_mbms : Z) (a : mac_args) (buffer : list byte)
  (s : rlc_state AM UM) : cres (rlc_state AM UM * (Z * list byte)) :=
  _ ← c_assert (if negb (MBMS_flagP a =? 0) then channel_idP a <? max_mbms
                else channel_idP a <? Z.of_nat NB_RB_MAX);
  if negb (MBMS_flagP a =? 0) && (enb_flagP a =? 0) then Ret (s, (0, buffer))
  else
    key ← (if negb (MBMS_flagP a =? 0)
           then mbms_key (rlc_mbms_lcid2service_session_id_eNB s) a
           else Ret (channel_key a));
    f ← find_entity key s;
    match f with
    | None => Trap FAssert
    | Some (p, u) =>
        '(u, tbs) ← union_data_request a u;
        '(n, buffer) ← mac_rlc_serialize_tb buffer tbs;
        Ret (set_entity s p u, (n, buffer))
    end.

(** ** [mac_rlc_data_ind] *)

Definition union_data_indication (a : mac_args) (di : mac_data_ind) (u : rlc_union AM UM)
  : cres (rlc_union AM UM * list (list byte)) :=
  match u with
  | RLC_MODE_NONE => Ret (u, [])
  | RLC_MODE_AM e => '(e, l) ← ent_data_indication a di e; Ret (RLC_MODE_AM e, l)
  | RLC_MODE_UM e => '(e, l) ← ent_data_indication a di e; Ret (RLC_MODE_UM e, l)
  | RLC_MODE_TM e => '(e, l) ← ent_data_indication a di e; Ret (RLC_MODE_TM e, l)
  end.

(** The transport blocks start at [off] in [buffer]. *)
Definition mac_rlc_data_ind (alloc : nat -> bool) (a : mac_args) (buffer : list byte)
  (off tb_size num_tb : Z) (crcs : option (list Z)) (s : rlc_state AM UM)
  : cres (rlc_state AM UM) :=
  if negb (MBMS_flagP a =? 0) && negb (enb_flagP a =? 0) then Ret s
  else
    key ← (if negb (MBMS_flagP a =? 0)
           then mbms_key (rlc_mbms_lcid2service_session_id_ue s) a
           else Ret (channel_key a));
    f ← find_entity key s;
    di ← mac_rlc_deserialize_tb alloc buffer off tb_size num_tb crcs;
    match f with
    | None => Ret s
    | Some (p, u) =>
        '(u, sdus) ← union_data_indication a di u;
        Ret (add_delivered (set_entity s p u) sdus)
    end.

(** ** [mac_rlc_status_ind] *)

(** The members of the response each mode fills; the others are zero. *)
Definition union_status (a : mac_args) (tb_size : Z) (u : rlc_union AM UM)
  : cres (rlc_union AM UM * mac_rlc_status_resp_t) :=
  match u with
  | RLC_MODE_NONE => Ret (u, resp_empty)
  | RLC_MODE_AM e =>
      '(e, r) ← ent_status a tb_size e;
      Ret (RLC_MODE_AM e,
           {| bytes_in_buffer := i32 (sr_bytes r); pdus_in_buffer := 0;
              head_sdu_creation_time := u32 (sr_creation_time r);
              head_sdu_remaining_size_to_send := i32 (sr_remaining r);
              head_sdu_is_segmented := i8 (sr_segmented r) |})
  | RLC_MODE_UM e =>
      '(e, r) ← ent_status a tb_size e;
      Ret (RLC_MODE_UM e,
           {| bytes_in_buffer := i32 (sr_bytes r); pdus_in_buffer := i32 (sr_pdus r);
              head_sdu_creation_time := u32 (sr_creation_time r);
              head_sdu_remaining_size_to_send := i32 (sr_remaining r);
              head_sdu_is_segmented := i8 (sr_segmented r) |})
  | RLC_MODE_TM e =>
      '(e, r) ← ent_status a tb_size e;
      Ret (RLC_MODE_TM e,
           {| bytes_in_buffer := i32 (sr_bytes r); pdus_in_buffer := i32 (sr_pdus r);
              head_sdu_creation_time := 0; head_sdu_remaining_size_to_send := 0;
              head_sdu_is_segmented := 0 |})
  end.

Definition mac_rlc_status_ind (a : mac_args) (tb_size : Z) (s : rlc_state AM UM)
  : cres (rlc_state AM UM * mac_rlc_status_resp_t) :=
  key ← (if negb (MBMS_flagP a =? 0)
         then mbms_key (if negb (enb_flagP a =? 0)
                        then rlc_mbms_lcid2service_session_id_eNB s
                        else rlc_mbms_lcid2service_session_id_ue s) a
         else Ret (channel_key a));
  f ← find_entity key s;
  match f with
  | None => Ret (s, resp_empty)
  | Some (p, u) => '(u, r) ← union_status a tb_size u; Ret (set_entity s p u, r)
  end.
End Dispatch.

(** ** The RLC layer as the service of the CU *)

(** The RRC primitives the CU calls ([mac_rrc_data_req] and [mac_rrc_data_ind] of
    [L2_interface.c] in the eNB), over the state [R] of the RRC layer. *)
Class RrcService (R : Type) := {
  rrc_req : Z -> Z -> Z -> Z -> Z -> Z -> Z -> Z -> R -> cres (R * (Z * list byte));
  rrc_ind : Z -> Z -> Z -> Z -> Z -> Z -> list byte -> Z -> Z -> Z -> Z -> Z -> R -> cres R;
}.

Section Service.
Context {AM UM R : Type} `{RlcEntity AM} `{RlcEntity UM} `{RrcService R}.

(** The calls of the CU: the buffer of a data request is one row of [tmpbuf], zeroed; the
    indication brings one block and no CRC. *)
#[export] Instance rlc_layer_service : RlcService (rlc_state AM UM * R) := {|
  rlc_status_ind a tb s := '(s1, r) ← mac_rlc_status_ind a tb s.1; Ret ((s1, s.2), r);
  rlc_data_req a s :=
    '(s1, (n, b)) ← mac_rlc_data_req 1 a (zeros MAX_DLSCH_PAYLOAD_BYTES) s.1;
    d ← bget b 0 n; Ret ((s1, s.2), d);
  rlc_data_ind a buf off n num s :=
    s1 ← mac_rlc_data_ind (fun _ => true) a buf off n num None s.1; Ret (s1, s.2);
  rrc_data_req m cc fr srb nb enb idx mbsfn s :=
    '(r, d) ← rrc_req m cc fr srb nb enb idx mbsfn s.2; Ret ((s.1, r), d);
  rrc_data_ind m cc fr sf rn srb buf off n enb idx mbsfn s :=
    r ← rrc_ind m cc fr sf rn srb buf off n enb idx mbsfn s.2; Ret (s.1, r) |}.
End Service.

(** ** Invariant and contract *)

Section Contract.
Context {AM UM R : Type} `{RlcEntityOk AM} `{RlcEntityOk UM} `{RrcService R}.

(** The entities the contract covers: acknowledged and unacknowledged ones in a state of
    their own contract.  A transparent entity is left out: its status primitive divides by
    the grant, and its data primitive can exceed it. *)
Definition union_ok (u : rlc_union AM UM) : Prop :=
  match u with
  | RLC_MODE_NONE => True
  | RLC_MODE_AM e => ent_inv e
  | RLC_MODE_UM e => ent_inv e
  | RLC_MODE_TM _ => False
  end.

(** The table represents a map from keys to pointers, no two keys share one, and every one leads
    to an entity in a good state. *)
Definition rlc_layer_inv (s : rlc_state AM UM) : Prop :=
  exists t m, rlc_coll_p s = Some t /\ ht_rep t m /\
    (forall k1 k2 p, m !! k1 = Some p -> m !! k2 = Some p -> k1 = k2) /\
    forall k p, m !! k = Some p -> p <> 0 /\ exists u, rlc_heap s !! p = Some u /\ union_ok u.

(** Unicast calls on the logical channels of the table. *)
Definition layer_args (a : mac_args) : Prop :=
  MBMS_flagP a = 0 /\ 0 <= channel_idP a < Z.of_nat NB_RB_MAX.

Lemma find_entity_inv key (s : rlc_state AM UM) :
  rlc_layer_inv s -> exists f, find_entity key s = Ret f /\
    match f with Some (p, u) => rlc_heap s !! p = Some u /\ union_ok u | None => True end.
Proof.
  intros (t & m & Et & Ht & _ & Hp). unfold find_entity. rewrite Et.
  destruct (get_rep t m key Ht) as [-> _]. destruct (m !! key) as [p|] eqn:Em.
  - cbn [mbind cres_bind]. destruct (Hp key p Em) as (_ & u & Hu & Hok). rewrite Hu. by eexists.
  - eexists. split; [reflexivity|done].
Qed.

Lemma set_entity_inv (s : rlc_state AM UM) p u :
  rlc_layer_inv s -> union_ok u -> rlc_layer_inv (set_entity s p u).
Proof.
  intros (t & m & Et & Ht & Hi & Hp) Hu. exists t, m. cbn [set_entity rlc_coll_p rlc_heap].
  split_and!; [done|done|done|]. intros k q Hq. destruct (decide (p = q)) as [->|].
  - rewrite lookup_insert_eq. split; [by apply (Hp k)|by exists u].
  - rewrite lookup_insert_ne by done. by apply (Hp k).
Qed.

Lemma find_set_entity key (s : rlc_state AM UM) p u v :
  find_entity key s = Ret (Some (p, u)) -> find_entity key (set_entity s p v) = Ret (Some (p, v)).
Proof.
  unfold find_entity. cbn [set_entity rlc_coll_p rlc_heap].
  destruct (hashtable_get (rlc_coll_p s) key) as [[rc q]|]; cbn [mbind cres_bind]; [|done].
  destruct rc; try done. destruct (rlc_heap s !! q); [|done].
  intros [= -> ->]. by rewrite lookup_insert_eq.
Qed.

Lemma union_status_ok a tb u :
  union_ok u -> exists u' r, union_status a tb u = Ret (u', r) /\ union_ok u' /\ resp_wf r /\
    (0 < tb < 2 ^ 15 -> 0 < bytes_in_buffer r ->
     exists u'' tbs, union_data_request a u' = Ret (u'', tbs) /\ union_ok u'' /\
       Forall tb_ok tbs /\ zlen (tbs_bytes tbs) <= tb).
Proof.
  destruct u as [|e|e|e]; cbn [union_ok]; intros Hu; [|destruct (ent_status_ok a tb e Hu)
    as (e' & r & E & He & B1 & B2 & B3 & B4 & B5).. |done].
  - exists RLC_MODE_NONE, resp_empty. split_and!; [done|done|unfold resp_wf; simpl; lia|].
    simpl. lia.
  - cbn [union_status]. rewrite E. cbn [mbind cres_bind]. eexists _, _. split; [reflexivity|].
    split; [done|]. split.
    + unfold resp_wf. simpl. rewrite !i32_small, u32_small, i8_small by lia. lia.
    + intros Htb _. destruct (ent_data_request_ok a tb e e' r Hu Htb E) as (e2 & l & E2 & He2 & Hl & Hz).
      cbn [union_data_request]. rewrite E2. cbn [mbind cres_bind]. by eexists _, _.
  - cbn [union_status]. rewrite E. cbn [mbind cres_bind]. eexists _, _. split; [reflexivity|].
    split; [done|]. split.
    + unfold resp_wf. simpl. rewrite !i32_small, u32_small, i8_small by lia. lia.
    + intros Htb _. destruct (ent_data_request_ok a tb e e' r Hu Htb E) as (e2 & l & E2 & He2 & Hl & Hz).
      cbn [union_data_request]. rewrite E2. cbn [mbind cres_bind]. by eexists _, _.
Qed.

(** The status primitive keeps the invariant; the data primitive that follows answers within
    the grant. *)
Lemma layer_status_ok a tb (s : rlc_state AM UM) :
  rlc_layer_inv s -> layer_args a ->
  exists s' r, mac_rlc_status_ind a tb s = Ret (s', r) /\ rlc_layer_inv s' /\ resp_wf r /\
    (0 < tb <= Z.of_nat MAX_DLSCH_PAYLOAD_BYTES -> 0 < bytes_in_buffer r ->
     exists s'' n b d, mac_rlc_data_req 1 a (zeros MAX_DLSCH_PAYLOAD_BYTES) s' = Ret (s'', (n, b)) /\
       rlc_layer_inv s'' /\ bget b 0 n = Ret d /\ zlen d <= tb).
Proof.
  intros Hs [Hm Hc]. unfold mac_rlc_status_ind. rewrite Hm. cbn [Z.eqb negb mbind cres_bind].
  destruct (find_entity_inv (channel_key a) s Hs) as ([[p u]|] & Ef & Hu); rewrite Ef;
    cbn [mbind cres_bind].
  2: { exists s, resp_empty. split_and!; [done|done|unfold resp_wf; simpl; lia|]. simpl. lia. }
  destruct Hu as [Hp Hu]. destruct (union_status_ok a tb u Hu) as (u1 & r & E1 & Hu1 & Hr & Hreq).
  rewrite E1. cbn [mbind cres_bind]. exists (set_entity s p u1), r. split; [done|].
  split; [by apply set_entity_inv|]. split; [done|]. intros Htb Hb.
  change (Z.of_nat MAX_DLSCH_PAYLOAD_BYTES) with 12288 in Htb.
  destruct (Hreq ltac:(lia) Hb) as (u2 & tbs & E2 & Hu2 & Hok & Hz).
  unfold mac_rlc_data_req. rewrite Hm. cbn [Z.eqb negb].
  rewrite (proj2 (Z.ltb_lt _ _)) by lia. cbn [c_assert mbind cres_bind andb].
  rewrite (find_set_entity _ _ _ _ u1 Ef). cbn [mbind cres_bind]. rewrite E2. cbn [mbind cres_bind].
  destruct (serialize_ok tbs (zeros MAX_DLSCH_PAYLOAD_BYTES)) as (b & E3 & _ & Hg);
    [done|rewrite zlen_zeros; change (Z.of_nat MAX_DLSCH_PAYLOAD_BYTES) with 12288; lia|rewrite zlen_zeros; done|].
  rewrite E3. cbn [mbind cres_bind]. eexists _, _, b, _. split; [reflexivity|].
  split; [by apply set_entity_inv, Hu2; apply set_entity_inv|]. split; [exact Hg|done].
Qed.

(** The RLC layer fulfils what the CU relies on. *)
#[export] #[refine] Instance rlc_layer_ok : RlcServiceOk (rlc_state AM UM * R) := {|
  rlc_inv s := rlc_layer_inv s.1; rlc_args := layer_args |}.
Proof.
  - intros a tb [s r] Hs Ha. destruct (layer_status_ok a tb s Hs Ha) as (s' & rs & E & Hs' & Hr & _).
    cbn [rlc_status_ind rlc_layer_service fst snd]. rewrite E. cbn [mbind cres_bind].
    exists (s', r), rs. done.
  - intros a tb [s r] s1 rs Hs Ha. destruct (layer_status_ok a tb s Hs Ha)
      as (s' & rs' & E & Hs' & Hr & Hreq).
    cbn [rlc_status_ind rlc_data_req rlc_layer_service fst snd]. rewrite E. cbn [mbind cres_bind].
    intros [= <- <-] Htb Hb. cbn [fst snd].
    destruct (Hreq Htb Hb) as (s'' & n & b & d & E2 & Hs'' & Hg & Hz). rewrite E2.
    cbn [mbind cres_bind]. rewrite Hg. cbn [mbind cres_bind]. exists (s'', r), d. done.
Defined.
End Contract.

(** ** Isolation of the bearers *)

Section Isolation.
Context {AM UM : Type} `{RlcEntity AM} `{RlcEntity UM}.

(** The arguments of a unicast call in the range of their types. *)
Definition unicast (a : mac_args) : Prop :=
  MBMS_flagP a = 0 /\ 0 <= module_idP a < 2 ^ 8 /\ 0 <= rntiP a < 2 ^ 16 /\
  0 <= enb_flagP a < 2 /\ 0 <= channel_idP a < Z.of_nat NB_RB_MAX.

(** The two calls are about the same bearer of the same UE. *)
Definition same_bearer (a b : mac_args) : Prop :=
  module_idP a = module_idP b /\ rntiP a = rntiP b /\ enb_flagP a = enb_flagP b /\
  channel_idP a = channel_idP b.

Lemma channel_key_inj a b :
  unicast a -> unicast b -> channel_key a = channel_key b -> same_bearer a b.
Proof.
  intros (_ & Hm & Hr & He & Hc) (_ & Hm' & Hr' & He' & Hc').
  change (Z.of_nat NB_RB_MAX) with 14 in *.
  assert (Hrb : forall c, 0 <= c < 14 -> 0 <= rb_id_of c < 2 ^ 8 /\ 0 <= srb_flag_of c < 2 /\
    c = if srb_flag_of c =? 1 then rb_id_of c else rb_id_of c + 2).
  { intros c Hcr. unfold rb_id_of, srb_flag_of.
    destruct (Z.ltb_spec 2 c); destruct (Z.leb_spec c 2); try lia; cbn [Z.eqb Pos.eqb];
      rewrite u16_small by lia; lia. }
  destruct (Hrb _ Hc) as (B1 & S1 & C1). destruct (Hrb _ Hc') as (B2 & S2 & C2).
  unfold channel_key. rewrite !key_value by lia. intros Hk.
  assert (module_idP a = module_idP b /\ rntiP a = rntiP b /\ enb_flagP a = enb_flagP b /\
    rb_id_of (channel_idP a) = rb_id_of (channel_idP b) /\
    srb_flag_of (channel_idP a) = srb_flag_of (channel_idP b)) as (E1 & E2 & E3 & E4 & E5) by lia.
  unfold same_bearer. rewrite E4, E5 in C1. split_and!; congruence.
Qed.

(** The pointers of the table are pairwise distinct. *)
Definition table_inj (s : rlc_state AM UM) : Prop :=
  exists t m, rlc_coll_p s = Some t /\ ht_rep t m /\
    forall k1 k2 p, m !! k1 = Some p -> m !! k2 = Some p -> k1 = k2.

(** Storing the entity of one key leaves the entity of another one. *)
Lemma find_set_other k1 k2 (s : rlc_state AM UM) p u v :
  table_inj s -> k1 <> k2 -> find_entity k1 s = Ret (Some (p, u)) ->
  find_entity k2 (set_entity s p v) = find_entity k2 s.
Proof.
  intros (t & m & Et & Ht & Hinj) Hne. unfold find_entity. cbn [set_entity rlc_coll_p rlc_heap].
  rewrite Et. destruct (get_rep t m k1 Ht) as [-> _]. destruct (get_rep t m k2 Ht) as [-> _].
  destruct (m !! k1) as [p1|] eqn:E1; cbn [mbind cres_bind]; [|done].
  destruct (rlc_heap s !! p1); [|done]. intros [= -> ->].
  destruct (m !! k2) as [p2|] eqn:E2; cbn [mbind cres_bind]; [|done].
  rewrite lookup_insert_ne; [done|]. intros ->. by apply Hne, (Hinj _ _ p2).
Qed.

(** C18: isolation of the bearers.  A successful status, data request or data indication on one
    unicast bearer leaves the entity of every other bearer (another UE or another logical
    channel) exactly as it was, given that the table holds one entity per key. *)
Theorem bearer_isolation a b (s : rlc_state AM UM) :
  unicast a -> unicast b -> ~ same_bearer a b -> table_inj s ->
  (forall tb s' r, mac_rlc_status_ind a tb s = Ret (s', r) ->
     find_entity (channel_key b) s' = find_entity (channel_key b) s) /\
  (forall mx buf s' r, mac_rlc_data_req mx a buf s = Ret (s', r) ->
     find_entity (channel_key b) s' = find_entity (channel_key b) s) /\
  (forall al buf off tb num crcs s', mac_rlc_data_ind al a buf off tb num crcs s = Ret s' ->
     find_entity (channel_key b) s' = find_entity (channel_key b) s).
Proof.
  intros Ha Hb Hne Hinj.
  assert (Hk : channel_key a <> channel_key b) by (intros Hk; apply Hne; by apply channel_key_inj).
  destruct Ha as (Hm & _).
  assert (Hset : forall p u v, find_entity (channel_key a) s = Ret (Some (p, u)) ->
    find_entity (channel_key b) (set_entity s p v) = find_entity (channel_key b) s)
    by (intros; by eapply find_set_other).
  split_and!.
  - intros tb s' r. unfold mac_rlc_status_ind. rewrite Hm. cbn [Z.eqb negb mbind cres_bind].
    intros E. cres_inv. destruct a0 as [[p u]|]; [|by cres_inv; simplify_eq].
    cres_inv. destruct a0 as [u' r']. cres_inv. simplify_eq. by eapply Hset.
  - intros mx buf s' r. unfold mac_rlc_data_req. rewrite Hm. cbn [Z.eqb negb andb mbind cres_bind].
    destruct (channel_idP a <? Z.of_nat NB_RB_MAX); cbn [c_assert mbind cres_bind]; [|done].
    intros E. cres_inv. destruct a0 as [[p u]|]; [|by cres_inv].
    cres_inv. destruct a0 as [u' tbs]. cres_inv. destruct a0 as [n bf]. cres_inv. simplify_eq.
    by eapply Hset.
  - intros al buf off tb num crcs s'. unfold mac_rlc_data_ind. rewrite Hm.
    cbn [Z.eqb negb andb mbind cres_bind]. intros E. cres_inv.
    destruct a0 as [[p u]|]; [|by cres_inv]. cres_inv. destruct a0 as [u' sdus]. cres_inv.
    by eapply Hset.
Qed.
End Isolation.

(** Bearers 1 (an SRB) and 4 (a DRB) of the UE 77 of module 0 in acknowledged and
    unacknowledged mode, in one chain. *)
Import QueueEntity.

Definition demo_args (c : Z) : mac_args := {|
  module_idP := 0; rntiP := 77; eNB_index := 0; frameP := 9; enb_flagP := 1; MBMS_flagP := 0;
  channel_idP := c |}.

Definition demo_k1 : Z := Eval compute in channel_key (demo_args 1).
Definition demo_k4 : Z := Eval compute in channel_key (demo_args 4).

Definition demo_table : hash_table_t := {|
  size := 1; num_elements := 2; nodes := [[(demo_k1, 1000); (demo_k4, 2000)]];
  hashfunc := def_hashfunc |}.

Definition demo_map : gmap Z Z := <[demo_k1 := 1000]> {[ demo_k4 := 2000 ]}.

Definition demo_layer : rlc_state qent qent := {|
  rlc_coll_p := Some demo_table;
  rlc_heap := <[1000 := RLC_MODE_AM (Build_qent [Byte.x68; Byte.x69] 0)]>
                {[ 2000 := RLC_MODE_UM (Build_qent [Byte.x01; Byte.x02; Byte.x03] 0) ]};
  rlc_mbms_lcid2service_session_id_eNB := []; rlc_mbms_lcid2service_session_id_ue := [];
  rlc_delivered := [] |}.

Lemma demo_table_rep : ht_rep demo_table demo_map.
Proof.
  constructor; cbn [size nodes demo_table].
  - lia.
  - reflexivity.
  - intros [|i] c Hi; [|discriminate]. injection Hi as <-. split.
    + apply (bool_decide_unpack _). reflexivity.
    + intros k d _. unfold slot_of. cbn [size demo_table]. by rewrite Z.mod_1_r.
  - intros k. eexists. unfold slot_of. cbn [size demo_table]. rewrite Z.mod_1_r.
    split; [reflexivity|]. cbn [chain_find]. unfold demo_map.
    destruct (Z.eqb_spec demo_k1 k) as [<-|H1]; [by rewrite lookup_insert_eq|].
    rewrite lookup_insert_ne by done.
    destruct (Z.eqb_spec demo_k4 k) as [<-|H4]; [by rewrite lookup_singleton_eq|].
    by rewrite lookup_singleton_ne.
Qed.

Lemma demo_map_inv k p : demo_map !! k = Some p -> (k, p) = (demo_k1, 1000) \/ (k, p) = (demo_k4, 2000).
Proof.
  unfold demo_map. intros [[<- <-]|[_ [<- <-]%lookup_singleton_Some]]%lookup_insert_Some; auto.
Qed.

Lemma demo_map_inj k1 k2 p : demo_map !! k1 = Some p -> demo_map !! k2 = Some p -> k1 = k2.
Proof. by intros [[= -> ->]|[= -> ->]]%demo_map_inv [[= ->]|[= ->]]%demo_map_inv. Qed.

Lemma demo_layer_inv : rlc_layer_inv demo_layer.
Proof.
  exists demo_table, demo_map. split; [done|]. split; [exact demo_table_rep|]. split; [exact demo_map_inj|].
  intros k p [[= -> ->]|[= -> ->]]%demo_map_inv; (split; [done|by eexists]).
Qed.

(** An RRC layer with nothing to send. *)
#[global] Instance silent_rrc : RrcService unit := {|
  rrc_req _ _ _ _ _ _ _ _ s := Ret (s, (0, []));
  rrc_ind _ _ _ _ _ _ _ _ _ _ _ _ s := Ret s |}.

Lemma bearer_isolation_witness :
  exists s' r, mac_rlc_data_req 1 (demo_args 1) (zeros 100) demo_layer = Ret (s', r) /\
    find_entity (channel_key (demo_args 4)) s' =
      Ret (Some (2000, RLC_MODE_UM (Build_qent [Byte.x01; Byte.x02; Byte.x03] 0))).
Proof.
  destruct (bearer_isolation (demo_args 1) (demo_args 4) demo_layer) as (_ & Hd & _).
  - unfold unicast. change (Z.of_nat NB_RB_MAX) with 14. simpl. lia.
  - unfold unicast. change (Z.of_nat NB_RB_MAX) with 14. simpl. lia.
  - intros (_ & _ & _ & Hc). discriminate Hc.
  - exists demo_table, demo_map. split; [reflexivity|]. split; [exact demo_table_rep|].
    exact demo_map_inj.
  - assert (E : exists s' r, mac_rlc_data_req 1 (demo_args 1) (zeros 100) demo_layer = Ret (s', r))
      by (eexists _, _; reflexivity).
    destruct E as (s' & r & E). exists s', r. split; [exact E|].
    rewrite (Hd _ _ _ _ E). reflexivity.
Defined.
