(* ===== verification/SplitCU.v ===== *)
(** The central unit of the split: the CU-side handlers of
    [openair2/LAYER2/RLC/rlc_mac.c] (lines 81-365 and the CU part of
    [mac_rlc_status_ind]) and the receive loop of [splits/mac-rlc/cu/mr_cu.c].

    The RLC and RRC layers are reached through [RlcService].  [abstract_poll] is the
    specification of the status/data handler: it asks every logical channel in turn and
    collects the answers, with no buffer, offset or wire format.  The refinement
    theorem says that the handler sends exactly the message made of these answers. *)
From stdpp Require Import base list numbers sets.
From coqutil Require Import Byte.
From Stdlib Require Import ZArith Lia.
From S2P Require Import Prelude SplitProto Netw SplitIface RlcPrims RlcMac.
Open Scope Z_scope.

Definition CU_BUF_SIZE : nat := 8 * 1024.

(** The answer of one logical channel: its status and its data. *)
Abbreviation answer := (mac_rlc_status_resp_t * list byte)%type.

Section CU.
Context {S : Type} `{RlcService S}.

(** ** State: the globals of the CU profile *)

Record cu_state := {
  cu_mod_id : Z;
  cu_idx : Z;
  cu_eNB_flag : Z;
  cu_MBMS_flag : Z;
  cu_rrc_mod_id : Z;
  cu_rrc_eNB_flag : Z;
  cu_rrc_idx : Z;
  cu_rrc_mbsfn : Z;
  cu_outbuf : list byte;
  cu_outbuf_rrc_dreq : list byte;
  cu_sockfd : Z;
  cu_stop : Z;
  cu_rlc : S;              (* the layers under the CU *)
  cu_sent : list dgram;    (* datagrams given to the kernel, oldest first *)
}.

Definition cu_init_state (fd : Z) (s : S) : cu_state := {|
  cu_mod_id := 0; cu_idx := 0; cu_eNB_flag := 1; cu_MBMS_flag := 0;
  cu_rrc_mod_id := 0; cu_rrc_eNB_flag := 1; cu_rrc_idx := 0; cu_rrc_mbsfn := 0;
  cu_outbuf := zeros MAX_DLSCH_PAYLOAD_BYTES; cu_outbuf_rrc_dreq := zeros CU_BUF_SIZE;
  cu_sockfd := fd; cu_stop := 0; cu_rlc := s; cu_sent := [] |}.

Definition set_cu_rlc (st : cu_state) (s : S) : cu_state :=
  Build_cu_state (cu_mod_id st) (cu_idx st) (cu_eNB_flag st) (cu_MBMS_flag st)
    (cu_rrc_mod_id st) (cu_rrc_eNB_flag st) (cu_rrc_idx st) (cu_rrc_mbsfn st)
    (cu_outbuf st) (cu_outbuf_rrc_dreq st) (cu_sockfd st) (cu_stop st) s (cu_sent st).
Definition set_cu_outbuf (st : cu_state) (b : list byte) : cu_state :=
  Build_cu_state (cu_mod_id st) (cu_idx st) (cu_eNB_flag st) (cu_MBMS_flag st)
    (cu_rrc_mod_id st) (cu_rrc_eNB_flag st) (cu_rrc_idx st) (cu_rrc_mbsfn st)
    b (cu_outbuf_rrc_dreq st) (cu_sockfd st) (cu_stop st) (cu_rlc st) (cu_sent st).
Definition set_cu_outbuf_rrc (st : cu_state) (b : list byte) : cu_state :=
  Build_cu_state (cu_mod_id st) (cu_idx st) (cu_eNB_flag st) (cu_MBMS_flag st)
    (cu_rrc_mod_id st) (cu_rrc_eNB_flag st) (cu_rrc_idx st) (cu_rrc_mbsfn st)
    (cu_outbuf st) b (cu_sockfd st) (cu_stop st) (cu_rlc st) (cu_sent st).
Definition add_cu_sent (st : cu_state) (l : list dgram) : cu_state :=
  Build_cu_state (cu_mod_id st) (cu_idx st) (cu_eNB_flag st) (cu_MBMS_flag st)
    (cu_rrc_mod_id st) (cu_rrc_eNB_flag st) (cu_rrc_idx st) (cu_rrc_mbsfn st)
    (cu_outbuf st) (cu_outbuf_rrc_dreq st) (cu_sockfd st) (cu_stop st) (cu_rlc st)
    (cu_sent st ++ l).
Definition set_cu_sockfd (st : cu_state) (fd : Z) : cu_state :=
  Build_cu_state (cu_mod_id st) (cu_idx st) (cu_eNB_flag st) (cu_MBMS_flag st)
    (cu_rrc_mod_id st) (cu_rrc_eNB_flag st) (cu_rrc_idx st) (cu_rrc_mbsfn st)
    (cu_outbuf st) (cu_outbuf_rrc_dreq st) fd (cu_stop st) (cu_rlc st) (cu_sent st).
Definition set_cu_stop (st : cu_state) (v : Z) : cu_state :=
  Build_cu_state (cu_mod_id st) (cu_idx st) (cu_eNB_flag st) (cu_MBMS_flag st)
    (cu_rrc_mod_id st) (cu_rrc_eNB_flag st) (cu_rrc_idx st) (cu_rrc_mbsfn st)
    (cu_outbuf st) (cu_outbuf_rrc_dreq st) (cu_sockfd st) v (cu_rlc st) (cu_sent st).

(** ** [mr_cu.c]: sending *)

Definition cu_send (o : os) (buf : list byte) (len : Z) (st : cu_state) : cres (Z * cu_state) :=
  if cu_sockfd st <=? 0 then Ret (-1, st)
  else
    '(r, l) ← nw_send o (cu_sockfd st) buf len NETW_FLAG_NO_SIGNALS;
    Ret (r, add_cu_sent st l).

(** ** [mac_rlc_status_ind] in the CU profile

    The globals follow the arguments of the local MAC, then the RLC answers. *)
Definition cu_populate (a : mac_args) (st : cu_state) : cu_state :=
  let st :=
    if cu_mod_id st =? module_idP a then st
    else Build_cu_state (module_idP a) (cu_idx st) (cu_eNB_flag st) (cu_MBMS_flag st)
           (module_idP a) (cu_rrc_eNB_flag st) (module_idP a) (cu_rrc_mbsfn st)
           (cu_outbuf st) (cu_outbuf_rrc_dreq st) (cu_sockfd st) (cu_stop st)
           (cu_rlc st) (cu_sent st) in
  let st :=
    if cu_idx st =? eNB_index a then st
    else Build_cu_state (cu_mod_id st) (eNB_index a) (cu_eNB_flag st) (cu_MBMS_flag st)
           (cu_rrc_mod_id st) (cu_rrc_eNB_flag st) (cu_rrc_idx st) (cu_rrc_mbsfn st)
           (cu_outbuf st) (cu_outbuf_rrc_dreq st) (cu_sockfd st) (cu_stop st)
           (cu_rlc st) (cu_sent st) in
  let st :=
    if cu_eNB_flag st =? enb_flagP a then st
    else Build_cu_state (cu_mod_id st) (cu_idx st) (enb_flagP a) (cu_MBMS_flag st)
           (cu_rrc_mod_id st) (enb_flagP a) (cu_rrc_idx st) (cu_rrc_mbsfn st)
           (cu_outbuf st) (cu_outbuf_rrc_dreq st) (cu_sockfd st) (cu_stop st)
           (cu_rlc st) (cu_sent st) in
  if cu_MBMS_flag st =? MBMS_flagP a then st
  else Build_cu_state (cu_mod_id st) (cu_idx st) (cu_eNB_flag st) (MBMS_flagP a)
         (cu_rrc_mod_id st) (cu_rrc_eNB_flag st) (cu_rrc_idx st) (cu_rrc_mbsfn st)
         (cu_outbuf st) (cu_outbuf_rrc_dreq st) (cu_sockfd st) (cu_stop st)
         (cu_rlc st) (cu_sent st).

Definition cu_mac_rlc_status_ind (a : mac_args) (tb_sizeP : Z) (st : cu_state)
  : cres (cu_state * mac_rlc_status_resp_t) :=
  let st := cu_populate a st in
  '(s, r) ← rlc_status_ind a tb_sizeP (cu_rlc st);
  Ret (set_cu_rlc st s, r).

Definition cu_mac_rlc_data_req (a : mac_args) (st : cu_state)
  : cres (cu_state * list byte) :=
  '(s, d) ← rlc_data_req a (cu_rlc st);
  Ret (set_cu_rlc st s, d).

(** The arguments of the calls a remote request is replayed with. *)
Definition remote_args (st : cu_state) (rnti frame channel : Z) : mac_args := {|
  module_idP := cu_mod_id st; rntiP := rnti; eNB_index := cu_idx st; frameP := frame;
  enb_flagP := cu_eNB_flag st; MBMS_flagP := cu_MBMS_flag st; channel_idP := channel |}.

(** ** [mac_rlc_status_data_req_reply] *)

(** The locals of the loop. *)
Record reply_locals := {
  l_tbs : Z;
  l_databuf : list byte;      (* cu_databuf_temp *)
  l_total : Z;                (* data_len_total *)
  l_srep : spmr_srep_drep;
}.

Definition srep_zero : spmr_srep_drep :=
  let z := replicate SREP_CELLS 0 in Build_spmr_srep_drep 0 0 z z z z z z z.

(** First half of the body for logical channel [i]: the status and, when there is room
    and data, the data of the channel, written in [tmpbuf[i]]. *)
Definition reply_query (sreq : spmr_sreq_dreq) (i tbs : Z) (st : cu_state)
  : cres (cu_state * mac_rlc_status_resp_t * list byte * Z) :=
  '(st, ret) ← cu_mac_rlc_status_ind
                  (remote_args st (sreq_rnti sreq) (sreq_frame sreq) i) tbs st;
  if (0 <? tbs) && negb (sreq_channel sreq =? 0) && (0 <? bytes_in_buffer ret) then
    '(st, d) ← cu_mac_rlc_data_req
                 (remote_args st (sreq_rnti sreq) (sreq_frame sreq) i) st;
    tmpbuf ← bput (zeros MAX_DLSCH_PAYLOAD_BYTES) 0 d;
    Ret (st, ret, tmpbuf, zlen d)
  else Ret (st, ret, zeros MAX_DLSCH_PAYLOAD_BYTES, 0).

(** Second half: the cells of the reply, the data buffer and the room left. *)
Definition reply_fill (sreq : spmr_sreq_dreq) (i : Z) (ret : mac_rlc_status_resp_t)
  (tmpbuf : list byte) (tmplen : Z) (l : reply_locals) : cres reply_locals :=
  let r := l_srep l in
  channel ← aset (srep_channel r) i (u32 i);
  tb_size ← aset (srep_tb_size r) i (u32 tmplen);
  bytes ← aset (srep_bytes r) i (i32 (bytes_in_buffer ret));
  pdus ← aset (srep_pdus r) i (u32 (pdus_in_buffer ret));
  creation_time ← aset (srep_creation_time r) i (u32 (head_sdu_creation_time ret));
  remaining ← aset (srep_remaining_bytes r) i (u32 (head_sdu_remaining_size_to_send ret));
  segmented ← aset (srep_segmented r) i (u32 (head_sdu_is_segmented ret));
  '(databuf, total) ←
    (if 0 <? tmplen then
       b ← memcpy (l_databuf l) (l_total l) tmpbuf 0 tmplen;
       Ret (b, i32 (l_total l + tmplen))
     else Ret (l_databuf l, l_total l));
  let dtch_header_len := if (2 <? sreq_channel sreq) && (0 <? tmplen) then 3 else 0 in
  let tbs := l_tbs l in
  Ret {| l_tbs :=
           if negb (i32 (tbs - tmplen - dtch_header_len) =? 0)
           then i32 (tbs - tmplen - dtch_header_len) else 0;
         l_databuf := databuf;
         l_total := total;
         l_srep := Build_spmr_srep_drep (sreq_rnti sreq) (sreq_frame sreq) channel tb_size
                     bytes pdus creation_time remaining segmented |}.

(** The body of the loop for logical channel [i]. *)
Definition reply_body (sreq : spmr_sreq_dreq) (i : Z) (sl : cu_state * reply_locals)
  : cres (cu_state * reply_locals) :=
  let '(st, l) := sl in
  '(st, ret, tmpbuf, tmplen) ← reply_query sreq i (l_tbs l) st;
  l ← reply_fill sreq i ret tmpbuf tmplen l;
  Ret (st, l).

(** [head] is a pointer into [buf]: the handler overwrites the header it received. *)
Definition mac_rlc_status_data_req_reply (o : os) (head : Z) (buf : list byte) (len : Z)
  (st : cu_state) : cres (Z * list byte * cu_state) :=
  let '(e, p) := sp_mr_identify_sreq_dreq buf len in
  match p with
  | None => Ret (-1, buf, st)
  | Some p =>
      sreq ← sload spmr_sreq_dreq buf p;
      let l := {| l_tbs := i32 (sreq_tb_size sreq);
                  l_databuf := zeros (NB_RB_MAX * MAX_DLSCH_PAYLOAD_BYTES);
                  l_total := 0; l_srep := srep_zero |} in
      '(st, l) ← for_each (reply_body sreq) (zrange 0 NB_RB_MAX) (st, l);
      let h := {| type := S_PROTO_MR_STATUS_DATA_REP; vers := 1;
                  SplitProto.len := u32 (sizeof spmr_srep_drep + l_total l) |} in
      buf ← sstore buf head h;
      '(_, out) ← sp_pack_head h (cu_outbuf st) (Z.of_nat MAX_DLSCH_PAYLOAD_BYTES);
      '(blen, out) ← sp_mr_pack_srep_drep (l_srep l) out (Z.of_nat MAX_DLSCH_PAYLOAD_BYTES);
      out ← memcpy out blen (l_databuf l) 0 (l_total l);
      let st := set_cu_outbuf st out in
      '(_, st) ← cu_send o (cu_outbuf st) (u32 (blen + l_total l)) st;
      Ret (0, buf, st)
  end.

(** ** [mac_rlc_data_ind_req] *)

Definition mac_rlc_data_ind_req (head : Z) (buf : list byte) (len : Z) (st : cu_state)
  : cres (Z * cu_state) :=
  let '(e, p) := sp_mr_identify_ireq buf len in
  match p with
  | None => Ret (-1, st)
  | Some p =>
      ir ← sload spmr_ireq buf p;
      h ← sload sp_head buf head;
      s ← rlc_data_ind (remote_args st (ireq_rnti ir) (ireq_frame ir) (ireq_channel ir))
            buf (sizeof sp_head + sizeof spmr_ireq)
            (i32 (SplitProto.len h - sizeof spmr_ireq)) 1 (cu_rlc st);
      Ret (0, set_cu_rlc st s)
  end.

(** ** [mac_rrc_data_req_reply] *)

Definition mac_rrc_data_req_reply (o : os) (head : Z) (buf : list byte) (len : Z)
  (st : cu_state) : cres (Z * list byte * cu_state) :=
  let '(e, p) := sp_mr_identify_rrc_dreq buf len in
  match p with
  | None => Ret (-1, buf, st)
  | Some p =>
      dreq ← sload spmr_rrc_dreq buf p;
      '(s, (tmplen, d)) ← rrc_data_req (cu_rrc_mod_id st) (dq_CC_id dreq) (dq_frame dreq)
                            (dq_srb_id dreq) (dq_num_tb dreq) (cu_rrc_eNB_flag st)
                            (cu_rrc_mod_id st) (cu_rrc_mbsfn st) (cu_rlc st);
      tmpbuf ← bput (zeros CCCH_PAYLOAD_SIZE_MAX) 0 d;
      let st := set_cu_rlc st s in
      let h := {| type := S_PROTO_MR_RRC_DATA_REQ_REP; vers := 1;
                  SplitProto.len := u32 (sizeof spmr_rrc_drep + tmplen) |} in
      buf ← sstore buf head h;
      let drep := {| dp_CC_id := dq_CC_id dreq; dp_frame := dq_frame dreq;
                     dp_srb_id := dq_srb_id dreq |} in
      '(_, out) ← sp_pack_head h (cu_outbuf_rrc_dreq st) (Z.of_nat CU_BUF_SIZE);
      '(blen, out) ← sp_mr_pack_rrc_drep drep out (Z.of_nat CU_BUF_SIZE);
      out ← memcpy out blen tmpbuf 0 tmplen;
      let st := set_cu_outbuf_rrc st out in
      '(_, st) ← cu_send o (cu_outbuf_rrc_dreq st) (u32 (blen + tmplen)) st;
      Ret (0, buf, st)
  end.

(** ** [mac_rrc_data_ind_reply] *)

Definition mac_rrc_data_ind_reply (head : Z) (buf : list byte) (len : Z) (st : cu_state)
  : cres (Z * cu_state) :=
  let '(e, p) := sp_mr_identify_rrc_ireq buf len in
  match p with
  | None => Ret (-1, st)
  | Some p =>
      di ← sload spmr_rrc_ireq buf p;
      h ← sload sp_head buf head;
      s ← rrc_data_ind (cu_rrc_mod_id st) (ri_CC_id di) (ri_frame di) (ri_subframe di)
            (ri_rnti di) (ri_srb_id di) buf (sizeof sp_head + sizeof spmr_rrc_ireq)
            (i32 (SplitProto.len h - sizeof spmr_rrc_ireq)) (cu_rrc_eNB_flag st)
            (cu_rrc_idx st) (cu_rrc_mbsfn st) (cu_rlc st);
      Ret (0, set_cu_rlc st s)
  end.

(** ** [mac_rlc_cu_recv] and [cu_loop] *)

Definition mac_rlc_cu_recv (o : os) (buf : list byte) (len : Z) (st : cu_state)
  : cres (list byte * cu_state) :=
  let '(e, p) := sp_identify_head buf len in
  match p with
  | None => Ret (buf, st)
  | Some head =>
      h ← sload sp_head buf head;
      if type h =? S_PROTO_MR_STATUS_DATA_REQ then
        '(_, buf, st) ← mac_rlc_status_data_req_reply o head buf len st; Ret (buf, st)
      else if type h =? S_PROTO_MR_DATA_IND then
        '(_, st) ← mac_rlc_data_ind_req head buf len st; Ret (buf, st)
      else if type h =? S_PROTO_MR_RRC_DATA_REQ then
        '(_, buf, st) ← mac_rrc_data_req_reply o head buf len st; Ret (buf, st)
      else if type h =? S_PROTO_MR_RRC_DATA_IND then
        '(_, st) ← mac_rrc_data_ind_reply head buf len st; Ret (buf, st)
      else Ret (buf, st)
  end.

(** One turn of the loop of [cu_loop]: receive, then process what was read. *)
Definition cu_turn (o : os) (r : recv_result) (bs : list byte * cu_state)
  : cres (list byte * cu_state) :=
  let '(buf, st) := bs in
  '(br, buf) ← nw_recv r buf (Z.of_nat CU_BUF_SIZE);
  if 0 <? br then mac_rlc_cu_recv o buf br st else Ret (buf, st).

Fixpoint cu_loop (o : os) (rs : list recv_result) (bs : list byte * cu_state)
  : cres (list byte * cu_state) :=
  match rs with
  | [] => Ret bs
  | r :: rs' =>
      if negb (cu_stop bs.2 =? 0) then Ret bs
      else bs' ← cu_turn o r bs; cu_loop o rs' bs'
  end.

(** ** [cu_init] and [cu_release] *)

(** [create] is the result of [pthread_create]. *)
Definition cu_init (o : os) (args : list byte) (create : Z) (ns : netw) (st : cu_state)
  : cres (Z * netw * cu_state) :=
  '(fd, ns) ← nw_open o (Some args) (zlen args) ns;
  let st := set_cu_sockfd st fd in
  if fd <? 0 then Ret (-1, ns, st)
  else if negb (create =? 0) then Ret (-1, ns, st)
  else Ret (0, ns, st).

Definition cu_release (o : os) (st : cu_state) : Z * Z * cu_state :=
  (0, nw_close o (cu_sockfd st), set_cu_stop st 1).

(** ** Specification of the status/data handler *)

Fixpoint abstract_poll (mk : Z -> mac_args) (channel : Z) (chs : list Z) (tbs : Z) (s : S)
  : cres (S * list answer) :=
  match chs with
  | [] => Ret (s, [])
  | i :: chs' =>
      '(s, r) ← rlc_status_ind (mk i) tbs s;
      '(s, d) ← (if (0 <? tbs) && negb (channel =? 0) && (0 <? bytes_in_buffer r)
                 then rlc_data_req (mk i) s else Ret (s, []));
      let hdr := if (2 <? channel) && (0 <? zlen d) then 3 else 0 in
      '(s, rest) ← abstract_poll mk channel chs' (tbs - zlen d - hdr) s;
      Ret (s, (r, d) :: rest)
  end.

(** The data of the answers, in the order of the channels. *)
Definition answer_data (ans : list answer) : list byte := mjoin (snd <$> ans).

(** The cells of the reply for the answers of channels [0, 1, ...]. *)
Definition cells_of {A} (f : A -> Z) (ans : list A) : list Z :=
  (f <$> ans) ++ replicate (SREP_CELLS - length ans) 0.

Definition srep_of (rnti frame : Z) (ans : list answer) : spmr_srep_drep := {|
  srep_rnti := rnti;
  srep_frame := frame;
  srep_channel := cells_of id (zrange 0 (length ans));
  srep_tb_size := cells_of (fun a => u32 (zlen a.2)) ans;
  srep_bytes := cells_of (fun a => i32 (bytes_in_buffer a.1)) ans;
  srep_pdus := cells_of (fun a => u32 (pdus_in_buffer a.1)) ans;
  srep_creation_time := cells_of (fun a => u32 (head_sdu_creation_time a.1)) ans;
  srep_remaining_bytes := cells_of (fun a => u32 (head_sdu_remaining_size_to_send a.1)) ans;
  srep_segmented := cells_of (fun a => u32 (head_sdu_is_segmented a.1)) ans |}.

(** The message the handler sends for these answers. *)
Definition status_rep_head (ans : list answer) : sp_head := {|
  type := S_PROTO_MR_STATUS_DATA_REP; vers := 1;
  SplitProto.len := u32 (sizeof spmr_srep_drep + zlen (answer_data ans)) |}.

Definition status_rep_wire (rnti frame : Z) (ans : list answer) : list byte :=
  wire (status_rep_head ans) (srep_of rnti frame ans) (answer_data ans).

End CU.

Arguments cu_state S : clear implicits.

(** ** Lemmas *)

Section CULemmas.
Context {S : Type} `{RlcService S}.

(** A replayed call carries the globals themselves, so it does not change them. *)
Lemma cu_populate_remote (st : cu_state S) rnti frame ch :
  cu_populate (remote_args st rnti frame ch) st = st.
Proof. unfold cu_populate, remote_args. simpl. by rewrite !Z.eqb_refl. Qed.

Lemma set_cu_rlc_twice (st : cu_state S) s1 s2 :
  set_cu_rlc (set_cu_rlc st s1) s2 = set_cu_rlc st s2.
Proof. done. Qed.

Lemma remote_args_set (st : cu_state S) s rnti frame ch :
  remote_args (set_cu_rlc st s) rnti frame ch = remote_args st rnti frame ch.
Proof. done. Qed.

Lemma cells_of_length {A} (f : A -> Z) ans :
  (length ans <= SREP_CELLS)%nat -> length (cells_of f ans) = SREP_CELLS.
Proof. intros. unfold cells_of. rewrite length_app, length_fmap, length_replicate. lia. Qed.

Lemma aset_cells_of {A} (f : A -> Z) ans a v :
  (length ans < SREP_CELLS)%nat -> v = f a ->
  aset (cells_of f ans) (zlen ans) v = Ret (cells_of f (ans ++ [a])).
Proof.
  intros Hl ->. unfold zlen. rewrite aset_ok.
  2: { unfold zlen. rewrite cells_of_length; lia. }
  f_equal. unfold cells_of. rewrite Nat2Z.id.
  rewrite insert_app_r_alt by (rewrite length_fmap; lia).
  rewrite length_fmap, Nat.sub_diag, fmap_app, length_app. simpl.
  replace (SREP_CELLS - length ans)%nat with (1 + (SREP_CELLS - (length ans + 1)))%nat by lia.
  simpl. rewrite <- app_assoc. simpl. repeat f_equal.
Qed.

Lemma aset_cells_range ans (a : answer) :
  (length ans < SREP_CELLS)%nat ->
  aset (cells_of id (zrange 0 (length ans))) (zlen ans) (u32 (zlen ans)) =
  Ret (cells_of id (zrange 0 (length (ans ++ [a])))).
Proof.
  intros Hl.
  assert (Hz : length (zrange 0 (length ans)) = length ans)
    by (unfold zrange; rewrite length_seqZ; lia).
  replace (zlen ans) with (zlen (zrange 0 (length ans))) at 1 by (unfold zlen; lia).
  rewrite u32_small by (unfold zlen, SREP_CELLS in *; lia).
  erewrite aset_cells_of; [|lia|reflexivity]. do 2 f_equal.
  unfold zrange. rewrite length_app. simpl.
  rewrite Nat2Z.inj_add, seqZ_app by lia. done.
Qed.

Lemma srep_of_wf rnti frame (ans : list answer) :
  0 <= rnti < 2 ^ 16 -> 0 <= frame < 2 ^ 32 -> (length ans <= SREP_CELLS)%nat ->
  pk_wf (srep_of rnti frame ans).
Proof.
  intros Hr Hf Hl.
  assert (Hu : forall (f : answer -> Z), (forall a, in_u 4 (f a)) -> arr_u32 (cells_of f ans)).
  { intros f Hfu. split; [by apply cells_of_length|]. unfold cells_of. apply Forall_app. split.
    - apply Forall_fmap, Forall_true. intros. apply Hfu.
    - apply Forall_replicate. unfold in_u. lia. }
  assert (Hi : forall z, in_u 4 (u32 z)) by (intros; apply u32_range).
  simpl. unfold srep_wf, srep_of; simpl.
  split_and!; try (apply Hu; intros; apply Hi); [done|done| |].
  - split.
    + apply cells_of_length. unfold zrange. rewrite length_seqZ. lia.
    + unfold cells_of. apply Forall_app. split; [|apply Forall_replicate; unfold in_u; lia].
      apply Forall_fmap, Forall_forall. intros x Hx. unfold id; simpl.
      unfold zrange in Hx. apply elem_of_seqZ in Hx. unfold in_u, SREP_CELLS in *. lia.
  - split; [by apply cells_of_length|]. unfold cells_of. apply Forall_app. split.
    + apply Forall_fmap, Forall_true. intros. apply in_i32_i32.
    + apply Forall_replicate. unfold in_i32. lia.
Qed.

Lemma answer_data_app (a1 a2 : list answer) :
  answer_data (a1 ++ a2) = answer_data a1 ++ answer_data a2.
Proof. unfold answer_data. by rewrite fmap_app, join_app. Qed.

Lemma answer_data_cons r d (ans : list answer) :
  answer_data ((r, d) :: ans) = d ++ answer_data ans.
Proof. done. Qed.
End CULemmas.

Section CULoop.
Context {S : Type} `{RlcService S}.

Definition DATABUF_SIZE : Z := Z.of_nat (NB_RB_MAX * MAX_DLSCH_PAYLOAD_BYTES).

(** The locals of the loop after the answers [ans], with [tbs] bytes left. *)
Record locals_ok (rnti frame : Z) (ans : list answer) (tbs : Z) (l : reply_locals) : Prop := {
  lo_tbs : l_tbs l = tbs;
  lo_srep : l_srep l = srep_of rnti frame ans;
  lo_total : l_total l = zlen (answer_data ans);
  lo_size : zlen (l_databuf l) = DATABUF_SIZE;
  lo_data : take (length (answer_data ans)) (l_databuf l) = answer_data ans;
}.

Definition dtch_hdr (channel : Z) (d : list byte) : Z :=
  if (2 <? channel) && (0 <? zlen d) then 3 else 0.

(** What [abstract_poll] does for one channel. *)
Definition poll_one (a : mac_args) (channel tbs : Z) (s : S) : cres (S * answer) :=
  '(s, r) ← rlc_status_ind a tbs s;
  '(s, d) ← (if (0 <? tbs) && negb (channel =? 0) && (0 <? bytes_in_buffer r)
             then rlc_data_req a s else Ret (s, []));
  Ret (s, (r, d)).

Lemma abstract_poll_cons mk channel i chs tbs (s : S) :
  abstract_poll mk channel (i :: chs) tbs s =
  ('(s, a) ← poll_one (mk i) channel tbs s;
   '(s, rest) ← abstract_poll mk channel chs (tbs - zlen a.2 - dtch_hdr channel a.2) s;
   Ret (s, a :: rest)).
Proof.
  simpl. unfold poll_one.
  destruct (rlc_status_ind (mk i) tbs s) as [[s1 r]|]; simpl; [|done].
  case_if; simpl; [by destruct (rlc_data_req (mk i) s1) as [[]|]|done].
Qed.

Lemma memcpy_append (dst src d : list byte) total n :
  zlen d = n -> take (length d) src = d -> 0 <= total -> total + n <= zlen dst ->
  memcpy dst total src 0 n = bput dst total d.
Proof.
  intros Hn Ht H0 Hle. unfold memcpy.
  assert (n <= zlen src).
  { apply (f_equal length) in Ht. rewrite length_take in Ht. unfold zlen in *. lia. }
  rewrite bget_ok by (subst n; auto using zlen_nonneg; lia). simpl.
  replace (Z.to_nat n) with (length d) by (unfold zlen in *; lia).
  by rewrite drop_0, Ht.
Qed.

Lemma reply_query_step sreq i (st : cu_state S) tbs s2 r d :
  poll_one (remote_args st (sreq_rnti sreq) (sreq_frame sreq) i) (sreq_channel sreq) tbs
    (cu_rlc st) = Ret (s2, (r, d)) ->
  zlen d <= Z.of_nat MAX_DLSCH_PAYLOAD_BYTES ->
  exists tmpbuf,
    reply_query sreq i tbs st = Ret (set_cu_rlc st s2, r, tmpbuf, zlen d) /\
    take (length d) tmpbuf = d.
Proof.
  intros Hp Hd. unfold poll_one, reply_query, cu_mac_rlc_status_ind, cu_mac_rlc_data_req in *.
  rewrite cu_populate_remote.
  set (A := remote_args st (sreq_rnti sreq) (sreq_frame sreq) i) in *.
  destruct (rlc_status_ind A tbs (cu_rlc st)) as [[s1 r1]|]; simpl in *; [|discriminate].
  rewrite remote_args_set. fold A.
  destruct (_ && _) in *.
  - destruct (rlc_data_req A s1) as [[s3 d1]|]; simpl in *; [|discriminate].
    cres_inv. simplify_eq.
    destruct (bput (zeros MAX_DLSCH_PAYLOAD_BYTES) 0 d) as [tmpbuf|] eqn:Eb.
    + exists tmpbuf. split; [done|]. apply (bput_append _ _ _ _ [] Eb eq_refl eq_refl).
    + rewrite bput_ok in Eb by (rewrite ?zlen_zeros; lia). discriminate.
  - simpl in Hp. cres_inv. simplify_eq. eexists. split; done.
Qed.

Lemma reply_fill_step sreq i r d tmpbuf l rn fr ans tbs :
  locals_ok rn fr ans tbs l -> i = zlen ans -> (length ans < SREP_CELLS)%nat ->
  take (length d) tmpbuf = d ->
  zlen (answer_data ans) + zlen d <= DATABUF_SIZE ->
  - 2 ^ 31 <= tbs - zlen d - dtch_hdr (sreq_channel sreq) d < 2 ^ 31 ->
  exists l',
    reply_fill sreq i r tmpbuf (zlen d) l = Ret l' /\
    locals_ok (sreq_rnti sreq) (sreq_frame sreq) (ans ++ [(r, d)])
      (tbs - zlen d - dtch_hdr (sreq_channel sreq) d) l'.
Proof.
  intros [E1 E2 E3 E4 E5] -> Hl Hd Htot Htb. unfold reply_fill. rewrite E2. unfold srep_of.
  cbn [srep_channel srep_tb_size srep_bytes srep_pdus srep_creation_time
       srep_remaining_bytes srep_segmented].
  rewrite (aset_cells_range ans (r, d)) by done. cbn [mbind cres_bind].
  repeat (rewrite (aset_cells_of _ ans (r, d)) by done; cbn [mbind cres_bind]).
  pose proof (zlen_nonneg d). pose proof (zlen_nonneg (answer_data ans)).
  assert (Hb : exists b, bput (l_databuf l) (l_total l) d = Ret b).
  { eexists. apply bput_ok; lia. }
  destruct Hb as [b Hb].
  assert (Hsel : (if 0 <? zlen d then
       b ← memcpy (l_databuf l) (l_total l) tmpbuf 0 (zlen d); Ret (b, i32 (l_total l + zlen d))
     else Ret (l_databuf l, l_total l)) = Ret (b, zlen (answer_data (ans ++ [(r, d)])))).
  { rewrite answer_data_app, zlen_app, E3.
    replace (answer_data [(r, d)]) with d by (by rewrite answer_data_cons, app_nil_r).
    case_if; bool_to_prop.
    - rewrite (memcpy_append _ _ d) by (done || lia). rewrite <- E3, Hb. simpl.
      rewrite i32_small; [done|]. unfold DATABUF_SIZE in *.
      change (Z.of_nat (NB_RB_MAX * MAX_DLSCH_PAYLOAD_BYTES)) with 172032 in *. lia.
    - assert (d = []) as -> by (destruct d; [done|unfold zlen in *; simpl in *; lia]).
      rewrite bput_ok in Hb by lia. cres_inv. simpl.
      rewrite Nat.add_0_r, take_drop. do 2 f_equal. unfold zlen. simpl. lia. }
  rewrite Hsel. cbn [mbind cres_bind]. eexists. split; [reflexivity|].
  fold (dtch_hdr (sreq_channel sreq) d). rewrite E1, i32_small by lia.
  constructor; cbn [l_tbs l_srep l_total l_databuf]; try done.
  - case_if; [done|]. bool_to_prop. lia.
  - by rewrite (bput_zlen _ _ _ _ Hb).
  - rewrite answer_data_app.
    replace (answer_data [(r, d)]) with d by (by rewrite answer_data_cons, app_nil_r).
    eapply bput_append; done.
Qed.

Lemma reply_body_step sreq i (st : cu_state S) l rn fr ans tbs s2 r d :
  locals_ok rn fr ans tbs l -> i = zlen ans -> (length ans < SREP_CELLS)%nat ->
  poll_one (remote_args st (sreq_rnti sreq) (sreq_frame sreq) i) (sreq_channel sreq) tbs
    (cu_rlc st) = Ret (s2, (r, d)) ->
  zlen d <= Z.of_nat MAX_DLSCH_PAYLOAD_BYTES ->
  zlen (answer_data ans) + zlen d <= DATABUF_SIZE ->
  - 2 ^ 31 <= tbs - zlen d - dtch_hdr (sreq_channel sreq) d < 2 ^ 31 ->
  exists l',
    reply_body sreq i (st, l) = Ret (set_cu_rlc st s2, l') /\
    locals_ok (sreq_rnti sreq) (sreq_frame sreq) (ans ++ [(r, d)])
      (tbs - zlen d - dtch_hdr (sreq_channel sreq) d) l'.
Proof.
  intros Hlo Hi Hl Hp Hd Htot Htb.
  destruct (reply_query_step _ _ _ _ _ _ _ Hp Hd) as (tmpbuf & Hq & Ht).
  destruct (reply_fill_step sreq i r d tmpbuf l rn fr ans tbs) as (l' & Hf & Hlo'); try done.
  exists l'. split; [|done]. unfold reply_body. rewrite (lo_tbs _ _ _ _ _ Hlo), Hq.
  cbn [mbind cres_bind]. by rewrite Hf.
Qed.

Lemma locals_init tbs :
  locals_ok 0 0 [] tbs {| l_tbs := tbs;
    l_databuf := zeros (NB_RB_MAX * MAX_DLSCH_PAYLOAD_BYTES); l_total := 0;
    l_srep := srep_zero |}.
Proof.
  constructor; cbn [l_tbs l_srep l_total l_databuf]; [done|done|done|by rewrite zlen_zeros|done].
Qed.

Context `{!RlcServiceOk S}.

Lemma poll_one_ok a channel tbs (s : S) :
  rlc_inv s -> rlc_args a -> tbs <= Z.of_nat MAX_DLSCH_PAYLOAD_BYTES ->
  exists s' r d, poll_one a channel tbs s = Ret (s', (r, d)) /\ rlc_inv s' /\ resp_wf r /\
    zlen d <= Z.max 0 tbs.
Proof.
  intros Hs Ha Htb. unfold poll_one.
  destruct (status_ind_ok a tbs s Hs Ha) as (s1 & r & Es & Hs1 & Hr).
  rewrite Es. simpl. case_if; bool_to_prop.
  - destruct (data_req_ok a tbs s s1 r) as (s2 & d & Ed & Hs2 & Hd); [done|done|done|lia|lia|].
    rewrite Ed. simpl. exists s2, r, d. split_and!; [done..|lia].
  - simpl. exists s1, r, []. split_and!; [done..|]. unfold zlen. simpl. lia.
Qed.

Lemma dtch_hdr_range channel d : 0 <= dtch_hdr channel d <= 3.
Proof. unfold dtch_hdr. case_if; lia. Qed.

Lemma dtch_hdr_nil channel : dtch_hdr channel [] = 0.
Proof. unfold dtch_hdr. case_if; [bool_to_prop; done|done]. Qed.

(** The specification always answers, within the transport block. *)
Lemma abstract_poll_ok mk channel chs tbs (s : S) :
  rlc_inv s -> Forall (fun i => rlc_args (mk i)) chs ->
  tbs <= Z.of_nat MAX_DLSCH_PAYLOAD_BYTES ->
  exists s' ans, abstract_poll mk channel chs tbs s = Ret (s', ans) /\ rlc_inv s' /\
    length ans = length chs /\ Forall (fun a => resp_wf a.1) ans /\
    zlen (answer_data ans) <= Z.max 0 tbs.
Proof.
  revert tbs s. induction chs as [|i chs IH]; intros tbs s Hs Hmk Htb.
  { exists s, []. split_and!; try done. unfold zlen. simpl. lia. }
  rewrite abstract_poll_cons. apply Forall_cons_1 in Hmk as [Hi Hmk].
  destruct (poll_one_ok (mk i) channel tbs s) as (s1 & r & d & Ep & Hs1 & Hr & Hd); [done..|].
  rewrite Ep. simpl. pose proof (dtch_hdr_range channel d). pose proof (zlen_nonneg d).
  destruct (IH (tbs - zlen d - dtch_hdr channel d) s1) as (s2 & ans & Ea & Hs2 & Hl & Hf & Ht);
    [done|done|lia|].
  rewrite Ea. simpl. exists s2, ((r, d) :: ans).
  split_and!; [done|done|simpl; lia|by constructor|].
  rewrite answer_data_cons, zlen_app. lia.
Qed.

Lemma reply_loop_ok sreq n : forall (st : cu_state S) l rn fr done tbs s' ans,
  locals_ok rn fr done tbs l -> (length done + n <= SREP_CELLS)%nat ->
  rlc_inv (cu_rlc st) ->
  (forall i, 0 <= i < 14 -> rlc_args (remote_args st (sreq_rnti sreq) (sreq_frame sreq) i)) ->
  abstract_poll (fun i => remote_args st (sreq_rnti sreq) (sreq_frame sreq) i)
    (sreq_channel sreq) (zrange (zlen done) n) tbs (cu_rlc st) = Ret (s', ans) ->
  -3 <= tbs -> zlen (answer_data done) + Z.max 0 tbs <= Z.of_nat MAX_DLSCH_PAYLOAD_BYTES ->
  exists l' tbs',
    for_each (reply_body sreq) (zrange (zlen done) n) (st, l) = Ret (set_cu_rlc st s', l') /\
    locals_ok (if decide (n = O) then rn else sreq_rnti sreq)
      (if decide (n = O) then fr else sreq_frame sreq) (done ++ ans) tbs' l'.
Proof.
  induction n as [|n IH]; intros st l rn fr don tbs s' ans Hlo Hl Hs Hmk Hp Htb Hmax.
  { simpl in *. cres_inv. simplify_eq. exists l, tbs.
    rewrite app_nil_r. split; [by destruct st|done]. }
  rewrite zrange_S in *. rewrite abstract_poll_cons in Hp.
  destruct (poll_one_ok (remote_args st (sreq_rnti sreq) (sreq_frame sreq) (zlen don))
    (sreq_channel sreq) tbs (cu_rlc st)) as (s1 & r & d & Ep & Hs1 & Hr & Hd);
    [done|apply Hmk; unfold zlen, SREP_CELLS in *; lia|pose proof (zlen_nonneg (answer_data don)); lia|].
  rewrite Ep in Hp. cbn [mbind cres_bind snd] in Hp.
  destruct (abstract_poll _ _ _ _ s1) as [[s2 rest]|] eqn:Ea; simpl in Hp; [|discriminate].
  cres_inv. simplify_eq.
  pose proof (dtch_hdr_range (sreq_channel sreq) d).
  pose proof (zlen_nonneg d). pose proof (zlen_nonneg (answer_data don)).
  assert (Hms : Z.of_nat MAX_DLSCH_PAYLOAD_BYTES = 12288) by done.
  assert (Hdb : DATABUF_SIZE = 172032) by done.
  assert (Hdt : -3 <= tbs - zlen d - dtch_hdr (sreq_channel sreq) d).
  { destruct (decide (0 < tbs)); [lia|]. assert (d = []) as ->.
    { destruct d; [done|]. unfold zlen in *. simpl in *. lia. }
    rewrite dtch_hdr_nil. unfold zlen. simpl. lia. }
  destruct (reply_body_step sreq (zlen don) st l rn fr don tbs s1 r d)
    as (l1 & Eb & Hlo1); [done|done|lia|done|lia|lia|lia|].
  assert (Hz : zlen (don ++ [(r, d)]) = zlen don + 1) by (rewrite zlen_app; done).
  rewrite <- Hz in Ea |- *.
  destruct (IH (set_cu_rlc st s1) l1 _ _ (don ++ [(r, d)]) _ s' rest Hlo1) as
    (l' & tbs' & Ef & Hlo').
  - rewrite length_app. simpl. lia.
  - done.
  - done.
  - exact Ea.
  - lia.
  - rewrite answer_data_app, zlen_app.
    replace (answer_data [(r, d)]) with d by (by rewrite answer_data_cons, app_nil_r).
    lia.
  - exists l', tbs'. cbn [for_each]. rewrite Eb. cbn [mbind cres_bind]. rewrite Ef.
    rewrite <- app_assoc in Hlo'. split; [done|].
    destruct (decide (n = 0%nat)); exact Hlo'.
Qed.
End CULoop.

(** ** Properties *)

Section CUProps.
Context {S : Type} `{RlcServiceOk S}.

Lemma nw_send_small (o : os) id buf n flags :
  0 <= n <= NETW_UDP_MAX_BUF_SIZE -> n <= zlen buf ->
  nw_send o id buf n flags =
  Ret (os_sendto o id (take (Z.to_nat n) buf) (recv_flags flags),
       [{| dg_id := id; dg_data := take (Z.to_nat n) buf; dg_flags := recv_flags flags |}]).
Proof.
  intros. unfold nw_send. rewrite (proj2 (Z.ltb_ge _ _)) by lia.
  rewrite bget_ok by lia. done.
Qed.

(** The answers the handler collects for the request [sreq]. *)
Definition request_answers (st : cu_state S) (sreq : spmr_sreq_dreq) : cres (S * list answer) :=
  abstract_poll (fun i => remote_args st (sreq_rnti sreq) (sreq_frame sreq) i)
    (sreq_channel sreq) (zrange 0 NB_RB_MAX) (sreq_tb_size sreq) (cu_rlc st).

(** The largest transport block whose reply fits the output buffer of the CU. *)
Definition CU_MAX_TB : Z := 11884.

(** The tail of the handler: packing of the header, of the cells and of the data, and the
    sending of the message. *)
Lemma reply_emit (o : os) (st : cu_state S) rn fr (ans : list answer) databuf (buf : list byte) :
  pk_wf (srep_of rn fr ans) -> zlen (answer_data ans) <= CU_MAX_TB ->
  zlen (cu_outbuf st) = Z.of_nat MAX_DLSCH_PAYLOAD_BYTES -> 0 < cu_sockfd st ->
  take (length (answer_data ans)) databuf = answer_data ans ->
  exists out,
    zlen out = zlen (cu_outbuf st) /\
    Ret (0, buf, add_cu_sent (set_cu_outbuf st out)
      [{| dg_id := cu_sockfd st; dg_data := status_rep_wire rn fr ans;
          dg_flags := MSG_NOSIGNAL |}]) =
    ('(_, out) ← sp_pack_head (status_rep_head ans) (cu_outbuf st)
                   (Z.of_nat MAX_DLSCH_PAYLOAD_BYTES);
     '(blen, out) ← sp_mr_pack_srep_drep (srep_of rn fr ans) out
                      (Z.of_nat MAX_DLSCH_PAYLOAD_BYTES);
     out ← memcpy out blen databuf 0 (zlen (answer_data ans));
     let st := set_cu_outbuf st out in
     '(_, st) ← cu_send o (cu_outbuf st) (u32 (blen + zlen (answer_data ans))) st;
     Ret (0, buf, st)).
Proof.
  intros Hsw Htb Hout Hfd Hdb. unfold CU_MAX_TB in Htb.
  assert (Hms : Z.of_nat MAX_DLSCH_PAYLOAD_BYTES = 12288) by done. rewrite Hms in *.
  assert (Hhw : pk_wf (status_rep_head ans)) by by apply head_wf.
  pose proof (zlen_nonneg (answer_data ans)) as Hnn.
  destruct (pack_message (status_rep_head ans) (srep_of rn fr ans)
    (answer_data ans) (cu_outbuf st) 12288) as (b1 & b2 & b3 & P1 & P2 & P3 & P4 & P5);
    [done|done|lia|lia|change (sizeof spmr_srep_drep) with 398; lia|].
  exists b3. split; [done|].
  rewrite P1. cbn [mbind cres_bind]. unfold sp_mr_pack_srep_drep. rewrite P2.
  cbn [mbind cres_bind]. change (sizeof spmr_srep_drep) with 398 in *.
  rewrite (memcpy_append _ _ (answer_data ans)); [|done|done|lia|].
  2: { rewrite <- (bput_zlen _ _ _ _ P3). lia. }
  rewrite P3. cbn [mbind cres_bind]. unfold cu_send.
  change (cu_sockfd (set_cu_outbuf st b3)) with (cu_sockfd st).
  rewrite (proj2 (Z.leb_gt _ _)) by lia. rewrite u32_small by lia.
  change (cu_outbuf (set_cu_outbuf st b3)) with b3.
  rewrite nw_send_small by (unfold NETW_UDP_MAX_BUF_SIZE; lia).
  cbn [mbind cres_bind]. do 5 f_equal. unfold status_rep_wire. rewrite <- P5. f_equal.
  pose proof (wire_zlen (status_rep_head ans) (srep_of rn fr ans) (answer_data ans) Hhw Hsw) as Hwz.
  change (sizeof spmr_srep_drep) with 398 in Hwz. unfold zlen in *. lia.
Qed.

(** The RLC layer of the CU is in a state of its contract, for the globals of the CU. *)
Definition cu_ready (st : cu_state S) (sreq : spmr_sreq_dreq) : Prop :=
  rlc_inv (cu_rlc st) /\
  forall i, 0 <= i < 14 -> rlc_args (remote_args st (sreq_rnti sreq) (sreq_frame sreq) i).

(** The handler on a request for at most [CU_MAX_TB] bytes. *)
Lemma status_data_reply_run (o : os) (buf : list byte) (n : Z) (st : cu_state S) sreq :
  sload spmr_sreq_dreq buf 6 = Ret sreq -> 6 <= n -> cu_ready st sreq ->
  sreq_tb_size sreq <= CU_MAX_TB ->
  zlen (cu_outbuf st) = Z.of_nat MAX_DLSCH_PAYLOAD_BYTES -> 0 < cu_sockfd st ->
  exists s' ans buf' out,
    request_answers st sreq = Ret (s', ans) /\ rlc_inv s' /\ length ans = NB_RB_MAX /\
    Forall (fun a => resp_wf a.1) ans /\ zlen (answer_data ans) <= sreq_tb_size sreq /\
    zlen buf' = zlen buf /\ zlen out = zlen (cu_outbuf st) /\
    mac_rlc_status_data_req_reply o 0 buf n st =
      Ret (0, buf', add_cu_sent (set_cu_outbuf (set_cu_rlc st s') out)
        [{| dg_id := cu_sockfd st;
            dg_data := status_rep_wire (sreq_rnti sreq) (sreq_frame sreq) ans;
            dg_flags := MSG_NOSIGNAL |}]).
Proof.
  intros Hload Hn [Hinv Hargs] Htb Hout Hfd. pose proof (sload_wf _ _ _ Hload) as (Hw1 & Hw2 & Hw3 & Hw4).
  unfold in_u in *. simpl in Hw1, Hw2, Hw3, Hw4. unfold CU_MAX_TB in Htb.
  assert (Hms : Z.of_nat MAX_DLSCH_PAYLOAD_BYTES = 12288) by done.
  destruct (abstract_poll_ok (fun i => remote_args st (sreq_rnti sreq) (sreq_frame sreq) i)
    (sreq_channel sreq) (zrange 0 NB_RB_MAX) (sreq_tb_size sreq) (cu_rlc st))
    as (s' & ans & Ea & Hs' & Hla & Hf & Ht);
    [done|apply Forall_forall; intros i Hi; apply Hargs; unfold zrange in Hi;
     apply elem_of_seqZ in Hi; exact Hi|lia|]. change (length (zrange 0 NB_RB_MAX)) with 14%nat in Hla.
  destruct (reply_loop_ok sreq NB_RB_MAX st _ 0 0 [] (sreq_tb_size sreq) s' ans
    (locals_init (sreq_tb_size sreq))) as (l' & tbs' & El & Hlo);
    [unfold NB_RB_MAX, maxDRB, SREP_CELLS; simpl; lia|done|done|exact Ea|lia|
     change (zlen (answer_data [])) with 0; lia|].
  change (zlen []) with 0 in El.
  destruct (decide (NB_RB_MAX = 0%nat)) as [Hx|_]; [discriminate Hx|].
  destruct Hlo as [_ E2 E3 E4 E5]. cbn [app] in *.
  assert (Hbuf : 20 <= zlen buf).
  { unfold sload in Hload. destruct (bget buf 6 (sizeof spmr_sreq_dreq)) eqn:Eb; [|discriminate].
    apply bget_inv in Eb. change (sizeof spmr_sreq_dreq) with 14 in Eb. lia. }
  destruct (sstore_ok buf 0 (status_rep_head ans)) as (buf' & Ebuf & Hbl);
    [by apply head_wf|lia|change (sizeof sp_head) with 6; lia|].
  destruct (reply_emit o (set_cu_rlc st s') (sreq_rnti sreq) (sreq_frame sreq) ans
    (l_databuf l') buf') as (out & Hol & Ho); [|unfold CU_MAX_TB; lia|done..|].
  { apply srep_of_wf; [done|done|rewrite Hla; unfold SREP_CELLS; lia]. }
  exists s', ans, buf', out. split_and!; [exact Ea|done|done|done|lia|done|done|].
  unfold mac_rlc_status_data_req_reply, sp_mr_identify_sreq_dreq, sp_generic_identify.
  rewrite (proj2 (Z.ltb_ge _ _)) by (change (sizeof sp_head) with 6; lia).
  change (sizeof sp_head) with 6. rewrite Hload. cbn [mbind cres_bind].
  rewrite i32_small by lia. rewrite El. cbn [mbind cres_bind]. rewrite E3, E2.
  fold (status_rep_head ans). rewrite Ebuf. cbn [mbind cres_bind]. symmetry. exact Ho.
Qed.

(** C2: refinement of the CU status/data handler.  On a request for at most
    [CU_MAX_TB] bytes, whatever the RLC layer answers within its contract, the C code
    (fixed-size arrays, running offsets, [memcpy] into the output buffer) never leaves
    an object, returns 0, leaves the RLC layer in the state of the specification and
    sends exactly one datagram: the header, the 14 cells and the data of
    [abstract_poll], whose data fits the transport block. *)
Theorem status_data_reply_refines (o : os) (buf : list byte) (n : Z) (st : cu_state S) sreq :
  sload spmr_sreq_dreq buf 6 = Ret sreq -> 6 <= n -> cu_ready st sreq ->
  sreq_tb_size sreq <= CU_MAX_TB ->
  zlen (cu_outbuf st) = Z.of_nat MAX_DLSCH_PAYLOAD_BYTES -> 0 < cu_sockfd st ->
  exists s' ans buf' st',
    request_answers st sreq = Ret (s', ans) /\
    length ans = NB_RB_MAX /\ zlen (answer_data ans) <= sreq_tb_size sreq /\
    mac_rlc_status_data_req_reply o 0 buf n st = Ret (0, buf', st') /\
    cu_rlc st' = s' /\
    cu_sent st' = cu_sent st ++
      [{| dg_id := cu_sockfd st;
          dg_data := status_rep_wire (sreq_rnti sreq) (sreq_frame sreq) ans;
          dg_flags := MSG_NOSIGNAL |}].
Proof.
  intros Hload Hn Hrdy Htb Hout Hfd.
  destruct (status_data_reply_run o buf n st sreq)
    as (s' & ans & buf' & out & Ea & _ & Hl & _ & Ht & _ & _ & Er); [done..|].
  eexists s', ans, buf', _. by split_and!; [| | |exact Er| |].
Qed.
End CUProps.

(** A request for channel 1 with 100 bytes of room, on the RLC layer of [RlcMac]. *)
Definition demo_sreq : spmr_sreq_dreq := {|
  sreq_rnti := 77; sreq_frame := 9; sreq_channel := 1; sreq_tb_size := 100 |}.

Definition demo_os : os := {|
  os_gethostbyname _ := Some [Byte.x7f; Byte.x00; Byte.x00; Byte.x01];
  os_socket := 5; os_bind _ _ := 0; os_sendto _ d _ := zlen d; os_close _ := 0 |}.

Definition demo_sreq_head : sp_head := {|
  type := S_PROTO_MR_STATUS_DATA_REQ; vers := 1; SplitProto.len := 14 |}.

Lemma status_data_reply_refines_witness :
  exists ans buf' st',
    mac_rlc_status_data_req_reply demo_os 0 (wire demo_sreq_head demo_sreq []) 20
      (cu_init_state 5 (demo_layer, tt)) = Ret (0, buf', st') /\
    map dg_data (cu_sent st') = [status_rep_wire 77 9 ans] /\ zlen (answer_data ans) <= 100.
Proof.
  destruct (status_data_reply_refines demo_os (wire demo_sreq_head demo_sreq []) 20
    (cu_init_state 5 (demo_layer, tt)) demo_sreq) as (s' & ans & buf' & st' & _ & _ & Ht & Er & _ & Es).
  - reflexivity.
  - lia.
  - split; [exact demo_layer_inv|]. intros i Hi. split; [reflexivity|exact Hi].
  - unfold CU_MAX_TB. simpl. lia.
  - apply zlen_zeros.
  - simpl. lia.
  - exists ans, buf', st'. split_and!; [exact Er| |exact Ht]. rewrite Es. reflexivity.
Defined.
