(* ===== verification/SplitDU.v ===== *)
(** The distributed unit of the split: the DU-side handlers of
    [openair2/LAYER2/RLC/rlc_mac.c] (lines 373-535), the DU parts of
    [mac_rlc_data_req], [mac_rlc_data_ind] and [mac_rlc_status_ind] of the same file and
    of [mac_rrc_data_req] and [mac_rrc_data_ind] of [openair2/RRC/LITE/L2_interface.c],
    and the receive loop of [splits/mac-rlc/du/mr_du.c].

    The arrays of the DU keep the length they have in the state: the operations check
    every index against it.  [du_init_state] has the arrays as the code declares them, 3
    cells for the SRBs and [maxDRB] for the DRBs. *)
From stdpp Require Import base list numbers sets.
From coqutil Require Import Byte.
From Stdlib Require Import ZArith Lia.
From S2P Require Import Prelude SplitProto Netw SplitIface SplitStats SplitCU.
Open Scope Z_scope.

Definition DU_BUF_SIZE : nat := 8 * 1024.

(** ** State: the globals of the DU profile *)

(** The mailbox of one bearer: [du_rlc_srep_ready_*], [du_rlc_srep_data_*],
    [du_rlc_drep_ready_*], [du_rlc_drep_size_*] and [du_rlc_drep_data_*] at one index. *)
Record slot := {
  srep_ready : Z;
  srep_data : mac_rlc_status_resp_t;
  drep_ready : Z;
  drep_size : Z;
  drep_data : list byte;
}.

Record du_state := {
  du_SRB : list slot;
  du_DRB : list slot;
  du_size_SIB1 : Z;
  du_data_SIB1 : list byte;
  du_size_SIB23 : Z;
  du_data_SIB23 : list byte;
  du_size_SRB0 : Z;
  du_data_SRB0 : list byte;
  du_sockfd : Z;
  du_stop : Z;
  du_stats : mr_stats;
  du_reports : list report;
  du_sent : list dgram;
}.

Definition slot_init (n : nat) : slot := Build_slot 0 resp_empty 0 0 (zeros n).

Definition du_init_state (fd : Z) : du_state := {|
  du_SRB := replicate 3 (slot_init DU_BUF_SIZE);
  du_DRB := replicate maxDRB (slot_init MAX_DLSCH_PAYLOAD_BYTES);
  du_size_SIB1 := 0; du_data_SIB1 := zeros DU_BUF_SIZE;
  du_size_SIB23 := 0; du_data_SIB23 := zeros DU_BUF_SIZE;
  du_size_SRB0 := 0; du_data_SRB0 := zeros DU_BUF_SIZE;
  du_sockfd := fd; du_stop := 0; du_stats := mr_stats0; du_reports := []; du_sent := [] |}.

Definition set_SRB (st : du_state) (l : list slot) : du_state :=
  Build_du_state l (du_DRB st) (du_size_SIB1 st) (du_data_SIB1 st) (du_size_SIB23 st)
    (du_data_SIB23 st) (du_size_SRB0 st) (du_data_SRB0 st) (du_sockfd st) (du_stop st)
    (du_stats st) (du_reports st) (du_sent st).
Definition set_DRB (st : du_state) (l : list slot) : du_state :=
  Build_du_state (du_SRB st) l (du_size_SIB1 st) (du_data_SIB1 st) (du_size_SIB23 st)
    (du_data_SIB23 st) (du_size_SRB0 st) (du_data_SRB0 st) (du_sockfd st) (du_stop st)
    (du_stats st) (du_reports st) (du_sent st).
Definition set_SIB1 (st : du_state) (n : Z) (b : list byte) : du_state :=
  Build_du_state (du_SRB st) (du_DRB st) n b (du_size_SIB23 st)
    (du_data_SIB23 st) (du_size_SRB0 st) (du_data_SRB0 st) (du_sockfd st) (du_stop st)
    (du_stats st) (du_reports st) (du_sent st).
Definition set_SIB23 (st : du_state) (n : Z) (b : list byte) : du_state :=
  Build_du_state (du_SRB st) (du_DRB st) (du_size_SIB1 st) (du_data_SIB1 st) n b
    (du_size_SRB0 st) (du_data_SRB0 st) (du_sockfd st) (du_stop st)
    (du_stats st) (du_reports st) (du_sent st).
Definition set_SRB0 (st : du_state) (n : Z) (b : list byte) : du_state :=
  Build_du_state (du_SRB st) (du_DRB st) (du_size_SIB1 st) (du_data_SIB1 st)
    (du_size_SIB23 st) (du_data_SIB23 st) n b (du_sockfd st) (du_stop st)
    (du_stats st) (du_reports st) (du_sent st).
Definition set_du_stats (st : du_state) (s : mr_stats) : du_state :=
  Build_du_state (du_SRB st) (du_DRB st) (du_size_SIB1 st) (du_data_SIB1 st)
    (du_size_SIB23 st) (du_data_SIB23 st) (du_size_SRB0 st) (du_data_SRB0 st) (du_sockfd st)
    (du_stop st) s (du_reports st) (du_sent st).
Definition run_du_stats (st : du_state) (sr : mr_stats * list report) : du_state :=
  Build_du_state (du_SRB st) (du_DRB st) (du_size_SIB1 st) (du_data_SIB1 st)
    (du_size_SIB23 st) (du_data_SIB23 st) (du_size_SRB0 st) (du_data_SRB0 st) (du_sockfd st)
    (du_stop st) sr.1 (du_reports st ++ sr.2) (du_sent st).
Definition add_du_sent (st : du_state) (l : list dgram) : du_state :=
  Build_du_state (du_SRB st) (du_DRB st) (du_size_SIB1 st) (du_data_SIB1 st)
    (du_size_SIB23 st) (du_data_SIB23 st) (du_size_SRB0 st) (du_data_SRB0 st) (du_sockfd st)
    (du_stop st) (du_stats st) (du_reports st) (du_sent st ++ l).
Definition set_du_sockfd (st : du_state) (fd : Z) : du_state :=
  Build_du_state (du_SRB st) (du_DRB st) (du_size_SIB1 st) (du_data_SIB1 st)
    (du_size_SIB23 st) (du_data_SIB23 st) (du_size_SRB0 st) (du_data_SRB0 st) fd
    (du_stop st) (du_stats st) (du_reports st) (du_sent st).
Definition set_du_stop (st : du_state) (v : Z) : du_state :=
  Build_du_state (du_SRB st) (du_DRB st) (du_size_SIB1 st) (du_data_SIB1 st)
    (du_size_SIB23 st) (du_data_SIB23 st) (du_size_SRB0 st) (du_data_SRB0 st) (du_sockfd st)
    v (du_stats st) (du_reports st) (du_sent st).

(** ** [mr_du.c]: sending *)

Definition du_send (o : os) (buf : list byte) (len : Z) (st : du_state) : cres (Z * du_state) :=
  if du_sockfd st <=? 0 then Ret (-1, st)
  else
    '(r, l) ← nw_send o (du_sockfd st) buf len
                (Z.lor NETW_FLAG_NO_SIGNALS NETW_FLAG_NO_WAIT);
    Ret (r, add_du_sent st l).

(** ** [mac_rlc_handle_status_data_rep] *)

(** The status part of a mailbox, from cell [i] of the reply.  The members of the
    response are narrower than the cells. *)
Definition resp_of_cells (m : spmr_srep_drep) (i : Z) : cres mac_rlc_status_resp_t :=
  bytes ← aget (srep_bytes m) i;
  creation_time ← aget (srep_creation_time m) i;
  segmented ← aget (srep_segmented m) i;
  remaining ← aget (srep_remaining_bytes m) i;
  pdus ← aget (srep_pdus m) i;
  Ret {| bytes_in_buffer := bytes;
         pdus_in_buffer := i32 pdus;
         head_sdu_creation_time := creation_time;
         head_sdu_remaining_size_to_send := i32 remaining;
         head_sdu_is_segmented := i8 segmented |}.

(** Filling the mailbox [sl] from cell [i], with the data at offset [off] of [buf]. *)
Definition slot_fill (m : spmr_srep_drep) (i : Z) (buf : list byte) (off : Z) (sl : slot)
  : cres slot :=
  r ← resp_of_cells m i;
  tb_size ← aget (srep_tb_size m) i;
  let size := i32 tb_size in
  if negb (size =? 0) then
    data ← memcpy (drep_data sl) 0 buf off size;
    Ret (Build_slot 1 r 1 size data)
  else Ret (Build_slot 1 r (drep_ready sl) size (drep_data sl)).

(** The body of the loop for index [i]; the second component is [tmplen_total]. *)
Definition rep_body (m : spmr_srep_drep) (buf : list byte) (i : Z) (sl : du_state * Z)
  : cres (du_state * Z) :=
  let '(st, tmplen_total) := sl in
  channel ← aget (srep_channel m) i;
  tb_size ← aget (srep_tb_size m) i;
  let off := sizeof sp_head + sizeof spmr_srep_drep + tmplen_total in
  let total := i32 (tmplen_total + tb_size) in
  if channel <? 3 then
    s ← aget (du_SRB st) i;
    s ← slot_fill m i buf off s;
    l ← aset (du_SRB st) i s;
    Ret (set_SRB st l, total)
  else
    s ← aget (du_DRB st) i;
    s ← slot_fill m i buf off s;
    l ← aset (du_DRB st) i s;
    Ret (set_DRB st l, total).

Definition mac_rlc_handle_status_data_rep (buf : list byte) (len : Z) (st : du_state)
  : cres (Z * du_state) :=
  let '(e, p) := sp_mr_identify_srep_drep buf len in
  match p with
  | None => Ret (-1, st)
  | Some p =>
      m ← sload spmr_srep_drep buf p;
      '(st, _) ← for_each (rep_body m buf) (zrange 0 NB_RB_MAX) (st, 0);
      Ret (0, st)
  end.

(** ** [mac_rrc_handle_data_rep] *)

Definition mac_rrc_handle_data_rep (head : Z) (buf : list byte) (len : Z) (st : du_state)
  : cres (Z * du_state) :=
  let '(e, p) := sp_mr_identify_rrc_drep buf len in
  match p with
  | None => Ret (-1, st)
  | Some p =>
      drep ← sload spmr_rrc_drep buf p;
      h ← sload sp_head buf head;
      let size := i32 (SplitProto.len h - sizeof spmr_rrc_drep) in
      let off := sizeof sp_head + sizeof spmr_rrc_drep in
      st ← (if Z.land (dp_srb_id drep) RAB_OFFSET =? BCCH then
              st ← (if dp_frame drep mod 2 =? 0 then
                      b ← memcpy (du_data_SIB1 st) 0 buf off size; Ret (set_SIB1 st size b)
                    else Ret st);
              if dp_frame drep mod 8 =? 1 then
                b ← memcpy (du_data_SIB23 st) 0 buf off size; Ret (set_SIB23 st size b)
              else Ret st
            else Ret st);
      st ← (if Z.land (dp_srb_id drep) RAB_OFFSET =? CCCH then
              b ← memcpy (du_data_SRB0 st) 0 buf off size; Ret (set_SRB0 st size b)
            else Ret st);
      Ret (0, st)
  end.

(** ** [mac_rlc_du_recv] and [du_loop] *)

(** [now] is the instant the statistics read. *)
Definition mac_rlc_du_recv (now : timespec) (buf : list byte) (len : Z) (st : du_state)
  : cres du_state :=
  let '(e, p) := sp_identify_head buf len in
  match p with
  | None => Ret st
  | Some head =>
      h ← sload sp_head buf head;
      if type h =? S_PROTO_MR_STATUS_DATA_REP then
        let st := run_du_stats st (mr_stat_status_epilogue now (u32 len) (du_stats st)) in
        '(_, st) ← mac_rlc_handle_status_data_rep buf len st; Ret st
      else if type h =? S_PROTO_MR_DATA_IND then
        Ret (run_du_stats st (mr_stat_ind_epilogue now (du_stats st)))
      else if type h =? S_PROTO_MR_RRC_DATA_REQ_REP then
        let st := run_du_stats st (mr_stat_rrc_req_epilogue now (u32 len) (du_stats st)) in
        '(_, st) ← mac_rrc_handle_data_rep head buf len st; Ret st
      else if type h =? S_PROTO_MR_RRC_DATA_IND then
        Ret (run_du_stats st (mr_stat_rrc_ind_epilogue (du_stats st)))
      else Ret st
  end.

Definition du_turn (nr : timespec * recv_result) (bs : list byte * du_state)
  : cres (list byte * du_state) :=
  let '(buf, st) := bs in
  '(br, buf) ← nw_recv nr.2 buf (Z.of_nat DU_BUF_SIZE);
  if 0 <? br then st ← mac_rlc_du_recv nr.1 buf br st; Ret (buf, st) else Ret (buf, st).

Fixpoint du_loop (rs : list (timespec * recv_result)) (bs : list byte * du_state)
  : cres (list byte * du_state) :=
  match rs with
  | [] => Ret bs
  | r :: rs' =>
      if negb (du_stop bs.2 =? 0) then Ret bs
      else bs' ← du_turn r bs; du_loop rs' bs'
  end.

(** ** [du_init] and [du_release] *)

Definition du_init (o : os) (args : list byte) (create : Z) (ns : netw) (st : du_state)
  : cres (Z * netw * du_state) :=
  '(fd, ns) ← nw_open o (Some args) (zlen args) ns;
  let st := set_du_sockfd st fd in
  if fd <? 0 then Ret (-1, ns, st)
  else if negb (create =? 0) then Ret (-1, ns, st)
  else Ret (0, ns, st).

Definition du_release (o : os) (st : du_state) : Z * Z * du_state :=
  (0, nw_close o (du_sockfd st), set_du_stop st 1).

(** ** The primitives of the local MAC *)

(** Taking the data of mailbox [i]: the result and the bytes copied to the caller. *)
Definition slot_take (l : list slot) (i : Z) : cres (list slot * (Z * list byte)) :=
  s ← aget l i;
  if negb (drep_ready s =? 0) then
    l ← aset l i (Build_slot (srep_ready s) (srep_data s) 0 (drep_size s) (drep_data s));
    d ← bget (drep_data s) 0 (drep_size s);
    Ret (l, (drep_size s, d))
  else Ret (l, (0, [])).

(** [mac_rlc_data_req] in the DU profile. *)
Definition du_mac_rlc_data_req (channel_idP : Z) (st : du_state)
  : cres (du_state * (Z * list byte)) :=
  if (0 <=? channel_idP) && (channel_idP <=? 2) then
    '(l, r) ← slot_take (du_SRB st) channel_idP; Ret (set_SRB st l, r)
  else if (3 <=? channel_idP) && (channel_idP <=? 13) then
    '(l, r) ← slot_take (du_DRB st) channel_idP; Ret (set_DRB st l, r)
  else Ret (st, (0, [])).

(** Taking the status of mailbox [i]. *)
Definition slot_status (l : list slot) (i : Z) : cres (list slot * mac_rlc_status_resp_t) :=
  s ← aget l i;
  if negb (srep_ready s =? 0) then
    l ← aset l i (Build_slot 0 (srep_data s) (drep_ready s) (drep_size s) (drep_data s));
    Ret (l, srep_data s)
  else Ret (l, resp_empty).

(** [mac_rlc_status_ind] in the DU profile: a request is sent for SRB0 and SRB1. *)
Definition du_mac_rlc_status_ind (o : os) (now : timespec) (rntiP frameP channel_idP tb_sizeP : Z)
  (st : du_state) : cres (du_state * mac_rlc_status_resp_t) :=
  let head := {| type := S_PROTO_MR_STATUS_DATA_REQ; vers := 1;
                 SplitProto.len := u32 (sizeof spmr_sreq_dreq) |} in
  let sreq := {| sreq_rnti := rntiP; sreq_frame := frameP; sreq_channel := channel_idP;
                 sreq_tb_size := u32 tb_sizeP |} in
  '(_, buf) ← sp_pack_head head (zeros DU_BUF_SIZE) (Z.of_nat DU_BUF_SIZE);
  '(buflen, buf) ← sp_mr_pack_sreq_dreq sreq buf (Z.of_nat DU_BUF_SIZE);
  if (0 <=? channel_idP) && (channel_idP <=? 1) then
    '(r, st) ← du_send o buf (u32 buflen) st;
    let st := if 0 <? r then
                set_du_stats st (mr_stat_status_prologue now (u32 buflen) (du_stats st))
              else st in
    '(l, a) ← slot_status (du_SRB st) channel_idP; Ret (set_SRB st l, a)
  else if channel_idP =? 2 then
    '(l, a) ← slot_status (du_SRB st) channel_idP; Ret (set_SRB st l, a)
  else if (3 <=? channel_idP) && (channel_idP <=? 13) then
    '(l, a) ← slot_status (du_DRB st) channel_idP; Ret (set_DRB st l, a)
  else Ret (st, resp_empty).

(** [mac_rlc_data_ind] in the DU profile: the transport block is at the start of
    [buffer_pP].  The prologue runs for every non-zero result of [du_send]. *)
Definition du_mac_rlc_data_ind (o : os) (now : timespec) (rntiP frameP channel_idP : Z)
  (buffer_pP : list byte) (tb_sizeP : Z) (st : du_state) : cres du_state :=
  let head := {| type := S_PROTO_MR_DATA_IND; vers := 1;
                 SplitProto.len := u32 (sizeof spmr_ireq + tb_sizeP) |} in
  let di := {| ireq_rnti := rntiP; ireq_frame := frameP; ireq_channel := channel_idP |} in
  '(_, buf) ← sp_pack_head head (zeros DU_BUF_SIZE) (Z.of_nat DU_BUF_SIZE);
  '(buflen, buf) ← sp_mr_pack_ireq di buf (Z.of_nat DU_BUF_SIZE);
  buf ← memcpy buf buflen buffer_pP 0 tb_sizeP;
  '(r, st) ← du_send o buf (u32 (buflen + tb_sizeP)) st;
  Ret (if negb (r =? 0) then
         set_du_stats st (mr_stat_ind_prologue now (u32 buflen) (du_stats st))
       else st).

(** [mac_rrc_data_req] in the DU profile: the result ([int8_t]) and the bytes copied
    to the caller. *)
Definition du_mac_rrc_data_req (o : os) (now : timespec) (CC_id frameP Srb_id Nb_tb : Z)
  (st : du_state) : cres (du_state * (Z * list byte)) :=
  let head := {| type := S_PROTO_MR_RRC_DATA_REQ; vers := 1;
                 SplitProto.len := u32 (sizeof spmr_rrc_dreq) |} in
  let dreq := {| dq_CC_id := CC_id; dq_frame := frameP; dq_srb_id := Srb_id;
                 dq_num_tb := Nb_tb |} in
  '(_, buf) ← sp_pack_head head (zeros DU_BUF_SIZE) (Z.of_nat DU_BUF_SIZE);
  '(buflen, buf) ← sp_mr_pack_rrc_dreq dreq buf (Z.of_nat DU_BUF_SIZE);
  '(r, st) ← du_send o buf (u32 buflen) st;
  let st := if 0 <? r then
              set_du_stats st (mr_stat_rrc_req_prologue now (u32 buflen) (du_stats st))
            else st in
  if (Z.land Srb_id RAB_OFFSET =? BCCH) && (frameP mod 2 =? 0) then
    d ← bget (du_data_SIB1 st) 0 (du_size_SIB1 st); Ret (st, (i8 (du_size_SIB1 st), d))
  else if (Z.land Srb_id RAB_OFFSET =? BCCH) && (frameP mod 8 =? 1) then
    d ← bget (du_data_SIB23 st) 0 (du_size_SIB23 st); Ret (st, (i8 (du_size_SIB23 st), d))
  else if Z.land Srb_id RAB_OFFSET =? CCCH then
    d ← bget (du_data_SRB0 st) 0 (du_size_SRB0 st); Ret (st, (i8 (du_size_SRB0 st), d))
  else Ret (st, (0, [])).

(** [mac_rrc_data_ind] in the DU profile. *)
Definition du_mac_rrc_data_ind (o : os) (now : timespec)
  (CC_id frameP sub_frameP rntiP srb_idP : Z) (sduP : list byte) (sdu_lenP : Z) (st : du_state)
  : cres (Z * du_state) :=
  let head := {| type := S_PROTO_MR_RRC_DATA_IND; vers := 1;
                 SplitProto.len := u32 (sizeof spmr_rrc_ireq + sdu_lenP) |} in
  let ireq := {| ri_CC_id := CC_id; ri_rnti := rntiP; ri_frame := frameP;
                 ri_subframe := sub_frameP; ri_srb_id := srb_idP |} in
  '(_, buf) ← sp_pack_head head (zeros DU_BUF_SIZE) (Z.of_nat DU_BUF_SIZE);
  '(buflen, buf) ← sp_mr_pack_rrc_ireq ireq buf (Z.of_nat DU_BUF_SIZE);
  buf ← memcpy buf buflen sduP 0 sdu_lenP;
  '(r, st) ← du_send o buf (u32 (buflen + sdu_lenP)) st;
  Ret (0, if 0 <? r then
            set_du_stats st (mr_stat_rrc_ind_prologue now (u32 buflen) (du_stats st))
          else st).

(** ** Lemmas *)

(** The response survives the trip through the cells of the reply. *)
Definition resp_trip (r : mac_rlc_status_resp_t) : mac_rlc_status_resp_t := {|
  bytes_in_buffer := i32 (bytes_in_buffer r);
  pdus_in_buffer := i32 (u32 (pdus_in_buffer r));
  head_sdu_creation_time := u32 (head_sdu_creation_time r);
  head_sdu_remaining_size_to_send := i32 (u32 (head_sdu_remaining_size_to_send r));
  head_sdu_is_segmented := i8 (u32 (head_sdu_is_segmented r)) |}.

Lemma i32_u32 z : - 2 ^ 31 <= z < 2 ^ 31 -> i32 (u32 z) = z.
Proof. intros. unfold u32. rewrite i32_mod. by apply i32_small. Qed.

Lemma i8_u32 z : - 2 ^ 7 <= z < 2 ^ 7 -> i8 (u32 z) = z.
Proof. intros. unfold i8, u32. Z.div_mod_to_equations. lia. Qed.

Lemma resp_trip_id r : resp_wf r -> resp_trip r = r.
Proof.
  destruct r. unfold resp_wf, resp_trip. simpl. intros (? & ? & ? & ? & ?).
  rewrite i32_small, !i32_u32, u32_small, i8_u32 by lia. done.
Qed.

Lemma aget_cells_of {A} (f : A -> Z) ans (i : nat) a :
  ans !! i = Some a -> aget (cells_of f ans) (Z.of_nat i) = Ret (f a).
Proof.
  intros Hi. apply aget_ok; [lia|]. rewrite Nat2Z.id. unfold cells_of.
  rewrite lookup_app_l.
  - by rewrite list_lookup_fmap, Hi.
  - rewrite length_fmap. by eapply lookup_lt_Some.
Qed.

Lemma zrange_lookup a n i : (i < n)%nat -> zrange a n !! i = Some (a + Z.of_nat i).
Proof. intros. unfold zrange. apply lookup_seqZ. lia. Qed.

Lemma resp_of_cells_srep rn fr (ans : list answer) (i : nat) r d :
  ans !! i = Some (r, d) ->
  resp_of_cells (srep_of rn fr ans) (Z.of_nat i) = Ret (resp_trip r).
Proof.
  intros Hi. unfold resp_of_cells, srep_of. cbn [srep_bytes srep_creation_time srep_segmented
    srep_remaining_bytes srep_pdus].
  repeat (erewrite aget_cells_of; [|exact Hi]; cbn [mbind cres_bind fst snd]). done.
Qed.

(** The bytes of answer [i] in the data of the reply. *)
Lemma bget_answer_data (ans : list answer) (i : nat) r d :
  ans !! i = Some (r, d) ->
  bget (answer_data ans) (zlen (answer_data (take i ans))) (zlen d) = Ret d.
Proof.
  intros Hi. rewrite <- (take_drop_middle ans i (r, d) Hi) at 1.
  rewrite answer_data_app, answer_data_cons.
  set (p := answer_data (take i ans)). set (q := answer_data (drop (S i) ans)).
  pose proof (zlen_nonneg p). pose proof (zlen_nonneg d). pose proof (zlen_nonneg q).
  rewrite bget_ok by (rewrite ?zlen_app; lia). f_equal. unfold zlen. rewrite !Nat2Z.id.
  rewrite drop_app_ge, Nat.sub_diag, drop_0, take_app_le, take_ge by lia. done.
Qed.

Lemma answer_data_take_le (ans : list answer) (i : nat) r d :
  ans !! i = Some (r, d) ->
  zlen (answer_data (take i ans)) + zlen d <= zlen (answer_data ans) /\
  zlen (answer_data (take (S i) ans)) = zlen (answer_data (take i ans)) + zlen d.
Proof.
  intros Hi. split.
  - rewrite <- (take_drop_middle ans i (r, d) Hi) at 2.
    rewrite answer_data_app, answer_data_cons, !zlen_app.
    pose proof (zlen_nonneg (answer_data (drop (S i) ans))). lia.
  - rewrite (take_S_r _ _ _ Hi), answer_data_app, zlen_app, answer_data_cons, app_nil_r. done.
Qed.

(** The mailbox of logical channel [i]. *)
Definition du_slot (st : du_state) (i : nat) : option slot :=
  if (i <? 3)%nat then du_SRB st !! i else du_DRB st !! i.

(** The mailbox holds the answer [a]. *)
Definition slot_has (sl : slot) (a : answer) : Prop :=
  srep_ready sl = 1 /\ srep_data sl = a.1 /\ drep_size sl = zlen a.2 /\
  (a.2 <> [] -> drep_ready sl = 1 /\ bget (drep_data sl) 0 (zlen a.2) = Ret a.2).

(** The arrays of the DU as declared in [rlc_mac.c], lines 383-394: 3 cells for the SRBs and
    [maxDRB] for the DRBs, with their buffers. *)
Record du_shape (st : du_state) : Prop := {
  shape_SRB : length (du_SRB st) = 3%nat;
  shape_DRB : length (du_DRB st) = maxDRB;
  shape_SRB_buf : Forall (fun s => zlen (drep_data s) = 8192) (du_SRB st);
  shape_DRB_buf : Forall (fun s => zlen (drep_data s) = 12288) (du_DRB st);
}.

(** What the reply handler leaves alone: all but the mailboxes, and the first three cells of
    the DRB arrays, which no logical channel uses. *)
Definition du_frame (st st' : du_state) : Prop :=
  set_SRB (set_DRB st' (du_DRB st)) (du_SRB st) = st /\
  forall j, (j < 3)%nat -> du_DRB st' !! j = du_DRB st !! j.

Lemma du_frame_refl st : du_frame st st.
Proof. by destruct st. Qed.

Lemma du_frame_trans st1 st2 st3 : du_frame st1 st2 -> du_frame st2 st3 -> du_frame st1 st3.
Proof.
  intros [E1 H1] [E2 H2]. split; [|intros j Hj; by rewrite H2, H1].
  destruct st1, st2, st3. unfold set_SRB, set_DRB in *. simpl in *. congruence.
Qed.

Lemma slot_fill_ok rn fr (ans : list answer) buf (i : nat) r d sl :
  ans !! i = Some (r, d) -> resp_wf r ->
  take (length (status_rep_wire rn fr ans)) buf = status_rep_wire rn fr ans ->
  pk_wf (srep_of rn fr ans) ->
  zlen d <= 7788 -> zlen d <= zlen (drep_data sl) ->
  exists sl', slot_fill (srep_of rn fr ans) (Z.of_nat i) buf
      (sizeof sp_head + sizeof spmr_srep_drep + zlen (answer_data (take i ans))) sl = Ret sl' /\
    slot_has sl' (r, d) /\ zlen (drep_data sl') = zlen (drep_data sl).
Proof.
  intros Hi Hr Hbuf Hwf Hd Hsl. unfold slot_fill.
  rewrite (resp_of_cells_srep _ _ _ _ _ _ Hi). cbn [mbind cres_bind].
  cbn [srep_tb_size srep_of]. erewrite aget_cells_of; [|exact Hi]. cbn [mbind cres_bind snd].
  pose proof (zlen_nonneg d). rewrite u32_small, i32_small by lia.
  rewrite resp_trip_id by done.
  case_if; bool_to_prop.
  - change (sizeof sp_head) with 6. unfold memcpy.
    destruct (answer_data_take_le ans i r d Hi) as [Hle _].
    pose proof (zlen_nonneg (answer_data (take i ans))).
    rewrite (bget_wire_data (status_rep_head ans) (srep_of rn fr ans) (answer_data ans))
      by (done || lia || by apply head_wf).
    rewrite (bget_answer_data ans i r d Hi). cbn [mbind cres_bind].
    destruct (bput (drep_data sl) 0 d) as [b|] eqn:Eb.
    2: { rewrite bput_ok in Eb by lia. discriminate. }
    cbn [mbind cres_bind]. eexists. split; [reflexivity|].
    split; [|simpl; by eapply bput_zlen].
    split_and!; try done. simpl. intros _. split; [done|]. by eapply bget_bput_same.
  - eexists. split; [reflexivity|]. split; [|done]. split_and!; try done.
    simpl. intros Hne. destruct d; [done|]. unfold zlen in *. simpl in *. lia.
Qed.

Lemma du_slot_Some st (i : nat) :
  du_shape st -> (i < maxDRB)%nat -> exists sl, du_slot st i = Some sl /\
    zlen (drep_data sl) = (if (i <? 3)%nat then 8192 else 12288).
Proof.
  intros [H1 H2 H3 H4] Hi. unfold du_slot. destruct (Nat.ltb_spec i 3).
  - destruct (lookup_lt_is_Some_2 (du_SRB st) i) as [sl Hsl]; [lia|].
    exists sl. split; [done|]. by eapply Forall_lookup_1 in H3.
  - destruct (lookup_lt_is_Some_2 (du_DRB st) i) as [sl Hsl]; [lia|].
    exists sl. split; [done|]. by eapply Forall_lookup_1 in H4.
Qed.

Lemma rep_body_step rn fr (ans : list answer) buf (i : nat) r d st :
  du_shape st -> ans !! i = Some (r, d) -> resp_wf r -> (i < maxDRB)%nat ->
  take (length (status_rep_wire rn fr ans)) buf = status_rep_wire rn fr ans ->
  pk_wf (srep_of rn fr ans) -> zlen (answer_data ans) <= 7788 ->
  exists st' sl',
    rep_body (srep_of rn fr ans) buf (Z.of_nat i) (st, zlen (answer_data (take i ans))) =
      Ret (st', zlen (answer_data (take (S i) ans))) /\
    du_shape st' /\ du_slot st' i = Some sl' /\ slot_has sl' (r, d) /\
    (forall j, j <> i -> du_slot st' j = du_slot st j) /\ du_frame st st'.
Proof.
  intros Hsh Hi Hr Hn Hbuf Hwf Htot.
  destruct (answer_data_take_le ans i r d Hi) as [Hle Hnext].
  pose proof (zlen_nonneg (answer_data (take i ans))). pose proof (zlen_nonneg d).
  destruct (du_slot_Some st i Hsh Hn) as (sl & Hsl & Hlen).
  destruct (slot_fill_ok rn fr ans buf i r d sl) as (sl' & Hf & Hhas & Hlen');
    [done..|lia|destruct (i <? 3)%nat; lia|].
  destruct Hsh as [H1 H2 H3 H4]. unfold rep_body.
  cbn [srep_channel srep_tb_size srep_of].
  assert (Hir : zrange 0 (length ans) !! i = Some (Z.of_nat i)).
  { by rewrite zrange_lookup by (by eapply lookup_lt_Some). }
  rewrite (aget_cells_of id _ i _ Hir). cbn [mbind cres_bind].
  rewrite (aget_cells_of _ ans i _ Hi). cbn [mbind cres_bind snd id].
  rewrite u32_small by lia. rewrite i32_small by lia. unfold du_slot in Hsl.
  fold (srep_of rn fr ans).
  destruct (Nat.ltb_spec i 3) as [Hlt|Hge].
  - rewrite (proj2 (Z.ltb_lt (Z.of_nat i) 3)) by lia.
    rewrite (aget_ok _ _ sl) by (rewrite ?Nat2Z.id; done || lia). cbn [mbind cres_bind].
    rewrite Hf. cbn [mbind cres_bind].
    rewrite aset_ok by (unfold zlen; lia). cbn [mbind cres_bind]. rewrite Nat2Z.id.
    eexists _, sl'. split; [rewrite Hnext; reflexivity|]. split; [|split_and!].
    + constructor; simpl; rewrite ?length_insert; [done|done| |done].
      apply Forall_insert; [done|]. lia.
    + unfold du_slot. rewrite (proj2 (Nat.ltb_lt _ _)) by lia. simpl.
      rewrite list_lookup_insert_eq; [done|lia].
    + done.
    + intros j Hj. unfold du_slot. simpl. destruct (j <? 3)%nat; [|done].
      by rewrite list_lookup_insert_ne.
    + by destruct st.
  - rewrite (proj2 (Z.ltb_ge (Z.of_nat i) 3)) by lia.
    rewrite (aget_ok _ _ sl) by (rewrite ?Nat2Z.id; done || lia). cbn [mbind cres_bind].
    rewrite Hf. cbn [mbind cres_bind].
    rewrite aset_ok by (unfold zlen; lia). cbn [mbind cres_bind]. rewrite Nat2Z.id.
    eexists _, sl'. split; [rewrite Hnext; reflexivity|]. split; [|split_and!].
    + constructor; simpl; rewrite ?length_insert; [done|done|done|].
      apply Forall_insert; [done|]. lia.
    + unfold du_slot. rewrite (proj2 (Nat.ltb_ge _ _)) by lia. simpl.
      rewrite list_lookup_insert_eq; [done|lia].
    + done.
    + intros j Hj. unfold du_slot. simpl. destruct (j <? 3)%nat; [done|].
      by rewrite list_lookup_insert_ne.
    + split; [by destruct st|]. intros j Hj. simpl. rewrite list_lookup_insert_ne; [done|lia].
Qed.

Lemma rep_loop_ok rn fr (ans : list answer) buf n : forall (i : nat) st,
  du_shape st -> Forall (fun a => resp_wf a.1) ans -> (i + n <= maxDRB)%nat ->
  (i + n <= length ans)%nat ->
  take (length (status_rep_wire rn fr ans)) buf = status_rep_wire rn fr ans ->
  pk_wf (srep_of rn fr ans) -> zlen (answer_data ans) <= 7788 ->
  exists st',
    for_each (rep_body (srep_of rn fr ans) buf) (zrange (Z.of_nat i) n)
      (st, zlen (answer_data (take i ans))) =
      Ret (st', zlen (answer_data (take (i + n) ans))) /\
    du_shape st' /\
    (forall j, (j < i)%nat -> du_slot st' j = du_slot st j) /\
    (forall j a, (i <= j < i + n)%nat -> ans !! j = Some a ->
       exists sl, du_slot st' j = Some sl /\ slot_has sl a) /\ du_frame st st'.
Proof.
  induction n as [|n IH]; intros i st Hsh Hwf Hk Hl Hbuf Hpk Htot.
  { exists st. simpl. rewrite Nat.add_0_r. split_and!; try done; [intros; lia|apply du_frame_refl]. }
  destruct (lookup_lt_is_Some_2 ans i) as [[r d] Hi]; [lia|].
  destruct (rep_body_step rn fr ans buf i r d st) as (st1 & sl & Eb & Hsh1 & Hs1 & Hh1 & Ho1 & Hf1);
    [done|done|by eapply (Forall_lookup_1 _ _ _ _ Hwf) in Hi|lia|done|done|done|].
  destruct (IH (S i) st1) as (st2 & Ef & Hsh2 & Hlow & Hhigh & Hf2); [done|done|lia|lia|done|done|done|].
  exists st2. rewrite zrange_S. cbn [for_each]. rewrite Eb. cbn [mbind cres_bind].
  replace (Z.of_nat i + 1) with (Z.of_nat (S i)) by lia. rewrite Ef.
  split_and!; [by rewrite Nat.add_succ_comm|done| | |by eapply du_frame_trans].
  - intros j Hj. rewrite Hlow by lia. apply Ho1. lia.
  - intros j a Hj Ha. destruct (decide (j = i)) as [->|Hne]; [|apply Hhigh; [lia|done]].
    rewrite Hlow by lia. simplify_eq. eauto.
Qed.

(** The handler on the message of the CU is its loop on the cells. *)
Lemma handle_rep_unfold rn fr (ans : list answer) buf n st :
  take (length (status_rep_wire rn fr ans)) buf = status_rep_wire rn fr ans ->
  pk_wf (srep_of rn fr ans) -> 6 <= n ->
  mac_rlc_handle_status_data_rep buf n st =
  ('(st, _) ← for_each (rep_body (srep_of rn fr ans) buf) (zrange 0 NB_RB_MAX) (st, 0);
   Ret (0, st)).
Proof.
  intros Hbuf Hpk Hn. unfold mac_rlc_handle_status_data_rep, sp_mr_identify_srep_drep,
    sp_generic_identify. change (sizeof sp_head) with 6.
  rewrite (proj2 (Z.ltb_ge _ _)) by lia.
  rewrite (sload_wire_body (status_rep_head ans) (srep_of rn fr ans) (answer_data ans))
    by (done || by apply head_wf). done.
Qed.

Lemma wire_fits rn fr (ans : list answer) buf :
  take (length (status_rep_wire rn fr ans)) buf = status_rep_wire rn fr ans ->
  pk_wf (srep_of rn fr ans) -> zlen buf = 8192 -> zlen (answer_data ans) <= 7788.
Proof.
  intros Hbuf Hpk Hlen.
  pose proof (wire_zlen (status_rep_head ans) (srep_of rn fr ans) (answer_data ans)
    ltac:(by apply head_wf) Hpk) as Hw.
  change (sizeof spmr_srep_drep) with 398 in Hw.
  apply (f_equal length) in Hbuf. rewrite length_take in Hbuf.
  unfold status_rep_wire, zlen in *. lia.
Qed.

(** A cell of a reply for which there is no DRB mailbox. *)
Lemma rep_body_drb_oob rn fr (ans : list answer) buf (i : nat) st t :
  du_shape st -> (maxDRB <= i)%nat -> (i < length ans)%nat ->
  rep_body (srep_of rn fr ans) buf (Z.of_nat i) (st, t) = Trap FOob.
Proof.
  intros Hsh Hk Hl. destruct (lookup_lt_is_Some_2 ans i Hl) as [[r d] Hi].
  unfold rep_body. cbn [srep_channel srep_tb_size srep_of].
  assert (Hir : zrange 0 (length ans) !! i = Some (Z.of_nat i)) by by rewrite zrange_lookup.
  rewrite (aget_cells_of id _ i _ Hir). cbn [mbind cres_bind].
  rewrite (aget_cells_of _ ans i _ Hi). cbn [mbind cres_bind snd id]. unfold maxDRB in Hk.
  rewrite (proj2 (Z.ltb_ge (Z.of_nat i) 3)) by lia.
  rewrite aget_oob; [done|]. unfold zlen. rewrite (shape_DRB _ Hsh). unfold maxDRB. lia.
Qed.

(** The handler on a reply of the CU: the turns of its loop on the channels for which there
    is a mailbox, and the turn that leaves the DRB arrays. *)
Lemma handle_rep_run rn fr (ans : list answer) buf n st :
  du_shape st -> length ans = NB_RB_MAX -> Forall (fun a => resp_wf a.1) ans ->
  0 <= rn < 2 ^ 16 -> 0 <= fr < 2 ^ 32 -> zlen buf = 8192 -> 6 <= n ->
  take (length (status_rep_wire rn fr ans)) buf = status_rep_wire rn fr ans ->
  exists st' t,
    for_each (rep_body (srep_of rn fr ans) buf) (zrange 0 maxDRB) (st, 0) = Ret (st', t) /\
    mac_rlc_handle_status_data_rep buf n st =
      ('(st, _) ← for_each (rep_body (srep_of rn fr ans) buf)
                    (zrange (Z.of_nat maxDRB) (NB_RB_MAX - maxDRB)) (st', t); Ret (0, st)) /\
    rep_body (srep_of rn fr ans) buf (Z.of_nat maxDRB) (st', t) = Trap FOob /\
    (forall j a, (j < maxDRB)%nat -> ans !! j = Some a ->
       exists sl, du_slot st' j = Some sl /\ slot_has sl a) /\
    du_shape st' /\ du_frame st st'.
Proof.
  intros Hsh Hl Hwf Hrn Hfr Hlen Hn Hbuf.
  assert (Hpk : pk_wf (srep_of rn fr ans)).
  { apply srep_of_wf; [done|done|rewrite Hl; done]. }
  rewrite (handle_rep_unfold rn fr ans) by done.
  assert (maxDRB < length ans)%nat by (rewrite Hl; unfold NB_RB_MAX, maxDRB; lia).
  destruct (rep_loop_ok rn fr ans buf maxDRB 0 st)
    as (st' & Ef & Hsh' & _ & Hall & Hfr'); try done; [simpl; lia|by eapply wire_fits|].
  change (Z.of_nat 0) with 0 in Ef.
  replace (zlen (answer_data (take 0 ans))) with 0 in Ef by done.
  eexists st', _. split; [exact Ef|]. split_and!; [|by apply rep_body_drb_oob|intros; apply Hall; [lia|done]|done|done].
  change (zrange 0 NB_RB_MAX) with (zrange 0 maxDRB ++ zrange (Z.of_nat maxDRB) (NB_RB_MAX - maxDRB)).
  rewrite for_each_app, Ef. done.
Qed.

Lemma handle_rep_oob rn fr (ans : list answer) buf n st :
  du_shape st -> length ans = NB_RB_MAX -> Forall (fun a => resp_wf a.1) ans ->
  0 <= rn < 2 ^ 16 -> 0 <= fr < 2 ^ 32 -> zlen buf = 8192 -> 6 <= n ->
  take (length (status_rep_wire rn fr ans)) buf = status_rep_wire rn fr ans ->
  mac_rlc_handle_status_data_rep buf n st = Trap FOob.
Proof.
  intros. destruct (handle_rep_run rn fr ans buf n st) as (st' & t & _ & -> & Eb & _); [done..|].
  change (zrange (Z.of_nat maxDRB) (NB_RB_MAX - maxDRB)) with [Z.of_nat maxDRB; 12; 13].
  cbn [for_each]. by rewrite Eb.
Qed.

(** A mailbox that holds [a] gives its data once. *)
Lemma slot_take_has (l : list slot) (i : nat) sl a :
  l !! i = Some sl -> slot_has sl a -> a.2 <> [] ->
  slot_take l (Z.of_nat i) =
    Ret (<[i := Build_slot (srep_ready sl) (srep_data sl) 0 (drep_size sl) (drep_data sl)]> l,
         (zlen a.2, a.2)).
Proof.
  intros Hi (Hr & Hs & Hz & Hd) Hne. destruct (Hd Hne) as [Hd1 Hd2].
  unfold slot_take. rewrite (aget_ok _ _ sl) by (rewrite ?Nat2Z.id; done || lia).
  cbn [mbind cres_bind]. rewrite Hd1. cbn [Z.eqb negb].
  apply lookup_lt_Some in Hi. rewrite aset_ok by (unfold zlen; lia).
  cbn [mbind cres_bind]. rewrite Hz, Hd2, Nat2Z.id. done.
Qed.

Lemma slot_take_again (l : list slot) (i : nat) sl :
  l !! i = Some sl -> drep_ready sl = 0 -> slot_take l (Z.of_nat i) = Ret (l, (0, [])).
Proof.
  intros Hi Hr. unfold slot_take. rewrite (aget_ok _ _ sl) by (rewrite ?Nat2Z.id; done || lia).
  cbn [mbind cres_bind]. by rewrite Hr.
Qed.

(** The data primitive on the mailbox of logical channel [j]. *)
Lemma data_req_take st (j : nat) sl a :
  du_shape st -> du_slot st j = Some sl -> slot_has sl a -> a.2 <> [] ->
  exists st', du_mac_rlc_data_req (Z.of_nat j) st = Ret (st', (zlen a.2, a.2)) /\
    du_mac_rlc_data_req (Z.of_nat j) st' = Ret (st', (0, [])).
Proof.
  intros [H1 H2 H3 H4] Hsl Hhas Hne. unfold du_slot in Hsl. unfold maxDRB in H2. unfold du_mac_rlc_data_req.
  rewrite (proj2 (Z.leb_le 0 (Z.of_nat j))) by lia. cbn [andb].
  destruct (Nat.ltb_spec j 3); pose proof (lookup_lt_Some _ _ _ Hsl) as Hlt; [rewrite (proj2 (Z.leb_le _ 2)) by lia|
    rewrite (proj2 (Z.leb_gt _ 2)), (proj2 (Z.leb_le 3 _)), (proj2 (Z.leb_le _ 13)) by lia];
    cbn [andb]; rewrite (slot_take_has _ j sl a Hsl Hhas Hne); cbn [mbind cres_bind];
    (eexists; split; [reflexivity|]);
    cbn [set_SRB set_DRB du_SRB du_DRB];
    (erewrite slot_take_again; [|by apply list_lookup_insert_eq|done]); done.
Qed.

(** ** Properties *)

(** C3: the DU stores the answers of the CU it has a place for.  When a reply of the CU is at
    the start of the receive buffer, the loop of the handler, with the arrays as declared,
    runs over the logical channels 0 to 10 without leaving any object; then the mailbox of
    each of these channels holds the status and the bytes of this channel, however many of
    them carry data, and everything but the mailboxes is as before.  The handler goes on from
    there with channel 11, and this turn leaves the DRB arrays. *)
Theorem status_data_rep_stored rn fr (ans : list answer) buf n st :
  du_shape st -> length ans = NB_RB_MAX -> Forall (fun a => resp_wf a.1) ans ->
  0 <= rn < 2 ^ 16 -> 0 <= fr < 2 ^ 32 -> zlen buf = 8192 -> 6 <= n ->
  take (length (status_rep_wire rn fr ans)) buf = status_rep_wire rn fr ans ->
  exists st' t,
    for_each (rep_body (srep_of rn fr ans) buf) (zrange 0 maxDRB) (st, 0) = Ret (st', t) /\
    mac_rlc_handle_status_data_rep buf n st =
      ('(st, _) ← for_each (rep_body (srep_of rn fr ans) buf)
                    (zrange (Z.of_nat maxDRB) (NB_RB_MAX - maxDRB)) (st', t); Ret (0, st)) /\
    rep_body (srep_of rn fr ans) buf (Z.of_nat maxDRB) (st', t) = Trap FOob /\
    (forall j a, (j < maxDRB)%nat -> ans !! j = Some a ->
       exists sl, du_slot st' j = Some sl /\ slot_has sl a) /\
    du_shape st' /\ du_frame st st'.
Proof. apply handle_rep_run. Qed.

(** A reply with data on channel 1, in a full receive buffer. *)
Definition demo_answers : list answer :=
  (resp_empty, []) :: ({| bytes_in_buffer := 3; pdus_in_buffer := 1; head_sdu_creation_time := 2;
     head_sdu_remaining_size_to_send := 3; head_sdu_is_segmented := 0 |},
     [Byte.x0a; Byte.x0b; Byte.x0c]) :: replicate 12 (resp_empty, []).

Definition demo_rep_buf : list byte := status_rep_wire 77 9 demo_answers ++ zeros (DU_BUF_SIZE - 407).

Lemma demo_rep_buf_len : zlen demo_rep_buf = 8192.
Proof. unfold demo_rep_buf. rewrite zlen_app, zlen_zeros. reflexivity. Qed.

Lemma du_init_shape fd : du_shape (du_init_state fd).
Proof.
  constructor; cbn [du_init_state du_SRB du_DRB]; rewrite ?length_replicate; try done.
  - apply Forall_replicate. apply (zlen_zeros DU_BUF_SIZE).
  - apply Forall_replicate. apply (zlen_zeros MAX_DLSCH_PAYLOAD_BYTES).
Qed.

Lemma demo_answers_wf : Forall (fun a => resp_wf a.1) demo_answers.
Proof. repeat constructor; unfold resp_wf; simpl; lia. Qed.

Lemma status_data_rep_stored_witness :
  exists st' t, for_each (rep_body (srep_of 77 9 demo_answers) demo_rep_buf) (zrange 0 maxDRB)
      (du_init_state 5, 0) = Ret (st', t) /\
    exists sl, du_slot st' 1 = Some sl /\
      bget (drep_data sl) 0 3 = Ret [Byte.x0a; Byte.x0b; Byte.x0c].
Proof.
  destruct (status_data_rep_stored 77 9 demo_answers demo_rep_buf 407 (du_init_state 5))
    as (st' & t & E & _ & _ & Hall & _).
  - apply du_init_shape.
  - reflexivity.
  - apply demo_answers_wf.
  - lia.
  - lia.
  - apply demo_rep_buf_len.
  - lia.
  - apply take_app_length.
  - exists st', t. split; [exact E|].
    destruct (Hall 1%nat _ ltac:(unfold maxDRB; lia) eq_refl) as (sl & Hs & Hh).
    exists sl. split; [exact Hs|]. apply Hh. discriminate.
Defined.



(** The length of the RRC reply is not checked.  When the header of a message of type
    [RRC_DATA_REQ_REP] announces fewer bytes than the fixed part of the reply, the handler
    copies a negative number of bytes, whatever the length of the datagram, for every reply
    about the BCCH of a frame with SIB1 and every reply about the CCCH. *)
Theorem rrc_rep_short_length_traps buf n st h drep :
  sload sp_head buf 0 = Ret h -> sload spmr_rrc_drep buf 6 = Ret drep -> 6 <= n ->
  SplitProto.len h < sizeof spmr_rrc_drep ->
  Z.land (dp_srb_id drep) RAB_OFFSET = CCCH \/
  (Z.land (dp_srb_id drep) RAB_OFFSET = BCCH /\ dp_frame drep mod 2 = 0) ->
  mac_rrc_handle_data_rep 0 buf n st = Trap FOob.
Proof.
  intros Hh Hd Hn Hlen Hsrb. unfold mac_rrc_handle_data_rep, sp_mr_identify_rrc_drep,
    sp_generic_identify. change (sizeof sp_head) with 6. change (sizeof spmr_rrc_drep) with 10 in *.
  rewrite (proj2 (Z.ltb_ge _ _)) by lia. rewrite Hd. cbn [mbind cres_bind]. rewrite Hh.
  cbn [mbind cres_bind]. apply sload_wf in Hh as (_ & _ & Hl).
  unfold in_u in Hl. simpl in Hl. rewrite i32_small by lia.
  assert (Hm : forall dst, memcpy dst 0 buf 16 (SplitProto.len h - 10) = Trap FOob).
  { intros dst. unfold memcpy, bget. rewrite (proj2 (Z.leb_gt 0 (SplitProto.len h - 10))) by lia. done. }
  change (6 + 10) with 16. unfold BCCH, CCCH in *.
  destruct Hsrb as [->|[-> ->]]; cbn [Z.eqb Pos.eqb mbind cres_bind]; by rewrite Hm.
Qed.

(** A reply about the CCCH whose header announces no bytes at all. *)
Definition demo_short_rrc : list byte :=
  wire {| type := S_PROTO_MR_RRC_DATA_REQ_REP; vers := 1; SplitProto.len := 0 |}
    {| dp_CC_id := 0; dp_frame := 4; dp_srb_id := 0 |} [].

Lemma rrc_rep_short_length_traps_witness :
  mac_rrc_handle_data_rep 0 demo_short_rrc 16 (du_init_state 5) = Trap FOob.
Proof.
  apply (rrc_rep_short_length_traps _ _ _
    {| type := S_PROTO_MR_RRC_DATA_REQ_REP; vers := 1; SplitProto.len := 0 |}
    {| dp_CC_id := 0; dp_frame := 4; dp_srb_id := 0 |}).
  - reflexivity.
  - reflexivity.
  - lia.
  - reflexivity.
  - left. reflexivity.
Defined.
