(* ===== verification/SplitSystem.v ===== *)
(** The two halves of the split put together: the exchange of one transport opportunity,
    from the status primitive of the MAC in the DU, through the two receive loops, to the
    data primitive of the MAC.  The network delivers each datagram once and unchanged.  The
    arrays of the DU are those the code declares: the exchange is followed up to the turn of
    the reply handler that leaves them. *)
From stdpp Require Import base list gmap numbers sets.
From coqutil Require Import Byte.
From Stdlib Require Import ZArith Lia.
From S2P Require Import Prelude SplitProto Netw SplitIface SplitStats SplitCU SplitDU.
Open Scope Z_scope.

(** The request the DU sends for logical channel [c]. *)
Definition request_of (rnti frame c tb : Z) : spmr_sreq_dreq := {|
  sreq_rnti := rnti; sreq_frame := frame; sreq_channel := c; sreq_tb_size := tb |}.

Definition request_head : sp_head := {|
  type := S_PROTO_MR_STATUS_DATA_REQ; vers := 1; SplitProto.len := 14 |}.

Definition request_wire (rnti frame c tb : Z) : list byte :=
  wire request_head (request_of rnti frame c tb) [].

Lemma request_wf rnti frame c tb :
  0 <= rnti < 2 ^ 16 -> 0 <= frame < 2 ^ 32 -> 0 <= c < 2 ^ 32 -> 0 <= tb < 2 ^ 32 ->
  pk_wf (request_of rnti frame c tb).
Proof. intros. split_and!; done. Qed.

(** A datagram that fits the receive buffer is at its start after the reception. *)
Lemma nw_recv_fits d buf :
  zlen buf = 8192 -> zlen d <= 8192 ->
  exists buf', nw_recv (RecvData d) buf 8192 = Ret (zlen d, buf') /\ zlen buf' = 8192 /\
    take (length d) buf' = d.
Proof.
  intros Hb Hd. unfold nw_recv. rewrite take_ge by (unfold zlen in *; lia).
  destruct (bput buf 0 d) as [b|] eqn:E.
  2: { rewrite bput_ok in E by lia. discriminate. }
  exists b. split; [done|]. split; [by rewrite (bput_zlen _ _ _ _ E)|].
  apply (bput_append _ _ _ _ [] E eq_refl eq_refl).
Qed.

(** Reading a status in a mailbox keeps the shape of the arrays. *)
Lemma slot_status_ok (l : list slot) (i : nat) sl n :
  l !! i = Some sl -> Forall (fun s => zlen (drep_data s) = n) l ->
  exists l', slot_status l (Z.of_nat i) =
    Ret (l', if srep_ready sl =? 0 then resp_empty else srep_data sl) /\
    length l' = length l /\ Forall (fun s => zlen (drep_data s) = n) l'.
Proof.
  intros Hi Hf. unfold slot_status. rewrite (aget_ok _ _ sl) by (rewrite ?Nat2Z.id; done || lia).
  cbn [mbind cres_bind]. destruct (srep_ready sl =? 0); [by exists l|].
  cbn [negb]. pose proof (lookup_lt_Some _ _ _ Hi). rewrite aset_ok by (unfold zlen; lia).
  cbn [mbind cres_bind]. rewrite Nat2Z.id. eexists. split; [reflexivity|].
  split; [by rewrite length_insert|]. apply Forall_insert; [done|].
  exact (Forall_lookup_1 _ _ _ _ Hf Hi).
Qed.

(** The status primitive of the DU for SRB0 and SRB1: it sends the request, then answers from
    the mailbox. *)
Lemma du_status_request od now rnti frame c tb st :
  du_shape st -> 0 < du_sockfd st -> 0 <= c <= 1 ->
  0 <= rnti < 2 ^ 16 -> 0 <= frame < 2 ^ 32 -> 0 <= tb < 2 ^ 31 ->
  exists st' r,
    du_mac_rlc_status_ind od now rnti frame c tb st = Ret (st', r) /\ du_shape st' /\
    du_sent st' = du_sent st ++
      [{| dg_id := du_sockfd st; dg_data := request_wire rnti frame c tb;
          dg_flags := Z.lor MSG_DONTWAIT MSG_NOSIGNAL |}].
Proof.
  intros [H1 H2 H3 H4] Hfd Hc Hr Hf Ht.
  pose proof (request_wf rnti frame c tb Hr Hf ltac:(lia) ltac:(lia)) as Hwf.
  assert (Hhw : pk_wf request_head) by by apply (head_wf S_PROTO_MR_STATUS_DATA_REQ 14).
  pose proof (zlen_zeros DU_BUF_SIZE) as Hz. change (Z.of_nat DU_BUF_SIZE) with 8192 in Hz.
  destruct (pack_message request_head (request_of rnti frame c tb) [] (zeros DU_BUF_SIZE) 8192)
    as (b1 & b2 & b3 & P1 & P2 & P3 & P4 & P5);
    [done|done|lia|lia|change (sizeof spmr_sreq_dreq) with 14; change (zlen []) with 0; lia|].
  change (sizeof spmr_sreq_dreq) with 14 in *.
  assert (b3 = b2) as ->.
  { apply bput_inv in P3 as (_ & _ & ->). rewrite app_nil_l, Nat.add_0_r. apply take_drop. }
  unfold du_mac_rlc_status_ind. change (Z.of_nat DU_BUF_SIZE) with 8192.
  rewrite (u32_small tb) by lia. fold request_head. fold (request_of rnti frame c tb).
  change (u32 (sizeof spmr_sreq_dreq)) with 14. fold request_head. rewrite P1.
  cbn [mbind cres_bind]. unfold sp_mr_pack_sreq_dreq. change (sizeof spmr_sreq_dreq) with 14.
  rewrite P2. cbn [mbind cres_bind]. rewrite (proj2 (Z.leb_le 0 c)), (proj2 (Z.leb_le c 1)) by lia. cbn [andb].
  unfold du_send. rewrite (proj2 (Z.leb_gt _ _)) by lia. change (u32 (6 + 14)) with 20.
  rewrite nw_send_small by (unfold NETW_UDP_MAX_BUF_SIZE; lia).
  cbn [mbind cres_bind].
  pose proof (wire_zlen request_head (request_of rnti frame c tb) [] Hhw Hwf) as Hw.
  change (sizeof spmr_sreq_dreq) with 14 in Hw. change (zlen []) with 0 in Hw.
  assert (Hreq : take (Z.to_nat 20) b2 = request_wire rnti frame c tb).
  { unfold request_wire. etransitivity; [|exact P5]. done. }
  rewrite Hreq.
  change (recv_flags (Z.lor NETW_FLAG_NO_SIGNALS NETW_FLAG_NO_WAIT))
    with (Z.lor MSG_DONTWAIT MSG_NOSIGNAL).
  destruct (lookup_lt_is_Some_2 (du_SRB st) (Z.to_nat c)) as [sl Hsl]; [lia|].
  destruct (slot_status_ok (du_SRB st) (Z.to_nat c) sl _ Hsl H3) as (l' & El & Hl & Hf').
  rewrite Z2Nat.id in El by lia.
  case_if; cbn [set_du_stats add_du_sent du_SRB]; rewrite El; cbn [mbind cres_bind]; (eexists _, _; split; [reflexivity|]);
    (split; [constructor; cbn; congruence || done|done]).
Qed.

(** The status primitive for the channels that do not send. *)
Lemma du_status_mailbox od now rnti frame (j : nat) tb st sl a :
  du_shape st -> (2 <= j < 14)%nat -> du_slot st j = Some sl -> slot_has sl a ->
  0 <= rnti < 2 ^ 16 -> 0 <= frame < 2 ^ 32 ->
  exists st', du_mac_rlc_status_ind od now rnti frame (Z.of_nat j) tb st = Ret (st', a.1).
Proof.
  intros [H1 H2 H3 H4] Hj Hsl (Hr & Hs & _) Hrn Hfr. unfold du_slot in Hsl.
  destruct (pack_message (T := spmr_sreq_dreq) request_head
    (request_of rnti frame (Z.of_nat j) (u32 tb)) [] (zeros DU_BUF_SIZE) 8192)
    as (b1 & b2 & b3 & P1 & P2 & _);
    [by apply (head_wf S_PROTO_MR_STATUS_DATA_REQ 14)
    |apply request_wf; [done|done|lia|apply u32_range]|by rewrite zlen_zeros|lia|done|].
  change (sizeof spmr_sreq_dreq) with 14 in *.
  unfold du_mac_rlc_status_ind. change (Z.of_nat DU_BUF_SIZE) with 8192.
  fold (request_of rnti frame (Z.of_nat j) (u32 tb)).
  change (u32 (sizeof spmr_sreq_dreq)) with 14. fold request_head. rewrite P1.
  cbn [mbind cres_bind]. unfold sp_mr_pack_sreq_dreq. change (sizeof spmr_sreq_dreq) with 14.
  rewrite P2. cbn [mbind cres_bind].
  rewrite (proj2 (Z.leb_gt (Z.of_nat j) 1)), andb_false_r by lia.
  destruct (Nat.ltb_spec j 3).
  - assert (j = 2%nat) as -> by lia. change (Z.of_nat 2) with 2. change (2 =? 2) with true. cbn match.
    destruct (slot_status_ok (du_SRB st) 2 sl _ Hsl H3) as (l' & El & _).
    change (Z.of_nat 2) with 2 in El. rewrite El, Hr. cbn. rewrite Hs. eauto.
  - rewrite (proj2 (Z.eqb_neq (Z.of_nat j) 2)) by lia.
    rewrite (proj2 (Z.leb_le 3 (Z.of_nat j))), (proj2 (Z.leb_le (Z.of_nat j) 13)) by lia.
    cbn [andb]. destruct (slot_status_ok (du_DRB st) j sl _ Hsl H4) as (l' & El & _).
    rewrite El, Hr. cbn. rewrite Hs. eauto.
Qed.

Section Exchange.
Context {S : Type} `{RlcServiceOk S}.

(** One turn of the CU on the datagram of a request. *)
Lemma cu_turn_request (o : os) rnti frame c tb cbuf (st : cu_state S) :
  0 <= rnti < 2 ^ 16 -> 0 <= frame < 2 ^ 32 -> 0 <= c <= 1 -> 0 <= tb <= CU_MAX_TB ->
  zlen cbuf = 8192 -> zlen (cu_outbuf st) = Z.of_nat MAX_DLSCH_PAYLOAD_BYTES ->
  0 < cu_sockfd st -> cu_ready st (request_of rnti frame c tb) ->
  exists s' ans cbuf' out,
    request_answers st (request_of rnti frame c tb) = Ret (s', ans) /\ rlc_inv s' /\
    length ans = NB_RB_MAX /\ Forall (fun a => resp_wf a.1) ans /\
    zlen (answer_data ans) <= tb /\ zlen cbuf' = 8192 /\ zlen out = zlen (cu_outbuf st) /\
    cu_turn o (RecvData (request_wire rnti frame c tb)) (cbuf, st) =
      Ret (cbuf', add_cu_sent (set_cu_outbuf (set_cu_rlc st s') out)
        [{| dg_id := cu_sockfd st; dg_data := status_rep_wire rnti frame ans;
            dg_flags := MSG_NOSIGNAL |}]).
Proof.
  intros Hr Hf Hc Ht Hb Ho Hfd Hrdy. unfold CU_MAX_TB in Ht.
  pose proof (request_wf rnti frame c tb Hr Hf ltac:(lia) ltac:(lia)) as Hwf.
  assert (Hhw : pk_wf request_head) by by apply (head_wf S_PROTO_MR_STATUS_DATA_REQ 14).
  pose proof (wire_zlen request_head (request_of rnti frame c tb) [] Hhw Hwf) as Hw.
  change (sizeof spmr_sreq_dreq) with 14 in Hw. change (zlen []) with 0 in Hw.
  fold (request_wire rnti frame c tb) in Hw.
  destruct (nw_recv_fits (request_wire rnti frame c tb) cbuf) as (b & Er & Hbl & Hbt); [done|lia|].
  destruct (status_data_reply_run o b 20 st (request_of rnti frame c tb))
    as (s' & ans & buf' & out & Ea & Hinv & Hl & Hwfa & Hda & Hb1 & Hb2 & Eh);
    [|lia|done|unfold CU_MAX_TB; cbn; lia|done|done|].
  { by apply (sload_wire_body request_head _ []). }
  exists s', ans, buf', out. split; [exact Ea|]. split; [done|]. split; [done|]. split; [done|].
  split; [exact Hda|]. split; [by rewrite Hb1, Hbl|]. split; [done|].
  unfold cu_turn. change (Z.of_nat CU_BUF_SIZE) with 8192. rewrite Er. cbn [mbind cres_bind].
  rewrite Hw. change (0 <? 6 + 14 + 0) with true. change (6 + 14 + 0) with 20.
  cbn match. unfold mac_rlc_cu_recv, sp_identify_head, sp_generic_identify.
  change (20 <? 0) with false. cbn match.
  rewrite (sload_wire_head request_head (request_of rnti frame c tb) [] b Hhw Hbt).
  cbn [mbind cres_bind type request_head]. change (_ =? S_PROTO_MR_STATUS_DATA_REQ) with true.
  cbn match. rewrite Eh. done.
Qed.

(** The length of a reply. *)
Lemma status_rep_zlen rnti frame (ans : list answer) :
  0 <= rnti < 2 ^ 16 -> 0 <= frame < 2 ^ 32 -> length ans = NB_RB_MAX ->
  zlen (status_rep_wire rnti frame ans) = 6 + 398 + zlen (answer_data ans).
Proof.
  intros Hr Hf Hl. unfold status_rep_wire. rewrite wire_zlen; [done|by apply head_wf|].
  apply srep_of_wf; [done|done|by rewrite Hl].
Qed.

(** One turn of the DU on the datagram of a reply: the state the loop of the handler reaches
    before the channel for which there is no mailbox. *)
Lemma du_turn_reply now rnti frame (ans : list answer) dbuf st :
  du_shape st -> length ans = NB_RB_MAX -> Forall (fun a => resp_wf a.1) ans ->
  0 <= rnti < 2 ^ 16 -> 0 <= frame < 2 ^ 32 -> zlen dbuf = 8192 ->
  zlen (answer_data ans) <= 7788 ->
  let w := status_rep_wire rnti frame ans in
  exists dbuf' st' t,
    nw_recv (RecvData w) dbuf (Z.of_nat DU_BUF_SIZE) = Ret (zlen w, dbuf') /\
    for_each (rep_body (srep_of rnti frame ans) dbuf') (zrange 0 maxDRB)
      (run_du_stats st (mr_stat_status_epilogue now (u32 (zlen w)) (du_stats st)), 0) =
      Ret (st', t) /\
    du_shape st' /\
    (forall j a, (j < maxDRB)%nat -> ans !! j = Some a ->
       exists sl, du_slot st' j = Some sl /\ slot_has sl a) /\
    du_turn (now, RecvData w) (dbuf, st) = Trap FOob.
Proof.
  intros Hsh Hl Hwf Hr Hf Hb Hd.
  assert (Hhw : pk_wf (status_rep_head ans)) by by apply head_wf.
  pose proof (status_rep_zlen rnti frame ans Hr Hf Hl) as Hw.
  pose proof (zlen_nonneg (answer_data ans)).
  destruct (nw_recv_fits (status_rep_wire rnti frame ans) dbuf) as (b & Er & Hbl & Hbt); [done|lia|].
  set (n := zlen (status_rep_wire rnti frame ans)) in *.
  set (st1 := run_du_stats st (mr_stat_status_epilogue now (u32 n) (du_stats st))).
  assert (Hsh1 : du_shape st1) by by destruct Hsh.
  destruct (handle_rep_run rnti frame ans b n st1) as (st' & t & Ef & _ & _ & Hall & Hsh' & _);
    [done..|lia|done|].
  exists b, st', t. split; [exact Er|]. split; [exact Ef|]. split_and!; [done|done|].
  unfold du_turn. cbn [fst snd]. change (Z.of_nat DU_BUF_SIZE) with 8192. rewrite Er.
  cbn [mbind cres_bind]. rewrite (proj2 (Z.ltb_lt 0 n)) by lia.
  unfold mac_rlc_du_recv, sp_identify_head, sp_generic_identify.
  rewrite (proj2 (Z.ltb_ge n 0)) by lia.
  rewrite (sload_wire_head (status_rep_head ans) (srep_of rnti frame ans) (answer_data ans) b Hhw Hbt).
  cbn [mbind cres_bind type status_rep_head]. change (_ =? S_PROTO_MR_STATUS_DATA_REP) with true.
  cbn match. fold st1. rewrite (handle_rep_oob rnti frame ans) by (done || lia). done.
Qed.

(** C1: the exchange of one transport opportunity, with the arrays of the DU as declared.  The
    MAC of the DU asks the status of SRB0 or of SRB1 with room for at most 7788 bytes, what a
    receive buffer of the DU holds behind the fixed part of a reply.  The primitive sends one
    request; the turn of the CU on it polls the RLC layer and sends one reply, and neither of
    them leaves an object; the DU receives the reply whole.  The turns of the reply handler
    on the channels 0 to 10 then store the answers, and in the state they reach the MAC
    reads, on every one of these channels that had something to send, exactly the bytes the
    RLC layer of the CU produced for it, once, and on the channels 2 to 10, whose status
    primitive sends no request, the status the RLC layer of the CU reported.  The next turn
    of the handler is out of bounds, so the turn of the receive loop as a whole does not
    return. *)
Theorem split_exchange od oc now1 now2 rnti frame c tb dbuf cbuf dst (cst : cu_state S) :
  du_shape dst -> 0 < du_sockfd dst -> zlen dbuf = 8192 ->
  zlen (cu_outbuf cst) = Z.of_nat MAX_DLSCH_PAYLOAD_BYTES -> 0 < cu_sockfd cst ->
  zlen cbuf = 8192 -> cu_ready cst (request_of rnti frame c tb) ->
  0 <= rnti < 2 ^ 16 -> 0 <= frame < 2 ^ 32 -> 0 <= c <= 1 -> 0 <= tb <= 7788 ->
  exists dst1 r0 req cbuf' cst1 rep ans dbuf' dst2 t,
    du_mac_rlc_status_ind od now1 rnti frame c tb dst = Ret (dst1, r0) /\
    du_sent dst1 = du_sent dst ++ [req] /\
    cu_turn oc (RecvData (dg_data req)) (cbuf, cst) = Ret (cbuf', cst1) /\
    cu_sent cst1 = cu_sent cst ++ [rep] /\
    request_answers cst (request_of rnti frame c tb) = Ret (cu_rlc cst1, ans) /\
    length ans = NB_RB_MAX /\
    nw_recv (RecvData (dg_data rep)) dbuf (Z.of_nat DU_BUF_SIZE) = Ret (zlen (dg_data rep), dbuf') /\
    for_each (rep_body (srep_of rnti frame ans) dbuf') (zrange 0 maxDRB)
      (run_du_stats dst1 (mr_stat_status_epilogue now2 (u32 (zlen (dg_data rep))) (du_stats dst1)), 0) =
      Ret (dst2, t) /\
    (forall j r d, (j < maxDRB)%nat -> ans !! j = Some (r, d) ->
      (d <> [] -> exists dst3,
         du_mac_rlc_data_req (Z.of_nat j) dst2 = Ret (dst3, (zlen d, d)) /\
         du_mac_rlc_data_req (Z.of_nat j) dst3 = Ret (dst3, (0, []))) /\
      ((2 <= j)%nat -> exists dst3,
         du_mac_rlc_status_ind od now2 rnti frame (Z.of_nat j) tb dst2 = Ret (dst3, r))) /\
    du_turn (now2, RecvData (dg_data rep)) (dbuf, dst1) = Trap FOob.
Proof.
  intros Hsh Hfd Hdb Ho Hcf Hcb Hrdy Hr Hf Hc Ht.
  destruct (du_status_request od now1 rnti frame c tb dst) as (dst1 & r0 & E1 & Hsh1 & Es1);
    [done..|lia|].
  destruct (cu_turn_request oc rnti frame c tb cbuf cst)
    as (s' & ans & cbuf' & out & Ea & _ & Hl & Hwf & Hd & _ & _ & E2);
    [done|done|done|unfold CU_MAX_TB; lia|done..|].
  destruct (du_turn_reply now2 rnti frame ans dbuf dst1)
    as (dbuf' & dst2 & t & E3 & E4 & Hsh2 & Hall & E5); [done..|lia|].
  eexists dst1, r0, _, cbuf', _, _, ans, dbuf', dst2, t.
  split; [exact E1|]. split; [exact Es1|]. split; [exact E2|]. split; [reflexivity|].
  split; [exact Ea|]. split; [done|]. split; [exact E3|]. split; [exact E4|]. split; [|exact E5].
  intros j r d Hj11 Hj. destruct (Hall j (r, d) Hj11 Hj) as (sl & Hsl & Hhas). split.
  - intros Hne. by apply (data_req_take dst2 j sl (r, d)).
  - intros H2. unfold maxDRB in Hj11.
    apply (du_status_mailbox od now2 rnti frame j tb dst2 sl (r, d)); done || lia.
Qed.
End Exchange.

Lemma split_exchange_witness :
  exists dst2 dst3,
    du_mac_rlc_data_req 1 dst2 =
      Ret (dst3, (5, [Byte.x68; Byte.x65; Byte.x6c; Byte.x6c; Byte.x6f])).
Proof.
  destruct (split_exchange demo_os demo_os ts0 ts0 77 9 1 100 (zeros DU_BUF_SIZE) (zeros CU_BUF_SIZE)
    (du_init_state 5) (cu_init_state 5 QueueRlc.demo))
    as (dst1 & r0 & req & cbuf' & cst1 & rep & ans & dbuf' & dst2 & t & _ & _ & _ & _ & Ea & _ & _ & _ & Hall & _).
  - apply du_init_shape.
  - reflexivity.
  - apply zlen_zeros.
  - apply zlen_zeros.
  - reflexivity.
  - apply zlen_zeros.
  - done.
  - lia.
  - lia.
  - lia.
  - lia.
  - assert (Ed : exists r, ans !! 1%nat =
      Some (r, [Byte.x68; Byte.x65; Byte.x6c; Byte.x6c; Byte.x6f])).
    { vm_compute in Ea. injection Ea as _ <-. eexists. reflexivity. }
    destruct Ed as [r Ed]. destruct (Hall 1%nat _ _ ltac:(unfold maxDRB; lia) Ed) as [Hd _].
    destruct Hd as (dst3 & E & _); [discriminate|]. exists dst2, dst3. exact E.
Defined.
