(* ===== verification/Pdcp.v ===== *)
(** PDCP sequence numbering ([openair2/LAYER2/PDCP_v10.1.0/pdcp_sequence_manager.c]), the
    headers of its PDUs ([pdcp_primitives.c], [util_mark_nth_bit_of_octet] of [pdcp_util.c])
    and the COUNT values given to the ciphering ([pdcp_get_next_count_tx] and
    [pdcp_get_next_count_rx] of [pdcp_security.c]).

    The COUNT of a PDU is the hyper frame number and the sequence number side by side; the
    theorems compare the state of the transmitter and of the receiver with a plain counter. *)
From stdpp Require Import base list numbers sets.
From Stdlib Require Import ZArith Lia.
From S2P Require Import Prelude RlcPrims.
Open Scope Z_scope.

(** [rlc_mode_t] *)
Inductive rlc_mode_t := MODE_NONE | MODE_AM | MODE_UM | MODE_TM.

(** The members of [pdcp_t] that the sequence numbering uses. *)
Record pdcp_t := {
  rlc_mode : rlc_mode_t;
  seq_num_size : Z;                       (* uint8_t *)
  next_pdcp_tx_sn : Z;                    (* pdcp_sn_t, uint16_t *)
  next_pdcp_rx_sn : Z;
  next_pdcp_rx_sn_before_integrity : Z;
  tx_hfn : Z;                             (* pdcp_hfn_t, uint32_t *)
  rx_hfn : Z;
  rx_hfn_offset : Z;                      (* int16_t *)
  last_submitted_pdcp_rx_sn : Z;
  missing_pdu_bitmap : list Z;            (* uint8_t[512] *)
}.

Definition set_tx (e : pdcp_t) (sn hfn : Z) : pdcp_t :=
  Build_pdcp_t (rlc_mode e) (seq_num_size e) sn (next_pdcp_rx_sn e)
    (next_pdcp_rx_sn_before_integrity e) hfn (rx_hfn e) (rx_hfn_offset e)
    (last_submitted_pdcp_rx_sn e) (missing_pdu_bitmap e).

Definition set_rx (e : pdcp_t) (sn before hfn off : Z) : pdcp_t :=
  Build_pdcp_t (rlc_mode e) (seq_num_size e) (next_pdcp_tx_sn e) sn before (tx_hfn e) hfn off
    (last_submitted_pdcp_rx_sn e) (missing_pdu_bitmap e).

Definition set_bitmap (e : pdcp_t) (b : list Z) : pdcp_t :=
  Build_pdcp_t (rlc_mode e) (seq_num_size e) (next_pdcp_tx_sn e) (next_pdcp_rx_sn e)
    (next_pdcp_rx_sn_before_integrity e) (tx_hfn e) (rx_hfn e) (rx_hfn_offset e)
    (last_submitted_pdcp_rx_sn e) b.

(** ** [pdcp_sequence_manager.c] *)

Definition pdcp_init_seq_numbers (e : option pdcp_t) : bool * option pdcp_t :=
  match e with
  | None => (false, None)
  | Some e =>
      (true, Some (Build_pdcp_t (rlc_mode e) (seq_num_size e) 0 0
         (next_pdcp_rx_sn_before_integrity e) 0 0 (rx_hfn_offset e) 4095 (missing_pdu_bitmap e)))
  end.

Definition pdcp_is_seq_num_size_valid (e : option pdcp_t) : bool :=
  match e with
  | None => false
  | Some e => negb (negb (seq_num_size e =? 5) && negb (seq_num_size e =? 7) &&
                    negb (seq_num_size e =? 12))
  end.

Definition pdcp_calculate_max_seq_num_for_given_size (size : Z) : Z :=
  u16 (u16 (Z.shiftl 1 size) - 1).

Definition pdcp_is_seq_num_valid (seq_num size : Z) : bool :=
  (0 <=? seq_num) && (seq_num <=? pdcp_calculate_max_seq_num_for_given_size size).

(** The result is an [uint16_t]: -1 is 65535. *)
Definition pdcp_get_next_tx_seq_number (e : option pdcp_t) : Z * option pdcp_t :=
  match e with
  | Some p =>
      if negb (pdcp_is_seq_num_size_valid e) then (u16 (-1), e)
      else
        (next_pdcp_tx_sn p,
         Some (if next_pdcp_tx_sn p =? pdcp_calculate_max_seq_num_for_given_size (seq_num_size p)
               then set_tx p 0 (u32 (tx_hfn p + 1))
               else set_tx p (u16 (next_pdcp_tx_sn p + 1)) (tx_hfn p)))
  | None => (u16 (-1), None)
  end.

Definition pdcp_advance_rx_window (e : pdcp_t) : bool * pdcp_t :=
  if negb (pdcp_is_seq_num_size_valid (Some e)) then (false, e)
  else
    (true,
     if next_pdcp_rx_sn e =? pdcp_calculate_max_seq_num_for_given_size (seq_num_size e)
     then set_rx e 0 (next_pdcp_rx_sn_before_integrity e) (u32 (rx_hfn e + 1)) (rx_hfn_offset e)
     else set_rx e (u16 (next_pdcp_rx_sn e + 1)) (next_pdcp_rx_sn_before_integrity e) (rx_hfn e)
            (rx_hfn_offset e)).

(** [util_mark_nth_bit_of_octet] *)
Definition util_mark_nth_bit_of_octet (octet index : Z) : Z :=
  u8 (Z.lor octet (u8 (Z.shiftr 128 index))).

Definition pdcp_mark_current_pdu_as_received (seq_num : Z) (e : pdcp_t) : cres (bool * pdcp_t) :=
  let octet_index := u16 (seq_num / 8) in
  o ← aget (missing_pdu_bitmap e) octet_index;
  b ← aset (missing_pdu_bitmap e) octet_index (util_mark_nth_bit_of_octet o (seq_num mod 8));
  Ret (true, set_bitmap e b).

(** The branch of a data bearer in acknowledged mode.  The differences are on [int]. *)
Definition rx_drb_am (seq_num reordering_window : Z) (e : pdcp_t) : bool * pdcp_t :=
  let nxt := next_pdcp_rx_sn e in
  let last := last_submitted_pdcp_rx_sn e in
  let bi := next_pdcp_rx_sn_before_integrity e in
  if (reordering_window <? seq_num - last) ||
     ((0 <=? last - seq_num) && (last - seq_num <? reordering_window)) then
    (false, set_rx e nxt bi (rx_hfn e) (if nxt <? seq_num then -1 else 0))
  else if reordering_window <? nxt - seq_num then
    (true, set_rx e (u16 (nxt + 1)) bi (u32 (rx_hfn e + 1)) 0)
  else if reordering_window <=? seq_num - nxt then
    (true, set_rx e nxt bi (rx_hfn e) (-1))
  else if nxt <=? seq_num then
    (true, (pdcp_advance_rx_window (set_rx e seq_num bi (rx_hfn e) 0)).2)
  else (true, set_rx e nxt bi (rx_hfn e) 0).

Definition pdcp_is_rx_seq_number_valid (seq_num : Z) (eo : option pdcp_t) (srb_flagP : bool)
  : cres (bool * option pdcp_t) :=
  match eo with
  | None => Ret (false, None)
  | Some e =>
      if negb (pdcp_is_seq_num_size_valid eo) ||
         negb (pdcp_is_seq_num_valid seq_num (seq_num_size e)) then Ret (false, eo)
      else
        '(_, e) ← pdcp_mark_current_pdu_as_received seq_num e;
        if srb_flagP then
          let hfn := if seq_num <? next_pdcp_rx_sn e then u32 (rx_hfn e + 1) else rx_hfn e in
          let e := set_rx e seq_num (next_pdcp_rx_sn e) hfn 0 in
          Ret (true, Some (pdcp_advance_rx_window e).2)
        else
          let reordering_window := if seq_num_size e =? 7 then 64 else 2048 in
          match rlc_mode e with
          | MODE_AM => let '(r, e) := rx_drb_am seq_num reordering_window e in Ret (r, Some e)
          | MODE_UM =>
              let hfn := if seq_num <? next_pdcp_rx_sn e then u32 (rx_hfn e + 1) else rx_hfn e in
              let e := set_rx e seq_num (next_pdcp_rx_sn_before_integrity e) hfn (rx_hfn_offset e) in
              Ret (true, Some (pdcp_advance_rx_window e).2)
          | _ => Ret (false, Some e)
          end
  end.

(** ** [pdcp_security.c]: COUNT *)

(** The first value of the enumeration of the ASN.1 definitions. *)
Definition PDCP_Config__rlc_UM__pdcp_SN_Size_len7bits : Z := 0.

Definition pdcp_get_next_count_tx (e : pdcp_t) (srb_flagP : bool) (pdcp_sn : Z) : Z :=
  if srb_flagP then Z.lor (u32 (Z.shiftl (tx_hfn e) 5)) (Z.land pdcp_sn 31)
  else if seq_num_size e =? PDCP_Config__rlc_UM__pdcp_SN_Size_len7bits then
    Z.lor (u32 (Z.shiftl (tx_hfn e) 7)) (Z.land pdcp_sn 127)
  else Z.lor (u32 (Z.shiftl (tx_hfn e) 12)) (Z.land pdcp_sn 4095).

(** The offset is cleared. *)
Definition pdcp_get_next_count_rx (e : pdcp_t) (srb_flagP : bool) (pdcp_sn : Z) : Z * pdcp_t :=
  let hfn := u32 (rx_hfn e + rx_hfn_offset e) in
  (if srb_flagP then Z.lor (u32 (Z.shiftl hfn 5)) (Z.land pdcp_sn 31)
   else if seq_num_size e =? PDCP_Config__rlc_UM__pdcp_SN_Size_len7bits then
     Z.lor (u32 (Z.shiftl hfn 7)) (Z.land pdcp_sn 127)
   else Z.lor (u32 (Z.shiftl hfn 12)) (Z.land pdcp_sn 4095),
   set_rx e (next_pdcp_rx_sn e) (next_pdcp_rx_sn_before_integrity e) (rx_hfn e) 0).

(** ** [pdcp_primitives.c]: headers.  A buffer is the list of its octets. *)

(** The shift of eight places leaves nothing of the octet. *)
Definition pdcp_get_dc_filed (buf : option (list Z)) : cres Z :=
  match buf with
  | None => Ret 0
  | Some b => o ← aget b 0; Ret (u8 (Z.shiftr (u8 (Z.land o 240)) 8))
  end.

Definition pdcp_get_sequence_number_of_pdu_with_long_sn (buf : option (list Z)) : cres Z :=
  match buf with
  | None => Ret 0
  | Some b =>
      o0 ← aget b 0; o1 ← aget b 1;
      Ret (u16 (Z.lor (u16 (Z.shiftl (Z.land o0 15) 8)) (Z.land o1 255)))
  end.

Definition pdcp_get_sequence_number_of_pdu_with_short_sn (buf : option (list Z)) : cres Z :=
  match buf with
  | None => Ret 0
  | Some b => o ← aget b 0; Ret (Z.land o 127)
  end.

Definition pdcp_get_sequence_number_of_pdu_with_SRB_sn (buf : option (list Z)) : cres Z :=
  match buf with
  | None => Ret 0
  | Some b => o ← aget b 0; Ret (Z.land o 31)
  end.

(** [pdcp_control_plane_data_pdu_header], whose MAC-I is not serialised here. *)
Record pdcp_control_plane_data_pdu_header := { cp_sn : Z (* uint8_t *) }.

(** [pdcp_user_plane_data_pdu_header_with_long_sn] *)
Record pdcp_user_plane_data_pdu_header_with_long_sn := {
  up_dc : Z;                              (* uint8_t *)
  up_sn : Z;                              (* uint16_t *)
}.

(** [pdcp_control_pdu_for_pdcp_status_report] *)
Record pdcp_control_pdu_for_pdcp_status_report := { sr_first_missing_sn : Z (* uint16_t *) }.

Definition pdcp_serialize_control_plane_data_pdu_with_SRB_sn_buffer (buf : option (list Z))
  (pdu : option pdcp_control_plane_data_pdu_header) : cres (bool * option (list Z)) :=
  match buf, pdu with
  | Some b, Some pdu => b ← aset b 0 (Z.land (u8 (cp_sn pdu)) 31); Ret (true, Some b)
  | _, _ => Ret (false, buf)
  end.

(** [PDCP_DATA_PDU_BIT_SET] is 1. *)
Definition pdcp_serialize_user_plane_data_pdu_with_long_sn_buffer (buf : option (list Z))
  (pdu : option pdcp_user_plane_data_pdu_header_with_long_sn) : cres (bool * option (list Z)) :=
  match buf, pdu with
  | Some b, Some pdu =>
      let sn := u16 (up_sn pdu) in
      b ← aset b 1 (Z.land sn 255);
      b ← aset b 0 (Z.land (Z.shiftr sn 8) 255);
      b ← (if up_dc pdu =? 1 then o ← aget b 0; aset b 0 (u8 (Z.lor o 128)) else Ret b);
      Ret (true, Some b)
  | _, _ => Ret (false, buf)
  end.

(** The octets are or-ed into what the buffer held; the bitmap follows. *)
Definition pdcp_serialize_control_pdu_for_pdcp_status_report (buf : option (list Z))
  (bitmap : list Z) (pdu : option pdcp_control_pdu_for_pdcp_status_report)
  : cres (bool * option (list Z)) :=
  match buf, pdu with
  | Some b, Some pdu =>
      let first_missing_sn := sr_first_missing_sn pdu in
      o0 ← aget b 0;
      let o0 := util_mark_nth_bit_of_octet o0 1 in
      let o0 := u8 (Z.lor o0 (Z.land (Z.shiftr first_missing_sn 8) 255)) in
      b ← aset b 0 o0;
      o1 ← aget b 1;
      b ← aset b 1 (u8 (Z.lor o1 (Z.land first_missing_sn 255)));
      if (514 <=? zlen b) && (512 <=? zlen bitmap)
      then Ret (true, Some (take 2 b ++ take 512 bitmap ++ drop 514 b))
      else Trap FOob
  | _, _ => Ret (false, buf)
  end.

(** ** Specification: a plain counter *)

Definition sn_size (n : Z) : Prop := n = 5 \/ n = 7 \/ n = 12.

Record pdcp_ok (e : pdcp_t) : Prop := {
  ok_size : sn_size (seq_num_size e);
  ok_tx : 0 <= next_pdcp_tx_sn e < 2 ^ seq_num_size e;
  ok_rx : 0 <= next_pdcp_rx_sn e < 2 ^ seq_num_size e;
  ok_tx_hfn : 0 <= tx_hfn e < 2 ^ 32;
  ok_rx_hfn : 0 <= rx_hfn e < 2 ^ 32;
  ok_bitmap : length (missing_pdu_bitmap e) = 512%nat;
}.

(** The COUNT of the next PDU to send, and of the next PDU expected. *)
Definition tx_count (e : pdcp_t) : Z := tx_hfn e * 2 ^ seq_num_size e + next_pdcp_tx_sn e.
Definition rx_count (e : pdcp_t) : Z := rx_hfn e * 2 ^ seq_num_size e + next_pdcp_rx_sn e.

(** The bit of a sequence number in the bitmap. *)
Definition received (e : pdcp_t) (s : Z) : bool :=
  match missing_pdu_bitmap e !! Z.to_nat (s / 8) with
  | Some o => Z.testbit o (7 - s mod 8)
  | None => false
  end.

(** [k] transmissions. *)
Fixpoint tx_run (k : nat) (e : option pdcp_t) : list Z * option pdcp_t :=
  match k with
  | O => ([], e)
  | S k => let '(sn, e) := pdcp_get_next_tx_seq_number e in
           let '(l, e) := tx_run k e in (sn :: l, e)
  end.

(** The reception of the PDUs with the given COUNTs, of which only the SN is sent. *)
Fixpoint rx_run (srb : bool) (n : Z) (cs : list Z) (e : option pdcp_t)
  : cres (list bool * option pdcp_t) :=
  match cs with
  | [] => Ret ([], e)
  | c :: cs' =>
      '(b, e) ← pdcp_is_rx_seq_number_valid (c mod 2 ^ n) e srb;
      '(l, e) ← rx_run srb n cs' e;
      Ret (b :: l, e)
  end.

(** COUNTs that grow, with fewer than [2^n] lost between two of them. *)
Fixpoint small_gaps (n start : Z) (cs : list Z) : Prop :=
  match cs with
  | [] => True
  | c :: cs' => start <= c < start + 2 ^ n /\ small_gaps n (c + 1) cs'
  end.

(** ** Lemmas *)

Lemma sn_size_cases n (P : Z -> Prop) : sn_size n -> P 5 -> P 7 -> P 12 -> P n.
Proof. intros [-> | [-> | ->]]; done. Qed.

Lemma max_seq_num n : sn_size n -> pdcp_calculate_max_seq_num_for_given_size n = 2 ^ n - 1.
Proof. intros H. by pattern n; apply sn_size_cases. Qed.

Lemma size_valid e : sn_size (seq_num_size e) -> pdcp_is_seq_num_size_valid (Some e) = true.
Proof. unfold pdcp_is_seq_num_size_valid. by intros [-> | [-> | ->]]. Qed.

Lemma sn_pow n : sn_size n -> 32 <= 2 ^ n <= 4096.
Proof. intros H. pattern n; apply sn_size_cases; [done|lia..]. Qed.

(** One transmission. *)
Lemma tx_step e :
  pdcp_ok e -> exists e', pdcp_get_next_tx_seq_number (Some e) = (next_pdcp_tx_sn e, Some e') /\
    pdcp_ok e' /\ seq_num_size e' = seq_num_size e /\
    tx_count e' = (tx_count e + 1) mod (2 ^ 32 * 2 ^ seq_num_size e) /\
    rlc_mode e' = rlc_mode e /\ rx_hfn_offset e' = rx_hfn_offset e /\ rx_count e' = rx_count e.
Proof.
  intros [H1 H2 H3 H4 H5 H6]. unfold pdcp_get_next_tx_seq_number.
  rewrite size_valid by done. cbn [negb]. rewrite max_seq_num by done.
  pose proof (sn_pow _ H1) as Hp. set (m := 2 ^ seq_num_size e) in *.
  eexists. split; [reflexivity|]. unfold tx_count. case_if; bool_to_prop.
  - assert (Hu : 0 <= u32 (tx_hfn e + 1) < 2 ^ 32) by apply u32_range.
    split; [|split; [done|split; [|done]]].
    + constructor; cbn [set_tx seq_num_size next_pdcp_tx_sn next_pdcp_rx_sn tx_hfn rx_hfn
        missing_pdu_bitmap]; fold m; first [done|lia].
    + cbn [set_tx seq_num_size next_pdcp_tx_sn tx_hfn]. fold m. rewrite Z.add_0_r.
      replace (tx_hfn e * m + next_pdcp_tx_sn e + 1) with ((tx_hfn e + 1) * m) by lia.
      unfold u32. by rewrite Zmult_mod_distr_r.
  - rewrite u16_small by lia. split; [|split; [done|split; [|done]]].
    + constructor; cbn [set_tx seq_num_size next_pdcp_tx_sn next_pdcp_rx_sn tx_hfn rx_hfn
        missing_pdu_bitmap]; fold m; first [done|lia].
    + cbn [set_tx seq_num_size next_pdcp_tx_sn tx_hfn]. fold m. rewrite Z.mod_small; nia.
Qed.

(** Moving the reception window. *)
Lemma advance_rx e :
  pdcp_ok e -> rx_count e + 1 < 2 ^ 32 * 2 ^ seq_num_size e ->
  pdcp_ok (pdcp_advance_rx_window e).2 /\ rx_count (pdcp_advance_rx_window e).2 = rx_count e + 1 /\
  seq_num_size (pdcp_advance_rx_window e).2 = seq_num_size e /\
  rlc_mode (pdcp_advance_rx_window e).2 = rlc_mode e /\
  missing_pdu_bitmap (pdcp_advance_rx_window e).2 = missing_pdu_bitmap e.
Proof.
  intros [H1 H2 H3 H4 H5 H6] Hb. unfold pdcp_advance_rx_window. rewrite size_valid by done.
  cbn [negb snd]. rewrite max_seq_num by done. pose proof (sn_pow _ H1) as Hp.
  unfold rx_count in *. set (m := 2 ^ seq_num_size e) in *. case_if; bool_to_prop.
  - assert (Hu : 0 <= rx_hfn e + 1 < 2 ^ 32) by nia.
    rewrite (u32_small (rx_hfn e + 1)) by done. split_and!; try done.
    + constructor; cbn [set_rx seq_num_size next_pdcp_tx_sn next_pdcp_rx_sn tx_hfn rx_hfn
        missing_pdu_bitmap]; fold m; first [done|lia].
    + cbn [set_rx seq_num_size next_pdcp_rx_sn rx_hfn]. fold m. lia.
  - rewrite u16_small by lia. split_and!; try done.
    + constructor; cbn [set_rx seq_num_size next_pdcp_tx_sn next_pdcp_rx_sn tx_hfn rx_hfn
        missing_pdu_bitmap]; fold m; first [done|lia].
    + cbn [set_rx seq_num_size next_pdcp_rx_sn rx_hfn]. fold m. lia.
Qed.

(** Marking stays inside the bitmap and sets one bit. *)
Lemma mark_ok s e :
  0 <= s < 4096 -> length (missing_pdu_bitmap e) = 512%nat ->
  exists b, pdcp_mark_current_pdu_as_received s e = Ret (true, set_bitmap e b) /\
    length b = 512%nat /\
    (Forall (fun o => 0 <= o < 256) (missing_pdu_bitmap e) ->
     Forall (fun o => 0 <= o < 256) b /\
     forall s', 0 <= s' < 4096 ->
       received (set_bitmap e b) s' = received e s' || (s =? s')).
Proof.
  intros Hs Hl. unfold pdcp_mark_current_pdu_as_received.
  assert (Hi : 0 <= s / 8 < 512) by (Z.div_mod_to_equations; lia).
  rewrite u16_small by lia.
  destruct (lookup_lt_is_Some_2 (missing_pdu_bitmap e) (Z.to_nat (s / 8))) as [o Ho]; [lia|].
  rewrite (aget_ok _ _ o) by (done || lia). cbn [mbind cres_bind].
  rewrite aset_ok by (unfold zlen; lia). cbn [mbind cres_bind]. eexists. split; [reflexivity|].
  split; [by rewrite length_insert|]. intros Hall.
  pose proof (Forall_lookup_1 _ _ _ _ Hall Ho) as Hob. simpl in Hob.
  split; [apply Forall_insert; [done|apply u8_range]|].
  intros s' Hs'. unfold received. cbn [set_bitmap missing_pdu_bitmap].
  assert (Hbit : forall j, 0 <= j < 8 -> Z.testbit (util_mark_nth_bit_of_octet o (s mod 8)) j =
    Z.testbit o j || (j =? 7 - s mod 8)).
  { intros j Hj. unfold util_mark_nth_bit_of_octet, u8. rewrite Z.mod_pow2_bits_low by lia.
    rewrite Z.lor_spec. f_equal. rewrite Z.mod_pow2_bits_low by lia.
    pose proof (Z.mod_pos_bound s 8 ltac:(lia)). rewrite Z.shiftr_spec by lia.
    change 128 with (2 ^ 7). rewrite Z.pow2_bits_eqb by lia.
    destruct (Z.eqb_spec 7 (j + s mod 8)); destruct (Z.eqb_spec j (7 - s mod 8)); lia. }
  destruct (decide (s' / 8 = s / 8)) as [Heq|Hne].
  - rewrite Heq, list_lookup_insert_eq by lia. rewrite Ho, Hbit by (Z.div_mod_to_equations; lia).
    f_equal. destruct (Z.eqb_spec (7 - s' mod 8) (7 - s mod 8)); destruct (Z.eqb_spec s s');
      try done; Z.div_mod_to_equations; lia.
  - rewrite list_lookup_insert_ne by (Z.div_mod_to_equations; lia).
    rewrite (proj2 (Z.eqb_neq s s')) by (intros ->; done). by rewrite orb_false_r.
Qed.

(** One reception on an SRB, or on a DRB in unacknowledged mode. *)
Lemma rx_step srb e c :
  pdcp_ok e -> (srb = true \/ rlc_mode e = MODE_UM) ->
  rx_count e <= c < rx_count e + 2 ^ seq_num_size e -> c + 1 < 2 ^ 32 * 2 ^ seq_num_size e ->
  exists e', pdcp_is_rx_seq_number_valid (c mod 2 ^ seq_num_size e) (Some e) srb = Ret (true, Some e') /\
    pdcp_ok e' /\ rx_count e' = c + 1 /\ seq_num_size e' = seq_num_size e /\
    rlc_mode e' = rlc_mode e /\ rx_hfn_offset e' = (if srb then 0 else rx_hfn_offset e).
Proof.
  intros Hok Hmode Hc Hmax. pose proof Hok as [H1 H2 H3 H4 H5 H6].
  pose proof (sn_pow _ H1) as Hp. unfold rx_count in Hc. set (n := seq_num_size e) in *.
  pose proof (Z.mod_pos_bound c (2 ^ n) ltac:(lia)) as Hsn. set (sn := c mod 2 ^ n) in *.
  assert (Hhfn : (if sn <? next_pdcp_rx_sn e then u32 (rx_hfn e + 1) else rx_hfn e) * 2 ^ n + sn = c /\
    0 <= (if sn <? next_pdcp_rx_sn e then u32 (rx_hfn e + 1) else rx_hfn e) < 2 ^ 32).
  { pose proof (Z.div_mod c (2 ^ n) ltac:(lia)) as Hdm. fold sn in Hdm. set (q := c / 2 ^ n) in *.
    assert (Hq : 0 <= q < 2 ^ 32) by nia.
    destruct (Z.ltb_spec sn (next_pdcp_rx_sn e)).
    - assert (q = rx_hfn e + 1) as <- by nia. rewrite u32_small by lia. lia.
    - assert (q = rx_hfn e) by nia. lia. }
  destruct Hhfn as [Hcount Hhr].
  unfold pdcp_is_rx_seq_number_valid. rewrite size_valid by done. fold n.
  unfold pdcp_is_seq_num_valid. rewrite (max_seq_num n H1).
  rewrite (proj2 (Z.leb_le 0 sn)), (proj2 (Z.leb_le sn (2 ^ n - 1))) by lia. cbn [andb negb orb].
  destruct (mark_ok sn e) as (b & -> & Hbl & _); [lia|done|]. cbn [mbind cres_bind].
  set (hfn := if sn <? next_pdcp_rx_sn e then _ else _) in *.
  assert (Hadv : forall bi off, let e1 := set_rx (set_bitmap e b) sn bi hfn off in
    pdcp_ok (pdcp_advance_rx_window e1).2 /\ rx_count (pdcp_advance_rx_window e1).2 = c + 1 /\
    seq_num_size (pdcp_advance_rx_window e1).2 = n /\ rlc_mode (pdcp_advance_rx_window e1).2 = rlc_mode e /\
    rx_hfn_offset (pdcp_advance_rx_window e1).2 = off).
  { intros bi off e1. assert (Hok1 : pdcp_ok e1) by (by constructor).
    assert (Hc1 : rx_count e1 = c) by exact Hcount.
    destruct (advance_rx e1 Hok1) as (A1 & A2 & A3 & A4 & _); [rewrite Hc1; exact Hmax|].
    rewrite Hc1 in A2. split_and!; try done. unfold pdcp_advance_rx_window. cbn [snd]. by repeat case_if. }
  destruct srb.
  - eexists. split; [reflexivity|]. apply Hadv.
  - destruct Hmode as [|Hm]; [done|]. cbn [set_bitmap rlc_mode]. rewrite Hm.
    eexists. split; [reflexivity|]. rewrite <- Hm. apply Hadv.
Qed.

(** ** Headers *)

(** The two octets of a 12-bit number; the high bits of the first one are free. *)
Lemma read_long_sn o hi lo b :
  0 <= hi < 16 -> 0 <= lo < 256 -> Z.land o 15 = hi ->
  pdcp_get_sequence_number_of_pdu_with_long_sn (Some (o :: lo :: b)) = Ret (hi * 2 ^ 8 + lo).
Proof.
  intros Hhi Hlo Ho. unfold pdcp_get_sequence_number_of_pdu_with_long_sn.
  rewrite (aget_ok _ 0 o), (aget_ok _ 1 lo) by done. cbn [mbind cres_bind]. rewrite Ho.
  change 255 with (2 ^ 8 - 1). rewrite land_mask by lia. rewrite (Z.mod_small lo) by lia.
  rewrite (u16_small (Z.shiftl hi 8)) by (rewrite Z.shiftl_mul_pow2 by lia; lia).
  rewrite Z.lor_comm, lor_shiftl_add by lia. rewrite u16_small by lia. f_equal. lia.
Qed.

(** The octets of the header; the rest of the buffer stays. *)
Lemma long_header_eq dc sn x0 x1 (b : list Z) :
  0 <= sn < 4096 -> 0 <= dc < 2 ->
  exists o lo, pdcp_serialize_user_plane_data_pdu_with_long_sn_buffer (Some (x0 :: x1 :: b))
       (Some (Build_pdcp_user_plane_data_pdu_header_with_long_sn dc sn)) = Ret (true, Some (o :: lo :: b)) /\
     0 <= o < 256 /\ 0 <= lo < 256 /\ Z.testbit o 7 = (dc =? 1) /\
     forall r, pdcp_get_sequence_number_of_pdu_with_long_sn (Some (o :: lo :: r)) = Ret sn.
Proof.
  intros Hsn Hdc.
  unfold pdcp_serialize_user_plane_data_pdu_with_long_sn_buffer. cbn [up_dc up_sn]. cbv zeta.
  rewrite aset_ok by (unfold zlen; simpl; lia). cbn [mbind cres_bind].
  rewrite aset_ok by (unfold zlen; simpl; lia). cbn [mbind cres_bind].
  change (Z.to_nat 1) with 1%nat. change (Z.to_nat 0) with 0%nat. cbn [insert list_insert].
  rewrite u16_small by lia. change 255 with (2 ^ 8 - 1). rewrite !land_mask by lia.
  rewrite Z.shiftr_div_pow2 by lia. rewrite (Z.mod_small (sn / 2 ^ 8)) by (Z.div_mod_to_equations; lia).
  set (hi := sn / 2 ^ 8). set (lo := sn mod 2 ^ 8).
  assert (Hhi : 0 <= hi < 16) by (unfold hi; Z.div_mod_to_equations; lia).
  assert (Hlo : 0 <= lo < 256) by (unfold lo; Z.div_mod_to_equations; lia).
  assert (Hsplit : sn = hi * 2 ^ 8 + lo) by (unfold hi, lo; Z.div_mod_to_equations; lia).
  destruct (Z.eqb_spec dc 1) as [->|Hne].
  - rewrite (aget_ok _ 0 hi) by done. cbn [mbind cres_bind].
    rewrite aset_ok by (unfold zlen; simpl; lia). change (Z.to_nat 0) with 0%nat.
    cbn [insert list_insert mbind cres_bind]. eexists _, _. split; [reflexivity|].
    assert (Ho : u8 (Z.lor hi 128) = hi + 1 * 2 ^ 7).
    { change 128 with (Z.shiftl 1 7). rewrite lor_shiftl_add by lia. rewrite u8_small; lia. }
    rewrite Ho. split_and!; [lia..| |].
    + rewrite <- (lor_shiftl_add hi 1 7) by lia. rewrite Z.lor_spec. by rewrite orb_true_r.
    + intros r. rewrite Hsplit. apply read_long_sn; [done|done|]. change 15 with (2 ^ 4 - 1). rewrite land_mask by lia.
      replace (hi + 1 * 2 ^ 7) with (hi + 8 * 2 ^ 4) by lia. rewrite Z.mod_add, Z.mod_small by lia. lia.
  - eexists _, _. split; [reflexivity|]. split_and!; [lia..| |].
    + apply (testbit_above hi 4); lia.
    + intros r. rewrite Hsplit. apply read_long_sn; [done|done|]. change 15 with (2 ^ 4 - 1).
      rewrite land_mask by lia. apply Z.mod_small. lia.
Qed.

Lemma long_header_ok dc sn (b : list Z) :
  0 <= sn < 4096 -> 0 <= dc < 2 -> (2 <= length b)%nat ->
  exists b', pdcp_serialize_user_plane_data_pdu_with_long_sn_buffer (Some b)
       (Some (Build_pdcp_user_plane_data_pdu_header_with_long_sn dc sn)) = Ret (true, Some b') /\
     pdcp_get_sequence_number_of_pdu_with_long_sn (Some b') = Ret sn /\
     exists o, b' !! 0%nat = Some o /\ Z.testbit o 7 = (dc =? 1).
Proof.
  intros Hsn Hdc Hl. destruct b as [|x0 [|x1 b]]; simpl in Hl; try lia.
  destruct (long_header_eq dc sn x0 x1 b Hsn Hdc) as (o & lo & E & _ & _ & Ht & Hr). eexists. split; [exact E|]. split; [done|]. by exists o.
Qed.

Lemma srb_header_eq sn x0 (b : list Z) :
  0 <= sn < 32 ->
  pdcp_serialize_control_plane_data_pdu_with_SRB_sn_buffer (Some (x0 :: b))
       (Some (Build_pdcp_control_plane_data_pdu_header sn)) = Ret (true, Some (sn :: b)) /\
  forall r, pdcp_get_sequence_number_of_pdu_with_SRB_sn (Some (sn :: r)) = Ret sn.
Proof.
  intros H32. assert (Hm : Z.land sn 31 = sn) by (change 31 with (2 ^ 5 - 1); rewrite land_mask by lia; apply Z.mod_small; lia).
  unfold pdcp_serialize_control_plane_data_pdu_with_SRB_sn_buffer. cbn [cp_sn].
  rewrite aset_ok by (unfold zlen; simpl; lia). change (Z.to_nat 0) with 0%nat.
  cbn [insert list_insert mbind cres_bind]. rewrite u8_small, Hm by lia. split; [done|]. intros r.
  unfold pdcp_get_sequence_number_of_pdu_with_SRB_sn. rewrite (aget_ok _ 0 sn) by done. cbn [mbind cres_bind]. by rewrite Hm.
Qed.

Lemma srb_header_ok sn (b : list Z) :
  0 <= sn < 32 -> (1 <= length b)%nat ->
  exists b', pdcp_serialize_control_plane_data_pdu_with_SRB_sn_buffer (Some b)
       (Some (Build_pdcp_control_plane_data_pdu_header sn)) = Ret (true, Some b') /\
     pdcp_get_sequence_number_of_pdu_with_SRB_sn (Some b') = Ret sn.
Proof.
  intros H32 Hl. destruct b as [|x0 b]; simpl in Hl; try lia. destruct (srb_header_eq sn x0 b H32) as [E Hr]. by eexists.
Qed.

(** ** Properties *)

(** Transmission numbering.  From any well-formed state, [k] consecutive PDUs get the
    consecutive sequence numbers that follow [next_pdcp_tx_sn], modulo the size of the sequence
    number space, and the hyper frame number and the sequence number together count the PDUs,
    modulo the 32 bits of the hyper frame number. *)
Theorem pdcp_tx_numbering k : forall e,
  pdcp_ok e -> exists e', tx_run k (Some e) =
      ((fun i => (next_pdcp_tx_sn e + Z.of_nat i) mod 2 ^ seq_num_size e) <$> seq 0 k, Some e') /\
    pdcp_ok e' /\ tx_count e' = (tx_count e + Z.of_nat k) mod (2 ^ 32 * 2 ^ seq_num_size e).
Proof.
  induction k as [|k IH]; intros e Hok.
  { exists e. split; [done|]. split; [done|]. rewrite Z.add_0_r, Z.mod_small; [done|].
    unfold tx_count. destruct Hok as [H1 H2 _ H4 _ _]. pose proof (sn_pow _ H1). nia. }
  destruct (tx_step e Hok) as (e1 & E1 & Hok1 & Hs1 & Hc1 & _).
  destruct (IH e1 Hok1) as (e2 & E2 & Hok2 & Hc2). exists e2. cbn [tx_run]. rewrite E1, E2.
  pose proof (sn_pow _ (ok_size _ Hok)) as Hp. pose proof (ok_tx _ Hok) as Htx. rewrite Hs1 in *.
  set (m := 2 ^ seq_num_size e) in *.
  assert (Hn1 : next_pdcp_tx_sn e1 mod m = (next_pdcp_tx_sn e + 1) mod m).
  { unfold tx_count in Hc1. rewrite Hs1 in Hc1. fold m in Hc1.
    apply (f_equal (fun z => z mod m)) in Hc1.
    rewrite Z.mod_mod_divide in Hc1 by (by exists (2 ^ 32)).
    rewrite Z.add_comm, Z.mod_add in Hc1 by lia. rewrite Hc1.
    rewrite <- Z.add_assoc, Z.add_comm, Z.mod_add by lia. done. }
  split_and!; [|done|].
  - f_equal. cbn [seq fmap list_fmap]. f_equal; [by rewrite Z.add_0_r, Z.mod_small|].
    rewrite <- fmap_S_seq, <- list_fmap_compose. apply list_fmap_ext. intros i x _. unfold compose.
    rewrite Zplus_mod, Hn1, <- Zplus_mod. f_equal. lia.
  - rewrite Hc2, Hc1, Zplus_mod_idemp_l. f_equal. lia.
Qed.

(** The state after [pdcp_init_seq_numbers]. *)
Definition fresh_pdcp (m : rlc_mode_t) (n : Z) : pdcp_t :=
  Build_pdcp_t m n 0 0 0 0 0 0 4095 (replicate 512 0).

Lemma fresh_ok m n : sn_size n -> pdcp_ok (fresh_pdcp m n).
Proof.
  intros Hn. pose proof (sn_pow n Hn). constructor; cbn -[replicate]; try lia; [done|].
  by rewrite length_replicate.
Qed.

Lemma pdcp_tx_numbering_witness :
  (tx_run 34 (Some (fresh_pdcp MODE_AM 5))).1 = (fun i => (0 + Z.of_nat i) mod 32) <$> seq 0 34.
Proof.
  destruct (pdcp_tx_numbering 34 (fresh_pdcp MODE_AM 5)) as (e' & E & _).
  - apply fresh_ok. by left.
  - rewrite E. reflexivity.
Defined.

(** C30: the receiver follows the COUNT of the sender.  On a signalling bearer, and on a data
    bearer in unacknowledged mode, PDUs sent with growing COUNTs of which only the sequence
    number is received are all accepted, and the state of the receiver names the COUNT after
    the last one, as long as fewer than a whole sequence number space is lost in a row. *)
Theorem pdcp_rx_follows_count srb cs : forall e,
  pdcp_ok e -> (srb = true \/ rlc_mode e = MODE_UM) ->
  small_gaps (seq_num_size e) (rx_count e) cs ->
  Forall (fun c => c + 1 < 2 ^ 32 * 2 ^ seq_num_size e) cs ->
  exists e', rx_run srb (seq_num_size e) cs (Some e) = Ret (replicate (length cs) true, Some e') /\
    pdcp_ok e' /\ rx_count e' = default (rx_count e) ((fun c => c + 1) <$> last cs).
Proof.
  induction cs as [|c cs IH]; intros e Hok Hmode Hgap Hmax; [by exists e|].
  destruct Hgap as [Hc Hgap]. apply Forall_cons_1 in Hmax as [Hm Hmax].
  destruct (rx_step srb e c Hok Hmode Hc Hm) as (e1 & E1 & Hok1 & Hc1 & Hs1 & Hm1 & _).
  rewrite <- Hs1, <- Hc1 in Hgap. rewrite <- Hs1 in Hmax.
  destruct (IH e1 Hok1) as (e2 & E2 & Hok2 & Hc2); [by rewrite Hm1|done|done|].
  exists e2. cbn [rx_run]. rewrite E1. cbn [mbind cres_bind]. rewrite Hs1 in E2. rewrite E2.
  split_and!; [done|done|]. rewrite Hc2, Hc1, last_cons. by destruct (last cs).
Qed.

Lemma pdcp_rx_follows_count_witness :
  exists e', rx_run true 5 [0; 1; 30; 33; 60] (Some (fresh_pdcp MODE_AM 5)) =
    Ret (replicate 5 true, Some e') /\ rx_count e' = 61.
Proof.
  destruct (pdcp_rx_follows_count true [0; 1; 30; 33; 60] (fresh_pdcp MODE_AM 5))
    as (e' & E & _ & Hc).
  - apply fresh_ok. by left.
  - by left.
  - cbn [small_gaps]. change (rx_count _) with 0. change (2 ^ _) with 32. lia.
  - repeat (apply (Forall_cons_2 _ _ _); [by vm_compute|]). constructor.
  - exists e'. split; [exact E|exact Hc].
Defined.

(** The bitmap of the received sequence numbers.  Marking a valid sequence number stays
    inside the 512 octets, sets its bit and leaves every other bit of the bitmap. *)
Theorem pdcp_mark_sets_one_bit s e :
  0 <= s < 4096 -> length (missing_pdu_bitmap e) = 512%nat ->
  Forall (fun o => 0 <= o < 256) (missing_pdu_bitmap e) ->
  exists e', pdcp_mark_current_pdu_as_received s e = Ret (true, e') /\
    forall s', 0 <= s' < 4096 -> received e' s' = received e s' || (s =? s').
Proof.
  intros Hs Hl Hall. destruct (mark_ok s e Hs Hl) as (b & E & _ & Hb).
  eexists. split; [exact E|]. by apply Hb.
Qed.

Lemma pdcp_mark_sets_one_bit_witness :
  exists e', pdcp_mark_current_pdu_as_received 4095 (fresh_pdcp MODE_AM 12) = Ret (true, e') /\
    received e' 4095 = true /\ received e' 4094 = false.
Proof.
  destruct (pdcp_mark_sets_one_bit 4095 (fresh_pdcp MODE_AM 12)) as (e' & E & Hr).
  - lia.
  - apply length_replicate.
  - apply Forall_replicate. lia.
  - exists e'. split; [exact E|]. split; rewrite Hr by lia; reflexivity.
Defined.

(** Header round trip.  The header of a user plane PDU with a 12-bit sequence number,
    written for a number below 4096, is read back as the same number, and its first bit says
    whether it is a data PDU; likewise for the 5-bit number of a signalling PDU. *)
Theorem pdcp_header_round_trip dc sn (b : list Z) :
  0 <= sn < 4096 -> 0 <= dc < 2 -> (2 <= length b)%nat ->
  (exists b', pdcp_serialize_user_plane_data_pdu_with_long_sn_buffer (Some b)
       (Some (Build_pdcp_user_plane_data_pdu_header_with_long_sn dc sn)) = Ret (true, Some b') /\
     pdcp_get_sequence_number_of_pdu_with_long_sn (Some b') = Ret sn /\
     exists o, b' !! 0%nat = Some o /\ Z.testbit o 7 = (dc =? 1)) /\
  (sn < 32 ->
   exists b', pdcp_serialize_control_plane_data_pdu_with_SRB_sn_buffer (Some b)
       (Some (Build_pdcp_control_plane_data_pdu_header sn)) = Ret (true, Some b') /\
     pdcp_get_sequence_number_of_pdu_with_SRB_sn (Some b') = Ret sn).
Proof.
  intros Hsn Hdc Hl. split; [by apply long_header_ok|]. intros H32. apply srb_header_ok; lia.
Qed.

Lemma pdcp_header_round_trip_witness :
  exists b', pdcp_serialize_user_plane_data_pdu_with_long_sn_buffer (Some [0; 0; 0])
      (Some (Build_pdcp_user_plane_data_pdu_header_with_long_sn 1 2748)) = Ret (true, Some b') /\
    pdcp_get_sequence_number_of_pdu_with_long_sn (Some b') = Ret 2748.
Proof.
  destruct (pdcp_header_round_trip 1 2748 [0; 0; 0]) as [(b' & E & Er & _) _].
  - lia.
  - lia.
  - simpl. lia.
  - exists b'. split; [exact E|exact Er].
Defined.

(** Loss around the wrap of the sequence numbers in acknowledged mode.  When the PDU with
    the last sequence number is lost, the next one makes the receiver raise its hyper frame
    number without moving [next_pdcp_rx_sn] to the received number, so the PDU after it raises
    the hyper frame number a second time: two consecutive COUNTs are a whole sequence number
    space apart, and the sequence number state leaves its range. *)
Theorem pdcp_am_hfn_raised_twice e :
  pdcp_ok e -> seq_num_size e = 12 -> rlc_mode e = MODE_AM -> next_pdcp_rx_sn e = 4095 ->
  last_submitted_pdcp_rx_sn e = 4094 -> rx_hfn e + 2 < 2 ^ 32 ->
  exists e1 e2,
    pdcp_is_rx_seq_number_valid 0 (Some e) false = Ret (true, Some e1) /\
    rx_hfn e1 = rx_hfn e + 1 /\ next_pdcp_rx_sn e1 = 4096 /\
    pdcp_is_rx_seq_number_valid 1 (Some e1) false = Ret (true, Some e2) /\
    rx_hfn e2 = rx_hfn e + 2.
Proof.
  intros Hok Hs Hm Hn Hlast Hh. pose proof (ok_bitmap _ Hok) as Hb. pose proof (ok_rx_hfn _ Hok).
  assert (Hstep : forall sn x, 0 <= sn < 2 -> seq_num_size x = 12 -> rlc_mode x = MODE_AM ->
    4095 <= next_pdcp_rx_sn x <= 4096 -> last_submitted_pdcp_rx_sn x = 4094 ->
    length (missing_pdu_bitmap x) = 512%nat -> 0 <= rx_hfn x -> rx_hfn x + 1 < 2 ^ 32 ->
    exists x', pdcp_is_rx_seq_number_valid sn (Some x) false = Ret (true, Some x') /\
      rx_hfn x' = rx_hfn x + 1 /\ next_pdcp_rx_sn x' = next_pdcp_rx_sn x + 1 /\
      seq_num_size x' = 12 /\ rlc_mode x' = MODE_AM /\ last_submitted_pdcp_rx_sn x' = 4094 /\
      length (missing_pdu_bitmap x') = 512%nat).
  { intros sn x Hsn Xs Xm Xn Xl Xb Xh Xh2. unfold pdcp_is_rx_seq_number_valid.
    rewrite size_valid by (rewrite Xs; unfold sn_size; lia).
    unfold pdcp_is_seq_num_valid. rewrite Xs, max_seq_num by (unfold sn_size; lia).
    rewrite (proj2 (Z.leb_le 0 sn)), (proj2 (Z.leb_le sn (2 ^ 12 - 1))) by lia. cbn [andb negb orb].
    destruct (mark_ok sn x) as (b & -> & Hbl & _); [lia|done|]. cbn [mbind cres_bind].
    cbn [set_bitmap seq_num_size rlc_mode]. rewrite Xs, Xm. cbn [Z.eqb Pos.eqb].
    unfold rx_drb_am. cbn [set_bitmap next_pdcp_rx_sn last_submitted_pdcp_rx_sn
      next_pdcp_rx_sn_before_integrity rx_hfn]. rewrite Xl.
    rewrite (proj2 (Z.ltb_ge 2048 (sn - 4094))), (proj2 (Z.ltb_ge (4094 - sn) 2048)),
      andb_false_r by lia. cbn [orb].
    rewrite (proj2 (Z.ltb_lt 2048 (next_pdcp_rx_sn x - sn))) by lia.
    eexists. split; [reflexivity|]. cbn. rewrite u32_small, u16_small by lia. done. }
  destruct (Hstep 0 e) as (e1 & E1 & H1 & N1 & S1 & M1 & L1 & B1); [lia|done|done|lia|done|done|lia|lia|].
  destruct (Hstep 1 e1) as (e2 & E2 & H2 & _); [lia|done|done|lia|done|done|lia|lia|].
  exists e1, e2. split_and!; [done|done|lia|done|lia].
Qed.

Lemma pdcp_am_hfn_raised_twice_witness :
  exists e1 e2, pdcp_is_rx_seq_number_valid 0
      (Some (Build_pdcp_t MODE_AM 12 0 4095 0 0 7 0 4094 (replicate 512 0))) false = Ret (true, Some e1) /\
    pdcp_is_rx_seq_number_valid 1 (Some e1) false = Ret (true, Some e2) /\ rx_hfn e2 = 9.
Proof.
  destruct (pdcp_am_hfn_raised_twice (Build_pdcp_t MODE_AM 12 0 4095 0 0 7 0 4094 (replicate 512 0)))
    as (e1 & e2 & E1 & _ & _ & E2 & Hh).
  - constructor; cbn -[replicate]; try lia; [unfold sn_size; lia|apply length_replicate].
  - reflexivity.
  - reflexivity.
  - reflexivity.
  - reflexivity.
  - cbn. lia.
  - exists e1, e2. split; [exact E1|]. split; [exact E2|exact Hh].
Defined.

(** The COUNT given to the ciphering of a signalling bearer.  The COUNT is computed after
    the sequence number was taken: it is the transmission counter for every sequence number but
    the last one of the space, for which the hyper frame number has already been raised and the
    COUNT is one space too far. *)
Theorem pdcp_srb_count_of_last_sn e :
  pdcp_ok e -> seq_num_size e = 5 -> tx_hfn e + 1 < 2 ^ 27 ->
  exists sn e', pdcp_get_next_tx_seq_number (Some e) = (sn, Some e') /\
    pdcp_get_next_count_tx e' true sn = tx_count e + (if sn =? 31 then 32 else 0).
Proof.
  intros Hok Hs Hh. pose proof Hok as [H1 H2 _ H4 _ _]. rewrite Hs in H2.
  unfold pdcp_get_next_tx_seq_number. rewrite size_valid by done. cbn [negb].
  rewrite Hs, max_seq_num by (unfold sn_size; lia). change (2 ^ 5 - 1) with 31.
  eexists _, _. split; [reflexivity|]. unfold pdcp_get_next_count_tx, tx_count. rewrite Hs.
  assert (Hsn : Z.land (next_pdcp_tx_sn e) 31 = next_pdcp_tx_sn e).
  { change 31 with (Z.ones 5). rewrite Z.land_ones by lia. apply Z.mod_small. lia. }
  rewrite Hsn. assert (Hcnt : forall h, 0 <= h < 2 ^ 27 ->
    Z.lor (u32 (Z.shiftl h 5)) (next_pdcp_tx_sn e) = h * 2 ^ 5 + next_pdcp_tx_sn e).
  { intros h Hhr. rewrite u32_small by (rewrite Z.shiftl_mul_pow2 by lia; lia).
    rewrite Z.lor_comm, lor_shiftl_add by lia. lia. }
  case_if; cbn [set_tx tx_hfn]; [rewrite (u32_small (tx_hfn e + 1)) by lia|]; rewrite Hcnt by lia; lia.
Qed.

Lemma pdcp_srb_count_of_last_sn_witness :
  exists sn e', pdcp_get_next_tx_seq_number
      (Some (Build_pdcp_t MODE_AM 5 31 0 0 0 0 0 4095 (replicate 512 0))) = (sn, Some e') /\
    pdcp_get_next_count_tx e' true sn = 63.
Proof.
  destruct (pdcp_srb_count_of_last_sn (Build_pdcp_t MODE_AM 5 31 0 0 0 0 0 4095 (replicate 512 0)))
    as (sn & e' & E & Hc).
  - constructor; cbn -[replicate]; try lia; [unfold sn_size; lia|apply length_replicate].
  - reflexivity.
  - cbn. lia.
  - exists sn, e'. split; [exact E|]. rewrite Hc. injection E as <- _. reflexivity.
Defined.
