(* ===== verification/RlcAmWindow.v ===== *)
(** Acknowledged mode: the windows on the sequence numbers
    ([openair2/LAYER2/RLC/AM_v9.3.0/rlc_am_windows.c]) and the holes of a transmitted PDU, the
    byte ranges the receiver reported missing ([rlc_am_segments_holes.c]).

    The state of the windows is compared with unbounded counters; the holes of an entry of
    [pdu_retrans_buffer] with the list of the ranges. *)
From stdpp Require Import base list numbers.
From Stdlib Require Import ZArith Lia.
From S2P Require Import Prelude.
Open Scope Z_scope.

(** ** Windows *)

Definition RLC_AM_SN_MODULO : Z := 1024.
Definition RLC_AM_WINDOW_SIZE : Z := 512.

(** The state variables of [rlc_am_entity_t] the windows use, [rlc_usn_t]. *)
Record am_vars := {
  vt_a : Z;
  vt_ms : Z;
  vr_r : Z;
  vr_mr : Z;
  vr_h : Z;
  vr_x : Z;
  vr_ms : Z;
}.

(** [((rlc_usn_t)(sn - base)) % RLC_AM_SN_MODULO] *)
Definition shifted (sn base : Z) : Z := c_rem (u16 (sn - base)) RLC_AM_SN_MODULO.

Definition rlc_am_in_tx_window (r : am_vars) (snP : Z) : Z :=
  if RLC_AM_SN_MODULO <=? snP then 0
  else
    let shifted_sn := shifted snP (vt_a r) in
    let upper_bound := shifted (vt_ms r) (vt_a r) in
    if (0 <=? shifted_sn) && (shifted_sn <? upper_bound) then 1 else 0.

Definition rlc_am_in_rx_window (r : am_vars) (snP : Z) : Z :=
  if RLC_AM_SN_MODULO <=? snP then 0
  else
    let shifted_sn := shifted snP (vr_r r) in
    let upper_bound := shifted (vr_mr r) (vr_r r) in
    if (0 <=? shifted_sn) && (shifted_sn <? upper_bound) then 1 else 0.

Definition rlc_am_sn_gte_vr_h (r : am_vars) (snP : Z) : Z :=
  if RLC_AM_SN_MODULO <=? snP then 0
  else if shifted (vr_h r) (vr_r r) <=? shifted snP (vr_r r) then 1 else 0.

Definition rlc_am_sn_gte_vr_x (r : am_vars) (snP : Z) : Z :=
  if RLC_AM_SN_MODULO <=? snP then 0
  else if shifted (vr_x r) (vr_r r) <=? shifted snP (vr_r r) then 1 else 0.

Definition rlc_am_sn_gt_vr_ms (r : am_vars) (snP : Z) : Z :=
  if RLC_AM_SN_MODULO <=? snP then 0
  else if shifted (vr_ms r) (vr_r r) <? shifted snP (vr_r r) then 1 else 0.

Definition rlc_am_tx_sn1_gt_sn2 (r : am_vars) (sn1P sn2P : Z) : Z :=
  if (RLC_AM_SN_MODULO <=? sn1P) || (RLC_AM_SN_MODULO <=? sn2P) then 0
  else if shifted sn2P (vt_a r) <? shifted sn1P (vt_a r) then 1 else 0.

Definition rlc_am_rx_sn1_gt_sn2 (r : am_vars) (sn1P sn2P : Z) : Z :=
  if (RLC_AM_SN_MODULO <=? sn1P) || (RLC_AM_SN_MODULO <=? sn2P) then 0
  else if shifted sn2P (vr_r r) <? shifted sn1P (vr_r r) then 1 else 0.

(** ** Holes *)

Definition RLC_AM_MAX_HOLES_REPORT_PER_PDU : Z := 32.

(** The members of [rlc_am_tx_data_pdu_management_t] that describe the holes. *)
Record pdu_mgmt := Pdu {
  hole_so_start : list Z;                 (* sdu_size_t[RLC_AM_MAX_HOLES_REPORT_PER_PDU] *)
  hole_so_stop : list Z;
  num_holes : Z;                          (* uint8_t *)
  payload_size : Z;
  nack_so_start : Z;
  nack_so_stop : Z;
}.

Definition set_arrays (e : pdu_mgmt) (a b : list Z) : pdu_mgmt :=
  Pdu a b (num_holes e) (payload_size e) (nack_so_start e) (nack_so_stop e).
Definition set_num (e : pdu_mgmt) (n : Z) : pdu_mgmt :=
  Pdu (hole_so_start e) (hole_so_stop e) n (payload_size e) (nack_so_start e) (nack_so_stop e).
Definition set_nack (e : pdu_mgmt) (s t : Z) : pdu_mgmt :=
  Pdu (hole_so_start e) (hole_so_stop e) (num_holes e) (payload_size e) s t.

(** [hole[i] = hole[j]] on both arrays. *)
Definition copy_hole (i j : Z) (e : pdu_mgmt) : cres pdu_mgmt :=
  x ← aget (hole_so_start e) j;
  a ← aset (hole_so_start e) i x;
  y ← aget (hole_so_stop e) j;
  b ← aset (hole_so_stop e) i y;
  Ret (set_arrays e a b).

(** [hole[i] = (s, t)] *)
Definition put_hole (i s t : Z) (e : pdu_mgmt) : cres pdu_mgmt :=
  a ← aset (hole_so_start e) i s;
  b ← aset (hole_so_stop e) i t;
  Ret (set_arrays e a b).

Definition rlc_am_clear_holes (e : pdu_mgmt) : pdu_mgmt := set_num e 0.

Definition rlc_am_shift_down_holes (indexP : Z) (e : pdu_mgmt) : cres pdu_mgmt :=
  e ← for_each (fun i e => copy_hole i (i + 1) e)
        (seqZ indexP (num_holes e - 1 - indexP)) e;
  Ret (set_num e (u8 (num_holes e - 1))).

(** The loop goes down. *)
Definition rlc_am_shift_up_holes (indexP : Z) (e : pdu_mgmt) : cres pdu_mgmt :=
  e ← for_each (fun i e => copy_hole i (i - 1) e)
        (reverse (seqZ (indexP + 1) (num_holes e - indexP))) e;
  let e := set_num e (u8 (num_holes e + 1)) in
  _ ← c_assert (num_holes e <? RLC_AM_MAX_HOLES_REPORT_PER_PDU);
  Ret e.

(** The range of the negative acknowledgements, from the holes. *)
Definition nack_range (e : pdu_mgmt) : cres pdu_mgmt :=
  if num_holes e =? 0 then Ret (set_nack e 0 32767)
  else
    s ← aget (hole_so_start e) 0;
    t ← aget (hole_so_stop e) (num_holes e - 1);
    Ret (set_nack e s t).

(** The loop of [rlc_am_remove_hole] on the holes; the flag says that the function returned.
    A turn removes a hole or goes to the next one, and at most one turn splits a hole: twice
    the size of the arrays is enough fuel. *)
Fixpoint remove_loop (fuel : nat) (i so_startP so_stopP : Z) (e : pdu_mgmt)
  : cres (bool * pdu_mgmt) :=
  match fuel with
  | O => Trap FFuel
  | S fuel =>
      if i <? num_holes e then
        s ← aget (hole_so_start e) i;
        t ← aget (hole_so_stop e) i;
        if so_startP <=? s then
          if t <=? so_stopP then
            e ← rlc_am_shift_down_holes i e;
            remove_loop fuel i so_startP so_stopP e
          else
            a ← aset (hole_so_start e) i so_stopP;
            e ← nack_range (set_arrays e a (hole_so_stop e));
            Ret (true, e)
        else
          e ← (if so_startP <=? t then
                 if so_stopP <? t then
                   e ← rlc_am_shift_up_holes (i + 1) e;
                   t ← aget (hole_so_stop e) i;
                   e ← put_hole (i + 1) (so_startP + 1) t e;
                   b ← aset (hole_so_stop e) i (so_startP - 1);
                   Ret (set_arrays e (hole_so_start e) b)
                 else
                   b ← aset (hole_so_stop e) i so_startP;
                   Ret (set_arrays e (hole_so_start e) b)
               else Ret e);
          remove_loop fuel (i + 1) so_startP so_stopP e
      else Ret (false, e)
  end.

Definition rlc_am_remove_hole (so_startP so_stopP : Z) (e : pdu_mgmt) : cres pdu_mgmt :=
  _ ← c_assert (so_startP <=? so_stopP);
  if num_holes e =? 0 then
    _ ← c_assert (so_startP =? nack_so_start e);
    _ ← c_assert (so_stopP <=? nack_so_stop e);
    let e := set_nack e (so_stopP + 1) (nack_so_stop e) in
    let e := if nack_so_stop e <=? nack_so_start e then set_nack e 0 32767 else e in
    _ ← c_assert (nack_so_start e <? payload_size e);
    Ret e
  else
    '(returned, e) ← remove_loop 64 0 so_startP so_stopP e;
    if (returned : bool) then Ret e
    else
      e ← nack_range e;
      _ ← c_assert (nack_so_start e <? payload_size e);
      Ret e.

Definition rlc_am_get_next_hole (e : pdu_mgmt) : cres (Z * Z) :=
  if num_holes e =? 0 then Ret (nack_so_start e, nack_so_stop e)
  else
    s ← aget (hole_so_start e) 0;
    t ← aget (hole_so_stop e) 0;
    Ret (s, t).

(** The [while (hole_index < num_holes)] loop of [rlc_am_add_hole]: the place of the first hole
    after the new one, if there is one. *)
Fixpoint find_after (fuel : nat) (hole_index so_stopP : Z) (e : pdu_mgmt) : cres (option Z) :=
  match fuel with
  | O => Trap FFuel
  | S fuel =>
      if hole_index <? num_holes e then
        s ← aget (hole_so_start e) hole_index;
        if so_stopP <? s then Ret (Some hole_index)
        else find_after fuel (hole_index + 1) so_stopP e
      else Ret None
  end.

(** The insertion before the hole [hole_index]. *)
Definition insert_hole (hole_index so_startP so_stopP : Z) (e : pdu_mgmt) : cres pdu_mgmt :=
  _ ← c_assert (num_holes e <? RLC_AM_MAX_HOLES_REPORT_PER_PDU);
  _ ← (if 0 <? hole_index then
         t ← aget (hole_so_stop e) (hole_index - 1); c_assert (t <? so_startP)
       else Ret tt);
  e ← for_each (fun i e => copy_hole i (i - 1) e)
        (reverse (seqZ hole_index (num_holes e - hole_index + 1))) e;
  e ← put_hole hole_index so_startP so_stopP e;
  let e := if hole_index =? 0 then set_nack e so_startP (nack_so_stop e) else e in
  let e := set_num e (u8 (num_holes e + 1)) in
  _ ← c_assert (nack_so_start e <? payload_size e);
  _ ← c_assert (num_holes e <? RLC_AM_MAX_HOLES_REPORT_PER_PDU);
  Ret e.

Definition rlc_am_add_hole (so_startP so_stopP : Z) (e : pdu_mgmt) : cres pdu_mgmt :=
  _ ← c_assert (so_startP <=? so_stopP);
  _ ← c_assert (so_startP <? 32767);
  _ ← c_assert (so_stopP <=? 32767);
  if (so_startP =? 0) && ((so_stopP =? 32767) || (so_stopP =? payload_size e - 1)) then
    let e := set_nack (set_num e 0) so_startP so_stopP in
    _ ← c_assert (nack_so_start e <? payload_size e);
    Ret e
  else
    let so_stopP := if so_stopP =? 32767 then payload_size e - 1 else so_stopP in
    if num_holes e =? 0 then
      e ← put_hole 0 so_startP so_stopP e;
      let e := set_nack (set_num e 1) so_startP so_stopP in
      _ ← c_assert (nack_so_start e <? payload_size e);
      Ret e
    else
      found ← find_after (S (Z.to_nat (num_holes e))) 0 so_stopP e;
      match found with
      | Some hole_index => insert_hole hole_index so_startP so_stopP e
      | None =>
          let hole_index := num_holes e in
          t ← aget (hole_so_stop e) (hole_index - 1);
          _ ← c_assert (t <? so_startP);
          _ ← c_assert (num_holes e <? RLC_AM_MAX_HOLES_REPORT_PER_PDU);
          e ← put_hole hole_index so_startP so_stopP e;
          let e := set_nack (set_num e (u8 (num_holes e + 1))) (nack_so_start e) so_stopP in
          _ ← c_assert (num_holes e <? RLC_AM_MAX_HOLES_REPORT_PER_PDU);
          _ ← c_assert (nack_so_start e <? payload_size e);
          Ret e
      end.

(** ** Specification *)

(** The state variables of the unbounded counters: [A] is the count of VT(A), [R] of VR(R), and
    so on, each less than a sequence number space after its window's start. *)
Record counts (r : am_vars) (A R H X M : Z) : Prop := {
  cn_a : vt_a r = A mod 1024;
  cn_ms : vt_ms r = (A + RLC_AM_WINDOW_SIZE) mod 1024;
  cn_r : vr_r r = R mod 1024;
  cn_mr : vr_mr r = (R + RLC_AM_WINDOW_SIZE) mod 1024;
  cn_h : vr_h r = H mod 1024;
  cn_x : vr_x r = X mod 1024;
  cn_m : vr_ms r = M mod 1024;
  cn_hr : R <= H < R + 1024;
  cn_xr : R <= X < R + 1024;
  cn_mm : R <= M < R + 1024;
}.

(** The holes of an entry, in order. *)
Definition hrep (e : pdu_mgmt) (l : list (Z * Z)) : Prop :=
  num_holes e = zlen l /\
  exists rs rt, hole_so_start e = (fst <$> l) ++ rs /\ hole_so_stop e = (snd <$> l) ++ rt /\
    length (hole_so_start e) = 32%nat /\ length (hole_so_stop e) = 32%nat.

(** Ranges in increasing order, each before the next one. *)
Fixpoint ordered (lo : Z) (l : list (Z * Z)) : Prop :=
  match l with
  | [] => True
  | (s, t) :: l' => lo < s <= t /\ ordered t l'
  end.

(** The holes of a status report, in the order of the report. *)
Definition add_holes (l : list (Z * Z)) (e : pdu_mgmt) : cres pdu_mgmt :=
  for_each (fun h e => rlc_am_add_hole h.1 h.2 e) l e.

(** ** Lemmas *)

Lemma shifted_count c base : base <= c < base + 1024 -> shifted (c mod 1024) (base mod 1024) = c - base.
Proof.
  intros H. unfold shifted, c_rem, u16, RLC_AM_SN_MODULO.
  rewrite Z.rem_mod_nonneg by (try lia; apply Z.mod_pos_bound; lia).
  rewrite Z.mod_mod_divide by (by exists 64). rewrite <- Zminus_mod. apply Z.mod_small. lia.
Qed.

Lemma sn_of_count c : (RLC_AM_SN_MODULO <=? c mod 1024) = false.
Proof. apply Z.leb_gt. apply Z.mod_pos_bound. reflexivity. Qed.

Lemma if_iff (b : bool) (P : Prop) : (b = true <-> P) -> ((if b then 1 else 0) = 1 <-> P).
Proof. intros <-. by destruct b. Qed.

(** The arrays with one more element. *)
Lemma hrep_put e l s t rest :
  hrep e l -> (length l < 32)%nat -> rest = zlen l ->
  exists e', put_hole rest s t e = Ret e' /\ hrep (set_num e' (zlen l + 1)) (l ++ [(s, t)]) /\
    num_holes e' = num_holes e /\ payload_size e' = payload_size e /\
    nack_so_start e' = nack_so_start e /\ nack_so_stop e' = nack_so_stop e.
Proof.
  intros (Hn & rs & rt & E1 & E2 & L1 & L2) Hlt ->. unfold put_hole.
  assert (Hs : (length rs = 32 - length l)%nat) by (rewrite E1, length_app, length_fmap in L1; lia).
  assert (Ht : (length rt = 32 - length l)%nat) by (rewrite E2, length_app, length_fmap in L2; lia).
  rewrite !aset_ok by (unfold zlen; lia). cbn [mbind cres_bind]. unfold zlen at 1 2. rewrite Nat2Z.id.
  eexists. split; [reflexivity|]. split_and!; try done.
  unfold hrep. cbn [set_num set_arrays num_holes hole_so_start hole_so_stop].
  split; [rewrite zlen_app; done|]. destruct rs as [|r0 rs]; [simpl in Hs; lia|].
  destruct rt as [|t0 rt]; [simpl in Ht; lia|]. exists rs, rt. rewrite !length_insert.
  split_and!; try done; rewrite ?E1, ?E2, fmap_app, <- app_assoc.
  - replace (length l) with (length (fst <$> l) + 0)%nat by (rewrite length_fmap; lia).
    rewrite insert_app_r. done.
  - replace (length l) with (length (snd <$> l) + 0)%nat by (rewrite length_fmap; lia).
    rewrite insert_app_r. done.
Qed.

(** The search stops at the tail when every hole is before the new one. *)
Lemma find_after_none e l stop : hrep e l -> Forall (fun h => h.1 <= stop) l -> forall fuel k,
  (length l - k < fuel)%nat -> (k <= length l)%nat -> find_after fuel (Z.of_nat k) stop e = Ret None.
Proof.
  intros Hr Hall. pose proof Hr as (Hn & rs & rt & E1 & _).
  induction fuel as [|fuel IH]; intros k Hf Hk; [lia|]. cbn [find_after]. rewrite Hn.
  unfold zlen. destruct (Z.ltb_spec (Z.of_nat k) (Z.of_nat (length l))); [|done].
  destruct (lookup_lt_is_Some_2 l k) as [h Hh]; [lia|].
  rewrite (aget_ok _ _ h.1); [|lia|].
  2:{ rewrite Nat2Z.id, E1, lookup_app_l by (rewrite length_fmap; lia).
      by rewrite list_lookup_fmap, Hh. }
  cbn [mbind cres_bind]. pose proof (Forall_lookup_1 _ _ _ _ Hall Hh) as Hle. cbn beta in Hle.
  rewrite (proj2 (Z.ltb_ge stop h.1)) by lia. replace (Z.of_nat k + 1) with (Z.of_nat (S k)) by lia.
  apply IH; lia.
Qed.

Lemma ordered_last lo l s t : ordered lo (l ++ [(s, t)]) ->
  Forall (fun h => lo < h.1 <= h.2 /\ h.2 < s) l /\ lo < s <= t.
Proof.
  revert lo. induction l as [|[a b] l IH]; intros lo; cbn [app ordered].
  - intros [H _]. by split.
  - intros [H Ho]. destruct (IH _ Ho) as [F H1]. split; [|lia].
    constructor; [cbn; lia|]. eapply Forall_impl; [|exact F]. intros h. cbn. lia.
Qed.

(** One more hole at the tail. *)
Lemma add_hole_tail e l s t :
  hrep e l -> ordered (-1) (l ++ [(s, t)]) -> (length l < 31)%nat -> s < payload_size e ->
  t < 32767 -> (l = [] -> ~ (s = 0 /\ t = payload_size e - 1)) ->
  (forall h, head l = Some h -> nack_so_start e = h.1) ->
  exists e', rlc_am_add_hole s t e = Ret e' /\ hrep e' (l ++ [(s, t)]) /\
    payload_size e' = payload_size e /\
    (forall h, head (l ++ [(s, t)]) = Some h -> nack_so_start e' = h.1) /\ nack_so_stop e' = t.
Proof.
  intros Hr Hord Hlen Hps Ht Hglob Hstart. destruct (ordered_last _ _ _ _ Hord) as [Hall Hst].
  pose proof Hr as (Hn & rs & rt & E1 & E2 & L1 & L2).
  destruct (hrep_put e l s t (zlen l) Hr ltac:(lia) eq_refl) as (e1 & P1 & R1 & N1 & S1 & A1 & B1).
  unfold rlc_am_add_hole.
  rewrite (proj2 (Z.leb_le s t)), (proj2 (Z.ltb_lt s 32767)), (proj2 (Z.leb_le t 32767)) by lia.
  cbn [c_assert mbind cres_bind]. rewrite (proj2 (Z.eqb_neq t 32767)) by lia. cbn [orb].
  assert ((s =? 0) && (t =? payload_size e - 1) = false) as ->.
  { apply andb_false_iff. destruct (Z.eqb_spec s 0) as [->|]; [right|by left]. apply Z.eqb_neq.
    destruct l as [|h l]; [intros Hp; by apply Hglob|].
    apply Forall_cons_1 in Hall as [Hh _]. lia. }
  rewrite Hn. destruct l as [|h l].
  - change (zlen [] =? 0) with true. change (zlen []) with 0 in *. rewrite P1. cbn [mbind cres_bind].
    cbn [set_nack set_num nack_so_start payload_size]. rewrite S1, (proj2 (Z.ltb_lt s _)) by done.
    cbn [c_assert mbind cres_bind]. eexists. split; [reflexivity|]. split_and!; try done.
    intros h' [= <-]. done.
  - set (l' := h :: l) in *. assert (Hz : 0 < zlen l') by (unfold l', zlen; cbn [length]; lia).
    rewrite (proj2 (Z.eqb_neq (zlen l') 0)) by lia.
    assert (Hle : Forall (fun h => h.1 <= t) l') by (eapply Forall_impl; [|exact Hall]; cbn; lia).
    pose proof (find_after_none e l' t Hr Hle (S (Z.to_nat (zlen l'))) 0) as Hfind.
    change (Z.of_nat 0) with 0 in Hfind. rewrite Hfind by (unfold zlen; lia). cbn [mbind cres_bind].
    destruct (list.last l') as [x|] eqn:El; [|by apply last_None in El].
    rewrite (aget_ok _ _ x.2); [|lia|].
    2:{ rewrite E2, lookup_app_l by (rewrite length_fmap; unfold zlen in *; lia).
        rewrite list_lookup_fmap. rewrite last_lookup in El.
        replace (Z.to_nat (zlen l' - 1)) with (Nat.pred (length l')) by (unfold zlen; lia).
        by rewrite El. }
    cbn [mbind cres_bind]. rewrite (proj2 (Z.ltb_lt x.2 s)).
    2:{ rewrite last_lookup in El. by apply (Forall_lookup_1 _ _ _ _ Hall El). }
    unfold RLC_AM_MAX_HOLES_REPORT_PER_PDU.
    rewrite (proj2 (Z.ltb_lt (zlen l') 32)) by (unfold zlen; lia). cbn [c_assert mbind cres_bind].
    rewrite P1. cbn [mbind cres_bind set_nack set_num num_holes nack_so_start payload_size].
    rewrite N1, Hn, S1, A1, u8_small by (unfold zlen; lia).
    rewrite (proj2 (Z.ltb_lt (zlen l' + 1) 32)) by (unfold zlen; lia).
    rewrite (Hstart h eq_refl). cbn [c_assert mbind cres_bind].
    assert (Hh : h.1 < payload_size e) by (apply Forall_cons_1 in Hall as [Hh _]; lia).
    rewrite (proj2 (Z.ltb_lt h.1 _)) by done. cbn [mbind cres_bind].
    eexists. split; [reflexivity|]. cbn [nack_so_start nack_so_stop payload_size].
    split_and!; try done. intros h' [= <-]. done.
Qed.

Lemma ordered_prefix lo l k : ordered lo (l ++ k) -> ordered lo l.
Proof.
  revert lo. induction l as [|[a b] l IH]; intros lo; cbn [app ordered]; [done|].
  intros [H Ho]. split; [done|]. by apply IH.
Qed.

Lemma add_holes_ok e l :
  hrep e [] -> ordered (-1) l -> (length l < 32)%nat -> payload_size e <= 32767 ->
  Forall (fun h => h.2 < payload_size e - 1) l ->
  exists e', add_holes l e = Ret e' /\ hrep e' l /\ payload_size e' = payload_size e /\
    (forall h, head l = Some h -> nack_so_start e' = h.1) /\
    (forall h, list.last l = Some h -> nack_so_stop e' = h.2).
Proof.
  intros Hr Hord Hlen Hps. induction l as [|[s t] l IH] using rev_ind; intros Hall.
  { exists e. by split_and!. }
  rewrite length_app in Hlen. cbn [length] in Hlen. apply Forall_app in Hall as [Hall Hx].
  apply Forall_cons_1 in Hx as [Hx _]. cbn in Hx. destruct (ordered_last _ _ _ _ Hord) as [_ Hst].
  destruct IH as (e1 & E1 & R1 & P1 & S1 & _); [by eapply ordered_prefix|lia|done|].
  destruct (add_hole_tail e1 l s t R1 Hord) as (e2 & E2 & R2 & P2 & S2 & T2);
    [lia|lia|lia|lia|done|].
  exists e2. unfold add_holes in *. rewrite for_each_app, E1. cbn [mbind cres_bind for_each fst snd].
  rewrite E2. cbn [mbind cres_bind]. split_and!; [done|done|congruence|done|].
  intros h Hh. rewrite last_snoc in Hh. by injection Hh as <-.
Qed.

(** Copies between places of the arrays. *)
Lemma copy_hole_ok i j e :
  length (hole_so_start e) = 32%nat -> length (hole_so_stop e) = 32%nat ->
  0 <= i < 32 -> 0 <= j < 32 ->
  exists x y, hole_so_start e !! Z.to_nat j = Some x /\ hole_so_stop e !! Z.to_nat j = Some y /\
    copy_hole i j e = Ret (set_arrays e (<[Z.to_nat i := x]> (hole_so_start e))
                                        (<[Z.to_nat i := y]> (hole_so_stop e))).
Proof.
  intros L1 L2 Hi Hj. destruct (lookup_lt_is_Some_2 (hole_so_start e) (Z.to_nat j)) as [x Hx]; [lia|].
  destruct (lookup_lt_is_Some_2 (hole_so_stop e) (Z.to_nat j)) as [y Hy]; [lia|].
  exists x, y. split_and!; try done. unfold copy_hole.
  rewrite (aget_ok (hole_so_start e) j x), (aget_ok (hole_so_stop e) j y); try done; try lia.
  cbn [mbind cres_bind]. rewrite !aset_ok by (unfold zlen; lia). done.
Qed.

Lemma copies_in_range d l : Forall (fun i => 0 <= i < 32 /\ 0 <= i + d < 32) l -> forall e,
  length (hole_so_start e) = 32%nat -> length (hole_so_stop e) = 32%nat ->
  exists e', for_each (fun i e => copy_hole i (i + d) e) l e = Ret e'.
Proof.
  induction 1 as [|i l [Hi Hd] _ IH]; intros e L1 L2; [by exists e|].
  destruct (copy_hole_ok i (i + d) e L1 L2 Hi Hd) as (x & y & _ & _ & E).
  cbn [for_each]. rewrite E. cbn [mbind cres_bind].
  apply IH; cbn [set_arrays hole_so_start hole_so_stop]; by rewrite length_insert.
Qed.

(** The loop of [rlc_am_shift_down_holes]. *)
Lemma shift_down_loop l : forall e pa pb x y ra rb,
  hole_so_start e = pa ++ x :: (fst <$> l) ++ ra -> hole_so_stop e = pb ++ y :: (snd <$> l) ++ rb ->
  length pa = length pb -> length (hole_so_start e) = 32%nat -> length (hole_so_stop e) = 32%nat ->
  exists a b, for_each (fun i e => copy_hole i (i + 1) e) (seqZ (zlen pa) (zlen l)) e =
    Ret (set_arrays e (pa ++ (fst <$> l) ++ a :: ra) (pb ++ (snd <$> l) ++ b :: rb)).
Proof.
  induction l as [|[s t] l IH]; intros e pa pb x y ra rb Ea Eb Hp L1 L2.
  { exists x, y. cbn. by destruct e; cbn in *; subst. }
  assert (Hb : (length pa + 1 < 32)%nat).
  { rewrite Ea in L1. rewrite length_app in L1. cbn in L1. lia. }
  assert (Hz : zlen ((s, t) :: l) = Z.succ (zlen l)) by (unfold zlen; cbn [length]; lia).
  rewrite Hz, seqZ_cons, Z.pred_succ by (unfold zlen; lia). cbn [for_each].
  destruct (copy_hole_ok (zlen pa) (zlen pa + 1) e L1 L2) as (u & v & Hu & Hv & ->); [unfold zlen; lia..|].
  replace (Z.to_nat (zlen pa + 1)) with (length pa + 1)%nat in * by (unfold zlen; lia).
  replace (Z.to_nat (zlen pa)) with (length pa + 0)%nat by (unfold zlen; lia).
  rewrite Ea, lookup_app_r in Hu by lia. rewrite Eb, lookup_app_r in Hv by lia.
  replace (length pa + 1 - length pa)%nat with 1%nat in Hu by lia.
  replace (length pa + 1 - length pb)%nat with 1%nat in Hv by lia.
  injection Hu as <-. injection Hv as <-. cbn [mbind cres_bind].
  destruct (IH (set_arrays e (<[(length pa + 0)%nat := s]> (hole_so_start e))
      (<[(length pa + 0)%nat := t]> (hole_so_stop e))) (pa ++ [s]) (pb ++ [t]) s t ra rb)
    as (a & b & E); cbn [set_arrays hole_so_start hole_so_stop]; rewrite ?length_insert; try done.
  - rewrite Ea, insert_app_r, <- app_assoc. done.
  - rewrite Eb, Hp, insert_app_r, <- app_assoc. done.
  - rewrite !length_app, Hp. done.
  - exists a, b. replace (Z.succ (zlen pa)) with (zlen (pa ++ [s])) by (rewrite zlen_app; done).
    rewrite E. cbn [set_arrays]. by rewrite <- !app_assoc.
Qed.

Lemma shift_down_first e h l :
  hrep e (h :: l) -> exists e', rlc_am_shift_down_holes 0 e = Ret e' /\ hrep e' l /\
    payload_size e' = payload_size e.
Proof.
  intros (Hn & rs & rt & E1 & E2 & L1 & L2). unfold rlc_am_shift_down_holes.
  assert (Hl : (length l < 32)%nat) by (rewrite E1, length_app, length_fmap in L1; cbn in L1; lia).
  replace (num_holes e - 1 - 0) with (zlen l) by (rewrite Hn; unfold zlen; cbn [length]; lia).
  destruct (shift_down_loop l e [] [] h.1 h.2 rs rt E1 E2 eq_refl L1 L2) as (a & b & E).
  change (zlen []) with 0 in E. rewrite E. cbn [mbind cres_bind app]. eexists. split; [reflexivity|].
  split; [|done]. cbn [set_num set_arrays num_holes]. split.
  - cbn [num_holes]. rewrite Hn. rewrite u8_small by (unfold zlen; cbn [length]; lia).
    unfold zlen. cbn [set_num num_holes length]. lia.
  - exists (a :: rs), (b :: rt). cbn [set_num set_arrays hole_so_start hole_so_stop]. split_and!; try done.
    + rewrite <- L1, E1, !length_app, !length_fmap. cbn [length]. lia.
    + rewrite <- L2, E2, !length_app, !length_fmap. cbn [length]. lia.
Qed.

(** The first hole of an entry. *)
Lemma first_hole e s t l : hrep e ((s, t) :: l) ->
  (num_holes e =? 0) = false /\ aget (hole_so_start e) 0 = Ret s /\ aget (hole_so_stop e) 0 = Ret t.
Proof.
  intros (Hn & rs & rt & E1 & E2 & _). rewrite Hn, E1, E2. split; [|done].
  apply Z.eqb_neq. unfold zlen. cbn [length]. lia.
Qed.

(** The loop of [rlc_am_remove_hole] on the range of the first hole. *)
Lemma remove_loop_first fuel e s0 t0 s1 t1 l :
  hrep e ((s0, t0) :: (s1, t1) :: l) -> ordered (-1) ((s0, t0) :: (s1, t1) :: l) ->
  exists e', remove_loop (S (S fuel)) 0 s0 t0 e = Ret (true, e') /\ hrep e' ((t0, t1) :: l).
Proof.
  intros Hr Hord. destruct (first_hole _ _ _ _ Hr) as (Hn0 & F1 & F2).
  cbn [ordered] in Hord. destruct Hord as (O1 & O2 & _).
  destruct (shift_down_first _ _ _ Hr) as (e1 & Ed & R1 & _).
  destruct (first_hole _ _ _ _ R1) as (Hn1 & G1 & G2).
  pose proof R1 as (Hm & rs & rt & E1 & E2 & L1 & L2).
  assert (Hp1 : 0 < num_holes e1) by (rewrite Hm; unfold zlen; cbn [length]; lia).
  assert (Hp0 : 0 < num_holes e) by (destruct Hr as [-> _]; unfold zlen; cbn [length]; lia).
  cbn [remove_loop].
  rewrite F1, F2, (proj2 (Z.ltb_lt 0 (num_holes e))) by lia. cbn [mbind cres_bind].
  rewrite !Z.leb_refl.
  rewrite Ed. cbn [mbind cres_bind]. rewrite G1, G2, (proj2 (Z.ltb_lt 0 (num_holes e1))) by lia.
  cbn [mbind cres_bind]. rewrite (proj2 (Z.leb_le s0 s1)), (proj2 (Z.leb_gt t1 t0)) by lia.
  rewrite aset_ok by (unfold zlen; lia). cbn [mbind cres_bind]. change (Z.to_nat 0) with 0%nat.
  rewrite E1. cbn [fmap list_fmap app fst insert list_insert]. unfold nack_range.
  cbn [set_arrays num_holes hole_so_start hole_so_stop]. rewrite Hn1. cbn [aget Z.leb].
  destruct (lookup_lt_is_Some_2 (hole_so_stop e1) (Z.to_nat (num_holes e1 - 1))) as [t Ht].
  { rewrite L2, Hm. unfold zlen. cbn [length]. rewrite E1 in L1. cbn in L1.
    rewrite length_app, length_fmap in L1. lia. }
  rewrite (aget_ok (hole_so_stop e1) _ t) by (done || lia). cbn.
  eexists. split; [reflexivity|]. split; [done|].
  exists rs, rt. cbn. split_and!; try done. by rewrite E1 in L1.
Qed.

(** [rlc_am_remove_hole] when its loop returns. *)
Lemma remove_hole_returned s t e e' :
  (num_holes e =? 0) = false -> s <= t -> remove_loop 64 0 s t e = Ret (true, e') ->
  rlc_am_remove_hole s t e = Ret e'.
Proof.
  intros Hn Hst E. unfold rlc_am_remove_hole. rewrite E, Hn, (proj2 (Z.leb_le s t)) by done. done.
Qed.

(** ** Properties *)

(** The window tests decide the order of the counts.  Whatever the wraps of the sequence
    numbers, for counts less than a sequence number space after the start of the window, the
    tests on sequence numbers are the comparisons of the counts. *)
Theorem am_windows_follow_counts r A R H X M c1 c2 :
  counts r A R H X M ->
  (A <= c1 < A + 1024 ->
   (rlc_am_in_tx_window r (c1 mod 1024) = 1 <-> c1 < A + RLC_AM_WINDOW_SIZE)) /\
  (R <= c1 < R + 1024 ->
   (rlc_am_in_rx_window r (c1 mod 1024) = 1 <-> c1 < R + RLC_AM_WINDOW_SIZE) /\
   (rlc_am_sn_gte_vr_h r (c1 mod 1024) = 1 <-> H <= c1) /\
   (rlc_am_sn_gte_vr_x r (c1 mod 1024) = 1 <-> X <= c1) /\
   (rlc_am_sn_gt_vr_ms r (c1 mod 1024) = 1 <-> M < c1)) /\
  (A <= c1 < A + 1024 -> A <= c2 < A + 1024 ->
   (rlc_am_tx_sn1_gt_sn2 r (c1 mod 1024) (c2 mod 1024) = 1 <-> c2 < c1)) /\
  (R <= c1 < R + 1024 -> R <= c2 < R + 1024 ->
   (rlc_am_rx_sn1_gt_sn2 r (c1 mod 1024) (c2 mod 1024) = 1 <-> c2 < c1)).
Proof.
  intros [Ca Cms Cr Cmr Ch Cx Cm Hh Hx Hm].
  unfold rlc_am_in_tx_window, rlc_am_in_rx_window, rlc_am_sn_gte_vr_h, rlc_am_sn_gte_vr_x,
    rlc_am_sn_gt_vr_ms, rlc_am_tx_sn1_gt_sn2, rlc_am_rx_sn1_gt_sn2, RLC_AM_WINDOW_SIZE in *.
  rewrite !sn_of_count, Ca, Cms, Cr, Cmr, Ch, Cx, Cm. cbn [orb].
  split_and!; intros; split_and!; rewrite !shifted_count by lia; apply if_iff;
    rewrite ?andb_true_iff, ?Z.leb_le, ?Z.ltb_lt; lia.
Qed.

Lemma am_windows_follow_counts_witness :
  let r := Build_am_vars 1000 488 1020 508 2 2 3 in
  rlc_am_in_tx_window r 1 = 1 /\ rlc_am_sn_gte_vr_h r 1 = 0 /\ rlc_am_rx_sn1_gt_sn2 r 1 1021 = 1.
Proof.
  assert (C : counts (Build_am_vars 1000 488 1020 508 2 2 3) 1000 1020 1026 1026 1027)
    by (constructor; try reflexivity; lia).
  destruct (am_windows_follow_counts _ _ _ _ _ _ 1025 1021 C) as (W1 & W2 & _ & W4).
  split; [|split].
  - apply W1; unfold RLC_AM_WINDOW_SIZE; lia.
  - destruct (W2 ltac:(lia)) as (_ & Wh & _). reflexivity.
  - apply W4; lia.
Defined.

(** The holes of a status report.  Ranges reported in increasing order, inside the PDU, are
    recorded as they are, and the next hole to retransmit is the first of them, as long as
    there are fewer than 32. *)
Theorem holes_recorded_in_order e l :
  hrep e [] -> ordered (-1) l -> (length l < 32)%nat -> payload_size e <= 32767 ->
  Forall (fun h => h.2 < payload_size e - 1) l ->
  exists e', add_holes l e = Ret e' /\ hrep e' l /\
    (forall h, head l = Some h -> rlc_am_get_next_hole e' = Ret h /\ nack_so_start e' = h.1) /\
    (forall h, list.last l = Some h -> nack_so_stop e' = h.2).
Proof.
  intros Hr Hord Hlen Hps Hall.
  destruct (add_holes_ok e l Hr Hord Hlen Hps Hall) as (e' & E & R & _ & S & T).
  exists e'. split_and!; try done. intros h Hh. split; [|by apply S].
  destruct R as (Hn & rs & rt & E1 & E2 & _). destruct l as [|[s t] l]; [done|].
  injection Hh as <-. unfold rlc_am_get_next_hole. rewrite Hn, E1, E2.
  rewrite (proj2 (Z.eqb_neq _ 0)) by (unfold zlen; cbn [length]; lia). done.
Qed.

(** An entry of the retransmission buffer with no hole. *)
Definition fresh_pdu (size : Z) : pdu_mgmt := Pdu (replicate 32 0) (replicate 32 0) 0 size 0 32767.

Lemma fresh_hrep size : hrep (fresh_pdu size) [].
Proof. split; [done|]. by exists (replicate 32 0), (replicate 32 0). Qed.

Lemma holes_recorded_in_order_witness :
  exists e', add_holes [(0, 9); (100, 199); (300, 310)] (fresh_pdu 1000) = Ret e' /\
    rlc_am_get_next_hole e' = Ret (0, 9) /\ nack_so_stop e' = 310.
Proof.
  destruct (holes_recorded_in_order (fresh_pdu 1000) [(0, 9); (100, 199); (300, 310)])
    as (e' & E & _ & Hh & Ht).
  - apply fresh_hrep.
  - cbn. lia.
  - cbn. lia.
  - cbn. lia.
  - apply Forall_cons_2; [cbn; lia|]. apply Forall_cons_2; [cbn; lia|].
    apply Forall_cons_2; [cbn; lia|]. done.
  - exists e'. split; [exact E|]. split; [apply (Hh (0, 9) eq_refl)|apply (Ht (300, 310) eq_refl)].
Defined.

(** A hole reported before the recorded ones.  When the new range lies before the first
    hole, the loop that makes room copies the hole of index -1, outside the arrays. *)
Theorem add_hole_before_first_traps e s0 t0 l s t :
  hrep e ((s0, t0) :: l) -> (length l < 31)%nat -> 0 < s <= t -> t < s0 -> s0 < 32767 ->
  rlc_am_add_hole s t e = Trap FOob.
Proof.
  intros Hr Hlen Hst Hts Hs0. destruct (first_hole _ _ _ _ Hr) as (Hn0 & F1 & _).
  destruct Hr as (Hn & _ & _ & _ & _ & L1 & L2).
  assert (Hz : zlen ((s0, t0) :: l) = zlen l + 1) by (unfold zlen; cbn [length]; lia).
  pose proof (zlen_nonneg l). unfold rlc_am_add_hole.
  rewrite (proj2 (Z.leb_le s t)), (proj2 (Z.ltb_lt s 32767)), (proj2 (Z.leb_le t 32767)) by lia.
  cbn [c_assert mbind cres_bind]. rewrite (proj2 (Z.eqb_neq s 0)), (proj2 (Z.eqb_neq t 32767)) by lia.
  cbn [andb]. rewrite Hn0. cbn [find_after]. rewrite F1, (proj2 (Z.ltb_lt 0 (num_holes e))) by lia.
  cbn [mbind cres_bind]. rewrite (proj2 (Z.ltb_lt t s0)) by lia. cbn [mbind cres_bind].
  unfold insert_hole, RLC_AM_MAX_HOLES_REPORT_PER_PDU.
  rewrite (proj2 (Z.ltb_lt _ 32)) by (rewrite Hn; unfold zlen in *; lia).
  change (0 <? 0) with false. cbn [c_assert mbind cres_bind].
  replace (num_holes e - 0 + 1) with (Z.succ (num_holes e)) by lia.
  rewrite seqZ_cons, Z.pred_succ, reverse_cons, for_each_app by lia.
  destruct (copies_in_range (-1) (reverse (seqZ (Z.succ 0) (num_holes e)))) with (e := e) as [e1 E1];
    [|done|done|].
  { apply Forall_forall. intros i Hi%list_elem_of_In%elem_of_reverse%elem_of_seqZ. unfold zlen in *. lia. }
  unfold Z.sub. change (- (1)) with (-1). rewrite E1. reflexivity.
Qed.

Lemma add_hole_before_first_traps_witness :
  exists e', add_holes [(100, 199)] (fresh_pdu 1000) = Ret e' /\ rlc_am_add_hole 5 9 e' = Trap FOob.
Proof.
  eexists. split; [vm_compute; reflexivity|].
  apply (add_hole_before_first_traps _ 100 199 [] 5 9); [|cbn; lia|lia|lia|lia].
  split; [reflexivity|]. by exists (replicate 31 0), (replicate 31 0).
Defined.

(** Retransmission of the first hole.  Removing exactly the range that [rlc_am_get_next_hole]
    gave, when a second hole follows, drops the first hole but also moves the start of the
    second one down to the end of the first: the bytes between the two holes, which the receiver
    has, are marked missing. *)
Theorem remove_first_hole_widens_second e s0 t0 s1 t1 l :
  hrep e ((s0, t0) :: (s1, t1) :: l) -> ordered (-1) ((s0, t0) :: (s1, t1) :: l) ->
  exists e', rlc_am_get_next_hole e = Ret (s0, t0) /\ rlc_am_remove_hole s0 t0 e = Ret e' /\
    hrep e' ((t0, t1) :: l).
Proof.
  intros Hr Hord. destruct (first_hole _ _ _ _ Hr) as (Hn0 & F1 & F2).
  destruct (remove_loop_first 62 e s0 t0 s1 t1 l Hr Hord) as (e' & E & Hr').
  exists e'. split_and!; [|apply remove_hole_returned; [done|cbn in Hord; lia|done]|done].
  unfold rlc_am_get_next_hole. by rewrite Hn0, F1, F2.
Qed.

Lemma remove_first_hole_widens_second_witness :
  exists e e', add_holes [(0, 9); (100, 199)] (fresh_pdu 1000) = Ret e /\
    rlc_am_remove_hole 0 9 e = Ret e' /\ hrep e' [(9, 199)].
Proof.
  eexists _. destruct (remove_first_hole_widens_second
    (Pdu ([0; 100] ++ replicate 30 0) ([9; 199] ++ replicate 30 0) 2 1000 0 199) 0 9 100 199 [])
    as (e' & _ & E & H).
  - split; [reflexivity|]. by exists (replicate 30 0), (replicate 30 0).
  - cbn. lia.
  - exists e'. split; [vm_compute; reflexivity|]. split; [exact E|exact H].
Defined.
