(* ===== verification/RlcAmStatus.v ===== *)
(** The STATUS PDU of acknowledged mode: the bit fields, the decoder and the encoder of
    [openair2/LAYER2/RLC/AM_v9.3.0/rlc_am_status_report.c].

    A pointer into the PDU is the offset of an octet and the position of a bit in it, 0 being
    the most significant bit.  The theorems see a buffer as a stream of bits ([bit b i]); the
    encoder lays the fields one after the other in the stream and the decoder reads them back. *)
From stdpp Require Import base list numbers.
From Stdlib Require Import ZArith Lia.
From S2P Require Import Prelude RlcPrims.
Open Scope Z_scope.

(** ** Data *)

(** [RLC_AM_MAX_NACK_IN_STATUS_PDU] *)
Definition RLC_AM_MAX_NACK_IN_STATUS_PDU : Z := 1023.

(** [nack_sn_t], bit fields of 10, 1, 1, 15 and 15 bits *)
Record nack_sn_t := Nack {
  nack_sn : Z;
  nk_e1 : Z;
  nk_e2 : Z;
  so_start : Z;
  so_end : Z;
}.

(** [rlc_am_control_pdu_info_t] *)
Record rlc_am_control_pdu_info_t := {
  d_c : Z;
  cpt : Z;
  ack_sn : Z;
  e1 : Z;
  num_nack : Z;
  nack_list : list nack_sn_t;
}.

(** After [memset(..., 0, ...)]. *)
Definition zero_info : rlc_am_control_pdu_info_t :=
  Build_rlc_am_control_pdu_info_t 0 0 0 0 0
    (replicate (Z.to_nat RLC_AM_MAX_NACK_IN_STATUS_PDU) (Nack 0 0 0 0 0)).

(** A cursor: the offset of the octet and the position of the bit. *)
Definition cursor : Type := Z * Z.

(** ** Bit fields *)

(** The loop of [rlc_am_read_bit_field].  A turn that does not finish takes at least one bit:
    one unit of fuel more than the number of bits is enough. *)
Fixpoint read_loop (fuel : nat) (b : list Z) (c : cursor) (bits_to_read value : Z)
  : cres (Z * cursor) :=
  match fuel with
  | O => Trap FFuel
  | S fuel =>
      let '(data, bit_pos) := c in
      let bits_read := 8 - bit_pos in
      o ← aget b data;
      let masked := Z.land o (Z.shiftr 255 bit_pos) in
      if bits_to_read <? bits_read then
        Ret (u16 (Z.lor (Z.shiftl value bits_to_read) (Z.shiftr masked (bits_read - bits_to_read))),
             (data, bit_pos + bits_to_read))
      else if bits_read =? bits_to_read then
        Ret (u16 (Z.lor (Z.shiftl value bits_to_read) masked), (data + 1, 0))
      else
        let value := u16 (Z.lor (Z.shiftl value bits_read) masked) in
        let bits_to_read := bits_to_read - bits_read in
        if 0 <? bits_to_read then read_loop fuel b (data + 1, 0) bits_to_read value
        else Ret (value, (data + 1, 0))
  end.

Definition rlc_am_read_bit_field (b : list Z) (c : cursor) (bits_to_read : Z)
  : cres (Z * cursor) :=
  read_loop (S (Z.to_nat bits_to_read)) b c bits_to_read 0.

(** The loop of [rlc_am_write8_bit_field]; the bits are or-ed into the octets. *)
Fixpoint write8_loop (fuel : nat) (b : list Z) (c : cursor) (bits_to_write value : Z)
  : cres (list Z * cursor) :=
  match fuel with
  | O => Trap FFuel
  | S fuel =>
      let '(data, bit_pos) := c in
      let available := 8 - bit_pos in
      o ← aget b data;
      if bits_to_write <? available then
        let sh := available - bits_to_write in
        b ← aset b data (u8 (Z.lor o (Z.shiftl (Z.land value (Z.shiftr 255 sh)) sh)));
        Ret (b, (data, bit_pos + bits_to_write))
      else if available =? bits_to_write then
        b ← aset b data (u8 (Z.lor o (Z.land value (Z.shiftr 255 (8 - bits_to_write)))));
        Ret (b, (data + 1, 0))
      else
        b ← aset b data (u8 (Z.lor o (Z.shiftr value (bits_to_write - available))));
        let bits_to_write := bits_to_write - available in
        if 0 <? bits_to_write then write8_loop fuel b (data + 1, 0) bits_to_write value
        else Ret (b, (data + 1, 0))
  end.

Definition rlc_am_write8_bit_field (b : list Z) (c : cursor) (bits_to_write value : Z)
  : cres (list Z * cursor) :=
  write8_loop (S (Z.to_nat bits_to_write)) b c bits_to_write (u8 value).

Definition rlc_am_write16_bit_field (b : list Z) (c : cursor) (bits_to_write value : Z)
  : cres (list Z * cursor) :=
  _ ← c_assert (bits_to_write <=? 16);
  if 8 <? bits_to_write then
    '(b, c) ← rlc_am_write8_bit_field b c (bits_to_write - 8) (u8 (Z.shiftr value 8));
    rlc_am_write8_bit_field b c 8 (u8 (Z.land value 255))
  else rlc_am_write8_bit_field b c bits_to_write (u8 (Z.land value 255)).

(** ** Decoder *)

(** One element of the list of negative acknowledgements. *)
Definition read_nack (b : list Z) (c : cursor) : cres (nack_sn_t * cursor) :=
  '(sn, c) ← rlc_am_read_bit_field b c 10;
  '(x1, c) ← rlc_am_read_bit_field b c 1;
  '(x2, c) ← rlc_am_read_bit_field b c 1;
  if negb (x2 =? 0) then
    '(s, c) ← rlc_am_read_bit_field b c 15;
    '(e, c) ← rlc_am_read_bit_field b c 15;
    Ret (Nack sn x1 x2 s e, c)
  else Ret (Nack sn x1 x2 0 32767, c).

(** The octets consumed: [byte_pos_p + (bit_pos + 7) / 8 - header_pP]. *)
Definition consumed (c : cursor) : Z := c.1 + (c.2 + 7) / 8.

(** The [while (nack_to_read)] loop.  It stops at the last element or when the array is full,
    so [RLC_AM_MAX_NACK_IN_STATUS_PDU] turns are enough. *)
Fixpoint nack_loop (fuel : nat) (b : list Z) (c : cursor) (total_size : Z)
  (i : rlc_am_control_pdu_info_t) : cres (Z * Z * rlc_am_control_pdu_info_t) :=
  match fuel with
  | O => Trap FFuel
  | S fuel =>
      '(x, c) ← read_nack b c;
      l ← aset (nack_list i) (num_nack i) x;
      let i := Build_rlc_am_control_pdu_info_t (d_c i) (cpt i) (ack_sn i) (e1 i)
                 (u16 (num_nack i + 1)) l in
      if nk_e1 x =? 0 then Ret (0, i32 (total_size - consumed c), i)
      else if num_nack i =? RLC_AM_MAX_NACK_IN_STATUS_PDU
      then Ret (-2, i32 (total_size - consumed c), i)
      else nack_loop fuel b c total_size i
  end.

(** Returns the result, the size left and the decoded information.  The size is not used as a
    bound for the reads. *)
Definition rlc_am_get_control_pdu_infos (b : list Z) (total_size : Z)
  : cres (Z * Z * rlc_am_control_pdu_info_t) :=
  b1 ← aget b 0;
  let set dc cp ack x1 :=
    Build_rlc_am_control_pdu_info_t dc cp ack x1 0 (nack_list zero_info) in
  let dc := Z.land (Z.shiftr b1 7) 1 in
  if dc =? 0 then
    let cp := Z.land (Z.shiftr b1 4) 7 in
    if negb (cp =? 0) then Ret (-3, total_size, set dc cp 0 0)
    else
      b2 ← aget b 1;
      let ack := Z.lor (Z.land (Z.shiftr b2 2) 63) (Z.shiftl (Z.land b1 15) 6) in
      let x1 := Z.land (Z.shiftr b2 1) 1 in
      let i := set dc cp ack x1 in
      if negb (x1 =? 0) then
        nack_loop (Z.to_nat RLC_AM_MAX_NACK_IN_STATUS_PDU) b (1, 7) total_size i
      else Ret (0, i32 (total_size - 2), i)
  else Ret (-1, total_size, set dc 0 0 0).

(** ** Encoder *)

Definition write_nack (b : list Z) (c : cursor) (x : nack_sn_t) : cres (list Z * cursor) :=
  '(b, c) ← rlc_am_write16_bit_field b c 10 (nack_sn x);
  '(b, c) ← rlc_am_write8_bit_field b c 1 (nk_e1 x);
  '(b, c) ← rlc_am_write8_bit_field b c 1 (nk_e2 x);
  if 0 <? nk_e2 x then
    '(b, c) ← rlc_am_write16_bit_field b c 15 (so_start x);
    rlc_am_write16_bit_field b c 15 (so_end x)
  else Ret (b, c).

(** Returns the number of octets and the PDU. *)
Definition rlc_am_write_status_pdu (b : list Z) (i : rlc_am_control_pdu_info_t)
  : cres (Z * list Z) :=
  '(b, c) ← rlc_am_write16_bit_field b (0, 4) 10 (ack_sn i);
  '(b, c) ← rlc_am_write8_bit_field b c 1 (if 0 <? num_nack i then 1 else 0);
  '(b, c) ← for_each (fun index s => let '(b, c) := s in
                        x ← aget (nack_list i) index; write_nack b c x)
              (zrange 0 (Z.to_nat (num_nack i))) (b, c);
  Ret (c.1 + (if 0 <? c.2 then 1 else 0), b).

(** ** A buffer as a stream of bits *)

(** Bit [i] of the stream. *)
Definition bit (b : list Z) (i : Z) : bool :=
  match b !! Z.to_nat (i / 8) with Some o => Z.testbit o (7 - i mod 8) | None => false end.

Definition octets (b : list Z) : Prop := Forall (fun o => 0 <= o < 256) b.

(** The place of a cursor in the stream. *)
Definition place (c : cursor) : Z := 8 * c.1 + c.2.
Definition cursor_ok (c : cursor) : Prop := 0 <= c.1 /\ 0 <= c.2 < 8.

(** The [n] bits at [p] are the number [v], most significant bit first. *)
Definition field (b : list Z) (p n v : Z) : Prop :=
  forall j, 0 <= j < n -> bit b (p + n - 1 - j) = Z.testbit v j.

(** No bit is set from [p] on. *)
Definition clear_from (b : list Z) (p : Z) : Prop := forall i, p <= i -> bit b i = false.

(** ** Lemmas on the bit fields *)

Lemma bit_in b d o k :
  0 <= d -> b !! Z.to_nat d = Some o -> 0 <= k < 8 -> bit b (8 * d + k) = Z.testbit o (7 - k).
Proof.
  intros Hd Ho Hk. unfold bit.
  replace ((8 * d + k) / 8) with d by (Z.div_mod_to_equations; lia).
  replace ((8 * d + k) mod 8) with k by (Z.div_mod_to_equations; lia). by rewrite Ho.
Qed.

Lemma bit_insert_other b d o i :
  0 <= d -> 0 <= i -> i / 8 <> d -> bit (<[Z.to_nat d := o]> b) i = bit b i.
Proof.
  intros Hd Hi Hne. unfold bit. rewrite list_lookup_insert_ne; [done|].
  pose proof (Z.div_pos i 8). lia.
Qed.

Lemma bit_insert_same b d o k :
  0 <= d < zlen b -> 0 <= k < 8 -> bit (<[Z.to_nat d := o]> b) (8 * d + k) = Z.testbit o (7 - k).
Proof.
  intros Hd Hk. unfold zlen in Hd. eapply bit_in; [lia| |done].
  apply list_lookup_insert_eq. lia.
Qed.

Lemma testbit_mask o bp j :
  0 <= bp < 8 -> 0 <= j -> Z.testbit (Z.land o (Z.shiftr 255 bp)) j = (j <? 8 - bp) && Z.testbit o j.
Proof.
  intros Hb Hj. rewrite Z.land_spec, Z.shiftr_spec by lia. change 255 with (Z.ones 8).
  rewrite Z.testbit_ones_nonneg by lia.
  rewrite andb_comm. f_equal. destruct (Z.ltb_spec (j + bp) 8); destruct (Z.ltb_spec j (8 - bp)); lia.
Qed.

(** The octet under a cursor that is inside the buffer. *)
Lemma octet_at b d : octets b -> 0 <= d < zlen b ->
  exists o, b !! Z.to_nat d = Some o /\ aget b d = Ret o /\ 0 <= o < 256.
Proof.
  intros Hb Hd. unfold zlen in Hd.
  destruct (lookup_lt_is_Some_2 b (Z.to_nat d)) as [o Ho]; [lia|].
  exists o. split_and!; [done| |by eapply (Forall_lookup_1 _ _ _ _ Hb)..].
  by apply aget_ok; [lia|].
Qed.

(** A number is determined by its bits below a bound. *)
Lemma bits_eq n v w : 0 <= n -> 0 <= v < 2 ^ n -> 0 <= w < 2 ^ n ->
  (forall j, 0 <= j < n -> Z.testbit v j = Z.testbit w j) -> v = w.
Proof.
  intros Hn Hv Hw H. apply Z.bits_inj'. intros j Hj. destruct (Z.lt_ge_cases j n); [by apply H|].
  rewrite !(testbit_above _ n); (done || lia).
Qed.

Lemma bits_bound n v : 0 <= n -> 0 <= v -> (forall j, n <= j -> Z.testbit v j = false) -> v < 2 ^ n.
Proof.
  intros Hn Hv H. destruct (Z.lt_ge_cases v (2 ^ n)) as [|Hge]; [done|].
  assert (0 < 2 ^ n) by (apply Z.pow_pos_nonneg; lia).
  assert (Hlog : n <= Z.log2 v) by (apply Z.log2_le_pow2; lia).
  specialize (H _ Hlog). rewrite Z.bit_log2 in H by lia. done.
Qed.

(** Appending the bits of a chunk to a value. *)
Lemma append_bits value k m chunk :
  0 <= m -> 0 <= k -> k + m <= 16 -> 0 <= value < 2 ^ k -> 0 <= chunk ->
  (forall j, m <= j -> Z.testbit chunk j = false) ->
  let v := u16 (Z.lor (Z.shiftl value m) chunk) in
  0 <= v < 2 ^ (k + m) /\
  forall j, 0 <= j -> Z.testbit v j = if j <? m then Z.testbit chunk j else Z.testbit value (j - m).
Proof.
  intros Hm Hk Hkm Hv Hc Hcb v. pose proof (bits_bound m chunk Hm Hc Hcb) as Hcm.
  assert (Hval : Z.lor (Z.shiftl value m) chunk = chunk + value * 2 ^ m).
  { rewrite Z.lor_comm. apply lor_shiftl_add; lia. }
  assert (Hp : 2 ^ (k + m) = 2 ^ k * 2 ^ m) by (apply Z.pow_add_r; lia).
  assert (H16 : 2 ^ (k + m) <= 2 ^ 16) by (apply Z.pow_le_mono_r; lia).
  assert (Hr : 0 <= Z.lor (Z.shiftl value m) chunk < 2 ^ (k + m)) by (rewrite Hval; nia).
  assert (Ev : v = Z.lor (Z.shiftl value m) chunk) by (apply u16_small; lia).
  rewrite Ev. split; [done|]. intros j Hj. rewrite Z.lor_spec, Z.shiftl_spec by done.
  destruct (Z.ltb_spec j m).
  - by rewrite (Z.testbit_neg_r value) by lia.
  - by rewrite Hcb, orb_false_r by lia.
Qed.

(** What a turn of the reading loop takes from an octet: [m] bits from bit [bp] on. *)
Lemma read_chunk b d o bp sh m :
  0 <= d -> b !! Z.to_nat d = Some o -> 0 <= o < 256 -> 0 <= bp < 8 -> 0 <= sh -> 0 <= m ->
  bp + m + sh = 8 ->
  let chunk := Z.shiftr (Z.land o (Z.shiftr 255 bp)) sh in
  0 <= chunk /\
  forall j, 0 <= j -> Z.testbit chunk j = if j <? m then bit b (8 * d + bp + m - 1 - j) else false.
Proof.
  intros Hd Ho Hob Hbp Hsh Hm Hsum chunk.
  split; [apply Z.shiftr_nonneg, Z.land_nonneg; lia|]. intros j Hj. unfold chunk.
  rewrite Z.shiftr_spec, testbit_mask by lia. destruct (Z.ltb_spec j m).
  - rewrite (proj2 (Z.ltb_lt _ _)) by lia. cbn [andb].
    replace (8 * d + bp + m - 1 - j) with (8 * d + (bp + m - 1 - j)) by lia.
    rewrite (bit_in b d o) by (done || lia). f_equal. lia.
  - by rewrite (proj2 (Z.ltb_ge _ _)) by lia.
Qed.

(** The value after such a turn. *)
Lemma read_turn b d o bp sh m k value :
  0 <= d -> b !! Z.to_nat d = Some o -> 0 <= o < 256 -> 0 <= bp < 8 -> 0 <= sh -> 0 <= m ->
  bp + m + sh = 8 -> 0 <= k -> k + m <= 16 -> 0 <= value < 2 ^ k ->
  let v := u16 (Z.lor (Z.shiftl value m) (Z.shiftr (Z.land o (Z.shiftr 255 bp)) sh)) in
  0 <= v < 2 ^ (k + m) /\
  forall j, 0 <= j -> Z.testbit v j =
    if j <? m then bit b (8 * d + bp + m - 1 - j) else Z.testbit value (j - m).
Proof.
  intros Hd Ho Hob Hbp Hsh Hm Hsum Hk Hkm Hv v.
  destruct (read_chunk b d o bp sh m) as [Hc0 Hcb]; try done.
  destruct (append_bits value k m (Z.shiftr (Z.land o (Z.shiftr 255 bp)) sh)) as [Hr Hbits]; try done.
  { intros j Hj. rewrite Hcb by lia. by rewrite (proj2 (Z.ltb_ge _ _)) by lia. }
  split; [exact Hr|]. intros j Hj. unfold v. rewrite Hbits by done.
  destruct (Z.ltb_spec j m); [|done]. rewrite Hcb, (proj2 (Z.ltb_lt _ _)) by lia. done.
Qed.

Lemma read_loop_ok b : octets b -> forall fuel c n k value,
  cursor_ok c -> 0 < n -> 0 <= k -> k + n <= 16 -> 0 <= value < 2 ^ k ->
  place c + n <= 8 * zlen b -> n < Z.of_nat fuel ->
  exists v c', read_loop fuel b c n value = Ret (v, c') /\ cursor_ok c' /\
    place c' = place c + n /\ 0 <= v < 2 ^ (k + n) /\
    forall j, 0 <= j -> Z.testbit v j =
      if j <? n then bit b (place c + n - 1 - j) else Z.testbit value (j - n).
Proof.
  intros Hb. induction fuel as [|fuel IH]; intros [d bp] n k value [Hd Hbp] Hn Hk Hkn Hv Hin Hf;
    [lia|]. unfold place in *. cbn [fst snd] in *.
  destruct (octet_at b d Hb) as (o & Ho & Ea & Hob); [lia|].
  cbn [read_loop]. rewrite Ea. cbn [mbind cres_bind].
  destruct (Z.ltb_spec n (8 - bp)) as [Hlt|Hge].
  { destruct (read_turn b d o bp (8 - bp - n) n k value) as [Hr Hbits]; try done; try lia.
    eexists _, _. split; [reflexivity|]. unfold cursor_ok. cbn [fst snd]. split_and!; try done; lia. }
  destruct (read_turn b d o bp 0 (8 - bp) k value) as [Hr Hbits]; try done; try lia.
  rewrite Z.shiftr_0_r in Hr, Hbits. set (m := 8 - bp) in *.
  set (v1 := u16 _) in Hr, Hbits. destruct (Z.eqb_spec m n) as [Heq|Hne].
  { subst n. eexists _, _. split; [reflexivity|]. unfold cursor_ok. cbn [fst snd].
    split_and!; try done; lia. }
  rewrite (proj2 (Z.ltb_lt 0 (n - m))) by lia. fold v1.
  destruct (IH (d + 1, 0) (n - m) (k + m) v1) as (v & c' & E & Hc' & Hpl & Hvr & Hvb);
    [split; cbn; lia|lia|lia|lia|done|cbn [fst snd]; lia|lia|].
  exists v, c'. rewrite E. cbn [fst snd] in *. split_and!; try done; try lia.
  { replace (k + n) with (k + m + (n - m)) by lia. apply Hvr. }
  intros j Hj. rewrite Hvb by done. destruct (Z.ltb_spec j (n - m)).
  - rewrite (proj2 (Z.ltb_lt j n)) by lia. f_equal. lia.
  - rewrite Hbits by lia. destruct (Z.ltb_spec (j - (n - m)) m).
    + rewrite (proj2 (Z.ltb_lt j n)) by lia. f_equal. lia.
    + rewrite (proj2 (Z.ltb_ge j n)) by lia. f_equal. lia.
Qed.

(** Reading a field. *)
Lemma read_field b c n v :
  octets b -> cursor_ok c -> 0 < n <= 16 -> place c + n <= 8 * zlen b ->
  0 <= v < 2 ^ n -> field b (place c) n v ->
  exists c', rlc_am_read_bit_field b c n = Ret (v, c') /\ cursor_ok c' /\ place c' = place c + n.
Proof.
  intros Hb Hc Hn Hin Hv Hf. unfold rlc_am_read_bit_field.
  destruct (read_loop_ok b Hb (S (Z.to_nat n)) c n 0 0) as (w & c' & E & Hc' & Hp & Hw & Hbits);
    [done|lia..|]. exists c'. rewrite E. split_and!; [|done|done].
  do 2 f_equal. rewrite Z.add_0_l in Hw. apply (bits_eq n); [lia|done|done|]. intros j Hj.
  rewrite Hbits, (proj2 (Z.ltb_lt j n)) by lia. by apply Hf.
Qed.

(** The effect of a write: the bits of [v] are or-ed in at [p]. *)
Definition or_bits (b b' : list Z) (p n v : Z) : Prop :=
  forall i, 0 <= i -> bit b' i = bit b i || ((p <=? i) && (i <? p + n) && Z.testbit v (p + n - 1 - i)).

(** One octet or-ed with the [m] bits of [w] that end before bit [e] of it. *)
Lemma or_octet b d o x e m :
  octets b -> 0 <= d < zlen b -> b !! Z.to_nat d = Some o -> 0 <= m <= e -> e <= 8 ->
  0 <= x -> (forall j, 0 <= j -> Z.testbit x j = true -> 8 - e <= j < 8 - e + m) ->
  let b' := <[Z.to_nat d := u8 (Z.lor o x)]> b in
  octets b' /\ aset b d (u8 (Z.lor o x)) = Ret b' /\ zlen b' = zlen b /\
  or_bits b b' (8 * d + e - m) m (Z.shiftr x (8 - e)).
Proof.
  intros Hb Hd Ho Hm He Hx Hxb b'. split_and!.
  - apply Forall_insert; [done|apply u8_range].
  - by apply aset_ok.
  - apply zlen_insert.
  - intros i Hi. destruct (decide (i / 8 = d)) as [Hid|Hid].
    + assert (Hk : exists k, i = 8 * d + k /\ 0 <= k < 8)
        by (exists (i mod 8); Z.div_mod_to_equations; lia).
      destruct Hk as (k & -> & Hk). unfold b'. rewrite bit_insert_same by done.
      rewrite (bit_in b d o k) by (done || lia). unfold u8. rewrite Z.mod_pow2_bits_low by lia.
      rewrite Z.lor_spec. f_equal.
      replace (8 * d + e - m + m - 1 - (8 * d + k)) with (e - 1 - k) by lia.
      destruct (Z.ltb_spec (8 * d + k) (8 * d + e - m + m)) as [Hlt|Hge].
      * rewrite Z.shiftr_spec by lia. replace (e - 1 - k + (8 - e)) with (7 - k) by lia.
        destruct (Z.testbit x (7 - k)) eqn:Ex; [|by rewrite andb_false_r].
        apply Hxb in Ex; [|lia]. by rewrite (proj2 (Z.leb_le _ _)) by lia.
      * rewrite andb_false_r. destruct (Z.testbit x (7 - k)) eqn:Ex; [|done].
        apply Hxb in Ex; lia.
    + unfold b'. rewrite bit_insert_other by (done || lia).
      assert ((8 * d + e - m <=? i) && (i <? 8 * d + e - m + m) = false) as ->;
        [|by rewrite orb_false_r].
      apply andb_false_iff. destruct (Z.leb_spec (8 * d + e - m) i); [right|by left].
      apply Z.ltb_ge. Z.div_mod_to_equations; lia.
Qed.

(** Two writes one after the other. *)
Lemma or_bits_app b b1 b2 p m n v w x :
  0 <= m -> 0 <= n -> or_bits b b1 p m v -> or_bits b1 b2 (p + m) n w ->
  (forall j, 0 <= j < m -> Z.testbit v j = Z.testbit x (j + n)) ->
  (forall j, 0 <= j < n -> Z.testbit w j = Z.testbit x j) ->
  or_bits b b2 p (m + n) x.
Proof.
  intros Hm Hn H1 H2 Hv Hw i Hi. rewrite H2, H1 by done. rewrite <- orb_assoc. f_equal.
  destruct (Z.leb_spec p i); destruct (Z.ltb_spec i (p + m)); destruct (Z.leb_spec (p + m) i);
    destruct (Z.ltb_spec i (p + m + n)); destruct (Z.ltb_spec i (p + (m + n)));
    cbn [andb orb]; try lia; try done.
  - rewrite orb_false_r, Hv by lia. f_equal. lia.
  - rewrite Hw by lia. f_equal. lia.
Qed.

Lemma or_bits_ext b b' p n v w :
  (forall j, 0 <= j < n -> Z.testbit v j = Z.testbit w j) -> or_bits b b' p n v -> or_bits b b' p n w.
Proof.
  intros H Ho i Hi. rewrite Ho by done. f_equal.
  destruct (Z.leb_spec p i); destruct (Z.ltb_spec i (p + n)); cbn [andb]; try done. apply H. lia.
Qed.

(** What every write of a field does. *)
Definition writes (b : list Z) (c : cursor) (n v : Z) (r : cres (list Z * cursor)) : Prop :=
  exists b' c', r = Ret (b', c') /\ octets b' /\ zlen b' = zlen b /\ cursor_ok c' /\
    place c' = place c + n /\ or_bits b b' (place c) n v.

(** One octet or-ed with the low [n] bits of [v], [sh] places to the left. *)
Lemma or_chunk b d o sh n v x :
  octets b -> 0 <= d < zlen b -> b !! Z.to_nat d = Some o -> 0 <= sh -> 0 <= n -> sh + n <= 8 ->
  0 <= x ->
  (forall j, 0 <= j -> Z.testbit x j = (sh <=? j) && (j <? sh + n) && Z.testbit v (j - sh)) ->
  let b' := <[Z.to_nat d := u8 (Z.lor o x)]> b in
  octets b' /\ aset b d (u8 (Z.lor o x)) = Ret b' /\ zlen b' = zlen b /\
  or_bits b b' (8 * d + (8 - sh - n)) n v.
Proof.
  intros Hb Hd Ho Hsh Hn Hle Hx Hxb b'.
  destruct (or_octet b d o x (8 - sh) n) as (A1 & A2 & A3 & A4); try done; try lia.
  { intros j Hj Ht. rewrite Hxb in Ht by done. bool_to_prop. lia. }
  split_and!; try done. replace (8 * d + (8 - sh - n)) with (8 * d + (8 - sh) - n) by lia.
  eapply or_bits_ext; [|exact A4]. intros j Hj. replace (8 - (8 - sh)) with sh by lia.
  rewrite Z.shiftr_spec, Hxb by lia.
  rewrite (proj2 (Z.leb_le _ _)), (proj2 (Z.ltb_lt _ _)) by lia. cbn [andb]. f_equal. lia.
Qed.

(** A write that stays in one octet. *)
Lemma write8_one fuel b d bp n v :
  octets b -> 0 <= d < zlen b -> 0 <= bp -> 0 < n -> bp + n <= 8 -> 0 <= v ->
  (bp = 0 \/ v < 2 ^ n) -> writes b (d, bp) n v (write8_loop (S fuel) b (d, bp) n v).
Proof.
  intros Hb Hd Hbp Hn Hle Hv Hs. destruct (octet_at b d Hb Hd) as (o & Ho & Ea & Hob).
  cbn [write8_loop]. rewrite Ea. cbn [mbind cres_bind].
  assert (Hhigh : forall j, n <= j -> j < bp + n -> Z.testbit v j = false).
  { intros j H1 H2. destruct Hs as [->|Hs]; [lia|]. apply (testbit_above v n); lia. }
  destruct (Z.ltb_spec n (8 - bp)).
  - set (sh := 8 - bp - n). set (x := Z.shiftl _ sh).
    destruct (or_chunk b d o sh n v x) as (A1 & A2 & A3 & A4); try done; try lia.
    { apply Z.shiftl_nonneg, Z.land_nonneg. lia. }
    { intros j Hj. unfold x. rewrite Z.shiftl_spec by done.
      destruct (Z.leb_spec sh j); [|by rewrite Z.testbit_neg_r by lia].
      rewrite testbit_mask by lia. cbn [andb].
      destruct (Z.ltb_spec (j - sh) (8 - sh)); destruct (Z.ltb_spec j (sh + n)); cbn [andb];
        first [done|lia|apply Hhigh; lia]. }
    rewrite A2. cbn [mbind cres_bind]. eexists _, _. split; [reflexivity|].
    unfold cursor_ok, place. cbn [fst snd]. replace (8 - sh - n) with bp in A4 by lia.
    split_and!; try done; lia.
  - rewrite (proj2 (Z.eqb_eq (8 - bp) n)) by lia. set (x := Z.land v _).
    destruct (or_chunk b d o 0 n v x) as (A1 & A2 & A3 & A4); try done; try lia.
    { apply Z.land_nonneg. lia. }
    { intros j Hj. unfold x. rewrite testbit_mask, Z.sub_0_r by lia.
      rewrite (proj2 (Z.leb_le 0 j)) by done. cbn [andb]. do 2 f_equal. lia. }
    rewrite A2. cbn [mbind cres_bind]. eexists _, _. split; [reflexivity|].
    unfold cursor_ok, place. cbn [fst snd]. replace (8 - 0 - n) with bp in A4 by lia.
    split_and!; try done; lia.
Qed.

Lemma write8_ok b c n v :
  octets b -> cursor_ok c -> 0 < n <= 8 -> place c + n <= 8 * zlen b -> 0 <= v < 2 ^ n ->
  writes b c n v (rlc_am_write8_bit_field b c n v).
Proof.
  destruct c as [d bp]. intros Hb [Hd Hbp] Hn Hin Hv. unfold place in Hin. cbn [fst snd] in *.
  assert (Hv8 : 0 <= v < 2 ^ 8).
  { split; [lia|]. eapply Z.lt_le_trans; [apply Hv|]. apply Z.pow_le_mono_r; lia. }
  unfold rlc_am_write8_bit_field. rewrite u8_small by done.
  destruct (Z.le_gt_cases (bp + n) 8); [apply write8_one; try done; lia|].
  destruct (octet_at b d Hb) as (o & Ho & Ea & Hob); [lia|].
  cbn [write8_loop]. rewrite Ea. cbn [mbind cres_bind].
  rewrite (proj2 (Z.ltb_ge n (8 - bp))), (proj2 (Z.eqb_neq (8 - bp) n)) by lia.
  set (m := 8 - bp). set (x := Z.shiftr v (n - m)).
  destruct (or_chunk b d o 0 m x x) as (A1 & A2 & A3 & A4); try done; try lia.
  { apply Z.shiftr_nonneg. lia. }
  { intros j Hj. rewrite Z.sub_0_r, (proj2 (Z.leb_le 0 j)) by done. cbn [andb].
    destruct (Z.ltb_spec j (0 + m)); [done|]. unfold x. rewrite Z.shiftr_spec by done.
    apply (testbit_above v n); lia. }
  rewrite A2. cbn [mbind cres_bind]. rewrite (proj2 (Z.ltb_lt 0 (n - m))) by lia.
  destruct (Z.to_nat n) as [|f] eqn:Ef; [lia|].
  destruct (write8_one f _ (d + 1) 0 (n - m) v A1) as (b2 & c2 & E2 & B1 & B2 & B3 & B4 & B5);
    try lia.
  rewrite E2. exists b2, c2. split_and!; try done; try lia.
  - unfold place in *. cbn [fst snd] in *. lia.
  - unfold place in *. cbn [fst snd] in *. replace (8 - 0 - m) with bp in A4 by lia.
    replace n with (m + (n - m)) by lia. eapply or_bits_app; [lia|lia|exact A4| | |].
    + replace (8 * d + bp + m) with (8 * (d + 1) + 0) by lia. exact B5.
    + intros j Hj. unfold x. by rewrite Z.shiftr_spec by lia.
    + done.
Qed.

Lemma write16_ok b c n v :
  octets b -> cursor_ok c -> 0 < n <= 16 -> place c + n <= 8 * zlen b -> 0 <= v < 2 ^ n ->
  writes b c n v (rlc_am_write16_bit_field b c n v).
Proof.
  intros Hb Hc Hn Hin Hv. unfold rlc_am_write16_bit_field.
  rewrite (proj2 (Z.leb_le n 16)) by lia. cbn [c_assert mbind cres_bind].
  change 255 with (Z.ones 8). rewrite Z.land_ones by lia.
  pose proof (Z.mod_pos_bound v (2 ^ 8) ltac:(lia)) as Hlo.
  destruct (Z.ltb_spec 8 n).
  - rewrite Z.shiftr_div_pow2 by lia.
    assert (Hhi : 0 <= v / 2 ^ 8 < 2 ^ (n - 8)).
    { split; [apply Z.div_pos; lia|]. apply Z.div_lt_upper_bound; [lia|].
      rewrite <- Z.pow_add_r by lia. replace (8 + (n - 8)) with n by lia. lia. }
    assert (2 ^ (n - 8) <= 2 ^ 8) by (apply Z.pow_le_mono_r; lia).
    rewrite !u8_small by lia.
    destruct (write8_ok b c (n - 8) (v / 2 ^ 8)) as (b1 & c1 & -> & A1 & A2 & A3 & A4 & A5);
      try done; try lia. cbn [mbind cres_bind].
    destruct (write8_ok b1 c1 8 (v mod 2 ^ 8)) as (b2 & c2 & -> & B1 & B2 & B3 & B4 & B5);
      try done; try lia.
    exists b2, c2. split_and!; try done; try lia.
    replace n with (n - 8 + 8) by lia. eapply or_bits_app; [lia|lia|exact A5| | |].
    + rewrite <- A4. exact B5.
    + intros j Hj. by rewrite <- Z.shiftr_div_pow2, Z.shiftr_spec by lia.
    + intros j Hj. by rewrite Z.mod_pow2_bits_low by lia.
  - assert (2 ^ n <= 2 ^ 8) by (apply Z.pow_le_mono_r; lia).
    rewrite (Z.mod_small v), u8_small by lia. apply write8_ok; try done; lia.
Qed.

(** ** Fields laid one after the other *)

Definition stream (b : list Z) (c : cursor) : Prop :=
  octets b /\ cursor_ok c /\ clear_from b (place c).

Definition keeps (b b' : list Z) (p : Z) : Prop := forall i, 0 <= i < p -> bit b' i = bit b i.

(** A write of a field at the end of the stream. *)
Definition puts (b : list Z) (c : cursor) (n : Z) (P : list Z -> Prop) (r : cres (list Z * cursor))
  : Prop :=
  exists b' c', r = Ret (b', c') /\ stream b' c' /\ place c' = place c + n /\ zlen b' = zlen b /\
    keeps b b' (place c) /\ P b'.

Lemma place_nonneg c : cursor_ok c -> 0 <= place c.
Proof. unfold cursor_ok, place. lia. Qed.

Lemma field_keeps b b' p n v q :
  keeps b b' q -> 0 <= p -> p + n <= q -> field b p n v -> field b' p n v.
Proof. intros Hk Hp Hq Hf j Hj. rewrite Hk by lia. by apply Hf. Qed.

Lemma keeps_trans b1 b2 b3 p q : p <= q -> keeps b1 b2 p -> keeps b2 b3 q -> keeps b1 b3 p.
Proof. intros Hpq H1 H2 i Hi. rewrite H2 by lia. by apply H1. Qed.

Lemma writes_puts b c n v r :
  stream b c -> 0 <= n -> writes b c n v r -> puts b c n (fun b' => field b' (place c) n v) r.
Proof.
  intros (Hb & Hc & Hclear) Hn (b' & c' & E & H1 & H2 & H3 & H4 & H5).
  pose proof (place_nonneg c Hc) as Hp. exists b', c'. split; [done|]. split_and!; try done.
  - split_and!; try done. intros i Hi. rewrite H5, Hclear by lia.
    rewrite (proj2 (Z.ltb_ge i (place c + n))) by lia. by rewrite andb_false_r.
  - intros i Hi. rewrite H5 by lia. rewrite (proj2 (Z.leb_gt (place c) i)) by lia.
    by rewrite orb_false_r.
  - intros j Hj. rewrite H5, Hclear by lia.
    rewrite (proj2 (Z.leb_le (place c) _)), (proj2 (Z.ltb_lt _ (place c + n))) by lia.
    cbn [andb orb]. f_equal. lia.
Qed.

Lemma put8 b c p n v :
  stream b c -> place c = p -> 0 < n <= 8 -> p + n <= 8 * zlen b -> 0 <= v < 2 ^ n ->
  puts b c n (fun b' => field b' p n v) (rlc_am_write8_bit_field b c n v).
Proof.
  intros Hs <- Hn Hin Hv. apply writes_puts; [done|lia|]. destruct Hs as (? & ? & ?). by apply write8_ok.
Qed.

Lemma put16 b c p n v :
  stream b c -> place c = p -> 0 < n <= 16 -> p + n <= 8 * zlen b -> 0 <= v < 2 ^ n ->
  puts b c n (fun b' => field b' p n v) (rlc_am_write16_bit_field b c n v).
Proof.
  intros Hs <- Hn Hin Hv. apply writes_puts; [done|lia|]. destruct Hs as (? & ? & ?). by apply write16_ok.
Qed.

Lemma puts_mono b c n n' (P Q : list Z -> Prop) r :
  puts b c n P r -> n = n' -> (forall b', P b' -> Q b') -> puts b c n' Q r.
Proof.
  intros (b1 & c1 & E & A1 & A2 & A3 & A4 & A5) <- H. exists b1, c1. split_and!; auto.
Qed.

Lemma puts_nil b c : stream b c -> puts b c 0 (fun _ => True) (Ret (b, c)).
Proof. intros Hs. exists b, c. split_and!; try done. lia. Qed.

(** Sequencing: the first part is kept by the second. *)
Lemma puts_bind b c n m (P Q : list Z -> Prop) r (k : list Z * cursor -> cres (list Z * cursor)) :
  puts b c n P r -> 0 <= n -> 0 <= place c ->
  (forall b1 b2, keeps b1 b2 (place c + n) -> P b1 -> P b2) ->
  (forall b1 c1, stream b1 c1 -> place c1 = place c + n -> zlen b1 = zlen b -> P b1 ->
     puts b1 c1 m Q (k (b1, c1))) ->
  puts b c (n + m) (fun b' => P b' /\ Q b') (r ≫= k).
Proof.
  intros (b1 & c1 & -> & Hs & Hp & Hz & Hk & HP) Hn Hpos Hkeep Hnext. cbn [mbind cres_bind].
  destruct (Hnext b1 c1 Hs Hp Hz HP) as (b2 & c2 & E & Hs2 & Hp2 & Hz2 & Hk2 & HQ).
  exists b2, c2. rewrite E. split_and!; try done; try lia.
  - eapply keeps_trans; [|done|exact Hk2]. lia.
  - eapply Hkeep; [|exact HP]. rewrite <- Hp. exact Hk2.
Qed.

(** ** The elements of the list *)

Definition nack_bits (x : nack_sn_t) : Z := if 0 <? nk_e2 x then 42 else 12.
Definition nacks_bits (l : list nack_sn_t) : Z := foldr (fun x n => nack_bits x + n) 0 l.

Record nack_wf (x : nack_sn_t) : Prop := {
  wf_sn : 0 <= nack_sn x < 2 ^ 10;
  wf_e1 : 0 <= nk_e1 x < 2;
  wf_e2 : 0 <= nk_e2 x < 2;
  wf_start : 0 <= so_start x < 2 ^ 15;
  wf_end : 0 <= so_end x < 2 ^ 15;
}.

(** What the decoder gives for an element: without the offsets, the whole PDU. *)
Definition norm (x : nack_sn_t) : nack_sn_t :=
  if 0 <? nk_e2 x then x else Nack (nack_sn x) (nk_e1 x) (nk_e2 x) 0 32767.

Definition nack_at (b : list Z) (p : Z) (x : nack_sn_t) : Prop :=
  field b p 10 (nack_sn x) /\ field b (p + 10) 1 (nk_e1 x) /\ field b (p + 11) 1 (nk_e2 x) /\
  (0 < nk_e2 x -> field b (p + 12) 15 (so_start x) /\ field b (p + 27) 15 (so_end x)).

Fixpoint nacks_at (b : list Z) (p : Z) (l : list nack_sn_t) : Prop :=
  match l with
  | [] => True
  | x :: l' => nack_at b p x /\ nacks_at b (p + nack_bits x) l'
  end.

Lemma nack_bits_pos x : 12 <= nack_bits x <= 42.
Proof. unfold nack_bits. case_if; lia. Qed.

Lemma nacks_bits_nonneg l : 0 <= nacks_bits l.
Proof. induction l as [|x l IH]; simpl; [lia|]. pose proof (nack_bits_pos x). lia. Qed.

Lemma nack_at_keeps b b' p x q :
  keeps b b' q -> 0 <= p -> p + nack_bits x <= q -> nack_at b p x -> nack_at b' p x.
Proof.
  unfold nack_bits. intros Hk Hp Hq (H1 & H2 & H3 & H4).
  assert (Hq12 : p + 12 <= q) by (revert Hq; case_if; lia).
  split_and!; [eapply field_keeps; [exact Hk| |..|eassumption]; lia..|].
  intros He. rewrite (proj2 (Z.ltb_lt 0 (nk_e2 x))) in Hq by done. destruct (H4 He).
  split; (eapply field_keeps; [exact Hk| |..|eassumption]; lia).
Qed.

Lemma write_nack_ok b c x :
  stream b c -> nack_wf x -> place c + nack_bits x <= 8 * zlen b ->
  puts b c (nack_bits x) (fun b' => nack_at b' (place c) x) (write_nack b c x).
Proof.
  intros Hs [W1 W2 W3 W4 W5] Hin. pose proof Hs as (_ & Hc & _).
  pose proof (place_nonneg c Hc) as Hp. pose proof (nack_bits_pos x) as Hnb.
  set (p := place c) in *. unfold write_nack.
  assert (Htail : forall b c, stream b c -> place c = p + 12 -> p + nack_bits x <= 8 * zlen b ->
    puts b c (nack_bits x - 12)
      (fun b' => 0 < nk_e2 x -> field b' (p + 12) 15 (so_start x) /\ field b' (p + 27) 15 (so_end x))
      (if 0 <? nk_e2 x then
         '(b, c) ← rlc_am_write16_bit_field b c 15 (so_start x);
         rlc_am_write16_bit_field b c 15 (so_end x)
       else Ret (b, c))).
  { clear Hs Hc Hin. intros b0 c0 Hs Hpl Hin. unfold nack_bits in *. case_if; bool_to_prop.
    - eapply puts_mono; [eapply (puts_bind _ _ 15 15 (fun b' => field b' (p + 12) 15 (so_start x))
        (fun b' => field b' (p + 27) 15 (so_end x)))|lia|done].
      + apply put16; (done || lia).
      + lia.
      + lia.
      + intros b1 b2 Hk Hf. eapply field_keeps; [exact Hk|lia|lia|exact Hf].
      + intros b1 c1 S1 P1 Z1 _. apply put16; (done || lia).
    - eapply puts_mono; [by apply puts_nil|lia|]. intros; lia. }
  eapply puts_mono; [eapply (puts_bind _ _ 10 (1 + (1 + (nack_bits x - 12)))
    (fun b' => field b' p 10 (nack_sn x)) (fun b' => field b' (p + 10) 1 (nk_e1 x) /\
       (field b' (p + 11) 1 (nk_e2 x) /\ (0 < nk_e2 x -> field b' (p + 12) 15 (so_start x) /\
          field b' (p + 27) 15 (so_end x)))))|lia|by intros b' (? & ? & ? & ?)].
  - apply put16; (done || lia).
  - lia.
  - lia.
  - intros b1 b2 Hk Hf. eapply field_keeps; [exact Hk|lia|lia|exact Hf].
  - intros b1 c1 S1 P1 Z1 _. apply puts_bind; [apply put8; (done || lia)|lia|lia| |].
    { intros b2 b3 Hk Hf. eapply field_keeps; [exact Hk|lia|lia|exact Hf]. }
    intros b2 c2 S2 P2 Z2 _. apply puts_bind; [apply put8; (done || lia)|lia|lia| |].
    { intros b3 b4 Hk Hf. eapply field_keeps; [exact Hk|lia|lia|exact Hf]. }
    intros b3 c3 S3 P3 Z3 _. apply Htail; (done || lia).
Qed.

(** The loop of the encoder, from element [k] of the array. *)
Lemma write_nacks_ok arr l : forall b c k,
  stream b c -> Forall nack_wf l -> place c + nacks_bits l <= 8 * zlen b ->
  take (length l) (drop k arr) = l ->
  puts b c (nacks_bits l) (fun b' => nacks_at b' (place c) l)
    (for_each (fun index s => let '(b, c) := s in x ← aget arr index; write_nack b c x)
       (zrange (Z.of_nat k) (length l)) (b, c)).
Proof.
  induction l as [|x l IH]; intros b c k Hs Hw Hin Harr; [by apply puts_nil|].
  apply Forall_cons_1 in Hw as [Hx Hw]. pose proof Hs as (_ & Hc & _).
  pose proof (place_nonneg c Hc) as Hp. pose proof (nack_bits_pos x). pose proof (nacks_bits_nonneg l).
  cbn [nacks_bits foldr] in *. change (foldr _ 0 l) with (nacks_bits l) in *.
  destruct (drop k arr) as [|y r] eqn:Ed; [done|]. cbn [length take] in Harr.
  injection Harr as -> Hr.
  assert (Hk : arr !! k = Some x).
  { replace k with (k + 0)%nat by lia. rewrite <- lookup_drop, Ed. done. }
  unfold zrange. cbn [length]. rewrite Nat2Z.inj_succ, seqZ_cons, Z.pred_succ by lia.
  cbn [for_each]. rewrite (aget_ok arr _ x) by (rewrite ?Nat2Z.id; (done || lia)).
  cbn [mbind cres_bind].
  apply (puts_bind b c (nack_bits x) (nacks_bits l)
    (fun b' => nack_at b' (place c) x) (fun b' => nacks_at b' (place c + nack_bits x) l)).
  - apply write_nack_ok; (done || lia).
  - lia.
  - lia.
  - intros b1 b2 Hkp. apply (nack_at_keeps _ _ _ _ _ Hkp); lia.
  - intros b1 c1 S1 P1 Z1 _. rewrite <- P1. replace (Z.succ (Z.of_nat k)) with (Z.of_nat (S k)) by lia.
    apply IH; [done|done|lia|]. rewrite (drop_S _ _ _ Hk) in Ed. injection Ed as ->. done.
Qed.

(** One element read. *)
Lemma read_nack_ok b c x :
  octets b -> cursor_ok c -> nack_wf x -> place c + nack_bits x <= 8 * zlen b ->
  nack_at b (place c) x ->
  exists c', read_nack b c = Ret (norm x, c') /\ cursor_ok c' /\ place c' = place c + nack_bits x.
Proof.
  intros Hb Hc [W1 W2 W3 W4 W5] Hin (F1 & F2 & F3 & F4). unfold read_nack, norm.
  pose proof (nack_bits_pos x).
  destruct (read_field b c 10 (nack_sn x)) as (c1 & -> & C1 & P1); try done; try lia.
  cbn [mbind cres_bind]. replace (place c + 10) with (place c1) in F2 by lia.
  destruct (read_field b c1 1 (nk_e1 x)) as (c2 & -> & C2 & P2); try done; try lia.
  cbn [mbind cres_bind]. replace (place c + 11) with (place c2) in F3 by lia.
  destruct (read_field b c2 1 (nk_e2 x)) as (c3 & -> & C3 & P3); try done; try lia.
  cbn [mbind cres_bind]. unfold nack_bits in *. destruct (Z.ltb_spec 0 (nk_e2 x)).
  - rewrite (proj2 (Z.eqb_neq (nk_e2 x) 0)) by lia. cbn [negb]. destruct F4 as [F4 F5]; [lia|].
    replace (place c + 12) with (place c3) in F4 by lia.
    destruct (read_field b c3 15 (so_start x)) as (c4 & -> & C4 & P4); try done; try lia.
    cbn [mbind cres_bind]. replace (place c + 27) with (place c4) in F5 by lia.
    destruct (read_field b c4 15 (so_end x)) as (c5 & -> & C5 & P5); try done; try lia.
    cbn [mbind cres_bind]. exists c5. split_and!; [by destruct x|done|lia].
  - rewrite (proj2 (Z.eqb_eq (nk_e2 x) 0)) by lia. cbn [negb]. exists c3. split_and!; (done || lia).
Qed.

(** The extension bit says that another element follows. *)
Fixpoint e1_chain (l : list nack_sn_t) : Prop :=
  match l with
  | [] => True
  | [x] => nk_e1 x = 0
  | x :: l' => nk_e1 x = 1 /\ e1_chain l'
  end.

Lemma consumed_place c : cursor_ok c -> consumed c = (place c + 7) / 8.
Proof.
  intros [H1 H2]. unfold consumed, place. Z.div_mod_to_equations; lia.
Qed.

Lemma norm_e1 x : nk_e1 (norm x) = nk_e1 x.
Proof. unfold norm. by case_if. Qed.

Lemma take_insert_snoc {A} (l : list A) k x :
  (k < length l)%nat -> take (S k) (<[k := x]> l) = take k l ++ [x].
Proof.
  intros Hk. rewrite (take_S_r _ _ x) by (by apply list_lookup_insert_eq).
  by rewrite take_insert_ge.
Qed.

(** The loop of the decoder. *)
Lemma nack_loop_ok b total l : forall fuel c i k,
  octets b -> cursor_ok c -> Forall nack_wf l -> l <> [] -> e1_chain l ->
  place c + nacks_bits l <= 8 * zlen b -> nacks_at b (place c) l ->
  num_nack i = Z.of_nat k -> (k + length l <= 1023)%nat -> length (nack_list i) = 1023%nat ->
  (length l <= fuel)%nat ->
  exists i', nack_loop fuel b c total i =
      Ret (0, i32 (total - (place c + nacks_bits l + 7) / 8), i') /\
    d_c i' = d_c i /\ cpt i' = cpt i /\ ack_sn i' = ack_sn i /\ e1 i' = e1 i /\
    num_nack i' = Z.of_nat (k + length l) /\
    take (k + length l) (nack_list i') = take k (nack_list i) ++ (norm <$> l).
Proof.
  induction l as [|x l IH]; intros fuel c i k Hb Hc Hw Hne Hch Hin Hat Hk Hlen Hl Hf; [done|].
  apply Forall_cons_1 in Hw as [Hx Hw]. destruct Hat as [Hat Hat'].
  pose proof (nack_bits_pos x). pose proof (nacks_bits_nonneg l).
  cbn [nacks_bits foldr] in *. change (foldr _ 0 l) with (nacks_bits l) in *.
  cbn [length] in *. destruct fuel as [|fuel]; [lia|]. cbn [nack_loop].
  destruct (read_nack_ok b c x) as (c1 & -> & C1 & P1); try done; [lia|].
  cbn [mbind cres_bind]. rewrite aset_ok by (unfold zlen; lia). cbn [mbind cres_bind].
  rewrite norm_e1, Hk, Nat2Z.id. rewrite u16_small by lia. cbn [num_nack nack_list].
  pose proof (take_insert_snoc (nack_list i) k (norm x) ltac:(lia)) as Htk.
  destruct l as [|y l].
  - cbn in Hch. rewrite Hch. cbn [Z.eqb]. rewrite consumed_place by done. rewrite P1.
    replace (place c + nack_bits x + 7) with (place c + (nack_bits x + nacks_bits []) + 7) by (cbn; lia).
    eexists. split; [reflexivity|]. cbn [d_c cpt ack_sn e1 num_nack nack_list length].
    replace (k + 1)%nat with (S k) by lia. split_and!; try done. lia.
  - destruct Hch as [He Hch]. rewrite He. cbn [Z.eqb].
    rewrite (proj2 (Z.eqb_neq (Z.of_nat k + 1) _))
      by (unfold RLC_AM_MAX_NACK_IN_STATUS_PDU; cbn [length] in *; lia).
    edestruct (IH fuel c1 (Build_rlc_am_control_pdu_info_t (d_c i) (cpt i) (ack_sn i) (e1 i)
      (Z.of_nat k + 1) (<[k:=norm x]> (nack_list i))) (S k)) as (i' & E & B1 & B2 & B3 & B4 & B5 & B6);
      try done; [lia|by rewrite P1|cbn [num_nack]; lia|lia|cbn [nack_list]; by rewrite length_insert|lia|].
    exists i'. rewrite E. cbn [d_c cpt ack_sn e1 num_nack nack_list] in *. split_and!; try done.
    + rewrite P1. by rewrite Z.add_assoc.
    + lia.
    + replace (k + S (length (y :: l)))%nat with (S k + length (y :: l))%nat by lia.
      rewrite B6, Htk, <- app_assoc. done.
Qed.

(** The header of a control PDU, from the bits of the stream. *)
Lemma shiftr_land_1 o k : 0 <= k -> Z.land (Z.shiftr o k) 1 = Z.b2z (Z.testbit o k).
Proof.
  intros Hk. change 1 with (Z.ones 1). rewrite Z.land_ones by lia.
  by rewrite Z.shiftr_div_pow2, Z.testbit_spec' by done.
Qed.

Lemma header_fields b b1 b2 r ack x :
  b = b1 :: b2 :: r -> octets b -> 0 <= ack < 2 ^ 10 ->
  (forall i, 0 <= i < 4 -> bit b i = false) -> field b 4 10 ack -> field b 14 1 (Z.b2z x) ->
  Z.land (Z.shiftr b1 7) 1 = 0 /\ Z.land (Z.shiftr b1 4) 7 = 0 /\
  Z.lor (Z.land (Z.shiftr b2 2) 63) (Z.shiftl (Z.land b1 15) 6) = ack /\
  Z.land (Z.shiftr b2 1) 1 = Z.b2z x.
Proof.
  intros Eb Ho Hack Hz Fa Fx.
  assert (B1 : forall j, 0 <= j < 8 -> Z.testbit b1 j = bit b (7 - j)).
  { intros j Hj. rewrite <- (Z.add_0_l (7 - j)). change 0 with (8 * 0).
    rewrite (bit_in b 0 b1) by (lia || by rewrite Eb). f_equal. lia. }
  assert (B2 : forall j, 0 <= j < 8 -> Z.testbit b2 j = bit b (15 - j)).
  { intros j Hj. replace (15 - j) with (8 * 1 + (7 - j)) by lia.
    rewrite (bit_in b 1 b2) by (lia || by rewrite Eb). f_equal. lia. }
  assert (Hr : 0 <= b1 < 2 ^ 8).
  { rewrite Eb in Ho. by apply Forall_cons_1 in Ho as [? _]. }
  assert (Hhigh : forall j, 4 <= j -> Z.testbit b1 j = false).
  { intros j Hj. destruct (Z.lt_ge_cases j 8).
    - rewrite B1 by lia. apply Hz. lia.
    - apply (testbit_above b1 8); lia. }
  split_and!.
  - rewrite shiftr_land_1 by lia. by rewrite Hhigh by lia.
  - apply Z.bits_inj'. intros j Hj. rewrite Z.land_spec, Z.shiftr_spec, Hhigh, Z.bits_0 by lia. done.
  - apply Z.bits_inj'. intros j Hj. rewrite Z.lor_spec, Z.land_spec, Z.shiftr_spec, Z.shiftl_spec by lia.
    change 63 with (Z.ones 6). change 15 with (Z.ones 4). rewrite Z.testbit_ones_nonneg by lia.
    destruct (Z.ltb_spec j 6).
    + rewrite (Z.testbit_neg_r _ (j - 6)) by lia. rewrite andb_true_r, orb_false_r.
      rewrite B2 by lia. rewrite <- Fa by lia. f_equal. lia.
    + rewrite andb_false_r, orb_false_l, Z.land_spec, Z.testbit_ones_nonneg by lia.
      destruct (Z.ltb_spec (j - 6) 4).
      * rewrite andb_true_r, B1 by lia. rewrite <- Fa by lia. f_equal. lia.
      * rewrite andb_false_r. symmetry. apply (testbit_above ack 10); lia.
  - rewrite shiftr_land_1 by lia. rewrite B2 by lia. f_equal.
    transitivity (Z.testbit (Z.b2z x) 0); [|by destruct x]. rewrite <- (Fx 0) by lia. done.
Qed.

Lemma bit_zeros n i : bit (replicate n 0) i = false.
Proof.
  unfold bit. destruct (replicate n 0 !! _) as [o|] eqn:E; [|done].
  apply lookup_replicate in E as [-> _]. apply Z.bits_0.
Qed.

Lemma stream_zeros n c : cursor_ok c -> stream (replicate n 0) c.
Proof.
  intros Hc. split_and!; [apply Forall_replicate; lia|done|]. intros i _. apply bit_zeros.
Qed.

(** The encoder lays the header and the elements one after the other. *)
Lemma write_status_fields i l n x :
  0 <= ack_sn i < 2 ^ 10 -> take (length l) (nack_list i) = l -> Forall nack_wf l ->
  15 + nacks_bits l <= 8 * Z.of_nat n ->
  puts (replicate n 0) (0, 4) (10 + (1 + nacks_bits l))
    (fun b => field b 4 10 (ack_sn i) /\ (field b 14 1 (Z.b2z x) /\ nacks_at b 15 l))
    ('(b, c) ← rlc_am_write16_bit_field (replicate n 0) (0, 4) 10 (ack_sn i);
     '(b, c) ← rlc_am_write8_bit_field b c 1 (if x then 1 else 0);
     for_each (fun index s => let '(b, c) := s in x ← aget (nack_list i) index; write_nack b c x)
       (zrange 0 (length l)) (b, c)).
Proof.
  intros Hack Hl Hw Hn. pose proof (nacks_bits_nonneg l).
  assert (Hz : zlen (replicate n 0) = Z.of_nat n) by (unfold zlen; by rewrite length_replicate).
  apply puts_bind; [apply put16; try done; try lia; apply stream_zeros; split; cbn; lia|lia|done| |].
  { intros b1 b2 Hk Hf. eapply field_keeps; [exact Hk|lia|done|exact Hf]. }
  intros b1 c1 S1 P1 Z1 _. change (place (0, 4)) with 4 in P1.
  apply puts_bind; [destruct x; apply put8; (done || lia)|lia|lia| |].
  { intros b2 b3 Hk Hf. eapply field_keeps; [exact Hk|lia|lia|exact Hf]. }
  intros b2 c2 S2 P2 Z2 _. replace 15 with (place c2) by lia.
  apply (write_nacks_ok (nack_list i) l b2 c2 0); (done || lia).
Qed.

(** ** Properties *)

(** A status report that the encoder can express: the number of elements, their fields within
    the widths of the bit fields, and the extension bits of a list. *)
Record status_wf (i : rlc_am_control_pdu_info_t) (l : list nack_sn_t) : Prop := {
  sw_ack : 0 <= ack_sn i < 2 ^ 10;
  sw_num : num_nack i = zlen l;
  sw_max : zlen l <= RLC_AM_MAX_NACK_IN_STATUS_PDU;
  sw_list : take (length l) (nack_list i) = l;
  sw_nacks : Forall nack_wf l;
  sw_chain : e1_chain l;
}.

(** C20: STATUS PDU round trip.  Written into a zeroed block that is large enough, a status
    report takes exactly the octets its fields need, and the decoder gives back the
    acknowledged sequence number and every negative acknowledgement, with its segment offsets
    when it has some, and takes exactly the written octets off the size. *)
Theorem status_pdu_round_trip i l n :
  status_wf i l -> 15 + nacks_bits l <= 8 * Z.of_nat n ->
  exists sz b, rlc_am_write_status_pdu (replicate n 0) i = Ret (sz, b) /\
    sz = (15 + nacks_bits l + 7) / 8 /\
    forall total, sz <= total < 2 ^ 31 ->
      exists i', rlc_am_get_control_pdu_infos b total = Ret (0, total - sz, i') /\
        ack_sn i' = ack_sn i /\ num_nack i' = num_nack i /\
        take (length l) (nack_list i') = norm <$> l.
Proof.
  intros [H1 H2 H3 H4 H5 H6] Hn. pose proof (nacks_bits_nonneg l) as Hnb.
  set (x := 0 <? zlen l).
  destruct (write_status_fields i l n x H1 H4 H5 Hn)
    as (b & c & E & (Ho & Hc & _) & Hp & Hz & Hk & Fa & Fx & Fl).
  change (place (0, 4)) with 4 in *. unfold zlen in Hz. rewrite length_replicate in Hz.
  exists ((15 + nacks_bits l + 7) / 8), b. split_and!; [|done|].
  { unfold rlc_am_write_status_pdu. rewrite H2.
    replace (Z.to_nat (zlen l)) with (length l) by (unfold zlen; lia). fold x.
    revert E. destruct (rlc_am_write16_bit_field _ _ _ _) as [[b1 c1]|]; [|done].
    cbn [mbind cres_bind]. destruct (rlc_am_write8_bit_field _ _ _ _) as [[b2 c2]|]; [|done].
    cbn [mbind cres_bind]. intros ->. cbn [mbind cres_bind]. do 2 f_equal.
    destruct Hc as [Hc1 Hc2]. unfold place in Hp. case_if; bool_to_prop; Z.div_mod_to_equations; lia. }
  intros total Htot. destruct b as [|b1 [|b2 r]]; try (cbn [length] in Hz; lia).
  destruct (header_fields _ b1 b2 r (ack_sn i) x eq_refl Ho H1) as (E1 & E2 & E3 & E4); try done.
  { intros j Hj. rewrite Hk by lia. apply bit_zeros. }
  set (b := b1 :: b2 :: r) in *. unfold rlc_am_get_control_pdu_infos.
  rewrite (aget_ok b 0 b1), (aget_ok b 1 b2) by done. cbn [mbind cres_bind].
  rewrite E1, E2, E3, E4. cbn [Z.eqb negb mbind cres_bind].
  destruct l as [|y l].
  - change ((15 + nacks_bits [] + 7) / 8) with 2 in *. change x with false. cbn [Z.b2z Z.eqb negb].
    rewrite i32_small by lia. eexists. split; [reflexivity|]. by split_and!.
  - change x with true in *. cbn [Z.b2z Z.eqb negb].
    destruct (nack_loop_ok b total (y :: l) (Z.to_nat RLC_AM_MAX_NACK_IN_STATUS_PDU) (1, 7)
      (Build_rlc_am_control_pdu_info_t 0 0 (ack_sn i) 1 0 (nack_list zero_info)) 0)
      as (i' & E' & _ & _ & A3 & _ & A5 & A6); try done.
    + change (place (1, 7)) with 15. unfold zlen. lia.
    + unfold zlen, RLC_AM_MAX_NACK_IN_STATUS_PDU in H3. lia.
    + unfold zlen, RLC_AM_MAX_NACK_IN_STATUS_PDU in *. lia.
    + exists i'. rewrite E'. change (place (1, 7)) with 15. rewrite i32_small.
      2:{ pose proof (Z.div_pos (15 + nacks_bits (y :: l) + 7) 8). lia. }
      split_and!; [done|done|by rewrite A5, H2|exact A6].
Qed.

(** Two elements: a whole PDU and a segment. *)
Definition demo_nacks : list nack_sn_t := [Nack 517 1 0 0 2047; Nack 520 0 1 100 1499].
Definition demo_info : rlc_am_control_pdu_info_t :=
  Build_rlc_am_control_pdu_info_t 0 0 523 0 2 (demo_nacks ++ replicate 1021 (Nack 0 0 0 0 0)).

Lemma status_pdu_round_trip_witness :
  exists b i', rlc_am_write_status_pdu (replicate 12 0) demo_info = Ret (9, b) /\
    rlc_am_get_control_pdu_infos b 9 = Ret (0, 0, i') /\ ack_sn i' = 523 /\
    take 2 (nack_list i') = [Nack 517 1 0 0 32767; Nack 520 0 1 100 1499].
Proof.
  destruct (status_pdu_round_trip demo_info demo_nacks 12) as (sz & b & E & Hsz & Hd).
  - constructor; [cbn; lia|done|done|done| |done].
    apply Forall_cons_2; [constructor; cbn; lia|]. apply Forall_cons_2; [constructor; cbn; lia|done].
  - vm_compute. discriminate.
  - change ((15 + nacks_bits demo_nacks + 7) / 8) with 9 in Hsz. subst sz.
    destruct (Hd 9 ltac:(lia)) as (i' & E' & Ha & _ & Hl).
    exists b, i'. split; [exact E|]. split; [exact E'|]. split; [exact Ha|exact Hl].
Defined.

(** The decoder does not look at the size of the PDU.  Every two-octet control PDU whose
    extension bit announces an element makes it read after the PDU. *)
Theorem status_pdu_decoder_overreads b1 b2 total :
  0 <= b1 < 16 -> 0 <= b2 < 256 -> Z.testbit b2 1 = true ->
  rlc_am_get_control_pdu_infos [b1; b2] total = Trap FOob.
Proof.
  intros H1 H2 Hb. unfold rlc_am_get_control_pdu_infos.
  rewrite (aget_ok _ 0 b1), (aget_ok _ 1 b2) by done. cbn [mbind cres_bind].
  rewrite !shiftr_land_1 by lia. rewrite (testbit_above b1 4), Hb by lia.
  rewrite (Z.shiftr_div_pow2 b1), (Z.div_small b1) by lia. reflexivity.
Qed.

Lemma status_pdu_decoder_overreads_witness : rlc_am_get_control_pdu_infos [2; 254] 2 = Trap FOob.
Proof. apply (status_pdu_decoder_overreads 2 254 2); [lia|lia|reflexivity]. Defined.
