(* ===== verification/RlcUm.v ===== *)
(** RLC unacknowledged mode, receiving side: reassembly of the SDUs
    ([openair2/LAYER2/RLC/UM_v9.3.0/rlc_um_reassembly.c]), duplicate avoidance and reordering
    ([rlc_um_dar.c]), the reception of transport blocks ([rlc_um_receive] of
    [rlc_um_receiver.c]) and the protocol states ([rlc_um_fsm.c]).

    A PDU is the list of its bytes.  The block in which an SDU is rebuilt is the list of its
    bytes and the number of bytes written; the SDUs given to the upper layer are an output of
    the state.  [alloc] says whether a request for a block succeeds and [now] is the time in
    milliseconds.  The statistics counters and the mutex are left out. *)
From stdpp Require Import base list numbers sets.
From coqutil Require Import Byte.
From Stdlib Require Import ZArith Lia.
From S2P Require Import Prelude RlcPrims.
Open Scope Z_scope.

(** ** Protocol states *)

(** [rlc_protocol_state_t] *)
Inductive um_state :=
| RLC_NULL_STATE
| RLC_DATA_TRANSFER_READY_STATE
| RLC_RESET_PENDING_STATE
| RLC_RESET_AND_SUSPEND_STATE
| RLC_LOCAL_SUSPEND_STATE.

Definition CONFIG_REQ_ENTER_NULL_STATE_EVENT : Z := 0.
Definition CONFIG_REQ_ENTER_DATA_TRANSFER_READY_STATE_EVENT : Z := 1.
Definition SUSPEND_REQ_EVENT : Z := 16.
Definition SUSPEND_CNF_EVENT : Z := 17.
Definition RESUME_REQ_EVENT : Z := 18.

(** An unexpected event in the null state calls [macphy_exit]. *)
Definition rlc_um_fsm_notify_event (st : um_state) (event : Z) : cres (Z * um_state) :=
  match st with
  | RLC_NULL_STATE =>
      if event =? CONFIG_REQ_ENTER_DATA_TRANSFER_READY_STATE_EVENT
      then Ret (1, RLC_DATA_TRANSFER_READY_STATE)
      else Trap FExit
  | RLC_DATA_TRANSFER_READY_STATE =>
      if event =? CONFIG_REQ_ENTER_NULL_STATE_EVENT then Ret (1, RLC_NULL_STATE)
      else if (event =? SUSPEND_REQ_EVENT) || (event =? SUSPEND_CNF_EVENT)
      then Ret (1, RLC_LOCAL_SUSPEND_STATE)
      else Ret (0, st)
  | RLC_LOCAL_SUSPEND_STATE =>
      if event =? CONFIG_REQ_ENTER_NULL_STATE_EVENT then Ret (1, RLC_NULL_STATE)
      else if event =? RESUME_REQ_EVENT then Ret (1, RLC_DATA_TRANSFER_READY_STATE)
      else Ret (0, st)
  | RLC_RESET_PENDING_STATE | RLC_RESET_AND_SUSPEND_STATE => Ret (0, st)
  end.

(** ** State of the receiver *)

(** [struct rlc_um_timer_s] *)
Record um_timer := Timer {
  running : Z;
  ms_time_out : Z;                        (* uint32_t *)
  ms_start : Z;
  ms_duration : Z;
  timed_out : Z;
}.

(** The block an SDU is rebuilt in: [output_sdu_in_construction] and
    [output_sdu_size_to_write], and the SDUs delivered, the last one at the end. *)
Record um_sdu := Sdu {
  sdu_block : option (list byte);
  sdu_size : Z;                           (* sdu_size_t *)
  delivered : list (list byte);
}.

(** The members of [rlc_um_entity_t] used by the reception. *)
Record um_rx := Rx {
  is_data_plane : bool;
  rx_sn_length : Z;
  rx_sn_modulo : Z;
  rx_um_window_size : Z;
  vr_ur : Z;                              (* rlc_usn_t *)
  vr_ux : Z;
  vr_uh : Z;
  last_reassemblied_sn : Z;
  last_reassemblied_missing_sn : Z;
  reassembly_missing_sn_detected : Z;
  output : um_sdu;
  dar_buffer : list (option (list byte));
  t_reordering : um_timer;
}.

Definition set_output (r : um_rx) (o : um_sdu) : um_rx :=
  Rx (is_data_plane r) (rx_sn_length r) (rx_sn_modulo r) (rx_um_window_size r) (vr_ur r) (vr_ux r)
    (vr_uh r) (last_reassemblied_sn r) (last_reassemblied_missing_sn r)
    (reassembly_missing_sn_detected r) o (dar_buffer r) (t_reordering r).
Definition set_last (r : um_rx) (sn missing_sn detected : Z) : um_rx :=
  Rx (is_data_plane r) (rx_sn_length r) (rx_sn_modulo r) (rx_um_window_size r) (vr_ur r) (vr_ux r)
    (vr_uh r) sn missing_sn detected (output r) (dar_buffer r) (t_reordering r).
Definition set_vr (r : um_rx) (ur ux uh : Z) : um_rx :=
  Rx (is_data_plane r) (rx_sn_length r) (rx_sn_modulo r) (rx_um_window_size r) ur ux uh
    (last_reassemblied_sn r) (last_reassemblied_missing_sn r) (reassembly_missing_sn_detected r)
    (output r) (dar_buffer r) (t_reordering r).
Definition set_dar (r : um_rx) (d : list (option (list byte))) : um_rx :=
  Rx (is_data_plane r) (rx_sn_length r) (rx_sn_modulo r) (rx_um_window_size r) (vr_ur r) (vr_ux r)
    (vr_uh r) (last_reassemblied_sn r) (last_reassemblied_missing_sn r)
    (reassembly_missing_sn_detected r) (output r) d (t_reordering r).
Definition set_timer (r : um_rx) (t : um_timer) : um_rx :=
  Rx (is_data_plane r) (rx_sn_length r) (rx_sn_modulo r) (rx_um_window_size r) (vr_ur r) (vr_ux r)
    (vr_uh r) (last_reassemblied_sn r) (last_reassemblied_missing_sn r)
    (reassembly_missing_sn_detected r) (output r) (dar_buffer r) t.

(** ** [rlc_um_reassembly.c] *)

Definition RLC_SDU_MAX_SIZE_DATA_PLANE : Z := 9000.
Definition RLC_SDU_MAX_SIZE_CONTROL_PLANE : Z := 2000.

Definition rlc_um_clear_rx_sdu (o : um_sdu) : um_sdu := Sdu (sdu_block o) 0 (delivered o).

(** [rlc_um_reassembly] of the [lengthP] bytes at [off] of a PDU. *)
Definition rlc_um_reassembly (alloc data_plane : bool) (pdu : list byte) (off lengthP : Z)
  (o : um_sdu) : cres um_sdu :=
  if lengthP <=? 0 then Ret o
  else
    let sdu_max_size :=
      if data_plane then RLC_SDU_MAX_SIZE_DATA_PLANE else RLC_SDU_MAX_SIZE_CONTROL_PLANE in
    let o := match sdu_block o with
             | None => Sdu (if alloc then Some (zeros (Z.to_nat sdu_max_size)) else None) 0 (delivered o)
             | Some _ => o
             end in
    match sdu_block o with
    | Some blk =>
        if i32 (sdu_size o + lengthP) <=? sdu_max_size then
          blk ← memcpy blk (sdu_size o) pdu off lengthP;
          Ret (Sdu (Some blk) (i32 (sdu_size o + lengthP)) (delivered o))
        else Ret (Sdu (Some blk) 0 (delivered o))
    | None => Ret o
    end.

(** [rlc_data_ind] takes the block. *)
Definition rlc_um_send_sdu (o : um_sdu) : cres um_sdu :=
  match sdu_block o with
  | Some blk =>
      if 0 <? sdu_size o then
        d ← bget blk 0 (sdu_size o);
        Ret (Sdu None 0 (delivered o ++ [d]))
      else Ret (Sdu (Some blk) 0 (delivered o))
  | None => Ret o
  end.

(** ** Reassembly of the PDUs of the reception buffer ([rlc_um_dar.c]) *)

Definition RLC_UM_SEGMENT_NB_MAX_LI_PER_PDU : Z := 24.

(** The loop of [rlc_um_read_length_indicators] with [e_liP] at [p]: [None] is the result -1.
    A turn that goes on reads two indicators, so half the maximum is enough fuel. *)
Fixpoint li_loop (fuel : nat) (pdu : list byte) (p size : Z) (lis : list Z)
  : cres (option (list Z * Z)) :=
  match fuel with
  | O => Trap FFuel
  | S fuel =>
      b1 ← octet pdu p;
      b2 ← octet pdu (p + 1);
      let li1 := Z.shiftl (Z.land b1 127) 4 + Z.shiftr (Z.land b2 240) 4 in
      let lis := lis ++ [li1] in
      let size := i32 (size - li1 - 2) in
      if negb (Z.shiftr (Z.land b1 128) 7 =? 0) then
        b3 ← octet pdu (p + 2);
        let li2 := Z.shiftl (Z.land b2 7) 8 + b3 in
        let lis := lis ++ [li2] in
        let size := i32 (size - li2 - 1) in
        if RLC_UM_SEGMENT_NB_MAX_LI_PER_PDU <=? zlen lis then Ret None
        else if Z.shiftr (Z.land b2 8) 3 =? 0 then Ret (Some (lis, size))
        else li_loop fuel pdu (p + 3) size lis
      else if RLC_UM_SEGMENT_NB_MAX_LI_PER_PDU <=? zlen lis then Ret None
      else Ret (Some (lis, size))
  end.

(** The indicators, the size left and the offset of the data. *)
Definition rlc_um_read_length_indicators (pdu : list byte) (data_p e_liP size : Z)
  : cres (option (list Z * Z * Z)) :=
  r ← li_loop 12 pdu e_liP size [];
  match r with
  | None => Ret None
  | Some (lis, size) => Ret (Some (lis, size, data_p + Z.shiftr (zlen lis * 3 + 1) 1))
  end.

(** [for (i = ...; i < num_li; i++)]: every field but the last one ends an SDU. *)
Fixpoint li_fields (alloc data_plane : bool) (pdu : list byte) (data_p : Z) (lis : list Z)
  (o : um_sdu) : cres (Z * um_sdu) :=
  match lis with
  | [] => Ret (data_p, o)
  | li :: lis =>
      o ← rlc_um_reassembly alloc data_plane pdu data_p li o;
      o ← rlc_um_send_sdu o;
      li_fields alloc data_plane pdu (data_p + li) lis o
  end.

(** A PDU without length indicators.  The results are [reassembly_missing_sn_detected] and the
    SDU. *)
Definition reassemble_single (alloc data_plane : bool) (pdu : list byte) (fi data_p size missing : Z)
  (o : um_sdu) : cres (Z * um_sdu) :=
  if fi =? 0 then
    o ← rlc_um_reassembly alloc data_plane pdu data_p size (rlc_um_clear_rx_sdu o);
    o ← rlc_um_send_sdu o;
    Ret (0, o)
  else if fi =? 1 then
    o ← rlc_um_reassembly alloc data_plane pdu data_p size (rlc_um_clear_rx_sdu o);
    Ret (0, o)
  else if fi =? 2 then
    o ← (if missing =? 0 then
           o ← rlc_um_reassembly alloc data_plane pdu data_p size o; rlc_um_send_sdu o
         else Ret o);
    Ret (0, o)
  else
    if missing =? 0 then
      o ← rlc_um_reassembly alloc data_plane pdu data_p size o; Ret (missing, o)
    else Ret (1, o).

(** A PDU with the length indicators [lis]. *)
Definition reassemble_fields (alloc data_plane : bool) (pdu : list byte) (fi data_p size : Z)
  (lis : list Z) (missing : Z) (o : um_sdu) : cres (Z * um_sdu) :=
  let o := if fi <? 2 then rlc_um_clear_rx_sdu o else o in
  '(data_p, lis) ← (if (2 <=? fi) && negb (missing =? 0) then
                      li0 ← aget lis 0; Ret (data_p + li0, drop 1 lis)
                    else Ret (data_p, lis));
  '(data_p, o) ← li_fields alloc data_plane pdu data_p lis o;
  o ← (if 0 <? size then rlc_um_reassembly alloc data_plane pdu data_p size o
       else if fi =? 3 then Trap FAssert else Ret o);
  o ← (if (0 <? size) && ((fi =? 0) || (fi =? 2)) then rlc_um_send_sdu o else Ret o);
  Ret (0, o).

(** The header of a PDU: E, FI and the offset of what follows. *)
Definition read_header (sn_length : Z) (pdu : list byte) : cres (Z * Z * Z) :=
  b1 ← octet pdu 0;
  if sn_length =? 10
  then Ret (Z.shiftr (Z.land b1 4) 2, Z.shiftr (Z.land b1 24) 3, 2)
  else Ret (Z.shiftr (Z.land b1 32) 5, Z.shiftr (Z.land b1 192) 6, 1).

(** The PDU [sn] of the reception buffer. *)
Definition reassemble_pdu (alloc : bool) (sn : Z) (pdu : list byte) (r : um_rx) : cres um_rx :=
  let o := if c_rem (last_reassemblied_sn r + 1) (rx_sn_modulo r) =? sn then output r
           else rlc_um_clear_rx_sdu (output r) in
  let missing := reassembly_missing_sn_detected r in
  '(e, fi, data_p) ← read_header (rx_sn_length r) pdu;
  let size := zlen pdu - data_p in
  '(missing, o) ←
    (if e =? 0 then reassemble_single alloc (is_data_plane r) pdu fi data_p size missing o
     else
       l ← rlc_um_read_length_indicators pdu data_p data_p size;
       match l with
       | None => Ret (missing, o)
       | Some (lis, size, data_p) =>
           reassemble_fields alloc (is_data_plane r) pdu fi data_p size lis missing o
       end);
  dar ← aset (dar_buffer r) sn None;
  Ret (set_dar (set_output (set_last r sn (last_reassemblied_missing_sn r) missing) o) dar).

(** The loop of [rlc_um_try_reassembly]: at most one turn per sequence number. *)
Fixpoint reassembly_loop (alloc : bool) (fuel : nat) (sn end_sn : Z) (r : um_rx) : cres um_rx :=
  match fuel with
  | O => Trap FFuel
  | S fuel =>
      c ← aget (dar_buffer r) sn;
      r ← match c with
          | Some pdu => reassemble_pdu alloc sn pdu r
          | None =>
              Ret (set_output (set_last r (last_reassemblied_sn r) sn 1) (rlc_um_clear_rx_sdu (output r)))
          end;
      let sn := c_rem (sn + 1) (rx_sn_modulo r) in
      if (sn =? vr_uh r) || (sn =? end_sn) then Ret r
      else reassembly_loop alloc fuel sn end_sn r
  end.

Definition rlc_um_try_reassembly (alloc : bool) (start_snP end_snP : Z) (r : um_rx) : cres um_rx :=
  let end_sn := if end_snP <? 0 then end_snP + rx_sn_modulo r else end_snP in
  let start_sn := if start_snP <? 0 then start_snP + rx_sn_modulo r else start_snP in
  if start_sn =? end_sn then Ret r
  else reassembly_loop alloc (Z.to_nat (rx_sn_modulo r)) start_sn end_sn r.

(** ** Windows ([rlc_sn_t] is [int16_t], [%] truncates) *)

Definition rlc_um_in_window (r : um_rx) (lower_boundP snP higher_boundP : Z) : Z :=
  let modulus := i16 (vr_uh r - rx_um_window_size r) in
  let lower_bound := i16 (c_rem (lower_boundP - modulus) (rx_sn_modulo r)) in
  let higher_bound := i16 (c_rem (higher_boundP - modulus) (rx_sn_modulo r)) in
  let sn := i16 (c_rem (snP - modulus) (rx_sn_modulo r)) in
  if sn <? lower_bound then -2
  else if higher_bound <? sn then -1
  else if lower_bound =? sn then (if higher_bound =? sn then 3 else 1)
  else if higher_bound =? sn then 2
  else 0.

Definition rlc_um_in_reordering_window (r : um_rx) (snP : Z) : Z :=
  let modulus := i16 (vr_uh r - rx_um_window_size r) in
  let sn_mod := i16 (c_rem (snP - modulus) (rx_sn_modulo r)) in
  if (0 <=? sn_mod) && (sn_mod <? rx_um_window_size r) then 0 else -1.

(** ** The timer *)

Definition rlc_um_stop_and_reset_timer_reordering (t : um_timer) : um_timer :=
  Timer 0 0 0 (ms_duration t) 0.

Definition rlc_um_start_timer_reordering (now : Z) (t : um_timer) : um_timer :=
  if 0 <? ms_duration t
  then Timer 1 (u32 (now + ms_duration t)) (u32 now) (ms_duration t) 0
  else Timer (running t) (ms_time_out t) (ms_start t) (ms_duration t) 0.

Definition rlc_um_init_timer_reordering (ms_durationP : Z) : um_timer := Timer 0 0 0 ms_durationP 0.

(** ** Configuration *)

Definition RLC_UM_SN_5_BITS_MODULO : Z := 32.
Definition RLC_UM_SN_10_BITS_MODULO : Z := 1024.
Definition RLC_UM_WINDOW_SIZE_SN_5_BITS : Z := 16.
Definition RLC_UM_WINDOW_SIZE_SN_10_BITS : Z := 512.

(** The members of the receiving side set by [rlc_um_init] of an entity that is not initialised;
    [rlc_um_set_debug_infos] sets the plane. *)
Definition rlc_um_init (data_plane : bool) : um_rx :=
  Rx data_plane 10 0 0 0 0 0 0 0 0 (Sdu None 0 []) (replicate 1024 None) (Timer 0 0 0 0 0).

Definition rlc_um_reset_state_variables (r : um_rx) : um_rx := set_vr r 0 0 0.

Definition set_sn_length (r : um_rx) (length modulo window : Z) : um_rx :=
  Rx (is_data_plane r) length modulo window (vr_ur r) (vr_ux r) (vr_uh r) (last_reassemblied_sn r)
    (last_reassemblied_missing_sn r) (reassembly_missing_sn_detected r) (output r) (dar_buffer r)
    (t_reordering r).

(** [rlc_um_configure] on the receiving side; 0 keeps the length, and a length that is not
    known, of the transmitting side too, ends the call. *)
Definition rlc_um_configure (timer_reorderingP rx_sn_field_lengthP tx_sn_field_lengthP is_mXchP : Z)
  (r : um_rx) : um_rx :=
  let known n := (n =? 10) || (n =? 5) || (n =? 0) in
  let r := if rx_sn_field_lengthP =? 10
           then set_sn_length r 10 RLC_UM_SN_10_BITS_MODULO RLC_UM_WINDOW_SIZE_SN_10_BITS
           else if rx_sn_field_lengthP =? 5
           then set_sn_length r 5 RLC_UM_SN_5_BITS_MODULO RLC_UM_WINDOW_SIZE_SN_5_BITS
           else r in
  if negb (known rx_sn_field_lengthP) || negb (known tx_sn_field_lengthP) then r
  else
    let r := if 0 <? is_mXchP then set_sn_length r (rx_sn_length r) (rx_sn_modulo r) 0 else r in
    let r := set_last r (rx_sn_modulo r - 1) (rx_sn_modulo r - 1) 0 in
    let r := set_timer r (rlc_um_init_timer_reordering timer_reorderingP) in
    rlc_um_reset_state_variables r.

(** ** The reception buffer *)

Definition rlc_um_get_pdu_from_dar_buffer (r : um_rx) (snP : Z) : cres (option (list byte)) :=
  aget (dar_buffer r) (u16 snP).

Definition rlc_um_remove_pdu_from_dar_buffer (r : um_rx) (snP : Z)
  : cres (option (list byte) * um_rx) :=
  p ← aget (dar_buffer r) (u16 snP);
  d ← aset (dar_buffer r) (u16 snP) None;
  Ret (p, set_dar r d).

Definition rlc_um_store_pdu_in_dar_buffer (r : um_rx) (pdu : list byte) (snP : Z) : cres um_rx :=
  d ← aset (dar_buffer r) (u16 snP) (Some pdu); Ret (set_dar r d).

(** [if VR(UH) > VR(UR)]: start the timer. *)
Definition restart_if_gap (now : Z) (r : um_rx) : um_rx :=
  set_vr (set_timer r (rlc_um_start_timer_reordering now (t_reordering r))) (vr_ur r) (vr_uh r) (vr_uh r).

(** [do { VR(UR)++ } while (received && VR(UR) != VR(UH))]; at most one turn per number. *)
Fixpoint advance_ur (fuel : nat) (ur : Z) (r : um_rx) : cres Z :=
  match fuel with
  | O => Trap FFuel
  | S fuel =>
      let ur := c_rem (ur + 1) (rx_sn_modulo r) in
      p ← rlc_um_get_pdu_from_dar_buffer r ur;
      if (match p with Some _ => true | None => false end) && negb (ur =? vr_uh r)
      then advance_ur fuel ur r else Ret ur
  end.

(** The sequence number of a received PDU; -1 when the length of the numbers is not known. *)
Definition pdu_sn (r : um_rx) (pdu : list byte) : cres Z :=
  if rx_sn_length r =? 10 then
    b1 ← octet pdu 0; b2 ← octet pdu 1; Ret (Z.shiftl (Z.land b1 3) 8 + b2)
  else if rx_sn_length r =? 5 then b1 ← octet pdu 0; Ret (Z.land b1 31)
  else Ret (-1).

(** The PDU is outside of the reordering window: the window moves behind it. *)
Definition move_window (alloc : bool) (sn : Z) (r : um_rx) : cres um_rx :=
  if rlc_um_in_reordering_window r sn <? 0 then
    let r := set_vr r (vr_ur r) (vr_ux r) (c_rem (sn + 1) (rx_sn_modulo r)) in
    if negb (rlc_um_in_reordering_window r (vr_ur r) =? 0) then
      let in_window := vr_uh r - rx_um_window_size r in
      let in_window := if in_window <? 0 then in_window + rx_sn_modulo r else in_window in
      r ← rlc_um_try_reassembly alloc (vr_ur r) in_window r;
      Ret (if rlc_um_in_reordering_window r (vr_ur r) <? 0
           then set_vr r in_window (vr_ux r) (vr_uh r) else r)
    else Ret r
  else Ret r.

(** The timer after the state variables have moved. *)
Definition update_timer (now : Z) (r : um_rx) : um_rx :=
  let stop r := set_timer r (rlc_um_stop_and_reset_timer_reordering (t_reordering r)) in
  let r := if negb (running (t_reordering r) =? 0) && negb (vr_uh r =? vr_ux r) &&
              (rlc_um_in_reordering_window r (vr_ux r) <? 0) then stop r else r in
  let r := if negb (running (t_reordering r) =? 0) then
             let w := rlc_um_in_window r (vr_ur r) (vr_ux r) (vr_uh r) in
             if (w =? -2) || (w =? 1) then stop r else r
           else r in
  if (running (t_reordering r) =? 0) &&
     (rlc_um_in_window r (vr_ur r) (vr_uh r) (vr_uh r) =? 2)
  then restart_if_gap now r else r.

Definition rlc_um_receive_process_dar (alloc : bool) (now : Z) (pdu : list byte) (r : um_rx)
  : cres um_rx :=
  sn ← pdu_sn r pdu;
  let in_window := rlc_um_in_window r (i16 (vr_uh r - rx_um_window_size r)) sn (vr_ur r) in
  if (in_window =? 1) || (in_window =? 0) then Ret r
  else
    old ← rlc_um_get_pdu_from_dar_buffer r sn;
    if (match old with Some _ => true | None => false end) &&
       (rlc_um_in_window r (vr_ur r) sn (vr_uh r) =? 0) then Ret r
    else
      r ← match old with
          | Some _ => '(_, r) ← rlc_um_remove_pdu_from_dar_buffer r sn; Ret r
          | None => Ret r
          end;
      r ← rlc_um_store_pdu_in_dar_buffer r pdu sn;
      r ← move_window alloc sn r;
      cur ← rlc_um_get_pdu_from_dar_buffer r (vr_ur r);
      r ← (if (sn =? vr_ur r) && (match cur with Some _ => true | None => false end) then
             ur ← advance_ur (Z.to_nat (rx_sn_modulo r)) (vr_ur r) r;
             let r := set_vr r ur (vr_ux r) (vr_uh r) in
             rlc_um_try_reassembly alloc sn (vr_ur r) r
           else Ret r);
      Ret (update_timer now r).

(** [while (received) VR(UR)++] of the expiry of the timer. *)
Fixpoint skip_received (fuel : nat) (ur : Z) (r : um_rx) : cres Z :=
  match fuel with
  | O => Trap FFuel
  | S fuel =>
      p ← rlc_um_get_pdu_from_dar_buffer r ur;
      match p with
      | Some _ => skip_received fuel (c_rem (ur + 1) (rx_sn_modulo r)) r
      | None => Ret ur
      end
  end.

(** The instants are [uint32_t]; the mutex is free. *)
Definition rlc_um_check_timer_dar_time_out (alloc : bool) (now : Z) (r : um_rx) : cres um_rx :=
  let t := t_reordering r in
  if negb (running t =? 0) &&
     (((ms_start t <? ms_time_out t) && ((ms_time_out t <=? now) || (now <? ms_start t))) ||
      ((ms_time_out t <? ms_start t) && (now <? ms_start t) && (ms_time_out t <=? now)))
  then
    let old_vr_ur := vr_ur r in
    ur ← skip_received (S (Z.to_nat (rx_sn_modulo r))) (vr_ux r) r;
    let r := set_vr r ur (vr_ux r) (vr_uh r) in
    r ← rlc_um_try_reassembly alloc old_vr_ur (vr_ur r) r;
    if rlc_um_in_window r (vr_ur r) (vr_uh r) (vr_uh r) =? 2
    then Ret (restart_if_gap now r)
    else Ret (set_timer r (rlc_um_stop_and_reset_timer_reordering (t_reordering r)))
  else Ret r.

(** [rlc_um_receive]: the blocks of an indication, in order.  The PDU kept is the [size] bytes at
    [data_ptr]. *)
Definition rlc_um_receive (alloc : bool) (now : Z) (blocks : list mac_tb_ind) (r : um_rx) : cres um_rx :=
  for_each (fun tb r =>
    if 0 <? ti_size tb then
      pdu ← bget (ti_data tb) 0 (ti_size tb);
      rlc_um_receive_process_dar alloc now pdu r
    else Ret r) blocks r.

(** ** Specification *)

(** A PDU as the sender means it: whether its first byte starts an SDU, its data fields, and
    whether its last byte ends an SDU. *)
Record upd := Upd {
  u_first : bool;
  u_fields : list (list byte);
  u_last : bool;
}.

(** The SDUs completed by the fields, and the bytes of the SDU that is not complete, when the
    bytes [p] of an SDU were waiting. *)
Fixpoint spec_fields (p : list byte) (fs : list (list byte)) (last : bool)
  : list (list byte) * list byte :=
  match fs with
  | [] => ([], p)
  | [f] => if last then ([p ++ f], []) else ([], p ++ f)
  | f :: fs => let '(d, p') := spec_fields [] fs last in ((p ++ f) :: d, p')
  end.

Definition spec_pdu (p : list byte) (x : upd) : list (list byte) * list byte :=
  spec_fields (if u_first x then [] else p) (u_fields x) (u_last x).

Fixpoint spec_pdus (p : list byte) (xs : list upd) : list (list byte) * list byte :=
  match xs with
  | [] => ([], p)
  | x :: xs => let '(d, p) := spec_pdu p x in let '(d', p) := spec_pdus p xs in (d ++ d', p)
  end.

(** The coding of the length indicators: an extension bit and eleven bits each. *)
Fixpoint enc_lis (lis : list Z) : list Z :=
  match lis with
  | [] => []
  | [l] => [l / 16; (l mod 16) * 16]
  | l1 :: l2 :: lis =>
      (128 + l1 / 16) :: ((l1 mod 16) * 16 + (match lis with [] => 0 | _ => 8 end) + l2 / 256) ::
      l2 mod 256 :: enc_lis lis
  end.

(** The octets before the data. *)
Definition enc_header (sn_length sn : Z) (x : upd) : list Z :=
  let lis := zlen <$> removelast (u_fields x) in
  let e := match lis with [] => 0 | _ => 1 end in
  let fi := (if u_first x then 0 else 2) + (if u_last x then 0 else 1) in
  (if sn_length =? 10 then [fi * 8 + e * 4 + sn / 256; sn mod 256] else [fi * 64 + e * 32 + sn]) ++
  enc_lis lis.

Definition enc_pdu (sn_length sn : Z) (x : upd) : list byte :=
  (byte.of_Z <$> enc_header sn_length sn x) ++ concat (u_fields x).

Record upd_wf (x : upd) : Prop := {
  uw_some : u_fields x <> [];
  uw_nonempty : Forall (fun f => f <> []) (u_fields x);
  uw_li : Forall (fun f => zlen f < 2048) (removelast (u_fields x));
  uw_count : zlen (u_fields x) <= RLC_UM_SEGMENT_NB_MAX_LI_PER_PDU;
  uw_size : zlen (concat (u_fields x)) < 60000;
}.

(** ** Lemmas on one SDU *)

Definition sdu_max (data_plane : bool) : Z :=
  if data_plane then RLC_SDU_MAX_SIZE_DATA_PLANE else RLC_SDU_MAX_SIZE_CONTROL_PLANE.

Lemma sdu_max_range dp : 0 < sdu_max dp <= 9000.
Proof. destruct dp; unfold sdu_max, RLC_SDU_MAX_SIZE_DATA_PLANE, RLC_SDU_MAX_SIZE_CONTROL_PLANE; lia. Qed.

(** [p] has been rebuilt and [out] has been delivered. *)
Definition sdu_rep (dp : bool) (o : um_sdu) (p : list byte) (out : list (list byte)) : Prop :=
  delivered o = out /\
  match sdu_block o with
  | None => p = []
  | Some blk => zlen blk = sdu_max dp /\ sdu_size o = zlen p /\ take (length p) blk = p
  end.

Lemma clear_rep dp o p out : sdu_rep dp o p out -> sdu_rep dp (rlc_um_clear_rx_sdu o) [] out.
Proof.
  unfold sdu_rep, rlc_um_clear_rx_sdu. cbn. intros [H1 H2]. split; [done|].
  destruct (sdu_block o); [|done]. destruct H2 as (? & _ & _). done.
Qed.

(** One more field. *)
Lemma reassembly_rep dp pdu off f o p out :
  sdu_rep dp o p out -> 0 <= off -> bget pdu off (zlen f) = Ret f -> f <> [] ->
  zlen (p ++ f) <= sdu_max dp ->
  exists o', rlc_um_reassembly true dp pdu off (zlen f) o = Ret o' /\ sdu_rep dp o' (p ++ f) out.
Proof.
  intros [Hd Hb] Hoff Hf Hne Hmax. pose proof (sdu_max_range dp) as Hr.
  assert (Hz : 0 < zlen f) by (destruct f; [done|unfold zlen; cbn; lia]).
  unfold rlc_um_reassembly. rewrite (proj2 (Z.leb_gt (zlen f) 0)) by lia. fold (sdu_max dp).
  assert (Hcase : exists blk, sdu_block (match sdu_block o with
      | None => Sdu (Some (zeros (Z.to_nat (sdu_max dp)))) 0 (delivered o) | Some _ => o end) = Some blk /\
    sdu_size (match sdu_block o with
      | None => Sdu (Some (zeros (Z.to_nat (sdu_max dp)))) 0 (delivered o) | Some _ => o end) = zlen p /\
    delivered (match sdu_block o with
      | None => Sdu (Some (zeros (Z.to_nat (sdu_max dp)))) 0 (delivered o) | Some _ => o end) = out /\
    zlen blk = sdu_max dp /\ take (length p) blk = p).
  { destruct (sdu_block o) as [blk|] eqn:E.
    - exists blk. destruct Hb as (? & ? & ?). done.
    - subst p. eexists. split; [reflexivity|]. cbn. split_and!; try done.
      rewrite zlen_zeros. lia. }
  destruct Hcase as (blk & E1 & E2 & E3 & E4 & E5).
  set (o1 := match sdu_block o with None => _ | Some _ => _ end) in *. cbv zeta.
  rewrite E1, E2, E3. rewrite zlen_app in Hmax.
  pose proof (zlen_nonneg p). rewrite i32_small by lia.
  rewrite (proj2 (Z.leb_le _ _)) by lia. unfold memcpy. rewrite Hf. cbn [mbind cres_bind].
  destruct (bput blk (zlen p) f) as [b|] eqn:Eb.
  2:{ rewrite bput_ok in Eb by lia. done. }
  cbn [mbind cres_bind]. eexists. split; [reflexivity|]. split; [done|]. cbn.
  split_and!; [by rewrite (bput_zlen _ _ _ _ Eb)|by rewrite zlen_app|].
  eapply bput_append; [exact Eb|done|done].
Qed.

Lemma send_rep dp o p out : sdu_rep dp o p out -> p <> [] ->
  exists o', rlc_um_send_sdu o = Ret o' /\ sdu_rep dp o' [] (out ++ [p]).
Proof.
  intros [Hd Hb] Hne. unfold rlc_um_send_sdu. destruct (sdu_block o) as [blk|]; [|done].
  destruct Hb as (H1 & H2 & H3).
  assert (Hz : 0 < zlen p) by (destruct p; [done|unfold zlen; cbn; lia]).
  assert (Hle : zlen p <= zlen blk).
  { apply (f_equal length) in H3. rewrite length_take in H3. unfold zlen. lia. }
  rewrite H2, (proj2 (Z.ltb_lt _ _)) by lia. rewrite bget_ok by lia.
  change (Z.to_nat 0) with 0%nat. rewrite drop_0. unfold zlen at 1. rewrite Nat2Z.id, H3.
  cbn [mbind cres_bind]. eexists. split; [reflexivity|]. split; [cbn; by rewrite Hd|done].
Qed.

(** ** Lemmas on the fields of a PDU *)

Lemma bget_split (b : list byte) off f g : 0 <= off -> bget b off (zlen (f ++ g)) = Ret (f ++ g) ->
  bget b off (zlen f) = Ret f /\ bget b (off + zlen f) (zlen g) = Ret g.
Proof.
  intros Hoff H. apply bget_inv in H as (_ & _ & Hle & Hd & _). rewrite zlen_app in *.
  pose proof (zlen_nonneg f). pose proof (zlen_nonneg g).
  rewrite !bget_ok by lia.
  replace (Z.to_nat (zlen f + zlen g)) with (length f + length g)%nat in Hd by (unfold zlen; lia).
  replace (Z.to_nat (off + zlen f)) with (Z.to_nat off + length f)%nat by (unfold zlen; lia).
  replace (Z.to_nat (zlen f)) with (length f) by (unfold zlen; lia).
  replace (Z.to_nat (zlen g)) with (length g) by (unfold zlen; lia).
  set (d := drop (Z.to_nat off) b) in *. rewrite <- drop_drop. fold d. split; f_equal.
  - rewrite <- (take_app_length f g) at 2. rewrite Hd, take_take. f_equal. lia.
  - rewrite <- (drop_app_length f g) at 2. rewrite Hd. rewrite skipn_firstn_comm. f_equal. lia.
Qed.

(** What the fields before the last one complete, and what waits after them. *)
Definition done_by (p : list byte) (fs : list (list byte)) : list (list byte) :=
  match fs with [] => [] | f :: fs => (p ++ f) :: fs end.
Definition left_by (p : list byte) (fs : list (list byte)) : list byte :=
  match fs with [] => p | _ => [] end.

Lemma spec_fields_snoc p fs f last :
  spec_fields p (fs ++ [f]) last =
  if last then (done_by p fs ++ [left_by p fs ++ f], []) else (done_by p fs, left_by p fs ++ f).
Proof.
  revert p. induction fs as [|g fs IH]; intros p; [by destruct last|].
  assert (E : spec_fields p ((g :: fs) ++ [f]) last =
    let '(d, p') := spec_fields [] (fs ++ [f]) last in ((p ++ g) :: d, p')).
  { cbn [app]. by destruct fs. }
  rewrite E, IH. destruct last, fs; cbn; done.
Qed.

Lemma li_fields_rep dp pdu fs : forall off o p out,
  sdu_rep dp o p out -> 0 <= off -> bget pdu off (zlen (concat fs)) = Ret (concat fs) ->
  Forall (fun f : list byte => f <> []) fs -> Forall (fun d => zlen d <= sdu_max dp) (done_by p fs) ->
  exists o', li_fields true dp pdu off (zlen <$> fs) o = Ret (off + zlen (concat fs), o') /\
    sdu_rep dp o' (left_by p fs) (out ++ done_by p fs).
Proof.
  induction fs as [|f fs IH]; intros off o p out Ho Hoff Hb Hne Hmax.
  { exists o. cbn. rewrite app_nil_r. split; [do 2 f_equal; unfold zlen; cbn; lia|done]. }
  apply Forall_cons_1 in Hne as [Hf Hne]. cbn [done_by] in Hmax.
  apply Forall_cons_1 in Hmax as [Hm Hmax]. cbn [concat] in Hb.
  apply bget_split in Hb as [Hb1 Hb2]; [|done]. pose proof (zlen_nonneg f).
  destruct (reassembly_rep dp pdu off f o p out Ho Hoff Hb1 Hf Hm) as (o1 & E1 & R1).
  destruct (send_rep dp o1 (p ++ f) out R1) as (o2 & E2 & R2); [by destruct p|].
  destruct (IH (off + zlen f) o2 [] (out ++ [p ++ f]) R2 ltac:(lia) Hb2 Hne) as (o3 & E3 & R3).
  { by destruct fs. }
  exists o3. cbn [fmap list_fmap li_fields]. rewrite E1. cbn [mbind cres_bind]. rewrite E2.
  cbn [mbind cres_bind]. rewrite E3. split.
  - do 2 f_equal. cbn [concat]. rewrite zlen_app. lia.
  - rewrite <- app_assoc in R3. cbn [done_by left_by]. by destruct fs.
Qed.

(** [FI] of a PDU. *)
Definition fi_of (first last : bool) : Z := (if first then 0 else 2) + (if last then 0 else 1).

(** The fields of a PDU from [data_p] on, when the bytes [q] of an SDU wait. *)
Lemma fields_tail dp pdu (first last : bool) fs f data_p o q out d p' :
  sdu_rep dp o q out -> 0 <= data_p ->
  bget pdu data_p (zlen (concat (fs ++ [f]))) = Ret (concat (fs ++ [f])) ->
  Forall (fun g : list byte => g <> []) (fs ++ [f]) -> spec_fields q (fs ++ [f]) last = (d, p') ->
  Forall (fun d => zlen d <= sdu_max dp) d -> zlen p' <= sdu_max dp ->
  exists o', ('(data_p, o) ← li_fields true dp pdu data_p (zlen <$> fs) o;
      o ← (if 0 <? zlen f then rlc_um_reassembly true dp pdu data_p (zlen f) o
           else if fi_of first last =? 3 then Trap FAssert else Ret o);
      o ← (if (0 <? zlen f) && ((fi_of first last =? 0) || (fi_of first last =? 2)) then rlc_um_send_sdu o else Ret o);
      Ret (0, o)) = Ret (0, o') /\ sdu_rep dp o' p' (out ++ d).
Proof.
  intros Ho Hp Hb Hne Hspec Hd Hp'. rewrite concat_app in Hb. cbn [concat] in Hb.
  rewrite app_nil_r in Hb. apply bget_split in Hb as [Hb1 Hb2]; [|done].
  apply Forall_app in Hne as [Hne1 Hne2]. apply Forall_cons_1 in Hne2 as [Hf _].
  assert (Hz : 0 < zlen f) by (destruct f; [done|unfold zlen; cbn; lia]).
  pose proof (zlen_nonneg (concat fs)). rewrite spec_fields_snoc in Hspec.
  destruct (li_fields_rep dp pdu fs data_p o q out Ho Hp Hb1 Hne1) as (o2 & E2 & R2).
  { destruct last; injection Hspec as <- <-; [by apply Forall_app in Hd as [? _]|done]. }
  rewrite E2. cbn [mbind cres_bind]. rewrite (proj2 (Z.ltb_lt 0 (zlen f))) by lia.
  destruct (reassembly_rep dp pdu (data_p + zlen (concat fs)) f o2 _ _ R2) as (o3 & E3 & R3);
    [lia|done|done| |].
  { destruct last; injection Hspec as <- <-; [|done].
    apply Forall_app in Hd as [_ Hd]. by apply Forall_cons_1 in Hd as [? _]. }
  rewrite E3. cbn [mbind cres_bind]. destruct last.
  - injection Hspec as <- <-. destruct (send_rep dp o3 _ _ R3) as (o4 & E4 & R4); [by destruct (left_by q fs)|].
    assert ((fi_of first true =? 0) || (fi_of first true =? 2) = true) as -> by by destruct first.
    cbn [andb]. rewrite E4. cbn [mbind cres_bind]. exists o4. split; [done|]. by rewrite app_assoc.
  - injection Hspec as <- <-.
    assert ((fi_of first false =? 0) || (fi_of first false =? 2) = false) as -> by by destruct first.
    rewrite andb_false_r. cbn [mbind cres_bind]. by exists o3.
Qed.

Lemma fields_rep dp pdu (first last : bool) fs f data_p o (p : list byte) out d p' :
  sdu_rep dp o p out -> 0 <= data_p ->
  bget pdu data_p (zlen (concat (fs ++ [f]))) = Ret (concat (fs ++ [f])) ->
  Forall (fun g : list byte => g <> []) (fs ++ [f]) ->
  spec_fields (if first then [] else p) (fs ++ [f]) last = (d, p') ->
  Forall (fun d => zlen d <= sdu_max dp) d -> zlen p' <= sdu_max dp ->
  exists o', reassemble_fields true dp pdu (fi_of first last) data_p (zlen f) (zlen <$> fs) 0 o =
      Ret (0, o') /\ sdu_rep dp o' p' (out ++ d).
Proof.
  intros Ho Hp Hb Hne Hspec Hd Hp'. set (q := if first then [] else p) in *.
  unfold reassemble_fields. change (negb (0 =? 0)) with false. rewrite andb_false_r.
  assert (Ho' : sdu_rep dp (if fi_of first last <? 2 then rlc_um_clear_rx_sdu o else o) q out).
  { destruct first, last; cbn; try done; by eapply clear_rep. }
  cbn [mbind cres_bind].
  exact (fields_tail dp pdu first last fs f data_p _ q out d p' Ho' Hp Hb Hne Hspec Hd Hp').
Qed.

Lemma single_rep dp pdu (first last : bool) f data_p o (p : list byte) out d p' :
  sdu_rep dp o p out -> 0 <= data_p -> bget pdu data_p (zlen f) = Ret f -> f <> [] ->
  spec_fields (if first then [] else p) [f] last = (d, p') ->
  Forall (fun d => zlen d <= sdu_max dp) d -> zlen p' <= sdu_max dp ->
  exists o', reassemble_single true dp pdu (fi_of first last) data_p (zlen f) 0 o = Ret (0, o') /\
    sdu_rep dp o' p' (out ++ d).
Proof.
  intros Ho Hp Hb Hf Hspec Hd Hp'. set (q := if first then [] else p) in *.
  assert (Hfit : zlen (q ++ f) <= sdu_max dp).
  { destruct last; injection Hspec as <- <-; [by apply Forall_cons_1 in Hd as [? _]|done]. }
  assert (Ho' : sdu_rep dp (if first then rlc_um_clear_rx_sdu o else o) q out).
  { destruct first; [by eapply clear_rep|done]. }
  destruct (reassembly_rep dp pdu data_p f _ q out Ho' Hp Hb Hf Hfit) as (o1 & E1 & R1).
  destruct (send_rep dp o1 (q ++ f) out R1) as (o2 & E2 & R2); [by destruct q|].
  unfold reassemble_single. destruct last; injection Hspec as <- <-.
  - exists o2. destruct first; cbn [fi_of Z.add Z.eqb]; rewrite E1; cbn [mbind cres_bind];
      rewrite E2; done.
  - exists o1. rewrite app_nil_r.
    destruct first; cbn [fi_of Z.add Z.eqb]; rewrite E1; done.
Qed.

(** ** Lemmas on the headers *)

Lemma enc_lis_length lis : zlen (enc_lis lis) = Z.shiftr (zlen lis * 3 + 1) 1.
Proof.
  rewrite Z.shiftr_div_pow2 by lia. change (2 ^ 1) with 2.
  assert (H : forall n l, (length l <= n)%nat -> zlen (enc_lis l) = (zlen l * 3 + 1) / 2).
  { induction n as [n IH] using lt_wf_ind. intros [|l1 [|l2 l]] Hl; [done|done|].
    cbn [length] in Hl. destruct n as [|[|n]]; [lia|lia|]. specialize (IH n ltac:(lia) l ltac:(lia)).
    unfold zlen in *. cbn [enc_lis length]. rewrite !Nat2Z.inj_succ.
    replace (Z.succ (Z.succ (Z.of_nat (length l))) * 3 + 1)
      with (Z.of_nat (length l) * 3 + 1 + 3 * 2) by lia.
    rewrite Z.div_add by lia. lia. }
  by apply (H (length lis)).
Qed.

(** The octets of the indicators are octets. *)
Lemma li_octets l1 : 0 <= l1 < 2048 ->
  0 <= l1 / 16 < 128 /\ 0 <= l1 mod 16 < 16 /\ 0 <= l1 / 256 < 8 /\ 0 <= l1 mod 256 < 256 /\
  l1 / 16 * 16 + l1 mod 16 = l1 /\ l1 / 256 * 256 + l1 mod 256 = l1.
Proof. intros H. Z.div_mod_to_equations. lia. Qed.

(** The first indicator of a group, from its two octets. *)
Lemma li_first e l1 x : 0 <= l1 < 2048 -> 0 <= e < 2 -> 0 <= x < 16 ->
  let b1 := e * 128 + l1 / 16 in let b2 := (l1 mod 16) * 16 + x in
  Z.shiftl (Z.land b1 127) 4 + Z.shiftr (Z.land b2 240) 4 = l1 /\
  Z.shiftr (Z.land b1 128) 7 = e /\ 0 <= b1 < 256 /\ 0 <= b2 < 256 /\
  Z.land b2 7 = x mod 8 /\ Z.shiftr (Z.land b2 8) 3 = x / 8.
Proof.
  intros Hl He Hx b1 b2. destruct (li_octets l1 Hl) as (A & B & _ & _ & C & _).
  pose proof (bit_group b2 4 4 ltac:(lia) ltac:(lia)) as G1.
  pose proof (bit_group b1 7 1 ltac:(lia) ltac:(lia)) as G2.
  pose proof (bit_group b2 3 1 ltac:(lia) ltac:(lia)) as G3.
  change (Z.shiftl (Z.ones 4) 4) with 240 in G1. change (Z.shiftl (Z.ones 1) 7) with 128 in G2.
  change (Z.shiftl (Z.ones 1) 3) with 8 in G3. rewrite G1, G2, G3.
  change 127 with (Z.ones 7). change 7 with (Z.ones 3) at 3. rewrite !Z.land_ones by lia.
  rewrite Z.shiftl_mul_pow2 by lia. unfold b1, b2. set (h := l1 / 16) in *. set (g := l1 mod 16) in *.
  change (2 ^ 7) with 128. change (2 ^ 4) with 16. change (2 ^ 3) with 8. change (2 ^ 1) with 2.
  split_and!; try lia; Z.div_mod_to_equations; lia.
Qed.

Lemma li_loop_enc n : forall lis acc fuel pre data size,
  (length lis <= n)%nat -> lis <> [] -> Forall (fun l => 0 <= l < 2048) lis ->
  zlen (acc ++ lis) < RLC_UM_SEGMENT_NB_MAX_LI_PER_PDU -> (length lis <= 2 * fuel)%nat ->
  sumZ lis + zlen (enc_lis lis) - 2 ^ 31 <= size < 2 ^ 31 ->
  li_loop fuel ((byte.of_Z <$> pre ++ enc_lis lis) ++ data) (zlen pre) size acc =
  Ret (Some (acc ++ lis, size - sumZ lis - zlen (enc_lis lis))).
Proof.
  induction n as [n IH] using lt_wf_ind. intros lis acc fuel pre data size Hn Hne Hall Hmax Hf Hs.
  assert (Hsum : forall l, Forall (fun l => 0 <= l < 2048) l -> 0 <= sumZ l).
  { induction 1; cbn; [lia|]. unfold sumZ in *. lia. }
  destruct fuel as [|fuel]; [destruct lis; [done|cbn in Hf; lia]|].
  destruct lis as [|l1 [|l2 lis]]; [done| |].
  - apply Forall_cons_1 in Hall as [Hl _]. cbn [enc_lis] in *.
    destruct (li_first 0 l1 0 Hl ltac:(lia) ltac:(lia)) as (F1 & F2 & F3 & F4 & _).
    rewrite Z.mul_0_l, Z.add_0_l in F1, F2, F3. rewrite Z.add_0_r in F1, F4.
    set (pdu := (byte.of_Z <$> _) ++ data).
    assert (O1 : octet pdu (zlen pre) = Ret (l1 / 16)).
    { rewrite <- (Z.add_0_r (zlen pre)). by apply (enc_octet_at pre _ data 0). }
    assert (O2 : octet pdu (zlen pre + 1) = Ret (l1 mod 16 * 16)) by (by apply (enc_octet_at pre _ data 1)).
    cbn [li_loop]. rewrite O1, O2. cbn [mbind cres_bind]. rewrite F1, F2.
    rewrite (proj2 (Z.leb_gt _ _)) by done. cbn [sumZ foldr] in *. change (zlen [_; _]) with 2 in *.
    rewrite i32_small by lia. do 3 f_equal; lia.
  - apply Forall_cons_1 in Hall as [Hl1 Hall]. apply Forall_cons_1 in Hall as [Hl2 Hall].
    destruct (li_octets l2 Hl2) as (_ & _ & G1 & G2 & _ & G3).
    set (x := (match lis with [] => 0 | _ => 8 end) + l2 / 256).
    assert (Hx : 0 <= x < 16 /\ x mod 8 = l2 / 256 /\ (x / 8 =? 0) = match lis with [] => true | _ => false end).
    { unfold x. destruct lis; split_and!; Z.div_mod_to_equations; lia. }
    destruct Hx as (Hx & Hx1 & Hx2).
    destruct (li_first 1 l1 x Hl1 ltac:(lia) Hx) as (F1 & F2 & F3 & F4 & F5 & F6).
    rewrite Z.mul_1_l in F1, F2, F3.
    set (b1 := 128 + l1 / 16) in *. set (b2 := l1 mod 16 * 16 + x) in *.
    assert (Eenc : enc_lis (l1 :: l2 :: lis) = b1 :: b2 :: l2 mod 256 :: enc_lis lis)
      by (unfold b2, x; cbn [enc_lis]; by rewrite Z.add_assoc).
    rewrite Eenc in *. set (pdu := (byte.of_Z <$> _) ++ data).
    assert (O1 : octet pdu (zlen pre) = Ret b1).
    { rewrite <- (Z.add_0_r (zlen pre)). by apply (enc_octet_at pre _ data 0). }
    assert (O2 : octet pdu (zlen pre + 1) = Ret b2) by (by apply (enc_octet_at pre _ data 1)).
    assert (O3 : octet pdu (zlen pre + 2) = Ret (l2 mod 256)) by (by apply (enc_octet_at pre _ data 2)).
    pose proof (Hsum lis Hall). pose proof (zlen_nonneg (enc_lis lis)).
    assert (Hz : zlen (b1 :: b2 :: l2 mod 256 :: enc_lis lis) = zlen (enc_lis lis) + 3)
      by (unfold zlen; cbn [length]; lia). rewrite Hz in *.
    change (sumZ (l1 :: l2 :: lis)) with (l1 + (l2 + sumZ lis)) in *.
    assert (Hli2 : Z.shiftl (Z.land b2 7) 8 + l2 mod 256 = l2)
      by (rewrite F5, Hx1, Z.shiftl_mul_pow2 by lia; lia).
    assert (Hcount : zlen ((acc ++ [l1]) ++ [l2]) < RLC_UM_SEGMENT_NB_MAX_LI_PER_PDU).
    { rewrite zlen_app in Hmax. rewrite !zlen_app. change (zlen [_]) with 1.
      unfold zlen in *. cbn [length] in Hmax. lia. }
    cbn [li_loop]. rewrite O1, O2, O3. cbn [mbind cres_bind]. rewrite F1, F2, F6, Hli2, Hx2.
    change (negb (1 =? 0)) with true. rewrite (proj2 (Z.leb_gt _ _)) by done.
    rewrite (i32_small (size - l1 - 2)) by lia. rewrite i32_small by lia.
    rewrite <- !app_assoc in *. cbn [app] in *. destruct lis as [|l3 lis].
    + change (zlen (enc_lis [])) with 0. cbn [sumZ foldr]. do 3 f_equal; lia.
    + cbn [length] in *. destruct n as [|[|n]]; [lia|lia|].
      assert (Epdu : pdu = (byte.of_Z <$> (pre ++ [b1; b2; l2 mod 256]) ++ enc_lis (l3 :: lis)) ++ data)
        by (unfold pdu; by rewrite <- app_assoc).
      replace (zlen pre + 3) with (zlen (pre ++ [b1; b2; l2 mod 256])) by (rewrite zlen_app; done).
      rewrite Epdu, (IH n ltac:(lia)); [|cbn [length]; lia|done|done| |cbn [length]; lia|lia].
      * rewrite <- app_assoc. do 3 f_equal; lia.
      * rewrite <- app_assoc. exact Hmax.
Qed.

(** The two configurations of [rlc_um_configure]. *)
Definition um_cfg (r : um_rx) : Prop :=
  (rx_sn_length r = 10 /\ rx_sn_modulo r = 1024 /\ rx_um_window_size r = 512) \/
  (rx_sn_length r = 5 /\ rx_sn_modulo r = 32 /\ rx_um_window_size r = 16).

(** The octets of the fixed part of the header, [e] being the extension bit. *)
Definition fixed_part (sn_length sn fi e : Z) : list Z :=
  if sn_length =? 10 then [fi * 8 + e * 4 + sn / 256; sn mod 256] else [fi * 64 + e * 32 + sn].

Lemma fixed_part_ok r sn fi e l data :
  um_cfg r -> 0 <= sn < rx_sn_modulo r -> 0 <= fi < 4 -> 0 <= e < 2 ->
  let pdu := (byte.of_Z <$> fixed_part (rx_sn_length r) sn fi e ++ l) ++ data in
  pdu_sn r pdu = Ret sn /\
  read_header (rx_sn_length r) pdu = Ret (e, fi, zlen (fixed_part (rx_sn_length r) sn fi e)).
Proof.
  intros Hc Hsn Hfi He pdu. unfold pdu_sn, read_header.
  destruct Hc as [(E1 & E2 & _)|(E1 & E2 & _)]; unfold pdu; rewrite E1, E2 in *;
    unfold fixed_part; cbn [Z.eqb Pos.eqb app].
  - set (b1 := fi * 8 + e * 4 + sn / 256).
    assert (Hb : 0 <= b1 < 256 /\ b1 mod 4 = sn / 256 /\ b1 / 4 mod 2 = e /\ b1 / 8 mod 4 = fi)
      by (unfold b1; Z.div_mod_to_equations; lia). destruct Hb as (Hb & B1 & B2 & B3).
    assert (H2 : 0 <= sn mod 256 < 256) by (apply Z.mod_pos_bound; lia).
    pose proof (octet_enc (b1 :: sn mod 256 :: l) data 0 b1 eq_refl Hb) as O1.
    pose proof (octet_enc (b1 :: sn mod 256 :: l) data 1 (sn mod 256) eq_refl H2) as O2.
    change (Z.of_nat 0) with 0 in O1. change (Z.of_nat 1) with 1 in O2. rewrite O1, O2.
    cbn [mbind cres_bind].
    pose proof (bit_group b1 2 1 ltac:(lia) ltac:(lia)) as G1.
    pose proof (bit_group b1 3 2 ltac:(lia) ltac:(lia)) as G2.
    change (Z.shiftl (Z.ones 1) 2) with 4 in G1. change (Z.shiftl (Z.ones 2) 3) with 24 in G2.
    rewrite G1, G2. change 3 with (Z.ones 2) at 1. rewrite Z.land_ones, Z.shiftl_mul_pow2 by lia.
    change (2 ^ 2) with 4. change (2 ^ 1) with 2. change (2 ^ 3) with 8. rewrite B1, B2, B3.
    split; [f_equal; Z.div_mod_to_equations; lia|done].
  - set (b1 := fi * 64 + e * 32 + sn).
    assert (Hb : 0 <= b1 < 256 /\ b1 mod 32 = sn /\ b1 / 32 mod 2 = e /\ b1 / 64 mod 4 = fi)
      by (unfold b1; Z.div_mod_to_equations; lia). destruct Hb as (Hb & B1 & B2 & B3).
    pose proof (octet_enc (b1 :: l) data 0 b1 eq_refl Hb) as O1.
    change (Z.of_nat 0) with 0 in O1. rewrite O1. cbn [mbind cres_bind].
    pose proof (bit_group b1 5 1 ltac:(lia) ltac:(lia)) as G1.
    pose proof (bit_group b1 6 2 ltac:(lia) ltac:(lia)) as G2.
    change (Z.shiftl (Z.ones 1) 5) with 32 in G1. change (Z.shiftl (Z.ones 2) 6) with 192 in G2.
    rewrite G1, G2. change 31 with (Z.ones 5). rewrite Z.land_ones by lia.
    change (2 ^ 5) with 32. change (2 ^ 1) with 2. change (2 ^ 6) with 64. change (2 ^ 2) with 4.
    by rewrite B1, B2, B3.
Qed.

Lemma bget_suffix (a b : list byte) : bget (a ++ b) (zlen a) (zlen b) = Ret b.
Proof.
  rewrite bget_ok by (rewrite ?zlen_app; auto using zlen_nonneg; lia). unfold zlen. rewrite !Nat2Z.id.
  rewrite drop_app_length. by rewrite take_ge by lia.
Qed.

Lemma sum_lengths (fs : list (list byte)) : sumZ (zlen <$> fs) = zlen (concat fs).
Proof. induction fs as [|f fs IH]; [done|]. cbn. rewrite zlen_app. unfold sumZ in IH. lia. Qed.

(** The reassembly of an encoded PDU finds the framing information, the lengths of the fields and
    the place of their bytes. *)
Lemma reassemble_pdu_enc r sn x fs f :
  um_cfg r -> 0 <= sn < rx_sn_modulo r -> upd_wf x -> u_fields x = fs ++ [f] ->
  length (dar_buffer r) = 1024%nat ->
  exists data_p, 0 <= data_p /\
    let pdu := enc_pdu (rx_sn_length r) sn x in
    let fi := fi_of (u_first x) (u_last x) in
    let o := if c_rem (last_reassemblied_sn r + 1) (rx_sn_modulo r) =? sn then output r
             else rlc_um_clear_rx_sdu (output r) in
    bget pdu data_p (zlen (concat (fs ++ [f]))) = Ret (concat (fs ++ [f])) /\
    reassemble_pdu true sn pdu r =
      ('(missing, o) ← (match fs with
         | [] => reassemble_single true (is_data_plane r) pdu fi data_p (zlen f) (reassembly_missing_sn_detected r) o
         | _ => reassemble_fields true (is_data_plane r) pdu fi data_p (zlen f) (zlen <$> fs)
                  (reassembly_missing_sn_detected r) o
         end);
       Ret (set_dar (set_output (set_last r sn (last_reassemblied_missing_sn r) missing) o)
              (<[Z.to_nat sn := None]> (dar_buffer r)))).
Proof.
  intros Hc Hsn [W1 W2 W3 W4 W5] Ef Hdar.
  assert (Hsn1024 : 0 <= sn < 1024) by (destruct Hc as [(_ & E & _)|(_ & E & _)]; rewrite E in Hsn; lia).
  unfold enc_pdu, enc_header. rewrite Ef, removelast_last in *.
  set (e := match zlen <$> fs with [] => 0 | _ => 1 end).
  fold (fi_of (u_first x) (u_last x)).
  fold (fixed_part (rx_sn_length r) sn (fi_of (u_first x) (u_last x)) e).
  set (hd := fixed_part _ _ _ _). set (lis := zlen <$> fs) in *.
  set (pdu := (byte.of_Z <$> hd ++ enc_lis lis) ++ concat (fs ++ [f])).
  destruct (fixed_part_ok r sn (fi_of (u_first x) (u_last x)) e (enc_lis lis) (concat (fs ++ [f])) Hc Hsn)
    as [_ Hh]; [unfold fi_of; destruct (u_first x), (u_last x); lia|unfold e; destruct lis; lia|].
  fold hd pdu in Hh. unfold reassemble_pdu. rewrite Hh. cbn [mbind cres_bind].
  pose proof (bget_suffix (byte.of_Z <$> hd ++ enc_lis lis) (concat (fs ++ [f]))) as Hdata. fold pdu in Hdata.
  assert (Hpre : zlen (byte.of_Z <$> hd ++ enc_lis lis) = zlen hd + zlen (enc_lis lis))
    by (unfold zlen; rewrite length_fmap, length_app; lia). rewrite Hpre in Hdata.
  assert (Hsize : zlen pdu - zlen hd = zlen (enc_lis lis) + zlen (concat (fs ++ [f])))
    by (unfold pdu; rewrite zlen_app, Hpre; lia). rewrite Hsize.
  pose proof (zlen_nonneg hd). pose proof (zlen_nonneg (enc_lis lis)).
  exists (zlen hd + zlen (enc_lis lis)). split; [lia|]. cbv zeta. split; [exact Hdata|].
  assert (Hset : aset (dar_buffer r) sn None = Ret (<[Z.to_nat sn := None]> (dar_buffer r)))
    by (apply aset_ok; unfold zlen; lia).
  destruct fs as [|g fs].
  - change (e =? 0) with true. cbn [lis fmap list_fmap enc_lis app concat]. rewrite app_nil_r.
    change (zlen []) with 0. rewrite Z.add_0_l, Z.add_0_r.
    destruct (reassemble_single _ _ _ _ _ _ _ _) as [[m o]|]; cbn [mbind cres_bind]; [by rewrite Hset|done].
  - change (e =? 0) with false. cbv iota. set (fs' := g :: fs) in *.
    assert (Hlen : zlen lis = zlen fs') by (unfold zlen, lis; by rewrite length_fmap).
    assert (Hcount : zlen fs' + 1 <= 24) by (rewrite zlen_app in W4; exact W4).
    pose proof (sum_lengths fs') as Hsum. fold lis in Hsum.
    assert (Hcat : zlen (concat (fs' ++ [f])) = zlen (concat fs') + zlen f)
      by (rewrite concat_app, zlen_app; cbn [concat]; by rewrite app_nil_r).
    pose proof (zlen_nonneg f). pose proof (zlen_nonneg fs').
    assert (Henc : zlen (enc_lis lis) <= 36).
    { rewrite enc_lis_length, Z.shiftr_div_pow2, Hlen by lia. change (2 ^ 1) with 2.
      apply Z.div_le_upper_bound; lia. }
    pose proof (li_loop_enc (length lis) lis [] 12 hd (concat (fs' ++ [f]))
      (zlen (enc_lis lis) + zlen (concat (fs' ++ [f])))) as Eli. fold pdu in Eli.
    unfold rlc_um_read_length_indicators. rewrite Eli; try done; cycle 1.
    { apply Forall_fmap. eapply Forall_impl; [exact W3|]. intros h. cbn. pose proof (zlen_nonneg h). lia. }
    { cbn [app]. unfold RLC_UM_SEGMENT_NB_MAX_LI_PER_PDU. lia. }
    { unfold zlen in *. lia. }
    { lia. }
    cbn [mbind cres_bind app]. rewrite <- enc_lis_length, Hsum, Hcat.
    replace (zlen (enc_lis lis) + (zlen (concat fs') + zlen f) - zlen (concat fs') - zlen (enc_lis lis))
      with (zlen f) by lia.
    destruct (reassemble_fields _ _ _ _ _ _ _ _ _) as [[m o]|]; cbn [mbind cres_bind]; [by rewrite Hset|done].
Qed.

(** What the reassembly of one encoded PDU does when no PDU is missing. *)
Lemma reassemble_pdu_ok r sn x p out d p' :
  um_cfg r -> 0 <= sn < rx_sn_modulo r -> upd_wf x ->
  c_rem (last_reassemblied_sn r + 1) (rx_sn_modulo r) = sn ->
  reassembly_missing_sn_detected r = 0 -> sdu_rep (is_data_plane r) (output r) p out ->
  length (dar_buffer r) = 1024%nat -> spec_pdu p x = (d, p') ->
  Forall (fun d => zlen d <= sdu_max (is_data_plane r)) d -> zlen p' <= sdu_max (is_data_plane r) ->
  exists o', reassemble_pdu true sn (enc_pdu (rx_sn_length r) sn x) r =
      Ret (set_dar (set_output (set_last r sn (last_reassemblied_missing_sn r) 0) o')
             (<[Z.to_nat sn := None]> (dar_buffer r))) /\
    sdu_rep (is_data_plane r) o' p' (out ++ d).
Proof.
  intros Hc Hsn Hx Hlast Hmiss Ho Hdar Hspec Hd Hp'.
  destruct (exists_last (uw_some _ Hx)) as (fs & f & Ef).
  destruct (reassemble_pdu_enc r sn x fs f Hc Hsn Hx Ef Hdar) as (data_p & Hdp & Hb & E). rewrite E.
  unfold spec_pdu in Hspec. rewrite Hlast, Z.eqb_refl, Hmiss. pose proof (uw_nonempty _ Hx) as Hne. rewrite Ef in Hspec, Hne.
  destruct fs as [|g fs].
  - cbn [app concat] in *. rewrite app_nil_r in Hb. apply Forall_cons_1 in Hne as [Hf _].
    destruct (single_rep _ _ _ _ _ _ _ _ _ _ _ Ho Hdp Hb Hf Hspec Hd Hp') as (o' & E' & R).
    exists o'. rewrite E'. by split.
  - destruct (fields_rep _ _ _ _ _ _ _ _ _ _ _ _ Ho Hdp Hb Hne Hspec Hd Hp') as (o' & E' & R).
    exists o'. rewrite E'. by split.
Qed.

(** ** Lemmas on the windows *)

(** The shifted numbers are the distances of the counts from the start of the window, for counts
    that are not before it. *)
Lemma window_shift r H c :
  um_cfg r -> vr_uh r = H mod rx_sn_modulo r ->
  H - rx_um_window_size r <= c < H + rx_sn_modulo r - rx_um_window_size r ->
  let m := i16 (vr_uh r - rx_um_window_size r) in
  let s := i16 (c_rem (c mod rx_sn_modulo r - m) (rx_sn_modulo r)) in
  (s = c - (H - rx_um_window_size r) \/ s = c - (H - rx_um_window_size r) - rx_sn_modulo r) /\
  (c <= H -> s = c - (H - rx_um_window_size r)).
Proof.
  intros Hc Hh Hr m s. unfold s, m, c_rem. rewrite Hh. clear s m Hh.
  destruct Hc as [(_ & E & Ew)|(_ & E & Ew)]; rewrite E, Ew in *; clear E Ew.
  - pose proof (Z.mod_pos_bound H 1024 ltac:(lia)). pose proof (Z.mod_pos_bound c 1024 ltac:(lia)).
    rewrite (i16_small (H mod 1024 - 512)) by lia.
    rewrite i16_small by (Z.to_euclidean_division_equations; lia).
    split; intros; Z.to_euclidean_division_equations; lia.
  - pose proof (Z.mod_pos_bound H 32 ltac:(lia)). pose proof (Z.mod_pos_bound c 32 ltac:(lia)).
    rewrite (i16_small (H mod 32 - 16)) by lia.
    rewrite i16_small by (Z.to_euclidean_division_equations; lia).
    split; intros; Z.to_euclidean_division_equations; lia.
Qed.

Lemma cfg_bounds r : um_cfg r ->
  0 < rx_um_window_size r < rx_sn_modulo r /\ 2 <= rx_sn_modulo r <= 1024.
Proof. intros [(_ & -> & ->)|(_ & -> & ->)]; lia. Qed.

Lemma reordering_window_count r H c :
  um_cfg r -> vr_uh r = H mod rx_sn_modulo r ->
  H - rx_um_window_size r <= c < H + rx_sn_modulo r - rx_um_window_size r ->
  rlc_um_in_reordering_window r (c mod rx_sn_modulo r) = if c <? H then 0 else -1.
Proof.
  intros Hc Hh Hr. destruct (window_shift r H c Hc Hh Hr) as [Hs1 Hs2].
  pose proof (cfg_bounds r Hc). unfold rlc_um_in_reordering_window.
  set (s := i16 (c_rem _ _)) in *. destruct (Z.ltb_spec c H).
  - rewrite (proj2 (Z.leb_le 0 s)), (proj2 (Z.ltb_lt s _)) by lia. done.
  - assert ((0 <=? s) && (s <? rx_um_window_size r) = false) as ->; [|done].
    apply andb_false_iff. destruct Hs1; [right; apply Z.ltb_ge|left; apply Z.leb_gt]; lia.
Qed.

(** The place of a number between the start of the window and VR(UR). *)
Lemma old_number_in_window r H R c :
  um_cfg r -> vr_uh r = H mod rx_sn_modulo r -> vr_ur r = R mod rx_sn_modulo r ->
  H - rx_um_window_size r <= c <= R -> R <= H ->
  rlc_um_in_window r (i16 (vr_uh r - rx_um_window_size r)) (c mod rx_sn_modulo r) (vr_ur r) =
  if c =? H - rx_um_window_size r then (if c =? R then 3 else 1) else if c =? R then 2 else 0.
Proof.
  intros Hc Hh Hu Hr HRH. pose proof (cfg_bounds r Hc).
  destruct (window_shift r H c Hc Hh) as [_ Hsc]; [lia|].
  destruct (window_shift r H R Hc Hh) as [_ HsR]; [lia|].
  unfold rlc_um_in_window. rewrite Hu. rewrite (Hsc ltac:(lia)), (HsR ltac:(lia)), Z.sub_diag.
  change (c_rem 0 (rx_sn_modulo r)) with (Z.rem 0 (rx_sn_modulo r)). rewrite Z.rem_0_l by lia.
  change (i16 0) with 0.
  rewrite (proj2 (Z.ltb_ge _ 0)), (proj2 (Z.ltb_ge _ (c - _))) by lia.
  destruct (Z.eqb_spec c (H - rx_um_window_size r)); destruct (Z.eqb_spec c R);
    destruct (Z.eqb_spec 0 (c - (H - rx_um_window_size r)));
    destruct (Z.eqb_spec (R - (H - rx_um_window_size r)) (c - (H - rx_um_window_size r))); (done || lia).
Qed.

Lemma all_equal_in_window r s : rlc_um_in_window r s s s = 3.
Proof. unfold rlc_um_in_window. by rewrite Z.ltb_irrefl, Z.eqb_refl. Qed.

Lemma next_sn r s : 2 <= rx_sn_modulo r -> c_rem (s mod rx_sn_modulo r + 1) (rx_sn_modulo r) = (s + 1) mod rx_sn_modulo r.
Proof.
  intros Hm. pose proof (Z.mod_pos_bound s (rx_sn_modulo r) ltac:(lia)). unfold c_rem.
  rewrite Z.rem_mod_nonneg by lia. by rewrite Zplus_mod_idemp_l.
Qed.

Lemma next_sn_ne r s : 2 <= rx_sn_modulo r -> (s + 1) mod rx_sn_modulo r <> s mod rx_sn_modulo r.
Proof.
  intros Hm Heq. apply (f_equal (fun z => (z - s) mod rx_sn_modulo r)) in Heq.
  rewrite !Zminus_mod_idemp_l, Z.sub_diag, Z.mod_0_l in Heq by lia.
  replace (s + 1 - s) with 1 in Heq by lia. rewrite Z.mod_1_l in Heq by lia. done.
Qed.

(** ** Reception in order *)

(** The receiver waits for the PDU of count [H], with nothing in its buffer. *)
Record um_sync (r : um_rx) (H : Z) (p : list byte) (out : list (list byte)) : Prop := {
  us_cfg : um_cfg r;
  us_ur : vr_ur r = H mod rx_sn_modulo r;
  us_uh : vr_uh r = H mod rx_sn_modulo r;
  us_dar : dar_buffer r = replicate 1024 None;
  us_last : c_rem (last_reassemblied_sn r + 1) (rx_sn_modulo r) = H mod rx_sn_modulo r;
  us_missing : reassembly_missing_sn_detected r = 0;
  us_timer : running (t_reordering r) = 0;
  us_sdu : sdu_rep (is_data_plane r) (output r) p out;
}.

Lemma dar_slot r H p out k : um_sync r H p out -> 0 <= k < 1024 -> aget (dar_buffer r) k = Ret None.
Proof.
  intros Hs Hk. rewrite (us_dar _ _ _ _ Hs). apply aget_ok; [lia|]. apply lookup_replicate_2. lia.
Qed.

Lemma pdu_sn_enc r sn x : um_cfg r -> 0 <= sn < rx_sn_modulo r ->
  pdu_sn r (enc_pdu (rx_sn_length r) sn x) = Ret sn.
Proof.
  intros Hc Hsn. unfold enc_pdu, enc_header.
  destruct (fixed_part_ok r sn (fi_of (u_first x) (u_last x))
    (match zlen <$> removelast (u_fields x) with [] => 0 | _ => 1 end)
    (enc_lis (zlen <$> removelast (u_fields x))) (concat (u_fields x)) Hc Hsn) as [E _]; [| |exact E].
  - unfold fi_of. destruct (u_first x), (u_last x); lia.
  - destruct (zlen <$> _); lia.
Qed.

(** A PDU just after the window moves it by one. *)
Lemma move_window_next r H p out dar :
  um_sync r H p out ->
  move_window true (H mod rx_sn_modulo r) (set_dar r dar) =
  Ret (set_vr (set_dar r dar) (vr_ur r) (vr_ux r) ((H + 1) mod rx_sn_modulo r)).
Proof.
  intros [Hc Hur Huh _ _ _ _ _]. destruct (cfg_bounds r Hc) as [Hw Hm]. unfold move_window.
  pose proof (reordering_window_count (set_dar r dar) H H) as E0.
  change (rx_sn_modulo (set_dar r dar)) with (rx_sn_modulo r) in *.
  rewrite E0 by (try done; cbn; lia). rewrite Z.ltb_irrefl. change (-1 <? 0) with true. cbn [set_dar rx_sn_modulo vr_ur vr_ux].
  rewrite (next_sn r H) by lia. set (r2 := set_vr _ _ _ _).
  assert (E : rlc_um_in_reordering_window r2 (vr_ur r2) = 0).
  { change (vr_ur r2) with (vr_ur r). rewrite Hur.
    pose proof (reordering_window_count r2 (H + 1) H) as E. change (rx_sn_modulo r2) with (rx_sn_modulo r) in E.
    rewrite E; [by rewrite (proj2 (Z.ltb_lt H (H + 1))) by lia|done|done|cbn; lia]. }
  rewrite E. done.
Qed.

(** Reassembly of the one PDU of the buffer, [sn'] being the next number. *)
Lemma reassembly_one r sn sn' x p out d p' :
  um_cfg r -> 0 <= sn < rx_sn_modulo r -> c_rem (sn + 1) (rx_sn_modulo r) = sn' -> 0 <= sn' -> sn <> sn' ->
  vr_uh r = sn' -> upd_wf x -> c_rem (last_reassemblied_sn r + 1) (rx_sn_modulo r) = sn ->
  reassembly_missing_sn_detected r = 0 -> sdu_rep (is_data_plane r) (output r) p out ->
  length (dar_buffer r) = 1024%nat ->
  dar_buffer r !! Z.to_nat sn = Some (Some (enc_pdu (rx_sn_length r) sn x)) ->
  spec_pdu p x = (d, p') ->
  Forall (fun d => zlen d <= sdu_max (is_data_plane r)) d -> zlen p' <= sdu_max (is_data_plane r) ->
  exists o', rlc_um_try_reassembly true sn sn' r =
      Ret (set_dar (set_output (set_last r sn (last_reassemblied_missing_sn r) 0) o')
             (<[Z.to_nat sn := None]> (dar_buffer r))) /\
    sdu_rep (is_data_plane r) o' p' (out ++ d).
Proof.
  intros Hc Hsn Hnext Hpos Hne Huh Hx Hlast Hmiss Hsdu Hlen Hslot Hspec Hd Hp'.
  destruct (cfg_bounds r Hc) as [_ Hm]. unfold rlc_um_try_reassembly.
  rewrite (proj2 (Z.ltb_ge sn 0)), (proj2 (Z.ltb_ge sn' 0)), (proj2 (Z.eqb_neq sn sn')) by (done || lia).
  destruct (Z.to_nat (rx_sn_modulo r)) as [|fuel] eqn:Ef; [lia|]. cbn [reassembly_loop].
  rewrite (aget_ok (dar_buffer r) sn _ (proj1 Hsn) Hslot). cbn [mbind cres_bind].
  destruct (reassemble_pdu_ok r sn x p out d p') as (o' & E & R); try done.
  exists o'. rewrite E. cbn [mbind cres_bind set_dar set_output set_last rx_sn_modulo vr_uh].
  rewrite Hnext, Huh, Z.eqb_refl. done.
Qed.

(** VR(UR) moves by one when the next PDU has not been received. *)
Lemma advance_one r sn sn' :
  c_rem (sn + 1) (rx_sn_modulo r) = sn' -> 0 < rx_sn_modulo r -> 0 <= sn' < 1024 ->
  dar_buffer r !! Z.to_nat sn' = Some None ->
  advance_ur (Z.to_nat (rx_sn_modulo r)) sn r = Ret sn'.
Proof.
  intros Hnext Hm Hsn' Hslot. destruct (Z.to_nat (rx_sn_modulo r)) as [|f] eqn:Ef; [lia|].
  cbn [advance_ur]. rewrite Hnext. unfold rlc_um_get_pdu_from_dar_buffer. rewrite u16_small by lia.
  by rewrite (aget_ok (dar_buffer r) sn' _ (proj1 Hsn') Hslot).
Qed.

Lemma update_timer_idle now r :
  running (t_reordering r) = 0 -> vr_ur r = vr_uh r -> update_timer now r = r.
Proof.
  intros Ht Hv. unfold update_timer. rewrite Ht. cbn [Z.eqb negb andb]. rewrite Ht. cbn [Z.eqb negb andb].
  rewrite Ht, Hv, all_equal_in_window. done.
Qed.

(** The PDU that is waited for goes through the buffer at once. *)
Lemma receive_step now r H p out x d p' :
  um_sync r H p out -> upd_wf x -> spec_pdu p x = (d, p') ->
  Forall (fun d => zlen d <= sdu_max (is_data_plane r)) d -> zlen p' <= sdu_max (is_data_plane r) ->
  exists r', rlc_um_receive_process_dar true now
      (enc_pdu (rx_sn_length r) (H mod rx_sn_modulo r) x) r = Ret r' /\
    um_sync r' (H + 1) p' (out ++ d) /\ is_data_plane r' = is_data_plane r /\
    rx_sn_length r' = rx_sn_length r /\ rx_sn_modulo r' = rx_sn_modulo r.
Proof.
  intros Hs Hx Hspec Hd Hp'. pose proof Hs as [Hc Hur Huh Hdar Hlast Hmiss Htim Hsdu].
  destruct (cfg_bounds r Hc) as [Hw Hm].
  pose proof (next_sn r H ltac:(lia)) as Hnext. pose proof (next_sn_ne r H ltac:(lia)) as Hne.
  pose proof (Z.mod_pos_bound H (rx_sn_modulo r) ltac:(lia)) as Hsn.
  pose proof (Z.mod_pos_bound (H + 1) (rx_sn_modulo r) ltac:(lia)) as Hsn'.
  pose proof (move_window_next r H p out) as Hmove. specialize (fun dar => Hmove dar Hs) as Hmove'.
  pose proof (pdu_sn_enc r _ x Hc Hsn) as Epsn.
  pose proof (old_number_in_window r H H H Hc Huh Hur ltac:(lia) ltac:(lia)) as Ewin.
  rewrite (proj2 (Z.eqb_neq H (H - rx_um_window_size r))), Z.eqb_refl in Ewin by lia.
  pose proof (dar_slot r H p out (H mod rx_sn_modulo r) Hs ltac:(lia)) as Eslot.
  assert (Hlen : length (dar_buffer r) = 1024%nat) by (rewrite Hdar; apply length_replicate).
  set (sn := H mod rx_sn_modulo r) in *. set (sn' := (H + 1) mod rx_sn_modulo r) in *.
  set (pdu := enc_pdu (rx_sn_length r) sn x) in *.
  unfold rlc_um_receive_process_dar. rewrite Epsn. cbn [mbind cres_bind]. rewrite Ewin. cbn [Z.eqb orb].
  unfold rlc_um_get_pdu_from_dar_buffer, rlc_um_store_pdu_in_dar_buffer.
  rewrite u16_small, Eslot by lia. cbn [mbind cres_bind andb].
  rewrite aset_ok by (unfold zlen; lia). cbn [mbind cres_bind].
  set (dar1 := <[Z.to_nat sn := Some pdu]> (dar_buffer r)). rewrite Hmove'. cbn [mbind cres_bind].
  set (r2 := set_vr (set_dar r dar1) (vr_ur r) (vr_ux r) sn').
  change (vr_ur r2) with (vr_ur r). rewrite Hur, u16_small by lia.
  assert (Hs1 : dar1 !! Z.to_nat sn = Some (Some pdu)) by (apply list_lookup_insert_eq; lia).
  change (dar_buffer r2) with dar1. rewrite (aget_ok dar1 sn _ ltac:(lia) Hs1). cbn [mbind cres_bind].
  rewrite Z.eqb_refl. cbn [andb]. change (rx_sn_modulo r2) with (rx_sn_modulo r).
  assert (Eadv : advance_ur (Z.to_nat (rx_sn_modulo r)) sn r2 = Ret sn').
  { apply (advance_one r2); [done|change (0 < rx_sn_modulo r); lia|lia|]. change (dar_buffer r2) with dar1. unfold dar1.
    rewrite list_lookup_insert_ne by lia. rewrite Hdar. apply lookup_replicate_2. lia. }
  rewrite Eadv. cbn [mbind cres_bind]. change (vr_ux r2) with (vr_ux r). change (vr_uh r2) with sn'.
  set (r3 := set_vr r2 sn' (vr_ux r) sn').
  destruct (reassembly_one r3 sn sn' x p out d p') as (o' & E & R); try done; try lia.
  { change (dar_buffer r3) with dar1. unfold dar1. by rewrite length_insert. }
  change (vr_ur r3) with sn'. rewrite E. cbn [mbind cres_bind].
  eexists. split; [by rewrite update_timer_idle|]. split_and!; try done. constructor; try done.
  cbn [set_dar dar_buffer]. change (dar_buffer r3) with dar1. unfold dar1.
  rewrite list_insert_insert_eq, Hdar. apply list_insert_id, lookup_replicate_2. lia.
Qed.

(** ** Properties *)

(** The transport blocks of consecutive PDUs, from count [H]. *)
Fixpoint tb_stream (sn_length modulo H : Z) (xs : list upd) : list mac_tb_ind :=
  match xs with
  | [] => []
  | x :: xs =>
      let pdu := enc_pdu sn_length (H mod modulo) x in
      {| ti_data := pdu; ti_size := u16 (zlen pdu); ti_error := 0 |} ::
      tb_stream sn_length modulo (H + 1) xs
  end.

Lemma enc_pdu_size r sn x : um_cfg r -> upd_wf x -> 0 < zlen (enc_pdu (rx_sn_length r) sn x) < 2 ^ 16.
Proof.
  intros Hc [W1 W2 W3 W4 W5]. unfold enc_pdu. rewrite zlen_app.
  assert (Hh : 0 < zlen (byte.of_Z <$> enc_header (rx_sn_length r) sn x) <= 40).
  { unfold enc_header. set (lis := zlen <$> removelast (u_fields x)).
    assert (Hl : zlen lis <= 24).
    { unfold lis, zlen. rewrite length_fmap. destruct (exists_last W1) as (fs & f & E).
      rewrite E in *. rewrite removelast_last. rewrite zlen_app in W4. unfold zlen in W4.
      unfold RLC_UM_SEGMENT_NB_MAX_LI_PER_PDU in W4. lia. }
    assert (He : 0 <= zlen (enc_lis lis) <= 37).
    { rewrite enc_lis_length, Z.shiftr_div_pow2 by lia. change (2 ^ 1) with 2.
      pose proof (zlen_nonneg lis). Z.div_mod_to_equations; lia. }
    unfold zlen in *. rewrite length_fmap, length_app.
    destruct Hc as [(-> & _)|(-> & _)]; cbn [Z.eqb Pos.eqb length]; lia. }
  pose proof (zlen_nonneg (concat (u_fields x))). lia.
Qed.

(** Delivery in order.  The PDUs of a bearer, coded with their sequence numbers, framing
    information and length indicators and received in order without loss, from any count, make
    the receiver deliver exactly the SDUs they carry, once each and in order, whatever the way
    the SDUs were cut and packed, as long as an SDU fits the block it is rebuilt in; the receiver
    is ready for the next PDU, with the bytes of the SDU that is not complete kept. *)
Theorem um_delivers_in_order now xs : forall r H p out d p',
  um_sync r H p out -> Forall upd_wf xs -> spec_pdus p xs = (d, p') ->
  (forall k, Forall (fun d => zlen d <= sdu_max (is_data_plane r)) (spec_pdus p (take k xs)).1 /\
             zlen (spec_pdus p (take k xs)).2 <= sdu_max (is_data_plane r)) ->
  exists r', rlc_um_receive true now (tb_stream (rx_sn_length r) (rx_sn_modulo r) H xs) r = Ret r' /\
    um_sync r' (H + zlen xs) p' (out ++ d) /\ delivered (output r') = out ++ d.
Proof.
  induction xs as [|x xs IH]; intros r H p out d p' Hs Hw Hspec Hfit.
  { injection Hspec as <- <-. exists r. rewrite app_nil_r. change (zlen []) with 0. rewrite Z.add_0_r.
    split_and!; [done|done|apply (us_sdu _ _ _ _ Hs)]. }
  apply Forall_cons_1 in Hw as [Hx Hw]. cbn [spec_pdus] in Hspec.
  destruct (spec_pdu p x) as [d1 p1] eqn:E1. destruct (spec_pdus p1 xs) as [d2 p2] eqn:E2.
  injection Hspec as <- <-. pose proof (Hfit 1%nat) as [F1 F2].
  rewrite firstn_cons, firstn_O in F1, F2. unfold spec_pdus in F1, F2. rewrite E1 in F1, F2.
  cbn [fst snd] in F1, F2. rewrite app_nil_r in F1.
  destruct (receive_step now r H p out x d1 p1 Hs Hx E1 F1 F2) as (r1 & R1 & S1 & D1 & L1 & M1).
  destruct (IH r1 (H + 1) p1 (out ++ d1) d2 p2 S1 Hw E2) as (r2 & R2 & S2 & O2).
  { intros k. rewrite D1. destruct (Hfit (S k)) as [G1 G2]. cbn [take spec_pdus] in G1, G2.
    rewrite E1 in G1, G2. destruct (spec_pdus p1 (take k xs)) as [dk pk].
    cbn [fst snd] in *. apply Forall_app in G1 as [_ G1]. done. }
  exists r2. unfold rlc_um_receive in *. cbn [tb_stream for_each ti_size ti_data].
  pose proof (enc_pdu_size r (H mod rx_sn_modulo r) x (us_cfg _ _ _ _ Hs) Hx).
  rewrite u16_small, (proj2 (Z.ltb_lt 0 _)) by lia.
  rewrite (bget_whole (enc_pdu _ _ _)). cbn [mbind cres_bind]. rewrite R1. cbn [mbind cres_bind].
  rewrite L1, M1 in R2. rewrite R2. rewrite app_assoc. split_and!; try done.
  replace (H + zlen (x :: xs)) with (H + 1 + zlen xs) by (unfold zlen; cbn [length]; lia). done.
Qed.

(** A receiver that has just been configured waits for the PDU 0. *)
Lemma configured_sync dp ms n tx : n = 10 \/ n = 5 -> tx = 10 \/ tx = 5 \/ tx = 0 ->
  um_sync (rlc_um_configure ms n tx 0 (rlc_um_init dp)) 0 [] [].
Proof. intros [-> | ->] [-> | [-> | ->]]; constructor; try done; (by left) || (by right). Qed.

(** The receiver of a signalling bearer with numbers of five bits, after its configuration. *)
Definition rx_five : um_rx := rlc_um_configure 30 5 5 0 (rlc_um_init false).

Lemma um_delivers_in_order_witness :
  exists r', rlc_um_receive true 7
    (tb_stream 5 32 0 [Upd true [[Byte.x01; Byte.x02]; [Byte.x03]] false; Upd false [[Byte.x04]] true]) rx_five = Ret r' /\
    delivered (output r') = [[Byte.x01; Byte.x02]; [Byte.x03; Byte.x04]].
Proof.
  destruct (um_delivers_in_order 7 [Upd true [[Byte.x01; Byte.x02]; [Byte.x03]] false; Upd false [[Byte.x04]] true]
              rx_five 0 [] [] [[Byte.x01; Byte.x02]; [Byte.x03; Byte.x04]] []) as (r' & E & _ & O).
  - apply (configured_sync false 30 5 5); tauto.
  - repeat constructor; done.
  - reflexivity.
  - intros [|[|k]]; [| |rewrite firstn_all2 by (simpl; lia)]; split; repeat constructor; done.
  - exists r'. split; [exact E|exact O].
Defined.

(** Duplicates are discarded.  A PDU whose count is in the receive window and before VR(UR),
    that is one that has been reassembled or given up, leaves the receiver as it is, across the
    wrap of the sequence numbers. *)
Theorem um_old_pdu_discarded alloc now pdu r H R c :
  um_cfg r -> vr_uh r = H mod rx_sn_modulo r -> vr_ur r = R mod rx_sn_modulo r ->
  H - rx_um_window_size r <= c < R -> R <= H -> pdu_sn r pdu = Ret (c mod rx_sn_modulo r) ->
  rlc_um_receive_process_dar alloc now pdu r = Ret r.
Proof.
  intros Hc Hh Hu Hr HRH Hsn. unfold rlc_um_receive_process_dar. rewrite Hsn. cbn [mbind cres_bind].
  rewrite (old_number_in_window r H R c) by (done || lia).
  rewrite (proj2 (Z.eqb_neq c R)) by lia. by destruct (c =? H - rx_um_window_size r).
Qed.

(** VR(UR) and VR(UH) are 34 and 35, so their numbers are 2 and 3; the PDU 31 is repeated. *)
Lemma um_old_pdu_discarded_witness :
  rlc_um_receive_process_dar true 7 [Byte.x1f; Byte.x01] (set_vr rx_five 2 2 3) = Ret (set_vr rx_five 2 2 3).
Proof.
  apply (um_old_pdu_discarded true 7 [Byte.x1f; Byte.x01] (set_vr rx_five 2 2 3) 35 34 31);
    [by right|reflexivity|reflexivity|vm_compute; by split|lia|reflexivity].
Defined.

(** A cleared SDU, and a field that does not lie in the PDU. *)
Lemma reassembly_overreads dp pdu off li o p out :
  sdu_rep dp o p out -> 0 < li <= sdu_max dp -> zlen pdu < off + li ->
  rlc_um_reassembly true dp pdu off li (rlc_um_clear_rx_sdu o) = Trap FOob.
Proof.
  intros Ho Hli Hoff. pose proof (clear_rep dp o p out Ho) as [_ Hb].
  pose proof (sdu_max_range dp). unfold rlc_um_reassembly. rewrite (proj2 (Z.leb_gt li 0)) by lia.
  fold (sdu_max dp). unfold rlc_um_clear_rx_sdu in *. cbn [sdu_block sdu_size delivered] in *.
  assert (E : bget pdu off li = Trap FOob).
  { unfold bget. by rewrite (proj2 (Z.leb_gt (off + li) (zlen pdu))), andb_false_r by lia. }
  destruct (sdu_block o); cbn [sdu_block sdu_size delivered]; rewrite Z.add_0_l, i32_small by lia;
    rewrite (proj2 (Z.leb_le li _)) by lia; unfold memcpy; by rewrite E.
Qed.

(** A length indicator is not compared with the size of the PDU.  A PDU with one length
    indicator that is larger than the data after it makes the reassembly read behind the end of
    the received block, in every state of the receiver. *)
Theorem um_length_indicator_overreads r sn li data p out :
  um_cfg r -> 0 <= sn < rx_sn_modulo r -> sdu_rep (is_data_plane r) (output r) p out ->
  zlen data < li <= sdu_max (is_data_plane r) -> li < 2048 ->
  reassemble_pdu true sn
    ((byte.of_Z <$> fixed_part (rx_sn_length r) sn 0 1 ++ enc_lis [li]) ++ data) r = Trap FOob.
Proof.
  intros Hc Hsn Ho Hli Hmax. set (hd := fixed_part _ _ _ _). set (pdu := _ ++ data).
  pose proof (zlen_nonneg data) as Hd.
  destruct (fixed_part_ok r sn 0 1 (enc_lis [li]) data Hc Hsn ltac:(lia) ltac:(lia)) as [_ Hh].
  fold hd pdu in Hh. unfold reassemble_pdu. rewrite Hh. cbn [mbind cres_bind Z.eqb].
  assert (Hsize : zlen pdu = zlen hd + 2 + zlen data)
    by (unfold pdu, zlen; rewrite length_app, length_fmap, length_app; cbn [enc_lis length]; lia).
  unfold rlc_um_read_length_indicators.
  pose proof (li_loop_enc 1 [li] [] 12 hd data (zlen pdu - zlen hd)) as Eli. fold pdu in Eli.
  change (zlen (enc_lis [li])) with 2 in Eli. change (sumZ [li]) with (li + 0) in Eli.
  rewrite Eli; [|cbn; lia|done|by repeat constructor; lia|done|cbn; lia|lia]. clear Eli.
  cbn [mbind cres_bind app]. change (zlen [li]) with 1. change (Z.shiftr (1 * 3 + 1) 1) with 2.
  unfold reassemble_fields. cbn [Z.ltb Z.leb Z.compare andb mbind cres_bind li_fields].
  set (o := if _ =? sn then _ else _). assert (Hr : exists q, sdu_rep (is_data_plane r) o q out).
  { unfold o. case_match; [by exists p|exists []; by apply (clear_rep _ _ p)]. }
  destruct Hr as [q Hr]. by rewrite (reassembly_overreads _ _ _ _ _ q out Hr) by lia.
Qed.

Lemma um_length_indicator_overreads_witness :
  reassemble_pdu true 0 [Byte.x20; Byte.x7c; Byte.xf0; Byte.x01] rx_five = Trap FOob.
Proof.
  apply (um_length_indicator_overreads rx_five 0 1999 [Byte.x01] [] []);
    [by right|done|by split|vm_compute; by split|lia].
Defined.
