(* ===== verification/RlcAmRx.v ===== *)
(** Acknowledged mode, the receiving side: the header of a data PDU and the state variables
    ([openair2/LAYER2/RLC/AM_v9.3.0/rlc_am_receiver.c]), the reception buffer
    ([rlc_am_rx_list.c]), the reassembly ([rlc_am_reassembly.c]) and the reordering timer
    ([rlc_am_timer_reordering.c]).

    The reception buffer is a doubly linked list of memory blocks that are in no other list; it is
    the sequence of its blocks here, and a place in it is the sequence before and the sequence
    behind.  A block that the reassembly has freed and whose numbers the code still reads keeps
    these numbers: the pools do not touch a freed block.  The time is in milliseconds.  Logs and
    traces are left out. *)
From stdpp Require Import base list numbers.
From coqutil Require Import Byte.
From Stdlib Require Import ZArith Lia Sorted.
From S2P Require Import Prelude RlcAmWindow RlcUm.
Open Scope Z_scope.

Definition RLC_AM_SN_MASK : Z := 0x3ff.
Definition RLC_AM_MAX_SDU_IN_PDU : Z := 32.
Definition RLC_SDU_MAX_SIZE : Z := 9000.

(** ** State *)

(** [rlc_am_pdu_info_t]: [payload] is an offset in the PDU; the indicators read so far, [num_li] of
    them, are the list. *)
Record rlc_am_pdu_info_t := PduInfo {
  pi_d_c : Z;
  pi_rf : Z;
  pi_p : Z;
  pi_fi : Z;
  pi_e : Z;
  pi_sn : Z;
  pi_lsf : Z;
  pi_so : Z;
  li_list : list Z;                       (* int16_t[RLC_AM_MAX_SDU_IN_PDU] *)
  hidden_size : Z;                        (* int16_t *)
  payload : Z;
  pi_payload_size : Z;                    (* int16_t *)
  header_size : Z;                        (* int16_t *)
}.

(** A block of the reception buffer: [rlc_am_rx_pdu_management_t] and the PDU. *)
Record rx_pdu := RxPdu {
  pdu_info : rlc_am_pdu_info_t;
  all_segments_received : Z;              (* uint8_t *)
  rx_bytes : list byte;
}.

(** The statistics of the reception, [unsigned int]. *)
Record am_rx_stats := RxStats {
  stat_rx_pdcp_sdu : Z;
  stat_rx_pdcp_bytes : Z;
  stat_rx_data_pdu_dropped : Z;
  stat_rx_data_bytes_dropped : Z;
  stat_rx_data_pdu_out_of_window : Z;
  stat_rx_data_bytes_out_of_window : Z;
  stat_timer_reordering_timed_out : Z;
}.

(** The members of [rlc_am_entity_t] used by the reception; [output_sdu_in_construction] and
    [output_sdu_size_to_write] with the SDUs delivered are the record of [RlcUm]. *)
Record am_rx := AmRx {
  am_vr : am_vars;
  receiver_buffer : list rx_pdu;
  am_output : um_sdu;
  status_requested : Z;
  am_t_reordering : um_timer;
  am_stats : am_rx_stats;
}.

Definition set_am_vr (r : am_rx) (v : am_vars) : am_rx :=
  AmRx v (receiver_buffer r) (am_output r) (status_requested r) (am_t_reordering r) (am_stats r).
Definition set_buffer (r : am_rx) (l : list rx_pdu) : am_rx :=
  AmRx (am_vr r) l (am_output r) (status_requested r) (am_t_reordering r) (am_stats r).
Definition set_am_output (r : am_rx) (o : um_sdu) (st : am_rx_stats) : am_rx :=
  AmRx (am_vr r) (receiver_buffer r) o (status_requested r) (am_t_reordering r) st.
Definition request_status (r : am_rx) : am_rx :=
  AmRx (am_vr r) (receiver_buffer r) (am_output r) 1 (am_t_reordering r) (am_stats r).
Definition set_am_timer (r : am_rx) (t : um_timer) : am_rx :=
  AmRx (am_vr r) (receiver_buffer r) (am_output r) (status_requested r) t (am_stats r).
Definition set_stats (r : am_rx) (st : am_rx_stats) : am_rx :=
  AmRx (am_vr r) (receiver_buffer r) (am_output r) (status_requested r) (am_t_reordering r) st.

(** ** The header of a data PDU *)

(** The loop over the length indicators, [e_li] being the offset of [rlc_am_e_li_t]: the
    indicators, their sum, the size of the header and the place of the payload, or nothing when
    there are too many.  The array has 32 places, so that 34 turns are enough. *)
Fixpoint am_li_loop (fuel : nat) (pdu : list byte) (e_li li_length_in_bytes : Z) (lis : list Z) (sum_li hdr : Z)
  : cres (option (list Z * Z * Z * Z)) :=
  match fuel with
  | O => Trap FFuel
  | S fuel =>
      let len := Z.lxor li_length_in_bytes 3 in
      '(li, li_to_read, e_li', n) ←
        (if len =? 2 then
           b1 ← octet pdu e_li;
           b2 ← octet pdu (e_li + 1);
           Ret (Z.lor (Z.land (u16 (Z.shiftl b1 4)) 0x07f0) (Z.land (Z.shiftr b2 4) 0x000f), Z.land b1 0x80, e_li, 2)
         else
           b2 ← octet pdu (e_li + 1);
           b3 ← octet pdu (e_li + 2);
           Ret (Z.lor (Z.land (u16 (Z.shiftl b2 8)) 0x0700) b3, Z.land b2 0x08, e_li + 3, 1));
      if RLC_AM_MAX_SDU_IN_PDU <=? zlen lis then Trap FOob
      else
        let lis := lis ++ [li] in
        let sum_li := i16 (sum_li + li) in
        let hdr := hdr + n in
        if RLC_AM_MAX_SDU_IN_PDU <? zlen lis then Ret None
        else if li_to_read =? 0 then Ret (Some (lis, sum_li, hdr, if len =? 2 then e_li' + 2 else e_li'))
        else am_li_loop fuel pdu e_li' len lis sum_li hdr
  end.

Definition zero_pdu_info : rlc_am_pdu_info_t := PduInfo 0 0 0 0 0 0 0 0 [] 0 0 0 0.

(** The result is the return value and [*pdu_info_pP]. *)
Definition rlc_am_get_data_pdu_infos (pdu : list byte) (total_sizeP : Z) : cres (Z * rlc_am_pdu_info_t) :=
  b1 ← octet pdu 0;
  if Z.shiftr b1 7 =? 0 then Ret (-1, zero_pdu_info)
  else
    let rf := Z.land (Z.shiftr b1 6) 1 in
    let p := Z.land (Z.shiftr b1 5) 1 in
    let fi := Z.land (Z.shiftr b1 3) 3 in
    let e := Z.land (Z.shiftr b1 2) 1 in
    b2 ← octet pdu 1;
    let sn := b2 + Z.shiftl (Z.land b1 3) 8 in
    '(lsf, so, data, hdr) ←
      (if negb (rf =? 0) then
         d0 ← octet pdu 2;
         d1 ← octet pdu 3;
         Ret (Z.land (Z.shiftr d0 7) 1, d1 + Z.shiftl (Z.land d0 0x7f) 8, 4, 4)
       else Ret (0, 0, 2, 2));
    li ← (if negb (e =? 0) then am_li_loop 34 pdu data 1 [] 0 hdr else Ret (Some ([], 0, hdr, data)));
    match li with
    | None => Ret (-2, zero_pdu_info)
    | Some (lis, sum_li, hdr, payload) =>
        let size := i16 (total_sizeP - hdr) in
        Ret (0, PduInfo 1 rf p fi e sn lsf so lis (if sum_li <? size then size - sum_li else 0) payload size hdr)
    end.

(** ** The reception buffer *)

Abbreviation sn_of := (fun x : rx_pdu => pi_sn (pdu_info x)).
Abbreviation rf_of := (fun x : rx_pdu => pi_rf (pdu_info x)).
Abbreviation so_of := (fun x : rx_pdu => pi_so (pdu_info x)).
(** The offset of the last octet. *)
Definition last_of (x : rx_pdu) : Z := so_of x + pi_payload_size (pdu_info x) - 1.

(** What a turn of a walk decides. *)
Inductive verdict := Insert | Refuse | Next.

(** A PDU [x] at the cursor [c], the element before it being [prev]. *)
Definition before_cursor (x : rx_pdu) (prev : option rx_pdu) (c : rx_pdu) : verdict :=
  if sn_of x <? sn_of c then
    match prev with
    | Some v =>
        if sn_of v =? sn_of x then
          if negb (rf_of x =? rf_of v) then Refuse
          else if (rf_of x =? 1) && (so_of x <=? last_of v) then Refuse else Insert
        else Insert
    | None => Insert
    end
  else if sn_of x =? sn_of c then
    if rf_of c =? 0 then Refuse
    else if rf_of x =? 1 then
      if last_of x <? so_of c then
        match prev with
        | Some v => if sn_of v =? sn_of c then (if last_of v <? so_of x then Insert else Refuse) else Insert
        | None => Insert
        end
      else if so_of x <=? so_of c then Refuse else Next
    else Refuse
  else Next.

(** The walk from the head; [before] is reversed.  The result is the place of the PDU. *)
Fixpoint insert_forward (stop at_end : rx_pdu -> bool) (x : rx_pdu) (before l : list rx_pdu) : option (list rx_pdu * list rx_pdu) :=
  match l with
  | [] => match before with c :: _ => if at_end c then Some (before, []) else None | [] => None end
  | c :: l' =>
      if stop c then Some (before, l)
      else match before_cursor x (head before) c with
           | Insert => Some (before, l)
           | Refuse => None
           | Next => insert_forward stop at_end x (c :: before) l'
           end
  end.

(** A PDU [x] at the cursor [c] of the walk from the tail, the element behind it being [prev]. *)
Definition after_cursor (x : rx_pdu) (prev : option rx_pdu) (c : rx_pdu) : verdict :=
  if sn_of c <? sn_of x then
    match prev with
    | Some v =>
        if sn_of v =? sn_of c then
          if negb (rf_of x =? rf_of v) then Refuse
          else if (rf_of x =? 1) && (so_of v <=? last_of x) then Refuse else Insert
        else Insert
    | None => Insert
    end
  else if sn_of x =? sn_of c then
    if rf_of c =? 0 then Refuse
    else if rf_of x =? 1 then
      if last_of c <? so_of x then
        match prev with
        | Some v => if sn_of v =? sn_of c then (if last_of x <? so_of v then Insert else Refuse) else Insert
        | None => Insert
        end
      else if so_of c <=? so_of x then Refuse else Next
    else Refuse
  else Next.

(** The walk from the tail, [rl] being reversed.  At the end the PDU is added at the tail. *)
Fixpoint insert_backward (stop at_end : rx_pdu -> bool) (x : rx_pdu) (rl after : list rx_pdu) : option (list rx_pdu * list rx_pdu) :=
  match rl with
  | [] => match after with c :: _ => if at_end c then Some (reverse after, []) else None | [] => None end
  | c :: rl' =>
      if stop c then Some (rl, after)
      else match after_cursor x (head after) c with
           | Insert => Some (rl, after)
           | Refuse => None
           | Next => insert_backward stop at_end x rl' (c :: after)
           end
  end.

(** The tests behind the walks, on the last element looked at. *)
Definition end_wrapped (x c : rx_pdu) : bool :=
  if rf_of c =? 0 then true
  else if (rf_of x =? 1) && (rf_of c =? 1) && (sn_of x =? sn_of c) then last_of c <? so_of x
  else negb (sn_of x =? sn_of c).
Definition end_simple (x c : rx_pdu) : bool := if sn_of x =? sn_of c then last_of c <? so_of x else true.

(** The place of a PDU of the window: what is before it, reversed, and what is behind it; nothing
    when it is refused. *)
Definition rlc_am_rx_list_insert_pdu (v : am_vars) (l : list rx_pdu) (x : rx_pdu) : option (list rx_pdu * list rx_pdu) :=
  match l with
  | [] => Some ([], [])
  | _ =>
      if vr_mr v <? vr_r v then
        if vr_r v <=? sn_of x then insert_forward (fun c => sn_of c <? vr_r v) (end_wrapped x) x [] l
        else insert_backward (fun c => vr_r v <=? sn_of c) (end_wrapped x) x (reverse l) []
      else insert_forward (fun _ => false) (end_simple x) x [] l
  end.

Definition place_in (at_ : list rx_pdu * list rx_pdu) (x : rx_pdu) : list rx_pdu := reverse at_.1 ++ x :: at_.2.

Definition mark (x : rx_pdu) : rx_pdu := RxPdu (pdu_info x) 1 (rx_bytes x).

(** Marking the elements with the number [sn] at the front of a list. *)
Fixpoint mark_same (sn : Z) (l : list rx_pdu) : list rx_pdu :=
  match l with
  | [] => []
  | c :: l' => if sn_of c =? sn then mark c :: mark_same sn l' else l
  end.

(** The walk over the segments behind the first one: whether the last segment was reached without
    a gap. *)
Fixpoint segments_end (sn last_end_so : Z) (l : list rx_pdu) : bool :=
  match l with
  | [] => false
  | c :: l' =>
      if (sn_of c =? sn) && (rf_of c =? 1) && (so_of c <=? last_end_so)
      then (0 <? pi_lsf (pdu_info c)) || segments_end sn (so_of c + pi_payload_size (pdu_info c)) l'
      else false
  end.

(** The segments of the same PDU right before a place: what is before them, reversed, and the
    segments from the first one on. *)
Fixpoint first_segment (sn : Z) (before segs : list rx_pdu) : list rx_pdu * list rx_pdu :=
  match before with
  | c :: before' => if sn_of c =? sn then first_segment sn before' (c :: segs) else (before, segs)
  | [] => ([], segs)
  end.

(** [rlc_am_rx_check_all_byte_segments] and [rlc_am_rx_mark_all_segments_received] for the PDU [x] at
    a place: the place and the PDU with the marks. *)
Definition rlc_am_rx_check_all_byte_segments (at_ : list rx_pdu * list rx_pdu) (x : rx_pdu)
  : (list rx_pdu * list rx_pdu) * rx_pdu :=
  let '(before, after) := at_ in
  if rf_of x =? 0 then (at_, mark x)
  else
    let '(rest, segs) := first_segment (sn_of x) before [] in
    let first := default x (head segs) in
    if negb (so_of first =? 0) then (at_, x)
    else if segments_end (sn_of x) (pi_payload_size (pdu_info first)) (tail (segs ++ [x]) ++ after)
    then ((reverse (mark <$> segs) ++ rest, mark_same (sn_of x) after), mark x)
    else (at_, x).

(** ** The state variables *)

Definition set_vr_ms (v : am_vars) (ms : Z) : am_vars := Build_am_vars (vt_a v) (vt_ms v) (vr_r v) (vr_mr v) (vr_h v) (vr_x v) ms.
Definition set_vr_h (v : am_vars) (h : Z) : am_vars := Build_am_vars (vt_a v) (vt_ms v) (vr_r v) (vr_mr v) h (vr_x v) (vr_ms v).
Definition set_vr_x (v : am_vars) (x : Z) : am_vars := Build_am_vars (vt_a v) (vt_ms v) (vr_r v) (vr_mr v) (vr_h v) x (vr_ms v).
Definition set_vr_r (v : am_vars) (r mr : Z) : am_vars := Build_am_vars (vt_a v) (vt_ms v) r mr (vr_h v) (vr_x v) (vr_ms v).

(** VR(MS) after a walk over a list; [last] is the number of the element before. *)
Fixpoint ms_walk (last : Z) (l : list rx_pdu) : Z :=
  match l with
  | [] => Z.land (last + 1) RLC_AM_SN_MASK
  | c :: l' => if all_segments_received c =? 0 then sn_of c else ms_walk (sn_of c) l'
  end.

Definition rlc_am_rx_update_vr_ms (l : list rx_pdu) (v : am_vars) : am_vars :=
  match l with [] => v | _ => set_vr_ms v (ms_walk 0 l) end.

Fixpoint r_walk (vr_r : Z) (l : list rx_pdu) : Z :=
  match l with
  | [] => vr_r
  | c :: l' =>
      if (all_segments_received c =? 0) || negb (vr_r =? sn_of c) then vr_r
      else r_walk (if (rf_of c =? 1) && negb (pi_lsf (pdu_info c) =? 1) then vr_r else Z.land (vr_r + 1) RLC_AM_SN_MASK) l'
  end.

Definition rlc_am_rx_update_vr_r (l : list rx_pdu) (v : am_vars) : am_vars := set_vr_r v (r_walk (vr_r v) l) (vr_mr v).

(** ** Reassembly *)

Definition rlc_am_clear_rx_sdu (o : um_sdu) : um_sdu := Sdu (sdu_block o) 0 (delivered o).

(** [alloc] is whether a block is given. *)
Definition rlc_am_reassembly (alloc : bool) (pdu : list byte) (off lengthP : Z) (o : um_sdu) : cres um_sdu :=
  o ← match sdu_block o with
      | None => if alloc then Ret (Sdu (Some (zeros (Z.to_nat RLC_SDU_MAX_SIZE))) 0 (delivered o)) else Trap FAssert
      | Some _ => Ret o
      end;
  match sdu_block o with
  | Some blk =>
      if sdu_size o + lengthP <=? RLC_SDU_MAX_SIZE then
        blk ← memcpy blk (sdu_size o) pdu off lengthP;
        Ret (Sdu (Some blk) (i32 (sdu_size o + lengthP)) (delivered o))
      else Ret (Sdu (Some blk) 0 (delivered o))
  | None => Ret o
  end.

(** The SDU goes to [rlc_data_ind]. *)
Definition rlc_am_send_sdu (s : um_sdu * am_rx_stats) : cres (um_sdu * am_rx_stats) :=
  let '(o, st) := s in
  match sdu_block o with
  | Some blk =>
      if 0 <? sdu_size o then
        d ← bget blk 0 (sdu_size o);
        Ret (Sdu None 0 (delivered o ++ [d]),
             RxStats (u32 (stat_rx_pdcp_sdu st + 1)) (u32 (stat_rx_pdcp_bytes st + sdu_size o)) (stat_rx_data_pdu_dropped st)
               (stat_rx_data_bytes_dropped st) (stat_rx_data_pdu_out_of_window st) (stat_rx_data_bytes_out_of_window st)
               (stat_timer_reordering_timed_out st))
      else Trap FAssert
  | None => Ret s
  end.

(** The fields that the length indicators delimit: each one ends an SDU. *)
Fixpoint am_fields (alloc : bool) (pdu : list byte) (j : Z) (lis : list Z) (s : um_sdu * am_rx_stats) : cres (Z * (um_sdu * am_rx_stats)) :=
  match lis with
  | [] => Ret (j, s)
  | li :: lis =>
      o ← rlc_am_reassembly alloc pdu j li s.1;
      s ← rlc_am_send_sdu (o, s.2);
      am_fields alloc pdu (j + li) lis s
  end.

Definition rlc_am_reassemble_pdu (alloc : bool) (x : rx_pdu) (s : um_sdu * am_rx_stats) : cres (um_sdu * am_rx_stats) :=
  let i := pdu_info x in
  if pi_e i =? 0 then
    s ← (if pi_fi i <? 2 then rlc_am_send_sdu s else Ret s);
    o ← rlc_am_reassembly alloc (rx_bytes x) (payload i) (pi_payload_size i) s.1;
    if (pi_fi i =? 0) || (pi_fi i =? 2) then rlc_am_send_sdu (o, s.2) else Ret (o, s.2)
  else
    s ← (if pi_fi i <? 2 then rlc_am_send_sdu s else Ret s);
    '(j, s) ← am_fields alloc (rx_bytes x) (payload i) (li_list i) s;
    if 0 <? hidden_size i then
      o ← rlc_am_reassembly alloc (rx_bytes x) j (hidden_size i) s.1;
      if (pi_fi i =? 0) || (pi_fi i =? 2) then rlc_am_send_sdu (o, s.2) else Ret (o, s.2)
    else Ret s.

(** The loop of [rlc_am_rx_list_reassemble_rlc_sdus]: what stays in the buffer. *)
Fixpoint reassemble_loop (alloc : bool) (l : list rx_pdu) (s : um_sdu * am_rx_stats) : cres (list rx_pdu * (um_sdu * am_rx_stats)) :=
  match l with
  | [] => Ret ([], s)
  | c :: l' =>
      if 0 <? all_segments_received c then
        s ← rlc_am_reassemble_pdu alloc c s;
        match l' with
        | [] => Ret ([], s)
        | n :: _ =>
            if (sn_of n =? Z.land (sn_of c + 1) RLC_AM_SN_MASK) || ((sn_of n =? sn_of c) && (0 <? all_segments_received n))
            then reassemble_loop alloc l' s else Ret (l', s)
        end
      else Ret (l, s)
  end.

Definition rlc_am_rx_list_reassemble_rlc_sdus (alloc : bool) (r : am_rx) : cres am_rx :=
  '(l, (o, st)) ← reassemble_loop alloc (receiver_buffer r) (am_output r, am_stats r);
  Ret (set_am_output (set_buffer r l) o st).

(** ** The reordering timer *)

Definition rlc_am_stop_and_reset_timer_reordering (t : um_timer) : um_timer := Timer 0 0 0 (ms_duration t) 0.

Definition rlc_am_start_timer_reordering (now : Z) (t : um_timer) : um_timer :=
  if (running t =? 0) && (0 <? ms_duration t) then Timer 1 (u32 (now + ms_duration t)) now (ms_duration t) 0
  else Timer (running t) (ms_time_out t) (ms_start t) (ms_duration t) 0.

Definition rlc_am_init_timer_reordering (ms_durationP : Z) : um_timer := Timer 0 0 0 ms_durationP 0.

Definition timer_expired (now : Z) (t : um_timer) : bool :=
  ((ms_start t <? ms_time_out t) && ((ms_time_out t <=? now) || (now <? ms_start t))) ||
  ((ms_time_out t <? ms_start t) && (now <? ms_start t) && (ms_time_out t <=? now)).

(** VR(MS) after the time-out. *)
Fixpoint ms_after_timeout (v : am_vars) (l : list rx_pdu) : am_vars :=
  match l with
  | [] => v
  | c :: l' =>
      let v := set_vr_ms v (Z.land (sn_of c + 1) RLC_AM_SN_MASK) in
      if negb (rlc_am_sn_gte_vr_x v (sn_of c) =? 0) && (all_segments_received c =? 0) then set_vr_ms v (sn_of c)
      else ms_after_timeout v l'
  end.

Definition rlc_am_check_timer_reordering (now : Z) (r : am_rx) : am_rx :=
  let t := am_t_reordering r in
  if negb (running t =? 0) && timer_expired now t then
    let st := am_stats r in
    let v := ms_after_timeout (am_vr r) (receiver_buffer r) in
    let t := Timer 0 (ms_time_out t) (ms_start t) (ms_duration t) 1 in
    let '(v, t) := if negb (rlc_am_sn_gt_vr_ms v (vr_h v) =? 0)
                   then (set_vr_x v (vr_h v), Timer 0 (u32 (now + ms_duration t)) (ms_start t) (ms_duration t) 1) else (v, t) in
    AmRx v (receiver_buffer r) (am_output r) 1 t
      (RxStats (stat_rx_pdcp_sdu st) (stat_rx_pdcp_bytes st) (stat_rx_data_pdu_dropped st) (stat_rx_data_bytes_dropped st)
         (stat_rx_data_pdu_out_of_window st) (stat_rx_data_bytes_out_of_window st) (u32 (stat_timer_reordering_timed_out st + 1)))
  else r.

(** ** Reception *)

(** The reordering timer after a PDU with the number [sn] was placed. *)
Definition update_t_reordering (now sn : Z) (r : am_rx) : am_rx :=
  let v := am_vr r in
  let t := am_t_reordering r in
  let t := if negb (running t =? 0) && ((vr_x v =? vr_r v) || ((rlc_am_in_rx_window v sn =? 0) && negb (vr_x v =? vr_mr v)))
           then rlc_am_stop_and_reset_timer_reordering t else t in
  if (running t =? 0) && negb (vr_h v =? vr_r v)
  then set_am_timer (set_am_vr r (set_vr_x v (vr_h v))) (rlc_am_start_timer_reordering now t)
  else set_am_timer r t.

(** The actions when a PDU was placed in the buffer. *)
Definition placed (alloc : bool) (now : Z) (at_ : list rx_pdu * list rx_pdu) (x : rx_pdu) (r : am_rx) : cres am_rx :=
  let v := am_vr r in
  let sn := sn_of x in
  let v := if 0 <? rlc_am_sn_gte_vr_h v sn then set_vr_h v (Z.land (sn + 1) RLC_AM_SN_MASK) else v in
  let '(at_, x) := rlc_am_rx_check_all_byte_segments at_ x in
  let from := x :: at_.2 in
  let complete := negb (all_segments_received x =? 0) in
  let v := if (sn =? vr_ms v) && complete then rlc_am_rx_update_vr_ms from v else v in
  let r := set_buffer (set_am_vr r v) (place_in at_ x) in
  r ← (if sn =? vr_r v then
         let v := if complete then
                    let v := rlc_am_rx_update_vr_r from v in
                    set_vr_r v (vr_r v) (Z.land (vr_r v + RLC_AM_WINDOW_SIZE) RLC_AM_SN_MASK)
                  else v in
         rlc_am_rx_list_reassemble_rlc_sdus alloc (set_am_vr r v)
       else Ret r);
  Ret (update_t_reordering now sn r).

Definition rlc_am_receive_process_data_pdu (alloc : bool) (now : Z) (pdu : list byte) (tb_size_in_bytesP : Z) (r : am_rx) : cres am_rx :=
  '(rc, i) ← rlc_am_get_data_pdu_infos pdu tb_size_in_bytesP;
  if rc <? 0 then Ret r
  else
    let x := RxPdu i 0 pdu in
    let st := am_stats r in
    if negb (rlc_am_in_rx_window (am_vr r) (pi_sn i) =? 0) then
      let r := if negb (pi_p i =? 0) then request_status r else r in
      match rlc_am_rx_list_insert_pdu (am_vr r) (receiver_buffer r) x with
      | None =>
          Ret (request_status (set_stats r
            (RxStats (stat_rx_pdcp_sdu st) (stat_rx_pdcp_bytes st) (u32 (stat_rx_data_pdu_dropped st + 1))
               (u32 (stat_rx_data_bytes_dropped st + tb_size_in_bytesP)) (stat_rx_data_pdu_out_of_window st)
               (stat_rx_data_bytes_out_of_window st) (stat_timer_reordering_timed_out st))))
      | Some at_ => placed alloc now at_ x r
      end
    else
      Ret (request_status (set_stats r
        (RxStats (stat_rx_pdcp_sdu st) (stat_rx_pdcp_bytes st) (stat_rx_data_pdu_dropped st) (stat_rx_data_bytes_dropped st)
           (u32 (stat_rx_data_pdu_out_of_window st + 1)) (u32 (stat_rx_data_bytes_out_of_window st + tb_size_in_bytesP))
           (stat_timer_reordering_timed_out st)))).

(** ** The entity ([rlc_am_init.c], the members of the reception) *)

Definition am_rx_init : am_rx :=
  AmRx (Build_am_vars 0 RLC_AM_WINDOW_SIZE 0 RLC_AM_WINDOW_SIZE 0 0 0) [] (Sdu None 0 []) 0 (Timer 0 0 0 0 0) (RxStats 0 0 0 0 0 0 0).

Definition am_rx_configure (configured : bool) (t_reorderingP : Z) (r : am_rx) : am_rx :=
  let t := am_t_reordering r in
  set_am_timer r (if configured then Timer (running t) (ms_time_out t) (ms_start t) t_reorderingP (timed_out t)
                  else rlc_am_init_timer_reordering t_reorderingP).

(** The SDU in construction and the timer are not touched. *)
Definition am_rx_reestablish (r : am_rx) : am_rx :=
  set_buffer (set_am_vr r (Build_am_vars 0 RLC_AM_WINDOW_SIZE 0 RLC_AM_WINDOW_SIZE 0 0 0)) [].

(** ** Specification *)

(** The coding of a complete PDU with the poll bit [p]. *)
Definition enc_am_header (p : bool) (sn : Z) (x : upd) : list Z :=
  let lis := zlen <$> removelast (u_fields x) in
  let e := match lis with [] => 0 | _ => 1 end in
  [128 + b2z p * 32 + fi_of (u_first x) (u_last x) * 8 + e * 4 + sn / 256; sn mod 256] ++ enc_lis lis.

Definition enc_am_pdu (p : bool) (sn : Z) (x : upd) : list byte :=
  (byte.of_Z <$> enc_am_header p sn x) ++ concat (u_fields x).

(** A PDU that the receiver can decode: no more indicators than its array has places. *)
Record am_wf (x : upd) : Prop := {
  aw_some : u_fields x <> [];
  aw_nonempty : Forall (fun f => f <> []) (u_fields x);
  aw_li : Forall (fun f => zlen f < 2048) (removelast (u_fields x));
  aw_count : zlen (u_fields x) <= RLC_AM_MAX_SDU_IN_PDU + 1;
  aw_size : zlen (concat (u_fields x)) < 32000;
}.

(** ** Lemmas on the headers *)

(** One bit. *)
Lemma land_bit b k : 0 <= k -> Z.land b (2 ^ k) = 2 ^ k * ((b / 2 ^ k) mod 2).
Proof.
  intros Hk. rewrite <- Z.testbit_spec' by done. apply Z.bits_inj'. intros i Hi. rewrite Z.land_spec, Z.pow2_bits_eqb by done.
  destruct (Z.eqb_spec k i) as [->|Hne].
  - destruct (Z.testbit b i); cbn [Z.b2z andb]; [by rewrite Z.mul_1_r, Z.pow2_bits_true|by rewrite Z.mul_0_r, Z.bits_0].
  - rewrite andb_false_r. destruct (Z.testbit b k); cbn [Z.b2z]; [by rewrite Z.mul_1_r, Z.pow2_bits_false|by rewrite Z.mul_0_r, Z.bits_0].
Qed.

(** The first indicator of a group of two, then the second one. *)
Lemma am_li_one e l1 x : 0 <= l1 < 2048 -> 0 <= e < 2 -> 0 <= x < 16 ->
  let b1 := e * 128 + l1 / 16 in let b2 := (l1 mod 16) * 16 + x in
  Z.lor (Z.land (u16 (Z.shiftl b1 4)) 0x07f0) (Z.land (Z.shiftr b2 4) 0x000f) = l1 /\
  (Z.land b1 0x80 =? 0) = (e =? 0) /\ 0 <= b1 < 256 /\ 0 <= b2 < 256.
Proof.
  intros Hl He Hx b1 b2. destruct (li_first e l1 x Hl He Hx) as (_ & F2 & F3 & F4 & _). fold b1 in F2, F3. fold b2 in F4.
  split_and!; [| |exact (proj1 F3)|exact (proj2 F3)|exact (proj1 F4)|exact (proj2 F4)].
  - destruct (li_octets l1 Hl) as (A & B & _ & _ & C & _).
    rewrite u16_small by (rewrite Z.shiftl_mul_pow2 by lia; lia). change 0x07f0 with (Z.shiftl (Z.ones 7) 4). rewrite <- Z.shiftl_land.
    change 0x000f with (Z.ones 4). rewrite !Z.land_ones, Z.shiftr_div_pow2 by lia. rewrite Z.lor_comm.
    rewrite lor_shiftl_add by (try lia; apply Z.mod_pos_bound; lia). unfold b1, b2. clearbody b1 b2.
    set (h := l1 / 16) in *. set (g := l1 mod 16) in *. change (2 ^ 7) with 128. change (2 ^ 4) with 16.
    assert ((e * 128 + h) mod 128 = h) as -> by (Z.div_mod_to_equations; lia).
    assert (((g * 16 + x) / 16) mod 16 = g) as -> by (Z.div_mod_to_equations; lia). lia.
  - change 0x80 with (2 ^ 7). rewrite land_bit by lia. unfold b1. destruct (li_octets l1 Hl) as (A & _).
    set (h := l1 / 16) in *. change (2 ^ 7) with 128. assert ((e * 128 + h) / 128 = e) as -> by (Z.div_mod_to_equations; lia).
    rewrite (Z.mod_small e) by lia. destruct (Z.eqb_spec e 0); [apply Z.eqb_eq|apply Z.eqb_neq]; lia.
Qed.

Lemma am_li_two b2 l2 x : 0 <= l2 < 2048 -> 0 <= x < 16 -> x mod 8 = l2 / 256 -> b2 mod 16 = x -> 0 <= b2 < 256 ->
  Z.lor (Z.land (u16 (Z.shiftl b2 8)) 0x0700) (l2 mod 256) = l2 /\ (Z.land b2 0x08 =? 0) = (x / 8 =? 0).
Proof.
  intros Hl Hx Hm Hb Hr. split.
  - rewrite u16_small by (rewrite Z.shiftl_mul_pow2 by lia; lia). change 0x0700 with (Z.shiftl 7 8). rewrite <- Z.shiftl_land.
    change 7 with (2 ^ 3 - 1). rewrite land_mask by lia. rewrite Z.lor_comm, lor_shiftl_add by (lia || (apply Z.mod_pos_bound; lia)).
    change (2 ^ 3) with 8. change (2 ^ 8) with 256. replace (b2 mod 8) with (l2 / 256); Z.div_mod_to_equations; lia.
  - change 0x08 with (2 ^ 3). rewrite land_bit by lia. change (2 ^ 3) with 8.
    destruct (Z.eqb_spec (x / 8) 0); [apply Z.eqb_eq|apply Z.eqb_neq]; Z.div_mod_to_equations; lia.
Qed.

(** Equality of results component by component. *)
Ltac tuple_lia :=
  repeat match goal with
    | |- Ret _ = Ret _ => f_equal
    | |- Some _ = Some _ => f_equal
    | |- (_, _) = (_, _) => f_equal
    end; try done; try lia.

Lemma sumZ_nonneg l : Forall (fun l => 0 <= l < 2048) l -> 0 <= sumZ l.
Proof. induction 1; unfold sumZ in *; cbn; lia. Qed.

(** A turn of the loop for the first indicator of a group, and for the second one. *)
Lemma am_li_turn1 fuel pdu e_li acc sum hdr e l1 x :
  octet pdu e_li = Ret (e * 128 + l1 / 16) -> octet pdu (e_li + 1) = Ret ((l1 mod 16) * 16 + x) ->
  0 <= l1 < 2048 -> 0 <= e < 2 -> 0 <= x < 16 ->
  am_li_loop (S fuel) pdu e_li 1 acc sum hdr =
  if 32 <=? zlen acc then Trap FOob
  else if e =? 0 then Ret (Some (acc ++ [l1], i16 (sum + l1), hdr + 2, e_li + 2)) else am_li_loop fuel pdu e_li 2 (acc ++ [l1]) (i16 (sum + l1)) (hdr + 2).
Proof.
  intros O1 O2 Hl He Hx. destruct (am_li_one e l1 x Hl He Hx) as (F1 & F2 & _). cbn [am_li_loop].
  change (Z.lxor 1 3 =? 2) with true. cbv iota. rewrite O1, O2. cbn [mbind cres_bind]. rewrite F1, F2.
  unfold RLC_AM_MAX_SDU_IN_PDU. destruct (Z.leb_spec 32 (zlen acc)); [done|].
  rewrite zlen_app. change (zlen [l1]) with 1. by rewrite (proj2 (Z.ltb_ge _ _)) by lia.
Qed.

Lemma am_li_turn2 fuel pdu e_li acc sum hdr b2 l2 x :
  octet pdu (e_li + 1) = Ret b2 -> octet pdu (e_li + 2) = Ret (l2 mod 256) ->
  0 <= l2 < 2048 -> 0 <= x < 16 -> x mod 8 = l2 / 256 -> b2 mod 16 = x -> 0 <= b2 < 256 ->
  am_li_loop (S fuel) pdu e_li 2 acc sum hdr =
  if 32 <=? zlen acc then Trap FOob
  else if x / 8 =? 0 then Ret (Some (acc ++ [l2], i16 (sum + l2), hdr + 1, e_li + 3)) else am_li_loop fuel pdu (e_li + 3) 1 (acc ++ [l2]) (i16 (sum + l2)) (hdr + 1).
Proof.
  intros O1 O2 Hl Hx Hm Hb Hr. destruct (am_li_two b2 l2 x Hl Hx Hm Hb Hr) as (F1 & F2). cbn [am_li_loop].
  change (Z.lxor 2 3) with 1. change (1 =? 2) with false. cbv iota. rewrite O1, O2. cbn [mbind cres_bind]. rewrite F1, F2.
  unfold RLC_AM_MAX_SDU_IN_PDU. destruct (Z.leb_spec 32 (zlen acc)); [done|].
  rewrite zlen_app. change (zlen [l2]) with 1. by rewrite (proj2 (Z.ltb_ge _ _)) by lia.
Qed.

(** The loop on the coding of one last indicator. *)
Lemma am_li_loop_one fuel l1 pre data acc sum hdr : 0 <= l1 < 2048 ->
  am_li_loop (S fuel) ((byte.of_Z <$> pre ++ enc_lis [l1]) ++ data) (zlen pre) 1 acc sum hdr =
  if 32 <=? zlen acc then Trap FOob else Ret (Some (acc ++ [l1], i16 (sum + l1), hdr + 2, zlen pre + 2)).
Proof.
  intros Hl. cbn [enc_lis]. destruct (am_li_one 0 l1 0 Hl ltac:(lia) ltac:(lia)) as (_ & _ & F3 & F4). rewrite Z.mul_0_l, Z.add_0_l in F3. rewrite Z.add_0_r in F4.
  rewrite (am_li_turn1 fuel _ _ acc sum hdr 0 l1 0); [done| | |done|lia|lia].
  - rewrite Z.mul_0_l, Z.add_0_l. rewrite <- (Z.add_0_r (zlen pre)). by apply (enc_octet_at pre _ data 0).
  - rewrite Z.add_0_r. by apply (enc_octet_at pre _ data 1).
Qed.

(** The loop on the coding of a group of two: it goes on behind the group when there are more. *)
Lemma am_li_loop_two fuel l1 l2 lis pre data acc sum hdr : 0 <= l1 < 2048 -> 0 <= l2 < 2048 ->
  exists g, zlen g = 3 /\ enc_lis (l1 :: l2 :: lis) = g ++ enc_lis lis /\
    am_li_loop (S (S fuel)) ((byte.of_Z <$> pre ++ enc_lis (l1 :: l2 :: lis)) ++ data) (zlen pre) 1 acc sum hdr =
    let acc2 := (acc ++ [l1]) ++ [l2] in let sum2 := i16 (i16 (sum + l1) + l2) in
    if 32 <=? zlen acc + 1 then Trap FOob
    else match lis with
         | [] => Ret (Some (acc2, sum2, hdr + 2 + 1, zlen pre + 3))
         | _ => am_li_loop fuel ((byte.of_Z <$> (pre ++ g) ++ enc_lis lis) ++ data) (zlen (pre ++ g)) 1 acc2 sum2 (hdr + 2 + 1)
         end.
Proof.
  intros Hl1 Hl2. destruct (li_octets l2 Hl2) as (_ & _ & G1 & G2 & _ & G3). set (x := (match lis with [] => 0 | _ => 8 end) + l2 / 256).
  assert (Hx : 0 <= x < 16 /\ x mod 8 = l2 / 256 /\ (x / 8 =? 0) = match lis with [] => true | _ => false end).
  { unfold x. destruct lis; split_and!; Z.div_mod_to_equations; lia. }
  destruct Hx as (Hx & Hx1 & Hx2). destruct (am_li_one 1 l1 x Hl1 ltac:(lia) Hx) as (_ & _ & F3 & F4).
  set (b1 := 1 * 128 + l1 / 16) in *. set (b2 := l1 mod 16 * 16 + x) in *.
  assert (Eenc : enc_lis (l1 :: l2 :: lis) = [b1; b2; l2 mod 256] ++ enc_lis lis) by (unfold b2, x; cbn [enc_lis app]; by rewrite Z.add_assoc).
  assert (Hb2 : b2 mod 16 = x) by (unfold b2; rewrite Z.add_comm, Z.mod_add by lia; apply Z.mod_small; lia).
  exists [b1; b2; l2 mod 256]. split; [done|]. split; [exact Eenc|]. rewrite Eenc. rewrite <- (app_assoc pre). set (pdu := (byte.of_Z <$> _) ++ data).
  assert (O1 : octet pdu (zlen pre) = Ret b1) by (rewrite <- (Z.add_0_r (zlen pre)); by apply (enc_octet_at pre _ data 0)).
  assert (O2 : octet pdu (zlen pre + 1) = Ret b2) by (by apply (enc_octet_at pre _ data 1)).
  assert (O3 : octet pdu (zlen pre + 2) = Ret (l2 mod 256)) by (by apply (enc_octet_at pre _ data 2)).
  rewrite (am_li_turn1 (S fuel) pdu (zlen pre) acc sum hdr 1 l1 x) by (done || lia). change (1 =? 0) with false. cbv iota.
  rewrite (am_li_turn2 fuel pdu (zlen pre) (acc ++ [l1]) _ _ b2 l2 x) by (done || lia). rewrite Hx2.
  rewrite !zlen_app. change (zlen [l1]) with 1. change (zlen [b1; b2; l2 mod 256]) with 3. cbv zeta.
  destruct (Z.leb_spec 32 (zlen acc)), (Z.leb_spec 32 (zlen acc + 1)); try lia; try done. by destruct lis.
Qed.

Lemma am_li_loop_enc n : forall lis acc fuel pre data sum hdr,
  (length lis <= n)%nat -> lis <> [] -> Forall (fun l => 0 <= l < 2048) lis ->
  zlen (acc ++ lis) <= RLC_AM_MAX_SDU_IN_PDU -> (length lis <= fuel)%nat -> 0 <= sum -> sum + sumZ lis < 2 ^ 15 ->
  am_li_loop fuel ((byte.of_Z <$> pre ++ enc_lis lis) ++ data) (zlen pre) 1 acc sum hdr =
  Ret (Some (acc ++ lis, sum + sumZ lis, hdr + zlen (enc_lis lis), zlen pre + zlen (enc_lis lis))).
Proof.
  induction n as [n IH] using lt_wf_ind. intros lis acc fuel pre data sum hdr Hn Hne Hall Hmax Hf Hs Hs2.
  unfold RLC_AM_MAX_SDU_IN_PDU in *. rewrite zlen_app in Hmax. destruct lis as [|l1 [|l2 lis]]; [done| |].
  - apply Forall_cons_1 in Hall as [Hl _]. cbn [length] in *. destruct fuel as [|fuel]; [lia|]. change (zlen [l1]) with 1 in Hmax.
    change (sumZ [l1]) with (l1 + 0) in *. rewrite am_li_loop_one, (proj2 (Z.leb_gt _ _)), i16_small by (done || lia). change (zlen (enc_lis [l1])) with 2. tuple_lia.
  - apply Forall_cons_1 in Hall as [Hl1 Hall]. apply Forall_cons_1 in Hall as [Hl2 Hall]. pose proof (sumZ_nonneg lis Hall).
    cbn [length] in *. destruct fuel as [|[|fuel]]; [lia|lia|]. change (sumZ (l1 :: l2 :: lis)) with (l1 + (l2 + sumZ lis)) in *.
    assert (Hc : zlen acc + 2 + zlen lis <= 32) by (unfold zlen in *; cbn [length] in Hmax; lia). pose proof (zlen_nonneg lis).
    destruct (am_li_loop_two fuel l1 l2 lis pre data acc sum hdr Hl1 Hl2) as (g & Hg & Eg & E). rewrite E. cbv zeta.
    rewrite (proj2 (Z.leb_gt _ _)) by lia. rewrite (i16_small (sum + l1)), i16_small by lia.
    rewrite Eg, !zlen_app, Hg. rewrite <- !app_assoc. cbn [app]. destruct lis as [|l3 lis].
    + change (zlen (enc_lis [])) with 0. change (sumZ []) with 0. tuple_lia.
    + destruct n as [|[|n]]; [lia|lia|]. rewrite app_assoc, <- Hg, <- (zlen_app pre g).
      rewrite (IH n ltac:(lia)); [|cbn [length] in *; lia|done|done| |cbn [length] in *; lia|lia|lia].
      * rewrite <- app_assoc, zlen_app. tuple_lia.
      * unfold zlen in *. rewrite !length_app in *. cbn [app length] in *. lia.
Qed.

(** The loop on more indicators than the array has places. *)
Lemma am_li_loop_over n : forall lis acc fuel pre data sum hdr,
  (length lis <= n)%nat -> Forall (fun l => 0 <= l < 2048) lis ->
  zlen acc <= 32 < zlen (acc ++ lis) -> (34 <= length acc + fuel)%nat ->
  am_li_loop fuel ((byte.of_Z <$> pre ++ enc_lis lis) ++ data) (zlen pre) 1 acc sum hdr = Trap FOob.
Proof.
  induction n as [n IH] using lt_wf_ind. intros lis acc fuel pre data sum hdr Hn Hall Hmax Hf.
  rewrite zlen_app in Hmax. destruct lis as [|l1 [|l2 lis]]; [change (zlen []) with 0 in Hmax; lia| |].
  - apply Forall_cons_1 in Hall as [Hl _]. change (zlen [l1]) with 1 in Hmax. destruct fuel as [|fuel]; [unfold zlen in *; lia|].
    by rewrite am_li_loop_one, (proj2 (Z.leb_le _ _)) by (done || lia).
  - apply Forall_cons_1 in Hall as [Hl1 Hall]. apply Forall_cons_1 in Hall as [Hl2 Hall]. cbn [length] in *.
    destruct fuel as [|[|fuel]]; [unfold zlen in *; lia|unfold zlen in *; lia|].
    destruct (am_li_loop_two fuel l1 l2 lis pre data acc sum hdr Hl1 Hl2) as (g & Hg & Eg & E). rewrite E. cbv zeta.
    destruct (Z.leb_spec 32 (zlen acc + 1)); [done|]. destruct lis as [|l3 lis]; [unfold zlen in *; cbn [length] in *; lia|].
    destruct n as [|[|n]]; [lia|lia|]. apply (IH n ltac:(lia)); [cbn [length] in *; lia|done| |].
    + unfold zlen in *. rewrite !length_app. cbn [app length] in *. lia.
    + rewrite !length_app. cbn [length]. lia.
Qed.

(** The bits of the first octet. *)
Lemma am_first_octet p fi e h : 0 <= p < 2 -> 0 <= fi < 4 -> 0 <= e < 2 -> 0 <= h < 4 ->
  let b1 := 128 + p * 32 + fi * 8 + e * 4 + h in
  0 <= b1 < 256 /\ Z.shiftr b1 7 = 1 /\ Z.land (Z.shiftr b1 6) 1 = 0 /\ Z.land (Z.shiftr b1 5) 1 = p /\
  Z.land (Z.shiftr b1 3) 3 = fi /\ Z.land (Z.shiftr b1 2) 1 = e /\ Z.land b1 3 = h.
Proof.
  intros Hp Hfi He Hh b1. assert (L1 : forall a, Z.land a 1 = a mod 2) by (intros a; apply (Z.land_ones a 1); lia).
  assert (L3 : forall a, Z.land a 3 = a mod 4) by (intros a; apply (Z.land_ones a 2); lia).
  rewrite !L1, !L3, !Z.shiftr_div_pow2 by lia. unfold b1. change (2 ^ 7) with 128. change (2 ^ 6) with 64.
  change (2 ^ 5) with 32. change (2 ^ 3) with 8. change (2 ^ 2) with 4. change (2 ^ 1) with 2.
  split_and!; try lia; Z.div_mod_to_equations; lia.
Qed.

(** What the receiver reads in an encoded PDU. *)
Definition enc_info (p : bool) (sn : Z) (x : upd) : rlc_am_pdu_info_t :=
  let lis := zlen <$> removelast (u_fields x) in
  let hdr := zlen (enc_am_header p sn x) in
  let size := zlen (concat (u_fields x)) in
  PduInfo 1 0 (b2z p) (fi_of (u_first x) (u_last x)) (match lis with [] => 0 | _ => 1 end) sn 0 0 lis (size - sumZ lis) hdr size hdr.

Lemma am_lis_facts x fs f : am_wf x -> u_fields x = fs ++ [f] ->
  let lis := zlen <$> fs in
  Forall (fun l => 0 <= l < 2048) lis /\ zlen lis <= 32 /\ 0 <= sumZ lis /\ 0 <= zlen (enc_lis lis) <= 48 /\
  zlen (concat (u_fields x)) = sumZ lis + zlen f /\ 0 < zlen f.
Proof.
  intros [W1 W2 W3 W4 W5] Ef. rewrite Ef, removelast_last in *. set (lis := zlen <$> fs).
  assert (Hf : 0 < zlen f). { apply Forall_app in W2 as [_ W2]. apply Forall_cons_1 in W2 as [Hf _]. destruct f; [done|unfold zlen; cbn; lia]. }
  assert (Hall : Forall (fun l => 0 <= l < 2048) lis).
  { apply Forall_fmap. eapply Forall_impl; [|exact W3]. intros h. cbn. pose proof (zlen_nonneg h). lia. }
  assert (Hcount : zlen lis <= 32).
  { rewrite zlen_app in W4. change (zlen [f]) with 1 in W4. unfold RLC_AM_MAX_SDU_IN_PDU in W4. unfold lis, zlen in *. rewrite length_fmap. lia. }
  split_and!; [done|done|by apply sumZ_nonneg|apply zlen_nonneg| | |done].
  - pose proof (zlen_nonneg lis). rewrite enc_lis_length, Z.shiftr_div_pow2 by lia. change (2 ^ 1) with 2. Z.div_mod_to_equations. lia.
  - unfold lis. rewrite sum_lengths, concat_app, zlen_app. cbn [concat]. by rewrite app_nil_r.
Qed.

(** The indicators behind the fixed part of the header. *)
Lemma am_read_lis pre lis data :
  Forall (fun l => 0 <= l < 2048) lis -> zlen lis <= 32 -> sumZ lis < 2 ^ 15 ->
  let e := match lis with [] => 0 | _ => 1 end in let hdr := zlen (pre ++ enc_lis lis) in
  (if negb (e =? 0) then am_li_loop 34 ((byte.of_Z <$> pre ++ enc_lis lis) ++ data) (zlen pre) 1 [] 0 (zlen pre)
   else Ret (Some ([], 0, zlen pre, zlen pre))) = Ret (Some (lis, sumZ lis, hdr, hdr)).
Proof.
  intros Hall Hc Hs e hdr. unfold hdr. rewrite zlen_app. destruct lis as [|l lis]; cbn [e].
  - change (zlen (enc_lis [])) with 0. rewrite Z.add_0_r. done.
  - change (negb (1 =? 0)) with true. cbv iota.
    by rewrite (am_li_loop_enc (length (l :: lis))) by (done || (unfold RLC_AM_MAX_SDU_IN_PDU, zlen in *; cbn [app]; lia)).
Qed.

Lemma infos_enc p sn x : am_wf x -> 0 <= sn < 1024 ->
  rlc_am_get_data_pdu_infos (enc_am_pdu p sn x) (zlen (enc_am_pdu p sn x)) = Ret (0, enc_info p sn x).
Proof.
  intros W Hsn. destruct (exists_last (aw_some _ W)) as (fs & f & Ef).
  destruct (am_lis_facts x fs f W Ef) as (Hall & Hcount & Hsum & Henc & Hdata & Hf). pose proof (aw_size _ W) as W5.
  unfold enc_info, enc_am_pdu, enc_am_header. rewrite Ef, removelast_last in *. set (lis := zlen <$> fs) in *.
  set (e := match lis with [] => 0 | _ => 1 end). set (fi := fi_of _ _).
  destruct (am_first_octet (b2z p) fi e (sn / 256)) as (B0 & B1 & B2 & B3 & B4 & B5 & B6);
    [destruct p; cbn; lia|unfold fi, fi_of; destruct (u_first x), (u_last x); lia|unfold e; destruct lis; lia|Z.div_mod_to_equations; lia|].
  set (b1 := 128 + _ + _ + _ + _) in *. set (data := concat (fs ++ [f])) in *.
  assert (H2 : 0 <= sn mod 256 < 256) by (apply Z.mod_pos_bound; lia).
  pose proof (octet_enc ([b1; sn mod 256] ++ enc_lis lis) data 0 b1 eq_refl B0) as O1.
  pose proof (octet_enc ([b1; sn mod 256] ++ enc_lis lis) data 1 (sn mod 256) eq_refl H2) as O2.
  change (Z.of_nat 0) with 0 in O1. change (Z.of_nat 1) with 1 in O2.
  pose proof (am_read_lis [b1; sn mod 256] lis data Hall Hcount ltac:(lia)) as Eli. cbv zeta in Eli. fold e in Eli.
  change (zlen [_; _]) with 2 in Eli.
  assert (Hlen : zlen ((byte.of_Z <$> [b1; sn mod 256] ++ enc_lis lis) ++ data) = zlen ([b1; sn mod 256] ++ enc_lis lis) + zlen data).
  { rewrite zlen_app. f_equal. unfold zlen. by rewrite length_fmap. }
  set (pdu := (byte.of_Z <$> _) ++ data) in *.
  assert (Hhdr : zlen ([b1; sn mod 256] ++ enc_lis lis) = 2 + zlen (enc_lis lis)) by (rewrite zlen_app; done).
  set (hdr := zlen (_ ++ _)) in *.
  unfold rlc_am_get_data_pdu_infos. rewrite O1. cbn [mbind cres_bind]. rewrite B1. change (1 =? 0) with false. cbv iota zeta.
  rewrite O2. cbn [mbind cres_bind]. rewrite B2. change (negb (0 =? 0)) with false. cbv iota. cbn [mbind cres_bind].
  rewrite B3, B4, B5, B6, Eli. cbn [mbind cres_bind]. rewrite Hlen. replace (hdr + zlen data - hdr) with (zlen data) by lia.
  rewrite i16_small by lia. rewrite (proj2 (Z.ltb_lt _ _)) by lia. do 3 f_equal.
  rewrite Z.shiftl_mul_pow2 by lia. change (2 ^ 8) with 256. Z.div_mod_to_equations; lia.
Qed.

(** ** Lemmas on the reassembly *)

(** [p] has been rebuilt and [out] has been delivered; there is a block only when there are bytes. *)
Definition am_rep (o : um_sdu) (p : list byte) (out : list (list byte)) : Prop :=
  sdu_rep true o p out /\ (p = [] -> sdu_block o = None).

Lemma am_rep_more o p out : p <> [] -> sdu_rep true o p out -> am_rep o p out.
Proof. by intros Hp Ho. Qed.

Lemma am_reassembly_rep pdu off f o p out :
  am_rep o p out -> 0 <= off -> bget pdu off (zlen f) = Ret f -> f <> [] -> zlen (p ++ f) <= RLC_SDU_MAX_SIZE ->
  exists o', rlc_am_reassembly true pdu off (zlen f) o = Ret o' /\ am_rep o' (p ++ f) out.
Proof.
  intros [Ho Hn] Hoff Hf Hne Hmax. destruct (reassembly_rep true pdu off f o p out Ho Hoff Hf Hne Hmax) as (o' & E & R).
  exists o'. split; [|apply am_rep_more; [by destruct p|done]]. rewrite <- E.
  assert (Hz : 0 < zlen f) by (destruct f; [done|unfold zlen; cbn; lia]).
  pose proof (zlen_nonneg p). rewrite zlen_app in Hmax. unfold RLC_SDU_MAX_SIZE in *.
  assert (Hs : match sdu_block o with Some _ => sdu_size o = zlen p | None => True end) by (destruct Ho as [_ Ho]; destruct (sdu_block o); [apply Ho|done]).
  unfold rlc_am_reassembly, rlc_um_reassembly. rewrite (proj2 (Z.leb_gt _ _)) by lia. cbv zeta.
  destruct (sdu_block o) as [blk|] eqn:Eb; cbn [mbind cres_bind sdu_block sdu_size delivered].
  - rewrite Eb, Hs. by rewrite i32_small by lia.
  - by rewrite i32_small by lia.
Qed.

Lemma am_send_rep o p out st : am_rep o p out -> p <> [] ->
  exists o' st', rlc_am_send_sdu (o, st) = Ret (o', st') /\ am_rep o' [] (out ++ [p]).
Proof.
  intros [Ho Hn] Hne. destruct (send_rep true o p out Ho Hne) as (o' & E & R). unfold rlc_um_send_sdu in E. unfold rlc_am_send_sdu.
  destruct Ho as [Hd Hb]. destruct (sdu_block o) as [blk|]; [|done]. destruct Hb as (_ & Hs & _).
  assert (0 < zlen p) by (destruct p; [done|unfold zlen; cbn; lia]). rewrite Hs in *. rewrite (proj2 (Z.ltb_lt _ _)) in * by lia.
  destruct (bget blk 0 (zlen p)); [|done]. cbn [mbind cres_bind] in *. eexists _, _. split; [reflexivity|]. injection E as <-. by split.
Qed.

Lemma am_send_nothing o out st : am_rep o [] out -> rlc_am_send_sdu (o, st) = Ret (o, st).
Proof. intros [_ Hn]. unfold rlc_am_send_sdu. by rewrite (Hn eq_refl). Qed.

Lemma am_fields_rep pdu fs : forall off o st p out,
  am_rep o p out -> 0 <= off -> bget pdu off (zlen (concat fs)) = Ret (concat fs) ->
  Forall (fun f : list byte => f <> []) fs -> Forall (fun d => zlen d <= RLC_SDU_MAX_SIZE) (done_by p fs) ->
  exists o' st', am_fields true pdu off (zlen <$> fs) (o, st) = Ret (off + zlen (concat fs), (o', st')) /\
    am_rep o' (left_by p fs) (out ++ done_by p fs).
Proof.
  induction fs as [|f fs IH]; intros off o st p out Ho Hoff Hb Hne Hmax.
  { exists o, st. cbn. rewrite app_nil_r. split; [tuple_lia; unfold zlen; cbn; lia|done]. }
  apply Forall_cons_1 in Hne as [Hf Hne]. cbn [done_by] in Hmax. apply Forall_cons_1 in Hmax as [Hm Hmax]. cbn [concat] in Hb.
  apply bget_split in Hb as [Hb1 Hb2]; [|done]. pose proof (zlen_nonneg f).
  destruct (am_reassembly_rep pdu off f o p out Ho Hoff Hb1 Hf Hm) as (o1 & E1 & R1).
  destruct (am_send_rep o1 (p ++ f) out st R1) as (o2 & st2 & E2 & R2); [by destruct p|].
  destruct (IH (off + zlen f) o2 st2 [] (out ++ [p ++ f]) R2 ltac:(lia) Hb2 Hne) as (o3 & st3 & E3 & R3).
  { by destruct fs. }
  exists o3, st3. cbn [fmap list_fmap am_fields fst snd]. rewrite E1. cbn [mbind cres_bind]. rewrite E2.
  cbn [mbind cres_bind]. rewrite E3. split.
  - cbn [concat]. rewrite zlen_app. tuple_lia.
  - rewrite <- app_assoc in R3. cbn [done_by left_by]. by destruct fs.
Qed.

(** An encoded PDU in the reception buffer. *)
Definition stored (a : Z) (pb : bool) (sn : Z) (x : upd) : rx_pdu := RxPdu (enc_info pb sn x) a (enc_am_pdu pb sn x).

(** The data of an encoded PDU start behind its header. *)
Lemma am_payload pb sn x : bget (enc_am_pdu pb sn x) (zlen (enc_am_header pb sn x)) (zlen (concat (u_fields x))) = Ret (concat (u_fields x)).
Proof.
  unfold enc_am_pdu. replace (zlen (enc_am_header pb sn x)) with (zlen (byte.of_Z <$> enc_am_header pb sn x)) by (unfold zlen; by rewrite length_fmap).
  apply bget_suffix.
Qed.

(** [rlc_am_reassemble_pdu] on an encoded PDU treats a PDU without indicators as one without fields before the last. *)
Lemma am_reassemble_enc a pb sn x fs f s : am_wf x -> u_fields x = fs ++ [f] ->
  let pdu := enc_am_pdu pb sn x in
  let fi := fi_of (u_first x) (u_last x) in
  rlc_am_reassemble_pdu true (stored a pb sn x) s =
    (s ← (if fi <? 2 then rlc_am_send_sdu s else Ret s);
     '(j, s) ← am_fields true pdu (zlen (enc_am_header pb sn x)) (zlen <$> fs) s;
     o ← rlc_am_reassembly true pdu j (zlen f) s.1;
     if u_last x then rlc_am_send_sdu (o, s.2) else Ret (o, s.2)).
Proof.
  intros W Ef pdu fi. destruct (am_lis_facts x fs f W Ef) as (_ & _ & _ & _ & Hdata & Hf).
  unfold rlc_am_reassemble_pdu, stored, enc_info. cbn [pdu_info rx_bytes pi_e pi_fi payload pi_payload_size li_list hidden_size].
  rewrite Hdata. rewrite Ef, removelast_last. fold fi pdu.
  assert (Hl : (fi =? 0) || (fi =? 2) = u_last x) by (unfold fi; by destruct (u_first x), (u_last x)). rewrite Hl.
  replace (sumZ (zlen <$> fs) + zlen f - sumZ (zlen <$> fs)) with (zlen f) by lia. rewrite (proj2 (Z.ltb_lt 0 (zlen f))) by lia.
  destruct fs as [|g fs]; [|done]. cbn [fmap list_fmap am_fields]. change (0 =? 0) with true. cbv iota.
  change (sumZ []) with 0. rewrite Z.add_0_l. reflexivity.
Qed.

Lemma am_reassemble_pdu_rep a pb sn x o st p out d p' :
  am_wf x -> am_rep o p out -> (u_first x = true -> p = []) -> spec_pdu p x = (d, p') ->
  Forall (fun d => zlen d <= RLC_SDU_MAX_SIZE) d -> zlen p' <= RLC_SDU_MAX_SIZE ->
  exists o' st', rlc_am_reassemble_pdu true (stored a pb sn x) (o, st) = Ret (o', st') /\ am_rep o' p' (out ++ d).
Proof.
  intros W Ho Hfirst Hspec Hd Hp'. destruct (exists_last (aw_some _ W)) as (fs & f & Ef).
  rewrite (am_reassemble_enc a pb sn x fs f (o, st) W Ef). cbv zeta.
  pose proof (am_payload pb sn x) as Hb. pose proof (aw_nonempty _ W) as Hne. unfold spec_pdu in Hspec. rewrite Ef in Hb, Hne, Hspec.
  assert (Hp : (if u_first x then [] else p) = p) by (destruct (u_first x); [by rewrite Hfirst|done]). rewrite Hp in Hspec.
  assert (E0 : (if fi_of (u_first x) (u_last x) <? 2 then rlc_am_send_sdu (o, st) else Ret (o, st)) = Ret (o, st)).
  { destruct (u_first x) eqn:E; [|by destruct (u_last x)]. rewrite (Hfirst eq_refl) in Ho. rewrite (am_send_nothing o out st Ho). by destruct (_ <? 2). }
  rewrite E0. cbn [mbind cres_bind]. rewrite concat_app in Hb. cbn [concat] in Hb. rewrite app_nil_r in Hb.
  pose proof (zlen_nonneg (enc_am_header pb sn x)). pose proof (zlen_nonneg (concat fs)).
  apply bget_split in Hb as [Hb1 Hb2]; [|done]. apply Forall_app in Hne as [Hne1 Hne2]. apply Forall_cons_1 in Hne2 as [Hf _].
  rewrite spec_fields_snoc in Hspec.
  destruct (am_fields_rep (enc_am_pdu pb sn x) fs (zlen (enc_am_header pb sn x)) o st p out Ho ltac:(lia) Hb1 Hne1) as (o2 & st2 & E2 & R2).
  { destruct (u_last x); injection Hspec as <- <-; [by apply Forall_app in Hd as [? _]|done]. }
  rewrite E2. cbn [mbind cres_bind fst snd].
  destruct (am_reassembly_rep (enc_am_pdu pb sn x) (zlen (enc_am_header pb sn x) + zlen (concat fs)) f o2 _ _ R2) as (o3 & E3 & R3); [lia|done|done| |].
  { destruct (u_last x); injection Hspec as <- <-; [|done]. apply Forall_app in Hd as [_ Hd]. by apply Forall_cons_1 in Hd as [? _]. }
  rewrite E3. cbn [mbind cres_bind]. destruct (u_last x); injection Hspec as <- <-.
  - destruct (am_send_rep o3 _ _ st2 R3) as (o4 & st4 & E4 & R4); [by destruct (left_by p fs)|].
    exists o4, st4. split; [done|]. by rewrite app_assoc.
  - by exists o3, st2.
Qed.

(** ** Lemmas on the reception buffer *)

(** The PDUs of a sender are counted from 0 on; [sent] are the PDUs. *)
Section Reception.
Context (sent : list upd).

(** An element of the buffer that holds the complete PDU of a count. *)
Definition holds (d : Z) (e : rx_pdu) : Prop :=
  0 <= d /\ exists pb x, sent !! Z.to_nat d = Some x /\ e = stored 1 pb (d mod 1024) x.

Lemma holds_fields d e : holds d e -> sn_of e = d mod 1024 /\ rf_of e = 0 /\ all_segments_received e = 1.
Proof. by intros (_ & pb & x & _ & ->). Qed.

Lemma before_whole x prev e : rf_of x = 0 -> rf_of e = 0 -> (forall v, prev = Some v -> rf_of v = 0) ->
  before_cursor x prev e = if sn_of x <? sn_of e then Insert else if sn_of x =? sn_of e then Refuse else Next.
Proof.
  intros Hx He Hp. unfold before_cursor. rewrite Hx, He. destruct prev as [v|]; [|done]. rewrite (Hp v eq_refl).
  repeat case_match; done.
Qed.

Lemma after_whole x prev e : rf_of x = 0 -> rf_of e = 0 -> (forall v, prev = Some v -> rf_of v = 0) ->
  after_cursor x prev e = if sn_of e <? sn_of x then Insert else if sn_of x =? sn_of e then Refuse else Next.
Proof.
  intros Hx He Hp. unfold after_cursor. rewrite Hx, He. destruct prev as [v|]; [|done]. rewrite (Hp v eq_refl).
  repeat case_match; done.
Qed.

Lemma head_whole bs bl v : Forall2 holds bs bl -> head bl = Some v -> rf_of v = 0.
Proof. intros H E. destruct H as [|d e bs bl Hd H]; [done|]. injection E as <-. by apply holds_fields in Hd as (_ & ? & _). Qed.

(** The place of a count in a sequence of counts: [b] before it, reversed, and [a] behind it. *)
Definition splits (c : Z) (cs b a : list Z) : Prop := cs = reverse b ++ a /\ Forall (fun d => d < c) b /\ Forall (fun d => c < d) a.

(** The answer of [rlc_am_rx_list_insert_pdu]. *)
Definition ins_ok (c : Z) (cs : list Z) (res : option (list rx_pdu * list rx_pdu)) : Prop :=
  match res with
  | None => c ∈ cs
  | Some (bl, al) => exists b a, splits c cs b a /\ Forall2 holds b bl /\ Forall2 holds a al
  end.

(** The order of the numbers agrees with the order of the counts, as far as the walk goes. *)
Definition agrees (f : Z -> bool) (c d : Z) : Prop :=
  if f (d mod 1024) then c < d else (c mod 1024 <? d mod 1024) = (c <? d) /\ (c mod 1024 =? d mod 1024) = (c =? d).

Lemma forward_place f at_end x c : sn_of x = c mod 1024 -> rf_of x = 0 ->
  (forall e, rf_of e = 0 -> sn_of x <> sn_of e -> at_end e = true) ->
  forall cs l before bl, Forall2 holds cs l -> Forall2 holds before bl -> StronglySorted Z.lt cs ->
    Forall (agrees f c) cs -> Forall (fun d => d < c /\ c mod 1024 <> d mod 1024) before -> cs <> [] \/ before <> [] ->
    ins_ok c (reverse before ++ cs) (insert_forward (fun e => f (sn_of e)) at_end x bl l).
Proof.
  intros Hsn Hrf Hend cs. induction cs as [|d cs IH]; intros l before bl Hl Hb Hs Ha Hc Hne.
  - inversion Hl; subst. destruct Hb as [|d e before bl Hd Hb]; [by destruct Hne|]. cbn [insert_forward].
    destruct (holds_fields d e Hd) as (E1 & E2 & _). apply Forall_cons_1 in Hc as [[Hc1 Hc2] Hc].
    rewrite Hend by (done || congruence). exists (d :: before), []. split; [|by split; [constructor|constructor]].
    split; [done|]. split; [|constructor]. constructor; [done|]. eapply Forall_impl; [|exact Hc]. by intros z [? _].
  - inversion Hl as [|? e ? l' Hd Hl']; subst. destruct (holds_fields d e Hd) as (E1 & E2 & _).
    apply Forall_cons_1 in Ha as [Ha1 Ha]. inversion Hs as [|? ? Hs' Hlt]; subst. cbn [insert_forward]. rewrite E1.
    assert (Hfound : c < d -> ins_ok c (reverse before ++ d :: cs) (Some (bl, e :: l'))).
    { intros Hcd. exists before, (d :: cs). split; [|by split]. split; [done|]. split; [eapply Forall_impl; [|exact Hc]; by intros z [? _]|].
      constructor; [done|]. eapply Forall_impl; [|exact Hlt]. intros z Hz. cbn in Hz. lia. }
    unfold agrees in Ha1. destruct (f (d mod 1024)); [by apply Hfound|]. destruct Ha1 as [A1 A2].
    rewrite before_whole by (done || (intros v; by apply (head_whole before))). rewrite Hsn, E1, A1, A2.
    destruct (Z.ltb_spec c d); [by apply Hfound|]. destruct (Z.eqb_spec c d) as [->|Hcd].
    + cbn. apply elem_of_app. right. by left.
    + assert (Hb' : Forall2 holds (d :: before) (e :: bl)) by by constructor. specialize (IH l' (d :: before) (e :: bl) Hl' Hb' Hs' Ha). rewrite reverse_cons, <- app_assoc in IH. apply IH; [|by right].
      constructor; [|done]. apply Z.eqb_neq in A2. lia.
Qed.

(** The walk from the tail; [rcs] is reversed. *)
Lemma backward_place (f : Z -> bool) at_end x c : sn_of x = c mod 1024 -> rf_of x = 0 ->
  forall rcs rl after al, Forall2 holds rcs rl -> Forall2 holds after al -> StronglySorted (fun a b : Z => b < a) rcs ->
    Forall (fun d => if f (d mod 1024) then d < c else (d mod 1024 <? c mod 1024) = (d <? c) /\ (c mod 1024 =? d mod 1024) = (c =? d)) rcs ->
    Forall (fun d => c < d) after -> Exists (fun d => d <= c) rcs ->
    ins_ok c (reverse rcs ++ after) (insert_backward (fun e => f (sn_of e)) at_end x rl al).
Proof.
  intros Hsn Hrf rcs. induction rcs as [|d rcs IH]; intros rl after al Hl Hb Hs Ha Hc Hex; [by inversion Hex|].
  inversion Hl as [|? e ? rl' Hd Hl']; subst. destruct (holds_fields d e Hd) as (E1 & E2 & _).
  apply Forall_cons_1 in Ha as [Ha1 Ha]. inversion Hs as [|? ? Hs' Hlt]; subst. cbn [insert_backward]. rewrite E1.
  assert (Hfound : d < c -> ins_ok c (reverse (d :: rcs) ++ after) (Some (e :: rl', al))).
  { intros Hcd. exists (d :: rcs), after. split; [|by split]. split; [done|]. split; [|done].
    constructor; [done|]. eapply Forall_impl; [|exact Hlt]. intros z Hz. cbn in Hz. lia. }
  destruct (f (d mod 1024)); [by apply Hfound|]. destruct Ha1 as [A1 A2].
  rewrite after_whole by (done || (intros v; by apply (head_whole after))). rewrite Hsn, E1, A1, A2.
  destruct (Z.ltb_spec d c); [by apply Hfound|]. destruct (Z.eqb_spec c d) as [->|Hcd].
  - unfold ins_ok. rewrite reverse_cons, <- app_assoc. apply elem_of_app. right. by left.
  - rewrite reverse_cons, <- app_assoc. cbn [app]. apply IH; try done; [by constructor|constructor; [lia|done]|].
    inversion Hex; subst; [lia|done].
Qed.

Lemma ssorted_snoc (P : Z -> Z -> Prop) l d : StronglySorted P l -> Forall (fun y => P y d) l -> StronglySorted P (l ++ [d]).
Proof.
  induction 1 as [|y l Hs IH Hy]; intros Hd; [by repeat constructor|]. apply Forall_cons_1 in Hd as [Hd1 Hd].
  cbn [app]. constructor; [by apply IH|]. apply Forall_app. by repeat constructor.
Qed.

Lemma ssorted_reverse cs : StronglySorted Z.lt cs -> StronglySorted (fun a b : Z => b < a) (reverse cs).
Proof.
  induction 1 as [|d cs Hs IH Hd]; [constructor|]. rewrite reverse_cons. apply ssorted_snoc; [done|].
  apply Forall_reverse. exact Hd.
Qed.

(** The receiver at the count [R]: the counts of the buffer. *)
Definition window_cs (R : Z) (cs : list Z) : Prop := 0 <= R /\ StronglySorted Z.lt cs /\ Forall (fun d => R < d < R + 512) cs.

(** The arrival that the receiver adds at the wrong end of the buffer: the window wraps around, all
    PDUs of the buffer are past the wrap and the new one is, too, before all of them. *)
Definition misplaced (R : Z) (cs : list Z) (c : Z) : bool :=
  (512 <=? R mod 1024) && (R / 1024 <? c / 1024) && match cs with d :: _ => c <? d | [] => false end.

Lemma insert_place v R cs l x c : window_cs R cs -> vr_r v = R mod 1024 -> vr_mr v = (R + 512) mod 1024 -> Forall2 holds cs l ->
  sn_of x = c mod 1024 -> rf_of x = 0 -> R <= c < R + 512 -> misplaced R cs c = false ->
  ins_ok c cs (rlc_am_rx_list_insert_pdu v l x).
Proof.
  intros (HR & Hs & Hw) Er Emr Hl Hsn Hrf Hc Hm. unfold rlc_am_rx_list_insert_pdu.
  destruct l as [|e l]; [inversion Hl; subst; by exists [], []|].
  assert (Hne : cs <> []) by (intros ->; inversion Hl).
  set (l0 := e :: l) in *. clearbody l0. rewrite Er, Emr, Hsn. clear Er Emr.
  destruct (Z.ltb_spec ((R + 512) mod 1024) (R mod 1024)) as [Hwrap|Hwrap].
  - destruct (Z.leb_spec (R mod 1024) (c mod 1024)) as [Hpast|Hpast].
    + apply (forward_place (fun sn => sn <? R mod 1024) _ x c Hsn Hrf) with (before := []); try done; [| |by left].
      * intros y Hy _. unfold end_wrapped. by rewrite Hy.
      * eapply Forall_impl; [|exact Hw]. intros d Hd. cbn in Hd. unfold agrees.
        destruct (Z.ltb_spec (d mod 1024) (R mod 1024)); [|split; [apply eq_true_iff_eq; rewrite !Z.ltb_lt|apply eq_true_iff_eq; rewrite !Z.eqb_eq]];
          Z.div_mod_to_equations; lia.
    + rewrite <- (app_nil_r cs), <- (reverse_involutive cs).
      apply (backward_place (fun sn => R mod 1024 <=? sn) _ x c Hsn Hrf); try done.
      * by apply Forall2_reverse.
      * by apply ssorted_reverse.
      * apply Forall_reverse. eapply Forall_impl; [|exact Hw]. intros d Hd. cbn in Hd.
        destruct (Z.leb_spec (R mod 1024) (d mod 1024)); [|split; [apply eq_true_iff_eq; rewrite !Z.ltb_lt|apply eq_true_iff_eq; rewrite !Z.eqb_eq]];
          Z.div_mod_to_equations; lia.
      * destruct cs as [|d cs]; [done|]. rewrite reverse_cons. apply Exists_app. right. constructor.
        unfold misplaced in Hm. rewrite (proj2 (Z.leb_le 512 _)), (proj2 (Z.ltb_lt (R / 1024) _)) in Hm by (Z.div_mod_to_equations; lia).
        cbn [andb] in Hm. apply Z.ltb_ge in Hm. lia.
  - apply (forward_place (fun _ => false) _ x c Hsn Hrf) with (before := []); try done; [| |by left].
    * intros y Hy Hn. unfold end_simple. by rewrite (proj2 (Z.eqb_neq _ _)).
    * eapply Forall_impl; [|exact Hw]. intros d Hd. cbn in Hd. unfold agrees.
      split; [apply eq_true_iff_eq; rewrite !Z.ltb_lt|apply eq_true_iff_eq; rewrite !Z.eqb_eq]; Z.div_mod_to_equations; lia.
Qed.

Lemma backward_to_head stop at_end x rl : forall al,
  Forall (fun e => stop e = false /\ forall prev, after_cursor x prev e = Next) rl ->
  insert_backward stop at_end x rl al = insert_backward stop at_end x [] (reverse rl ++ al).
Proof.
  induction rl as [|e rl IH]; intros al Hall; [done|]. apply Forall_cons_1 in Hall as [[H1 H2] Hall].
  cbn [insert_backward]. rewrite H1, H2, (IH (e :: al) Hall). by rewrite reverse_cons, <- app_assoc.
Qed.

(** A misplaced PDU goes behind the whole buffer. *)
Lemma insert_misplaced v R cs l x c : window_cs R cs -> vr_r v = R mod 1024 -> vr_mr v = (R + 512) mod 1024 -> Forall2 holds cs l ->
  sn_of x = c mod 1024 -> R <= c < R + 512 -> misplaced R cs c = true ->
  rlc_am_rx_list_insert_pdu v l x = Some (reverse l, []) /\ Forall (fun d => c < d) cs.
Proof.
  intros (HR & Hs & Hw) Er Emr Hl Hsn Hc Hm. unfold misplaced in Hm. destruct cs as [|d0 cs]; [by rewrite andb_false_r in Hm|].
  apply andb_prop in Hm as [[H1 H2]%andb_prop H3]. apply Z.leb_le in H1. apply Z.ltb_lt in H2, H3.
  assert (Hlt : Forall (fun d => c < d) (d0 :: cs)).
  { apply StronglySorted_inv in Hs as [_ Hs]. constructor; [done|]. eapply Forall_impl; [|exact Hs]. intros z. cbn. lia. }
  split; [|done]. inversion Hl as [|? e0 ? l' He0 Hl' E1 E2]; subst. unfold rlc_am_rx_list_insert_pdu. rewrite Er, Emr, Hsn.
  rewrite (proj2 (Z.ltb_lt ((R + 512) mod 1024) _)), (proj2 (Z.leb_gt (R mod 1024) (c mod 1024))) by (Z.div_mod_to_equations; lia).
  rewrite backward_to_head.
  - rewrite reverse_involutive, app_nil_r. cbn [insert_backward]. unfold end_wrapped.
    destruct (holds_fields _ _ He0) as (_ & -> & _). done.
  - apply Forall_reverse. apply Forall_forall. intros e He%list_elem_of_In. apply list_elem_of_lookup in He as [i Hi].
    destruct (Forall2_lookup_r _ _ _ _ _ Hl Hi) as (d & Hd & Hh). destruct (holds_fields _ _ Hh) as (E1 & _ & _).
    pose proof (Forall_lookup_1 _ _ _ _ Hlt Hd) as Hcd. pose proof (Forall_lookup_1 _ _ _ _ Hw Hd) as Hwd. cbn in Hcd, Hwd. rewrite E1. split.
    + apply Z.leb_gt. Z.div_mod_to_equations. lia.
    + intros prev. unfold after_cursor. rewrite E1, Hsn.
      rewrite (proj2 (Z.ltb_ge (d mod 1024) _)), (proj2 (Z.eqb_neq (c mod 1024) _)) by (Z.div_mod_to_equations; lia). done.
Qed.

(** ** The counts of the receiver *)

(** The count behind the consecutive counts from [R] on, and what is left. *)
Fixpoint advance (R : Z) (cs : list Z) : Z * list Z :=
  match cs with
  | d :: cs' => if d =? R then advance (R + 1) cs' else (R, cs)
  | [] => (R, [])
  end.

Lemma mask_mod z : Z.land z RLC_AM_SN_MASK = z mod 1024.
Proof. change RLC_AM_SN_MASK with (Z.ones 10). by rewrite Z.land_ones. Qed.

Lemma mod_window R d : R <= d < R + 1024 -> (R mod 1024 =? d mod 1024) = (d =? R).
Proof. intros H. apply eq_true_iff_eq. rewrite !Z.eqb_eq. Z.div_mod_to_equations. lia. Qed.

Lemma mod_next R : (R mod 1024 + 1) mod 1024 = (R + 1) mod 1024.
Proof. by rewrite Zplus_mod_idemp_l. Qed.

Lemma r_walk_advance B cs : forall R l, Forall2 holds cs l -> StronglySorted Z.lt cs -> Forall (fun d => R <= d < B) cs -> B <= R + 1024 ->
  r_walk (R mod 1024) l = (advance R cs).1 mod 1024.
Proof.
  induction cs as [|d cs IH]; intros R l Hl Hs Hw HB; inversion Hl as [|? e ? l' Hd Hl']; subst; [done|].
  destruct (holds_fields d e Hd) as (E1 & E2 & E3). apply Forall_cons_1 in Hw as [Hw1 Hw]. inversion Hs as [|? ? Hs' Hlt]; subst.
  cbn [r_walk advance]. rewrite E3, E1, E2, mod_window by lia. change (1 =? 0) with false. change (0 =? 1) with false. cbn [orb andb].
  destruct (Z.eqb_spec d R) as [->|]; [|done]. cbn [negb]. rewrite mask_mod, mod_next. apply IH; [done|done| |lia].
  apply Forall_forall. intros z Hz. rewrite Forall_forall in Hw, Hlt. specialize (Hw z Hz). specialize (Hlt z Hz). lia.
Qed.

(** What the output is when the PDUs up to a count have been reassembled. *)
Definition out_at (R : Z) (o : um_sdu) : Prop :=
  let '(out, p) := spec_pdus [] (take (Z.to_nat R) sent) in am_rep o p out.

(** The PDUs of a sender: they can be decoded, a PDU starts an SDU when the one before ended one, and
    the SDUs fit in a block. *)
Fixpoint am_stream (p : list byte) (xs : list upd) : Prop :=
  match xs with
  | [] => True
  | x :: xs =>
      am_wf x /\ (u_first x = true -> p = []) /\ Forall (fun d => zlen d <= RLC_SDU_MAX_SIZE) (spec_pdu p x).1 /\
      zlen (spec_pdu p x).2 <= RLC_SDU_MAX_SIZE /\ am_stream (spec_pdu p x).2 xs
  end.

Lemma spec_pdus_snoc xs x : forall p,
  spec_pdus p (xs ++ [x]) =
  let '(d, q) := spec_pdus p xs in let '(d', q') := spec_pdu q x in (d ++ d', q').
Proof.
  induction xs as [|y xs IH]; intros p; cbn [app spec_pdus].
  - destruct (spec_pdu p x) as [d q]. by rewrite app_nil_r.
  - destruct (spec_pdu p y) as [d q]. rewrite IH. destruct (spec_pdus q xs) as [d1 q1]. destruct (spec_pdu q1 x) as [d2 q2]. by rewrite app_assoc.
Qed.

Lemma am_stream_at xs : forall p k x, am_stream p xs -> xs !! k = Some x ->
  let q := (spec_pdus p (take k xs)).2 in
  am_wf x /\ (u_first x = true -> q = []) /\ Forall (fun d => zlen d <= RLC_SDU_MAX_SIZE) (spec_pdu q x).1 /\ zlen (spec_pdu q x).2 <= RLC_SDU_MAX_SIZE.
Proof.
  induction xs as [|y xs IH]; intros p k x H E; [done|]. destruct H as (W & F & D & L & H). destruct k as [|k].
  - injection E as ->. by split_and!.
  - cbn [take spec_pdus]. specialize (IH (spec_pdu p y).2 k x H E). destruct (spec_pdu p y) as [d q]. cbn [snd] in IH.
    by destruct (spec_pdus q (take k xs)).
Qed.

Hypothesis (Hstream : am_stream [] sent).

Lemma reassemble_held d e o st : holds d e -> out_at d o ->
  exists o' st', rlc_am_reassemble_pdu true e (o, st) = Ret (o', st') /\ out_at (d + 1) o'.
Proof.
  intros (Hd & pb & x & Ex & ->) Ho. destruct (am_stream_at sent [] _ x Hstream Ex) as (W & F & D & L).
  unfold out_at in *. replace (Z.to_nat (d + 1)) with (S (Z.to_nat d)) by lia. rewrite (take_S_r _ _ x Ex), spec_pdus_snoc.
  destruct (spec_pdus [] (take (Z.to_nat d) sent)) as [out p]. cbn [snd] in *. destruct (spec_pdu p x) as [dd q] eqn:Es.
  exact (am_reassemble_pdu_rep 1 pb (d mod 1024) x o st p out dd q W Ho F Es D L).
Qed.

Lemma reassemble_advance cs : forall d e l o st, Forall2 holds (d :: cs) (e :: l) -> StronglySorted Z.lt (d :: cs) ->
  Forall (fun z => z < d + 1024) cs -> out_at d o ->
  exists l' o' st', reassemble_loop true (e :: l) (o, st) = Ret (l', (o', st')) /\
    Forall2 holds (advance (d + 1) cs).2 l' /\ out_at (advance (d + 1) cs).1 o'.
Proof.
  induction cs as [|d2 cs IH]; intros d e l o st Hl Hs Hw Ho; inversion Hl as [|? ? ? ? Hd Hl']; subst;
    destruct (holds_fields d e Hd) as (E1 & E2 & E3); destruct (reassemble_held d e o st Hd Ho) as (o1 & st1 & Er & Ho1).
  - inversion Hl'; subst. exists [], o1, st1. cbn [reassemble_loop advance fst snd]. rewrite E3, Er. by split_and!.
  - inversion Hl' as [|? e2 ? l2 Hd2 Hl2]; subst. destruct (holds_fields d2 e2 Hd2) as (F1 & F2 & F3).
    apply Forall_cons_1 in Hw as [Hw1 Hw]. inversion Hs as [|? ? Hs' Hlt]; subst. apply Forall_cons_1 in Hlt as [Hlt1 Hlt].
    change (reassemble_loop true (e :: e2 :: l2) (o, st)) with
      (if 0 <? all_segments_received e then
         s ← rlc_am_reassemble_pdu true e (o, st);
         if (sn_of e2 =? Z.land (sn_of e + 1) RLC_AM_SN_MASK) || ((sn_of e2 =? sn_of e) && (0 <? all_segments_received e2))
         then reassemble_loop true (e2 :: l2) s else Ret (e2 :: l2, s)
       else Ret (e :: e2 :: l2, (o, st))).
    rewrite E3. change (0 <? 1) with true. cbv iota. rewrite Er. cbn [mbind cres_bind].
    rewrite F1, E1, mask_mod, mod_next, Z.eqb_sym, mod_window by lia.
    rewrite (Z.eqb_sym (d2 mod 1024)), mod_window, (proj2 (Z.eqb_neq d2 d)) by lia. rewrite orb_false_r. cbn [advance].
    destruct (Z.eqb_spec d2 (d + 1)) as [->|Hne].
    + apply IH; try done. eapply Forall_impl; [|exact Hw]. intros z. cbn. lia.
    + exists (e2 :: l2), o1, st1. by split_and!.
Qed.

(** The counts when a PDU arrives: VR(R), VR(H) and the PDUs of the buffer. *)
Definition am_arrive (s : Z * Z * list Z) (c : Z) : Z * Z * list Z :=
  let '(R, H, cs) := s in
  if (R <=? c) && (c <? R + 512) && negb (existsb (Z.eqb c) cs) then
    let cs := filter (fun d => d < c) cs ++ c :: filter (fun d => c < d) cs in
    let H := if H <=? c then c + 1 else H in
    if c =? R then let '(R, cs) := advance R cs in (R, H, cs) else (R, H, cs)
  else s.

Record am_sync (s : Z * Z * list Z) (r : am_rx) : Prop := {
  as_window : window_cs s.1.1 s.2;
  as_high : s.1.1 <= s.1.2 <= s.1.1 + 512;
  as_below : Forall (fun d => d < s.1.2) s.2;
  as_vr_r : vr_r (am_vr r) = s.1.1 mod 1024;
  as_vr_mr : vr_mr (am_vr r) = (s.1.1 + 512) mod 1024;
  as_vr_h : vr_h (am_vr r) = s.1.2 mod 1024;
  as_buffer : Forall2 holds s.2 (receiver_buffer r);
  as_out : out_at s.1.1 (am_output r);
}.

Lemma filter_all (P : Z -> Prop) `{!forall x, Decision (P x)} (l : list Z) : Forall P l -> filter P l = l.
Proof. induction 1 as [|x l Hx Hl IH]; [done|]. rewrite filter_cons_True by done. by rewrite IH. Qed.

Lemma filter_none (P : Z -> Prop) `{!forall x, Decision (P x)} (l : list Z) : Forall (fun x => ~ P x) l -> filter P l = [].
Proof. induction 1 as [|x l Hx Hl IH]; [done|]. by rewrite filter_cons_False. Qed.

Lemma splits_filter c cs b a : splits c cs b a -> filter (fun d => d < c) cs = reverse b /\ filter (fun d => c < d) cs = a.
Proof.
  intros (-> & Hb & Ha). apply Forall_reverse in Hb. rewrite !list.filter_app. split.
  - rewrite (filter_all _ (reverse b)), (filter_none _ a), app_nil_r; [done| |done].
    eapply Forall_impl; [|exact Ha]. intros z. cbn. lia.
  - rewrite (filter_all _ a), (filter_none _ (reverse b)); [done| |done].
    eapply Forall_impl; [|exact Hb]. intros z. cbn. lia.
Qed.

Lemma splits_facts c cs b a : splits c cs b a -> existsb (Z.eqb c) cs = false.
Proof.
  intros (-> & Hb & Ha). rewrite existsb_app, orb_false_iff. split.
  - apply Forall_reverse in Hb. induction Hb as [|z l Hz _ IH]; [done|]. cbn. rewrite IH, orb_false_r. apply Z.eqb_neq. lia.
  - clear Hb. induction Ha as [|z l Hz _ IH]; [done|]. cbn. rewrite IH, orb_false_r. apply Z.eqb_neq. lia.
Qed.

Lemma elem_existsb c cs : c ∈ cs -> existsb (Z.eqb c) cs = true.
Proof. induction 1 as [|z y l _ IH]; cbn; [by rewrite Z.eqb_refl|by rewrite IH, orb_true_r]. Qed.

Lemma advance_spec B H cs : forall R, StronglySorted Z.lt cs -> Forall (fun d => R <= d < B) cs -> Forall (fun d => d < H) cs -> R <= H ->
  let '(R', cs') := advance R cs in
  R <= R' <= H /\ StronglySorted Z.lt cs' /\ Forall (fun d => R' < d < B) cs' /\ Forall (fun d => d < H) cs' /\
  (forall z, z ∈ cs <-> R <= z < R' \/ z ∈ cs').
Proof.
  induction cs as [|d cs IH]; intros R Hs Hw Hh HR; cbn [advance].
  - split_and!; try done; try lia. intros z. split; [by right|]. intros [?|?]; [lia|done].
  - apply Forall_cons_1 in Hw as [Hw1 Hw]. apply Forall_cons_1 in Hh as [Hh1 Hh]. inversion Hs as [|? ? Hs' Hlt]; subst.
    destruct (Z.eqb_spec d R) as [->|Hne].
    + specialize (IH (R + 1) Hs'). destruct (advance (R + 1) cs) as [R' cs'].
      destruct IH as (I1 & I2 & I3 & I4 & I5); [|done|lia|].
      { apply Forall_forall. intros z Hz. rewrite Forall_forall in Hw, Hlt. specialize (Hw z Hz). specialize (Hlt z Hz). lia. }
      split_and!; try done; try lia. intros z. rewrite elem_of_cons, I5. destruct (decide (z = R)); naive_solver lia.
    + split_and!; try done; try lia.
      * constructor; [lia|]. apply Forall_forall. intros z Hz. rewrite Forall_forall in Hw, Hlt. specialize (Hw z Hz). specialize (Hlt z Hz). lia.
      * by constructor.
      * intros z. split; [by right|]. intros [?|?]; [lia|done].
Qed.

(** Only these members matter. *)
Lemma am_sync_same s r r' : vr_r (am_vr r') = vr_r (am_vr r) -> vr_mr (am_vr r') = vr_mr (am_vr r) -> vr_h (am_vr r') = vr_h (am_vr r) ->
  receiver_buffer r' = receiver_buffer r -> am_output r' = am_output r -> am_sync s r -> am_sync s r'.
Proof. intros E1 E2 E3 E4 E5 []. split; congruence. Qed.

Lemma splits_insert R cs c b a H : splits c cs b a -> window_cs R cs -> Forall (fun d => d < H) cs -> R <= c < R + 512 ->
  let cs' := reverse b ++ c :: a in
  StronglySorted Z.lt cs' /\ Forall (fun d => R <= d < R + 512) cs' /\ Forall (fun d => d < (if H <=? c then c + 1 else H)) cs'.
Proof.
  intros (-> & Hb & Ha) (_ & Hs & Hw) Hh Hc cs'. apply Forall_app in Hw as [Hw1 Hw2]. apply Forall_app in Hh as [Hh1 Hh2].
  split_and!.
  - unfold cs'. apply Forall_reverse in Hb. clear Hh1 Hh2 Hw1 Hw2 cs'. induction (reverse b) as [|d l IH]; cbn [app] in *.
    + constructor; [done|exact Ha].
    + inversion Hs as [|? ? Hs' Hlt]; subst. apply Forall_cons_1 in Hb as [Hb1 Hb]. constructor; [by apply IH|].
      apply Forall_app in Hlt as [Hl1 Hl2]. apply Forall_app. split; [done|]. by constructor.
  - apply Forall_app. split; [|constructor]; [eapply Forall_impl; [|exact Hw1]|lia|eapply Forall_impl; [|exact Hw2]]; intros z; cbn; lia.
  - assert (Hm : forall z, z < H -> z < (if H <=? c then c + 1 else H)) by (intros z Hz; destruct (Z.leb_spec H c); lia).
    apply Forall_app. split; [|constructor]; [by eapply Forall_impl; [|exact Hh1]|destruct (Z.leb_spec H c); lia|by eapply Forall_impl; [|exact Hh2]].
Qed.

(** What a PDU that was placed does to VR(H), and that VR(MS) is apart. *)
Lemma placed_vars v R H c from g : 0 <= R -> R <= H <= R + 512 -> R <= c < R + 512 -> vr_r v = R mod 1024 -> vr_h v = H mod 1024 ->
  let v1 := if 0 <? rlc_am_sn_gte_vr_h v (c mod 1024) then set_vr_h v (Z.land (c mod 1024 + 1) RLC_AM_SN_MASK) else v in
  let v2 := if (g v1 : bool) then rlc_am_rx_update_vr_ms from v1 else v1 in
  vr_r v2 = vr_r v /\ vr_mr v2 = vr_mr v /\ vr_h v2 = (if H <=? c then c + 1 else H) mod 1024.
Proof.
  intros HR HH Hc Er Eh v1 v2.
  assert (E1 : vr_r v1 = vr_r v /\ vr_mr v1 = vr_mr v /\ vr_h v1 = (if H <=? c then c + 1 else H) mod 1024).
  { unfold v1, rlc_am_sn_gte_vr_h. rewrite sn_of_count, Er, Eh, !shifted_count by lia.
    destruct (Z.leb_spec (H - R) (c - R)), (Z.leb_spec H c); try lia; cbn; [by rewrite mask_mod, mod_next|done]. }
  unfold v2. destruct (g v1); [|done]. unfold rlc_am_rx_update_vr_ms. by destruct from.
Qed.

Lemma update_t_reordering_sync s now sn r : am_sync s r -> am_sync s (update_t_reordering now sn r).
Proof. unfold update_t_reordering. case_match; by apply am_sync_same. Qed.

(** VR(R) and the SDUs when the PDU with the count VR(R) was placed. *)
Lemma placed_next v1 R H cs r al pb u : window_cs R cs -> R <= H <= R + 512 -> Forall (fun d => d < H) cs -> Forall2 holds cs al -> out_at R (am_output r) ->
  vr_r v1 = R mod 1024 -> vr_mr v1 = (R + 512) mod 1024 -> vr_h v1 = (if H <=? R then R + 1 else H) mod 1024 -> sent !! Z.to_nat R = Some u ->
  let x := stored 1 pb (R mod 1024) u in
  let v2 := rlc_am_rx_update_vr_r (x :: al) v1 in
  exists r', rlc_am_rx_list_reassemble_rlc_sdus true
      (set_am_vr (set_buffer (set_am_vr r v1) (x :: al)) (set_vr_r v2 (vr_r v2) (Z.land (vr_r v2 + RLC_AM_WINDOW_SIZE) RLC_AM_SN_MASK))) = Ret r' /\
    am_sync (let '(R', cs') := advance R (R :: cs) in (R', if H <=? R then R + 1 else H, cs')) r'.
Proof.
  intros (HR & Hs & Hw) HH Hh Hl Ho E1 E2 E3 Hu x v2.
  assert (Hx : Forall2 holds (R :: cs) (x :: al)) by (constructor; [by split; [|eauto]|done]).
  assert (Hs' : StronglySorted Z.lt (R :: cs)) by (constructor; [done|eapply Forall_impl; [|exact Hw]; intros z; cbn; lia]).
  assert (Hw' : Forall (fun d => R <= d < R + 512) (R :: cs)) by (constructor; [lia|eapply Forall_impl; [|exact Hw]; intros z; cbn; lia]).
  assert (Hh' : Forall (fun d => d < (if H <=? R then R + 1 else H)) (R :: cs)).
  { constructor; [destruct (Z.leb_spec H R); lia|]. eapply Forall_impl; [|exact Hh]. intros z. cbn. destruct (Z.leb_spec H R); lia. }
  assert (Er : vr_r v2 = (advance R (R :: cs)).1 mod 1024).
  { unfold v2, rlc_am_rx_update_vr_r. cbn [vr_r set_vr_r]. rewrite E1. by apply (r_walk_advance (R + 512)); [| | |lia]. }
  pose proof (advance_spec (R + 512) (if H <=? R then R + 1 else H) (R :: cs) R Hs' Hw' Hh' ltac:(destruct (Z.leb_spec H R); lia)) as Hadv.
  destruct (reassemble_advance cs R x al (am_output r) (am_stats r) Hx Hs') as (l' & o' & st' & El & Hl' & Ho'); [|done|].
  { eapply Forall_impl; [|exact Hw]. intros z. cbn. lia. }
  cbn [advance] in *. rewrite Z.eqb_refl in *. unfold rlc_am_rx_list_reassemble_rlc_sdus. cbn [receiver_buffer am_output am_stats set_am_vr set_buffer].
  rewrite El. cbn [mbind cres_bind]. destruct (advance (R + 1) cs) as [R' cs']. cbn [fst snd] in *. destruct Hadv as (A1 & A2 & A3 & A4 & _).
  eexists. split; [reflexivity|]. split; cbn [fst snd am_vr set_am_output set_buffer set_am_vr vr_r vr_mr vr_h set_vr_r receiver_buffer am_output]; try done.
  - split_and!; [lia|done|]. eapply Forall_impl; [|exact A3]. intros z. cbn. lia.
  - destruct (Z.leb_spec H R); lia.
  - rewrite mask_mod, Er. unfold RLC_AM_WINDOW_SIZE. by rewrite Zplus_mod_idemp_l.
Qed.

Lemma placed_sync now R H cs c b a bl al r pb u : am_sync (R, H, cs) r -> splits c cs b a -> Forall2 holds b bl -> Forall2 holds a al ->
  R <= c < R + 512 -> sent !! Z.to_nat c = Some u ->
  exists r', placed true now (bl, al) (stored 0 pb (c mod 1024) u) r = Ret r' /\ am_sync (am_arrive (R, H, cs) c) r'.
Proof.
  intros [Hw HH Hh Er Emr Eh Hbuf Ho] Hsp Hb Ha Hc Hu. cbn [fst snd] in *. pose proof Hw as (HR & _ & Hcs).
  destruct (splits_filter c cs b a Hsp) as [F1 F2].
  assert (Earr : am_arrive (R, H, cs) c = if c =? R then let '(R', cs') := advance R (reverse b ++ c :: a) in (R', if H <=? c then c + 1 else H, cs')
                                          else (R, if H <=? c then c + 1 else H, reverse b ++ c :: a)).
  { unfold am_arrive. rewrite (proj2 (Z.leb_le R c)), (proj2 (Z.ltb_lt c _)), (splits_facts c cs b a Hsp), F1, F2 by lia. done. }
  rewrite Earr. unfold placed. change (rlc_am_rx_check_all_byte_segments (bl, al) (stored 0 pb (c mod 1024) u)) with ((bl, al), stored 1 pb (c mod 1024) u).
  cbv iota beta zeta. change (pi_sn (pdu_info (stored 0 pb (c mod 1024) u))) with (c mod 1024). cbn [fst snd]. change (negb (all_segments_received (stored 1 pb (c mod 1024) u) =? 0)) with true.
  destruct (placed_vars (am_vr r) R H c (stored 1 pb (c mod 1024) u :: al) (fun v => (c mod 1024 =? vr_ms v) && true) HR HH Hc Er Eh) as (V1 & V2 & V3).
  set (v1 := if (_ =? _) && true then _ else _) in *.
  assert (Eeq : (c mod 1024 =? vr_r v1) = (c =? R)) by (rewrite V1, Er, Z.eqb_sym; apply mod_window; lia). rewrite Eeq. clear Eeq.
  destruct (Z.eqb_spec c R) as [->|Hne].
  - assert (b = []) as ->.
    { destruct b as [|d b]; [done|]. destruct Hsp as (-> & Hsb & _). apply Forall_cons_1 in Hsb as [Hd _]. rewrite reverse_cons in Hcs.
      apply Forall_app in Hcs as [Hcs _]. apply Forall_app in Hcs as [_ Hcs]. apply Forall_cons_1 in Hcs as [Hcs _]. lia. }
    inversion Hb; subst bl. destruct Hsp as (Ecs & _ & _). cbn [app] in Ecs. change (reverse [] ++ a) with a in Ecs. subst a.
    destruct (placed_next v1 R H cs r al pb u Hw HH Hh Ha Ho ltac:(congruence) ltac:(congruence) V3 Hu) as (r' & Eq & Hr').
    change (place_in ([], al) (stored 1 pb (R mod 1024) u)) with (stored 1 pb (R mod 1024) u :: al). rewrite Eq. cbn [mbind cres_bind].
    eexists. split; [reflexivity|]. apply update_t_reordering_sync. exact Hr'.
  - cbn [mbind cres_bind]. eexists. split; [reflexivity|]. apply update_t_reordering_sync.
    destruct (splits_insert R cs c b a H Hsp Hw Hh Hc) as (I1 & I2 & I3).
    split; cbn [fst snd am_vr set_buffer set_am_vr receiver_buffer am_output]; try congruence.
    + split_and!; [done|done|]. destruct Hsp as (-> & S1 & S2). apply Forall_app in Hcs as [C1 C2]. apply Forall_app. split; [done|]. constructor; [lia|done].
    + destruct (Z.leb_spec H c); lia.
    + unfold place_in. cbn [fst snd]. apply Forall2_app; [by apply Forall2_reverse|]. constructor; [split; [lia|eauto]|done].
Qed.

Lemma rx_window_count v R c : vr_r v = R mod 1024 -> vr_mr v = (R + 512) mod 1024 -> R - 512 <= c < R + 512 ->
  rlc_am_in_rx_window v (c mod 1024) = b2z (R <=? c).
Proof.
  intros Er Emr Hc. unfold rlc_am_in_rx_window. rewrite sn_of_count, Er, Emr, (shifted_count (R + 512)) by lia.
  assert (Es : shifted (c mod 1024) (R mod 1024) = if R <=? c then c - R else c + 1024 - R).
  { destruct (Z.leb_spec R c); [by apply shifted_count; lia|]. rewrite <- (Z.mod_add c 1 1024) by lia. rewrite Z.mul_1_l. apply shifted_count. lia. }
  rewrite Es. destruct (Z.leb_spec R c); cbn [b2z].
  - rewrite (proj2 (Z.leb_le 0 _)), (proj2 (Z.ltb_lt _ _)) by lia. done.
  - rewrite (proj2 (Z.ltb_ge _ (R + 512 - R))) by lia. by rewrite andb_false_r.
Qed.

(** One data PDU. *)
Lemma receive_sync now R H cs c pb u r : am_sync (R, H, cs) r -> 0 <= c -> R - 512 <= c < R + 512 -> misplaced R cs c = false ->
  sent !! Z.to_nat c = Some u ->
  exists r', rlc_am_receive_process_data_pdu true now (enc_am_pdu pb (c mod 1024) u) (zlen (enc_am_pdu pb (c mod 1024) u)) r = Ret r' /\
    am_sync (am_arrive (R, H, cs) c) r'.
Proof.
  intros Hsync Hc0 Hc Hm Hu. pose proof Hsync as [Hw HH Hh Er Emr Eh Hbuf Ho]. cbn [fst snd] in *.
  destruct (am_stream_at sent [] _ u Hstream Hu) as (W & _).
  assert (Hsn : 0 <= c mod 1024 < 1024) by (apply Z.mod_pos_bound; lia).
  unfold rlc_am_receive_process_data_pdu. rewrite (infos_enc pb _ u W Hsn). cbn [mbind cres_bind]. change (0 <? 0) with false. cbv iota zeta.
  change (RxPdu (enc_info pb (c mod 1024) u) 0 (enc_am_pdu pb (c mod 1024) u)) with (stored 0 pb (c mod 1024) u).
  change (pi_sn (enc_info pb (c mod 1024) u)) with (c mod 1024). rewrite (rx_window_count _ R c Er Emr Hc).
  destruct (Z.leb_spec R c) as [HRc|HRc]; cbn [b2z Z.eqb negb].
  - set (r1 := if negb _ then request_status r else r).
    assert (Hs1 : am_sync (R, H, cs) r1) by (unfold r1; case_match; [by apply (am_sync_same _ r)|done]).
    assert (Ev : am_vr r1 = am_vr r /\ receiver_buffer r1 = receiver_buffer r) by (unfold r1; by case_match). destruct Ev as [-> ->].
    pose proof (insert_place (am_vr r) R cs (receiver_buffer r) (stored 0 pb (c mod 1024) u) c Hw Er Emr Hbuf eq_refl eq_refl ltac:(lia) Hm) as Hins.
    destruct (rlc_am_rx_list_insert_pdu _ _ _) as [[bl al]|].
    + destruct Hins as (b & a & Hsp & Hb & Ha). apply (placed_sync now R H cs c b a bl al r1 pb u); try done. lia.
    + cbn [ins_ok] in Hins. eexists. split; [reflexivity|]. unfold am_arrive. rewrite (elem_existsb c cs Hins), andb_false_r. by apply (am_sync_same _ r1).
  - eexists. split; [reflexivity|]. unfold am_arrive. rewrite (proj2 (Z.leb_gt R c)) by lia. by apply (am_sync_same _ r).
Qed.

Lemma update_t_reordering_keeps now sn r : let r' := update_t_reordering now sn r in
  receiver_buffer r' = receiver_buffer r /\ vr_r (am_vr r') = vr_r (am_vr r) /\ am_output r' = am_output r.
Proof. unfold update_t_reordering. by case_match. Qed.

(** A data PDU that is misplaced. *)
Lemma receive_misplaced now R H cs c pb u r : am_sync (R, H, cs) r -> R <= c < R + 512 -> misplaced R cs c = true ->
  sent !! Z.to_nat c = Some u ->
  exists r', rlc_am_receive_process_data_pdu true now (enc_am_pdu pb (c mod 1024) u) (zlen (enc_am_pdu pb (c mod 1024) u)) r = Ret r' /\
    receiver_buffer r' = receiver_buffer r ++ [stored 1 pb (c mod 1024) u] /\ Forall (fun d => c < d) cs /\
    vr_r (am_vr r') = vr_r (am_vr r) /\ am_output r' = am_output r.
Proof.
  intros [Hw HH Hh Er Emr Eh Hbuf Ho] Hc Hm Hu. cbn [fst snd] in *.
  destruct (am_stream_at sent [] _ u Hstream Hu) as (W & _). pose proof Hw as (HR & _ & _).
  assert (Hsn : 0 <= c mod 1024 < 1024) by (apply Z.mod_pos_bound; lia).
  unfold rlc_am_receive_process_data_pdu. rewrite (infos_enc pb _ u W Hsn). cbn [mbind cres_bind]. change (0 <? 0) with false. cbv iota zeta.
  change (RxPdu (enc_info pb (c mod 1024) u) 0 (enc_am_pdu pb (c mod 1024) u)) with (stored 0 pb (c mod 1024) u).
  change (pi_sn (enc_info pb (c mod 1024) u)) with (c mod 1024). rewrite (rx_window_count _ R c Er Emr) by lia.
  rewrite (proj2 (Z.leb_le R c)) by lia. cbn [b2z Z.eqb negb].
  set (r1 := if negb _ then request_status r else r).
  assert (Ev : am_vr r1 = am_vr r /\ receiver_buffer r1 = receiver_buffer r /\ am_output r1 = am_output r) by (unfold r1; by case_match).
  destruct Ev as (Ev & Eb & Eo). rewrite Ev, Eb.
  destruct (insert_misplaced (am_vr r) R cs (receiver_buffer r) (stored 0 pb (c mod 1024) u) c Hw Er Emr Hbuf eq_refl Hc Hm) as [-> Hlt].
  assert (Hne : c <> R) by (unfold misplaced in Hm; intros ->; apply andb_prop in Hm as [[_ Hm]%andb_prop _]; apply Z.ltb_lt in Hm; lia).
  unfold placed. change (rlc_am_rx_check_all_byte_segments (reverse (receiver_buffer r), []) (stored 0 pb (c mod 1024) u))
    with ((reverse (receiver_buffer r), @nil rx_pdu), stored 1 pb (c mod 1024) u).
  cbv iota beta zeta. rewrite Ev. change (pi_sn (pdu_info (stored 0 pb (c mod 1024) u))) with (c mod 1024). cbn [fst snd]. change (negb (all_segments_received (stored 1 pb (c mod 1024) u) =? 0)) with true.
  destruct (placed_vars (am_vr r) R H c [stored 1 pb (c mod 1024) u] (fun v => (c mod 1024 =? vr_ms v) && true) HR HH Hc Er Eh) as (V1 & V2 & V3).
  set (v1 := if (_ =? _) && true then _ else _) in *.
  assert (Eeq : (c mod 1024 =? vr_r v1) = false) by (rewrite V1, Er, Z.eqb_sym, (mod_window R c) by lia; apply Z.eqb_neq; lia).
  rewrite Eeq. cbn [mbind cres_bind]. eexists. split; [reflexivity|].
  destruct (update_t_reordering_keeps now (c mod 1024) (set_buffer (set_am_vr r1 v1) (place_in (reverse (receiver_buffer r), []) (stored 1 pb (c mod 1024) u))))
    as (K1 & K2 & K3).
  split_and!; [rewrite K1|done|rewrite K2|by rewrite K3].
  - unfold place_in. cbn [receiver_buffer set_buffer fst snd]. by rewrite reverse_involutive.
  - exact V1.
Qed.

Lemma ms_after_timeout_vars l : forall v, let v' := ms_after_timeout v l in vr_r v' = vr_r v /\ vr_mr v' = vr_mr v /\ vr_h v' = vr_h v.
Proof.
  induction l as [|e l IH]; intros v; cbn [ms_after_timeout]; [done|]. case_match; [done|].
  destruct (IH (set_vr_ms v (Z.land (sn_of e + 1) RLC_AM_SN_MASK))) as (A & B & C). by rewrite A, B, C.
Qed.

Lemma tick_sync now s r : am_sync s r -> am_sync s (rlc_am_check_timer_reordering now r).
Proof.
  intros Hs. unfold rlc_am_check_timer_reordering. case_match; [|done]. destruct (ms_after_timeout_vars (receiver_buffer r) (am_vr r)) as (A & B & C).
  case_match; case_match; simplify_eq; apply (am_sync_same _ r); cbn; done.
Qed.
End Reception.

(** ** Reception *)

(** What happens to the receiver: the PDU of a count arrives, with a poll bit, or the timer is looked at. *)
Inductive am_event := Arrive (now c : Z) (poll : bool) | Tick (now : Z).

Definition am_handle (sent : list upd) (ev : am_event) (r : am_rx) : cres am_rx :=
  match ev with
  | Arrive now c poll =>
      match sent !! Z.to_nat c with
      | Some u => let pdu := enc_am_pdu poll (c mod 1024) u in rlc_am_receive_process_data_pdu true now pdu (zlen pdu) r
      | None => Ret r
      end
  | Tick now => Ret (rlc_am_check_timer_reordering now r)
  end.

(** The events are those of a sender that keeps to its window, and no arrival hits the misplacement. *)
Fixpoint am_events_ok (n : Z) (s : Z * Z * list Z) (evs : list am_event) : bool :=
  match evs with
  | [] => true
  | Tick _ :: evs => am_events_ok n s evs
  | Arrive _ c _ :: evs =>
      (0 <=? c) && (c <? n) && (s.1.1 - 512 <=? c) && (c <? s.1.1 + 512) && negb (misplaced s.1.1 s.2 c) && am_events_ok n (am_arrive s c) evs
  end.

Definition arrivals (evs : list am_event) : list Z := omap (fun ev => match ev with Arrive _ c _ => Some c | Tick _ => None end) evs.

(** The counts describe the arrivals. *)
Definition received (A : list Z) (s : Z * Z * list Z) : Prop :=
  let '(R, H, cs) := s in
  (forall c, c ∈ A <-> 0 <= c < R \/ c ∈ cs) /\ (forall c, c ∈ A -> c < H) /\ (H = 0 \/ H - 1 ∈ A).

Lemma advance_elem cs : forall R, let '(R', cs') := advance R cs in R <= R' /\ forall z, z ∈ cs <-> R <= z < R' \/ z ∈ cs'.
Proof.
  induction cs as [|d cs IH]; intros R; cbn [advance].
  - split; [lia|]. intros z. split; [by right|]. intros [?|?]; [lia|done].
  - destruct (Z.eqb_spec d R) as [->|Hne].
    + specialize (IH (R + 1)). destruct (advance (R + 1) cs) as [R' cs']. destruct IH as [I1 I2]. split; [lia|].
      intros z. rewrite elem_of_cons, I2. destruct (decide (z = R)); naive_solver lia.
    + split; [lia|]. intros z. split; [by right|]. intros [?|?]; [lia|done].
Qed.

Lemma insert_elem c (cs : list Z) z : z ∈ filter (fun d => d < c) cs ++ c :: filter (fun d => c < d) cs <-> z = c \/ z ∈ cs.
Proof.
  rewrite elem_of_app, elem_of_cons, !list_elem_of_filter. destruct (Z.lt_trichotomy z c) as [?|[?|?]]; naive_solver lia.
Qed.

Lemma high_received (A : list Z) H c : (forall z, z ∈ A -> z < H) -> H = 0 \/ H - 1 ∈ A -> 0 <= c ->
  let H' := if H <=? c then c + 1 else H in (forall z, z ∈ A ++ [c] -> z < H') /\ (H' = 0 \/ H' - 1 ∈ A ++ [c]).
Proof.
  intros H1 H2 Hc H'. unfold H'. split.
  - intros z Hz. apply elem_of_app in Hz as [Hz|Hz]; [specialize (H1 z Hz); destruct (Z.leb_spec H c); lia|].
    apply list_elem_of_singleton in Hz as ->. destruct (Z.leb_spec H c); lia.
  - right. destruct (Z.leb_spec H c).
    + apply elem_of_app. right. apply list_elem_of_singleton. lia.
    + apply elem_of_app. left. destruct H2 as [->|?]; [lia|done].
Qed.

Lemma arrive_received A R H cs c : 0 <= R <= H -> Forall (fun d => d < H) cs -> 0 <= c < R + 512 -> received A (R, H, cs) -> received (A ++ [c]) (am_arrive (R, H, cs) c).
Proof.
  intros HR Hh Hc (E1 & E2 & E3). destruct (high_received A H c E2 E3 ltac:(lia)) as [G2 G3]. unfold am_arrive.
  assert (Ein : forall z, z ∈ A ++ [c] <-> z ∈ A \/ z = c) by (intros z; by rewrite elem_of_app, list_elem_of_singleton).
  destruct (Z.leb_spec R c) as [H1|H1]; destruct (Z.ltb_spec c (R + 512)) as [H2|H2]; try lia; cbn [andb].
  2:{ split_and!; [intros z; rewrite Ein, E1; naive_solver lia| |].
      - intros z Hz. apply Ein in Hz as [Hz| ->]; [by apply E2|lia].
      - destruct E3 as [?|E3]; [by left|]. right. apply Ein. by left. }
  destruct (existsb (Z.eqb c) cs) eqn:Ee; cbn [negb].
  - apply existsb_exists in Ee as (d & Hd & Ed). apply Z.eqb_eq in Ed as <-. apply list_elem_of_In in Hd.
    split_and!; [intros z; rewrite Ein, E1; naive_solver| |].
    + intros z Hz. apply Ein in Hz as [Hz| ->]; [by apply E2|]. rewrite Forall_forall in Hh. apply Hh. by apply list_elem_of_In.
    + destruct E3 as [?|E3]; [by left|]. right. apply Ein. by left.
  - destruct (Z.eqb_spec c R) as [->|Hne].
    + pose proof (advance_elem (filter (fun d => d < R) cs ++ R :: filter (fun d => R < d) cs) R) as Ha.
      destruct (advance R _) as [R' cs']. destruct Ha as [A1 A2]. split_and!; [|done|done].
      intros z. rewrite Ein, E1. specialize (A2 z). rewrite insert_elem in A2. split.
      * intros [[?|Hz]|Hz]; [left; lia| |]; (destruct (proj1 A2) as [?|?]; [by auto|left; lia|by right]).
      * intros [Hz|Hz]; [destruct (Z.ltb_spec z R); [left; left; lia|]|]; (destruct (proj2 A2) as [?|?]; [auto with lia|by right|by left; right]).
    + split_and!; [|done|done]. intros z. rewrite Ein, E1, insert_elem. naive_solver.
Qed.

(** The counts after a sequence of events. *)
Definition am_counts (s : Z * Z * list Z) (evs : list am_event) : Z * Z * list Z :=
  foldl (fun s ev => match ev with Arrive _ c _ => am_arrive s c | Tick _ => s end) s evs.

Lemma handle_run sent : am_stream [] sent -> forall evs A s r, am_sync sent s r -> received A s -> am_events_ok (zlen sent) s evs = true ->
  exists r' s', for_each (am_handle sent) evs r = Ret r' /\ am_sync sent s' r' /\ received (A ++ arrivals evs) s' /\ s' = am_counts s evs.
Proof.
  intros Hst evs. induction evs as [|ev evs IH]; intros A s r Hs HA Hok; [exists r, s; by rewrite app_nil_r|]. cbn [for_each am_events_ok] in *.
  destruct ev as [now c poll|now].
  - apply andb_prop in Hok as [Hok Hrest]. repeat (apply andb_prop in Hok as [Hok ?]). rewrite negb_true_iff in *.
    destruct s as [[R Hi] cs]. cbn [fst snd] in *.
    destruct (lookup_lt_is_Some_2 sent (Z.to_nat c)) as [u Hu]; [unfold zlen in *; lia|]. cbn [am_handle]. rewrite Hu.
    destruct (receive_sync sent Hst now R Hi cs c poll u r Hs) as (r1 & E1 & S1); [lia|lia|done|done|]. cbv zeta. rewrite E1. cbn [mbind cres_bind].
    destruct (IH (A ++ [c]) (am_arrive (R, Hi, cs) c) r1 S1) as (r' & s' & E & S & G); [|done|exists r', s'; by rewrite <- app_assoc in G].
    destruct Hs as [(? & _) ? ?]. cbn [fst snd] in *. apply arrive_received; try done; lia.
  - cbn [am_handle mbind cres_bind]. apply (IH A s); [by apply tick_sync|done|done].
Qed.

Lemma init_sync sent t : am_sync sent (0, 0, []) (am_rx_configure false t am_rx_init).
Proof. split; cbn; try done; try lia. by split_and!; [lia|constructor|constructor]. Qed.

(** C8: acknowledged mode delivers in order, once and without loss whatever arrives: for any order of
    arrivals of complete PDUs with repetitions, inside the window of the sender and mixed with looks at
    the timer at any time, and with no arrival that is misplaced, the receiver runs without a fault,
    and it has handed over exactly the SDUs of the PDUs before the first one that did not arrive; VR(R)
    is the number of this one and VR(H) is behind the highest one.  When every PDU arrived, every SDU
    was delivered. *)
Theorem am_reception sent t evs : am_stream [] sent -> am_events_ok (zlen sent) (0, 0, []) evs = true ->
  exists r' R H, for_each (am_handle sent) evs (am_rx_configure false t am_rx_init) = Ret r' /\
    0 <= R /\ (forall c, 0 <= c < R -> c ∈ arrivals evs) /\ R ∉ arrivals evs /\
    delivered (am_output r') = (spec_pdus [] (take (Z.to_nat R) sent)).1 /\
    vr_r (am_vr r') = R mod 1024 /\ vr_mr (am_vr r') = (R + 512) mod 1024 /\
    (forall c, c ∈ arrivals evs -> c < H) /\ (H = 0 \/ H - 1 ∈ arrivals evs) /\ vr_h (am_vr r') = H mod 1024 /\
    ((forall c, 0 <= c < zlen sent -> c ∈ arrivals evs) -> delivered (am_output r') = (spec_pdus [] sent).1).
Proof.
  intros Hst Hok. destruct (handle_run sent Hst evs [] (0, 0, []) _ (init_sync sent t)) as (r' & [[R H] cs] & E & S & (G1 & G2 & G3) & _); [|done|].
  { split_and!; [|by intros c Hc; inversion Hc|by left]. intros c. split; [by intros Hc; inversion Hc|]. intros [?|Hc]; [lia|inversion Hc]. }
  destruct S as [(S0 & S1 & S2) _ _ S3 S4 S5 _ S6]. cbn [fst snd app] in *.
  assert (Hd : delivered (am_output r') = (spec_pdus [] (take (Z.to_nat R) sent)).1).
  { unfold out_at in S6. destruct (spec_pdus [] (take (Z.to_nat R) sent)) as [out p]. destruct S6 as [[S6 _] _]. exact S6. }
  assert (Hn : R ∉ arrivals evs).
  { rewrite G1. intros [?|Hc]; [lia|]. rewrite Forall_forall in S2. specialize (S2 R). rewrite <- list_elem_of_In in S2. specialize (S2 Hc). lia. }
  exists r', R, H. split_and!; try done.
  - intros c Hc. apply G1. by left.
  - intros Hall. rewrite Hd, take_ge; [done|]. destruct (Z.ltb_spec R (zlen sent)); [by destruct Hn; apply Hall|unfold zlen in *; lia].
Qed.

Definition am_three : list upd :=
  [Upd true [[byte.of_Z 1; byte.of_Z 2]] false; Upd false [[byte.of_Z 3]; [byte.of_Z 4; byte.of_Z 5]] false; Upd false [[byte.of_Z 6]] true].

Lemma am_three_stream : am_stream [] am_three.
Proof. cbn; split_and!; try done; repeat constructor; try done; vm_compute; done. Qed.

Definition am_three_events : list am_event := [Arrive 10 2 false; Tick 100; Arrive 120 0 true; Arrive 130 0 false; Arrive 140 1 false].

Lemma am_reception_witness :
  exists r', for_each (am_handle am_three) am_three_events (am_rx_configure false 50 am_rx_init) = Ret r' /\
    delivered (am_output r') = [byte.of_Z <$> [1; 2; 3]; byte.of_Z <$> [4; 5; 6]].
Proof.
  destruct (am_reception am_three 50 am_three_events am_three_stream eq_refl) as (r' & R & H & E & _ & _ & _ & _ & _ & _ & _ & _ & _ & Hall).
  exists r'. split; [exact E|]. apply Hall. intros c Hc. change (zlen am_three) with 3 in Hc. change (arrivals am_three_events) with [2; 0; 0; 1].
  assert (c = 0 \/ c = 1 \/ c = 2) as [-> | [-> | ->]] by lia; repeat (apply list_elem_of_here || apply list_elem_of_further).
Defined.

(** ** The wrap of the sequence numbers *)

(** The PDU of a count with one SDU of two octets. *)
Definition am_small (c : Z) (d : byte) : list byte := enc_am_pdu false (c mod 1024) (Upd true [[d; d]] true).

(** C35: a PDU is misplaced at the wrap.  After any allowed arrivals of the PDUs of any stream, let the
    window wrap around the sequence numbers and the buffer hold only PDUs past the wrap.  Then every PDU
    that is past the wrap, too, and before all of them is added at the end of the buffer, behind PDUs
    that follow it, so that the buffer is out of order, as the walks over it do not expect; nothing is
    delivered, and VR(R) stays. *)
Theorem am_wrap_misplaces_pdu sent t evs now R H cs c pb u : am_stream [] sent -> am_events_ok (zlen sent) (0, 0, []) evs = true ->
  am_counts (0, 0, []) evs = (R, H, cs) -> R <= c < R + 512 -> misplaced R cs c = true -> sent !! Z.to_nat c = Some u ->
  exists r r', for_each (am_handle sent) evs (am_rx_configure false t am_rx_init) = Ret r /\
    Forall2 (holds sent) cs (receiver_buffer r) /\ cs <> [] /\ Forall (fun d => c < d) cs /\
    rlc_am_receive_process_data_pdu true now (enc_am_pdu pb (c mod 1024) u) (zlen (enc_am_pdu pb (c mod 1024) u)) r = Ret r' /\
    receiver_buffer r' = receiver_buffer r ++ [stored 1 pb (c mod 1024) u] /\
    vr_r (am_vr r') = vr_r (am_vr r) /\ am_output r' = am_output r.
Proof.
  intros Hst Hok Hcs Hc Hm Hu. destruct (handle_run sent Hst evs [] (0, 0, []) _ (init_sync sent t)) as (r & s' & E & S & _ & Es); [|done|].
  { split_and!; [|by intros d Hd; inversion Hd|by left]. intros d. split; [by intros Hd; inversion Hd|]. intros [?|Hd]; [lia|inversion Hd]. }
  rewrite Hcs in Es. subst s'. destruct (receive_misplaced sent Hst now R H cs c pb u r S Hc Hm Hu) as (r' & E' & H1 & H2 & H3 & H4).
  exists r, r'. split_and!; try done; [apply S|]. intros ->. unfold misplaced in Hm. by rewrite andb_false_r in Hm.
Qed.

(** A stream of SDUs of one octet, each one in a PDU. *)
Definition am_singles (n : nat) : list upd := replicate n (Upd true [[Byte.x61]] true).

Lemma am_singles_stream n : am_stream [] (am_singles n).
Proof. induction n as [|n IH]; [done|]. cbn. split_and!; try done; repeat constructor; done. Qed.

(** The first 1023 PDUs arrive in order, then the PDU 1025, and then the PDU 1024. *)
Definition am_wrap_events : list am_event := ((fun k => Arrive 0 k false) <$> zrange 0 1023) ++ [Arrive 0 1025 false].

Lemma am_wrap_misplaces_pdu_witness :
  exists r r', for_each (am_handle (am_singles 1030)) am_wrap_events (am_rx_configure false 50 am_rx_init) = Ret r /\
    rlc_am_receive_process_data_pdu true 0 (enc_am_pdu false (1024 mod 1024) (Upd true [[Byte.x61]] true)) 3 r = Ret r' /\
    sn_of <$> receiver_buffer r' = [1; 0].
Proof.
  destruct (am_wrap_misplaces_pdu (am_singles 1030) 50 am_wrap_events 0 1023 1026 [1025] 1024 false (Upd true [[Byte.x61]] true))
    as (r & r' & E & Hb & _ & _ & E' & Eb & _).
  - apply am_singles_stream.
  - vm_compute. reflexivity.
  - vm_compute. reflexivity.
  - lia.
  - vm_compute. reflexivity.
  - vm_compute. reflexivity.
  - exists r, r'. split; [exact E|]. split; [exact E'|]. rewrite Eb. apply Forall2_cons_inv_l in Hb as (e & l & He & Hl & ->).
    apply Forall2_nil_inv_l in Hl as ->. destruct He as (_ & pb & x & _ & ->). reflexivity.
Defined.

Lemma fragment_then_sdu o p out d pb st : let u := Upd true [d] true in am_wf u -> am_rep o p out -> p <> [] -> zlen d <= RLC_SDU_MAX_SIZE ->
  exists o' st', rlc_am_reassemble_pdu true (stored 1 pb 0 u) (o, st) = Ret (o', st') /\ am_rep o' [] (out ++ [p; d]).
Proof.
  intros u W Ho Hp Hmax. destruct (am_send_rep o p out st Ho Hp) as (o1 & st1 & E1 & R1).
  destruct (am_reassemble_pdu_rep 1 pb 0 u o1 st1 [] (out ++ [p]) [d] [] W R1) as (o2 & st2 & E2 & R2); try done; [by constructor|].
  exists o2, st2. rewrite <- app_assoc in R2. split; [|exact R2]. rewrite <- E2.
  rewrite !(am_reassemble_enc 1 pb 0 u [] d _ W eq_refl). cbv zeta. change (fi_of (u_first u) (u_last u) <? 2) with true. cbv iota.
  by rewrite E1, (am_send_nothing o1 _ st1 R1).
Qed.

(** A data PDU with more than 32 length indicators makes the decoding of its header write behind the
    array of the indicators: the test on their number comes after the write. *)
Theorem am_indicators_overrun (p : bool) fi sn lis data size :
  Forall (fun l => 0 <= l < 2048) lis -> RLC_AM_MAX_SDU_IN_PDU < zlen lis -> 0 <= fi < 4 -> 0 <= sn < 1024 ->
  rlc_am_get_data_pdu_infos ((byte.of_Z <$> [128 + b2z p * 32 + fi * 8 + 1 * 4 + sn / 256; sn mod 256] ++ enc_lis lis) ++ data) size = Trap FOob.
Proof.
  intros Hall Hlen Hfi Hsn. unfold RLC_AM_MAX_SDU_IN_PDU in Hlen.
  destruct (am_first_octet (b2z p) fi 1 (sn / 256)) as (B0 & B1 & B2 & B3 & B4 & B5 & B6); [destruct p; cbn; lia|lia|lia|Z.div_mod_to_equations; lia|].
  set (b1 := 128 + _ + _ + _ + _) in *. assert (H2 : 0 <= sn mod 256 < 256) by (apply Z.mod_pos_bound; lia).
  pose proof (octet_enc ([b1; sn mod 256] ++ enc_lis lis) data 0 b1 eq_refl B0) as O1.
  pose proof (octet_enc ([b1; sn mod 256] ++ enc_lis lis) data 1 (sn mod 256) eq_refl H2) as O2.
  change (Z.of_nat 0) with 0 in O1. change (Z.of_nat 1) with 1 in O2. unfold rlc_am_get_data_pdu_infos. rewrite O1. cbn [mbind cres_bind].
  rewrite B1. change (1 =? 0) with false. cbv iota zeta. rewrite O2. cbn [mbind cres_bind]. rewrite B2, B5. change (negb (0 =? 0)) with false. cbv iota.
  cbn [mbind cres_bind]. change (negb (1 =? 0)) with true. cbv iota.
  pose proof (am_li_loop_over (length lis) lis [] 34 [b1; sn mod 256] data 0 2) as E. change (zlen [_; _]) with 2 in E.
  rewrite E; [done|done|done|cbn [app]; change (zlen []) with 0; lia|cbn; lia].
Qed.

Lemma am_indicators_overrun_witness : exists pdu, rlc_am_get_data_pdu_infos pdu (zlen pdu) = Trap FOob.
Proof.
  eexists. apply (am_indicators_overrun true 0 5 (replicate 33 1) (replicate 40 (byte.of_Z 7))); [|done|lia|lia].
  repeat constructor; lia.
Defined.

(** Re-establishment keeps the bytes of an SDU that was in construction: the first PDU of the
    re-established entity makes the receiver deliver them as an SDU of their own. *)
Theorem am_reestablish_delivers_fragment r p out d pb : am_rep (am_output r) p out -> p <> [] -> d <> [] -> zlen d <= RLC_SDU_MAX_SIZE ->
  exists r', rlc_am_receive_process_data_pdu true 0 (enc_am_pdu pb 0 (Upd true [d] true)) (zlen (enc_am_pdu pb 0 (Upd true [d] true)))
      (am_rx_reestablish r) = Ret r' /\
    delivered (am_output r') = out ++ [p; d].
Proof.
  intros Ho Hp Hd Hmax. set (u := Upd true [d] true). unfold RLC_SDU_MAX_SIZE in Hmax.
  assert (W : am_wf u).
  { split; cbn [u u_fields removelast concat]; [done|by constructor|by constructor|done|rewrite app_nil_r; lia]. }
  unfold rlc_am_receive_process_data_pdu. rewrite (infos_enc pb 0 u W ltac:(lia)). cbn [mbind cres_bind]. change (0 <? 0) with false. cbv iota zeta.
  change (RxPdu (enc_info pb 0 u) 0 (enc_am_pdu pb 0 u)) with (stored 0 pb 0 u). change (pi_sn (enc_info pb 0 u)) with 0.
  change (negb (rlc_am_in_rx_window (am_vr (am_rx_reestablish r)) 0 =? 0)) with true. cbv iota.
  set (r1 := if negb _ then _ else _).
  assert (E1 : am_vr r1 = Build_am_vars 0 512 0 512 0 0 0 /\ receiver_buffer r1 = [] /\ am_output r1 = am_output r) by (unfold r1; by case_match).
  destruct E1 as (Ev & Eb & Eo). rewrite Eb. cbn [rlc_am_rx_list_insert_pdu].
  unfold placed. change (rlc_am_rx_check_all_byte_segments ([], []) (stored 0 pb 0 u)) with (([] : list rx_pdu, [] : list rx_pdu), stored 1 pb 0 u).
  rewrite Ev. cbv iota beta zeta. change (pi_sn (pdu_info (stored 0 pb 0 u))) with 0. cbn [fst snd].
  match goal with |- context [0 =? vr_r ?v] => change (0 =? vr_r v) with true end. cbv iota.
  destruct (fragment_then_sdu (am_output r) p out d pb (am_stats r1) W Ho Hp Hmax) as (o' & st' & E & R).
  unfold rlc_am_rx_list_reassemble_rlc_sdus. cbn [receiver_buffer set_am_vr set_buffer am_output am_stats]. rewrite Eo.
  cbn [place_in fst snd reverse rev_append app reassemble_loop]. change (0 <? all_segments_received (stored 1 pb 0 u)) with true. cbv iota.
  fold u in E. rewrite E. cbn [mbind cres_bind]. eexists. split; [reflexivity|].
  unfold update_t_reordering. destruct R as [[R _] _]. case_match; exact R.
Qed.

(** A receiver in the middle of an SDU. *)
Definition am_halfway : am_rx :=
  AmRx (Build_am_vars 0 512 1 513 1 0 1) [] (Sdu (Some (byte.of_Z 1 :: byte.of_Z 2 :: zeros (Z.to_nat 8998))) 2 []) 0 (rlc_am_init_timer_reordering 50) (RxStats 0 0 0 0 0 0 0).

Lemma am_reestablish_delivers_fragment_witness :
  exists r', rlc_am_receive_process_data_pdu true 0 (enc_am_pdu false 0 (Upd true [[byte.of_Z 9]] true)) (zlen (enc_am_pdu false 0 (Upd true [[byte.of_Z 9]] true)))
      (am_rx_reestablish am_halfway) = Ret r' /\
    delivered (am_output r') = [[byte.of_Z 1; byte.of_Z 2]; [byte.of_Z 9]].
Proof.
  apply (am_reestablish_delivers_fragment am_halfway [byte.of_Z 1; byte.of_Z 2] [] [byte.of_Z 9] false); [|done|done|done].
  split; [|done]. split; [done|]. split; [vm_compute; reflexivity|done].
Defined.

(** ** The state variables stay sequence numbers *)

Definition is_sn (z : Z) : Prop := 0 <= z < RLC_AM_SN_MODULO.
Definition vars_typed (v : am_vars) : Prop := is_sn (vr_r v) /\ is_sn (vr_mr v) /\ is_sn (vr_h v) /\ is_sn (vr_x v) /\ is_sn (vr_ms v).
Definition pdu_typed (x : rx_pdu) : Prop := is_sn (sn_of x) /\ (all_segments_received x = 0 \/ all_segments_received x = 1).
Definition am_typed (r : am_rx) : Prop :=
  vars_typed (am_vr r) /\ Forall pdu_typed (receiver_buffer r) /\ (status_requested r = 0 \/ status_requested r = 1).

Lemma mask_sn z : is_sn (Z.land z RLC_AM_SN_MASK).
Proof. rewrite mask_mod. unfold is_sn, RLC_AM_SN_MODULO. apply Z.mod_pos_bound. lia. Qed.

Lemma infos_sn pdu size rc i : rlc_am_get_data_pdu_infos pdu size = Ret (rc, i) -> is_sn (pi_sn i).
Proof.
  unfold rlc_am_get_data_pdu_infos. intros H. unfold is_sn, RLC_AM_SN_MODULO.
  destruct (octet pdu 0) as [b1|] eqn:E1; [|done]. cbn [mbind cres_bind] in H. case_match; [by injection H as <- <-; cbn; lia|].
  destruct (octet pdu 1) as [b2|] eqn:E2; [|done]. cbn [mbind cres_bind] in H.
  assert (Hb2 : 0 <= b2 < 256).
  { unfold octet in E2. destruct (aget pdu 1); [|done]. injection E2 as <-. apply byte.unsigned_range. }
  assert (L3 : Z.land b1 3 = b1 mod 4) by (apply (Z.land_ones b1 2); lia).
  pose proof (Z.mod_pos_bound b1 4 ltac:(lia)). rewrite L3, Z.shiftl_mul_pow2 in H by lia. change (2 ^ 8) with 256 in H.
  destruct (if negb _ then _ else _) as [[[[lsf so] data] hdr]|]; [|done]. cbn [mbind cres_bind] in H.
  destruct (if negb _ then _ else _) as [[[[[lis sum] h] pl]|]|]; [| |done]; cbn [mbind cres_bind] in H; injection H as <- <-; cbn; lia.
Qed.

Lemma forward_elems stop at_end x l : forall before bl al, insert_forward stop at_end x before l = Some (bl, al) -> reverse bl ++ al = reverse before ++ l.
Proof.
  induction l as [|c l IH]; intros before bl al H; cbn [insert_forward] in H.
  - destruct before as [|e before]; [done|]. case_match; [|done]. by injection H as <- <-.
  - case_match; [by injection H as <- <-|]. case_match; [by injection H as <- <-|done|].
    rewrite (IH _ _ _ H), reverse_cons, <- app_assoc. done.
Qed.

Lemma backward_elems stop at_end x rl : forall after bl al, insert_backward stop at_end x rl after = Some (bl, al) -> reverse bl ++ al = reverse rl ++ after.
Proof.
  induction rl as [|c rl IH]; intros after bl al H; cbn [insert_backward] in H.
  - destruct after as [|e after]; [done|]. case_match; [|done]. injection H as <- <-. by rewrite reverse_involutive, app_nil_r.
  - case_match; [by injection H as <- <-|]. case_match; [by injection H as <- <-|done|].
    rewrite (IH _ _ _ H), reverse_cons, <- app_assoc. done.
Qed.

Lemma insert_elems v l x bl al : rlc_am_rx_list_insert_pdu v l x = Some (bl, al) -> reverse bl ++ al = l.
Proof.
  unfold rlc_am_rx_list_insert_pdu. intros H. destruct l as [|e l]; [by injection H as <- <-|]. repeat case_match.
  - by apply forward_elems in H.
  - apply backward_elems in H. by rewrite reverse_involutive, app_nil_r in H.
  - by apply forward_elems in H.
Qed.

Lemma mark_typed x : pdu_typed x -> pdu_typed (mark x).
Proof. intros [H _]. split; [done|by right]. Qed.

Lemma mark_same_typed sn l : Forall pdu_typed l -> Forall pdu_typed (mark_same sn l).
Proof. induction 1 as [|e l He Hl IH]; cbn [mark_same]; [done|]. case_match; constructor; auto using mark_typed. Qed.

Lemma first_segment_elems sn before : forall segs rest segs', first_segment sn before segs = (rest, segs') -> reverse rest ++ segs' = reverse before ++ segs.
Proof.
  induction before as [|c before IH]; intros segs rest segs' H; cbn [first_segment] in H; [by injection H as <- <-|].
  case_match; [|by injection H as <- <-]. rewrite (IH _ _ _ H), reverse_cons, <- app_assoc. done.
Qed.

Lemma check_segments_typed bl al x bl' al' x' : rlc_am_rx_check_all_byte_segments (bl, al) x = ((bl', al'), x') ->
  Forall pdu_typed bl -> Forall pdu_typed al -> pdu_typed x -> Forall pdu_typed bl' /\ Forall pdu_typed al' /\ pdu_typed x'.
Proof.
  unfold rlc_am_rx_check_all_byte_segments. intros H Hb Ha Hx. case_match; [injection H as <- <- <-; auto using mark_typed|].
  destruct (first_segment _ bl []) as [rest segs] eqn:Ef. apply first_segment_elems in Ef. rewrite app_nil_r in Ef.
  assert (Hrs : Forall pdu_typed (reverse rest ++ segs)) by (rewrite Ef; by apply Forall_reverse). apply Forall_app in Hrs as [Hr Hs].
  case_match; [by injection H as <- <- <-|]. case_match; [|by injection H as <- <- <-]. injection H as <- <- <-.
  split_and!; [|by apply mark_same_typed|by apply mark_typed]. apply Forall_app. split.
  - apply Forall_reverse, Forall_fmap. eapply Forall_impl; [|exact Hs]. intros e. apply mark_typed.
  - rewrite <- (reverse_involutive rest). by apply Forall_reverse.
Qed.

Lemma ms_walk_sn l : forall last, Forall pdu_typed l -> is_sn (ms_walk last l).
Proof. induction l as [|e l IH]; intros last Hl; cbn [ms_walk]; [apply mask_sn|]. apply Forall_cons_1 in Hl as [[? _] ?]. case_match; [done|by apply IH]. Qed.

Lemma r_walk_sn l : forall z, is_sn z -> is_sn (r_walk z l).
Proof. induction l as [|e l IH]; intros z Hz; cbn [r_walk]; [done|]. case_match; [done|]. apply IH. case_match; [done|apply mask_sn]. Qed.

Lemma ms_after_timeout_typed l : forall v, Forall pdu_typed l -> vars_typed v -> vars_typed (ms_after_timeout v l).
Proof.
  induction l as [|e l IH]; intros v Hl Hv; cbn [ms_after_timeout]; [done|]. apply Forall_cons_1 in Hl as [[He _] Hl].
  destruct Hv as (V1 & V2 & V3 & V4 & V5). case_match; [by split_and!|]. apply IH; [done|]. split_and!; try done. apply mask_sn.
Qed.

Lemma reassemble_loop_suffix alloc l : forall s l' s', reassemble_loop alloc l s = Ret (l', s') -> exists k, l = k ++ l'.
Proof.
  induction l as [|e l IH]; intros s l' s' H; cbn [reassemble_loop] in H; [injection H as <- <-; by exists []|].
  case_match; [|injection H as <- <-; by exists []]. destruct (rlc_am_reassemble_pdu alloc e s) as [s1|]; [|done]. cbn [mbind cres_bind] in H.
  destruct l as [|n l]; [injection H as <- <-; by exists [e]|]. case_match; [|injection H as <- <-; by exists [e]].
  destruct (IH _ _ _ H) as [k Hk]. exists (e :: k). by rewrite Hk.
Qed.

Lemma update_t_reordering_typed now sn r : am_typed r -> am_typed (update_t_reordering now sn r).
Proof. intros ((V1 & V2 & V3 & V4 & V5) & Hb & Hs). unfold update_t_reordering. case_match; (split; [by split_and!|by split]). Qed.

Lemma if_typed (b : bool) v w : vars_typed v -> vars_typed w -> vars_typed (if b then v else w).
Proof. by destruct b. Qed.

Lemma placed_typed alloc now bl al x r r' : placed alloc now (bl, al) x r = Ret r' ->
  am_typed r -> Forall pdu_typed bl -> Forall pdu_typed al -> pdu_typed x -> am_typed r'.
Proof.
  intros H (Hv & Hb & Hs) Hbl Hal Hx. unfold placed in H.
  destruct (rlc_am_rx_check_all_byte_segments (bl, al) x) as [[bl' al'] x'] eqn:Ec.
  destruct (check_segments_typed _ _ _ _ _ _ Ec Hbl Hal Hx) as (Hbl' & Hal' & Hx'). cbn [fst snd] in H.
  set (v1 := if 0 <? _ then _ else _) in H.
  assert (Hv1 : vars_typed v1) by (apply if_typed; [destruct Hv as (V1 & V2 & V3 & V4 & V5); split_and!; try done; apply mask_sn|done]). clearbody v1.
  set (v2 := if (_ =? vr_ms v1) && _ then _ else _) in H.
  assert (Hv2 : vars_typed v2).
  { apply if_typed; [|done]. destruct Hv1 as (V1 & V2 & V3 & V4 & V5). split_and!; try done. apply ms_walk_sn. by constructor. } clearbody v2.
  assert (Hp : Forall pdu_typed (place_in (bl', al') x')) by (apply Forall_app; split; [by apply Forall_reverse|by constructor]).
  destruct (_ =? vr_r v2).
  - set (v3 := if negb _ then _ else _) in H.
    assert (Hv3 : vars_typed v3).
    { apply if_typed; [|done]. destruct Hv2 as (V1 & V2 & V3 & V4 & V5). split_and!; try done; [by apply r_walk_sn|apply mask_sn]. } clearbody v3.
    unfold rlc_am_rx_list_reassemble_rlc_sdus in H. cbn [receiver_buffer set_am_vr set_buffer] in H.
    destruct (reassemble_loop _ _ _) as [[l' [o st]]|] eqn:El; [|done]. cbn [mbind cres_bind] in H. injection H as <-.
    apply reassemble_loop_suffix in El as [k Hk]. rewrite Hk in Hp. apply Forall_app in Hp as [_ Hp]. by apply update_t_reordering_typed.
  - cbn [mbind cres_bind] in H. injection H as <-. by apply update_t_reordering_typed.
Qed.

(** The operations of the receiving side, on any bytes. *)
Inductive am_op := Pdu_in (alloc : bool) (now : Z) (pdu : list byte) (size : Z) | Look (now : Z) | Reestablish | Reconfigure (t : Z).

Definition am_do (op : am_op) (r : am_rx) : cres am_rx :=
  match op with
  | Pdu_in alloc now pdu size => rlc_am_receive_process_data_pdu alloc now pdu size r
  | Look now => Ret (rlc_am_check_timer_reordering now r)
  | Reestablish => Ret (am_rx_reestablish r)
  | Reconfigure t => Ret (am_rx_configure true t r)
  end.

Lemma receive_typed alloc now pdu size r r' : rlc_am_receive_process_data_pdu alloc now pdu size r = Ret r' -> am_typed r -> am_typed r'.
Proof.
  intros H (Hv & Hb & Hs). unfold rlc_am_receive_process_data_pdu in H. destruct (rlc_am_get_data_pdu_infos pdu size) as [[rc i]|] eqn:Ei; [|done].
  apply infos_sn in Ei. cbn [mbind cres_bind] in H. case_match; [by injection H as <-|]. case_match; [|injection H as <-; split_and!; [done|done|by right]].
  set (r1 := if negb (pi_p i =? 0) then _ else _) in H.
  assert (T1 : am_typed r1 /\ receiver_buffer r1 = receiver_buffer r) by (unfold r1; destruct (negb (pi_p i =? 0)); split; try done; split_and!; [done|done|by right]).
  destruct T1 as [T1 Eb]. destruct (rlc_am_rx_list_insert_pdu _ _ _) as [[bl al]|] eqn:El.
  - apply insert_elems in El. rewrite Eb in El. rewrite <- El in Hb. apply Forall_app in Hb as [Hb1 Hb2]. apply (placed_typed _ _ _ _ _ _ _ H); [done| |done|].
    + rewrite <- (reverse_involutive bl). by apply Forall_reverse.
    + split; [done|by left].
  - injection H as <-. destruct T1 as (? & ? & _). split_and!; [done|done|by right].
Qed.

(** C34: whatever bytes arrive, with or without blocks, and whatever looks at the timer, re-establishments
    and reconfigurations come between, the five state variables of the receiving side stay sequence
    numbers, the PDUs of the buffer have sequence numbers and flags, and the status request is a flag. *)
Theorem am_state_typed ops r r' : am_typed r -> for_each am_do ops r = Ret r' -> am_typed r'.
Proof.
  revert r. induction ops as [|op ops IH]; intros r Hr H; cbn [for_each] in H; [by injection H as <-|].
  destruct (am_do op r) as [r1|] eqn:E; [|done]. cbn [mbind cres_bind] in H. apply (IH r1); [|done]. clear H IH.
  destruct op; cbn [am_do] in E; [by apply receive_typed in E|injection E as <-..].
  - destruct Hr as (Hv & Hb & Hs). unfold rlc_am_check_timer_reordering. case_match; [|done].
    pose proof (ms_after_timeout_typed _ _ Hb Hv) as (V1 & V2 & V3 & V4 & V5). case_match; case_match; simplify_eq; split_and!; try done; by right.
  - destruct Hr as (Hv & Hb & Hs). unfold vars_typed, is_sn, RLC_AM_SN_MODULO. split_and!; cbn; try done.
  - done.
Qed.

Lemma am_state_typed_witness : exists r', for_each am_do [Pdu_in true 3 (am_small 7 (byte.of_Z 1)) 4; Look 90; Reestablish; Pdu_in true 95 (am_small 0 (byte.of_Z 2)) 4] am_rx_init = Ret r' /\ am_typed r'.
Proof.
  eexists. split; [vm_compute; reflexivity|].
  eapply (am_state_typed [Pdu_in true 3 (am_small 7 (byte.of_Z 1)) 4; Look 90; Reestablish; Pdu_in true 95 (am_small 0 (byte.of_Z 2)) 4] am_rx_init); [|vm_compute; reflexivity].
  split; [unfold vars_typed, is_sn; split_and!; vm_compute; done|]. split; [constructor|by left].
Defined.
