(* ===== verification/RlcUmTx.v ===== *)
(** RLC unacknowledged mode, transmitting side and the whole entity: the requests of the upper
    layer and of the MAC ([openair2/LAYER2/RLC/UM_v9.3.0/rlc_um.c]) and the segmentation and
    concatenation of SDUs ([rlc_um_segment.c]).

    The segmentation makes two passes over the waiting SDUs: one counts the length indicators of
    the PDU, the other one writes the PDU.  [pack] is the one pass specification of both; the
    PDU is the coding of its fields by [enc_pdu], which the receiver of [RlcUm] decodes.

    A memory block is the list of its bytes.  [alloc n] is the block that [get_free_mem_block]
    gives for a PDU of [n] bytes, without the [struct mac_tb_req] at its start; what it contains is
    left over from its last use.  Sizes are far below the range of [int], so the mixed signed and
    unsigned arithmetic of the C code is the arithmetic of integers. *)
From stdpp Require Import base list numbers.
From coqutil Require Import Byte.
From Stdlib Require Import ZArith Lia.
From S2P Require Import Prelude SplitIface RlcPrims RlcUm.
Open Scope Z_scope.

(** ** State *)

(** A block of [input_sdus]: [struct rlc_um_tx_sdu_management] and the bytes of the SDU. *)
Record tx_sdu := TxSdu {
  sdu_data : list byte;
  tsdu_size : Z;                          (* uint16_t *)
  sdu_remaining_size : Z;                 (* uint16_t *)
  sdu_segmented_size : Z;                 (* uint16_t *)
  sdu_creation_time : Z;                  (* int32_t *)
}.

(** The members of [rlc_um_entity_t] used by the transmission. *)
Record um_tx := Tx {
  tx_sn_length : Z;
  tx_header_min_length_in_bytes : Z;
  vt_us : Z;                              (* rlc_usn_t *)
  input_sdus : list tx_sdu;
  buffer_occupancy : Z;                   (* rlc_buffer_occupancy_t *)
  nb_bytes_requested_by_mac : Z;
  pdus_to_mac_layer : list mac_tb_req;
}.

(** ** The first pass of the segmentation *)

(** The variables of the first loop: the length indicators counted, the size left for the
    length indicators and data to come, the length of the last length indicator, the
    indicator that is taken back when the SDUs end, and the sizes of the PDU. *)
Record count := Count {
  test_num_li : Z;
  test_pdu_remaining_size : Z;
  test_li_length_in_bytes : Z;
  test_remaining_size_to_substract : Z;
  test_remaining_num_li_to_substract : Z;
  c_pdu_remaining_size : Z;
  c_data_pdu_size : Z;
}.

(** [five] is the version of [rlc_um_segment_5], which also takes the bytes that stay empty off
    the size of the PDU. *)
Fixpoint count_loop (five : bool) (sdus : list tx_sdu) (s : count) : count :=
  match sdus with
  | [] => s
  | sdu :: sdus =>
      let rem := sdu_remaining_size sdu in
      let li := Z.lxor (test_li_length_in_bytes s) 3 in
      let stop less :=
        Count (test_num_li s) 0 (test_li_length_in_bytes s) 0 0 (c_pdu_remaining_size s - less)
          (if five then c_data_pdu_size s - less else c_data_pdu_size s) in
      if test_pdu_remaining_size s <? rem then stop 0
      else if rem =? test_pdu_remaining_size s then stop 0
      else if rem + li =? test_pdu_remaining_size s then stop li
      else if rem + li <? test_pdu_remaining_size s then
        count_loop five sdus
          (Count (test_num_li s + 1) (test_pdu_remaining_size s - (rem + li)) li li 1
             (c_pdu_remaining_size s) (c_data_pdu_size s))
      else stop 1
  end.

(** [if (test_remaining_num_li_to_substract > 0)]: the last indicator is not necessary. *)
Definition count_end (s : count) : count :=
  if 0 <? test_remaining_num_li_to_substract s
  then Count (test_num_li s - 1) (test_pdu_remaining_size s) (test_li_length_in_bytes s)
         (test_remaining_size_to_substract s) (test_remaining_num_li_to_substract s)
         (c_pdu_remaining_size s - test_remaining_size_to_substract s) (c_data_pdu_size s)
  else s.

(** ** The second pass *)

(** The variables of the second loop: [e_li] and [data] are places in the PDU. *)
Record fill := Fill {
  f_mem : list byte;
  f_data : Z;
  f_e_li : Z;
  f_li_length_in_bytes : Z;
  fill_num_li : Z;
  f_pdu_remaining_size : Z;
  f_buffer_occupancy : Z;
}.

(** The length indicator of an SDU of [rem] bytes, [li] being 2 for the first one of a pair. *)
Definition put_li (test_num_li fill_num_li li rem e_li : Z) (mem : list byte) : cres (list byte * Z) :=
  if li =? 2 then
    let b1 := if fill_num_li =? test_num_li then 0 else 0x80 in
    mem ← put_octet mem e_li (Z.lor b1 (Z.shiftr rem 4));
    mem ← put_octet mem (e_li + 1) (Z.shiftl rem 4);
    Ret (mem, e_li)
  else
    b2 ← octet mem (e_li + 1);
    let b2 := if negb (fill_num_li =? test_num_li) then Z.lor b2 0x08 else b2 in
    mem ← put_octet mem (e_li + 1) (Z.lor b2 (Z.shiftr rem 8));
    mem ← put_octet mem (e_li + 2) (Z.land rem 0xFF);
    Ret (mem, e_li + 3).

(** The results are the SDUs that stay, whether the last byte of the PDU is the last byte of an
    SDU, and the variables.  The last branch is [assert(1!=1)]. *)
Fixpoint fill_loop (test_num_li : Z) (sdus : list tx_sdu) (s : fill)
  : cres (list tx_sdu * bool * fill) :=
  match sdus with
  | [] => Ret ([], false, s)
  | sdu :: sdus' =>
      let rem := sdu_remaining_size sdu in
      let pdu_rem := f_pdu_remaining_size s in
      let seg := sdu_segmented_size sdu in
      let bo := f_buffer_occupancy s in
      if pdu_rem <? rem then
        mem ← memcpy (f_mem s) (f_data s) (sdu_data sdu) seg pdu_rem;
        let sdu := TxSdu (sdu_data sdu) (tsdu_size sdu) (u16 (rem - pdu_rem)) (u16 (seg + pdu_rem))
                     (sdu_creation_time sdu) in
        Ret (sdu :: sdus', false,
             Fill mem (f_data s) (f_e_li s) (f_li_length_in_bytes s) (fill_num_li s) 0 (i32 (bo - pdu_rem)))
      else if rem =? pdu_rem then
        mem ← memcpy (f_mem s) (f_data s) (sdu_data sdu) seg pdu_rem;
        Ret (sdus', true,
             Fill mem (f_data s) (f_e_li s) (f_li_length_in_bytes s) (fill_num_li s) 0 (i32 (bo - rem)))
      else
        let li := Z.lxor (f_li_length_in_bytes s) 3 in
        if rem + li <? pdu_rem then
          mem ← memcpy (f_mem s) (f_data s) (sdu_data sdu) seg rem;
          '(mem, e_li) ← put_li test_num_li (fill_num_li s + 1) li rem (f_e_li s) mem;
          fill_loop test_num_li sdus'
            (Fill mem (f_data s + rem) e_li li (fill_num_li s + 1) (pdu_rem - (rem + li)) (i32 (bo - rem)))
        else Trap FAssert
  end.

(** ** A whole PDU *)

(** [max_li_overhead] and the size of the PDU. *)
Definition pdu_size_for (e : um_tx) : Z :=
  let nb := zlen (input_sdus e) in
  let max_li_overhead := if nb <=? 1 then 0 else ((nb - 1) * 3) / 2 + (nb - 1) mod 2 in
  let all := buffer_occupancy e + tx_header_min_length_in_bytes e + max_li_overhead in
  if all <=? nb_bytes_requested_by_mac e then all else nb_bytes_requested_by_mac e.

(** The octets of the fixed part of the header. *)
Definition put_header (five : bool) (fi fill_num_li vt_us : Z) (mem : list byte) : cres (list byte) :=
  if five then
    let b1 := u8 (Z.shiftl fi 6) in
    let b1 := if 0 <? fill_num_li then Z.lor b1 0x20 else b1 in
    put_octet mem 0 (Z.lor b1 (Z.land vt_us 0x1F))
  else
    let b1 := u8 (Z.shiftl fi 3) in
    let b1 := if 0 <? fill_num_li then Z.lor b1 0x04 else b1 in
    mem ← put_octet mem 0 (Z.lor b1 (Z.land (Z.shiftr vt_us 8) 0x03));
    put_octet mem 1 (Z.land vt_us 0xFF).

(** [rlc_um_segment_5] and [rlc_um_segment_10], which differ in the header, the smallest grant
    and the size of the PDU.  The outer loop makes one PDU. *)
Definition rlc_um_segment (five : bool) (alloc : Z -> option (list byte)) (e : um_tx) : cres um_tx :=
  if nb_bytes_requested_by_mac e <? (if five then 2 else 3) then Ret e
  else
    match input_sdus e with
    | [] => Ret e
    | head :: _ =>
        let data_pdu_size := pdu_size_for e in
        match alloc data_pdu_size with
        | None => Ret e
        | Some mem =>
            let hdr := if five then 1 else 2 in
            let pdu_remaining_size := data_pdu_size - hdr in
            mem ← bput mem 0 (zeros 4);
            let c := count_end (count_loop five (input_sdus e)
              (Count 0 pdu_remaining_size 1 0 0 pdu_remaining_size data_pdu_size)) in
            let first := sdu_remaining_size head =? tsdu_size head in
            '(sdus, last, f) ← fill_loop (test_num_li c) (input_sdus e)
              (Fill mem (hdr + Z.shiftr (test_num_li c * 3 + 1) 1) hdr 1 0 (c_pdu_remaining_size c)
                 (buffer_occupancy e));
            let fi := (if first then 0 else 2) + (if last : bool then 0 else 1) in
            mem ← put_header five fi (fill_num_li f) (vt_us e) (f_mem f);
            let tb_size := c_data_pdu_size c - f_pdu_remaining_size f in
            if 0 <? tb_size then
              Ret (Tx (tx_sn_length e) (tx_header_min_length_in_bytes e) (u16 (vt_us e + 1)) sdus
                     (f_buffer_occupancy f) (nb_bytes_requested_by_mac e)
                     (pdus_to_mac_layer e ++ [{| tr_data := mem; tr_size := tb_size |}]))
            else Trap FAssert
        end
    end.

Definition rlc_um_segment_5 := rlc_um_segment true.
Definition rlc_um_segment_10 := rlc_um_segment false.

(** ** The entity *)

Record um_entity := Um {
  um_protocol_state : um_state;
  um_send : um_tx;
  um_recv : um_rx;
}.

(** The SDU is queued; its size is an [uint16_t]. *)
Definition rlc_um_data_req (frame : Z) (sdu : list byte) (data_size : Z) (e : um_entity) : um_entity :=
  let t := um_send e in
  let size := u16 data_size in
  Um (um_protocol_state e)
    (Tx (tx_sn_length t) (tx_header_min_length_in_bytes t) (vt_us t)
       (input_sdus t ++ [TxSdu sdu size size 0 (i32 frame)]) (i32 (buffer_occupancy t + size))
       (nb_bytes_requested_by_mac t) (pdus_to_mac_layer t))
    (um_recv e).

Definition rlc_um_get_buffer_occupancy (t : um_tx) : Z :=
  if 0 <? buffer_occupancy t then buffer_occupancy t else 0.

Definition rlc_um_get_pdus (alloc : Z -> option (list byte)) (e : um_entity) : cres um_entity :=
  match um_protocol_state e with
  | RLC_DATA_TRANSFER_READY_STATE =>
      t ← (if tx_sn_length (um_send e) =? 10 then rlc_um_segment_10 alloc (um_send e) else Ret (um_send e));
      t ← (if tx_sn_length t =? 5 then rlc_um_segment_5 alloc t else Ret t);
      Ret (Um (um_protocol_state e) t (um_recv e))
  | _ => Ret e
  end.

(** [head_sdu_creation_time] of the response. *)
Definition creation_time (frame created : Z) : Z :=
  let diff_time := i32 (frame - created) in
  if 0 <? diff_time then u32 diff_time else u32 (0xffffffff - diff_time + frame).

Definition rlc_um_mac_status_indication (blocks : bool) (now frame tbs_sizeP : Z) (e : um_entity)
  : cres (um_entity * mac_status_resp) :=
  r ← rlc_um_check_timer_dar_time_out blocks now (um_recv e);
  let t := um_send e in
  let t := Tx (tx_sn_length t) (tx_header_min_length_in_bytes t) (vt_us t) (input_sdus t)
             (buffer_occupancy t) (u16 tbs_sizeP) (pdus_to_mac_layer t) in
  let bytes := u32 (rlc_um_get_buffer_occupancy t) in
  let resp :=
    match input_sdus t with
    | sdu :: _ =>
        if 0 <? bytes then
          {| sr_bytes := u32 (bytes + tx_header_min_length_in_bytes t);
             sr_pdus := u16 (zlen (input_sdus t));
             sr_creation_time := creation_time frame (sdu_creation_time sdu);
             sr_remaining := sdu_remaining_size sdu;
             sr_segmented := if tsdu_size sdu =? sdu_remaining_size sdu then 0 else 1 |}
        else {| sr_bytes := bytes; sr_pdus := 0; sr_creation_time := 0; sr_remaining := 0; sr_segmented := 0 |}
    | [] => {| sr_bytes := bytes; sr_pdus := 0; sr_creation_time := 0; sr_remaining := 0; sr_segmented := 0 |}
    end in
  Ret (Um (um_protocol_state e) t r, resp).

(** The PDUs move to the list of the request; the occupancy that is also returned is not used by
    the callers.  [tb_size_in_bytes] is an [int16_t]. *)
Definition rlc_um_mac_data_request (alloc : Z -> option (list byte)) (e : um_entity)
  : cres (um_entity * list mac_tb_req) :=
  e ← rlc_um_get_pdus alloc e;
  let t := um_send e in
  let tbs := pdus_to_mac_layer t in
  let t := Tx (tx_sn_length t) (tx_header_min_length_in_bytes t) (vt_us t) (input_sdus t)
             (buffer_occupancy t) (nb_bytes_requested_by_mac t) [] in
  _ ← for_each (fun tb (_ : unit) => c_assert (0 <? i16 (tr_size tb))) tbs tt;
  Ret (Um (um_protocol_state e) t (um_recv e), tbs).

(** Only an entity that is ready receives. *)
Definition rlc_um_rx (blocks : bool) (now : Z) (data_ind : mac_data_ind) (e : um_entity) : cres um_entity :=
  match um_protocol_state e with
  | RLC_DATA_TRANSFER_READY_STATE =>
      r ← rlc_um_receive blocks now (di_data data_ind) (um_recv e);
      Ret (Um (um_protocol_state e) (um_send e) r)
  | _ => Ret e
  end.

Definition rlc_um_mac_data_indication (blocks : bool) (now : Z) (data_ind : mac_data_ind) (e : um_entity)
  : cres um_entity :=
  e ← rlc_um_rx blocks now data_ind e;
  r ← rlc_um_check_timer_dar_time_out blocks now (um_recv e);
  Ret (Um (um_protocol_state e) (um_send e) r).

(** ** Specification of the segmentation *)

(** A waiting SDU: the bytes that have been sent and the bytes that have not. *)
Abbreviation waiting := (list byte * list byte)%type.

(** The fields of a PDU with [T] bytes for length indicators and data, [c] being the size of the
    next length indicator: the data fields, whether the last one ends an SDU, the SDUs that stay
    and the bytes of the PDU that stay empty. *)
Fixpoint pack (T c : Z) (q : list waiting) : list (list byte) * bool * list waiting * Z :=
  match q with
  | [] => ([], false, [], 0)
  | (s, d) :: q =>
      if T <? zlen d
      then ([take (Z.to_nat T) d], false, (s ++ take (Z.to_nat T) d, drop (Z.to_nat T) d) :: q, 0)
      else if zlen d =? T then ([d], true, q, 0)
      else if zlen d + c =? T then ([d], true, q, c)
      else if zlen d + c <? T then
        let '(fs, last, rest, slack) := pack (T - (zlen d + c)) (3 - c) q in (d :: fs, last, rest, slack)
      else ([d], true, q, 1)
  end.

(** The bytes that wait. *)
Definition queue_bytes (q : list waiting) : Z := foldr (fun w n => zlen w.2 + n) 0 q.

(** The size of [n] length indicators when the next one takes [c] bytes. *)
Fixpoint li_total (c : Z) (n : nat) : Z :=
  match n with O => 0 | S n => c + li_total (3 - c) n end.

(** The block of an SDU. *)
Record tsdu_ok (w : waiting) (x : tx_sdu) : Prop := {
  to_data : sdu_data x = w.1 ++ w.2;
  to_size : tsdu_size x = zlen w.1 + zlen w.2;
  to_remaining : sdu_remaining_size x = zlen w.2;
  to_segmented : sdu_segmented_size x = zlen w.1;
  to_nonempty : 0 < zlen w.2;
  to_range : zlen w.1 + zlen w.2 < 2 ^ 16;
}.

(** ** Lemmas on the specification *)

Lemma queue_bytes_nonneg q : 0 <= queue_bytes q.
Proof. induction q as [|w q IH]; cbn; [lia|]. pose proof (zlen_nonneg w.2). unfold queue_bytes in IH. lia. Qed.

(** Enough SDUs wait: the PDU is never larger than all of them and their length indicators. *)
Definition full (T c : Z) (q : list waiting) : Prop :=
  q <> [] /\ T <= queue_bytes q + li_total c (length q - 1).

Lemma full_next T c w q : full T c (w :: q) -> zlen w.2 + c < T -> 0 < c ->
  full (T - (zlen w.2 + c)) (3 - c) q.
Proof.
  intros [_ H] Hlt Hc. change (queue_bytes (w :: q)) with (zlen w.2 + queue_bytes q) in H.
  destruct q as [|w' q]; cbn [length Nat.sub] in H; [cbn in H; lia|].
  split; [done|]. cbn [length Nat.sub]. rewrite !Nat.sub_0_r in *. cbn [li_total] in H. lia.
Qed.

(** What a PDU is made of. *)
Record pack_ok (T c : Z) (q : list waiting) (fs : list (list byte)) (last : bool)
  (rest : list waiting) (slack : Z) : Prop := {
  pk_some : fs <> [];
  pk_nonempty : Forall (fun f => f <> []) fs;
  pk_slack : 0 <= slack <= 2;
  pk_room : slack < T;
  pk_size : zlen (concat fs) + li_total c (length fs - 1) = T - slack;
  pk_last : slack <> 0 -> last = true;
  pk_bytes : queue_bytes q = zlen (concat fs) + queue_bytes rest;
}.

Lemma zlen_pos {A} (l : list A) : 0 < zlen l <-> l <> [].
Proof. destruct l; unfold zlen; cbn; split; (done || lia). Qed.

Lemma pack_facts q : forall T c fs last rest slack,
  Forall (fun w => 0 < zlen w.2) q -> full T c q -> 0 < T -> c = 1 \/ c = 2 ->
  pack T c q = (fs, last, rest, slack) -> pack_ok T c q fs last rest slack.
Proof.
  induction q as [|[s d] q IH]; intros T c fs last rest slack Hq Hf HT Hc E; [by destruct Hf|].
  apply Forall_cons_1 in Hq as [Hd Hq]. cbn [snd] in Hd. cbn [pack] in E.
  change (queue_bytes ((s, d) :: q)) with (zlen d + queue_bytes q).
  destruct (Z.ltb_spec T (zlen d)) as [Hlt|Hge].
  { injection E as <- <- <- <-.
    assert (Ht : zlen (take (Z.to_nat T) d) = T) by (unfold zlen in *; rewrite length_take; lia).
    assert (Hr : zlen (drop (Z.to_nat T) d) = zlen d - T) by (unfold zlen in *; rewrite length_drop; lia).
    constructor; cbn [concat length Nat.sub li_total]; rewrite ?app_nil_r; try lia; try done.
    - constructor; [|done]. apply zlen_pos. lia.
    - change (queue_bytes ((?a, ?b) :: q)) with (zlen b + queue_bytes q). lia. }
  assert (Hne : Forall (fun f => f <> []) [d]) by (constructor; [by apply zlen_pos|done]).
  assert (Hcat : zlen (concat [d]) = zlen d) by (cbn [concat]; by rewrite app_nil_r).
  destruct (Z.eqb_spec (zlen d) T).
  { injection E as <- <- <- <-. by constructor; rewrite ?Hcat; cbn [length Nat.sub li_total]; try lia. }
  destruct (Z.eqb_spec (zlen d + c) T).
  { injection E as <- <- <- <-. by constructor; rewrite ?Hcat; cbn [length Nat.sub li_total]; try lia. }
  destruct (Z.ltb_spec (zlen d + c) T) as [Hlt|].
  2:{ injection E as <- <- <- <-. by constructor; rewrite ?Hcat; cbn [length Nat.sub li_total]; try lia. }
  destruct (pack _ _ q) as [[[fs' last'] rest'] slack'] eqn:Ep. injection E as <- <- <- <-.
  apply IH in Ep; [|done|by apply (full_next T c (s, d) q Hf); cbn [snd]; lia|lia|lia].
  destruct Ep as [K1 K2 K3 K4 K5 K6 K7].
  constructor; [done|by constructor; [apply zlen_pos|]|lia|lia| |done|].
  2:{ change (queue_bytes ((s, d) :: q)) with (zlen d + queue_bytes q). cbn [concat]. rewrite zlen_app. lia. }
  cbn [concat length]. rewrite zlen_app. cbn [Nat.sub]. rewrite Nat.sub_0_r.
  destruct fs' as [|f fs']; [done|]. cbn [length Nat.sub] in K5. rewrite Nat.sub_0_r in K5.
  cbn [length li_total]. lia.
Qed.

Lemma lxor3 l : l = 1 \/ l = 2 -> Z.lxor l 3 = 3 - l.
Proof. by intros [-> | ->]. Qed.

(** The first pass counts the length indicators and the bytes that stay empty. *)
Lemma count_ok five q : forall xs T c k l z1 z2 P D fs last rest slack,
  Forall2 tsdu_ok q xs -> full T c q -> l = 1 \/ l = 2 -> c = 3 - l ->
  pack T c q = (fs, last, rest, slack) ->
  exists l', count_loop five xs (Count k T l z1 z2 P D) =
    Count (k + zlen fs - 1) 0 l' 0 0 (P - slack) (if five then D - slack else D).
Proof.
  induction q as [|[s d] q IH]; intros xs T c k l z1 z2 P D fs last rest slack Hq Hf Hl Hc E; [by destruct Hf|].
  apply Forall2_cons_inv_l in Hq as (x & xs' & [_ _ Hr _ Hd _] & Hq & ->). cbn [snd] in *.
  cbn [pack] in E. cbn [count_loop test_pdu_remaining_size test_li_length_in_bytes test_num_li
    c_pdu_remaining_size c_data_pdu_size]. rewrite Hr, lxor3, <- Hc by done.
  assert (H1 : forall a, k + zlen [a : list byte] - 1 = k) by (intros; unfold zlen; cbn; lia).
  destruct (T <? zlen d); [injection E as <- <- <- <-; exists l; by rewrite H1|].
  destruct (zlen d =? T); [injection E as <- <- <- <-; exists l; by rewrite H1|].
  destruct (zlen d + c =? T); [injection E as <- <- <- <-; exists l; by rewrite H1|].
  destruct (Z.ltb_spec (zlen d + c) T); [|injection E as <- <- <- <-; exists l; by rewrite H1].
  destruct (pack _ _ q) as [[[fs' last'] rest'] slack'] eqn:Ep. injection E as <- <- <- <-.
  eapply (IH _ _ _ (k + 1) c c 1 P D) in Ep as (l' & Ep); [|done| |lia|done].
  2:{ apply (full_next T c (s, d)); [done|cbn [snd]; lia|lia]. }
  exists l'. rewrite Ep. f_equal. unfold zlen. cbn [length]. lia.
Qed.

(** ** Lemmas on the memory of a PDU *)

Lemma memcpy_app (A D src : list byte) off n d i : i = zlen A -> bget src off n = Ret d -> zlen d <= zlen D ->
  memcpy (A ++ D) i src off n = Ret (A ++ d ++ drop (length d) D).
Proof.
  intros -> E Hd. unfold memcpy. rewrite E. cbn [mbind cres_bind].
  rewrite bput_ok by (rewrite ?zlen_app; pose proof (zlen_nonneg A); lia). f_equal.
  unfold zlen. rewrite Nat2Z.id, take_app_length. do 2 f_equal.
  by rewrite drop_app_ge, Nat.add_sub_swap, Nat.sub_diag by lia.
Qed.

Lemma bget_rest (s d : list byte) n : 0 <= n <= zlen d ->
  bget (s ++ d) (zlen s) n = Ret (take (Z.to_nat n) d).
Proof.
  intros Hn. rewrite bget_ok by (rewrite ?zlen_app; pose proof (zlen_nonneg s); lia).
  unfold zlen. by rewrite Nat2Z.id, drop_app_length.
Qed.

(** ** Length indicators *)

(** The octets from the second one of a pair on, its upper half being [x]. *)
Definition enc_tail (x : Z) (lens : list Z) : list Z :=
  match lens with
  | [] => [x]
  | l2 :: rest => (x + (match rest with [] => 0 | _ => 8 end) + l2 / 256) :: l2 mod 256 :: enc_lis rest
  end.

Lemma enc_lis_cons l1 lens :
  enc_lis (l1 :: lens) =
  ((match lens with [] => 0 | _ => 128 end) + l1 / 16) :: enc_tail ((l1 mod 16) * 16) lens.
Proof. by destruct lens. Qed.

Lemma li_octet1 (b : bool) r : 0 <= r < 2048 ->
  u8 (Z.lor (if b then 0 else 0x80) (Z.shiftr r 4)) = (if b then 0 else 128) + r / 16.
Proof.
  intros Hr. rewrite Z.shiftr_div_pow2 by lia. change (2 ^ 4) with 16.
  assert (Hq : 0 <= r / 16 < 128) by (Z.div_mod_to_equations; lia).
  destruct b; cbv iota; [rewrite Z.lor_0_l; by rewrite u8_small by lia|].
  rewrite Z.lor_comm. change 0x80 with (Z.shiftl 1 7) at 1. rewrite lor_shiftl_add by (change (2 ^ 7) with 128; lia).
  change (2 ^ 7) with 128. rewrite u8_small; [ring|change (2 ^ 8) with 256; lia].
Qed.

Lemma li_octet2 r : u8 (Z.shiftl r 4) = (r mod 16) * 16.
Proof.
  rewrite Z.shiftl_mul_pow2 by lia. unfold u8. change (2 ^ 8) with (16 * 2 ^ 4).
  rewrite Z.mul_mod_distr_r by lia. done.
Qed.

Lemma li_octet3 (b : bool) x r : 0 <= x < 256 -> x mod 16 = 0 -> 0 <= r < 2048 ->
  u8 (Z.lor (if negb b then Z.lor x 0x08 else x) (Z.shiftr r 8)) = x + (if b then 0 else 8) + r / 256.
Proof.
  intros Hx Hm Hr. rewrite Z.shiftr_div_pow2 by lia. change (2 ^ 8) with 256.
  assert (Hq : 0 <= r / 256 < 8) by (Z.div_mod_to_equations; lia).
  assert (Ex : exists k, 0 <= k < 16 /\ x = Z.shiftl k 4).
  { exists (x / 16). rewrite Z.shiftl_mul_pow2 by lia. Z.div_mod_to_equations; lia. }
  destruct Ex as (k & Hk & ->). destruct b; cbn [negb]; cbv iota.
  - rewrite Z.lor_comm, lor_shiftl_add, Z.shiftl_mul_pow2 by lia. rewrite u8_small; lia.
  - assert (E8 : Z.lor (r / 256) 8 = r / 256 + 8) by (apply (lor_shiftl_add (r / 256) 1 3); lia).
    rewrite Z.lor_comm, (Z.lor_comm _ 8), Z.lor_assoc, E8, lor_shiftl_add, Z.shiftl_mul_pow2 by lia.
    rewrite u8_small; lia.
Qed.

(** The place of the length indicators that are to be written, [L] being the octets for them;
    [E] are their values. *)
Definition li_place (l e_li : Z) (A L : list byte) (lens E : list Z) : Prop :=
  zlen L = zlen E /\
  ((l = 1 /\ e_li = zlen A /\ E = enc_lis lens) \/
   (l = 2 /\ exists x L', L = byte.of_Z x :: L' /\ e_li + 1 = zlen A /\ 0 <= x < 256 /\ x mod 16 = 0 /\
      E = enc_tail x lens)).

Lemma put_li_ok l e_li A L R r lens E fn tn : li_place l e_li A L (r :: lens) E -> 0 <= r < 2048 ->
  tn = fn + zlen lens ->
  exists A' L' E' e_li', put_li tn fn (3 - l) r e_li (A ++ L ++ R) = Ret (A' ++ L' ++ R, e_li') /\
    li_place (3 - l) e_li' A' L' lens E' /\
    A ++ (byte.of_Z <$> E) = A' ++ (byte.of_Z <$> E') /\ zlen (A' ++ L') = zlen (A ++ L).
Proof.
  intros [Hlen [(-> & -> & ->)|(-> & x & L' & -> & He & Hx & Hm & ->)]] Hr Htn;
    (assert (Hb : (fn =? tn) = match lens with [] => true | _ => false end)
      by (destruct lens; unfold zlen in Htn; cbn in Htn; [apply Z.eqb_eq|apply Z.eqb_neq]; lia)).
  - rewrite enc_lis_cons in *. unfold zlen in Hlen. cbn [length] in Hlen.
    assert (Ht : (1 <= length (enc_tail ((r mod 16) * 16) lens))%nat) by (destruct lens; cbn; lia).
    destruct L as [|y1 [|y2 L]]; cbn [length] in Hlen; [lia..|].
    unfold put_li. change (3 - 1 =? 2) with true. cbv iota zeta. rewrite Hb.
    cbn [app]. rewrite put_octet_app by done. cbn [mbind cres_bind].
    rewrite (cons_middle _ A), app_assoc. rewrite put_octet_app by (rewrite zlen_app; unfold zlen; cbn; lia).
    cbn [mbind cres_bind]. rewrite li_octet2, (li_octet1 (match lens with [] => true | _ => false end)) by done.
    exists (A ++ [byte.of_Z ((match lens with [] => 0 | _ => 128 end) + r / 16)]),
      (byte.of_Z ((r mod 16) * 16) :: L), (enc_tail ((r mod 16) * 16) lens), (zlen A).
    split_and!.
    + do 2 f_equal. cbn [app]. by destruct lens.
    + split; [unfold zlen; cbn [length]; lia|]. right. split; [done|].
      exists ((r mod 16) * 16), L. split_and!; [done|rewrite zlen_app; unfold zlen; cbn; lia|..|done];
        Z.div_mod_to_equations; lia.
    + cbn [fmap list_fmap]. by rewrite <- app_assoc.
    + rewrite !zlen_app. unfold zlen. cbn [length]. lia.
  - unfold zlen in Hlen. cbn [enc_tail length] in Hlen. destruct L' as [|y2 L]; cbn [length] in Hlen; [lia|].
    unfold put_li. change (3 - 2 =? 2) with false. cbv iota.
    cbn [app]. rewrite octet_app by done. cbn [mbind cres_bind]. rewrite byte.unsigned_of_Z.
    unfold byte.wrap. rewrite Z.mod_small by done. cbv zeta. rewrite Hb, put_octet_app by done.
    cbn [mbind cres_bind].
    rewrite (cons_middle _ A), app_assoc, put_octet_app by (rewrite zlen_app; unfold zlen in *; cbn; lia).
    cbn [mbind cres_bind]. rewrite (li_octet3 (match lens with [] => true | _ => false end)) by done.
    change 255 with (Z.ones 8). rewrite Z.land_ones by lia. change (2 ^ 8) with 256.
    rewrite (u8_small (r mod 256)) by (apply Z.mod_pos_bound; lia).
    exists (A ++ [byte.of_Z (x + (match lens with [] => 0 | _ => 8 end) + r / 256); byte.of_Z (r mod 256)]),
      L, (enc_lis lens), (e_li + 3).
    split_and!.
    + do 2 f_equal. rewrite <- !app_assoc. cbn [app]. by destruct lens.
    + split; [unfold zlen in *; lia|]. left. split_and!; [done| |done].
      rewrite zlen_app. unfold zlen in *. cbn. lia.
    + cbn [enc_tail fmap list_fmap]. by rewrite <- app_assoc.
    + rewrite !zlen_app. unfold zlen. cbn [length]. lia.
Qed.

(** ** The second pass *)

Lemma removelast_cons {A} (x : A) l : l <> [] -> removelast (x :: l) = x :: removelast l.
Proof. by destruct l. Qed.

(** No length indicator is left. *)
Lemma li_place_end l e_li A L E : li_place l e_li A L [] E -> L = byte.of_Z <$> E.
Proof.
  intros [Hlen [(_ & _ & ->)|(_ & x & L' & -> & _ & _ & _ & ->)]]; unfold zlen in Hlen; cbn in Hlen.
  - destruct L; [done|cbn in Hlen; lia].
  - destruct L'; [done|cbn in Hlen; lia].
Qed.

(** The last field, which is the beginning of the SDU [x]. *)
Lemma last_field s d x mem n bo A L B D data e_li l fn E :
  tsdu_ok (s, d) x -> 0 < n <= zlen d -> li_place l e_li A L [] E ->
  mem = A ++ L ++ B ++ D -> data = zlen (A ++ L ++ B) -> n <= zlen D -> zlen d <= bo < 2 ^ 31 ->
  forall tn xs, exists xs' data' e_li' l',
  fill_loop tn (x :: xs) (Fill mem data e_li l fn n bo) =
    Ret (xs', n =? zlen d,
      Fill (A ++ (byte.of_Z <$> E) ++ B ++ take (Z.to_nat n) d ++ drop (Z.to_nat n) D) data' e_li' l' fn 0 (bo - n)) /\
  if n =? zlen d then xs' = xs
  else exists x', xs' = x' :: xs /\ tsdu_ok (s ++ take (Z.to_nat n) d, drop (Z.to_nat n) d) x'.
Proof.
  intros [T1 T2 T3 T4 T5 T6] Hn Hp -> -> HD Hbo tn xs. cbn [fst snd] in *.
  apply li_place_end in Hp as ->. pose proof (zlen_nonneg s).
  assert (Hcp : memcpy (A ++ (byte.of_Z <$> E) ++ B ++ D) (zlen (A ++ (byte.of_Z <$> E) ++ B)) (sdu_data x)
      (zlen s) n = Ret (A ++ (byte.of_Z <$> E) ++ B ++ take (Z.to_nat n) d ++ drop (Z.to_nat n) D)).
  { rewrite !(app_assoc A), !(app_assoc (A ++ _)).
    rewrite (memcpy_app _ D _ _ _ (take (Z.to_nat n) d)); [|by rewrite <- !app_assoc|by rewrite T1, bget_rest by lia|].
    - by rewrite length_take, Nat.min_l by (unfold zlen in Hn; lia).
    - unfold zlen in *. rewrite length_take. lia. }
  cbn [fill_loop f_pdu_remaining_size f_mem f_data f_e_li f_li_length_in_bytes fill_num_li f_buffer_occupancy].
  rewrite T3, T4, (Z.eqb_sym (zlen d) n). destruct (Z.eqb_spec n (zlen d)) as [->|Hne].
  - rewrite Z.ltb_irrefl, Hcp. cbn [mbind cres_bind]. rewrite i32_small by lia. eauto 10.
  - rewrite (proj2 (Z.ltb_lt n (zlen d))) by lia. rewrite Hcp. cbn [mbind cres_bind]. rewrite i32_small by lia.
    do 4 eexists. split; [reflexivity|]. eexists. split; [reflexivity|].
    assert (Ht : zlen (take (Z.to_nat n) d) = n) by (unfold zlen in *; rewrite length_take; lia).
    assert (Hr : zlen (drop (Z.to_nat n) d) = zlen d - n) by (unfold zlen in *; rewrite length_drop; lia).
    constructor; cbn [fst snd sdu_data tsdu_size sdu_remaining_size sdu_segmented_size];
      rewrite ?zlen_app, ?Ht, ?Hr, ?u16_small; try lia.
    by rewrite T1, <- app_assoc, take_drop.
Qed.

Lemma waiting_pos q xs : Forall2 tsdu_ok q xs -> Forall (fun w => 0 < zlen w.2) q.
Proof. induction 1 as [|w x q xs [_ _ _ _ H _] Hq IH]; by constructor. Qed.

Lemma fill_ok q : forall xs T c fs last rest slack l e_li A L B D data fn bo E tn,
  Forall2 tsdu_ok q xs -> full T c q -> 0 < T -> l = 1 \/ l = 2 -> c = 3 - l ->
  pack T c q = (fs, last, rest, slack) -> Forall (fun f => zlen f < 2048) (removelast fs) ->
  li_place l e_li A L (zlen <$> removelast fs) E -> data = zlen (A ++ L ++ B) ->
  zlen (concat fs) <= zlen D -> queue_bytes q <= bo < 2 ^ 31 -> tn = fn + (zlen fs - 1) ->
  exists xs' data' e_li' l',
  fill_loop tn xs (Fill (A ++ L ++ B ++ D) data e_li l fn (T - slack) bo) =
    Ret (xs', last,
      Fill (A ++ (byte.of_Z <$> E) ++ B ++ concat fs ++ drop (length (concat fs)) D) data' e_li' l' tn 0
        (bo - zlen (concat fs))) /\
  Forall2 tsdu_ok rest xs'.
Proof.
  induction q as [|[s d] q IH];
    intros xs T c fs last rest slack l e_li A L B D data fn bo E tn Hq Hf HT Hl Hc Hpack Hli Hp Hdata HD Hbo Htn;
    [by destruct Hf|].
  pose proof (waiting_pos _ _ Hq) as Hpos.
  pose proof (pack_facts _ _ _ _ _ _ _ Hpos Hf HT ltac:(lia) Hpack) as [K1 K2 K3 K4 K5 K6 K7].
  apply Forall2_cons_inv_l in Hq as (x & xs' & Hx & Hq & ->).
  change (queue_bytes ((s, d) :: q)) with (zlen d + queue_bytes q) in Hbo.
  pose proof (queue_bytes_nonneg q) as Hqb. cbn [pack] in Hpack.
  (* the fields that end the PDU *)
  assert (Hlast : forall n, 0 < n <= zlen d -> fs = [take (Z.to_nat n) d] -> T - slack = n ->
    last = (n =? zlen d) ->
    rest = (if n =? zlen d then q else (s ++ take (Z.to_nat n) d, drop (Z.to_nat n) d) :: q) ->
    exists xs'' data' e_li' l',
    fill_loop tn (x :: xs') (Fill (A ++ L ++ B ++ D) data e_li l fn (T - slack) bo) =
      Ret (xs'', last,
        Fill (A ++ (byte.of_Z <$> E) ++ B ++ concat fs ++ drop (length (concat fs)) D) data' e_li' l' tn 0
          (bo - zlen (concat fs))) /\
    Forall2 tsdu_ok rest xs'').
  { intros n Hn -> Hsl -> ->. cbn [concat] in *. rewrite app_nil_r in *.
    assert (Ht : zlen (take (Z.to_nat n) d) = n) by (unfold zlen in *; rewrite length_take; lia).
    assert (Htn' : tn = fn) by (rewrite Htn; unfold zlen; cbn; lia). subst tn. rewrite Htn', Hsl, Ht.
    destruct (last_field s d x (A ++ L ++ B ++ D) n bo A L B D data e_li l fn E Hx Hn Hp eq_refl Hdata
      ltac:(lia) ltac:(lia) fn xs') as (xs'' & d' & e' & l' & Ef & Hxs).
    exists xs'', d', e', l'. rewrite Ef. split.
    - by replace (length (take (Z.to_nat n) d)) with (Z.to_nat n) by (unfold zlen in Ht; lia).
    - destruct (n =? zlen d); [by subst|]. destruct Hxs as (x' & -> & Hx'). by constructor. }
  pose proof (to_nonempty _ _ Hx) as Hd. cbn [snd] in Hd.
  assert (Hall : take (Z.to_nat (zlen d)) d = d) by (apply take_ge; unfold zlen; lia).
  destruct (Z.ltb_spec T (zlen d)) as [Hlt|Hge].
  { injection Hpack as <- <- <- <-. apply (Hlast T); rewrite ?(proj2 (Z.eqb_neq T (zlen d))) by lia; (done || lia). }
  destruct (Z.eqb_spec (zlen d) T) as [Heq|].
  { injection Hpack as <- <- <- <-. apply (Hlast (zlen d)); rewrite ?Hall, ?Z.eqb_refl; (done || lia). }
  destruct (Z.eqb_spec (zlen d + c) T) as [Heq|].
  { injection Hpack as <- <- <- <-. apply (Hlast (zlen d)); rewrite ?Hall, ?Z.eqb_refl; (done || lia). }
  destruct (Z.ltb_spec (zlen d + c) T) as [Hlt|].
  2:{ injection Hpack as <- <- <- <-. apply (Hlast (zlen d)); rewrite ?Hall, ?Z.eqb_refl; (done || lia). }
  clear Hlast Hall.
  destruct (pack _ _ q) as [[[fs' last'] rest'] slack'] eqn:Ep. injection Hpack as <- <- <- <-.
  assert (Hfull : full (T - (zlen d + c)) (3 - c) q) by (apply (full_next T c (s, d)); [done|cbn [snd]; lia|lia]).
  apply Forall_cons_1 in Hpos as [_ Hpos].
  pose proof (pack_facts _ _ _ _ _ _ _ Hpos Hfull ltac:(lia) ltac:(lia) Ep) as [J1 J2 J3 J4 J5 J6 J7].
  rewrite removelast_cons in Hli, Hp by done. apply Forall_cons_1 in Hli as [Hd2 Hli].
  cbn [fmap list_fmap] in Hp. cbn [concat] in HD |- *. rewrite zlen_app in HD |- *.
  pose proof (zlen_nonneg (concat fs')).
  assert (Hlen' : zlen (zlen <$> removelast fs') = zlen fs' - 1).
  { unfold zlen. rewrite length_fmap. destruct (exists_last J1) as (gs & g & ->).
    rewrite removelast_last, length_app. cbn. lia. }
  cbn [fill_loop f_pdu_remaining_size f_mem f_data f_e_li f_li_length_in_bytes fill_num_li f_buffer_occupancy].
  destruct Hx as [T1 T2 T3 T4 T5 T6]. cbn [fst snd] in *. rewrite T3, T4, lxor3, <- Hc by done.
  rewrite (proj2 (Z.ltb_ge (T - slack') (zlen d))), (proj2 (Z.eqb_neq (zlen d) (T - slack'))),
    (proj2 (Z.ltb_lt (zlen d + c) (T - slack'))) by lia.
  rewrite !(app_assoc A), (app_assoc (A ++ L)).
  rewrite (memcpy_app ((A ++ L) ++ B) D _ _ _ d); [| |by rewrite T1, bget_rest, take_ge by (unfold zlen; lia)|lia].
  2:{ rewrite Hdata. by rewrite app_assoc. }
  cbn [mbind cres_bind]. rewrite <- !app_assoc.
  destruct (put_li_ok l e_li A L (B ++ d ++ drop (length d) D) (zlen d) (zlen <$> removelast fs') E (fn + 1) tn Hp)
    as (A' & L' & E' & e' & Ew & Hp' & HE & HAL); [lia| |].
  { rewrite Hlen', Htn. unfold zlen. cbn [length]. lia. }
  rewrite <- Hc in Ew, Hp'. rewrite Ew. cbn [mbind cres_bind].
  rewrite i32_small by lia.
  replace (T - slack' - (zlen d + c)) with (T - (zlen d + c) - slack') by lia.
  rewrite (app_assoc B).
  destruct (IH xs' (T - (zlen d + c)) (3 - c) fs' last' rest' slack' c e' A' L' (B ++ d) (drop (length d) D)
    (data + zlen d) (fn + 1) (bo - zlen d) E' tn) as (xs'' & d' & e'' & l' & Ef & Hxs); try done; try lia.
  - rewrite Hdata. rewrite (app_assoc A L B), (app_assoc A' L'), !zlen_app, <- !zlen_app, !zlen_app.
    rewrite zlen_app in HAL. rewrite zlen_app in HAL. lia.
  - unfold zlen in *. rewrite length_drop. lia.
  - rewrite Htn. unfold zlen. cbn [length]. lia.
  - exists xs'', d', e'', l'. rewrite Ef. split; [|done]. do 3 f_equal; [|lia].
    rewrite !(app_assoc A), HE. rewrite <- !app_assoc. do 4 f_equal. rewrite length_app, drop_drop. done.
Qed.

(** ** A whole PDU *)

Lemma li_total_closed n : li_total 2 n = Z.shiftr (Z.of_nat n * 3 + 1) 1 /\
  li_total 2 n = (Z.of_nat n * 3) / 2 + Z.of_nat n mod 2.
Proof.
  induction n as [n IH] using lt_wf_ind. destruct n as [|[|n]]; [done..|].
  destruct (IH n ltac:(lia)) as [I1 I2]. cbn [li_total]. change (3 - (3 - 2)) with 2.
  rewrite Z.shiftr_div_pow2 in * by lia. change (2 ^ 1) with 2 in *.
  rewrite !Nat2Z.inj_succ. split; Z.div_mod_to_equations; lia.
Qed.

(** The lengths of the coded numbers and of the fixed part of the header. *)
Definition sn_len (five : bool) : Z := if five then 5 else 10.
Definition hdr_len (five : bool) : Z := if five then 1 else 2.
Definition sn_mod (five : bool) : Z := if five then 32 else 1024.

(** The queue [q] of the transmitter. *)
Record tx_ok (five : bool) (q : list waiting) (e : um_tx) : Prop := {
  xk_sdus : Forall2 tsdu_ok q (input_sdus e);
  xk_fresh : Forall (fun w => w.1 = []) (tail q);
  xk_bo : buffer_occupancy e = queue_bytes q;
  xk_max : queue_bytes q < 2 ^ 30;
  xk_len : tx_sn_length e = sn_len five;
  xk_hdr : tx_header_min_length_in_bytes e = hdr_len five;
  xk_vt : 0 <= vt_us e < 2 ^ 16;
}.

(** The space of the PDU behind the fixed part of its header. *)
Definition pdu_room (five : bool) (nb : Z) (q : list waiting) : Z :=
  Z.min (queue_bytes q + li_total 2 (length q - 1)) (nb - hdr_len five).

Lemma pdu_size_for_ok five q e : tx_ok five q e -> q <> [] ->
  pdu_size_for e = hdr_len five + pdu_room five (nb_bytes_requested_by_mac e) q /\
  full (pdu_room five (nb_bytes_requested_by_mac e) q) 2 q /\
  (hdr_len five < nb_bytes_requested_by_mac e -> 0 < pdu_room five (nb_bytes_requested_by_mac e) q).
Proof.
  intros [Hs _ Hbo _ _ Hh _] Hne. unfold pdu_size_for, pdu_room, full. rewrite Hbo, Hh.
  pose proof (Forall2_length Hs) as Hl.
  assert (Hn : zlen (input_sdus e) - 1 = Z.of_nat (length q - 1)) by (destruct q; [done|unfold zlen; cbn in *; lia]).
  assert (Hov : (if zlen (input_sdus e) <=? 1 then 0
      else (zlen (input_sdus e) - 1) * 3 / 2 + (zlen (input_sdus e) - 1) mod 2) = li_total 2 (length q - 1)).
  { destruct (Z.leb_spec (zlen (input_sdus e)) 1).
    - replace (length q - 1)%nat with 0%nat by lia. done.
    - rewrite Hn. symmetry. apply li_total_closed. }
  rewrite Hov. cbv zeta. set (ov := li_total 2 (length q - 1)).
  assert (Hq : 0 < queue_bytes q).
  { destruct q as [|[s d] q]; [done|]. pose proof (waiting_pos _ _ Hs) as Hp.
    apply Forall_cons_1 in Hp as [Hp _]. pose proof (queue_bytes_nonneg q).
    change (queue_bytes ((s, d) :: q)) with (zlen d + queue_bytes q). cbn in Hp. unfold zlen in *. lia. }
  assert (Hov0 : 0 <= ov).
  { unfold ov. rewrite (proj1 (li_total_closed _)). apply Z.shiftr_nonneg. lia. }
  destruct (Z.leb_spec (queue_bytes q + hdr_len five + ov) (nb_bytes_requested_by_mac e)); split_and!; (done || lia).
Qed.

Lemma header_octets five fi n vt A R :
  0 <= fi < 4 -> zlen A = hdr_len five ->
  put_header five fi n vt (A ++ R) =
  Ret ((byte.of_Z <$> fixed_part (sn_len five) (vt mod sn_mod five) fi (if 0 <? n then 1 else 0)) ++ R).
Proof.
  intros Hfi HA. unfold put_header, fixed_part, sn_len, sn_mod. set (b := 0 <? n).
  destruct five; cbn [hdr_len] in HA; unfold zlen in HA; cbn [Z.eqb Pos.eqb].
  - destruct A as [|a [|]]; cbn in HA; try lia. rewrite (put_octet_app [] a R) by done. cbn [app fmap list_fmap].
    do 3 f_equal. change 0x1F with (Z.ones 5). rewrite Z.land_ones by lia. change (2 ^ 5) with 32.
    pose proof (Z.mod_pos_bound vt 32). rewrite (u8_small (Z.shiftl fi 6)) by (rewrite Z.shiftl_mul_pow2 by lia; lia).
    rewrite Z.lor_comm. set (s := vt mod 32) in *.
    assert (E1 : Z.lor s 32 = s + 32) by (apply (lor_shiftl_add s 1 5); lia).
    destruct b; rewrite ?(Z.lor_comm _ 32), ?Z.lor_assoc, ?E1, lor_shiftl_add by lia; rewrite u8_small; lia.
  - destruct A as [|a1 [|a2 [|]]]; cbn in HA; try lia. rewrite (put_octet_app [] a1 (a2 :: R)) by done.
    cbn [mbind cres_bind app].
    match goal with |- put_octet (?x :: _) _ _ = _ => rewrite (put_octet_app [x] a2 R) by done end.
    cbn [app fmap list_fmap]. rewrite (Z.land_ones (Z.shiftr vt 8) 2 ltac:(lia) : Z.land _ 3 = _),
      (Z.land_ones vt 8 ltac:(lia) : Z.land _ 255 = _).
    rewrite Z.shiftr_div_pow2 by lia. change (2 ^ 2) with 4. change (2 ^ 8) with 256.
    assert (E2 : (vt mod 1024) mod 256 = vt mod 256) by (Z.div_mod_to_equations; lia).
    assert (E3 : vt mod 1024 / 256 = (vt / 256) mod 4) by (Z.div_mod_to_equations; lia). rewrite E2, E3.
    pose proof (Z.mod_pos_bound vt 256). pose proof (Z.mod_pos_bound (vt / 256) 4).
    rewrite (u8_small (vt mod 256)) by lia. do 2 f_equal. f_equal.
    set (s := (vt / 256) mod 4) in *.
    rewrite (u8_small (Z.shiftl fi 3)) by (rewrite Z.shiftl_mul_pow2 by lia; lia).
    rewrite Z.lor_comm. assert (E1 : Z.lor s 4 = s + 4) by (apply (lor_shiftl_add s 1 2); lia).
    destruct b; rewrite ?(Z.lor_comm _ 4), ?Z.lor_assoc, ?E1, lor_shiftl_add by lia; rewrite u8_small; lia.
Qed.

(** What the MAC gets: a block whose first bytes are the coded PDU and bytes left over. *)
Definition tb_carries (five : bool) (vt : Z) (x : upd) (slack : Z) (tb : mac_tb_req) : Prop :=
  0 < tr_size tb <= zlen (tr_data tb) /\
  exists junk, take (Z.to_nat (tr_size tb)) (tr_data tb) = enc_pdu (sn_len five) (vt mod sn_mod five) x ++ junk /\
    zlen junk = if five then 0 else slack.

(** [get_free_mem_block] gives enough memory for every PDU; a block of a pool has at least 64
    bytes. *)
Definition alloc_ok (alloc : Z -> option (list byte)) : Prop :=
  forall n, 0 <= n < 2 ^ 16 -> exists mem, alloc n = Some mem /\ n <= zlen mem /\ 4 <= zlen mem.

Lemma fi_range (a b : bool) : 0 <= (if a then 0 else 2) + (if b then 0 else 1) < 4.
Proof. destruct a, b; lia. Qed.

(** The three parts of a fresh block. *)
Lemma split_block (mem : list byte) a b : 0 <= a -> 0 <= b -> a + b <= zlen mem ->
  exists A L D, mem = A ++ L ++ D /\ zlen A = a /\ zlen L = b /\ zlen D = zlen mem - a - b.
Proof.
  intros Ha Hb Hm. exists (take (Z.to_nat a) mem), (take (Z.to_nat b) (drop (Z.to_nat a) mem)),
    (drop (Z.to_nat b) (drop (Z.to_nat a) mem)).
  split; [by rewrite !take_drop|]. unfold zlen in *. rewrite !length_take, !length_drop. lia.
Qed.

Lemma enc_lis_total fs : fs <> [] ->
  zlen (enc_lis (zlen <$> removelast fs)) = li_total 2 (length (fs : list (list byte)) - 1).
Proof.
  intros Hne. rewrite enc_lis_length, (proj1 (li_total_closed _)). do 3 f_equal.
  unfold zlen at 1. rewrite length_fmap. destruct (exists_last Hne) as (gs & g & ->).
  rewrite removelast_last, length_app. cbn. lia.
Qed.

(** The code of a PDU, as the fill loop and the header leave it in memory. *)
Lemma pdu_code five vt s d x fs last : tsdu_ok (s, d) x -> fs <> [] ->
  enc_pdu (sn_len five) (vt mod sn_mod five) (Upd (bool_decide (s = [])) fs last) =
    (byte.of_Z <$> fixed_part (sn_len five) (vt mod sn_mod five)
      ((if sdu_remaining_size x =? tsdu_size x then 0 else 2) + (if last then 0 else 1))
      (if 0 <? zlen fs - 1 then 1 else 0)) ++ (byte.of_Z <$> enc_lis (zlen <$> removelast fs)) ++ concat fs.
Proof.
  intros [_ T2 T3 _ _ _] Hne.
  assert (Hfirst : (sdu_remaining_size x =? tsdu_size x) = bool_decide (s = [])).
  { rewrite T2, T3. cbn [fst snd]. destruct s; unfold zlen; cbn [length]; [apply Z.eqb_refl|apply Z.eqb_neq; lia]. }
  assert (He : (if 0 <? zlen fs - 1 then 1 else 0) = match zlen <$> removelast fs with [] => 0 | _ => 1 end).
  { destruct fs as [|f1 [|f2 fs]]; [done|done|]. unfold zlen. cbn [length]. by rewrite (proj2 (Z.ltb_lt 0 _)) by lia. }
  unfold enc_pdu, enc_header. cbn [u_fields u_first u_last]. rewrite fmap_app, <- app_assoc, He, Hfirst. done.
Qed.

Lemma fixed_part_len five sn fi b : zlen (byte.of_Z <$> fixed_part (sn_len five) sn fi b) = hdr_len five.
Proof. unfold zlen, fixed_part, sn_len, hdr_len. by destruct five. Qed.

(** The counting loop finds the place of the length indicators. *)
Lemma count_lis (fs : list (list byte)) n : fs <> [] -> n = zlen (enc_lis (zlen <$> removelast fs)) ->
  Z.shiftr ((zlen fs - 1) * 3 + 1) 1 = n.
Proof.
  intros Hne ->. rewrite enc_lis_length. do 2 f_equal. unfold zlen. rewrite length_fmap.
  destruct (exists_last Hne) as (gs & g & ->). rewrite removelast_last, length_app. cbn. lia.
Qed.

Section Segment.
Context (five : bool) (alloc : Z -> option (list byte)) (Halloc : alloc_ok alloc).

(** The segmentation of the waiting SDUs is [pack], and the PDU is its coding. *)
Lemma segment_ok e q fs last rest slack :
  tx_ok five q e -> q <> [] -> hdr_len five < nb_bytes_requested_by_mac e < 2 ^ 16 ->
  pack (pdu_room five (nb_bytes_requested_by_mac e) q) 2 q = (fs, last, rest, slack) ->
  Forall (fun f => zlen f < 2048) (removelast fs) ->
  exists tb bo sdus, rlc_um_segment five alloc e =
      Ret (Tx (tx_sn_length e) (tx_header_min_length_in_bytes e) (u16 (vt_us e + 1)) sdus bo
             (nb_bytes_requested_by_mac e) (pdus_to_mac_layer e ++ [tb])) /\
    Forall2 tsdu_ok rest sdus /\ bo = queue_bytes rest /\
    tr_size tb <= nb_bytes_requested_by_mac e /\
    tb_carries five (vt_us e)
      (Upd (match q with (s, _) :: _ => bool_decide (s = []) | [] => true end) fs last) slack tb.
Proof.
  intros Hok Hne Hnb Hpack Hli. destruct (pdu_size_for_ok five q e Hok Hne) as (Hsize & Hfull & Hpos).
  specialize (Hpos ltac:(lia)). set (T := pdu_room _ _ q) in *. pose proof Hok as [Hs _ Hbo Hmax _ _ Hvt].
  pose proof (pack_facts _ _ _ _ _ _ _ (waiting_pos _ _ Hs) Hfull Hpos ltac:(by right) Hpack)
    as [K1 K2 K3 K4 K5 K6 K7].
  pose proof (enc_lis_total fs K1) as Hlis. pose proof (zlen_nonneg (concat fs)). pose proof (queue_bytes_nonneg rest).
  unfold rlc_um_segment. rewrite (proj2 (Z.ltb_ge _ _)) by (unfold hdr_len in Hnb; destruct five; lia).
  destruct q as [|[s d] q]; [done|]. apply Forall2_cons_inv_l in Hs as (x & xs & Hx & Hs & Exs).
  rewrite Exs, Hsize. destruct (Halloc (hdr_len five + T)) as (mem & -> & Hm1 & Hm2).
  { unfold T, pdu_room in *. destruct five; cbn [hdr_len] in *; lia. }
  rewrite bput_ok by (rewrite ?zlen_zeros; lia). cbn [mbind cres_bind].
  set (mem0 := take _ mem ++ zeros 4 ++ drop _ mem).
  assert (Hm : zlen mem0 = zlen mem)
    by (unfold mem0, zlen in *; rewrite !length_app, length_take, length_drop; cbn [length zeros replicate]; lia).
  assert (Hh0 : 0 < hdr_len five <= 2) by (unfold hdr_len; destruct five; lia).
  assert (Hli0 : 0 <= zlen (enc_lis (zlen <$> removelast fs))) by apply zlen_nonneg.
  destruct (split_block mem0 (hdr_len five) (zlen (enc_lis (zlen <$> removelast fs))))
    as (A & L & D & Emem & HA & HL & HD); [lia..|]. rewrite Emem. fold (hdr_len five).
  replace (hdr_len five + T - hdr_len five) with T by lia.
  assert (Hxs : Forall2 tsdu_ok ((s, d) :: q) (x :: xs)) by (by constructor).
  destruct (count_ok five _ _ T 2 0 1 0 0 T (hdr_len five + T) _ _ _ _ Hxs Hfull ltac:(by left) eq_refl Hpack)
    as (l' & ->). unfold count_end.
  cbn [test_remaining_num_li_to_substract Z.ltb Z.compare test_num_li c_pdu_remaining_size c_data_pdu_size].
  rewrite Z.add_0_l.
  rewrite (count_lis fs (zlen L) K1 HL).
  destruct (fill_ok _ (x :: xs) T 2 fs last rest slack 1 (hdr_len five) A L [] D (hdr_len five + zlen L) 0
    (buffer_occupancy e) (enc_lis (zlen <$> removelast fs)) (zlen fs - 1) Hxs Hfull Hpos ltac:(by left) eq_refl
    Hpack Hli) as (sdus & d' & e' & l'' & Ef & Hrest); [split; [done|by left]| |lia..|].
  { rewrite app_nil_r, zlen_app. lia. }
  cbn [app] in Ef. rewrite Ef.
  cbn [mbind cres_bind f_mem fill_num_li f_pdu_remaining_size f_buffer_occupancy app].
  rewrite header_octets by (done || apply fi_range). cbn [mbind cres_bind]. rewrite Z.sub_0_r.
  set (size := if five then _ else _).
  assert (Hsz : size = hdr_len five + T - (if five then slack else 0)) by (unfold size; destruct five; lia).
  rewrite (proj2 (Z.ltb_lt 0 size)) by (destruct five; lia).
  eexists _, _, _. split; [reflexivity|]. split_and!; [done|lia| |].
  { cbn [tr_size]. rewrite Hsz. unfold T, pdu_room. destruct five; lia. }
  split; cbn [tr_size tr_data].
  { rewrite !zlen_app, fixed_part_len. unfold zlen in *. rewrite length_fmap, length_drop. destruct five; lia. }
  rewrite (pdu_code five _ s d x fs last Hx K1). exists (take (Z.to_nat (if five then 0 else slack)) (drop (length (concat fs)) D)). split.
  - rewrite !app_assoc. match goal with |- take ?n (?a ++ ?b) = _ => set (u := a) end.
    assert (Hu : zlen u = hdr_len five + T - slack) by (unfold u; rewrite !zlen_app, fixed_part_len; unfold zlen in *; rewrite length_fmap; lia).
    unfold zlen in Hu. rewrite take_app_ge by (destruct five; lia). do 2 f_equal. destruct five; lia.
  - unfold zlen in *. rewrite length_take, length_drop. destruct five; lia.
Qed.

End Segment.

(** ** From the transmitter to the receiver *)

(** The SDUs that wait, and what has been sent of the first one. *)
Definition sdus_of (q : list waiting) : list (list byte) := (fun w => w.1 ++ w.2) <$> q.
Definition sent_of (q : list waiting) : list byte := match q with (s, _) :: _ => s | [] => [] end.

Lemma pack_cons T c s d q :
  pack T c ((s, d) :: q) =
  if T <? zlen d
  then ([take (Z.to_nat T) d], false, (s ++ take (Z.to_nat T) d, drop (Z.to_nat T) d) :: q, 0)
  else if zlen d =? T then ([d], true, q, 0)
  else if zlen d + c =? T then ([d], true, q, c)
  else if zlen d + c <? T then
    let '(fs, last, rest, slack) := pack (T - (zlen d + c)) (3 - c) q in (d :: fs, last, rest, slack)
  else ([d], true, q, 1).
Proof. done. Qed.

(** Packing and reassembling: the SDUs that a PDU completes leave the queue. *)
Lemma pack_spec q : forall s d T c fs last rest slack,
  Forall (fun w => w.1 = []) q -> full T c ((s, d) :: q) -> Forall (fun w => 0 < zlen w.2) q ->
  c = 1 \/ c = 2 -> 0 < T -> pack T c ((s, d) :: q) = (fs, last, rest, slack) ->
  exists done, spec_fields s fs last = (done, sent_of rest) /\
    sdus_of ((s, d) :: q) = done ++ sdus_of rest /\ Forall (fun w => w.1 = []) (tail rest).
Proof.
  induction q as [|[s' d'] q IH]; intros s d T c fs last rest slack Hs Hf Hq Hc HT E;
    pose proof (full_next T c _ _ Hf) as Hf'; rewrite pack_cons in E.
  all: destruct (T <? zlen d);
    [injection E as <- <- <- <-; eexists; split; [reflexivity|]; split; [|done];
     cbn [app sdus_of fmap list_fmap fst snd sent_of]; by rewrite <- app_assoc, take_drop|].
  - destruct (zlen d =? T); [injection E as <- <- <- <-; by eexists|].
    destruct (zlen d + c =? T); [injection E as <- <- <- <-; by eexists|].
    destruct (Z.ltb_spec (zlen d + c) T); [|injection E as <- <- <- <-; by eexists].
    destruct Hf' as [[] _]; [cbn [snd]; lia|lia|done].
  - apply Forall_cons_1 in Hs as [Hs1 Hs]. cbn [fst] in Hs1. subst s'.
    destruct (zlen d =? T); [injection E as <- <- <- <-; by eexists|].
    destruct (zlen d + c =? T); [injection E as <- <- <- <-; by eexists|].
    destruct (Z.ltb_spec (zlen d + c) T) as [Hlt|]; [|injection E as <- <- <- <-; by eexists].
    destruct (pack (T - (zlen d + c)) (3 - c) (([], d') :: q)) as [[[fs' last'] rest'] slack'] eqn:Ep.
    injection E as <- <- <- <-. specialize (Hf' ltac:(cbn [snd]; lia) ltac:(lia)).
    pose proof (pack_facts _ _ _ _ _ _ _ Hq Hf' ltac:(cbn [snd]; lia) ltac:(lia) Ep) as [K1 _ _ _ _ _ _].
    apply Forall_cons_1 in Hq as [_ Hq].
    destruct (IH [] d' _ _ _ _ _ _ Hs Hf' Hq ltac:(lia) ltac:(cbn [snd]; lia) Ep) as (dn & E1 & E2 & E3).
    exists ((s ++ d) :: dn). split_and!; [|by cbn [sdus_of fmap list_fmap fst snd app] in *; rewrite <- E2|done].
    destruct fs' as [|f fs']; [done|]. change (spec_fields s (d :: f :: fs') last')
      with (let '(d0, p') := spec_fields [] (f :: fs') last' in ((s ++ d) :: d0, p')). by rewrite E1.
Qed.

(** The transport blocks as the MAC of the other side indicates them. *)
Definition over_the_air (tbs : list mac_tb_req) : mac_data_ind :=
  {| di_data := (fun t => {| ti_data := take (Z.to_nat (tr_size t)) (tr_data t);
                             ti_size := u16 (tr_size t); ti_error := 0 |}) <$> tbs;
     di_no_tb := u16 (zlen tbs);
     di_tb_size := match tbs with t :: _ => u16 (tr_size t * 8) | [] => 0 end |}.

(** What happens at the transmitter: the upper layer submits an SDU, or the MAC grants a number
    of bytes, asks for the status and the data, and sends them to the receiver. *)
Inductive um_event :=
| Submit (sdu : list byte)
| Grant (tb : Z).

Definition um_event_step (alloc : Z -> option (list byte)) (now frame : Z) (ev : um_event)
  (s : um_entity * um_entity) : cres (um_entity * um_entity) :=
  let '(a, b) := s in
  match ev with
  | Submit sdu => Ret (rlc_um_data_req frame sdu (zlen sdu) a, b)
  | Grant tb =>
      '(a, _) ← rlc_um_mac_status_indication true now frame tb a;
      '(a, tbs) ← rlc_um_mac_data_request alloc a;
      b ← rlc_um_mac_data_indication true now (over_the_air tbs) b;
      Ret (a, b)
  end.

Definition um_run (alloc : Z -> option (list byte)) (now frame : Z) (evs : list um_event)
  (s : um_entity * um_entity) : cres (um_entity * um_entity) :=
  for_each (um_event_step alloc now frame) evs s.

(** The SDUs of a run. *)
Definition submitted (evs : list um_event) : list (list byte) :=
  omap (fun ev => match ev with Submit sdu => Some sdu | Grant _ => None end) evs.

(** The queue after an event. *)
Definition queue_step (five : bool) (ev : um_event) (q : list waiting) : list waiting :=
  match ev with
  | Submit sdu => q ++ [([], sdu)]
  | Grant tb =>
      match q with
      | [] => []
      | _ => if hdr_len five <? tb
             then let '(_, _, rest, _) := pack (pdu_room five tb q) 2 q in rest
             else q
      end
  end.

(** The events for which the two sides understand each other: SDUs that are not empty and that
    the receiver and a length indicator can hold; at most 24 fields in a PDU; and, with numbers of
    ten bits, no byte of the PDU that stays empty. *)
Definition event_ok (five dp : bool) (ev : um_event) (q : list waiting) : Prop :=
  match ev with
  | Submit sdu => 0 < zlen sdu <= Z.min 2047 (sdu_max dp) /\ queue_bytes q + zlen sdu < 2 ^ 30
  | Grant tb =>
      0 <= tb < 2 ^ 15 /\
      (q <> [] -> hdr_len five < tb ->
       let '(fs, _, _, slack) := pack (pdu_room five tb q) 2 q in
       zlen fs <= RLC_UM_SEGMENT_NB_MAX_LI_PER_PDU /\ (five = false -> slack = 0))
  end.

Fixpoint events_ok (five dp : bool) (evs : list um_event) (q : list waiting) : Prop :=
  match evs with
  | [] => True
  | ev :: evs => event_ok five dp ev q /\ events_ok five dp evs (queue_step five ev q)
  end.

(** The transmitter holds the queue [q], and the receiver has delivered [out] and holds what has
    been sent of the first SDU. *)
Record um_link (five : bool) (q : list waiting) (out : list (list byte)) (s : um_entity * um_entity)
  : Prop := {
  lk_tx : tx_ok five q (um_send s.1);
  lk_pdus : pdus_to_mac_layer (um_send s.1) = [];
  lk_snd : um_protocol_state s.1 = RLC_DATA_TRANSFER_READY_STATE;
  lk_rcv : um_protocol_state s.2 = RLC_DATA_TRANSFER_READY_STATE;
  lk_timer : running (t_reordering (um_recv s.1)) = 0;
  lk_sizes : Forall (fun w => zlen w.1 + zlen w.2 <= Z.min 2047 (sdu_max (is_data_plane (um_recv s.2)))) q;
  lk_len : rx_sn_length (um_recv s.2) = sn_len five;
  lk_mod : rx_sn_modulo (um_recv s.2) = sn_mod five;
  lk_sync : exists H, um_sync (um_recv s.2) H (sent_of q) out /\ H mod sn_mod five = vt_us (um_send s.1) mod sn_mod five;
}.

Lemma idle_timer blocks now r : running (t_reordering r) = 0 -> rlc_um_check_timer_dar_time_out blocks now r = Ret r.
Proof. intros H. unfold rlc_um_check_timer_dar_time_out. by rewrite H. Qed.

Lemma u16_mod_sn five v : u16 v mod sn_mod five = v mod sn_mod five.
Proof. unfold u16, sn_mod. destruct five; Z.div_mod_to_equations; lia. Qed.

Lemma submit_tx five q e sdu frame : tx_ok five q (um_send e) -> 0 < zlen sdu < 2 ^ 16 ->
  queue_bytes q + zlen sdu < 2 ^ 30 ->
  tx_ok five (q ++ [([], sdu)]) (um_send (rlc_um_data_req frame sdu (zlen sdu) e)).
Proof.
  intros [X1 X2 X3 X4 X5 X6 X7] Hs Hb.
  assert (Hqb : queue_bytes (q ++ [([], sdu)]) = queue_bytes q + zlen sdu).
  { clear. induction q as [|w q IH]; [cbn; lia|]. unfold queue_bytes in *. cbn [app foldr]. lia. }
  pose proof (queue_bytes_nonneg q).
  constructor; cbn [um_send rlc_um_data_req input_sdus buffer_occupancy tx_sn_length tx_header_min_length_in_bytes vt_us]; try done.
  - apply Forall2_app; [done|]. constructor; [|done].
    rewrite u16_small by lia. constructor; cbn; (done || (change (zlen (@nil byte)) with 0; lia) || idtac).
    all: unfold zlen in *; lia.
  - destruct q; [done|]. apply Forall_app. split; [done|by constructor].
  - rewrite Hqb, X3, u16_small, i32_small by lia. done.
  - lia.
Qed.

Lemma submit_link five q out s sdu alloc now frame :
  um_link five q out s -> event_ok five (is_data_plane (um_recv s.2)) (Submit sdu) q ->
  exists s', um_event_step alloc now frame (Submit sdu) s = Ret s' /\
    um_link five (q ++ [([], sdu)]) out s' /\ is_data_plane (um_recv s'.2) = is_data_plane (um_recv s.2).
Proof.
  destruct s as [a b]. intros [X L2 L3 L4 L5 L6 L7 L8 L9] [Hs Hb]. cbn [fst snd] in *.
  eexists. split; [reflexivity|]. split; [|done].
  constructor; cbn [fst snd um_send um_recv um_protocol_state rlc_um_data_req pdus_to_mac_layer vt_us]; try done.
  - apply (submit_tx five q a sdu frame X); lia.
  - apply Forall_app. split; [done|]. constructor; [|done]. cbn [fst snd]. change (zlen (@nil byte)) with 0. lia.
  - destruct L9 as (H' & Hsync & Hm). exists H'. split; [|done]. destruct q as [|w q]; done.
Qed.

(** The transmitter after a request of status for [tb] bytes. *)
Definition granted (t : um_tx) (tb : Z) : um_tx :=
  Tx (tx_sn_length t) (tx_header_min_length_in_bytes t) (vt_us t) (input_sdus t) (buffer_occupancy t) (u16 tb)
    (pdus_to_mac_layer t).

Lemma status_granted now frame tb e : running (t_reordering (um_recv e)) = 0 ->
  exists resp, rlc_um_mac_status_indication true now frame tb e =
    Ret (Um (um_protocol_state e) (granted (um_send e) tb) (um_recv e), resp).
Proof. intros H. unfold rlc_um_mac_status_indication. rewrite idle_timer by done. by eexists. Qed.

(** A ready entity segments with the numbers it is configured for. *)
Lemma get_pdus_segment five alloc e t :
  um_protocol_state e = RLC_DATA_TRANSFER_READY_STATE -> tx_sn_length (um_send e) = sn_len five ->
  rlc_um_segment five alloc (um_send e) = Ret t -> tx_sn_length t = sn_len five ->
  rlc_um_get_pdus alloc e = Ret (Um RLC_DATA_TRANSFER_READY_STATE t (um_recv e)).
Proof.
  intros Hst Hlen Hseg Ht. unfold rlc_um_get_pdus, rlc_um_segment_5, rlc_um_segment_10. rewrite Hst, Hlen.
  destruct five; cbn [sn_len Z.eqb Pos.eqb] in *.
  - cbn [mbind cres_bind]. rewrite Hlen. cbn [Z.eqb Pos.eqb]. by rewrite Hseg.
  - rewrite Hseg. cbn [mbind cres_bind]. rewrite Ht. by cbn.
Qed.

(** A grant that is too small, or with nothing to send. *)
Lemma segment_nothing five alloc e q : tx_ok five q e ->
  q = [] \/ nb_bytes_requested_by_mac e <= hdr_len five -> rlc_um_segment five alloc e = Ret e.
Proof.
  intros [Hs _ _ _ _ _ _] H. unfold rlc_um_segment.
  destruct (Z.ltb_spec (nb_bytes_requested_by_mac e) (if five then 2 else 3)) as [|Hge]; [done|].
  destruct H as [-> | H]; [by apply Forall2_nil_inv_l in Hs as ->|].
  unfold hdr_len in H. destruct five; lia.
Qed.

(** The blocks of a request reach a receiver that is ready. *)
Lemma indication_receive now ind e r :
  um_protocol_state e = RLC_DATA_TRANSFER_READY_STATE ->
  rlc_um_receive true now (di_data ind) (um_recv e) = Ret r -> running (t_reordering r) = 0 ->
  rlc_um_mac_data_indication true now ind e = Ret (Um RLC_DATA_TRANSFER_READY_STATE (um_send e) r).
Proof.
  intros Hst Hr Ht. unfold rlc_um_mac_data_indication, rlc_um_rx. rewrite Hst, Hr.
  cbn [mbind cres_bind um_recv um_protocol_state um_send]. by rewrite idle_timer.
Qed.

(** The fields of a PDU are within the bounds of the SDUs. *)
Lemma pack_fields_bound m q : forall T c fs last rest slack,
  0 <= T -> Forall (fun w => zlen w.1 + zlen w.2 <= m) q -> pack T c q = (fs, last, rest, slack) -> 0 <= m ->
  Forall (fun f => zlen f <= m) fs /\ Forall (fun w => zlen w.1 + zlen w.2 <= m) rest.
Proof.
  induction q as [|[s d] q IH]; intros T c fs last rest slack HT Hq E Hm.
  { injection E as <- <- <- <-. done. }
  rewrite pack_cons in E. apply Forall_cons_1 in Hq as [Hw Hq]. cbn [fst snd] in Hw.
  pose proof (zlen_nonneg s). assert (Hd : Forall (fun f => zlen f <= m) [d]) by (constructor; [lia|done]).
  destruct (Z.ltb_spec T (zlen d)).
  { injection E as <- <- <- <-.
    assert (Ht : zlen (take (Z.to_nat T) d) <= zlen d /\
      zlen (s ++ take (Z.to_nat T) d) + zlen (drop (Z.to_nat T) d) = zlen s + zlen d).
    { rewrite zlen_app. unfold zlen. rewrite length_take, length_drop. lia. }
    split; [constructor; [lia|done]|]. constructor; [cbn [fst snd]; lia|done]. }
  destruct (zlen d =? T); [injection E as <- <- <- <-; done|].
  destruct (zlen d + c =? T); [injection E as <- <- <- <-; done|].
  destruct (Z.ltb_spec (zlen d + c) T); [|injection E as <- <- <- <-; done].
  destruct (pack _ _ q) as [[[fs' last'] rest'] slack'] eqn:Ep. injection E as <- <- <- <-.
  apply IH in Ep as [Hf Hr]; [|lia|done|done]. split; [|done]. constructor; [lia|done].
Qed.

(** A length indicator can hold the length of the fields. *)
Lemma coded_fields m (fs : list (list byte)) : m < 2048 -> fs <> [] -> Forall (fun f => zlen f <= m) fs ->
  Forall (fun f => zlen f < 2048) (removelast fs).
Proof.
  intros Hm Hne Hfs. destruct (exists_last Hne) as (gs & g & ->). rewrite removelast_last.
  apply Forall_app in Hfs as [Hfs _]. refine (Forall_impl _ _ Hfs). intros f Hf. cbn in *. lia.
Qed.

(** The SDUs of a queue and what has been sent are within the bounds. *)
Lemma sdus_bound m q : Forall (fun w : waiting => zlen w.1 + zlen w.2 <= m) q -> 0 <= m ->
  Forall (fun d => zlen d <= m) (sdus_of q) /\ zlen (sent_of q) <= m.
Proof.
  intros Hq Hm. split.
  - unfold sdus_of. apply Forall_fmap. refine (Forall_impl _ _ Hq).
    intros [s d]. cbn [fst snd compose]. by rewrite zlen_app.
  - destruct Hq as [|[s d] q Hw _]; cbn [sent_of fst snd] in *; [done|]. pose proof (zlen_nonneg d). lia.
Qed.

Section Link.
Context (five : bool) (alloc : Z -> option (list byte)) (Halloc : alloc_ok alloc) (now frame : Z).

(** The request of the MAC when there is nothing to send, or no room for it. *)
Lemma request_nothing e q :
  um_protocol_state e = RLC_DATA_TRANSFER_READY_STATE -> tx_ok five q (um_send e) ->
  pdus_to_mac_layer (um_send e) = [] ->
  q = [] \/ nb_bytes_requested_by_mac (um_send e) <= hdr_len five ->
  rlc_um_mac_data_request alloc e = Ret (e, []).
Proof.
  intros Hst X Hp Hno. unfold rlc_um_mac_data_request.
  rewrite (get_pdus_segment five alloc e (um_send e)); [|done|apply X|by apply (segment_nothing _ _ _ q X)|apply X].
  cbn [mbind cres_bind um_send um_recv um_protocol_state]. rewrite Hp. cbn [for_each mbind cres_bind].
  destruct e as [st [] r]. cbn in *. by subst.
Qed.

(** A grant without a PDU changes nothing but the size that was asked for. *)
Lemma grant_nothing q out s tb :
  um_link five q out s -> 0 <= tb < 2 ^ 15 -> q = [] \/ tb <= hdr_len five ->
  exists s', um_event_step alloc now frame (Grant tb) s = Ret s' /\ um_link five q out s' /\ s'.2 = s.2.
Proof.
  destruct s as [a b]. intros [X L2 L3 L4 L5 L6 L7 L8 L9] Htb Hno. cbn [fst snd] in *.
  destruct (status_granted now frame tb a L5) as (resp & Es). unfold um_event_step. rewrite Es. cbn [mbind cres_bind].
  assert (Xg : tx_ok five q (granted (um_send a) tb)) by (destruct X; by constructor).
  rewrite (request_nothing (Um (um_protocol_state a) (granted (um_send a) tb) (um_recv a)) q)
    by (done || (cbn; by rewrite u16_small by lia)).
  cbn [mbind cres_bind].
  destruct L9 as (H & Hsync & Hm).
  rewrite (indication_receive now (over_the_air []) b (um_recv b)) by (done || apply Hsync).
  cbn [mbind cres_bind]. eexists. split; [reflexivity|]. split; [|cbn; destruct b; cbn in *; by rewrite L4].
  constructor; cbn [fst snd um_send um_recv um_protocol_state]; try done. by exists H.
Qed.

(** The PDU a waiting queue gives to the MAC. *)
Definition pdu_of (q : list waiting) (fs : list (list byte)) (last : bool) : upd :=
  Upd (match q with (s, _) :: _ => bool_decide (s = []) | [] => true end) fs last.

(** What the request of the MAC leaves in the entity. *)
Record requested (e e' : um_entity) (rest : list waiting) (m : Z) : Prop := {
  rq_state : um_protocol_state e' = RLC_DATA_TRANSFER_READY_STATE;
  rq_recv : um_recv e' = um_recv e;
  rq_ok : tx_ok five rest (um_send e');
  rq_pdus : pdus_to_mac_layer (um_send e') = [];
  rq_vt : vt_us (um_send e') = u16 (vt_us (um_send e) + 1);
  rq_sizes : Forall (fun w => zlen w.1 + zlen w.2 <= m) rest;
}.

(** The request of the MAC with room for a PDU. *)
Lemma request_pdu e q m fs last rest slack :
  um_protocol_state e = RLC_DATA_TRANSFER_READY_STATE -> tx_ok five q (um_send e) ->
  pdus_to_mac_layer (um_send e) = [] -> q <> [] -> hdr_len five < nb_bytes_requested_by_mac (um_send e) < 2 ^ 15 ->
  0 <= m < 2048 -> Forall (fun w => zlen w.1 + zlen w.2 <= m) q ->
  pack (pdu_room five (nb_bytes_requested_by_mac (um_send e)) q) 2 q = (fs, last, rest, slack) ->
  exists e' tb, rlc_um_mac_data_request alloc e = Ret (e', [tb]) /\ requested e e' rest m /\
    tr_size tb <= nb_bytes_requested_by_mac (um_send e) /\
    tb_carries five (vt_us (um_send e)) (pdu_of q fs last) slack tb.
Proof.
  intros Hst X Hp Hne Hnb Hm Hq Hpack.
  destruct (pdu_size_for_ok five q (um_send e) X Hne) as (_ & Hfull & Hpos). specialize (Hpos ltac:(lia)).
  pose proof (waiting_pos _ _ (xk_sdus _ _ _ X)) as Hw.
  pose proof (pack_facts _ _ _ _ _ _ _ Hw Hfull Hpos ltac:(by right) Hpack) as [K1 _ _ _ _ _ K7].
  destruct (pack_fields_bound m q _ _ _ _ _ _ (Z.lt_le_incl _ _ Hpos) Hq Hpack ltac:(lia)) as [Hfs Hrest].
  pose proof (coded_fields m fs (proj2 Hm) K1 Hfs) as Hli.
  destruct (segment_ok five alloc Halloc (um_send e) q fs last rest slack X Hne) as
    (tb & bo & sdus & Eseg & Hsdus & Hbo & Hsz & Hcar); [lia|done|done|].
  set (t2 := Tx _ _ _ _ _ _ _) in Eseg. unfold rlc_um_mac_data_request.
  rewrite (get_pdus_segment five alloc e t2) by (done || apply X).
  cbn [mbind cres_bind um_send um_recv um_protocol_state].
  change (pdus_to_mac_layer t2) with (pdus_to_mac_layer (um_send e) ++ [tb]). rewrite Hp. cbn [app for_each].
  pose proof (proj1 Hcar) as Hpos2. rewrite i16_small, (proj2 (Z.ltb_lt 0 (tr_size tb))) by lia. cbn [c_assert mbind cres_bind].
  eexists _, tb. split; [reflexivity|]. split; [|done].
  constructor; cbn [um_protocol_state um_recv um_send pdus_to_mac_layer]; try done.
  destruct q as [|[s d] q]; [done|]. pose proof X as [_ X2 X3 X4 X5 X6 _].
  destruct (pack_spec q s d _ 2 fs last rest slack X2 Hfull (proj2 (Forall_cons_1 _ _ _ Hw))
    (or_intror eq_refl) Hpos Hpack) as (dn & _ & _ & Hfresh).
  pose proof (queue_bytes_nonneg rest). pose proof (zlen_nonneg (concat fs)).
  constructor; cbn [t2 input_sdus buffer_occupancy tx_sn_length tx_header_min_length_in_bytes vt_us];
    try done; [lia|apply u16_range].
Qed.

(** What the receiver makes of a PDU that carries the bytes after the ones it has. *)
Lemma carried_pdu q m fs last rest slack tb T nb vt b H out :
  tx_ok five q T -> q <> [] -> hdr_len five < nb < 2 ^ 15 -> pack (pdu_room five nb q) 2 q = (fs, last, rest, slack) ->
  full (pdu_room five nb q) 2 q -> 0 < pdu_room five nb q ->
  zlen fs <= RLC_UM_SEGMENT_NB_MAX_LI_PER_PDU -> (five = false -> slack = 0) ->
  m <= sdu_max (is_data_plane b) -> 0 <= m < 2048 -> Forall (fun w => zlen w.1 + zlen w.2 <= m) q ->
  tb_carries five vt (pdu_of q fs last) slack tb -> tr_size tb <= nb ->
  rx_sn_length b = sn_len five -> rx_sn_modulo b = sn_mod five -> um_sync b H (sent_of q) out ->
  H mod sn_mod five = vt mod sn_mod five ->
  exists b' dn, rlc_um_receive true now (di_data (over_the_air [tb])) b = Ret b' /\
    um_sync b' (H + 1) (sent_of rest) (out ++ dn) /\ sdus_of q = dn ++ sdus_of rest /\
    is_data_plane b' = is_data_plane b /\ rx_sn_length b' = rx_sn_length b /\ rx_sn_modulo b' = rx_sn_modulo b.
Proof.
  intros X Hne Hnb Hpack Hfull Hpos Hcount Hslack Hm1 Hm Hq Hcar Hsz L7 L8 Hsync Hmod.
  pose proof (waiting_pos _ _ (xk_sdus _ _ _ X)) as Hw.
  pose proof (pack_facts _ _ _ _ _ _ _ Hw Hfull Hpos ltac:(by right) Hpack) as [K1 K2 K3 K4 K5 K6 K7].
  destruct (pack_fields_bound m q _ _ _ _ _ _ (Z.lt_le_incl _ _ Hpos) Hq Hpack ltac:(lia)) as [Hfs Hrest].
  pose proof (coded_fields m fs (proj2 Hm) K1 Hfs) as Hli.
  destruct q as [|[s d] q]; [done|].
  destruct (pack_spec q s d _ 2 fs last rest slack (xk_fresh _ _ _ X) Hfull (proj2 (Forall_cons_1 _ _ _ Hw))
    (or_intror eq_refl) Hpos Hpack) as (dn & Espec & Esdus & Hfresh).
  destruct Hcar as [[Hs1 Hs2] (junk & Htake & Hjunk)].
  assert (junk = []) as ->.
  { destruct junk; [done|]. unfold zlen in Hjunk. cbn [length] in Hjunk. destruct five; [lia|].
    rewrite (Hslack eq_refl) in Hjunk. lia. }
  rewrite app_nil_r in Htake. set (x := pdu_of _ fs last) in Htake.
  assert (Hwf : upd_wf x).
  { constructor; cbn [x pdu_of u_fields]; try done. pose proof (zlen_nonneg (concat fs)).
    assert (Hlit : 0 <= li_total 2 (length fs - 1)) by (rewrite (proj1 (li_total_closed _)); apply Z.shiftr_nonneg; lia).
    assert (0 < hdr_len five) by (unfold hdr_len; destruct five; lia). unfold pdu_room in K5. lia. }
  assert (Hspec : spec_pdu s x = (dn, sent_of rest)).
  { unfold spec_pdu. cbn [x pdu_of u_first u_fields u_last]. rewrite <- Espec. by destruct s. }
  destruct (sdus_bound m rest Hrest (proj1 Hm)) as [Hb1 Hb2].
  assert (Hdn : Forall (fun d => zlen d <= m) dn).
  { destruct (sdus_bound m _ Hq (proj1 Hm)) as [Hb3 _]. rewrite Esdus in Hb3. by apply Forall_app in Hb3 as [Hb3 _]. }
  destruct (receive_step now b H s out x dn (sent_of rest) Hsync Hwf Hspec) as (r' & Er & Hsync' & R1 & R2 & R3).
  { refine (Forall_impl _ _ Hdn). intros f Hf. cbn in *. lia. }
  { lia. }
  rewrite L7, L8, Hmod in Er. exists r', dn. split_and!; try done.
  unfold rlc_um_receive, over_the_air. cbn [di_data fmap list_fmap for_each ti_size ti_data].
  rewrite u16_small, (proj2 (Z.ltb_lt 0 (tr_size tb))) by lia.
  replace (tr_size tb) with (zlen (take (Z.to_nat (tr_size tb)) (tr_data tb))) at 2
    by (unfold zlen in *; rewrite length_take; lia).
  rewrite bget_whole. cbn [mbind cres_bind]. by rewrite Htake, Er.
Qed.

(** The request of the MAC on a link, and the reception of the PDU. *)
Lemma link_request q out a b tb fs last rest slack :
  um_link five q out (a, b) -> nb_bytes_requested_by_mac (um_send a) = tb -> tb < 2 ^ 15 -> q <> [] -> hdr_len five < tb ->
  pack (pdu_room five tb q) 2 q = (fs, last, rest, slack) ->
  zlen fs <= RLC_UM_SEGMENT_NB_MAX_LI_PER_PDU -> (five = false -> slack = 0) ->
  exists a' b' tbk done, rlc_um_mac_data_request alloc a = Ret (a', [tbk]) /\
    0 < tr_size tbk <= tb /\ tr_size tbk <= zlen (tr_data tbk) /\
    rlc_um_mac_data_indication true now (over_the_air [tbk]) b = Ret b' /\
    um_link five rest (out ++ done) (a', b') /\ sdus_of q = done ++ sdus_of rest /\
    is_data_plane (um_recv b') = is_data_plane (um_recv b).
Proof.
  intros [X L2 L3 L4 L5 L6 L7 L8 (H & Hsync & Hm)] Hnb Htb Hne Hhdr Hpack Hcount Hslack.
  cbn [fst snd] in *. set (m := Z.min 2047 (sdu_max (is_data_plane (um_recv b)))) in *.
  pose proof (sdu_max_range (is_data_plane (um_recv b))) as Hmax.
  destruct (pdu_size_for_ok five q (um_send a) X Hne) as (_ & Hfull & Hpos). rewrite Hnb in *.
  destruct (request_pdu a q m fs last rest slack) as (a' & tbk & Erq & [Q1 Q2 Q3 Q4 Q5 Q6] & Hsz & Hcar);
    [done|done|done|done|lia|unfold m; lia|done|by rewrite Hnb|].
  rewrite Hnb in Hsz.
  destruct (carried_pdu q m fs last rest slack tbk (um_send a) tb (vt_us (um_send a)) (um_recv b) H out)
    as (b' & dn & Erx & Hsync' & Esdus & R1 & R2 & R3);
    try done; try (by apply Hpos); try (unfold m; lia).
  eexists a', _, tbk, dn. split; [done|]. destruct Hcar as [Hs _]. split; [lia|]. split; [lia|].
  split; [by rewrite (indication_receive now _ b b' L4 Erx) by apply Hsync'|]. split_and!; [|done|done].
  constructor; cbn [fst snd um_send um_recv um_protocol_state]; try done; try congruence.
  - by rewrite R1.
  - exists (H + 1). split; [done|]. rewrite Q5, u16_mod_sn, <- (Zplus_mod_idemp_l H), Hm, Zplus_mod_idemp_l. done.
Qed.

(** The status request only notes the size. *)
Lemma link_granted q out a b tb : um_link five q out (a, b) ->
  um_link five q out (Um (um_protocol_state a) (granted (um_send a) tb) (um_recv a), b).
Proof.
  intros [[] L2 L3 L4 L5 L6 L7 L8 L9]. by constructor.
Qed.

(** A grant that is used: one PDU goes to the receiver. *)
Lemma grant_pdu q out s tb fs last rest slack :
  um_link five q out s -> 0 <= tb < 2 ^ 15 -> q <> [] -> hdr_len five < tb ->
  pack (pdu_room five tb q) 2 q = (fs, last, rest, slack) ->
  zlen fs <= RLC_UM_SEGMENT_NB_MAX_LI_PER_PDU -> (five = false -> slack = 0) ->
  exists s' done, um_event_step alloc now frame (Grant tb) s = Ret s' /\
    um_link five rest (out ++ done) s' /\ sdus_of q = done ++ sdus_of rest /\
    is_data_plane (um_recv s'.2) = is_data_plane (um_recv s.2).
Proof.
  destruct s as [a b]. intros Hl Htb Hne Hhdr Hpack Hcount Hslack.
  destruct (status_granted now frame tb a (lk_timer _ _ _ _ Hl)) as (resp & Es).
  unfold um_event_step. rewrite Es. cbn [mbind cres_bind].
  destruct (link_request q out _ b tb fs last rest slack (link_granted q out a b tb Hl)) as
    (a' & b' & tbk & dn & -> & _ & _ & E & Hl' & Esdus & Hdp); [cbn; by rewrite u16_small by lia|lia|done..|].
  cbn [mbind cres_bind]. rewrite E. cbn [mbind cres_bind]. by exists (a', b'), dn.
Qed.

End Link.

(** ** Configuration of the transmitting side *)

(** The members of the transmitting side after [rlc_um_init]. *)
Definition rlc_um_init_tx : um_tx := Tx 10 2 0 [] 0 0 [].

(** [rlc_um_configure] on the transmitting side; [rlc_um_reset_state_variables] ends it. *)
Definition rlc_um_configure_tx (rx_sn_field_lengthP tx_sn_field_lengthP : Z) (t : um_tx) : um_tx :=
  let known n := (n =? 10) || (n =? 5) || (n =? 0) in
  if negb (known rx_sn_field_lengthP) then t
  else
    let t := if tx_sn_field_lengthP =? 10 then
               Tx 10 2 (vt_us t) (input_sdus t) (buffer_occupancy t) (nb_bytes_requested_by_mac t) (pdus_to_mac_layer t)
             else if tx_sn_field_lengthP =? 5 then
               Tx 5 1 (vt_us t) (input_sdus t) (buffer_occupancy t) (nb_bytes_requested_by_mac t) (pdus_to_mac_layer t)
             else t in
    if negb (known tx_sn_field_lengthP) then t
    else Tx (tx_sn_length t) (tx_header_min_length_in_bytes t) 0 (input_sdus t) 0 (nb_bytes_requested_by_mac t)
           (pdus_to_mac_layer t).

(** An entity that has just been configured, with numbers of the same length in both directions,
    and that has entered the state in which data are transferred. *)
Definition um_configured (five dp : bool) (ms : Z) : um_entity :=
  let n := sn_len five in
  Um RLC_DATA_TRANSFER_READY_STATE (rlc_um_configure_tx n n rlc_um_init_tx)
    (rlc_um_configure ms n n 0 (rlc_um_init dp)).

Lemma configured_link five dp ms : um_link five [] [] (um_configured five dp ms, um_configured five dp ms).
Proof.
  constructor; try by destruct five.
  exists 0. split; [|by destruct five]. apply configured_sync; destruct five; (by left) || (by right) || (right; by left).
Qed.

(** ** Runs *)

Lemma event_link five alloc now frame q out s ev : alloc_ok alloc ->
  um_link five q out s -> event_ok five (is_data_plane (um_recv s.2)) ev q ->
  exists s' done, um_event_step alloc now frame ev s = Ret s' /\
    um_link five (queue_step five ev q) (out ++ done) s' /\
    sdus_of q ++ submitted [ev] = done ++ sdus_of (queue_step five ev q) /\
    is_data_plane (um_recv s'.2) = is_data_plane (um_recv s.2).
Proof.
  intros Ha L Hok. destruct ev as [sdu|tb].
  - destruct (submit_link five q out s sdu alloc now frame L Hok) as (s' & E & L' & D).
    exists s', []. rewrite app_nil_r. split_and!; [done|done| |done].
    unfold sdus_of, queue_step. by rewrite fmap_app.
  - destruct Hok as [Htb Hok].
    assert (Hcase : (q = [] \/ tb <= hdr_len five) \/ (q <> [] /\ hdr_len five < tb)).
    { destruct q; [by left; left|]. destruct (Z.le_gt_cases tb (hdr_len five)); [left; by right|by right]. }
    destruct Hcase as [Hno|[Hne Hh]].
    + destruct (grant_nothing five alloc now frame q out s tb L Htb Hno) as (s' & E & L' & D).
      assert (Eq : queue_step five (Grant tb) q = q).
      { unfold queue_step. destruct q; [done|]. destruct Hno; [done|]. by rewrite (proj2 (Z.ltb_ge _ _)). }
      exists s', []. rewrite Eq, !app_nil_r, D. done.
    + specialize (Hok Hne Hh).
      destruct (pack (pdu_room five tb q) 2 q) as [[[fs last] rest] slack] eqn:Ep. destruct Hok as [Hc Hs].
      destruct (grant_pdu five alloc Ha now frame q out s tb fs last rest slack L Htb Hne Hh Ep Hc Hs)
        as (s' & dn & E & L' & Esdus & D).
      assert (Eq : queue_step five (Grant tb) q = rest).
      { unfold queue_step. destruct q; [done|]. by rewrite (proj2 (Z.ltb_lt _ _)), Ep. }
      exists s', dn. rewrite Eq, app_nil_r. done.
Qed.

Lemma run_link five alloc now frame evs : alloc_ok alloc -> forall q out s,
  um_link five q out s -> events_ok five (is_data_plane (um_recv s.2)) evs q ->
  exists s' done, um_run alloc now frame evs s = Ret s' /\
    um_link five (foldl (fun q ev => queue_step five ev q) q evs) (out ++ done) s' /\
    sdus_of q ++ submitted evs = done ++ sdus_of (foldl (fun q ev => queue_step five ev q) q evs).
Proof.
  intros Ha. induction evs as [|ev evs IH]; intros q out s L Hok.
  { exists s, []. by rewrite !app_nil_r. }
  destruct Hok as [H1 H2]. destruct (event_link five alloc now frame q out s ev Ha L H1) as (s1 & d1 & E1 & L1 & Q1 & D1).
  rewrite <- D1 in H2. destruct (IH _ _ _ L1 H2) as (s2 & d2 & E2 & L2 & Q2).
  exists s2, (d1 ++ d2). unfold um_run in *. cbn [for_each foldl]. rewrite E1. cbn [mbind cres_bind].
  rewrite app_assoc. split_and!; [done|done|].
  rewrite <- app_assoc, <- Q2, app_assoc, <- Q1, <- app_assoc. f_equal. by destruct ev.
Qed.

(** The events that are understood, decided. *)
Definition event_okb (five dp : bool) (ev : um_event) (q : list waiting) : bool :=
  match ev with
  | Submit sdu => (0 <? zlen sdu) && (zlen sdu <=? Z.min 2047 (sdu_max dp)) && (queue_bytes q + zlen sdu <? 2 ^ 30)
  | Grant tb =>
      (0 <=? tb) && (tb <? 2 ^ 15) &&
      (bool_decide (q = []) || (tb <=? hdr_len five) ||
       let '(fs, _, _, slack) := pack (pdu_room five tb q) 2 q in
       (zlen fs <=? RLC_UM_SEGMENT_NB_MAX_LI_PER_PDU) && (five || (slack =? 0)))
  end.

Fixpoint events_okb (five dp : bool) (evs : list um_event) (q : list waiting) : bool :=
  match evs with
  | [] => true
  | ev :: evs => event_okb five dp ev q && events_okb five dp evs (queue_step five ev q)
  end.

Lemma events_okb_sound five dp evs : forall q, events_okb five dp evs q = true -> events_ok five dp evs q.
Proof.
  induction evs as [|ev evs IH]; intros q; [done|]. cbn [events_okb events_ok].
  intros [H1 H2]%andb_prop. split; [|by apply IH]. clear H2. destruct ev as [sdu|tb]; cbn [event_okb event_ok] in *.
  - apply andb_prop in H1 as [[H1 H2]%andb_prop H3]. lia.
  - apply andb_prop in H1 as [[H1 H2]%andb_prop H3]. split; [lia|]. intros Hne Hh.
    rewrite bool_decide_eq_false_2, (proj2 (Z.leb_gt _ _)) in H3 by done.
    destruct (pack _ _ q) as [[[fs last] rest] slack]. apply andb_prop in H3 as [H3 H4]. split; [lia|].
    intros ->. by apply Z.eqb_eq.
Qed.

(** Fresh memory, for the examples: a block of at least 64 bytes. *)
Definition fresh_block (n : Z) : option (list byte) := Some (zeros (Z.to_nat (Z.max n 64))).

Lemma fresh_block_ok : alloc_ok fresh_block.
Proof.
  intros n Hn. eexists. split; [reflexivity|]. unfold zlen, zeros. rewrite length_replicate. lia.
Qed.

(** ** Properties *)

(** Exact transfer.  Between two entities of unacknowledged mode that have just been configured,
    any sequence of SDUs and grants runs without a fault, and what the receiver has delivered,
    followed by what still waits in the transmitter, is exactly the sequence of the SDUs submitted:
    segmentation, concatenation and reassembly neither lose, duplicate, reorder nor change an SDU.
    The transmitter and the receiver stay synchronised, with the part of the first waiting SDU
    that was sent held by the receiver. *)
Theorem um_transfer_exact five dp ms alloc now frame evs :
  alloc_ok alloc -> events_ok five dp evs [] ->
  exists s' q', um_run alloc now frame evs (um_configured five dp ms, um_configured five dp ms) = Ret s' /\
    delivered (output (um_recv s'.2)) ++ sdus_of q' = submitted evs /\
    um_link five q' (delivered (output (um_recv s'.2))) s'.
Proof.
  intros Ha Hok. pose proof (configured_link five dp ms) as L0.
  assert (Hdp : is_data_plane (um_recv (um_configured five dp ms, um_configured five dp ms).2) = dp) by (by destruct five).
  rewrite <- Hdp in Hok. destruct (run_link five alloc now frame evs Ha [] [] _ L0 Hok) as (s' & dn & E & L & Q).
  eexists s', _. split; [exact E|]. pose proof L as [_ _ _ _ _ _ _ _ (H & Hs & _)].
  destruct (us_sdu _ _ _ _ Hs) as [-> _]. cbn [app] in Q |- *. split; [|done]. by rewrite <- Q.
Qed.

(** Three SDUs of 40, 3 and 5 bytes over grants that segment the first and concatenate the rest. *)
Definition example_events : list um_event :=
  [Submit (replicate 40 Byte.x61); Grant 20; Submit (replicate 3 Byte.x62); Submit (replicate 5 Byte.x63); Grant 1; Grant 100].

Lemma um_transfer_exact_witness :
  exists s' q', um_run fresh_block 0 0 example_events (um_configured true false 5, um_configured true false 5) = Ret s' /\
    delivered (output (um_recv s'.2)) ++ sdus_of q' = submitted example_events /\
    um_link true q' (delivered (output (um_recv s'.2))) s'.
Proof.
  apply (um_transfer_exact true false 5 fresh_block 0 0 example_events fresh_block_ok).
  apply events_okb_sound. vm_compute. reflexivity.
Defined.

(** The queue empties. *)
Lemma grant_shrinks five tb q : q <> [] -> hdr_len five < tb -> Forall (fun w => 0 < zlen w.2) q ->
  queue_bytes (queue_step five (Grant tb) q) < queue_bytes q.
Proof.
  intros Hne Hh Hq. unfold queue_step. destruct q as [|w q]; [done|]. rewrite (proj2 (Z.ltb_lt _ _)) by done.
  destruct (pack (pdu_room five tb (w :: q)) 2 (w :: q)) as [[[fs last] rest] slack] eqn:Ep.
  assert (Hlit : 0 <= li_total 2 (length (w :: q) - 1)) by (rewrite (proj1 (li_total_closed _)); apply Z.shiftr_nonneg; lia).
  assert (Hb : 0 < queue_bytes (w :: q)).
  { apply Forall_cons_1 in Hq as [Hw _]. pose proof (queue_bytes_nonneg q).
    change (queue_bytes (w :: q)) with (zlen w.2 + queue_bytes q). lia. }
  assert (HT : 0 < pdu_room five tb (w :: q)) by (unfold pdu_room; lia).
  assert (Hf : full (pdu_room five tb (w :: q)) 2 (w :: q)) by (split; [done|unfold pdu_room; lia]).
  destruct (pack_facts _ _ _ _ _ _ _ Hq Hf HT (or_intror eq_refl) Ep) as [K1 K2 _ _ _ _ K7].
  destruct fs as [|f fs]; [done|]. apply Forall_cons_1 in K2 as [K2 _]. apply zlen_pos in K2.
  cbn [concat] in K7. rewrite zlen_app in K7. pose proof (zlen_nonneg (concat fs)). lia.
Qed.

Lemma grants_drain five alloc (now frame : Z) (tbs : list Z) : alloc_ok alloc -> forall q out s,
  um_link five q out s -> events_ok five (is_data_plane (um_recv s.2)) (Grant <$> tbs) q ->
  Forall (fun tb => hdr_len five < tb) tbs -> queue_bytes q <= zlen tbs ->
  foldl (fun q ev => queue_step five ev q) q (Grant <$> tbs) = [].
Proof.
  intros Ha. induction tbs as [|tb tbs IH]; intros q out s L Hok Hbig Hlen.
  - destruct q as [|w q]; [done|]. pose proof (waiting_pos _ _ (xk_sdus _ _ _ (lk_tx _ _ _ _ L))) as Hw.
    apply Forall_cons_1 in Hw as [Hw _]. pose proof (queue_bytes_nonneg q).
    change (queue_bytes (w :: q)) with (zlen w.2 + queue_bytes q) in Hlen. change (zlen []) with 0 in Hlen. lia.
  - apply Forall_cons_1 in Hbig as [Hb Hbig]. destruct Hok as [H1 H2]. cbn [fmap list_fmap foldl].
    destruct (event_link five alloc now frame q out s (Grant tb) Ha L H1) as (s1 & d1 & E1 & L1 & Q1 & D1).
    rewrite <- D1 in H2. apply (IH _ _ _ L1 H2 Hbig). unfold zlen in *. cbn [length] in Hlen.
    destruct q as [|w q]; [cbn; lia|].
    pose proof (grant_shrinks five tb (w :: q) ltac:(done) Hb
      (waiting_pos _ _ (xk_sdus _ _ _ (lk_tx _ _ _ _ L)))). lia.
Qed.

(** C22: everything is delivered, when the code can code the PDUs.  Let SDUs of at most 2047 bytes wait,
    and as many grants come as bytes wait or more, each larger than the header of a PDU and below
    2^15 bytes, such that the PDU made for each of them ([events_ok]) has at most 24 fields
    ([RLC_UM_SEGMENT_NB_MAX_LI_PER_PDU]) and, with sequence numbers of 10 bits, leaves no byte of
    the room it was cut for unused.  Then the transmitter is empty in the end and the receiver has
    delivered every SDU that waited.  Without the last condition the claim is false of the code:
    [um10_lengthens_last_sdu]. *)
Theorem um_queue_drains five alloc now frame tbs q out s :
  alloc_ok alloc -> um_link five q out s ->
  events_ok five (is_data_plane (um_recv s.2)) (Grant <$> tbs) q ->
  Forall (fun tb => hdr_len five < tb) tbs -> queue_bytes q <= zlen tbs ->
  exists s', um_run alloc now frame (Grant <$> tbs) s = Ret s' /\ input_sdus (um_send s'.1) = [] /\
    delivered (output (um_recv s'.2)) = out ++ sdus_of q.
Proof.
  intros Ha L Hok Hbig Hlen.
  pose proof (grants_drain five alloc now frame tbs Ha q out s L Hok Hbig Hlen) as Hnil.
  destruct (run_link five alloc now frame _ Ha q out s L Hok) as (s' & dn & E & L' & Q). rewrite Hnil in L', Q.
  exists s'. split; [done|]. destruct L' as [[X1 _ _ _ _ _ _] _ _ _ _ _ _ _ (H & Hs & _)].
  split; [by apply Forall2_nil_inv_l in X1|]. destruct (us_sdu _ _ _ _ Hs) as [-> _].
  assert (Hsub : submitted (Grant <$> tbs) = []) by (clear; induction tbs; done).
  rewrite Hsub, !app_nil_r in Q. by rewrite Q.
Qed.

(** An entity of ten bits with two SDUs of three and five bytes, and seven bytes granted. *)
Definition abc : list byte := [Byte.x61; Byte.x62; Byte.x63].
Definition defgh : list byte := [Byte.x64; Byte.x65; Byte.x66; Byte.x67; Byte.x68].
Definition example_queue : list waiting := [([], abc); ([], defgh)].
Definition example_tx : um_tx := Tx 10 2 0 [TxSdu abc 3 3 0 0; TxSdu defgh 5 5 0 0] 8 7 [].

Lemma example_tx_ok : tx_ok false example_queue example_tx.
Proof. constructor; try done; repeat constructor; done. Qed.

Lemma um_queue_drains_witness :
  exists s', um_run fresh_block 0 0 (Grant <$> replicate 8 9)
      (Um RLC_DATA_TRANSFER_READY_STATE example_tx (um_recv (um_configured false false 5)),
       um_configured false false 5) = Ret s' /\
    input_sdus (um_send s'.1) = [] /\ delivered (output (um_recv s'.2)) = [] ++ sdus_of example_queue.
Proof.
  apply (um_queue_drains false); [exact fresh_block_ok| | |by repeat constructor|done].
  - constructor; try done; [exact example_tx_ok|by repeat constructor|]. exists 0. split; [|done].
    apply configured_sync; by left.
  - apply events_okb_sound. vm_compute. reflexivity.
Defined.

(** With numbers of ten bits the last SDU of a PDU can be lengthened.  When the bytes of the
    grant behind the SDUs that fit do not hold a length indicator and more data, the PDU is not
    shortened by them: the block given to the MAC is the coding of fields whose last one ends
    with bytes left over in the memory, and which the receiver takes for the end of the SDU. *)
Theorem um10_lengthens_last_sdu alloc e q fs last rest slack :
  alloc_ok alloc -> tx_ok false q e -> q <> [] -> 2 < nb_bytes_requested_by_mac e < 2 ^ 16 ->
  pack (pdu_room false (nb_bytes_requested_by_mac e) q) 2 q = (fs, last, rest, slack) ->
  Forall (fun f => zlen f < 2048) (removelast fs) -> slack <> 0 ->
  exists e' tb junk f first, rlc_um_segment_10 alloc e = Ret e' /\
    pdus_to_mac_layer e' = pdus_to_mac_layer e ++ [tb] /\ 0 < zlen junk /\ list.last fs = Some f /\
    take (Z.to_nat (tr_size tb)) (tr_data tb) =
      enc_pdu 10 (vt_us e mod 1024) (Upd first (removelast fs ++ [f ++ junk]) true).
Proof.
  intros Ha X Hne Hnb Hpack Hli Hslack.
  destruct (segment_ok false alloc Ha e q fs last rest slack X Hne Hnb Hpack Hli) as
    (tb & bo & sdus & E & _ & _ & _ & _ & junk & Htake & Hjunk).
  destruct (pdu_size_for_ok false q e X Hne) as (_ & Hfull & Hpos).
  destruct (pack_facts _ _ _ _ _ _ _ (waiting_pos _ _ (xk_sdus _ _ _ X)) Hfull (Hpos (proj1 Hnb)) (or_intror eq_refl) Hpack)
    as [K1 _ K3 _ _ K6 _].
  destruct (exists_last K1) as (gs & f & ->). rewrite (K6 Hslack) in Htake.
  eexists _, tb, junk, f, _. split_and!; [exact E|done|lia|apply last_snoc|].
  rewrite Htake. unfold enc_pdu, enc_header. cbn [u_fields u_first u_last].
  rewrite !removelast_last, !concat_app. cbn [concat]. by rewrite !app_nil_r, <- !app_assoc.
Qed.

Lemma um10_lengthens_last_sdu_witness :
  exists e' tb junk f first, rlc_um_segment_10 fresh_block example_tx = Ret e' /\
    pdus_to_mac_layer e' = pdus_to_mac_layer example_tx ++ [tb] /\ 0 < zlen junk /\
    list.last [abc] = Some f /\
    take (Z.to_nat (tr_size tb)) (tr_data tb) = enc_pdu 10 (vt_us example_tx mod 1024) (Upd first ([] ++ [f ++ junk]) true).
Proof.
  eapply (um10_lengthens_last_sdu fresh_block example_tx example_queue [abc] true);
    [exact fresh_block_ok|exact example_tx_ok|done|done|reflexivity|done|done].
Defined.
