(* ===== verification/RlcAmTx.v ===== *)
(** RLC acknowledged mode, transmitting side: the ring of the SDUs, polling, the timers and the
    segmentation ([openair2/LAYER2/RLC/AM_v9.3.0/rlc_am_segment.c], [rlc_am_in_sdu.c],
    [rlc_am_timer_poll_retransmit.c], [rlc_am_timer_status_prohibit.c] and the requests of the
    upper layer in [rlc_am.c]), with the copy of a stored PDU ([rlc_am_retransmit.c]).

    The segmentation makes the two passes of unacknowledged mode over a ring of SDUs, and keeps the
    PDU in the retransmission buffer.  It is shown to be [pack] of [RlcUmTx] on the waiting SDUs, so
    that the PDUs of any run form the stream that the receiver of [RlcAmRx] puts together again.

    SDUs and PDUs are counted without end in the proofs: the SDU of count [k] is in the slot [k mod
    128] of the ring, the PDU of count [c] in the slot [c mod 1024] of the retransmission buffer.
    The transmission statistics, which are only reported, are left out. *)
From stdpp Require Import base list numbers.
From coqutil Require Import Byte.
From Stdlib Require Import ZArith Lia.
From S2P Require Import Prelude SplitIface RlcPrims RlcAmWindow RlcUm RlcAmRx RlcUmTx.
Open Scope Z_scope.

Definition RLC_AM_SDU_CONTROL_BUFFER_SIZE : Z := 128.
Definition RLC_AM_PDU_RETRANSMISSION_BUFFER_SIZE : Z := RLC_AM_SN_MODULO.
Definition RLC_AM_HEADER_MIN_SIZE : Z := 2.
Definition RLC_AM_MAX_SDU_FRAGMENTS : Z := 32.

(** ** State *)

(** [rlc_am_tx_sdu_management_t]: [mem_block] tells that the pointer is not null; the bytes from
    [first_byte] on and the sizes are the record of [RlcUmTx].  Of the flags the two that are read. *)
Record am_sdu := AmSdu {
  mem_block : bool;
  am_bytes : tx_sdu;
  sdu_mui : Z;                            (* mui_t *)
  pdus_index : list Z;                    (* int16_t[RLC_AM_MAX_SDU_FRAGMENTS] *)
  nb_pdus : Z;                            (* uint8_t *)
  nb_pdus_ack : Z;                        (* uint8_t *)
  flag_segmented : Z;
  transmitted_successfully : Z;
}.

(** What [memset] leaves. *)
Definition zero_sdu : am_sdu := AmSdu false (TxSdu [] 0 0 0 0) 0 (replicate 32 0) 0 0 0 0.

(** [rlc_am_tx_data_pdu_management_t]: the block of the PDU with its size, the offset of the payload,
    and the members for the holes, which are the record of [RlcAmWindow]. *)
Record am_pdu := AmPdu {
  pdu_block : option mac_tb_req;
  pdu_payload : Z;
  sdus_index : list Z;                    (* int16_t[RLC_AM_MAX_SDU_IN_PDU] *)
  nb_sdus : Z;                            (* int8_t *)
  last_nack_time : Z;
  pdu_holes : pdu_mgmt;
  header_and_payload_size : Z;            (* sdu_size_t *)
  retx_count : Z;                         (* int8_t *)
  flag_ack : Z;
  flag_retransmit : Z;
}.

Definition zero_pdu : am_pdu :=
  AmPdu None 0 (replicate 32 0) 0 0 (Pdu (replicate 32 0) (replicate 32 0) 0 0 0 0) 0 0 0 0.

(** The ring of the SDUs. *)
Record am_queue := Queue {
  am_input_sdus : list am_sdu;            (* [RLC_AM_SDU_CONTROL_BUFFER_SIZE] *)
  nb_sdu : Z;
  nb_sdu_no_segmented : Z;
  next_sdu_index : Z;
  current_sdu_index : Z;
  sdu_buffer_occupancy : Z;               (* rlc_buffer_occupancy_t *)
}.

Record am_poll := Poll {
  c_pdu_without_poll : Z;                 (* unsigned int *)
  c_byte_without_poll : Z;                (* unsigned int *)
  poll_pdu : Z;                           (* uint16_t *)
  poll_byte : Z;                          (* uint16_t *)
  poll_sn : Z;                            (* rlc_usn_t *)
  force_poll : bool;
  t_poll_retransmit : um_timer;
}.

(** The retransmission buffer and the window. *)
Record am_retx := Retx {
  pdu_retrans_buffer : list am_pdu;       (* [RLC_AM_PDU_RETRANSMISSION_BUFFER_SIZE] *)
  retrans_num_pdus : Z;
  retrans_num_bytes : Z;
  retrans_num_bytes_to_retransmit : Z;
  num_nack_so : Z;                        (* unsigned int *)
  num_nack_sn : Z;                        (* unsigned int *)
  first_retrans_pdu_sn : Z;               (* rlc_sn_t *)
  max_retx_threshold : Z;                 (* uint16_t *)
  tx_vt_a : Z;
  tx_vt_ms : Z;
  tx_vt_s : Z;
}.

(** The members of [rlc_am_entity_t] used by the transmission; [confirmations] are the calls of
    [rlc_data_conf], with its parameters [srb_flagP], [rb_idP], [muiP] and [statusP]. *)
Record am_tx := AmTx {
  tx_queue : am_queue;
  tx_poll : am_poll;
  tx_retx : am_retx;
  am_nb_bytes_requested_by_mac : Z;       (* sdu_size_t *)
  segmentation_pdu_list : list mac_tb_req;
  am_pdus_to_mac_layer : list mac_tb_req;
  am_rb_id : Z;
  am_is_data_plane : bool;
  confirmations : list (Z * Z * Z * Z);
}.

Definition set_sdus (q : am_queue) (l : list am_sdu) : am_queue :=
  Queue l (nb_sdu q) (nb_sdu_no_segmented q) (next_sdu_index q) (current_sdu_index q) (sdu_buffer_occupancy q).
Definition set_current (q : am_queue) (i : Z) : am_queue :=
  Queue (am_input_sdus q) (nb_sdu q) (nb_sdu_no_segmented q) (next_sdu_index q) i (sdu_buffer_occupancy q).
Definition set_occupancy (q : am_queue) (n : Z) : am_queue :=
  Queue (am_input_sdus q) (nb_sdu q) (nb_sdu_no_segmented q) (next_sdu_index q) (current_sdu_index q) n.

Definition set_bytes (x : am_sdu) (b : tx_sdu) : am_sdu :=
  AmSdu (mem_block x) b (sdu_mui x) (pdus_index x) (nb_pdus x) (nb_pdus_ack x) (flag_segmented x)
    (transmitted_successfully x).

Definition set_tx_queue (e : am_tx) (q : am_queue) : am_tx :=
  AmTx q (tx_poll e) (tx_retx e) (am_nb_bytes_requested_by_mac e) (segmentation_pdu_list e)
    (am_pdus_to_mac_layer e) (am_rb_id e) (am_is_data_plane e) (confirmations e).
Definition set_tx_poll (e : am_tx) (p : am_poll) : am_tx :=
  AmTx (tx_queue e) p (tx_retx e) (am_nb_bytes_requested_by_mac e) (segmentation_pdu_list e)
    (am_pdus_to_mac_layer e) (am_rb_id e) (am_is_data_plane e) (confirmations e).
Definition set_tx_retx (e : am_tx) (r : am_retx) : am_tx :=
  AmTx (tx_queue e) (tx_poll e) r (am_nb_bytes_requested_by_mac e) (segmentation_pdu_list e)
    (am_pdus_to_mac_layer e) (am_rb_id e) (am_is_data_plane e) (confirmations e).
Definition set_tx_lists (e : am_tx) (seg mac : list mac_tb_req) : am_tx :=
  AmTx (tx_queue e) (tx_poll e) (tx_retx e) (am_nb_bytes_requested_by_mac e) seg mac
    (am_rb_id e) (am_is_data_plane e) (confirmations e).

Definition set_pdus (r : am_retx) (l : list am_pdu) : am_retx :=
  Retx l (retrans_num_pdus r) (retrans_num_bytes r) (retrans_num_bytes_to_retransmit r) (num_nack_so r)
    (num_nack_sn r) (first_retrans_pdu_sn r) (max_retx_threshold r) (tx_vt_a r) (tx_vt_ms r) (tx_vt_s r).

(** The place after a place of the ring. *)
Definition next_place (i : Z) : Z := (i + 1) mod RLC_AM_SDU_CONTROL_BUFFER_SIZE.

(** ** The SDUs ([rlc_am_in_sdu.c]) *)

(** The [while] of [rlc_am_free_in_sdu] over the places that are done: at most one turn for each. *)
Fixpoint skip_done (fuel : nat) (sdus : list am_sdu) (next current : Z) : cres Z :=
  match fuel with
  | O => Trap FFuel
  | S fuel =>
      if negb (current =? next) then
        x ← aget sdus current;
        if transmitted_successfully x =? 1 then skip_done fuel sdus next (next_place current) else Ret current
      else Ret current
  end.

Definition rlc_am_free_in_sdu (index_in_bufferP : Z) (q : am_queue) : cres am_queue :=
  if index_in_bufferP <=? RLC_AM_SDU_CONTROL_BUFFER_SIZE then
    x ← aget (am_input_sdus q) index_in_bufferP;
    let no_segmented := if mem_block x then nb_sdu_no_segmented q - 1 else nb_sdu_no_segmented q in
    sdus ← aset (am_input_sdus q) index_in_bufferP (AmSdu false (TxSdu [] 0 0 0 0) 0 (replicate 32 0) 0 0 0 1);
    let current := if current_sdu_index q =? index_in_bufferP then next_place (current_sdu_index q)
                   else current_sdu_index q in
    current ← skip_done (S (Z.to_nat RLC_AM_SDU_CONTROL_BUFFER_SIZE)) sdus (next_sdu_index q) current;
    Ret (Queue sdus (nb_sdu q - 1) no_segmented (next_sdu_index q) current (sdu_buffer_occupancy q))
  else Ret q.

(** The block goes back to its pool, and its bytes are out of reach. *)
Definition rlc_am_free_in_sdu_data (index_in_bufferP : Z) (q : am_queue) : cres am_queue :=
  if index_in_bufferP <=? RLC_AM_SDU_CONTROL_BUFFER_SIZE then
    x ← aget (am_input_sdus q) index_in_bufferP;
    if mem_block x then
      let b := am_bytes x in
      sdus ← aset (am_input_sdus q) index_in_bufferP
        (AmSdu false (TxSdu [] (tsdu_size b) 0 (sdu_segmented_size b) (sdu_creation_time b)) (sdu_mui x)
           (pdus_index x) (nb_pdus x) (nb_pdus_ack x) (flag_segmented x) (transmitted_successfully x));
      Ret (Queue sdus (nb_sdu q) (nb_sdu_no_segmented q - 1) (next_sdu_index q) (current_sdu_index q)
             (sdu_buffer_occupancy q))
    else Ret q
  else Ret q.

Definition rlc_am_in_sdu_is_empty (q : am_queue) : Z := if nb_sdu q =? 0 then 1 else 0.

(** [rlc_am_data_req]: an SDU is queued when the next place is free, and is dropped when it is not.
    [data_size] is an [uint16_t]. *)
Definition rlc_am_data_req (frame mui : Z) (sdu : list byte) (data_sizeP : Z) (q : am_queue) : cres am_queue :=
  x ← aget (am_input_sdus q) (next_sdu_index q);
  if negb (mem_block x) && (flag_segmented x =? 0) &&
     negb (next_place (next_sdu_index q) =? current_sdu_index q) then
    let data_size := u16 data_sizeP in
    sdus ← aset (am_input_sdus q) (next_sdu_index q)
      (AmSdu true (TxSdu sdu data_size data_size 0 frame) mui (replicate 32 0) 0 0 0 0);
    Ret (Queue sdus (nb_sdu q + 1) (nb_sdu_no_segmented q + 1) (next_place (next_sdu_index q))
           (current_sdu_index q) (i32 (sdu_buffer_occupancy q + data_size)))
  else Ret q.

(** ** Timers *)

Definition rlc_am_stop_and_reset_timer_poll_retransmit (t : um_timer) : um_timer := Timer 0 0 0 (ms_duration t) 0.

Definition rlc_am_start_timer_poll_retransmit (now : Z) (t : um_timer) : um_timer :=
  if (running t =? 0) && (0 <? ms_duration t) then Timer 1 (u32 (now + ms_duration t)) now (ms_duration t) 0
  else Timer (running t) (ms_time_out t) (ms_start t) (ms_duration t) 0.

Definition rlc_am_init_timer_poll_retransmit (ms_durationP : Z) : um_timer := Timer 0 0 0 ms_durationP 0.

Definition rlc_am_is_timer_poll_retransmit_timed_out (p : am_poll) : bool :=
  negb (timed_out (t_poll_retransmit p) =? 0).

Definition rlc_am_check_timer_poll_retransmit (now : Z) (p : am_poll) : am_poll :=
  let t := t_poll_retransmit p in
  if negb (running t =? 0) && timer_expired now t then
    Poll (c_pdu_without_poll p) (c_byte_without_poll p) (poll_pdu p) (poll_byte p) (poll_sn p) true
      (Timer 0 (u32 (now + ms_duration t)) (ms_start t) (ms_duration t) 1)
  else p.

Definition rlc_am_stop_and_reset_timer_status_prohibit (t : um_timer) : um_timer :=
  if 0 <? ms_duration t then Timer 0 0 0 (ms_duration t) 0 else t.

Definition rlc_am_start_timer_status_prohibit (now : Z) (t : um_timer) : um_timer :=
  if (running t =? 0) && (0 <? ms_duration t) then Timer 1 (u32 (ms_duration t + now)) now (ms_duration t) 0
  else Timer (running t) (ms_time_out t) (ms_start t) (ms_duration t) 0.

Definition rlc_am_init_timer_status_prohibit (ms_durationP : Z) : um_timer := Timer 0 0 0 ms_durationP 0.

Definition rlc_am_check_timer_status_prohibit (now : Z) (t : um_timer) : um_timer :=
  if (0 <? ms_duration t) && negb (running t =? 0) && timer_expired now t
  then rlc_am_stop_and_reset_timer_status_prohibit (Timer 0 (ms_time_out t) (ms_start t) (ms_duration t) 1)
  else t.

(** ** Polling *)

(** [payload_sizeP] is an [int16_t]; [pdu] is the PDU, of which the first octet is written. *)
Definition rlc_am_pdu_polling (now : Z) (e : am_tx) (pdu : list byte) (payload_sizeP : Z) : cres (am_tx * list byte) :=
  let p := tx_poll e in
  let pdus := u32 (c_pdu_without_poll p + 1) in
  let bytes := u32 (c_byte_without_poll p + i16 payload_sizeP) in
  b1 ← octet pdu 0;
  if (poll_pdu p <=? pdus) || (poll_byte p <=? bytes) ||
     ((sdu_buffer_occupancy (tx_queue e) =? 0) && (retrans_num_bytes_to_retransmit (tx_retx e) =? 0)) ||
     (tx_vt_s (tx_retx e) =? tx_vt_ms (tx_retx e)) || force_poll p then
    pdu ← put_octet pdu 0 (Z.lor b1 0x20);
    Ret (set_tx_poll e (Poll 0 0 (poll_pdu p) (poll_byte p) (Z.land (tx_vt_s (tx_retx e) - 1) RLC_AM_SN_MASK) false
                          (rlc_am_start_timer_poll_retransmit now (t_poll_retransmit p))), pdu)
  else
    pdu ← put_octet pdu 0 (Z.land b1 0xDF);
    Ret (set_tx_poll e (Poll pdus bytes (poll_pdu p) (poll_byte p) (poll_sn p) (force_poll p) (t_poll_retransmit p)), pdu).

(** ** The copy of a stored PDU *)

(** A block of a pool that has none is not checked for.  [m->flags.retransmit] is cleared. *)
Definition rlc_am_retransmit_get_copy (alloc : Z -> option (list byte)) (now snP : Z) (e : am_tx)
  : cres (am_tx * option mac_tb_req) :=
  m ← aget (pdu_retrans_buffer (tx_retx e)) snP;
  match pdu_block m with
  | None => Ret (e, None)
  | Some tb =>
      match alloc (header_and_payload_size m) with
      | None => Trap FNull
      | Some mem =>
          mem ← memcpy mem 0 (tr_data tb) 0 (header_and_payload_size m);
          pdus ← aset (pdu_retrans_buffer (tx_retx e)) snP
            (AmPdu (pdu_block m) (pdu_payload m) (sdus_index m) (nb_sdus m) (last_nack_time m) (pdu_holes m)
               (header_and_payload_size m) (retx_count m) (flag_ack m) 0);
          '(e, mem) ← rlc_am_pdu_polling now (set_tx_retx e (set_pdus (tx_retx e) pdus)) mem (payload_size (pdu_holes m));
          Ret (e, Some {| tr_data := mem; tr_size := tr_size tb |})
      end
  end.

(** ** The first pass of the segmentation *)

(** [sdu_mngt_p->pdus_index[sdu_mngt_p->nb_pdus++] = ...] and the assertion. *)
Definition note_pdu (pdu : Z) (x : am_sdu) : cres am_sdu :=
  a ← aset (pdus_index x) (nb_pdus x) pdu;
  let n := u8 (nb_pdus x + 1) in
  _ ← c_assert (n <? RLC_AM_MAX_SDU_FRAGMENTS);
  Ret (AmSdu (mem_block x) (am_bytes x) (sdu_mui x) a n (nb_pdus_ack x) (flag_segmented x) (transmitted_successfully x)).

(** [pdu_mngt_p->sdus_index[pdu_mngt_p->nb_sdus++] = ...] *)
Definition note_sdu (sdu : Z) (m : am_pdu) : cres am_pdu :=
  a ← aset (sdus_index m) (nb_sdus m) sdu;
  Ret (AmPdu (pdu_block m) (pdu_payload m) a (i8 (nb_sdus m + 1)) (last_nack_time m) (pdu_holes m)
         (header_and_payload_size m) (retx_count m) (flag_ack m) (flag_retransmit m)).

(** One turn of the first loop for an SDU of [rem] bytes, [n] being the SDUs of the PDU so far: whether
    the loop goes on, and its variables. *)
Definition am_count_turn (rem n : Z) (s : count) : bool * count :=
  let li := Z.lxor (test_li_length_in_bytes s) 3 in
  let stop less :=
    (false, Count (test_num_li s) 0 (test_li_length_in_bytes s) 0 0 (c_pdu_remaining_size s - less) (c_data_pdu_size s)) in
  if test_pdu_remaining_size s <? rem then stop 0
  else if rem =? test_pdu_remaining_size s then stop 0
  else if rem + li =? test_pdu_remaining_size s then stop li
  else if rem + li <? test_pdu_remaining_size s then
    if RLC_AM_MAX_SDU_IN_PDU - 1 <=? n then stop 1
    else (true, Count (test_num_li s + 1) (test_pdu_remaining_size s - (rem + li)) li li 1
                  (c_pdu_remaining_size s) (c_data_pdu_size s))
  else stop 1.

(** A PDU has at most [RLC_AM_MAX_SDU_IN_PDU] SDUs, so that 33 turns are enough. *)
Fixpoint am_count_loop (fuel : nat) (pdu_place index : Z) (sdus : list am_sdu) (m : am_pdu) (s : count)
  : cres (list am_sdu * am_pdu * count) :=
  match fuel with
  | O => Trap FFuel
  | S fuel =>
      x ← aget sdus index;
      if mem_block x then
        let '(go, s) := am_count_turn (sdu_remaining_size (am_bytes x)) (nb_sdus m) s in
        m ← note_sdu index m;
        x ← note_pdu pdu_place x;
        sdus ← aset sdus index x;
        if go : bool then am_count_loop fuel pdu_place (next_place index) sdus m s else Ret (sdus, m, s)
      else Ret (sdus, m, s)
  end.

(** ** The second pass *)

(** The results are the ring, the size of the payload, whether the last byte of the PDU is the last
    byte of an SDU, and the variables; [f_buffer_occupancy] is [sdu_buffer_occupancy].  The last
    branch is [assert(1!=1)]. *)
Fixpoint am_fill_loop (fuel : nat) (test_num_li : Z) (q : am_queue) (payload : Z) (s : fill)
  : cres (am_queue * Z * bool * fill) :=
  match fuel with
  | O => Trap FFuel
  | S fuel =>
      x ← aget (am_input_sdus q) (current_sdu_index q);
      if mem_block x then
        let b := am_bytes x in
        let rem := sdu_remaining_size b in
        let pdu_rem := f_pdu_remaining_size s in
        let seg := sdu_segmented_size b in
        let bo := f_buffer_occupancy s in
        let leave q := set_current q (next_place (current_sdu_index q)) in
        if pdu_rem <? rem then
          mem ← memcpy (f_mem s) (f_data s) (sdu_data b) seg pdu_rem;
          sdus ← aset (am_input_sdus q) (current_sdu_index q)
            (set_bytes x (TxSdu (sdu_data b) (tsdu_size b) (i32 (rem - pdu_rem)) (i32 (seg + pdu_rem)) (sdu_creation_time b)));
          Ret (set_sdus q sdus, i32 (payload + pdu_rem), false,
               Fill mem (f_data s) (f_e_li s) (f_li_length_in_bytes s) (fill_num_li s) 0 (i32 (bo - pdu_rem)))
        else if rem =? pdu_rem then
          mem ← memcpy (f_mem s) (f_data s) (sdu_data b) seg pdu_rem;
          q ← rlc_am_free_in_sdu_data (current_sdu_index q) q;
          Ret (leave q, i32 (payload + pdu_rem), true,
               Fill mem (f_data s) (f_e_li s) (f_li_length_in_bytes s) (fill_num_li s) 0 (i32 (bo - rem)))
        else
          let li := Z.lxor (f_li_length_in_bytes s) 3 in
          if rem + li <? pdu_rem then
            mem ← memcpy (f_mem s) (f_data s) (sdu_data b) seg rem;
            if fill_num_li s =? RLC_AM_MAX_SDU_IN_PDU - 1 then
              q ← rlc_am_free_in_sdu_data (current_sdu_index q) q;
              Ret (leave q, i32 (payload + rem), true,
                   Fill mem (f_data s) (f_e_li s) (f_li_length_in_bytes s) (fill_num_li s) 0 (i32 (bo - rem)))
            else
              '(mem, e_li) ← put_li test_num_li (fill_num_li s + 1) li rem (f_e_li s) mem;
              sdus ← aset (am_input_sdus q) (current_sdu_index q)
                (set_bytes x (TxSdu (sdu_data b) (tsdu_size b) 0 seg (sdu_creation_time b)));
              q ← rlc_am_free_in_sdu_data (current_sdu_index q) (set_sdus q sdus);
              am_fill_loop fuel test_num_li (leave q) (i32 (payload + rem))
                (Fill mem (f_data s + rem) e_li li (fill_num_li s + 1) (pdu_rem - (rem + li)) (i32 (bo - rem)))
          else Trap FAssert
      else Ret (q, payload, false, s)
  end.

(** ** A whole PDU *)

Definition am_pdu_size_for (q : am_queue) (nb_bytes_to_transmit : Z) : Z :=
  let nb := nb_sdu_no_segmented q in
  let max_li_overhead := if nb <=? 1 then 0 else ((nb - 1) * 3) / 2 + (nb - 1) mod 2 in
  let all := sdu_buffer_occupancy q + RLC_AM_HEADER_MIN_SIZE + max_li_overhead in
  if all <=? nb_bytes_to_transmit then all else nb_bytes_to_transmit.

(** The two octets of the header, on the first octet as it is. *)
Definition am_put_header (fi fill_num_li vt_s : Z) (mem : list byte) : cres (list byte) :=
  b1 ← octet mem 0;
  let b1 := u8 (Z.lor b1 (Z.shiftl fi 3)) in
  let b1 := if 0 <? fill_num_li then Z.lor b1 0x04 else b1 in
  let b1 := Z.lor b1 0x80 in
  mem ← put_octet mem 0 (Z.lor b1 (Z.shiftr vt_s 8));
  put_octet mem 1 (Z.land vt_s 0xFF).

(** The PDU that is ready takes its place in the retransmission buffer. *)
Definition am_store_pdu (place : Z) (m : am_pdu) (tb : mac_tb_req) (payload payload_len : Z) (r : am_retx) : cres am_retx :=
  let h := pdu_holes m in
  let m := AmPdu (Some tb) payload (sdus_index m) (nb_sdus m) (last_nack_time m)
    (Pdu (hole_so_start h) (hole_so_stop h) (num_holes h) payload_len (nack_so_start h) (nack_so_stop h))
    (tr_size tb) (-1) (flag_ack m) (flag_retransmit m) in
  pdus ← aset (pdu_retrans_buffer r) place m;
  Ret (Retx pdus (retrans_num_pdus r + 1) (i32 (retrans_num_bytes r + tr_size tb)) (retrans_num_bytes_to_retransmit r)
         (num_nack_so r) (num_nack_sn r) (first_retrans_pdu_sn r) (max_retx_threshold r) (tx_vt_a r) (tx_vt_ms r) (tx_vt_s r)).

Definition set_vt_s (r : am_retx) (v : Z) : am_retx :=
  Retx (pdu_retrans_buffer r) (retrans_num_pdus r) (retrans_num_bytes r) (retrans_num_bytes_to_retransmit r)
    (num_nack_so r) (num_nack_sn r) (first_retrans_pdu_sn r) (max_retx_threshold r) (tx_vt_a r) (tx_vt_ms r) v.

(** The end of the segmentation, from the assertion on the size of the PDU [mem] on: polling, the entry
    [m] of the retransmission buffer, and the copy, which is what the MAC gets. *)
Definition am_finish_pdu (alloc : Z -> option (list byte)) (now place payload payload_len tb_size : Z) (m : am_pdu)
  (mem : list byte) (e : am_tx) : cres am_tx :=
  _ ← c_assert (tb_size <? RLC_SDU_MAX_SIZE);
  '(e, mem) ← rlc_am_pdu_polling now e mem payload_len;
  r ← am_store_pdu place m {| tr_data := mem; tr_size := tb_size |} payload payload_len (tx_retx e);
  '(e, copy) ← rlc_am_retransmit_get_copy alloc now (Z.land (tx_vt_s r - 1) RLC_AM_SN_MASK) (set_tx_retx e r);
  match copy with
  | Some tb => Ret (set_tx_lists e (segmentation_pdu_list e ++ [tb]) (am_pdus_to_mac_layer e))
  | None => Trap FNull
  end.

(** The outer loop makes one PDU.  [m] is the entry of the retransmission buffer, which nothing else
    reads before it is stored. *)
Definition rlc_am_segment_10 (alloc : Z -> option (list byte)) (now : Z) (e : am_tx) : cres am_tx :=
  let q := tx_queue e in
  if sdu_buffer_occupancy q <=? 0 then Ret e
  else
    head ← aget (am_input_sdus q) (current_sdu_index q);
    if mem_block head && (0 <? am_nb_bytes_requested_by_mac e) then
      let data_pdu_size := am_pdu_size_for q (am_nb_bytes_requested_by_mac e) in
      match alloc data_pdu_size with
      | None => Ret e
      | Some mem =>
          let vt_s := tx_vt_s (tx_retx e) in
          let place := c_rem vt_s RLC_AM_PDU_RETRANSMISSION_BUFFER_SIZE in
          let pdu_remaining_size := data_pdu_size - RLC_AM_HEADER_MIN_SIZE in
          mem ← bput mem 0 (zeros 4);
          '(sdus, m, c) ← am_count_loop 33 place (current_sdu_index q) (am_input_sdus q) zero_pdu
            (Count 0 pdu_remaining_size 1 0 0 pdu_remaining_size data_pdu_size);
          let c := count_end c in
          let first := sdu_remaining_size (am_bytes head) =? tsdu_size (am_bytes head) in
          let payload := 2 + Z.shiftr (test_num_li c * 3 + 1) 1 in
          '(q, payload_len, last, f) ← am_fill_loop 129 (test_num_li c) (set_sdus q sdus) 0
            (Fill mem payload 2 1 0 (c_pdu_remaining_size c) (sdu_buffer_occupancy q));
          let fi := (if first then 0 else 2) + (if last : bool then 0 else 1) in
          mem ← am_put_header fi (fill_num_li f) vt_s (f_mem f);
          let e := set_tx_retx (set_tx_queue e (set_occupancy q (f_buffer_occupancy f)))
            (set_vt_s (tx_retx e) (Z.land (vt_s + 1) RLC_AM_SN_MASK)) in
          let tb_size := data_pdu_size - f_pdu_remaining_size f in
          am_finish_pdu alloc now place payload payload_len tb_size m mem e
      end
    else Ret e.

(** ** Rings *)

Section Ring.
Context {A : Type} (n : Z) (Hn : 0 < n).
Implicit Types (l : list A) (j k : Z) (x : A).

(** The element of count [k] of a ring of [n] places, and its replacement. *)
Definition ring_at (l : list A) (k : Z) : option A := l !! Z.to_nat (k mod n).
Definition ring_put (l : list A) (k : Z) (x : A) : list A := <[Z.to_nat (k mod n) := x]> l.

Lemma ring_get l k x : ring_at l k = Some x -> aget l (k mod n) = Ret x.
Proof using Hn.
  intros E. unfold aget. pose proof (Z.mod_pos_bound k n Hn). rewrite (proj2 (Z.leb_le 0 _)) by lia.
  unfold ring_at in E. by rewrite E.
Qed.

Lemma ring_set l k x : zlen l = n -> aset l (k mod n) x = Ret (ring_put l k x).
Proof using Hn.
  intros E. unfold aset. pose proof (Z.mod_pos_bound k n Hn).
  rewrite (proj2 (Z.leb_le 0 _)), (proj2 (Z.ltb_lt _ _)) by lia. done.
Qed.

Lemma ring_put_len l k x : zlen (ring_put l k x) = zlen l.
Proof using. unfold zlen, ring_put. by rewrite length_insert. Qed.

Lemma ring_at_put l k x : zlen l = n -> ring_at (ring_put l k x) k = Some x.
Proof using Hn.
  intros E. unfold ring_at, ring_put. pose proof (Z.mod_pos_bound k n Hn). apply list_lookup_insert_eq.
  unfold zlen in E. lia.
Qed.

Lemma ring_at_put_ne l j k x : j mod n <> k mod n -> ring_at (ring_put l k x) j = ring_at l j.
Proof using Hn.
  intros E. unfold ring_at, ring_put. pose proof (Z.mod_pos_bound k n Hn). pose proof (Z.mod_pos_bound j n Hn).
  apply list_lookup_insert_ne. lia.
Qed.

Lemma mod_near_eq j k : j mod n = k mod n -> - n < j - k < n -> j = k.
Proof using Hn.
  intros E H. pose proof (Z.div_mod j n ltac:(lia)) as E1. pose proof (Z.div_mod k n ltac:(lia)) as E2.
  assert (j / n = k / n) by nia. lia.
Qed.

Lemma ring_at_put_near l j k x : - n < j - k < n -> j <> k -> ring_at (ring_put l k x) j = ring_at l j.
Proof using Hn. intros H Hne. apply ring_at_put_ne. intros E. by apply mod_near_eq in E. Qed.

Lemma ring_at_turn l k : ring_at l (k + n) = ring_at l k.
Proof using. unfold ring_at. do 2 f_equal. rewrite <- (Z_mod_plus_full k 1 n). f_equal. lia. Qed.

Lemma ring_some l k : zlen l = n -> is_Some (ring_at l k).
Proof using Hn. intros E. apply lookup_lt_is_Some_2. pose proof (Z.mod_pos_bound k n Hn). unfold zlen in E. lia. Qed.

End Ring.

Abbreviation sdu_at := (ring_at 128).
Abbreviation pdu_at := (ring_at 1024).

Lemma next_place_mod k : next_place (k mod 128) = (k + 1) mod 128.
Proof. unfold next_place. change RLC_AM_SDU_CONTROL_BUFFER_SIZE with 128. by rewrite Zplus_mod_idemp_l. Qed.

(** ** The first pass *)

(** An SDU and a PDU with one more note. *)
Definition noted (place : Z) (x : am_sdu) : am_sdu :=
  AmSdu (mem_block x) (am_bytes x) (sdu_mui x) (<[Z.to_nat (nb_pdus x) := place]> (pdus_index x)) (nb_pdus x + 1)
    (nb_pdus_ack x) (flag_segmented x) (transmitted_successfully x).

Definition with_sdus (m : am_pdu) (idx : list Z) (n : Z) : am_pdu :=
  AmPdu (pdu_block m) (pdu_payload m) idx n (last_nack_time m) (pdu_holes m) (header_and_payload_size m)
    (retx_count m) (flag_ack m) (flag_retransmit m).

Lemma note_pdu_ok place x : zlen (pdus_index x) = 32 -> 0 <= nb_pdus x < 31 -> note_pdu place x = Ret (noted place x).
Proof.
  intros H1 H2. unfold note_pdu, aset. rewrite (proj2 (Z.leb_le 0 _)), (proj2 (Z.ltb_lt (nb_pdus x) _)) by lia.
  cbn [andb mbind cres_bind]. rewrite u8_small by lia. unfold RLC_AM_MAX_SDU_FRAGMENTS, c_assert.
  by rewrite (proj2 (Z.ltb_lt (nb_pdus x + 1) 32)) by lia.
Qed.

Lemma note_sdu_ok k m : zlen (sdus_index m) = 32 -> 0 <= nb_sdus m < 32 ->
  note_sdu k m = Ret (with_sdus m (<[Z.to_nat (nb_sdus m) := k]> (sdus_index m)) (nb_sdus m + 1)).
Proof.
  intros H1 H2. unfold note_sdu, aset. rewrite (proj2 (Z.leb_le 0 _)), (proj2 (Z.ltb_lt (nb_sdus m) _)) by lia.
  cbn [andb mbind cres_bind]. by rewrite i8_small by lia.
Qed.

(** What the first pass needs of an SDU of [w]. *)
Definition countable (w : waiting) (x : am_sdu) : Prop :=
  mem_block x = true /\ sdu_remaining_size (am_bytes x) = zlen w.2 /\ zlen (pdus_index x) = 32 /\ 0 <= nb_pdus x < 31.

(** The places of [n] SDUs from count [K] on. *)
Definition places (K : Z) (n : nat) : list Z := (fun k => k mod 128) <$> seqZ K (Z.of_nat n).

Lemma places_cons K n : places K (S n) = K mod 128 :: places (K + 1) n.
Proof. unfold places. rewrite seqZ_cons by lia. cbn [fmap list_fmap].
  f_equal. rewrite (Z.add_1_r K). by replace (Z.pred (Z.of_nat (S n))) with (Z.of_nat n) by lia.
Qed.

Lemma take_set_snoc {A} (l : list A) (k : nat) (x : A) n : (k < length l)%nat -> n = S k -> take n (<[k := x]> l) = take k l ++ [x].
Proof.
  intros Hk ->. rewrite (take_S_r _ _ x) by (by apply list_lookup_insert_eq). by rewrite take_insert_ge by lia.
Qed.

(** The result of a first pass over [n] SDUs from count [K] on that ends with the variables [c]. *)
Definition counted (place K : Z) (sdus : list am_sdu) (m : am_pdu) (n : nat) (c : count)
  (r : cres (list am_sdu * am_pdu * count)) : Prop :=
  exists sdus' idx, r = Ret (sdus', with_sdus m idx (nb_sdus m + Z.of_nat n), c) /\
    zlen sdus' = 128 /\ zlen idx = 32 /\
    take (Z.to_nat (nb_sdus m) + n) idx = take (Z.to_nat (nb_sdus m)) (sdus_index m) ++ places K n /\
    (forall j, K <= j < K + Z.of_nat n -> sdu_at sdus' j = noted place <$> sdu_at sdus j) /\
    (forall j, K + Z.of_nat n <= j < K + 128 -> sdu_at sdus' j = sdu_at sdus j).

Section Turn.
Context (place K : Z) (sdus : list am_sdu) (m : am_pdu) (x : am_sdu).
Context (Hs : zlen sdus = 128) (Hx : sdu_at sdus K = Some x) (Hi : zlen (sdus_index m) = 32) (Hm : 0 <= nb_sdus m < 32).

(** The ring and the PDU after a turn for [x]. *)
Definition turned_sdus : list am_sdu := ring_put 128 sdus K (noted place x).
Definition turned_pdu : am_pdu := with_sdus m (<[Z.to_nat (nb_sdus m) := K mod 128]> (sdus_index m)) (nb_sdus m + 1).

Lemma turned_take n idx :
  take (Z.to_nat (nb_sdus turned_pdu) + n) idx = take (Z.to_nat (nb_sdus turned_pdu)) (sdus_index turned_pdu) ++ places (K + 1) n ->
  take (Z.to_nat (nb_sdus m) + S n) idx = take (Z.to_nat (nb_sdus m)) (sdus_index m) ++ places K (S n).
Proof using Hi Hm.
  cbn [turned_pdu with_sdus nb_sdus sdus_index]. intros E. rewrite places_cons.
  replace (Z.to_nat (nb_sdus m) + S n)%nat with (Z.to_nat (nb_sdus m + 1) + n)%nat by lia. rewrite E.
  rewrite (take_set_snoc _ (Z.to_nat (nb_sdus m))) by (unfold zlen in Hi; lia). by rewrite <- app_assoc.
Qed.

(** The last turn. *)
Lemma counted_stop c : counted place K sdus m 1 c (Ret (turned_sdus, turned_pdu, c)).
Proof using Hs Hx Hi Hm.
  exists turned_sdus, (sdus_index turned_pdu). split; [done|]. unfold turned_sdus. rewrite ring_put_len.
  split_and!; [done|cbn; unfold zlen; by rewrite length_insert| | |].
  - apply (turned_take 0). by rewrite Nat.add_0_r, app_nil_r.
  - intros j Hj. replace j with K by lia. by rewrite ring_at_put, Hx by (done || lia).
  - intros j Hj. apply ring_at_put_near; lia.
Qed.

(** A turn before others. *)
Lemma counted_next n c r : (n <= 31)%nat -> counted place (K + 1) turned_sdus turned_pdu n c r -> counted place K sdus m (S n) c r.
Proof using Hs Hx Hi Hm.
  intros Hn (sdus' & idx & -> & G1 & G2 & G3 & G4 & G5). exists sdus', idx.
  split; [cbn [turned_pdu with_sdus nb_sdus pdu_block pdu_payload last_nack_time pdu_holes header_and_payload_size retx_count
    flag_ack flag_retransmit]; unfold with_sdus; do 4 f_equal; cbn; lia|].
  split_and!; [done|done|by apply turned_take| |].
  - intros j Hj. destruct (Z.eq_dec j K) as [->|Hne].
    + rewrite <- (ring_at_turn 128 sdus'), G5, ring_at_turn by lia. unfold turned_sdus. by rewrite ring_at_put, Hx by (done || lia).
    + rewrite G4 by lia. unfold turned_sdus. by rewrite ring_at_put_near by lia.
  - intros j Hj. rewrite G5 by lia. apply ring_at_put_near; lia.
Qed.

End Turn.

Lemma pack_some T c q fs last rest slack : q <> [] -> pack T c q = (fs, last, rest, slack) -> fs <> [].
Proof. destruct q as [|[s d] q]; [done|]. rewrite pack_cons. intros _ E. repeat case_match; naive_solver. Qed.

Lemma am_count_ok place q : forall K sdus m T c k l z1 z2 P D fs last rest slack fuel,
  zlen sdus = 128 -> (length q <= 127)%nat ->
  (forall i w, q !! i = Some w -> exists x, sdu_at sdus (K + Z.of_nat i) = Some x /\ countable w x) ->
  full T c q -> l = 1 \/ l = 2 -> c = 3 - l -> pack T c q = (fs, last, rest, slack) ->
  zlen (sdus_index m) = 32 -> 0 <= nb_sdus m -> nb_sdus m + zlen fs <= 32 -> (length fs <= fuel)%nat ->
  exists l', counted place K sdus m (length fs) (Count (k + zlen fs - 1) 0 l' 0 0 (P - slack) D)
    (am_count_loop fuel place (K mod 128) sdus m (Count k T l z1 z2 P D)).
Proof.
  induction q as [|[s d] q IH]; intros K sdus m T c k l z1 z2 P D fs last rest slack fuel Hs Hlen Hq Hf Hl Hc E Hi Hn Hm Hfuel;
    [by destruct Hf|].
  destruct (Hq 0%nat (s, d) eq_refl) as (x & Hx & Cx1 & Cx2 & Cx3 & Cx4). rewrite Z.add_0_r in Hx. cbn [snd] in Cx2.
  assert (Hfs : 0 < zlen fs) by (apply zlen_pos; by apply (pack_some _ _ _ _ _ _ _ (fun H => nil_cons (eq_sym H)) E)).
  destruct fuel as [|fuel]; [unfold zlen in Hfs; lia|]. assert (Hm' : 0 <= nb_sdus m < 32) by lia.
  cbn [am_count_loop]. rewrite (ring_get 128 ltac:(lia) _ _ _ Hx). cbn [mbind cres_bind]. rewrite Cx1, Cx2.
  rewrite note_sdu_ok, note_pdu_ok by done. fold (turned_pdu K m). cbn [mbind cres_bind].
  rewrite ring_set by (lia || done). fold (turned_sdus place K sdus x). cbn [mbind cres_bind].
  rewrite pack_cons in E. assert (Hli : Z.lxor l 3 = c) by (rewrite lxor3; [lia|done]).
  unfold am_count_turn. cbn [test_num_li test_pdu_remaining_size test_li_length_in_bytes
    test_remaining_size_to_substract test_remaining_num_li_to_substract c_pdu_remaining_size c_data_pdu_size].
  rewrite Hli. pose proof (counted_stop place K sdus m x Hs Hx Hi Hm') as Hstop.
  assert (H1 : forall a : list byte, k + zlen [a] - 1 = k) by (intros; unfold zlen; cbn; lia).
  destruct (T <? zlen d); [injection E as <- <- <- <-; exists l; rewrite H1; apply Hstop|].
  destruct (zlen d =? T); [injection E as <- <- <- <-; exists l; rewrite H1; apply Hstop|].
  destruct (zlen d + c =? T); [injection E as <- <- <- <-; exists l; rewrite H1; apply Hstop|].
  destruct (Z.ltb_spec (zlen d + c) T) as [Hlt|]; [|injection E as <- <- <- <-; exists l; rewrite H1; apply Hstop].
  clear Hstop H1. destruct (pack _ _ q) as [[[fs' last'] rest'] slack'] eqn:Ep. injection E as <- <- <- <-.
  assert (Hf' : full (T - (zlen d + c)) (3 - c) q) by (apply (full_next T c (s, d)); [done|cbn [snd]; lia|lia]).
  pose proof (pack_some _ _ _ _ _ _ _ (proj1 Hf') Ep) as Hz'. apply zlen_pos in Hz'.
  assert (Hz : zlen (d :: fs') = 1 + zlen fs') by (unfold zlen; cbn [length]; lia).
  unfold RLC_AM_MAX_SDU_IN_PDU. rewrite (proj2 (Z.leb_gt (32 - 1) _)) by lia. rewrite next_place_mod. cbn [length] in Hlen, Hfuel.
  destruct (IH (K + 1) (turned_sdus place K sdus x) (turned_pdu K m)
    (T - (zlen d + c)) (3 - c) (k + 1) c c 1 P D fs' last' rest' slack' fuel) as (l' & G);
    cbn [turned_pdu with_sdus sdus_index nb_sdus]; try done; try lia.
  - unfold turned_sdus. by rewrite ring_put_len.
  - intros i w Hw. destruct (Hq (S i) w Hw) as (y & Hy & Cy). exists y. split; [|done].
    apply lookup_lt_Some in Hw. unfold turned_sdus. rewrite ring_at_put_near by lia. rewrite <- Hy. f_equal. lia.
  - unfold zlen. by rewrite length_insert.
  - exists l'. apply (counted_next place K sdus m x Hs Hx Hi Hm' (length fs')); [rewrite Hz in Hm; clear -Hm Hn; unfold zlen in Hm; lia|].
        by replace (k + zlen (d :: fs') - 1) with (k + 1 + zlen fs' - 1) by lia.
Qed.

(** ** The second pass *)

(** An SDU of which every byte is in a PDU. *)
Definition gone (x : am_sdu) : am_sdu :=
  let b := am_bytes x in
  AmSdu false (TxSdu [] (tsdu_size b) 0 (sdu_segmented_size b) (sdu_creation_time b)) (sdu_mui x) (pdus_index x) (nb_pdus x)
    (nb_pdus_ack x) (flag_segmented x) (transmitted_successfully x).

Lemma free_in_sdu_data_ok K q x : zlen (am_input_sdus q) = 128 -> sdu_at (am_input_sdus q) K = Some x -> mem_block x = true ->
  rlc_am_free_in_sdu_data (K mod 128) q =
  Ret (Queue (ring_put 128 (am_input_sdus q) K (gone x)) (nb_sdu q) (nb_sdu_no_segmented q - 1) (next_sdu_index q)
         (current_sdu_index q) (sdu_buffer_occupancy q)).
Proof.
  intros Hs Hx Hm. unfold rlc_am_free_in_sdu_data, RLC_AM_SDU_CONTROL_BUFFER_SIZE. pose proof (Z.mod_pos_bound K 128).
  rewrite (proj2 (Z.leb_le (K mod 128) 128)) by lia. rewrite (ring_get 128 ltac:(lia) _ _ _ Hx). cbn [mbind cres_bind].
  rewrite Hm, ring_set by (lia || done). done.
Qed.

(** The ring holds the SDUs [xs] from count [K] on, and no other behind them. *)
Definition ring_holds (K : Z) (xs : list tx_sdu) (sdus : list am_sdu) : Prop :=
  (forall i b, xs !! i = Some b -> exists x, sdu_at sdus (K + Z.of_nat i) = Some x /\ mem_block x = true /\ am_bytes x = b) /\
  (exists y, sdu_at sdus (K + zlen xs) = Some y /\ mem_block y = false).

(** The ring when [xs'] are left of the SDUs [xs]. *)
Record filled (K : Z) (xs xs' : list tx_sdu) (q q' : am_queue) : Prop := {
  fd_le : zlen xs' <= zlen xs;
  fd_len : zlen (am_input_sdus q') = 128;
  fd_current : current_sdu_index q' = (K + (zlen xs - zlen xs')) mod 128;
  fd_next : next_sdu_index q' = next_sdu_index q;
  fd_nb : nb_sdu q' = nb_sdu q;
  fd_no_seg : nb_sdu_no_segmented q' = nb_sdu_no_segmented q - (zlen xs - zlen xs');
  fd_gone : forall j, K <= j < K + (zlen xs - zlen xs') -> sdu_at (am_input_sdus q') j = gone <$> sdu_at (am_input_sdus q) j;
  fd_stay : forall i b, xs' !! i = Some b -> let j := K + (zlen xs - zlen xs') + Z.of_nat i in
    exists x, sdu_at (am_input_sdus q) j = Some x /\ sdu_at (am_input_sdus q') j = Some (set_bytes x b);
  fd_other : forall j, K + zlen xs <= j < K + 128 -> sdu_at (am_input_sdus q') j = sdu_at (am_input_sdus q) j;
}.

(** The sizes of an SDU that [RlcUmTx] keeps in sixteen bits are the same in thirty-two. *)
Definition short (b : tx_sdu) : Prop :=
  0 <= sdu_remaining_size b /\ 0 <= sdu_segmented_size b /\ sdu_remaining_size b + sdu_segmented_size b < 2 ^ 16.

Section Fill.
Context (K : Z) (xs : list tx_sdu) (q : am_queue).
Context (Hlen : zlen (am_input_sdus q) = 128) (Hxs : (length xs <= 127)%nat) (Hh : ring_holds K xs (am_input_sdus q)).
Context (Hcur : current_sdu_index q = K mod 128).

Lemma set_bytes_same x : set_bytes x (am_bytes x) = x.
Proof using. by destruct x. Qed.

(** Nothing is taken. *)
Lemma filled_nothing : filled K xs xs q q.
Proof using Hlen Hxs Hh Hcur.
  constructor; rewrite ?Z.sub_diag, ?Z.add_0_r; try done; try lia. intros i b Hi.
  destruct Hh as [Hh' _]. destruct (Hh' i b Hi) as (x & Hx & _ & <-). exists x. by rewrite set_bytes_same.
Qed.

(** The first SDU loses some bytes. *)
Lemma filled_cut b b' xs0 x : xs = b :: xs0 -> sdu_at (am_input_sdus q) K = Some x ->
  filled K xs (b' :: xs0) q (set_sdus q (ring_put 128 (am_input_sdus q) K (set_bytes x b'))).
Proof using Hlen Hxs Hh Hcur.
  intros -> Hx. assert (Hz : zlen (b :: xs0) - zlen (b' :: xs0) = 0) by (unfold zlen; cbn; lia).
  constructor; rewrite ?Hz, ?Z.add_0_r; cbn [set_sdus am_input_sdus current_sdu_index next_sdu_index nb_sdu nb_sdu_no_segmented]; try done; try lia.
  - by rewrite ring_put_len.
  - intros i c Hi. destruct i as [|i].
    + injection Hi as <-. rewrite Z.add_0_r. exists x. by rewrite ring_at_put by (done || lia).
    + destruct Hh as [Hh' _]. destruct (Hh' (S i) c Hi) as (y & Hy & _ & <-). exists y.
      apply lookup_lt_Some in Hi. cbn [length] in Hxs, Hi. rewrite ring_at_put_near by lia. by rewrite set_bytes_same.
  - intros j Hj. assert (K + 1 <= j) by (unfold zlen in Hj; cbn [length] in Hj; lia). apply ring_at_put_near; lia.
Qed.

(** The first SDU leaves, and others behind it. *)
Lemma filled_leave b xs0 x xs' q1 q' : xs = b :: xs0 -> sdu_at (am_input_sdus q) K = Some x ->
  q1 = set_current (Queue (ring_put 128 (am_input_sdus q) K (gone x)) (nb_sdu q) (nb_sdu_no_segmented q - 1) (next_sdu_index q)
         (current_sdu_index q) (sdu_buffer_occupancy q)) ((K + 1) mod 128) ->
  filled (K + 1) xs0 xs' q1 q' -> filled K xs xs' q q'.
Proof using Hlen Hxs Hh Hcur.
  intros -> Hx -> [F1 F2 F3 F4 F5 F6 F7 F8 F9].
  cbn [set_current am_input_sdus current_sdu_index next_sdu_index nb_sdu nb_sdu_no_segmented] in *.
  assert (Hz : zlen (b :: xs0) = 1 + zlen xs0) by (unfold zlen; cbn; lia).
  assert (Hx0 : zlen xs0 <= 126) by (unfold zlen; cbn [length] in Hxs; lia). pose proof (zlen_nonneg xs').
  constructor; rewrite ?Hz; try done; try lia.
  - rewrite F3. f_equal. lia.
  - intros j Hj. destruct (Z.eq_dec j K) as [->|Hne].
    + rewrite <- (ring_at_turn 128 (am_input_sdus q')), F9, ring_at_turn, ring_at_put, Hx by (done || lia). done.
    + rewrite F7 by lia. by rewrite ring_at_put_near by lia.
  - intros i c Hi j. unfold j. pose proof (lookup_lt_Some _ _ _ Hi) as Hlt. destruct (F8 i c Hi) as (y & Hy & Hy').
    exists y. replace (K + (1 + zlen xs0 - zlen xs') + Z.of_nat i) with (K + 1 + (zlen xs0 - zlen xs') + Z.of_nat i) by lia.
    split; [|done]. rewrite ring_at_put_near in Hy; [done|lia| |]; unfold zlen in *; lia.
  - intros j Hj. rewrite F9 by lia. apply ring_at_put_near; lia.
Qed.

End Fill.

Lemma ring_holds_tail K b xs sdus x : ring_holds K (b :: xs) sdus -> (length xs <= 126)%nat ->
  ring_holds (K + 1) xs (ring_put 128 sdus K x).
Proof.
  intros [H1 (y & Hy & Ey)] Hl. assert (Hz : zlen (b :: xs) = 1 + zlen xs) by (unfold zlen; cbn; lia). split.
  - intros i c Hi. pose proof (lookup_lt_Some _ _ _ Hi). destruct (H1 (S i) c Hi) as (z & Hz' & Ez). exists z. split; [|done].
    rewrite ring_at_put_near by lia. rewrite <- Hz'. f_equal. lia.
  - exists y. split; [|done]. rewrite ring_at_put_near by (unfold zlen in *; lia). rewrite <- Hy, Hz. f_equal. lia.
Qed.

Lemma zlen_cons {A} (x : A) l : zlen (x :: l) = 1 + zlen l.
Proof. unfold zlen. cbn [length]. lia. Qed.

Lemma fill_num_li_grows tn xs : forall s xs' last f, fill_loop tn xs s = Ret (xs', last, f) -> fill_num_li s <= fill_num_li f.
Proof.
  induction xs as [|x xs IH]; intros s xs' last f E; cbn [fill_loop] in E; [injection E as <- <- <-; lia|].
  destruct (_ <? sdu_remaining_size x); [destruct (memcpy _ _ _ _ _); [|done]; injection E as <- <- <-; cbn; lia|].
  destruct (_ =? f_pdu_remaining_size s); [destruct (memcpy _ _ _ _ _); [|done]; injection E as <- <- <-; cbn; lia|].
  destruct (_ <? _); [|done]. destruct (memcpy _ _ _ _ _) as [mem|]; [|done]. cbn [mbind cres_bind] in E.
  destruct (put_li _ _ _ _ _ _) as [[mem1 e1]|]; [|done]. cbn [mbind cres_bind] in E. apply IH in E. cbn [fill_num_li] in E. lia.
Qed.

(** The bytes that leave the queue are those of the payload. *)
Lemma payload_counts a b n : (i32 (a + n) + i32 (b - n)) mod 2 ^ 32 = (a + b) mod 2 ^ 32.
Proof. rewrite Zplus_mod, !mod_i32, <- Zplus_mod. f_equal. lia. Qed.

(** The second pass over the ring is the one of [RlcUmTx] over the list of the SDUs. *)
Lemma am_fill_ok tn xs : forall K q s pay xs' last f fuel,
  zlen (am_input_sdus q) = 128 -> (length xs <= 127)%nat -> ring_holds K xs (am_input_sdus q) ->
  current_sdu_index q = K mod 128 -> Forall short xs -> 0 <= f_pdu_remaining_size s -> (length xs < fuel)%nat ->
  fill_loop tn xs s = Ret (xs', last, f) -> fill_num_li f <= 31 -> - 2 ^ 31 <= pay < 2 ^ 31 ->
  exists q' pay', am_fill_loop fuel tn q pay s = Ret (q', pay', last, f) /\ filled K xs xs' q q' /\
    - 2 ^ 31 <= pay' < 2 ^ 31 /\ (pay' + f_buffer_occupancy f) mod 2 ^ 32 = (pay + f_buffer_occupancy s) mod 2 ^ 32.
Proof.
  induction xs as [|b xs IH]; intros K q s pay xs' last f fuel Hl Hn Hh Hc Hs Hp Hfuel E Hli Hpay;
    (destruct fuel as [|fuel]; [cbn in Hfuel; lia|]); cbn [am_fill_loop]; rewrite Hc.
  { injection E as <- <- <-. destruct Hh as [_ (y & Hy & Ey)]. change (zlen []) with 0 in Hy. rewrite Z.add_0_r in Hy.
    rewrite (ring_get 128 ltac:(lia) _ _ _ Hy). cbn [mbind cres_bind]. rewrite Ey. exists q, pay. split_and!; [done| |lia..|done].
    apply filled_nothing; try done. split; [intros i c Hi; by destruct i|exists y; by rewrite Z.add_0_r]. }
  pose proof Hh as [Hh' _]. destruct (Hh' 0%nat b eq_refl) as (x & Hx & Ex & Eb). rewrite Z.add_0_r in Hx.
  rewrite (ring_get 128 ltac:(lia) _ _ _ Hx). cbn [mbind cres_bind]. rewrite Ex, Eb. cbn [fill_loop] in E. cbn [length] in *.
  apply Forall_cons_1 in Hs as [(S1 & S2 & S3) Hs].
  assert (Hleave : forall q1 q', q1 = Queue (ring_put 128 (am_input_sdus q) K (gone x)) (nb_sdu q) (nb_sdu_no_segmented q - 1)
      (next_sdu_index q) (K mod 128) (sdu_buffer_occupancy q) ->
    filled (K + 1) xs xs' (set_current q1 (next_place (current_sdu_index q1))) q' -> filled K (b :: xs) xs' q q').
  { intros q1 q' -> Hq. cbn [current_sdu_index] in Hq. rewrite next_place_mod in Hq.
    by eapply (filled_leave K (b :: xs) q Hl ltac:(cbn; lia) Hh Hc b xs x). }
  destruct (Z.ltb_spec (f_pdu_remaining_size s) (sdu_remaining_size b)) as [Hlt|Hge].
  { destruct (memcpy _ _ _ _ _) as [mem|]; [|done]. cbn [mbind cres_bind] in *. injection E as <- <- <-.
    rewrite ring_set by (lia || done). cbn [mbind cres_bind]. do 2 eexists. split; [reflexivity|]. split; [|split; [apply i32_range|apply payload_counts]].
    rewrite !u16_small, !(i32_small (_ - f_pdu_remaining_size s)), !(i32_small (_ + f_pdu_remaining_size s)) by lia. by eapply filled_cut. }
  destruct (Z.eqb_spec (sdu_remaining_size b) (f_pdu_remaining_size s)) as [Heq|Hne].
  { destruct (memcpy _ _ _ _ _) as [mem|]; [|done]. cbn [mbind cres_bind] in *. injection E as <- <- <-.
    rewrite (free_in_sdu_data_ok K q x) by done. rewrite Hc. cbn [mbind cres_bind]. do 2 eexists. split; [reflexivity|]. split; [|split; [apply i32_range|rewrite Heq; apply payload_counts]].
    eapply Hleave; [reflexivity|]. apply filled_nothing; cbn; rewrite ?ring_put_len, ?next_place_mod; try done; [lia|].
    apply (ring_holds_tail K b); [done|lia]. }
  destruct (Z.ltb_spec (sdu_remaining_size b + Z.lxor (f_li_length_in_bytes s) 3) (f_pdu_remaining_size s)) as [Hlt|]; [|done].
  destruct (memcpy _ _ _ _ _) as [mem|]; [|done]. cbn [mbind cres_bind] in *.
  destruct (put_li _ _ _ _ _ _) as [[mem1 e1]|]; [|done]. cbn [mbind cres_bind] in *.
  pose proof (fill_num_li_grows _ _ _ _ _ _ E) as Hgrow. cbn [fill_num_li] in Hgrow. unfold RLC_AM_MAX_SDU_IN_PDU.
  rewrite (proj2 (Z.eqb_neq (fill_num_li s) (32 - 1))) by lia. rewrite ring_set by (lia || done). cbn [mbind cres_bind].
  set (x0 := set_bytes x _). rewrite (free_in_sdu_data_ok K _ x0); cbn [set_sdus am_input_sdus];
    [|by rewrite ring_put_len|by rewrite ring_at_put by (done || lia)|done].
  cbn [mbind cres_bind set_sdus current_sdu_index nb_sdu nb_sdu_no_segmented next_sdu_index sdu_buffer_occupancy]. rewrite Hc.
  assert (Hg : gone x0 = gone x) by (unfold x0, gone; cbn; by rewrite Eb). rewrite Hg.
  replace (ring_put 128 (ring_put 128 (am_input_sdus q) K x0) K (gone x)) with (ring_put 128 (am_input_sdus q) K (gone x))
    by (unfold ring_put; by rewrite list_insert_insert_eq).
  edestruct (IH (K + 1)) as (q' & pay' & Ef & Hq & Hb1 & Hb2); [..|exact E|exact Hli| |]; cycle -1.
  { exists q', pay'. split; [exact Ef|]. split; [by eapply Hleave|]. split; [done|]. rewrite Hb2. apply payload_counts. }
  all: cbn [set_current am_input_sdus current_sdu_index f_pdu_remaining_size]; rewrite ?ring_put_len, ?next_place_mod; try done; try lia.
  - apply (ring_holds_tail K b); [done|lia].
  - apply i32_range.
Qed.

(** ** The header and the poll bit *)

Lemma small_cases (P : Z -> Prop) (n : nat) : (forall k : nat, (k < n)%nat -> P (Z.of_nat k)) -> forall y, 0 <= y < Z.of_nat n -> P y.
Proof. intros H y Hy. rewrite <- (Z2Nat.id y) by lia. apply H. lia. Qed.

Lemma poll_bit (p : bool) y : 0 <= y < 32 ->
  u8 (Z.lor (128 + b2z p * 32 + y) 0x20) = 128 + 32 + y /\ u8 (Z.land (128 + b2z p * 32 + y) 0xDF) = 128 + y.
Proof.
  revert y. apply (small_cases _ 32). intros k Hk. do 32 (destruct k as [|k]; [destruct p; by vm_compute|]). lia.
Qed.

(** The first octet of a PDU, the poll bit and the others. *)
Lemma enc_am_split sn x : 0 <= sn < 1024 -> exists y R, 0 <= y < 32 /\
  forall p, enc_am_pdu p sn x = byte.of_Z (128 + b2z p * 32 + y) :: R.
Proof.
  intros Hsn. set (e := match zlen <$> removelast (u_fields x) with [] => 0 | _ => 1 end).
  exists (fi_of (u_first x) (u_last x) * 8 + e * 4 + sn / 256). eexists. split; [|intros p'; unfold enc_am_pdu, enc_am_header; cbn [app fmap list_fmap]; rewrite !Z.add_assoc; reflexivity].
  assert (0 <= e <= 1) by (unfold e; destruct (zlen <$> _); lia). pose proof (fi_range (u_first x) (u_last x)) as Hfi.
  assert (0 <= fi_of (u_first x) (u_last x) < 4) by (unfold fi_of; destruct (u_first x), (u_last x); lia).
  Z.div_mod_to_equations; lia.
Qed.

(** Polling sets or clears the poll bit of a PDU. *)
(** The timer of the poll is left as it is or started. *)
Definition poll_step (now : Z) (p p' : am_poll) : Prop :=
  t_poll_retransmit p' = t_poll_retransmit p \/
  t_poll_retransmit p' = rlc_am_start_timer_poll_retransmit now (t_poll_retransmit p).

Lemma poll_step_quiet now p p' : poll_step now p p' -> timed_out (t_poll_retransmit p) = 0 -> timed_out (t_poll_retransmit p') = 0.
Proof. intros [-> | ->] H; [done|]. unfold rlc_am_start_timer_poll_retransmit. by destruct (_ && _). Qed.

Lemma poll_step_trans now p1 p2 p3 : poll_step now p1 p2 -> poll_step now p2 p3 -> poll_step now p1 p3.
Proof.
  unfold poll_step. intros [-> | E1] [E2|E2]; rewrite ?E2, ?E1; auto. right. unfold rlc_am_start_timer_poll_retransmit.
  set (t := t_poll_retransmit p1). destruct (running t =? 0) eqn:H1; [destruct (0 <? ms_duration t) eqn:H2|]; cbn [andb running ms_duration];
    rewrite ?H1, ?H2; done.
Qed.

Lemma polling_enc now e p sn x junk n : 0 <= sn < 1024 ->
  exists pl p', rlc_am_pdu_polling now e (enc_am_pdu p sn x ++ junk) n = Ret (set_tx_poll e pl, enc_am_pdu p' sn x ++ junk) /\
    poll_step now (tx_poll e) pl.
Proof.
  intros Hsn. destruct (enc_am_split sn x Hsn) as (y & R & Hy & HR). unfold rlc_am_pdu_polling. rewrite (HR p).
  assert (Ho : octet ((byte.of_Z (128 + b2z p * 32 + y) :: R) ++ junk) 0 = Ret (128 + b2z p * 32 + y)).
  { change (octet ([] ++ byte.of_Z (128 + b2z p * 32 + y) :: (R ++ junk)) 0 = Ret (128 + b2z p * 32 + y)).
    rewrite octet_app by done. rewrite byte.unsigned_of_Z. unfold byte.wrap.
    rewrite Z.mod_small; [done|]. destruct p; cbn [b2z]; lia. }
  rewrite Ho. cbn [mbind cres_bind].
  assert (Hp : forall v, put_octet ((byte.of_Z (128 + b2z p * 32 + y) :: R) ++ junk) 0 v = Ret (byte.of_Z (u8 v) :: R ++ junk)).
  { intros v. exact (put_octet_app [] (byte.of_Z (128 + b2z p * 32 + y)) (R ++ junk) v 0 eq_refl). }
  destruct (poll_bit p y Hy) as [B1 B2].
  destruct (_ || force_poll (tx_poll e)); rewrite Hp; cbn [mbind cres_bind]; rewrite ?B1, ?B2.
  - eexists _, true. split; [by rewrite (HR true)|]. by right.
  - eexists _, false. split; [by rewrite (HR false); cbn [b2z]; rewrite Z.mul_0_l, Z.add_0_r|]. by left.
Qed.

Lemma header_bits fi (b : bool) h : 0 <= fi < 4 -> 0 <= h < 4 ->
  u8 (Z.lor (Z.lor (if b then Z.lor (u8 (Z.lor 0 (Z.shiftl fi 3))) 4 else u8 (Z.lor 0 (Z.shiftl fi 3))) 128) h) =
  128 + b2z false * 32 + fi * 8 + b2z b * 4 + h.
Proof.
  intros Hfi Hh. revert h Hh. pattern fi. revert fi Hfi. apply (small_cases _ 4). intros k Hk.
  cbv beta. intros h Hh. pattern h. revert h Hh. apply (small_cases _ 4). intros j Hj.
  do 4 (destruct k as [|k]; [do 4 (destruct j as [|j]; [by destruct b|]); lia|]). lia.
Qed.

Lemma am_put_header_ok fi n sn R : 0 <= fi < 4 -> 0 <= sn < 1024 ->
  am_put_header fi n sn (zeros 2 ++ R) =
  Ret ((byte.of_Z <$> [128 + b2z false * 32 + fi * 8 + b2z (0 <? n) * 4 + sn / 256; sn mod 256]) ++ R).
Proof.
  intros Hfi Hsn. unfold am_put_header. cbn [zeros replicate app]. pose proof (octet_app [] Byte.x00 (Byte.x00 :: R) 0 eq_refl) as Ho. cbn [app] in Ho. rewrite Ho.
  cbn [mbind cres_bind app]. change (byte.unsigned Byte.x00) with 0.
  rewrite (put_octet_app [] Byte.x00 (Byte.x00 :: R)) by done. cbn [app mbind cres_bind].
  match goal with |- put_octet (?a :: _) _ _ = _ => rewrite (put_octet_app [a] Byte.x00 R) by done end. cbn [app fmap list_fmap].
  rewrite Z.shiftr_div_pow2 by lia. change (2 ^ 8) with 256. cbv zeta. rewrite header_bits by (done || (Z.div_mod_to_equations; lia)).
  rewrite (Z.land_ones sn 8 ltac:(lia) : Z.land sn 255 = _). change (2 ^ 8) with 256.
  rewrite (u8_small (sn mod 256)) by (apply Z.mod_pos_bound; lia). done.
Qed.

(** ** The specification of the transmitter *)

(** A PDU that was sent: its fields, the count of its first SDU, and whether it is acknowledged. *)
Record sent_pdu := Sent {
  sp_upd : upd;
  sp_first : Z;
  sp_acked : bool;
}.

(** The message units of the SDUs that were accepted, the SDUs that wait, the PDUs sent, the lower edge
    of the window, and the counts of the SDUs that were confirmed, in the order of the confirmations. *)
Record am_spec := Spec {
  s_muis : list Z;
  s_queue : list waiting;
  s_sent : list sent_pdu;
  s_low : Z;
  s_conf : list Z;
}.

(** The count of the first SDU that waits. *)
Definition s_head (s : am_spec) : Z := zlen (s_muis s) - zlen (s_queue s).

Definition covers (k : Z) (p : sent_pdu) : bool := (sp_first p <=? k) && (k <? sp_first p + zlen (u_fields (sp_upd p))).
Definition covers_acked (k : Z) (p : sent_pdu) : bool := covers k p && sp_acked p.

(** The number of the PDUs with a property. *)
Definition tally (f : sent_pdu -> bool) (l : list sent_pdu) : Z := foldr (fun p n => b2z (f p) + n) 0 l.

(** Every byte of the SDU was sent, and every PDU with some of them is acknowledged. *)
Definition sdu_done (s : am_spec) (k : Z) : bool :=
  (k <? s_head s) && (tally (covers_acked k) (s_sent s) =? tally (covers k) (s_sent s)).

Definition sdu_live (s : am_spec) (k : Z) : bool := (0 <=? k) && negb (sdu_done s k).

(** The members of an SDU that count its PDUs. *)
Record sdu_counts (muis : list Z) (sent : list sent_pdu) (k : Z) (x : am_sdu) : Prop := {
  sc_mui : muis !! Z.to_nat k = Some (sdu_mui x);
  sc_pdus : zlen (pdus_index x) = 32;
  sc_nb : nb_pdus x = tally (covers k) sent;
  sc_ack : nb_pdus_ack x = tally (covers_acked k) sent;
  sc_max : nb_pdus x <= 31;
  sc_flag : flag_segmented x = 0;
  sc_success : transmitted_successfully x = 0;
}.

(** The place of an SDU that is not done. *)
Record live_sdu (s : am_spec) (k : Z) (x : am_sdu) : Prop := {
  ls_counts : sdu_counts (s_muis s) (s_sent s) k x;
  ls_wait : forall w, s_head s <= k -> s_queue s !! Z.to_nat (k - s_head s) = Some w -> mem_block x = true /\ tsdu_ok w (am_bytes x);
  ls_gone : k < s_head s -> mem_block x = false /\ sdu_remaining_size (am_bytes x) = 0;
}.

Definition free_sdu (x : am_sdu) : Prop := mem_block x = false /\ flag_segmented x = 0.

(** The queue of the entity. *)
Record queue_ok (s : am_spec) (q : am_queue) : Prop := {
  qk_len : zlen (am_input_sdus q) = 128;
  qk_current : current_sdu_index q = s_head s mod 128;
  qk_next : next_sdu_index q = zlen (s_muis s) mod 128;
  qk_no_seg : nb_sdu_no_segmented q = zlen (s_queue s);
  qk_head : 0 <= s_head s;
  qk_small : zlen (s_queue s) <= 127;
  qk_bo : sdu_buffer_occupancy q = queue_bytes (s_queue s);
  qk_max : queue_bytes (s_queue s) < 2 ^ 30;
  qk_fresh : Forall (fun w => w.1 = []) (tail (s_queue s));
  qk_slots : forall k, zlen (s_muis s) - 128 <= k < zlen (s_muis s) -> exists x, sdu_at (am_input_sdus q) k = Some x /\
    if sdu_live s k then live_sdu s k x else free_sdu x;
  qk_window : forall k, 0 <= k < zlen (s_muis s) - 128 -> sdu_done s k = true;
  qk_cover : Forall (fun p => 0 <= sp_first p /\
    sp_first p + zlen (u_fields (sp_upd p)) <= s_head s + match sent_of (s_queue s) with [] => 0 | _ => 1 end) (s_sent s);
}.

(** A block that starts with a PDU. *)
Definition block_of (tb : mac_tb_req) (sn : Z) (u : upd) : Prop :=
  exists pb, tr_size tb = zlen (enc_am_pdu pb sn u) /\ take (Z.to_nat (tr_size tb)) (tr_data tb) = enc_am_pdu pb sn u.

(** The entry of the retransmission buffer of the PDU of count [c]. *)
Record stored_pdu (c : Z) (p : sent_pdu) (m : am_pdu) : Prop := {
  st_nb : nb_sdus m = zlen (u_fields (sp_upd p));
  st_max : zlen (u_fields (sp_upd p)) <= 32;
  st_sdus : take (length (u_fields (sp_upd p))) (sdus_index m) = places (sp_first p) (length (u_fields (sp_upd p)));
  st_ack : flag_ack m = b2z (sp_acked p);
  st_retx : retx_count m = -1;
  st_payload : payload_size (pdu_holes m) = zlen (concat (u_fields (sp_upd p)));
  st_block : if sp_acked p then pdu_block m = None else
    exists tb, pdu_block m = Some tb /\ block_of tb (c mod 1024) (sp_upd p) /\ header_and_payload_size m = tr_size tb /\ tr_size tb < 2 ^ 16;
}.

(** The retransmission buffer and the window when nothing is to be sent again. *)
Record retx_ok (s : am_spec) (r : am_retx) : Prop := {
  rk_len : zlen (pdu_retrans_buffer r) = 1024;
  rk_low : 0 <= s_low s <= zlen (s_sent s);
  rk_window : zlen (s_sent s) <= s_low s + 512;
  rk_a : tx_vt_a r = s_low s mod 1024;
  rk_ms : tx_vt_ms r = (s_low s + 512) mod 1024;
  rk_s : tx_vt_s r = zlen (s_sent s) mod 1024;
  rk_first : first_retrans_pdu_sn r = -1;
  rk_below : forall c p, s_sent s !! c = Some p -> Z.of_nat c < s_low s -> sp_acked p = true;
  rk_edge : forall p, s_sent s !! Z.to_nat (s_low s) = Some p -> sp_acked p = false;
  rk_stored : forall c p, s_sent s !! c = Some p -> s_low s <= Z.of_nat c ->
    exists m, pdu_at (pdu_retrans_buffer r) (Z.of_nat c) = Some m /\ stored_pdu (Z.of_nat c) p m;
}.

(** [rlc_data_conf] of [rlc.c]: what the confirmation function of RRC gets, when it is [registered]. *)
Definition rlc_data_conf (registered : bool) (call : Z * Z * Z * Z) : option (Z * Z * Z) :=
  let '(srb_flagP, rb_idP, muiP, statusP) := call in
  if negb (srb_flagP =? 0) && registered then Some (rb_idP, muiP, statusP) else None.

(** The call for an SDU of message unit [mui] in the order of the parameters: the bearer is given as
    [srb_flagP], the message unit as [rb_idP], the status as [muiP], and the plane as [statusP]. *)
Definition conf_args (e : am_tx) (mui status : Z) : Z * Z * Z * Z :=
  (i8 (am_rb_id e), u16 mui, status, b2z (am_is_data_plane e)).

Definition conf_call (e : am_tx) (s : am_spec) (k : Z) : option (Z * Z * Z * Z) :=
  (fun mui => conf_args e mui 1) <$> s_muis s !! Z.to_nat k.

(** The confirmations are those of the SDUs that are done, each one once. *)
Record am_ok (s : am_spec) (e : am_tx) : Prop := {
  ao_queue : queue_ok s (tx_queue e);
  ao_retx : retx_ok s (tx_retx e);
  ao_timer : timed_out (t_poll_retransmit (tx_poll e)) = 0;
  ao_nodup : NoDup (s_conf s);
  ao_conf : forall k, k ∈ s_conf s <-> 0 <= k /\ sdu_done s k = true;
  ao_calls : confirmations e = omap (conf_call e s) (s_conf s);
}.

(** ** Lemmas on the counts *)

Lemma tally_app f l1 l2 : tally f (l1 ++ l2) = tally f l1 + tally f l2.
Proof. unfold tally. induction l1 as [|p l IH]; cbn [app foldr]; [done|]. rewrite IH. lia. Qed.

Lemma tally_snoc f l p : tally f (l ++ [p]) = tally f l + b2z (f p).
Proof. rewrite tally_app. unfold tally at 2. cbn [foldr]. lia. Qed.

Lemma tally_le f g l : (forall p, f p = true -> g p = true) -> 0 <= tally f l <= tally g l.
Proof.
  intros H. induction l as [|p l IH]; cbn [tally foldr]; [lia|]. unfold tally in IH. specialize (H p).
  destruct (f p); cbn [b2z]; [rewrite H by done|destruct (g p)]; cbn [b2z]; lia.
Qed.

Lemma covers_acked_le k l : 0 <= tally (covers_acked k) l <= tally (covers k) l.
Proof. apply tally_le. intros p Hp. by apply andb_prop in Hp as [? _]. Qed.

Lemma tally_none f l : Forall (fun p => f p = false) l -> tally f l = 0.
Proof. induction 1 as [|p l Hp _ IH]; [done|]. cbn [tally foldr]. unfold tally in IH. rewrite Hp, IH. done. Qed.

(** No PDU reaches an SDU behind the one that is being sent. *)
Lemma covers_none s q k : queue_ok s q -> s_head s + match sent_of (s_queue s) with [] => 0 | _ => 1 end <= k ->
  tally (covers k) (s_sent s) = 0 /\ tally (covers_acked k) (s_sent s) = 0.
Proof.
  intros Hq Hk. assert (H0 : tally (covers k) (s_sent s) = 0).
  { apply tally_none. refine (Forall_impl _ _ (qk_cover _ _ Hq)). intros p (_ & H). unfold covers.
    rewrite (proj2 (Z.ltb_ge k _)) by lia. apply andb_false_r. }
  pose proof (covers_acked_le k (s_sent s)). lia.
Qed.

(** ** A new SDU *)

Definition spec_submit (mui : Z) (sdu : list byte) (s : am_spec) : am_spec :=
  Spec (s_muis s ++ [mui]) (s_queue s ++ [([], sdu)]) (s_sent s) (s_low s) (s_conf s).

Lemma submit_head mui sdu s : s_head (spec_submit mui sdu s) = s_head s.
Proof. unfold s_head, spec_submit. cbn. rewrite !zlen_app. change (zlen [mui]) with 1. change (zlen [([] : list byte, sdu)]) with 1. lia. Qed.

Lemma submit_done mui sdu s k : sdu_done (spec_submit mui sdu s) k = sdu_done s k.
Proof. unfold sdu_done. by rewrite submit_head. Qed.

Lemma submit_counts muis mui sent k x : sdu_counts muis sent k x -> sdu_counts (muis ++ [mui]) sent k x.
Proof. intros []. constructor; try done. by apply lookup_app_l_Some. Qed.

(** A place of the ring is not touched by the new SDU. *)
Lemma submit_live mui sdu s k x : live_sdu s k x -> k < zlen (s_muis s) -> live_sdu (spec_submit mui sdu s) k x.
Proof.
  intros [H1 H2 H3] Hk. constructor; [by apply submit_counts|..]; rewrite submit_head; [|done].
  intros w Hw. cbn [spec_submit s_queue]. rewrite lookup_app_l; [by apply H2|]. unfold s_head, zlen in *. lia.
Qed.

Lemma am_data_req_ok frame mui sdu s q : queue_ok s q -> 0 < zlen sdu < 2 ^ 16 -> zlen (s_queue s) <= 126 ->
  queue_bytes (s_queue s) + zlen sdu < 2 ^ 30 -> zlen (s_muis s) < 128 \/ sdu_done s (zlen (s_muis s) - 128) = true ->
  exists q', rlc_am_data_req frame mui sdu (zlen sdu) q = Ret q' /\ queue_ok (spec_submit mui sdu s) q'.
Proof.
  intros Hq Hsdu Hroom Hb Hfree. pose proof Hq as [Q1 Q2 Q3 Q4 Q5 Q6 Q7 Q8 Q9 Q10 Q11 Q12]. set (N := zlen (s_muis s)) in *.
  assert (Hh : s_head s = N - zlen (s_queue s)) by done. pose proof (zlen_nonneg (s_queue s)) as Hq0.
  assert (Hlive : sdu_live s (N - 128) = false).
  { unfold sdu_live. destruct Hfree as [H|H]; [by rewrite (proj2 (Z.leb_gt 0 _)) by lia|rewrite H; apply andb_false_r]. }
  destruct (Q10 (N - 128) ltac:(lia)) as (x & Hx & Fx). rewrite Hlive in Fx. destruct Fx as [F1 F2].
  assert (Hx' : sdu_at (am_input_sdus q) N = Some x) by (rewrite <- Hx, <- (ring_at_turn 128 _ (N - 128)); f_equal; lia).
  assert (Hnext : (next_place (N mod 128) =? s_head s mod 128) = false).
  { rewrite next_place_mod. apply Z.eqb_neq. intros E. apply mod_near_eq in E; lia. }
  unfold rlc_am_data_req. rewrite Q3, (ring_get 128 ltac:(lia) _ _ _ Hx'), Q2, Hnext. cbn [mbind cres_bind].
  rewrite F1, F2. cbn [negb andb Z.eqb]. rewrite ring_set by (lia || done). cbn [mbind cres_bind]. eexists. split; [reflexivity|].
  assert (HN : zlen (s_muis (spec_submit mui sdu s)) = N + 1) by (cbn; rewrite zlen_app; done).
  assert (Hqz : zlen (s_queue (spec_submit mui sdu s)) = zlen (s_queue s) + 1) by (cbn; rewrite zlen_app; done).
  assert (Hqb : queue_bytes (s_queue (spec_submit mui sdu s)) = queue_bytes (s_queue s) + zlen sdu).
  { cbn. clear. induction (s_queue s) as [|w l IH]; [cbn; lia|]. unfold queue_bytes in *. cbn [app foldr]. lia. }
  pose proof (queue_bytes_nonneg (s_queue s)) as Hqn. rewrite (u16_small (zlen sdu)) by lia.
  constructor; rewrite ?submit_head, ?HN, ?Hqz, ?Hqb; cbn [am_input_sdus current_sdu_index next_sdu_index nb_sdu_no_segmented sdu_buffer_occupancy]; try done; try lia.
  - by rewrite ring_put_len.
  - apply next_place_mod.
  - rewrite Q7. by rewrite i32_small by lia.
  - cbn. destruct (s_queue s); [done|]. apply Forall_app. split; [done|by constructor].
  - intros k Hk. unfold sdu_live. rewrite submit_done. destruct (Z.eq_dec k N) as [->|Hne].
    + eexists. rewrite ring_at_put by (done || lia). split; [reflexivity|].
      assert (Hd : sdu_done s N = false) by (unfold sdu_done; by rewrite (proj2 (Z.ltb_ge N _)) by lia).
      rewrite Hd, (proj2 (Z.leb_le 0 N)) by (unfold N, zlen; lia). cbn [andb negb].
      destruct (covers_none s q N Hq) as [T1 T2].
      { unfold s_head. fold N. destruct (s_queue s) as [|w l]; [cbn; lia|]. rewrite zlen_cons. pose proof (zlen_nonneg l). destruct (sent_of _); lia. }
      constructor.
      * constructor; cbn; rewrite ?T1, ?T2; try done. apply lookup_app_Some. right. split; [unfold N, zlen; lia|]. unfold N, zlen. by rewrite Nat2Z.id, Nat.sub_diag.
      * rewrite submit_head. intros w _ Hw. split; [done|]. cbn in Hw. rewrite lookup_app_r in Hw by (unfold s_head, N, zlen; lia).
        apply list_lookup_singleton_Some in Hw as [_ <-]. constructor; cbn [fst snd am_bytes sdu_data tsdu_size sdu_remaining_size sdu_segmented_size]; change (zlen (@nil byte)) with 0; (done || lia).
      * rewrite submit_head. unfold s_head. fold N. lia.
    + rewrite ring_at_put_near by lia. destruct (Q10 k ltac:(lia)) as (y & Hy & Fy). exists y. split; [done|]. unfold sdu_live in Fy.
      destruct ((0 <=? k) && negb (sdu_done s k)); [|done]. apply submit_live; [done|lia].
  - intros k Hk. rewrite submit_done. destruct (Z.eq_dec k (N - 128)) as [->|]; [|apply Q11; lia]. destruct Hfree; [lia|done].
  - replace (sent_of (s_queue (spec_submit mui sdu s))) with (sent_of (s_queue s)) by (cbn; by destruct (s_queue s) as [|[]]). done.
Qed.

(** ** A new PDU *)

Definition spec_send (u : upd) (rest : list waiting) (s : am_spec) : am_spec :=
  Spec (s_muis s) rest (s_sent s ++ [Sent u (s_head s) false]) (s_low s) (s_conf s).

(** The SDUs that leave the queue are those of the fields, but for one that is not complete. *)
Lemma pack_shape q : forall T c fs last rest slack, Forall (fun w => 0 < zlen w.2) q -> full T c q -> 0 < T -> c = 1 \/ c = 2 ->
  pack T c q = (fs, last, rest, slack) ->
  zlen q - zlen rest = zlen fs - (if last then 0 else 1) /\ (last = false -> sent_of rest <> []).
Proof.
  induction q as [|[s d] q IH]; intros T c fs last rest slack Hq Hf HT Hc E; [by destruct Hf|].
  pose proof (full_next T c _ _ Hf) as Hf'. rewrite pack_cons in E. apply Forall_cons_1 in Hq as [Hd Hq]. cbn [snd] in *.
  assert (H1 : forall f : list byte, zlen [f] = 1) by done.
  destruct (Z.ltb_spec T (zlen d)).
  { injection E as <- <- <- <-. rewrite H1, !zlen_cons. split; [lia|]. intros _ Hn. cbn [sent_of] in Hn.
    apply app_eq_nil in Hn as [_ Hn]. apply (f_equal zlen) in Hn. unfold zlen in *. rewrite length_take in Hn. cbn in Hn. lia. }
  destruct (zlen d =? T); [injection E as <- <- <- <-; rewrite H1, zlen_cons; split; [lia|done]|].
  destruct (zlen d + c =? T); [injection E as <- <- <- <-; rewrite H1, zlen_cons; split; [lia|done]|].
  destruct (Z.ltb_spec (zlen d + c) T); [|injection E as <- <- <- <-; rewrite H1, zlen_cons; split; [lia|done]].
  destruct (pack _ _ q) as [[[fs' last'] rest'] slack'] eqn:Ep. injection E as <- <- <- <-.
  apply IH in Ep as [I1 I2]; [|done|apply Hf'; lia|lia|lia]. rewrite !zlen_cons. split; [lia|done].
Qed.

Section Send.
Context (s : am_spec) (Q : am_queue) (u : upd) (fs : list (list byte)) (last : bool) (rest : list waiting).
Context (Hq : queue_ok s Q) (Hu : u_fields u = fs) (Hfs : fs <> []).
Context (Hshape : zlen (s_queue s) - zlen rest = zlen fs - (if last then 0 else 1)) (Hsent : last = false -> sent_of rest <> []).

Abbreviation K := (s_head s).
Abbreviation s' := (spec_send u rest s).

Lemma send_head : s_head s' = K + (zlen (s_queue s) - zlen rest).
Proof using. unfold s_head. cbn. lia. Qed.

Lemma send_covers k : covers k (Sent u K false) = (K <=? k) && (k <? K + zlen fs).
Proof using Hu. unfold covers. cbn. by rewrite Hu. Qed.

Lemma send_tally k : tally (covers k) (s_sent s') = tally (covers k) (s_sent s) + b2z ((K <=? k) && (k <? K + zlen fs)) /\
  tally (covers_acked k) (s_sent s') = tally (covers_acked k) (s_sent s).
Proof using Hu.
  cbn [spec_send s_sent]. rewrite !tally_snoc, send_covers. split; [done|]. unfold covers_acked at 2. cbn [sp_acked].
  rewrite andb_false_r. cbn. lia.
Qed.

(** No SDU is done by the PDU. *)
Lemma send_done k : sdu_done s' k = sdu_done s k.
Proof using Hu Hshape Hfs Hsent.
  apply zlen_pos in Hfs. unfold sdu_done. rewrite send_head. destruct (send_tally k) as [-> ->]. pose proof (covers_acked_le k (s_sent s)).
  destruct (Z.ltb_spec k K) as [H1|H1].
  - rewrite (proj2 (Z.ltb_lt k _)), (proj2 (Z.leb_gt K k)) by (destruct last; lia). cbn [andb b2z]. by rewrite Z.add_0_r.
  - destruct (Z.ltb_spec k (K + (zlen (s_queue s) - zlen rest))) as [H2|]; [|done]. cbn [andb].
    rewrite (proj2 (Z.leb_le K k)), (proj2 (Z.ltb_lt k (K + zlen fs))) by (destruct last; lia). cbn [andb b2z]. apply Z.eqb_neq. lia.
Qed.

(** The counts of an SDU after the first pass. *)
Lemma send_counts place k x : sdu_counts (s_muis s) (s_sent s) k x -> nb_pdus x < 31 \/ k < K \/ K + zlen fs <= k ->
  sdu_counts (s_muis s') (s_sent s') k (if (K <=? k) && (k <? K + zlen fs) then noted place x else x).
Proof using Hu.
  intros [C1 C2 C3 C4 C5 C6 C7] Hk. destruct (send_tally k) as [T1 T2].
  destruct (Z.leb_spec K k), (Z.ltb_spec k (K + zlen fs)); cbn [andb b2z] in *; constructor; rewrite ?T1, ?T2; cbn; try done; try lia.
  unfold zlen. by rewrite length_insert.
Qed.

(** The queue after the two passes: [sdus] is the ring after the first one. *)
Lemma send_queue place sdus xs xs' q' bo :
  rest = [] \/ zlen rest <= zlen (s_queue s) -> zlen fs <= zlen (s_queue s) -> zlen xs = zlen (s_queue s) ->
  (forall j, K <= j < K + zlen fs -> sdu_at sdus j = noted place <$> sdu_at (am_input_sdus Q) j) ->
  (forall j, K + zlen fs <= j < K + 128 -> sdu_at sdus j = sdu_at (am_input_sdus Q) j) ->
  filled K xs xs' (set_sdus Q sdus) q' -> Forall2 tsdu_ok rest xs' -> Forall (fun w => w.1 = []) (tail rest) ->
  tally (covers K) (s_sent s) < 31 -> queue_bytes rest < 2 ^ 30 -> bo = queue_bytes rest ->
  queue_ok s' (set_occupancy q' bo).
Proof using Hq Hu Hfs Hshape Hsent.
  intros Hr0 Hf0 Hxs Hc1 Hc2 [F1 F2 F3 F4 F5 F6 F7 F8 F9] Hrest Htail H31 Hmax ->.
  pose proof (Forall2_length Hrest) as Hlen. assert (Hz : zlen xs' = zlen rest) by (unfold zlen; lia).
  pose proof Hq as [Q1 Q2 Q3 Q4 Q5 Q6 Q7 Q8 Q9 Q10 Q11 Q12]. pose proof (proj2 (zlen_pos fs) Hfs) as Hfs'.
  cbn [set_sdus am_input_sdus current_sdu_index next_sdu_index nb_sdu nb_sdu_no_segmented sdu_buffer_occupancy] in *.
  rewrite Hz, Hxs in *. set (n := zlen (s_queue s) - zlen rest) in *. set (N := zlen (s_muis s)) in *.
  assert (HK : K = N - zlen (s_queue s)) by done. assert (Hn : n = zlen (s_queue s) - zlen rest) by done. pose proof (zlen_nonneg rest).
  constructor; rewrite ?send_head; cbn [set_occupancy am_input_sdus current_sdu_index next_sdu_index nb_sdu nb_sdu_no_segmented
    sdu_buffer_occupancy spec_send s_muis s_queue s_sent]; fold N; fold n; try done; try lia.
  - (* the places *)
    intros k Hk. unfold sdu_live. rewrite send_done. destruct (Q10 k Hk) as (x & Hx & Fx). unfold sdu_live in Fx.
    assert (Hpass : sdu_at sdus k = Some (if (K <=? k) && (k <? K + zlen fs) then noted place x else x)).
    { destruct (Z.leb_spec K k); [destruct (Z.ltb_spec k (K + zlen fs)); cbn [andb]|cbn [andb]].
      - by rewrite Hc1, Hx by lia.
      - by rewrite Hc2, Hx by lia.
      - by rewrite <- (ring_at_turn 128 sdus), Hc2, ring_at_turn, Hx by lia. }
    set (x1 := if _ && _ then _ else x) in *.
    destruct (Z.ltb_spec k K) as [Hb|Hb].
    { (* an SDU of before *)
      exists x. split.
      - rewrite <- (ring_at_turn 128), F9, ring_at_turn, Hpass by lia. unfold x1. by rewrite (proj2 (Z.leb_gt K k)) by lia.
      - destruct ((0 <=? k) && negb (sdu_done s k)); [|done]. destruct Fx as [C1 C2 C3].
        pose proof (send_counts place k x C1 ltac:(lia)) as C. rewrite (proj2 (Z.leb_gt K k)) in C by lia.
        constructor; [done|rewrite send_head; fold n; intros; lia|]. intros _. apply C3. lia. }
    assert (Hnd : sdu_done s k = false) by (unfold sdu_done; by rewrite (proj2 (Z.ltb_ge k K)) by lia).
    rewrite Hnd, (proj2 (Z.leb_le 0 k)) in * by lia. cbn [andb negb] in *. destruct Fx as [C1 C2 C3].
    assert (C : sdu_counts (s_muis s') (s_sent s') k x1).
    { apply (send_counts place k x C1). destruct (Z.eq_dec k K) as [->|]; [left; destruct C1 as [_ _ -> _ _ _ _]; done|].
      left. destruct C1 as [_ _ -> _ _ _ _]. destruct (covers_none s Q k Hq) as [-> _]; [|lia]. destruct (sent_of (s_queue s)); lia. }
    destruct (Z.ltb_spec k (K + n)) as [Hg|Hg].
    + exists (gone x1). rewrite F7, Hpass by lia. split; [done|]. constructor; [by destruct C; constructor|rewrite send_head; fold n; intros; lia|done].
    + destruct (lookup_lt_is_Some_2 xs' (Z.to_nat (k - (K + n)))) as [b Hb']; [unfold zlen in *; lia|].
      destruct (F8 _ _ Hb') as (y & Hy & Hy'). replace (K + n + Z.of_nat (Z.to_nat (k - (K + n)))) with k in * by lia.
      rewrite Hpass in Hy. injection Hy as <-. exists (set_bytes x1 b). split; [done|].
      constructor; [by destruct C; constructor| |rewrite send_head; fold n; intros; lia]. rewrite send_head. fold n. intros w _ Hw.
      pose proof (Forall2_lookup_lr _ _ _ _ _ _ Hrest Hw Hb'). split; [|done]. cbn [set_bytes mem_block].
      assert (Hmb : mem_block x1 = mem_block x) by (unfold x1; by destruct (_ && _)). rewrite Hmb.
      destruct (lookup_lt_is_Some_2 (s_queue s) (Z.to_nat (k - K))) as [w0 Hw0]; [unfold zlen in *; lia|]. by destruct (C2 w0 Hb Hw0).
  - intros k Hk. rewrite send_done. by apply Q11.
  - (* the SDUs of the PDUs *)
    apply Forall_app. split.
    + refine (Forall_impl _ _ Q12). intros p (P1 & P3). split; [done|].
      destruct last; [destruct (sent_of (s_queue s)), (sent_of rest); lia|].
      specialize (Hsent eq_refl). destruct (sent_of rest); [done|]. destruct (sent_of (s_queue s)); lia.
    + constructor; [|done]. cbn [sp_first sp_upd]. rewrite Hu. split; [done|].
      destruct last; [destruct (sent_of rest); lia|]. specialize (Hsent eq_refl). destruct (sent_of rest); [done|lia].
Qed.

End Send.

(** ** The two passes over the ring *)

(** The place of an SDU that waits. *)
Lemma waiting_slot s Q i w : queue_ok s Q -> s_queue s !! i = Some w ->
  exists x, sdu_at (am_input_sdus Q) (s_head s + Z.of_nat i) = Some x /\ live_sdu s (s_head s + Z.of_nat i) x.
Proof.
  intros Hq Hi. pose proof (lookup_lt_Some _ _ _ Hi) as Hlt. pose proof (qk_small _ _ Hq) as Hs. pose proof (qk_head _ _ Hq) as Hh.
  assert (Hk : zlen (s_muis s) - 128 <= s_head s + Z.of_nat i < zlen (s_muis s)) by (unfold s_head, zlen in *; lia).
  destruct (qk_slots _ _ Hq _ Hk) as (x & Hx & Fx). exists x. split; [done|]. unfold sdu_live, sdu_done in Fx.
  rewrite (proj2 (Z.leb_le 0 _)), (proj2 (Z.ltb_ge _ (s_head s))) in Fx by lia. exact Fx.
Qed.

(** Nothing waits behind the SDUs. *)
Lemma waiting_end s Q : queue_ok s Q -> exists y, sdu_at (am_input_sdus Q) (zlen (s_muis s)) = Some y /\ mem_block y = false.
Proof.
  intros Hq. destruct (qk_slots _ _ Hq (zlen (s_muis s) - 128) ltac:(lia)) as (y & Hy & Fy). exists y. split.
  - rewrite <- Hy, <- (ring_at_turn 128 _ (_ - 128)). f_equal. lia.
  - destruct (sdu_live _ _); [|apply Fy]. apply (ls_gone _ _ _ Fy). pose proof (qk_small _ _ Hq). unfold s_head. lia.
Qed.

Definition bytes_at (sdus : list am_sdu) (k : Z) : tx_sdu :=
  match sdu_at sdus k with Some x => am_bytes x | None => TxSdu [] 0 0 0 0 end.

(** The blocks of the SDUs that wait. *)
Definition waiting_blocks (s : am_spec) (Q : am_queue) : list tx_sdu :=
  bytes_at (am_input_sdus Q) <$> seqZ (s_head s) (zlen (s_queue s)).

Lemma waiting_blocks_at s Q i : (i < length (s_queue s))%nat ->
  waiting_blocks s Q !! i = Some (bytes_at (am_input_sdus Q) (s_head s + Z.of_nat i)).
Proof. intros Hi. unfold waiting_blocks. rewrite list_lookup_fmap, lookup_seqZ_lt by (unfold zlen; lia). done. Qed.

Lemma waiting_blocks_ok s Q : queue_ok s Q -> Forall2 tsdu_ok (s_queue s) (waiting_blocks s Q).
Proof.
  intros Hq. apply Forall2_same_length_lookup_2.
  - unfold waiting_blocks. rewrite length_fmap, length_seqZ. unfold zlen. lia.
  - intros i w b Hw Hb. rewrite waiting_blocks_at in Hb by (by eapply lookup_lt_Some). injection Hb as <-.
    destruct (waiting_slot s Q i w Hq Hw) as (x & Hx & [_ W _]). unfold bytes_at. rewrite Hx. apply W; [lia|].
    rewrite <- Hw. f_equal. lia.
Qed.

(** The first pass leaves the bytes of the SDUs. *)
Lemma counted_holds s Q place n sdus : queue_ok s Q -> (n <= length (s_queue s))%nat ->
  (forall j, s_head s <= j < s_head s + Z.of_nat n -> sdu_at sdus j = noted place <$> sdu_at (am_input_sdus Q) j) ->
  (forall j, s_head s + Z.of_nat n <= j < s_head s + 128 -> sdu_at sdus j = sdu_at (am_input_sdus Q) j) ->
  ring_holds (s_head s) (waiting_blocks s Q) sdus.
Proof.
  intros Hq Hn H1 H2. pose proof (qk_small _ _ Hq) as Hs.
  assert (Hz : zlen (waiting_blocks s Q) = zlen (s_queue s)) by (unfold zlen; by rewrite (Forall2_length (waiting_blocks_ok s Q Hq))). split.
  - intros i b Hb. pose proof (lookup_lt_Some _ _ _ Hb) as Hlt. assert (Hi : (i < length (s_queue s))%nat) by (unfold zlen in Hz; lia).
    rewrite waiting_blocks_at in Hb by done. injection Hb as <-. destruct (lookup_lt_is_Some_2 _ _ Hi) as [w Hw].
    destruct (waiting_slot s Q i w Hq Hw) as (x & Hx & [_ W _]).
    destruct (W w ltac:(lia)) as [Wm _]; [rewrite <- Hw; f_equal; lia|]. unfold bytes_at. rewrite Hx. unfold zlen in Hs.
    destruct (Z.ltb_spec (Z.of_nat i) (Z.of_nat n)).
    + exists (noted place x). by rewrite H1, Hx by lia.
    + exists x. by rewrite H2, Hx by lia.
  - destruct (waiting_end s Q Hq) as (y & Hy & Ey). exists y. split; [|done]. rewrite Hz, H2 by (unfold zlen in *; lia).
    rewrite <- Hy. f_equal. unfold s_head. lia.
Qed.

Lemma tsdu_short w x : tsdu_ok w x -> short x.
Proof. intros [_ _ T3 T4 _ T6]. unfold short. rewrite T3, T4. unfold zlen in *. lia. Qed.

(** The queue has as many SDUs as the PDU has fields, or more. *)
Lemma pack_length q : forall T c fs last rest slack, pack T c q = (fs, last, rest, slack) -> zlen fs <= zlen q /\ zlen rest <= zlen q.
Proof.
  induction q as [|[s d] q IH]; intros T c fs last rest slack E; [by injection E as <- <- <- <-|]. rewrite pack_cons in E.
  assert (H1 : forall f : list byte, zlen [f] = 1) by done. pose proof (zlen_nonneg q).
  destruct (T <? zlen d); [injection E as <- <- <- <-; rewrite H1, !zlen_cons; lia|].
  destruct (zlen d =? T); [injection E as <- <- <- <-; rewrite H1, !zlen_cons; lia|].
  destruct (zlen d + c =? T); [injection E as <- <- <- <-; rewrite H1, !zlen_cons; lia|].
  destruct (zlen d + c <? T); [|injection E as <- <- <- <-; rewrite H1, !zlen_cons; lia].
  destruct (pack _ _ q) as [[[fs' last'] rest'] slack'] eqn:Ep. injection E as <- <- <- <-. apply IH in Ep. rewrite !zlen_cons. lia.
Qed.

Section Passes.
Context (s : am_spec) (Q : am_queue) (u : upd) (fs : list (list byte)) (last : bool) (rest : list waiting) (T place : Z).
Context (Hq : queue_ok s Q) (Hu : u_fields u = fs) (Hfull : full T 2 (s_queue s)) (HT : 0 < T).
Context (Hpack : pack T 2 (s_queue s) = (fs, last, rest, 0)) (H32 : zlen fs <= 32).
Context (Hli : Forall (fun f => zlen f < 2048) (removelast fs)) (H31 : tally (covers (s_head s)) (s_sent s) < 31).

Abbreviation lis := (enc_lis (zlen <$> removelast fs)).

(** The first pass. *)
Lemma first_pass D : exists sdus idx c,
  am_count_loop 33 place (current_sdu_index Q) (am_input_sdus Q) zero_pdu (Count 0 T 1 0 0 T D) =
    Ret (sdus, with_sdus zero_pdu idx (zlen fs), c) /\
  test_num_li (count_end c) = zlen fs - 1 /\ c_pdu_remaining_size (count_end c) = T /\
  zlen sdus = 128 /\ take (length fs) idx = places (s_head s) (length fs) /\
  (forall j, s_head s <= j < s_head s + Z.of_nat (length fs) -> sdu_at sdus j = noted place <$> sdu_at (am_input_sdus Q) j) /\
  (forall j, s_head s + Z.of_nat (length fs) <= j < s_head s + 128 -> sdu_at sdus j = sdu_at (am_input_sdus Q) j).
Proof using Hq Hfull Hpack H32 H31.
  pose proof (qk_small _ _ Hq) as Hs. unfold zlen in Hs.
  destruct (am_count_ok place (s_queue s) (s_head s) (am_input_sdus Q) zero_pdu T 2 0 1 0 0 T D fs last rest 0 33)
    as (l' & sdus & idx & El & G1 & G2 & G3 & G4 & G5); try done; try lia.
  - apply Hq.
  - intros i w Hw. destruct (waiting_slot s Q i w Hq Hw) as (x & Hx & [C W _]). exists x. split; [done|].
    destruct (W w ltac:(lia)) as [W1 [_ _ W2 _ _ _]]; [rewrite <- Hw; f_equal; lia|]. destruct C as [_ C2 C3 _ _ _ _].
    split_and!; [done|done|done| |].
    + rewrite C3. pose proof (covers_acked_le (s_head s + Z.of_nat i) (s_sent s)). lia.
    + rewrite C3. destruct i as [|i]; [by rewrite Z.add_0_r|].
      destruct (covers_none s Q (s_head s + Z.of_nat (S i)) Hq) as [-> _]; [|lia]. destruct (sent_of (s_queue s)); lia.
  - unfold zlen in H32. lia.
  - exists sdus, idx. eexists. rewrite (qk_current _ _ Hq), El. split; [by cbn; rewrite Z.add_0_l|].
    unfold count_end. cbn. split_and!; try done; lia.
Qed.

(** Both passes, on a block of which [A] is the place of the header and [L] that of the indicators. *)
Lemma passes D A L B : zlen A = 2 -> zlen L = zlen lis -> zlen (concat fs) <= zlen B ->
  exists sdus idx c q f,
  am_count_loop 33 place (current_sdu_index Q) (am_input_sdus Q) zero_pdu (Count 0 T 1 0 0 T D) =
    Ret (sdus, with_sdus zero_pdu idx (zlen fs), c) /\
  test_num_li (count_end c) = zlen fs - 1 /\ c_pdu_remaining_size (count_end c) = T /\
  take (length fs) idx = places (s_head s) (length fs) /\
  am_fill_loop 129 (zlen fs - 1) (set_sdus Q sdus) 0 (Fill (A ++ L ++ B) (2 + zlen L) 2 1 0 T (sdu_buffer_occupancy Q)) =
    Ret (q, zlen (concat fs), last, f) /\
  f_mem f = A ++ (byte.of_Z <$> lis) ++ concat fs ++ drop (length (concat fs)) B /\
  fill_num_li f = zlen fs - 1 /\ f_pdu_remaining_size f = 0 /\ f_buffer_occupancy f = queue_bytes rest /\
  queue_ok (spec_send u rest s) (set_occupancy q (queue_bytes rest)).
Proof using Hq Hu Hfull HT Hpack H32 Hli H31.
  intros HA HL HB. destruct (first_pass D) as (sdus & idx & c & E1 & E2 & E3 & G1 & G2 & G3 & G4). exists sdus, idx, c.
  pose proof (waiting_blocks_ok s Q Hq) as Hxs. pose proof (waiting_pos _ _ Hxs) as Hpos.
  pose proof (pack_facts _ _ _ _ _ _ _ Hpos Hfull HT ltac:(by right) Hpack) as [K1 K2 _ _ _ _ K7].
  pose proof (pack_shape _ _ _ _ _ _ _ Hpos Hfull HT ltac:(by right) Hpack) as [Sh1 Sh2]. destruct (pack_length _ _ _ _ _ _ _ Hpack) as [Ln1 Ln2].
  pose proof (qk_small _ _ Hq) as Hsm. pose proof (qk_max _ _ Hq) as Hmx. pose proof (queue_bytes_nonneg rest). pose proof (zlen_nonneg (concat fs)).
  destruct (fill_ok (s_queue s) (waiting_blocks s Q) T 2 fs last rest 0 1 2 A L [] B (2 + zlen L) 0 (sdu_buffer_occupancy Q) lis (zlen fs - 1))
    as (xs' & d' & e' & l' & Ef & Hrest); try done; try lia.
  { split; [done|]. left. by split_and!. } { rewrite app_nil_r, zlen_app. lia. } { rewrite (qk_bo _ _ Hq). lia. }
  rewrite Z.sub_0_r in Ef. cbn [app] in Ef.
  assert (Hz : zlen (waiting_blocks s Q) = zlen (s_queue s)) by (unfold zlen; by rewrite (Forall2_length Hxs)).
  assert (H127 : (length (waiting_blocks s Q) <= 127)%nat) by (clear -Hz Hsm; unfold zlen in *; lia).
  assert (Hshort : Forall short (waiting_blocks s Q)) by (clear -Hxs; induction Hxs; constructor; [by eapply tsdu_short|done]).
  assert (Hholds : ring_holds (s_head s) (waiting_blocks s Q) (am_input_sdus (set_sdus Q sdus)))
    by (eapply counted_holds; [done| |done|done]; unfold zlen in Ln1; lia).
  pose proof (fun H1 H2 => am_fill_ok _ _ (s_head s) (set_sdus Q sdus) _ 0 _ _ _ 129 G1 H127 Hholds (qk_current _ _ Hq) Hshort H1 H2 Ef) as Ha.
  cbn [f_pdu_remaining_size fill_num_li] in Ha. destruct Ha as (q & pay & Ea & Fa & Fb1 & Fb2); [lia..|].
  eexists q, _. rewrite Ea. cbn [f_mem fill_num_li f_pdu_remaining_size f_buffer_occupancy] in *. split_and!; try done.
  - do 4 f_equal. apply (mod_near_eq (2 ^ 32)); [lia| |lia]. rewrite Z.add_0_l in Fb2.
    apply (f_equal (fun z => (z - (sdu_buffer_occupancy Q - zlen (concat fs))) mod 2 ^ 32)) in Fb2.
    rewrite !Zminus_mod_idemp_l in Fb2. rewrite <- (Z.add_simpl_r pay (sdu_buffer_occupancy Q - zlen (concat fs))), Fb2. f_equal. lia.
  - done.
  - done.
  - done.
  - cbn. rewrite (qk_bo _ _ Hq). lia.
  - eapply (send_queue s Q u fs last rest Hq Hu K1 Sh1 Sh2 place sdus (waiting_blocks s Q)); try done; [by right| |lia].
    destruct (s_queue s) as [|[s0 d0] q0] eqn:Eq; [by destruct Hfull as [[] _]|].
    destruct (pack_spec q0 s0 d0 T 2 fs last rest 0) as (dn & _ & _ & Htl); try done; [|by apply Forall_cons_1 in Hpos as [_ ?]|by right].
    pose proof (qk_fresh _ _ Hq) as Hfr. by rewrite Eq in Hfr.
Qed.
End Passes.

(** ** The PDU in memory *)

Lemma am_size_ok s Q nb : queue_ok s Q -> s_queue s <> [] ->
  am_pdu_size_for Q nb = 2 + pdu_room false nb (s_queue s) /\ full (pdu_room false nb (s_queue s)) 2 (s_queue s) /\
  (2 < nb -> 0 < pdu_room false nb (s_queue s)).
Proof.
  intros Hq Hne. pose proof (waiting_blocks_ok s Q Hq) as Hw.
  destruct (pdu_size_for_ok false (s_queue s) (Tx 10 2 0 (waiting_blocks s Q) (sdu_buffer_occupancy Q) nb [])) as (E1 & E2 & E3); [|done|].
  - constructor; cbn; try done; try apply Hq; lia.
  - split_and!; [|done|done]. transitivity (hdr_len false + pdu_room false nb (s_queue s)); [|done]. cbn [nb_bytes_requested_by_mac] in E1. rewrite <- E1. unfold am_pdu_size_for, pdu_size_for. cbn. rewrite (qk_no_seg _ _ Hq).
    unfold zlen. by rewrite <- (Forall2_length Hw).
Qed.

Lemma enc_am_len p sn u : zlen (enc_am_pdu p sn u) = 2 + zlen (enc_lis (zlen <$> removelast (u_fields u))) + zlen (concat (u_fields u)).
Proof. unfold enc_am_pdu, enc_am_header, zlen. rewrite length_app, length_fmap, length_app. cbn [length]. lia. Qed.

Definition sent_again (m : am_pdu) : am_pdu :=
  AmPdu (pdu_block m) (pdu_payload m) (sdus_index m) (nb_sdus m) (last_nack_time m) (pdu_holes m)
    (header_and_payload_size m) (retx_count m) (flag_ack m) 0.

Lemma get_copy_ok alloc now e c m tb u : alloc_ok alloc -> zlen (pdu_retrans_buffer (tx_retx e)) = 1024 ->
  pdu_at (pdu_retrans_buffer (tx_retx e)) c = Some m -> pdu_block m = Some tb -> block_of tb (c mod 1024) u ->
  header_and_payload_size m = tr_size tb -> tr_size tb < 2 ^ 16 ->
  exists pl tb', rlc_am_retransmit_get_copy alloc now (c mod 1024) e =
      Ret (set_tx_poll (set_tx_retx e (set_pdus (tx_retx e) (ring_put 1024 (pdu_retrans_buffer (tx_retx e)) c (sent_again m)))) pl, Some tb') /\
    block_of tb' (c mod 1024) u /\ tr_size tb' = tr_size tb /\
    poll_step now (tx_poll e) pl.
Proof.
  intros Hal Hl Hm Hb (pb & B1 & B2) Hh Hs. unfold rlc_am_retransmit_get_copy. rewrite (ring_get 1024 ltac:(lia) _ _ _ Hm).
  cbn [mbind cres_bind]. rewrite Hb, Hh. pose proof (zlen_nonneg (enc_am_pdu pb (c mod 1024) u)) as Hn.
  destruct (Hal (tr_size tb)) as (mem & -> & Hmem & _); [lia|].
  assert (Hd : tr_size tb <= zlen (tr_data tb)).
  { apply (f_equal zlen) in B2. rewrite <- B1 in B2. unfold zlen in *. rewrite length_take in B2. lia. }
  assert (Hcp : memcpy mem 0 (tr_data tb) 0 (tr_size tb) = Ret (enc_am_pdu pb (c mod 1024) u ++ drop (Z.to_nat (tr_size tb)) mem)).
  { unfold memcpy. rewrite bget_ok by lia. cbn [mbind cres_bind]. rewrite drop_0, B2, bput_ok by lia.
    assert (El : length (enc_am_pdu pb (c mod 1024) u) = Z.to_nat (tr_size tb)) by (unfold zlen in B1; lia). by rewrite El. }
  rewrite Hcp. cbn [mbind cres_bind]. rewrite ring_set by (lia || done). cbn [mbind cres_bind].
  match goal with |- context [rlc_am_pdu_polling now ?e' _ ?n] =>
    destruct (polling_enc now e' pb (c mod 1024) u (drop (Z.to_nat (tr_size tb)) mem) n (Z.mod_pos_bound c 1024 ltac:(lia))) as (pl & pb' & -> & Ht) end.
  cbn [mbind cres_bind]. do 2 eexists. split; [unfold sent_again; rewrite Hb, Hh; reflexivity|]. split_and!; [|done|done]. exists pb'. cbn [tr_size tr_data].
  assert (He : zlen (enc_am_pdu pb' (c mod 1024) u) = tr_size tb) by (by rewrite B1, !enc_am_len). split; [done|].
  rewrite take_app_le by (unfold zlen in He; lia). apply take_ge. unfold zlen in He. lia.
Qed.

(** The retransmission buffer with a new PDU. *)
Lemma send_retx s r u m rest : retx_ok s r -> zlen (s_sent s) < s_low s + 512 -> stored_pdu (zlen (s_sent s)) (Sent u (s_head s) false) m ->
  forall n b, retx_ok (spec_send u rest s)
    (Retx (ring_put 1024 (pdu_retrans_buffer r) (zlen (s_sent s)) m) n b (retrans_num_bytes_to_retransmit r) (num_nack_so r) (num_nack_sn r)
       (first_retrans_pdu_sn r) (max_retx_threshold r) (tx_vt_a r) (tx_vt_ms r) (Z.land (tx_vt_s r + 1) RLC_AM_SN_MASK)).
Proof.
  intros [R1 R2 R3 R4 R5 R6 R7 R8 R9 R10] Hw Hm n b. set (S := zlen (s_sent s)) in *.
  assert (HS : zlen (s_sent (spec_send u rest s)) = S + 1) by (cbn; rewrite zlen_app; done).
  assert (Hsnoc : forall c p, s_sent (spec_send u rest s) !! c = Some p -> s_sent s !! c = Some p \/ Z.of_nat c = S /\ p = Sent u (s_head s) false).
  { intros c p Hc. cbn in Hc. apply lookup_app_Some in Hc as [?|[Hc1 Hc2]]; [by left|]. right.
    apply list_lookup_singleton_Some in Hc2 as [Hc2 <-]. unfold S, zlen. split; [lia|done]. }
  constructor; rewrite ?HS; cbn [spec_send s_low pdu_retrans_buffer tx_vt_a tx_vt_ms tx_vt_s first_retrans_pdu_sn]; try done; try lia.
  - by rewrite ring_put_len.
  - rewrite mask_mod, R6. apply mod_next.
  - intros c p Hc Hlt. apply Hsnoc in Hc as [Hc|[? ->]]; [by apply (R8 c)|lia].
  - intros p Hc. apply Hsnoc in Hc as [Hc|[? ->]]; [by apply R9|done].
  - intros c p Hc Hle. apply Hsnoc in Hc as [Hc|[-> ->]].
    + pose proof (lookup_lt_Some _ _ _ Hc). rewrite ring_at_put_near by (unfold S, zlen in *; lia). by apply R10.
    + exists m. by rewrite ring_at_put by (done || lia).
Qed.

Lemma ring_put_put n (l : list am_pdu) k x y : ring_put n (ring_put n l k x) k y = ring_put n l k y.
Proof. unfold ring_put. apply list_insert_insert_eq. Qed.

(** The code of the PDU, from its header and the result of the second pass. *)
Lemma am_pdu_code sn s d q fs (last : bool) x : tsdu_ok (s, d) x -> fs <> [] ->
  (byte.of_Z <$> [128 + b2z false * 32 + ((if sdu_remaining_size x =? tsdu_size x then 0 else 2) + (if last then 0 else 1)) * 8 +
     b2z (0 <? zlen fs - 1) * 4 + sn / 256; sn mod 256]) ++ (byte.of_Z <$> enc_lis (zlen <$> removelast fs)) ++ concat fs =
  enc_am_pdu false sn (pdu_of ((s, d) :: q) fs last).
Proof.
  intros [_ T2 T3 _ _ _] Hne. cbn [fst snd] in *.
  assert (Hfirst : (sdu_remaining_size x =? tsdu_size x) = bool_decide (s = [])).
  { rewrite T2, T3. destruct s; unfold zlen; cbn [length]; [apply Z.eqb_refl|apply Z.eqb_neq; lia]. }
  assert (He : b2z (0 <? zlen fs - 1) = match zlen <$> removelast fs with [] => 0 | _ => 1 end).
  { destruct fs as [|f1 [|f2 fs]]; [done|done|]. unfold zlen. cbn [length]. by rewrite (proj2 (Z.ltb_lt 0 _)) by lia. }
  unfold enc_am_pdu, enc_am_header, pdu_of. cbn [u_fields u_first u_last]. rewrite fmap_app, <- app_assoc, He, Hfirst. done.
Qed.

Lemma vt_places S : c_rem (S mod 1024) RLC_AM_PDU_RETRANSMISSION_BUFFER_SIZE = S mod 1024 /\
  Z.land (Z.land (S mod 1024 + 1) RLC_AM_SN_MASK - 1) RLC_AM_SN_MASK = S mod 1024.
Proof.
  split; [apply Z.rem_small; apply Z.mod_pos_bound; unfold RLC_AM_PDU_RETRANSMISSION_BUFFER_SIZE, RLC_AM_SN_MODULO; lia|].
  rewrite !mask_mod, mod_next. rewrite Zminus_mod_idemp_l. f_equal. lia.
Qed.

(** The end of the segmentation: [e] has the queue after it and the next VT(S). *)
Lemma finish_ok alloc now s e u rest idx junk payload : alloc_ok alloc -> u_fields u <> [] -> zlen (u_fields u) <= 32 ->
  let S := zlen (s_sent s) in let pdu := enc_am_pdu false (S mod 1024) u in
  zlen pdu < RLC_SDU_MAX_SIZE -> retx_ok s (set_vt_s (tx_retx e) (S mod 1024)) -> S < s_low s + 512 ->
  tx_vt_s (tx_retx e) = Z.land (S mod 1024 + 1) RLC_AM_SN_MASK ->
  take (length (u_fields u)) idx = places (s_head s) (length (u_fields u)) ->
  exists e' tb, am_finish_pdu alloc now (S mod 1024) payload (zlen (concat (u_fields u))) (zlen pdu)
      (with_sdus zero_pdu idx (zlen (u_fields u))) (pdu ++ junk) e = Ret e' /\
    retx_ok (spec_send u rest s) (tx_retx e') /\ tx_queue e' = tx_queue e /\ poll_step now (tx_poll e) (tx_poll e') /\
    segmentation_pdu_list e' = segmentation_pdu_list e ++ [tb] /\ am_pdus_to_mac_layer e' = am_pdus_to_mac_layer e /\
    am_nb_bytes_requested_by_mac e' = am_nb_bytes_requested_by_mac e /\ am_rb_id e' = am_rb_id e /\
    am_is_data_plane e' = am_is_data_plane e /\ confirmations e' = confirmations e /\ block_of tb (S mod 1024) u /\ tr_size tb = zlen pdu.
Proof.
  intros Hal Hne H32 S pdu Hsz Hr Hw Hvt Hidx. unfold am_finish_pdu, RLC_SDU_MAX_SIZE in *. unfold c_assert.
  rewrite (proj2 (Z.ltb_lt (zlen pdu) 9000)) by done. cbn [mbind cres_bind].
  pose proof (Z.mod_pos_bound S 1024 ltac:(lia)) as HS.
  destruct (polling_enc now e false (S mod 1024) u junk (zlen (concat (u_fields u))) HS) as (pl & pb & Ep & Hpl).
  fold pdu in Ep. rewrite Ep. cbn [mbind cres_bind].
  pose proof (rk_len _ _ Hr) as Hlen. cbn in Hlen. unfold am_store_pdu. cbn [set_tx_poll tx_retx]. rewrite ring_set by (lia || done).
  cbn [mbind cres_bind tx_vt_s]. rewrite Hvt, (proj2 (vt_places S)).
  set (m := AmPdu _ _ _ _ _ _ _ _ _ _). set (tb := {| tr_data := _; tr_size := _ |}) in m.
  assert (Hpdu : zlen (enc_am_pdu pb (S mod 1024) u) = zlen pdu) by (unfold pdu; by rewrite !enc_am_len).
  assert (Hb : block_of tb (S mod 1024) u).
  { exists pb. split; [done|]. cbn [tb tr_size tr_data]. rewrite take_app_le by (clear -Hpdu; unfold zlen in *; lia). apply take_ge. clear -Hpdu. unfold zlen in *. lia. }
  match goal with |- context [rlc_am_retransmit_get_copy _ _ _ ?e0] =>
    destruct (get_copy_ok alloc now e0 S m tb u Hal) as (pl' & tb' & -> & Hb' & Hs' & Hpl') end; try done.
  { cbn. by rewrite ring_put_len. } { cbn. by rewrite ring_at_put by (done || lia). } { change (zlen pdu < 2 ^ 16). lia. }
  cbn [mbind cres_bind]. do 2 eexists. split; [reflexivity|].
  split_and!; try done; [|by eapply poll_step_trans]. cbn [set_tx_lists set_tx_poll set_tx_retx tx_retx set_pdus pdu_retrans_buffer].
  rewrite ring_put_put. rewrite <- Hvt. cbn. rewrite Hvt.
  assert (Hst : stored_pdu S (Sent u (s_head s) false) (sent_again m)).
  { constructor; cbn [sp_upd sp_acked sp_first]; try done. exists tb. split_and!; try done. change (zlen pdu < 2 ^ 16). lia. }
  pose proof (send_retx s _ u (sent_again m) rest Hr Hw Hst (retrans_num_pdus (tx_retx e) + 1) (i32 (retrans_num_bytes (tx_retx e) + zlen pdu))) as G.
  exact G.
Qed.

Lemma bind_ret {A B} (m : cres A) a (k : A -> cres B) : m = Ret a -> (m ≫= k) = k a.
Proof. by intros ->. Qed.

(** The segmentation makes the PDU of [pack], keeps it, and gives a copy to the MAC. *)
Lemma am_segment_ok alloc now s e fs last rest : alloc_ok alloc -> am_ok s e -> s_queue s <> [] ->
  2 < am_nb_bytes_requested_by_mac e < RLC_SDU_MAX_SIZE -> zlen (s_sent s) < s_low s + 512 ->
  pack (pdu_room false (am_nb_bytes_requested_by_mac e) (s_queue s)) 2 (s_queue s) = (fs, last, rest, 0) ->
  zlen fs <= 32 -> Forall (fun f => zlen f < 2048) (removelast fs) -> tally (covers (s_head s)) (s_sent s) < 31 ->
  exists e' tb, rlc_am_segment_10 alloc now e = Ret e' /\ am_ok (spec_send (pdu_of (s_queue s) fs last) rest s) e' /\
    segmentation_pdu_list e' = segmentation_pdu_list e ++ [tb] /\ am_pdus_to_mac_layer e' = am_pdus_to_mac_layer e /\
    am_nb_bytes_requested_by_mac e' = am_nb_bytes_requested_by_mac e /\ poll_step now (tx_poll e) (tx_poll e') /\
    am_rb_id e' = am_rb_id e /\ am_is_data_plane e' = am_is_data_plane e /\
    block_of tb (zlen (s_sent s) mod 1024) (pdu_of (s_queue s) fs last) /\ tr_size tb <= am_nb_bytes_requested_by_mac e.
Proof.
  intros Hal Hok Hne Hnb Hwin Hpack H32 Hli H31. pose proof Hok as [Hq Hr Ht Hnd Hc Hcalls]. unfold RLC_SDU_MAX_SIZE in Hnb.
  set (nb := am_nb_bytes_requested_by_mac e) in *. destruct (am_size_ok s (tx_queue e) nb Hq Hne) as (Hsize & Hfull & Hpos).
  specialize (Hpos ltac:(lia)). set (T := pdu_room false nb (s_queue s)) in *. set (u := pdu_of (s_queue s) fs last).
  pose proof (waiting_pos _ _ (waiting_blocks_ok s _ Hq)) as Hwp.
  pose proof (pack_facts _ _ _ _ _ _ _ Hwp Hfull Hpos ltac:(by right) Hpack) as [K1 _ _ _ K5 _ K7]. rewrite Z.sub_0_r in K5.
  assert (HTnb : T <= nb - 2) by (unfold T, pdu_room, hdr_len; lia).
  destruct (s_queue s) as [|[s0 d0] q0] eqn:Eq; [done|]. destruct (waiting_slot s _ 0 (s0, d0) Hq ltac:(by rewrite Eq)) as (x & Hx & [_ W _]).
  rewrite Z.add_0_r in Hx, W. destruct (W (s0, d0) ltac:(lia)) as [W1 W2]; [by rewrite Z.sub_diag, Eq|].
  unfold rlc_am_segment_10. pose proof (queue_bytes_nonneg rest). pose proof (enc_lis_total fs K1) as Hlis.
  assert (Hcat : 0 < zlen (concat fs)).
  { apply zlen_pos. intros E0. pose proof (pack_facts _ _ _ _ _ _ _ Hwp Hfull Hpos ltac:(by right) Hpack) as [_ J _ _ _ _ _].
    destruct fs as [|f fs']; [done|]. apply Forall_cons_1 in J as [J _]. by apply app_eq_nil in E0 as [? _]. }
  rewrite (proj2 (Z.leb_gt _ 0)) by (rewrite (qk_bo _ _ Hq), Eq; lia). rewrite (qk_current _ _ Hq), (bind_ret _ _ _ (ring_get 128 ltac:(lia) _ _ _ Hx)).
  fold nb. rewrite W1, (proj2 (Z.ltb_lt 0 nb)) by lia. cbn [andb]. rewrite Hsize.
  destruct (Hal (2 + T)) as (mem & -> & Hm1 & Hm2); [lia|]. rewrite (bind_ret _ _ _ (bput_ok mem 0 (zeros 4) ltac:(lia) ltac:(change (zlen (zeros 4)) with 4; lia))).
  change (take (Z.to_nat 0) mem ++ zeros 4 ++ drop (Z.to_nat 0 + length (zeros 4)) mem) with (zeros 2 ++ (zeros 2 ++ drop 4 mem)).
  set (X := zeros 2 ++ drop 4 mem). set (lis := enc_lis (zlen <$> removelast fs)) in *.
  assert (HX : zlen X = zlen mem - 2) by (unfold X, zlen in *; rewrite length_app, length_drop; cbn [zeros replicate length]; lia).
  pose proof (zlen_nonneg lis) as Hl0. rewrite <- (take_drop (Z.to_nat (zlen lis)) X).
  assert (HL : zlen (take (Z.to_nat (zlen lis)) X) = zlen lis) by (unfold zlen in *; rewrite length_take; lia).
  assert (HB : zlen (concat fs) <= zlen (drop (Z.to_nat (zlen lis)) X)) by (unfold zlen in *; rewrite length_drop; lia).
  destruct (vt_places (zlen (s_sent s))) as [Hpl _]. rewrite (rk_s _ _ Hr), Hpl. unfold RLC_AM_HEADER_MIN_SIZE. rewrite Z.add_simpl_l.
  rewrite <- Eq in Hfull, Hpack, Hwp.
  destruct (passes s (tx_queue e) u fs last rest T (zlen (s_sent s) mod 1024) Hq eq_refl Hfull Hpos Hpack H32 Hli H31 (2 + T) (zeros 2) _ _ eq_refl HL HB)
    as (sdus & idx & c & q & f & E1 & E2 & E3 & E4 & E5 & E6 & E7 & E8 & E9 & E10).
  rewrite (qk_current _ _ Hq) in E1. rewrite (bind_ret _ _ _ E1). cbv beta iota zeta. rewrite E2, E3, (count_lis fs _ K1 HL), (bind_ret _ _ _ E5). cbv beta iota zeta.
  rewrite E6, E7, E8, E9.
  rewrite (bind_ret _ _ _ (am_put_header_ok _ (zlen fs - 1) (zlen (s_sent s) mod 1024) _ (fi_range _ last) (Z.mod_pos_bound _ 1024 ltac:(lia)))). cbv beta.
  pose proof (am_pdu_code (zlen (s_sent s) mod 1024) s0 d0 q0 fs last (am_bytes x) W2 K1) as Hcode. fold lis in Hcode.
  rewrite (app_assoc (byte.of_Z <$> lis)), app_assoc, Hcode. fold u.
  assert (Hlen : zlen (enc_am_pdu false (zlen (s_sent s) mod 1024) u) = 2 + T - 0) by (rewrite enc_am_len; cbn [u u_fields pdu_of]; fold lis; lia).
  rewrite <- Hlen. match goal with |- context [am_finish_pdu _ _ _ _ _ _ _ _ ?e0] =>
    destruct (finish_ok alloc now s e0 u rest idx (drop (length (concat fs)) (drop (Z.to_nat (zlen lis)) X)) (2 + zlen (take (Z.to_nat (zlen lis)) X)) Hal K1 H32)
      as (e' & tb & Ee & G1 & G2 & G3 & G4 & G5 & G6 & G7 & G8 & G9 & G10 & G11) end; try done.
  { rewrite Hlen. unfold RLC_SDU_MAX_SIZE. lia. } { cbn [set_tx_retx tx_retx]. unfold set_vt_s. cbn. rewrite <- (rk_s _ _ Hr). by destruct (tx_retx e). }
  exists e', tb. split; [exact Ee|]. split_and!; try done; [|rewrite G11, Hlen; lia].
  destruct (pack_shape _ _ _ _ _ _ _ Hwp Hfull Hpos ltac:(by right) Hpack) as [Sh1 Sh2].
  constructor; [by rewrite G2|done|by eapply poll_step_quiet|done| |].
  - intros k. rewrite Hc. by rewrite (send_done s u fs last rest eq_refl K1 Sh1 Sh2).
  - rewrite G9. cbn. rewrite Hcalls. unfold conf_call, conf_args. by rewrite G7, G8.
Qed.

