(* ===== verification/RlcAmArq.v ===== *)
(** RLC acknowledged mode: acknowledgement and retransmission.

    [openair2/LAYER2/RLC/AM_v9.3.0/rlc_am_retransmit.c]: positive and negative acknowledgement of a
    PDU, segments of a PDU, the PDU that is sent again when a poll got no answer;
    [rlc_am_status_report.c]: the processing of a status report.

    The transmitter is the record of [RlcAmTx].  The lemmas show that positive acknowledgements refine
    marks on a list of PDUs ([am_spec]): a report acknowledges the PDUs below its number, moves the
    window, and confirms and frees exactly the SDUs of which all PDUs are acknowledged.  [RlcAmEntity]
    builds on them, and has the theorems on negative acknowledgements. *)
From stdpp Require Import base list numbers.
From coqutil Require Import Byte.
From Stdlib Require Import ZArith Lia.
From S2P Require Import Prelude SplitIface RlcPrims RlcAmWindow RlcAmStatus RlcUm RlcAmRx RlcUmTx RlcAmTx.
Open Scope Z_scope.

Definition RLC_SDU_CONFIRM_NO : Z := 0.
Definition RLC_SDU_CONFIRM_YES : Z := 1.
Definition RLC_AM_MIN_SEGMENT_SIZE_REQUEST : Z := 8.

(** ** Setters *)

Definition set_confirmations (e : am_tx) (l : list (Z * Z * Z * Z)) : am_tx :=
  AmTx (tx_queue e) (tx_poll e) (tx_retx e) (am_nb_bytes_requested_by_mac e) (segmentation_pdu_list e)
    (am_pdus_to_mac_layer e) (am_rb_id e) (am_is_data_plane e) l.
Definition set_requested (e : am_tx) (n : Z) : am_tx :=
  AmTx (tx_queue e) (tx_poll e) (tx_retx e) n (segmentation_pdu_list e)
    (am_pdus_to_mac_layer e) (am_rb_id e) (am_is_data_plane e) (confirmations e).
Definition to_mac (e : am_tx) (tb : mac_tb_req) : am_tx :=
  set_tx_lists e (segmentation_pdu_list e) (am_pdus_to_mac_layer e ++ [tb]).

Definition set_first_retrans (r : am_retx) (sn : Z) : am_retx :=
  Retx (pdu_retrans_buffer r) (retrans_num_pdus r) (retrans_num_bytes r) (retrans_num_bytes_to_retransmit r)
    (num_nack_so r) (num_nack_sn r) sn (max_retx_threshold r) (tx_vt_a r) (tx_vt_ms r) (tx_vt_s r).
Definition set_window (r : am_retx) (a ms : Z) : am_retx :=
  Retx (pdu_retrans_buffer r) (retrans_num_pdus r) (retrans_num_bytes r) (retrans_num_bytes_to_retransmit r)
    (num_nack_so r) (num_nack_sn r) (first_retrans_pdu_sn r) (max_retx_threshold r) a ms (tx_vt_s r).
Definition set_retrans_nums (r : am_retx) (pdus bytes to_retransmit : Z) : am_retx :=
  Retx (pdu_retrans_buffer r) pdus bytes to_retransmit
    (num_nack_so r) (num_nack_sn r) (first_retrans_pdu_sn r) (max_retx_threshold r) (tx_vt_a r) (tx_vt_ms r) (tx_vt_s r).
Definition set_nack_nums (r : am_retx) (so sn : Z) : am_retx :=
  Retx (pdu_retrans_buffer r) (retrans_num_pdus r) (retrans_num_bytes r) (retrans_num_bytes_to_retransmit r)
    so sn (first_retrans_pdu_sn r) (max_retx_threshold r) (tx_vt_a r) (tx_vt_ms r) (tx_vt_s r).

Definition set_retransmit (m : am_pdu) (b : Z) : am_pdu :=
  AmPdu (pdu_block m) (pdu_payload m) (sdus_index m) (nb_sdus m) (last_nack_time m) (pdu_holes m)
    (header_and_payload_size m) (retx_count m) (flag_ack m) b.
Definition set_block (m : am_pdu) (b : option mac_tb_req) : am_pdu :=
  AmPdu b (pdu_payload m) (sdus_index m) (nb_sdus m) (last_nack_time m) (pdu_holes m)
    (header_and_payload_size m) (retx_count m) (flag_ack m) (flag_retransmit m).
Definition set_ack (m : am_pdu) : am_pdu :=
  AmPdu (pdu_block m) (pdu_payload m) (sdus_index m) (nb_sdus m) (last_nack_time m) (pdu_holes m)
    (header_and_payload_size m) (retx_count m) 1 (flag_retransmit m).
Definition set_retx_count (m : am_pdu) (n : Z) : am_pdu :=
  AmPdu (pdu_block m) (pdu_payload m) (sdus_index m) (nb_sdus m) (last_nack_time m) (pdu_holes m)
    (header_and_payload_size m) n (flag_ack m) (flag_retransmit m).
Definition set_holes (m : am_pdu) (h : pdu_mgmt) : am_pdu :=
  AmPdu (pdu_block m) (pdu_payload m) (sdus_index m) (nb_sdus m) (last_nack_time m) h
    (header_and_payload_size m) (retx_count m) (flag_ack m) (flag_retransmit m).
Definition set_nack_time (m : am_pdu) (t : Z) : am_pdu :=
  AmPdu (pdu_block m) (pdu_payload m) (sdus_index m) (nb_sdus m) t (pdu_holes m)
    (header_and_payload_size m) (retx_count m) (flag_ack m) (flag_retransmit m).

(** [rlc_pP->pdu_retrans_buffer[sn] = f (...)] *)
Definition update_pdu (sn : Z) (f : am_pdu -> am_pdu) (r : am_retx) : cres am_retx :=
  m ← aget (pdu_retrans_buffer r) sn;
  pdus ← aset (pdu_retrans_buffer r) sn (f m);
  Ret (set_pdus r pdus).

(** The state variables that the windows of the transmitter are computed from. *)
Definition tx_vars (r : am_retx) : am_vars := Build_am_vars (tx_vt_a r) (tx_vt_ms r) 0 0 0 0 0.

(** ** Positive acknowledgement *)

(** The body of the loops over the SDUs of a PDU: one more PDU of the SDU counts as acknowledged, and
    the SDU is confirmed with [status] and freed when all of them are and, for a positive
    acknowledgement, no byte is left to send. *)
Definition ack_sdu (status : Z) (m : am_pdu) (pdu_sdu_index : Z) (e : am_tx) : cres am_tx :=
  sdu_index ← aget (sdus_index m) pdu_sdu_index;
  _ ← c_assert ((status =? RLC_SDU_CONFIRM_NO) || (0 <=? sdu_index));
  _ ← c_assert (sdu_index <? RLC_AM_SDU_CONTROL_BUFFER_SIZE);
  let q := tx_queue e in
  x ← aget (am_input_sdus q) sdu_index;
  let x := AmSdu (mem_block x) (am_bytes x) (sdu_mui x) (pdus_index x) (nb_pdus x) (u8 (nb_pdus_ack x + 1))
             (flag_segmented x) (transmitted_successfully x) in
  sdus ← aset (am_input_sdus q) sdu_index x;
  let e := set_tx_queue e (set_sdus q sdus) in
  if (nb_pdus_ack x =? nb_pdus x) && ((status =? RLC_SDU_CONFIRM_NO) || (sdu_remaining_size (am_bytes x) =? 0)) then
    let e := set_confirmations e (confirmations e ++ [conf_args e (sdu_mui x) status]) in
    q ← rlc_am_free_in_sdu sdu_index (tx_queue e);
    Ret (set_tx_queue e q)
  else Ret e.

(** The [do ... while] over VT(A): the entries go back to zero.  At most one turn for each entry. *)
Fixpoint advance_vt_a (fuel : nat) (r : am_retx) : cres am_retx :=
  match fuel with
  | O => Trap FFuel
  | S fuel =>
      r1 ← update_pdu (tx_vt_a r) (fun _ => zero_pdu) r;
      let next := Z.land (tx_vt_a r + 1) RLC_AM_SN_MASK in
      let r1 := if tx_vt_a r =? first_retrans_pdu_sn r then set_first_retrans r1 next else r1 in
      let r1 := set_window r1 next (tx_vt_ms r) in
      m ← aget (pdu_retrans_buffer r1) next;
      if (flag_ack m =? 1) && negb (next =? tx_vt_s r1) then advance_vt_a fuel r1 else Ret r1
  end.

Definition move_window (r : am_retx) : cres am_retx :=
  r ← advance_vt_a 1025 r;
  Ret (set_window r (tx_vt_a r) (Z.land (tx_vt_a r + RLC_AM_WINDOW_SIZE) RLC_AM_SN_MASK)).

(** The [do ... while] over [first_retrans_pdu_sn]. *)
Fixpoint next_retrans (fuel : nat) (r : am_retx) (sn : Z) : cres Z :=
  match fuel with
  | O => Trap FFuel
  | S fuel =>
      let sn := Z.land (sn + 1) RLC_AM_SN_MASK in
      m ← aget (pdu_retrans_buffer r) sn;
      if 0 <=? retx_count m then Ret sn
      else if negb (sn =? tx_vt_s r) then next_retrans fuel r sn else Ret sn
  end.

Definition rlc_am_ack_pdu (snP : Z) (e : am_tx) : cres am_tx :=
  m ← aget (pdu_retrans_buffer (tx_retx e)) snP;
  r ← update_pdu snP (fun m => set_retransmit m 0) (tx_retx e);
  match pdu_block m with
  | Some _ =>
      if flag_ack m =? 0 then
        r ← update_pdu snP (fun m => set_block m None) r;
        let size := header_and_payload_size m in
        let r := set_retrans_nums r (retrans_num_pdus r - 1) (i32 (retrans_num_bytes r - size))
          (if 0 <=? retx_count m then i32 (retrans_num_bytes_to_retransmit r - size) else retrans_num_bytes_to_retransmit r) in
        e ← for_each (ack_sdu RLC_SDU_CONFIRM_YES m) (zrange 0 (Z.to_nat (nb_sdus m))) (set_tx_retx e r);
        r ← update_pdu snP set_ack (tx_retx e);
        r ← (if snP =? tx_vt_a r then move_window r else Ret r);
        r ← (if snP =? first_retrans_pdu_sn r then
               sn ← next_retrans 1025 r (first_retrans_pdu_sn r);
               Ret (set_first_retrans r (if tx_vt_s r =? sn then -1 else sn))
             else Ret r);
        Ret (set_tx_retx e r)
      else
        r ← update_pdu snP (fun m => set_block m None) r;
        r ← (if snP =? tx_vt_a r then move_window r else Ret r);
        Ret (set_tx_retx e r)
  | None =>
      r ← (if (0 <? flag_ack m) && (snP =? tx_vt_a r) then move_window r else Ret r);
      Ret (set_tx_retx e r)
  end.

(** ** Negative acknowledgement *)

Definition rlc_am_nack_pdu (frame snP so_startP so_endP : Z) (e : am_tx) : cres am_tx :=
  m ← aget (pdu_retrans_buffer (tx_retx e)) snP;
  match pdu_block m with
  | None => Ret e
  | Some _ =>
      let r := tx_retx e in
      let r := set_nack_nums r (num_nack_so r) (u32 (num_nack_sn r + 1)) in
      _ ← c_assert (so_startP <=? so_endP);
      let m := if negb (last_nack_time m =? frame)
               then set_holes (set_nack_time m frame) (rlc_am_clear_holes (pdu_holes m)) else m in
      let r := if negb ((so_startP =? 0) && (so_endP =? 0x7FFF))
               then set_nack_nums r (u32 (num_nack_so r + 1)) (num_nack_sn r) else r in
      h ← rlc_am_add_hole so_startP so_endP (pdu_holes m);
      let m := set_holes m h in
      let first := first_retrans_pdu_sn r in
      let r := if (first <? 0) || negb (rlc_am_tx_sn1_gt_sn2 (tx_vars r) first snP =? 0)
               then set_first_retrans r snP else r in
      let m := set_retransmit m 1 in
      let '(m, r) :=
        if retx_count m =? -1
        then (set_retx_count m 0,
              set_retrans_nums r (retrans_num_pdus r) (retrans_num_bytes r)
                (i32 (retrans_num_bytes_to_retransmit r + header_and_payload_size m)))
        else (set_retx_count m (i8 (retx_count m + 1)), r) in
      r ← update_pdu snP (fun _ => m) r;
      if max_retx_threshold r <=? retx_count m
      then for_each (ack_sdu RLC_SDU_CONFIRM_NO m) (zrange 0 (Z.to_nat (nb_sdus m))) (set_tx_retx e r)
      else Ret (set_tx_retx e r)
  end.

(** ** Reception of a status report *)

Definition set_poll_timer (p : am_poll) (t : um_timer) : am_poll :=
  Poll (c_pdu_without_poll p) (c_byte_without_poll p) (poll_pdu p) (poll_byte p) (poll_sn p) (force_poll p) t.

(** [if (sn_cursor == rlc_pP->poll_sn) rlc_am_stop_and_reset_timer_poll_retransmit] *)
Definition poll_answered (sn : Z) (e : am_tx) : am_tx :=
  let p := tx_poll e in
  if sn =? poll_sn p then set_tx_poll e (set_poll_timer p (rlc_am_stop_and_reset_timer_poll_retransmit (t_poll_retransmit p)))
  else e.

(** The [while] for a report without negative acknowledgements: a turn for each sequence number. *)
Fixpoint ack_loop (fuel : nat) (ack_sn sn_cursor : Z) (e : am_tx) : cres am_tx :=
  match fuel with
  | O => Trap FFuel
  | S fuel =>
      if negb (sn_cursor =? ack_sn) then
        e ← rlc_am_ack_pdu sn_cursor (poll_answered sn_cursor e);
        ack_loop fuel ack_sn (Z.land (sn_cursor + 1) RLC_AM_SN_MASK) e
      else Ret e
  end.

(** The [while] for a report with negative acknowledgements.  Each turn goes to the next sequence number
    or to the next negative acknowledgement. *)
Fixpoint report_loop (fuel : nat) (frame : Z) (i : rlc_am_control_pdu_info_t) (sn_cursor nack_index nack : Z) (e : am_tx) : cres am_tx :=
  match fuel with
  | O => Trap FFuel
  | S fuel =>
      if negb (sn_cursor =? ack_sn i) then
        let e := poll_answered sn_cursor e in
        '(e, nack_index, nack) ←
          (if negb (sn_cursor =? nack) then
             e ← rlc_am_ack_pdu sn_cursor e;
             Ret (e, nack_index, nack)
           else
             x ← aget (nack_list i) nack_index;
             e ← rlc_am_nack_pdu frame sn_cursor (so_start x) (so_end x) e;
             let nack_index := nack_index + 1 in
             if nack_index =? num_nack i then Ret (e, nack_index, 0xFFFF)
             else
               x ← aget (nack_list i) nack_index;
               Ret (e, nack_index, nack_sn x));
        next ← (if (nack_index <? num_nack i) && (0 <? nack_index) then
                  x ← aget (nack_list i) nack_index;
                  y ← aget (nack_list i) (nack_index - 1);
                  Ret (negb (nack_sn x =? nack_sn y))
                else Ret true);
        report_loop fuel frame i (if next : bool then Z.land (sn_cursor + 1) RLC_AM_SN_MASK else sn_cursor) nack_index nack e
      else Ret e
  end.

(** What is done with the report. *)
Definition process_report (frame : Z) (i : rlc_am_control_pdu_info_t) (e : am_tx) : cres am_tx :=
  _ ← c_assert (ack_sn i <? RLC_AM_SN_MODULO);
  _ ← c_assert (num_nack i <? RLC_AM_MAX_NACK_IN_STATUS_PDU);
  if 0 <? rlc_am_in_tx_window (tx_vars (tx_retx e)) (ack_sn i) then
    let e := set_tx_retx e (set_nack_nums (tx_retx e) 0 0) in
    let sn_cursor := tx_vt_a (tx_retx e) in
    if num_nack i =? 0 then ack_loop 1025 (ack_sn i) sn_cursor e
    else
      x ← aget (nack_list i) 0;
      report_loop 2049 frame i sn_cursor 0 (nack_sn x) e
  else Ret e.

(** The result is the entity and the size that is left. *)
Definition rlc_am_receive_process_control_pdu (frame : Z) (pdu : list byte) (tb_size_in_bytes : Z) (e : am_tx) : cres (am_tx * Z) :=
  '(rc, rest, i) ← rlc_am_get_control_pdu_infos (byte.unsigned <$> pdu) tb_size_in_bytes;
  if 0 <=? rc then
    e ← process_report frame i e;
    Ret (e, rest)
  else Ret (e, rest).

(** ** Segments of a PDU *)

(** The variables of the search for the indicators of a segment; [rg_lis] is [test_li_list] up to
    [test_num_li]. *)
Record reseg := Reseg {
  rg_go : bool;                           (* continue_fill_pdu_with_pdu *)
  rg_remaining : Z;                       (* test_pdu_remaining_size *)
  rg_max : Z;                             (* max_copy_payload_size *)
  rg_lis : list Z;                        (* int16_t[RLC_AM_MAX_SDU_IN_PDU] *)
  rg_sum : Z;                             (* test_li_sum *)
  rg_start : Z;                           (* test_start_offset *)
  rg_copy : Z;                            (* test_pdu_copy_size *)
  rg_len : Z;                             (* test_li_length_in_bytes, unsigned int *)
  rg_fi : Z;                              (* not_test_fi *)
}.

(** One turn for the indicator [li].  The third comparison is one of [unsigned int]. *)
Definition reseg_turn (li : Z) (s : reseg) : cres reseg :=
  let rem := rg_remaining s in
  let mx := if rem <? rg_max s then rem else rg_max s in
  _ ← c_assert (0 <=? mx);
  _ ← c_assert (0 <=? rem);
  let sum := rg_sum s + li in
  let start := rg_start s in
  let len := Z.lxor (rg_len s) 3 in
  if start <? sum then
    if mx + start <? sum then
      _ ← c_assert (0 <? mx);
      Ret (Reseg false rem 0 (rg_lis s) sum (start + mx) (rg_copy s + mx) (rg_len s) (Z.land (rg_fi s) 2))
    else if mx + start =? sum then
      _ ← c_assert (0 <? mx);
      Ret (Reseg false rem 0 (rg_lis s) sum (start + mx) (rg_copy s + mx) (rg_len s) (Z.lor (rg_fi s) 1))
    else if u32 sum <? u32 (mx + start - len) then
      _ ← c_assert (0 <? sum - start);
      if zlen (rg_lis s) <? RLC_AM_MAX_SDU_IN_PDU then
        Ret (Reseg true (i32 (rem - sum + start - len)) (i32 (mx - sum + start - len)) (rg_lis s ++ [i16 (sum - start)])
               sum sum (rg_copy s + sum - start) len (rg_fi s))
      else Trap FOob
    else
      _ ← c_assert (0 <? sum - start);
      Ret (Reseg false (rem - sum + start) (mx - sum + start) (rg_lis s) sum sum (rg_copy s + sum - start) (rg_len s)
             (Z.lor (rg_fi s) 1))
  else
    Ret (Reseg true rem mx (rg_lis s) sum start (rg_copy s) (rg_len s)
           (if (start =? sum) && (zlen (rg_lis s) =? 0) && (rg_copy s =? 0) then Z.lor (rg_fi s) 2 else rg_fi s)).

Fixpoint reseg_loop (lis : list Z) (s : reseg) : cres reseg :=
  match lis with
  | [] => Ret s
  | li :: lis => if rg_go s then s ← reseg_turn li s; reseg_loop lis s else Ret s
  end.

(** The bytes behind the last indicator, when the loop came to its end. *)
Definition reseg_tail (hidden not_fi_original : Z) (s : reseg) : reseg :=
  if rg_go s && (0 <? hidden) && (0 <? rg_remaining s) && (0 <? rg_max s) then
    let mx := if rg_remaining s <? rg_max s then rg_remaining s else rg_max s in
    if hidden + rg_sum s <=? mx + rg_start s then
      Reseg true (rg_remaining s) mx (rg_lis s) (rg_sum s) (hidden + rg_sum s) (rg_copy s + (hidden + rg_sum s - rg_start s))
        (rg_len s) (Z.lor (Z.land (rg_fi s) 2) (Z.land not_fi_original 1))
    else
      Reseg true (rg_remaining s) mx (rg_lis s) (rg_sum s) (rg_start s + mx) (rg_copy s + mx) (rg_len s) (Z.land (rg_fi s) 2)
  else s.

(** The indicators in memory: [k] of [n] are written.  The results are the place of the payload and the
    size that is left. *)
Fixpoint put_lis (n k : Z) (lis : list Z) (len e_li fill size : Z) (mem : list byte) : cres (list byte * Z * Z) :=
  match lis with
  | [] => Ret (mem, fill, size)
  | v :: lis =>
      let len := Z.lxor len 3 in
      '(mem, e_li') ← put_li n (k + 1) len v e_li mem;
      put_lis n (k + 1) lis len e_li' (if len =? 2 then e_li + 2 else e_li') (i32 (size - len)) mem
  end.

(** The segment of the PDU [m] for [size] bytes from [start] to [stop]: the variables at the end. *)
Definition reseg_for (i : rlc_am_pdu_info_t) (payload_len not_fi_original start stop size : Z) : cres reseg :=
  let mx := stop - start + 1 in
  _ ← c_assert (0 <? mx);
  _ ← c_assert (0 <? size);
  let mx := if size <? mx then size else mx in
  let fi := if start =? 0 then Z.land not_fi_original 2 else 0 in
  let s := Reseg true size mx [] 0 start 0 1 fi in
  if 0 <? zlen (li_list i) then
    s ← reseg_loop (li_list i) s;
    Ret (reseg_tail (hidden_size i) not_fi_original s)
  else
    Ret (Reseg true size mx [] 0 start mx 1
           (if (stop =? start + mx - 1) && (stop =? payload_len - 1)
            then Z.lor (Z.land fi 2) (Z.land not_fi_original 1) else Z.land fi 2)).

(** [sizeP] is read and written.  [None] is the null pointer. *)
Definition rlc_am_retransmit_get_subsegment (alloc : Z -> option (list byte)) (now snP sizeP : Z) (e : am_tx)
  : cres (am_tx * option mac_tb_req * Z) :=
  m ← aget (pdu_retrans_buffer (tx_retx e)) snP;
  match pdu_block m with
  | None => Trap FAssert
  | Some tb =>
      match alloc sizeP with
      | None => Trap FNull
      | Some mem =>
          '(rc, i) ← rlc_am_get_data_pdu_infos (tr_data tb) (header_and_payload_size m);
          if rc <? 0 then Ret (e, None, sizeP)
          else
            let h := pdu_holes m in
            let h := if nack_so_stop h =? 0x7FFF then set_nack h (nack_so_start h) (payload_size h - 1) else h in
            b1 ← octet (tr_data tb) 0;
            b2 ← octet (tr_data tb) 1;
            mem ← put_octet mem 1 b2;
            mem ← put_octet mem 2 (Z.shiftr (nack_so_start h) 8);
            mem ← put_octet mem 3 (Z.land (nack_so_start h) 0xFF);
            let size := i32 (sizeP - 4) in
            let not_fi_original := Z.lxor (Z.shiftr (Z.land b1 0x18) 3) 3 in
            '(start, stop) ← rlc_am_get_next_hole h;
            s ← reseg_for i (payload_size h) not_fi_original start stop size;
            let n := zlen (rg_lis s) in
            let first := Z.lor (Z.lor (Z.land b1 0x83) 0x40) (Z.land (Z.lxor (Z.shiftl (rg_fi s) 3) 0x18) 0x18) in
            mem ← put_octet mem 0 (if 0 <? n then Z.lor first 0x04 else first);
            '(mem, fill, size) ← put_lis n 0 (rg_lis s) 1 4 4 size mem;
            mem ← memcpy mem fill (tr_data tb) (pdu_payload m + start) (rg_copy s);
            let last := rg_copy s + start =? payload_size h in
            d0 ← octet mem 2;
            mem ← (if last then put_octet mem 2 (Z.lor d0 0x80) else Ret mem);
            h ← rlc_am_remove_hole start (rg_copy s + start - 1) h;
            r ← update_pdu snP (fun m => set_holes (if last then set_retransmit m 0 else m) h) (tx_retx e);
            '(e, mem) ← rlc_am_pdu_polling now (set_tx_retx e r) mem (rg_copy s);
            Ret (e, Some {| tr_data := mem; tr_size := i32 (fill + rg_copy s) |}, i32 (size - rg_copy s))
      end
  end.

(** ** A poll without answer *)

(** The [while] of [rlc_am_retransmit_any_pdu]: the first PDU that fits, or the first one that there is. *)
Fixpoint find_any (fuel : nat) (pdus : list am_pdu) (nb sn sn_end : Z) (found : option Z) : cres (bool * option Z) :=
  match fuel with
  | O => Trap FFuel
  | S fuel =>
      if negb (sn =? sn_end) then
        m ← aget pdus sn;
        let next := Z.land (sn - 1) RLC_AM_SN_MASK in
        match pdu_block m with
        | Some _ =>
            if header_and_payload_size m <=? nb then Ret (true, Some sn)
            else find_any fuel pdus nb next sn_end (Some (default sn found))
        | None => find_any fuel pdus nb next sn_end found
        end
      else Ret (false, found)
  end.

(** The poll bit of the PDU that is sent, the counters and the timer. *)
Definition forced_poll (now : Z) (e : am_tx) (tb : mac_tb_req) (size : Z) : cres am_tx :=
  '(e, mem) ← rlc_am_pdu_polling now e (tr_data tb) size;
  b1 ← octet mem 0;
  mem ← put_octet mem 0 (Z.lor b1 0x20);
  let p := tx_poll e in
  let p := Poll 0 0 (poll_pdu p) (poll_byte p) (poll_sn p) (force_poll p)
             (rlc_am_start_timer_poll_retransmit now (t_poll_retransmit p)) in
  Ret (to_mac (set_tx_poll e p) {| tr_data := mem; tr_size := tr_size tb |}).

Definition rlc_am_retransmit_any_pdu (alloc : Z -> option (list byte)) (now frame : Z) (e : am_tx) : cres am_tx :=
  let r := tx_retx e in
  '(fits, found) ← find_any 1025 (pdu_retrans_buffer r) (am_nb_bytes_requested_by_mac e)
    (Z.land (tx_vt_s r - 1) RLC_AM_SN_MASK) (Z.land (tx_vt_a r - 1) RLC_AM_SN_MASK) None;
  match found with
  | None => Ret e
  | Some sn =>
      if fits : bool then
        e ← rlc_am_nack_pdu frame sn 0 0x7FFF e;
        '(e, copy) ← rlc_am_retransmit_get_copy alloc now sn e;
        match copy with
        | None => Trap FNull
        | Some tb =>
            m ← aget (pdu_retrans_buffer (tx_retx e)) sn;
            forced_poll now e tb (header_and_payload_size m)
        end
      else if 4 <? am_nb_bytes_requested_by_mac e then
        e ← rlc_am_nack_pdu frame sn 0 0x7FFF e;
        '(e, copy, size) ← rlc_am_retransmit_get_subsegment alloc now sn (am_nb_bytes_requested_by_mac e) e;
        match copy with
        | None => Trap FNull
        | Some tb =>
            m ← aget (pdu_retrans_buffer (tx_retx e)) sn;
            forced_poll now (set_requested e size) tb (header_and_payload_size m)
        end
      else Ret e
  end.

(** ** Acknowledgement of one SDU of a PDU *)

Section AckSdu.
Context (s : am_spec) (sent' : list sent_pdu) (k : Z).
Context (Ht : forall j, tally (covers j) sent' = tally (covers j) (s_sent s)).
Context (Ha : forall j, tally (covers_acked j) sent' = tally (covers_acked j) (s_sent s) + b2z (j =? k)).
Context (Hk : 0 <= k) (Hlt : tally (covers_acked k) (s_sent s) < tally (covers k) (s_sent s)) (H127 : zlen (s_muis s) - 127 <= k).

Definition acked_spec : am_spec := Spec (s_muis s) (s_queue s) sent' (s_low s) (s_conf s).
Abbreviation s' := acked_spec.

Lemma acked_done j : j <> k -> sdu_done s' j = sdu_done s j.
Proof using Ht Ha.
  intros Hj. unfold sdu_done. change (s_head s') with (s_head s). change (s_sent s') with sent'. rewrite Ht, Ha, (proj2 (Z.eqb_neq j k)) by done. cbn [b2z]. by rewrite Z.add_0_r.
Qed.

Lemma acked_counts j x : j <> k -> sdu_counts (s_muis s) (s_sent s) j x -> sdu_counts (s_muis s') sent' j x.
Proof using Ht Ha.
  intros Hj [C1 C2 C3 C4 C5 C6 C7]. constructor; try done; [by rewrite Ht|]. rewrite Ha, (proj2 (Z.eqb_neq j k)) by done. cbn [b2z]. lia.
Qed.

Lemma acked_live j x : j <> k -> live_sdu s j x -> live_sdu s' j x.
Proof using Ht Ha. intros Hj [L1 L2 L3]. constructor; [by apply acked_counts|done|done]. Qed.

(** The SDU is one of those sent, and has its place. *)
Lemma acked_slot q : queue_ok s q -> k < zlen (s_muis s) /\ (k <= s_head s) /\ exists x, sdu_at (am_input_sdus q) k = Some x /\ live_sdu s k x.
Proof using Hk Hlt H127.
  intros Hq. pose proof (covers_acked_le k (s_sent s)) as Hle.
  assert (Hcov : k < s_head s + match sent_of (s_queue s) with [] => 0 | _ => 1 end).
  { destruct (Z.lt_ge_cases k (s_head s + match sent_of (s_queue s) with [] => 0 | _ => 1 end)) as [|Hge]; [done|].
    destruct (covers_none s q k Hq Hge) as [T1 T2]. lia. }
  assert (HN : k < zlen (s_muis s)).
  { unfold s_head in Hcov. pose proof (zlen_nonneg (s_queue s)). destruct (s_queue s) as [|w l]; [cbn in Hcov; lia|].
    rewrite zlen_cons in Hcov. pose proof (zlen_nonneg l). destruct (sent_of _); lia. }
  split; [done|]. split; [destruct (sent_of _); lia|]. destruct (qk_slots _ _ Hq k ltac:(lia)) as (x & Hx & Fx). exists x. split; [done|].
  unfold sdu_live, sdu_done in Fx. rewrite (proj2 (Z.leb_le 0 k)), (proj2 (Z.eqb_neq (tally (covers_acked k) _) _)), andb_false_r in Fx by lia. exact Fx.
Qed.

(** Bytes of the SDU are left to send just when it is not behind the head of the queue. *)
Lemma live_remaining q x : queue_ok s q -> live_sdu s k x -> k < zlen (s_muis s) ->
  (sdu_remaining_size (am_bytes x) =? 0) = (k <? s_head s).
Proof using.
  intros Hq [_ W G] Hk'. destruct (Z.ltb_spec k (s_head s)) as [H|H]; [by destruct (G H) as [_ ->]|].
  destruct (lookup_lt_is_Some_2 (s_queue s) (Z.to_nat (k - s_head s))) as [w Hw]; [unfold s_head, zlen in *; lia|].
  destruct (W w H Hw) as [_ [_ _ T3 _ T5 _]]. apply Z.eqb_neq. lia.
Qed.

(** The place [x'] of the SDU in the ring after its acknowledgement. *)
Lemma acked_queue q x' sdus n : queue_ok s q -> Forall (fun p => 0 <= sp_first p /\
    sp_first p + zlen (u_fields (sp_upd p)) <= s_head s + match sent_of (s_queue s) with [] => 0 | _ => 1 end) sent' ->
  sdus = ring_put 128 (am_input_sdus q) k x' -> (if sdu_done s' k then free_sdu x' else live_sdu s' k x') ->
  queue_ok s' (Queue sdus n (nb_sdu_no_segmented q) (next_sdu_index q) (current_sdu_index q) (sdu_buffer_occupancy q)).
Proof using Ht Ha Hk Hlt H127.
  intros Hq Hc -> Hx'. pose proof Hq as [Q1 Q2 Q3 Q4 Q5 Q6 Q7 Q8 Q9 Q10 Q11 Q12]. destruct (acked_slot q Hq) as (HN & _ & _).
  constructor; cbn [am_input_sdus current_sdu_index next_sdu_index nb_sdu_no_segmented sdu_buffer_occupancy]; try done.
  - by rewrite ring_put_len.
  - intros j Hj. destruct (Z.eq_dec j k) as [->|Hne].
    + exists x'. rewrite ring_at_put by (done || lia). split; [done|]. unfold sdu_live. rewrite (proj2 (Z.leb_le 0 k)) by lia.
      cbn [andb]. by destruct (sdu_done s' k).
    + cbn in Hj. rewrite ring_at_put_near by lia. destruct (Q10 j Hj) as (y & Hy & Fy). exists y. split; [done|].
      unfold sdu_live in *. rewrite acked_done by done. destruct ((0 <=? j) && negb (sdu_done s j)); [by apply acked_live|done].
  - intros j Hj. rewrite acked_done by (cbn in Hj; lia). by apply Q11.
Qed.

Lemma ack_sdu_ok m i e : queue_ok s (tx_queue e) -> Forall (fun p => 0 <= sp_first p /\
    sp_first p + zlen (u_fields (sp_upd p)) <= s_head s + match sent_of (s_queue s) with [] => 0 | _ => 1 end) sent' ->
  aget (sdus_index m) i = Ret (k mod 128) ->
  exists q', ack_sdu RLC_SDU_CONFIRM_YES m i e =
      Ret (set_confirmations (set_tx_queue e q') (confirmations e ++ omap (conf_call e s) (if sdu_done s' k then [k] else []))) /\
    queue_ok s' q'.
Proof using Ht Ha Hk Hlt H127.
  intros Hq Hcov Hi. destruct (acked_slot _ Hq) as (HN & Hh & x & Hx & Lx). pose proof (Z.mod_pos_bound k 128 ltac:(lia)) as Hm.
  pose proof Lx as [[C1 C2 C3 C4 C5 C6 C7] W G]. pose proof (covers_acked_le k (s_sent s)) as Hle.
  pose proof (live_remaining _ x Hq Lx HN) as Hrem. unfold ack_sdu. rewrite (bind_ret _ _ _ Hi).
  rewrite (proj2 (Z.leb_le 0 (k mod 128))) by lia. change RLC_AM_SDU_CONTROL_BUFFER_SIZE with 128. rewrite (proj2 (Z.ltb_lt (k mod 128) 128)) by lia.
  unfold c_assert. cbn [orb Z.eqb RLC_SDU_CONFIRM_YES RLC_SDU_CONFIRM_NO]. cbn [mbind cres_bind].
  rewrite (ring_get 128 ltac:(lia) _ _ _ Hx). cbn [mbind cres_bind]. rewrite u8_small by lia.
  set (x1 := AmSdu _ _ _ _ _ _ _ _). rewrite ring_set by (lia || apply Hq). cbn [mbind cres_bind].
  assert (Hdone : sdu_done s' k = (nb_pdus_ack x1 =? nb_pdus x1) && (sdu_remaining_size (am_bytes x1) =? 0)).
  { unfold sdu_done. change (s_head s') with (s_head s). change (s_sent s') with sent'. cbn [x1 nb_pdus_ack nb_pdus am_bytes]. rewrite Hrem, Ht, Ha, Z.eqb_refl, <- C4, <- C3. cbn [b2z]. apply andb_comm. }
  rewrite <- Hdone. destruct (sdu_done s' k) eqn:Ed.
  - assert (Hgone : k < s_head s) by (unfold sdu_done in Ed; apply andb_prop in Ed as [Ed _]; by apply Z.ltb_lt in Ed).
    unfold rlc_am_free_in_sdu. change RLC_AM_SDU_CONTROL_BUFFER_SIZE with 128. rewrite (proj2 (Z.leb_le (k mod 128) 128)) by lia.
    cbn [set_confirmations set_tx_queue set_sdus tx_queue am_input_sdus nb_sdu nb_sdu_no_segmented next_sdu_index current_sdu_index sdu_buffer_occupancy].
    rewrite (ring_get 128 ltac:(lia) _ _ x1) by (apply ring_at_put; [lia|apply Hq]). cbn [mbind cres_bind].
    assert (Hmb : mem_block x1 = false) by (by apply G). rewrite Hmb.
    rewrite ring_set by (lia || rewrite ring_put_len; apply Hq). cbn [mbind cres_bind]. set (y := AmSdu _ _ _ _ _ _ _ 1).
    rewrite (qk_current _ _ Hq). pose proof (qk_small _ _ Hq) as Hsm. pose proof (zlen_nonneg (s_queue s)) as Hq0.
    assert (HhN : s_head s = zlen (s_muis s) - zlen (s_queue s)) by done.
    rewrite (proj2 (Z.eqb_neq (s_head s mod 128) (k mod 128))) by (intros E; apply mod_near_eq in E; lia).
    assert (Hskip : skip_done (S (Z.to_nat 128)) (ring_put 128 (ring_put 128 (am_input_sdus (tx_queue e)) k x1) k y) (next_sdu_index (tx_queue e)) (s_head s mod 128) = Ret (s_head s mod 128)).
    { cbn [skip_done]. rewrite (qk_next _ _ Hq). destruct (Z.eqb_spec (s_head s mod 128) (zlen (s_muis s) mod 128)) as [|Hne]; [done|]. cbn [negb].
      destruct (s_queue s) as [|w0 q0] eqn:Eq; [change (zlen (@nil waiting)) with 0 in *; replace (s_head s) with (zlen (s_muis s)) in Hne by lia; done|].
      destruct (waiting_slot s _ 0 w0 Hq ltac:(by rewrite Eq)) as (z & Hz & [[_ _ _ _ _ _ Zs] _ _]). rewrite Z.add_0_r in Hz.
      rewrite (ring_get 128 ltac:(lia) _ _ z); [cbn [mbind cres_bind]; by rewrite Zs|]. rewrite !ring_at_put_near by lia. done. }
    rewrite Hskip. cbn [mbind cres_bind]. eexists. split.
    + unfold conf_call. cbn [omap list_omap]. rewrite C1. cbn. reflexivity.
    + rewrite <- (qk_current _ _ Hq). eapply (acked_queue _ y); [done|done| |by rewrite Ed]. unfold ring_put. by rewrite list_insert_insert_eq.
  - exists (set_sdus (tx_queue e) (ring_put 128 (am_input_sdus (tx_queue e)) k x1)). split.
    + cbn [omap list_omap]. rewrite app_nil_r. by destruct e.
    + eapply (acked_queue _ x1); [done|done|done|]. rewrite Ed. constructor.
      * constructor; cbn [x1 sdu_mui pdus_index nb_pdus nb_pdus_ack flag_segmented transmitted_successfully acked_spec s_muis]; try done.
        -- by rewrite Ht.
        -- rewrite Ha, Z.eqb_refl, C4. done.
      * done.
      * done.
Qed.

End AckSdu.

(** ** Acknowledgement of the SDUs of a PDU *)

Definition mark_acked (p : sent_pdu) : sent_pdu := Sent (sp_upd p) (sp_first p) true.

(** A PDU of which the first [j] fields count as acknowledged, as two PDUs. *)
Definition cut_at (p : sent_pdu) (j : nat) : list sent_pdu :=
  let u := sp_upd p in
  [Sent (Upd (u_first u) (take j (u_fields u)) (u_last u)) (sp_first p) true;
   Sent (Upd (u_first u) (drop j (u_fields u)) (u_last u)) (sp_first p + Z.of_nat j) false].

Lemma covers_cut p j k : (j <= length (u_fields (sp_upd p)))%nat ->
  tally (covers k) (cut_at p j) = b2z (covers k p) /\
  tally (covers_acked k) (cut_at p j) = b2z ((sp_first p <=? k) && (k <? sp_first p + Z.of_nat j)).
Proof.
  intros Hj. unfold tally, cut_at, covers_acked, covers, zlen. cbn [foldr sp_first sp_upd u_fields sp_acked]. rewrite length_take, length_drop.
  replace (Z.of_nat (j `min` length (u_fields (sp_upd p)))) with (Z.of_nat j) by lia. rewrite andb_true_r, andb_false_r.
  split; [|cbn; lia]. destruct (Z.leb_spec (sp_first p) k), (Z.ltb_spec k (sp_first p + Z.of_nat j)),
    (Z.leb_spec (sp_first p + Z.of_nat j) k), (Z.ltb_spec k (sp_first p + Z.of_nat j + Z.of_nat (length (u_fields (sp_upd p)) - j))),
    (Z.ltb_spec k (sp_first p + Z.of_nat (length (u_fields (sp_upd p))))); cbn; lia.
Qed.

Section AckSdus.
Context (s : am_spec) (l1 l2 : list sent_pdu) (p : sent_pdu).
Context (Hs : s_sent s = l1 ++ p :: l2) (Hp : sp_acked p = false).
Context (Hrecent : forall k, 0 <= k < zlen (s_muis s) - 127 -> sdu_done s k = true).

Abbreviation n := (length (u_fields (sp_upd p))).
Definition sent_cut (j : nat) : list sent_pdu := l1 ++ cut_at p j ++ l2.
Definition stage (j : nat) : am_spec := acked_spec s (sent_cut j).

Lemma cut_tally j k : (j <= n)%nat -> tally (covers k) (sent_cut j) = tally (covers k) (s_sent s) /\
  tally (covers_acked k) (sent_cut j) = tally (covers_acked k) (s_sent s) + b2z ((sp_first p <=? k) && (k <? sp_first p + Z.of_nat j)).
Proof using Hs Hp.
  intros Hj. unfold sent_cut. rewrite Hs, !(tally_app _ l1). replace (p :: l2) with ([p] ++ l2) by done. rewrite !(tally_app _ _ l2).
  destruct (covers_cut p j k Hj) as [-> ->].
  assert (H1 : tally (covers_acked k) [p] = 0) by (cbn; unfold covers_acked; by rewrite Hp, andb_false_r).
  assert (H2 : tally (covers k) [p] = b2z (covers k p)) by (cbn; lia). lia.
Qed.

(** The SDU of the field [j] is not done before its turn, so that it is one of the last 127. *)
Lemma cut_recent j : (j < n)%nat -> 0 <= sp_first p -> let k := sp_first p + Z.of_nat j in
  tally (covers_acked k) (sent_cut j) < tally (covers k) (sent_cut j) /\ zlen (s_muis s) - 127 <= k.
Proof using Hs Hp Hrecent.
  intros Hj Hf k. destruct (cut_tally j k ltac:(lia)) as [-> ->]. rewrite (proj2 (Z.ltb_ge k _)), andb_false_r by lia.
  assert (Hc : tally (covers_acked k) (s_sent s) < tally (covers k) (s_sent s)).
  { rewrite Hs, !(tally_app _ l1). replace (p :: l2) with ([p] ++ l2) by done. rewrite !(tally_app _ _ l2).
    pose proof (covers_acked_le k l1). pose proof (covers_acked_le k l2).
    assert (H1 : tally (covers_acked k) [p] = 0) by (cbn; unfold covers_acked; by rewrite Hp, andb_false_r).
    assert (H2 : tally (covers k) [p] = 1); [|lia]. cbn. unfold covers. rewrite (proj2 (Z.leb_le _ k)), (proj2 (Z.ltb_lt k _)) by (unfold zlen; lia). done. }
  cbn [b2z]. split; [lia|]. destruct (Z.lt_ge_cases k (zlen (s_muis s) - 127)) as [Hlt|]; [|done].
  specialize (Hrecent k ltac:(lia)). unfold sdu_done in Hrecent. apply andb_prop in Hrecent as [_ Hr]. apply Z.eqb_eq in Hr. lia.
Qed.

Lemma cut_cover q j : queue_ok s q -> (j <= n)%nat -> Forall (fun p => 0 <= sp_first p /\
    sp_first p + zlen (u_fields (sp_upd p)) <= s_head s + match sent_of (s_queue s) with [] => 0 | _ => 1 end) (sent_cut j).
Proof using Hs.
  intros Hq Hj. pose proof (qk_cover _ _ Hq) as Hc. rewrite Hs in Hc. apply Forall_app in Hc as [Hc1 Hc2]. apply Forall_cons_1 in Hc2 as [[P1 P2] Hc2].
  apply Forall_app. split; [done|]. repeat constructor; cbn [sp_first sp_upd u_fields]; unfold zlen in *; rewrite ?length_take, ?length_drop; (done || lia).
Qed.

Lemma ack_sdus_ok m : take n (sdus_index m) = places (sp_first p) n -> 0 <= sp_first p ->
  forall r j e q0, (j + r = n)%nat -> queue_ok s q0 -> queue_ok (stage j) (tx_queue e) ->
  exists q', for_each (ack_sdu RLC_SDU_CONFIRM_YES m) (zrange (Z.of_nat j) r) e =
      Ret (set_confirmations (set_tx_queue e q')
        (confirmations e ++ omap (conf_call e s) (filter (fun k => sdu_done (stage n) k = true) (zrange (sp_first p + Z.of_nat j) r)))) /\
    queue_ok (stage n) q'.
Proof using Hs Hp Hrecent.
  intros Hm Hf. induction r as [|r IH]; intros j e q0 Hjr Hq0 Hq.
  { exists (tx_queue e). replace n with j by lia. split; [|done]. cbn. rewrite app_nil_r. by destruct e. }
  rewrite !zrange_S. cbn [for_each]. set (k := sp_first p + Z.of_nat j) in *.
  destruct (cut_recent j ltac:(lia) Hf) as [Hlt Hrec]. fold k in Hlt, Hrec.
  assert (Hidx : aget (sdus_index m) (Z.of_nat j) = Ret (k mod 128)).
  { unfold aget. rewrite (proj2 (Z.leb_le 0 _)), Nat2Z.id by lia. assert (E : sdus_index m !! j = Some (k mod 128)); [|by rewrite E].
    rewrite <- (lookup_take_lt _ n) by lia. rewrite Hm. unfold places. rewrite list_lookup_fmap, lookup_seqZ_lt by lia. done. }
  destruct (ack_sdu_ok (stage j) (sent_cut (S j)) k) with (m := m) (i := Z.of_nat j) (e := e) as (q1 & E1 & Q1); try done.
  - intros i. change (s_sent (stage j)) with (sent_cut j). by destruct (cut_tally (S j) i ltac:(lia)) as [-> _], (cut_tally j i ltac:(lia)) as [-> _].
  - intros i. change (s_sent (stage j)) with (sent_cut j). destruct (cut_tally (S j) i ltac:(lia)) as [_ ->], (cut_tally j i ltac:(lia)) as [_ ->].
    subst k. destruct (Z.leb_spec (sp_first p) i), (Z.ltb_spec i (sp_first p + Z.of_nat (S j))), (Z.ltb_spec i (sp_first p + Z.of_nat j)),
      (Z.eqb_spec i (sp_first p + Z.of_nat j)); cbn [b2z andb]; lia.
  - lia.
  - by eapply (cut_cover q0 (S j)); [|lia].
  - rewrite E1. change (acked_spec (stage j) (sent_cut (S j))) with (stage (S j)) in *.
    assert (Hd : sdu_done (stage (S j)) k = sdu_done (stage n) k).
    { unfold sdu_done. change (s_sent (stage (S j))) with (sent_cut (S j)). change (s_sent (stage n)) with (sent_cut n).
      destruct (cut_tally (S j) k ltac:(lia)) as [-> ->], (cut_tally n k ltac:(lia)) as [-> ->]. subst k.
      by rewrite (proj2 (Z.ltb_lt _ (sp_first p + Z.of_nat (S j)))), (proj2 (Z.ltb_lt _ (sp_first p + Z.of_nat n))) by lia. }
    rewrite Hd. destruct (IH (S j) (set_confirmations (set_tx_queue e q1) (confirmations e ++ omap (conf_call e s) (if sdu_done (stage n) k then [k] else []))) q0)
      as (q' & E' & Q'); [lia|done|done|]. cbn [mbind cres_bind]. replace (Z.of_nat j + 1) with (Z.of_nat (S j)) by lia.
    replace (k + 1) with (sp_first p + Z.of_nat (S j)) by lia. exists q'. split; [|done]. change (conf_call e (stage j)) with (conf_call e s).
    rewrite E'. cbn [set_confirmations set_tx_queue confirmations]. rewrite <- app_assoc. do 3 f_equal.
    change (conf_call (set_confirmations _ _) s) with (conf_call e s). rewrite <- omap_app. f_equal. cbn [filter list_filter].
    destruct (sdu_done (stage n) k) eqn:Ek; [by rewrite decide_True|by rewrite decide_False].
Qed.

End AckSdus.

(** ** Acknowledgement of a PDU *)

(** The PDU at the lower edge of the window is acknowledged: the SDUs that this completes are confirmed. *)
Definition spec_ack (s : am_spec) : am_spec :=
  match s_sent s !! Z.to_nat (s_low s) with
  | None => s
  | Some p =>
      let s1 := Spec (s_muis s) (s_queue s) (<[Z.to_nat (s_low s) := mark_acked p]> (s_sent s)) (s_low s + 1) (s_conf s) in
      Spec (s_muis s) (s_queue s) (s_sent s1) (s_low s + 1)
        (s_conf s ++ filter (fun k => sdu_done s1 k = true) (zrange (sp_first p) (length (u_fields (sp_upd p)))))
  end.

(** The PDUs are acknowledged in order, and at most 127 SDUs are not confirmed. *)
Record fifo (s : am_spec) : Prop := {
  ff_window : forall c p, s_sent s !! c = Some p -> s_low s <= Z.of_nat c -> sp_acked p = false;
  ff_recent : forall k, 0 <= k < zlen (s_muis s) - 127 -> sdu_done s k = true;
}.

Lemma queue_ok_same s s' q : s_muis s' = s_muis s -> s_queue s' = s_queue s ->
  (forall k, tally (covers k) (s_sent s') = tally (covers k) (s_sent s)) ->
  (forall k, tally (covers_acked k) (s_sent s') = tally (covers_acked k) (s_sent s)) ->
  Forall (fun p => 0 <= sp_first p /\
    sp_first p + zlen (u_fields (sp_upd p)) <= s_head s' + match sent_of (s_queue s') with [] => 0 | _ => 1 end) (s_sent s') ->
  queue_ok s q -> queue_ok s' q.
Proof.
  intros E1 E2 T1 T2 Hc [Q1 Q2 Q3 Q4 Q5 Q6 Q7 Q8 Q9 Q10 Q11 Q12].
  assert (Eh : s_head s' = s_head s) by (unfold s_head; by rewrite E1, E2).
  assert (Ed : forall k, sdu_done s' k = sdu_done s k) by (intros k; unfold sdu_done; by rewrite Eh, T1, T2).
  constructor; rewrite ?Eh, ?E1, ?E2; try done; [|by intros k Hk; rewrite Ed; apply Q11|by rewrite Eh, E2 in Hc].
  intros k Hk. destruct (Q10 k Hk) as (x & Hx & Fx). exists x. split; [done|]. unfold sdu_live in *. rewrite Ed.
  destruct ((0 <=? k) && negb (sdu_done s k)); [|done]. destruct Fx as [[C1 C2 C3 C4 C5 C6 C7] W G].
  constructor; rewrite ?Eh, ?E2; [constructor; rewrite ?E1, ?T1, ?T2; done|done|done].
Qed.

(** The counts when the PDU [p] is acknowledged. *)
Lemma mark_tally l1 p l2 k : sp_acked p = false ->
  tally (covers k) (l1 ++ mark_acked p :: l2) = tally (covers k) (l1 ++ p :: l2) /\
  tally (covers_acked k) (l1 ++ mark_acked p :: l2) = tally (covers_acked k) (l1 ++ p :: l2) + b2z (covers k p).
Proof.
  intros Hp. rewrite !tally_app. unfold tally. cbn [foldr]. unfold covers_acked at 2 5. rewrite Hp, andb_false_r.
  replace (covers k (mark_acked p)) with (covers k p) by done. rewrite andb_true_r. cbn [b2z]. lia.
Qed.

Lemma update_pdu_ok r c f m : zlen (pdu_retrans_buffer r) = 1024 -> pdu_at (pdu_retrans_buffer r) c = Some m ->
  update_pdu (c mod 1024) f r = Ret (set_pdus r (ring_put 1024 (pdu_retrans_buffer r) c (f m))).
Proof. intros Hl Hm. unfold update_pdu. rewrite (bind_ret _ _ _ (ring_get 1024 ltac:(lia) _ _ _ Hm)). by rewrite ring_set by (lia || done). Qed.

(** The window moves by one: the next PDU is not acknowledged, or not sent. *)
Lemma advance_vt_a_ok fuel r L S' m : zlen (pdu_retrans_buffer r) = 1024 -> tx_vt_a r = L mod 1024 -> tx_vt_s r = S' mod 1024 ->
  first_retrans_pdu_sn r = -1 -> pdu_at (pdu_retrans_buffer r) L = Some m ->
  L + 1 = S' \/ (exists m', pdu_at (pdu_retrans_buffer r) (L + 1) = Some m' /\ flag_ack m' = 0) ->
  advance_vt_a (S fuel) r = Ret (set_window (set_pdus r (ring_put 1024 (pdu_retrans_buffer r) L zero_pdu)) ((L + 1) mod 1024) (tx_vt_ms r)).
Proof.
  intros Hl Ha Hs Hf Hm Hnext. cbn [advance_vt_a]. rewrite Ha, (update_pdu_ok r L _ m) by done. cbn [mbind cres_bind].
  rewrite mask_mod, mod_next, Hf. pose proof (Z.mod_pos_bound L 1024 ltac:(lia)). rewrite (proj2 (Z.eqb_neq (L mod 1024) (-1))) by lia.
  cbn [set_window set_pdus pdu_retrans_buffer tx_vt_s].
  assert (Hx : exists m', pdu_at (ring_put 1024 (pdu_retrans_buffer r) L zero_pdu) (L + 1) = Some m' /\ (flag_ack m' = 0 \/ L + 1 = S')).
  { rewrite ring_at_put_near by lia. destruct Hnext as [E|(m' & E1 & E2)]; [|by exists m'; auto].
    destruct (ring_some 1024 ltac:(lia) (pdu_retrans_buffer r) (L + 1) Hl) as [m' Hm']. exists m'. auto. }
  destruct Hx as (m' & Hm' & Hstop). rewrite (ring_get 1024 ltac:(lia) _ _ _ Hm'). cbn [mbind cres_bind].
  assert (Hgo : (flag_ack m' =? 1) && negb ((L + 1) mod 1024 =? tx_vt_s r) = false).
  { rewrite Hs. destruct Hstop as [-> | ->]; [done|]. rewrite Z.eqb_refl. apply andb_false_r. }
  by rewrite Hgo.
Qed.

Lemma move_window_ok r L S' m : zlen (pdu_retrans_buffer r) = 1024 -> tx_vt_a r = L mod 1024 -> tx_vt_s r = S' mod 1024 ->
  first_retrans_pdu_sn r = -1 -> pdu_at (pdu_retrans_buffer r) L = Some m ->
  L + 1 = S' \/ (exists m', pdu_at (pdu_retrans_buffer r) (L + 1) = Some m' /\ flag_ack m' = 0) ->
  move_window r = Ret (set_window (set_pdus r (ring_put 1024 (pdu_retrans_buffer r) L zero_pdu)) ((L + 1) mod 1024) ((L + 1 + 512) mod 1024)).
Proof.
  intros H1 H2 H3 H4 H5 H6. unfold move_window. rewrite (bind_ret _ _ _ (advance_vt_a_ok _ r L S' m H1 H2 H3 H4 H5 H6)).
  rewrite mask_mod. cbn [set_window tx_vt_a]. unfold RLC_AM_WINDOW_SIZE. by rewrite Zplus_mod_idemp_l.
Qed.

Section AckPdu.
Context (s : am_spec) (p : sent_pdu).
Context (Hlow : 0 <= s_low s) (Hp : s_sent s !! Z.to_nat (s_low s) = Some p) (Hf : fifo s).

Abbreviation L := (s_low s).
Abbreviation n := (length (u_fields (sp_upd p))).
Abbreviation l1 := (take (Z.to_nat L) (s_sent s)).
Abbreviation l2 := (drop (S (Z.to_nat L)) (s_sent s)).

Lemma ack_unacked : sp_acked p = false.
Proof using Hlow Hp Hf. apply (ff_window _ Hf _ _ Hp). lia. Qed.

Lemma ack_split : s_sent s = l1 ++ p :: l2 /\ s_sent (spec_ack s) = l1 ++ mark_acked p :: l2.
Proof using Hp.
  split; [by rewrite take_drop_middle|]. unfold spec_ack. rewrite Hp. cbn [s_sent]. apply insert_take_drop. by eapply lookup_lt_Some.
Qed.

Lemma ack_tally k : tally (covers k) (s_sent (spec_ack s)) = tally (covers k) (s_sent s) /\
  tally (covers_acked k) (s_sent (spec_ack s)) = tally (covers_acked k) (s_sent s) + b2z (covers k p).
Proof using Hlow Hp Hf.
  destruct ack_split as [E1 E2]. rewrite E2. destruct (mark_tally l1 p l2 k ack_unacked) as [-> ->]. by rewrite <- E1.
Qed.

Lemma ack_parts : s_muis (spec_ack s) = s_muis s /\ s_queue (spec_ack s) = s_queue s /\ s_low (spec_ack s) = L + 1 /\
  zlen (s_sent (spec_ack s)) = zlen (s_sent s) /\ s_head (spec_ack s) = s_head s /\
  s_conf (spec_ack s) = s_conf s ++ filter (fun k => sdu_done (spec_ack s) k = true) (zrange (sp_first p) n).
Proof using Hp. unfold spec_ack. rewrite Hp. cbn. split_and!; try done. by rewrite zlen_insert. Qed.

Lemma ack_done k : sdu_done (spec_ack s) k = (if covers k p then sdu_done (spec_ack s) k else sdu_done s k) /\
  (covers k p = true -> sdu_done s k = false) /\ (sdu_done s k = true -> sdu_done (spec_ack s) k = true).
Proof using Hlow Hp Hf.
  destruct ack_parts as (_ & _ & _ & _ & Eh & _), (ack_tally k) as [T1 T2]. pose proof (covers_acked_le k (s_sent (spec_ack s))).
  unfold sdu_done. rewrite Eh, T1, T2 in *. destruct (covers k p); cbn [b2z] in *; split_and!; try done.
  - intros _. rewrite (proj2 (Z.eqb_neq _ _)) by lia. apply andb_false_r.
  - intros H'. apply andb_prop in H' as [_ H']. apply Z.eqb_eq in H'. lia.
  - by rewrite Z.add_0_r.
  - by rewrite Z.add_0_r.
Qed.

Lemma ack_conf : NoDup (s_conf s) -> (forall k, k ∈ s_conf s <-> 0 <= k /\ sdu_done s k = true) -> 0 <= sp_first p ->
  NoDup (s_conf (spec_ack s)) /\ (forall k, k ∈ s_conf (spec_ack s) <-> 0 <= k /\ sdu_done (spec_ack s) k = true).
Proof using Hlow Hp Hf.
  intros Hnd Hc Hfirst. destruct ack_parts as (_ & _ & _ & _ & _ & ->).
  assert (Hcov : forall k, k ∈ zrange (sp_first p) n <-> covers k p = true).
  { intros k. rewrite elem_of_zrange. unfold covers, zlen. rewrite andb_true_iff, Z.leb_le, Z.ltb_lt. done. }
  split.
  - apply list.NoDup_app. split_and!; [done| |apply list.NoDup_filter, NoDup_seqZ].
    intros k Hk Hk'. apply list_elem_of_filter in Hk' as [_ Hk']. apply Hc in Hk as [_ Hk]. apply Hcov in Hk'.
    destruct (ack_done k) as (_ & H & _). rewrite H in Hk; done.
  - intros k. rewrite elem_of_app, Hc, list_elem_of_filter, Hcov. destruct (ack_done k) as (H1 & H2 & H3). split.
    + intros [[? ?]|[Hd Hk]]; [auto|]. split; [|done]. apply Hcov, elem_of_zrange in Hk. lia.
    + intros [Hk Hd]. destruct (covers k p); [by right|]. left. by rewrite <- H1.
Qed.

Lemma ack_fifo : fifo (spec_ack s).
Proof using Hlow Hp Hf.
  destruct ack_parts as (E1 & E2 & E3 & E4 & _ & _). constructor.
  - intros c p' Hc Hle. rewrite E3 in Hle. unfold spec_ack in Hc. rewrite Hp in Hc. cbn in Hc. rewrite list_lookup_insert_ne in Hc by lia.
    apply (ff_window _ Hf c p' Hc). lia.
  - intros k Hk. rewrite E1 in Hk. apply ack_done. by apply Hf.
Qed.

(** The retransmission buffer behind the PDU. *)
Lemma ack_retx r a b c d : retx_ok s r ->
  retx_ok (spec_ack s) (set_window (set_pdus (set_retrans_nums r a b c) (ring_put 1024 (pdu_retrans_buffer r) L d)) ((L + 1) mod 1024) ((L + 1 + 512) mod 1024)).
Proof using Hlow Hp Hf.
  intros [R1 R2 R3 R4 R5 R6 R7 R8 R9 R10]. destruct ack_parts as (E1 & E2 & E3 & E4 & _ & _). pose proof (lookup_lt_Some _ _ _ Hp) as Hlt.
  assert (Hsent : forall i p', s_sent (spec_ack s) !! i = Some p' -> Z.of_nat i = L /\ p' = mark_acked p \/ Z.of_nat i <> L /\ s_sent s !! i = Some p').
  { intros i p' Hi. unfold spec_ack in Hi. rewrite Hp in Hi. cbn in Hi. destruct (decide (i = Z.to_nat L)) as [->|Hne].
    - rewrite list_lookup_insert_eq in Hi by done. injection Hi as <-. left. split; [lia|done].
    - rewrite list_lookup_insert_ne in Hi by done. right. split; [lia|done]. }
  constructor; rewrite ?E3, ?E4; cbn; try done.
  - by rewrite ring_put_len.
  - unfold zlen in *. lia.
  - lia.
  - intros i p' Hi Hlt'. apply Hsent in Hi as [[_ ->]|[Hne Hi]]; [done|]. apply (R8 i p' Hi). lia.
  - intros p' Hi. apply Hsent in Hi as [[? _]|[_ Hi]]; [lia|]. apply (ff_window _ Hf _ _ Hi). lia.
  - intros i p' Hi Hle. apply Hsent in Hi as [[? _]|[_ Hi]]; [lia|]. pose proof (lookup_lt_Some _ _ _ Hi). unfold zlen in *.
    rewrite ring_at_put_near by lia. apply R10; [done|lia].
Qed.

End AckPdu.

(** The members that acknowledgements do not touch. *)
Record rest_same (e e' : am_tx) : Prop := {
  rs_requested : am_nb_bytes_requested_by_mac e' = am_nb_bytes_requested_by_mac e;
  rs_segmented : segmentation_pdu_list e' = segmentation_pdu_list e;
  rs_to_mac : am_pdus_to_mac_layer e' = am_pdus_to_mac_layer e;
  rs_rb : am_rb_id e' = am_rb_id e;
  rs_plane : am_is_data_plane e' = am_is_data_plane e;
}.

#[export] Instance rest_same_preorder : PreOrder rest_same.
Proof. split; [by constructor|]. intros e1 e2 e3 [] []. constructor; congruence. Qed.

(** The entry of the PDU at the lower edge, and what is behind it. *)
Lemma edge_entry s r p : retx_ok s r -> fifo s -> s_sent s !! Z.to_nat (s_low s) = Some p ->
  exists m tb, pdu_at (pdu_retrans_buffer r) (s_low s) = Some m /\ stored_pdu (s_low s) p m /\ pdu_block m = Some tb /\ flag_ack m = 0 /\
  (s_low s + 1 = zlen (s_sent s) \/ exists m', pdu_at (pdu_retrans_buffer r) (s_low s + 1) = Some m' /\ flag_ack m' = 0).
Proof.
  intros Hr Hf Hp. pose proof (rk_low _ _ Hr) as Hl. pose proof (ff_window _ Hf _ _ Hp ltac:(lia)) as Hu.
  destruct (rk_stored _ _ Hr _ _ Hp ltac:(lia)) as (m & Hm & Sm). rewrite Z2Nat.id in Hm, Sm by lia. exists m.
  pose proof (st_block _ _ _ Sm) as Hb. rewrite Hu in Hb. destruct Hb as (tb & Hb & _). exists tb. split_and!; try done.
  - by rewrite (st_ack _ _ _ Sm), Hu.
  - destruct (Z.eq_dec (s_low s + 1) (zlen (s_sent s))) as [|Hne]; [by left|right]. pose proof (lookup_lt_Some _ _ _ Hp) as Hlt.
    destruct (lookup_lt_is_Some_2 (s_sent s) (S (Z.to_nat (s_low s)))) as [p' Hp']; [unfold zlen in Hne; lia|].
    destruct (rk_stored _ _ Hr _ _ Hp' ltac:(lia)) as (m' & Hm' & Sm'). exists m'. replace (Z.of_nat (S (Z.to_nat (s_low s)))) with (s_low s + 1) in Hm' by lia.
    split; [done|]. by rewrite (st_ack _ _ _ Sm'), (ff_window _ Hf _ _ Hp' ltac:(lia)).
Qed.

Lemma conf_calls_same e e' s s' (l : list Z) : am_rb_id e' = am_rb_id e -> am_is_data_plane e' = am_is_data_plane e -> s_muis s' = s_muis s ->
  omap (conf_call e' s') l = omap (conf_call e s) l.
Proof.
  intros E1 E2 E3. apply list_omap_ext, Forall_Forall2_diag, Forall_forall. intros k _. unfold conf_call, conf_args. by rewrite E1, E2, E3.
Qed.

Lemma ack_pdu_ok s e p : am_ok s e -> fifo s -> s_sent s !! Z.to_nat (s_low s) = Some p ->
  exists e', rlc_am_ack_pdu (s_low s mod 1024) e = Ret e' /\ am_ok (spec_ack s) e' /\ tx_poll e' = tx_poll e /\ rest_same e e'.
Proof.
  intros Hok Hf Hp. pose proof Hok as [Hq Hr Hti Hnd Hc Hcalls]. pose proof (rk_low _ _ Hr) as Hlow. pose proof (rk_len _ _ Hr) as Hlen.
  destruct (edge_entry s _ p Hr Hf Hp) as (m & tb & Hm & Sm & Hb & Hack & Hnext). pose proof (ack_unacked s p ltac:(lia) Hp Hf) as Hu.
  destruct (ack_split s p Hp) as [Es Es']. pose proof (qk_cover _ _ Hq) as Hcov. rewrite Es in Hcov. apply Forall_app in Hcov as [Hcv1 Hcv2].
  apply Forall_cons_1 in Hcv2 as [[Hfirst Hcvp] Hcv2].
  unfold rlc_am_ack_pdu. rewrite (bind_ret _ _ _ (ring_get 1024 ltac:(lia) _ _ _ Hm)), (bind_ret _ _ _ (update_pdu_ok _ _ _ _ Hlen Hm)).
  rewrite Hb, Hack. cbv beta iota. cbn [Z.eqb].
  rewrite (update_pdu_ok _ (s_low s) _ (set_retransmit m 0)); [|by cbn; rewrite ring_put_len|by cbn; rewrite ring_at_put by (done || lia)].
  cbn [mbind cres_bind set_pdus pdu_retrans_buffer retrans_num_pdus retrans_num_bytes retrans_num_bytes_to_retransmit]. rewrite ring_put_put, (st_retx _ _ _ Sm).
  change (0 <=? -1) with false. cbv iota. set (r1 := set_retrans_nums _ _ _ _).
  rewrite (st_nb _ _ _ Sm). unfold zlen at 1. rewrite Nat2Z.id.
  set (s0 := stage s (take (Z.to_nat (s_low s)) (s_sent s)) (drop (S (Z.to_nat (s_low s))) (s_sent s)) p).
  assert (H0 : queue_ok (s0 0%nat) (tx_queue (set_tx_retx e r1))).
  { apply (queue_ok_same s); try done.
    - intros k. apply (cut_tally s _ _ p Es Hu 0 k ltac:(lia)).
    - intros k. destruct (cut_tally s _ _ p Es Hu 0 k ltac:(lia)) as [_ T]. etransitivity; [exact T|].
      assert (Hz : (sp_first p <=? k) && (k <? sp_first p + Z.of_nat 0) = false) by (destruct (Z.leb_spec (sp_first p) k); [apply Z.ltb_ge; lia|done]).
      rewrite Hz. cbn [b2z]. lia.
    - by eapply (cut_cover s _ _ p Es); [|lia]. }
  destruct (ack_sdus_ok s _ _ p Es Hu (ff_recent _ Hf) m (st_sdus _ _ _ Sm) Hfirst _ 0%nat (set_tx_retx e r1) _ eq_refl Hq H0) as (q' & E' & Q').
  change (Z.of_nat 0) with 0 in E'. rewrite Z.add_0_r in E'. rewrite (bind_ret _ _ _ E'). cbn [set_confirmations set_tx_queue set_tx_retx tx_retx].
  rewrite (update_pdu_ok _ (s_low s) _ (set_block (set_retransmit m 0) None)); [|by cbn; rewrite ring_put_len|by cbn; rewrite ring_at_put by (done || lia)].
  cbn [mbind cres_bind r1 set_pdus set_retrans_nums pdu_retrans_buffer tx_vt_a]. rewrite ring_put_put, (rk_a _ _ Hr), Z.eqb_refl.
  rewrite (move_window_ok _ (s_low s) (zlen (s_sent s)) (set_ack (set_block (set_retransmit m 0) None)));
    [|by cbn; rewrite ring_put_len|by cbn; apply Hr|by cbn; apply Hr|by cbn; apply Hr|by cbn; rewrite ring_at_put by (done || lia)|].
  2:{ destruct Hnext as [?|(m' & Hm' & ?)]; [by left|right]. exists m'. split; [|done]. cbn. by rewrite ring_at_put_near by lia. }
  cbn [mbind cres_bind set_window set_pdus first_retrans_pdu_sn pdu_retrans_buffer]. change (first_retrans_pdu_sn r1) with (first_retrans_pdu_sn (tx_retx e)).
  rewrite (rk_first _ _ Hr).
  pose proof (Z.mod_pos_bound (s_low s) 1024 ltac:(lia)). rewrite (proj2 (Z.eqb_neq (s_low s mod 1024) (-1))) by lia. cbn [mbind cres_bind].
  eexists. split; [reflexivity|]. split; [|by split].
  destruct (ack_parts s p Hp) as (A1 & A2 & A3 & A4 & A5 & A6).
  assert (Hst : forall k, tally (covers k) (s_sent (spec_ack s)) = tally (covers k) (s_sent (s0 (length (u_fields (sp_upd p))))) /\
    tally (covers_acked k) (s_sent (spec_ack s)) = tally (covers_acked k) (s_sent (s0 (length (u_fields (sp_upd p)))))).
  { intros k. destruct (ack_tally s p ltac:(lia) Hp Hf k) as [-> ->]. destruct (cut_tally s _ _ p Es Hu (length (u_fields (sp_upd p))) k ltac:(lia)) as [T1 T2].
    split; [by symmetry|]. symmetry. exact T2. }
  constructor.
  - apply (queue_ok_same (s0 (length (u_fields (sp_upd p))))); try done; [by intros k; apply Hst|by intros k; apply Hst|].
    rewrite A2, A5, Es'. apply Forall_app. split; [done|]. by constructor.
  - rewrite ring_put_put.
    exact (ack_retx s p ltac:(lia) Hp Hf (tx_retx e) (retrans_num_pdus r1) (retrans_num_bytes r1) (retrans_num_bytes_to_retransmit r1) zero_pdu Hr).
  - done.
  - by apply (ack_conf s p ltac:(lia) Hp Hf).
  - by apply (ack_conf s p ltac:(lia) Hp Hf).
  - rewrite (conf_calls_same e _ s (spec_ack s)), A6, omap_app by done. cbn [set_tx_retx confirmations]. rewrite Hcalls.
    assert (Hfil : filter (fun k => sdu_done (spec_ack s) k = true) (zrange (sp_first p) (length (u_fields (sp_upd p)))) =
      filter (fun k => sdu_done (s0 (length (u_fields (sp_upd p)))) k = true) (zrange (sp_first p) (length (u_fields (sp_upd p))))).
    { apply list_filter_iff. intros k. unfold sdu_done. destruct (Hst k) as [-> ->]. by rewrite A5. }
    by rewrite Hfil.
Qed.

(** ** A report without negative acknowledgements *)

Definition spec_acks (n : nat) (s : am_spec) : am_spec := Nat.iter n spec_ack s.

Lemma spec_acks_S n s : spec_acks (S n) s = spec_acks n (spec_ack s).
Proof. unfold spec_acks. apply Nat.iter_succ_r. Qed.

(** The timer of the poll is left as it is or stopped. *)
Definition poll_stopped (p p' : am_poll) : Prop :=
  t_poll_retransmit p' = t_poll_retransmit p \/
  t_poll_retransmit p' = rlc_am_stop_and_reset_timer_poll_retransmit (t_poll_retransmit p).

Lemma poll_stopped_trans p1 p2 p3 : poll_stopped p1 p2 -> poll_stopped p2 p3 -> poll_stopped p1 p3.
Proof. unfold poll_stopped. intros [E1|E1] [E2|E2]; rewrite ?E2, ?E1; auto. Qed.

Lemma answered_ok sn s e : am_ok s e -> am_ok s (poll_answered sn e) /\ poll_stopped (tx_poll e) (tx_poll (poll_answered sn e)) /\
  rest_same e (poll_answered sn e).
Proof.
  intros [H1 H2 H3 H4 H5 H6]. unfold poll_answered. destruct (sn =? poll_sn (tx_poll e)).
  - split_and!; [by constructor|by right|done].
  - split_and!; [by constructor|by left|done].
Qed.

Lemma spec_ack_low s : 0 <= s_low s < zlen (s_sent s) -> s_low (spec_ack s) = s_low s + 1 /\ zlen (s_sent (spec_ack s)) = zlen (s_sent s).
Proof.
  intros H. destruct (lookup_lt_is_Some_2 (s_sent s) (Z.to_nat (s_low s))) as [p Hp]; [unfold zlen in H; lia|].
  by destruct (ack_parts s p Hp) as (_ & _ & ? & ? & _).
Qed.

Lemma ack_loop_ok n : forall fuel s e, (n < fuel)%nat -> (n < 1024)%nat -> am_ok s e -> fifo s -> s_low s + Z.of_nat n <= zlen (s_sent s) ->
  exists e', ack_loop fuel ((s_low s + Z.of_nat n) mod 1024) (s_low s mod 1024) e = Ret e' /\
    am_ok (spec_acks n s) e' /\ fifo (spec_acks n s) /\ poll_stopped (tx_poll e) (tx_poll e') /\ rest_same e e'.
Proof.
  induction n as [|n IH]; intros fuel s e Hn1 Hn2 Hok Hf Hs; (destruct fuel as [|fuel]; [lia|]); cbn [ack_loop].
  - rewrite Z.add_0_r, Z.eqb_refl. exists e. split_and!; try done. by left.
  - rewrite (proj2 (Z.eqb_neq _ _)) by (intros E; apply mod_near_eq in E; lia). cbn [negb].
    destruct (answered_ok (s_low s mod 1024) s e Hok) as (Hok1 & Hp1 & Hr1). pose proof (rk_low _ _ (ao_retx _ _ Hok)) as Hlow.
    destruct (lookup_lt_is_Some_2 (s_sent s) (Z.to_nat (s_low s))) as [p Hp]; [unfold zlen in Hs; lia|].
    destruct (ack_pdu_ok s _ p Hok1 Hf Hp) as (e1 & E1 & Hok2 & Hp2 & Hr2). rewrite E1. cbn [mbind cres_bind].
    destruct (spec_ack_low s ltac:(lia)) as [L1 L2].
    destruct (IH fuel (spec_ack s) e1) as (e' & E' & G1 & G2 & G3 & G4); [lia|lia|done|by apply (ack_fifo s p ltac:(lia) Hp Hf)|lia|].
    rewrite mask_mod, mod_next. rewrite L1 in E'. replace (s_low s + Z.of_nat (S n)) with (s_low s + 1 + Z.of_nat n) by lia.
    exists e'. rewrite spec_acks_S. split_and!; try done.
    + rewrite Hp2 in G3. by eapply poll_stopped_trans.
    + etransitivity; [done|]. by etransitivity.
Qed.

(** The two octets of a report that acknowledges what is below [C]. *)
Definition ack_report (C : Z) : list byte := [byte.of_Z (C / 64); byte.of_Z (C mod 64 * 4)].

Lemma ack_report_checked : forallb (fun C => match rlc_am_get_control_pdu_infos (byte.unsigned <$> ack_report C) 2 with
  | Ret (0, 0, i) => (ack_sn i =? C) && (num_nack i =? 0) | _ => false end) (zrange 0 1024) = true.
Proof. by vm_compute. Qed.

Lemma ack_report_ok C : 0 <= C < 1024 ->
  exists i, rlc_am_get_control_pdu_infos (byte.unsigned <$> ack_report C) 2 = Ret (0, 0, i) /\ ack_sn i = C /\ num_nack i = 0.
Proof.
  intros H. pose proof ack_report_checked as Hc. rewrite forallb_forall in Hc. specialize (Hc C).
  destruct (rlc_am_get_control_pdu_infos _ _) as [[[[] []] i]|]; try (exfalso; discriminate Hc; apply list_elem_of_In, elem_of_zrange; lia).
  exists i. split; [done|]. destruct (andb_prop _ _ (Hc ltac:(apply list_elem_of_In, elem_of_zrange; lia))) as [H1 H2].
  split; by apply Z.eqb_eq.
Qed.

Lemma tx_window_ok s r n : retx_ok s r -> 0 <= n < 1024 -> rlc_am_in_tx_window (tx_vars r) ((s_low s + n) mod 1024) = if n <? 512 then 1 else 0.
Proof.
  intros Hr Hn. unfold rlc_am_in_tx_window, tx_vars. cbn [vt_a vt_ms]. rewrite sn_of_count, (rk_a _ _ Hr), (rk_ms _ _ Hr), !shifted_count by lia.
  rewrite !Z.add_simpl_l. by rewrite (proj2 (Z.leb_le 0 n)) by lia.
Qed.

(** A report of less than a whole window acknowledges the PDUs below its number. *)
Lemma report_ok frame s e n : am_ok s e -> fifo s -> 0 <= n < 512 -> s_low s + n <= zlen (s_sent s) ->
  exists e', rlc_am_receive_process_control_pdu frame (ack_report ((s_low s + n) mod 1024)) 2 e = Ret (e', 0) /\
    am_ok (spec_acks (Z.to_nat n) s) e' /\ fifo (spec_acks (Z.to_nat n) s) /\ poll_stopped (tx_poll e) (tx_poll e') /\ rest_same e e'.
Proof.
  intros Hok Hf Hn Hs. unfold rlc_am_receive_process_control_pdu. pose proof (Z.mod_pos_bound (s_low s + n) 1024 ltac:(lia)) as Hm.
  destruct (ack_report_ok _ Hm) as (i & Ei & Ea & En). rewrite (bind_ret _ _ _ Ei). cbn [Z.leb]. unfold process_report. rewrite Ea, En.
  unfold RLC_AM_SN_MODULO, RLC_AM_MAX_NACK_IN_STATUS_PDU, c_assert. rewrite (proj2 (Z.ltb_lt _ 1024)) by lia. cbn [mbind cres_bind Z.ltb].
  pose proof Hok as [Hq Hr Ht Hnd Hc Hca].
  rewrite (tx_window_ok s _ n Hr) by lia. rewrite (proj2 (Z.ltb_lt n 512)) by lia. cbv iota. cbn [Z.ltb Z.eqb].
  set (e1 := set_tx_retx e _). assert (Hok1 : am_ok s e1) by (constructor; try done; by destruct Hr).
  destruct (ack_loop_ok (Z.to_nat n) 1025 s e1) as (e' & E' & G1 & G2 & G3 & G4); [lia|lia|done|done|lia|].
  rewrite Z2Nat.id in E' by lia. cbn [e1 set_tx_retx tx_retx set_nack_nums tx_vt_a]. rewrite (rk_a _ _ Hr).
  rewrite (bind_ret _ _ _ E'). exists e'. split_and!; try done. by destruct G4; constructor.
Qed.
