(* ===== verification/RlcAmEntity.v ===== *)
(** RLC acknowledged mode: the entity ([openair2/LAYER2/RLC/AM_v9.3.0/rlc_am.c], [rlc_am_init.c], the
    distribution of the PDUs in [rlc_am_receiver.c] and the construction of status reports in
    [rlc_am_status_report.c]).

    The entity joins the transmitter of [RlcAmTx] and [RlcAmArq] and the receiver of [RlcAmRx].  A
    request of the MAC sends a status report, a PDU again or a new PDU, in that order.  The theorems
    follow the transmitter through any run of SDUs, grants and acknowledgements, join it with the
    receiver, and give the runs in which the code does not do what acknowledged mode promises. *)
From stdpp Require Import base list numbers.
From coqutil Require Import Byte.
From Stdlib Require Import ZArith Lia Sorted.
From S2P Require Import Prelude SplitIface RlcPrims RlcAmWindow RlcAmStatus RlcUm RlcAmRx RlcUmTx RlcAmTx RlcAmArq.
Open Scope Z_scope.

(** ** Construction of a status report *)

(** The negative acknowledgements so far; the array has [RLC_AM_MAX_NACK_IN_STATUS_PDU] elements. *)
Definition push_nack (x : nack_sn_t) (l : list nack_sn_t) : cres (list nack_sn_t) :=
  if zlen l <? RLC_AM_MAX_NACK_IN_STATUS_PDU then Ret (l ++ [x]) else Trap FOob.

(** How a part of the construction ends: with ACK_SN at [end_push_nack], or going on with
    [previous_sn_cursor]; always with the bits that are left and the negative acknowledgements. *)
Inductive report_step := Done (ack : Z) | More (previous : Z).

(** The [while] over the PDUs that are missing between [previous] and [sn]. *)
Fixpoint missing_loop (fuel : nat) (sn previous bits : Z) (l : list nack_sn_t) : cres (report_step * Z * list nack_sn_t) :=
  match fuel with
  | O => Trap FFuel
  | S fuel =>
      let next := Z.land (previous + 1) RLC_AM_SN_MASK in
      if negb (next =? sn) then
        if 12 <? bits then
          l ← push_nack (Nack next 1 0 0 0x7ff) l;
          missing_loop fuel sn next (bits - 12) l
        else Ret (Done next, bits, l)
      else Ret (More previous, bits, l)
  end.

(** The segments of a PDU that is not complete, from [c] on: [waited] is [waited_so].  The result has
    also the blocks behind them. *)
Fixpoint segments_loop (c : rx_pdu) (rest : list rx_pdu) (previous waited bits : Z) (l : list nack_sn_t)
  : cres (report_step * Z * list nack_sn_t * Z * list rx_pdu) :=
  let sn := sn_of c in
  let behind := if pi_lsf (pdu_info c) =? 1 then 0x7FFF else so_of c + pi_payload_size (pdu_info c) in
  '(stop, bits, l) ←
    (if waited <? so_of c then
       if 42 <=? bits then
         l ← push_nack (Nack sn 1 1 (Z.land waited 0x7FFF) (so_of c - 1)) l;
         Ret (false, bits - 42, l)
       else Ret (true, bits, l)
     else Ret (false, bits, l));
  if stop : bool then Ret (Done sn, bits, l, behind, rest)
  else
    match rest with
    | [] => Ret (Done previous, bits, l, behind, [])
    | c' :: rest' =>
        if sn_of c' =? sn then segments_loop c' rest' sn behind bits l
        else Ret (More sn, bits, l, behind, rest)
    end.

(** [if (sn_cursor == previous_sn_cursor)]: the other segments of a PDU that is treated. *)
Fixpoint skip_same (previous : Z) (l : list rx_pdu) : list rx_pdu :=
  match l with
  | [] => []
  | c :: l' => if sn_of c =? previous then skip_same previous l' else l
  end.

(** The outer [while].  A turn takes at least one block, so that one turn for each block and one more
    are enough.  When the list ends in [skip_same] the two cases of the code give the same ACK_SN. *)
Fixpoint status_loop (fuel : nat) (cursor : list rx_pdu) (previous bits : Z) (l : list nack_sn_t)
  : cres (Z * Z * list nack_sn_t) :=
  match fuel with
  | O => Trap FFuel
  | S fuel =>
      let next := Z.land (previous + 1) RLC_AM_SN_MASK in
      match cursor with
      | [] => Ret (next, bits, l)
      | _ =>
          if bits <? 12 then Ret (next, bits, l)
          else
            match skip_same previous cursor with
            | [] => Ret (next, bits, l)
            | c :: rest =>
                '(st, bits, l) ← missing_loop 1025 (sn_of c) previous bits l;
                match st with
                | Done ack => Ret (ack, bits, l)
                | More previous =>
                    if all_segments_received c =? 0 then
                      '(st, bits, l, waited, rest) ← segments_loop c rest previous 0 bits l;
                      match st with
                      | Done ack => Ret (ack, bits, l)
                      | More previous =>
                          if negb (waited =? 0x7FFF) then
                            if 42 <=? bits then
                              l ← push_nack (Nack previous 1 1 (Z.land waited 0x7FFF) 0x7FFF) l;
                              status_loop fuel rest previous (bits - 42) l
                            else Ret (previous, bits, l)
                          else status_loop fuel rest previous bits l
                      end
                    else status_loop fuel rest (sn_of c) bits l
                end
            end
      end
  end.

(** The first [while]: the blocks that are not in the window.  Its end is not tested for. *)
Fixpoint into_window (v : am_vars) (previous : Z) (l : list rx_pdu) : cres (Z * list rx_pdu) :=
  match l with
  | [] => Trap FNull
  | c :: l' => if rlc_am_in_rx_window v (sn_of c) =? 0 then into_window v (sn_of c) l' else Ret (previous, l)
  end.

(** [nack_list[num_nack - 1].e1 = 0] *)
Fixpoint end_nacks (l : list nack_sn_t) : list nack_sn_t :=
  match l with
  | [] => []
  | [x] => [Nack (nack_sn x) 0 (nk_e2 x) (so_start x) (so_end x)]
  | x :: l' => x :: end_nacks l'
  end.

(** What the report says, and the bits that are left of the [nb] bytes. *)
Definition status_report (r : am_rx) (nb : Z) : cres (Z * Z * list nack_sn_t) :=
  let bits := Z.shiftl nb 3 - 15 in
  '(ack, bits, l) ←
    (match receiver_buffer r with
     | [] => Ret (vr_r (am_vr r), bits, [])
     | buffer =>
         '(previous, cursor) ← into_window (am_vr r) (Z.land (vr_r (am_vr r) - 1) RLC_AM_SN_MASK) buffer;
         status_loop (S (length buffer)) cursor previous bits []
     end);
  Ret (ack, bits, end_nacks l).

Definition report_info (ack : Z) (l : list nack_sn_t) : rlc_am_control_pdu_info_t :=
  Build_rlc_am_control_pdu_info_t 0 0 ack 0 (zlen l)
    (l ++ drop (length l) (nack_list zero_info)).

(** The PDU is put at the head of [control_pdu_list], from which [rlc_am_get_pdus] takes it at once. *)
Definition rlc_am_send_status_pdu (alloc : Z -> option (list byte)) (r : am_rx) (e : am_tx) : cres (am_tx * mac_tb_req) :=
  let nb := am_nb_bytes_requested_by_mac e in
  '(ack, bits, l) ← status_report r nb;
  let pdu_size := nb - Z.shiftr (bits - 7) 3 in
  match alloc pdu_size with
  | None => Trap FNull
  | Some mem =>
      mem ← bput mem 0 (zeros (Z.to_nat pdu_size));
      '(pdu_size, b) ← rlc_am_write_status_pdu (byte.unsigned <$> mem) (report_info ack l);
      _ ← c_assert (pdu_size =? nb - Z.shiftr bits 3);
      Ret (set_requested e (i32 (nb - pdu_size)), {| tr_data := byte.of_Z <$> b; tr_size := pdu_size |})
  end.

(** ** The PDUs for the MAC *)

(** The [while] that looks for the next PDU to send again. *)
Fixpoint next_marked (fuel : nat) (pdus : list am_pdu) (vt_s sn : Z) : cres Z :=
  match fuel with
  | O => Trap FFuel
  | S fuel =>
      if negb (sn =? vt_s) then
        m ← aget pdus sn;
        if flag_retransmit m =? 0 then next_marked fuel pdus vt_s (Z.land (sn + 1) RLC_AM_SN_MASK) else Ret sn
      else Ret sn
  end.

(** The part for PDUs that are to be sent again: every turn of its loop returns, or leaves it.  The
    result tells whether [rlc_am_get_pdus] returns. *)
Definition resend (alloc : Z -> option (list byte)) (now : Z) (e : am_tx) : cres (bool * am_tx) :=
  let r := tx_retx e in
  let nb := am_nb_bytes_requested_by_mac e in
  let sn := first_retrans_pdu_sn r in
  if (2 <? nb) && (0 <=? sn) && negb (sn =? tx_vt_s r) then
    m ← aget (pdu_retrans_buffer r) sn;
    if (header_and_payload_size m <=? nb) && (0 <=? retx_count m) && (nack_so_start (pdu_holes m) =? 0) &&
       (nack_so_stop (pdu_holes m) =? 0x7FFF) then
      '(e, copy) ← rlc_am_retransmit_get_copy alloc now sn e;
      match copy with
      | None => Trap FNull
      | Some tb =>
          r ← update_pdu sn (fun m => set_retx_count m (i8 (retx_count m + 1))) (tx_retx e);
          Ret (true, set_requested (set_tx_retx (to_mac e tb) r) (i32 (nb - header_and_payload_size m)))
      end
    else if (0 <=? retx_count m) && (RLC_AM_MIN_SEGMENT_SIZE_REQUEST <=? nb) then
      '(e, copy, size) ← rlc_am_retransmit_get_subsegment alloc now sn nb e;
      match copy with
      | None => Trap FNull
      | Some tb =>
          let e := to_mac (set_requested e size) tb in
          let r := tx_retx e in
          sn ← next_marked 1025 (pdu_retrans_buffer r) (tx_vt_s r) sn;
          Ret (true, set_tx_retx e (set_first_retrans r (if sn =? tx_vt_s r then -1 else sn)))
      end
    else Ret (false, e)
  else Ret (false, e).

(** The members of [rlc_am_entity_t]: the transmitter, the receiver, and what neither of them has. *)
Record am_entity := Am {
  am_protocol_state : um_state;
  am_send : am_tx;
  am_recv : am_rx;
  t_status_prohibit : um_timer;
  last_frame_status_indication : Z;
  status_buffer_occupancy : Z;
  am_initialized : bool;
  am_configured : bool;
}.

Definition set_am_send (e : am_entity) (t : am_tx) : am_entity :=
  Am (am_protocol_state e) t (am_recv e) (t_status_prohibit e) (last_frame_status_indication e) (status_buffer_occupancy e)
    (am_initialized e) (am_configured e).
Definition set_am_recv (e : am_entity) (r : am_rx) : am_entity :=
  Am (am_protocol_state e) (am_send e) r (t_status_prohibit e) (last_frame_status_indication e) (status_buffer_occupancy e)
    (am_initialized e) (am_configured e).
Definition set_prohibit (e : am_entity) (t : um_timer) : am_entity :=
  Am (am_protocol_state e) (am_send e) (am_recv e) t (last_frame_status_indication e) (status_buffer_occupancy e)
    (am_initialized e) (am_configured e).
Definition status_sent (r : am_rx) : am_rx :=
  AmRx (am_vr r) (receiver_buffer r) (am_output r) 0 (am_t_reordering r) (am_stats r).

Definition rlc_am_get_pdus (alloc : Z -> option (list byte)) (now frame : Z) (e : am_entity) : cres am_entity :=
  match am_protocol_state e with
  | RLC_DATA_TRANSFER_READY_STATE =>
      if (2 <? am_nb_bytes_requested_by_mac (am_send e)) && negb (status_requested (am_recv e) =? 0) &&
         (running (t_status_prohibit e) =? 0) then
        '(t, tb) ← rlc_am_send_status_pdu alloc (am_recv e) (am_send e);
        Ret (set_prohibit (set_am_recv (set_am_send e (to_mac t tb)) (status_sent (am_recv e)))
               (rlc_am_start_timer_status_prohibit now (t_status_prohibit e)))
      else
        '(sent, t) ← resend alloc now (am_send e);
        if sent : bool then Ret (set_am_send e t)
        else
          t ← (if (2 <? am_nb_bytes_requested_by_mac t) && negb (tx_vt_s (tx_retx t) =? tx_vt_ms (tx_retx t)) then
                 t ← rlc_am_segment_10 alloc now t;
                 Ret (set_tx_lists t [] (am_pdus_to_mac_layer t ++ segmentation_pdu_list t))
               else Ret t);
          match am_pdus_to_mac_layer t with
          | _ :: _ => Ret (set_am_send e t)
          | [] =>
              if rlc_am_is_timer_poll_retransmit_timed_out (tx_poll t) && (2 <? am_nb_bytes_requested_by_mac t) then
                t ← rlc_am_retransmit_any_pdu alloc now frame t;
                Ret (set_am_send e t)
              else Ret (set_am_send e t)
          end
  | _ => Ret e
  end.

(** ** The requests of the MAC *)

Definition rlc_am_get_buffer_occupancy_in_bytes (e : am_entity) : Z :=
  let t := am_send e in
  let r := tx_retx t in
  let q := tx_queue t in
  if negb (status_requested (am_recv e) =? 0) && (running (t_status_prohibit e) =? 0) then
    Z.shiftr (u32 (15 + num_nack_sn r * 11 + num_nack_so r * 31 + 7)) 3
  else
    let nb := nb_sdu_no_segmented q in
    let max_li_overhead := if nb <=? 1 then 0 else ((nb - 1) * 3) / 2 + (nb - 1) mod 2 in
    let header_overhead := if sdu_buffer_occupancy q =? 0 then 0 else 2 in
    u32 (status_buffer_occupancy e + retrans_num_bytes_to_retransmit r + sdu_buffer_occupancy q + max_li_overhead + header_overhead).

(** The [while] for a poll without answer: its cursor never moves. *)
Fixpoint any_stored (fuel : nat) (pdus : list am_pdu) (sn sn_end : Z) : cres (option Z) :=
  match fuel with
  | O => Trap FFuel
  | S fuel =>
      if negb (sn =? sn_end) then
        m ← aget pdus sn;
        match pdu_block m with
        | Some _ => Ret (Some (header_and_payload_size m))
        | None => any_stored fuel pdus sn sn_end
        end
      else Ret None
  end.

(** The head of the queue is described by what the block of the SDU reads as: [peek] gives the members
    [sdu_creation_time], [sdu_size] and [sdu_remaining_size] that are found there. *)
Definition rlc_am_mac_status_indication (peek : am_sdu -> Z * Z * Z) (now frame tb_sizeP : Z) (e : am_entity)
  : cres (am_entity * mac_status_resp) :=
  let e :=
    if negb (last_frame_status_indication e =? frame) then
      let t := am_send e in
      Am (am_protocol_state e) (set_tx_poll t (rlc_am_check_timer_poll_retransmit now (tx_poll t)))
        (rlc_am_check_timer_reordering now (am_recv e)) (rlc_am_check_timer_status_prohibit now (t_status_prohibit e))
        (last_frame_status_indication e) (status_buffer_occupancy e) (am_initialized e) (am_configured e)
    else e in
  let e := Am (am_protocol_state e) (set_requested (am_send e) (u16 tb_sizeP)) (am_recv e) (t_status_prohibit e) frame
             (status_buffer_occupancy e) (am_initialized e) (am_configured e) in
  let bytes := rlc_am_get_buffer_occupancy_in_bytes e in
  let q := tx_queue (am_send e) in
  let r := tx_retx (am_send e) in
  head ← aget (am_input_sdus q) (current_sdu_index q);
  let nothing := {| sr_bytes := bytes; sr_pdus := 0; sr_creation_time := 0; sr_remaining := 0; sr_segmented := 0 |} in
  if mem_block head && negb (bytes =? 0) then
    let '(created, size, remaining) := peek head in
    Ret (e, {| sr_bytes := bytes; sr_pdus := u16 (nb_sdu q); sr_creation_time := creation_time frame created;
               sr_remaining := u16 remaining; sr_segmented := if u16 size =? u16 remaining then 0 else 1 |})
  else if rlc_am_is_timer_poll_retransmit_timed_out (tx_poll (am_send e)) && (bytes =? 0) && negb (mem_block head) && (0 <? nb_sdu q) then
    found ← any_stored 1025 (pdu_retrans_buffer r) (Z.land (tx_vt_s r - 1) RLC_AM_SN_MASK) (Z.land (tx_vt_a r - 1) RLC_AM_SN_MASK);
    match found with
    | Some size => Ret (e, {| sr_bytes := u32 size; sr_pdus := u16 (nb_sdu q); sr_creation_time := 0; sr_remaining := u32 size; sr_segmented := 0 |})
    | None => Ret (e, nothing)
    end
  else Ret (e, nothing).

Definition rlc_am_mac_data_request (alloc : Z -> option (list byte)) (now frame : Z) (e : am_entity) : cres (am_entity * list mac_tb_req) :=
  e ← rlc_am_get_pdus alloc now frame e;
  let t := am_send e in
  Ret (set_am_send e (set_tx_lists t (segmentation_pdu_list t) []), am_pdus_to_mac_layer t).

(** One block that the MAC received.  The counters of blocks and bytes are left out. *)
Definition receive_block (blocks : bool) (now frame : Z) (tb : mac_tb_ind) (e : am_entity) : cres am_entity :=
  if 0 <? ti_size tb then
    b ← octet (ti_data tb) 0;
    if Z.land b 0x80 =? 0x80 then
      r ← rlc_am_receive_process_data_pdu blocks now (ti_data tb) (ti_size tb) (am_recv e);
      Ret (set_am_recv e r)
    else
      '(t, rest) ← rlc_am_receive_process_control_pdu frame (ti_data tb) (ti_size tb) (am_send e);
      _ ← c_assert (rest =? 0);
      Ret (set_am_send e t)
  else Ret e.

Definition rlc_am_receive_routing (blocks : bool) (now frame : Z) (data_ind : mac_data_ind) (e : am_entity) : cres am_entity :=
  for_each (receive_block blocks now frame) (di_data data_ind) e.

(** Only an entity that is ready receives. *)
Definition rlc_am_rx (blocks : bool) (now frame : Z) (data_ind : mac_data_ind) (e : am_entity) : cres am_entity :=
  match am_protocol_state e with
  | RLC_DATA_TRANSFER_READY_STATE => rlc_am_receive_routing blocks now frame data_ind e
  | _ => Ret e
  end.

Definition rlc_am_mac_data_indication (blocks : bool) (now frame : Z) (data_ind : mac_data_ind) (e : am_entity) : cres am_entity :=
  rlc_am_rx blocks now frame data_ind e.

(** ** Configuration *)

Definition am_tx_init : am_tx :=
  AmTx (Queue (replicate 128 zero_sdu) 0 0 0 0 0) (Poll 0 0 0 0 0 false (Timer 0 0 0 0 0))
    (Retx (replicate 1024 zero_pdu) 0 0 0 0 0 (-1) 0 0 RLC_AM_WINDOW_SIZE 0) 0 [] [] 0 false [].

Definition rlc_am_init (e : am_entity) : am_entity :=
  if am_initialized e then e
  else Am RLC_NULL_STATE am_tx_init am_rx_init (Timer 0 0 0 0 0) 123456 0 true false.

Definition rlc_am_set_debug_infos (srb_flagP : bool) (rb_idP : Z) (e : am_entity) : am_entity :=
  let t := am_send e in
  set_am_send e (AmTx (tx_queue t) (tx_poll t) (tx_retx t) (am_nb_bytes_requested_by_mac t) (segmentation_pdu_list t)
    (am_pdus_to_mac_layer t) rb_idP (negb srb_flagP) (confirmations t)).

Definition with_duration (t : um_timer) (d : Z) : um_timer := Timer (running t) (ms_time_out t) (ms_start t) d (timed_out t).

Definition rlc_am_configure (max_retx_thresholdP poll_pduP poll_byteP t_poll_retransmitP t_reorderingP t_status_prohibitP : Z)
  (e : am_entity) : am_entity :=
  let t := am_send e in
  let p := tx_poll t in
  let r := tx_retx t in
  let p := Poll (c_pdu_without_poll p) (c_byte_without_poll p) poll_pduP poll_byteP (poll_sn p) (force_poll p)
    (if am_configured e then with_duration (t_poll_retransmit p) t_poll_retransmitP
     else rlc_am_init_timer_poll_retransmit t_poll_retransmitP) in
  let r := Retx (pdu_retrans_buffer r) (retrans_num_pdus r) (retrans_num_bytes r) (retrans_num_bytes_to_retransmit r) (num_nack_so r)
    (num_nack_sn r) (first_retrans_pdu_sn r) max_retx_thresholdP (tx_vt_a r) (tx_vt_ms r) (tx_vt_s r) in
  Am RLC_DATA_TRANSFER_READY_STATE (set_tx_poll (set_tx_retx t r) p) (am_rx_configure (am_configured e) t_reorderingP (am_recv e))
    (if am_configured e then with_duration (t_status_prohibit e) t_status_prohibitP
     else rlc_am_init_timer_status_prohibit t_status_prohibitP)
    (last_frame_status_indication e) (status_buffer_occupancy e) (am_initialized e) true.

(** The SDUs, the PDUs in the retransmission buffer and the timers are not touched. *)
Definition rlc_am_reestablish (e : am_entity) : am_entity :=
  let t := am_send e in
  let p := tx_poll t in
  let r := tx_retx t in
  let p := Poll 0 0 (poll_pdu p) (poll_byte p) 0 (force_poll p) (t_poll_retransmit p) in
  let r := Retx (pdu_retrans_buffer r) (retrans_num_pdus r) (retrans_num_bytes r) (retrans_num_bytes_to_retransmit r) (num_nack_so r)
    (num_nack_sn r) (-1) (max_retx_threshold r) 0 RLC_AM_WINDOW_SIZE 0 in
  Am (am_protocol_state e) (set_tx_lists (set_tx_poll (set_tx_retx t r) p) [] []) (am_rx_reestablish (am_recv e)) (t_status_prohibit e)
    123456 (status_buffer_occupancy e) true (am_configured e).

(** [rlc_am_cleanup]: the arrays are freed, and everything is zero. *)
Definition rlc_am_cleanup (e : am_entity) : am_entity :=
  Am RLC_NULL_STATE
    (AmTx (Queue [] 0 0 0 0 0) (Poll 0 0 0 0 0 false (Timer 0 0 0 0 0)) (Retx [] 0 0 0 0 0 0 0 0 0 0) 0 [] [] 0 false
       (confirmations (am_send e)))
    (AmRx (Build_am_vars 0 0 0 0 0 0 0) [] (Sdu None 0 (delivered (am_output (am_recv e)))) 0 (Timer 0 0 0 0 0) (RxStats 0 0 0 0 0 0 0))
    (Timer 0 0 0 0 0) 0 0 false false.

(** A request of the upper layer: the SDU goes to the queue. *)
Definition am_data_req (frame mui : Z) (sdu : list byte) (e : am_entity) : cres am_entity :=
  q ← rlc_am_data_req frame mui sdu (zlen sdu) (tx_queue (am_send e));
  Ret (set_am_send e (set_tx_queue (am_send e) q)).

(** ** The timer of the poll *)

(** The times of a run are in [[t0, t0 + d)], where [d] is the duration of t-PollRetransmit, so that it
    does not expire. *)
Section Times.
Context (t0 d : Z) (Ht0 : 0 <= t0) (Hd : 0 <= d) (Hwrap : t0 + 2 * d < 2 ^ 32).

Record quiet (T : Z) (p : am_poll) : Prop := {
  qt_duration : ms_duration (t_poll_retransmit p) = d;
  qt_timer : running (t_poll_retransmit p) = 0 \/
    running (t_poll_retransmit p) = 1 /\ t0 <= ms_start (t_poll_retransmit p) <= T /\
    ms_time_out (t_poll_retransmit p) = ms_start (t_poll_retransmit p) + d;
}.

Lemma quiet_check T now p : quiet T p -> T <= now < t0 + d -> rlc_am_check_timer_poll_retransmit now p = p.
Proof using Ht0 Hd.
  intros [Q1 Q2] Hn. unfold rlc_am_check_timer_poll_retransmit. destruct Q2 as [-> |(-> & Q2 & Q3)]; [done|]. cbn [Z.eqb negb andb].
  unfold timer_expired. rewrite Q3. rewrite (proj2 (Z.leb_gt (ms_start _ + d) now)), (proj2 (Z.ltb_ge now (ms_start _))) by lia.
  rewrite (proj2 (Z.ltb_ge (ms_start _ + d) (ms_start _))) by lia. by rewrite andb_false_r.
Qed.

Lemma quiet_step T now p p' : quiet T p -> T <= now < t0 + d -> t0 <= now -> poll_step now p p' -> quiet now p'.
Proof using Ht0 Hd Hwrap.
  intros [Q1 Q2] Hn Hn0 [E|E]; split; rewrite E.
  - done.
  - destruct Q2 as [?|(? & ? & ?)]; [by left|right; split_and!; done || lia].
  - unfold rlc_am_start_timer_poll_retransmit. by destruct (_ && _).
  - unfold rlc_am_start_timer_poll_retransmit. destruct ((running _ =? 0) && (0 <? ms_duration _)) eqn:Es; cbn [running ms_start ms_time_out].
    + right. rewrite Q1, u32_small by lia. split_and!; done || lia.
    + destruct Q2 as [?|(? & ? & ?)]; [by left|right; split_and!; done || lia].
Qed.

Lemma quiet_stop T p p' : quiet T p -> poll_stopped p p' -> quiet T p'.
Proof using. intros [Q1 Q2] [E|E]; split; rewrite E; try done. by left. Qed.

(** ** The entity and its specification *)

Record ent_ok (T : Z) (s : am_spec) (e : am_entity) : Prop := {
  eo_state : am_protocol_state e = RLC_DATA_TRANSFER_READY_STATE;
  eo_send : am_ok s (am_send e);
  eo_fifo : fifo s;
  eo_segmented : segmentation_pdu_list (am_send e) = [];
  eo_to_mac : am_pdus_to_mac_layer (am_send e) = [];
  eo_quiet : quiet T (tx_poll (am_send e));
}.

(** What the status indication leaves of the entity. *)
Definition looked (now frame tb : Z) (e : am_entity) : am_entity :=
  Am (am_protocol_state e) (set_requested (am_send e) (u16 tb))
    (if negb (last_frame_status_indication e =? frame) then rlc_am_check_timer_reordering now (am_recv e) else am_recv e)
    (if negb (last_frame_status_indication e =? frame) then rlc_am_check_timer_status_prohibit now (t_status_prohibit e) else t_status_prohibit e)
    frame (status_buffer_occupancy e) (am_initialized e) (am_configured e).

Lemma set_tx_poll_same t p : tx_poll t = p -> set_tx_poll t p = t.
Proof using. intros <-. by destruct t. Qed.

Lemma status_indication_ok peek T now frame tb s e : ent_ok T s e -> T <= now < t0 + d ->
  exists resp, rlc_am_mac_status_indication peek now frame tb e = Ret (looked now frame tb e, resp).
Proof using Ht0 Hd.
  intros [E1 E2 E3 E4 E5 E6] Hn. unfold rlc_am_mac_status_indication, looked.
  assert (Hc : set_tx_poll (am_send e) (rlc_am_check_timer_poll_retransmit now (tx_poll (am_send e))) = am_send e)
    by (apply set_tx_poll_same; symmetry; by eapply quiet_check).
  pose proof E2 as [Hq _ Ht _ _ _]. pose proof (qk_current _ _ Hq) as Hcur. destruct (ring_some 128 ltac:(lia) _ (s_head s) (qk_len _ _ Hq)) as [x Hx].
  pose proof (ring_get 128 ltac:(lia) _ _ _ Hx) as Hg. rewrite <- Hcur in Hg.
  destruct (negb (last_frame_status_indication e =? frame)); [rewrite Hc|];
    cbn [am_send set_requested tx_queue tx_poll am_recv t_status_prohibit]; rewrite (bind_ret _ _ _ Hg);
    unfold rlc_am_is_timer_poll_retransmit_timed_out; rewrite Ht; cbn [Z.eqb negb andb];
    (destruct (mem_block x && _); [destruct (peek x) as [[? ?] ?]|]); eexists; reflexivity.
Qed.

(** No status report is to be sent now. *)
Definition no_report (e : am_entity) : Prop :=
  (2 <? am_nb_bytes_requested_by_mac (am_send e)) && negb (status_requested (am_recv e) =? 0) && (running (t_status_prohibit e) =? 0) = false.

Lemma resend_nothing alloc now s t : am_ok s t -> resend alloc now t = Ret (false, t).
Proof using. intros Hok. unfold resend. rewrite (rk_first _ _ (ao_retx _ _ Hok)). by rewrite andb_false_r. Qed.

(** The window is full when VT(S) is VT(MS). *)
Lemma window_full s r : retx_ok s r -> (tx_vt_s r =? tx_vt_ms r) = (zlen (s_sent s) =? s_low s + 512).
Proof using.
  intros Hr. rewrite (rk_s _ _ Hr), (rk_ms _ _ Hr). pose proof (rk_low _ _ Hr). pose proof (rk_window _ _ Hr).
  destruct (Z.eqb_spec (zlen (s_sent s)) (s_low s + 512)) as [-> |Hne]; [apply Z.eqb_refl|]. apply Z.eqb_neq. intros E. apply mod_near_eq in E; lia.
Qed.

(** A request when there is nothing to send, or nothing may be sent. *)
Lemma request_none alloc now frame T s e : ent_ok T s e -> no_report e ->
  s_queue s = [] \/ am_nb_bytes_requested_by_mac (am_send e) <= 2 \/ zlen (s_sent s) = s_low s + 512 ->
  rlc_am_mac_data_request alloc now frame e = Ret (e, []).
Proof using.
  intros [E1 E2 E3 E4 E5 E6] Hno Hnone. unfold rlc_am_mac_data_request, rlc_am_get_pdus. rewrite E1, Hno, (resend_nothing _ _ _ _ E2).
  cbn [mbind cres_bind]. cbv iota. pose proof E2 as [Hq Hr Ht _ _ _]. rewrite (window_full _ _ Hr).
  assert (Hseg : (if (2 <? am_nb_bytes_requested_by_mac (am_send e)) && negb (zlen (s_sent s) =? s_low s + 512) then
      t ← rlc_am_segment_10 alloc now (am_send e); Ret (set_tx_lists t [] (am_pdus_to_mac_layer t ++ segmentation_pdu_list t))
    else Ret (am_send e)) = Ret (am_send e)).
  { destruct (Z.ltb_spec 2 (am_nb_bytes_requested_by_mac (am_send e))) as [H2|]; [|done]. destruct (Z.eqb_spec (zlen (s_sent s)) (s_low s + 512)) as [|Hw]; [done|].
    destruct Hnone as [H|[H|H]]; [|lia|lia]. cbn [negb andb]. unfold rlc_am_segment_10. rewrite (qk_bo _ _ Hq), H. change (queue_bytes [] <=? 0) with true. cbv iota.
    cbn [mbind cres_bind]. rewrite E4, E5. destruct (am_send e); cbn in *. by rewrite E4, E5. }
  rewrite Hseg. cbn [mbind cres_bind]. rewrite E5. unfold rlc_am_is_timer_poll_retransmit_timed_out. rewrite Ht. cbn [Z.eqb negb andb mbind cres_bind].
  unfold set_am_send. cbn [am_send]. rewrite E5. destruct e as [? t ? ? ? ? ? ?]; cbn in *. f_equal. f_equal. destruct t; cbn in *. by rewrite E5.
Qed.

(** A request that gives a new PDU. *)
Lemma request_send alloc now frame T s e fs last rest : alloc_ok alloc -> ent_ok T s e -> no_report e -> T <= now < t0 + d -> t0 <= now -> s_queue s <> [] ->
  2 < am_nb_bytes_requested_by_mac (am_send e) < RLC_SDU_MAX_SIZE -> zlen (s_sent s) < s_low s + 512 ->
  pack (pdu_room false (am_nb_bytes_requested_by_mac (am_send e)) (s_queue s)) 2 (s_queue s) = (fs, last, rest, 0) ->
  zlen fs <= 32 -> Forall (fun f => zlen f < 2048) (removelast fs) -> tally (covers (s_head s)) (s_sent s) < 31 ->
  fifo (spec_send (pdu_of (s_queue s) fs last) rest s) ->
  exists e' tb, rlc_am_mac_data_request alloc now frame e = Ret (e', [tb]) /\ ent_ok now (spec_send (pdu_of (s_queue s) fs last) rest s) e' /\
    block_of tb (zlen (s_sent s) mod 1024) (pdu_of (s_queue s) fs last) /\ tr_size tb <= am_nb_bytes_requested_by_mac (am_send e) /\
    am_recv e' = am_recv e /\ t_status_prohibit e' = t_status_prohibit e /\
    am_rb_id (am_send e') = am_rb_id (am_send e) /\ am_is_data_plane (am_send e') = am_is_data_plane (am_send e).
Proof using Ht0 Hd Hwrap.
  intros Hal [E1 E2 E3 E4 E5 E6] Hno Hn Hn0 Hne Hnb Hw Hpack H32 Hli H31 Hf'. unfold rlc_am_mac_data_request, rlc_am_get_pdus.
  rewrite E1, Hno, (resend_nothing _ _ _ _ E2). cbn [mbind cres_bind]. cbv iota. rewrite (window_full _ _ (ao_retx _ _ E2)).
  rewrite (proj2 (Z.ltb_lt 2 _)), (proj2 (Z.eqb_neq (zlen (s_sent s)) _)) by lia. cbn [negb andb].
  destruct (am_segment_ok alloc now s (am_send e) fs last rest Hal E2 Hne Hnb Hw Hpack H32 Hli H31)
    as (t & tb & Et & Ht & G1 & G2 & G3 & G4 & G5 & G6 & G7 & G8). rewrite Et. cbn [mbind cres_bind].
  rewrite E4 in G1. rewrite E5 in G2. cbn [set_tx_lists am_pdus_to_mac_layer]. rewrite G1, G2. cbn [app mbind cres_bind].
  eexists _, tb. split; [reflexivity|]. split_and!; try done. constructor; cbn; try done.
  - destruct Ht. by constructor.
  - by eapply quiet_step.
Qed.

(** A report without negative acknowledgements is given to the transmitter. *)
Lemma receive_ack_report blocks now frame C e : 0 <= C < 1024 ->
  receive_block blocks now frame {| ti_data := ack_report C; ti_size := u16 2; ti_error := 0 |} e =
  ('(t, rest) ← rlc_am_receive_process_control_pdu frame (ack_report C) 2 (am_send e); _ ← c_assert (rest =? 0); Ret (set_am_send e t)).
Proof using.
  intros HC. unfold receive_block. cbn [ti_data ti_size]. change (u16 2) with 2. cbn [Z.ltb Z.compare].
  assert (Ho : octet (ack_report C) 0 = Ret (C / 64)).
  { change (octet ([] ++ byte.of_Z (C / 64) :: [byte.of_Z (C mod 64 * 4)]) 0 = Ret (C / 64)). rewrite octet_app by done. rewrite byte.unsigned_of_Z.
    unfold byte.wrap. f_equal. apply Z.mod_small. split; [apply Z.div_pos; lia|]. apply Z.div_lt_upper_bound; lia. }
  rewrite (bind_ret _ _ _ Ho). assert (Hb : Z.land (C / 64) 128 = 0); [|by rewrite Hb].
  apply Z.bits_inj'. intros i Hi. rewrite Z.land_spec, Z.bits_0. destruct (Z.eq_dec i 7) as [-> |Hne].
  - rewrite (testbit_above (C / 64) 4 7); [done|lia|split; [apply Z.div_pos; lia|apply Z.div_lt_upper_bound; lia]].
  - change 128 with (2 ^ 7). rewrite Z.pow2_bits_false by lia. apply andb_false_r.
Qed.

(** A report without negative acknowledgements arrives. *)
Lemma indication_report blocks now frame T s e n : ent_ok T s e -> 0 <= n < 512 -> s_low s + n <= zlen (s_sent s) ->
  exists e', rlc_am_mac_data_indication blocks now frame (over_the_air [{| tr_data := ack_report ((s_low s + n) mod 1024); tr_size := 2 |}]) e = Ret e' /\
    ent_ok T (spec_acks (Z.to_nat n) s) e' /\ am_recv e' = am_recv e /\ t_status_prohibit e' = t_status_prohibit e /\
    am_rb_id (am_send e') = am_rb_id (am_send e) /\ am_is_data_plane (am_send e') = am_is_data_plane (am_send e).
Proof using.
  intros [E1 E2 E3 E4 E5 E6] Hn Hs. unfold rlc_am_mac_data_indication, rlc_am_rx. rewrite E1. unfold rlc_am_receive_routing, over_the_air.
  cbn [di_data fmap list_fmap for_each tr_data tr_size]. set (C := (s_low s + n) mod 1024).
  change (take (Z.to_nat 2) (ack_report C)) with (ack_report C). pose proof (Z.mod_pos_bound (s_low s + n) 1024 ltac:(lia)) as HC.
  rewrite (receive_ack_report blocks now frame C e HC). destruct (report_ok frame s (am_send e) n E2 E3 Hn Hs) as (t & Et & G1 & G2 & G3 & [R1 R2 R3 R4 R5]). fold C in Et.
  rewrite (bind_ret _ _ _ Et). cbn [Z.eqb c_assert mbind cres_bind]. eexists. split; [reflexivity|]. split_and!; try done.
  constructor; cbn; try done; [by rewrite R2|by rewrite R3|by eapply quiet_stop].
Qed.

End Times.

(** ** The status report of a receiver *)

(** What is written at the head of a buffer does not depend on the rest. *)
Lemma aget_head {A} (b j : list A) i x : aget b i = Ret x -> aget (b ++ j) i = Ret x.
Proof.
  unfold aget. destruct (0 <=? i); [|done]. destruct (b !! Z.to_nat i) as [y|] eqn:E; [|done]. intros [= ->]. by rewrite (lookup_app_l_Some _ _ _ _ E).
Qed.

Lemma aset_head {A} (b j : list A) i x b' : aset b i x = Ret b' -> aset (b ++ j) i x = Ret (b' ++ j).
Proof.
  unfold aset. destruct (0 <=? i) eqn:E0; [|done]. destruct (i <? zlen b) eqn:E1; [|done]. intros [= <-]. apply Z.leb_le in E0. apply Z.ltb_lt in E1.
  rewrite zlen_app. pose proof (zlen_nonneg j). rewrite (proj2 (Z.ltb_lt i _)) by lia. cbn [andb]. rewrite insert_app_l; [done|unfold zlen in E1; lia].
Qed.

(** A computation on a buffer that can be made on a longer one. *)
Definition local {A} (f : list Z -> cres (list Z * A)) : Prop := forall b j b' c, f b = Ret (b', c) -> f (b ++ j) = Ret (b' ++ j, c).

Lemma write8_local fuel : forall c n v, local (fun b => write8_loop fuel b c n v).
Proof.
  induction fuel as [|fuel IH]; intros [data pos] n v b j b' c E; [done|]. cbn [write8_loop] in *.
  destruct (aget b data) as [o|] eqn:Eo; [|done]. rewrite (aget_head _ _ _ _ Eo). cbn [mbind cres_bind] in *.
  destruct (n <? 8 - pos); [|destruct (8 - pos =? n)]; destruct (aset b data _) as [b1|] eqn:E1; try done; rewrite (aset_head _ _ _ _ _ E1); cbn [mbind cres_bind] in *.
  - by injection E as <- <-.
  - by injection E as <- <-.
  - destruct (0 <? n - (8 - pos)); [by apply IH|by injection E as <- <-].
Qed.

Lemma write16_local c n v : local (fun b => rlc_am_write16_bit_field b c n v).
Proof.
  intros b j b' c' E. unfold rlc_am_write16_bit_field, rlc_am_write8_bit_field in *. destruct (c_assert _) as [[]|]; [|done]. cbn [mbind cres_bind] in *.
  destruct (8 <? n); [|by apply write8_local]. destruct (write8_loop _ b c (n - 8) _) as [[b1 c1]|] eqn:E1; [|done]. cbn [mbind cres_bind] in E.
  rewrite (write8_local _ _ _ _ _ j _ _ E1). cbn [mbind cres_bind]. by apply write8_local.
Qed.

(** The octets of a report without negative acknowledgements. *)
Lemma ack_octets_checked : forallb (fun C => match rlc_am_write_status_pdu [0; 0; 0] (report_info C []) with
  | Ret (2, [x; y; 0]) => (x =? C / 64) && (y =? C mod 64 * 4) | _ => false end) (zrange 0 1024) = true.
Proof. by vm_compute. Qed.

Lemma write_ack_report C j : 0 <= C < 1024 ->
  rlc_am_write_status_pdu ([0; 0; 0] ++ j) (report_info C []) = Ret (2, [C / 64; C mod 64 * 4; 0] ++ j).
Proof.
  intros HC. assert (E : rlc_am_write_status_pdu [0; 0; 0] (report_info C []) = Ret (2, [C / 64; C mod 64 * 4; 0])).
  { pose proof ack_octets_checked as Hc. rewrite forallb_forall in Hc. specialize (Hc C ltac:(apply list_elem_of_In, elem_of_zrange; lia)).
    destruct (rlc_am_write_status_pdu _ _) as [[sz b]|]; [|done]. destruct sz as [|[|[]|]|]; try done. destruct b as [|x [|y [|[] []]]]; try done.
    apply andb_prop in Hc as [H1 H2]. apply Z.eqb_eq in H1 as ->. by apply Z.eqb_eq in H2 as ->. }
  unfold rlc_am_write_status_pdu, rlc_am_write8_bit_field in *. destruct (rlc_am_write16_bit_field [0; 0; 0] _ _ _) as [[b1 c1]|] eqn:E1; [|done].
  rewrite (write16_local _ _ _ _ j _ _ E1). cbn [mbind cres_bind] in *.
  destruct (write8_loop _ b1 _ _ _) as [[b2 c2]|] eqn:E2; [|done].
  rewrite (write8_local _ _ _ _ _ j _ _ E2). cbn [mbind cres_bind] in *.
  change (zrange 0 (Z.to_nat (num_nack (report_info C [])))) with (@nil Z) in *. cbn [for_each mbind cres_bind] in *.
  injection E as Ea Eb. by rewrite Ea, Eb.
Qed.

(** The report of a receiver with nothing in its buffer. *)
Lemma send_report_ok alloc r t C : alloc_ok alloc -> receiver_buffer r = [] -> vr_r (am_vr r) = C -> 0 <= C < 1024 ->
  2 < am_nb_bytes_requested_by_mac t < 2 ^ 16 ->
  exists tb, rlc_am_send_status_pdu alloc r t = Ret (set_requested t (am_nb_bytes_requested_by_mac t - 2), tb) /\
    tr_size tb = 2 /\ take 2 (tr_data tb) = ack_report C.
Proof.
  intros Hal Hb Hr HC Hnb. unfold rlc_am_send_status_pdu, status_report. rewrite Hb, Hr. cbn [mbind cres_bind end_nacks].
  set (nb := am_nb_bytes_requested_by_mac t) in *.
  assert (E1 : nb - Z.shiftr (Z.shiftl nb 3 - 15 - 7) 3 = 3)
    by (rewrite Z.shiftl_mul_pow2, Z.shiftr_div_pow2 by lia; replace (nb * 2 ^ 3 - 15 - 7) with (2 + (nb - 3) * 2 ^ 3) by lia; rewrite Z.div_add by lia; change (2 / 2 ^ 3) with 0; lia).
  assert (E2 : nb - Z.shiftr (Z.shiftl nb 3 - 15) 3 = 2)
    by (rewrite Z.shiftl_mul_pow2, Z.shiftr_div_pow2 by lia; replace (nb * 2 ^ 3 - 15) with (1 + (nb - 2) * 2 ^ 3) by lia; rewrite Z.div_add by lia; change (1 / 2 ^ 3) with 0; lia).
  rewrite E1, E2. destruct (Hal 3 ltac:(lia)) as (mem & -> & Hm & _). rewrite (bind_ret _ _ _ (bput_ok mem 0 (zeros 3) ltac:(lia) Hm)).
  change (take (Z.to_nat 0) mem ++ zeros 3 ++ drop (Z.to_nat 0 + length (zeros 3)) mem) with (zeros 3 ++ drop 3 mem).
  rewrite fmap_app. change (byte.unsigned <$> zeros 3) with [0; 0; 0].
  rewrite (bind_ret _ _ _ (write_ack_report C _ HC)). cbn [Z.eqb Pos.eqb c_assert mbind cres_bind]. rewrite i32_small by lia.
  eexists. split; [reflexivity|]. split; [done|]. done.
Qed.

(** ** A bearer in acknowledged mode

    The entity [a] sends SDUs and [b] receives them.  The blocks of [a] stay on the air, from where each
    one arrives any number of times, in any order, or never; the status reports of [b] arrive at once
    or are lost. *)

Inductive loop_event :=
| LSubmit (frame mui : Z) (sdu : list byte)
| LGrant (now frame tb : Z)
| LDeliver (now frame : Z) (c : nat)
| LReport (now frame tb : Z) (lost : bool).

Record system := Sys {
  sy_a : am_entity;
  sy_b : am_entity;
  sy_air : list mac_tb_req;
}.

(** The code that runs at an event, with whether [b] sent a report. *)
Definition loop_code (alloc : Z -> option (list byte)) (peek : am_sdu -> Z * Z * Z) (ev : loop_event) (c : system) : cres (bool * system) :=
  match ev with
  | LSubmit frame mui sdu =>
      a ← am_data_req frame mui sdu (sy_a c);
      Ret (false, Sys a (sy_b c) (sy_air c))
  | LGrant now frame tb =>
      '(a, _) ← rlc_am_mac_status_indication peek now frame tb (sy_a c);
      '(a, tbs) ← rlc_am_mac_data_request alloc now frame a;
      Ret (false, Sys a (sy_b c) (sy_air c ++ tbs))
  | LDeliver now frame i =>
      match sy_air c !! i with
      | Some tb =>
          b ← rlc_am_mac_data_indication true now frame (over_the_air [tb]) (sy_b c);
          Ret (false, Sys (sy_a c) b (sy_air c))
      | None => Ret (false, c)
      end
  | LReport now frame tb lost =>
      '(b, _) ← rlc_am_mac_status_indication peek now frame tb (sy_b c);
      '(b, tbs) ← rlc_am_mac_data_request alloc now frame b;
      a ← (if lost then Ret (sy_a c) else rlc_am_mac_data_indication true now frame (over_the_air tbs) (sy_a c));
      Ret (negb (bool_decide (tbs = [])), Sys a b (sy_air c))
  end.

(** The state in the terms of the specification: the time, the sender, the counts of the receiver, and the
    SDUs submitted. *)
Record ghost := Ghost {
  g_time : Z;
  g_spec : am_spec;
  g_rx : Z * Z * list Z;
  g_sdus : list (list byte);
}.

(** The PDU for a grant of [nb] bytes, when there is one. *)
Definition grant_plan (nb : Z) (s : am_spec) : option (list (list byte) * bool * list waiting * Z) :=
  if bool_decide (s_queue s = []) || (nb <=? 2) || (zlen (s_sent s) =? s_low s + 512) then None
  else Some (pack (pdu_room false nb (s_queue s)) 2 (s_queue s)).

(** The condition of the theorem on the bearer, which is not code: what an event must satisfy for the run to
    go on.  It names the cases the theorem leaves out, most of them because the code fails there.
    - An SDU has 1 to 9000 bytes ([RLC_SDU_MAX_SIZE]), at most 126 others wait, and its place in the ring is
      free ([rlc_am.c] drops it otherwise, see [am_ring_drops_sdus]).
    - A grant below 9000 bytes fills a PDU without spare bytes (the code takes them from [pdu_remaining_size] and
      not from the size of the block, so that the receiver takes them for data: [rlc_am_segment.c], line 257),
      from at most 32 SDUs (line 385), whose length indicators are below 2048 (line 416), and cuts no SDU more
      than 31 times (the assertion of line 291).
    - Only whole PDUs arrive, of the 512 before VR(R) or of the window, none of them misplaced at the wrap
      ([RlcAmRx.am_wrap_misplaces_pdu]).
    - A report is made when no PDU is missing, so that it has no negative acknowledgement
      ([am_nacked_pdu_blocks] shows what those lead to), and one that arrives does not acknowledge a full
      window ([am_full_window_stalls]).
    - Grants and reports are at times that do not go back, in the [d] ms from [t0] on: with [d] the duration of
      t-PollRetransmit, this timer does not expire. *)
Definition loop_guard (t0 d : Z) (ev : loop_event) (g : ghost) : bool :=
  let s := g_spec g in
  let N := zlen (s_muis s) in
  let in_time now := (g_time g <=? now) && (t0 <=? now) && (now <? t0 + d) in
  match ev with
  | LSubmit _ _ sdu =>
      (0 <? zlen sdu) && (zlen sdu <=? RLC_SDU_MAX_SIZE) && (zlen (s_queue s) <=? 126) && (queue_bytes (s_queue s) + zlen sdu <? 2 ^ 30) &&
      ((N <? 127) || sdu_done s (N - 127))
  | LGrant now _ tb =>
      in_time now &&
      match grant_plan (u16 tb) s with
      | None => true
      | Some (fs, _, _, slack) =>
          (u16 tb <? RLC_SDU_MAX_SIZE) && (slack =? 0) && (zlen fs <=? 32) && forallb (fun f => zlen f <? 2048) (removelast fs) &&
          (tally (covers (s_head s)) (s_sent s) <? 31)
      end
  | LDeliver _ _ c =>
      let '(R, _, cs) := g_rx g in
      (Z.of_nat c <? zlen (s_sent s)) && (R - 512 <=? Z.of_nat c) && (Z.of_nat c <? R + 512) && negb (misplaced R cs (Z.of_nat c))
  | LReport now _ _ lost =>
      let '(R, _, cs) := g_rx g in
      in_time now && bool_decide (cs = []) && (lost || (R <? s_low s + 512))
  end.

Definition loop_spec (ev : loop_event) (reported : bool) (g : ghost) : ghost :=
  let s := g_spec g in
  match ev with
  | LSubmit _ mui sdu => Ghost (g_time g) (spec_submit mui sdu s) (g_rx g) (g_sdus g ++ [sdu])
  | LGrant now _ tb =>
      Ghost now match grant_plan (u16 tb) s with
                | None => s
                | Some (fs, last, rest, _) => spec_send (pdu_of (s_queue s) fs last) rest s
                end (g_rx g) (g_sdus g)
  | LDeliver _ _ c => Ghost (g_time g) s (am_arrive (g_rx g) (Z.of_nat c)) (g_sdus g)
  | LReport now _ _ lost =>
      Ghost now (if reported && negb lost then spec_acks (Z.to_nat ((g_rx g).1.1 - s_low s)) s else s) (g_rx g) (g_sdus g)
  end.

(** A run stops at the first event that may not happen; the result has the events that are left. *)
Fixpoint loop_run (alloc : Z -> option (list byte)) (peek : am_sdu -> Z * Z * Z) (t0 d : Z) (evs : list loop_event) (g : ghost) (c : system)
  : cres (list loop_event * ghost * system) :=
  match evs with
  | [] => Ret ([], g, c)
  | ev :: evs' =>
      if loop_guard t0 d ev g then
        '(reported, c) ← loop_code alloc peek ev c;
        loop_run alloc peek t0 d evs' (loop_spec ev reported g) c
      else Ret (evs, g, c)
  end.

Abbreviation upds_of s := (sp_upd <$> s_sent s).

(** What the PDUs and the queue hold of the SDUs submitted. *)
Record data_ok (s : am_spec) (sdus : list (list byte)) : Prop := {
  do_stream : am_stream [] (upds_of s);
  do_sent : (spec_pdus [] (upds_of s)).2 = sent_of (s_queue s);
  do_sdus : sdus = (spec_pdus [] (upds_of s)).1 ++ sdus_of (s_queue s);
  do_head : s_head s = zlen (spec_pdus [] (upds_of s)).1;
  do_first : forall c p, s_sent s !! c = Some p -> sp_first p = zlen (spec_pdus [] (take c (upds_of s))).1;
  do_sizes : Forall (fun w => zlen w.1 + zlen w.2 <= RLC_SDU_MAX_SIZE) (s_queue s);
}.

Definition no_spec : am_spec := Spec [] [] [] 0 [].

Record loop_inv (t0 d : Z) (g : ghost) (c : system) : Prop := {
  lv_a : ent_ok t0 d (g_time g) (g_spec g) (sy_a c);
  lv_idle : status_requested (am_recv (sy_a c)) = 0 /\ running (am_t_reordering (am_recv (sy_a c))) = 0;
  lv_b : ent_ok t0 d (g_time g) no_spec (sy_b c);
  lv_sync : am_sync (upds_of (g_spec g)) (g_rx g) (am_recv (sy_b c));
  lv_high : (g_rx g).1.2 <= zlen (s_sent (g_spec g));
  lv_low : s_low (g_spec g) <= (g_rx g).1.1;
  lv_air : forall i p, s_sent (g_spec g) !! i = Some p ->
    exists tb, sy_air c !! i = Some tb /\ block_of tb (Z.of_nat i mod 1024) (sp_upd p) /\ tr_size tb < RLC_SDU_MAX_SIZE;
  lv_length : length (sy_air c) = length (s_sent (g_spec g));
  lv_data : data_ok (g_spec g) (g_sdus g);
}.

(** ** The data *)

Lemma am_stream_snoc xs x : forall p, am_stream p xs ->
  (let q := (spec_pdus p xs).2 in am_wf x /\ (u_first x = true -> q = []) /\ Forall (fun d => zlen d <= RLC_SDU_MAX_SIZE) (spec_pdu q x).1 /\
   zlen (spec_pdu q x).2 <= RLC_SDU_MAX_SIZE) -> am_stream p (xs ++ [x]).
Proof.
  induction xs as [|y xs IH]; intros p Hs Hx; cbn [app am_stream] in *.
  - destruct Hx as (H1 & H2 & H3 & H4). by split_and!.
  - destruct Hs as (W & F & D & L & Hs). split_and!; try done. apply IH; [done|]. cbn [spec_pdus] in Hx. destruct (spec_pdu p y) as [d q]. cbn [snd] in *.
    by destruct (spec_pdus q xs).
Qed.

Lemma submit_upds mui sdu s : upds_of (spec_submit mui sdu s) = upds_of s.
Proof. done. Qed.

Lemma sent_of_snoc q sdu : sent_of (q ++ [([], sdu)]) = sent_of q.
Proof. by destruct q as [|[]]. Qed.

Lemma data_submit mui sdu s sdus : data_ok s sdus -> zlen sdu <= RLC_SDU_MAX_SIZE -> data_ok (spec_submit mui sdu s) (sdus ++ [sdu]).
Proof.
  intros [D1 D2 D3 D4 D5 D6] Hz. constructor; try done; [| |by rewrite submit_head|].
  - cbn [spec_submit s_queue]. rewrite sent_of_snoc. done.
  - rewrite D3, submit_upds. cbn [spec_submit s_queue]. unfold sdus_of. rewrite fmap_app, app_assoc. done.
  - cbn. apply Forall_app. split; [done|]. constructor; [|done]. cbn. change (zlen []) with 0. lia.
Qed.

Lemma zlen_sdus_of q : zlen (sdus_of q) = zlen q.
Proof. unfold sdus_of. apply zlen_fmap. Qed.

(** The SDUs of a new PDU. *)
Lemma data_send s Q sdus T fs last rest : data_ok s sdus -> queue_ok s Q -> full T 2 (s_queue s) -> 0 < T < 9000 ->
  pack T 2 (s_queue s) = (fs, last, rest, 0) -> zlen fs <= 32 -> Forall (fun f => zlen f < 2048) (removelast fs) ->
  data_ok (spec_send (pdu_of (s_queue s) fs last) rest s) sdus.
Proof.
  intros [D1 D2 D3 D4 D5 D6] Hq Hfull HT Hpack H32 Hli. set (u := pdu_of (s_queue s) fs last).
  pose proof (waiting_pos _ _ (waiting_blocks_ok s _ Hq)) as Hwp.
  pose proof (pack_facts _ _ _ _ _ _ _ Hwp Hfull ltac:(lia) ltac:(by right) Hpack) as [K1 K2 _ _ K5 _ _].
  destruct (s_queue s) as [|[s0 d0] q0] eqn:Eq; [by destruct Hfull as [[] _]|]. pose proof (qk_fresh _ _ Hq) as Hfr. rewrite Eq in Hfr. cbn [tail] in Hfr.
  destruct (pack_spec q0 s0 d0 T 2 fs last rest 0 Hfr Hfull (proj2 (Forall_cons_1 _ _ _ Hwp)) ltac:(by right) ltac:(lia) Hpack) as (dn & P1 & P2 & _).
  destruct (pack_fields_bound RLC_SDU_MAX_SIZE _ T 2 fs last rest 0 ltac:(lia) D6 Hpack ltac:(unfold RLC_SDU_MAX_SIZE; lia)) as [_ B2].
  assert (Eu : spec_pdu (sent_of ((s0, d0) :: q0)) u = (dn, sent_of rest)).
  { unfold spec_pdu. cbn [u pdu_of u_first u_fields u_last sent_of]. rewrite <- P1. destruct s0; done. }
  assert (Es : upds_of (spec_send u rest s) = upds_of s ++ [u]) by (cbn; by rewrite fmap_app).
  assert (Esp : spec_pdus [] (upds_of s ++ [u]) = ((spec_pdus [] (upds_of s)).1 ++ dn, sent_of rest)).
  { rewrite spec_pdus_snoc. destruct (spec_pdus [] (upds_of s)) as [dd pp] eqn:Ep. cbn [fst snd] in *. by rewrite D2, Eu. }
  destruct (sdus_bound _ _ D6 ltac:(unfold RLC_SDU_MAX_SIZE; lia)) as [B3 _]. destruct (sdus_bound _ _ B2 ltac:(unfold RLC_SDU_MAX_SIZE; lia)) as [_ B4].
  rewrite P2 in B3. apply Forall_app in B3 as [B3 _].
  constructor; rewrite ?Es, ?Esp; cbn [fst snd spec_send s_queue]; try done.
  - apply am_stream_snoc; [done|]. cbv zeta. rewrite D2, Eu. cbn [fst snd]. split_and!; [|by cbn; intros H; apply bool_decide_eq_true in H|done|done].
    constructor; cbn [u pdu_of u_fields]; try done; [unfold RLC_AM_MAX_SDU_IN_PDU; lia|]. pose proof (zlen_nonneg (enc_lis (zlen <$> removelast fs))).
    pose proof (enc_lis_total fs K1). lia.
  - by rewrite D3, P2, app_assoc.
  - apply (f_equal zlen) in P2. rewrite zlen_app, !zlen_sdus_of in P2. rewrite send_head, Eq, zlen_app, D4. lia.
  - intros c p Hc. cbn in Hc. apply lookup_app_Some in Hc as [Hc|[Hc1 Hc2]].
    + rewrite take_app_le by (rewrite length_fmap; apply lookup_lt_Some in Hc; lia). by apply D5.
    + apply list_lookup_singleton_Some in Hc2 as [Hc2 <-]. cbn [sp_first]. rewrite take_app_le, take_ge by (rewrite length_fmap; lia). done.
Qed.

(** Acknowledgements do not change the data. *)
Lemma spec_acks_facts n : forall s, 0 <= s_low s -> s_low s + Z.of_nat n <= zlen (s_sent s) ->
  s_low (spec_acks n s) = s_low s + Z.of_nat n /\ zlen (s_sent (spec_acks n s)) = zlen (s_sent s) /\
  (forall sdus, data_ok s sdus -> data_ok (spec_acks n s) sdus) /\ upds_of (spec_acks n s) = upds_of s.
Proof.
  induction n as [|n IH]; intros s H0 Hn; [by rewrite Z.add_0_r|]. rewrite spec_acks_S. destruct (spec_ack_low s ltac:(lia)) as [L1 L2].
  destruct (lookup_lt_is_Some_2 (s_sent s) (Z.to_nat (s_low s))) as [p Hp]; [unfold zlen in Hn; lia|].
  destruct (ack_parts s p Hp) as (A1 & A2 & _ & _ & A5 & _).
  assert (Eu : upds_of (spec_ack s) = upds_of s).
  { unfold spec_ack. rewrite Hp. cbn [s_sent]. rewrite list_fmap_insert. apply list_insert_id. by rewrite list_lookup_fmap, Hp. }
  destruct (IH (spec_ack s) ltac:(lia) ltac:(lia)) as (I1 & I2 & I3 & I4). split_and!; [lia|lia| |by rewrite I4].
  intros sdus [D1 D2 D3 D4 D5 D6]. apply I3. constructor; rewrite ?Eu, ?A2, ?A5; try done. intros c p' Hc.
  unfold spec_ack in Hc. rewrite Hp in Hc. cbn [s_sent] in Hc. destruct (decide (c = Z.to_nat (s_low s))) as [-> |Hne].
  - rewrite list_lookup_insert_eq in Hc by (by eapply lookup_lt_Some). injection Hc as <-. by apply (D5 _ p).
  - rewrite list_lookup_insert_ne in Hc by done. by apply D5.
Qed.

(** The receiver does not depend on the PDUs that are sent later. *)
Lemma am_sync_grow sent x rx r : am_sync sent rx r -> rx.1.2 <= zlen sent -> am_sync (sent ++ [x]) rx r.
Proof.
  intros [S1 S2 S3 S4 S5 S6 S7 S8] Hh. constructor; try done.
  - eapply Forall2_impl; [|exact S7]. intros c b (H0 & pb & y & Hy & Hb). split; [done|]. exists pb, y. split; [|done]. by apply lookup_app_l_Some.
  - unfold out_at in *. destruct S1 as [S1 _]. rewrite take_app_le; [done|]. unfold zlen in Hh. lia.
Qed.

(** ** The steps *)

Section Loop.
Context (alloc : Z -> option (list byte)) (Halloc : alloc_ok alloc) (peek : am_sdu -> Z * Z * Z).
Context (t0 d : Z) (Ht0 : 0 <= t0) (Hd : 0 <= d) (Hwrap : t0 + 2 * d < 2 ^ 32).

Abbreviation inv := (loop_inv t0 d).
Abbreviation ok := (ent_ok t0 d).

Lemma ent_later T T' s e : T <= T' -> ok T s e -> ok T' s e.
Proof using.
  intros HT [E1 E2 E3 E4 E5 [Q1 Q2]]. constructor; try done. split; [done|]. destruct Q2 as [?|(? & ? & ?)]; [by left|right; split_and!; done || lia].
Qed.

Lemma looked_ok T now frame tb s e : ok T s e -> T <= now -> ok now s (looked now frame tb e).
Proof using.
  intros He HT. apply (ent_later T now s e HT) in He as [E1 [A1 A2 A3 A4 A5 A6] E3 E4 E5 E6]. by constructor; [|constructor|..].
Qed.

Lemma check_idle now r : running (am_t_reordering r) = 0 -> rlc_am_check_timer_reordering now r = r.
Proof using. intros H. unfold rlc_am_check_timer_reordering. by rewrite H. Qed.

Lemma submit_step frame mui sdu g c : inv g c -> loop_guard t0 d (LSubmit frame mui sdu) g = true ->
  exists r c', loop_code alloc peek (LSubmit frame mui sdu) c = Ret (r, c') /\ inv (loop_spec (LSubmit frame mui sdu) r g) c'.
Proof using.
  intros [[E1 E2 E3 E4 E5 E6] V2 V3 V4 V5 V6 V7 V8 V9] Hg. cbn [loop_guard] in Hg. set (s := g_spec g) in *.
  apply andb_prop in Hg as [Hg G5]. apply andb_prop in Hg as [Hg G4]. apply andb_prop in Hg as [Hg G3]. apply andb_prop in Hg as [G1 G2].
  apply Z.ltb_lt in G1, G4. apply Z.leb_le in G2, G3. unfold RLC_SDU_MAX_SIZE in G2. pose proof E2 as [Hq Hr Ht Hnd Hc Hca].
  assert (G5' : zlen (s_muis s) < 127 \/ sdu_done s (zlen (s_muis s) - 127) = true).
  { destruct (Z.ltb_spec (zlen (s_muis s)) 127); [by left|right]. done. }
  cbn [loop_code]. unfold am_data_req.
  destruct (am_data_req_ok frame mui sdu s _ Hq ltac:(lia) G3 G4) as (q' & Eq & Hq').
  { destruct G5' as [?|Hdn]; [left; lia|]. destruct (Z.lt_ge_cases (zlen (s_muis s)) 128) as [|Hge]; [by left|right]. apply E3. lia. }
  rewrite Eq. cbn [mbind cres_bind]. eexists _, _. split; [reflexivity|].
  assert (Hcl : forall e', am_rb_id e' = am_rb_id (am_send (sy_a c)) -> am_is_data_plane e' = am_is_data_plane (am_send (sy_a c)) ->
    omap (conf_call e' (spec_submit mui sdu s)) (s_conf s) = omap (conf_call (am_send (sy_a c)) s) (s_conf s)).
  { intros e' H1 H2. apply list_omap_ext. apply Forall_Forall2_diag, Forall_forall. intros k Hk. apply list_elem_of_In, Hc in Hk as [Hk0 Hk].
    unfold conf_call, conf_args. rewrite H1, H2. cbn [spec_submit s_muis]. unfold sdu_done in Hk. apply andb_prop in Hk as [Hk _]. apply Z.ltb_lt in Hk.
    unfold s_head, zlen in Hk. by rewrite lookup_app_l by lia. }
  constructor; cbn [loop_spec g_spec g_time g_rx g_sdus sy_a sy_b sy_air]; try done.
  - constructor; try done.
    + constructor; [exact Hq'|by destruct Hr|done|done| |].
      * intros k. rewrite submit_done. apply Hc.
      * cbn [set_am_send am_send set_tx_queue confirmations]. rewrite Hca. symmetry. by apply Hcl.
    + split; [by apply E3|]. intros k Hk. fold s in Hk. fold s. rewrite submit_done. cbn in Hk. rewrite zlen_app in Hk. change (zlen [mui]) with 1 in Hk.
      destruct G5' as [?|Hdn]; [lia|]. destruct (Z.eq_dec k (zlen (s_muis s) - 127)) as [-> |]; [done|]. apply E3. lia.
  - apply data_submit; [done|]. unfold RLC_SDU_MAX_SIZE. lia.
Qed.

Lemma grant_step now frame tb g c : inv g c -> loop_guard t0 d (LGrant now frame tb) g = true ->
  exists r c', loop_code alloc peek (LGrant now frame tb) c = Ret (r, c') /\ inv (loop_spec (LGrant now frame tb) r g) c'.
Proof using Halloc Ht0 Hd Hwrap.
  intros [V1 [I1 I2] V3 V4 V5 V6 V7 V8 V9] Hg. cbn [loop_guard] in Hg. set (s := g_spec g) in *.
  apply andb_prop in Hg as [Hg Hplan]. apply andb_prop in Hg as [Hg T3]. apply andb_prop in Hg as [T1 T2].
  apply Z.leb_le in T1, T2. apply Z.ltb_lt in T3. cbn [loop_code loop_spec].
  destruct (status_indication_ok t0 d Ht0 Hd peek _ now frame tb s _ V1 ltac:(lia)) as (resp & Ei). rewrite Ei. cbn [mbind cres_bind].
  pose proof (looked_ok _ now frame tb s _ V1 T1) as L. set (e := looked now frame tb (sy_a c)) in *.
  assert (Hidle : am_recv e = am_recv (sy_a c)) by (cbn; rewrite check_idle by done; by destruct (negb _)).
  assert (Hno : no_report e) by (unfold no_report; by rewrite Hidle, I1, andb_false_r).
  assert (Hnb : am_nb_bytes_requested_by_mac (am_send e) = u16 tb) by done.
  fold s. unfold grant_plan in *. destruct (bool_decide (s_queue s = []) || (u16 tb <=? 2) || (zlen (s_sent s) =? s_low s + 512)) eqn:En.
  - rewrite (request_none t0 d alloc now frame now s e L Hno).
    2:{ rewrite Hnb. apply orb_prop in En as [En|En]; [apply orb_prop in En as [En|En]|]; [left; by apply bool_decide_eq_true in En|right; left; by apply Z.leb_le|right; right; by apply Z.eqb_eq]. }
    cbn [mbind cres_bind]. eexists _, _. split; [reflexivity|]. rewrite app_nil_r. constructor; cbn [g_spec g_time g_rx g_sdus sy_a sy_b sy_air]; try done; [|by apply (ent_later _ now _ _ T1)].
    by rewrite Hidle.
  - apply orb_false_elim in En as [En E512]. apply orb_false_elim in En as [Eq Enb]. apply bool_decide_eq_false in Eq. apply Z.leb_gt in Enb. apply Z.eqb_neq in E512.
    destruct (pack (pdu_room false (u16 tb) (s_queue s)) 2 (s_queue s)) as [[[fs last] rest] slack] eqn:Ep.
    apply andb_prop in Hplan as [Hplan P5]. apply andb_prop in Hplan as [Hplan P4]. apply andb_prop in Hplan as [Hplan P3]. apply andb_prop in Hplan as [P1 P2].
    apply Z.ltb_lt in P1, P5. apply Z.leb_le in P3. apply Z.eqb_eq in P2 as ->.
    assert (P4' : Forall (fun f => zlen f < 2048) (removelast fs)).
    { apply Forall_forall. intros f Hf. rewrite forallb_forall in P4. apply Z.ltb_lt. by apply P4. }
    pose proof L as [L1 L2 L3 L4 L5 L6]. pose proof (rk_window _ _ (ao_retx _ _ L2)) as Hw.
    destruct (am_size_ok s _ (u16 tb) (ao_queue _ _ L2) Eq) as (_ & Hfull & Hpos). specialize (Hpos ltac:(lia)).
    pose proof (waiting_pos _ _ (waiting_blocks_ok s _ (ao_queue _ _ L2))) as Hwp.
    pose proof (pack_facts _ _ _ _ _ _ _ Hwp Hfull Hpos ltac:(by right) Ep) as [K1 _ _ _ _ _ _].
    destruct (pack_shape _ _ _ _ _ _ _ Hwp Hfull Hpos ltac:(by right) Ep) as [Sh1 Sh2].
    assert (Hff : fifo (spec_send (pdu_of (s_queue s) fs last) rest s)).
    { split.
      - intros i p Hi Hle. cbn in Hi. apply lookup_app_Some in Hi as [Hi|[_ Hi]]; [by apply (ff_window _ L3 i)|]. by apply list_lookup_singleton_Some in Hi as [_ <-].
      - intros k Hk. rewrite (send_done s (pdu_of (s_queue s) fs last) fs last rest eq_refl K1 Sh1 Sh2). by apply L3. }
    destruct (request_send t0 d Ht0 Hd Hwrap alloc now frame now s e fs last rest Halloc L Hno ltac:(lia) T2 Eq) as (e' & tb' & Ee & G1 & G2 & G3 & G4 & G5 & G6 & G7);
      [rewrite Hnb; unfold RLC_SDU_MAX_SIZE in *; lia|lia|by rewrite Hnb|done|done|done|done|].
    rewrite Ee. cbn [mbind cres_bind]. eexists _, _. split; [reflexivity|].
    constructor; cbn [g_spec g_time g_rx g_sdus sy_a sy_b sy_air]; try done.
    + by rewrite G4, Hidle.
    + by apply (ent_later _ now _ _ T1).
    + cbn. rewrite fmap_app. cbn. apply am_sync_grow; [done|]. by rewrite zlen_fmap.
    + cbn. rewrite zlen_app. change (zlen [_]) with 1. lia.
    + intros i p Hi. cbn in Hi. apply lookup_app_Some in Hi as [Hi|[Hi1 Hi2]].
      * destruct (V7 i p Hi) as (b & Hb & ?). exists b. split; [by apply lookup_app_l_Some|done].
      * apply list_lookup_singleton_Some in Hi2 as [Hi2 <-]. assert (Hi : i = length (s_sent s)) by lia. exists tb'. split_and!.
        -- rewrite lookup_app_r by (rewrite V8; fold s; lia). rewrite V8. fold s. by rewrite Hi, Nat.sub_diag.
        -- cbn [sp_upd]. rewrite Hi. exact G2.
        -- rewrite Hnb in G3. lia.
    + rewrite length_app. cbn. rewrite length_app. cbn. rewrite V8. fold s. lia.
    + apply (data_send s _ _ _ fs last rest V9 (ao_queue _ _ L2) Hfull); try done. unfold pdu_room, hdr_len, RLC_SDU_MAX_SIZE in *. lia.
Qed.

(** The first octet of a PDU tells that it carries data. *)
Lemma data_octet pb sn u : 0 <= sn < 1024 -> exists o, octet (enc_am_pdu pb sn u) 0 = Ret o /\ Z.land o 0x80 = 0x80.
Proof using.
  intros Hsn. destruct (enc_am_split sn u Hsn) as (y & R & Hy & HR). exists (128 + b2z pb * 32 + y). rewrite HR.
  assert (Hr : 0 <= b2z pb * 32 + y < 128) by (destruct pb; cbn [b2z]; lia). split.
  - change (octet ([] ++ byte.of_Z (128 + b2z pb * 32 + y) :: R) 0 = Ret (128 + b2z pb * 32 + y)). rewrite octet_app by done.
    rewrite byte.unsigned_of_Z. unfold byte.wrap. rewrite Z.mod_small by lia. done.
  - change 128 with (2 ^ 7). rewrite land_bit by lia. replace ((2 ^ 7 + b2z pb * 32 + y) / 2 ^ 7) with 1; [done|].
    apply Z.div_unique with (r := b2z pb * 32 + y); lia.
Qed.

Lemma arrive_high R H cs c n : H <= n -> c < n -> (am_arrive (R, H, cs) c).1.2 <= n /\ R <= (am_arrive (R, H, cs) c).1.1.
Proof using.
  intros HH Hc. unfold am_arrive. destruct (_ && _ && _); [|cbn; lia]. set (cs' := filter _ cs ++ _). destruct (Z.eqb_spec c R) as [-> |].
  - pose proof (advance_elem cs' R) as Ha. destruct (advance R cs') as [R' cs2]. destruct Ha as [Ha _]. cbn [fst snd]. destruct (Z.leb_spec H R); lia.
  - cbn [fst snd]. destruct (Z.leb_spec H c); lia.
Qed.

Lemma deliver_step now frame i g c : inv g c -> loop_guard t0 d (LDeliver now frame i) g = true ->
  exists r c', loop_code alloc peek (LDeliver now frame i) c = Ret (r, c') /\ inv (loop_spec (LDeliver now frame i) r g) c'.
Proof using.
  intros [V1 V2 V3 V4 V5 V6 V7 V8 V9] Hg. cbn [loop_guard] in Hg. set (s := g_spec g) in *. destruct (g_rx g) as [[R H] cs] eqn:Erx. cbn [fst snd] in *.
  apply andb_prop in Hg as [Hg G4]. apply andb_prop in Hg as [Hg G3]. apply andb_prop in Hg as [G1 G2]. apply Z.ltb_lt in G1, G3. apply Z.leb_le in G2.
  apply negb_true_iff in G4. destruct (lookup_lt_is_Some_2 (s_sent s) i) as [p Hp]; [unfold zlen in G1; lia|].
  destruct (V7 i p Hp) as (tb & Htb & (pb & B1 & B2) & Bs). cbn [loop_code loop_spec]. rewrite Htb, Erx. pose proof V3 as [E1 _ _ _ _ _].
  unfold rlc_am_mac_data_indication, rlc_am_rx. rewrite E1. unfold rlc_am_receive_routing, over_the_air. cbn [di_data fmap list_fmap for_each].
  rewrite B2. set (sn := Z.of_nat i mod 1024) in *. set (pdu := enc_am_pdu pb sn (sp_upd p)) in *.
  assert (Hsn : 0 <= sn < 1024) by (apply Z.mod_pos_bound; lia). assert (Hlen : 2 <= zlen pdu) by (unfold pdu; rewrite enc_am_len; unfold zlen; lia).
  unfold RLC_SDU_MAX_SIZE in Bs. unfold receive_block. cbn [ti_data ti_size]. rewrite B1, u16_small by lia. rewrite (proj2 (Z.ltb_lt 0 _)) by lia.
  destruct (data_octet pb sn (sp_upd p) Hsn) as (o & Ho & Hbit). fold pdu in Ho. rewrite Ho. cbn [mbind cres_bind]. rewrite Hbit. cbn [Z.eqb Pos.eqb].
  destruct (receive_sync (upds_of s) (do_stream _ _ V9) now R H cs (Z.of_nat i) pb (sp_upd p) _ V4 ltac:(lia) ltac:(lia) G4) as (r & Er & Sr).
  { by rewrite Nat2Z.id, list_lookup_fmap, Hp. }
  fold sn in Er. fold pdu in Er. rewrite Er. cbn [mbind cres_bind]. eexists _, _. split; [reflexivity|].
  destruct (arrive_high R H cs (Z.of_nat i) (zlen (s_sent s)) V5 G1) as [H1 H2].
  constructor; cbn [g_spec g_time g_rx g_sdus sy_a sy_b sy_air]; try done.
  - destruct V3. by constructor.
  - fold s. lia.
Qed.

(** A status report is due. *)
Definition report_due (e : am_entity) : Prop :=
  (2 <? am_nb_bytes_requested_by_mac (am_send e)) && negb (status_requested (am_recv e) =? 0) && (running (t_status_prohibit e) =? 0) = true.

Lemma report_made now frame e sent R H : ok now no_spec e -> am_sync sent (R, H, []) (am_recv e) ->
  am_nb_bytes_requested_by_mac (am_send e) < 2 ^ 16 -> report_due e ->
  exists e' tb, rlc_am_mac_data_request alloc now frame e = Ret (e', [tb]) /\ ok now no_spec e' /\ am_recv e' = status_sent (am_recv e) /\
    tr_size tb = 2 /\ take 2 (tr_data tb) = ack_report (R mod 1024).
Proof using Halloc.
  intros L Sy Hnb Er. pose proof (as_buffer _ _ _ Sy) as Hbuf. apply Forall2_nil_inv_l in Hbuf.
  apply andb_prop in Er as [Er Er3]. apply andb_prop in Er as [Er1 Er2]. apply Z.ltb_lt in Er1.
  pose proof (Z.mod_pos_bound R 1024 ltac:(lia)) as HR. pose proof (as_vr_r _ _ _ Sy) as Hvr. cbn [fst] in Hvr.
  destruct (send_report_ok alloc (am_recv e) (am_send e) (R mod 1024) Halloc Hbuf Hvr HR ltac:(lia)) as (tbr & Es & Ss & Sd).
  pose proof L as [L1 [M1 M2 M3 M4 M5 M6] L3 L4 L5 L6]. unfold rlc_am_mac_data_request, rlc_am_get_pdus.
  rewrite L1, (proj2 (Z.ltb_lt 2 _)), Er2, Er3 by done. cbn [andb]. rewrite (bind_ret _ _ _ Es). cbv beta iota.
  cbn [mbind cres_bind set_prohibit set_am_recv set_am_send am_send to_mac set_tx_lists am_pdus_to_mac_layer set_requested segmentation_pdu_list].
  rewrite L4, L5. eexists _, tbr. split; [reflexivity|]. split_and!; try done; by constructor; [|constructor|..].
Qed.

Lemma reported_step now frame tb lost g c : inv g c -> loop_guard t0 d (LReport now frame tb lost) g = true ->
  exists r c', loop_code alloc peek (LReport now frame tb lost) c = Ret (r, c') /\ inv (loop_spec (LReport now frame tb lost) r g) c'.
Proof using Halloc Ht0 Hd Hwrap.
  intros [V1 [I1 I2] V3 V4 V5 V6 V7 V8 V9] Hg. cbn [loop_guard] in Hg. set (s := g_spec g) in *. destruct (g_rx g) as [[R H] cs] eqn:Erx. cbn [fst snd] in *.
  apply andb_prop in Hg as [Hg G2]. apply andb_prop in Hg as [Hg G1]. apply andb_prop in Hg as [Hg T3]. apply andb_prop in Hg as [T1 T2].
  apply Z.leb_le in T1, T2. apply Z.ltb_lt in T3. apply bool_decide_eq_true in G1 as ->. cbn [loop_code loop_spec].
  destruct (status_indication_ok t0 d Ht0 Hd peek _ now frame tb no_spec _ V3 ltac:(lia)) as (resp & Ei). rewrite Ei. cbn [mbind cres_bind].
  pose proof (looked_ok _ now frame tb no_spec _ V3 T1) as L. set (e := looked now frame tb (sy_b c)) in *.
  assert (Sy : am_sync (upds_of s) (R, H, []) (am_recv e)) by (cbn [e looked am_recv]; destruct (negb _); [by apply tick_sync|done]).
  pose proof (as_buffer _ _ _ Sy) as Hbuf. apply Forall2_nil_inv_l in Hbuf. pose proof (ent_later _ now _ _ T1 V1) as A1. rewrite Erx. cbn [fst snd].
  destruct ((2 <? am_nb_bytes_requested_by_mac (am_send e)) && negb (status_requested (am_recv e) =? 0) && (running (t_status_prohibit e) =? 0)) eqn:Er.
  - (* a report *)
    assert (Hnb : am_nb_bytes_requested_by_mac (am_send e) < 2 ^ 16) by (cbn; unfold u16; apply Z.mod_pos_bound; lia).
    destruct (report_made now frame e _ R H L Sy Hnb Er) as (b' & tbr & Hreq & Hb & Hrecv & Ss & Sd).
    rewrite Hreq. cbn [mbind cres_bind]. rewrite bool_decide_eq_false_2 by done. cbn [negb andb].
    assert (Sy' : am_sync (upds_of s) (R, H, []) (am_recv b')) by (rewrite Hrecv; destruct Sy; by constructor).
    destruct lost; cbn [negb mbind cres_bind].
    + eexists _, _. split; [reflexivity|]. constructor; cbn [g_spec g_time g_rx g_sdus sy_a sy_b sy_air fst snd]; done.
    + cbn [orb] in G2. apply Z.ltb_lt in G2. pose proof (rk_low _ _ (ao_retx _ _ (eo_send _ _ _ _ _ A1))) as Hlow. pose proof (as_high _ _ _ Sy) as Hhi. cbn [fst snd] in Hhi.
      assert (Hn : 0 <= R - s_low s < 512) by lia. assert (Hle : s_low s + (R - s_low s) <= zlen (s_sent s)) by lia.
      destruct (indication_report t0 d true now frame now s (sy_a c) (R - s_low s) A1 Hn Hle) as (a' & Ea & G3 & G4 & G5 & _ & _).
      assert (Hair : over_the_air [tbr] = over_the_air [{| tr_data := ack_report ((s_low s + (R - s_low s)) mod 1024); tr_size := 2 |}]).
      { unfold over_the_air. cbn [fmap list_fmap tr_size tr_data]. rewrite Ss. change (Z.to_nat 2) with 2%nat. rewrite Sd. by replace (s_low s + (R - s_low s)) with R by lia. }
      rewrite Hair, Ea. cbn [mbind cres_bind]. eexists _, _. split; [reflexivity|].
      destruct (spec_acks_facts (Z.to_nat (R - s_low s)) s ltac:(lia) ltac:(lia)) as (F1 & F2 & F3 & F4).
      constructor; cbn [g_spec g_time g_rx g_sdus sy_a sy_b sy_air fst snd andb negb]; fold s; rewrite ?F1, ?F2, ?F4; try done; [by rewrite G4|lia| |by rewrite V8; fold s; unfold zlen in F2; lia|by apply F3].
      intros i p Hi. assert (Hu : upds_of s !! i = Some (sp_upd p)) by (rewrite <- F4, list_lookup_fmap, Hi; done).
      rewrite list_lookup_fmap in Hu. destruct (s_sent s !! i) as [p'|] eqn:Ep; [|done]. injection Hu as <-. by apply (V7 i p').
  - (* nothing to report *)
    rewrite (request_none t0 d alloc now frame now no_spec e L Er) by (by left). cbn [mbind cres_bind]. rewrite bool_decide_eq_true_2 by done. cbn [negb andb].
    assert (Ha : (if lost then Ret (sy_a c) else rlc_am_mac_data_indication true now frame (over_the_air []) (sy_a c)) = Ret (sy_a c)).
    { destruct lost; [done|]. unfold rlc_am_mac_data_indication, rlc_am_rx. by rewrite (eo_state _ _ _ _ _ A1). }
    rewrite Ha. cbn [mbind cres_bind]. eexists _, _. split; [reflexivity|]. constructor; cbn [g_spec g_time g_rx g_sdus sy_a sy_b sy_air fst snd]; done.
Qed.

Lemma loop_step ev g c : inv g c -> loop_guard t0 d ev g = true ->
  exists r c', loop_code alloc peek ev c = Ret (r, c') /\ inv (loop_spec ev r g) c'.
Proof using Halloc Ht0 Hd Hwrap.
  destruct ev; [by apply submit_step|by apply grant_step|by apply deliver_step|by apply reported_step].
Qed.

Lemma loop_run_ok evs : forall g c, inv g c -> exists rest g' c', loop_run alloc peek t0 d evs g c = Ret (rest, g', c') /\ inv g' c'.
Proof using Halloc Ht0 Hd Hwrap.
  induction evs as [|ev evs IH]; intros g c Hi; [by exists [], g, c|]. cbn [loop_run]. destruct (loop_guard t0 d ev g) eqn:Eg; [|by exists (ev :: evs), g, c].
  destruct (loop_step ev g c Hi Eg) as (r & c' & -> & Hi'). cbn [mbind cres_bind]. by apply IH.
Qed.

End Loop.

(** ** What is delivered and what is confirmed *)

Lemma spec_pdus_app xs ys : forall p, spec_pdus p (xs ++ ys) =
  ((spec_pdus p xs).1 ++ (spec_pdus (spec_pdus p xs).2 ys).1, (spec_pdus (spec_pdus p xs).2 ys).2).
Proof.
  induction xs as [|x xs IH]; intros p; cbn [app spec_pdus fst snd]; [by destruct (spec_pdus p ys)|]. destruct (spec_pdu p x) as [d1 q]. rewrite IH.
  destruct (spec_pdus q xs) as [d2 q2]. cbn [fst snd]. by rewrite app_assoc.
Qed.

Lemma spec_fields_count fs : forall p last, zlen (spec_fields p fs last).1 <= zlen fs.
Proof.
  induction fs as [|f fs IH]; intros p last; [done|]. cbn [spec_fields]. rewrite zlen_cons. destruct fs as [|f2 fs].
  - destruct last; unfold zlen; cbn; lia.
  - specialize (IH [] last). destruct (spec_fields [] (f2 :: fs) last) as [d q]. cbn [fst] in *. rewrite zlen_cons. lia.
Qed.

(** An SDU that is done is one of those that the PDUs below the lower edge complete. *)
Lemma done_delivered s sdus R k : data_ok s sdus -> fifo s -> 0 <= R <= zlen (s_sent s) -> s_low s <= R -> sdu_done s k = true ->
  k < zlen (spec_pdus [] (take (Z.to_nat R) (upds_of s))).1.
Proof.
  intros [D1 D2 D3 D4 D5 D6] Hf HR Hlow Hdn. set (D := fun c : nat => zlen (spec_pdus [] (take c (upds_of s))).1).
  change (k < D (Z.to_nat R)). destruct (Z.lt_ge_cases k (D (Z.to_nat R))) as [|Hge]; [done|exfalso].
  unfold sdu_done in Hdn. apply andb_prop in Hdn as [Hk Ht]. apply Z.ltb_lt in Hk. apply Z.eqb_eq in Ht.
  (* the PDU that completes the SDU *)
  assert (Hex : exists c p, s_sent s !! c = Some p /\ (Z.to_nat R <= c)%nat /\ covers k p = true).
  { assert (Hn : D (length (s_sent s)) = s_head s) by (unfold D; rewrite take_ge by (by rewrite length_fmap); by rewrite D4).
    assert (Hstep : forall m, (Z.to_nat R + m <= length (s_sent s))%nat -> D (Z.to_nat R + m)%nat <= k \/
      exists c p, s_sent s !! c = Some p /\ (Z.to_nat R <= c)%nat /\ covers k p = true).
    { induction m as [|m IHm]; intros Hm; [left; rewrite Nat.add_0_r; lia|]. destruct IHm as [Hle|]; [lia| |by right].
      set (c := (Z.to_nat R + m)%nat) in *. replace (Z.to_nat R + S m)%nat with (S c) in * by lia.
      destruct (lookup_lt_is_Some_2 (s_sent s) c) as [p Hp]; [lia|]. destruct (Z.le_gt_cases (D (S c)) k) as [|Hlt]; [by left|right]. exists c, p.
      split_and!; [done|lia|]. unfold covers. rewrite (D5 c p Hp). fold (D c). rewrite (proj2 (Z.leb_le (D c) k)) by lia. apply Z.ltb_lt.
      assert (Hs : take (S c) (upds_of s) = take c (upds_of s) ++ [sp_upd p]) by (apply take_S_r; by rewrite list_lookup_fmap, Hp).
      assert (Hc : D (S c) <= D c + zlen (u_fields (sp_upd p))); [|lia]. unfold D. rewrite Hs, spec_pdus_snoc.
      destruct (spec_pdus [] (take c (upds_of s))) as [dd q]. unfold spec_pdu. destruct (spec_fields _ _ _) as [d' q'] eqn:Ef.
      cbn [fst]. rewrite zlen_app. match type of Ef with spec_fields ?a ?b ?l = _ => pose proof (spec_fields_count b a l) as Hcnt end.
      rewrite Ef in Hcnt. cbn [fst] in Hcnt. lia. }
    destruct (Hstep (length (s_sent s) - Z.to_nat R)%nat) as [Hle|]; [unfold zlen in HR; lia| |done].
    replace (Z.to_nat R + (length (s_sent s) - Z.to_nat R))%nat with (length (s_sent s)) in Hle by (unfold zlen in HR; lia). lia. }
  destruct Hex as (c & p & Hp & Hc & Hcov). pose proof (ff_window _ Hf c p Hp ltac:(lia)) as Hu.
  apply list_elem_of_split_length in Hp as (l1 & l2 & El & _). rewrite El, !tally_app in Ht. unfold tally in Ht. cbn [foldr] in Ht.
  pose proof (covers_acked_le k l1) as T1. pose proof (covers_acked_le k l2) as T2. unfold tally in T1, T2.
  assert (Ha : covers_acked k p = false) by (unfold covers_acked; by rewrite Hu, andb_false_r). rewrite Ha, Hcov in Ht. cbn [b2z] in Ht. lia.
Qed.

(** ** The run from the configuration on *)

(** An entity that is made and configured. *)
Definition am_new (e : am_entity) (srb : bool) (rb max_retx poll_pdu poll_byte t_poll t_reord t_prohibit : Z) : am_entity :=
  rlc_am_configure max_retx poll_pdu poll_byte t_poll t_reord t_prohibit (rlc_am_set_debug_infos srb rb (rlc_am_init e)).

Lemma am_init_ok e : tx_queue e = tx_queue am_tx_init -> pdu_retrans_buffer (tx_retx e) = replicate 1024 zero_pdu ->
  tx_vt_a (tx_retx e) = 0 -> tx_vt_ms (tx_retx e) = 512 -> tx_vt_s (tx_retx e) = 0 -> first_retrans_pdu_sn (tx_retx e) = -1 ->
  timed_out (t_poll_retransmit (tx_poll e)) = 0 -> confirmations e = [] -> am_ok no_spec e.
Proof.
  intros Hq H1 H2 H3 H4 H5 H6 H7. constructor; [| |done|constructor| |by rewrite H7].
  - rewrite Hq. constructor; try done; try (cbn; lia).
    + intros k Hk. exists zero_sdu. split; [|].
      * unfold ring_at. cbn [am_tx_init tx_queue am_input_sdus]. apply lookup_replicate_2. pose proof (Z.mod_pos_bound k 128 ltac:(lia)). lia.
      * assert (Hl : sdu_live no_spec k = false) by (unfold sdu_live; change (zlen (s_muis no_spec)) with 0 in Hk; by rewrite (proj2 (Z.leb_gt 0 k)) by lia). by rewrite Hl.
    + intros k Hk. change (zlen (s_muis no_spec)) with 0 in Hk. lia.
  - constructor; rewrite ?H1, ?H2, ?H3, ?H4, ?H5; try done; cbn; try lia.
  - intros k. split; [intros Hk; inversion Hk|]. intros [Hk Hd]. unfold sdu_done in Hd. apply andb_prop in Hd as [Hd _]. apply Z.ltb_lt in Hd. change (s_head no_spec) with 0 in Hd. lia.
Qed.

Section New.
Context (t0 d : Z) (e : am_entity) (He : am_initialized e = false) (srb : bool) (rb mr pp pb tr tp : Z).

Lemma am_new_ok : ent_ok t0 d t0 no_spec (am_new e srb rb mr pp pb d tr tp).
Proof using He.
  unfold am_new, rlc_am_init. rewrite He. constructor; try done; [by apply am_init_ok| |by split; [|left]].
  split; [intros c p Hc; done|]. intros k Hk. change (zlen (s_muis no_spec)) with 0 in Hk. lia.
Qed.

Lemma am_new_recv : am_recv (am_new e srb rb mr pp pb d tr tp) = am_rx_configure false tr am_rx_init.
Proof using He. unfold am_new, rlc_am_init. by rewrite He. Qed.

End New.

Lemma loop_init t0 d a b srb rb mr pp pb tra tpa trb tpb : am_initialized a = false -> am_initialized b = false ->
  loop_inv t0 d (Ghost t0 no_spec (0, 0, []) []) (Sys (am_new a srb rb mr pp pb d tra tpa) (am_new b srb rb mr pp pb d trb tpb) []).
Proof.
  intros Ha Hb. constructor; cbn [g_spec g_time g_rx g_sdus sy_a sy_b sy_air fst snd]; try done.
  - by apply am_new_ok.
  - by rewrite am_new_recv by done.
  - by apply am_new_ok.
  - rewrite am_new_recv by done. apply init_sync.
Qed.

Definition submitted_sdus (evs : list loop_event) : list (list byte) :=
  omap (fun ev => match ev with LSubmit _ _ sdu => Some sdu | _ => None end) evs.
Definition submitted_muis (evs : list loop_event) : list Z :=
  omap (fun ev => match ev with LSubmit _ mui _ => Some mui | _ => None end) evs.

(** The SDUs of the events that happened. *)
Lemma acks_muis n : forall s, s_muis (spec_acks n s) = s_muis s.
Proof.
  induction n as [|n IH]; intros s; [done|]. rewrite spec_acks_S, IH. unfold spec_ack. by destruct (s_sent s !! _).
Qed.

Lemma loop_run_trace alloc peek t0 d evs : forall g c rest g' c', loop_run alloc peek t0 d evs g c = Ret (rest, g', c') ->
  exists past, evs = past ++ rest /\ g_sdus g' = g_sdus g ++ submitted_sdus past /\ s_muis (g_spec g') = s_muis (g_spec g) ++ submitted_muis past.
Proof.
  induction evs as [|ev evs IH]; intros g c rest g' c' E; cbn [loop_run] in E.
  { injection E as <- <- <-. exists []. by rewrite !app_nil_r. }
  destruct (loop_guard t0 d ev g); [|injection E as <- <- <-; exists []; by rewrite !app_nil_r].
  destruct (loop_code alloc peek ev c) as [[r c1]|]; [|done]. cbn [mbind cres_bind] in E. apply IH in E as (past & -> & E1 & E2). exists (ev :: past).
  split; [done|]. rewrite E1, E2. destruct ev; cbn [loop_spec g_sdus g_spec s_muis spec_submit].
  - by rewrite <- !app_assoc.
  - split; [done|]. by destruct (grant_plan _ _) as [[[[? ?] ?] ?]|].
  - done.
  - split; [done|]. destruct (_ && _); [by rewrite acks_muis|done].
Qed.

(** What is delivered, at any time. *)
Lemma loop_out t0 d g c : loop_inv t0 d g c ->
  delivered (am_output (am_recv (sy_b c))) = (spec_pdus [] (take (Z.to_nat (g_rx g).1.1) (upds_of (g_spec g)))).1.
Proof.
  intros V. pose proof (as_out _ _ _ (lv_sync _ _ _ _ V)) as Ho. unfold out_at in Ho. destruct (g_rx g) as [[R H] cs]. cbn [fst snd] in *.
  destruct (spec_pdus [] (take (Z.to_nat R) _)) as [o p]. destruct Ho as [[Ho _] _]. exact Ho.
Qed.

(** What a state of a run says about the SDUs submitted and the SDUs delivered. *)
Record transferred (sdus out : list (list byte)) (g : ghost) (a : am_entity) : Prop := {
  tf_prefix : out `prefix_of` sdus;
  tf_once : NoDup (s_conf (g_spec g));
  tf_calls : confirmations (am_send a) = omap (conf_call (am_send a) (g_spec g)) (s_conf (g_spec g));
  tf_delivered : Forall (fun k => 0 <= k < zlen out) (s_conf (g_spec g));
  tf_all : s_queue (g_spec g) = [] -> (g_rx g).1.1 = zlen (s_sent (g_spec g)) -> out = sdus /\
    (s_low (g_spec g) = zlen (s_sent (g_spec g)) -> forall k, 0 <= k < zlen sdus -> k ∈ s_conf (g_spec g));
}.

Lemma loop_facts t0 d g c : loop_inv t0 d g c ->
  transferred (g_sdus g) (delivered (am_output (am_recv (sy_b c)))) g (sy_a c).
Proof.
  intros V. pose proof (loop_out _ _ _ _ V) as Hout. destruct V as [V1 V2 V3 V4 V5 V6 V7 V8 V9]. set (out := delivered _) in *. set (s := g_spec g) in *.
  pose proof V1 as [_ [_ Hr _ Hnd Hc Hca] Hf _ _ _]. destruct (g_rx g) as [[R H] cs] eqn:Erx. cbn [fst snd] in *.
  pose proof (as_window _ _ _ V4) as (HR0 & _). pose proof (as_high _ _ _ V4) as HRH. cbn [fst snd] in HR0, HRH. pose proof V9 as [D1 D2 D3 D4 D5 D6].
  assert (Hpre : (spec_pdus [] (upds_of s)).1 = out ++ (spec_pdus (spec_pdus [] (take (Z.to_nat R) (upds_of s))).2 (drop (Z.to_nat R) (upds_of s))).1)
    by (rewrite Hout; rewrite <- (take_drop (Z.to_nat R) (upds_of s)) at 1; by rewrite spec_pdus_app).
  constructor; fold s; try done.
  - rewrite D3, Hpre, <- app_assoc. by eexists.
  - apply Forall_forall. intros k Hk. apply list_elem_of_In, Hc in Hk as [Hk0 Hk]. split; [done|]. rewrite Hout.
    by apply (done_delivered s (g_sdus g)); [done|done|lia|lia|].
  - rewrite Erx. cbn [fst]. intros Hq HR. assert (Hall : out = g_sdus g).
    { rewrite D3, Hq, Hout, take_ge by (rewrite length_fmap; unfold zlen in HR; lia). by rewrite app_nil_r. }
    split; [done|]. intros Hlow k Hk. apply Hc. split; [lia|]. unfold sdu_done.
    rewrite D4, <- (app_nil_r (spec_pdus [] _).1). change (@nil (list byte)) with (sdus_of []). rewrite <- Hq, <- D3, (proj2 (Z.ltb_lt k _)) by lia.
    cbn [andb]. apply Z.eqb_eq.
    assert (Hacc : forall p, p ∈ s_sent s -> sp_acked p = true).
    { intros p Hp. apply list_elem_of_lookup in Hp as [i Hi']. apply (rk_below _ _ Hr i p Hi'). apply lookup_lt_Some in Hi'. unfold zlen in Hlow. lia. }
    clear -Hacc. induction (s_sent s) as [|p l IH]; [done|]. unfold tally in *. cbn [foldr]. rewrite IH by (intros q Hq; apply Hacc; by right).
    unfold covers_acked at 1. by rewrite (Hacc p ltac:(by left)), andb_true_r.
Qed.

(** A bearer in acknowledged mode.  Two entities that are configured, one of which sends, run through
    any sequence of SDUs, grants of the MAC, arrivals of blocks, repeated, out of order or never, and
    status reports, lost or not, in which t-PollRetransmit does not expire; the run goes on as long as
    the events are allowed ([loop_guard]), without a fault.  At its end the SDUs delivered are the first
    ones submitted, in order and unchanged; each SDU is confirmed at most once, with its message unit,
    and only when it was delivered; all SDUs are delivered when the queue is empty and all PDUs have
    arrived, and all are confirmed when moreover the reports have acknowledged every PDU. *)
Theorem am_bearer alloc peek t0 d evs a b (srb : bool) rb mr pp pb tra tpa trb tpb :
  alloc_ok alloc -> 0 <= t0 -> 0 <= d -> t0 + 2 * d < 2 ^ 32 -> am_initialized a = false -> am_initialized b = false ->
  exists past rest g c, evs = past ++ rest /\
    loop_run alloc peek t0 d evs (Ghost t0 no_spec (0, 0, []) [])
      (Sys (am_new a srb rb mr pp pb d tra tpa) (am_new b srb rb mr pp pb d trb tpb) []) = Ret (rest, g, c) /\
    let out := delivered (am_output (am_recv (sy_b c))) in
    let s := g_spec g in
    s_muis s = submitted_muis past /\ out `prefix_of` submitted_sdus past /\
    NoDup (s_conf s) /\ confirmations (am_send (sy_a c)) = omap (conf_call (am_send (sy_a c)) s) (s_conf s) /\
    Forall (fun k => 0 <= k < zlen out) (s_conf s) /\
    (s_queue s = [] -> (g_rx g).1.1 = zlen (s_sent s) -> out = submitted_sdus past /\
      (s_low s = zlen (s_sent s) -> forall k, 0 <= k < zlen (submitted_sdus past) -> k ∈ s_conf s)).
Proof.
  intros Hal Ht0 Hd Hw Ha Hb. set (a' := am_new a _ _ _ _ _ _ _ _). set (b' := am_new b _ _ _ _ _ _ _ _).
  assert (Hi : loop_inv t0 d (Ghost t0 no_spec (0, 0, []) []) (Sys a' b' [])) by (by apply loop_init).
  destruct (loop_run_ok alloc Hal peek t0 d Ht0 Hd Hw evs _ _ Hi) as (rest & g & c & E & V).
  destruct (loop_run_trace _ _ _ _ _ _ _ _ _ _ E) as (past & Hev & E1 & E2). cbn [g_sdus g_spec no_spec s_muis app] in E1, E2.
  destruct (loop_facts _ _ _ _ V) as [F1 F2 F3 F4 F5]. rewrite E1 in F1, F5. by exists past, rest, g, c.
Qed.

(** A run with two SDUs: cut and joined, delivered out of order and twice, reported and confirmed. *)
Definition blank_entity : am_entity :=
  Am RLC_NULL_STATE
    (AmTx (Queue [] 0 0 0 0 0) (Poll 0 0 0 0 0 false (Timer 0 0 0 0 0)) (Retx [] 0 0 0 0 0 0 0 0 0 0) 0 [] [] 0 false [])
    (AmRx (Build_am_vars 0 0 0 0 0 0 0) [] (Sdu None 0 []) 0 (Timer 0 0 0 0 0) (RxStats 0 0 0 0 0 0 0)) (Timer 0 0 0 0 0) 0 0 false false.

Definition no_peek (_ : am_sdu) : Z * Z * Z := (0, 0, 0).

Definition demo_sdus : list (list byte) := [byte.of_Z <$> [1; 2; 3; 4; 5]; byte.of_Z <$> [6; 7; 8]].

Definition demo_events : list loop_event :=
  [LSubmit 0 11 (byte.of_Z <$> [1; 2; 3; 4; 5]); LGrant 1 0 5; LSubmit 0 12 (byte.of_Z <$> [6; 7; 8]); LGrant 2 0 7; LGrant 3 0 100;
   LDeliver 4 0 2; LDeliver 5 0 1; LDeliver 5 0 1; LDeliver 6 0 0; LReport 7 1 20 true; LDeliver 8 1 2; LReport 9 1 20 false].

(** The outcome of the run. *)
Definition demo_outcome (r : cres (list loop_event * ghost * system)) : option (nat * list (list byte) * list (Z * Z * Z * Z)) :=
  match r with
  | Ret (rest, g, c) => Some (length rest, delivered (am_output (am_recv (sy_b c))), confirmations (am_send (sy_a c)))
  | Trap _ => None
  end.

Lemma am_bearer_witness :
  exists g c, loop_run fresh_block no_peek 0 100 demo_events (Ghost 0 no_spec (0, 0, []) [])
      (Sys (am_new blank_entity true 1 4 16 500 100 50 0) (am_new blank_entity true 1 4 16 500 100 50 0) []) = Ret ([], g, c) /\
    delivered (am_output (am_recv (sy_b c))) = demo_sdus /\ confirmations (am_send (sy_a c)) = [(1, 11, 1, 0); (1, 12, 1, 0)].
Proof.
  destruct (am_bearer fresh_block no_peek 0 100 demo_events blank_entity blank_entity true 1 4 16 500 50 0 50 0 fresh_block_ok)
    as (past & rest & g & c & _ & E & _); [lia|lia|lia|reflexivity|reflexivity|].
  pose proof (f_equal demo_outcome E) as E'. set (l := loop_run _ _ _ _ _ _ _) in *.
  assert (El : demo_outcome l = Some (0%nat, demo_sdus, [(1, 11, 1, 0); (1, 12, 1, 0)])) by (vm_compute; reflexivity).
  clearbody l. rewrite El in E'. cbn [demo_outcome] in E'. injection E' as E1 E2 E3. destruct rest; [|done]. exists g, c. by rewrite <- E2, <- E3.
Defined.

(** ** A full window *)

(** C36: a full window is never acknowledged at once.  When 512 PDUs wait for their acknowledgement, none of
    them negatively acknowledged, VT(S) is VT(MS) and the report of a receiver that has all of them carries
    this number; the code takes it for one that is out of the window, ignores the report and confirms
    nothing.  While t-PollRetransmit has not timed out ([ent_ok]) and no status report is due on this side
    ([no_report]), it sends nothing either, for any grant and at any time of the call; once the timer has
    expired, [rlc_am_retransmit_any_pdu] sends a PDU again. *)
Theorem am_full_window_stalls alloc t0 d T s e now frame : ent_ok t0 d T s e -> no_report e -> zlen (s_sent s) = s_low s + 512 ->
  rlc_am_mac_data_indication true now frame
    (over_the_air [{| tr_data := ack_report (zlen (s_sent s) mod 1024); tr_size := 2 |}]) e = Ret e /\
  rlc_am_mac_data_request alloc now frame e = Ret (e, []).
Proof.
  intros He Hno Hw. split; [|by eapply request_none; [done|done|auto]]. pose proof He as [E1 [Hq Hr _ _ _ _] _ _ _ _].
  unfold rlc_am_mac_data_indication, rlc_am_rx. rewrite E1. unfold rlc_am_receive_routing, over_the_air. cbn [di_data fmap list_fmap for_each tr_size tr_data].
  pose proof (Z.mod_pos_bound (zlen (s_sent s)) 1024 ltac:(lia)) as HC. set (C := zlen (s_sent s) mod 1024) in *.
  change (take (Z.to_nat 2) (ack_report C)) with (ack_report C). rewrite (receive_ack_report true now frame C e HC).
  unfold rlc_am_receive_process_control_pdu. destruct (ack_report_ok C HC) as (i & Ei & Ea & En). rewrite (bind_ret _ _ _ Ei). cbn [Z.leb Z.compare].
  unfold process_report. rewrite Ea, En. unfold RLC_AM_SN_MODULO, RLC_AM_MAX_NACK_IN_STATUS_PDU, c_assert. rewrite (proj2 (Z.ltb_lt C 1024)) by lia. cbn [mbind cres_bind Z.ltb Z.compare].
  unfold C. rewrite Hw, (tx_window_ok s _ 512 Hr) by lia. cbn. by destruct e.
Qed.

(** Seventeen SDUs of 31 bytes, and 512 grants for one byte of them each. *)
Definition window_events : list loop_event :=
  replicate 17 (LSubmit 0 1 (zeros 31)) ++ replicate 512 (LGrant 1 0 3).

Definition window_start : system :=
  Sys (am_new blank_entity true 1 4 16 500 100 50 0) (am_new blank_entity true 1 4 16 500 100 50 0) [].

(** What the run leaves: the events that did not happen, the PDUs sent and the lower edge. *)
Definition window_outcome (r : cres (list loop_event * ghost * system)) : option (nat * Z * Z) :=
  match r with
  | Ret (rest, g, _) => Some (length rest, zlen (s_sent (g_spec g)), s_low (g_spec g))
  | Trap _ => None
  end.

Lemma am_full_window_stalls_witness :
  exists g c, loop_run fresh_block no_peek 0 100 window_events (Ghost 0 no_spec (0, 0, []) []) window_start = Ret ([], g, c) /\
    tx_vt_s (tx_retx (am_send (sy_a c))) = 512 /\
    rlc_am_mac_data_indication true 2 0 (over_the_air [{| tr_data := ack_report 512; tr_size := 2 |}]) (sy_a c) = Ret (sy_a c).
Proof.
  destruct (loop_run_ok fresh_block fresh_block_ok no_peek 0 100 ltac:(lia) ltac:(lia) ltac:(lia) window_events (Ghost 0 no_spec (0, 0, []) []) window_start)
    as (rest & g & c & E & [V1 [I1 _] _ _ _ _ _ _ _]); [by apply loop_init|].
  pose proof (f_equal window_outcome E) as E'. set (l := loop_run _ _ _ _ _ _ _) in *.
  assert (El : window_outcome l = Some (0%nat, 512, 0)) by (vm_compute; reflexivity). clearbody l. rewrite El in E'. cbn [window_outcome] in E'.
  injection E' as E1 E2 E3. destruct rest; [|discriminate E1]. exists g, c. split; [exact E|]. split.
  - destruct V1 as [_ [_ Hr _ _ _ _] _ _ _ _]. rewrite (rk_s _ _ Hr), <- E2. reflexivity.
  - pose proof (am_full_window_stalls fresh_block 0 100 (g_time g) (g_spec g) (sy_a c) 2 0 V1) as Ht. rewrite <- E2, <- E3 in Ht.
    apply Ht; [|reflexivity]. unfold no_report. rewrite I1. apply andb_false_intro1. apply andb_false_intro2. reflexivity.
Defined.

(** ** A negative acknowledgement *)

(** The MAC asks for [nb] bytes. *)
Definition grant (alloc : Z -> option (list byte)) (now frame nb : Z) (e : am_entity) : cres (am_entity * list mac_tb_req) :=
  rlc_am_mac_data_request alloc now frame (set_am_send e (set_requested (am_send e) nb)).

Fixpoint grants (alloc : Z -> option (list byte)) (now frame : Z) (nbs : list Z) (e : am_entity) : cres (am_entity * list mac_tb_req) :=
  match nbs with
  | [] => Ret (e, [])
  | nb :: nbs =>
      '(e, tbs) ← grant alloc now frame nb e;
      '(e, tbs') ← grants alloc now frame nbs e;
      Ret (e, tbs ++ tbs')
  end.

(** The PDU [u] of count [c] is the next one to be sent again, after [r] times. *)
Record nacked (c : Z) (u : upd) (size r : Z) (e : am_entity) : Prop := {
  nk_state : am_protocol_state e = RLC_DATA_TRANSFER_READY_STATE;
  nk_quiet : status_requested (am_recv e) = 0;
  nk_empty : am_pdus_to_mac_layer (am_send e) = [];
  nk_len : zlen (pdu_retrans_buffer (tx_retx (am_send e))) = 1024;
  nk_first : first_retrans_pdu_sn (tx_retx (am_send e)) = c mod 1024;
  nk_vt_s : tx_vt_s (tx_retx (am_send e)) <> c mod 1024;
  nk_entry : exists m tb, pdu_at (pdu_retrans_buffer (tx_retx (am_send e))) c = Some m /\ pdu_block m = Some tb /\
    block_of tb (c mod 1024) u /\ header_and_payload_size m = tr_size tb /\ tr_size tb = size /\ retx_count m = r /\
    nack_so_start (pdu_holes m) = 0 /\ nack_so_stop (pdu_holes m) = 0x7FFF;
}.

Lemma grant_nacked alloc now frame nb c u size r e : alloc_ok alloc -> nacked c u size r e -> 2 < size <= nb -> nb < 2 ^ 16 -> 0 <= r < 127 ->
  exists e' tb, grant alloc now frame nb e = Ret (e', [tb]) /\ nacked c u size (r + 1) e' /\ block_of tb (c mod 1024) u /\
    tx_queue (am_send e') = tx_queue (am_send e) /\ tx_vt_s (tx_retx (am_send e')) = tx_vt_s (tx_retx (am_send e)).
Proof.
  intros Hal [N1 N2 N3 N4 N5 N6 (m & tb & M1 & M2 & M3 & M4 & M5 & M6 & M7 & M8)] Hs Hnb Hr.
  unfold grant, rlc_am_mac_data_request, rlc_am_get_pdus. cbn [set_am_send am_protocol_state am_send am_recv t_status_prohibit]. rewrite N1, N2. cbn [Z.eqb negb]. rewrite andb_false_r. cbn [andb].
  set (t := set_requested (am_send e) nb). assert (Hres : exists t' tb', resend alloc now t = Ret (true, t') /\ am_pdus_to_mac_layer t' = [tb'] /\ block_of tb' (c mod 1024) u /\
    tx_queue t' = tx_queue t /\ nacked c u size (r + 1) (set_am_send e (set_tx_lists t' (segmentation_pdu_list t') [])) /\ tx_vt_s (tx_retx t') = tx_vt_s (tx_retx t)).
  2:{ destruct Hres as (t' & tb' & -> & E1 & E2 & E3 & E4 & E5). cbn [mbind cres_bind]. cbn [set_am_send am_send]. rewrite E1.
      eexists _, tb'. split; [reflexivity|]. by split_and!. }
  unfold resend. change (tx_retx t) with (tx_retx (am_send e)). change (am_nb_bytes_requested_by_mac t) with nb. rewrite N5. pose proof (Z.mod_pos_bound c 1024 ltac:(lia)).
  rewrite (proj2 (Z.ltb_lt 2 nb)), (proj2 (Z.leb_le 0 (c mod 1024))), (proj2 (Z.eqb_neq (c mod 1024) _)) by (lia || by intros E; apply N6). cbn [andb negb].
  rewrite (bind_ret _ _ _ (ring_get 1024 ltac:(lia) _ _ _ M1)), M4, M5, M6, M7, M8. rewrite (proj2 (Z.leb_le size nb)), (proj2 (Z.leb_le 0 r)) by lia. cbn [andb Z.eqb Pos.eqb].
  destruct (get_copy_ok alloc now t c m tb u Hal N4 M1 M2 M3 M4 ltac:(lia)) as (pl & tb' & -> & B1 & B2 & _). cbn [mbind cres_bind].
  rewrite (update_pdu_ok _ c _ (sent_again m)); [|by cbn; rewrite ring_put_len|by cbn; rewrite ring_at_put by (done || lia)].
  cbn [mbind cres_bind]. eexists _, tb'. split; [reflexivity|]. split_and!; try done; [by cbn; rewrite N3|].
  constructor; cbn; try done; [by rewrite !ring_put_len|]. eexists _, tb. rewrite ring_at_put by (by rewrite ?ring_put_len || lia).
  split; [reflexivity|]. split_and!; try done. cbn. rewrite M6. apply i8_small. lia.
Qed.

Lemma grants_nacked alloc now frame nbs : forall c u size r e, alloc_ok alloc -> nacked c u size r e -> 2 < size ->
  Forall (fun nb => size <= nb < 2 ^ 16) nbs -> 0 <= r -> r + zlen nbs <= 127 ->
  exists e' tbs, grants alloc now frame nbs e = Ret (e', tbs) /\ nacked c u size (r + zlen nbs) e' /\ length tbs = length nbs /\
    Forall (fun tb => block_of tb (c mod 1024) u) tbs /\
    tx_queue (am_send e') = tx_queue (am_send e) /\ tx_vt_s (tx_retx (am_send e')) = tx_vt_s (tx_retx (am_send e)).
Proof.
  induction nbs as [|nb nbs IH]; intros c u size r e Hal Hn Hs Hf Hr Hb; cbn [grants].
  { exists e, []. change (zlen (@nil Z)) with 0. rewrite Z.add_0_r. by split_and!. }
  apply Forall_cons_1 in Hf as [Hnb Hf]. rewrite zlen_cons in *. pose proof (zlen_nonneg nbs).
  destruct (grant_nacked alloc now frame nb c u size r e Hal Hn ltac:(lia) ltac:(lia) ltac:(lia)) as (e1 & tb & E1 & N1 & B1 & Q1 & V1). rewrite E1. cbn [mbind cres_bind].
  destruct (IH c u size (r + 1) e1 Hal N1 Hs Hf ltac:(lia) ltac:(lia)) as (e' & tbs & E2 & N2 & L2 & B2 & Q2 & V2). rewrite E2. cbn [mbind cres_bind].
  exists e', ([tb] ++ tbs). split; [done|]. replace (r + (1 + zlen nbs)) with (r + 1 + zlen nbs) by lia. split_and!; [done|cbn; lia|by constructor|congruence|congruence].
Qed.

(** The negative acknowledgement of a PDU. *)
Lemma nack_marks t0 d T s e frame c p : ent_ok t0 d T s e -> status_requested (am_recv e) = 0 -> s_sent s !! c = Some p -> s_low s <= Z.of_nat c ->
  0 < zlen (concat (u_fields (sp_upd p))) -> 0 < max_retx_threshold (tx_retx (am_send e)) ->
  exists t size, rlc_am_nack_pdu frame (Z.of_nat c mod 1024) 0 0x7FFF (am_send e) = Ret t /\
    nacked (Z.of_nat c) (sp_upd p) size 0 (set_am_send e t) /\ 2 < size /\ tx_queue t = tx_queue (am_send e) /\
    tx_vt_s (tx_retx t) = tx_vt_s (tx_retx (am_send e)) /\ size = zlen (enc_am_pdu false 0 (sp_upd p)).
Proof.
  intros [E1 [Hq Hr _ _ _ _] E3 E4 E5 E6] Hst Hp Hc Hpay Hmax. pose proof (rk_len _ _ Hr) as Hlen. pose proof (ff_window _ E3 _ _ Hp Hc) as Hu.
  destruct (rk_stored _ _ Hr _ _ Hp Hc) as (m & Hm & Sm). pose proof (st_block _ _ _ Sm) as Hb. rewrite Hu in Hb. destruct Hb as (tb & B1 & B2 & B3 & B4).
  pose proof B2 as (pb & B5 & _). rewrite enc_am_len in B5. pose proof (zlen_nonneg (enc_lis (zlen <$> removelast (u_fields (sp_upd p))))).
  unfold rlc_am_nack_pdu. rewrite (bind_ret _ _ _ (ring_get 1024 ltac:(lia) _ _ _ Hm)), B1. cbn [c_assert Z.leb Z.compare mbind cres_bind Z.eqb Pos.eqb andb negb].
  set (m1 := if negb (last_nack_time m =? frame) then _ else m).
  assert (Hm1 : pdu_block m1 = Some tb /\ header_and_payload_size m1 = tr_size tb /\ retx_count m1 = -1 /\ payload_size (pdu_holes m1) = zlen (concat (u_fields (sp_upd p))))
    by (unfold m1; destruct (negb _); cbn; rewrite (st_retx _ _ _ Sm), (st_payload _ _ _ Sm); done).
  destruct Hm1 as (M1 & M2 & M3 & M4).
  assert (Hh : rlc_am_add_hole 0 0x7FFF (pdu_holes m1) = Ret (set_nack (set_num (pdu_holes m1) 0) 0 0x7FFF)).
  { unfold rlc_am_add_hole. cbn [c_assert Z.leb Z.compare Z.ltb Pos.compare Pos.compare_cont mbind cres_bind Z.eqb Pos.eqb andb orb set_nack set_num nack_so_start payload_size].
    rewrite M4. by rewrite (proj2 (Z.ltb_lt 0 _)) by lia. }
  rewrite Hh. cbn [mbind cres_bind]. cbn [set_nack_nums first_retrans_pdu_sn]. rewrite (rk_first _ _ Hr). cbn [Z.ltb Z.compare orb].
  cbn [set_retransmit set_holes retx_count header_and_payload_size]. rewrite M3. cbn [Z.eqb Pos.eqb].
  rewrite (update_pdu_ok _ (Z.of_nat c) _ m); [|exact Hlen|exact Hm]. cbn [mbind cres_bind]. cbn [set_pdus set_retrans_nums set_first_retrans set_nack_nums max_retx_threshold set_retx_count retx_count].
  rewrite (proj2 (Z.leb_gt _ 0)) by done. eexists _, (tr_size tb). split; [reflexivity|].
  pose proof (lookup_lt_Some _ _ _ Hp) as Hlt. pose proof (rk_window _ _ Hr) as Hw.
  split_and!; try done; [|lia|by rewrite enc_am_len, B5].
  constructor; cbn; try done; [by rewrite ring_put_len| |].
  - rewrite (rk_s _ _ Hr). intros E. apply mod_near_eq in E; unfold zlen in *; lia.
  - eexists _, tb. rewrite ring_at_put by (done || lia). split; [reflexivity|]. by split_and!.
Qed.

(** C37: a PDU that is acknowledged negatively blocks the bearer.  After a negative acknowledgement of a whole
    PDU, every grant that has room for it sends this PDU again, since the place of the next PDU to be
    sent again is not moved on; nothing of what waits in the queue is sent, however many grants there
    are, up to the 127 that the counter of retransmissions allows, until the PDU is acknowledged. *)
Theorem am_nacked_pdu_blocks alloc t0 d T s e frame c p nbs : alloc_ok alloc -> ent_ok t0 d T s e -> status_requested (am_recv e) = 0 ->
  s_sent s !! c = Some p -> s_low s <= Z.of_nat c -> 0 < zlen (concat (u_fields (sp_upd p))) -> 0 < max_retx_threshold (tx_retx (am_send e)) ->
  Forall (fun nb => zlen (enc_am_pdu false 0 (sp_upd p)) <= nb < 2 ^ 16) nbs -> zlen nbs <= 127 ->
  exists t, rlc_am_nack_pdu frame (Z.of_nat c mod 1024) 0 0x7FFF (am_send e) = Ret t /\
    forall now, exists e' tbs, grants alloc now frame nbs (set_am_send e t) = Ret (e', tbs) /\ length tbs = length nbs /\
      Forall (fun tb => block_of tb (Z.of_nat c mod 1024) (sp_upd p)) tbs /\
      tx_queue (am_send e') = tx_queue (am_send e) /\ tx_vt_s (tx_retx (am_send e')) = tx_vt_s (tx_retx (am_send e)).
Proof.
  intros Hal He Hst Hp Hc Hpay Hmax Hf Hn.
  destruct (nack_marks t0 d T s e frame c p He Hst Hp Hc Hpay Hmax) as (t & size & Et & Nt & Hs & Qt & Vt & Hsz). exists t. split; [done|]. intros now.
  destruct (grants_nacked alloc now frame nbs (Z.of_nat c) (sp_upd p) size 0 (set_am_send e t) Hal Nt Hs) as (e' & tbs & E & _ & L & B & Q & V);
    [by rewrite Hsz|lia|lia|]. exists e', tbs. split_and!; try done; [by rewrite Q|by rewrite V].
Qed.

Definition two_events : list loop_event :=
  [LSubmit 0 11 (byte.of_Z <$> [1; 2; 3; 4; 5]); LGrant 1 0 7; LSubmit 0 12 (byte.of_Z <$> [6; 7; 8])].

Definition two_first : sent_pdu := Sent (Upd true [byte.of_Z <$> [1; 2; 3; 4; 5]] true) 0 false.

Definition two_outcome (r : cres (list loop_event * ghost * system)) : option (list sent_pdu * Z * Z) :=
  match r with
  | Ret (_, g, c) => Some (s_sent (g_spec g), s_low (g_spec g), max_retx_threshold (tx_retx (am_send (sy_a c))))
  | Trap _ => None
  end.

Lemma am_nacked_pdu_blocks_witness :
  exists rest g c t e' tbs, loop_run fresh_block no_peek 0 100 two_events (Ghost 0 no_spec (0, 0, []) []) window_start = Ret (rest, g, c) /\
    rlc_am_nack_pdu 3 0 0 0x7FFF (am_send (sy_a c)) = Ret t /\
    grants fresh_block 4 3 [100; 100; 100] (set_am_send (sy_a c) t) = Ret (e', tbs) /\ length tbs = 3%nat /\
    tx_queue (am_send e') = tx_queue (am_send (sy_a c)).
Proof.
  destruct (loop_run_ok fresh_block fresh_block_ok no_peek 0 100 ltac:(lia) ltac:(lia) ltac:(lia) two_events (Ghost 0 no_spec (0, 0, []) []) window_start)
    as (rest & g & c & E & [V1 [I1 _] _ _ _ _ _ _ _]); [by apply loop_init|].
  pose proof (f_equal two_outcome E) as E'. set (l := loop_run _ _ _ _ _ _ _) in *.
  assert (El : two_outcome l = Some ([two_first], 0, 4)) by (vm_compute; reflexivity). clearbody l. rewrite El in E'. cbn [two_outcome] in E'.
  injection E' as E1 E2 E3. destruct (am_nacked_pdu_blocks fresh_block 0 100 (g_time g) (g_spec g) (sy_a c) 3 0 two_first [100; 100; 100] fresh_block_ok V1 I1)
    as (t & Et & Hg); [by rewrite <- E1|by rewrite <- E2|vm_compute; reflexivity|rewrite <- E3; lia| |vm_compute; discriminate|].
  { assert (Hz : zlen (enc_am_pdu false 0 (sp_upd two_first)) = 7) by reflexivity. rewrite Hz. repeat constructor; lia. }
  destruct (Hg 4) as (e' & tbs & G1 & G2 & _ & G3 & _). exists rest, g, c, t, e', tbs.
  split; [exact E|]. split; [exact Et|]. split; [exact G1|]. split; [exact G2|exact G3].
Defined.

(** ** The ring of the SDUs *)

(** 128 SDUs of two bytes, each one sent at once, and the acknowledgement of the first one. *)
Definition ring_filled : cres am_entity :=
  let start := am_new blank_entity true 1 4 16 500 100 50 0 in
  e ← for_each (fun _ e =>
         e ← am_data_req 0 7 (zeros 2) e;
         '(e, _) ← grant fresh_block 1 0 4 e;
         Ret e) (zrange 0 128) start;
  rlc_am_mac_data_indication true 2 0 (over_the_air [{| tr_data := ack_report 1; tr_size := 2 |}]) e.

(** A ring of unconfirmed SDUs shuts the bearer.  When 128 SDUs are sent and not confirmed, the place of the
    oldest one is that of the next SDU; its confirmation moves the index of the SDU to be sent past that
    of the next one, and from then on every new SDU is dropped, although 127 SDUs are unconfirmed, a
    place is free and nothing waits to be sent. *)
Theorem am_ring_drops_sdus :
  exists e x, ring_filled = Ret e /\ nb_sdu (tx_queue (am_send e)) = 127 /\ sdu_buffer_occupancy (tx_queue (am_send e)) = 0 /\
    am_input_sdus (tx_queue (am_send e)) !! Z.to_nat (next_sdu_index (tx_queue (am_send e))) = Some x /\ mem_block x = false /\
    forall frame mui sdu, am_data_req frame mui sdu e = Ret e.
Proof.
  assert (H : match ring_filled with
    | Ret e => (nb_sdu (tx_queue (am_send e)) =? 127) && (sdu_buffer_occupancy (tx_queue (am_send e)) =? 0) &&
        match am_input_sdus (tx_queue (am_send e)) !! Z.to_nat (next_sdu_index (tx_queue (am_send e))) with Some x => negb (mem_block x) | None => false end &&
        (next_place (next_sdu_index (tx_queue (am_send e))) =? current_sdu_index (tx_queue (am_send e))) && (0 <=? next_sdu_index (tx_queue (am_send e)))
    | Trap _ => false end = true) by (vm_compute; reflexivity).
  destruct ring_filled as [e|]; [|discriminate H]. apply andb_prop in H as [H H5]. apply andb_prop in H as [H H4]. apply andb_prop in H as [H H3].
  apply andb_prop in H as [H1 H2]. destruct (am_input_sdus (tx_queue (am_send e)) !! _) as [x|] eqn:Ex; [|discriminate H3].
  exists e, x. apply Z.eqb_eq in H1, H2. apply negb_true_iff in H3. split_and!; try done. intros frame mui sdu. unfold am_data_req, rlc_am_data_req, aget.
  rewrite H5, Ex. cbn [mbind cres_bind]. rewrite H4. cbn [negb]. rewrite andb_false_r. cbn [mbind cres_bind]. by destruct e as [? [] ? ? ? ? ? ?].
Qed.

(** ** What a status report says *)

(** The counts that are missing behind [prev] and before the last one of [cs], and this last one. *)
Fixpoint gaps (prev : Z) (cs : list Z) : list Z :=
  match cs with
  | [] => []
  | c :: cs => zrange (prev + 1) (Z.to_nat (c - prev - 1)) ++ gaps c cs
  end.

Fixpoint last_count (prev : Z) (cs : list Z) : Z :=
  match cs with
  | [] => prev
  | c :: cs => last_count c cs
  end.

Lemma last_count_ge cs : forall prev, StronglySorted Z.lt (prev :: cs) -> prev <= last_count prev cs.
Proof.
  induction cs as [|c cs IH]; intros prev Hs; cbn [last_count]; [lia|]. apply StronglySorted_inv in Hs as [Hs Hf]. apply Forall_cons_1 in Hf as [Hc _].
  specialize (IH c Hs). lia.
Qed.

Lemma gaps_elem cs : forall prev z, StronglySorted Z.lt (prev :: cs) -> z ∈ gaps prev cs <-> prev < z < last_count prev cs /\ z ∉ cs.
Proof.
  induction cs as [|c cs IH]; intros prev z Hs; cbn [gaps last_count].
  - split; [intros Hz; inversion Hz|lia].
  - apply StronglySorted_inv in Hs as [Hs Hf]. apply Forall_cons_1 in Hf as [Hc _]. pose proof (last_count_ge cs c Hs) as Hl. specialize (IH c z Hs).
    apply StronglySorted_inv in Hs as [_ Hf2]. rewrite elem_of_app, elem_of_zrange, IH, elem_of_cons. split.
    + intros [?|[? ?]]; [|split; [lia|naive_solver lia]]. split; [lia|]. intros [-> |Hin]; [lia|]. rewrite Forall_forall in Hf2. apply list_elem_of_In in Hin. specialize (Hf2 z Hin). lia.
    + intros [H1 H2]. destruct (Z.lt_trichotomy z c) as [?|[-> |?]]; [left; lia|naive_solver|right; split; [lia|naive_solver]].
Qed.

(** A negative acknowledgement of a whole PDU. *)
Definition nack_of (c : Z) : nack_sn_t := Nack (c mod 1024) 1 0 0 0x7ff.

Lemma missing_ok n : forall fuel p bits l, (n < fuel)%nat -> (n < 1023)%nat -> 12 * Z.of_nat n < bits -> zlen l + Z.of_nat n <= 1023 ->
  missing_loop fuel ((p + 1 + Z.of_nat n) mod 1024) (p mod 1024) bits l =
  Ret (More ((p + Z.of_nat n) mod 1024), bits - 12 * Z.of_nat n, l ++ (nack_of <$> zrange (p + 1) n)).
Proof.
  induction n as [|n IH]; intros fuel p bits l Hf Hn Hb Hl; (destruct fuel as [|fuel]; [lia|]); cbn [missing_loop]; rewrite mask_mod, mod_next.
  - rewrite !Z.add_0_r, Z.eqb_refl. cbn [negb]. change (zrange (p + 1) 0) with (@nil Z). rewrite app_nil_r. do 3 f_equal. lia.
  - rewrite (proj2 (Z.eqb_neq ((p + 1) mod 1024) _)) by (intros E; apply mod_near_eq in E; lia). cbn [negb]. rewrite (proj2 (Z.ltb_lt 12 bits)) by lia.
    unfold push_nack, RLC_AM_MAX_NACK_IN_STATUS_PDU. rewrite (proj2 (Z.ltb_lt (zlen l) 1023)) by lia. cbn [mbind cres_bind].
    replace (p + 1 + Z.of_nat (S n)) with (p + 1 + 1 + Z.of_nat n) by lia. rewrite IH; [|lia|lia|lia|rewrite zlen_app; change (zlen [_]) with 1; lia].
    rewrite zrange_S, fmap_cons, <- app_assoc. replace (p + Z.of_nat (S n)) with (p + 1 + Z.of_nat n) by lia.
    by replace (bits - 12 * Z.of_nat (S n)) with (bits - 12 - 12 * Z.of_nat n) by lia.
Qed.

Lemma status_loop_ok sent cs : forall fuel prev buf bits l, (length cs < fuel)%nat -> Forall2 (holds sent) cs buf ->
  StronglySorted Z.lt (prev :: cs) -> last_count prev cs < prev + 1023 -> 12 + 12 * zlen (gaps prev cs) <= bits -> zlen l + zlen (gaps prev cs) <= 1023 ->
  status_loop fuel buf (prev mod 1024) bits l =
  Ret ((last_count prev cs + 1) mod 1024, bits - 12 * zlen (gaps prev cs), l ++ (nack_of <$> gaps prev cs)).
Proof.
  induction cs as [|c cs IH]; intros fuel prev buf bits l Hfu Hb Hs Hw Hbits Hl; (destruct fuel as [|fuel]; [cbn in Hfu; lia|]).
  { apply Forall2_nil_inv_l in Hb as ->. cbn [status_loop gaps last_count fmap list_fmap]. rewrite mask_mod, mod_next, app_nil_r. do 3 f_equal. change (zlen (@nil Z)) with 0. lia. }
  apply Forall2_cons_inv_l in Hb as (x & buf' & Hx & Hb & ->). destruct (holds_fields sent c x Hx) as (X1 & _ & X3).
  pose proof Hs as Hs0. apply StronglySorted_inv in Hs as [Hs Hf]. apply Forall_cons_1 in Hf as [Hc _]. cbn [last_count gaps] in *.
  pose proof (last_count_ge cs c Hs) as Hge. rewrite zlen_app in *. assert (Hz : zlen (zrange (prev + 1) (Z.to_nat (c - prev - 1))) = c - prev - 1) by (unfold zlen; rewrite length_zrange; lia).
  rewrite Hz in *. pose proof (zlen_nonneg (gaps c cs)). cbn [status_loop]. rewrite (proj2 (Z.ltb_ge bits 12)) by lia. cbn [skip_same]. rewrite X1.
  rewrite (proj2 (Z.eqb_neq (c mod 1024) _)) by (intros E; apply mod_near_eq in E; lia).
  pose proof (missing_ok (Z.to_nat (c - prev - 1)) 1025 prev bits l ltac:(lia) ltac:(lia) ltac:(lia) ltac:(lia)) as Hm.
  replace (prev + 1 + Z.of_nat (Z.to_nat (c - prev - 1))) with c in Hm by lia. rewrite X1, (bind_ret _ _ _ Hm). cbv beta iota. rewrite X3. cbn [Z.eqb].
  rewrite IH; [|cbn in Hfu; lia|done|done|lia|lia|rewrite zlen_app, zlen_fmap, Hz; lia]. rewrite fmap_app, <- app_assoc. do 3 f_equal. lia.
Qed.

Lemma in_window_ok R v c : vr_r v = R mod 1024 -> vr_mr v = (R + 512) mod 1024 -> R <= c < R + 512 -> rlc_am_in_rx_window v (c mod 1024) = 1.
Proof.
  intros H1 H2 Hc. unfold rlc_am_in_rx_window. rewrite sn_of_count, H1, H2, !shifted_count by lia.
  by rewrite (proj2 (Z.leb_le 0 _)), (proj2 (Z.ltb_lt (c - R) _)) by lia.
Qed.

(** C21: a status report says what is missing.  For a receiver with complete PDUs in its buffer that has
    everything before the count [R] and the PDUs [cs] behind it, and a grant with room for it, the
    report has a negative acknowledgement for each PDU from [R] on that did not arrive before the last
    one that did, in order and for no other one, and its ACK_SN is the number behind this last one.  This
    is so whatever VR(MS) is: [rlc_am_entity.h], line 117, documents VR(MS) as the highest value ACK_SN
    may indicate, but the construction of the report in [rlc_am_status_report.c] does not read it. *)
Theorem am_status_report sent R H cs r nb : am_sync sent (R, H, cs) r -> cs <> [] -> 27 + 12 * zlen (gaps (R - 1) cs) <= 8 * nb ->
  exists bits, status_report r nb = Ret ((last_count (R - 1) cs + 1) mod 1024, bits, end_nacks (nack_of <$> gaps (R - 1) cs)) /\
    bits = 8 * nb - 15 - 12 * zlen (gaps (R - 1) cs) /\
    (forall c, c ∈ gaps (R - 1) cs <-> R <= c < last_count (R - 1) cs /\ c ∉ cs) /\ last_count (R - 1) cs ∈ cs.
Proof.
  intros Hs Hne Hroom. pose proof Hs as [(W0 & W1 & W2) _ _ Er Emr _ Hbuf _]. cbn [fst snd] in *.
  assert (Hss : StronglySorted Z.lt (R - 1 :: cs)) by (constructor; [done|]; refine (Forall_impl _ _ W2); intros z; cbn; lia).
  assert (Hlast : last_count (R - 1) cs ∈ cs).
  { clear -Hne. destruct cs as [|c cs]; [done|]. cbn [last_count]. clear Hne. revert c. induction cs as [|c2 cs IH]; intros c; [by left|]. right. apply IH. }
  assert (Hlast' : R < last_count (R - 1) cs < R + 512) by (rewrite Forall_forall in W2; apply W2; by apply list_elem_of_In).
  assert (Hgap : zlen (gaps (R - 1) cs) <= 1023).
  { assert (Hg : forall l p, StronglySorted Z.lt (p :: l) -> zlen (gaps p l) <= last_count p l - p).
    { induction l as [|c l IHl]; intros p Hp; cbn [gaps last_count]; [change (zlen (@nil Z)) with 0; lia|].
      apply StronglySorted_inv in Hp as [Hp Hf]. apply Forall_cons_1 in Hf as [Hc _]. specialize (IHl c Hp). rewrite zlen_app. unfold zlen at 1. rewrite length_zrange. lia. }
    specialize (Hg cs (R - 1) Hss). lia. }
  exists (8 * nb - 15 - 12 * zlen (gaps (R - 1) cs)). split_and!; try done.
  - unfold status_report. destruct (receiver_buffer r) as [|x buf] eqn:Eb; [by apply Forall2_nil_inv_r in Hbuf|].
    destruct cs as [|c cs]; [done|]. pose proof Hbuf as Hbuf'. apply Forall2_cons_1 in Hbuf' as [Hx _]. destruct (holds_fields sent c x Hx) as (X1 & _ & _).
    pose proof (Forall_cons_1 _ _ _ W2) as [Wc _]. cbn [into_window]. rewrite X1, (in_window_ok R _ c Er Emr) by lia. cbn [Z.eqb mbind cres_bind].
    rewrite Er, mask_mod, Zminus_mod_idemp_l. rewrite Z.shiftl_mul_pow2 by lia. change (2 ^ 3) with 8.
    rewrite (status_loop_ok sent (c :: cs) _ (R - 1)); [cbn [mbind cres_bind app]; do 3 f_equal; lia| |done|done|lia|lia|change (zlen (@nil nack_sn_t)) with 0; lia].
    pose proof (Forall2_length Hbuf). cbn [length] in *. lia.
  - intros c. rewrite (gaps_elem cs (R - 1) c Hss). split; intros [? ?]; (split; [lia|done]).
Qed.

(** A receiver of the three PDUs of the example that has only the last one. *)
Lemma am_status_report_witness :
  exists r, for_each (am_handle am_three) [Arrive 10 2 false] (am_rx_configure false 50 am_rx_init) = Ret r /\
    status_report r 10 = Ret (3, 41, [Nack 0 1 0 0 0x7ff; Nack 1 0 0 0 0x7ff]).
Proof.
  destruct (receive_sync am_three am_three_stream 10 0 0 [] 2 false (Upd false [[byte.of_Z 6]] true) _ (init_sync am_three 50)) as (r & E & S); [lia|lia|reflexivity|reflexivity|].
  exists r. split; [cbn [for_each am_handle]; change (am_three !! Z.to_nat 2) with (Some (Upd false [[byte.of_Z 6]] true)); cbv zeta beta iota; rewrite E; reflexivity|].
  change (am_arrive (0, 0, []) 2) with (0, 3, [2]) in S.
  destruct (am_status_report am_three 0 3 [2] r 10 S) as (bits & Es & -> & _); [discriminate|vm_compute; discriminate|]. exact Es.
Defined.

(** C38: a gap in the last PDU is not reported.  When the receiver waits for the rest of the PDU VR(R), of which
    it has the first segment and nothing behind it, its report has no negative acknowledgement and the
    number before VR(R) as ACK_SN: the sender, whose VT(A) is VR(R), takes it for out of its window,
    and does not learn which bytes are missing. *)
Theorem am_last_gap_not_reported r x nb t frame : receiver_buffer r = [x] -> sn_of x = vr_r (am_vr r) -> so_of x = 0 -> pi_lsf (pdu_info x) = 0 ->
  all_segments_received x = 0 -> 0 <= vr_r (am_vr r) < 1024 -> rlc_am_in_rx_window (am_vr r) (vr_r (am_vr r)) = 1 -> 4 <= nb ->
  tx_vt_a (tx_retx t) = vr_r (am_vr r) -> tx_vt_ms (tx_retx t) = (vr_r (am_vr r) + 512) mod 1024 ->
  exists ack bits, status_report r nb = Ret (ack, bits, []) /\ ack = (vr_r (am_vr r) - 1) mod 1024 /\
    forall i, ack_sn i = ack -> num_nack i = 0 -> process_report frame i t = Ret t.
Proof.
  intros Hb Hsn Hso Hlsf Hall HR Hw Hnb Ha Hms. set (R := vr_r (am_vr r)) in *. exists ((R - 1) mod 1024), (8 * nb - 15). split_and!; [|done|].
  - unfold status_report. rewrite Hb. fold R. cbn [into_window]. rewrite Hsn, Hw. cbn [Z.eqb mbind cres_bind length status_loop].
    rewrite Z.shiftl_mul_pow2 by lia. change (2 ^ 3) with 8. rewrite (proj2 (Z.ltb_ge (nb * 8 - 15) 12)) by lia. cbn [skip_same]. rewrite Hsn, mask_mod.
    replace R with (R mod 1024) at 1 by (apply Z.mod_small; lia). rewrite (proj2 (Z.eqb_neq (R mod 1024) _)) by (intros E; apply mod_near_eq in E; lia).
    assert (Hm : missing_loop 1025 R ((R - 1) mod 1024) (nb * 8 - 15) [] = Ret (More ((R - 1) mod 1024), nb * 8 - 15, [])).
    { pose proof (missing_ok 0 1025 (R - 1) (nb * 8 - 15) [] ltac:(lia) ltac:(lia) ltac:(lia) ltac:(unfold zlen; cbn; lia)) as Hm.
      rewrite !Z.add_0_r, Z.sub_add, (Z.mod_small R 1024) in Hm by lia. rewrite Hm. change (zrange R 0) with (@nil Z). cbn [fmap list_fmap app]. do 3 f_equal. lia. }
    rewrite Hsn, (bind_ret _ _ _ Hm). cbv beta iota. rewrite Hall. cbn [Z.eqb segments_loop]. rewrite Hso, Hlsf. cbn [Z.ltb Z.compare Z.eqb mbind cres_bind end_nacks].
    do 3 f_equal. lia.
  - intros i Hi Hn. unfold process_report. rewrite Hi, Hn. pose proof (Z.mod_pos_bound (R - 1) 1024 ltac:(lia)). unfold RLC_AM_SN_MODULO, c_assert.
    rewrite (proj2 (Z.ltb_lt _ 1024)) by lia. cbn [mbind cres_bind]. change (0 <? RLC_AM_MAX_NACK_IN_STATUS_PDU) with true. cbn [mbind cres_bind].
    assert (Hout : rlc_am_in_tx_window (tx_vars (tx_retx t)) ((R - 1) mod 1024) = 0); [|by rewrite Hout].
    assert (Hs1 : shifted ((R - 1) mod 1024) R = 1023).
    { rewrite <- (Z_mod_plus_full (R - 1) 1 1024). pose proof (shifted_count (R - 1 + 1 * 1024) R ltac:(lia)) as Hs. rewrite (Z.mod_small R) in Hs by lia. lia. }
    assert (Hs2 : shifted ((R + 512) mod 1024) R = 512) by (pose proof (shifted_count (R + 512) R ltac:(lia)) as Hs; rewrite (Z.mod_small R) in Hs by lia; lia).
    unfold rlc_am_in_tx_window, tx_vars. cbn [vt_a vt_ms]. by rewrite sn_of_count, Ha, Hms, Hs1, Hs2.
Qed.

(** The first segment of the PDU 0 arrived. *)
Definition first_segment_only : cres am_rx :=
  rlc_am_receive_process_data_pdu true 10 (byte.of_Z <$> [0xC8; 0; 0; 0; 1; 2]) 6 (am_rx_configure false 50 am_rx_init).

Lemma am_last_gap_not_reported_witness :
  exists r i, first_segment_only = Ret r /\ status_report r 10 = Ret (1023, 65, []) /\ ack_sn i = 1023 /\
    process_report 0 i am_tx_init = Ret am_tx_init.
Proof.
  assert (E : exists x r, first_segment_only = Ret r /\ receiver_buffer r = [x] /\ sn_of x = 0 /\ so_of x = 0 /\ pi_lsf (pdu_info x) = 0 /\
    all_segments_received x = 0 /\ vr_r (am_vr r) = 0 /\ rlc_am_in_rx_window (am_vr r) 0 = 1).
  { do 2 eexists. split; [vm_compute; reflexivity|]. repeat (split; [vm_compute; reflexivity|]). vm_compute; reflexivity. }
  destruct E as (x & r & E & E1 & E2 & E3 & E4 & E5 & E6 & E7).
  destruct (am_last_gap_not_reported r x 10 am_tx_init 0 E1) as (ack & bits & Es & Ea & Hi); rewrite ?E6; try assumption; try lia; try reflexivity.
  rewrite E6 in Ea. change ((0 - 1) mod 1024) with 1023 in Ea. subst ack.
  exists r, (report_info 1023 []). split; [exact E|]. split; [|split; [reflexivity|apply Hi; reflexivity]].
  rewrite Es. assert (Hb : match first_segment_only with Ret r => match status_report r 10 with Ret (_, b, _) => b | _ => 0 end | _ => 0 end = 65) by (vm_compute; reflexivity).
  rewrite E, Es in Hb. by rewrite Hb.
Defined.
