(* ===== verification/RlcUmDar.v ===== *)
(** RLC unacknowledged mode, reception with losses and reordering ([rlc_um_dar.c]).

    The sender numbers its PDUs by counts 0, 1, 2, ... and sends them with the numbers modulo 32 or
    1024.  The receiver gets some of them, in any order that stays inside of its window, with
    repetitions, and its timer runs in between.  [spec_slot] is what the receiver does with the
    PDUs by increasing count, each one received or given up; the state variables, the windows, the
    reception buffer and the timer of the code are related to the counts by [rcv].  Nothing new of
    the code is defined here: the functions are those of [RlcUm]. *)
From stdpp Require Import base list numbers sets.
From coqutil Require Import Byte.
From Stdlib Require Import ZArith Lia.
From S2P Require Import Prelude RlcPrims RlcUm.
Open Scope Z_scope.

(** ** Specification *)

(** The bytes of the SDU that is being rebuilt; [None] when its start is missing. *)
Abbreviation pending := (option (list byte)).

(** One count: the SDUs completed and the bytes that wait.  [None] is a PDU that is given up. *)
Definition spec_slot (p : pending) (s : option upd) : list (list byte) * pending :=
  match s with
  | None => ([], None)
  | Some x =>
      match (if u_first x then Some [] else p) with
      | Some q => let '(d, q) := spec_fields q (u_fields x) (u_last x) in (d, Some q)
      | None =>
          match u_fields x with
          | _ :: ((_ :: _) as fs) => let '(d, q) := spec_fields [] fs (u_last x) in (d, Some q)
          | _ => ([], if u_last x then Some [] else None)
          end
      end
  end.

Fixpoint spec_slots (p : pending) (ss : list (option upd)) : list (list byte) * pending :=
  match ss with
  | [] => ([], p)
  | s :: ss => let '(d, p) := spec_slot p s in let '(d', p) := spec_slots p ss in (d ++ d', p)
  end.

Lemma spec_slots_app p ss ts :
  spec_slots p (ss ++ ts) =
  let '(d, p) := spec_slots p ss in let '(d', p) := spec_slots p ts in (d ++ d', p).
Proof.
  revert p. induction ss as [|s ss IH]; intros p; cbn [app spec_slots].
  - by destruct (spec_slots p ts).
  - destruct (spec_slot p s) as [d1 p1]. rewrite IH. destruct (spec_slots p1 ss) as [d2 p2].
    destruct (spec_slots p2 ts) as [d3 p3]. by rewrite app_assoc.
Qed.

(** The slots of a stream of PDUs are its PDUs or losses. *)
Definition slots_of (xs : list upd) (ss : list (option upd)) : Prop :=
  Forall2 (fun x s => s = None \/ s = Some x) xs ss.

(** Whatever is lost, what is delivered was sent, in order and once; and the bytes that wait are
    the bytes that wait at the sender. *)
Lemma slot_safe q x s p : p = None \/ p = Some q -> s = None \/ s = Some x -> u_fields x <> [] ->
  (spec_slot p s).1 `sublist_of` (spec_pdu q x).1 /\
  ((spec_slot p s).2 = None \/ (spec_slot p s).2 = Some (spec_pdu q x).2).
Proof.
  intros Hp Hs Hx. destruct Hs as [-> | ->]; [split; [apply sublist_nil_l|by left]|].
  unfold spec_slot, spec_pdu. destruct (u_first x).
  { destruct (spec_fields [] (u_fields x) (u_last x)) as [d p']. split; [done|by right]. }
  destruct Hp as [-> | ->].
  2:{ destruct (spec_fields q (u_fields x) (u_last x)) as [d p']. split; [done|by right]. }
  destruct (u_fields x) as [|f [|g fs]]; [done| |].
  - cbn. destruct (u_last x); cbn; (split; [apply sublist_nil_l|auto]).
  - change (spec_fields q (f :: g :: fs) (u_last x))
      with (let '(d, p') := spec_fields [] (g :: fs) (u_last x) in ((q ++ f) :: d, p')).
    destruct (spec_fields [] (g :: fs) (u_last x)) as [d p']. cbn [fst snd]. split; [by apply sublist_cons, PreOrder_Reflexive|by right].
Qed.

Lemma slots_safe xs : forall ss q p, slots_of xs ss -> Forall (fun x => u_fields x <> []) xs ->
  p = None \/ p = Some q ->
  (spec_slots p ss).1 `sublist_of` (spec_pdus q xs).1 /\
  ((spec_slots p ss).2 = None \/ (spec_slots p ss).2 = Some (spec_pdus q xs).2).
Proof.
  induction xs as [|x xs IH]; intros ss q p Hs Hx Hp.
  { apply Forall2_nil_inv_l in Hs as ->. cbn. destruct Hp as [-> | ->]; (split; [done|auto]). }
  apply Forall2_cons_inv_l in Hs as (s & ss' & Hs & Hss & ->). apply Forall_cons_1 in Hx as [Hx Hxs].
  destruct (slot_safe q x s p Hp Hs Hx) as [H1 H2]. cbn [spec_slots spec_pdus].
  destruct (spec_slot p s) as [d1 p1]. destruct (spec_pdu q x) as [d2 q2]. cbn [fst snd] in *.
  destruct (IH ss' q2 p1 Hss Hxs H2) as [H3 H4].
  destruct (spec_slots p1 ss') as [d3 p3]. destruct (spec_pdus q2 xs) as [d4 q4]. cbn [fst snd] in *.
  split; [by apply sublist_app|done].
Qed.

(** Without losses everything is delivered. *)
Lemma slots_complete xs : forall p, spec_slots (Some p) (Some <$> xs) =
  ((spec_pdus p xs).1, Some (spec_pdus p xs).2).
Proof.
  induction xs as [|x xs IH]; intros p; [done|]. cbn [fmap list_fmap spec_slots spec_pdus].
  unfold spec_slot, spec_pdu. destruct (u_first x).
  - destruct (spec_fields [] (u_fields x) (u_last x)) as [d q]. rewrite IH. by destruct (spec_pdus q xs).
  - destruct (spec_fields p (u_fields x) (u_last x)) as [d q]. rewrite IH. by destruct (spec_pdus q xs).
Qed.

(** ** Reassembly of one slot *)

(** The SDUs of a state of the receiver: [p] is rebuilt and [out] has been delivered; [c] is the
    next number to reassemble. *)
Record sdus_ok (r : um_rx) (c : Z) (p : pending) (out : list (list byte)) : Prop := {
  so_rep : sdu_rep (is_data_plane r) (output r) (default [] p) out;
  so_missing : reassembly_missing_sn_detected r = match p with None => 1 | Some _ => 0 end;
  so_last : p <> None -> c_rem (last_reassemblied_sn r + 1) (rx_sn_modulo r) = c mod rx_sn_modulo r;
}.

(** The SDUs fit the block they are rebuilt in. *)
Definition fits (dp : bool) (d : list (list byte)) (p : pending) : Prop :=
  Forall (fun d => zlen d <= sdu_max dp) d /\ zlen (default [] p) <= sdu_max dp.

(** A PDU that is not the start of an SDU, when the start is missing. *)
Lemma fields_missing dp pdu last g fs f data_p o out d p' :
  sdu_rep dp o [] out -> 0 <= data_p ->
  bget pdu data_p (zlen (concat ((g :: fs) ++ [f]))) = Ret (concat ((g :: fs) ++ [f])) ->
  Forall (fun g : list byte => g <> []) ((g :: fs) ++ [f]) ->
  spec_fields [] (fs ++ [f]) last = (d, p') ->
  Forall (fun d => zlen d <= sdu_max dp) d -> zlen p' <= sdu_max dp ->
  exists o', reassemble_fields true dp pdu (fi_of false last) data_p (zlen f) (zlen <$> g :: fs) 1 o =
      Ret (0, o') /\ sdu_rep dp o' p' (out ++ d).
Proof.
  intros Ho Hp Hb Hne Hspec Hd Hp'. cbn [app concat] in Hb. apply bget_split in Hb as [_ Hb]; [|done].
  apply Forall_cons_1 in Hne as [_ Hne]. pose proof (zlen_nonneg g).
  destruct (fields_tail dp pdu false last fs f (data_p + zlen g) o [] out d p' Ho ltac:(lia) Hb Hne Hspec Hd Hp')
    as (o' & E & R). exists o'. split; [|done]. rewrite <- E. unfold reassemble_fields.
  by destruct last.
Qed.

Lemma reassemble_slot r c x p out d p' :
  um_cfg r -> upd_wf x -> length (dar_buffer r) = 1024%nat -> sdus_ok r c p out ->
  spec_slot p (Some x) = (d, p') -> fits (is_data_plane r) d p' ->
  let sn := c mod rx_sn_modulo r in
  exists missing o', reassemble_pdu true sn (enc_pdu (rx_sn_length r) sn x) r =
      Ret (set_dar (set_output (set_last r sn (last_reassemblied_missing_sn r) missing) o')
             (<[Z.to_nat sn := None]> (dar_buffer r))) /\
    sdu_rep (is_data_plane r) o' (default [] p') (out ++ d) /\ missing = match p' with None => 1 | Some _ => 0 end.
Proof.
  intros Hc Hx Hdar [Ho Hm Hl] Hspec [Hd Hp'] sn. destruct (cfg_bounds r Hc) as [_ Hmod].
  assert (Hsn : 0 <= sn < rx_sn_modulo r) by (apply Z.mod_pos_bound; lia).
  destruct (exists_last (uw_some _ Hx)) as (fs & f & Ef).
  destruct (reassemble_pdu_enc r sn x fs f Hc Hsn Hx Ef Hdar) as (data_p & Hdp & Hb & E). rewrite E. clear E.
  pose proof (uw_nonempty _ Hx) as Hne. unfold spec_slot in Hspec. rewrite Ef in Hspec, Hne.
  set (o := if _ =? sn then _ else _).
  assert (Ho' : sdu_rep (is_data_plane r) o (default [] p) out).
  { unfold o. destruct p as [q|]; [by rewrite Hl, Z.eqb_refl|]. destruct (_ =? sn); [exact Ho|by eapply clear_rep]. }
  destruct (if u_first x then Some [] else p) as [q|] eqn:Eq.
  - assert (Hq : (if u_first x then [] else default [] p) = q) by (destruct (u_first x), p; by simplify_eq).
    destruct (spec_fields q (fs ++ [f]) (u_last x)) as [d0 q0] eqn:Es. injection Hspec as <- <-. cbn [default] in *.
    rewrite <- Hq in Es. exists 0.
    destruct fs as [|g fs]; cbn [app concat] in *.
    + rewrite app_nil_r in Hb. apply Forall_cons_1 in Hne as [Hf _].
      destruct (single_rep _ _ _ _ _ _ _ _ _ _ _ Ho' Hdp Hb Hf Es Hd Hp') as (o' & E' & R).
      exists o'. assert (Em : reassemble_single true (is_data_plane r) (enc_pdu (rx_sn_length r) sn x)
        (fi_of (u_first x) (u_last x)) data_p (zlen f) (reassembly_missing_sn_detected r) o = Ret (0, o')).
      { rewrite <- E'. rewrite Hm. destruct p; [done|]. destruct (u_first x); [|done]. by destruct (u_last x). }
      rewrite Em. by split.
    + destruct (fields_rep _ _ _ _ (g :: fs) _ _ _ _ _ _ _ Ho' Hdp Hb Hne Es Hd Hp') as (o' & E' & R).
      exists o'. assert (Em : reassemble_fields true (is_data_plane r) (enc_pdu (rx_sn_length r) sn x)
        (fi_of (u_first x) (u_last x)) data_p (zlen f) (zlen <$> g :: fs) (reassembly_missing_sn_detected r) o = Ret (0, o')).
      { rewrite <- E'. rewrite Hm. destruct p; [done|]. destruct (u_first x); [|done]. by destruct (u_last x). }
      rewrite Em. by split.
  - destruct (u_first x) eqn:Ef1; [done|]. subst p. rewrite Hm. destruct fs as [|g fs]; cbn [app] in Hspec.
    + injection Hspec as <- <-. rewrite app_nil_r.
      exists (if u_last x then 0 else 1), o. destruct (u_last x); by split.
    + assert (Hs : (let '(d, q) := spec_fields [] (fs ++ [f]) (u_last x) in (d, Some q)) = (d, p'))
        by (destruct fs; exact Hspec).
      destruct (spec_fields [] (fs ++ [f]) (u_last x)) as [d0 q0] eqn:Es. injection Hs as <- <-.
      destruct (fields_missing _ _ _ _ _ _ _ _ _ _ _ Ho' Hdp Hb Hne Es Hd Hp') as (o' & E' & R).
      exists 0, o'. rewrite E'. by split.
Qed.

(** ** Reassembly of a range of slots *)

(** The buffer holds, from the count [a] on, the PDUs [slot c]. *)
Definition dar_holds (r : um_rx) (a : Z) (slot : Z -> option upd) : Prop :=
  length (dar_buffer r) = 1024%nat /\
  forall c, a <= c < a + rx_sn_modulo r ->
    dar_buffer r !! Z.to_nat (c mod rx_sn_modulo r) =
    Some (enc_pdu (rx_sn_length r) (c mod rx_sn_modulo r) <$> slot c).

(** The SDUs of every prefix fit. *)
Definition prefixes_fit (dp : bool) (p : pending) (ss : list (option upd)) : Prop :=
  forall k, fits dp (spec_slots p (take k ss)).1 (spec_slots p (take k ss)).2.

Lemma prefixes_fit_cons dp p s ss : prefixes_fit dp p (s :: ss) ->
  fits dp (spec_slot p s).1 (spec_slot p s).2 /\ prefixes_fit dp (spec_slot p s).2 ss.
Proof.
  intros H. split.
  - specialize (H 1%nat). rewrite firstn_cons, firstn_O in H. cbn [spec_slots] in H.
    destruct (spec_slot p s) as [d q]. cbn [fst snd] in *. by rewrite app_nil_r in H.
  - intros k. specialize (H (S k)). rewrite firstn_cons in H. cbn [spec_slots] in H.
    destruct (spec_slot p s) as [d q]. cbn [fst snd] in *. destruct (spec_slots q (take k ss)) as [d' q'].
    destruct H as [H1 H2]. split; [by apply Forall_app in H1 as [_ H1]|done].
Qed.

Lemma mod_near m a b : 0 < b - a < m -> a mod m <> b mod m.
Proof.
  intros H E. apply (f_equal (fun z => (b - z) mod m)) in E. rewrite !Zminus_mod_idemp_r, Z.sub_diag in E.
  rewrite Z.mod_0_l, Z.mod_small in E by lia. lia.
Qed.

(** The places of two counts of a range in the buffer. *)
Lemma place_ne m a b : 0 < m -> 0 < b - a < m -> Z.to_nat (a mod m) <> Z.to_nat (b mod m).
Proof.
  intros Hm H. pose proof (mod_near m a b H). pose proof (Z.mod_pos_bound a m Hm). pose proof (Z.mod_pos_bound b m Hm). lia.
Qed.

(** What the reassembly of one slot leaves: nothing but the SDU, the last number and the buffer
    changes. *)
Definition reassembled (r r' : um_rx) : Prop :=
  exists a b c o dar, r' = set_dar (set_output (set_last r a b c) o) dar.

Lemma reassembled_trans r1 r2 r3 : reassembled r1 r2 -> reassembled r2 r3 -> reassembled r1 r3.
Proof.
  intros (a & b & c & o & d & ->) (a' & b' & c' & o' & d' & ->). by exists a', b', c', o', d'.
Qed.

Lemma slot_step r c p out slot :
  um_cfg r -> dar_holds r c slot -> sdus_ok r c p out -> (forall x, slot c = Some x -> upd_wf x) ->
  fits (is_data_plane r) (spec_slot p (slot c)).1 (spec_slot p (slot c)).2 ->
  exists r', (pdu ← aget (dar_buffer r) (c mod rx_sn_modulo r);
      match pdu with
      | Some pdu => reassemble_pdu true (c mod rx_sn_modulo r) pdu r
      | None => Ret (set_output (set_last r (last_reassemblied_sn r) (c mod rx_sn_modulo r) 1)
                       (rlc_um_clear_rx_sdu (output r)))
      end) = Ret r' /\ reassembled r r' /\
    dar_holds r' (c + 1) (fun c' => if c' <=? c then None else if c' =? c + rx_sn_modulo r then None else slot c') /\
    sdus_ok r' (c + 1) (spec_slot p (slot c)).2 (out ++ (spec_slot p (slot c)).1).
Proof.
  intros Hc [Hlen Hdar] Hs Hwf Hfit. destruct (cfg_bounds r Hc) as [_ Hm].
  pose proof (Z.mod_pos_bound c (rx_sn_modulo r) ltac:(lia)) as Hsn.
  pose proof (Hdar c ltac:(lia)) as Hslot. rewrite (aget_ok _ _ _ (proj1 Hsn) Hslot). cbn [mbind cres_bind].
  assert (Hshift : forall dar, length dar = 1024%nat ->
    dar !! Z.to_nat (c mod rx_sn_modulo r) = Some None ->
    (forall k, k <> Z.to_nat (c mod rx_sn_modulo r) -> dar !! k = dar_buffer r !! k) ->
    length dar = 1024%nat /\ forall c', c + 1 <= c' < c + 1 + rx_sn_modulo r ->
      dar !! Z.to_nat (c' mod rx_sn_modulo r) = Some (enc_pdu (rx_sn_length r) (c' mod rx_sn_modulo r) <$>
        (if c' <=? c then None else if c' =? c + rx_sn_modulo r then None else slot c'))).
  { intros dar H1 H2 H3. split; [done|]. intros c' Hc'. rewrite (proj2 (Z.leb_gt _ _)) by lia.
    destruct (Z.eqb_spec c' (c + rx_sn_modulo r)) as [->|Hne].
    - rewrite <- (Z.mul_1_l (rx_sn_modulo r)) at 1. rewrite Z.mod_add by lia. done.
    - rewrite H3 by (apply not_eq_sym, place_ne; lia). apply Hdar. lia. }
  destruct (slot c) as [x|] eqn:Ex; cbn [fmap option_fmap option_map].
  - destruct (spec_slot p (Some x)) as [d p'] eqn:Es.
    destruct (reassemble_slot r c x p out d p' Hc (Hwf x eq_refl) Hlen Hs Es Hfit) as (missing & o' & E & R & M).
    eexists. split; [exact E|]. split; [by eexists _, _, _, _, _|]. split.
    + apply (Hshift (<[Z.to_nat (c mod rx_sn_modulo r) := None]> (dar_buffer r))); [by rewrite length_insert|apply list_lookup_insert_eq; lia|].
      intros k Hk. by apply list_lookup_insert_ne.
    + constructor; [exact R|exact M|]. intros _. exact (next_sn r c (proj1 Hm)).
  - eexists. split; [reflexivity|]. split; [by exists (last_reassemblied_sn r), (c mod rx_sn_modulo r), 1, (rlc_um_clear_rx_sdu (output r)), (dar_buffer r)|]. split.
    + by apply Hshift.
    + constructor; [|done|done]. cbn. rewrite app_nil_r. eapply clear_rep, Hs.
Qed.

Lemma loop_ok n : forall r a p out slot fuel,
  (0 < n <= fuel)%nat -> Z.of_nat n <= rx_sn_modulo r -> um_cfg r -> dar_holds r a slot -> sdus_ok r a p out ->
  (forall c x, slot c = Some x -> upd_wf x) ->
  (forall c, a < c < a + Z.of_nat n -> c mod rx_sn_modulo r <> vr_uh r) ->
  prefixes_fit (is_data_plane r) p (slot <$> zrange a n) ->
  exists r', reassembly_loop true fuel (a mod rx_sn_modulo r) ((a + Z.of_nat n) mod rx_sn_modulo r) r = Ret r' /\
    reassembled r r' /\
    dar_holds r' (a + Z.of_nat n)
      (fun c => if (c <? a + Z.of_nat n) || (a + rx_sn_modulo r <=? c) then None else slot c) /\
    sdus_ok r' (a + Z.of_nat n) (spec_slots p (slot <$> zrange a n)).2 (out ++ (spec_slots p (slot <$> zrange a n)).1).
Proof.
  induction n as [|n IH]; intros r a p out slot fuel Hn Hle Hc Hd Hs Hwf Huh Hfit; [lia|].
  destruct (cfg_bounds r Hc) as [_ Hm]. destruct fuel as [|fuel]; [lia|]. cbn [reassembly_loop].
  rewrite zrange_S in Hfit |- *. cbn [fmap list_fmap] in Hfit |- *. apply prefixes_fit_cons in Hfit as [Hf1 Hf2].
  destruct (slot_step r a p out slot Hc Hd Hs (Hwf a) Hf1) as (r1 & E1 & Hr1 & Hd1 & Hs1).
  pose proof Hr1 as (l1 & l2 & l3 & o1 & dar1 & Er1).
  assert (Em : rx_sn_modulo r1 = rx_sn_modulo r) by by subst r1.
  assert (Eh : vr_uh r1 = vr_uh r) by by subst r1.
  destruct (aget (dar_buffer r) (a mod rx_sn_modulo r)) as [pdu|]; [|done]. cbn [mbind cres_bind] in E1 |- *.
  rewrite E1. cbn [mbind cres_bind]. rewrite Em, Eh, next_sn by lia.
  cbn [spec_slots]. destruct (spec_slot p (slot a)) as [d1 p1]. cbn [fst snd] in *.
  assert (Hext : forall r' b, rx_sn_modulo r' = rx_sn_modulo r -> a + 1 <= b <= a + rx_sn_modulo r ->
    dar_holds r' b (fun c => if (c <? b) || (a + 1 + rx_sn_modulo r <=? c) then None
       else if c <=? a then None else if c =? a + rx_sn_modulo r then None else slot c) ->
    dar_holds r' b (fun c => if (c <? b) || (a + rx_sn_modulo r <=? c) then None else slot c)).
  { intros r' b Er' Hb [H1 H2]. split; [done|]. intros c Hcr. rewrite H2 by done. f_equal. f_equal.
    destruct (Z.ltb_spec c b); [done|]. cbn [orb]. destruct (Z.leb_spec (a + 1 + rx_sn_modulo r) c).
    - by rewrite (proj2 (Z.leb_le _ _)) by lia.
    - rewrite (proj2 (Z.leb_gt c a)) by lia. destruct (Z.eqb_spec c (a + rx_sn_modulo r)).
      + by rewrite (proj2 (Z.leb_le _ _)) by lia.
      + by rewrite (proj2 (Z.leb_gt _ _)) by lia. }
  destruct n as [|n].
  - replace (a + Z.of_nat 1) with (a + 1) in * by lia. rewrite Z.eqb_refl, orb_true_r. exists r1.
    split_and!; [done|done| |change (zrange (a + 1) 0) with (@nil Z); cbn; by rewrite app_nil_r].
    apply Hext; [done|lia|]. destruct Hd1 as [H1 H2]. split; [done|]. intros c Hcr. rewrite H2 by done.
    rewrite (proj2 (Z.ltb_ge c _)), (proj2 (Z.leb_gt _ c)) by lia. done.
  - rewrite (proj2 (Z.eqb_neq _ (vr_uh r))) by (apply Huh; lia).
    rewrite (proj2 (Z.eqb_neq ((a + 1) mod _) _)) by (apply mod_near; lia). cbn [orb].
    replace (a + Z.of_nat (S (S n))) with (a + 1 + Z.of_nat (S n)) in * by lia.
    rewrite <- Em.
    assert (Hmap : ((fun c' => if c' <=? a then None else if c' =? a + rx_sn_modulo r then None else slot c') <$>
      zrange (a + 1) (S n)) = slot <$> zrange (a + 1) (S n)).
    { apply list_fmap_ext. intros i c Hi. apply list_elem_of_lookup_2, elem_of_zrange in Hi.
      rewrite (proj2 (Z.leb_gt c a)), (proj2 (Z.eqb_neq c _)) by lia. done. }
    destruct (IH r1 (a + 1) p1 (out ++ d1)
      (fun c' => if c' <=? a then None else if c' =? a + rx_sn_modulo r then None else slot c') fuel)
      as (r2 & E2 & Hr2 & Hd2 & Hs2); try done.
    + lia.
    + lia.
    + subst r1. exact Hc.
    + intros c x. destruct (c <=? a); [done|]. destruct (c =? _); [done|apply Hwf].
    + intros c Hcr. rewrite Em, Eh. apply Huh. lia.
    + rewrite Hmap. by subst r1.
    + rewrite Hmap in Hs2. destruct (spec_slots p1 _) as [d2 p2]. cbn [fst snd] in *. rewrite <- app_assoc in Hs2.
      rewrite Em in E2, Hd2 |- *. exists r2. split_and!; [done|by eapply reassembled_trans| |done].
      apply Hext; [by destruct Hr2 as (? & ? & ? & ? & ? & ->); rewrite <- Em|lia|exact Hd2].
Qed.

(** ** The receiver and the counts *)

Section Reception.
Context (sent : Z -> upd) (dp : bool).

(** The SDUs of the stream fit the block they are rebuilt in. *)
Definition stream_ok : Prop :=
  (forall c, upd_wf (sent c)) /\
  forall n, Forall (fun d => zlen d <= sdu_max dp) (spec_pdus [] (sent <$> zrange 0 n)).1 /\
            zlen (spec_pdus [] (sent <$> zrange 0 n)).2 <= sdu_max dp.

Context (Hsent : stream_ok).

Definition slot_of (got : Z -> bool) (c : Z) : option upd := if got c then Some (sent c) else None.

(** The PDUs of the counts before [zlen hist] have been reassembled or given up; [got] are the
    PDUs in the buffer; [H] is the count of VR(UH). *)
Record core (r : um_rx) (H : Z) (got : Z -> bool) (hist : list (option upd)) : Prop := {
  co_cfg : um_cfg r;
  co_dp : is_data_plane r = dp;
  co_uh : vr_uh r = H mod rx_sn_modulo r;
  co_got : forall c, got c = true -> zlen hist <= c < H;
  co_range : zlen hist <= H <= zlen hist + rx_sn_modulo r;
  co_dar : dar_holds r (zlen hist) (slot_of got);
  co_hist : slots_of (sent <$> zrange 0 (length hist)) hist;
  co_sdus : sdus_ok r (zlen hist) (spec_slots (Some []) hist).2 (spec_slots (Some []) hist).1;
}.

(** A state between two calls. *)
Record rcv (r : um_rx) (H : Z) (got : Z -> bool) (hist : list (option upd)) : Prop := {
  rc_core : core r H got hist;
  rc_ur : vr_ur r = zlen hist mod rx_sn_modulo r;
  rc_order : H - rx_um_window_size r <= zlen hist;
  rc_timer : running (t_reordering r) <> 0 ->
    exists U, vr_ux r = U mod rx_sn_modulo r /\ zlen hist <= U <= H /\ (zlen hist < U \/ U = H);
}.

Lemma slots_wf : forall got c x, slot_of got c = Some x -> upd_wf x.
Proof. intros got c x. unfold slot_of. case_match; [|done]. intros [= <-]. apply Hsent. Qed.

(** Any slots of the stream fit. *)
Lemma slots_fit n ss : slots_of (sent <$> zrange 0 n) ss ->
  fits dp (spec_slots (Some []) ss).1 (spec_slots (Some []) ss).2.
Proof.
  intros Hs. destruct Hsent as [Hwf Hfit]. destruct (slots_safe _ ss [] (Some []) Hs) as [H1 H2]; [|by right|].
  { apply Forall_fmap, Forall_true. intros c. apply Hwf. }
  destruct (Hfit n) as [F1 F2]. split.
  - apply Forall_forall. intros d Hd. apply (proj1 (Forall_forall _ _) F1). by eapply elem_of_sublist.
  - destruct H2 as [-> | ->]; [|done]. cbn. pose proof (sdu_max_range dp). unfold zlen. cbn. lia.
Qed.

Lemma slots_extend n ss got k : slots_of (sent <$> zrange 0 n) ss ->
  slots_of (sent <$> zrange 0 (n + k)) (ss ++ (slot_of got <$> zrange (Z.of_nat n) k)).
Proof.
  intros Hs. assert (E : zrange 0 (n + k) = zrange 0 n ++ zrange (Z.of_nat n) k)
    by (unfold zrange; rewrite Nat2Z.inj_add, seqZ_app by lia; done).
  rewrite E, fmap_app. apply Forall2_app; [done|]. clear. generalize (Z.of_nat n).
  induction k as [|k IH]; intros a; [constructor|]. rewrite zrange_S. cbn.
  constructor; [|apply IH]. unfold slot_of. destruct (got a); [by right|by left].
Qed.

Lemma prefixes_ok n ss got k : slots_of (sent <$> zrange 0 n) ss ->
  prefixes_fit dp (spec_slots (Some []) ss).2 (slot_of got <$> zrange (Z.of_nat n) k).
Proof.
  intros Hs j. set (ts := take j _).
  assert (Hts : exists i, slots_of (sent <$> zrange 0 (n + i)) (ss ++ ts)).
  { exists (j `min` k)%nat. unfold ts. rewrite <- fmap_take.
    replace (take j (zrange (Z.of_nat n) k)) with (zrange (Z.of_nat n) (j `min` k)); [by apply slots_extend|].
    clear. revert j. generalize (Z.of_nat n). induction k as [|k IH]; intros a [|j]; try done.
    rewrite <- Nat.succ_min_distr, !zrange_S, firstn_cons. by rewrite IH. }
  destruct Hts as [i Hts]. apply slots_fit in Hts. rewrite spec_slots_app in Hts.
  destruct (spec_slots (Some []) ss) as [d p]. cbn [fst snd]. destruct (spec_slots p ts) as [d' p'].
  destruct Hts as [H1 H2]. split; [by apply Forall_app in H1 as [_ H1]|done].
Qed.

(** The reassembly up to the count [R]. *)
Definition upto (got : Z -> bool) (R : Z) : Z -> bool := fun c => got c && (R <=? c).
Definition gone (got : Z -> bool) (hist : list (option upd)) (R : Z) : list (option upd) :=
  hist ++ (slot_of got <$> zrange (zlen hist) (Z.to_nat (R - zlen hist))).

Lemma zlen_gone got hist R : zlen hist <= R -> zlen (gone got hist R) = R.
Proof.
  intros H. unfold gone. rewrite zlen_app. unfold zlen at 2. rewrite length_fmap, length_zrange. unfold zlen in *. lia.
Qed.

Lemma core_advance r H got hist R :
  core r H got hist -> zlen hist <= R <= H -> R - zlen hist < rx_sn_modulo r ->
  exists r', rlc_um_try_reassembly true (zlen hist mod rx_sn_modulo r) (R mod rx_sn_modulo r) r = Ret r' /\
    reassembled r r' /\ core r' H (upto got R) (gone got hist R).
Proof.
  intros [C1 C2 C3 C4 C5 C6 C7 C8] HR Hlt. destruct (cfg_bounds r C1) as [_ Hm].
  pose proof (Z.mod_pos_bound (zlen hist) (rx_sn_modulo r) ltac:(lia)).
  pose proof (Z.mod_pos_bound R (rx_sn_modulo r) ltac:(lia)).
  unfold rlc_um_try_reassembly. rewrite !(proj2 (Z.ltb_ge _ 0)) by lia.
  destruct (Z.eq_dec R (zlen hist)) as [->|Hne].
  { rewrite Z.eqb_refl. exists r. split; [done|]. split.
    { exists (last_reassemblied_sn r), (last_reassemblied_missing_sn r), (reassembly_missing_sn_detected r),
        (output r), (dar_buffer r). by destruct r. }
    assert (E : gone got hist (zlen hist) = hist) by (unfold gone; rewrite Z.sub_diag; apply app_nil_r).
    rewrite E. constructor; try done.
    - intros c [Hc _]%andb_prop. by apply C4.
    - destruct C6 as [D1 D2]. split; [done|]. intros c Hc. rewrite D2 by done. unfold slot_of, upto.
      rewrite (proj2 (Z.leb_le _ _)) by lia. by rewrite andb_true_r. }
  rewrite (proj2 (Z.eqb_neq _ _)) by (apply mod_near; lia).
  set (n := Z.to_nat (R - zlen hist)). assert (En : zlen hist + Z.of_nat n = R) by (unfold n; lia).
  destruct (loop_ok n r (zlen hist) _ _ (slot_of got) (Z.to_nat (rx_sn_modulo r)) ltac:(lia) ltac:(lia) C1 C6 C8
    (slots_wf got)) as (r' & E & Hr & Hd & Hs).
  { intros c Hc. rewrite C3. apply mod_near. lia. }
  { rewrite C2. by apply prefixes_ok. }
  rewrite En in E, Hd, Hs. exists r'. split; [done|]. split; [done|].
  pose proof Hr as (a & b & k & o & dar & Er). pose proof (zlen_gone got hist R ltac:(lia)) as Hz.
  assert (Hspec : spec_slots (Some []) (gone got hist R) =
    ((spec_slots (Some []) hist).1 ++ (spec_slots (spec_slots (Some []) hist).2 (slot_of got <$> zrange (zlen hist) n)).1,
     (spec_slots (spec_slots (Some []) hist).2 (slot_of got <$> zrange (zlen hist) n)).2)).
  { unfold gone. rewrite spec_slots_app. fold n. destruct (spec_slots (Some []) hist) as [d p]. cbn [fst snd].
    by destruct (spec_slots p _). }
  constructor; rewrite ?Hz, ?Hspec; try (by subst r').
  - intros c [Hc Hle%Z.leb_le]%andb_prop. apply C4 in Hc. lia.
  - subst r'. cbn in *. lia.
  - destruct Hd as [D1 D2]. split; [done|]. intros c Hc. rewrite D2 by done. f_equal. f_equal. unfold slot_of, upto.
    assert (Em : rx_sn_modulo r' = rx_sn_modulo r) by by subst r'. rewrite Em in Hc.
    rewrite (proj2 (Z.ltb_ge c R)), (proj2 (Z.leb_le R c)), andb_true_r by lia. cbn [orb].
    destruct (Z.leb_spec (zlen hist + rx_sn_modulo r) c); [|done].
    destruct (got c) eqn:Eg; [|done]. apply C4 in Eg. lia.
  - assert (Hl : length (gone got hist R) = (length hist + n)%nat) by (unfold zlen in *; lia).
    rewrite Hl. unfold gone. fold n. by apply slots_extend.
Qed.

(** ** The state variables *)

(** The members that the reassembly does not use. *)
Lemma core_vr r H got hist ur ux t : core r H got hist -> core (set_timer (set_vr r ur ux (vr_uh r)) t) H got hist.
Proof. intros [C1 C2 C3 C4 C5 [D1 D2] C7 [S1 S2 S3]]. by constructor. Qed.

Lemma place_range r c : um_cfg r -> 0 <= c mod rx_sn_modulo r < 1024.
Proof. intros Hc. destruct (cfg_bounds r Hc) as [_ Hm]. pose proof (Z.mod_pos_bound c (rx_sn_modulo r)). lia. Qed.

(** A slot of the buffer. *)
Lemma get_slot r H got hist c : core r H got hist -> zlen hist <= c < zlen hist + rx_sn_modulo r ->
  rlc_um_get_pdu_from_dar_buffer r (c mod rx_sn_modulo r) =
  Ret (enc_pdu (rx_sn_length r) (c mod rx_sn_modulo r) <$> slot_of got c).
Proof.
  intros [C1 _ _ _ _ [_ D2] _ _] Hc. pose proof (place_range r c C1).
  unfold rlc_um_get_pdu_from_dar_buffer. rewrite u16_small by lia. apply aget_ok; [lia|]. by apply D2.
Qed.

(** [first_missing got a b]: [b] is the first count from [a] on that has not been received. *)
Definition first_missing (got : Z -> bool) (a b : Z) : Prop :=
  a <= b /\ got b = false /\ forall c, a <= c < b -> got c = true.

Lemma skip_ok r H got hist n : forall a fuel, core r H got hist -> H < zlen hist + rx_sn_modulo r ->
  zlen hist <= a <= H -> H - a = Z.of_nat n -> (n < fuel)%nat ->
  exists b, skip_received fuel (a mod rx_sn_modulo r) r = Ret (b mod rx_sn_modulo r) /\ b <= H /\ first_missing got a b.
Proof.
  induction n as [|n IH]; intros a fuel Hc Hlt Ha Hn Hf; (destruct fuel as [|fuel]; [lia|]); cbn [skip_received];
    rewrite (get_slot r H got hist a Hc) by lia; cbn [mbind cres_bind]; unfold slot_of;
    destruct (cfg_bounds r (co_cfg _ _ _ _ Hc)) as [_ Hm]; destruct (got a) eqn:Eg; cbn [fmap option_fmap option_map].
  - pose proof (co_got _ _ _ _ Hc a Eg). lia.
  - exists a. split; [done|]. split; [lia|]. split_and!; [lia|done|lia].
  - rewrite next_sn by lia. destruct (IH (a + 1) fuel Hc Hlt ltac:(lia) ltac:(lia) ltac:(lia)) as (b & E & Hb & F1 & F2 & F3).
    exists b. split; [done|]. split; [done|]. split_and!; [lia|done|]. intros c Hcr.
    destruct (Z.eq_dec c a) as [->|]; [done|]. apply F3. lia.
  - exists a. split; [done|]. split; [lia|]. split_and!; [lia|done|lia].
Qed.

Lemma advance_ok r H got hist n : forall a fuel, core r H got hist -> H < zlen hist + rx_sn_modulo r ->
  zlen hist <= a -> H - a = Z.of_nat (S n) -> (n < fuel)%nat ->
  exists b, advance_ur fuel (a mod rx_sn_modulo r) r = Ret (b mod rx_sn_modulo r) /\ b <= H /\ first_missing got (a + 1) b.
Proof.
  induction n as [|n IH]; intros a fuel Hc Hlt Ha Hn Hf; (destruct fuel as [|fuel]; [lia|]); cbn [advance_ur];
    destruct (cfg_bounds r (co_cfg _ _ _ _ Hc)) as [_ Hm]; rewrite next_sn by lia;
    rewrite (get_slot r H got hist (a + 1) Hc) by lia; cbn [mbind cres_bind]; rewrite (co_uh _ _ _ _ Hc); unfold slot_of;
    destruct (got (a + 1)) eqn:Eg; cbn [fmap option_fmap option_map].
  - pose proof (co_got _ _ _ _ Hc _ Eg). lia.
  - exists (a + 1). split; [done|]. split; [lia|]. split_and!; [lia|done|lia].
  - rewrite (proj2 (Z.eqb_neq _ _)) by (apply mod_near; lia). cbn [negb andb].
    destruct (IH (a + 1) fuel Hc Hlt ltac:(lia) ltac:(lia) ltac:(lia)) as (b & E & Hb & F1 & F2 & F3).
    exists b. split; [done|]. split; [done|]. split_and!; [lia|done|]. intros c Hcr.
    destruct (Z.eq_dec c (a + 1)) as [->|]; [done|]. apply F3. lia.
  - exists (a + 1). split; [done|]. split; [lia|]. split_and!; [lia|done|lia].
Qed.

(** The window is half of the numbers. *)
Lemma cfg_half r : um_cfg r -> rx_sn_modulo r = 2 * rx_um_window_size r /\ 0 < rx_um_window_size r <= 512.
Proof. intros [(_ & -> & ->)|(_ & -> & ->)]; lia. Qed.

Lemma mod_shift m c : m <> 0 -> (c + m) mod m = c mod m.
Proof. intros Hm. rewrite <- (Z.mul_1_l m) at 1. by rewrite Z.mod_add. Qed.

(** A count near VR(UH), before or after the window. *)
Lemma reordering_window_any r H c : um_cfg r -> vr_uh r = H mod rx_sn_modulo r ->
  H - rx_sn_modulo r <= c < H + rx_um_window_size r ->
  rlc_um_in_reordering_window r (c mod rx_sn_modulo r) =
  if (H - rx_um_window_size r <=? c) && (c <? H) then 0 else -1.
Proof.
  intros Hc Hh Hr. destruct (cfg_half r Hc) as [Hm Hw]. destruct (Z.leb_spec (H - rx_um_window_size r) c); cbn [andb].
  - apply reordering_window_count; [done|done|lia].
  - rewrite <- mod_shift by lia. rewrite (reordering_window_count r H) by (done || lia).
    by rewrite (proj2 (Z.ltb_ge _ _)) by lia.
Qed.

(** The place of a count between two counts of the window. *)
Lemma in_window_count r H a c b : um_cfg r -> vr_uh r = H mod rx_sn_modulo r ->
  H - rx_um_window_size r <= a <= H -> H - rx_um_window_size r <= c <= H -> H - rx_um_window_size r <= b <= H ->
  rlc_um_in_window r (a mod rx_sn_modulo r) (c mod rx_sn_modulo r) (b mod rx_sn_modulo r) =
  if c <? a then -2 else if b <? c then -1
  else if a =? c then (if b =? c then 3 else 1) else if b =? c then 2 else 0.
Proof.
  intros Hc Hh Ha Hcc Hb. destruct (cfg_half r Hc) as [Hm Hw]. unfold rlc_um_in_window.
  destruct (window_shift r H a Hc Hh ltac:(lia)) as [_ Ea]. destruct (window_shift r H c Hc Hh ltac:(lia)) as [_ Ec].
  destruct (window_shift r H b Hc Hh ltac:(lia)) as [_ Eb]. rewrite Ea, Ec, Eb by lia.
  assert (E1 : (c - (H - rx_um_window_size r) <? a - (H - rx_um_window_size r)) = (c <? a))
    by (destruct (Z.ltb_spec c a); [apply Z.ltb_lt|apply Z.ltb_ge]; lia).
  assert (E2 : (b - (H - rx_um_window_size r) <? c - (H - rx_um_window_size r)) = (b <? c))
    by (destruct (Z.ltb_spec b c); [apply Z.ltb_lt|apply Z.ltb_ge]; lia).
  assert (E3 : (a - (H - rx_um_window_size r) =? c - (H - rx_um_window_size r)) = (a =? c))
    by (destruct (Z.eqb_spec a c); [apply Z.eqb_eq|apply Z.eqb_neq]; lia).
  assert (E4 : (b - (H - rx_um_window_size r) =? c - (H - rx_um_window_size r)) = (b =? c))
    by (destruct (Z.eqb_spec b c); [apply Z.eqb_eq|apply Z.eqb_neq]; lia).
  by rewrite E1, E2, E3, E4.
Qed.

(** A number at or after VR(UR) is not old. *)
Lemma new_number_in_window r H R c : um_cfg r -> vr_uh r = H mod rx_sn_modulo r -> vr_ur r = R mod rx_sn_modulo r ->
  H - rx_um_window_size r <= R <= H -> R <= c < H + rx_um_window_size r ->
  let w := rlc_um_in_window r (i16 (vr_uh r - rx_um_window_size r)) (c mod rx_sn_modulo r) (vr_ur r) in
  (w =? 1) || (w =? 0) = false.
Proof.
  intros Hc Hh Hu HR Hr. destruct (cfg_half r Hc) as [Hm Hw]. cbv zeta.
  destruct (Z.eq_dec c R) as [->|Hne].
  { rewrite (old_number_in_window r H R R) by (done || lia). rewrite Z.eqb_refl.
    by destruct (R =? H - rx_um_window_size r). }
  destruct (window_shift r H c Hc Hh) as [Hs _]; [lia|]. destruct (window_shift r H R Hc Hh) as [_ HsR]; [lia|].
  unfold rlc_um_in_window. rewrite Hu, (HsR ltac:(lia)), Z.sub_diag.
  change (c_rem 0 (rx_sn_modulo r)) with (Z.rem 0 (rx_sn_modulo r)). rewrite Z.rem_0_l by lia. change (i16 0) with 0.
  set (s := i16 (c_rem (c mod _ - _) _)) in *.
  destruct (Z.ltb_spec s 0); [done|]. by rewrite (proj2 (Z.ltb_lt _ s)) by lia.
Qed.

(** VR(UH) - UM_Window_Size, made positive. *)
Lemma window_start r H : um_cfg r -> vr_uh r = H mod rx_sn_modulo r ->
  (if vr_uh r - rx_um_window_size r <? 0 then vr_uh r - rx_um_window_size r + rx_sn_modulo r
   else vr_uh r - rx_um_window_size r) = (H - rx_um_window_size r) mod rx_sn_modulo r.
Proof.
  intros Hc ->. destruct Hc as [(_ & E & Ew)|(_ & E & Ew)]; rewrite E, Ew;
    [pose proof (Z.mod_pos_bound H 1024 ltac:(lia))|pose proof (Z.mod_pos_bound H 32 ltac:(lia))];
    match goal with |- context [?a <? 0] => destruct (Z.ltb_spec a 0) end; Z.div_mod_to_equations; lia.
Qed.

(** ** The timer *)

(** What the timer relies on before it is updated. *)
Definition timer_weak (r : um_rx) (H : Z) : Prop :=
  running (t_reordering r) <> 0 -> exists U, vr_ux r = U mod rx_sn_modulo r /\ H - rx_sn_modulo r < U <= H.

Lemma gap_in_window r H R : um_cfg r -> vr_uh r = H mod rx_sn_modulo r -> vr_ur r = R mod rx_sn_modulo r ->
  H - rx_um_window_size r <= R <= H ->
  (rlc_um_in_window r (vr_ur r) (vr_uh r) (vr_uh r) =? 2) = (R <? H).
Proof.
  intros Hc Hh Hu HR. destruct (cfg_half r Hc) as [_ Hw]. rewrite Hu, Hh. rewrite (in_window_count r H) by (done || lia).
  rewrite (proj2 (Z.ltb_ge H R)), Z.ltb_irrefl, Z.eqb_refl by lia.
  destruct (Z.eqb_spec R H); [subst; by rewrite Z.ltb_irrefl|by rewrite (proj2 (Z.ltb_lt R H)) by lia].
Qed.

Lemma restart_ok now r H got hist : core r H got hist -> vr_ur r = zlen hist mod rx_sn_modulo r ->
  H - rx_um_window_size r <= zlen hist < H -> rcv (restart_if_gap now r) H got hist.
Proof.
  intros Hc Hu HR. pose proof (co_range _ _ _ _ Hc). constructor.
  - apply (core_vr r H got hist (vr_ur r) (vr_uh r) (rlc_um_start_timer_reordering now (t_reordering r)) Hc).
  - exact Hu.
  - cbn. lia.
  - intros _. exists H. split; [apply Hc|]. split; [lia|by right].
Qed.

Lemma stop_ok r H got hist : core r H got hist -> vr_ur r = zlen hist mod rx_sn_modulo r ->
  H - rx_um_window_size r <= zlen hist ->
  rcv (set_timer r (rlc_um_stop_and_reset_timer_reordering (t_reordering r))) H got hist.
Proof.
  intros Hc Hu HR. constructor; [|exact Hu|exact HR|done].
  exact (core_vr r H got hist (vr_ur r) (vr_ux r) _ Hc).
Qed.

(** The gap is looked for when the timer does not run. *)
Lemma start_if_gap now r H got hist : rcv r H got hist ->
  rcv (if (running (t_reordering r) =? 0) && (rlc_um_in_window r (vr_ur r) (vr_uh r) (vr_uh r) =? 2)
       then restart_if_gap now r else r) H got hist.
Proof.
  intros Hr. pose proof Hr as [Hc Hu HR Ht]. pose proof (co_range _ _ _ _ Hc).
  rewrite (gap_in_window r H (zlen hist)) by (done || apply Hc || lia).
  destruct (running (t_reordering r) =? 0); [|done]. cbn [andb].
  destruct (Z.ltb_spec (zlen hist) H); [|done]. apply restart_ok; [done|done|lia].
Qed.

Lemma update_timer_ok now r H got hist : core r H got hist -> vr_ur r = zlen hist mod rx_sn_modulo r ->
  H - rx_um_window_size r <= zlen hist -> timer_weak r H -> rcv (update_timer now r) H got hist.
Proof.
  intros Hc Hu HR Ht. pose proof (co_range _ _ _ _ Hc) as Hrange. destruct (cfg_half r (co_cfg _ _ _ _ Hc)) as [Hm Hw].
  pose proof (stop_ok r H got hist Hc Hu HR) as Hstop. unfold update_timer. cbv zeta. apply start_if_gap.
  destruct (Z.eqb_spec (running (t_reordering r)) 0) as [Hz|Hz]; cbn [negb andb].
  { rewrite Hz. cbn [Z.eqb negb]. by constructor. }
  destruct (Ht Hz) as (U & HU & HUr). pose proof (co_uh _ _ _ _ Hc) as Hh. pose proof (co_cfg _ _ _ _ Hc) as Hcfg.
  assert (Hgo : (zlen hist < U \/ zlen hist = U /\ U = H) -> rcv r H got hist).
  { intros Hcase. constructor; [done|done|done|]. intros _. exists U. split; [done|lia]. }
  rewrite HU, (reordering_window_any r H U) by (done || lia).
  destruct (Z.leb_spec (H - rx_um_window_size r) U) as [Hin|Hout]; cbn [andb].
  2:{ rewrite (proj2 (Z.eqb_neq (vr_uh r) _)) by (rewrite Hh; apply not_eq_sym, mod_near; lia). exact Hstop. }
  assert (Efirst : negb (vr_uh r =? U mod rx_sn_modulo r) && ((if U <? H then 0 else -1) <? 0) = false).
  { destruct (Z.ltb_spec U H); [apply andb_false_r|]. assert (U = H) as -> by lia. by rewrite Hh, Z.eqb_refl. }
  rewrite Efirst. rewrite (proj2 (Z.eqb_neq (running _) 0)) by done. cbn [negb].
  rewrite HU, Hu, Hh. rewrite (in_window_count r H (zlen hist) U H) by (done || lia).
  rewrite (proj2 (Z.ltb_ge H U)) by lia.
  destruct (Z.ltb_spec U (zlen hist)); [exact Hstop|].
  destruct (Z.eqb_spec (zlen hist) U); destruct (Z.eqb_spec H U); cbn [Z.eqb orb Pos.eqb]; (exact Hstop || apply Hgo; lia).
Qed.

(** ** The reception of a PDU *)

Lemma core_ext r H got got' hist : (forall c, got c = got' c) -> core r H got hist -> core r H got' hist.
Proof.
  intros He [C1 C2 C3 C4 C5 [D1 D2] C7 C8]. constructor; try done.
  - intros c Hc. apply C4. by rewrite He.
  - split; [done|]. intros c Hc. rewrite D2 by done. unfold slot_of. by rewrite He.
Qed.

Lemma rcv_ext r H got got' hist : (forall c, got c = got' c) -> rcv r H got hist -> rcv r H got' hist.
Proof. intros He [C1 C2 C3 C4]. constructor; try done. by eapply core_ext. Qed.

Lemma gone_same got hist : gone got hist (zlen hist) = hist.
Proof. unfold gone. rewrite Z.sub_diag. apply app_nil_r. Qed.

(** The PDU of count [c] has been received. *)
Definition add_got (got : Z -> bool) (c : Z) : Z -> bool := fun x => got x || (x =? c).

(** The buffer with the PDU [c]. *)
Definition stored (r : um_rx) (c : Z) : um_rx :=
  set_dar r (<[Z.to_nat (c mod rx_sn_modulo r) :=
    Some (enc_pdu (rx_sn_length r) (c mod rx_sn_modulo r) (sent c))]> (dar_buffer r)).

Lemma store_ok r H got hist c : core r H got hist -> zlen hist <= c < zlen hist + rx_sn_modulo r ->
  core (set_vr (stored r c) (vr_ur r) (vr_ux r) (Z.max H (c + 1) mod rx_sn_modulo r)) (Z.max H (c + 1)) (add_got got c) hist.
Proof.
  intros [C1 C2 C3 C4 C5 [D1 D2] C7 C8] Hc. constructor; try done.
  - intros x [Hx|Hx]%orb_prop; [apply C4 in Hx; lia|]. apply Z.eqb_eq in Hx. lia.
  - cbn. lia.
  - pose proof (place_range r c C1) as Hp. destruct (cfg_bounds r C1) as [_ Hm].
    split; cbn [stored set_vr set_dar dar_buffer rx_sn_modulo rx_sn_length]; [by rewrite length_insert|].
    intros x Hx. unfold slot_of, add_got. destruct (Z.eqb_spec x c) as [->|Hne].
    + rewrite orb_true_r. apply list_lookup_insert_eq. lia.
    + rewrite orb_false_r, list_lookup_insert_ne; [by apply D2|].
      destruct (Z.lt_ge_cases c x); [apply place_ne; lia|apply not_eq_sym, place_ne; lia].
  - destruct C8 as [S1 S2 S3]. by constructor.
Qed.

(** The members that no reception changes. *)
Definition same_bearer (r r' : um_rx) : Prop :=
  is_data_plane r' = is_data_plane r /\ rx_sn_length r' = rx_sn_length r /\ rx_sn_modulo r' = rx_sn_modulo r /\
  rx_um_window_size r' = rx_um_window_size r.

Lemma reassembled_bearer r r' : reassembled r r' ->
  same_bearer r r' /\ vr_ur r' = vr_ur r /\ vr_ux r' = vr_ux r /\ vr_uh r' = vr_uh r /\ t_reordering r' = t_reordering r.
Proof. by intros (a & b & c & o & dar & ->). Qed.

(** The window moves behind the PDU [c]; what falls out of it is reassembled. *)
Lemma move_ok r H got hist c : rcv r H got hist -> zlen hist <= c < H + rx_um_window_size r ->
  let H2 := Z.max H (c + 1) in
  let R2 := Z.max (zlen hist) (H2 - rx_um_window_size r) in
  exists r2, move_window true (c mod rx_sn_modulo r) (stored r c) = Ret r2 /\ same_bearer r r2 /\
    core r2 H2 (upto (add_got got c) R2) (gone (add_got got c) hist R2) /\
    vr_ur r2 = R2 mod rx_sn_modulo r /\ vr_ux r2 = vr_ux r /\ t_reordering r2 = t_reordering r.
Proof.
  intros [Hcore Hur Hord _] Hc H2 R2. pose proof (co_cfg _ _ _ _ Hcore) as Hcfg. pose proof (co_uh _ _ _ _ Hcore) as Huh.
  pose proof (co_range _ _ _ _ Hcore) as Hrange. destruct (cfg_half r Hcfg) as [Hm Hw].
  pose proof (store_ok r H got hist c Hcore ltac:(lia)) as Hst. fold H2 in Hst. unfold move_window.
  pose proof (reordering_window_any (stored r c) H c Hcfg Huh) as Ew. change (rx_sn_modulo (stored r c)) with (rx_sn_modulo r) in Ew.
  change (rx_um_window_size (stored r c)) with (rx_um_window_size r) in Ew. rewrite Ew by lia. clear Ew.
  rewrite (proj2 (Z.leb_le _ c)) by lia. cbn [andb]. destruct (Z.ltb_spec c H) as [Hlt|Hge].
  { assert (H2 = H) as EH by lia. assert (R2 = zlen hist) as -> by lia. exists (stored r c).
    rewrite EH, <- Huh in Hst. rewrite gone_same, EH. split_and!; try done.
    eapply core_ext; [|exact Hst]. intros x. unfold upto. destruct (add_got got c x) eqn:Ex; [|done].
    apply (co_got _ _ _ _ Hst) in Ex. by rewrite (proj2 (Z.leb_le _ _)) by lia. }
  change (-1 <? 0) with true. cbv iota. cbn [stored set_dar rx_sn_modulo vr_ur vr_ux].
  fold (stored r c). rewrite next_sn by lia. assert (H2 = c + 1) as EH by lia.
  set (r1 := set_vr (stored r c) (vr_ur r) (vr_ux r) ((c + 1) mod rx_sn_modulo r)).
  rewrite EH in Hst. fold r1 in Hst. rewrite <- EH in Hst.
  assert (Huh1 : vr_uh r1 = H2 mod rx_sn_modulo r1) by (rewrite EH; done).
  assert (Ewin : rlc_um_in_reordering_window r1 (vr_ur r1) = if H2 - rx_um_window_size r <=? zlen hist then 0 else -1).
  { change (vr_ur r1) with (vr_ur r). rewrite Hur. pose proof (reordering_window_any r1 H2 (zlen hist) Hcfg Huh1) as Ew.
    change (rx_sn_modulo r1) with (rx_sn_modulo r) in Ew. change (rx_um_window_size r1) with (rx_um_window_size r) in Ew.
    rewrite Ew by lia.
    rewrite (proj2 (Z.ltb_lt _ H2)) by lia. by rewrite andb_true_r. }
  rewrite Ewin. destruct (Z.leb_spec (H2 - rx_um_window_size r) (zlen hist)) as [Hin|Hout]; cbn [Z.eqb negb].
  { assert (R2 = zlen hist) as -> by lia. exists r1. rewrite gone_same. split_and!; try done.
    eapply core_ext; [|exact Hst]. intros x. unfold upto. destruct (add_got got c x) eqn:Ex; [|done].
    apply (co_got _ _ _ _ Hst) in Ex. by rewrite (proj2 (Z.leb_le _ _)) by lia. }
  assert (R2 = H2 - rx_um_window_size r) as ER by lia.
  rewrite (window_start r1 H2 Hcfg Huh1). change (rx_um_window_size r1) with (rx_um_window_size r). rewrite <- ER.
  change (vr_ur r1) with (vr_ur r). rewrite Hur. change (rx_sn_modulo r) with (rx_sn_modulo r1).
  destruct (core_advance r1 H2 (add_got got c) hist R2 Hst) as (r2 & E & Hr2 & Hc2); [lia|cbn; lia|].
  rewrite E. cbn [mbind cres_bind]. destruct (reassembled_bearer _ _ Hr2) as (B1 & B2 & B3 & B4 & B5).
  assert (Ewin2 : rlc_um_in_reordering_window r2 (vr_ur r2) = -1).
  { destruct Hr2 as (a & b & k & o & dar & ->). exact Ewin. }
  rewrite Ewin2. change (-1 <? 0) with true. cbv iota. eexists. split; [reflexivity|].
  split_and!; [done| |done|done|done].
  exact (core_vr r2 H2 _ _ (R2 mod rx_sn_modulo r1) (vr_ux r2) (t_reordering r2) Hc2).
Qed.

(** The PDUs that follow VR(UR) are reassembled when the PDU [c] is the one it waits for. *)
Lemma deliver_ok r H got hist c sn : sn = c mod rx_sn_modulo r -> core r H got hist -> vr_ur r = zlen hist mod rx_sn_modulo r ->
  H - rx_um_window_size r <= zlen hist <= c -> c < H -> got c = true ->
  exists r' R, (cur ← rlc_um_get_pdu_from_dar_buffer r (vr_ur r);
      if (sn =? vr_ur r) && (match cur with Some _ => true | None => false end) then
        ur ← advance_ur (Z.to_nat (rx_sn_modulo r)) (vr_ur r) r;
        let r := set_vr r ur (vr_ux r) (vr_uh r) in
        rlc_um_try_reassembly true sn (vr_ur r) r
      else Ret r) = Ret r' /\
    same_bearer r r' /\ core r' H (upto got R) (gone got hist R) /\ vr_ur r' = R mod rx_sn_modulo r /\
    vr_ux r' = vr_ux r /\ t_reordering r' = t_reordering r /\ zlen hist <= R <= H /\
    (forall x, zlen hist <= x < R -> got x = true) /\ (c = zlen hist -> got R = false) /\ (c <> zlen hist -> R = zlen hist).
Proof.
  intros -> Hc Hur Hord HcH Hgot. destruct (cfg_half r (co_cfg _ _ _ _ Hc)) as [Hm Hw].
  rewrite Hur, (get_slot r H got hist (zlen hist) Hc) by lia. cbn [mbind cres_bind].
  destruct (Z.eq_dec c (zlen hist)) as [->|Hne].
  - rewrite Z.eqb_refl. unfold slot_of. rewrite Hgot. cbn [fmap option_fmap option_map andb].
    destruct (advance_ok r H got hist (Z.to_nat (H - zlen hist - 1)) (zlen hist) (Z.to_nat (rx_sn_modulo r)) Hc)
      as (R & E & HR & F1 & F2 & F3); [lia..|]. rewrite E. cbn [mbind cres_bind].
    pose proof (core_vr r H got hist (R mod rx_sn_modulo r) (vr_ux r) (t_reordering r) Hc) as Hc1.
    set (r1 := set_timer _ _) in Hc1.
    destruct (core_advance r1 H got hist R Hc1) as (r' & E' & Hr' & Hc'); [lia|cbn; lia|].
    destruct (reassembled_bearer _ _ Hr') as (B1 & B2 & B3 & B4 & B5).
    exists r', R. split; [exact E'|]. split_and!; try done; [lia|].
    intros x Hx. destruct (Z.eq_dec x (zlen hist)) as [->|]; [done|]. apply F3. lia.
  - rewrite (proj2 (Z.eqb_neq _ _)) by (apply not_eq_sym, mod_near; lia). cbn [andb].
    exists r, (zlen hist). rewrite gone_same. split_and!; try done; [|lia..].
    eapply core_ext; [|exact Hc]. intros x. unfold upto. destruct (got x) eqn:Ex; [|done].
    apply (co_got _ _ _ _ Hc) in Ex. by rewrite (proj2 (Z.leb_le _ _)) by lia.
Qed.

Lemma gone_gone got hist R R' : zlen hist <= R <= R' ->
  gone (upto got R) (gone got hist R) R' = gone got hist R'.
Proof.
  intros HR. unfold gone at 1. rewrite zlen_gone by lia. unfold gone. rewrite <- app_assoc. f_equal.
  assert (E : Z.to_nat (R' - zlen hist) = (Z.to_nat (R - zlen hist) + Z.to_nat (R' - R))%nat) by lia.
  rewrite E. assert (Ez : zrange (zlen hist) (Z.to_nat (R - zlen hist) + Z.to_nat (R' - R)) =
    zrange (zlen hist) (Z.to_nat (R - zlen hist)) ++ zrange R (Z.to_nat (R' - R))).
  { unfold zrange. rewrite Nat2Z.inj_add, seqZ_app by lia. do 2 f_equal; lia. }
  rewrite Ez, fmap_app. f_equal. apply list_fmap_ext. intros i x Hx.
  apply list_elem_of_lookup_2, elem_of_zrange in Hx. unfold slot_of, upto.
  by rewrite (proj2 (Z.leb_le _ _)), andb_true_r by lia.
Qed.

(** Any PDU of the stream near the window is received without a fault. *)
Lemma receive_any now r H got hist c : rcv r H got hist ->
  H - rx_um_window_size r <= c < H + rx_um_window_size r ->
  exists r' R, rlc_um_receive_process_dar true now (enc_pdu (rx_sn_length r) (c mod rx_sn_modulo r) (sent c)) r = Ret r' /\
    same_bearer r r' /\
    rcv r' (Z.max H (c + 1)) (upto (add_got got c) R) (gone (add_got got c) hist R) /\ zlen hist <= R /\
    (c + 1 - rx_um_window_size r <= zlen hist ->
     (forall x, zlen hist <= x < R -> add_got got c x = true) /\ (got (zlen hist) = false -> add_got got c R = false)).
Proof.
  intros Hr Hc. pose proof Hr as [Hcore Hur Hord Htim]. pose proof (co_cfg _ _ _ _ Hcore) as Hcfg.
  pose proof (co_uh _ _ _ _ Hcore) as Huh. pose proof (co_range _ _ _ _ Hcore) as Hrange.
  destruct (cfg_half r Hcfg) as [Hm Hw]. pose proof (Z.mod_pos_bound c (rx_sn_modulo r) ltac:(lia)) as Hsn.
  assert (Hsame : zlen hist <= c -> got c = true -> zlen hist < c ->
    rcv r (Z.max H (c + 1)) (upto (add_got got c) (zlen hist)) (gone (add_got got c) hist (zlen hist))).
  { intros _ Hg _. pose proof (co_got _ _ _ _ Hcore c Hg). rewrite gone_same, Z.max_l by lia.
    eapply rcv_ext; [|exact Hr]. intros x. unfold upto, add_got. destruct (Z.eqb_spec x c) as [->|].
    - rewrite Hg, (proj2 (Z.leb_le _ _)) by lia. done.
    - rewrite orb_false_r. destruct (got x) eqn:Ex; [|done]. apply (co_got _ _ _ _ Hcore) in Ex.
      by rewrite (proj2 (Z.leb_le _ _)) by lia. }
  unfold rlc_um_receive_process_dar. rewrite (pdu_sn_enc r _ (sent c) Hcfg Hsn). cbn [mbind cres_bind].
  destruct (Z.lt_ge_cases c (zlen hist)) as [Hold|Hnew].
  { rewrite (old_number_in_window r H (zlen hist) c) by (done || lia). rewrite (proj2 (Z.eqb_neq c (zlen hist))) by lia.
    assert (E : forall w, w = (if c =? H - rx_um_window_size r then 1 else 0) -> (w =? 1) || (w =? 0) = true)
      by (intros w ->; by destruct (c =? _)). rewrite E by done. exists r, (zlen hist). split; [done|].
    split; [done|]. rewrite gone_same, Z.max_l by lia. split; [|split; [lia|]].
    - eapply rcv_ext; [|exact Hr]. intros x. unfold upto, add_got. destruct (Z.leb_spec (zlen hist) x).
      + rewrite (proj2 (Z.eqb_neq x c)) by lia. by rewrite orb_false_r, andb_true_r.
      + rewrite andb_false_r. destruct (got x) eqn:Ex; [|done]. apply (co_got _ _ _ _ Hcore) in Ex. lia.
    - intros _. split; [lia|]. intros Hg. unfold add_got. rewrite Hg. apply Z.eqb_neq. lia. }
  rewrite (new_number_in_window r H (zlen hist) c) by (done || lia).
  rewrite (get_slot r H got hist c Hcore) by lia. cbn [mbind cres_bind]. unfold slot_of at 1 2.
  set (old := _ <$> (if got c then _ else _)).
  assert (Hdup : (match old with Some _ => true | None => false end) &&
    (rlc_um_in_window r (vr_ur r) (c mod rx_sn_modulo r) (vr_uh r) =? 0) = got c && negb (c =? zlen hist)).
  { unfold old. destruct (got c) eqn:Eg; [|done]. cbn [fmap option_fmap option_map andb].
    pose proof (co_got _ _ _ _ Hcore c Eg). rewrite Hur, Huh, (in_window_count r H) by (done || lia).
    rewrite (proj2 (Z.ltb_ge c _)), (proj2 (Z.ltb_ge H c)), (proj2 (Z.eqb_neq H c)) by lia.
    rewrite (Z.eqb_sym c). by destruct (zlen hist =? c). }
  rewrite Hdup. destruct (got c && negb (c =? zlen hist)) eqn:Ed.
  { apply andb_prop in Ed as [Eg En%negb_true_iff%Z.eqb_neq]. exists r, (zlen hist). split; [done|]. split; [done|].
    split; [by apply Hsame; [|done|lia]|]. split; [lia|]. intros _. split; [lia|]. intros Hg. unfold add_got. rewrite Hg.
    apply Z.eqb_neq. lia. }
  assert (Hstore : (r0 ← match old with
      | Some _ => '(_, r0) ← rlc_um_remove_pdu_from_dar_buffer r (c mod rx_sn_modulo r); Ret r0 | None => Ret r end;
      rlc_um_store_pdu_in_dar_buffer r0 (enc_pdu (rx_sn_length r) (c mod rx_sn_modulo r) (sent c)) (c mod rx_sn_modulo r)) =
    Ret (stored r c)).
  { pose proof (co_dar _ _ _ _ Hcore) as [Dl Dh]. pose proof (place_range r c Hcfg).
    unfold rlc_um_store_pdu_in_dar_buffer, rlc_um_remove_pdu_from_dar_buffer. rewrite !u16_small by lia.
    assert (Ha : exists v, aget (dar_buffer r) (c mod rx_sn_modulo r) = Ret v).
    { eexists. apply aget_ok; [lia|]. apply Dh. lia. }
    destruct Ha as [v Ha]. unfold stored.
    destruct old; cbn [mbind cres_bind].
    - rewrite Ha, aset_ok by (unfold zlen; lia). cbn [mbind cres_bind set_dar dar_buffer].
      rewrite aset_ok by (rewrite zlen_insert; unfold zlen; lia). cbn [mbind cres_bind].
      by rewrite list_insert_insert_eq.
    - by rewrite aset_ok by (unfold zlen; lia). }
  destruct (match old with Some _ => _ | None => Ret r end) as [r0|]; [|done]. cbn [mbind cres_bind] in Hstore |- *.
  rewrite Hstore. cbn [mbind cres_bind].
  destruct (move_ok r H got hist c Hr ltac:(lia)) as (r2 & E2 & B2 & C2 & U2 & X2 & T2). rewrite E2. cbn [mbind cres_bind].
  set (H2 := Z.max H (c + 1)) in *. set (R2 := Z.max (zlen hist) (H2 - rx_um_window_size r)) in *.
  assert (Hz2 : zlen (gone (add_got got c) hist R2) = R2) by (apply zlen_gone; lia).
  destruct B2 as (B2a & B2b & B2c & B2d).
  destruct (deliver_ok r2 H2 (upto (add_got got c) R2) (gone (add_got got c) hist R2) c
    (c mod rx_sn_modulo r) (f_equal _ (eq_sym B2c)) C2)
    as (r3 & R & E3 & B3 & C3 & U3 & X3 & T3 & HR & F1 & F2 & F3).
  { by rewrite Hz2, B2c. }
  { rewrite Hz2, B2d. lia. }
  { lia. }
  { unfold upto, add_got. rewrite Z.eqb_refl, orb_true_r. cbn [andb]. apply Z.leb_le. lia. }
  rewrite Hz2 in HR, F1, F2, F3. rewrite B2c in E3. rewrite gone_gone in C3 by lia.
  destruct (rlc_um_get_pdu_from_dar_buffer r2 (vr_ur r2)) as [cur|]; [|done]. cbn [mbind cres_bind] in E3 |- *.
  rewrite B2c in *. rewrite E3. cbn [mbind cres_bind]. exists (update_timer now r3), R. split; [done|].
  destruct B3 as (B3a & B3b & B3c & B3d).
  assert (Hup : forall x, upto (upto (add_got got c) R2) R x = upto (add_got got c) R x).
  { intros x. unfold upto. destruct (add_got got c x); [|done]. cbn [andb].
    destruct (Z.leb_spec R x); [|apply andb_false_r]. by rewrite (proj2 (Z.leb_le R2 x)) by lia. }
  assert (Hbear : same_bearer r3 (update_timer now r3)).
  { unfold update_timer. cbv zeta. repeat match goal with |- context [if ?b then _ else _] => destruct b end; done. }
  destruct Hbear as (Ba & Bb & Bc & Bd).
  split; [split_and!; congruence|]. split_and!; [| |].
  - apply update_timer_ok.
    + by eapply core_ext.
    + rewrite zlen_gone by lia. rewrite U3. f_equal. congruence.
    + rewrite zlen_gone by lia. rewrite B3d, B2d. lia.
    + intros Hrun. rewrite T3, T2 in Hrun. destruct (Htim Hrun) as (U & HU & HUr & HU').
      exists U. rewrite X3, X2, B3c, B2c. split; [done|lia].
  - lia.
  - intros Hnomove. assert (R2 = zlen hist) as ER by lia. rewrite ER in *. split.
    + intros x Hx. specialize (F1 x ltac:(lia)). by apply andb_prop in F1 as [F1 _].
    + intros Hg. destruct (Z.eq_dec c (zlen hist)) as [Heq|Hneq].
      * specialize (F2 Heq). unfold upto in F2. destruct (add_got got c R); [|done]. cbn [andb] in F2.
        apply Z.leb_gt in F2. lia.
      * rewrite (F3 Hneq). unfold add_got. rewrite Hg. apply Z.eqb_neq. lia.
Qed.

(** The timer expires or not: the PDUs that it waited for are given up. *)
Lemma check_timer_ok now r H got hist : rcv r H got hist ->
  exists r' R, rlc_um_check_timer_dar_time_out true now r = Ret r' /\ same_bearer r r' /\
    rcv r' H (upto got R) (gone got hist R) /\ zlen hist <= R.
Proof.
  intros Hr. pose proof Hr as [Hcore Hur Hord Htim]. pose proof (co_cfg _ _ _ _ Hcore) as Hcfg.
  pose proof (co_uh _ _ _ _ Hcore) as Huh. pose proof (co_range _ _ _ _ Hcore) as Hrange.
  destruct (cfg_half r Hcfg) as [Hm Hw]. unfold rlc_um_check_timer_dar_time_out.
  destruct (Z.eqb_spec (running (t_reordering r)) 0) as [Hz|Hz]; cbn [negb andb];
    [|match goal with |- context [if ?b then _ else _] => destruct b end].
  1,3: exists r, (zlen hist); rewrite gone_same; split_and!; try done; eapply rcv_ext; [|exact Hr];
    intros x; unfold upto; (destruct (got x) eqn:Ex; [|done]); apply (co_got _ _ _ _ Hcore) in Ex;
    by rewrite (proj2 (Z.leb_le _ _)) by lia.
  destruct (Htim Hz) as (U & HU & HUr & HU'). rewrite HU.
  destruct (skip_ok r H got hist (Z.to_nat (H - U)) U (S (Z.to_nat (rx_sn_modulo r))) Hcore)
    as (R & E & HR & F1 & F2 & F3); [lia..|]. rewrite E. cbn [mbind cres_bind].
  pose proof (core_vr r H got hist (R mod rx_sn_modulo r) (vr_ux r) (t_reordering r) Hcore) as Hc1.
  set (r1 := set_timer _ _) in Hc1. rewrite <- HU.
  destruct (core_advance r1 H got hist R Hc1) as (r2 & E2 & Hr2 & Hc2); [lia|cbn; lia|].
  rewrite Hur. change (rlc_um_try_reassembly true (zlen hist mod rx_sn_modulo r) (R mod rx_sn_modulo r) r1 = Ret r2) in E2.
  change (set_vr r (R mod rx_sn_modulo r) (vr_ux r) (vr_uh r)) with r1. change (vr_ur r1) with (R mod rx_sn_modulo r).
  rewrite E2. cbn [mbind cres_bind]. destruct (reassembled_bearer _ _ Hr2) as ((Ba & Bb & Bc & Bd) & B2 & B3 & B4 & B5).
  change (rx_sn_modulo r1) with (rx_sn_modulo r) in *. change (rx_um_window_size r1) with (rx_um_window_size r) in *.
  assert (Hz2 : zlen (gone got hist R) = R) by (apply zlen_gone; lia).
  assert (Hur2 : vr_ur r2 = zlen (gone got hist R) mod rx_sn_modulo r2) by (by rewrite B2, Hz2, Bc).
  rewrite (gap_in_window r2 H R) by (apply Hc2 || (by rewrite Hur2, Hz2) || (rewrite Bd; lia)).
  destruct (Z.ltb_spec R H).
  - exists (restart_if_gap now r2), R. split; [done|]. split; [done|]. split; [|lia].
    apply restart_ok; [done|done|]. rewrite Hz2, Bd. lia.
  - eexists _, R. split; [reflexivity|]. split; [done|]. split; [|lia].
    apply stop_ok; [done|done|]. rewrite Hz2, Bd. lia.
Qed.

End Reception.

(** ** Runs of the receiver *)

(** The PDU of a count arrives, or the MAC asks for the status and the timer is looked at. *)
Inductive rx_event :=
| Arrive (c : Z)
| Tick.

(** The transport block of the PDU of count [c] of the bearer of [r]. *)
Definition tb_of (sent : Z -> upd) (r : um_rx) (c : Z) : mac_tb_ind :=
  let pdu := enc_pdu (rx_sn_length r) (c mod rx_sn_modulo r) (sent c) in
  {| ti_data := pdu; ti_size := u16 (zlen pdu); ti_error := 0 |}.

Definition rx_step (sent : Z -> upd) (ev : Z * rx_event) (r : um_rx) : cres um_rx :=
  match ev.2 with
  | Arrive c => rlc_um_receive true ev.1 [tb_of sent r c] r
  | Tick => rlc_um_check_timer_dar_time_out true ev.1 r
  end.

(** A PDU arrives at most one window before or after the highest count. *)
Fixpoint arrivals_ok (W H : Z) (evs : list (Z * rx_event)) : bool :=
  match evs with
  | [] => true
  | (_, Arrive c) :: evs => (H - W <=? c) && (c <? H + W) && (0 <=? c) && arrivals_ok W (Z.max H (c + 1)) evs
  | (_, Tick) :: evs => arrivals_ok W H evs
  end.

Section Runs.
Context (sent : Z -> upd) (dp : bool) (Hsent : stream_ok sent dp).

(** One transport block. *)
Lemma receive_tb now r c : um_cfg r ->
  rlc_um_receive true now [tb_of sent r c] r =
  rlc_um_receive_process_dar true now (enc_pdu (rx_sn_length r) (c mod rx_sn_modulo r) (sent c)) r.
Proof.
  intros Hc. pose proof (enc_pdu_size r (c mod rx_sn_modulo r) (sent c) Hc (proj1 Hsent c)).
  unfold rlc_um_receive, tb_of. cbn [for_each ti_size ti_data].
  rewrite u16_small, (proj2 (Z.ltb_lt 0 _)), bget_whole by lia. cbn [mbind cres_bind].
  by destruct (rlc_um_receive_process_dar _ _ _ _).
Qed.

Lemma run_safe evs : forall r H got hist, rcv sent dp r H got hist -> arrivals_ok (rx_um_window_size r) H evs = true ->
  exists r' H' got' hist', for_each (rx_step sent) evs r = Ret r' /\ rcv sent dp r' H' got' hist'.
Proof.
  induction evs as [|[now ev] evs IH]; intros r H got hist Hr Hok; [by exists r, H, got, hist|].
  cbn [for_each]. destruct ev as [c|]; cbn [arrivals_ok] in Hok.
  - bool_to_prop. change (rx_step sent (now, Arrive c) r) with (rlc_um_receive true now [tb_of sent r c] r).
    rewrite receive_tb by apply Hr.
    destruct (receive_any sent dp Hsent now r H got hist c Hr ltac:(lia)) as (r1 & R & E & B & Hr1 & _).
    rewrite E. cbn [mbind cres_bind]. destruct B as (_ & _ & _ & B). rewrite <- B in *. by eapply IH.
  - destruct (check_timer_ok sent dp Hsent now r H got hist Hr) as (r1 & R & E & B & Hr1 & _).
    change (rx_step sent (now, Tick) r) with (rlc_um_check_timer_dar_time_out true now r). rewrite E. cbn [mbind cres_bind]. destruct B as (_ & _ & _ & B). rewrite <- B in Hok. by eapply IH.
Qed.

(** A receiver that has just been configured. *)
Lemma configured_rcv ms n tx : n = 10 \/ n = 5 -> tx = 10 \/ tx = 5 \/ tx = 0 ->
  rcv sent dp (rlc_um_configure ms n tx 0 (rlc_um_init dp)) 0 (fun _ => false) [].
Proof.
  intros Hn Htx. pose proof (configured_sync dp ms n tx Hn Htx) as Hs.
  assert (Hdp : is_data_plane (rlc_um_configure ms n tx 0 (rlc_um_init dp)) = dp)
    by (by destruct Hn as [-> | ->], Htx as [-> | [-> | ->]]).
  generalize dependent (rlc_um_configure ms n tx 0 (rlc_um_init dp)). intros r [S1 S2 S3 S4 S5 S6 S7 S8] Hdp.
  destruct (cfg_half r S1) as [Hm Hw].
  constructor; [constructor| | |]; try done.
  - change (zlen []) with 0. lia.
  - split; [by rewrite S4|]. intros c Hc. rewrite S4. apply lookup_replicate_2. pose proof (place_range r c S1). lia.
  - constructor.
  - change (zlen []) with 0. lia.
Qed.

End Runs.

(** ** Properties *)

(** C23: safe reception.  Whatever PDUs of a stream are lost, repeated or reordered inside of the
    window, and whenever the reordering timer expires, the receiver runs without a fault and
    delivers SDUs that were sent, in the order they were sent and at most once: it never joins
    pieces of different SDUs nor delivers an SDU with a hole.  What it delivers is what the PDUs
    carry, count by count, each one received or given up. *)
Theorem um_reception_safe sent dp ms n evs :
  n = 10 \/ n = 5 -> stream_ok sent dp -> arrivals_ok (if n =? 10 then 512 else 16) 0 evs = true ->
  exists r' hist, for_each (rx_step sent) evs (rlc_um_configure ms n n 0 (rlc_um_init dp)) = Ret r' /\
    slots_of (sent <$> zrange 0 (length hist)) hist /\
    delivered (output r') = (spec_slots (Some []) hist).1 /\
    delivered (output r') `sublist_of` (spec_pdus [] (sent <$> zrange 0 (length hist))).1.
Proof.
  intros Hn Hs Hok. pose proof (configured_rcv sent dp ms n n Hn ltac:(tauto)) as Hr0.
  destruct (run_safe sent dp Hs evs _ _ _ _ Hr0) as (r' & H' & got' & hist & E & Hr).
  { destruct Hn as [-> | ->]; exact Hok. }
  exists r', hist. split; [done|]. pose proof (rc_core _ _ _ _ _ _ Hr) as Hc. pose proof (co_hist _ _ _ _ _ _ Hc) as Hh.
  pose proof (proj1 (so_rep _ _ _ _ (co_sdus _ _ _ _ _ _ Hc))) as Hd. split; [done|]. split; [done|]. rewrite Hd.
  apply (slots_safe _ hist [] (Some [])); [done| |by right].
  apply Forall_fmap, Forall_true. intros c. apply Hs.
Qed.

(** SDUs of two bytes, each one in two PDUs. *)
Definition pairs (c : Z) : upd := Upd (Z.even c) [[byte.of_Z c]] (Z.odd c).

Lemma pairs_ok dp : stream_ok pairs dp.
Proof.
  pose proof (sdu_max_range dp). assert (Hmax : 2 <= sdu_max dp)
    by (destruct dp; unfold sdu_max, RLC_SDU_MAX_SIZE_DATA_PLANE, RLC_SDU_MAX_SIZE_CONTROL_PLANE; lia).
  split; [intros c; constructor; repeat constructor; done|].
  assert (Hall : forall n a q, zlen q <= 1 ->
    Forall (fun d => zlen d <= 2) (spec_pdus q (pairs <$> zrange a n)).1 /\ zlen (spec_pdus q (pairs <$> zrange a n)).2 <= 1).
  { induction n as [|n IH]; intros a q Hq; [split; [constructor|exact Hq]|]. rewrite zrange_S. cbn [fmap list_fmap spec_pdus].
    unfold pairs at 1 2 3 4. unfold spec_pdu. cbn [u_first u_fields u_last spec_fields]. rewrite <- Z.negb_even.
    destruct (Z.even a); cbn [negb app].
    - destruct (IH (a + 1) [byte.of_Z a] ltac:(done)) as [H1 H2]. destruct (spec_pdus [byte.of_Z a] _). by split.
    - destruct (IH (a + 1) [] ltac:(done)) as [H1 H2]. destruct (spec_pdus [] _). cbn [fst snd] in *. split; [|done].
      constructor; [|done]. rewrite zlen_app. change (zlen [_]) with 1. lia. }
  intros n. destruct (Hall n 0 [] ltac:(done)) as [H1 H2]. split; [|lia].
  eapply Forall_impl; [exact H1|]. cbn. intros. lia.
Qed.

(** The PDU 1 is lost, the PDU 3 overtakes the PDU 2, and the timer of 5 ms expires. *)
Lemma um_reception_safe_witness :
  exists r' (hist : list (option upd)), for_each (rx_step pairs) [(0, Arrive 0); (1, Arrive 3); (2, Arrive 2); (9, Tick)]
      (rlc_um_configure 5 5 5 0 (rlc_um_init false)) = Ret r' /\
    delivered (output r') `sublist_of` (spec_pdus [] (pairs <$> zrange 0 (length hist))).1.
Proof.
  destruct (um_reception_safe pairs false 5 5 [(0, Arrive 0); (1, Arrive 3); (2, Arrive 2); (9, Tick)]) as (r' & hist & E & _ & _ & S).
  - by right.
  - apply pairs_ok.
  - reflexivity.
  - exists r', hist. split; [exact E|exact S].
Defined.

(** ** Reordering without losses *)

Section Transparent.
Context (sent : Z -> upd) (dp : bool) (Hsent : stream_ok sent dp).

(** [pre] has arrived and no PDU was given up. *)
Record complete (r : um_rx) (pre : list Z) : Prop := {
  cp_state : exists H got n, rcv sent dp r H got (Some <$> (sent <$> zrange 0 n)) /\ got (Z.of_nat n) = false /\
    forall x, 0 <= x -> (x ∈ pre <-> x < Z.of_nat n \/ got x = true);
}.

Lemma all_slots got a n : (forall x, a <= x < a + Z.of_nat n -> got x = true) ->
  (slot_of sent got <$> zrange a n) = Some <$> (sent <$> zrange a n).
Proof.
  intros H. rewrite <- list_fmap_compose. apply list_fmap_ext. intros i x Hx.
  apply list_elem_of_lookup_2, elem_of_zrange in Hx. unfold slot_of, compose. by rewrite H.
Qed.

Lemma complete_step now r pre c : complete r pre -> 0 <= c -> c ∉ pre ->
  (forall x, 0 <= x < c + 1 - rx_um_window_size r -> x ∈ pre) ->
  exists r', rx_step sent (now, Arrive c) r = Ret r' /\ same_bearer r r' /\ complete r' (pre ++ [c]).
Proof.
  intros [(H & got & n & Hr & Htight & Hpre)] Hc Hnew Hreach. pose proof (rc_core _ _ _ _ _ _ Hr) as Hcore.
  pose proof (co_cfg _ _ _ _ _ _ Hcore) as Hcfg. destruct (cfg_half r Hcfg) as [Hm Hw].
  pose proof (co_range _ _ _ _ _ _ Hcore) as Hrange. pose proof (rc_order _ _ _ _ _ _ Hr) as Hord.
  set (hist := Some <$> (sent <$> zrange 0 n)) in *.
  assert (Hlen : length hist = n) by (unfold hist; by rewrite !length_fmap, length_zrange).
  assert (Hz : zlen hist = Z.of_nat n) by (unfold zlen; lia). rewrite Hz in *.
  assert (HcR : Z.of_nat n <= c).
  { destruct (Z.le_gt_cases (Z.of_nat n) c); [done|]. exfalso. apply Hnew, Hpre; [done|by left]. }
  assert (Hnear : c + 1 - rx_um_window_size r <= Z.of_nat n).
  { destruct (Z.le_gt_cases (c + 1 - rx_um_window_size r) (Z.of_nat n)); [done|]. exfalso.
    destruct (proj1 (Hpre (Z.of_nat n) ltac:(lia)) (Hreach (Z.of_nat n) ltac:(lia))); [lia|congruence]. }
  change (rx_step sent (now, Arrive c) r) with (rlc_um_receive true now [tb_of sent r c] r).
  rewrite (receive_tb sent dp Hsent) by done.
  destruct (receive_any sent dp Hsent now r H got hist c Hr ltac:(lia)) as (r' & R & E & B & Hr' & HR & Hgood).
  rewrite Hz in *. destruct (Hgood Hnear) as [G1 G2]. specialize (G2 Htight). exists r'. split; [done|]. split; [done|].
  constructor. exists (Z.max H (c + 1)), (upto (add_got got c) R), (Z.to_nat R).
  assert (Hgone : gone sent (add_got got c) hist R = Some <$> (sent <$> zrange 0 (Z.to_nat R))).
  { unfold gone. rewrite Hz, all_slots by (intros x Hx; apply G1; lia). unfold hist. rewrite <- !fmap_app. do 2 f_equal.
    unfold zrange. replace (Z.of_nat (Z.to_nat R)) with (Z.of_nat n + Z.of_nat (Z.to_nat (R - Z.of_nat n))) by lia.
    by rewrite seqZ_app by lia. }
  rewrite Hgone in Hr'. split; [done|]. rewrite Z2Nat.id by lia. split; [unfold upto; by rewrite G2|].
  intros x Hx. rewrite elem_of_app, list_elem_of_singleton, (Hpre x Hx). unfold upto. split.
  - intros Hin. destruct (Z.lt_ge_cases x R); [by left|right]. rewrite (proj2 (Z.leb_le _ _)), andb_true_r by lia.
    unfold add_got. destruct Hin as [[Hin|Hin]|Hin]; [lia|by rewrite Hin|]. subst x. by rewrite Z.eqb_refl, orb_true_r.
  - assert (Hadd : add_got got c x = true -> (x < Z.of_nat n \/ got x = true) \/ x = c).
    { intros [?|?%Z.eqb_eq]%orb_prop; auto. }
    intros [Hlt|[Ha _]%andb_prop]; [|by apply Hadd]. destruct (Z.lt_ge_cases x (Z.of_nat n)); [by left; left|].
    apply Hadd, G1. lia.
Qed.

Lemma complete_run cs : forall r pre, complete r pre -> Forall (fun c => 0 <= c) cs -> NoDup (pre ++ cs) ->
  (forall a c b, cs = a ++ c :: b -> forall x, 0 <= x < c + 1 - rx_um_window_size r -> x ∈ pre ++ a) ->
  exists r', for_each (rx_step sent) ((fun c => (0, Arrive c)) <$> cs) r = Ret r' /\ complete r' (pre ++ cs).
Proof.
  induction cs as [|c cs IH]; intros r pre Hc Hpos Hnd Hreach; [exists r; by rewrite app_nil_r|].
  apply Forall_cons_1 in Hpos as [Hc0 Hpos]. apply NoDup_app in Hnd as (Hnd1 & Hdis & Hnd2).
  destruct (complete_step 0 r pre c Hc Hc0) as (r1 & E1 & B1 & C1).
  { intros Hin. apply (Hdis c Hin). by left. }
  { intros x Hx. specialize (Hreach [] c cs eq_refl x Hx). by rewrite app_nil_r in Hreach. }
  destruct (IH r1 (pre ++ [c]) C1 Hpos) as (r2 & E2 & C2).
  { rewrite <- app_assoc. apply NoDup_app. split_and!; done. }
  { intros a c' b -> x Hx. rewrite <- app_assoc. apply (Hreach (c :: a) c' b eq_refl). by destruct B1 as (_ & _ & _ & <-). }
  exists r2. cbn [fmap list_fmap for_each]. rewrite E1. cbn [mbind cres_bind]. rewrite E2.
  rewrite <- app_assoc in C2. by split.
Qed.

End Transparent.

(** C24: reordering is invisible.  When the first [k] PDUs of a stream arrive once each, in any order in
    which a PDU is overtaken only by PDUs less than a window ahead of it, the receiver delivers
    exactly the SDUs that these PDUs complete, in the order they were sent. *)
Theorem um_reordering_transparent sent dp ms n k cs :
  n = 10 \/ n = 5 -> stream_ok sent dp -> cs ≡ₚ zrange 0 k ->
  (forall a c b, cs = a ++ c :: b -> forall x, 0 <= x < c + 1 - (if n =? 10 then 512 else 16) -> x ∈ a) ->
  exists r', for_each (rx_step sent) ((fun c => (0, Arrive c)) <$> cs) (rlc_um_configure ms n n 0 (rlc_um_init dp)) = Ret r' /\
    delivered (output r') = (spec_pdus [] (sent <$> zrange 0 k)).1.
Proof.
  intros Hn Hs Hp Hreach. pose proof (configured_rcv sent dp ms n n Hn ltac:(tauto)) as Hr0. set (r0 := rlc_um_configure _ _ _ _ _) in *.
  destruct (complete_run sent dp Hs cs r0 []) as (r' & E & [(H & got & j & Hr & Ht & Hx)]).
  - constructor. exists 0, (fun _ => false), 0%nat. split; [exact Hr0|]. split; [done|]. intros x Hx0.
    split; [by intros ?%not_elem_of_nil|]. intros [?|?]; [lia|done].
  - apply Forall_forall. intros c Hc. rewrite Hp in Hc. apply elem_of_zrange in Hc. lia.
  - rewrite app_nil_l, Hp. apply NoDup_seqZ.
  - intros a c b Hcs x Hx. apply (Hreach a c b Hcs). destruct Hn as [-> | ->]; exact Hx.
  - exists r'. split; [done|]. pose proof (rc_core _ _ _ _ _ _ Hr) as Hcore.
    pose proof (proj1 (so_rep _ _ _ _ (co_sdus _ _ _ _ _ _ Hcore))) as Hd. rewrite slots_complete in Hd. cbn [fst] in Hd.
    rewrite app_nil_l in Hx. assert (j = k) as ->; [|done].
    assert (Hin : forall x, 0 <= x -> (x < Z.of_nat k <-> x < Z.of_nat j \/ got x = true)).
    { intros x Hx0. rewrite <- (Hx x Hx0), Hp, elem_of_zrange. lia. }
    destruct (Nat.lt_trichotomy j k) as [Hlt|[->|Hlt]]; [|done|].
    + destruct (proj1 (Hin (Z.of_nat j) ltac:(lia)) ltac:(lia)); [lia|congruence].
    + assert (Z.of_nat k < Z.of_nat k) by (apply Hin; [lia|left; lia]). lia.
Qed.

Lemma um_reordering_transparent_witness :
  exists r', for_each (rx_step pairs) ((fun c => (0, Arrive c)) <$> [2; 0; 3; 1]) (rlc_um_configure 5 5 5 0 (rlc_um_init false)) = Ret r' /\
    delivered (output r') = [[Byte.x00; Byte.x01]; [Byte.x02; Byte.x03]].
Proof.
  destruct (um_reordering_transparent pairs false 5 5 4 [2; 0; 3; 1]) as (r' & E & D).
  - by right.
  - apply pairs_ok.
  - apply (bool_decide_unpack _). vm_compute. exact I.
  - intros a c b Hcs x Hx. exfalso.
    assert (Hc : c ∈ [2; 0; 3; 1]) by (rewrite Hcs; apply elem_of_app; right; by left).
    cbn [Z.eqb Pos.eqb] in Hx. repeat (apply elem_of_cons in Hc as [->|Hc]; [lia|]). by apply not_elem_of_nil in Hc.
  - exists r'. split; [exact E|exact D].
Defined.
