(* ===== verification/RlcUmEntity.v ===== *)
(** The entity of unacknowledged mode behind the interface of the RLC layer.

    [RlcPrims.RlcEntity] is what the dispatcher of [rlc_mac.c] calls; here it is the entity of
    [rlc_um.c], with the transmitter of [RlcUmTx] and the receiver of [RlcUm].  The invariant joins
    that of the transmitter, [tx_ok], and that of a receiver with losses and a running timer,
    [RlcUmDar.rcv]; the laws of the interface follow, so the theorems on the RLC layer and on the
    split hold with entities of unacknowledged mode. *)
From stdpp Require Import base list numbers gmap.
From coqutil Require Import Byte.
From Stdlib Require Import ZArith Lia.
From S2P Require Import Prelude SplitIface RlcPrims Hashtable RlcMac RlcUm RlcUmTx RlcUmDar.
Open Scope Z_scope.

(** The memory of the PDUs. *)
Class BlockAlloc := block_alloc : Z -> option (list byte).
Class BlockAllocOk `{BlockAlloc} := block_alloc_ok : alloc_ok block_alloc.

(** [PROTOCOL_CTXT_TIME_MILLI_SECONDS]: the primitives of the MAC set the subframe 0. *)
Definition ctxt_time (a : mac_args) : Z := u32 (frameP a * 10).

#[global] Instance um_entity_ops `{BlockAlloc} : RlcEntity um_entity := {|
  ent_status a tb e := rlc_um_mac_status_indication true (ctxt_time a) (frameP a) tb e;
  ent_data_request a e := rlc_um_mac_data_request block_alloc e;
  ent_data_indication a di e :=
    e' ← rlc_um_mac_data_indication true (ctxt_time a) di e;
    Ret (e', drop (length (delivered (output (um_recv e)))) (delivered (output (um_recv e')))) |}.

(** ** Invariant *)

(** The transmitter holds the queue [q], of SDUs that a length indicator can describe, and no
    PDU waits for the MAC. *)
Record um_tx_inv (five : bool) (q : list waiting) (t : um_tx) : Prop := {
  ut_ok : tx_ok five q t;
  ut_pdus : pdus_to_mac_layer t = [];
  ut_sizes : Forall (fun w => zlen w.1 + zlen w.2 <= 2047) q;
}.

(** The receiver follows the counts of some stream of PDUs. *)
Definition um_rx_inv (r : um_rx) : Prop :=
  exists sent H got hist, stream_ok sent (is_data_plane r) /\ rcv sent (is_data_plane r) r H got hist.

Record um_inv (e : um_entity) : Prop := {
  ui_state : um_protocol_state e = RLC_DATA_TRANSFER_READY_STATE;
  ui_send : exists five q, um_tx_inv five q (um_send e);
  ui_recv : um_rx_inv (um_recv e);
}.

(** ** Operations *)

(** The timer of the receiver. *)
Lemma check_timer_inv now r : um_rx_inv r ->
  exists r', rlc_um_check_timer_dar_time_out true now r = Ret r' /\ um_rx_inv r'.
Proof.
  intros (sent & H & got & hist & Hs & Hr). destruct (check_timer_ok _ _ Hs now r H got hist Hr) as (r' & R & E & B & Hr' & _).
  exists r'. split; [done|]. destruct B as (B & _). unfold um_rx_inv. rewrite B.
  by exists sent, H, (upto got R), (gone sent got hist R).
Qed.

Lemma granted_inv five q t tb : um_tx_inv five q t -> um_tx_inv five q (granted t tb).
Proof. intros [[X1 X2 X3 X4 X5 X6 X7] H2 H3]. constructor; [by constructor|done|done]. Qed.

Lemma status_inv now frame tb e : um_inv e ->
  exists e' r, rlc_um_mac_status_indication true now frame tb e = Ret (e', r) /\ um_inv e' /\
    um_send e' = granted (um_send e) tb /\ (0 < sr_bytes r -> 0 < buffer_occupancy (um_send e)) /\
    0 <= sr_bytes r < 2 ^ 31 /\ 0 <= sr_pdus r < 2 ^ 16 /\ 0 <= sr_creation_time r < 2 ^ 32 /\
    0 <= sr_remaining r < 2 ^ 31 /\ 0 <= sr_segmented r < 2 ^ 7.
Proof.
  intros [H1 (five & q & Ht) H3]. destruct (check_timer_inv now _ H3) as (r' & E & Hr').
  unfold rlc_um_mac_status_indication. rewrite E. cbn [mbind cres_bind].
  eexists _, _. split; [reflexivity|]. split.
  { constructor; [done| |done]. exists five, q. exact (granted_inv five q _ tb Ht). }
  split; [done|]. pose proof Ht as [[X1 X2 X3 X4 X5 X6 X7] _ Hsz].
  assert (Hbo : 0 <= rlc_um_get_buffer_occupancy (granted (um_send e) tb) < 2 ^ 30).
  { unfold rlc_um_get_buffer_occupancy, granted. cbn [buffer_occupancy]. rewrite X3. pose proof (queue_bytes_nonneg q).
    case_if; lia. }
  change (Tx _ _ _ _ _ _ _) with (granted (um_send e) tb). rewrite (u32_small (rlc_um_get_buffer_occupancy _)) by lia.
  change (input_sdus (granted (um_send e) tb)) with (input_sdus (um_send e)).
  split.
  { unfold rlc_um_get_buffer_occupancy, granted in *. cbn [buffer_occupancy] in *.
    destruct (Z.ltb_spec 0 (buffer_occupancy (um_send e))); [done|]. change (0 <? 0) with false. by destruct (input_sdus (um_send e)). }
  destruct (input_sdus (um_send e)) as [|x xs].
  { cbn [sr_bytes sr_pdus sr_creation_time sr_remaining sr_segmented]. lia. }
  apply Forall2_cons_inv_r in X1 as (w & q' & Hw & _ & ->). case_if.
  2:{ cbn [sr_bytes sr_pdus sr_creation_time sr_remaining sr_segmented]. lia. }
  cbn [sr_bytes sr_pdus sr_creation_time sr_remaining sr_segmented]. rewrite (to_remaining _ _ Hw).
  pose proof (to_range _ _ Hw). pose proof (zlen_nonneg w.1). pose proof (zlen_nonneg w.2).
  change (tx_header_min_length_in_bytes (granted (um_send e) tb)) with (tx_header_min_length_in_bytes (um_send e)).
  rewrite X6, u32_small by (unfold hdr_len; destruct five; lia).
  split; [unfold hdr_len; destruct five; lia|]. split; [apply u16_range|].
  split; [unfold creation_time; case_if; apply u32_range|]. split; [lia|]. case_if; lia.
Qed.

(** The request of the MAC for the bytes it granted. *)
Lemma data_request_inv `{BlockAllocOk} e tb : um_inv e -> um_send e = granted (um_send e) tb -> 0 <= tb < 2 ^ 15 ->
  exists e' tbs, rlc_um_mac_data_request block_alloc e = Ret (e', tbs) /\ um_inv e' /\
    Forall tb_ok tbs /\ zlen (tbs_bytes tbs) <= tb /\
    (0 < buffer_occupancy (um_send e) -> 2 < tb -> 0 < zlen (tbs_bytes tbs)).
Proof.
  intros [H1 (five & q & [X L2 L6]) H3] Hg Htb.
  assert (Hnb : nb_bytes_requested_by_mac (um_send e) = tb) by (rewrite Hg; apply u16_small; lia).
  destruct (decide (q = [] \/ tb <= hdr_len five)) as [Hno|Hyes].
  - rewrite (request_nothing five _ e q) by (done || by rewrite Hnb). eexists e, [].
    split; [done|]. split; [by constructor; eauto using Build_um_tx_inv|].
    split; [by apply Forall_nil_2|]. split; [unfold tbs_bytes, zlen; simpl; lia|].
    rewrite (xk_bo _ _ _ X). destruct Hno as [-> |Hno]; [unfold queue_bytes; simpl; lia|]. unfold hdr_len in Hno. destruct five; lia.
  - assert (Hne : q <> [] /\ hdr_len five < tb) by (split; [intros ->; apply Hyes; by left|lia]). destruct Hne as [Hne Hh].
    destruct (pack (pdu_room five tb q) 2 q) as [[[fs last] rest] slack] eqn:Hpack.
    destruct (request_pdu five block_alloc block_alloc_ok e q 2047 fs last rest slack)
      as (e' & tbk & E & [Q1 Q2 Q3 Q4 Q5 Q6] & Hsz & [Hpos _]); rewrite ?Hnb; [done|done|done|done|lia|lia|done|done|].
    exists e', [tbk]. rewrite Hnb in Hsz. split; [done|]. split; [|split].
    + constructor; [done|by exists five, rest|by rewrite Q2].
    + apply Forall_singleton. unfold tb_ok. lia.
    + unfold tbs_bytes. cbn. rewrite app_nil_r. unfold zlen in *. rewrite length_take. lia.
Qed.

#[global] #[refine] Instance um_entity_ok `{BlockAllocOk} : RlcEntityOk um_entity := {| ent_inv := um_inv |}.
Proof.
  - intros a tb e He. destruct (status_inv (ctxt_time a) (frameP a) tb e He) as (e' & r & E & He' & _ & _ & Hr).
    exists e', r. split; [exact E|]. by split.
  - intros a tb e e' r He Htb E. destruct (status_inv (ctxt_time a) (frameP a) tb e He) as (e1 & r1 & E1 & He1 & Hg & _).
    cbn [ent_status um_entity_ops] in E. rewrite E1 in E. injection E as -> ->.
    destruct (data_request_inv e' tb) as (e2 & tbs & E2 & H1 & H2 & H3 & _); [done|by rewrite Hg|lia|]. by exists e2, tbs.
Defined.
