(* ===== verification/RlcRrc.v ===== *)
(** The configuration of the RLC layer by RRC ([openair2/LAYER2/RLC/rlc_rrc.c], with the
    configuration functions of the modes) and the data requests of the upper layers ([rlc.c]).

    The bearers are added to and removed from the hash table of [RlcMac]; a removed entity is
    cleared but its memory stays allocated, as in the code.  The entity of acknowledged mode is
    behind the interface [AmOps]; unacknowledged and transparent mode are the ones of [RlcUmTx]
    and [RlcTm].  Messages of RRC are given as the values of the ASN.1 structures: an enumerated
    value is its number. *)
From stdpp Require Import base list numbers gmap.
From coqutil Require Import Byte.
From Stdlib Require Import ZArith Lia.
From S2P Require Import Prelude SplitIface RlcPrims Hashtable RlcTm RlcMac RlcUm RlcUmTx RlcUmDar RlcUmEntity.
Open Scope Z_scope.

(** ** Context, results and modes *)

(** [protocol_ctxt_t], without the instance and the indices of the eNB. *)
Record protocol_ctxt_t := Ctxt {
  module_id : Z;                          (* uint8_t *)
  rnti : Z;                               (* uint16_t *)
  enb_flag : Z;                           (* signed char *)
  frame : Z;                              (* uint32_t *)
}.

Definition RLC_OP_STATUS_OK : Z := 1.
Definition RLC_OP_STATUS_BAD_PARAMETER : Z := 22.
Definition RLC_OP_STATUS_INTERNAL_ERROR : Z := 2.

Inductive rlc_mode_t := MODE_NONE | MODE_AM | MODE_UM | MODE_TM.

Global Instance rlc_mode_eq_dec : EqDecision rlc_mode_t.
Proof. solve_decision. Defined.

(** Constants of the ASN.1 specification and of the default build. *)
Definition maxSessionPerPMCH : Z := 29.
Definition NB_RB_MBMS_MAX : Z := maxSessionPerPMCH * 16.
Definition RLC_MAX_LC : Z := (32 + 1) * 16.

(** ** The entity of unacknowledged mode as an object *)

(** [initialized] and the entity of [RlcUmTx]. *)
Record um_object := UmObject { initialized : bool; um_ent : um_entity }.

(** The memory after [calloc] or [memset]. *)
Definition um_zero : um_object :=
  UmObject false (Um RLC_NULL_STATE (Tx 0 0 0 [] 0 0 [])
    (Rx false 0 0 0 0 0 0 0 0 0 (Sdu None 0 []) [] (Timer 0 0 0 0 0))).

Definition rlc_um_init (o : um_object) : um_object :=
  if initialized o then o
  else UmObject true (Um RLC_NULL_STATE rlc_um_init_tx (RlcUm.rlc_um_init false)).

Definition set_um_state (o : um_object) (st : um_state) : um_object :=
  UmObject (initialized o) (Um st (um_send (um_ent o)) (um_recv (um_ent o))).

Definition rlc_um_set_debug_infos (srb_flagP : Z) (o : um_object) : um_object :=
  let r := um_recv (um_ent o) in
  UmObject (initialized o) (Um (um_protocol_state (um_ent o)) (um_send (um_ent o))
    (Rx (srb_flagP =? 0) (rx_sn_length r) (rx_sn_modulo r) (rx_um_window_size r) (vr_ur r) (vr_ux r) (vr_uh r)
       (last_reassemblied_sn r) (last_reassemblied_missing_sn r) (reassembly_missing_sn_detected r)
       (output r) (dar_buffer r) (t_reordering r))).

(** Both sides of [rlc_um_configure]. *)
Definition rlc_um_configure (timer_reorderingP rx_sn_field_lengthP tx_sn_field_lengthP is_mXchP : Z)
  (o : um_object) : um_object :=
  UmObject (initialized o) (Um (um_protocol_state (um_ent o))
    (rlc_um_configure_tx rx_sn_field_lengthP tx_sn_field_lengthP (um_send (um_ent o)))
    (RlcUm.rlc_um_configure timer_reorderingP rx_sn_field_lengthP tx_sn_field_lengthP is_mXchP
       (um_recv (um_ent o)))).

(** The primitives of the MAC. *)
#[global] Instance um_object_ops `{BlockAlloc} : RlcEntity um_object := {|
  ent_status a tb o := '(e, r) ← ent_status a tb (um_ent o); Ret (UmObject (initialized o) e, r);
  ent_data_request a o := '(e, r) ← ent_data_request a (um_ent o); Ret (UmObject (initialized o) e, r);
  ent_data_indication a di o := '(e, r) ← ent_data_indication a di (um_ent o); Ret (UmObject (initialized o) e, r) |}.

(** ** The entity of acknowledged mode *)

(** The operations of [rlc_am_init.c] and [rlc_am.c] the configuration and the data request call,
    and the memory after [calloc]. *)
Class AmOps (AM : Type) := {
  am_zero : AM;
  rlc_am_init : AM -> AM;
  rlc_am_set_debug_infos : Z -> Z -> AM -> AM;
  rlc_am_configure : Z -> Z -> Z -> Z -> Z -> Z -> AM -> AM;
  rlc_am_cleanup : AM -> AM;
  rlc_am_data_req : protocol_ctxt_t -> Z -> Z -> list byte -> AM -> cres AM;
}.

(** ** ASN.1 structures *)

(** [struct RLC_Config__am]: the enumerated values of both directions. *)
Record RLC_Config__am := RlcAm {
  maxRetxThreshold : Z;
  pollPDU : Z;
  pollByte : Z;
  t_PollRetransmit : Z;
  am_t_Reordering : Z;
  t_StatusProhibit : Z;
}.

(** [DL_UM_RLC_t] *)
Record DL_UM_RLC := DlUm { dl_sn_FieldLength : Z; dl_t_Reordering : Z }.

(** [RLC_Config_t]; an upward direction is its [sn_FieldLength]. *)
Inductive RLC_Config :=
| RLC_Config_PR_NOTHING
| RLC_Config_PR_am (c : RLC_Config__am)
| RLC_Config_PR_um_Bi_Directional (ul : Z) (dl : DL_UM_RLC)
| RLC_Config_PR_um_Uni_Directional_UL (ul : Z)
| RLC_Config_PR_um_Uni_Directional_DL (dl : DL_UM_RLC)
| RLC_Config_PR_other.

Inductive SRB_rlc_Config :=
| SRB_rlc_Config_PR_NOTHING
| SRB_rlc_Config_PR_explicitValue (c : RLC_Config)
| SRB_rlc_Config_PR_defaultValue
| SRB_rlc_Config_PR_other.

Record SRB_ToAddMod := SrbToAdd { srb_Identity : Z; srb_rlc_Config : option SRB_rlc_Config }.
Record DRB_ToAddMod := DrbToAdd { drb_Identity : Z; drb_rlc_Config : option RLC_Config }.

(** The two octets of [MBMS_SessionInfo_r9_t] that are used. *)
Record MBMS_SessionInfo := MbmsSession { sessionId_r9 : Z; serviceId_r9 : Z }.

(** ** State *)

(** The globals of [RlcMac] and the logical channels of the multicast bearers by module. *)
Record rlc_globals (AM : Type) := Globals {
  g_rlc : rlc_state AM um_object;
  rlc_mbms_rbid2lcid_ue : list (list Z);
  rlc_mbms_rbid2lcid_eNB : list (list Z);
}.
Arguments Globals {AM} _ _ _.
Arguments g_rlc {AM} _.
Arguments rlc_mbms_rbid2lcid_ue {AM} _.
Arguments rlc_mbms_rbid2lcid_eNB {AM} _.

(** Element [tab[i][j]] of a table, and its update. *)
Definition aget2 {A} (tab : list (list A)) (i j : Z) : cres A := row ← aget tab i; aget row j.
Definition aset2 {A} (tab : list (list A)) (i j : Z) (x : A) : cres (list (list A)) :=
  row ← aget tab i; row ← aset row j x; aset tab i row.

Section Config.
Context {AM : Type} `{AmOps AM}.

Abbreviation union := (rlc_union AM um_object).
Abbreviation globals := (rlc_globals AM).

(** [calloc] for a new entity, and whether the hash table gets memory for a node. *)
Context (calloc : gmap Z union -> Z) (node_alloc : bool).

Definition mode_of (u : union) : rlc_mode_t :=
  match u with
  | RLC_MODE_NONE => MODE_NONE
  | RLC_MODE_AM _ => MODE_AM
  | RLC_MODE_UM _ => MODE_UM
  | RLC_MODE_TM _ => MODE_TM
  end.

(** [tm_zero] is the memory of an entity of transparent mode after [calloc]. *)
Definition tm_zero : rlc_tm_entity := {|
  allocation := 0; protocol_state := RlcTm.RLC_NULL_STATE; is_uplink_downlink := 0;
  RlcTm.is_data_plane := 0; rb_id := 0; RlcTm.input_sdus := None; size_input_sdus_buffer := 0;
  nb_sdu := 0; next_sdu_index := 0; current_sdu_index := 0; RlcTm.pdus_to_mac_layer := [];
  rlc_pdu_size := 0; RlcTm.buffer_occupancy := 0; output_sdu_size_to_write := 0;
  output_sdu_in_construction := None |}.

(** Zeroed memory, with the mode. *)
Definition zero_union (mode : rlc_mode_t) : union :=
  match mode with
  | MODE_NONE => RLC_MODE_NONE
  | MODE_AM => RLC_MODE_AM am_zero
  | MODE_UM => RLC_MODE_UM um_zero
  | MODE_TM => RLC_MODE_TM tm_zero
  end.

Definition set_rlc (s : globals) (r : rlc_state AM um_object) : globals :=
  Globals r (rlc_mbms_rbid2lcid_ue s) (rlc_mbms_rbid2lcid_eNB s).
Definition set_table (s : globals) (t : option hash_table_t) (h : gmap Z union) : globals :=
  set_rlc s (Build_rlc_state t h (rlc_mbms_lcid2service_session_id_eNB (g_rlc s))
    (rlc_mbms_lcid2service_session_id_ue (g_rlc s)) (rlc_delivered (g_rlc s))).
Definition set_sessions (s : globals) (enb ue : list (list rlc_mbms_id)) : globals :=
  set_rlc s (Build_rlc_state (rlc_coll_p (g_rlc s)) (rlc_heap (g_rlc s)) enb ue (rlc_delivered (g_rlc s))).
Definition set_union (s : globals) (p : Z) (u : union) : globals :=
  set_rlc s (set_entity (g_rlc s) p u).

(** ** Release and addition of a bearer *)

(** The function the table calls on the data of a removed node. *)
Definition rb_free_rlc_union (p : Z) (h : gmap Z union) : cres (gmap Z union) :=
  if p =? 0 then Ret h
  else match h !! p with
       | None => Trap FNull
       | Some (RLC_MODE_AM e) => Ret (<[p := RLC_MODE_AM (rlc_am_cleanup e)]> h)
       | Some (RLC_MODE_UM _) => Ret (<[p := RLC_MODE_UM um_zero]> h)
       | Some (RLC_MODE_TM e) => Ret (<[p := RLC_MODE_TM (rlc_tm_cleanup e).2]> h)
       | Some RLC_MODE_NONE => Ret h
       end.

Definition bearer_key (c : protocol_ctxt_t) (srb_flagP rb_idP : Z) : Z :=
  RLC_COLL_KEY_VALUE (module_id c) (rnti c) (enb_flag c) rb_idP srb_flagP.

Definition session_key (c : protocol_ctxt_t) (i : rlc_mbms_id) : Z :=
  RLC_COLL_KEY_MBMS_VALUE (module_id c) (rnti c) (enb_flag c) (service_id i) (session_id i).

(** The multicast session of a bearer, by the tables of module [m]. *)
Definition mbms_id_of (c : protocol_ctxt_t) (m rb_idP : Z) (s : globals) : cres rlc_mbms_id :=
  if negb (enb_flag c =? 0) then
    lcid ← aget2 (rlc_mbms_rbid2lcid_eNB s) (module_id c) rb_idP;
    aget2 (rlc_mbms_lcid2service_session_id_eNB (g_rlc s)) (module_id c) lcid
  else
    lcid ← aget2 (rlc_mbms_rbid2lcid_ue s) m rb_idP;
    aget2 (rlc_mbms_lcid2service_session_id_ue (g_rlc s)) m lcid.

(** The result is the address of the entity, 0 for [NULL].  A new entity is written only after
    it is in the table. *)
Definition rrc_rlc_add_rlc (c : protocol_ctxt_t) (srb_flagP MBMS_flagP rb_idP chan_idP : Z)
  (rlc_modeP : rlc_mode_t) (s : globals) : cres (globals * Z) :=
  _ ← c_assert (negb (MBMS_flagP =? 0) || (rb_idP <? Z.of_nat NB_RB_MAX) && (chan_idP <? RLC_MAX_LC));
  key ← (if negb (MBMS_flagP =? 0) then i ← mbms_id_of c (module_id c) rb_idP s; Ret (session_key c i)
         else Ret (bearer_key c srb_flagP rb_idP));
  '(h_rc, p) ← hashtable_get (rlc_coll_p (g_rlc s)) key;
  match h_rc with
  | HASH_TABLE_OK =>
      match rlc_heap (g_rlc s) !! p with
      | Some u => _ ← c_assert (bool_decide (mode_of u = rlc_modeP)); Ret (s, p)
      | None => Trap FNull
      end
  | HASH_TABLE_KEY_NOT_EXISTS =>
      let p := calloc (rlc_heap (g_rlc s)) in
      '(h_rc, t, _) ← hashtable_insert node_alloc (rlc_coll_p (g_rlc s)) key p;
      match h_rc with
      | HASH_TABLE_OK =>
          if p =? 0 then Trap FNull
          else Ret (set_table s t (<[p := zero_union rlc_modeP]> (rlc_heap (g_rlc s))), p)
      | _ => Ret (set_table s t (rlc_heap (g_rlc s)), 0)
      end
  | _ => Ret (s, 0)
  end.

(** The tables of the multicast bearers are cleared before the key is read from them. *)
Definition clear_session (c : protocol_ctxt_t) (rb_idP : Z) (s : globals) : cres (Z * globals) :=
  let m := module_id c in
  lcid ← (if negb (enb_flag c =? 0) then aget2 (rlc_mbms_rbid2lcid_eNB s) m rb_idP
          else aget2 (rlc_mbms_rbid2lcid_ue s) m rb_idP);
  enb ← aset2 (rlc_mbms_lcid2service_session_id_eNB (g_rlc s)) m lcid
          {| service_id := 0; session_id := 0 |};
  rbids ← aset2 (rlc_mbms_rbid2lcid_ue s) m rb_idP 0;
  let s := set_sessions s enb (rlc_mbms_lcid2service_session_id_ue (g_rlc s)) in
  let s := Globals (g_rlc s) rbids (rlc_mbms_rbid2lcid_eNB s) in
  i ← aget2 (if negb (enb_flag c =? 0) then rlc_mbms_lcid2service_session_id_eNB (g_rlc s)
             else rlc_mbms_lcid2service_session_id_ue (g_rlc s)) m lcid;
  Ret (session_key c i, s).

(** The search of the entity and its removal from the table. *)
Definition release_key (key : Z) (s : globals) : cres (globals * Z) :=
  '(h_rc, _) ← hashtable_get (rlc_coll_p (g_rlc s)) key;
  match h_rc with
  | HASH_TABLE_OK =>
      '(_, t, freed) ← hashtable_remove (rlc_coll_p (g_rlc s)) key;
      h ← for_each rb_free_rlc_union freed (rlc_heap (g_rlc s));
      Ret (set_table s t h, RLC_OP_STATUS_OK)
  | _ => Ret (s, RLC_OP_STATUS_OK)
  end.

Definition rrc_rlc_remove_rlc (c : protocol_ctxt_t) (srb_flagP MBMS_flagP rb_idP : Z) (s : globals)
  : cres (globals * Z) :=
  '(key, s) ← (if negb (MBMS_flagP =? 0) then clear_session c rb_idP s
               else Ret (bearer_key c srb_flagP rb_idP, s));
  _ ← c_assert (rb_idP <? Z.of_nat NB_RB_MAX);
  release_key key s.

Definition rrc_rlc_remove_ue (c : protocol_ctxt_t) (s : globals) : cres (globals * Z) :=
  s ← for_each (fun rb s => '(s, _) ← rrc_rlc_remove_rlc c 1 0 rb s; Ret s) (zrange 1 2) s;
  s ← for_each (fun rb s => '(s, _) ← rrc_rlc_remove_rlc c 0 0 rb s; Ret s) (zrange 1 maxDRB) s;
  Ret (s, RLC_OP_STATUS_OK).

(** ** Configuration of the entities *)

(** [hashtable_get(rlc_coll_p, key, &rlc_union_p)] with the key of a unicast bearer. *)
Definition find_bearer (c : protocol_ctxt_t) (srb_flagP rb_idP : Z) (s : globals) : cres (option (Z * union)) :=
  find_entity (bearer_key c srb_flagP rb_idP) (g_rlc s).

(** [&rlc_union_p->rlc.um] and [&rlc_union_p->rlc.am]: the memory of another mode read as an entity
    of this one is taken as an access through a wild pointer. *)
Definition as_um (u : union) : cres um_object :=
  match u with RLC_MODE_UM o => Ret o | _ => Trap FNull end.
Definition as_am (u : union) : cres AM :=
  match u with RLC_MODE_AM e => Ret e | _ => Trap FNull end.
Definition as_tm (u : union) : cres rlc_tm_entity :=
  match u with RLC_MODE_TM e => Ret e | _ => Trap FNull end.

(** [rlc_um_info_t] *)
Record rlc_um_info_t := UmInfo { timer_reordering : Z; sn_field_length : Z; is_mXch : Z }.

(** The event of the configuration; the continuation runs when the entity was in the null state. *)
Definition um_enter_ready (srb_flagP : Z) (configure : um_object -> cres um_object) (o : um_object)
  : cres um_object :=
  let o := rlc_um_init o in
  '(ok, st) ← rlc_um_fsm_notify_event (um_protocol_state (um_ent o))
                CONFIG_REQ_ENTER_DATA_TRANSFER_READY_STATE_EVENT;
  let o := set_um_state o st in
  if negb (ok =? 0) then configure (rlc_um_set_debug_infos srb_flagP o) else Ret o.

(** When the bearer is not found, the error message reads the members of a null entity. *)
Definition config_req_rlc_um (c : protocol_ctxt_t) (srb_flagP : Z) (config_um : rlc_um_info_t) (rb_idP : Z)
  (s : globals) : cres globals :=
  f ← find_bearer c srb_flagP rb_idP s;
  match f with
  | None => Trap FNull
  | Some (p, u) =>
      o ← as_um u;
      o ← um_enter_ready srb_flagP (fun o =>
            Ret (rlc_um_configure (timer_reordering config_um) (sn_field_length config_um)
                   (sn_field_length config_um) (is_mXch config_um) o)) o;
      Ret (set_union s p (RLC_MODE_UM o))
  end.

Definition t_Reordering_tab : list Z :=
  [0; 5; 10; 15; 20; 25; 30; 35; 40; 45; 50; 55; 60; 65; 70; 75; 80; 85; 90; 95; 100; 110; 120; 130; 140; 150;
   160; 170; 180; 190; 200].

(** The length of the sequence numbers of a direction: 0 when it is not configured, nothing when
    the value is not one of the two of the enumeration. *)
Definition sn_length_of (sn_FieldLength : option Z) : option Z :=
  match sn_FieldLength with
  | None => Some 0
  | Some v => if v =? 0 then Some 5 else if v =? 1 then Some 10 else None
  end.

(** The body of [config_req_rlc_um_asn1] after the event; an invalid value leaves the entity as it
    is. *)
Definition um_configure_asn1 (c : protocol_ctxt_t) (mbms_flagP : Z) (ul : option Z) (dl : option DL_UM_RLC)
  (o : um_object) : cres um_object :=
  match sn_length_of ul, sn_length_of (dl_sn_FieldLength <$> dl) with
  | Some ul_len, Some dl_len =>
      t ← match dl with
          | None => Ret (Some 0)
          | Some d => if dl_t_Reordering d <? 31 then t ← aget t_Reordering_tab (dl_t_Reordering d); Ret (Some t)
                      else Ret None
          end;
      match t with
      | None => Ret o
      | Some t =>
          Ret (if 0 <? enb_flag c then rlc_um_configure t ul_len dl_len mbms_flagP o
               else rlc_um_configure t dl_len ul_len mbms_flagP o)
      end
  | _, _ => Ret o
  end.

Definition config_req_rlc_um_asn1 (c : protocol_ctxt_t) (srb_flagP mbms_flagP mbms_session_idP mbms_service_idP : Z)
  (ul : option Z) (dl : option DL_UM_RLC) (rb_idP : Z) (s : globals) : cres globals :=
  key ← (if negb (mbms_flagP =? 0) then
           _ ← c_assert (match dl with Some _ => true | None => false end);
           _ ← c_assert (match ul with Some _ => false | None => true end);
           Ret (session_key c {| service_id := mbms_service_idP; session_id := mbms_session_idP |})
         else Ret (bearer_key c srb_flagP rb_idP));
  f ← find_entity key (g_rlc s);
  match f with
  | None => Trap FAssert
  | Some (p, u) =>
      o ← as_um u;
      o ← um_enter_ready srb_flagP (um_configure_asn1 c mbms_flagP ul dl) o;
      Ret (set_union s p (RLC_MODE_UM o))
  end.

(** [rlc_am_info_t] *)
Record rlc_am_info_t := AmInfo {
  max_retx_threshold : Z; poll_pdu : Z; poll_byte : Z;
  t_poll_retransmit : Z; info_t_reordering : Z; t_status_prohibit : Z;
}.

Definition am_configure (srb_flagP rb_idP : Z) (i : rlc_am_info_t) (e : AM) : AM :=
  rlc_am_configure (max_retx_threshold i) (poll_pdu i) (poll_byte i) (t_poll_retransmit i) (info_t_reordering i)
    (t_status_prohibit i) (rlc_am_set_debug_infos srb_flagP rb_idP (rlc_am_init e)).

Definition config_req_rlc_am (c : protocol_ctxt_t) (srb_flagP : Z) (config_am : rlc_am_info_t) (rb_idP : Z)
  (s : globals) : cres globals :=
  f ← find_bearer c srb_flagP rb_idP s;
  match f with
  | None => Trap FNull
  | Some (p, u) => e ← as_am u; Ret (set_union s p (RLC_MODE_AM (am_configure srb_flagP rb_idP config_am e)))
  end.

Definition pollPDU_tab : list Z := [4; 8; 16; 32; 64; 128; 256; 1024].
Definition maxRetxThreshold_tab : list Z := [1; 2; 3; 4; 6; 8; 16; 32].
Definition pollByte_tab : list Z :=
  [25; 50; 75; 100; 125; 250; 375; 500; 750; 1000; 1250; 1500; 2000; 3000; 10000].
Definition PollRetransmit_tab : list Z :=
  ((fun k => 5 * k) <$> zrange 1 50) ++ [300; 350; 400; 450; 500].
Definition t_StatusProhibit_tab : list Z :=
  ((fun k => 5 * k) <$> zrange 0 51) ++ [300; 350; 400; 450; 500].

(** The guards on the values and the tables. *)
Definition am_info_of (a : RLC_Config__am) : cres (option rlc_am_info_t) :=
  if (maxRetxThreshold a <=? 7) && (pollPDU a <=? 7) && (pollByte a <? 15) && (t_PollRetransmit a <? 55) &&
     (am_t_Reordering a <? 31) && (t_StatusProhibit a <? 56)
  then
    m ← aget maxRetxThreshold_tab (maxRetxThreshold a);
    p ← aget pollPDU_tab (pollPDU a);
    b ← aget pollByte_tab (pollByte a);
    r ← aget PollRetransmit_tab (t_PollRetransmit a);
    t ← aget t_Reordering_tab (am_t_Reordering a);
    h ← aget t_StatusProhibit_tab (t_StatusProhibit a);
    Ret (Some (AmInfo m p b r t h))
  else Ret None.

Definition config_req_rlc_am_asn1 (c : protocol_ctxt_t) (srb_flagP : Z) (config_am : RLC_Config__am) (rb_idP : Z)
  (s : globals) : cres globals :=
  f ← find_bearer c srb_flagP rb_idP s;
  match f with
  | None => Trap FNull
  | Some (p, u) =>
      e ← as_am u;
      i ← am_info_of config_am;
      match i with
      | Some i => Ret (set_union s p (RLC_MODE_AM (am_configure srb_flagP rb_idP i e)))
      | None => Ret s
      end
  end.

Definition config_req_rlc_tm (c : protocol_ctxt_t) (srb_flagP is_uplink_downlinkP rb_idP : Z) (s : globals)
  : cres globals :=
  f ← find_bearer c srb_flagP rb_idP s;
  match f with
  | None => Trap FNull
  | Some (p, u) =>
      e ← as_tm u;
      e ← RlcTm.config_req_rlc_tm true srb_flagP is_uplink_downlinkP rb_idP e;
      Ret (set_union s p (RLC_MODE_TM e))
  end.

(** ** Requests of RRC *)

(** One bearer of a request: it is added, then configured when the addition gave an entity. *)
Definition add_and_configure (c : protocol_ctxt_t) (srb_flagP rb_id lc_id : Z) (mode : rlc_mode_t)
  (configure : globals -> cres globals) (s : globals) : cres globals :=
  '(s, p) ← rrc_rlc_add_rlc c srb_flagP 0 rb_id lc_id mode s;
  if negb (p =? 0) then configure s else Ret s.

(** The choice of [RLC_Config_t], the same for both kinds of bearers. *)
Definition add_config (c : protocol_ctxt_t) (srb_flagP rb_id lc_id : Z) (cfg : RLC_Config) (s : globals)
  : cres globals :=
  let um ul dl := add_and_configure c srb_flagP rb_id lc_id MODE_UM
                    (config_req_rlc_um_asn1 c srb_flagP 0 0 0 ul dl rb_id) s in
  match cfg with
  | RLC_Config_PR_am a =>
      add_and_configure c srb_flagP rb_id lc_id MODE_AM (config_req_rlc_am_asn1 c srb_flagP a rb_id) s
  | RLC_Config_PR_um_Bi_Directional ul dl => um (Some ul) (Some dl)
  | RLC_Config_PR_um_Uni_Directional_UL ul => um (Some ul) None
  | RLC_Config_PR_um_Uni_Directional_DL dl => um None (Some dl)
  | RLC_Config_PR_NOTHING | RLC_Config_PR_other => Ret s
  end.

(** The values written for a default configuration: the timers of 35, 0 and 45 ms, no polling, four
    retransmissions. *)
Definition default_am : RLC_Config__am := RlcAm 3 7 14 8 7 0.

(** [rb_id] is an [uint16_t], [lc_id] an [unsigned int]. *)
Definition add_srb (c : protocol_ctxt_t) (b : SRB_ToAddMod) (s : globals) : cres globals :=
  let rb_id := u16 (srb_Identity b) in
  let lc_id := u32 (rb_id + 2) in
  match srb_rlc_Config b with
  | Some (SRB_rlc_Config_PR_explicitValue cfg) => add_config c 1 rb_id lc_id cfg s
  | Some SRB_rlc_Config_PR_defaultValue => add_config c 1 rb_id lc_id (RLC_Config_PR_am default_am) s
  | _ => Ret s
  end.

(** [drb_id] is a [long]; the functions that are called take it as an [uint16_t]. *)
Definition add_drb (c : protocol_ctxt_t) (b : DRB_ToAddMod) (s : globals) : cres globals :=
  match drb_rlc_Config b with
  | Some cfg => add_config c 0 (u16 (drb_Identity b)) (u32 (drb_Identity b + 2)) cfg s
  | None => Ret s
  end.

Definition release_drb (c : protocol_ctxt_t) (drb_id : Z) (s : globals) : cres globals :=
  '(s, _) ← rrc_rlc_remove_rlc c 0 0 (u16 drb_id) s; Ret s.

(** One session of the multicast channels. *)
Definition add_session (c : protocol_ctxt_t) (i : MBMS_SessionInfo) (s : globals) : cres globals :=
  let m := module_id c in
  let lc_id := sessionId_r9 i in
  let id := {| service_id := serviceId_r9 i; session_id := sessionId_r9 i |} in
  let rb_id := u16 (serviceId_r9 i * maxSessionPerPMCH + sessionId_r9 i) in
  s ← (if negb (enb_flag c =? 0) then
         tab ← aset2 (rlc_mbms_lcid2service_session_id_eNB (g_rlc s)) m lc_id id;
         rbs ← aset2 (rlc_mbms_rbid2lcid_eNB s) m rb_id lc_id;
         let s := set_sessions s tab (rlc_mbms_lcid2service_session_id_ue (g_rlc s)) in
         Ret (Globals (g_rlc s) (rlc_mbms_rbid2lcid_ue s) rbs)
       else
         tab ← aset2 (rlc_mbms_lcid2service_session_id_ue (g_rlc s)) m lc_id id;
         _ ← c_assert (rb_id <? Z.of_nat NB_RB_MAX);
         rbs ← aset2 (rlc_mbms_rbid2lcid_ue s) m rb_id lc_id;
         let s := set_sessions s (rlc_mbms_lcid2service_session_id_eNB (g_rlc s)) tab in
         Ret (Globals (g_rlc s) rbs (rlc_mbms_rbid2lcid_eNB s)));
  '(h_rc, _) ← hashtable_get (rlc_coll_p (g_rlc s))
                 (RLC_COLL_KEY_MBMS_VALUE m m (enb_flag c) (serviceId_r9 i) (sessionId_r9 i));
  s ← match h_rc with
      | HASH_TABLE_KEY_NOT_EXISTS =>
          '(s, p) ← rrc_rlc_add_rlc c 0 1 rb_id lc_id MODE_UM s;
          _ ← c_assert (negb (p =? 0)); Ret s
      | _ => Ret s
      end;
  config_req_rlc_um_asn1 c 0 1 (sessionId_r9 i) (serviceId_r9 i) None (Some (DlUm 0 0)) rb_id s.

(** A list that is absent is [None]. *)
Definition each {A} (body : A -> globals -> cres globals) (l : option (list A)) (s : globals) : cres globals :=
  match l with Some l => for_each body l s | None => Ret s end.

Definition rrc_rlc_config_asn1_req (c : protocol_ctxt_t) (srb2add : option (list SRB_ToAddMod))
  (drb2add : option (list DRB_ToAddMod)) (drb2release : option (list Z))
  (pmch : option (list (list MBMS_SessionInfo))) (s : globals) : cres (globals * Z) :=
  s ← each (add_srb c) srb2add s;
  s ← each (add_drb c) drb2add s;
  s ← each (release_drb c) drb2release s;
  s ← each (for_each (add_session c)) pmch s;
  Ret (s, RLC_OP_STATUS_OK).

(** [config_action_t] and [rlc_info_t]. *)
Inductive config_action_t :=
| CONFIG_ACTION_ADD
| CONFIG_ACTION_MODIFY
| CONFIG_ACTION_REMOVE
| CONFIG_ACTION_OTHER.

Inductive rlc_info_t :=
| INFO_AM (i : rlc_am_info_t)
| INFO_UM (i : rlc_um_info_t)
| INFO_TM (is_uplink_downlink : Z)
| INFO_NONE.

Definition info_mode (i : rlc_info_t) : rlc_mode_t :=
  match i with INFO_AM _ => MODE_AM | INFO_UM _ => MODE_UM | INFO_TM _ => MODE_TM | INFO_NONE => MODE_NONE end.

Definition modify_rlc (c : protocol_ctxt_t) (srb_flagP rb_idP : Z) (info : rlc_info_t) (s : globals)
  : cres (globals * Z) :=
  match info with
  | INFO_AM i => s ← config_req_rlc_am c srb_flagP i rb_idP s; Ret (s, RLC_OP_STATUS_OK)
  | INFO_UM i => s ← config_req_rlc_um c srb_flagP i rb_idP s; Ret (s, RLC_OP_STATUS_OK)
  | INFO_TM i => s ← config_req_rlc_tm c srb_flagP i rb_idP s; Ret (s, RLC_OP_STATUS_OK)
  | INFO_NONE => Ret (s, RLC_OP_STATUS_BAD_PARAMETER)
  end.

(** The addition that succeeds is the one reported as an error; one that fails falls into the
    modification. *)
Definition rrc_rlc_config_req (c : protocol_ctxt_t) (srb_flagP mbms_flagP : Z) (actionP : config_action_t)
  (rb_idP : Z) (rlc_infoP : rlc_info_t) (s : globals) : cres (globals * Z) :=
  _ ← c_assert (rb_idP <? Z.of_nat NB_RB_MAX);
  match actionP with
  | CONFIG_ACTION_ADD =>
      '(s, p) ← rrc_rlc_add_rlc c srb_flagP 0 rb_idP rb_idP (info_mode rlc_infoP) s;
      if negb (p =? 0) then Ret (s, RLC_OP_STATUS_INTERNAL_ERROR)
      else modify_rlc c srb_flagP rb_idP rlc_infoP s
  | CONFIG_ACTION_MODIFY => modify_rlc c srb_flagP rb_idP rlc_infoP s
  | CONFIG_ACTION_REMOVE => rrc_rlc_remove_rlc c srb_flagP mbms_flagP rb_idP s
  | CONFIG_ACTION_OTHER => Ret (s, RLC_OP_STATUS_BAD_PARAMETER)
  end.

(** ** Data requests *)

(** [block] says whether [get_free_mem_block] gives a block; the SDU is [sdu_pP->data], of which
    [sdu_sizeP] bytes are copied. *)
Definition um_data_req (c : protocol_ctxt_t) (sdu_sizeP : Z) (sdu : list byte) (o : um_object) : um_object :=
  UmObject (initialized o) (rlc_um_data_req (frame c) sdu sdu_sizeP (um_ent o)).

Definition rlc_data_req (block : bool) (c : protocol_ctxt_t) (srb_flagP MBMS_flagP rb_idP muiP confirmP sdu_sizeP : Z)
  (sdu : list byte) (s : globals) : cres (globals * Z) :=
  _ ← c_assert (rb_idP <? (if negb (MBMS_flagP =? 0) then NB_RB_MBMS_MAX else Z.of_nat NB_RB_MAX));
  _ ← c_assert (0 <? sdu_sizeP);
  key ← (if negb (MBMS_flagP =? 0) then i ← mbms_id_of c (rnti c) rb_idP s; Ret (session_key c i)
         else Ret (bearer_key c srb_flagP rb_idP));
  f ← find_entity key (g_rlc s);
  match f with
  | None => Trap FAssert
  | Some (p, u) =>
      if negb (MBMS_flagP =? 0) then
        if negb block then Ret (s, RLC_OP_STATUS_BAD_PARAMETER)
        else
          d ← bget sdu 0 sdu_sizeP;
          o ← as_um u;
          Ret (set_union s p (RLC_MODE_UM (um_data_req c sdu_sizeP d o)), RLC_OP_STATUS_OK)
      else
        match u with
        | RLC_MODE_NONE => Ret (s, RLC_OP_STATUS_BAD_PARAMETER)
        | _ =>
            if negb block then Ret (s, RLC_OP_STATUS_INTERNAL_ERROR)
            else
              d ← bget sdu 0 sdu_sizeP;
              match u with
              | RLC_MODE_AM e =>
                  e ← rlc_am_data_req c muiP confirmP d e;
                  Ret (set_union s p (RLC_MODE_AM e), RLC_OP_STATUS_OK)
              | RLC_MODE_UM o => Ret (set_union s p (RLC_MODE_UM (um_data_req c sdu_sizeP d o)), RLC_OP_STATUS_OK)
              | RLC_MODE_TM e =>
                  '(_, e) ← rlc_tm_data_req {| sdu_mem := d; RlcTm.sdu_size := sdu_sizeP |} e;
                  Ret (set_union s p (RLC_MODE_TM e), RLC_OP_STATUS_OK)
              | RLC_MODE_NONE => Ret (s, RLC_OP_STATUS_BAD_PARAMETER)
              end
        end
  end.

Definition rrc_rlc_data_req (block : bool) (c : protocol_ctxt_t) (MBMS_flagP rb_idP muiP confirmP sdu_sizeP : Z)
  (sdu : list byte) (s : globals) : cres (globals * Z) :=
  if negb block then Ret (s, RLC_OP_STATUS_INTERNAL_ERROR)
  else d ← bget sdu 0 sdu_sizeP; rlc_data_req block c 1 MBMS_flagP rb_idP muiP confirmP sdu_sizeP d s.

(** ** Initialisation *)

(** [garbage] is what [hashtable_create] leaves in the count; [enbs] and [ues] are the sizes of the
    tables. *)
Definition rlc_module_init (alloc : bool) (garbage : Z) (enbs ues : nat) : cres globals :=
  let none := {| service_id := 0; session_id := 0 |} in
  let lcs := Z.to_nat (maxSessionPerPMCH * 16) in
  match hashtable_create alloc garbage (Z.of_nat (maxDRB + 2) * 16) None with
  | None => Trap FAssert
  | t => Ret (Globals (Build_rlc_state t ∅ (replicate enbs (replicate lcs none)) (replicate ues (replicate lcs none)) [])
                (replicate ues (replicate lcs 0)) (replicate enbs (replicate lcs 0)))
  end.
End Config.

(** ** Specification

    The bearers of the layer as a map from keys to modes. *)

Section Spec.
Context (c : protocol_ctxt_t).
Abbreviation bearers := (gmap Z rlc_mode_t).

(** Nothing is the result of a failing assertion: an identity out of range, or a bearer that
    exists with another mode. *)
Definition spec_add (srb rb lc : Z) (mode : rlc_mode_t) (B : bearers) : option bearers :=
  if (rb <? Z.of_nat NB_RB_MAX) && (lc <? RLC_MAX_LC) then
    match B !! bearer_key c srb rb with
    | None => Some (<[bearer_key c srb rb := mode]> B)
    | Some md => if bool_decide (md = mode) then Some B else None
    end
  else None.

Definition config_mode (cfg : RLC_Config) : option rlc_mode_t :=
  match cfg with
  | RLC_Config_PR_am _ => Some MODE_AM
  | RLC_Config_PR_um_Bi_Directional _ _ | RLC_Config_PR_um_Uni_Directional_UL _
  | RLC_Config_PR_um_Uni_Directional_DL _ => Some MODE_UM
  | RLC_Config_PR_NOTHING | RLC_Config_PR_other => None
  end.

Definition spec_config (srb rb lc : Z) (cfg : RLC_Config) (B : bearers) : option bearers :=
  match config_mode cfg with Some mode => spec_add srb rb lc mode B | None => Some B end.

Definition spec_srb (b : SRB_ToAddMod) (B : bearers) : option bearers :=
  let rb := u16 (srb_Identity b) in
  match srb_rlc_Config b with
  | Some (SRB_rlc_Config_PR_explicitValue cfg) => spec_config 1 rb (u32 (rb + 2)) cfg B
  | Some SRB_rlc_Config_PR_defaultValue => spec_add 1 rb (u32 (rb + 2)) MODE_AM B
  | _ => Some B
  end.

Definition spec_drb (b : DRB_ToAddMod) (B : bearers) : option bearers :=
  match drb_rlc_Config b with
  | Some cfg => spec_config 0 (u16 (drb_Identity b)) (u32 (drb_Identity b + 2)) cfg B
  | None => Some B
  end.

Definition spec_release (drb : Z) (B : bearers) : option bearers :=
  if u16 drb <? Z.of_nat NB_RB_MAX then Some (delete (bearer_key c 0 (u16 drb)) B) else None.

Definition spec_each {A} (f : A -> bearers -> option bearers) (l : option (list A)) (B : bearers) : option bearers :=
  foldl (fun B x => B ≫= f x) (Some B) (default [] l).

Definition spec_request (srbs : option (list SRB_ToAddMod)) (drbs : option (list DRB_ToAddMod))
  (rels : option (list Z)) (B : bearers) : option bearers :=
  B ← spec_each spec_srb srbs B;
  B ← spec_each spec_drb drbs B;
  spec_each spec_release rels B.
End Spec.

(** The enumerated values of a configuration are not negative. *)
Definition config_wf (cfg : RLC_Config) : Prop :=
  match cfg with
  | RLC_Config_PR_am a =>
      0 <= maxRetxThreshold a /\ 0 <= pollPDU a /\ 0 <= pollByte a /\ 0 <= t_PollRetransmit a /\
      0 <= am_t_Reordering a /\ 0 <= t_StatusProhibit a
  | RLC_Config_PR_um_Bi_Directional _ dl | RLC_Config_PR_um_Uni_Directional_DL dl => 0 <= dl_t_Reordering dl
  | _ => True
  end.

Definition srb_wf (b : SRB_ToAddMod) : Prop :=
  match srb_rlc_Config b with Some (SRB_rlc_Config_PR_explicitValue cfg) => config_wf cfg | _ => True end.
Definition drb_wf (b : DRB_ToAddMod) : Prop :=
  match drb_rlc_Config b with Some cfg => config_wf cfg | None => True end.

(** ** Representation *)

Section Refinement.
Context {AM : Type} `{AmOps AM} (calloc : gmap Z (rlc_union AM um_object) -> Z).

(** [calloc] gives memory that is not in use. *)
Context (Hcalloc : forall h, calloc h <> 0 /\ h !! calloc h = None).

Abbreviation globals := (rlc_globals AM).

(** The pointers [m] of the table lead from the key of each bearer to an entity of its own, of the
    mode of the bearer. *)
Record pointers_ok (h : gmap Z (rlc_union AM um_object)) (m : gmap Z Z) (B : gmap Z rlc_mode_t) : Prop := {
  po_inj : forall k1 k2 p, m !! k1 = Some p -> m !! k2 = Some p -> k1 = k2;
  po_some : forall k p, m !! k = Some p -> p <> 0 /\ exists u, h !! p = Some u /\ B !! k = Some (mode_of u);
  po_none : forall k, m !! k = None -> B !! k = None;
}.

Definition bearers_rep (s : globals) (B : gmap Z rlc_mode_t) : Prop :=
  exists t m, rlc_coll_p (g_rlc s) = Some t /\ ht_rep t m /\ pointers_ok (rlc_heap (g_rlc s)) m B.

(** The entity of a key, as the MAC and the upper layers find it. *)
Definition entity (s : globals) (k : Z) : cres (option (Z * rlc_union AM um_object)) := find_entity k (g_rlc s).

Lemma entity_table s B t m k : rlc_coll_p (g_rlc s) = Some t -> ht_rep t m ->
  pointers_ok (rlc_heap (g_rlc s)) m B ->
  entity s k = Ret (p ← m !! k; u ← rlc_heap (g_rlc s) !! p; Some (p, u)).
Proof.
  intros Et Ht [_ Hp _]. unfold entity, find_entity. rewrite Et. destruct (get_rep t m k Ht) as [-> _].
  destruct (m !! k) as [p|] eqn:Hk; [|done]. destruct (Hp k p Hk) as (_ & u & Hu & _).
  cbn [mbind cres_bind option_bind]. by rewrite Hu.
Qed.

(** What is found under a key is the bearer of the map. *)
Lemma entity_rep s B k : bearers_rep s B ->
  match B !! k with
  | Some md => exists p u, entity s k = Ret (Some (p, u)) /\ p <> 0 /\ mode_of u = md
  | None => entity s k = Ret None
  end.
Proof.
  intros (t & m & Et & Ht & Hok). rewrite (entity_table s B t m k Et Ht Hok). destruct Hok as [_ Hp Hn].
  destruct (m !! k) as [p|] eqn:Hk; [|by rewrite (Hn k Hk)].
  destruct (Hp k p Hk) as (Hne & u & Hu & ->). cbn. rewrite Hu. by exists p, u.
Qed.

(** Writing the entity of a bearer. *)
Lemma set_union_rep s B k p u u' : bearers_rep s B -> entity s k = Ret (Some (p, u)) -> mode_of u' = mode_of u ->
  bearers_rep (set_union s p u') B /\ entity (set_union s p u') k = Ret (Some (p, u')) /\
  forall k', k' <> k -> entity (set_union s p u') k' = entity s k'.
Proof.
  intros (t & m & Et & Ht & Hok) Hk Hm. rewrite (entity_table s B t m k Et Ht Hok) in Hk.
  destruct (m !! k) as [q|] eqn:Hq; [|done]. cbn in Hk.
  destruct (rlc_heap (g_rlc s) !! q) as [v|] eqn:Hv; [|done]. injection Hk as -> ->.
  assert (Hok' : pointers_ok (rlc_heap (g_rlc (set_union s p u'))) m B).
  { destruct Hok as [Hi Hp Hn]. constructor; [done| |done]. intros k1 p1 H1. destruct (Hp k1 p1 H1) as (Hne & u1 & Hu1 & Hb).
    split; [done|]. cbn. destruct (decide (p1 = p)) as [->|].
    - rewrite lookup_insert_eq. exists u'. split; [done|]. rewrite Hb. congruence.
    - rewrite lookup_insert_ne by done. eauto. }
  split; [by exists t, m|]. split.
  - rewrite (entity_table (set_union s p u') B t m k Et Ht Hok'), Hq. cbn. by rewrite lookup_insert_eq.
  - intros k' Hne. rewrite (entity_table (set_union s p u') B t m k' Et Ht Hok'), (entity_table s B t m k' Et Ht Hok).
    destruct (m !! k') as [p'|] eqn:Hp'; [|done]. cbn. rewrite lookup_insert_ne; [done|].
    intros ->. apply Hne. by apply (po_inj _ _ _ Hok k' k p').
Qed.

(** *** Addition and release *)

(** A bearer that is not there gets an entity of its own, with cleared memory. *)
Lemma add_new c srb rb lc mode s B : bearers_rep s B -> rb < Z.of_nat NB_RB_MAX -> lc < RLC_MAX_LC ->
  B !! bearer_key c srb rb = None ->
  exists s' p, rrc_rlc_add_rlc calloc true c srb 0 rb lc mode s = Ret (s', p) /\ p <> 0 /\
    bearers_rep s' (<[bearer_key c srb rb := mode]> B) /\ rlc_delivered (g_rlc s') = rlc_delivered (g_rlc s) /\
    entity s' (bearer_key c srb rb) = Ret (Some (p, zero_union mode)) /\
    forall k, k <> bearer_key c srb rb -> entity s' k = entity s k.
Proof.
  intros (t & m & Et & Ht & Hok) Hrb Hlc Hb. set (k := bearer_key c srb rb) in *.
  assert (Hk : m !! k = None).
  { destruct (m !! k) eqn:Hk; [|done]. destruct (po_some _ _ _ Hok k _ Hk) as (_ & u & _ & Hu). by rewrite Hb in Hu. }
  destruct (Hcalloc (rlc_heap (g_rlc s))) as [Hp0 Hfresh]. set (p := calloc (rlc_heap (g_rlc s))) in *.
  unfold rrc_rlc_add_rlc. rewrite (proj2 (Z.ltb_lt rb _)), (proj2 (Z.ltb_lt lc _)) by done.
  cbn [negb orb andb Z.eqb c_assert mbind cres_bind]. fold k. rewrite Et, (proj1 (get_rep t m k Ht)), Hk. cbn [mbind cres_bind].
  fold p. destruct (insert_rep t m k p Ht) as (t' & f & Ei & Ht' & _). rewrite Ei, Hk. cbn [mbind cres_bind].
  rewrite (proj2 (Z.eqb_neq p 0)) by done. eexists _, p. split; [reflexivity|]. split; [done|].
  set (s' := set_table _ _ _).
  assert (Hok' : pointers_ok (rlc_heap (g_rlc s')) (<[k := p]> m) (<[k := mode]> B)).
  { destruct Hok as [Hi Hs Hn]. constructor; cbn.
    - intros k1 k2 q [[<- <-]|[Hne1 H1]]%lookup_insert_Some [[<- Hq2]|[Hne2 H2]]%lookup_insert_Some; try done.
      + destruct (Hs _ _ H2) as (_ & u & Hu & _). by rewrite Hfresh in Hu.
      + subst q. destruct (Hs _ _ H1) as (_ & u & Hu & _). by rewrite Hfresh in Hu.
      + by eapply Hi.
    - intros k1 q [[<- <-]|[Hne H1]]%lookup_insert_Some.
      + split; [done|]. exists (zero_union mode). rewrite !lookup_insert_eq. by destruct mode.
      + destruct (Hs _ _ H1) as (Hq & u & Hu & Hbu). split; [done|]. exists u. rewrite (lookup_insert_ne B) by done.
        rewrite lookup_insert_ne by (intros <-; congruence). done.
    - intros k1 [H1 Hne]%lookup_insert_None. rewrite lookup_insert_ne by done. by apply Hn. }
  split; [by exists t', (<[k := p]> m)|]. split; [done|]. split.
  - rewrite (entity_table s' _ t' _ k eq_refl Ht' Hok'), lookup_insert_eq. cbn. by rewrite lookup_insert_eq.
  - intros k' Hne. rewrite (entity_table s' _ t' _ k' eq_refl Ht' Hok'), (entity_table s B t m k' Et Ht Hok).
    rewrite lookup_insert_ne by done. destruct (m !! k') as [q|] eqn:Hq; [|done]. cbn.
    destruct (po_some _ _ _ Hok _ _ Hq) as (_ & u & Hu & _). rewrite lookup_insert_ne by (intros <-; congruence). done.
Qed.

(** A bearer that is there keeps its entity; another mode is an error. *)
Lemma add_old c srb rb lc mode s B md : bearers_rep s B -> rb < Z.of_nat NB_RB_MAX -> lc < RLC_MAX_LC ->
  B !! bearer_key c srb rb = Some md ->
  rrc_rlc_add_rlc calloc true c srb 0 rb lc mode s =
    if bool_decide (md = mode) then Ret (s, match entity s (bearer_key c srb rb) with Ret (Some (p, _)) => p | _ => 0 end)
    else Trap FAssert.
Proof.
  intros Hs Hrb Hlc Hb. pose proof (entity_rep s B (bearer_key c srb rb) Hs) as He. rewrite Hb in He.
  destruct He as (p & u & He & _ & <-). destruct Hs as (t & m & Et & Ht & Hok).
  rewrite (entity_table s B t m _ Et Ht Hok) in *. set (k := bearer_key c srb rb) in *.
  destruct (m !! k) as [q|] eqn:Hk; [|done]. cbn in He. destruct (rlc_heap (g_rlc s) !! q) as [v|] eqn:Hv; [|done].
  injection He as -> ->.
  unfold rrc_rlc_add_rlc. rewrite (proj2 (Z.ltb_lt rb _)), (proj2 (Z.ltb_lt lc _)) by done.
  cbn [negb orb andb Z.eqb c_assert mbind cres_bind]. fold k. rewrite Et, (proj1 (get_rep t m k Ht)), Hk.
  cbn [mbind cres_bind option_bind]. rewrite Hv. cbn [mbind option_bind]. by destruct (bool_decide _).
Qed.

Lemma free_union_ok (h : gmap Z (rlc_union AM um_object)) p u : h !! p = Some u ->
  exists h', for_each rb_free_rlc_union (free_data p) h = Ret h' /\ forall q, q <> p -> h' !! q = h !! q.
Proof.
  intros Hu. unfold free_data. destruct (Z.eqb_spec p 0) as [->|Hne]; [by exists h|].
  cbn [for_each]. unfold rb_free_rlc_union. rewrite (proj2 (Z.eqb_neq p 0)), Hu by done.
  destruct u; cbn [mbind cres_bind]; eexists; (split; [reflexivity|]); intros q Hq; by rewrite ?lookup_insert_ne.
Qed.

Lemma release_key_rep k s B : bearers_rep s B ->
  exists s', release_key k s = Ret (s', RLC_OP_STATUS_OK) /\ bearers_rep s' (delete k B) /\
    rlc_delivered (g_rlc s') = rlc_delivered (g_rlc s) /\ forall k', k' <> k -> entity s' k' = entity s k'.
Proof.
  intros (t & m & Et & Ht & Hok). unfold release_key.
  rewrite Et, (proj1 (get_rep t m k Ht)). destruct (m !! k) as [p|] eqn:Hk; cbn [mbind cres_bind].
  2:{ exists s. split; [done|]. split; [|done]. exists t, m. split_and!; [done|done|].
      destruct Hok as [Hi Hs Hn]. rewrite delete_id by (by apply Hn). by constructor. }
  destruct (remove_rep t m k Ht) as (t' & f & Er & Ht' & _ & _ & -> & _). rewrite Er, Hk. cbn [mbind cres_bind].
  destruct (po_some _ _ _ Hok k p Hk) as (Hp & u & Hu & _).
  destruct (free_union_ok _ p u Hu) as (h' & -> & Hh'). cbn [mbind cres_bind].
  eexists. split; [reflexivity|]. set (s' := set_table _ _ _).
  assert (Hother : forall k' q, k' <> k -> m !! k' = Some q -> h' !! q = rlc_heap (g_rlc s) !! q).
  { intros k' q Hne Hq. apply Hh'. intros ->. apply Hne. by apply (po_inj _ _ _ Hok k' k p). }
  assert (Hok' : pointers_ok (rlc_heap (g_rlc s')) (delete k m) (delete k B)).
  { destruct Hok as [Hi Hs Hn]. constructor; cbn.
    - intros k1 k2 q [_ H1]%lookup_delete_Some [_ H2]%lookup_delete_Some. by eapply Hi.
    - intros k1 q [Hne H1]%lookup_delete_Some. rewrite lookup_delete_ne by done.
      rewrite (Hother k1 q) by done. by apply Hs.
    - intros k1 [<-|H1]%lookup_delete_None; [by rewrite lookup_delete_eq|]. apply lookup_delete_None. right. by apply Hn. }
  split; [by exists t', (delete k m)|]. split; [done|].
  intros k' Hne. rewrite (entity_table s' _ t' _ k' eq_refl Ht' Hok'), (entity_table s B t m k' Et Ht Hok).
  rewrite lookup_delete_ne by done. destruct (m !! k') as [q|] eqn:Hq; [|done]. cbn. by rewrite (Hother k' q).
Qed.

Lemma remove_bearer c srb rb s B : bearers_rep s B -> rb < Z.of_nat NB_RB_MAX ->
  exists s', rrc_rlc_remove_rlc c srb 0 rb s = Ret (s', RLC_OP_STATUS_OK) /\
    bearers_rep s' (delete (bearer_key c srb rb) B) /\ rlc_delivered (g_rlc s') = rlc_delivered (g_rlc s) /\
    forall k, k <> bearer_key c srb rb -> entity s' k = entity s k.
Proof.
  intros Hs Hrb. unfold rrc_rlc_remove_rlc. cbn [Z.eqb negb mbind cres_bind].
  rewrite (proj2 (Z.ltb_lt rb _)) by done. by apply release_key_rep.
Qed.

(** *** Requests *)

(** The keys of the bearers of a context. *)
Definition own (c : protocol_ctxt_t) (k : Z) : Prop := exists srb rb, k = bearer_key c srb rb.

(** What an operation leaves alone. *)
Record keeps (c : protocol_ctxt_t) (s s' : globals) : Prop := {
  kp_delivered : rlc_delivered (g_rlc s') = rlc_delivered (g_rlc s);
  kp_others : forall k, ~ own c k -> entity s' k = entity s k;
}.

#[global] Instance keeps_preorder c : PreOrder (keeps c).
Proof.
  split; [by constructor|]. intros s1 s2 s3 [A1 A2] [B1 B2]. constructor; [congruence|].
  intros k Hk. by rewrite B2, A2.
Qed.

(** A property of the entities that are found. *)
Definition all_sat (Q : rlc_union AM um_object -> Prop) (s : globals) : Prop :=
  forall k p u, entity s k = Ret (Some (p, u)) -> Q u.

Section Requests.
Context (Q : rlc_union AM um_object -> Prop).

(** An operation implements a partial function on the bearers: it fails an assertion where the
    function is not defined.  It keeps [Q] true of all entities. *)
Definition refines (c : protocol_ctxt_t) (f : globals -> cres globals)
  (g : gmap Z rlc_mode_t -> option (gmap Z rlc_mode_t)) : Prop :=
  forall s B, bearers_rep s B ->
    match g B with
    | Some B' => exists s', f s = Ret s' /\ bearers_rep s' B' /\ keeps c s s' /\ (all_sat Q s -> all_sat Q s')
    | None => f s = Trap FAssert
    end.

(** A configuration changes the entity of one bearer, not its mode; it gives [Q] to cleared memory. *)
Definition configures (c : protocol_ctxt_t) (srb rb : Z) (mode : rlc_mode_t) (f : globals -> cres globals) : Prop :=
  forall s B p u, bearers_rep s B -> entity s (bearer_key c srb rb) = Ret (Some (p, u)) -> mode_of u = mode ->
    exists s' u', f s = Ret s' /\ bearers_rep s' B /\ rlc_delivered (g_rlc s') = rlc_delivered (g_rlc s) /\
      entity s' (bearer_key c srb rb) = Ret (Some (p, u')) /\
      (forall k, k <> bearer_key c srb rb -> entity s' k = entity s k) /\ (Q u \/ u = zero_union mode -> Q u').

(** Only the entity under one key has changed. *)
Lemma one_changed c srb rb s s' : rlc_delivered (g_rlc s') = rlc_delivered (g_rlc s) ->
  (forall k, k <> bearer_key c srb rb -> entity s' k = entity s k) ->
  keeps c s s' /\ (all_sat Q s -> (forall p u, entity s' (bearer_key c srb rb) = Ret (Some (p, u)) -> Q u) -> all_sat Q s').
Proof.
  intros Hd Ho. split.
  - constructor; [done|]. intros k Hk. apply Ho. intros ->. apply Hk. by exists srb, rb.
  - intros Hall Hk k p u He. destruct (decide (k = bearer_key c srb rb)) as [->|Hne]; [by eapply Hk|].
    rewrite Ho in He by done. by eapply Hall.
Qed.

Lemma add_configure_refines c srb rb lc mode configure : configures c srb rb mode configure ->
  refines c (add_and_configure calloc true c srb rb lc mode configure) (spec_add c srb rb lc mode).
Proof.
  intros Hcfg s B Hs. unfold spec_add, add_and_configure.
  destruct (Z.ltb_spec rb (Z.of_nat NB_RB_MAX)), (Z.ltb_spec lc RLC_MAX_LC); cbn [andb].
  2-4: unfold rrc_rlc_add_rlc; cbn [negb Z.eqb orb];
    rewrite ?(proj2 (Z.ltb_ge rb _)), ?(proj2 (Z.ltb_ge lc _)), ?andb_false_r by done; done.
  destruct (B !! bearer_key c srb rb) as [md|] eqn:Hb.
  - rewrite (add_old c srb rb lc mode s B md) by done. case_bool_decide as Hmd; [|done].
    pose proof (entity_rep s B (bearer_key c srb rb) Hs) as He. rewrite Hb in He. destruct He as (p & u & He & Hp & Hu).
    rewrite He. cbn [mbind cres_bind]. rewrite (proj2 (Z.eqb_neq p 0)) by done. cbn [negb].
    destruct (Hcfg s B p u Hs He) as (s' & u' & E & Hs' & Hd & He' & Ho & HQ); [congruence|].
    destruct (one_changed c srb rb s s' Hd Ho) as [Hk Ha]. exists s'. split_and!; [done|done|done|].
    intros Hall. apply Ha; [done|]. intros p1 u1 Hpu. rewrite He' in Hpu. injection Hpu as <- <-. apply HQ. left. by eapply Hall.
  - destruct (add_new c srb rb lc mode s B Hs) as (s1 & p & -> & Hp & Hs1 & Hd1 & He & Ho1); [done..|].
    cbn [mbind cres_bind]. rewrite (proj2 (Z.eqb_neq p 0)) by done. cbn [negb].
    destruct (Hcfg s1 _ p _ Hs1 He) as (s' & u' & E & Hs' & Hd & He' & Ho & HQ); [by destruct mode|].
    destruct (one_changed c srb rb s s') as [Hk Ha]; [congruence|intros k Hk; by rewrite Ho, Ho1|].
    exists s'. split_and!; [done|done|done|].
    intros Hall. apply Ha; [done|]. intros p1 u1 Hpu. rewrite He' in Hpu. injection Hpu as <- <-. apply HQ. by right.
Qed.

(** The configurations of the entities never fail on well-formed values. *)
Lemma um_enter_ready_ret srb (configure : um_object -> cres um_object) o :
  (forall o1, exists o2, configure o1 = Ret o2) -> exists o', um_enter_ready srb configure o = Ret o'.
Proof.
  intros Hc. unfold um_enter_ready. destruct (um_protocol_state (um_ent (rlc_um_init o)));
    cbn -[rlc_um_set_debug_infos rlc_um_init]; eauto.
Qed.

Lemma um_configure_asn1_ret c mbms ul dl o : match dl with Some d => 0 <= dl_t_Reordering d | None => True end ->
  exists o', um_configure_asn1 c mbms ul dl o = Ret o'.
Proof.
  intros Hd. unfold um_configure_asn1. destruct (sn_length_of ul), (sn_length_of (dl_sn_FieldLength <$> dl)); try by eexists.
  destruct dl as [d|]; [|by eexists]. destruct (Z.ltb_spec (dl_t_Reordering d) 31); [|by eexists].
  destruct (aget_lt t_Reordering_tab (dl_t_Reordering d)) as (t & ->); [change (zlen t_Reordering_tab) with 31; lia|by eexists].
Qed.

(** [Q] holds after the configuration. *)
Definition um_gives (c : protocol_ctxt_t) (srb : Z) (ul : option Z) (dl : option DL_UM_RLC) : Prop :=
  forall o o', um_enter_ready srb (um_configure_asn1 c 0 ul dl) o = Ret o' ->
    Q (RLC_MODE_UM o) \/ o = um_zero -> Q (RLC_MODE_UM o').

Definition config_gives (c : protocol_ctxt_t) (srb rb : Z) (cfg : RLC_Config) : Prop :=
  match cfg with
  | RLC_Config_PR_am a => forall e i, am_info_of a = Ret i -> Q (RLC_MODE_AM e) \/ e = am_zero ->
      Q (RLC_MODE_AM (match i with Some i => am_configure srb rb i e | None => e end))
  | RLC_Config_PR_um_Bi_Directional ul dl => um_gives c srb (Some ul) (Some dl)
  | RLC_Config_PR_um_Uni_Directional_UL ul => um_gives c srb (Some ul) None
  | RLC_Config_PR_um_Uni_Directional_DL dl => um_gives c srb None (Some dl)
  | RLC_Config_PR_NOTHING | RLC_Config_PR_other => True
  end.

Lemma config_um_configures c srb rb ul dl : match dl with Some d => 0 <= dl_t_Reordering d | None => True end ->
  um_gives c srb ul dl -> configures c srb rb MODE_UM (config_req_rlc_um_asn1 c srb 0 0 0 ul dl rb).
Proof.
  intros Hd HQ s B p u Hs He Hu. destruct u as [| |o|]; try done. unfold config_req_rlc_um_asn1.
  cbn [Z.eqb negb mbind cres_bind]. pose proof He as He0. unfold entity in He. rewrite He. cbn [mbind cres_bind as_um].
  destruct (um_enter_ready_ret srb (um_configure_asn1 c 0 ul dl) o) as (o' & Eo).
  { intros o1. by apply um_configure_asn1_ret. }
  rewrite Eo. cbn [mbind cres_bind].
  destruct (set_union_rep s B _ p _ (RLC_MODE_UM o') Hs He0) as (H1 & H2 & H3); [done|].
  eexists _, _. split; [reflexivity|]. split_and!; [done|done|done|done|].
  intros [?|[= ->]]; apply (HQ _ _ Eo); tauto.
Qed.

Lemma am_info_ret a : config_wf (RLC_Config_PR_am a) -> exists i, am_info_of a = Ret i.
Proof.
  intros (H1 & H2 & H3 & H4 & H5 & H6). unfold am_info_of. case_if; [|by eexists]. bool_to_prop.
  destruct (aget_lt maxRetxThreshold_tab (maxRetxThreshold a)) as (? & ->); [change (zlen maxRetxThreshold_tab) with 8; lia|].
  destruct (aget_lt pollPDU_tab (pollPDU a)) as (? & ->); [change (zlen pollPDU_tab) with 8; lia|].
  destruct (aget_lt pollByte_tab (pollByte a)) as (? & ->); [change (zlen pollByte_tab) with 15; lia|].
  destruct (aget_lt PollRetransmit_tab (t_PollRetransmit a)) as (? & ->); [change (zlen PollRetransmit_tab) with 55; lia|].
  destruct (aget_lt t_Reordering_tab (am_t_Reordering a)) as (? & ->); [change (zlen t_Reordering_tab) with 31; lia|].
  destruct (aget_lt t_StatusProhibit_tab (t_StatusProhibit a)) as (? & ->); [change (zlen t_StatusProhibit_tab) with 56; lia|].
  by eexists.
Qed.

Lemma config_am_configures c srb rb a : config_wf (RLC_Config_PR_am a) -> config_gives c srb rb (RLC_Config_PR_am a) ->
  configures c srb rb MODE_AM (config_req_rlc_am_asn1 c srb a rb).
Proof.
  intros Ha HQ s B p u Hs He Hu. destruct u as [|e| |]; try done. unfold config_req_rlc_am_asn1, find_bearer.
  pose proof He as He0. unfold entity in He. rewrite He. cbn [mbind cres_bind as_am].
  destruct (am_info_ret a Ha) as (i & Ei). rewrite Ei. specialize (HQ e i Ei). cbn [mbind cres_bind].
  assert (HQ' : Q (RLC_MODE_AM e) \/ RLC_MODE_AM e = zero_union MODE_AM -> Q (RLC_MODE_AM e) \/ e = am_zero)
    by (intros [?|[= ->]]; tauto).
  destruct i as [i|].
  - destruct (set_union_rep s B _ p _ (RLC_MODE_AM (am_configure srb rb i e)) Hs He0) as (H1 & H2 & H3); [done|].
    eexists _, _. split; [reflexivity|]. split_and!; [done|done|done|done|]. tauto.
  - exists s, (RLC_MODE_AM e). split_and!; try done. tauto.
Qed.

Lemma add_config_refines c srb rb lc cfg : config_wf cfg -> config_gives c srb rb cfg ->
  refines c (add_config calloc true c srb rb lc cfg) (spec_config c srb rb lc cfg).
Proof.
  intros Hwf HQ. destruct cfg; unfold spec_config, add_config; cbn [config_mode].
  1, 6: by intros s B Hs; exists s.
  all: apply add_configure_refines.
  - by apply config_am_configures.
  - by apply config_um_configures.
  - by apply config_um_configures.
  - by apply config_um_configures.
Qed.

Definition srb_gives (c : protocol_ctxt_t) (b : SRB_ToAddMod) : Prop :=
  match srb_rlc_Config b with
  | Some (SRB_rlc_Config_PR_explicitValue cfg) => config_gives c 1 (u16 (srb_Identity b)) cfg
  | Some SRB_rlc_Config_PR_defaultValue => config_gives c 1 (u16 (srb_Identity b)) (RLC_Config_PR_am default_am)
  | _ => True
  end.
Definition drb_gives (c : protocol_ctxt_t) (b : DRB_ToAddMod) : Prop :=
  match drb_rlc_Config b with Some cfg => config_gives c 0 (u16 (drb_Identity b)) cfg | None => True end.

Lemma add_srb_refines c b : srb_wf b -> srb_gives c b -> refines c (add_srb calloc true c b) (spec_srb c b).
Proof.
  unfold srb_wf, srb_gives, spec_srb, add_srb. destruct (srb_rlc_Config b) as [[|cfg| |]|]; intros Hwf HQ.
  1, 4, 5: by intros s B Hs; exists s.
  - by apply add_config_refines.
  - by apply (add_config_refines c 1 _ _ (RLC_Config_PR_am default_am)).
Qed.

Lemma add_drb_refines c b : drb_wf b -> drb_gives c b -> refines c (add_drb calloc true c b) (spec_drb c b).
Proof.
  unfold drb_wf, drb_gives, spec_drb, add_drb.
  destruct (drb_rlc_Config b) as [cfg|]; intros Hwf HQ; [by apply add_config_refines|].
  by intros s B Hs; exists s.
Qed.

Lemma release_refines c d : refines c (release_drb c d) (spec_release c d).
Proof.
  intros s B Hs. unfold spec_release, release_drb. destruct (Z.ltb_spec (u16 d) (Z.of_nat NB_RB_MAX)) as [Hlt|Hge].
  - destruct (remove_bearer c 0 (u16 d) s B Hs Hlt) as (s' & -> & Hs' & Hd & Ho). cbn [mbind cres_bind].
    destruct (one_changed c 0 (u16 d) s s' Hd Ho) as [Hk Ha]. exists s'. split_and!; [done|done|done|].
    intros Hall. apply Ha; [done|]. intros p u He. pose proof (entity_rep s' _ (bearer_key c 0 (u16 d)) Hs') as Hn.
    rewrite lookup_delete_eq, He in Hn. done.
  - unfold rrc_rlc_remove_rlc. cbn [Z.eqb negb mbind cres_bind]. by rewrite (proj2 (Z.ltb_ge _ _)).
Qed.

(** The loops of a request. *)
Lemma each_refines {A} c (f : A -> globals -> cres globals) g l : Forall (fun x => refines c (f x) (g x)) (default [] l) ->
  refines c (each f l) (spec_each g l).
Proof.
  destruct l as [l|]; [|by intros _ s B Hs; exists s].
  unfold spec_each, refines. cbn [default id each]. intros Hf.
  induction Hf as [|x l Hx _ IH]; intros s B Hs; cbn [foldl for_each]; [by exists s|].
  specialize (Hx s B Hs). cbn [mbind option_bind]. destruct (g x B) as [B1|]; cbn.
  - destruct Hx as (s1 & -> & Hs1 & K1 & A1). cbn [mbind cres_bind]. specialize (IH s1 B1 Hs1).
    destruct (foldl _ _ l) as [B2|]; [|done]. destruct IH as (s2 & E & Hs2 & K2 & A2).
    exists s2. split_and!; [done|done|by etrans|tauto].
  - rewrite Hx. cbn [mbind cres_bind]. replace (foldl _ None l) with (@None (gmap Z rlc_mode_t)); [done|].
    clear. induction l as [|y ys IHl]; [done|exact IHl].
Qed.

(** A whole request. *)
Lemma config_request_ok c srbs drbs rels s B : bearers_rep s B ->
  Forall (fun b => srb_wf b /\ srb_gives c b) (default [] srbs) -> Forall (fun b => drb_wf b /\ drb_gives c b) (default [] drbs) ->
  match spec_request c srbs drbs rels B with
  | Some B' => exists s', rrc_rlc_config_asn1_req calloc true c srbs drbs rels None s = Ret (s', RLC_OP_STATUS_OK) /\
      bearers_rep s' B' /\ keeps c s s' /\ (all_sat Q s -> all_sat Q s')
  | None => rrc_rlc_config_asn1_req calloc true c srbs drbs rels None s = Trap FAssert
  end.
Proof.
  intros Hs Hsrb Hdrb. unfold spec_request, rrc_rlc_config_asn1_req.
  assert (R1 : refines c (each (add_srb calloc true c) srbs) (spec_each (spec_srb c) srbs)).
  { apply each_refines. eapply Forall_impl; [exact Hsrb|]. intros b [Hb Hg]. by apply add_srb_refines. }
  assert (R2 : refines c (each (add_drb calloc true c) drbs) (spec_each (spec_drb c) drbs)).
  { apply each_refines. eapply Forall_impl; [exact Hdrb|]. intros b [Hb Hg]. by apply add_drb_refines. }
  assert (R3 : refines c (each (release_drb c) rels) (spec_each (spec_release c) rels)).
  { apply each_refines, Forall_true. intros d. apply release_refines. }
  specialize (R1 s B Hs). destruct (spec_each (spec_srb c) srbs B) as [B1|]; cbn; [|by rewrite R1].
  destruct R1 as (s1 & -> & Hs1 & K1 & A1). cbn. specialize (R2 s1 B1 Hs1).
  destruct (spec_each (spec_drb c) drbs B1) as [B2|]; cbn; [|by rewrite R2].
  destruct R2 as (s2 & -> & Hs2 & K2 & A2). cbn. specialize (R3 s2 B2 Hs2).
  destruct (spec_each (spec_release c) rels B2) as [B3|]; cbn; [|by rewrite R3].
  destruct R3 as (s3 & -> & Hs3 & K3 & A3). cbn. exists s3. split_and!; [done|done| |tauto]. etrans; [|exact K3]. by etrans.
Qed.
End Requests.

(** The request when nothing is asked of the entities. *)
Lemma config_request_plain c srbs drbs rels s B : bearers_rep s B ->
  Forall srb_wf (default [] srbs) -> Forall drb_wf (default [] drbs) ->
  match spec_request c srbs drbs rels B with
  | Some B' => exists s', rrc_rlc_config_asn1_req calloc true c srbs drbs rels None s = Ret (s', RLC_OP_STATUS_OK) /\
      bearers_rep s' B' /\ keeps c s s'
  | None => rrc_rlc_config_asn1_req calloc true c srbs drbs rels None s = Trap FAssert
  end.
Proof.
  intros Hs Hsrb Hdrb. pose proof (config_request_ok (fun _ => True) c srbs drbs rels s B Hs) as Hreq.
  assert (Hg : forall srb rb cfg, config_gives (fun _ => True) c srb rb cfg) by (intros srb rb []; done).
  specialize (Hreq ltac:(eapply Forall_impl; [exact Hsrb|]; intros b Hb; split; [done|]; unfold srb_gives;
                         by destruct (srb_rlc_Config b) as [[]|])
                   ltac:(eapply Forall_impl; [exact Hdrb|]; intros b Hb; split; [done|]; unfold drb_gives;
                         by destruct (drb_rlc_Config b))).
  destruct (spec_request c srbs drbs rels B); [|done]. destruct Hreq as (s' & E & Hs' & K & _). by exists s'.
Qed.

(** *** Release of all the bearers of a user *)

Lemma remove_loop c srb rbs : Forall (fun rb => rb < Z.of_nat NB_RB_MAX) rbs -> forall s B, bearers_rep s B ->
  exists s', for_each (fun rb s => '(s, _) ← rrc_rlc_remove_rlc c srb 0 rb s; Ret s) rbs s = Ret s' /\
    bearers_rep s' (foldl (fun B rb => delete (bearer_key c srb rb) B) B rbs) /\ keeps c s s'.
Proof.
  induction 1 as [|rb rbs Hrb _ IH]; intros s B Hs; [by exists s|]. cbn [for_each foldl].
  destruct (remove_bearer c srb rb s B Hs Hrb) as (s1 & -> & Hs1 & Hd & Ho). cbn [mbind cres_bind].
  destruct (IH s1 _ Hs1) as (s2 & E & Hs2 & K). exists s2. split_and!; [done|done|]. etrans; [|exact K].
  constructor; [done|]. intros k Hk. apply Ho. intros ->. apply Hk. by exists srb, rb.
Qed.

Lemma deleted_keys c srb rbs : forall B k,
  foldl (fun (B : gmap Z rlc_mode_t) rb => delete (bearer_key c srb rb) B) B rbs !! k =
    if bool_decide (k ∈ bearer_key c srb <$> rbs) then None else B !! k.
Proof.
  induction rbs as [|rb rbs IH]; intros B k; [done|]. cbn [foldl fmap list_fmap]. rewrite IH.
  destruct (decide (k = bearer_key c srb rb)) as [->|Hne].
  - rewrite lookup_delete_eq. rewrite (bool_decide_true (_ ∈ _ :: _)) by (by left). by case_match.
  - rewrite lookup_delete_ne by done. erewrite bool_decide_ext; [reflexivity|].
    rewrite elem_of_cons. split; [by right|by intros [?|?]].
Qed.

End Refinement.

(** ** Properties *)

(** *** A concrete layer *)

(** The byte queue of [RlcPrims] as the entity of acknowledged mode. *)
#[global] Instance queue_am : AmOps QueueEntity.qent := {|
  am_zero := QueueEntity.Build_qent [] 0;
  rlc_am_init e := e;
  rlc_am_set_debug_infos _ _ e := e;
  rlc_am_configure _ _ _ _ _ _ e := e;
  rlc_am_cleanup _ := QueueEntity.Build_qent [] 0;
  rlc_am_data_req _ _ _ d e := Ret (QueueEntity.Build_qent (QueueEntity.qe_data e ++ d) (QueueEntity.qe_grant e)) |}.

(** An address that is not in use. *)
Definition fresh_address {A} (h : gmap Z A) : Z := fresh ({[0]} ∪ dom h).

Lemma fresh_address_ok {A} (h : gmap Z A) : fresh_address h <> 0 /\ h !! fresh_address h = None.
Proof.
  pose proof (is_fresh ({[0]} ∪ dom h)) as Hf. fold (fresh_address h) in Hf. split; [set_solver|].
  apply not_elem_of_dom. set_solver.
Qed.

(** The layer after the initialisation has no bearer. *)
Lemma module_init_rep {AM} `{AmOps AM} garbage enbs ues :
  exists s : rlc_globals AM, rlc_module_init true garbage enbs ues = Ret s /\ bearers_rep s ∅ /\ rlc_delivered (g_rlc s) = [].
Proof.
  unfold rlc_module_init. destruct (hashtable_create true garbage (Z.of_nat (maxDRB + 2) * 16) None) as [t|] eqn:Et; [|done].
  eexists. split; [reflexivity|]. split; [|done]. destruct (rep_empty _ _ _ _ Et) as [Ht _]; [done|].
  exists t, ∅. split; [done|]. split; [done|]. by constructor.
Qed.

(** The bearers of a user of an eNB: two signalling bearers and two data bearers. *)
Definition demo_ctxt : protocol_ctxt_t := Ctxt 0 4660 1 7.
Definition demo_srbs : list SRB_ToAddMod :=
  [SrbToAdd 1 (Some SRB_rlc_Config_PR_defaultValue); SrbToAdd 2 (Some (SRB_rlc_Config_PR_explicitValue (RLC_Config_PR_am default_am)))].
Definition demo_drbs : list DRB_ToAddMod :=
  [DrbToAdd 1 (Some (RLC_Config_PR_um_Bi_Directional 1 (DlUm 1 7))); DrbToAdd 3 (Some (RLC_Config_PR_am default_am))].

(** C10: a request of RRC has the effect of a partial function on the bearers.  From a state that represents
    the map [B] from keys to modes, the request to add signalling and data bearers, then to release
    data bearers, runs without a fault and gives a state that represents the map of the
    specification, unless an identity is out of range or a bearer exists with another mode, where an
    assertion fails.  The entities of all other users, and what was delivered, are as before. *)
Theorem config_request_refines {AM} `{AmOps AM} (calloc : gmap Z (rlc_union AM um_object) -> Z) c srbs drbs rels s B :
  (forall h, calloc h <> 0 /\ h !! calloc h = None) -> bearers_rep s B ->
  Forall srb_wf (default [] srbs) -> Forall drb_wf (default [] drbs) ->
  match spec_request c srbs drbs rels B with
  | Some B' => exists s', rrc_rlc_config_asn1_req calloc true c srbs drbs rels None s = Ret (s', RLC_OP_STATUS_OK) /\
      bearers_rep s' B' /\ keeps c s s'
  | None => rrc_rlc_config_asn1_req calloc true c srbs drbs rels None s = Trap FAssert
  end.
Proof. intros Hcalloc. by apply config_request_plain. Qed.

Lemma config_request_refines_witness :
  exists s0 s1 : rlc_globals QueueEntity.qent, rlc_module_init true 0 1 16 = Ret s0 /\
    rrc_rlc_config_asn1_req fresh_address true demo_ctxt (Some demo_srbs) (Some demo_drbs) (Some [3]) None s0 =
      Ret (s1, RLC_OP_STATUS_OK) /\
    bearers_rep s1 (<[bearer_key demo_ctxt 1 1 := MODE_AM]> (<[bearer_key demo_ctxt 1 2 := MODE_AM]>
      {[bearer_key demo_ctxt 0 1 := MODE_UM]})).
Proof.
  destruct (module_init_rep (AM := QueueEntity.qent) 0 1 16) as (s0 & E0 & Hs0 & _). exists s0.
  pose proof (config_request_refines fresh_address demo_ctxt (Some demo_srbs) (Some demo_drbs) (Some [3]) s0 ∅
    fresh_address_ok Hs0) as H.
  destruct (spec_request demo_ctxt (Some demo_srbs) (Some demo_drbs) (Some [3]) ∅) as [B|] eqn:E;
    vm_compute in E; [|discriminate]. injection E as <-.
  destruct H as (s1 & E1 & Hs1 & _).
  - repeat constructor; cbn; lia.
  - repeat constructor; cbn; lia.
  - exists s1. split; [exact E0|]. split; [exact E1|]. exact Hs1.
Defined.

(** The bearers [rrc_rlc_remove_ue] releases. *)
Definition ue_keys (c : protocol_ctxt_t) : list Z := (bearer_key c 1 <$> zrange 1 2) ++ (bearer_key c 0 <$> zrange 1 maxDRB).

(** C11: the release of a user.  [rrc_rlc_remove_ue] never fails: afterwards no signalling bearer 1 or 2
    and no data bearer 1 to 11 of the user is found any more, and the bearers of all other users
    are as before. *)
Theorem remove_ue_releases {AM} `{AmOps AM} c (s : rlc_globals AM) B :
  bearers_rep s B ->
  exists s', rrc_rlc_remove_ue c s = Ret (s', RLC_OP_STATUS_OK) /\ keeps c s s' /\
    (forall k, k ∈ ue_keys c -> entity s' k = Ret None) /\
    exists B', bearers_rep s' B' /\ forall k, k ∉ ue_keys c -> B' !! k = B !! k.
Proof.
  intros Hs. unfold rrc_rlc_remove_ue.
  destruct (remove_loop c 1 (zrange 1 2)) with (s := s) (B := B) as (s1 & -> & Hs1 & K1); [by repeat constructor|done|].
  cbn [mbind cres_bind]. set (B1 := foldl _ B _) in Hs1.
  destruct (remove_loop c 0 (zrange 1 maxDRB)) with (s := s1) (B := B1) as (s2 & -> & Hs2 & K2); [by repeat constructor|done|].
  cbn [mbind cres_bind]. exists s2. split; [done|]. split; [by etrans|]. set (B2 := foldl _ B1 _) in Hs2.
  assert (HB : forall k, B2 !! k = if bool_decide (k ∈ ue_keys c) then None else B !! k).
  { intros k. unfold B2, B1, ue_keys. rewrite !deleted_keys.
    destruct (decide (k ∈ bearer_key c 0 <$> zrange 1 maxDRB)) as [H1|H1]; [rewrite bool_decide_true by done|rewrite bool_decide_false by done].
    - by rewrite bool_decide_true by (apply elem_of_app; by right).
    - erewrite bool_decide_ext; [reflexivity|]. rewrite elem_of_app. split; [by left|by intros [?|?]]. }
  split.
  - intros k Hk. pose proof (entity_rep s2 B2 k Hs2) as He. by rewrite HB, bool_decide_true in He.
  - exists B2. split; [done|]. intros k Hk. by rewrite HB, bool_decide_false.
Qed.

Lemma remove_ue_releases_witness :
  exists s0 s1 s2 : rlc_globals QueueEntity.qent, rlc_module_init true 0 1 16 = Ret s0 /\
    rrc_rlc_config_asn1_req fresh_address true demo_ctxt (Some demo_srbs) (Some demo_drbs) None None s0 =
      Ret (s1, RLC_OP_STATUS_OK) /\
    rrc_rlc_remove_ue demo_ctxt s1 = Ret (s2, RLC_OP_STATUS_OK) /\ entity s2 (bearer_key demo_ctxt 0 3) = Ret None.
Proof.
  destruct (module_init_rep (AM := QueueEntity.qent) 0 1 16) as (s0 & E0 & Hs0 & _).
  pose proof (config_request_plain fresh_address fresh_address_ok demo_ctxt (Some demo_srbs) (Some demo_drbs) None s0 ∅
    Hs0) as H.
  destruct (spec_request demo_ctxt (Some demo_srbs) (Some demo_drbs) None ∅) as [B|] eqn:E;
    vm_compute in E; [|discriminate]. injection E as <-.
  destruct H as (s1 & E1 & Hs1 & _); [repeat constructor; cbn; lia..|].
  destruct (remove_ue_releases demo_ctxt s1 _ Hs1) as (s2 & E2 & _ & Hnone & _).
  exists s0, s1, s2. split; [exact E0|]. split; [exact E1|]. split; [exact E2|].
  apply Hnone. apply (bool_decide_unpack _). vm_compute. exact I.
Defined.

(** An addition that succeeds is reported as an error.  [rrc_rlc_config_req] with the action
    [CONFIG_ACTION_ADD] on a bearer that does not exist adds it, returns
    [RLC_OP_STATUS_INTERNAL_ERROR], and leaves the entity with cleared memory, not configured. *)
Theorem config_add_reports_error {AM} `{AmOps AM} (calloc : gmap Z (rlc_union AM um_object) -> Z) c srb rb info s B :
  (forall h, calloc h <> 0 /\ h !! calloc h = None) -> bearers_rep s B -> rb < Z.of_nat NB_RB_MAX ->
  B !! bearer_key c srb rb = None ->
  exists s' p, rrc_rlc_config_req calloc true c srb 0 CONFIG_ACTION_ADD rb info s = Ret (s', RLC_OP_STATUS_INTERNAL_ERROR) /\
    entity s' (bearer_key c srb rb) = Ret (Some (p, zero_union (info_mode info))).
Proof.
  intros Hcalloc Hs Hrb Hb. unfold rrc_rlc_config_req. rewrite (proj2 (Z.ltb_lt _ _)) by done. cbn [c_assert mbind cres_bind].
  destruct (add_new calloc Hcalloc c srb rb rb (info_mode info) s B Hs) as (s' & p & -> & Hp & _ & _ & He & _);
    [done|change (Z.of_nat NB_RB_MAX) with 14 in Hrb; unfold RLC_MAX_LC; lia|done|].
  cbn [mbind cres_bind]. rewrite (proj2 (Z.eqb_neq p 0)) by done. by exists s', p.
Qed.

Lemma config_add_reports_error_witness :
  exists (s0 s1 : rlc_globals QueueEntity.qent) p, rlc_module_init true 0 1 16 = Ret s0 /\
    rrc_rlc_config_req fresh_address true demo_ctxt 0 0 CONFIG_ACTION_ADD 1 (INFO_UM (UmInfo 35 10 0)) s0 =
      Ret (s1, RLC_OP_STATUS_INTERNAL_ERROR) /\
    entity s1 (bearer_key demo_ctxt 0 1) = Ret (Some (p, RLC_MODE_UM um_zero)).
Proof.
  destruct (module_init_rep (AM := QueueEntity.qent) 0 1 16) as (s0 & E0 & Hs0 & _).
  destruct (config_add_reports_error fresh_address demo_ctxt 0 1 (INFO_UM (UmInfo 35 10 0)) s0 ∅ fresh_address_ok Hs0)
    as (s1 & p & E1 & He); [done|done|].
  exists s0, s1, p. split; [exact E0|]. split; [exact E1|exact He].
Defined.

(** *** Multicast bearers *)

(** The key of a multicast bearer as a number with one digit per field. *)
Lemma mbms_key_value m r e sv ss :
  0 <= m < 2 ^ 8 -> 0 <= r < 2 ^ 16 -> 0 <= e < 2 -> 0 <= sv < 2 ^ 5 -> 0 <= ss < 2 ^ 26 ->
  RLC_COLL_KEY_MBMS_VALUE m r e sv ss = m + r * 2 ^ 8 + e * 2 ^ 24 + sv * 2 ^ 32 + ss * 2 ^ 37 + 2 ^ 63.
Proof.
  intros Hm Hr He Hv Hs. unfold RLC_COLL_KEY_MBMS_VALUE.
  rewrite (u64_small m), (u64_small r), (u64_small e), (u64_small sv), (u64_small ss), (u64_small 1) by lia.
  rewrite !u64_small by (rewrite Z.shiftl_mul_pow2 by lia; lia).
  rewrite (lor_shiftl_add m), (lor_shiftl_add (m + r * 2 ^ 8)), (lor_shiftl_add (m + r * 2 ^ 8 + e * 2 ^ 24)),
    (lor_shiftl_add (m + r * 2 ^ 8 + e * 2 ^ 24 + sv * 2 ^ 32)),
    (lor_shiftl_add (m + r * 2 ^ 8 + e * 2 ^ 24 + sv * 2 ^ 32 + ss * 2 ^ 37)) by lia. lia.
Qed.

(** Fields in the range of the keys. *)
Definition ctxt_ok (c : protocol_ctxt_t) : Prop :=
  0 <= module_id c < 2 ^ 8 /\ 0 <= rnti c < 2 ^ 16 /\ 0 <= enb_flag c < 2.

Lemma aset2_ok {A} (tab : list (list A)) i j x y : aget2 tab i j = Ret y ->
  exists tab', aset2 tab i j x = Ret tab' /\ aget2 tab' i j = Ret x.
Proof.
  unfold aget2, aset2. intros E. destruct (aget tab i) as [row|] eqn:Er; cbn [mbind cres_bind] in *; [|done].
  unfold aget in E, Er. destruct (Z.leb_spec 0 j), (Z.leb_spec 0 i); try done.
  destruct (row !! Z.to_nat j) eqn:Ej; [|done]. destruct (tab !! Z.to_nat i) eqn:Ei; [|done].
  apply lookup_lt_Some in Ej, Ei. rewrite aset_ok by (unfold zlen; lia). cbn [mbind cres_bind].
  rewrite aset_ok by (unfold zlen; lia). eexists. split; [reflexivity|].
  rewrite (aget_ok _ _ (<[Z.to_nat j:=x]> row)) by (done || by apply list_lookup_insert_eq). cbn [mbind cres_bind].
  apply aget_ok; [done|]. apply list_lookup_insert_eq. lia.
Qed.

(** The release of a multicast bearer of an eNB does not remove it.  The session of the bearer is
    cleared in the tables before the key is read from them, so the key that is removed is the one of
    the session 0 of the service 0; the entity of the bearer is still found under its key, and
    the tables no longer lead to it. *)
Theorem mbms_release_keeps_bearer {AM} `{AmOps AM} c rb lcid i x (s : rlc_globals AM) B :
  ctxt_ok c -> enb_flag c = 1 -> rb < Z.of_nat NB_RB_MAX -> bearers_rep s B ->
  aget2 (rlc_mbms_rbid2lcid_eNB s) (module_id c) rb = Ret lcid ->
  aget2 (rlc_mbms_lcid2service_session_id_eNB (g_rlc s)) (module_id c) lcid = Ret i ->
  aget2 (rlc_mbms_rbid2lcid_ue s) (module_id c) rb = Ret x ->
  0 <= service_id i < 2 ^ 5 -> 0 <= session_id i < 2 ^ 26 -> (service_id i, session_id i) <> (0, 0) ->
  exists s', rrc_rlc_remove_rlc c 0 1 rb s = Ret (s', RLC_OP_STATUS_OK) /\
    entity s' (session_key c i) = entity s (session_key c i) /\
    mbms_id_of c (module_id c) rb s' = Ret {| service_id := 0; session_id := 0 |}.
Proof.
  intros (Hm & Hr & He) Henb Hrb Hs E1 E2 E3 Hv Hss Hne. unfold rrc_rlc_remove_rlc, clear_session.
  rewrite Henb. cbn [Z.eqb negb]. rewrite E1. cbn [mbind cres_bind].
  destruct (aset2_ok _ _ _ {| service_id := 0; session_id := 0 |} _ E2) as (tab & -> & Etab). cbn [mbind cres_bind].
  destruct (aset2_ok _ _ _ 0 _ E3) as (rbs & -> & _). cbn [mbind cres_bind].
  cbn [set_sessions set_rlc g_rlc rlc_mbms_lcid2service_session_id_eNB]. rewrite Etab. cbn [mbind cres_bind].
  rewrite (proj2 (Z.ltb_lt rb _)) by done. cbn [c_assert mbind cres_bind].
  set (s1 := Globals _ _ _). assert (Hs1 : bearers_rep s1 B) by exact Hs.
  destruct (release_key_rep (session_key c {| service_id := 0; session_id := 0 |}) s1 B Hs1) as (s' & E & _ & _ & Ho).
  exists s'. split; [done|]. split.
  - rewrite Ho; [done|]. unfold session_key. rewrite !mbms_key_value by (done || lia). cbn [service_id session_id].
    intros Heq. apply Hne. f_equal; lia.
  - clear Ho. unfold release_key in E. revert E.
    destruct (hashtable_get _ _) as [[rc p]|]; cbn [mbind cres_bind]; [|done].
    unfold mbms_id_of. rewrite Henb. cbn [Z.eqb negb].
    destruct rc; try (intros [= <-]; cbn; rewrite E1; cbn; exact Etab).
    destruct (hashtable_remove _ _) as [[[rc2 t] f]|]; cbn [mbind cres_bind]; [|done].
    destruct (for_each _ _ _); cbn [mbind cres_bind]; [|done]. intros [= <-]. cbn. rewrite E1. exact Etab.
Qed.

(** The layer of an eNB with one multicast session. *)
Lemma mbms_release_keeps_bearer_witness :
  exists s0 s1 : rlc_globals QueueEntity.qent,
    g_rlc s0 = Build_rlc_state (Some (Build_hash_table_t 1 0 [[]] def_hashfunc)) ∅
      [[Build_rlc_mbms_id 3 2]] [] [] /\
    rrc_rlc_remove_rlc (Ctxt 0 0 1 0) 0 1 0 s0 = Ret (s1, RLC_OP_STATUS_OK) /\
    mbms_id_of (Ctxt 0 0 1 0) 0 0 s1 = Ret {| service_id := 0; session_id := 0 |}.
Proof.
  set (t := Build_hash_table_t 1 0 [[]] def_hashfunc).
  set (s0 := Globals (Build_rlc_state (Some t) (∅ : gmap Z (rlc_union QueueEntity.qent um_object))
    [[Build_rlc_mbms_id 3 2]] [] []) [[5]] [[0]]).
  assert (Ht : ht_rep t ∅) by (apply (rep_empty 0 1 None t); [reflexivity|lia]).
  assert (Hs : bearers_rep s0 ∅) by (exists t, ∅; split; [reflexivity|]; split; [exact Ht|]; constructor; intros; done).
  destruct (mbms_release_keeps_bearer (Ctxt 0 0 1 0) 0 0 (Build_rlc_mbms_id 3 2) 5 s0 ∅) as (s1 & E1 & _ & E2);
    try done; try (cbn; lia).
  exists s0, s1. split; [reflexivity|]. split; [exact E1|exact E2].
Defined.
