(* ===== verification/RlcBearer.v ===== *)
(** A bearer of unacknowledged mode from end to end.

    RRC configures the bearer in the RLC layers of the eNB and of the user ([RlcRrc]); the upper layer
    of the eNB submits SDUs ([rlc_data_req]); the MAC asks for the status and the data with the
    primitives of [RlcMac] and gives the bytes to the RLC layer of the user.  The theorem puts the
    configuration, the dispatch by the hash table, the transport blocks and the two entities
    together. *)
From stdpp Require Import base list numbers gmap.
From coqutil Require Import Byte.
From Stdlib Require Import ZArith Lia.
From S2P Require Import Prelude SplitIface RlcPrims Hashtable RlcTm RlcMac RlcUm RlcUmTx RlcUmDar RlcUmEntity RlcRrc.
Open Scope Z_scope.

Section Bearer.
Context {AM : Type} `{HA : AmOps AM} `{HE : RlcEntity AM} `{HB : BlockAlloc}.
Abbreviation globals := (rlc_globals AM).

(** ** Runs *)

(** The arguments of the MAC for the data bearer [d], whose logical channel is [d + 2]. *)
Definition mac_args_of (c : protocol_ctxt_t) (d frame : Z) : mac_args := {|
  module_idP := module_id c; rntiP := rnti c; eNB_index := 0; frameP := frame; enb_flagP := enb_flag c;
  MBMS_flagP := 0; channel_idP := d + 2 |}.

Definition at_frame (c : protocol_ctxt_t) (f : Z) : protocol_ctxt_t := Ctxt (module_id c) (rnti c) (enb_flag c) f.

(** One transport opportunity: the status, the request when there is something to send, and the
    indication of what was sent to the other side. *)
Definition transport (c1 c2 : protocol_ctxt_t) (d frame tb : Z) (s1 s2 : globals) : cres (globals * globals) :=
  '(r1, resp) ← mac_rlc_status_ind (mac_args_of c1 d frame) tb (g_rlc s1);
  if 0 <? bytes_in_buffer resp then
    '(r1, (n, buf)) ← mac_rlc_data_req 1 (mac_args_of c1 d frame) (zeros MAX_DLSCH_PAYLOAD_BYTES) r1;
    if 0 <? n then
      r2 ← mac_rlc_data_ind (fun _ => true) (mac_args_of c2 d frame) buf 0 n 1 None (g_rlc s2);
      Ret (set_rlc s1 r1, set_rlc s2 r2)
    else Ret (set_rlc s1 r1, s2)
  else Ret (set_rlc s1 r1, s2).

Definition bearer_step (c1 c2 : protocol_ctxt_t) (d : Z) (ev : Z * um_event) (s : globals * globals)
  : cres (globals * globals) :=
  match ev.2 with
  | Submit sdu =>
      '(s1, _) ← rlc_data_req true (at_frame c1 ev.1) 0 0 d 0 0 (zlen sdu) sdu s.1; Ret (s1, s.2)
  | Grant tb => transport c1 c2 d ev.1 tb s.1 s.2
  end.

(** ** The link inside of the two layers *)

Definition has_um (s : globals) (k : Z) (e : um_entity) : Prop :=
  exists p, entity s k = Ret (Some (p, RLC_MODE_UM (UmObject true e))).

Record layers_link (c1 c2 : protocol_ctxt_t) (d : Z) (five : bool) (base : list (list byte)) (q : list waiting)
  (out : list (list byte)) (s : globals * globals) : Prop := {
  ll_ends : exists e1 e2, has_um s.1 (bearer_key c1 0 d) e1 /\ has_um s.2 (bearer_key c2 0 d) e2 /\
    um_link five q out (e1, e2) /\ is_data_plane (um_recv e2) = true;
  ll_delivered : rlc_delivered (g_rlc s.2) = base ++ out;
}.

(** The logical channel of the MAC leads to the bearer. *)
Lemma channel_key_bearer c d f : 1 <= d < 14 -> channel_key (mac_args_of c d f) = bearer_key c 0 d.
Proof.
  intros Hd. unfold channel_key, bearer_key, srb_flag_of, rb_id_of. cbn [channel_idP mac_args_of module_idP rntiP enb_flagP].
  rewrite (proj2 (Z.ltb_lt 2 _)), (proj2 (Z.leb_gt _ 2)) by lia. rewrite u16_small by lia. f_equal. lia.
Qed.

(** Writing the entity found under a key. *)
Lemma has_set s k p u e : entity s k = Ret (Some (p, u)) -> has_um (set_union s p (RLC_MODE_UM (UmObject true e))) k e.
Proof. intros He. exists p. by apply (find_set_entity (UM := um_object) k (g_rlc s) p u). Qed.

(** What the status announces. *)
Lemma status_bytes five q now frame tb e : tx_ok five q (um_send e) -> running (t_reordering (um_recv e)) = 0 ->
  exists r, rlc_um_mac_status_indication true now frame tb e =
      Ret (Um (um_protocol_state e) (granted (um_send e) tb) (um_recv e), r) /\
    (0 <? i32 (sr_bytes r)) = bool_decide (q <> []).
Proof.
  intros [X1 X2 X3 X4 X5 X6 X7] Ht. unfold rlc_um_mac_status_indication. rewrite idle_timer by done.
  cbn [mbind cres_bind]. eexists. split; [reflexivity|]. change (Tx _ _ _ _ _ _ _) with (granted (um_send e) tb).
  unfold rlc_um_get_buffer_occupancy, granted. cbn [buffer_occupancy input_sdus tx_header_min_length_in_bytes].
  rewrite X3. pose proof (queue_bytes_nonneg q). assert (0 < hdr_len five <= 2) by (unfold hdr_len; destruct five; lia).
  destruct X1 as [|w x q xs Hw]; [done|]. rewrite bool_decide_true by done.
  pose proof (to_range _ _ Hw) as Hr. change (queue_bytes (w :: q)) with (zlen w.2 + queue_bytes q) in *.
  pose proof (queue_bytes_nonneg q). assert (0 < zlen w.2) by apply Hw.
  rewrite (proj2 (Z.ltb_lt 0 (zlen w.2 + queue_bytes q))) by lia.
  rewrite (u32_small (zlen w.2 + queue_bytes q)), (proj2 (Z.ltb_lt 0 (zlen w.2 + queue_bytes q))) by lia.
  cbn [sr_bytes]. rewrite X6, u32_small, i32_small by lia. apply Z.ltb_lt. lia.
Qed.

(** The upper layer submits an SDU. *)
Lemma submit_layers c1 c2 d five base q out s f sdu : 1 <= d < 14 -> layers_link c1 c2 d five base q out s ->
  event_ok five true (Submit sdu) q ->
  exists s', bearer_step c1 c2 d (f, Submit sdu) s = Ret s' /\
    layers_link c1 c2 d five base (q ++ [([], sdu)]) out s'.
Proof.
  intros Hd [(e1 & e2 & [p1 H1] & H2 & Hl & Hdp) Hb] Hev. destruct s as [s1 s2]. cbn [fst snd] in *.
  pose proof Hev as [Hsz _]. unfold bearer_step. cbn [fst snd]. unfold rlc_data_req.
  change (negb (0 =? 0)) with false. cbn match. change (Z.of_nat NB_RB_MAX) with 14.
  rewrite (proj2 (Z.ltb_lt d 14)), (proj2 (Z.ltb_lt 0 (zlen sdu))) by lia. cbn [c_assert mbind cres_bind].
  change (bearer_key (at_frame c1 f) 0 d) with (bearer_key c1 0 d). unfold entity in H1. rewrite H1. cbn [mbind cres_bind negb].
  rewrite bget_whole. cbn [mbind cres_bind]. eexists. split; [reflexivity|].
  destruct (submit_link five q out (e1, e2) sdu (fun _ => None) 0 f Hl) as ([a b] & E & Hl' & Hdp'); [cbn; by rewrite Hdp|].
  injection E as <- <-. cbn [snd] in Hdp'. constructor; [|done]. cbn [fst snd]. eexists _, e2.
  split; [eapply (has_set s1 _ p1 _ _ H1)|]. split_and!; try done.
Qed.

(** A transport block written into the buffer of the MAC and read back on the other side. *)
Lemma block_transfer tb : 0 < tr_size tb <= zlen (tr_data tb) -> tr_size tb <= Z.of_nat MAX_DLSCH_PAYLOAD_BYTES ->
  exists b, mac_rlc_serialize_tb (zeros MAX_DLSCH_PAYLOAD_BYTES) [tb] = Ret (tr_size tb, b) /\
    mac_rlc_deserialize_tb (fun _ => true) b 0 (tr_size tb) 1 None = Ret (over_the_air [tb]).
Proof.
  intros Hs Hm. change (Z.of_nat MAX_DLSCH_PAYLOAD_BYTES) with 12288 in Hm.
  assert (Hb : tbs_bytes [tb] = take (Z.to_nat (tr_size tb)) (tr_data tb)) by (unfold tbs_bytes; cbn; by rewrite app_nil_r).
  assert (Hz : zlen (tbs_bytes [tb]) = tr_size tb) by (rewrite Hb; unfold zlen in *; rewrite length_take; lia).
  destruct (serialize_ok [tb] (zeros MAX_DLSCH_PAYLOAD_BYTES)) as (b & E & _ & Hg).
  - apply Forall_singleton. unfold tb_ok. lia.
  - rewrite Hz, zlen_zeros. change (Z.of_nat MAX_DLSCH_PAYLOAD_BYTES) with 12288. lia.
  - by rewrite zlen_zeros.
  - exists b. rewrite Hz in E, Hg. split; [done|]. unfold mac_rlc_deserialize_tb.
    change (Z.to_nat 1) with 1%nat. cbn [deserialize_loop mbind cres_bind]. change (0 + 0) with 0. rewrite Hg.
    cbn [mbind cres_bind]. unfold over_the_air. cbn [fmap list_fmap]. rewrite Hb, Z.shiftl_mul_pow2 by lia. done.
Qed.

(** The primitives of the MAC on a bearer of any mode. *)
Lemma layer_status c d f tb (g : rlc_state AM um_object) p u u' r : 1 <= d <= 11 ->
  find_entity (bearer_key c 0 d) g = Ret (Some (p, u)) -> union_status (mac_args_of c d f) tb u = Ret (u', r) ->
  mac_rlc_status_ind (mac_args_of c d f) tb g = Ret (set_entity g p u', r).
Proof.
  intros Hd He Er. unfold mac_rlc_status_ind. change (MBMS_flagP (mac_args_of c d f)) with 0.
  cbn [Z.eqb negb mbind cres_bind]. rewrite channel_key_bearer, He by lia. cbn [mbind cres_bind]. by rewrite Er.
Qed.

Lemma layer_request c d f (g : rlc_state AM um_object) p u u' tbs n b buf : 1 <= d <= 11 ->
  find_entity (bearer_key c 0 d) g = Ret (Some (p, u)) -> union_data_request (mac_args_of c d f) u = Ret (u', tbs) ->
  mac_rlc_serialize_tb buf tbs = Ret (n, b) ->
  mac_rlc_data_req 1 (mac_args_of c d f) buf g = Ret (set_entity g p u', (n, b)).
Proof.
  intros Hd He Er Es. unfold mac_rlc_data_req. change (MBMS_flagP (mac_args_of c d f)) with 0.
  cbn [Z.eqb negb andb]. change (channel_idP (mac_args_of c d f)) with (d + 2). change (Z.of_nat NB_RB_MAX) with 14.
  rewrite (proj2 (Z.ltb_lt (d + 2) 14)) by lia. cbn [c_assert mbind cres_bind]. rewrite channel_key_bearer, He by lia.
  cbn [mbind cres_bind]. rewrite Er. cbn [mbind cres_bind]. by rewrite Es.
Qed.

Lemma layer_indication c d f (g : rlc_state AM um_object) p u u' l buf n di : 1 <= d <= 11 ->
  find_entity (bearer_key c 0 d) g = Ret (Some (p, u)) -> mac_rlc_deserialize_tb (fun _ => true) buf 0 n 1 None = Ret di ->
  union_data_indication (mac_args_of c d f) di u = Ret (u', l) ->
  mac_rlc_data_ind (fun _ => true) (mac_args_of c d f) buf 0 n 1 None g = Ret (add_delivered (set_entity g p u') l).
Proof.
  intros Hd He Ed Ei. unfold mac_rlc_data_ind. change (MBMS_flagP (mac_args_of c d f)) with 0.
  cbn [Z.eqb negb andb mbind cres_bind]. rewrite channel_key_bearer, He by lia. cbn [mbind cres_bind]. rewrite Ed.
  cbn [mbind cres_bind]. by rewrite Ei.
Qed.

(** The primitives of the entity of unacknowledged mode in the union. *)
Lemma um_status a tb e e' r : rlc_um_mac_status_indication true (ctxt_time a) (frameP a) tb e = Ret (e', r) ->
  exists resp, union_status (AM := AM) a tb (RLC_MODE_UM (UmObject true e)) = Ret (RLC_MODE_UM (UmObject true e'), resp) /\
    bytes_in_buffer resp = i32 (sr_bytes r).
Proof. intros E. cbn [union_status ent_status um_object_ops um_entity_ops um_ent]. rewrite E. cbn [mbind cres_bind initialized]. by eexists. Qed.

Lemma um_request a e e' tbs : rlc_um_mac_data_request block_alloc e = Ret (e', tbs) ->
  union_data_request (AM := AM) a (RLC_MODE_UM (UmObject true e)) = Ret (RLC_MODE_UM (UmObject true e'), tbs).
Proof. intros E. cbn [union_data_request ent_data_request um_object_ops um_entity_ops um_ent initialized]. by rewrite E. Qed.

Lemma um_indication a di e e' : rlc_um_mac_data_indication true (ctxt_time a) di e = Ret e' ->
  union_data_indication (AM := AM) a di (RLC_MODE_UM (UmObject true e)) =
    Ret (RLC_MODE_UM (UmObject true e'), drop (length (delivered (output (um_recv e)))) (delivered (output (um_recv e')))).
Proof. intros E. cbn [union_data_indication ent_data_indication um_object_ops um_entity_ops um_ent initialized]. by rewrite E. Qed.

(** The SDUs a receiver has delivered. *)
Lemma link_delivered five q out e1 e2 : um_link five q out (e1, e2) -> delivered (output (um_recv e2)) = out.
Proof. intros [_ _ _ _ _ _ _ _ (h & Hs & _)]. apply Hs. Qed.

(** A transport opportunity. *)
Lemma transport_layers `{!BlockAllocOk} c1 c2 d five base q out s f tb : 1 <= d <= 11 ->
  layers_link c1 c2 d five base q out s -> event_ok five true (Grant tb) q -> tb <= Z.of_nat MAX_DLSCH_PAYLOAD_BYTES ->
  exists s' done, bearer_step c1 c2 d (f, Grant tb) s = Ret s' /\
    layers_link c1 c2 d five base (queue_step five (Grant tb) q) (out ++ done) s' /\
    sdus_of q = done ++ sdus_of (queue_step five (Grant tb) q).
Proof.
  intros Hd [(e1 & e2 & [p1 H1] & [p2 H2] & Hl & Hdp) Hb] [Htb Hev] Hmax. destruct s as [s1 s2]. cbn [fst snd] in *.
  unfold bearer_step, transport. cbn [fst snd]. unfold entity in H1, H2.
  destruct (status_bytes five q (ctxt_time (mac_args_of c1 d f)) f tb e1 (lk_tx _ _ _ _ Hl) (lk_timer _ _ _ _ Hl)) as (r & Er & Hr).
  set (e1' := Um _ _ _) in *. destruct (um_status (mac_args_of c1 d f) tb e1 e1' r Er) as (resp & Eu & Hresp).
  rewrite (layer_status c1 d f tb _ p1 _ _ _ Hd H1 Eu).
  cbn [mbind cres_bind]. rewrite Hresp, Hr. set (g1 := set_entity (g_rlc s1) p1 _).
  pose proof (link_granted five q out e1 e2 tb Hl) as Hl1. fold e1' in Hl1.
  pose proof (find_set_entity _ _ _ _ (RLC_MODE_UM (UmObject true e1')) H1) as H1'. fold g1 in H1'.
  destruct q as [|w q].
  { rewrite bool_decide_false by (intros Hx; by apply Hx). eexists _, []. split; [reflexivity|]. rewrite app_nil_r. split; [|done].
    constructor; [|done]. exists e1', e2. split_and!; try done; [by exists p1|by exists p2]. }
  rewrite bool_decide_true by done.
  assert (Hnb : nb_bytes_requested_by_mac (um_send e1') = tb) by (cbn; by rewrite u16_small by lia).
  cbn [queue_step]. destruct (Z.ltb_spec (hdr_len five) tb) as [Hh|Hh].
  2:{ rewrite (layer_request c1 d f g1 p1 _ (RLC_MODE_UM (UmObject true e1')) [] 0 (zeros MAX_DLSCH_PAYLOAD_BYTES) _ Hd H1'); [| |done].
      2:{ apply um_request,  (request_nothing five block_alloc e1' (w :: q)); [apply Hl1..|right; lia]. }
      eexists _, []. split; [reflexivity|]. rewrite app_nil_r. split; [|done]. constructor; [|done].
      exists e1', e2. split_and!; try done; [|by exists p2]. exists p1. exact (find_set_entity _ _ _ _ _ H1'). }
  specialize (Hev ltac:(done) Hh). destruct (pack (pdu_room five tb (w :: q)) 2 (w :: q)) as [[[fs last] rest] slack] eqn:Hpack.
  destruct Hev as [Hcount Hslack].
  destruct (link_request five block_alloc block_alloc_ok (ctxt_time (mac_args_of c2 d f)) (w :: q) out e1' e2 tb fs last rest slack Hl1)
    as (a' & b' & tbk & dn & Erq & Hsz & Hsz2 & Eind & Hl' & Esdus & Hdp'); [done|lia|done..|].
  destruct (block_transfer tbk) as (buf & Es & Edes); [lia|lia|].
  rewrite (layer_request c1 d f g1 p1 _ _ [tbk] _ buf _ Hd H1' (um_request _ _ _ _ Erq) Es). cbn [mbind cres_bind].
  rewrite (proj2 (Z.ltb_lt 0 (tr_size tbk))) by lia.
  rewrite (layer_indication c2 d f _ p2 _ _ _ buf _ _ Hd H2 Edes (um_indication _ _ _ _ Eind)). cbn [mbind cres_bind].
  rewrite (link_delivered _ _ _ _ _ Hl), (link_delivered _ _ _ _ _ Hl'), drop_app_length.
  eexists _, dn. split; [reflexivity|]. split; [|done]. constructor.
  - exists a', b'. split_and!; [exists p1; exact (find_set_entity _ _ _ _ _ H1')|exists p2; exact (find_set_entity _ _ _ _ _ H2)|done|].
    by rewrite Hdp'.
  - cbn. rewrite Hb. by rewrite app_assoc.
Qed.

(** A run of submissions and transport opportunities. *)
Lemma run_layers `{!BlockAllocOk} c1 c2 d five base evs : 1 <= d <= 11 -> forall q out s,
  layers_link c1 c2 d five base q out s -> events_ok five true evs.*2 q ->
  Forall (fun ev => match ev.2 with Grant tb => tb <= Z.of_nat MAX_DLSCH_PAYLOAD_BYTES | Submit _ => True end) evs ->
  exists s' q' out', for_each (bearer_step c1 c2 d) evs s = Ret s' /\ layers_link c1 c2 d five base q' out' s' /\
    out' ++ sdus_of q' = out ++ sdus_of q ++ submitted evs.*2.
Proof.
  intros Hd. induction evs as [|[f ev] evs IH]; intros q out s Hl Hok Hmax.
  { exists s, q, out. cbn. by rewrite app_nil_r. }
  destruct Hok as [Hev Hok]. apply Forall_cons_1 in Hmax as [Hm Hmax]. cbn [for_each].
  destruct ev as [sdu|tb].
  - destruct (submit_layers c1 c2 d five base q out s f sdu ltac:(lia) Hl Hev) as (s1 & -> & Hl1). cbn [mbind cres_bind].
    destruct (IH _ _ _ Hl1 Hok Hmax) as (s' & q' & out' & E & Hl' & Hout). exists s', q', out'. split_and!; [done|done|].
    rewrite Hout. unfold sdus_of. rewrite fmap_app, <- !app_assoc. done.
  - destruct (transport_layers c1 c2 d five base q out s f tb Hd Hl Hev Hm) as (s1 & dn & -> & Hl1 & Hdn). cbn [mbind cres_bind].
    destruct (IH _ _ _ Hl1 Hok Hmax) as (s' & q' & out' & E & Hl' & Hout). exists s', q', out'. split_and!; [done|done|].
    rewrite Hout, Hdn, <- !app_assoc. done.
Qed.
End Bearer.

(** ** Configuration *)

(** An entity configured with [rx] and [tx] bits for the numbers of the two directions. *)
Definition um_conf (rx tx ms : Z) : um_entity :=
  Um RLC_DATA_TRANSFER_READY_STATE (rlc_um_configure_tx rx tx rlc_um_init_tx)
    (RlcUm.rlc_um_configure ms rx tx 0 (RlcUm.rlc_um_init true)).

Lemma conf_link five up ms1 ms2 :
  um_link five [] [] (um_conf (sn_len up) (sn_len five) ms1, um_conf (sn_len five) (sn_len up) ms2).
Proof.
  constructor; try by destruct five, up.
  exists 0. split; [|by destruct five, up]. apply configured_sync; destruct five, up; (by left) || (by right) || (right; by left).
Qed.

(** The enumerated value of a length. *)
Definition sn_FieldLength_of (five : bool) : Z := if five then 0 else 1.

Section Setup.
Context {AM : Type} `{HA : AmOps AM} (calloc : gmap Z (rlc_union AM um_object) -> Z).
Context (Hcalloc : forall h, calloc h <> 0 /\ h !! calloc h = None).

(** The request of RRC for one data bearer with both directions. *)
Definition add_um_bearer (c : protocol_ctxt_t) (d : Z) (down up : bool) (t : Z) (s : rlc_globals AM)
  : cres (rlc_globals AM * Z) :=
  rrc_rlc_config_asn1_req calloc true c None
    (Some [DrbToAdd d (Some (RLC_Config_PR_um_Bi_Directional (sn_FieldLength_of up) (DlUm (sn_FieldLength_of down) t)))])
    None None s.

(** The configuration of an entity with cleared memory. *)
Lemma enter_ready_zero c down up t ms : aget t_Reordering_tab t = Ret ms -> t < 31 ->
  um_enter_ready 0 (um_configure_asn1 c 0 (Some (sn_FieldLength_of up)) (Some (DlUm (sn_FieldLength_of down) t))) um_zero =
    Ret (UmObject true (if 0 <? enb_flag c then um_conf (sn_len up) (sn_len down) ms
                        else um_conf (sn_len down) (sn_len up) ms)).
Proof.
  intros Et Ht. unfold um_enter_ready. cbn [rlc_um_init initialized um_zero um_ent um_protocol_state rlc_um_fsm_notify_event].
  change (CONFIG_REQ_ENTER_DATA_TRANSFER_READY_STATE_EVENT =? CONFIG_REQ_ENTER_DATA_TRANSFER_READY_STATE_EVENT) with true.
  cbn [mbind cres_bind Z.eqb negb]. unfold um_configure_asn1.
  replace (sn_length_of (Some (sn_FieldLength_of up))) with (Some (sn_len up)) by by destruct up.
  replace (sn_length_of (dl_sn_FieldLength <$> Some (DlUm (sn_FieldLength_of down) t))) with (Some (sn_len down)) by by destruct down.
  cbn [dl_t_Reordering]. rewrite (proj2 (Z.ltb_lt t 31)), Et by done. cbn [mbind cres_bind]. by destruct (0 <? enb_flag c).
Qed.

Lemma add_um_bearer_ok c d down up t ms s B : 1 <= d <= 11 -> 0 <= t < 31 -> aget t_Reordering_tab t = Ret ms ->
  bearers_rep s B -> B !! bearer_key c 0 d = None ->
  exists s', add_um_bearer c d down up t s = Ret (s', RLC_OP_STATUS_OK) /\
    has_um s' (bearer_key c 0 d) (if 0 <? enb_flag c then um_conf (sn_len up) (sn_len down) ms
                                  else um_conf (sn_len down) (sn_len up) ms) /\
    rlc_delivered (g_rlc s') = rlc_delivered (g_rlc s).
Proof.
  intros Hd Ht Et Hs Hb. unfold add_um_bearer, rrc_rlc_config_asn1_req.
  cbn [each for_each mbind cres_bind add_drb drb_rlc_Config drb_Identity]. rewrite u16_small, u32_small by lia.
  cbn [add_config]. unfold add_and_configure.
  destruct (add_new calloc Hcalloc c 0 d (d + 2) MODE_UM s B Hs) as (s1 & p & -> & Hp & Hs1 & Hdel & He & _);
    [change (Z.of_nat NB_RB_MAX) with 14; lia|unfold RLC_MAX_LC; lia|done|].
  cbn [mbind cres_bind]. rewrite (proj2 (Z.eqb_neq p 0)) by done. cbn [negb].
  unfold config_req_rlc_um_asn1. cbn [Z.eqb negb mbind cres_bind]. unfold entity in He. rewrite He.
  cbn [mbind cres_bind as_um zero_union]. rewrite (enter_ready_zero c down up t ms Et) by lia. cbn [mbind cres_bind].
  eexists. split; [reflexivity|]. split; [|done]. by eapply has_set.
Qed.
End Setup.

(** ** Property *)

(** C5: a bearer of unacknowledged mode delivers what was submitted.  RRC adds the data bearer [d] with the
    same configuration to the RLC layers of an eNB and of a user, which may hold other bearers.
    Then, for any sequence of SDUs submitted at the eNB and of transport opportunities that the two
    sides can handle, nothing fails, and the SDUs delivered to the upper layer of the user, followed
    by the SDUs that wait in the eNB, are exactly the SDUs submitted, in order. *)
Theorem um_bearer_transfer {AM} `{HA : AmOps AM} `{HE : RlcEntity AM} `{HB : BlockAllocOk}
  (calloc : gmap Z (rlc_union AM um_object) -> Z) c1 c2 d down up t s01 s02 B1 B2 evs :
  (forall h, calloc h <> 0 /\ h !! calloc h = None) -> enb_flag c1 = 1 -> enb_flag c2 = 0 ->
  1 <= d <= 11 -> 0 <= t < 31 -> bearers_rep s01 B1 -> B1 !! bearer_key c1 0 d = None ->
  bearers_rep s02 B2 -> B2 !! bearer_key c2 0 d = None -> events_ok down true evs.*2 [] ->
  Forall (fun ev => match ev.2 with Grant tb => tb <= Z.of_nat MAX_DLSCH_PAYLOAD_BYTES | Submit _ => True end) evs ->
  exists s1 s2 s' q e,
    add_um_bearer calloc c1 d down up t s01 = Ret (s1, RLC_OP_STATUS_OK) /\
    add_um_bearer calloc c2 d down up t s02 = Ret (s2, RLC_OP_STATUS_OK) /\
    for_each (bearer_step c1 c2 d) evs (s1, s2) = Ret s' /\
    has_um s'.1 (bearer_key c1 0 d) e /\ tx_ok down q (um_send e) /\
    rlc_delivered (g_rlc s'.2) ++ sdus_of q = rlc_delivered (g_rlc s02) ++ submitted evs.*2.
Proof.
  intros Hcalloc He1 He2 Hd Ht Hs1 Hb1 Hs2 Hb2 Hok Hmax.
  destruct (aget_lt t_Reordering_tab t) as (ms & Et); [change (zlen t_Reordering_tab) with 31; lia|].
  destruct (add_um_bearer_ok calloc Hcalloc c1 d down up t ms s01 B1) as (s1 & E1 & H1 & _); [done..|].
  destruct (add_um_bearer_ok calloc Hcalloc c2 d down up t ms s02 B2) as (s2 & E2 & H2 & Hdel); [done..|].
  rewrite He1 in H1. rewrite He2 in H2. change (0 <? 1) with true in H1. change (0 <? 0) with false in H2.
  assert (Hl : layers_link c1 c2 d down (rlc_delivered (g_rlc s02)) [] [] (s1, s2)).
  { constructor; [|cbn; by rewrite Hdel, app_nil_r]. eexists _, _. split; [exact H1|]. split; [exact H2|].
    split; [apply conf_link|by destruct down, up]. }
  destruct (run_layers c1 c2 d down _ evs Hd _ _ _ Hl Hok Hmax) as (s' & q & out & E & [(a & b & Ha & _ & Hl' & _) Hout] & Hall).
  exists s1, s2, s', q, a. split_and!; try done; [apply Hl'|]. rewrite Hout, <- app_assoc. by f_equal.
Qed.

#[local] Instance fresh_blocks : BlockAlloc := fresh_block.
#[local] Instance fresh_blocks_ok : BlockAllocOk := fresh_block_ok.

(** Two SDUs over the bearer 1 with numbers of ten bits downward, between layers that have just been
    initialised. *)
Lemma um_bearer_transfer_witness :
  exists s1 s2 (s' : rlc_globals QueueEntity.qent * rlc_globals QueueEntity.qent) q e,
    for_each (bearer_step demo_ctxt (Ctxt 0 4660 0 7) 1) [(7, Submit abc); (8, Submit defgh); (9, Grant 5); (10, Grant 6)] (s1, s2) = Ret s' /\
    has_um s'.1 (bearer_key demo_ctxt 0 1) e /\ tx_ok false q (um_send e) /\
    rlc_delivered (g_rlc s'.2) ++ sdus_of q = [abc; defgh].
Proof.
  destruct (module_init_rep (AM := QueueEntity.qent) 0 1 16) as (s0 & _ & Hs0 & Hdel).
  destruct (um_bearer_transfer fresh_address demo_ctxt (Ctxt 0 4660 0 7) 1 false true 7 s0 s0 ∅ ∅
    [(7, Submit abc); (8, Submit defgh); (9, Grant 5); (10, Grant 6)] fresh_address_ok)
    as (s1 & s2 & s' & q & e & _ & _ & E & He & Hq & Hall); try done.
  - change (Z.of_nat MAX_DLSCH_PAYLOAD_BYTES) with 12288. do 2 (apply Forall_cons_2; [exact I|]).
    do 2 (apply Forall_cons_2; [cbn [snd]; lia|]). by apply Forall_nil_2.
  - exists s1, s2, s', q, e. split; [exact E|]. split; [exact He|]. split; [exact Hq|]. rewrite Hall, Hdel. reflexivity.
Defined.
