(* ===== verification/RlcAmBearer.v ===== *)
(** A bearer of acknowledged mode from end to end.

    The entity of [RlcAmEntity] is put behind the interfaces of the RLC layer: the primitives of the MAC
    ([RlcPrims.RlcEntity]) and the configuration and data requests ([RlcRrc.AmOps]).  RRC adds the bearer
    to the layers of an eNB and of a user; SDUs are submitted with [rlc_data_req], and the MAC of each
    side asks for the status and the data and gives the bytes to the other side with the primitives of
    [RlcMac].  The layers simulate the two entities of [RlcAmEntity], so that the SDUs delivered by the
    layer of the user are those that were submitted. *)
From stdpp Require Import base list numbers gmap.
From coqutil Require Import Byte.
From Stdlib Require Import ZArith Lia.
From S2P Require Import Prelude SplitIface RlcPrims Hashtable RlcMac RlcUm RlcAmRx RlcUmTx RlcAmTx RlcAmArq RlcAmEntity RlcUmEntity RlcRrc RlcBearer.
Open Scope Z_scope.

(** What the block of an SDU reads as when its head is taken for the description of the SDU. *)
Class HeadPeek := head_peek : am_sdu -> Z * Z * Z.

#[global] Instance am_entity_ops `{BlockAlloc} `{HeadPeek} : RlcEntity am_entity := {|
  ent_status a tb e := rlc_am_mac_status_indication head_peek (ctxt_time a) (frameP a) tb e;
  ent_data_request a e := rlc_am_mac_data_request block_alloc (ctxt_time a) (frameP a) e;
  ent_data_indication a di e :=
    e' ← rlc_am_mac_data_indication true (ctxt_time a) (frameP a) di e;
    Ret (e', drop (length (delivered (am_output (am_recv e)))) (delivered (am_output (am_recv e')))) |}.

#[global] Instance am_entity_requests : AmOps am_entity := {|
  am_zero := blank_entity;
  RlcRrc.rlc_am_init := RlcAmEntity.rlc_am_init;
  RlcRrc.rlc_am_set_debug_infos srb rb := RlcAmEntity.rlc_am_set_debug_infos (negb (srb =? 0)) rb;
  RlcRrc.rlc_am_configure := RlcAmEntity.rlc_am_configure;
  RlcRrc.rlc_am_cleanup := RlcAmEntity.rlc_am_cleanup;
  RlcRrc.rlc_am_data_req c mui _ sdu e := am_data_req (frame c) mui sdu e |}.

Abbreviation globals := (rlc_globals am_entity).

(** ** Runs of two layers *)

Inductive layer_event :=
| ASubmit (frame mui : Z) (sdu : list byte)
| AGrant (frame tb : Z)
| ADeliver (frame : Z) (i : nat)
| AReport (frame tb : Z) (lost : bool).

(** The event of the entities: the time is that of the frame. *)
Definition loop_of (ev : layer_event) : loop_event :=
  match ev with
  | ASubmit frame mui sdu => LSubmit frame mui sdu
  | AGrant frame tb => LGrant (u32 (frame * 10)) frame tb
  | ADeliver frame i => LDeliver (u32 (frame * 10)) frame i
  | AReport frame tb lost => LReport (u32 (frame * 10)) frame tb lost
  end.

(** The layers of the two sides, and the blocks on the air with their sizes. *)
Record layers := Layers {
  ly_a : globals;
  ly_b : globals;
  ly_air : list (Z * list byte);
}.

Section Bearer.
Context `{HB : BlockAllocOk} `{HP : HeadPeek} (c1 c2 : protocol_ctxt_t) (d : Z) (Hd : 1 <= d <= 11).

(** The MAC asks for the status and for the data. *)
Definition ask (c : protocol_ctxt_t) (frame tb : Z) (s : globals) : cres (globals * (Z * list byte)) :=
  '(r, _) ← mac_rlc_status_ind (mac_args_of c d frame) tb (g_rlc s);
  '(r, x) ← mac_rlc_data_req 1 (mac_args_of c d frame) (zeros MAX_DLSCH_PAYLOAD_BYTES) r;
  Ret (set_rlc s r, x).

(** The MAC gives the bytes that it received. *)
Definition hear (c : protocol_ctxt_t) (frame : Z) (x : Z * list byte) (s : globals) : cres globals :=
  r ← mac_rlc_data_ind (fun _ => true) (mac_args_of c d frame) x.2 0 x.1 1 None (g_rlc s);
  Ret (set_rlc s r).

Definition layer_code (ev : layer_event) (s : layers) : cres (bool * layers) :=
  match ev with
  | ASubmit frame mui sdu =>
      '(a, _) ← RlcRrc.rlc_data_req true (at_frame c1 frame) 0 0 d mui 0 (zlen sdu) sdu (ly_a s);
      Ret (false, Layers a (ly_b s) (ly_air s))
  | AGrant frame tb =>
      '(a, x) ← ask c1 frame tb (ly_a s);
      Ret (false, Layers a (ly_b s) (ly_air s ++ if 0 <? x.1 then [x] else []))
  | ADeliver frame i =>
      match ly_air s !! i with
      | Some x => b ← hear c2 frame x (ly_b s); Ret (false, Layers (ly_a s) b (ly_air s))
      | None => Ret (false, s)
      end
  | AReport frame tb lost =>
      '(b, x) ← ask c2 frame tb (ly_b s);
      a ← (if negb lost && (0 <? x.1) then hear c1 frame x (ly_a s) else Ret (ly_a s));
      Ret (0 <? x.1, Layers a b (ly_air s))
  end.

Fixpoint layer_run (t0 dur : Z) (evs : list layer_event) (g : ghost) (s : layers) : cres (list layer_event * ghost * layers) :=
  match evs with
  | [] => Ret ([], g, s)
  | ev :: evs' =>
      if loop_guard t0 dur (loop_of ev) g then
        '(reported, s) ← layer_code ev s;
        layer_run t0 dur evs' (loop_spec (loop_of ev) reported g) s
      else Ret (evs, g, s)
  end.

(** ** The primitives *)

Definition has_am (s : globals) (k : Z) (e : am_entity) : Prop := exists p, entity s k = Ret (Some (p, RLC_MODE_AM e)).

Lemma ask_ok c frame tb s e e1 r e2 tbs n buf : has_am s (bearer_key c 0 d) e ->
  rlc_am_mac_status_indication head_peek (u32 (frame * 10)) frame tb e = Ret (e1, r) ->
  rlc_am_mac_data_request block_alloc (u32 (frame * 10)) frame e1 = Ret (e2, tbs) ->
  mac_rlc_serialize_tb (zeros MAX_DLSCH_PAYLOAD_BYTES) tbs = Ret (n, buf) ->
  exists s', ask c frame tb s = Ret (s', (n, buf)) /\ has_am s' (bearer_key c 0 d) e2 /\ rlc_delivered (g_rlc s') = rlc_delivered (g_rlc s).
Proof using Hd.
  intros [p He] E1 E2 Es. unfold entity in He. unfold ask. pose (a := mac_args_of c d frame).
  assert (Eu : exists resp, union_status (UM := um_object) a tb (RLC_MODE_AM e) = Ret (RLC_MODE_AM e1, resp)).
  { cbn [union_status ent_status am_entity_ops]. change (ctxt_time a) with (u32 (frame * 10)). change (frameP a) with frame. rewrite E1. cbn [mbind cres_bind]. by eexists. }
  destruct Eu as (resp & Eu). rewrite (layer_status c d frame tb _ p _ _ _ Hd He Eu). cbn [mbind cres_bind].
  pose proof (find_set_entity _ _ _ _ (RLC_MODE_AM e1) He) as He1.
  assert (Er : union_data_request (UM := um_object) a (RLC_MODE_AM e1) = Ret (RLC_MODE_AM e2, tbs)).
  { cbn [union_data_request ent_data_request am_entity_ops]. change (ctxt_time a) with (u32 (frame * 10)). change (frameP a) with frame. by rewrite E2. }
  rewrite (layer_request c d frame _ p _ _ tbs n buf _ Hd He1 Er Es). cbn [mbind cres_bind]. eexists. split; [reflexivity|]. split; [|done].
  exists p. exact (find_set_entity _ _ _ _ _ He1).
Qed.

Lemma hear_ok c frame x di s e e' : has_am s (bearer_key c 0 d) e -> mac_rlc_deserialize_tb (fun _ => true) x.2 0 x.1 1 None = Ret di ->
  rlc_am_mac_data_indication true (u32 (frame * 10)) frame di e = Ret e' ->
  exists s', hear c frame x s = Ret s' /\ has_am s' (bearer_key c 0 d) e' /\ rlc_delivered (g_rlc s') =
    rlc_delivered (g_rlc s) ++ drop (length (delivered (am_output (am_recv e)))) (delivered (am_output (am_recv e'))).
Proof using Hd.
  intros [p He] Ed Ei. unfold entity in He. unfold hear. pose (a := mac_args_of c d frame). set (l := drop _ _).
  assert (Eu : union_data_indication (UM := um_object) a di (RLC_MODE_AM e) = Ret (RLC_MODE_AM e', l)).
  { cbn [union_data_indication ent_data_indication am_entity_ops]. change (ctxt_time a) with (u32 (frame * 10)). change (frameP a) with frame. by rewrite Ei. }
  rewrite (layer_indication c d frame _ p _ _ _ _ _ _ Hd He Ed Eu). cbn [mbind cres_bind]. eexists. split; [reflexivity|]. split; [|done].
  exists p. exact (find_set_entity _ _ _ _ _ He).
Qed.
(** ** The layers simulate the entities *)

Definition carries (x : Z * list byte) (tb : mac_tb_req) : Prop :=
  0 < x.1 /\ mac_rlc_deserialize_tb (fun _ => true) x.2 0 x.1 1 None = Ret (over_the_air [tb]).

Record layers_sim (base : list (list byte)) (c : system) (s : layers) : Prop := {
  lm_a : has_am (ly_a s) (bearer_key c1 0 d) (sy_a c);
  lm_b : has_am (ly_b s) (bearer_key c2 0 d) (sy_b c);
  lm_air : Forall2 carries (ly_air s) (sy_air c);
  lm_out : rlc_delivered (g_rlc (ly_b s)) = base ++ delivered (am_output (am_recv (sy_b c)));
}.

(** One block, or none, in the buffer of the MAC. *)
Lemma pass_blocks tbs : tbs = [] \/ (exists tb, tbs = [tb] /\ 0 < tr_size tb <= zlen (tr_data tb) /\ tr_size tb < RLC_SDU_MAX_SIZE) ->
  exists n buf, mac_rlc_serialize_tb (zeros MAX_DLSCH_PAYLOAD_BYTES) tbs = Ret (n, buf) /\
    Forall2 carries (if 0 <? n then [(n, buf)] else []) tbs.
Proof using.
  intros [-> |(tb & -> & Hs & Hm)]; [by eexists _, _|]. unfold RLC_SDU_MAX_SIZE in Hm.
  destruct (block_transfer tb Hs) as (b & E1 & E2); [change (Z.of_nat MAX_DLSCH_PAYLOAD_BYTES) with 12288; lia|].
  exists (tr_size tb), b. split; [done|]. rewrite (proj2 (Z.ltb_lt 0 _)) by lia. repeat constructor; cbn; [lia|done].
Qed.

(** A block that starts with a PDU is in its memory. *)
Lemma block_of_sizes tb sn u : block_of tb sn u -> 0 < tr_size tb <= zlen (tr_data tb).
Proof using.
  intros (pb & E1 & E2). pose proof (f_equal zlen E2) as E. rewrite <- E1 in E. assert (0 < tr_size tb) by (rewrite E1, enc_am_len; unfold zlen; lia).
  unfold zlen in *. rewrite length_take in E. lia.
Qed.

Section Steps.
Context (t0 dur : Z) (Ht0 : 0 <= t0) (Hdur : 0 <= dur) (Hwrap : t0 + 2 * dur < 2 ^ 32).
Abbreviation inv := (loop_inv t0 dur).
Abbreviation code := (loop_code block_alloc head_peek).

(** The blocks for a grant, and for a report. *)
Lemma grant_blocks now frame tb g c a tbs rep :
  inv g c -> inv (loop_spec (LGrant now frame tb) rep g) (Sys a (sy_b c) (sy_air c ++ tbs)) ->
  tbs = [] \/ exists x, tbs = [x] /\ 0 < tr_size x <= zlen (tr_data x) /\ tr_size x < RLC_SDU_MAX_SIZE.
Proof using.
  intros V V'. pose proof (lv_length _ _ _ _ V) as H1. pose proof (lv_length _ _ _ _ V') as H2. cbn [sy_air loop_spec g_spec] in H2. rewrite length_app in H2.
  destruct (grant_plan (u16 tb) (g_spec g)) as [[[[fs last] rest] sl]|] eqn:Ep; [|left; apply nil_length_inv; lia].
  cbn [spec_send s_sent] in H2. rewrite length_app in H2. cbn [length] in H2.
  destruct tbs as [|x [|y l]]; cbn [length] in H2; [lia| |lia]. right. exists x. split; [done|].
  destruct (lookup_lt_is_Some_2 (s_sent (g_spec (loop_spec (LGrant now frame tb) rep g))) (length (sy_air c))) as [p Hp].
  { cbn [loop_spec g_spec]. rewrite Ep. cbn [spec_send s_sent]. rewrite length_app. cbn. lia. }
  destruct (lv_air _ _ _ _ V' _ _ Hp) as (b & Hb & Hbo & Hsz). cbn [sy_air] in Hb. rewrite lookup_app_r, Nat.sub_diag in Hb by lia. injection Hb as <-.
  split; [by eapply block_of_sizes|done].
Qed.

Lemma report_blocks now frame tb lost g c b1 r b2 tbs : inv g c -> loop_guard t0 dur (LReport now frame tb lost) g = true ->
  rlc_am_mac_status_indication head_peek now frame tb (sy_b c) = Ret (b1, r) -> rlc_am_mac_data_request block_alloc now frame b1 = Ret (b2, tbs) ->
  tbs = [] \/ exists x, tbs = [x] /\ 0 < tr_size x <= zlen (tr_data x) /\ tr_size x < RLC_SDU_MAX_SIZE.
Proof using Ht0 Hdur HB.
  intros V Hg Es Er. pose proof (lv_b _ _ _ _ V) as V3. pose proof (lv_sync _ _ _ _ V) as V4. cbn [loop_guard] in Hg. destruct (g_rx g) as [[R Hi] cs] eqn:Erx.
  apply andb_prop in Hg as [Hg _]. apply andb_prop in Hg as [Hg G1]. apply andb_prop in Hg as [Hg T3]. apply andb_prop in Hg as [T1 T2].
  apply Z.leb_le in T1, T2. apply Z.ltb_lt in T3. apply bool_decide_eq_true in G1 as ->.
  destruct (status_indication_ok t0 dur Ht0 Hdur head_peek _ now frame tb no_spec _ V3 ltac:(lia)) as (resp & Ei). rewrite Ei in Es. injection Es as <- <-.
  pose proof (looked_ok t0 dur _ now frame tb no_spec _ V3 T1) as L. set (e := looked now frame tb (sy_b c)) in *.
  assert (Sy : am_sync (sp_upd <$> s_sent (g_spec g)) (R, Hi, []) (am_recv e)) by (cbn [e looked am_recv]; destruct (negb _); [by apply tick_sync|done]).
  destruct ((2 <? am_nb_bytes_requested_by_mac (am_send e)) && negb (status_requested (am_recv e) =? 0) && (running (RlcAmEntity.t_status_prohibit e) =? 0)) eqn:Ed.
  - assert (Hnb : am_nb_bytes_requested_by_mac (am_send e) < 2 ^ 16) by (cbn; unfold u16; apply Z.mod_pos_bound; lia).
    destruct (report_made block_alloc block_alloc_ok t0 dur now frame e _ R Hi L Sy Hnb Ed) as (b' & x & E & _ & _ & Ss & Sd). rewrite E in Er. injection Er as <- <-.
    right. exists x. split; [done|]. apply (f_equal length) in Sd. rewrite length_take in Sd. change (length (ack_report _)) with 2%nat in Sd. unfold zlen, RLC_SDU_MAX_SIZE. lia.
  - rewrite (request_none t0 dur block_alloc now frame now no_spec e L Ed) in Er by (by left). injection Er as <- <-. by left.
Qed.
(** The SDUs that an arrival adds. *)
Lemma deliver_grows now frame i g c c' : inv g c -> loop_guard t0 dur (LDeliver now frame i) g = true -> inv (loop_spec (LDeliver now frame i) false g) c' ->
  delivered (am_output (am_recv (sy_b c))) `prefix_of` delivered (am_output (am_recv (sy_b c'))).
Proof using.
  intros V Hg V'. rewrite (loop_out _ _ _ _ V), (loop_out _ _ _ _ V'). cbn [loop_spec g_rx g_spec]. pose proof (lv_high _ _ _ _ V) as Hh.
  cbn [loop_guard] in Hg. destruct (g_rx g) as [[R Hi] cs]. cbn [fst snd] in *. apply andb_prop in Hg as [Hg _]. apply andb_prop in Hg as [Hg _].
  apply andb_prop in Hg as [Hg _]. apply Z.ltb_lt in Hg. destruct (arrive_high R Hi cs (Z.of_nat i) _ Hh Hg) as [_ HR].
  set (R' := (am_arrive _ _).1.1) in *. set (u := sp_upd <$> _). assert (E : take (Z.to_nat R') u = take (Z.to_nat R) u ++ drop (Z.to_nat R) (take (Z.to_nat R') u)).
  { rewrite <- (take_drop (Z.to_nat R) (take (Z.to_nat R') u)) at 1. by rewrite take_take, Nat.min_l by lia. }
  rewrite E, spec_pdus_app. cbn [fst]. by eexists.
Qed.

Lemma report_keeps now frame tb lost rep g c c' : inv g c -> inv (loop_spec (LReport now frame tb lost) rep g) c' ->
  delivered (am_output (am_recv (sy_b c'))) = delivered (am_output (am_recv (sy_b c))).
Proof using.
  intros V V'. rewrite (loop_out _ _ _ _ V), (loop_out _ _ _ _ V'). cbn [loop_spec g_rx g_spec]. destruct (rep && negb lost); [|done].
  pose proof (lv_low _ _ _ _ V) as Hlow. pose proof (lv_high _ _ _ _ V) as Hh. pose proof (as_high _ _ _ (lv_sync _ _ _ _ V)) as HRH.
  pose proof (rk_low _ _ (ao_retx _ _ (eo_send _ _ _ _ _ (lv_a _ _ _ _ V)))).
  destruct (spec_acks_facts (Z.to_nat ((g_rx g).1.1 - s_low (g_spec g))) (g_spec g)) as (_ & _ & _ & ->); [lia|lia|done].
Qed.

(** A step of the entities is a step of the layers. *)
Definition simulates (ev : layer_event) : Prop := forall base g c s r c', inv g c -> loop_guard t0 dur (loop_of ev) g = true -> layers_sim base c s ->
  code (loop_of ev) c = Ret (r, c') -> inv (loop_spec (loop_of ev) r g) c' -> exists s', layer_code ev s = Ret (r, s') /\ layers_sim base c' s'.

Lemma layer_submit frame mui sdu : simulates (ASubmit frame mui sdu).
Proof using Hd.
  intros base g c s r c' V Hg [Sa Sb Sr So] E V'. cbn [loop_of loop_code layer_code] in *.
  destruct (am_data_req frame mui sdu (sy_a c)) as [a|] eqn:Ea; [|done]. injection E as <- <-. destruct Sa as [p Hp]. unfold entity in Hp.
  assert (Hz : 0 < zlen sdu) by (cbn in Hg; destruct (Z.ltb_spec 0 (zlen sdu)); [done|discriminate]).
  unfold rlc_data_req. change (negb (0 =? 0)) with false. cbn match. change (Z.of_nat NB_RB_MAX) with 14.
  rewrite (proj2 (Z.ltb_lt d 14)), (proj2 (Z.ltb_lt 0 (zlen sdu))) by lia. cbn [c_assert mbind cres_bind].
  change (bearer_key (at_frame c1 frame) 0 d) with (bearer_key c1 0 d). rewrite Hp. cbn [mbind cres_bind negb]. rewrite bget_whole.
  cbn [mbind cres_bind RlcRrc.rlc_am_data_req am_entity_requests]. change (RlcRrc.frame (at_frame c1 frame)) with frame. rewrite Ea. cbn [mbind cres_bind].
  eexists. split; [reflexivity|]. constructor; cbn [ly_a ly_b ly_air sy_a sy_b sy_air]; try done.
  exists p. by apply (find_set_entity (UM := um_object) _ (g_rlc (ly_a s)) p (RLC_MODE_AM (sy_a c))).
Qed.

Lemma layer_grant frame tb : simulates (AGrant frame tb).
Proof using Hd.
  intros base g c s r c' V Hg [Sa Sb Sr So] E V'. cbn [loop_of loop_code layer_code] in *.
  destruct (rlc_am_mac_status_indication head_peek (u32 (frame * 10)) frame tb (sy_a c)) as [[a1 rs]|] eqn:E1; [|done]. cbn [mbind cres_bind] in E.
  destruct (rlc_am_mac_data_request block_alloc (u32 (frame * 10)) frame a1) as [[a2 tbs]|] eqn:E2; [|done]. injection E as <- <-.
  destruct (pass_blocks tbs (grant_blocks _ _ _ _ _ _ _ _ V V')) as (n & buf & Es & Hc).
  destruct (ask_ok _ _ _ _ _ _ _ _ _ _ _ Sa E1 E2 Es) as (s' & -> & Ha & _). cbn [mbind cres_bind fst]. eexists. split; [reflexivity|].
  constructor; cbn [ly_a ly_b ly_air sy_a sy_b sy_air]; try done. by apply Forall2_app.
Qed.

Lemma layer_deliver frame i : simulates (ADeliver frame i).
Proof using Hd.
  intros base g c s r c' V Hg [Sa Sb Sr So] E V'. cbn [loop_of loop_code layer_code] in *.
  destruct (sy_air c !! i) as [tb|] eqn:Ei; [|].
  2:{ injection E as <- <-. exists s. apply lookup_ge_None in Ei. rewrite (proj2 (lookup_ge_None _ _)) by (rewrite (Forall2_length _ _ _ Sr); done). by split. }
  destruct (Forall2_lookup_r _ _ _ _ _ Sr Ei) as (x & -> & _ & Hx).
  destruct (rlc_am_mac_data_indication true (u32 (frame * 10)) frame (over_the_air [tb]) (sy_b c)) as [b|] eqn:Eb; [|done]. injection E as <- <-.
  destruct (hear_ok c2 frame x _ _ _ _ Sb Hx Eb) as (s' & -> & Hb & Ho). cbn [mbind cres_bind]. eexists. split; [reflexivity|].
  constructor; cbn [ly_a ly_b ly_air sy_a sy_b sy_air]; try done. rewrite Ho, So, <- app_assoc. f_equal.
  destruct (deliver_grows _ _ _ _ _ _ V Hg V') as (l & Hl). cbn [sy_b] in Hl. by rewrite Hl, drop_app_length.
Qed.

Lemma layer_report frame tb lost : simulates (AReport frame tb lost).
Proof using Ht0 Hdur HB Hd.
  intros base g c s r c' V Hg [Sa Sb Sr So] E V'. cbn [loop_of loop_code layer_code] in *.
  destruct (rlc_am_mac_status_indication head_peek (u32 (frame * 10)) frame tb (sy_b c)) as [[b1 rs]|] eqn:E1; [|done]. cbn [mbind cres_bind] in E.
  destruct (rlc_am_mac_data_request block_alloc (u32 (frame * 10)) frame b1) as [[b2 tbs]|] eqn:E2; [|done]. cbn [mbind cres_bind] in E.
  destruct (pass_blocks tbs (report_blocks _ _ _ _ _ _ _ _ _ _ V Hg E1 E2)) as (n & buf & Es & Hc).
  destruct (ask_ok _ _ _ _ _ _ _ _ _ _ _ Sb E1 E2 Es) as (s2 & -> & Hb & Hdel). cbn [mbind cres_bind fst].
  destruct (if lost then _ else _) as [a|] eqn:Ea in E; [|done]. injection E as <- <-.
  assert (Ha : exists s1, (if negb lost && (0 <? n) then hear c1 frame (n, buf) (ly_a s) else Ret (ly_a s)) = Ret s1 /\ has_am s1 (bearer_key c1 0 d) a).
  { destruct lost; cbn [negb andb]; [injection Ea as <-; by eexists|]. destruct (0 <? n).
    - apply Forall2_cons_inv_l in Hc as (x & l & [_ Hx] & Hl & ->). apply Forall2_nil_inv_l in Hl as ->.
      destruct (hear_ok c1 frame (n, buf) _ _ _ _ Sa Hx Ea) as (s1 & E & Hh & _). by exists s1.
    - apply Forall2_nil_inv_l in Hc as ->. unfold rlc_am_mac_data_indication, rlc_am_rx in Ea. rewrite (eo_state _ _ _ _ _ (lv_a _ _ _ _ V)) in Ea.
      injection Ea as <-. by eexists. }
  destruct Ha as (s1 & -> & Ha). cbn [mbind cres_bind].
  assert (Hr : (0 <? n) = negb (bool_decide (tbs = []))) by (destruct (0 <? n); [apply Forall2_cons_inv_l in Hc as (x & l & _ & _ & ->)|apply Forall2_nil_inv_l in Hc as ->]; done).
  rewrite Hr. eexists. split; [reflexivity|]. constructor; cbn [ly_a ly_b ly_air sy_a sy_b sy_air]; try done.
  rewrite Hdel, So. f_equal. symmetry. exact (report_keeps _ _ _ _ _ _ _ _ V V').
Qed.

Lemma layer_step ev : simulates ev.
Proof using Ht0 Hdur HB Hd. destruct ev; [apply layer_submit|apply layer_grant|apply layer_deliver|apply layer_report]. Qed.

Lemma layer_run_ok base evs : forall g c s, inv g c -> layers_sim base c s ->
  exists past rest g' c' s', evs = past ++ rest /\
    loop_run block_alloc head_peek t0 dur (loop_of <$> evs) g c = Ret (loop_of <$> rest, g', c') /\
    layer_run t0 dur evs g s = Ret (rest, g', s') /\ inv g' c' /\ layers_sim base c' s'.
Proof using Ht0 Hdur Hwrap HB Hd.
  induction evs as [|ev evs IH]; intros g c s V S; [by exists [], [], g, c, s|]. cbn [fmap list_fmap loop_run layer_run].
  destruct (loop_guard t0 dur (loop_of ev) g) eqn:Eg; [|by exists [], (ev :: evs), g, c, s].
  destruct (loop_step block_alloc block_alloc_ok head_peek t0 dur Ht0 Hdur Hwrap _ _ _ V Eg) as (r & c' & E & V').
  destruct (layer_step ev _ _ _ _ _ _ V Eg S E V') as (s' & Es & S'). rewrite E, Es. cbn [mbind cres_bind].
  destruct (IH _ _ _ V' S') as (past & rest & g2 & c2' & s2 & -> & E1 & E2 & V2 & S2). by exists (ev :: past), rest, g2, c2', s2.
Qed.
End Steps.
End Bearer.

(** ** Configuration *)

Section Setup.
Context (calloc : gmap Z (rlc_union am_entity um_object) -> Z).
Context (Hcalloc : forall h, calloc h <> 0 /\ h !! calloc h = None).

(** The request of RRC for one data bearer in acknowledged mode. *)
Definition add_am_bearer (c : protocol_ctxt_t) (d : Z) (a : RLC_Config__am) (s : globals) : cres (globals * Z) :=
  rrc_rlc_config_asn1_req calloc true c None (Some [DrbToAdd d (Some (RLC_Config_PR_am a))]) None None s.

(** The entity that a configuration makes of cleared memory. *)
Definition am_made (d : Z) (i : rlc_am_info_t) : am_entity :=
  am_new blank_entity false d (RlcRrc.max_retx_threshold i) (RlcRrc.poll_pdu i) (RlcRrc.poll_byte i) (RlcRrc.t_poll_retransmit i)
    (info_t_reordering i) (RlcRrc.t_status_prohibit i).

Lemma add_am_bearer_ok c d a i s B : 1 <= d <= 11 -> am_info_of a = Ret (Some i) -> bearers_rep s B -> B !! bearer_key c 0 d = None ->
  exists s', add_am_bearer c d a s = Ret (s', RLC_OP_STATUS_OK) /\ has_am s' (bearer_key c 0 d) (am_made d i) /\
    rlc_delivered (g_rlc s') = rlc_delivered (g_rlc s).
Proof using Hcalloc.
  intros Hd Hi Hs Hb. unfold add_am_bearer, rrc_rlc_config_asn1_req.
  cbn [each for_each mbind cres_bind add_drb drb_rlc_Config drb_Identity]. rewrite u16_small, u32_small by lia.
  cbn [add_config]. unfold add_and_configure.
  destruct (add_new calloc Hcalloc c 0 d (d + 2) MODE_AM s B Hs) as (s1 & p & -> & Hp & Hs1 & Hdel & He & _);
    [change (Z.of_nat NB_RB_MAX) with 14; lia|unfold RLC_MAX_LC; lia|done|].
  cbn [mbind cres_bind]. rewrite (proj2 (Z.eqb_neq p 0)) by done. cbn [negb]. unfold config_req_rlc_am_asn1, find_bearer. unfold entity in He. rewrite He.
  cbn [mbind cres_bind as_am zero_union]. rewrite Hi. cbn [mbind cres_bind]. eexists. split; [reflexivity|]. split; [|done].
  exists p. by apply (find_set_entity (UM := um_object) _ (g_rlc s1) p _ _ He).
Qed.
End Setup.

(** The time of the poll timer is one of the table. *)
Lemma poll_time a i : am_info_of a = Ret (Some i) -> 0 <= RlcRrc.t_poll_retransmit i <= 500.
Proof.
  unfold am_info_of. destruct (_ && _); [|done]. intros E.
  destruct (aget maxRetxThreshold_tab _); [|done]. destruct (aget pollPDU_tab _); [|done]. destruct (aget pollByte_tab _); [|done]. cbn [mbind cres_bind] in E.
  destruct (aget PollRetransmit_tab (t_PollRetransmit a)) as [r|] eqn:Er; [|done]. destruct (aget t_Reordering_tab _); [|done].
  destruct (aget t_StatusProhibit_tab _); [|done]. injection E as <-. cbn [RlcRrc.t_poll_retransmit].
  assert (Ht : forallb (fun x => (0 <=? x) && (x <=? 500)) PollRetransmit_tab = true) by (by vm_compute). rewrite forallb_forall in Ht.
  unfold aget in Er. destruct (0 <=? t_PollRetransmit a); [|done]. destruct (PollRetransmit_tab !! _) eqn:El; [|done]. injection Er as ->.
  specialize (Ht r ltac:(by eapply list_elem_of_In, list_elem_of_lookup_2)). lia.
Qed.

(** ** Property *)


#[local] Instance am_blocks : BlockAlloc := fresh_block.
#[local] Instance am_blocks_ok : BlockAllocOk := fresh_block_ok.
#[local] Instance am_no_peek : HeadPeek := no_peek.

Definition demo_user : protocol_ctxt_t := Ctxt 0 4660 0 7.

(** Two SDUs, cut and joined, that arrive out of order and twice; the first report is lost. *)
Definition layer_events : list layer_event :=
  [ASubmit 0 11 (byte.of_Z <$> [1; 2; 3; 4; 5]); AGrant 0 5; ASubmit 0 12 (byte.of_Z <$> [6; 7; 8]); AGrant 1 7; AGrant 1 100;
   ADeliver 2 2; ADeliver 2 1; ADeliver 2 1; ADeliver 2 0; AReport 3 20 true; ADeliver 3 2; AReport 4 20 false].

(** The whole run from the initialisation of the layers on: the events that are left, and the SDUs delivered. *)
Definition whole_run : option (nat * list (list byte)) :=
  match
    s0 ← rlc_module_init true 0 1 16;
    '(s1, _) ← add_am_bearer fresh_address demo_ctxt 1 default_am s0;
    '(s2, _) ← add_am_bearer fresh_address demo_user 1 default_am s0;
    layer_run demo_ctxt demo_user 1 0 45 layer_events (Ghost 0 no_spec (0, 0, []) []) (Layers s1 s2 [])
  with
  | Ret (rest, _, s) => Some (length rest, rlc_delivered (g_rlc (ly_b s)))
  | Trap _ => None
  end.

