(* ===== verification/CuNode.v ===== *)
(** The CU with the RLC layer it hosts.

    RRC configures the bearers ([RlcRrc]), the upper layers submit SDUs ([rlc_data_req]) and the DU
    polls the CU over the network ([SplitCU]).  All three work on the same hash table and entities:
    here their steps are interleaved in any order.  The invariant [rlc_layer_inv], which is the one
    the contract [RlcServiceOk] of the CU is stated for, is kept by each of them.  The entities are
    those of [rlc_um.c] and [rlc_am.c]: one of unacknowledged mode keeps the contract of the layer
    with any traffic, one of acknowledged mode while it carries none. *)
From stdpp Require Import base list numbers gmap.
From coqutil Require Import Byte.
From Stdlib Require Import ZArith Lia.
From S2P Require Import Prelude SplitProto Netw SplitIface SplitCU SplitSystem RlcPrims Hashtable RlcTm RlcMac RlcUm RlcAmRx RlcUmTx RlcUmDar RlcAmTx RlcAmArq RlcAmEntity RlcUmEntity RlcRrc RlcBearer RlcAmBearer.
Open Scope Z_scope.

(** ** Contracts of the entities *)

(** The object of unacknowledged mode, once configured. *)
#[global] #[refine] Instance um_object_ok `{BlockAllocOk} : RlcEntityOk um_object := {|
  ent_inv o := initialized o = true /\ um_inv (um_ent o) |}.
Proof.
  - intros a tb o [Hi Ho]. destruct (@ent_status_ok um_entity _ um_entity_ok a tb (um_ent o) Ho) as (e & r & E & He & Hr).
    cbn [ent_status um_object_ops]. rewrite E. cbn [mbind cres_bind]. by eexists _, _.
  - intros a tb o o' r [Hi Ho] Htb E. cbn [ent_status um_object_ops] in E.
    destruct (ent_status a tb (um_ent o)) as [[e1 r1]|] eqn:E1; cbn [mbind cres_bind] in E; [|done]. injection E as <- <-.
    destruct (@ent_data_request_ok um_entity _ um_entity_ok a tb _ _ _ Ho Htb E1) as (e2 & l & E2 & He2 & Hl).
    cbn [ent_data_request um_object_ops um_ent initialized]. rewrite E2. cbn [mbind cres_bind]. by eexists _, _.
Defined.

(** An entity of acknowledged mode that is configured and to which nothing was submitted: the
    signalling bearers of a user before RRC uses them. *)
Record am_idle (e : am_entity) : Prop := {
  id_state : am_protocol_state e = RLC_DATA_TRANSFER_READY_STATE;
  id_send : am_ok no_spec (am_send e);
  id_segmented : segmentation_pdu_list (am_send e) = [];
  id_to_mac : am_pdus_to_mac_layer (am_send e) = [];
  id_poll : running (RlcAmTx.t_poll_retransmit (tx_poll (am_send e))) = 0;
  id_retrans : retrans_num_bytes_to_retransmit (tx_retx (am_send e)) = 0;
  id_requested : status_requested (am_recv e) = 0;
  id_reordering : running (am_t_reordering (am_recv e)) = 0;
  id_status : status_buffer_occupancy e = 0;
}.

Lemma idle_ent e : am_idle e -> ent_ok 0 (ms_duration (RlcAmTx.t_poll_retransmit (tx_poll (am_send e)))) 0 no_spec e.
Proof.
  intros [I1 I2 I3 I4 I5 I6 I7 I8 I9]. constructor; try done; [|by split; [|left]].
  split; [intros c p Hc; done|]. intros k Hk. change (zlen (s_muis no_spec)) with 0 in Hk. lia.
Qed.

(** The status of an idle entity announces nothing. *)
Lemma idle_status peek now frame tb e : am_idle e ->
  exists e', rlc_am_mac_status_indication peek now frame tb e =
    Ret (e', {| sr_bytes := 0; sr_pdus := 0; sr_creation_time := 0; sr_remaining := 0; sr_segmented := 0 |}) /\ am_idle e'.
Proof.
  intros [I1 I2 I3 I4 I5 I6 I7 I8 I9]. pose proof I2 as [Q _ Ht _ _ _].
  destruct (ring_some 128 ltac:(lia) _ (s_head no_spec) (qk_len _ _ Q)) as [x Hx].
  pose proof (ring_get 128 ltac:(lia) _ _ _ Hx) as Hg. rewrite <- (qk_current _ _ Q) in Hg.
  assert (Hp : rlc_am_check_timer_poll_retransmit now (tx_poll (am_send e)) = tx_poll (am_send e)).
  { unfold rlc_am_check_timer_poll_retransmit. by rewrite I5. }
  exists (looked now frame tb e). split.
  - unfold rlc_am_mac_status_indication, looked. rewrite (set_tx_poll_same _ _ (eq_sym Hp)).
    destruct (negb (last_frame_status_indication e =? frame));
      cbn [am_send set_requested tx_queue tx_poll am_recv RlcAmEntity.t_status_prohibit]; rewrite (bind_ret _ _ _ Hg);
      unfold rlc_am_get_buffer_occupancy_in_bytes, rlc_am_is_timer_poll_retransmit_timed_out; rewrite ?check_idle by done;
      cbn [am_send set_requested tx_queue tx_poll am_recv RlcAmEntity.t_status_prohibit status_buffer_occupancy tx_retx];
      rewrite I7, I9, I6, (qk_bo _ _ Q), (qk_no_seg _ _ Q), Ht; cbn; by rewrite andb_false_r.
  - unfold looked. rewrite check_idle by done. constructor; cbn; try done; [|by case_if..]. destruct I2. by constructor.
Qed.

Lemma idle_request alloc now frame e : am_idle e -> rlc_am_mac_data_request alloc now frame e = Ret (e, []).
Proof.
  intros I. apply (request_none 0 (ms_duration (RlcAmTx.t_poll_retransmit (tx_poll (am_send e)))) alloc now frame 0 no_spec); [by apply idle_ent| |by left].
  unfold no_report. rewrite (id_requested _ I). by rewrite andb_false_r.
Qed.

(** The entity of acknowledged mode while it is idle. *)
#[global] #[refine] Instance am_idle_ok `{BlockAlloc} `{HeadPeek} : RlcEntityOk am_entity := {| ent_inv := am_idle |}.
Proof.
  - intros a tb e I. destruct (idle_status head_peek (ctxt_time a) (frameP a) tb e I) as (e' & E & I').
    eexists e', _. split; [exact E|]. split; [done|]. cbn. lia.
  - intros a tb e e' r I Htb E. destruct (idle_status head_peek (ctxt_time a) (frameP a) tb e I) as (e1 & E1 & I1).
    cbn [ent_status am_entity_ops] in E. rewrite E1 in E. injection E as <- _. exists e1, [].
    split; [by apply idle_request|]. split; [done|]. split; [constructor|]. change (zlen (tbs_bytes [])) with 0. lia.
Defined.

(** The configuration makes the memory of a new entity idle, and keeps an idle entity so. *)
Lemma idle_configured srb rb i (e : am_entity) : am_idle e \/ e = am_zero -> am_idle (am_configure srb rb i e).
Proof.
  intros He. unfold am_configure. cbn [RlcRrc.rlc_am_init RlcRrc.rlc_am_set_debug_infos RlcRrc.rlc_am_configure am_entity_requests].
  unfold RlcAmEntity.rlc_am_init. destruct (am_initialized e) eqn:Ei.
  - destruct He as [[I1 I2 I3 I4 I5 I6 I7 I8 I9]| ->]; [|done]. constructor; cbn; try done.
    + destruct I2 as [Q [] T N C L]. by constructor; cbn; try done; case_if.
    + by case_if.
    + by case_if.
  - constructor; try done. by apply am_init_ok.
Qed.

(** ** Configuration of unacknowledged mode *)

Lemma configured_um_inv rx tx ms dp : rx = 10 \/ rx = 5 -> tx = 10 \/ tx = 5 ->
  um_inv (Um RLC_DATA_TRANSFER_READY_STATE (rlc_um_configure_tx rx tx rlc_um_init_tx)
            (RlcUm.rlc_um_configure ms rx tx 0 (RlcUm.rlc_um_init dp))).
Proof.
  intros Hrx Htx. constructor; cbn [um_protocol_state um_send um_recv]; [done| |].
  - exists (tx =? 5), []. by destruct Hrx as [-> | ->], Htx as [-> | ->].
  - exists pairs, 0, (fun _ => false), [].
    replace (is_data_plane _) with dp by (by destruct Hrx as [-> | ->], Htx as [-> | ->]).
    split; [apply pairs_ok|]. apply configured_rcv; [done|tauto].
Qed.

(** The values of a bearer with both directions. *)
Definition um_values_ok (ul : Z) (dl : DL_UM_RLC) : Prop :=
  (ul = 0 \/ ul = 1) /\ (dl_sn_FieldLength dl = 0 \/ dl_sn_FieldLength dl = 1) /\ 0 <= dl_t_Reordering dl < 31.

(** A configuration with which the entity can send and receive, and whose values are in range. *)
Definition config_valid (cfg : RLC_Config) : Prop :=
  match cfg with
  | RLC_Config_PR_am a => exists i, am_info_of a = Ret (Some i)
  | RLC_Config_PR_um_Bi_Directional ul dl => um_values_ok ul dl
  | RLC_Config_PR_um_Uni_Directional_UL _ | RLC_Config_PR_um_Uni_Directional_DL _ => False
  | RLC_Config_PR_NOTHING | RLC_Config_PR_other => True
  end.

Definition srb_valid (b : SRB_ToAddMod) : Prop :=
  match srb_rlc_Config b with Some (SRB_rlc_Config_PR_explicitValue cfg) => config_valid cfg | _ => True end.
Definition drb_valid (b : DRB_ToAddMod) : Prop :=
  match drb_rlc_Config b with Some cfg => config_valid cfg | None => True end.

Section Node.
Context {R : Type} `{HP : HeadPeek} `{HR : RrcService R}.
Context `{HB : BlockAllocOk}.
Context (calloc : gmap Z (rlc_union am_entity um_object) -> Z) (Hcalloc : forall h, calloc h <> 0 /\ h !! calloc h = None).
Abbreviation globals := (rlc_globals am_entity).
Abbreviation good := (union_ok (AM := am_entity) (UM := um_object)).

Lemma um_gives_good c srb ul dl : um_values_ok ul dl -> um_gives good c srb (Some ul) (Some dl).
Proof.
  intros (Hul & Hdl & Ht) o o' E [[Hi Ho]| ->].
  - unfold um_enter_ready, rlc_um_init in E. rewrite Hi in E. destruct o as [i [st t r]]. cbn in Hi, Ho. subst i.
    pose proof (ui_state _ Ho) as Hst. cbn in Hst. subst st. cbn in E. injection E as <-. done.
  - unfold um_enter_ready in E. cbn -[um_configure_asn1 rlc_um_set_debug_infos] in E. unfold um_configure_asn1 in E.
    destruct dl as [sn t]. cbn [dl_t_Reordering dl_sn_FieldLength fmap option_fmap option_map] in *.
    destruct (aget_lt t_Reordering_tab t) as (ms & Et); [change (zlen t_Reordering_tab) with 31; lia|].
    rewrite (proj2 (Z.ltb_lt t 31)), Et in E by lia.
    destruct Hul as [-> | ->], Hdl as [-> | ->], (0 <? enb_flag c); cbn -[RlcUm.rlc_um_configure rlc_um_configure_tx] in E;
      injection E as <-; (split; [done|apply configured_um_inv; tauto]).
Qed.

Lemma config_gives_good c srb rb cfg : config_valid cfg -> config_wf cfg /\ config_gives good c srb rb cfg.
Proof.
  destruct cfg as [|a|ul dl| | |]; cbn [config_valid config_gives config_wf]; try done.
  - intros (i & Ei). split.
    + unfold am_info_of in Ei. revert Ei. case_if; [|done]. unfold aget.
      repeat (case_match; cbn [mbind cres_bind]; try discriminate). lia.
    + intros e i' Ei' He. rewrite Ei in Ei'. injection Ei' as <-. by apply idle_configured.
  - intros Hv. split; [apply Hv|by apply um_gives_good].
Qed.

(** ** The invariant of the layer *)

(** The modes of the entities the pointers lead to. *)
Definition modes (h : gmap Z (rlc_union am_entity um_object)) (m : gmap Z Z) : gmap Z rlc_mode_t :=
  omap (fun p => mode_of <$> h !! p) m.

Lemma layer_inv_bearers (s : globals) :
  rlc_layer_inv (g_rlc s) <-> exists B, bearers_rep s B /\ all_sat good s.
Proof.
  split.
  - intros (t & m & Et & Ht & Hi & Hp). exists (modes (rlc_heap (g_rlc s)) m).
    assert (Hok : pointers_ok (rlc_heap (g_rlc s)) m (modes (rlc_heap (g_rlc s)) m)).
    { constructor; [done| |].
      - intros k p Hk. destruct (Hp k p Hk) as (Hne & u & Hu & _). split; [done|]. exists u. split; [done|].
        unfold modes. rewrite lookup_omap, Hk. cbn. by rewrite Hu.
      - intros k Hk. unfold modes. by rewrite lookup_omap, Hk. }
    split; [by exists t, m|]. intros k p u He. rewrite (entity_table s _ t m k Et Ht Hok) in He.
    destruct (m !! k) as [q|] eqn:Hq; [|done]. destruct (Hp k q Hq) as (_ & v & Hv & Hgood). cbn in He. rewrite Hv in He.
    by injection He as <- <-.
  - intros (B & (t & m & Et & Ht & Hok) & Hall). exists t, m. split_and!; [done|done|apply Hok|].
    intros k p Hk. destruct (po_some _ _ _ Hok k p Hk) as (Hne & u & Hu & _). split; [done|]. exists u. split; [done|].
    apply (Hall k p). rewrite (entity_table s B t m k Et Ht Hok), Hk. cbn. by rewrite Hu.
Qed.

(** A request of RRC keeps it. *)
Lemma config_layer_inv c srbs drbs rels (s : globals) B B' :
  rlc_layer_inv (g_rlc s) -> bearers_rep s B -> Forall srb_valid (default [] srbs) -> Forall drb_valid (default [] drbs) ->
  spec_request c srbs drbs rels B = Some B' ->
  exists s', rrc_rlc_config_asn1_req calloc true c srbs drbs rels None s = Ret (s', RLC_OP_STATUS_OK) /\
    rlc_layer_inv (g_rlc s') /\ bearers_rep s' B'.
Proof.
  intros (_ & _ & Hall)%layer_inv_bearers HB' Hsrb Hdrb Hspec.
  pose proof (config_request_ok calloc Hcalloc good c srbs drbs rels s B HB') as Hreq. rewrite Hspec in Hreq.
  destruct Hreq as (s' & E & Hs' & _ & Hgood).
  - eapply Forall_impl; [exact Hsrb|]. intros b. unfold srb_valid, srb_wf, srb_gives.
    destruct (srb_rlc_Config b) as [[|cfg| |]|]; try done; [by apply config_gives_good|].
    intros _. split; [done|]. apply config_gives_good. by eexists.
  - eapply Forall_impl; [exact Hdrb|]. intros b. unfold drb_valid, drb_wf, drb_gives.
    destruct (drb_rlc_Config b); [by apply config_gives_good|done].
  - exists s'. split_and!; [done| |done]. apply layer_inv_bearers. exists B'. split; [done|]. by apply Hgood.
Qed.

(** The SDU fits the entity of the bearer, which is of unacknowledged mode. *)
Definition accepts (u : rlc_union am_entity um_object) (sdu : list byte) : Prop :=
  match u with
  | RLC_MODE_UM o => zlen sdu <= 2047 /\ buffer_occupancy (um_send (um_ent o)) + zlen sdu < 2 ^ 30
  | RLC_MODE_AM _ | RLC_MODE_TM _ | RLC_MODE_NONE => False
  end.

Lemma um_submit_inv o c sdu : ent_inv o -> accepts (RLC_MODE_UM o) sdu -> 0 < zlen sdu ->
  ent_inv (um_data_req c (zlen sdu) sdu o).
Proof.
  intros [Hi [H1 (five & q & [X L2 L6]) H3]] [Hsz Hbo] Hpos. split; [done|]. constructor; [done| |done].
  exists five, (q ++ [([], sdu)]). rewrite (xk_bo _ _ _ X) in Hbo. constructor; [apply submit_tx; (done || lia)|done|].
  apply Forall_app. split; [done|]. apply Forall_singleton. cbn [fst snd]. change (zlen (@nil byte)) with 0. lia.
Qed.

(** A data request keeps it. *)
Lemma submit_layer_inv c srb rb mui conf sdu (s : globals) p u :
  rlc_layer_inv (g_rlc s) -> rb < Z.of_nat NB_RB_MAX -> 0 < zlen sdu ->
  entity s (bearer_key c srb rb) = Ret (Some (p, u)) -> accepts u sdu ->
  exists s', rlc_data_req true c srb 0 rb mui conf (zlen sdu) sdu s = Ret (s', RLC_OP_STATUS_OK) /\
    rlc_layer_inv (g_rlc s').
Proof.
  intros Hs Hrb Hpos He Hacc. assert (Hu : good u).
  { apply layer_inv_bearers in Hs as (B & _ & Hall). by eapply Hall. }
  unfold rlc_data_req. change (negb (0 =? 0)) with false. cbn match.
  rewrite (proj2 (Z.ltb_lt rb _)), (proj2 (Z.ltb_lt 0 (zlen sdu))) by done. cbn [c_assert mbind cres_bind].
  unfold entity in He. rewrite He. cbn [mbind cres_bind negb]. destruct u as [|e|o|]; try done; rewrite bget_whole; cbn [mbind cres_bind].
  eexists. split; [reflexivity|]. apply set_entity_inv; [done|]. by apply um_submit_inv.
Qed.

(** ** Interleaved steps *)

(** The buffer of the receive loop, the CU whose RLC layer is the one RRC configures, and the
    logical channels of the multicast bearers. *)
Record cu_node := Node {
  node_buf : list byte;
  node_cu : cu_state (rlc_state am_entity um_object * R);
  node_rbid2lcid_ue : list (list Z);
  node_rbid2lcid_eNB : list (list Z);
}.

Definition node_globals (n : cu_node) : globals :=
  Globals (cu_rlc (node_cu n)).1 (node_rbid2lcid_ue n) (node_rbid2lcid_eNB n).

Definition set_globals (n : cu_node) (g : globals) : cu_node :=
  Node (node_buf n) (set_cu_rlc (node_cu n) (g_rlc g, (cu_rlc (node_cu n)).2)) (rlc_mbms_rbid2lcid_ue g) (rlc_mbms_rbid2lcid_eNB g).

Inductive node_event :=
| Configure (c : protocol_ctxt_t) (srbs : option (list SRB_ToAddMod)) (drbs : option (list DRB_ToAddMod)) (rels : option (list Z))
| SubmitSdu (c : protocol_ctxt_t) (srb rb mui conf : Z) (sdu : list byte)
| Poll (rnti frame channel tb : Z).

Definition node_step (o : os) (ev : node_event) (n : cu_node) : cres cu_node :=
  match ev with
  | Configure c srbs drbs rels =>
      '(g, _) ← rrc_rlc_config_asn1_req calloc true c srbs drbs rels None (node_globals n); Ret (set_globals n g)
  | SubmitSdu c srb rb mui conf sdu =>
      '(g, _) ← rlc_data_req true c srb 0 rb mui conf (zlen sdu) sdu (node_globals n); Ret (set_globals n g)
  | Poll rnti frame channel tb =>
      '(buf, st) ← cu_turn o (RecvData (request_wire rnti frame channel tb)) (node_buf n, node_cu n);
      Ret (Node buf st (node_rbid2lcid_ue n) (node_rbid2lcid_eNB n))
  end.

(** What RRC, the upper layers and the DU may do in a state. *)
Definition allowed (ev : node_event) (n : cu_node) : Prop :=
  match ev with
  | Configure c srbs drbs rels =>
      Forall srb_valid (default [] srbs) /\ Forall drb_valid (default [] drbs) /\
      exists B B', bearers_rep (node_globals n) B /\ spec_request c srbs drbs rels B = Some B'
  | SubmitSdu c srb rb mui conf sdu =>
      rb < Z.of_nat NB_RB_MAX /\ 0 < zlen sdu /\
      exists p u, entity (node_globals n) (bearer_key c srb rb) = Ret (Some (p, u)) /\ accepts u sdu
  | Poll rnti frame channel tb => 0 <= rnti < 2 ^ 16 /\ 0 <= frame < 2 ^ 32 /\ 0 <= channel <= 1 /\ 0 <= tb <= CU_MAX_TB
  end.

Fixpoint all_allowed (o : os) (evs : list node_event) (n : cu_node) : Prop :=
  match evs with
  | [] => True
  | ev :: evs => allowed ev n /\ forall n', node_step o ev n = Ret n' -> all_allowed o evs n'
  end.

Record node_inv (n : cu_node) : Prop := {
  ni_buf : zlen (node_buf n) = 8192;
  ni_out : zlen (cu_outbuf (node_cu n)) = Z.of_nat MAX_DLSCH_PAYLOAD_BYTES;
  ni_sock : 0 < cu_sockfd (node_cu n);
  ni_mbms : cu_MBMS_flag (node_cu n) = 0;
  ni_layer : rlc_layer_inv (cu_rlc (node_cu n)).1;
}.

(** The rooms the DU offered, in order. *)
Definition polls (evs : list node_event) : list Z :=
  omap (fun ev => match ev with Poll _ _ _ tb => Some tb | _ => None end) evs.

(** A reply carries at most the bytes offered, after the header and the status of the channels. *)
Definition reply_fits (tb : Z) (d : dgram) : Prop := zlen (dg_data d) <= 6 + 398 + tb.

Lemma step_ok o ev n : node_inv n -> allowed ev n ->
  exists n' ds, node_step o ev n = Ret n' /\ node_inv n' /\ cu_sent (node_cu n') = cu_sent (node_cu n) ++ ds /\
    Forall2 reply_fits (polls [ev]) ds.
Proof.
  intros [H1 H2 H3 H4 H5] Hev. destruct ev as [c srbs drbs rels|c srb rb mui conf sdu|rnti frame channel tb]; cbn [node_step].
  - destruct Hev as (Hsrb & Hdrb & B & B' & Hrep & Hspec).
    destruct (config_layer_inv c srbs drbs rels (node_globals n) B B') as (g & -> & Hg & _); [done..|]. cbn [mbind cres_bind].
    eexists _, []. split; [reflexivity|]. split; [by constructor|]. split; [by rewrite app_nil_r|constructor].
  - destruct Hev as (Hrb & Hpos & p & u & He & Hacc).
    destruct (submit_layer_inv c srb rb mui conf sdu (node_globals n) p u) as (g & -> & Hg); [done..|]. cbn [mbind cres_bind].
    eexists _, []. split; [reflexivity|]. split; [by constructor|]. split; [by rewrite app_nil_r|constructor].
  - destruct Hev as (Hr & Hf & Hc & Ht).
    destruct (cu_turn_request o rnti frame channel tb (node_buf n) (node_cu n))
      as (s' & ans & buf & out & _ & Hs' & Hl & _ & Hd & Hb & Ho & ->); [done..| |].
    { split; [done|]. intros i Hi. split; [done|exact Hi]. }
    cbn [mbind cres_bind]. eexists _, [_]. split; [reflexivity|]. split; [constructor; (done || by cbn; rewrite Ho)|].
    split; [done|]. constructor; [|constructor]. unfold reply_fits. cbn [dg_data]. rewrite status_rep_zlen by done. lia.
Qed.

Lemma run_node_ok o evs : forall n, node_inv n -> all_allowed o evs n ->
  exists n' ds, for_each (node_step o) evs n = Ret n' /\ node_inv n' /\ cu_sent (node_cu n') = cu_sent (node_cu n) ++ ds /\
    Forall2 reply_fits (polls evs) ds.
Proof.
  induction evs as [|ev evs IH]; intros n Hn Hall; [exists n, []; by rewrite app_nil_r|].
  destruct Hall as [Hev Hall]. destruct (step_ok o ev n Hn Hev) as (n1 & ds1 & E1 & Hn1 & Hs1 & Hf1).
  cbn [for_each]. rewrite E1. cbn [mbind cres_bind].
  destruct (IH n1 Hn1 (Hall n1 E1)) as (n2 & ds2 & E2 & Hn2 & Hs2 & Hf2). exists n2, (ds1 ++ ds2).
  split; [done|]. split; [done|]. split; [by rewrite Hs2, Hs1, app_assoc|].
  change (polls (ev :: evs)) with (polls ([ev] ++ evs)). unfold polls. rewrite omap_app. by apply Forall2_app.
Qed.

(** The node after the initialisations of the CU and of the RLC layer. *)
Definition node_init (fd : Z) (g : globals) (r : R) : cu_node :=
  Node (zeros CU_BUF_SIZE) (cu_init_state fd (g_rlc g, r)) (rlc_mbms_rbid2lcid_ue g) (rlc_mbms_rbid2lcid_eNB g).

Lemma node_init_inv fd garbage enbs ues r : 0 < fd ->
  exists g, rlc_module_init true garbage enbs ues = Ret g /\ node_inv (node_init fd g r).
Proof.
  intros Hfd. destruct (module_init_rep (AM := am_entity) garbage enbs ues) as (g & E & Hg & _). exists g. split; [done|].
  apply Build_node_inv; [apply zlen_zeros|apply zlen_zeros|done|done|]. apply (layer_inv_bearers g). exists ∅. split; [done|].
  intros k p u He. pose proof (entity_rep g ∅ k Hg) as Hn. rewrite lookup_empty in Hn. congruence.
Qed.
End Node.

(** ** Property *)

(** C7: the CU serves any interleaving of its clients.  From the initialised CU and RLC layer, with the
    entities of [rlc_um.c] and [rlc_am.c], take any sequence of requests of RRC that add, configure
    and release bearers of unacknowledged and of acknowledged mode, of SDUs submitted on bearers of
    unacknowledged mode that exist, and of polls of the DU, each one allowed in the state it meets:
    values in range, both directions for unacknowledged mode, modes that agree, SDUs of at most 2047
    bytes, buffers and transport blocks below their bounds.  Nothing fails, every poll is answered by
    exactly one datagram, which carries no more data than the DU offered room for, and the invariant
    of the node holds at the end.  SDUs on bearers of acknowledged mode are not among the events. *)
Theorem cu_node_serves {R} `{HP : HeadPeek} `{HR : RrcService R} `{HB : BlockAllocOk}
  (calloc : gmap Z (rlc_union am_entity um_object) -> Z) o fd garbage enbs ues (r : R) evs :
  (forall h, calloc h <> 0 /\ h !! calloc h = None) -> 0 < fd ->
  exists g, rlc_module_init true garbage enbs ues = Ret g /\
    (all_allowed calloc o evs (node_init fd g r) ->
     exists n', for_each (node_step calloc o) evs (node_init fd g r) = Ret n' /\ node_inv n' /\
       Forall2 reply_fits (polls evs) (cu_sent (node_cu n'))).
Proof.
  intros Hcalloc Hfd. destruct (node_init_inv fd garbage enbs ues r Hfd) as (g & E & Hn). exists g. split; [done|].
  intros Hall. destruct (run_node_ok calloc Hcalloc o evs _ Hn Hall) as (n' & ds & En & Hn' & Hs & Hf).
  exists n'. split_and!; [done|done|]. by rewrite Hs.
Qed.

#[local] Instance node_blocks : BlockAlloc := fresh_block.
#[local] Instance node_blocks_ok : BlockAllocOk := fresh_block_ok.
#[local] Instance node_peek : HeadPeek := no_peek.

(** The bearers of a user, SDUs on the one of unacknowledged mode, and two polls. *)
Definition demo_events : list node_event :=
  [Configure demo_ctxt (Some demo_srbs) (Some demo_drbs) None; SubmitSdu demo_ctxt 0 1 0 0 abc; Poll 4660 9 1 100;
   SubmitSdu demo_ctxt 0 1 0 0 defgh; Poll 4660 10 0 4].

(** The conditions on submissions and polls, as a computation along a run. *)
Definition allowedb {R} (ev : node_event) (n : cu_node (R := R)) : bool :=
  match ev with
  | Configure _ _ _ _ => false
  | SubmitSdu c srb rb mui conf sdu =>
      (rb <? Z.of_nat NB_RB_MAX) && (0 <? zlen sdu) &&
      match entity (node_globals n) (bearer_key c srb rb) with
      | Ret (Some (_, RLC_MODE_UM o)) => (zlen sdu <=? 2047) && (buffer_occupancy (um_send (um_ent o)) + zlen sdu <? 2 ^ 30)
      | _ => false
      end
  | Poll rnti frame channel tb =>
      (0 <=? rnti) && (rnti <? 2 ^ 16) && (0 <=? frame) && (frame <? 2 ^ 32) && (0 <=? channel) && (channel <=? 1) &&
      (0 <=? tb) && (tb <=? CU_MAX_TB)
  end.

Lemma allowedb_sound {R} ev (n : cu_node (R := R)) : allowedb ev n = true -> allowed ev n.
Proof.
  destruct ev as [|c srb rb mui conf sdu|]; cbn [allowedb allowed]; [done| |].
  - intros H. bool_to_prop. split_and!; [lia|lia|].
    destruct (entity _ _) as [[[p u]|]|]; try done. exists p, u. split; [done|].
    destruct u; cbn [accepts]; try done. bool_to_prop. lia.
  - intros H. bool_to_prop. lia.
Qed.

Section Decide.
Context {R : Type} `{HP : HeadPeek} `{HR : RrcService R} `{HB : BlockAlloc}.

Fixpoint all_allowedb (calloc : gmap Z (rlc_union am_entity um_object) -> Z) (o : os) (evs : list node_event) (n : cu_node) : bool :=
  match evs with
  | [] => true
  | ev :: evs => allowedb ev n && match node_step calloc o ev n with Ret n' => all_allowedb calloc o evs n' | Trap _ => true end
  end.

Lemma all_allowedb_sound calloc o evs : forall n, all_allowedb calloc o evs n = true -> all_allowed calloc o evs n.
Proof.
  induction evs as [|ev evs IH]; intros n; cbn [all_allowedb all_allowed]; [done|].
  intros [H1 H2]%andb_true_iff. split; [by apply allowedb_sound|]. intros n' E. rewrite E in H2. by apply IH.
Qed.
End Decide.

(** The conditions of the run after the configuration. *)
Lemma demo_events_allowed :
  match rlc_module_init (AM := am_entity) true 0 1 16 with
  | Ret g => match node_step fresh_address demo_os (Configure demo_ctxt (Some demo_srbs) (Some demo_drbs) None) (node_init 5 g tt) with
             | Ret n => all_allowedb fresh_address demo_os (tail demo_events) n
             | Trap _ => false
             end
  | Trap _ => false
  end = true.
Proof. vm_compute. reflexivity. Qed.

Lemma cu_node_serves_witness :
  exists g n', rlc_module_init (AM := am_entity) true 0 1 16 = Ret g /\
    for_each (node_step fresh_address demo_os) demo_events (node_init 5 g tt) = Ret n' /\
    Forall2 reply_fits [100; 4] (cu_sent (node_cu n')).
Proof.
  destruct (cu_node_serves fresh_address demo_os 5 0 1 16 tt demo_events fresh_address_ok) as (g & E & Hrun); [lia|].
  exists g. destruct Hrun as (n' & En & _ & Hf); [|exists n'; split; [exact E|split; [exact En|exact Hf]]].
  pose proof demo_events_allowed as Hb. rewrite E in Hb. split.
  - split; [repeat constructor; cbn; eauto; lia|]. split; [repeat constructor; cbn; eauto; lia|].
    destruct (module_init_rep (AM := am_entity) 0 1 16) as (g1 & E1 & Hg1 & _). rewrite E1 in E. injection E as <-.
    eexists ∅, _. split; [exact Hg1|]. vm_compute. reflexivity.
  - intros n1 E1. rewrite E1 in Hb. exact (all_allowedb_sound _ _ _ _ Hb).
Defined.

(** ** One channel *)

(** An entity of unacknowledged mode that is configured, in any state its operations lead to. *)
Definition um_ready (o : um_object) : Prop := initialized o = true /\ um_inv (um_ent o).

(** The status and the request on the entity itself. *)
Lemma um_granted `{BlockAllocOk} a tb o : um_ready o ->
  exists o' r, ent_status a tb o = Ret (o', r) /\ um_ready o' /\
    0 <= sr_bytes r < 2 ^ 31 /\ 0 <= sr_pdus r < 2 ^ 16 /\ 0 <= sr_creation_time r < 2 ^ 32 /\
    0 <= sr_remaining r < 2 ^ 31 /\ 0 <= sr_segmented r < 2 ^ 7 /\
    (0 < tb < 2 ^ 15 -> exists o'' tbs, ent_data_request a o' = Ret (o'', tbs) /\ um_ready o'' /\
       Forall tb_ok tbs /\ zlen (tbs_bytes tbs) <= tb /\ (0 < sr_bytes r -> 2 < tb -> 0 < zlen (tbs_bytes tbs))).
Proof.
  intros [Hi Ho]. destruct (status_inv (ctxt_time a) (frameP a) tb _ Ho) as (e & r & E & He & Hg & Hb & R1 & R2 & R3 & R4 & R5).
  eexists (UmObject (initialized o) e), r. split; [cbn [ent_status um_object_ops um_entity_ops]; by rewrite E|].
  split_and!; [by split|lia..|]. intros Htb.
  destruct (data_request_inv e tb He) as (e2 & tbs & E2 & He2 & Hok & Hle & Hpos); [by rewrite Hg|lia|].
  eexists (UmObject (initialized o) e2), tbs. split; [cbn [ent_data_request um_object_ops um_entity_ops um_ent initialized]; by rewrite E2|].
  split_and!; [by split|done|done|]. intros Hbytes. apply Hpos. rewrite Hg. by apply Hb.
Qed.


(** A data bearer with an SDU that waits. *)
Definition demo_um : um_object :=
  um_data_req demo_ctxt 3 abc (UmObject true (Um RLC_DATA_TRANSFER_READY_STATE (rlc_um_configure_tx 10 10 rlc_um_init_tx)
    (RlcUm.rlc_um_configure 35 10 10 0 (RlcUm.rlc_um_init true)))).

Definition demo_um_layer : rlc_state am_entity um_object := {|
  rlc_coll_p := Some demo_table; rlc_heap := {[ 2000 := RLC_MODE_UM demo_um ]};
  rlc_mbms_lcid2service_session_id_eNB := []; rlc_mbms_lcid2service_session_id_ue := []; rlc_delivered := [] |}.

Lemma demo_um_ready : um_ready demo_um.
Proof. apply um_submit_inv; [split; [done|apply configured_um_inv; tauto]|by vm_compute|by vm_compute]. Qed.

