(* ===== verification/MemBlock.v ===== *)
(** The memory pools of [openair2/UTIL/MEM/mem_block.c].

    Every block that the layers exchange comes from one of thirteen pools of blocks of 64 to
    262144 bytes, or from a pool of blocks without data.  A pool is a list of [Lists]; all of
    them share the store of the [next] members.  The address of [mem_blocks[i]] is [i + 1].

    The number of blocks is a multiple of [MEM_SCALE], which depends on the build and is an
    argument here.  The mutex makes each function one step. *)
From stdpp Require Import base list gmap numbers sets.
From Stdlib Require Import ZArith Lia Permutation.
From S2P Require Import Prelude Lists.
Open Scope Z_scope.

(** ** State *)

(** The members of [mem_block_t] other than the links: [data] is the element of the pool it points
    to, as the number of the pool and the index in it, or [NULL]. *)
Record mem_block_t := MB {
  pool_id : Z;                            (* unsigned char *)
  data : option (Z * Z);
}.

Record mem_pool := MP {
  mp_next : heap;
  mem_blocks : list mem_block_t;
  mem_lists : list list_t;
}.

Definition MEM_MNGT_POOL_ID_COPY : Z := 13.
Definition MEM_MNGT_MB12_BLOCK_SIZE : Z := 64 * 4096.

(** [MEM_MNGT_MB<k>_BLOCK_SIZE]. *)
Definition block_size (k : Z) : Z := 64 * 2 ^ k.

(** [pool_sizes], without [JUMBO_FRAMES]. *)
Definition pool_sizes (MEM_SCALE : Z) : list Z :=
  ((fun n => n * MEM_SCALE) <$> [4096; 4096; 2048; 2048; 1024; 1024; 1024; 64; 16; 8; 0; 0; 32]) ++ [1024].

Definition MEM_MNGT_NB_ELEMENTS (MEM_SCALE : Z) : Z := foldr Z.add 0 (pool_sizes MEM_SCALE).

(** [&mem_blocks[i]] and its inverse. *)
Definition block_ptr (i : Z) : Z := i + 1.
Definition block_index (p : Z) : Z := p - 1.

Global Instance block_ptr_inj : Inj (=) (=) block_ptr.
Proof. intros x y. unfold block_ptr. lia. Qed.

(** ** Operations *)

(** One turn of the inner loop. *)
Definition init_block (pool_index mb_index index : Z) (m : mem_pool) : cres mem_pool :=
  let d := if pool_index <=? 12 then Some (pool_index, index) else None in
  blocks ← aset (mem_blocks m) (mb_index + index) (MB pool_index d);
  l ← aget (mem_lists m) pool_index;
  '(l, h) ← list_add_tail_eurecom (block_ptr (mb_index + index)) l (mp_next m);
  lists ← aset (mem_lists m) pool_index l;
  Ret (MP h blocks lists).

(** One turn of the outer loop, with the number of blocks of the pool. *)
Definition init_pool (pool : Z * Z) (s : mem_pool * Z) : cres (mem_pool * Z) :=
  let '(pool_index, nb) := pool in
  let '(m, mb_index) := s in
  lists ← aset (mem_lists m) pool_index list_init;
  m ← for_each (init_block pool_index mb_index) (zrange 0 (Z.to_nat nb)) (MP (mp_next m) (mem_blocks m) lists);
  Ret (m, mb_index + nb).

(** [memset (memory, 0, sizeof (mem_pool))]. *)
Definition zeroed (MEM_SCALE : Z) : mem_pool :=
  let n := Z.to_nat (MEM_MNGT_NB_ELEMENTS MEM_SCALE) in
  MP (list_to_map ((fun i => (block_ptr i, 0)) <$> zrange 0 n)) (replicate n (MB 0 None)) (replicate 14 list_init).

Definition pool_buffer_init (MEM_SCALE : Z) : cres mem_pool :=
  '(m, _) ← for_each init_pool (zip (zrange 0 14) (pool_sizes MEM_SCALE)) (zeroed MEM_SCALE, 0);
  Ret m.

(** A null pointer is only reported. *)
Definition free_mem_block (leP : Z) (m : mem_pool) : cres mem_pool :=
  if leP =? 0 then Ret m
  else
    b ← aget (mem_blocks m) (block_index leP);
    if pool_id b <=? MEM_MNGT_POOL_ID_COPY then
      l ← aget (mem_lists m) (pool_id b);
      '(l, h) ← list_add_tail_eurecom leP l (mp_next m);
      lists ← aset (mem_lists m) (pool_id b) l;
      Ret (MP h (mem_blocks m) lists)
    else Ret m.

(** [while (size) { pool_selected += 1; size = size >> 1; }], [size] being an [int]. *)
Fixpoint select_loop (fuel : nat) (size pool_selected : Z) : cres Z :=
  match fuel with
  | O => Trap FFuel
  | S fuel => if size =? 0 then Ret pool_selected else select_loop fuel (Z.shiftr size 1) (pool_selected + 1)
  end.

(** The search of a pool that is not empty, [while (pool_selected++ < 12)]. *)
Fixpoint search_loop (fuel : nat) (pool_selected : Z) (m : mem_pool) : cres (Z * mem_pool) :=
  match fuel with
  | O => Trap FFuel
  | S fuel =>
      l ← aget (mem_lists m) pool_selected;
      '(le, l, h) ← list_remove_head l (mp_next m);
      lists ← aset (mem_lists m) pool_selected l;
      let m := MP h (mem_blocks m) lists in
      if negb (le =? 0) then Ret (le, m)
      else if pool_selected <? 12 then search_loop fuel (pool_selected + 1) m
      else Trap FExit
  end.

Definition get_free_mem_block (sizeP : Z) (m : mem_pool) : cres (Z * mem_pool) :=
  if MEM_MNGT_MB12_BLOCK_SIZE <? sizeP then Trap FExit
  else
    pool_selected ← select_loop 32 (Z.shiftr sizeP 6) 0;
    search_loop 14 pool_selected m.

(** Under [MEMBLOCK_BIG_LOCK] these two only fail. *)
Definition get_free_copy_mem_block (m : mem_pool) : cres (Z * mem_pool) := Trap FAssert.
Definition copy_mem_block (leP destP : Z) (m : mem_pool) : cres (Z * mem_pool) := Trap FAssert.

(** ** Specification *)

(** The description of every block, which never changes after the initialisation. *)
Definition pool_blocks (k nb : Z) : list mem_block_t :=
  (fun i => MB k (if k <=? 12 then Some (k, i) else None)) <$> zrange 0 (Z.to_nat nb).
Definition all_blocks (MEM_SCALE : Z) : list mem_block_t :=
  concat ((fun p => pool_blocks p.1 p.2) <$> zip (zrange 0 14) (pool_sizes MEM_SCALE)).

(** [frees] are the free blocks of each pool. *)
Record pools_ok (scale : Z) (m : mem_pool) (frees : list (list Z)) (held : list Z) : Prop := {
  po_lists : Forall2 (lrep (mp_next m)) (mem_lists m) frees;
  po_blocks : mem_blocks m = all_blocks scale;
  po_all : concat frees ++ held ≡ₚ block_ptr <$> zrange 0 (Z.to_nat (MEM_MNGT_NB_ELEMENTS scale));
  po_store : forall i, 0 <= i < MEM_MNGT_NB_ELEMENTS scale -> is_Some (mp_next m !! block_ptr i);
  po_pool : forall k fs b, frees !! k = Some fs -> b ∈ fs ->
    pool_id <$> all_blocks scale !! Z.to_nat (block_index b) = Some (Z.of_nat k);
  po_number : length frees = 14%nat;
}.

(** ** Lists of a common store *)

Lemma NoDup_concat_disjoint {A} (ls : list (list A)) i j a b y :
  NoDup (concat ls) -> ls !! i = Some a -> ls !! j = Some b -> i <> j -> y ∈ a -> y ∉ b.
Proof.
  revert i j. induction ls as [|l ls IH]; intros i j Hnd Hi Hj Hne Hy Hb; [done|].
  cbn [concat] in Hnd. apply NoDup_app in Hnd as (_ & Hd & Hnd).
  assert (Hin : forall k c, ls !! k = Some c -> y ∈ c -> y ∈ concat ls).
  { intros k c Hk Hc. apply list_elem_of_In, in_concat. exists c.
    split; apply list_elem_of_In; [by eapply list_elem_of_lookup_2|done]. }
  destruct i as [|i], j as [|j]; cbn in Hi, Hj; simplify_eq; [by eapply Hd; eauto..|by eapply (IH i j); eauto].
Qed.

Lemma lrep_frame h h' l xs : (forall x, x ∈ xs -> h' !! x = h !! x) -> lrep h l xs -> lrep h' l xs.
Proof. intros Hf [H1 H2 H3 H4 H5]. constructor; try done. by eapply linked_frame. Qed.

(** Replacing one list when the others are not written. *)
Lemma lrep_insert h h' ls frees k l fs fs' :
  Forall2 (lrep h) ls frees -> NoDup (concat frees) -> frees !! k = Some fs ->
  lrep h' l fs' -> (forall y, y ∉ fs -> y ∈ concat frees -> h' !! y = h !! y) ->
  Forall2 (lrep h') (<[k := l]> ls) (<[k := fs']> frees).
Proof.
  intros Hls Hnd Hk Hl Hf. pose proof (Forall2_length _ _ _ Hls) as Hlen.
  pose proof (lookup_lt_Some _ _ _ Hk) as Hlt.
  apply Forall2_same_length_lookup. split; [by rewrite !length_insert|]. intros j lj fj Hlj Hfj.
  destruct (decide (k = j)) as [<-|Hne].
  { rewrite list_lookup_insert_eq in Hlj by lia. rewrite list_lookup_insert_eq in Hfj by lia. by simplify_eq. }
  rewrite list_lookup_insert_ne in Hlj by done. rewrite list_lookup_insert_ne in Hfj by done.
  apply (lrep_frame h); [|by apply (Forall2_lookup_lr _ _ _ _ _ _ Hls Hlj Hfj)].
  intros y Hy. apply Hf; [by apply (NoDup_concat_disjoint frees j k fj)|].
  apply list_elem_of_In, in_concat. exists fj. split; apply list_elem_of_In; [by eapply list_elem_of_lookup_2|done].
Qed.

Lemma concat_insert {A} (ls : list (list A)) k (a b : list A) :
  ls !! k = Some a -> concat (<[k := a ++ b]> ls) ≡ₚ concat ls ++ b.
Proof.
  revert k. induction ls as [|l ls IH]; intros k Hk; [done|]. destruct k as [|k]; cbn in *; simplify_eq.
  - cbn [concat insert list_insert]. rewrite <- !app_assoc. apply Permutation_app_head, Permutation_app_comm.
  - cbn [concat insert list_insert]. rewrite <- app_assoc. apply Permutation_app_head, (IH k Hk).
Qed.

Lemma length_concat_lookup {A} (ls : list (list A)) k a : ls !! k = Some a -> (length a <= length (concat ls))%nat.
Proof.
  revert k. induction ls as [|l ls IH]; intros k Hk; [done|]. destruct k as [|k]; cbn in *; simplify_eq;
    rewrite length_app; [lia|]. pose proof (IH k Hk). lia.
Qed.

Section Pools.
Context (h : heap) (ls : list list_t) (frees : list (list Z)) (k : nat) (l : list_t).
Context (Hls : Forall2 (lrep h) ls frees) (Hnd : NoDup (concat frees)) (Hsmall : zlen (concat frees) < 2 ^ 31 - 1).
Context (Hl : ls !! k = Some l).

(** A block is appended to the list [k]. *)
Lemma pools_add_tail fs x : frees !! k = Some fs -> x ∉ concat frees -> x <> 0 -> is_Some (h !! x) ->
  exists l' h', list_add_tail_eurecom x l h = Ret (l', h') /\
    Forall2 (lrep h') (<[k := l']> ls) (<[k := fs ++ [x]]> frees) /\
    forall y, is_Some (h !! y) -> is_Some (h' !! y).
Proof.
  intros Hk Hx Hx0 Hd. pose proof (Forall2_lookup_lr _ _ _ _ _ _ Hls Hl Hk) as Hr.
  pose proof (length_concat_lookup frees k fs Hk).
  assert (Hxf : x ∉ fs).
  { intros Hin. apply Hx. apply list_elem_of_In, in_concat. exists fs.
    split; apply list_elem_of_In; [by eapply list_elem_of_lookup_2|done]. }
  destruct (add_tail_rep h l fs x Hr Hx0 Hd Hxf) as (l' & h' & E & Hr' & Hf); [unfold zlen in *; lia|].
  exists l', h'. split_and!; [done| |].
  - eapply lrep_insert; eauto. intros y Hy Hin. apply Hf; [|done]. by intros ->.
  - intros y Hy. destruct (decide (y ∈ fs ++ [x])) as [Hin|Hn]; [by apply (linked_dom h' (fs ++ [x])); [apply Hr'|]|].
    apply not_elem_of_app in Hn as [Hn1 Hn2]. rewrite Hf; [done| |done]. intros ->. apply Hn2. by left.
Qed.

(** The first block of the list [k] is taken. *)
Lemma pools_remove_head fs x : frees !! k = Some (x :: fs) ->
  exists l' h', list_remove_head l h = Ret (x, l', h') /\
    Forall2 (lrep h') (<[k := l']> ls) (<[k := fs]> frees) /\
    forall y, is_Some (h !! y) -> is_Some (h' !! y).
Proof.
  intros Hk. pose proof (Forall2_lookup_lr _ _ _ _ _ _ Hls Hl Hk) as Hr.
  pose proof (length_concat_lookup frees k _ Hk) as Hlen. cbn [length] in Hlen.
  destruct (remove_head_rep h l x fs Hr) as (l' & h' & E & Hr' & Hx & Hf); [unfold zlen in *; lia|].
  exists l', h'. split_and!; [done| |].
  - eapply lrep_insert; eauto. intros y Hy _. apply Hf. intros ->. apply Hy. by left.
  - intros y Hy. destruct (decide (y = x)) as [->|]; [by rewrite Hx|by rewrite Hf].
Qed.

Lemma pools_remove_empty : frees !! k = Some [] -> list_remove_head l h = Ret (0, l, h).
Proof. intros Hk. apply remove_head_empty. by apply (Forall2_lookup_lr _ _ _ _ _ _ Hls Hl Hk). Qed.

End Pools.

(** ** The selection of the pool *)

(** The pool of a request: the first one whose blocks are larger. *)
Definition pool_for (size : Z) : Z := if size <? 64 then 0 else Z.log2 size - 5.

Lemma select_loop_ok fuel : forall size k, 0 <= size < 2 ^ Z.of_nat fuel ->
  select_loop (S fuel) size k = Ret (k + (if size =? 0 then 0 else Z.log2 size + 1)).
Proof.
  induction fuel as [|fuel IH]; intros size k Hs.
  { assert (size = 0) as -> by (cbn in Hs; lia). cbn. f_equal. lia. }
  remember (S fuel) as f. cbn [select_loop]. destruct (Z.eqb_spec size 0) as [->|Hne]; [by rewrite Z.add_0_r|].
  subst f. rewrite Nat2Z.inj_succ, Z.pow_succ_r in Hs by lia.
  rewrite Z.shiftr_div_pow2 by lia. change (2 ^ 1) with 2.
  rewrite IH by (Z.div_mod_to_equations; lia). f_equal.
  destruct (Z.eqb_spec (size / 2) 0) as [Hz|Hz].
  - assert (size = 1) as -> by (Z.div_mod_to_equations; lia). change (Z.log2 1) with 0. lia.
  - rewrite <- (Z.div2_div size), Z.div2_spec, Z.log2_shiftr in * by lia.
    assert (1 <= Z.log2 size) by (apply Z.log2_le_pow2; [lia|]; change (2 ^ 1) with 2; rewrite Z.shiftr_div_pow2 in Hz by lia; change (2 ^ 1) with 2 in Hz; Z.div_mod_to_equations; lia).
    lia.
Qed.

Lemma select_pool size : 0 <= size <= MEM_MNGT_MB12_BLOCK_SIZE ->
  select_loop 32 (Z.shiftr size 6) 0 = Ret (pool_for size).
Proof.
  unfold MEM_MNGT_MB12_BLOCK_SIZE, pool_for. intros Hs.
  assert (Hd : Z.shiftr size 6 = size / 64) by (by rewrite Z.shiftr_div_pow2).
  rewrite select_loop_ok by (rewrite Hd; cbn; Z.div_mod_to_equations; lia). f_equal.
  destruct (Z.ltb_spec size 64).
  - rewrite Hd, Z.div_small by lia. done.
  - rewrite (proj2 (Z.eqb_neq _ 0)) by (rewrite Hd; Z.div_mod_to_equations; lia). rewrite Z.log2_shiftr by lia.
    assert (6 <= Z.log2 size) by (apply Z.log2_le_pow2; [lia|]; by change (2 ^ 6) with 64). lia.
Qed.

(** The blocks of the selected pool, and of the next ones, are larger than the request. *)
Lemma pool_for_size size : 0 <= size < MEM_MNGT_MB12_BLOCK_SIZE ->
  0 <= pool_for size <= 12 /\ forall k, pool_for size <= k -> size < block_size k.
Proof.
  unfold MEM_MNGT_MB12_BLOCK_SIZE, pool_for, block_size. intros Hs. destruct (Z.ltb_spec size 64).
  - split; [lia|]. intros k Hk. assert (1 <= 2 ^ k) by (pose proof (Z.pow_pos_nonneg 2 k); lia). lia.
  - assert (H6 : 6 <= Z.log2 size) by (apply Z.log2_le_pow2; [lia|]; by change (2 ^ 6) with 64).
    assert (H17 : Z.log2 size < 18) by (apply Z.log2_lt_pow2; [lia|]; change (2 ^ 18) with (64 * 4096); lia).
    split; [lia|]. intros k Hk. change 64 with (2 ^ 6). rewrite <- Z.pow_add_r by lia.
    apply Z.lt_le_trans with (2 ^ Z.succ (Z.log2 size)); [apply Z.log2_spec; lia|apply Z.pow_le_mono_r; lia].
Qed.

(** ** The descriptions of the blocks *)

Definition describe (ps : list (Z * Z)) : list mem_block_t := concat ((fun p => pool_blocks p.1 p.2) <$> ps).

Lemma length_pool_blocks k nb : length (pool_blocks k nb) = Z.to_nat nb.
Proof. unfold pool_blocks. by rewrite length_fmap, length_zrange. Qed.

Lemma pool_blocks_lookup k nb i b : pool_blocks k nb !! i = Some b ->
  Z.of_nat i < nb /\ b = MB k (if k <=? 12 then Some (k, Z.of_nat i) else None).
Proof.
  unfold pool_blocks. rewrite list_lookup_fmap. intros (j & Hj & ->)%fmap_Some_1.
  unfold zrange in Hj. apply lookup_seqZ in Hj as [-> Hj]. split; [lia|]. by rewrite Z.add_0_l.
Qed.

Lemma length_describe ps : Forall (fun p => 0 <= p.2) ps -> zlen (describe ps) = foldr Z.add 0 ps.*2.
Proof.
  induction 1 as [|[k nb] ps Hp Hps IH]; [done|]. unfold describe in *. cbn [fmap list_fmap concat fst snd foldr].
  rewrite zlen_app, IH. unfold zlen. rewrite length_pool_blocks. cbn in Hp. lia.
Qed.

(** The block of an index belongs to a pool and points to an element of that pool only. *)
Lemma describe_lookup ps i b : describe ps !! i = Some b ->
  exists k nb j, (k, nb) ∈ ps /\ 0 <= j < nb /\ b = MB k (if k <=? 12 then Some (k, j) else None).
Proof.
  revert i. induction ps as [|[k nb] ps IH]; intros i H; [done|]. unfold describe in H. cbn in H.
  apply lookup_app_Some in H as [H|[_ H]].
  - apply pool_blocks_lookup in H as [Hi ->]. exists k, nb, (Z.of_nat i). split_and!; [by left|lia|lia|done].
  - destruct (IH _ H) as (k' & nb' & j & H1 & H2 & H3). exists k', nb', j. split_and!; [by right|lia|lia|done].
Qed.

Lemma describe_data_inj ps i j b b' d : NoDup ps.*1 -> describe ps !! i = Some b -> describe ps !! j = Some b' ->
  data b = Some d -> data b' = Some d -> i = j.
Proof.
  revert i j. induction ps as [|[k nb] ps IH]; intros i j Hnd Hi Hj Hd Hd'; [done|].
  cbn in Hnd. apply NoDup_cons in Hnd as [Hk Hnd].
  assert (Hkey : forall b n, describe ps !! n = Some b -> data b = Some d -> d.1 <> k).
  { intros c n Hc Hdc E. destruct (describe_lookup ps n c Hc) as (k' & nb' & x & Hin & _ & ->). cbn in Hdc.
    destruct (k' <=? 12); [|done]. injection Hdc as <-. cbn in E. subst k'. apply Hk.
    by apply (list_elem_of_fmap_2 fst _ (k, nb')). }
  assert (Hown : forall b n, pool_blocks k nb !! n = Some b -> data b = Some d -> d = (k, Z.of_nat n)).
  { intros c n [_ ->]%pool_blocks_lookup Hdc. cbn in Hdc. destruct (k <=? 12); [|done]. by injection Hdc as <-. }
  unfold describe in Hi, Hj. cbn in Hi, Hj. fold (describe ps) in Hi, Hj.
  apply lookup_app_Some in Hi as [Hi|[Hi1 Hi]]; apply lookup_app_Some in Hj as [Hj|[Hj1 Hj]].
  - pose proof (Hown _ _ Hi Hd) as E1. pose proof (Hown _ _ Hj Hd') as E2. rewrite E1 in E2. injection E2. lia.
  - pose proof (Hown _ _ Hi Hd) as E1. destruct (Hkey _ _ Hj Hd'). by rewrite E1.
  - pose proof (Hown _ _ Hj Hd') as E1. destruct (Hkey _ _ Hi Hd). by rewrite E1.
  - pose proof (IH _ _ Hnd Hi Hj Hd Hd'). lia.
Qed.

(** ** The blocks in use and the free blocks *)

Section State.
Context (scale : Z) (Hscale : 0 < scale <= 128).

Lemma nb_elements_range : 16504 <= MEM_MNGT_NB_ELEMENTS scale < 2 ^ 31 - 1.
Proof. unfold MEM_MNGT_NB_ELEMENTS, pool_sizes. cbn [fmap list_fmap app foldr]. lia. Qed.

Lemma length_all_blocks : zlen (all_blocks scale) = MEM_MNGT_NB_ELEMENTS scale.
Proof.
  unfold all_blocks. fold (describe (zip (zrange 0 14) (pool_sizes scale))). rewrite length_describe.
  - unfold MEM_MNGT_NB_ELEMENTS. by rewrite snd_zip.
  - unfold pool_sizes. cbn. repeat (apply Forall_cons_2; [cbn; lia|]). apply Forall_nil_2.
Qed.

Lemma all_ptrs_nodup : NoDup (block_ptr <$> zrange 0 (Z.to_nat (MEM_MNGT_NB_ELEMENTS scale))).
Proof. apply NoDup_fmap_2; [apply _|apply NoDup_seqZ]. Qed.

(** Every block that is free or in use is a block of the array. *)
Lemma ptr_range m frees held b : pools_ok scale m frees held -> b ∈ concat frees ++ held ->
  1 <= b <= MEM_MNGT_NB_ELEMENTS scale.
Proof.
  intros [_ _ Hall _ _ _] Hb. rewrite Hall in Hb. apply list_elem_of_fmap in Hb as (i & -> & Hi%elem_of_zrange).
  unfold block_ptr. pose proof nb_elements_range. lia.
Qed.

Lemma pools_nodup m frees held : pools_ok scale m frees held -> NoDup (concat frees ++ held).
Proof. intros [_ _ Hall _ _ _]. rewrite Hall. apply all_ptrs_nodup. Qed.

Lemma pools_count m frees held : pools_ok scale m frees held ->
  zlen (concat frees) + zlen held = MEM_MNGT_NB_ELEMENTS scale.
Proof.
  intros [_ _ Hall _ _ _]. apply Permutation_length in Hall. pose proof nb_elements_range.
  rewrite length_app, length_fmap, length_zrange in Hall. unfold zlen. lia.
Qed.

(** Taking the first block of the pool [k]. *)
Lemma take_block m frees held k x fs l :
  pools_ok scale m frees held -> frees !! k = Some (x :: fs) -> mem_lists m !! k = Some l ->
  exists l' h', list_remove_head l (mp_next m) = Ret (x, l', h') /\ x <> 0 /\
    pools_ok scale (MP h' (mem_blocks m) (<[k := l']> (mem_lists m))) (<[k := fs]> frees) (x :: held).
Proof.
  intros Hok Hk Hl. pose proof (pools_nodup _ _ _ Hok) as Hnd. pose proof (pools_count _ _ _ Hok) as Hc.
  pose proof nb_elements_range. pose proof (zlen_nonneg held). pose proof Hok as [H1 H2 H3 H4 H5 H6].
  apply NoDup_app in Hnd as (Hnd & _ & _).
  destruct (pools_remove_head _ _ _ k l H1 Hnd ltac:(lia) Hl fs x Hk) as (l' & h' & E & Hls & Hd).
  exists l', h'. split; [done|]. split.
  { apply (linked_nonzero (mp_next m) (x :: fs)); [|by left].
    apply (Forall2_lookup_lr _ _ _ _ _ _ H1 Hl Hk). }
  assert (Hp : concat frees ≡ₚ x :: concat (<[k := fs]> frees)).
  { replace frees with (<[k := x :: fs]> frees) at 1 by (by apply list_insert_id).
    pose proof (lookup_lt_Some _ _ _ Hk) as Hlt. clear -Hlt. revert k Hlt.
    induction frees as [|f fr IH]; intros [|k] Hlt; cbn in *; try lia; [done|].
    etrans; [apply Permutation_app_head, (IH k); lia|]. symmetry. apply Permutation_middle. }
  constructor; cbn; [done|done| |intros; by apply Hd, H4| |by rewrite length_insert].
  - etrans; [|exact H3]. etrans; [symmetry; apply Permutation_middle|]. symmetry. exact (Permutation_app_tail held Hp).
  - intros j fj b Hj Hb. destruct (decide (k = j)) as [<-|Hne].
    + rewrite list_lookup_insert_eq in Hj by (by eapply lookup_lt_Some). simplify_eq.
      eapply H5; [exact Hk|by right].
    + rewrite list_lookup_insert_ne in Hj by done. by eapply H5.
Qed.

(** The search returns the first block of the first pool that is not empty. *)
Lemma search_ok fuel : forall p m frees held, pools_ok scale m frees held -> 0 <= p <= 12 -> 12 - p < Z.of_nat fuel ->
  (exists k x fs m', p <= Z.of_nat k <= 12 /\ frees !! k = Some (x :: fs) /\
     search_loop fuel p m = Ret (x, m') /\ pools_ok scale m' (<[k := fs]> frees) (x :: held)) \/
  (search_loop fuel p m = Trap FExit /\ frees !! 12%nat = Some []).
Proof.
  induction fuel as [|fuel IH]; intros p m frees held Hok Hp Hf; [lia|]. cbn [search_loop].
  pose proof Hok as [H1 _ _ _ _ H6]. pose proof (Forall2_length _ _ _ H1) as Hlen.
  destruct (lookup_lt_is_Some_2 frees (Z.to_nat p)) as [fs Hk]; [lia|].
  destruct (lookup_lt_is_Some_2 (mem_lists m) (Z.to_nat p)) as [l Hl]; [lia|].
  rewrite (aget_ok _ p l) by (lia || done). cbn [mbind cres_bind]. destruct fs as [|x fs].
  - rewrite (pools_remove_empty _ _ _ _ _ H1 Hl Hk). cbn [mbind cres_bind].
    rewrite aset_ok by (unfold zlen; lia). cbn [mbind cres_bind Z.eqb negb]. rewrite list_insert_id by done.
    replace (MP (mp_next m) (mem_blocks m) (mem_lists m)) with m by (by destruct m).
    destruct (Z.ltb_spec p 12) as [Hlt|Hge].
    + destruct (IH (p + 1) m frees held Hok ltac:(lia) ltac:(lia)) as [(k & x & fs & m' & ? & ?)|?]; [left|by right].
      exists k, x, fs, m'. split; [lia|done].
    + right. split; [done|]. by replace 12%nat with (Z.to_nat p) by lia.
  - destruct (take_block _ _ _ _ _ _ _ Hok Hk Hl) as (l' & h' & E & Hx & Hok'). rewrite E. cbn [mbind cres_bind].
    rewrite aset_ok by (unfold zlen; lia). cbn [mbind cres_bind].
    rewrite (proj2 (Z.eqb_neq x 0)) by done. cbn [negb]. left. eexists (Z.to_nat p), x, fs, _. split_and!; [lia|lia|done..].
Qed.

(** A block that is in use goes back to its pool. *)
Lemma free_ok m frees held b : pools_ok scale m frees held -> b ∈ held ->
  exists m' frees' held', free_mem_block b m = Ret m' /\ held ≡ₚ b :: held' /\ pools_ok scale m' frees' held'.
Proof.
  intros Hok Hb. pose proof (pools_nodup _ _ _ Hok) as Hnd. pose proof (pools_count _ _ _ Hok) as Hc.
  pose proof nb_elements_range as Hnb. pose proof (zlen_nonneg held).
  pose proof (ptr_range _ _ _ b Hok ltac:(apply elem_of_app; by right)) as Hr.
  pose proof Hok as [H1 H2 H3 H4 H5 H6]. pose proof (Forall2_length _ _ _ H1) as Hlen.
  apply NoDup_app in Hnd as (Hnd & Hdis & _).
  destruct (lookup_lt_is_Some_2 (all_blocks scale) (Z.to_nat (block_index b))) as [d Hd].
  { pose proof length_all_blocks as Hall. unfold zlen in Hall. unfold block_index. lia. }
  destruct (describe_lookup _ _ _ Hd) as (k & nb & j & Hin & Hj & Ed).
  assert (Hk : 0 <= k < 14).
  { apply elem_of_zip_l in Hin. by apply elem_of_zrange in Hin. }
  unfold free_mem_block. rewrite (proj2 (Z.eqb_neq b 0)) by lia. rewrite H2.
  rewrite (aget_ok _ (block_index b) d) by (done || unfold block_index; lia). cbn [mbind cres_bind].
  assert (Hpid : pool_id d = k) by (by rewrite Ed). rewrite Hpid. unfold MEM_MNGT_POOL_ID_COPY.
  rewrite (proj2 (Z.leb_le k 13)) by lia.
  destruct (lookup_lt_is_Some_2 frees (Z.to_nat k)) as [fs Hfs]; [lia|].
  destruct (lookup_lt_is_Some_2 (mem_lists m) (Z.to_nat k)) as [l Hl]; [lia|].
  rewrite (aget_ok _ k l) by (lia || done). cbn [mbind cres_bind].
  destruct (pools_add_tail _ _ _ _ l H1 Hnd ltac:(lia) Hl fs b Hfs) as (l' & h' & E & Hls & Hdom).
  { intros Hin'. by apply (Hdis b). }
  { lia. }
  { specialize (H4 (block_index b)). unfold block_ptr, block_index in H4. replace (b - 1 + 1) with b in H4 by lia.
    apply H4. lia. }
  rewrite E. cbn [mbind cres_bind]. rewrite aset_ok by (unfold zlen; lia). cbn [mbind cres_bind].
  apply list_elem_of_split in Hb as (h1 & h2 & ->).
  eexists _, (<[Z.to_nat k := fs ++ [b]]> frees), (h1 ++ h2). split; [done|].
  split; [symmetry; apply Permutation_middle|]. constructor; cbn; [done|done| |intros; by apply Hdom, H4| |by rewrite length_insert].
  - etrans; [|exact H3]. etrans; [by apply Permutation_app_tail, concat_insert|]. rewrite <- app_assoc.
    apply Permutation_app_head, (Permutation_middle h1 h2 b).
  - intros i fi y Hi Hy. destruct (decide (Z.to_nat k = i)) as [<-|Hne].
    + rewrite list_lookup_insert_eq in Hi by lia. simplify_eq. apply elem_of_app in Hy as [Hy|Hy].
      { by eapply H5. }
      apply list_elem_of_singleton in Hy as ->. rewrite Hd. cbn. rewrite Z2Nat.id by lia. done.
    + rewrite list_lookup_insert_ne in Hi by done. by eapply H5.
Qed.

(** The order in which the blocks in use are listed does not matter. *)
Lemma pools_ok_perm m frees held held' : held ≡ₚ held' -> pools_ok scale m frees held -> pools_ok scale m frees held'.
Proof.
  intros Hp [H1 H2 H3 H4 H5 H6]. constructor; try done. etrans; [|exact H3].
  apply Permutation_app_head. by symmetry.
Qed.

(** The blocks of the pool of the largest blocks. *)
Definition large_pool : list Z :=
  (fun i => block_ptr (15448 * scale + i)) <$> zrange 0 (Z.to_nat (32 * scale)).

Lemma large_pool_id b : b ∈ large_pool ->
  1 <= b <= MEM_MNGT_NB_ELEMENTS scale /\ pool_id <$> all_blocks scale !! Z.to_nat (block_index b) = Some 12.
Proof.
  unfold large_pool. intros (i & -> & Hi%elem_of_zrange)%list_elem_of_fmap.
  split; [unfold block_ptr, MEM_MNGT_NB_ELEMENTS, pool_sizes; cbn [fmap list_fmap app foldr]; lia|].
  unfold block_ptr, block_index. replace (15448 * scale + i + 1 - 1) with (15448 * scale + i) by lia.
  assert (E : all_blocks scale = describe (take 12 (zip (zrange 0 14) (pool_sizes scale))) ++
    pool_blocks 12 (32 * scale) ++ pool_blocks 13 1024).
  { unfold all_blocks, describe. rewrite <- (take_drop 12 (zip _ _)) at 1. rewrite fmap_app, concat_app. by f_equal. }
  assert (Hlen : zlen (describe (take 12 (zip (zrange 0 14) (pool_sizes scale)))) = 15448 * scale).
  { change (zrange 0 14) with [0; 1; 2; 3; 4; 5; 6; 7; 8; 9; 10; 11; 12; 13].
    rewrite length_describe; [unfold pool_sizes; cbn -[Z.add Z.mul]; lia|].
    unfold pool_sizes. cbn. repeat (apply Forall_cons_2; [cbn; lia|]). apply Forall_nil_2. }
  rewrite E, lookup_app_r by (unfold zlen in *; lia).
  rewrite lookup_app_l by (rewrite length_pool_blocks; unfold zlen in *; lia).
  destruct (lookup_lt_is_Some_2 (pool_blocks 12 (32 * scale))
    (Z.to_nat (15448 * scale + i) - length (describe (take 12 (zip (zrange 0 14) (pool_sizes scale)))))) as [d Hd].
  { rewrite length_pool_blocks. unfold zlen in *. lia. }
  rewrite Hd. by apply pool_blocks_lookup in Hd as [_ ->].
Qed.

(** When the pool of the largest blocks is empty all of them are in use. *)
Lemma large_pool_used m frees held : pools_ok scale m frees held -> frees !! 12%nat = Some [] -> 32 * scale <= zlen held.
Proof.
  intros [_ _ Hall _ Hpool _] H12.
  assert (Hnd : NoDup large_pool).
  { unfold large_pool. apply NoDup_fmap_2; [intros x y; unfold block_ptr; lia|apply NoDup_seqZ]. }
  assert (Hlen : length large_pool = Z.to_nat (32 * scale)) by (unfold large_pool; by rewrite length_fmap, length_zrange).
  enough (length large_pool <= length held)%nat by (unfold zlen; lia).
  apply NoDup_incl_length; [by apply NoDup_ListNoDup|]. intros b Hb%list_elem_of_In. apply list_elem_of_In.
  destruct (large_pool_id b Hb) as [Hr Hid].
  assert (Hin : b ∈ concat frees ++ held).
  { rewrite Hall. apply list_elem_of_fmap. exists (block_index b). unfold block_ptr, block_index.
    split; [lia|]. apply elem_of_zrange. lia. }
  apply elem_of_app in Hin as [Hin|Hin]; [|done]. apply list_elem_of_In, in_concat in Hin as (fs & Hfs & Hbf).
  apply list_elem_of_In, list_elem_of_lookup in Hfs as (k & Hk). apply list_elem_of_In in Hbf.
  rewrite (Hpool k fs b Hk Hbf) in Hid. injection Hid as Hid. replace k with 12%nat in Hk by lia.
  rewrite H12 in Hk. injection Hk as <-. by apply not_elem_of_nil in Hbf.
Qed.

(** A request for [size] bytes gives a block of a pool whose blocks are larger. *)
Lemma get_ok size m frees held : pools_ok scale m frees held -> 0 <= size < MEM_MNGT_MB12_BLOCK_SIZE ->
  zlen held < 32 * scale ->
  exists b m' frees' d k j, get_free_mem_block size m = Ret (b, m') /\ pools_ok scale m' frees' (b :: held) /\
    aget (all_blocks scale) (block_index b) = Ret d /\ data d = Some (k, j) /\ size < block_size k.
Proof.
  intros Hok Hs Hheld. destruct (pool_for_size size Hs) as [Hp Hsz]. unfold get_free_mem_block.
  rewrite (proj2 (Z.ltb_ge _ _)), select_pool by lia. cbn [mbind cres_bind].
  destruct (search_ok 14 (pool_for size) m frees held Hok Hp ltac:(lia)) as
    [(k & b & fs & m' & Hk & Hf & E & Hok')|[_ H12]]; [|by pose proof (large_pool_used _ _ _ Hok H12); lia].
  pose proof (po_pool _ _ _ _ Hok k _ b Hf ltac:(by left)) as Hpid.
  destruct (all_blocks scale !! Z.to_nat (block_index b)) as [d|] eqn:Hd; [|done]. injection Hpid as Hpid.
  destruct (describe_lookup _ _ _ Hd) as (k' & nb & j & _ & _ & ->). cbn in Hpid. subst k'.
  pose proof (ptr_range _ _ _ b Hok') as Hr.
  eexists b, m', (<[k := fs]> frees), _, (Z.of_nat k), j. split_and!; [done|exact Hok'| | |].
  - apply aget_ok; [|exact Hd]. unfold block_index. specialize (Hr ltac:(apply elem_of_app; right; by left)). lia.
  - cbn. by rewrite (proj2 (Z.leb_le _ _)) by lia.
  - apply Hsz. lia.
Qed.

End State.

(** ** The initialisation *)

Section Init.
Context (scale : Z) (Hscale : 0 < scale <= 128).
Abbreviation N := (Z.to_nat (MEM_MNGT_NB_ELEMENTS scale)).

(** After the blocks [A] the lists of the pools [F] are complete and [xs] is the list of the
    current one. *)
Record init_inv (m : mem_pool) (F : list (list Z)) (xs : list Z) (A : list mem_block_t) : Prop := {
  ii_lists : Forall2 (lrep (mp_next m)) (mem_lists m) (F ++ xs :: replicate (13 - length F) []);
  ii_number : (length F < 14)%nat;
  ii_concat : concat F ++ xs = block_ptr <$> zrange 0 (length A);
  ii_blocks : mem_blocks m = A ++ replicate (N - length A) (MB 0 None);
  ii_le : (length A <= N)%nat;
  ii_store : forall i, 0 <= i < MEM_MNGT_NB_ELEMENTS scale -> is_Some (mp_next m !! block_ptr i);
  ii_pool : forall k fs b, (F ++ [xs]) !! k = Some fs -> b ∈ fs ->
    pool_id <$> A !! Z.to_nat (block_index b) = Some (Z.of_nat k);
}.

Lemma concat_pad {A} (F : list (list A)) xs n : concat (F ++ xs :: replicate n []) = concat F ++ xs.
Proof.
  rewrite concat_app. cbn [concat]. f_equal. rewrite <- (app_nil_r xs) at 2. f_equal.
  by induction n.
Qed.

Lemma init_block_ok m F xs A mb index : init_inv m F xs A -> (length A < N)%nat -> mb + index = zlen A ->
  exists m', init_block (zlen F) mb index m = Ret m' /\
    init_inv m' F (xs ++ [block_ptr (zlen A)])
      (A ++ [MB (zlen F) (if zlen F <=? 12 then Some (zlen F, index) else None)]).
Proof.
  intros [H1 H2 H3 H4 H5 H6 H7] Hlt Hmb. unfold init_block. rewrite Hmb. set (d := MB (zlen F) _).
  pose proof (nb_elements_range scale Hscale) as Hnb. pose proof (Forall2_length _ _ _ H1) as Hlen.
  rewrite length_app in Hlen. cbn [length] in Hlen. rewrite length_replicate in Hlen.
  rewrite H4, aset_ok by (unfold zlen; rewrite length_app, length_replicate; lia). cbn [mbind cres_bind].
  unfold zlen at 1 2 3 4. rewrite !Nat2Z.id.
  rewrite insert_app_r_alt, Nat.sub_diag by lia. destruct (N - length A)%nat as [|r] eqn:Er; [lia|].
  cbn [replicate insert list_insert].
  destruct (lookup_lt_is_Some_2 (mem_lists m) (length F)) as [l Hl]; [lia|].
  rewrite (aget_ok _ _ l) by (try rewrite Nat2Z.id; done || lia). cbn [mbind cres_bind].
  assert (Hptr : forall x, x ∈ concat F ++ xs -> x < block_ptr (Z.of_nat (length A))).
  { rewrite H3. intros x (i & -> & Hi%elem_of_zrange)%list_elem_of_fmap. unfold block_ptr. lia. }
  destruct (pools_add_tail _ _ _ (length F) l H1) with (fs := xs) (x := block_ptr (Z.of_nat (length A)))
    as (l' & h' & E & Hls & Hdom).
  { rewrite concat_pad, H3. apply NoDup_fmap_2; [apply _|apply NoDup_seqZ]. }
  { rewrite concat_pad, H3. unfold zlen. rewrite length_fmap, length_zrange. lia. }
  { done. }
  { by rewrite lookup_app_r, Nat.sub_diag by lia. }
  { rewrite concat_pad. intros Hin. pose proof (Hptr _ Hin). lia. }
  { unfold block_ptr. lia. }
  { apply H6. lia. }
  rewrite E. cbn [mbind cres_bind]. rewrite aset_ok by (unfold zlen; lia). rewrite Nat2Z.id. cbn [mbind cres_bind].
  eexists. split; [reflexivity|]. rewrite insert_app_r_alt, Nat.sub_diag in Hls by lia. cbn [insert list_insert] in Hls.
  constructor; cbn [mp_next mem_blocks mem_lists]; [done|done| | | |intros; by apply Hdom, H6|].
  - rewrite app_assoc, H3, length_app. cbn [length]. by rewrite Nat.add_1_r, zrange_snoc, fmap_app.
  - rewrite length_app. cbn [length]. rewrite <- app_assoc. cbn [app]. repeat f_equal. lia.
  - rewrite length_app. cbn [length]. lia.
  - intros k fs b Hk Hb. destruct (decide (b = block_ptr (Z.of_nat (length A)))) as [->|Hne].
    + assert (k = length F) as ->.
      { destruct (Nat.lt_trichotomy k (length F)) as [Hlk|[Hlk|Hlk]]; [|done|].
        - rewrite lookup_app_l in Hk by done. exfalso.
          assert (Hin : block_ptr (Z.of_nat (length A)) ∈ concat F).
          { apply list_elem_of_In, in_concat. exists fs. split; apply list_elem_of_In; [by eapply list_elem_of_lookup_2|done]. }
          pose proof (Hptr _ (proj2 (elem_of_app _ _ _) (or_introl Hin))). lia.
        - apply lookup_lt_Some in Hk. rewrite length_app in Hk. cbn in Hk. lia. }
      unfold block_ptr, block_index. replace (Z.to_nat _) with (length A) by lia.
      by rewrite lookup_app_r, Nat.sub_diag by lia.
    + assert (Hk' : exists fs', (F ++ [xs]) !! k = Some fs' /\ b ∈ fs').
      { destruct (decide (k < length F)%nat) as [Hlk|Hlk].
        - rewrite lookup_app_l in Hk by done. exists fs. by rewrite lookup_app_l.
        - rewrite lookup_app_r in Hk |- * by lia. destruct (k - length F)%nat; [|done]. cbn in Hk. injection Hk as <-.
          exists xs. split; [done|]. apply elem_of_app in Hb as [Hb|Hb]; [done|]. by apply list_elem_of_singleton in Hb. }
      destruct Hk' as (fs' & Hk' & Hb'). pose proof (H7 k fs' b Hk' Hb') as Hp.
      rewrite lookup_app_l; [done|]. destruct (A !! _) eqn:Ea; [|done]. by eapply lookup_lt_Some.
Qed.

Lemma init_blocks_ok n : forall m F xs A mb i, init_inv m F xs A -> (length A + n <= N)%nat -> mb + i = zlen A ->
  exists m', for_each (init_block (zlen F) mb) (zrange i n) m = Ret m' /\
    init_inv m' F (xs ++ (block_ptr <$> zrange (zlen A) n))
      (A ++ ((fun j => MB (zlen F) (if zlen F <=? 12 then Some (zlen F, j) else None)) <$> zrange i n)).
Proof.
  induction n as [|n IH]; intros m F xs A mb i Hi Hle Hmb.
  { exists m. split; [done|]. cbn. by rewrite !app_nil_r. }
  rewrite !zrange_S. cbn [for_each fmap list_fmap].
  destruct (init_block_ok m F xs A mb i Hi ltac:(lia) Hmb) as (m1 & E1 & H1). rewrite E1. cbn [mbind cres_bind].
  destruct (IH _ _ _ _ mb (i + 1) H1) as (m2 & E2 & H2).
  { rewrite length_app. cbn [length]. lia. }
  { rewrite zlen_app. change (zlen [_]) with 1. lia. }
  exists m2. split; [done|]. rewrite zlen_app in H2. change (zlen [_]) with 1 in H2.
  rewrite <- !app_assoc in H2. exact H2.
Qed.

Lemma init_pool_ok m F A nb : init_inv m F [] A -> 0 <= nb -> zlen A + nb <= MEM_MNGT_NB_ELEMENTS scale ->
  exists m' xs, init_pool (zlen F, nb) (m, zlen A) = Ret (m', zlen A + nb) /\
    init_inv m' F xs (A ++ pool_blocks (zlen F) nb).
Proof.
  intros [H1 H2 H3 H4 H5 H6 H7] Hnb Hle. unfold init_pool. pose proof (Forall2_length _ _ _ H1) as Hlen.
  rewrite length_app in Hlen. cbn [length] in Hlen. rewrite length_replicate in Hlen.
  rewrite aset_ok by (unfold zlen; lia). cbn [mbind cres_bind].
  destruct (init_blocks_ok (Z.to_nat nb) (MP (mp_next m) (mem_blocks m) (<[Z.to_nat (zlen F) := list_init]> (mem_lists m)))
    F [] A (zlen A) 0) as (m' & E & Hi).
  - constructor; try done. cbn [mp_next mem_lists]. unfold zlen. rewrite Nat2Z.id.
    rewrite <- (list_insert_id (F ++ [] :: replicate (13 - length F) []) (length F) []).
    + apply Forall2_insert; [done|apply lrep_init].
    + by rewrite lookup_app_r, Nat.sub_diag by lia.
  - unfold zlen in Hle. lia.
  - lia.
  - rewrite E. cbn [mbind cres_bind]. eexists _, _. split; [done|exact Hi].
Qed.

(** The next pool. *)
Lemma init_next m F xs A : init_inv m F xs A -> (length F < 13)%nat -> init_inv m (F ++ [xs]) [] A.
Proof.
  intros [H1 H2 H3 H4 H5 H6 H7] Hlt. constructor; try done.
  - rewrite length_app. cbn [length]. rewrite <- app_assoc. cbn [app].
    replace (13 - length F)%nat with (S (13 - (length F + 1))) in H1 by lia. exact H1.
  - rewrite length_app. cbn [length]. lia.
  - rewrite concat_app. cbn [concat]. by rewrite !app_nil_r.
  - intros k fs b Hk Hb. apply lookup_app_Some in Hk as [Hk|[_ Hk]]; [by eapply H7|].
    destruct (k - _)%nat; [|done]. cbn in Hk. injection Hk as <-. by apply not_elem_of_nil in Hb.
Qed.

Lemma init_pools_ok nbs : forall m F A nb, init_inv m F [] A -> (length F + S (length nbs) = 14)%nat ->
  Forall (fun n => 0 <= n) (nb :: nbs) -> zlen A + foldr Z.add 0 (nb :: nbs) <= MEM_MNGT_NB_ELEMENTS scale ->
  exists m' F' xs mb, for_each init_pool (zip (zrange (zlen F) (S (length nbs))) (nb :: nbs)) (m, zlen A) = Ret (m', mb) /\
    length F' = 13%nat /\ init_inv m' F' xs (A ++ describe (zip (zrange (zlen F) (S (length nbs))) (nb :: nbs))).
Proof.
  induction nbs as [|nb' nbs IH]; intros m F A nb Hi Hlen Hnb Hle; apply Forall_cons_1 in Hnb as [Hn Hnb];
    cbn [foldr] in Hle; rewrite zrange_S; cbn [zip zip_with for_each].
  - destruct (init_pool_ok m F A nb Hi Hn ltac:(lia)) as (m' & xs & E & Hi'). rewrite E. cbn [mbind cres_bind].
    eexists m', F, xs, _. split; [done|]. split; [cbn [length] in Hlen; lia|]. unfold describe. cbn. by rewrite app_nil_r.
  - assert (Hpos : 0 <= foldr Z.add 0 nbs) by (apply Forall_cons_1 in Hnb as [_ Hnb]; clear -Hnb; induction Hnb; cbn in *; lia).
    pose proof (proj1 (Forall_cons_1 _ _ _ Hnb)) as Hn'. cbn in Hn'.
    destruct (init_pool_ok m F A nb Hi Hn ltac:(lia)) as (m1 & xs & E & Hi'). rewrite E. cbn [mbind cres_bind].
    cbn [length] in Hlen. apply init_next in Hi'; [|lia].
    assert (Hz : zlen (A ++ pool_blocks (zlen F) nb) = zlen A + nb).
    { rewrite zlen_app. unfold zlen at 2. rewrite length_pool_blocks. lia. }
    destruct (IH m1 (F ++ [xs]) (A ++ pool_blocks (zlen F) nb) nb' Hi') as (m2 & F' & xs' & mb & E2 & Hl & Hi2).
    { rewrite length_app. cbn [length]. lia. }
    { done. }
    { rewrite Hz. cbn [foldr]. lia. }
    rewrite Hz in E2. rewrite zlen_app in E2, Hi2. change (zlen [xs]) with 1 in E2, Hi2.
    exists m2, F', xs', mb. split; [exact E2|]. split; [done|]. rewrite <- app_assoc in Hi2. exact Hi2.
Qed.

(** All blocks are free after the initialisation. *)
Lemma init_ok : exists m frees, pool_buffer_init scale = Ret m /\ pools_ok scale m frees [].
Proof.
  pose proof (nb_elements_range scale Hscale) as Hr.
  destruct (init_pools_ok (drop 1 (pool_sizes scale)) (zeroed scale) [] [] (4096 * scale)) as (m & F & xs & mb & E & Hl & Hi).
  - constructor; try done.
    + cbn [zeroed mp_next mem_lists length Nat.sub app replicate]. repeat (constructor; [apply lrep_init|]). constructor.
    + cbn [length]. lia.
    + cbn [app length]. by rewrite Nat.sub_0_r.
    + cbn. lia.
    + intros i Hi. cbn [zeroed mp_next]. exists 0. apply elem_of_list_to_map_1.
      * rewrite <- list_fmap_compose. apply NoDup_fmap_2; [intros x y; cbn; unfold block_ptr; lia|apply NoDup_seqZ].
      * apply list_elem_of_fmap. exists i. split; [done|]. apply elem_of_zrange. lia.
    + intros [|] fs b Hk Hb; [|done]. cbn in Hk. injection Hk as <-. by apply not_elem_of_nil in Hb.
  - done.
  - unfold pool_sizes. cbn [fmap list_fmap app drop]. repeat (apply Forall_cons_2; [lia|]). apply Forall_nil_2.
  - change (zlen []) with 0. unfold MEM_MNGT_NB_ELEMENTS, pool_sizes. cbn [fmap list_fmap app drop foldr]. lia.
  - unfold pool_buffer_init. change (zlen []) with 0 in E, Hi.
    change (S (length (drop 1 (pool_sizes scale)))) with 14%nat in E, Hi.
    change (4096 * scale :: drop 1 (pool_sizes scale)) with (pool_sizes scale) in E, Hi.
    rewrite E. cbn [mbind cres_bind app] in *. exists m, (F ++ [xs]). split; [done|].
    destruct Hi as [H1 H2 H3 H4 H5 H6 H7]. fold (all_blocks scale) in *. rewrite Hl in H1. cbn [Nat.sub replicate] in H1.
    pose proof (length_all_blocks scale Hscale) as Hall. unfold zlen in Hall.
    change (describe (zip (zrange 0 14) (pool_sizes scale))) with (all_blocks scale) in *.
    replace (Z.to_nat (MEM_MNGT_NB_ELEMENTS scale)) with (length (all_blocks scale)) in * by lia.
    rewrite Nat.sub_diag, app_nil_r in H4.
    constructor; try done.
    + rewrite concat_app. cbn [concat]. rewrite !app_nil_r, H3. by replace (Z.to_nat (MEM_MNGT_NB_ELEMENTS scale)) with (length (all_blocks scale)) by lia.
    + rewrite length_app. cbn. lia.
Qed.

End Init.

(** ** Runs *)

(** A layer asks for memory or gives back the [i]-th block that it holds. *)
Inductive mem_op :=
| Alloc (size : Z)
| Free (i : nat).

(** The blocks held and the sizes they were asked for. *)
Definition mem_step (op : mem_op) (s : mem_pool * list (Z * Z)) : cres (mem_pool * list (Z * Z)) :=
  let '(m, held) := s in
  match op with
  | Alloc size => '(b, m) ← get_free_mem_block size m; Ret (m, held ++ [(b, size)])
  | Free i =>
      match held !! i with
      | Some (b, _) => m ← free_mem_block b m; Ret (m, base.delete i held)
      | None => Ret (m, held)
      end
  end.

Definition mem_run (scale : Z) (ops : list mem_op) : cres (mem_pool * list (Z * Z)) :=
  m ← pool_buffer_init scale; for_each mem_step ops (m, []).

(** The sizes are below that of the largest blocks, and at most [max] blocks are held at a time;
    [n] are held before the operations. *)
Fixpoint within (max n : Z) (ops : list mem_op) : bool :=
  match ops with
  | [] => true
  | Alloc size :: ops => (0 <=? size) && (size <? MEM_MNGT_MB12_BLOCK_SIZE) && (n <? max) && within max (n + 1) ops
  | Free i :: ops => within max (if Z.of_nat i <? n then n - 1 else n) ops
  end.

(** A block held points to an element of a pool, larger than what was asked for. *)
Definition holds (scale : Z) (x : Z * Z) : Prop :=
  exists d k j, aget (all_blocks scale) (block_index x.1) = Ret d /\ data d = Some (k, j) /\ x.2 < block_size k.

Lemma zlen_delete {A} (l : list A) i : zlen (base.delete i l) = if Z.of_nat i <? zlen l then zlen l - 1 else zlen l.
Proof.
  unfold zlen. destruct (Z.ltb_spec (Z.of_nat i) (Z.of_nat (length l))).
  - destruct (lookup_lt_is_Some_2 l i) as [x Hx]; [lia|]. rewrite (length_delete l i) by (by eexists). lia.
  - by rewrite delete_take_drop, take_ge, drop_ge, app_nil_r by lia.
Qed.

Lemma run_ok scale ops : 0 < scale <= 128 -> forall m frees held,
  pools_ok scale m frees held.*1 -> Forall (holds scale) held -> within (32 * scale) (zlen held) ops = true ->
  exists m' frees' held', for_each mem_step ops (m, held) = Ret (m', held') /\
    pools_ok scale m' frees' held'.*1 /\ Forall (holds scale) held'.
Proof.
  intros Hscale. induction ops as [|op ops IH]; intros m frees held Hok Hh Hw; [by exists m, frees, held|].
  cbn [for_each]. destruct op as [size|i]; cbn [within mem_step] in *.
  - bool_to_prop. destruct (get_ok scale Hscale size m frees held.*1 Hok) as (b & m1 & fr & d & k & j & E & Hok1 & E2 & E3 & E4).
    { lia. }
    { unfold zlen in *. rewrite length_fmap. lia. }
    rewrite E. cbn [mbind cres_bind]. apply (IH m1 fr).
    + rewrite fmap_app. eapply pools_ok_perm; [|exact Hok1]. cbn. apply Permutation_cons_append.
    + apply Forall_app. split; [done|]. constructor; [|done]. by exists d, k, j.
    + rewrite zlen_app. by change (zlen [_]) with 1.
  - destruct (held !! i) as [[b n]|] eqn:Hi; cbn [mbind cres_bind].
    + assert (Hb : b ∈ held.*1) by (apply (list_elem_of_fmap_2' fst held (b, n)); [by eapply list_elem_of_lookup_2|done]).
      destruct (free_ok scale Hscale m frees held.*1 b Hok Hb) as (m1 & fr & held1 & E & Hp & Hok1).
      rewrite E. cbn [mbind cres_bind]. apply (IH m1 fr); [|by apply Forall_delete|by rewrite zlen_delete].
      eapply pools_ok_perm; [|exact Hok1]. apply (Permutation_cons_inv (a := b)). etrans; [symmetry; exact Hp|].
      pose proof (lookup_lt_Some _ _ _ Hi). rewrite (delete_take_drop held i), <- (take_drop_middle held i (b, n) Hi) at 1.
      rewrite !fmap_app. cbn. symmetry. apply Permutation_middle.
    + apply (IH m frees); [done|done|]. apply lookup_ge_None_1 in Hi.
      rewrite (proj2 (Z.ltb_ge _ _)) in Hw by (unfold zlen; lia). done.
Qed.

(** ** Properties *)

(** C25: exclusive memory.  After the initialisation, any sequence of requests and releases that holds
    at most as many blocks at a time as the pool of the largest blocks has, with sizes below that
    of these blocks, runs without a fault.  Every block held is a block of a pool whose blocks are
    larger than what was asked for, and is in no list of free blocks; two blocks held are
    different and have different memory; together with the free blocks they are all the blocks of
    the array. *)
Theorem mem_blocks_exclusive scale ops :
  0 < scale <= 128 -> within (32 * scale) 0 ops = true ->
  exists m held frees, mem_run scale ops = Ret (m, held) /\ pools_ok scale m frees held.*1 /\
    Forall (fun x => exists d k j, aget (mem_blocks m) (block_index x.1) = Ret d /\ data d = Some (k, j) /\
                       x.2 < block_size k) held /\
    (forall i j x y dx dy, i <> j -> held !! i = Some x -> held !! j = Some y ->
       aget (mem_blocks m) (block_index x.1) = Ret dx -> aget (mem_blocks m) (block_index y.1) = Ret dy ->
       data dx <> data dy).
Proof.
  intros Hs Hw. destruct (init_ok scale Hs) as (m0 & fr0 & E0 & Hok0).
  destruct (run_ok scale ops Hs m0 fr0 [] Hok0 ltac:(constructor) Hw) as (m & fr & held & E & Hok & Hh).
  exists m, held, fr. unfold mem_run. rewrite E0. cbn [mbind cres_bind]. split; [done|]. split; [done|].
  rewrite (po_blocks _ _ _ _ Hok). split; [exact Hh|].
  intros i j x y dx dy Hne Hi Hj Hdx Hdy Hd.
  pose proof (proj1 (Forall_lookup _ _) Hh i x Hi) as (d & k & o & G1 & G2 & _). rewrite Hdx in G1. injection G1 as <-.
  assert (Hdata : data dy = Some (k, o)) by congruence.
  assert (Hxy : x.1 <> y.1).
  { pose proof (pools_nodup scale _ _ _ Hok) as (_ & _ & Hnd)%NoDup_app. intros Heq. apply Hne.
    eapply (NoDup_lookup _ i j x.1 Hnd); rewrite list_lookup_fmap, ?Hi, ?Hj; cbn; congruence. }
  assert (Hin : forall n z, held !! n = Some z -> 1 <= z.1).
  { intros n z Hz. apply (ptr_range scale Hs m fr held.*1 _ Hok). apply elem_of_app. right.
    apply (list_elem_of_fmap_2' fst held z); [by eapply list_elem_of_lookup_2|done]. }
  pose proof (Hin _ _ Hi). pose proof (Hin _ _ Hj). unfold aget, block_index in Hdx, Hdy.
  rewrite (proj2 (Z.leb_le _ _)) in Hdx by lia. rewrite (proj2 (Z.leb_le _ _)) in Hdy by lia.
  destruct (all_blocks scale !! Z.to_nat (x.1 - 1)) as [bx|] eqn:Ex; [|done].
  destruct (all_blocks scale !! Z.to_nat (y.1 - 1)) as [by_|] eqn:Ey; [|done]. cres_inv.
  enough (Z.to_nat (x.1 - 1) = Z.to_nat (y.1 - 1)) by lia.
  eapply (describe_data_inj (zip (zrange 0 14) (pool_sizes scale))); [|exact Ex|exact Ey|exact G2|done].
  rewrite fst_zip by done. apply NoDup_seqZ.
Qed.

Lemma mem_blocks_exclusive_witness :
  exists m held frees, mem_run 1 [Alloc 60; Alloc 200; Free 0; Alloc 64; Alloc 63] = Ret (m, held) /\
    pools_ok 1 m frees held.*1.
Proof.
  destruct (mem_blocks_exclusive 1 [Alloc 60; Alloc 200; Free 0; Alloc 64; Alloc 63]) as (m & held & fr & E & Hok & _);
    [lia|reflexivity|]. exists m, held, fr. split; [exact E|exact Hok].
Defined.

(** A request for exactly the size of the largest blocks is accepted and, while the pool of copies
    is not empty, gets a block of that pool, whose [data] is a null pointer. *)
Theorem largest_request_gets_null scale m frees held b fs :
  0 < scale <= 128 -> pools_ok scale m frees held -> frees !! 13%nat = Some (b :: fs) ->
  exists m' d, get_free_mem_block MEM_MNGT_MB12_BLOCK_SIZE m = Ret (b, m') /\
    aget (mem_blocks m') (block_index b) = Ret d /\ data d = None.
Proof.
  intros Hs Hok H13. unfold get_free_mem_block. rewrite Z.ltb_irrefl, select_pool by (unfold MEM_MNGT_MB12_BLOCK_SIZE; lia).
  change (pool_for MEM_MNGT_MB12_BLOCK_SIZE) with 13. cbn [mbind cres_bind search_loop].
  pose proof Hok as [H1 H2 _ _ H5 H6]. pose proof (Forall2_length _ _ _ H1) as Hlen.
  destruct (lookup_lt_is_Some_2 (mem_lists m) 13) as [l Hl]; [lia|].
  rewrite (aget_ok _ 13 l) by (lia || done). cbn [mbind cres_bind].
  destruct (take_block scale Hs _ _ _ _ _ _ _ Hok H13 Hl) as (l' & h' & E & Hx & Hok'). rewrite E. cbn [mbind cres_bind].
  rewrite aset_ok by (unfold zlen; lia). cbn [mbind cres_bind]. rewrite (proj2 (Z.eqb_neq b 0)) by done. cbn [negb].
  pose proof (H5 13%nat _ b H13 ltac:(by left)) as Hpid.
  destruct (all_blocks scale !! Z.to_nat (block_index b)) as [d|] eqn:Hd; [|done]. injection Hpid as Hpid.
  eexists _, d. split; [reflexivity|]. cbn [mem_blocks]. rewrite H2. split.
  - apply aget_ok; [|done]. pose proof (ptr_range scale Hs _ _ _ b Hok') as Hr. unfold block_index.
    specialize (Hr ltac:(apply elem_of_app; right; by left)). lia.
  - destruct (describe_lookup _ _ _ Hd) as (k & nb & j & _ & _ & ->). cbn in *. subst k. done.
Qed.

(** The pool of copies when no block is held. *)
Lemma copy_pool_nonempty scale m frees : 0 < scale <= 128 -> pools_ok scale m frees [] ->
  exists b fs, frees !! 13%nat = Some (b :: fs).
Proof.
  intros Hs [_ _ Hall _ Hpool _]. pose proof (nb_elements_range scale Hs). rewrite app_nil_r in Hall.
  set (b := MEM_MNGT_NB_ELEMENTS scale).
  assert (Hin : b ∈ concat frees).
  { rewrite Hall. apply list_elem_of_fmap. exists (b - 1). unfold block_ptr.
    split; [lia|]. apply elem_of_zrange. unfold b. lia. }
  apply list_elem_of_In, in_concat in Hin as (fs & Hfs & Hbf).
  apply list_elem_of_In, list_elem_of_lookup in Hfs as (k & Hk). apply list_elem_of_In in Hbf.
  pose proof (Hpool k fs b Hk Hbf) as Hid.
  assert (E : all_blocks scale = describe (take 13 (zip (zrange 0 14) (pool_sizes scale))) ++ pool_blocks 13 1024).
  { unfold all_blocks, describe. rewrite <- (take_drop 13 (zip _ _)) at 1. rewrite fmap_app, concat_app. by f_equal. }
  pose proof (length_all_blocks scale Hs) as Hlen. rewrite E, zlen_app in Hlen. fold b in Hlen.
  change (zlen (pool_blocks 13 1024)) with 1024 in Hlen. rewrite E in Hid. unfold block_index in Hid.
  rewrite lookup_app_r in Hid by (unfold zlen in *; lia). destruct (pool_blocks 13 1024 !! _) eqn:Hd in Hid; [|done].
  apply pool_blocks_lookup in Hd as [_ ->]. injection Hid as Hid. replace k with 13%nat in Hk by lia.
  destruct fs as [|c fs]; [by apply not_elem_of_nil in Hbf|]. by exists c, fs.
Qed.

(** The state right after the initialisation. *)
Lemma largest_request_gets_null_witness :
  exists m m' b d, pool_buffer_init 1 = Ret m /\ get_free_mem_block MEM_MNGT_MB12_BLOCK_SIZE m = Ret (b, m') /\
    aget (mem_blocks m') (block_index b) = Ret d /\ data d = None.
Proof.
  destruct (init_ok 1 ltac:(lia)) as (m & frees & E & Hok).
  destruct (copy_pool_nonempty 1 m frees ltac:(lia) Hok) as (b & fs & H13).
  destruct (largest_request_gets_null 1 m frees [] b fs ltac:(lia) Hok H13) as (m' & d & E1 & E2 & E3).
  exists m, m', b, d. split; [exact E|]. split; [exact E1|]. split; [exact E2|exact E3].
Defined.
