(* ===== verification/Crc.v ===== *)
(** The cyclic redundancy checks of the transport channels
    ([openair1/PHY/CODING/crc_byte.c]): the bit by bit function [crcbit], the tables that
    [crcTableInit] fills with it, and the five functions that process a message byte by byte with
    these tables, the last byte possibly in part.

    The register is an [unsigned int] whose upper bits hold the check; the static tables are an
    argument of the functions that read them. *)
From stdpp Require Import base list numbers.
From coqutil Require Import Byte.
From Stdlib Require Import ZArith Lia.
From S2P Require Import Prelude.
Open Scope Z_scope.

(** ** Definitions *)

Definition poly24a : Z := 0x864cfb00.
Definition poly24b : Z := 0x80006300.
Definition poly16 : Z := 0x10210000.
Definition poly12 : Z := 0x80F00000.
Definition poly8 : Z := 0x9B000000.

(** One turn of the inner loop of [crcbit]: the register and the bits to come, at the top. *)
Definition crcbit_turn (poly : Z) (s : Z * Z) : Z * Z :=
  let '(crc, c) := s in
  (if negb (Z.land (Z.shiftl 1 31) (Z.lxor c crc) =? 0)
   then Z.lxor (u32 (Z.shiftl crc 1)) poly
   else u32 (Z.shiftl crc 1),
   u32 (Z.shiftl c 1)).

(** [for (i = 8; i != 0; i--)] *)
Fixpoint crcbit_turns (poly : Z) (i : nat) (s : Z * Z) : Z * Z :=
  match i with O => s | S i => crcbit_turns poly i (crcbit_turn poly s) end.

Definition crcbit_octet (poly : Z) (crc : Z) (b : byte) : Z :=
  (crcbit_turns poly 8 (crc, u32 (Z.shiftl (byte.unsigned b) 24))).1.

(** [crcbit] of the [octetlen] bytes at [inputptr]. *)
Definition crcbit (inputptr : list byte) (octetlen : Z) (poly : Z) : cres Z :=
  for_each (fun i crc => b ← aget inputptr i; Ret (crcbit_octet poly crc b))
    (zrange 0 (Z.to_nat octetlen)) 0.

Record crc_tables := CrcTables {
  crc24aTable : list Z;                   (* unsigned int *)
  crc24bTable : list Z;
  crc16Table : list Z;                    (* unsigned short *)
  crc12Table : list Z;
  crc8Table : list Z;                     (* unsigned char *)
}.

(** The turn [c] of the loop of [crcTableInit]. *)
Definition table_turn (c : Z) (t : crc_tables) : cres crc_tables :=
  let p := [byte.of_Z c] in
  v ← crcbit p 1 poly24a; t24a ← aset (crc24aTable t) c v;
  v ← crcbit p 1 poly24b; t24b ← aset (crc24bTable t) c v;
  v ← crcbit p 1 poly16; t16 ← aset (crc16Table t) c (u16 (Z.shiftr v 16));
  v ← crcbit p 1 poly12; t12 ← aset (crc12Table t) c (u16 (Z.shiftr v 16));
  v ← crcbit p 1 poly8; t8 ← aset (crc8Table t) c (u8 (Z.shiftr v 24));
  Ret (CrcTables t24a t24b t16 t12 t8).

(** [do ... while (++c)] of an [unsigned char] that starts at 0: 256 turns. *)
Definition crcTableInit (t : crc_tables) : cres crc_tables := for_each table_turn (zrange 0 256) t.

(** The static tables before the initialisation. *)
Definition crc_tables_bss : crc_tables :=
  let z := replicate 256 0 in CrcTables z z z z z.

(** The common shape of the byte by byte functions: [word] is the contribution of a table entry
    to the register and [keep] says whether the shifted register is kept for a whole byte, which
    [crc8] leaves out. *)
Definition crc_octets (table : list Z) (shift : Z) (keep : bool) (inptr : list byte) (octetlen : Z)
  : cres Z :=
  for_each (fun i crc =>
    b ← aget inptr i;
    e ← aget table (Z.lxor (byte.unsigned b) (Z.shiftr crc 24));
    let w := u32 (Z.shiftl e shift) in
    Ret (if keep then Z.lxor (u32 (Z.shiftl crc 8)) w else w))
    (zrange 0 (Z.to_nat octetlen)) 0.

Definition crc_bytewise (table : list Z) (shift : Z) (keep : bool) (inptr : list byte) (bitlen : Z)
  : cres Z :=
  let octetlen := Z.quot bitlen 8 in
  let resbit := c_rem bitlen 8 in
  crc ← crc_octets table shift keep inptr octetlen;
  if 0 <? resbit then
    b ← aget inptr octetlen;
    e ← aget table (Z.lxor (Z.shiftr (byte.unsigned b) (8 - resbit)) (Z.shiftr crc (32 - resbit)));
    Ret (Z.lxor (u32 (Z.shiftl crc resbit)) (u32 (Z.shiftl e shift)))
  else Ret crc.

Definition crc24a (t : crc_tables) : list byte -> Z -> cres Z := crc_bytewise (crc24aTable t) 0 true.
Definition crc24b (t : crc_tables) : list byte -> Z -> cres Z := crc_bytewise (crc24bTable t) 0 true.
Definition crc16 (t : crc_tables) : list byte -> Z -> cres Z := crc_bytewise (crc16Table t) 16 true.
Definition crc12 (t : crc_tables) : list byte -> Z -> cres Z := crc_bytewise (crc12Table t) 16 true.
Definition crc8 (t : crc_tables) : list byte -> Z -> cres Z := crc_bytewise (crc8Table t) 24 false.

(** ** Specification *)

(** Division of a message by the generator, one bit at a time: multiplication of the register by
    the indeterminate, modulo the generator. *)
Definition times_x (poly crc : Z) : Z :=
  if Z.testbit crc 31 then Z.lxor (u32 (Z.shiftl crc 1)) poly else u32 (Z.shiftl crc 1).

Definition crc_step (poly : Z) (crc : Z) (b : bool) : Z :=
  times_x poly (Z.lxor crc (if b then 2 ^ 31 else 0)).

Definition crc_run (poly : Z) (crc : Z) (bits : list bool) : Z := foldl (crc_step poly) crc bits.

(** The [n] lower bits of a value, the highest first. *)
Fixpoint msb (n : nat) (v : Z) : list bool :=
  match n with
  | O => []
  | S n => Z.testbit v (Z.of_nat n) :: msb n v
  end.

(** The bits of a message, the highest of a byte first. *)
Definition bits_of (l : list byte) : list bool := mjoin ((fun b => msb 8 (byte.unsigned b)) <$> l).

(** A generator of degree [k]: its terms are in the [k] upper bits of the register, and it is
    not a multiple of the indeterminate. *)
Record generator (poly : Z) (k : Z) : Prop := {
  g_degree : 8 <= k <= 24;
  g_range : 0 <= poly < 2 ^ 32;
  g_terms : Z.land poly (Z.ones (32 - k)) = 0;
  g_const : Z.testbit poly (32 - k) = true;
}.

(** ** Lemmas on the register *)

Lemma crc_run_app poly crc a b : crc_run poly crc (a ++ b) = crc_run poly (crc_run poly crc a) b.
Proof. apply foldl_app. Qed.

Lemma u32_bits z i : 0 <= i -> Z.testbit (u32 z) i = (i <? 32) && Z.testbit z i.
Proof.
  intros Hi. unfold u32. destruct (Z.ltb_spec i 32).
  - by rewrite Z.mod_pow2_bits_low.
  - by rewrite Z.mod_pow2_bits_high by lia.
Qed.

Lemma lxor_range a b n : 0 <= n -> 0 <= a < 2 ^ n -> 0 <= b < 2 ^ n -> 0 <= Z.lxor a b < 2 ^ n.
Proof.
  intros Hn Ha Hb.
  assert (E : Z.lxor a b = Z.lxor a b mod 2 ^ n).
  { apply Z.bits_inj'. intros i Hi. destruct (Z.lt_ge_cases i n).
    - by rewrite Z.mod_pow2_bits_low.
    - rewrite Z.mod_pow2_bits_high by lia. rewrite Z.lxor_spec.
      rewrite <- (Z.mod_small a (2 ^ n)), <- (Z.mod_small b (2 ^ n)) by done.
      by rewrite !Z.mod_pow2_bits_high by lia. }
  rewrite E. apply Z.mod_pos_bound. lia.
Qed.

Lemma times_x_range poly crc : 0 <= poly < 2 ^ 32 -> 0 <= times_x poly crc < 2 ^ 32.
Proof.
  intros Hp. unfold times_x. case_match; [|apply u32_range].
  apply lxor_range; [lia|apply u32_range|done].
Qed.

(** The multiplication is linear. *)
Lemma times_x_lxor poly a b : times_x poly (Z.lxor a b) = Z.lxor (times_x poly a) (times_x poly b).
Proof.
  unfold times_x. rewrite Z.lxor_spec.
  assert (E : u32 (Z.shiftl (Z.lxor a b) 1) = Z.lxor (u32 (Z.shiftl a 1)) (u32 (Z.shiftl b 1))).
  { apply Z.bits_inj'. intros i Hi. rewrite Z.lxor_spec, !u32_bits, Z.shiftl_lxor, Z.lxor_spec by done.
    by destruct (i <? 32). }
  rewrite E. destruct (Z.testbit a 31), (Z.testbit b 31); cbn [xorb].
  - rewrite (Z.lxor_comm (u32 (Z.shiftl b 1))), Z.lxor_assoc, <- (Z.lxor_assoc poly poly).
    by rewrite Z.lxor_nilpotent, Z.lxor_0_l.
  - by rewrite !Z.lxor_assoc, (Z.lxor_comm poly).
  - by rewrite Z.lxor_assoc.
  - done.
Qed.

Fixpoint times_xn (poly : Z) (n : nat) (crc : Z) : Z :=
  match n with O => crc | S n => times_x poly (times_xn poly n crc) end.

Lemma times_xn_lxor poly n a b :
  times_xn poly n (Z.lxor a b) = Z.lxor (times_xn poly n a) (times_xn poly n b).
Proof.
  induction n as [|n IH]; [done|]. cbn [times_xn]. by rewrite IH, times_x_lxor.
Qed.

Lemma times_xn_add poly n m a : times_xn poly (n + m) a = times_xn poly n (times_xn poly m a).
Proof. induction n as [|n IH]; [done|]. cbn [Nat.add times_xn]. by rewrite IH. Qed.

Lemma times_xn_0 poly n : times_xn poly n 0 = 0.
Proof. induction n as [|n IH]; [done|]. cbn [times_xn]. by rewrite IH. Qed.

(** Below the top of the register it is a shift. *)
Lemma times_x_small poly a : 0 <= a < 2 ^ 31 -> times_x poly a = Z.shiftl a 1.
Proof.
  intros Ha. unfold times_x. 
  assert (E : Z.testbit a 31 = false) by (by rewrite Z.testbit_false, Z.div_small by lia).
  rewrite E. apply u32_small. rewrite Z.shiftl_mul_pow2 by lia. lia.
Qed.

Lemma times_xn_small poly n a :
  0 <= a -> Z.shiftl a (Z.of_nat n) < 2 ^ 32 -> times_xn poly n a = Z.shiftl a (Z.of_nat n).
Proof.
  induction n as [|n IH]; intros Ha Hn; [by rewrite Z.shiftl_0_r|].
  rewrite Nat2Z.inj_succ in *. rewrite Z.shiftl_mul_pow2, Z.pow_succ_r in Hn by lia.
  assert (H2 : 0 < 2 ^ Z.of_nat n) by (apply Z.pow_pos_nonneg; lia).
  cbn [times_xn]. rewrite IH by (rewrite ?Z.shiftl_mul_pow2 by lia; nia).
  rewrite times_x_small by (rewrite Z.shiftl_mul_pow2 by lia; nia).
  rewrite Z.shiftl_shiftl by lia. reflexivity.
Qed.

(** ** Whole fields at once *)

Definition low (v : Z) (n : nat) : Z := v mod 2 ^ Z.of_nat n.

Lemma low_S v n :
  low v (S n) = (if Z.testbit v (Z.of_nat n) then 2 ^ Z.of_nat n else 0) + low v n.
Proof.
  unfold low. rewrite Nat2Z.inj_succ, Z.pow_succ_r by lia.
  assert (H2 : 0 < 2 ^ Z.of_nat n) by (apply Z.pow_pos_nonneg; lia).
  rewrite (Z.mul_comm 2), Z.rem_mul_r by lia.
  rewrite Z.testbit_eqb by lia.
  pose proof (Z.mod_pos_bound (v / 2 ^ Z.of_nat n) 2).
  destruct (Z.eqb_spec ((v / 2 ^ Z.of_nat n) mod 2) 1); nia.
Qed.

Lemma low_range v n : 0 <= low v n < 2 ^ Z.of_nat n.
Proof. apply Z.mod_pos_bound. apply Z.pow_pos_nonneg; lia. Qed.

Lemma add_lxor_top (b : bool) n w : 0 <= n -> 0 <= w < 2 ^ n ->
  (if b then 2 ^ n else 0) + w = Z.lxor (if b then 2 ^ n else 0) w.
Proof.
  intros Hn Hw. destruct b; [|by rewrite Z.lxor_0_l].
  apply Z.add_nocarry_lxor. apply Z.bits_inj'. intros i Hi.
  rewrite Z.land_spec, Z.bits_0, Z.pow2_bits_eqb by done. destruct (Z.eqb_spec n i); [|done]. subst.
  cbn. by rewrite Z.testbit_false, Z.div_small by lia.
Qed.

(** The register after the [n] bits of a field: the field is added at its top. *)
Lemma crc_run_msb poly n v crc : (n <= 32)%nat ->
  crc_run poly crc (msb n v) =
  times_xn poly n (Z.lxor crc (Z.shiftl (low v n) (32 - Z.of_nat n))).
Proof.
  revert crc. induction n as [|n IH]; intros crc Hn.
  { unfold low. rewrite Z.mod_1_r, Z.shiftl_0_l, Z.lxor_0_r. done. }
  cbn [msb]. unfold crc_run in *. cbn [foldl]. rewrite IH by lia. clear IH.
  rewrite <- (Nat.add_1_r n), times_xn_add. f_equal.
  change (times_xn poly 1 ?a) with (times_x poly a). rewrite Nat.add_1_r, low_S.
  pose proof (low_range v n) as Hl. assert (H2 : 0 < 2 ^ Z.of_nat n) by (apply Z.pow_pos_nonneg; lia).
  rewrite add_lxor_top by lia. rewrite Z.shiftl_lxor, <- Z.lxor_assoc, times_x_lxor.
  unfold crc_step. f_equal.
  - do 2 f_equal. case_match; [|by rewrite Z.shiftl_0_l].
    rewrite Z.shiftl_mul_pow2, <- Z.pow_add_r by lia. f_equal. lia.
  - rewrite times_x_small.
    + rewrite Z.shiftl_shiftl by lia. f_equal. lia.
    + rewrite Z.shiftl_mul_pow2 by lia. split; [nia|].
      apply Z.lt_le_trans with (2 ^ Z.of_nat n * 2 ^ (32 - Z.of_nat (S n))); [apply Z.mul_lt_mono_pos_r; lia|].
      rewrite <- Z.pow_add_r by lia. apply Z.pow_le_mono_r; lia.
Qed.

Lemma msb_ext n v w : (forall i, 0 <= i < Z.of_nat n -> Z.testbit v i = Z.testbit w i) -> msb n v = msb n w.
Proof.
  induction n as [|n IH]; intros H; [done|]. cbn [msb]. rewrite H by lia. f_equal. apply IH.
  intros i Hi. apply H. lia.
Qed.

Lemma length_msb n v : length (msb n v) = n.
Proof. induction n as [|n IH]; [done|]. cbn [msb length]. by rewrite IH. Qed.

Lemma take_msb n m v : (n <= m)%nat -> take n (msb m v) = msb n (Z.shiftr v (Z.of_nat (m - n))).
Proof.
  revert n. induction m as [|m IH]; intros n Hn; [by replace n with 0%nat by lia|].
  destruct n as [|n]; [done|]. cbn [msb take]. rewrite IH by lia. cbn [Nat.sub]. f_equal.
  rewrite Z.shiftr_spec by lia. f_equal. lia.
Qed.

(** ** The bit by bit function *)

Lemma crcbit_turn_step poly crc c :
  crcbit_turn poly (crc, c) = (crc_step poly crc (Z.testbit c 31), u32 (Z.shiftl c 1)).
Proof.
  unfold crcbit_turn, crc_step, times_x. f_equal.
  assert (E1 : negb (Z.land (Z.shiftl 1 31) (Z.lxor c crc) =? 0) = xorb (Z.testbit crc 31) (Z.testbit c 31)).
  { rewrite xorb_comm, <- Z.lxor_spec. set (w := Z.lxor c crc).
    assert (Hl : Z.land (Z.shiftl 1 31) w = if Z.testbit w 31 then 2 ^ 31 else 0).
    { apply Z.bits_inj'. intros i Hi. change (Z.shiftl 1 31) with (2 ^ 31).
      rewrite Z.land_spec, Z.pow2_bits_eqb by lia. destruct (Z.eqb_spec 31 i) as [<-|Hne].
      - by destruct (Z.testbit w 31).
      - destruct (Z.testbit w 31); [|by rewrite Z.bits_0].
        rewrite Z.pow2_bits_eqb by lia. by rewrite (proj2 (Z.eqb_neq 31 i) Hne). }
    rewrite Hl. by destruct (Z.testbit w 31). }
  assert (E2 : u32 (Z.shiftl (Z.lxor crc (if Z.testbit c 31 then 2 ^ 31 else 0)) 1) = u32 (Z.shiftl crc 1)).
  { apply Z.bits_inj'. intros i Hi. rewrite !u32_bits by done. destruct (Z.ltb_spec i 32); [|done].
    rewrite !Z.shiftl_spec, Z.lxor_spec by done. destruct (Z.testbit c 31); [|by rewrite Z.bits_0, xorb_false_r].
    destruct (Z.eq_dec i 0) as [->|]; [done|].
    by rewrite Z.pow2_bits_eqb, (proj2 (Z.eqb_neq 31 (i - 1))), xorb_false_r by lia. }
  rewrite E1, E2, Z.lxor_spec. destruct (Z.testbit c 31); [|by rewrite Z.bits_0].
  by rewrite Z.pow2_bits_true.
Qed.

Lemma crcbit_turns_run poly n : forall crc c, (n <= 32)%nat ->
  (crcbit_turns poly n (crc, c)).1 = crc_run poly crc (msb n (Z.shiftr c (32 - Z.of_nat n))).
Proof.
  induction n as [|n IH]; intros crc c Hn; [done|]. cbn [crcbit_turns msb].
  rewrite crcbit_turn_step, IH by lia. unfold crc_run. cbn [foldl].
  rewrite Z.shiftr_spec by lia. replace (Z.of_nat n + (32 - Z.of_nat (S n))) with 31 by lia.
  f_equal. apply msb_ext. intros i Hi. rewrite !Z.shiftr_spec by lia.
  rewrite u32_bits, Z.shiftl_spec by lia. rewrite (proj2 (Z.ltb_lt _ 32)) by lia. cbn. f_equal. lia.
Qed.

Lemma crcbit_octet_run poly crc b : crcbit_octet poly crc b = crc_run poly crc (msb 8 (byte.unsigned b)).
Proof.
  unfold crcbit_octet. rewrite crcbit_turns_run by lia. f_equal. pose proof (byte.unsigned_range b).
  rewrite u32_small by (rewrite Z.shiftl_mul_pow2 by lia; lia).
  change (32 - Z.of_nat 8) with 24. by rewrite Z.shiftr_shiftl_l, Z.shiftl_0_r by lia.
Qed.

(** Running over the bytes of a message from its start. *)
Lemma octets_loop (body : byte -> Z -> cres Z) poly inv data n :
  (n <= length data)%nat -> inv 0 ->
  (forall b crc, inv crc -> body b crc = Ret (crc_run poly crc (msb 8 (byte.unsigned b))) /\
    inv (crc_run poly crc (msb 8 (byte.unsigned b)))) ->
  for_each (fun i crc => b ← aget data i; body b crc) (zrange 0 n) 0 =
    Ret (crc_run poly 0 (bits_of (take n data))) /\ inv (crc_run poly 0 (bits_of (take n data))).
Proof.
  intros Hn H0 Hb. induction n as [|n IH]; [done|]. destruct IH as [E I]; [lia|].
  unfold zrange in *. rewrite seqZ_S, for_each_app, E. cbn [mbind cres_bind for_each].
  destruct (lookup_lt_is_Some_2 data n) as [b Eb]; [lia|].
  rewrite (aget_ok data (0 + Z.of_nat n) b) by (lia || by rewrite Z.add_0_l, Nat2Z.id).
  cbn [mbind cres_bind]. destruct (Hb b _ I) as [-> I'].
  assert (Ex : crc_run poly 0 (bits_of (take (S n) data)) =
    crc_run poly (crc_run poly 0 (bits_of (take n data))) (msb 8 (byte.unsigned b))).
  { erewrite take_S_r by done. unfold bits_of. rewrite fmap_app, join_app, crc_run_app.
    cbn [fmap list_fmap mjoin list_join]. by rewrite app_nil_r. }
  rewrite Ex. done.
Qed.

Lemma crcbit_run data n poly : 0 <= n <= zlen data ->
  crcbit data n poly = Ret (crc_run poly 0 (bits_of (take (Z.to_nat n) data))).
Proof.
  intros Hn. unfold crcbit.
  apply (octets_loop (fun b crc => Ret (crcbit_octet poly crc b)) poly (fun _ => True)).
  - unfold zlen in *. lia.
  - done.
  - intros. by rewrite crcbit_octet_run.
Qed.

(** ** The tables *)

(** The entries of a table, as contributions to the register. *)
Definition table_of (poly shift : Z) (table : list Z) : Prop :=
  forall i, 0 <= i < 256 -> exists e, aget table i = Ret e /\
    u32 (Z.shiftl e shift) = times_xn poly 8 (Z.shiftl i 24).

Definition table_check (poly shift : Z) (table : list Z) : bool :=
  forallb (fun i => match aget table i with
                    | Ret e => u32 (Z.shiftl e shift) =? times_xn poly 8 (Z.shiftl i 24)
                    | Trap _ => false
                    end) (zrange 0 256).

Lemma table_check_ok poly shift table : table_check poly shift table = true -> table_of poly shift table.
Proof.
  intros H i Hi. unfold table_check in H. rewrite forallb_forall in H.
  specialize (H i). rewrite <- list_elem_of_In in H. unfold zrange in H.
  specialize (H ltac:(apply elem_of_seqZ; lia)).
  destruct (aget table i) as [e|]; [|done]. exists e. apply Z.eqb_eq in H. done.
Qed.

Record tables_ok (t : crc_tables) : Prop := {
  tk_24a : table_of poly24a 0 (crc24aTable t);
  tk_24b : table_of poly24b 0 (crc24bTable t);
  tk_16 : table_of poly16 16 (crc16Table t);
  tk_12 : table_of poly12 16 (crc12Table t);
  tk_8 : table_of poly8 24 (crc8Table t);
}.

Lemma crcTableInit_ok : exists t, crcTableInit crc_tables_bss = Ret t /\ tables_ok t.
Proof.
  destruct (crcTableInit crc_tables_bss) as [t|] eqn:E; [|by vm_compute in E].
  exists t. split; [done|].
  assert (C : match crcTableInit crc_tables_bss with
              | Ret t => table_check poly24a 0 (crc24aTable t) && table_check poly24b 0 (crc24bTable t) &&
                         table_check poly16 16 (crc16Table t) && table_check poly12 16 (crc12Table t) &&
                         table_check poly8 24 (crc8Table t)
              | Trap _ => false
              end = true) by (vm_compute; reflexivity).
  rewrite E in C. bool_to_prop. constructor; by apply table_check_ok.
Qed.

(** ** The byte by byte functions *)

(** A register that holds a remainder of degree [k]. *)
Definition register (k crc : Z) : Prop :=
  0 <= crc < 2 ^ 32 /\ forall i, 0 <= i < 32 - k -> Z.testbit crc i = false.

(** The upper [n] bits and the rest of the register. *)
Lemma register_split crc v n : (n <= 8)%nat -> 0 <= crc < 2 ^ 32 ->
  Z.lxor crc (Z.shiftl v (32 - Z.of_nat n)) =
  Z.lxor (Z.shiftl (Z.lxor v (Z.shiftr crc (32 - Z.of_nat n))) (32 - Z.of_nat n))
         (crc mod 2 ^ (32 - Z.of_nat n)).
Proof.
  intros Hn Hc. apply Z.bits_inj'. intros i Hi. set (m := 32 - Z.of_nat n).
  assert (0 <= m) by lia. rewrite !Z.lxor_spec, !Z.shiftl_spec, Z.lxor_spec by done.
  destruct (Z.lt_ge_cases i m).
  - rewrite Z.mod_pow2_bits_low, (Z.testbit_neg_r v), (Z.testbit_neg_r (Z.shiftr _ _)) by lia.
    by rewrite xorb_false_r.
  - rewrite Z.mod_pow2_bits_high, Z.shiftr_spec by lia. replace (i - m + m) with i by lia.
    by rewrite xorb_false_r, xorb_comm.
Qed.

Lemma shift_out crc n : (n <= 8)%nat -> 0 <= crc < 2 ^ 32 ->
  Z.shiftl (crc mod 2 ^ (32 - Z.of_nat n)) (Z.of_nat n) = u32 (Z.shiftl crc (Z.of_nat n)).
Proof.
  intros Hn Hc. rewrite !Z.shiftl_mul_pow2 by lia. unfold u32.
  replace (2 ^ 32) with (2 ^ (32 - Z.of_nat n) * 2 ^ Z.of_nat n)
    by (rewrite <- Z.pow_add_r by lia; f_equal; lia).
  rewrite Z.mul_mod_distr_r; [done| |]; apply Z.pow_nonzero; lia.
Qed.

(** A field of [n] bits, through the table. *)
Lemma crc_field poly n v crc : (n <= 8)%nat -> 0 <= v < 2 ^ Z.of_nat n -> 0 <= crc < 2 ^ 32 ->
  let i := Z.lxor v (Z.shiftr crc (32 - Z.of_nat n)) in
  0 <= i < 256 /\
  crc_run poly crc (msb n v) = Z.lxor (u32 (Z.shiftl crc (Z.of_nat n))) (times_xn poly 8 (Z.shiftl i 24)).
Proof.
  intros Hn Hv Hc i. set (m := 32 - Z.of_nat n).
  assert (Hi : 0 <= i < 2 ^ Z.of_nat n).
  { apply lxor_range; [lia|done|]. rewrite Z.shiftr_div_pow2 by lia.
    split; [apply Z.div_pos; lia|apply Z.div_lt_upper_bound; [lia|]]. rewrite <- Z.pow_add_r by lia.
    replace (32 - Z.of_nat n + Z.of_nat n) with 32 by lia. lia. }
  assert (H8 : 2 ^ Z.of_nat n <= 2 ^ 8) by (apply Z.pow_le_mono_r; lia).
  split; [lia|]. rewrite crc_run_msb by lia. unfold low. rewrite Z.mod_small by done.
  rewrite register_split by done. fold i m. rewrite times_xn_lxor, Z.lxor_comm. f_equal.
  - unfold m. pose proof (Z.mod_pos_bound crc (2 ^ (32 - Z.of_nat n)) ltac:(apply Z.pow_pos_nonneg; lia)).
    rewrite times_xn_small; rewrite ?shift_out by done; [done|lia|apply u32_range].
  - replace 8%nat with (n + (8 - n))%nat by lia. rewrite times_xn_add. f_equal.
    rewrite times_xn_small; rewrite ?Z.shiftl_shiftl by lia.
    + f_equal. lia.
    + rewrite Z.shiftl_mul_pow2 by lia. nia.
    + replace (24 + Z.of_nat (8 - n)) with m by lia. rewrite Z.shiftl_mul_pow2 by lia.
      apply Z.lt_le_trans with (2 ^ Z.of_nat n * 2 ^ m).
      * apply Z.mul_lt_mono_pos_r; [apply Z.pow_pos_nonneg; lia|lia].
      * rewrite <- Z.pow_add_r by lia. apply Z.pow_le_mono_r; lia.
Qed.

Lemma register_0 k : register k 0.
Proof. split; [lia|]. intros. apply Z.bits_0. Qed.

Lemma register_lxor k a b : register k a -> register k b -> register k (Z.lxor a b).
Proof.
  intros [Ra Ba] [Rb Bb]. split; [apply lxor_range; lia|]. intros i Hi.
  by rewrite Z.lxor_spec, Ba, Bb.
Qed.

Lemma register_poly poly k : generator poly k -> register k poly.
Proof.
  intros [Hk Hr Ht _]. split; [done|]. intros i Hi.
  apply (f_equal (fun z => Z.testbit z i)) in Ht.
  rewrite Z.land_spec, Z.ones_spec_low, Z.bits_0, andb_true_r in Ht by lia. done.
Qed.

Lemma register_times_x poly k crc : generator poly k -> register k crc -> register k (times_x poly crc).
Proof.
  intros Hg [Rc Bc]. assert (Hs : register k (u32 (Z.shiftl crc 1))).
  { split; [apply u32_range|]. intros i Hi. destruct Hg as [Hk _ _ _]. rewrite u32_bits, Z.shiftl_spec by lia.
    destruct (Z.eq_dec i 0) as [->|]; [done|]. rewrite Bc by lia. apply andb_false_r. }
  unfold times_x. case_match; [|done]. apply register_lxor; [done|by apply register_poly].
Qed.

Lemma register_run poly k crc bits : generator poly k -> register k crc -> register k (crc_run poly crc bits).
Proof.
  intros Hg. revert crc. induction bits as [|b bits IH]; intros crc Hc; [done|].
  unfold crc_run in *. cbn [foldl]. apply IH. apply register_times_x; [done|].
  apply register_lxor; [done|]. destruct b; [|apply register_0]. split; [lia|].
  intros i Hi. destruct Hg. rewrite Z.pow2_bits_eqb by lia. apply Z.eqb_neq. lia.
Qed.

Lemma length_bits_of l : length (bits_of l) = (8 * length l)%nat.
Proof.
  induction l as [|b l IH]; [done|]. change (bits_of (b :: l)) with (msb 8 (byte.unsigned b) ++ bits_of l).
  rewrite length_app, length_msb, IH. cbn [length]. lia.
Qed.

Lemma bits_of_app l k : bits_of (l ++ k) = bits_of l ++ bits_of k.
Proof. unfold bits_of. by rewrite fmap_app, join_app. Qed.

(** What the five functions share. *)
Section Bytewise.
Context (poly k shift : Z) (keep : bool) (table : list Z).
Context (Hgen : generator poly k) (Htable : table_of poly shift table) (Hkeep : keep = true \/ k = 8).

Lemma octets_run data n : (n <= length data)%nat ->
  crc_octets table shift keep data (Z.of_nat n) = Ret (crc_run poly 0 (bits_of (take n data))).
Proof.
  intros Hn. unfold crc_octets. rewrite Nat2Z.id.
  apply (octets_loop (fun b crc =>
    e ← aget table (Z.lxor (byte.unsigned b) (Z.shiftr crc 24));
    let w := u32 (Z.shiftl e shift) in
    Ret (if keep then Z.lxor (u32 (Z.shiftl crc 8)) w else w)) poly (register k)); [done|apply register_0|].
  intros b crc Hc. split; [|by apply register_run].
  destruct (crc_field poly 8 (byte.unsigned b) crc) as [Hi Hr];
    [lia|apply byte.unsigned_range|apply Hc|].
  change (32 - Z.of_nat 8) with 24 in *. change (Z.of_nat 8) with 8 in Hr.
  destruct (Htable _ Hi) as (e & -> & He). cbn [mbind cres_bind]. cbv zeta. rewrite He, Hr. f_equal.
  destruct keep; [done|]. destruct Hkeep as [|Hk]; [done|]. subst k.
  assert (E : u32 (Z.shiftl crc 8) = 0); [|by rewrite E].
  apply Z.bits_inj'. intros i Hp. rewrite u32_bits, Z.bits_0, Z.shiftl_spec by done.
  destruct (Z.ltb_spec i 32); [|done]. cbn. destruct (Z.lt_ge_cases i 8); [by rewrite Z.testbit_neg_r by lia|].
  apply Hc. lia.
Qed.

Lemma bytewise_run data bitlen : 0 <= bitlen <= 8 * zlen data ->
  crc_bytewise table shift keep data bitlen =
  Ret (crc_run poly 0 (take (Z.to_nat bitlen) (bits_of data))).
Proof.
  intros Hb. unfold crc_bytewise, c_rem. rewrite Z.quot_div_nonneg, Z.rem_mod_nonneg by lia.
  set (q := Z.to_nat (bitlen / 8)). set (r := Z.to_nat (bitlen mod 8)).
  assert (Hq : bitlen / 8 = Z.of_nat q) by (unfold q; rewrite Z2Nat.id; [done|apply Z.div_pos; lia]).
  assert (Hr : bitlen mod 8 = Z.of_nat r /\ (r < 8)%nat)
    by (unfold r; pose proof (Z.mod_pos_bound bitlen 8); lia). destruct Hr as [Hr Hr8].
  assert (Hl : Z.to_nat bitlen = (8 * q + r)%nat)
    by (pose proof (Z.div_mod bitlen 8); lia).
  assert (Hql : (q <= length data)%nat) by (unfold zlen in Hb; lia).
  rewrite Hq, Hr, Hl, octets_run by done. cbn [mbind cres_bind].
  assert (Hsplit : bits_of data = bits_of (take q data) ++ bits_of (drop q data))
    by (by rewrite <- bits_of_app, take_drop).
  assert (Hpre : take (8 * q + r) (bits_of data) = bits_of (take q data) ++ take r (bits_of (drop q data))).
  { rewrite Hsplit, take_app_ge by (rewrite length_bits_of, length_take; lia).
    do 2 f_equal. rewrite length_bits_of, length_take. lia. }
  rewrite Hpre, crc_run_app.
  set (crc := crc_run poly 0 (bits_of (take q data))).
  assert (Hc : register k crc) by (apply register_run; [done|apply register_0]).
  destruct (Z.ltb_spec 0 (Z.of_nat r)) as [Hr0|]; [|by replace r with 0%nat by lia].
  destruct (lookup_lt_is_Some_2 data q) as [b Eb]; [unfold zlen in Hb; lia|].
  rewrite (aget_ok data (Z.of_nat q) b) by (lia || by rewrite Nat2Z.id). cbn [mbind cres_bind].
  assert (Htk : take r (bits_of (drop q data)) = msb r (Z.shiftr (byte.unsigned b) (8 - Z.of_nat r))).
  { erewrite drop_S by done. unfold bits_of. cbn [fmap list_fmap mjoin list_join].
    rewrite take_app_le by (rewrite length_msb; lia). rewrite take_msb by lia. do 2 f_equal. lia. }
  rewrite Htk.
  pose proof (byte.unsigned_range b).
  destruct (crc_field poly r (Z.shiftr (byte.unsigned b) (8 - Z.of_nat r)) crc) as [Hi Hx]; [lia| |apply Hc|].
  { rewrite Z.shiftr_div_pow2 by lia. split; [apply Z.div_pos; lia|apply Z.div_lt_upper_bound; [lia|]].
    rewrite <- Z.pow_add_r by lia. replace (8 - Z.of_nat r + Z.of_nat r) with 8 by lia. lia. }
  destruct (Htable _ Hi) as (e & -> & He). cbn [mbind cres_bind]. by rewrite He, Hx.
Qed.
End Bytewise.

(** ** Injectivity *)

(** On registers of degree [k] the multiplication loses nothing. *)
Lemma times_x_inj poly k x y : generator poly k -> register k x -> register k y ->
  times_x poly x = times_x poly y -> x = y.
Proof.
  intros Hg [Rx Bx] [Ry By] E. destruct Hg as [Hk Hr Ht Hc].
  assert (Htop : forall z, register k z -> Z.testbit (times_x poly z) (32 - k) = Z.testbit z 31).
  { intros z [Rz Bz]. unfold times_x.
    assert (Hz : Z.testbit (u32 (Z.shiftl z 1)) (32 - k) = false)
      by (rewrite u32_bits, Z.shiftl_spec, Bz by lia; apply andb_false_r).
    destruct (Z.testbit z 31); [|done]. by rewrite Z.lxor_spec, Hz, Hc. }
  assert (H31 : Z.testbit x 31 = Z.testbit y 31)
    by (by rewrite <- (Htop x), <- (Htop y), E).
  assert (Es : u32 (Z.shiftl x 1) = u32 (Z.shiftl y 1)).
  { unfold times_x in E. rewrite H31 in E. destruct (Z.testbit y 31); [|done].
    rewrite <- (Z.lxor_0_r (u32 (Z.shiftl x 1))), <- (Z.lxor_0_r (u32 (Z.shiftl y 1))).
    by rewrite <- (Z.lxor_nilpotent poly), <- !Z.lxor_assoc, E. }
  rewrite <- (u32_small x), <- (u32_small y) by done.
  apply Z.bits_inj'. intros i Hi. rewrite !u32_bits by done. destruct (Z.ltb_spec i 32); [|done].
  destruct (Z.eq_dec i 31) as [->|]; [by rewrite H31|].
  apply (f_equal (fun z => Z.testbit z (i + 1))) in Es. rewrite !u32_bits, !Z.shiftl_spec in Es by lia.
  rewrite (proj2 (Z.ltb_lt (i + 1) 32)) in Es by lia. by replace (i + 1 - 1) with i in Es by lia.
Qed.

Lemma register_times_xn poly k n x : generator poly k -> register k x -> register k (times_xn poly n x).
Proof. intros Hg Hx. induction n as [|n IH]; [done|]. cbn [times_xn]. by apply register_times_x. Qed.

Lemma times_xn_inj poly k n x y : generator poly k -> register k x -> register k y ->
  times_xn poly n x = times_xn poly n y -> x = y.
Proof.
  intros Hg Hx Hy. induction n as [|n IH]; [done|]. cbn [times_xn]. intros E. apply IH.
  eapply times_x_inj; [done|by apply register_times_xn..|done].
Qed.

Lemma msb_surj (e : list bool) : exists v, 0 <= v < 2 ^ zlen e /\ msb (length e) v = e.
Proof.
  induction e as [|b e (v & Hv & E)]; [by exists 0|]. unfold zlen in *. cbn [length].
  exists ((if b then 2 ^ Z.of_nat (length e) else 0) + v).
  rewrite Nat2Z.inj_succ, Z.pow_succ_r by lia. split; [destruct b; lia|].
  rewrite add_lxor_top by lia. cbn [msb]. f_equal.
  - rewrite Z.lxor_spec.
    assert (Ev : Z.testbit v (Z.of_nat (length e)) = false) by (by rewrite Z.testbit_false, Z.div_small by lia).
    rewrite Ev, xorb_false_r. destruct b; [apply Z.pow2_bits_true; lia|apply Z.bits_0].
  - transitivity (msb (length e) v); [|done]. apply msb_ext. intros i Hi. rewrite Z.lxor_spec.
    destruct b; [|by rewrite Z.bits_0]. rewrite Z.pow2_bits_eqb by lia.
    by rewrite (proj2 (Z.eqb_neq (Z.of_nat (length e)) i)) by lia.
Qed.

Lemma crc_run_split poly crc bits :
  crc_run poly crc bits = Z.lxor (times_xn poly (length bits) crc) (crc_run poly 0 bits).
Proof.
  induction bits as [|b bits IH] using rev_ind; [by rewrite Z.lxor_0_r|].
  rewrite !crc_run_app, IH, length_app, Nat.add_comm. cbn [length Nat.add times_xn].
  change (crc_run poly ?c [b]) with (crc_step poly c b).
  unfold crc_step. by rewrite Z.lxor_assoc, times_x_lxor.
Qed.

(** Two messages that differ in a burst no longer than the check. *)
Lemma burst_detected poly k u e1 e2 v : generator poly k ->
  length e1 = length e2 -> Z.of_nat (length e1) <= k -> e1 <> e2 ->
  crc_run poly 0 (u ++ e1 ++ v) <> crc_run poly 0 (u ++ e2 ++ v).
Proof.
  intros Hg Hlen Hk Hne E. apply Hne. rewrite !crc_run_app in E. set (c := crc_run poly 0 u) in *.
  assert (Hc : register k c) by (apply register_run; [done|apply register_0]).
  rewrite (crc_run_split poly (crc_run poly c e1)), (crc_run_split poly (crc_run poly c e2)) in E.
  assert (E' : times_xn poly (length v) (crc_run poly c e1) = times_xn poly (length v) (crc_run poly c e2)).
  { apply (f_equal (fun z => Z.lxor z (crc_run poly 0 v))) in E.
    by rewrite !Z.lxor_assoc, Z.lxor_nilpotent, !Z.lxor_0_r in E. }
  eapply times_xn_inj in E'; [|done|by apply register_run..].
  destruct (msb_surj e1) as (v1 & R1 & M1), (msb_surj e2) as (v2 & R2 & M2).
  rewrite <- M1, <- M2 in E' |- *. rewrite <- Hlen in *. f_equal.
  set (m := length e1) in *. destruct Hg as [Hkr Hr Ht Hcst].
  rewrite !crc_run_msb in E' by lia. unfold low in E'.
  assert (R2' : 0 <= v2 < 2 ^ Z.of_nat m) by (unfold zlen in R2; rewrite <- Hlen in R2; done).
  rewrite !Z.mod_small in E' by done.
  assert (Hreg : forall w, 0 <= w < 2 ^ Z.of_nat m -> register k (Z.lxor c (Z.shiftl w (32 - Z.of_nat m)))).
  { intros w Hw. apply register_lxor; [done|]. split.
    - rewrite Z.shiftl_mul_pow2 by lia. split; [nia|].
      replace 32 with (Z.of_nat m + (32 - Z.of_nat m)) at 2 by lia. rewrite Z.pow_add_r by lia.
      apply Z.mul_lt_mono_pos_r; [apply Z.pow_pos_nonneg; lia|lia].
    - intros i Hi. rewrite Z.shiftl_spec, Z.testbit_neg_r by lia. done. }
  eapply times_xn_inj in E'; [|by constructor|by apply Hreg..].
  apply (f_equal (Z.lxor c)) in E'. rewrite <- !Z.lxor_assoc, Z.lxor_nilpotent, !Z.lxor_0_l in E'.
  rewrite !Z.shiftl_mul_pow2 in E' by lia.
  apply Z.mul_cancel_r in E'; [done|]. apply Z.pow_nonzero; lia.
Qed.

(** ** Properties *)

Lemma generators :
  generator poly24a 24 /\ generator poly24b 24 /\ generator poly16 16 /\ generator poly12 12 /\
  generator poly8 8.
Proof. split_and!; constructor; (lia || reflexivity || (vm_compute; done)). Qed.

(** The five functions with their generators and degrees. *)
Definition crc_functions (t : crc_tables) : list (Z * Z * (list byte -> Z -> cres Z)) :=
  [(poly24a, 24, crc24a t); (poly24b, 24, crc24b t); (poly16, 16, crc16 t); (poly12, 12, crc12 t);
   (poly8, 8, crc8 t)].

Lemma functions_run t poly k f data bitlen :
  tables_ok t -> (poly, k, f) ∈ crc_functions t -> 0 <= bitlen <= 8 * zlen data ->
  generator poly k /\ f data bitlen = Ret (crc_run poly 0 (take (Z.to_nat bitlen) (bits_of data))).
Proof.
  intros [T1 T2 T3 T4 T5] Hf Hb. destruct generators as (G1 & G2 & G3 & G4 & G5).
  unfold crc_functions in Hf. rewrite !elem_of_cons, elem_of_nil in Hf.
  destruct Hf as [E|[E|[E|[E|[E|[]]]]]]; injection E as -> -> ->; (split; [done|]).
  - by apply (bytewise_run _ 24); [| |left|].
  - by apply (bytewise_run _ 24); [| |left|].
  - by apply (bytewise_run _ 16); [| |left|].
  - by apply (bytewise_run _ 12); [| |left|].
  - by apply (bytewise_run _ 8); [| |right|].
Qed.

(** C28: the tables and the byte by byte functions compute the division by the generators.  The
    initialisation fills the five tables, and each function then gives, for every length in bits
    that the message has, the register of the bit by bit division of the first bits of the
    message; on whole bytes it is the value of [crcbit]. *)
Theorem crc_functions_divide :
  exists t, crcTableInit crc_tables_bss = Ret t /\
  forall poly k f data bitlen, (poly, k, f) ∈ crc_functions t -> 0 <= bitlen <= 8 * zlen data ->
    f data bitlen = Ret (crc_run poly 0 (take (Z.to_nat bitlen) (bits_of data))) /\
    (forall n, bitlen = 8 * n -> f data bitlen = crcbit data n poly).
Proof.
  destruct crcTableInit_ok as (t & E & Ht). exists t. split; [done|].
  intros poly k f data bitlen Hf Hb. destruct (functions_run t poly k f data bitlen Ht Hf Hb) as [_ H].
  split; [done|]. intros n ->. rewrite H, crcbit_run by lia. do 2 f_equal.
  rewrite <- (take_drop (Z.to_nat n) data) at 1. rewrite bits_of_app, take_app_le.
  - apply take_ge. rewrite length_bits_of, length_take. unfold zlen in Hb. lia.
  - rewrite length_bits_of, length_take. unfold zlen in Hb. lia.
Qed.

(** C29: errors are detected.  Two messages of the same length that differ, and only in a burst of
    at most as many bits as the check has (24, 24, 16, 12, 8), have different checks. *)
Theorem crc_detects_bursts t data1 data2 poly k f u e1 e2 v :
  crcTableInit crc_tables_bss = Ret t -> (poly, k, f) ∈ crc_functions t ->
  bits_of data1 = u ++ e1 ++ v -> bits_of data2 = u ++ e2 ++ v ->
  length e1 = length e2 -> zlen e1 <= k -> e1 <> e2 ->
  exists c1 c2, f data1 (8 * zlen data1) = Ret c1 /\ f data2 (8 * zlen data2) = Ret c2 /\ c1 <> c2.
Proof.
  intros E Hf H1 H2 Hl Hk Hne. destruct crcTableInit_ok as (t' & E' & Ht).
  rewrite E in E'. injection E' as <-.
  pose proof (zlen_nonneg data1). pose proof (zlen_nonneg data2).
  destruct (functions_run t poly k f data1 (8 * zlen data1) Ht Hf) as [Hg R1]; [lia|].
  destruct (functions_run t poly k f data2 (8 * zlen data2) Ht Hf) as [_ R2]; [lia|].
  rewrite take_ge in R1 by (rewrite length_bits_of; unfold zlen; lia).
  rewrite take_ge in R2 by (rewrite length_bits_of; unfold zlen; lia).
  eexists _, _. split_and!; [exact R1|exact R2|]. rewrite H1, H2. by eapply burst_detected.
Qed.

(** Three bits of a message of two bytes are changed. *)
Lemma crc_detects_bursts_witness :
  exists t c1 c2, crcTableInit crc_tables_bss = Ret t /\
    crc8 t [Byte.x12; Byte.x34] 16 = Ret c1 /\ crc8 t [Byte.x12; Byte.x2c] 16 = Ret c2 /\ c1 <> c2.
Proof.
  destruct crcTableInit_ok as (t & E & _).
  destruct (crc_detects_bursts t [Byte.x12; Byte.x34] [Byte.x12; Byte.x2c] poly8 8 (crc8 t)
    (take 11 (bits_of [Byte.x12; Byte.x34])) [true; false; true] [false; true; true]
    [false; false])
    as (c1 & c2 & R1 & R2 & Hne).
  - exact E.
  - unfold crc_functions. rewrite !elem_of_cons. tauto.
  - reflexivity.
  - reflexivity.
  - reflexivity.
  - vm_compute. discriminate.
  - discriminate.
  - exists t, c1, c2. split_and!; [exact E|exact R1|exact R2|exact Hne].
Defined.
