(* ===== verification/Osa.v ===== *)
(** Ciphering and integrity of the radio bearers ([openair2/UTIL/OSA/]): SNOW 3G ([osa_snow3g.c], tables of
    [osa_rijndael.c]), the three ciphering algorithms ([osa_stream_eea.c]) and the integrity algorithms
    ([osa_stream_eia.c]).

    Buffers are lists of octets.  AES in counter mode (nettle) and the CMAC (OpenSSL) are parameters. *)
From stdpp Require Import base list numbers.
From Stdlib Require Import ZArith Lia.
From S2P Require Import Prelude.
Open Scope Z_scope.

(** ** Arithmetic of SNOW 3G *)

Definition OSA_MULx (V c : Z) : Z :=
  if negb (Z.land V 128 =? 0) then u8 (Z.lxor (Z.shiftl V 1) c) else u8 (Z.shiftl V 1).

Fixpoint OSA_MULxPOW (V : Z) (i : nat) (c : Z) : Z :=
  match i with
  | O => V
  | S i => OSA_MULx (OSA_MULxPOW V i c) c
  end.

(** Four octets as a word, the first one on top. *)
Definition word (r0 r1 r2 r3 : Z) : Z :=
  Z.lor (Z.lor (Z.lor (Z.shiftl r0 24) (Z.shiftl r1 16)) (Z.shiftl r2 8)) r3.

Definition OSA_MULalpha (c : Z) : Z :=
  word (OSA_MULxPOW c 23 0xa9) (OSA_MULxPOW c 245 0xa9) (OSA_MULxPOW c 48 0xa9) (OSA_MULxPOW c 239 0xa9).

Definition OSA_DIValpha (c : Z) : Z :=
  word (OSA_MULxPOW c 16 0xa9) (OSA_MULxPOW c 39 0xa9) (OSA_MULxPOW c 6 0xa9) (OSA_MULxPOW c 64 0xa9).

(** The S-boxes of [osa_rijndael.c]. *)
Definition OSA_SR : list Z :=
  [0x63; 0x7C; 0x77; 0x7B; 0xF2; 0x6B; 0x6F; 0xC5; 0x30; 0x01; 0x67; 0x2B; 0xFE; 0xD7; 0xAB; 0x76;
   0xCA; 0x82; 0xC9; 0x7D; 0xFA; 0x59; 0x47; 0xF0; 0xAD; 0xD4; 0xA2; 0xAF; 0x9C; 0xA4; 0x72; 0xC0;
   0xB7; 0xFD; 0x93; 0x26; 0x36; 0x3F; 0xF7; 0xCC; 0x34; 0xA5; 0xE5; 0xF1; 0x71; 0xD8; 0x31; 0x15;
   0x04; 0xC7; 0x23; 0xC3; 0x18; 0x96; 0x05; 0x9A; 0x07; 0x12; 0x80; 0xE2; 0xEB; 0x27; 0xB2; 0x75;
   0x09; 0x83; 0x2C; 0x1A; 0x1B; 0x6E; 0x5A; 0xA0; 0x52; 0x3B; 0xD6; 0xB3; 0x29; 0xE3; 0x2F; 0x84;
   0x53; 0xD1; 0x00; 0xED; 0x20; 0xFC; 0xB1; 0x5B; 0x6A; 0xCB; 0xBE; 0x39; 0x4A; 0x4C; 0x58; 0xCF;
   0xD0; 0xEF; 0xAA; 0xFB; 0x43; 0x4D; 0x33; 0x85; 0x45; 0xF9; 0x02; 0x7F; 0x50; 0x3C; 0x9F; 0xA8;
   0x51; 0xA3; 0x40; 0x8F; 0x92; 0x9D; 0x38; 0xF5; 0xBC; 0xB6; 0xDA; 0x21; 0x10; 0xFF; 0xF3; 0xD2;
   0xCD; 0x0C; 0x13; 0xEC; 0x5F; 0x97; 0x44; 0x17; 0xC4; 0xA7; 0x7E; 0x3D; 0x64; 0x5D; 0x19; 0x73;
   0x60; 0x81; 0x4F; 0xDC; 0x22; 0x2A; 0x90; 0x88; 0x46; 0xEE; 0xB8; 0x14; 0xDE; 0x5E; 0x0B; 0xDB;
   0xE0; 0x32; 0x3A; 0x0A; 0x49; 0x06; 0x24; 0x5C; 0xC2; 0xD3; 0xAC; 0x62; 0x91; 0x95; 0xE4; 0x79;
   0xE7; 0xC8; 0x37; 0x6D; 0x8D; 0xD5; 0x4E; 0xA9; 0x6C; 0x56; 0xF4; 0xEA; 0x65; 0x7A; 0xAE; 0x08;
   0xBA; 0x78; 0x25; 0x2E; 0x1C; 0xA6; 0xB4; 0xC6; 0xE8; 0xDD; 0x74; 0x1F; 0x4B; 0xBD; 0x8B; 0x8A;
   0x70; 0x3E; 0xB5; 0x66; 0x48; 0x03; 0xF6; 0x0E; 0x61; 0x35; 0x57; 0xB9; 0x86; 0xC1; 0x1D; 0x9E;
   0xE1; 0xF8; 0x98; 0x11; 0x69; 0xD9; 0x8E; 0x94; 0x9B; 0x1E; 0x87; 0xE9; 0xCE; 0x55; 0x28; 0xDF;
   0x8C; 0xA1; 0x89; 0x0D; 0xBF; 0xE6; 0x42; 0x68; 0x41; 0x99; 0x2D; 0x0F; 0xB0; 0x54; 0xBB; 0x16].

Definition OSA_SQ : list Z :=
  [0x25; 0x24; 0x73; 0x67; 0xD7; 0xAE; 0x5C; 0x30; 0xA4; 0xEE; 0x6E; 0xCB; 0x7D; 0xB5; 0x82; 0xDB;
   0xE4; 0x8E; 0x48; 0x49; 0x4F; 0x5D; 0x6A; 0x78; 0x70; 0x88; 0xE8; 0x5F; 0x5E; 0x84; 0x65; 0xE2;
   0xD8; 0xE9; 0xCC; 0xED; 0x40; 0x2F; 0x11; 0x28; 0x57; 0xD2; 0xAC; 0xE3; 0x4A; 0x15; 0x1B; 0xB9;
   0xB2; 0x80; 0x85; 0xA6; 0x2E; 0x02; 0x47; 0x29; 0x07; 0x4B; 0x0E; 0xC1; 0x51; 0xAA; 0x89; 0xD4;
   0xCA; 0x01; 0x46; 0xB3; 0xEF; 0xDD; 0x44; 0x7B; 0xC2; 0x7F; 0xBE; 0xC3; 0x9F; 0x20; 0x4C; 0x64;
   0x83; 0xA2; 0x68; 0x42; 0x13; 0xB4; 0x41; 0xCD; 0xBA; 0xC6; 0xBB; 0x6D; 0x4D; 0x71; 0x21; 0xF4;
   0x8D; 0xB0; 0xE5; 0x93; 0xFE; 0x8F; 0xE6; 0xCF; 0x43; 0x45; 0x31; 0x22; 0x37; 0x36; 0x96; 0xFA;
   0xBC; 0x0F; 0x08; 0x52; 0x1D; 0x55; 0x1A; 0xC5; 0x4E; 0x23; 0x69; 0x7A; 0x92; 0xFF; 0x5B; 0x5A;
   0xEB; 0x9A; 0x1C; 0xA9; 0xD1; 0x7E; 0x0D; 0xFC; 0x50; 0x8A; 0xB6; 0x62; 0xF5; 0x0A; 0xF8; 0xDC;
   0x03; 0x3C; 0x0C; 0x39; 0xF1; 0xB8; 0xF3; 0x3D; 0xF2; 0xD5; 0x97; 0x66; 0x81; 0x32; 0xA0; 0x00;
   0x06; 0xCE; 0xF6; 0xEA; 0xB7; 0x17; 0xF7; 0x8C; 0x79; 0xD6; 0xA7; 0xBF; 0x8B; 0x3F; 0x1F; 0x53;
   0x63; 0x75; 0x35; 0x2C; 0x60; 0xFD; 0x27; 0xD3; 0x94; 0xA5; 0x7C; 0xA1; 0x05; 0x58; 0x2D; 0xBD;
   0xD9; 0xC7; 0xAF; 0x6B; 0x54; 0x0B; 0xE0; 0x38; 0x04; 0xC8; 0x9D; 0xE7; 0x14; 0xB1; 0x87; 0x9C;
   0xDF; 0x6F; 0xF9; 0xDA; 0x2A; 0xC4; 0x59; 0x16; 0x74; 0x91; 0xAB; 0x26; 0x61; 0x76; 0x34; 0x2B;
   0xAD; 0x99; 0xFB; 0x72; 0xEC; 0x33; 0x12; 0xDE; 0x98; 0x3B; 0xC0; 0x9B; 0x3E; 0x18; 0x10; 0x3A;
   0x56; 0xE1; 0x77; 0xC9; 0x1E; 0x9E; 0x95; 0xA3; 0x90; 0x19; 0xA8; 0x6C; 0x09; 0xD0; 0xF0; 0x86].

(** [tab[(uint8_t)((w >> k) & 0xff)]]: the index is always below 256. *)
Definition box (tab : list Z) (w k : Z) : Z := nth (Z.to_nat (u8 (Z.land (Z.shiftr w k) 255))) tab 0.

(** The common text of [OSA_S1] and [OSA_S2]. *)
Definition mixed (tab : list Z) (c w : Z) : Z :=
  let s0 := box tab w 24 in let s1 := box tab w 16 in let s2 := box tab w 8 in let s3 := box tab w 0 in
  word (Z.lxor (Z.lxor (Z.lxor (OSA_MULx s0 c) s1) s2) (Z.lxor (OSA_MULx s3 c) s3))
       (Z.lxor (Z.lxor (Z.lxor (Z.lxor (OSA_MULx s0 c) s0) (OSA_MULx s1 c)) s2) s3)
       (Z.lxor (Z.lxor (Z.lxor s0 (Z.lxor (OSA_MULx s1 c) s1)) (OSA_MULx s2 c)) s3)
       (Z.lxor (Z.lxor (Z.lxor s0 s1) (Z.lxor (OSA_MULx s2 c) s2)) (OSA_MULx s3 c)).

Definition OSA_S1 (w : Z) : Z := mixed OSA_SR 0x1b w.
Definition OSA_S2 (w : Z) : Z := mixed OSA_SQ 0x69 w.

(** ** The generator *)

(** [LFSR_S0] to [LFSR_S15] in order, and the registers of the state machine. *)
Record osa_snow_3g_context_t := Snow {
  LFSR : list Z;
  FSM_R1 : Z;
  FSM_R2 : Z;
  FSM_R3 : Z;
}.

Definition LFSR_S (s : osa_snow_3g_context_t) (i : nat) : Z := nth i (LFSR s) 0.

(** The new value of the last register, without the word of the initialisation. *)
Definition feedback (s : osa_snow_3g_context_t) : Z :=
  Z.lxor (Z.lxor (Z.lxor (Z.lxor
    (Z.land (u32 (Z.shiftl (LFSR_S s 0) 8)) 0xffffff00)
    (OSA_MULalpha (u8 (Z.land (Z.shiftr (LFSR_S s 0) 24) 255))))
    (LFSR_S s 2))
    (Z.land (Z.shiftr (LFSR_S s 11) 8) 0x00ffffff))
    (OSA_DIValpha (u8 (Z.land (LFSR_S s 11) 255))).

(** Every register takes the value of the next one. *)
Definition shift_in (v : Z) (s : osa_snow_3g_context_t) : osa_snow_3g_context_t :=
  Snow (tail (LFSR s) ++ [v]) (FSM_R1 s) (FSM_R2 s) (FSM_R3 s).

Definition osa_snow3g_clock_LFSR_initialization_mode (F : Z) (s : osa_snow_3g_context_t) : osa_snow_3g_context_t :=
  shift_in (Z.lxor (feedback s) F) s.

Definition osa_snow3g_clock_LFSR_key_stream_mode (s : osa_snow_3g_context_t) : osa_snow_3g_context_t :=
  shift_in (feedback s) s.

Definition osa_snow3g_clock_fsm (s : osa_snow_3g_context_t) : Z * osa_snow_3g_context_t :=
  let F := Z.lxor (u32 (LFSR_S s 15 + FSM_R1 s)) (FSM_R2 s) in
  let r := u32 (FSM_R2 s + Z.lxor (FSM_R3 s) (LFSR_S s 5)) in
  (F, Snow (LFSR s) r (OSA_S1 (FSM_R1 s)) (OSA_S2 (FSM_R2 s))).

Fixpoint init_turns (n : nat) (s : osa_snow_3g_context_t) : osa_snow_3g_context_t :=
  match n with
  | O => s
  | S n => let '(F, s) := osa_snow3g_clock_fsm s in init_turns n (osa_snow3g_clock_LFSR_initialization_mode F s)
  end.

(** [k[0]] to [k[3]] and [IV[0]] to [IV[3]]. *)
Definition osa_snow3g_initialize (k0 k1 k2 k3 iv0 iv1 iv2 iv3 : Z) : osa_snow_3g_context_t :=
  let neg z := Z.lxor z 0xffffffff in
  init_turns 32
    (Snow [neg k0; neg k1; neg k2; neg k3; k0; k1; k2; k3;
           neg k0; Z.lxor (neg k1) iv3; Z.lxor (neg k2) iv2; neg k3;
           Z.lxor k0 iv1; k1; k2; Z.lxor k3 iv0] 0 0 0).

Fixpoint key_stream_turns (n : nat) (s : osa_snow_3g_context_t) : list Z :=
  match n with
  | O => []
  | S n => let '(F, s) := osa_snow3g_clock_fsm s in Z.lxor F (LFSR_S s 0) :: key_stream_turns n (osa_snow3g_clock_LFSR_key_stream_mode s)
  end.

Definition osa_snow3g_generate_key_stream (n : nat) (s : osa_snow_3g_context_t) : list Z :=
  let '(_, s) := osa_snow3g_clock_fsm s in key_stream_turns n (osa_snow3g_clock_LFSR_key_stream_mode s).

(** ** Ciphering *)

(** What the cryptographic libraries provide: [nettle_ctr_crypt] with AES-128 (key, first counter block, data) and
    the CMAC of OpenSSL with AES-128 (key, data). *)
Class Crypto := {
  aes_ctr : list Z -> list Z -> list Z -> list Z;
  aes_cmac : list Z -> list Z -> list Z;
}.

Definition octets (l : list Z) : Prop := Forall (fun o => 0 <= o < 256) l.

(** Their documented behaviour: the counter mode combines the data with a stream that depends on the key and the
    counter only, so that it is its own inverse; a CMAC has 16 octets. *)
Class CryptoOk `{Crypto} := {
  aes_ctr_length k m d : length (aes_ctr k m d) = length d;
  aes_ctr_octets k m d : octets d -> octets (aes_ctr k m d);
  aes_ctr_inverse k m d : octets d -> aes_ctr k m (aes_ctr k m d) = d;
  aes_cmac_length k d : length (aes_cmac k d) = 16%nat;
  aes_cmac_octets k d : octets (aes_cmac k d);
}.

(** [stream_cipher_t]; [message] is the place of the message in the buffer, [key] is [None] for [NULL]. *)
Record stream_cipher_t := StreamCipher {
  key : option (list Z);
  key_length : Z;                         (* uint32_t *)
  count : Z;                              (* uint32_t *)
  bearer : Z;                             (* uint8_t *)
  direction : Z;                          (* uint8_t *)
  message : Z;
  blength : Z;                            (* uint32_t, in bits *)
}.

(** Words of the machine, low octet first. *)
Definition load32 (l : list Z) : Z := foldr (fun o w => o + 256 * w) 0 l.
Definition store32 (w : Z) : list Z := [w mod 256; w / 2 ^ 8 mod 256; w / 2 ^ 16 mod 256; w / 2 ^ 24 mod 256].

Definition hton_int32 (x : Z) : Z :=
  Z.lor (Z.lor (Z.lor (u32 (Z.shiftl (Z.land x 0x000000FF) 24)) (Z.shiftl (Z.land x 0x0000FF00) 8))
    (Z.shiftr (Z.land x 0x00FF0000) 8)) (Z.shiftr (Z.land x 0xFF000000) 24).

(** [K[i]]: four octets of the key. *)
Definition key_word (k : list Z) (off : Z) : cres Z := d ← bget k off 4; Ret (hton_int32 (load32 d)).

(** [m[i] & (0xFF << (8 - zero_bit))] *)
Definition mask_octet (zero_bit i : Z) (mem : list Z) : cres (list Z) :=
  o ← aget mem i; aset mem i (Z.land o (u8 (Z.shiftl 0xFF (8 - zero_bit)))).

Definition xor_octets (a b : list Z) : list Z := zip_with Z.lxor a b.

Definition stream_encrypt_eea0 (p : stream_cipher_t) (out : Z) (mem : list Z) : cres (list Z) :=
  memcpy mem out mem (message p) (Z.shiftr (u32 (blength p + 7)) 3).

(** The last word of the key stream is cut. *)
Definition cut_last (zero_bit : Z) (n : nat) (KS : list Z) : cres (list Z) :=
  if 0 <? zero_bit then
    w ← aget KS (Z.of_nat n - 1);
    aset KS (Z.of_nat n - 1) (Z.land w (u32 (Z.shiftl 0xFFFFFFFF (8 - zero_bit))))
  else Ret KS.

(** The key stream of EEA1. *)
Definition eea1_stream (k : list Z) (p : stream_cipher_t) (n : nat) : cres (list Z) :=
  k3 ← key_word k 0; k2 ← key_word k 4; k1 ← key_word k 8; k0 ← key_word k 12;
  let iv3 := count p in
  let iv2 := u32 (Z.shiftl (Z.lor (Z.shiftl (bearer p) 3) (Z.shiftl (Z.land (direction p) 1) 2)) 24) in
  Ret (osa_snow3g_generate_key_stream n (osa_snow3g_initialize k0 k1 k2 k3 iv2 iv3 iv2 iv3)).

(** The loop over [n * 4] octets of the message. *)
Definition xor_message (msg : Z) (stream : list Z) (mem : list Z) : cres (list Z) :=
  d ← bget mem msg (zlen stream); bput mem msg (xor_octets d stream).

(** The result is written over the message. *)
Definition stream_encrypt_eea1 (p : stream_cipher_t) (mem : list Z) : cres (list Z) :=
  match key p with
  | None => Trap FAssert
  | Some k =>
      _ ← c_assert (key_length p =? 16);
      let n := Z.to_nat (u32 (blength p + 31) / 32) in
      let zero_bit := Z.land (blength p) 7 in
      KS ← eea1_stream k p n;
      KS ← cut_last zero_bit n KS;
      mem ← xor_message (message p) (mjoin ((fun w => store32 (hton_int32 w)) <$> KS)) mem;
      if 0 <? zero_bit then mask_octet zero_bit (message p + Z.shiftr (u32 (blength p + 7)) 3 - 1) mem else Ret mem
  end.

(** The counter block and the start of the message of EIA2. *)
Definition count_block (p : stream_cipher_t) : list Z :=
  store32 (hton_int32 (count p)) ++ [u8 (Z.lor (Z.shiftl (Z.land (bearer p) 31) 3) (Z.shiftl (Z.land (direction p) 1) 2)); 0; 0; 0].

Definition byte_length (p : stream_cipher_t) : Z :=
  if 0 <? Z.land (blength p) 7 then Z.shiftr (blength p) 3 + 1 else Z.shiftr (blength p) 3.

Section Streams.
Context `{Crypto}.

Definition stream_encrypt_eea2 (p : stream_cipher_t) (out : Z) (mem : list Z) : cres (list Z) :=
  match key p with
  | None => Trap FNull
  | Some k =>
      let zero_bit := Z.land (blength p) 7 in
      k ← bget k 0 16;
      d ← bget mem (message p) (byte_length p);
      mem ← bput mem out (aes_ctr k (count_block p ++ replicate 8 0) d);
      if 0 <? zero_bit then mask_octet zero_bit (out + byte_length p - 1) mem else Ret mem
  end.

Definition EEA0_ALG_ID : Z := 0.
Definition EEA1_128_ALG_ID : Z := 1.
Definition EEA2_128_ALG_ID : Z := 2.

(** [stream_decrypt] is a macro for the same function. *)
Definition stream_encrypt (algorithm : Z) (p : stream_cipher_t) (out : Z) (mem : list Z) : cres (Z * list Z) :=
  if algorithm =? EEA0_ALG_ID then mem ← stream_encrypt_eea0 p out mem; Ret (0, mem)
  else if algorithm =? EEA1_128_ALG_ID then mem ← stream_encrypt_eea1 p mem; Ret (0, mem)
  else if algorithm =? EEA2_128_ALG_ID then mem ← stream_encrypt_eea2 p out mem; Ret (0, mem)
  else Ret (-1, mem).

(** ** Integrity *)

Definition OSA_MUL64x (V c : Z) : Z :=
  if negb (Z.land V 0x8000000000000000 =? 0) then Z.lxor (u64 (Z.shiftl V 1)) c else u64 (Z.shiftl V 1).

Fixpoint OSA_MUL64xPOW (V : Z) (i : nat) (c : Z) : Z :=
  match i with
  | O => V
  | S i => OSA_MUL64x (OSA_MUL64xPOW V i c) c
  end.

Definition OSA_MUL64 (V P c : Z) : Z :=
  foldl (fun result i => if negb (Z.land (Z.shiftr P (Z.of_nat i)) 1 =? 0) then Z.lxor result (OSA_MUL64xPOW V i c) else result)
    0 (seq 0 64).

Fixpoint mask_turns (n : nat) (mask : Z) : Z :=
  match n with
  | O => mask
  | S n => mask_turns n (Z.lxor (Z.shiftr mask 1) 0x80000000)
  end.

Definition osa_mask32bit (n : Z) : Z := if c_rem n 32 =? 0 then 0xffffffff else mask_turns (Z.to_nat n) 0.

(** [hton_int32(message[i])], the message being read by words. *)
Definition message_word (mem : list Z) (p : stream_cipher_t) (i : Z) : cres Z :=
  d ← bget mem (message p + 4 * i) 4; Ret (hton_int32 (load32 d)).

(** [EVAL] over the blocks of 64 bits but the last. *)
Definition eval_turn (mem : list Z) (p : stream_cipher_t) (P : Z) (i : Z) (EVAL : Z) : cres Z :=
  a ← message_word mem p (2 * i);
  b ← message_word mem p (2 * i + 1);
  Ret (OSA_MUL64 (Z.lxor EVAL (Z.lor (Z.shiftl a 32) b)) P 0x1b).

(** The last block, cut after [rem_bits]. *)
Definition last_block (mem : list Z) (p : stream_cipher_t) (D : Z) : cres Z :=
  let rem_bits := if blength p mod 64 =? 0 then 64 else blength p mod 64 in
  let mask := osa_mask32bit (c_rem rem_bits 32) in
  a ← message_word mem p (2 * (D - 2));
  if 32 <? rem_bits then
    b ← message_word mem p (2 * (D - 2) + 1);
    Ret (Z.lor (Z.shiftl a 32) (Z.land b mask))
  else Ret (Z.shiftl (Z.land a mask) 32).

Definition stream_compute_integrity_eia1 (p : stream_cipher_t) (mem : list Z) : cres (list Z) :=
  match key p with
  | None => Trap FNull
  | Some k =>
      k3 ← key_word k 0; k2 ← key_word k 4; k1 ← key_word k 8; k0 ← key_word k 12;
      let iv3 := count p in
      let iv2 := u32 (Z.shiftl (Z.land (bearer p) 31) 27) in
      let iv1 := Z.lxor (count p) (u32 (Z.shiftl (direction p) 31)) in
      let iv0 := Z.lxor iv2 (Z.shiftl (Z.land (direction p) 1) 15) in
      let z := osa_snow3g_generate_key_stream 5 (osa_snow3g_initialize k0 k1 k2 k3 iv0 iv1 iv2 iv3) in
      let P := Z.lor (Z.shiftl (nth 0 z 0) 32) (nth 1 z 0) in
      let Q := Z.lor (Z.shiftl (nth 2 z 0) 32) (nth 3 z 0) in
      let D := (blength p + 63) / 64 + 1 in
      EVAL ← for_each (eval_turn mem p P) (zrange 0 (Z.to_nat (D - 2))) 0;
      M ← last_block mem p D;
      let EVAL := OSA_MUL64 (Z.lxor EVAL M) P 0x1b in
      let EVAL := OSA_MUL64 (Z.lxor EVAL (blength p)) Q 0x1b in
      Ret (store32 (hton_int32 (Z.lxor (u32 (Z.shiftr EVAL 32)) (nth 4 z 0))))
  end.

Definition stream_compute_integrity_eia2 (p : stream_cipher_t) (mem : list Z) : cres (list Z) :=
  match key p with
  | None => Trap FAssert
  | Some k =>
      k ← bget k 0 (key_length p);
      d ← bget mem (message p) (byte_length p);
      Ret (take 4 (aes_cmac k (count_block p ++ d)))
  end.

Definition EIA0_ALG_ID : Z := 0.
Definition EIA1_128_ALG_ID : Z := 1.
Definition EIA2_128_ALG_ID : Z := 2.

(** The four octets, or [None] for the return value -1, when [out] is not written. *)
Definition stream_compute_integrity (algorithm : Z) (p : stream_cipher_t) (mem : list Z) : cres (option (list Z)) :=
  if algorithm =? EIA1_128_ALG_ID then r ← stream_compute_integrity_eia1 p mem; Ret (Some r)
  else if algorithm =? EIA2_128_ALG_ID then r ← stream_compute_integrity_eia2 p mem; Ret (Some r)
  else Ret None.

(** [expected] is a place in the buffer. *)
Definition stream_check_integrity (algorithm : Z) (p : stream_cipher_t) (expected : Z) (mem : list Z) : cres Z :=
  if negb (algorithm =? EIA0_ALG_ID) then
    r ← stream_compute_integrity algorithm p mem;
    match r with
    | None => Ret (-1)
    | Some r => e ← bget mem expected 4; Ret (if bool_decide (r = e) then 0 else -1)
    end
  else Ret 0.
End Streams.

(** ** Test data of the specification ([openair3/TEST]) *)

Definition hex_key : list Z := [0x5A; 0xCB; 0x1D; 0x64; 0x4C; 0x0D; 0x51; 0x20; 0x4E; 0xA5; 0xF1; 0x45; 0x10; 0x10; 0xD8; 0x52].
Definition hex_text : list Z := [0xAD; 0x9C; 0x44; 0x1F; 0x89; 0x0B; 0x38; 0xC4; 0x57; 0xA4; 0x9D; 0x42; 0x14; 0x07; 0xE8].

Example eea1_test_set_3 :
  (take 15 <$> stream_encrypt_eea1 (StreamCipher (Some hex_key) 16 0xFA556B26 3 1 0 120) (hex_text ++ [0])) =
  Ret [0xBA; 0x0F; 0x31; 0x30; 0x03; 0x34; 0xC5; 0x6B; 0x52; 0xA7; 0x49; 0x7C; 0xBA; 0xC0; 0x46].
Proof. vm_compute. reflexivity. Qed.

Definition hex_key2 : list Z := [0x7e; 0x5e; 0x94; 0x43; 0x1e; 0x11; 0xd7; 0x38; 0x28; 0xd7; 0x39; 0xcc; 0x6c; 0xed; 0x45; 0x73].
Definition hex_text2 : list Z :=
  [0xb3; 0xd3; 0xc9; 0x17; 0x0a; 0x4e; 0x16; 0x32; 0xf6; 0x0f; 0x86; 0x10; 0x13; 0xd2; 0x2d; 0x84;
   0xb7; 0x26; 0xb6; 0xa2; 0x78; 0xd8; 0x02; 0xd1; 0xee; 0xaf; 0x13; 0x21; 0xba; 0x59; 0x29; 0xdc].

Example eia1_test_set_2 :
  stream_compute_integrity_eia1 (StreamCipher (Some hex_key2) 16 0x36af6144 0x18 1 0 254) hex_text2 = Ret [0xe3; 0x25; 0x9f; 0x6f].
Proof. vm_compute. reflexivity. Qed.

(** ** Reference: polynomials over two elements

    The bit [i] of a number is the coefficient of [x^i]. *)

(** The product of [a] and the [n] low coefficients of [b]. *)
Fixpoint pmul (n : nat) (a b : Z) : Z :=
  match n with
  | O => 0
  | S n => Z.lxor (pmul n a b) (if Z.testbit b (Z.of_nat n) then Z.shiftl a (Z.of_nat n) else 0)
  end.

(** The remainder of [p] by the polynomial [m] of degree [k]: long division of the coefficients
    [k + j - 1] down to [k]. *)
Fixpoint pmod (j : nat) (k : Z) (m p : Z) : Z :=
  match j with
  | O => p
  | S j => pmod j k m (if Z.testbit p (k + Z.of_nat j) then Z.lxor p (Z.shiftl m (Z.of_nat j)) else p)
  end.

Lemma pmod_lxor j k m : forall a b, pmod j k m (Z.lxor a b) = Z.lxor (pmod j k m a) (pmod j k m b).
Proof.
  induction j as [|j IH]; intros a b; [done|]. cbn [pmod]. rewrite Z.lxor_spec.
  destruct (Z.testbit a _), (Z.testbit b _); cbn [xorb]; rewrite <- IH; f_equal; apply Z.bits_inj'; intros i _; rewrite !Z.lxor_spec;
    by destruct (Z.testbit a i), (Z.testbit b i), (Z.testbit (Z.shiftl m _) i).
Qed.

(** Coefficients that are zero need no division. *)
Lemma pmod_small j k m : forall p d, 0 <= k -> 0 <= p < 2 ^ (k + Z.of_nat d) -> (d <= j)%nat -> pmod j k m p = pmod d k m p.
Proof.
  induction j as [|j IH]; intros p d Hk Hp Hd; [by replace d with 0%nat by lia|]. destruct (decide (d = S j)) as [->|]; [done|].
  cbn [pmod]. rewrite (testbit_above p (k + Z.of_nat d)) by lia. apply IH; [lia|done|lia].
Qed.

(** Multiplication by [x] modulo [x^k + c]. *)
Definition times_x (k c V : Z) : Z := if Z.testbit V (k - 1) then Z.lxor (2 * V mod 2 ^ k) c else 2 * V mod 2 ^ k.

Lemma lxor_double a b : Z.lxor (2 * a) (2 * b) = 2 * Z.lxor a b.
Proof.
  replace (2 * a) with (Z.shiftl a 1) by (rewrite Z.shiftl_mul_pow2; lia). replace (2 * b) with (Z.shiftl b 1) by (rewrite Z.shiftl_mul_pow2; lia).
  rewrite <- Z.shiftl_lxor, Z.shiftl_mul_pow2; lia.
Qed.

Lemma lxor_bound a b n : 0 <= n -> 0 <= a < 2 ^ n -> 0 <= b < 2 ^ n -> 0 <= Z.lxor a b < 2 ^ n.
Proof.
  intros Hn Ha Hb. assert (0 <= Z.lxor a b) by (apply Z.lxor_nonneg; lia). split; [done|].
  destruct (Z.eq_dec (Z.lxor a b) 0) as [->|]; [lia|]. apply Z.log2_lt_pow2; [lia|].
  eapply Z.le_lt_trans; [apply Z.log2_lxor; lia|].
  destruct (Z.eq_dec n 0) as [->|]; [cbn in *; assert (a = 0) as -> by lia; assert (b = 0) as -> by lia; done|].
  apply Z.max_lub_lt; (destruct (Z.eq_dec a 0) as [->|]; [cbn; try lia|]); (destruct (Z.eq_dec b 0) as [->|]; [cbn; try lia|]); apply Z.log2_lt_pow2; lia.
Qed.

(** The top coefficient of a division step goes away. *)
Lemma step_bound p m n : 0 <= n -> 0 <= p < 2 ^ (n + 1) -> 2 ^ n <= m < 2 ^ (n + 1) -> Z.testbit p n = true -> 0 <= Z.lxor p m < 2 ^ n.
Proof.
  intros Hn Hp Hm Ht. destruct (lxor_bound p m (n + 1)) as [H0 H1]; [lia..|]. split; [done|].
  destruct (Z.lt_ge_cases (Z.lxor p m) (2 ^ n)) as [|Hge]; [done|]. exfalso.
  assert (Hb : forall z, 2 ^ n <= z < 2 ^ (n + 1) -> Z.testbit z n = true).
  { intros z Hz. rewrite <- (Z.bit_log2 z) by lia. f_equal. symmetry. apply Z.log2_unique; lia. }
  assert (Hl : Z.testbit (Z.lxor p m) n = true) by (apply Hb; lia). rewrite Z.lxor_spec, Ht, (Hb m Hm) in Hl. done.
Qed.

Section Modulus.
Context (k c : Z).
Hypothesis Hk : 0 < k.
Hypothesis Hc : 0 <= c < 2 ^ k.
Let m := 2 ^ k + c.

Lemma m_range n : 0 <= n -> 2 ^ (k + n) <= Z.shiftl m n < 2 ^ (k + n + 1).
Proof.
  intros Hn. rewrite Z.shiftl_mul_pow2, !Z.pow_add_r by lia. assert (0 < 2 ^ n) by (apply Z.pow_pos_nonneg; lia). unfold m. nia.
Qed.

Lemma top_bit V : 0 <= V < 2 ^ k -> Z.testbit V (k - 1) = (2 ^ (k - 1) <=? V).
Proof.
  intros HV. assert (E : 2 ^ k = 2 * 2 ^ (k - 1)) by (rewrite <- Z.pow_succ_r by lia; f_equal; lia).
  destruct (Z.leb_spec (2 ^ (k - 1)) V) as [Hle|Hgt]; [|apply (testbit_above V (k - 1)); lia].
  rewrite <- (Z.bit_log2 V) by (assert (0 < 2 ^ (k - 1)) by (apply Z.pow_pos_nonneg; lia); lia). f_equal. symmetry. apply Z.log2_unique; [lia|].
  replace (Z.succ (k - 1)) with k by lia. lia.
Qed.

Lemma pmod_step_x p : 0 <= p < 2 ^ k -> pmod 1 k m (2 * p) = times_x k c p.
Proof.
  intros Hp. assert (E : 2 ^ k = 2 * 2 ^ (k - 1)) by (rewrite <- Z.pow_succ_r by lia; f_equal; lia).
  cbn [pmod]. rewrite Z.add_0_r, Z.shiftl_0_r. unfold times_x. replace (Z.testbit (2 * p) k) with (Z.testbit p (k - 1)).
  2:{ replace (2 * p) with (Z.shiftl p 1) by (rewrite Z.shiftl_mul_pow2; lia). by rewrite Z.shiftl_spec by lia. }
  rewrite top_bit by done. destruct (Z.leb_spec (2 ^ (k - 1)) p); [|by rewrite Z.mod_small by lia].
  replace (2 * p mod 2 ^ k) with (2 * p - 2 ^ k) by (apply (Z.mod_unique_pos _ _ 1); lia). set (q := 2 * p - 2 ^ k).
  assert (Hadd : forall z, 0 <= z < 2 ^ k -> 2 ^ k + z = Z.lxor (2 ^ k) z).
  { intros z Hz. replace (2 ^ k + z) with (Z.lor z (Z.shiftl 1 k)) by (rewrite lor_shiftl_add by lia; lia).
    rewrite Z.shiftl_1_l, Z.lxor_comm. symmetry. apply Z.lxor_lor. apply Z.bits_inj'. intros i Hi.
    rewrite Z.land_spec, Z.bits_0, Z.pow2_bits_eqb by lia. destruct (Z.eqb_spec k i) as [->|]; [|by rewrite andb_false_r].
    by rewrite (testbit_above z i i) by lia. }
  replace (2 * p) with (2 ^ k + q) by (unfold q; lia). unfold m. rewrite (Hadd q) by (unfold q; lia). rewrite (Hadd c) by lia.
  apply Z.bits_inj'. intros i _. rewrite !Z.lxor_spec. by destruct (Z.testbit (2 ^ k) i), (Z.testbit q i), (Z.testbit c i).
Qed.

(** The remainder of a product by [x]. *)
Lemma pmod_double j : forall p, 0 <= p < 2 ^ (k + Z.of_nat j) -> pmod (S j) k m (2 * p) = times_x k c (pmod j k m p).
Proof.
  induction j as [|j IH]; intros p Hp; [apply pmod_step_x; by rewrite Z.add_0_r in Hp|].
  assert (Hb : Z.testbit (2 * p) (k + Z.of_nat (S j)) = Z.testbit p (k + Z.of_nat j)).
  { replace (2 * p) with (Z.shiftl p 1) by (rewrite Z.shiftl_mul_pow2; lia). rewrite Z.shiftl_spec by lia. f_equal. lia. }
  cbn [pmod] in *. fold (pmod (S j) k m) in *. rewrite Hb. destruct (Z.testbit p (k + Z.of_nat j)) eqn:Ht.
  - replace (Z.shiftl m (Z.of_nat (S j))) with (2 * Z.shiftl m (Z.of_nat j)).
    2:{ rewrite !Z.shiftl_mul_pow2, Nat2Z.inj_succ, Z.pow_succ_r; lia. }
    rewrite lxor_double. apply IH. apply step_bound; try done; [lia| |].
    + replace (k + Z.of_nat j + 1) with (k + Z.of_nat (S j)) by lia. done.
    + apply m_range. lia.
  - apply IH. split; [lia|]. destruct (Z.lt_ge_cases p (2 ^ (k + Z.of_nat j))) as [|Hge]; [done|]. exfalso.
    assert (Hl : Z.testbit p (Z.log2 p) = true) by (apply Z.bit_log2; lia).
    replace (Z.log2 p) with (k + Z.of_nat j) in Hl; [congruence|]. symmetry. apply Z.log2_unique; [lia|].
    replace (Z.succ (k + Z.of_nat j)) with (k + Z.of_nat (S j)) by lia. lia.
Qed.

Lemma pmod_power V i : 0 <= V < 2 ^ k -> pmod i k m (Z.shiftl V (Z.of_nat i)) = Nat.iter i (times_x k c) V.
Proof.
  intros HV. induction i as [|i IH]; [cbn; apply Z.shiftl_0_r|]. rewrite Nat2Z.inj_succ, <- Z.add_1_r, Z.add_comm, <- Z.shiftl_shiftl by lia.
  replace (Z.shiftl (Z.shiftl V 1) (Z.of_nat i)) with (2 * Z.shiftl V (Z.of_nat i)) by (rewrite !Z.shiftl_mul_pow2 by lia; lia).
  rewrite pmod_double, IH; [done|]. rewrite Z.shiftl_mul_pow2, Z.pow_add_r by lia. assert (0 < 2 ^ Z.of_nat i) by (apply Z.pow_pos_nonneg; lia). nia.
Qed.
End Modulus.

Lemma bit_test V n : 0 <= n -> negb (Z.land V (2 ^ n) =? 0) = Z.testbit V n.
Proof.
  intros Hn. destruct (Z.testbit V n) eqn:E.
  - apply negb_true_iff, Z.eqb_neq. intros H0. assert (Z.testbit (Z.land V (2 ^ n)) n = false) by (by rewrite H0, Z.bits_0).
    rewrite Z.land_spec, E, Z.pow2_bits_true in H by lia. done.
  - apply negb_false_iff, Z.eqb_eq. apply Z.bits_inj'. intros i Hi. rewrite Z.land_spec, Z.bits_0, Z.pow2_bits_eqb by lia.
    destruct (Z.eqb_spec n i) as [->|]; [by rewrite E|by rewrite andb_false_r].
Qed.

Lemma mulx_ok V c : 0 <= V < 256 -> 0 <= c < 256 -> OSA_MULx V c = times_x 8 c V.
Proof.
  intros HV Hc. unfold OSA_MULx, times_x. change 128 with (2 ^ 7). rewrite bit_test by lia. change (8 - 1) with 7.
  rewrite Z.shiftl_mul_pow2 by lia. replace (V * 2 ^ 1) with (2 * V) by lia. destruct (Z.testbit V 7); [|done].
  unfold u8. rewrite <- !Z.land_ones by lia. apply Z.bits_inj'. intros i Hi.
  rewrite Z.land_spec, !Z.lxor_spec, Z.land_spec. destruct (Z.lt_ge_cases i 8).
  - by rewrite Z.ones_spec_low, !andb_true_r by lia.
  - by rewrite Z.ones_spec_high, !andb_false_r, (testbit_above c 8) by lia.
Qed.

Lemma times_x_bound k c V : 0 < k -> 0 <= c < 2 ^ k -> 0 <= times_x k c V < 2 ^ k.
Proof.
  intros Hk Hc. assert (0 < 2 ^ k) by (apply Z.pow_pos_nonneg; lia). unfold times_x. pose proof (Z.mod_pos_bound (2 * V) (2 ^ k)).
  destruct (Z.testbit V _); [apply lxor_bound; lia|lia].
Qed.

Lemma mulx_pow_ok V i c : 0 <= V < 256 -> 0 <= c < 256 ->
  OSA_MULxPOW V i c = Nat.iter i (times_x 8 c) V /\ 0 <= OSA_MULxPOW V i c < 256.
Proof.
  intros HV Hc. induction i as [|i [IH Hr]]; [done|]. cbn [OSA_MULxPOW Nat.iter nat_rect]. rewrite mulx_ok by done.
  split; [by rewrite IH|apply (times_x_bound 8); lia].
Qed.

Lemma mul64x_ok V c : 0 <= V < 2 ^ 64 -> OSA_MUL64x V c = times_x 64 c V.
Proof.
  intros HV. unfold OSA_MUL64x, times_x. change 0x8000000000000000 with (2 ^ 63). rewrite bit_test by lia.
  rewrite Z.shiftl_mul_pow2 by lia. by replace (V * 2 ^ 1) with (2 * V) by lia.
Qed.

Lemma mul64x_pow_ok V i c : 0 <= V < 2 ^ 64 -> 0 <= c < 2 ^ 64 ->
  OSA_MUL64xPOW V i c = Nat.iter i (times_x 64 c) V /\ 0 <= OSA_MUL64xPOW V i c < 2 ^ 64.
Proof.
  intros HV Hc. induction i as [|i [IH Hr]]; [done|]. cbn [OSA_MUL64xPOW Nat.iter nat_rect]. rewrite mul64x_ok by done.
  split; [by rewrite IH|apply times_x_bound; lia].
Qed.

(** The loop of [OSA_MUL64] over the [n] low bits. *)
Lemma mul64_turns V P c n : 0 <= V < 2 ^ 64 -> 0 <= c < 2 ^ 64 -> (n <= 64)%nat ->
  foldl (fun result i => if negb (Z.land (Z.shiftr P (Z.of_nat i)) 1 =? 0) then Z.lxor result (OSA_MUL64xPOW V i c) else result) 0 (seq 0 n) =
  pmod 64 64 (2 ^ 64 + c) (pmul n V P).
Proof.
  intros HV Hc. induction n as [|n IH]; intros Hn.
  - cbn [foldl seq pmul]. rewrite (pmod_small 64 64 (2 ^ 64 + c) 0 0) by lia. done.
  - rewrite seq_S, foldl_app, IH by lia. cbn [foldl pmul Nat.add]. change 1 with (2 ^ 0). rewrite bit_test, Z.shiftr_spec by lia. rewrite Z.add_0_l.
    destruct (Z.testbit P (Z.of_nat n)); [|by rewrite Z.lxor_0_r].
    rewrite pmod_lxor. f_equal. destruct (mul64x_pow_ok V n c HV Hc) as [-> _].
    assert (Hb : 0 <= Z.shiftl V (Z.of_nat n) < 2 ^ (64 + Z.of_nat n)).
    { rewrite Z.shiftl_mul_pow2, Z.pow_add_r by lia. assert (0 < 2 ^ Z.of_nat n) by (apply Z.pow_pos_nonneg; lia). nia. }
    rewrite (pmod_small 64 64 (2 ^ 64 + c) _ n), pmod_power by lia. done.
Qed.

Definition gmul (m a b : Z) : Z := pmod 8 8 m (pmul 8 a b).
Fixpoint gpow (m : Z) (n : nat) (a : Z) : Z := match n with O => 1 | S n => gmul m a (gpow m n a) end.

(** Rotation of an octet to the left. *)
Definition rotl8 (v k : Z) : Z := Z.lor (u8 (Z.shiftl v k)) (Z.shiftr v (8 - k)).

(** The S-box of Rijndael: the inverse modulo [x^8 + x^4 + x^3 + x + 1], then an affine map. *)
Definition sr_spec (x : Z) : Z :=
  let b := gpow 0x11b 254 x in
  Z.lxor (Z.lxor (Z.lxor (Z.lxor (Z.lxor b (rotl8 b 1)) (rotl8 b 2)) (rotl8 b 3)) (rotl8 b 4)) 0x63.

(** The S-box of SNOW 3G: a Dickson polynomial modulo [x^8 + x^6 + x^5 + x^3 + 1]. *)
Definition sq_spec (x : Z) : Z :=
  foldl (fun s n => Z.lxor s (gpow 0x169 n x)) 0x25 [1; 9; 13; 15; 33; 41; 45; 47; 49]%nat.

Lemma boxes_checked : forallb (fun x => (nth (Z.to_nat x) OSA_SR 0 =? sr_spec x) && (nth (Z.to_nat x) OSA_SQ 0 =? sq_spec x)) (zrange 0 256) = true.
Proof. vm_compute. reflexivity. Qed.

(** C27: The arithmetic of SNOW 3G and UIA2 is arithmetic of polynomials over two elements: for all operands
    [OSA_MULxPOW] is the product of an octet by [x^i] modulo [x^8 + c], and [OSA_MUL64] is the product of two
    polynomials of degree below 64 modulo [x^64 + c], as schoolbook multiplication and long division compute
    them; the 256 entries of each S-box are the values of their algebraic definitions, the inversion with an affine
    map of Rijndael and the Dickson polynomial of SNOW 3G. *)
Theorem osa_field_arithmetic :
  (forall V i c, 0 <= V < 2 ^ 8 -> 0 <= c < 2 ^ 8 -> OSA_MULxPOW V i c = pmod i 8 (2 ^ 8 + c) (Z.shiftl V (Z.of_nat i))) /\
  (forall V P c, 0 <= V < 2 ^ 64 -> 0 <= c < 2 ^ 64 -> OSA_MUL64 V P c = pmod 64 64 (2 ^ 64 + c) (pmul 64 V P)) /\
  (forall x, 0 <= x < 256 -> nth (Z.to_nat x) OSA_SR 0 = sr_spec x /\ nth (Z.to_nat x) OSA_SQ 0 = sq_spec x).
Proof.
  split; [|split].
  - intros V i c HV Hc. rewrite pmod_power by lia. by apply mulx_pow_ok.
  - intros V P c HV Hc. by apply mul64_turns.
  - intros x Hx. pose proof boxes_checked as Hb. rewrite forallb_forall in Hb. specialize (Hb x). rewrite andb_true_iff, !Z.eqb_eq in Hb.
    apply Hb, list_elem_of_In, elem_of_zrange. lia.
Qed.

(** ** Ciphering as a function of the octets *)

Section Cipher.
Context `{CryptoOk}.

(** The octets that the algorithm reads and writes: EEA1 works on whole words. *)
Definition span (algorithm len : Z) : Z := if algorithm =? EEA1_128_ALG_ID then 4 * ((len + 3) / 4) else len.

Definition eea1_octets (k : list Z) (p : stream_cipher_t) (n : nat) : list Z :=
  match eea1_stream k p n with Ret KS => mjoin ((fun w => store32 (hton_int32 w)) <$> KS) | Trap _ => [] end.

Definition cipher (algorithm : Z) (k : list Z) (p : stream_cipher_t) (d : list Z) : list Z :=
  if algorithm =? EEA0_ALG_ID then d
  else if algorithm =? EEA1_128_ALG_ID then xor_octets d (eea1_octets k p (Z.to_nat (u32 (blength p + 31) / 32)))
  else aes_ctr (take 16 k) (count_block p ++ replicate 8 0) d.

Lemma length_key_stream n s : length (key_stream_turns n s) = n.
Proof.
  revert s. induction n as [|n IH]; intros s; [done|]. unfold key_stream_turns. fold key_stream_turns. destruct (osa_snow3g_clock_fsm s). cbn [length]. by rewrite IH.
Qed.

Lemma length_words (l : list Z) : length (mjoin ((fun w => store32 (hton_int32 w)) <$> l)) = (4 * length l)%nat.
Proof.
  induction l as [|w l IH]; [done|]. rewrite fmap_cons. change (mjoin (?x :: ?y)) with (x ++ mjoin y). rewrite length_app, IH. cbn. lia.
Qed.

Lemma eea1_stream_ok k p n : 16 <= zlen k -> exists KS, eea1_stream k p n = Ret KS /\ length KS = n.
Proof.
  intros Hk. unfold eea1_stream, key_word. rewrite !bget_ok by lia. cbn [mbind cres_bind]. eexists. split; [reflexivity|].
  unfold osa_snow3g_generate_key_stream. destruct (osa_snow3g_clock_fsm _). apply length_key_stream.
Qed.

Lemma length_xor (a b : list Z) : length a = length b -> length (xor_octets a b) = length a.
Proof. intros Hl. unfold xor_octets. rewrite length_zip_with. lia. Qed.

Lemma xor_twice (a b : list Z) : length a = length b -> xor_octets (xor_octets a b) b = a.
Proof.
  unfold xor_octets. revert b. induction a as [|x a IH]; intros [|y b] Hl; try done. cbn. f_equal; [|apply IH; by injection Hl].
  by rewrite Z.lxor_assoc, Z.lxor_nilpotent, Z.lxor_0_r.
Qed.

Lemma take_xor n (a b : list Z) : take n (xor_octets a b) = xor_octets (take n a) (take n b).
Proof. apply zip_with_take. Qed.

(** A cipher context for [len] octets at [message p]. *)
Record cipher_ready (algorithm : Z) (k : list Z) (p : stream_cipher_t) (len : Z) : Prop := {
  cr_alg : algorithm = EEA0_ALG_ID \/ algorithm = EEA1_128_ALG_ID \/ algorithm = EEA2_128_ALG_ID;
  cr_key : key p = Some k;
  cr_key_len : key_length p = 16;
  cr_k : 16 <= zlen k;
  cr_bits : blength p = 8 * len;
  cr_len : 0 <= len < 2 ^ 28;
}.

Lemma span_range algorithm len : 0 <= len -> len <= span algorithm len <= len + 3.
Proof. intros Hl. unfold span. case_if; [|lia]. pose proof (Z.div_mod (len + 3) 4). pose proof (Z.mod_pos_bound (len + 3) 4). lia. Qed.

Lemma eea1_octets_length k p len : 16 <= zlen k -> blength p = 8 * len -> 0 <= len < 2 ^ 28 ->
  zlen (eea1_octets k p (Z.to_nat (u32 (blength p + 31) / 32))) = 4 * ((len + 3) / 4).
Proof.
  intros Hk Hb Hl. unfold eea1_octets. destruct (eea1_stream_ok k p (Z.to_nat (u32 (blength p + 31) / 32)) Hk) as (KS & -> & HK).
  unfold zlen. rewrite length_words, HK, Hb, u32_small by lia. replace (8 * len + 31) with (8 * (len + 3) + 7) by lia.
  rewrite Nat2Z.inj_mul, Z2Nat.id by (apply Z.div_pos; lia). f_equal. pose proof (Z.div_mod (len + 3) 4). pose proof (Z.mod_pos_bound (len + 3) 4).
  symmetry. apply (Z.div_unique _ _ _ (8 * ((len + 3) mod 4) + 7)); lia.
Qed.

Lemma cipher_length algorithm k p len d : cipher_ready algorithm k p len -> zlen d = span algorithm len ->
  zlen (cipher algorithm k p d) = zlen d.
Proof.
  intros [Ha _ _ Hk Hb Hl] Hd. unfold cipher, span in *. destruct Ha as [->|[->| ->]]; cbn [Z.eqb EEA0_ALG_ID EEA1_128_ALG_ID EEA2_128_ALG_ID Pos.eqb] in *; [done| |].
  - unfold zlen in *. rewrite length_xor; [done|]. pose proof (eea1_octets_length k p len Hk Hb Hl) as E. unfold zlen in E. lia.
  - unfold zlen. by rewrite aes_ctr_length.
Qed.

(** What the code does: the octets of the span are replaced. *)
Lemma stream_encrypt_eq algorithm k p len mem : cipher_ready algorithm k p len -> 0 <= message p ->
  message p + span algorithm len <= zlen mem ->
  stream_encrypt algorithm p (message p) mem =
    Ret (0, take (Z.to_nat (message p)) mem ++ cipher algorithm k p (take (Z.to_nat (span algorithm len)) (drop (Z.to_nat (message p)) mem)) ++
            drop (Z.to_nat (message p + span algorithm len)) mem).
Proof.
  intros Hr Hm Hlen. set (d := take _ (drop _ mem)). pose proof (span_range algorithm len (proj1 (cr_len _ _ _ _ Hr))) as Hs.
  assert (Hd : zlen d = span algorithm len) by (pose proof (cr_len _ _ _ _ Hr); unfold d, zlen in *; rewrite length_take, length_drop; lia).
  pose proof (cipher_length algorithm k p len d Hr Hd) as Hc.
  assert (Hput : forall x, zlen x = zlen d -> bput mem (message p) x =
    Ret (take (Z.to_nat (message p)) mem ++ x ++ drop (Z.to_nat (message p + span algorithm len)) mem)).
  { intros x Hx. rewrite bput_ok by lia. do 4 f_equal. unfold zlen in *. lia. }
  assert (Hget : bget mem (message p) (span algorithm len) = Ret d) by (pose proof (cr_len _ _ _ _ Hr); apply bget_ok; lia).
  destruct Hr as [Ha Hkey Hkl Hk Hb Hl]. pose proof (Z.mod_divide (8 * len) 8 ltac:(lia)) as Hdiv.
  assert (Hz : Z.land (blength p) 7 = 0).
  { rewrite Hb. change 7 with (2 ^ 3 - 1). rewrite land_mask by lia. change (2 ^ 3) with 8. apply Hdiv. exists len. lia. }
  assert (Hby : Z.shiftr (blength p) 3 = len) by (rewrite Hb, Z.shiftr_div_pow2 by lia; change (2 ^ 3) with 8; rewrite Z.mul_comm; apply Z.div_mul; lia).
  unfold stream_encrypt, cipher, span in *. destruct Ha as [->|[->| ->]]; cbn [Z.eqb EEA0_ALG_ID EEA1_128_ALG_ID EEA2_128_ALG_ID Pos.eqb] in *.
  - unfold stream_encrypt_eea0, memcpy. replace (Z.shiftr (u32 (blength p + 7)) 3) with len.
    2:{ rewrite Hb, u32_small, Z.shiftr_div_pow2 by lia. apply (Z.div_unique _ _ _ 7); lia. }
    rewrite Hget. cbn [mbind cres_bind]. by rewrite Hput.
  - unfold stream_encrypt_eea1. rewrite Hkey, Hkl, Hz. cbn [Z.eqb Pos.eqb c_assert mbind cres_bind]. unfold eea1_octets in *.
    pose proof (eea1_octets_length k p len Hk Hb Hl) as HE. unfold eea1_octets in HE.
    destruct (eea1_stream_ok k p (Z.to_nat (u32 (blength p + 31) / 32)) Hk) as (KS & EK & HK). rewrite EK in *. cbn [mbind cres_bind].
    unfold cut_last. cbn [Z.ltb Z.compare mbind cres_bind]. unfold xor_message. rewrite HE, Hget. cbn [mbind cres_bind]. by rewrite Hput.
  - unfold stream_encrypt_eea2, byte_length. rewrite Hkey, Hz. cbn [Z.ltb Z.compare]. rewrite Hby. rewrite (bget_ok k) by lia. cbn [mbind cres_bind].
    rewrite Hget. cbn [mbind cres_bind]. rewrite Hput by done. done.
Qed.

(** Deciphering in another buffer, of which only the first [L] octets of the span are known to be the ciphered ones. *)
Lemma cipher_back algorithm k p len d1 d2 L : cipher_ready algorithm k p len -> zlen d1 = span algorithm len -> zlen d2 = span algorithm len ->
  octets d1 -> len <= Z.of_nat L -> take L d2 = take L (cipher algorithm k p d1) -> take L (cipher algorithm k p d2) = take L d1.
Proof.
  intros Hr H1 H2 Ho HL E. pose proof (cipher_length _ _ _ _ _ Hr H1) as Hc. destruct Hr as [Ha Hkey Hkl Hk Hb Hl]. unfold cipher, span in *.
  destruct Ha as [->|[->| ->]]; cbn [Z.eqb EEA0_ALG_ID EEA1_128_ALG_ID EEA2_128_ALG_ID Pos.eqb] in *; [done| |].
  - rewrite take_xor, E, <- take_xor. f_equal. apply xor_twice. pose proof (eea1_octets_length k p len Hk Hb Hl) as HE. unfold zlen in *. lia.
  - rewrite !take_ge in E by (unfold zlen in *; lia). rewrite E. by rewrite aes_ctr_inverse.
Qed.

Lemma cipher_involutive algorithm k p len d : cipher_ready algorithm k p len -> zlen d = span algorithm len -> octets d ->
  cipher algorithm k p (cipher algorithm k p d) = d.
Proof.
  intros Hr Hd Ho. pose proof (cipher_length _ _ _ _ _ Hr Hd) as Hc. pose proof (span_range algorithm len (proj1 (cr_len _ _ _ _ Hr))) as Hs.
  pose proof (cipher_back algorithm k p len d (cipher algorithm k p d) (length d) Hr Hd) as E.
  assert (Hc2 : zlen (cipher algorithm k p (cipher algorithm k p d)) = zlen d) by (rewrite (cipher_length _ _ _ len); [done..|lia]).
  rewrite !take_ge in E by (unfold zlen in *; lia). apply E; try done; [lia|unfold zlen in *; lia].
Qed.

(** C26: Ciphering is undone by the same call: for each of the three algorithms, every key, COUNT, bearer, direction and
    message of whole octets inside of a buffer, [stream_encrypt] returns 0, changes only the octets of the message
    (EEA1 up to the end of its last word of four), and a second call restores the whole buffer. *)
Theorem stream_decrypt_inverts algorithm k p len mem : cipher_ready algorithm k p len -> 0 <= message p ->
  message p + span algorithm len <= zlen mem -> octets mem ->
  exists mem', stream_encrypt algorithm p (message p) mem = Ret (0, mem') /\ stream_encrypt algorithm p (message p) mem' = Ret (0, mem) /\
    zlen mem' = zlen mem /\
    forall i, Z.of_nat i < message p \/ message p + span algorithm len <= Z.of_nat i -> mem' !! i = mem !! i.
Proof.
  intros Hr Hm Hlen Ho. pose proof (span_range algorithm len (proj1 (cr_len _ _ _ _ Hr))) as Hs. pose proof (cr_len _ _ _ _ Hr) as Hl.
  rewrite (stream_encrypt_eq _ k p len mem Hr Hm Hlen). set (A := take _ mem). set (d := take _ (drop _ mem)). set (B := drop _ mem).
  assert (Hd : zlen d = span algorithm len) by (unfold d, zlen in *; rewrite length_take, length_drop; lia).
  assert (HA : zlen A = message p) by (unfold A, zlen in *; rewrite length_take; lia).
  assert (Emem : mem = A ++ d ++ B).
  { unfold A, d, B. rewrite Z2Nat.inj_add, <- drop_drop, take_drop, take_drop by lia. done. }
  pose proof (cipher_length _ _ _ _ _ Hr Hd) as Hc. eexists. split; [reflexivity|].
  rewrite (stream_encrypt_eq _ k p len _ Hr Hm) by (rewrite !zlen_app, Hc, HA, Hd; pose proof (zlen_nonneg B); lia).
  assert (HAn : Z.to_nat (message p) = length A) by (unfold zlen in *; lia).
  assert (Hdn : Z.to_nat (span algorithm len) = length (cipher algorithm k p d)) by (unfold zlen in *; lia).
  rewrite Z2Nat.inj_add, <- drop_drop, HAn, !drop_app_length, take_app_length, Hdn, drop_app_length, take_app_length by lia.
  rewrite (cipher_involutive _ _ _ len) by (done || by apply Forall_take, Forall_drop). split; [by rewrite <- Emem|].
  split; [rewrite Emem, !zlen_app; lia|]. intros i Hi. rewrite Emem at 1. unfold zlen in *. destruct Hi as [Hi|Hi].
  - by rewrite !lookup_app_l by lia.
  - rewrite !(lookup_app_r A), !(lookup_app_r _ B) by lia. f_equal. lia.
Qed.
Lemma lxor_octet o c : 0 <= o < 256 -> 0 <= c < 256 -> 0 <= Z.lxor o c < 256.
Proof. apply (lxor_bound o c 8). lia. Qed.

Lemma words_octets (l : list Z) : octets (mjoin ((fun w => store32 (hton_int32 w)) <$> l)).
Proof.
  induction l as [|w l IH]; [constructor|]. rewrite fmap_cons. change (mjoin (?x :: ?y)) with (x ++ mjoin y). apply Forall_app. split; [|done].
  repeat constructor; try apply Z.mod_pos_bound; lia.
Qed.

Lemma cipher_octets algorithm k p d : octets d -> octets (cipher algorithm k p d).
Proof.
  intros Hd. unfold cipher. case_if; [done|]. case_if; [|by apply aes_ctr_octets]. unfold eea1_octets.
  assert (Hx : forall w, octets w -> octets (xor_octets d w)); [|destruct (eea1_stream _ _ _); apply Hx; [apply words_octets|constructor]].
  intros w Hw. revert w Hw. induction Hd as [|o d Ho _ IH]; intros [|y w] Hw; cbn; try constructor.
  - apply lxor_octet; [done|by inversion Hw].
  - apply IH. by inversion Hw.
Qed.

(** ** The integrity functions always end *)

Lemma message_word_ok mem p i : 0 <= message p -> 0 <= i -> message p + 4 * i + 4 <= zlen mem ->
  exists w, message_word mem p i = Ret w.
Proof. intros. unfold message_word. rewrite bget_ok by lia. by eexists. Qed.

Lemma eval_turns_ok mem p P l : 0 <= message p -> Forall (fun i => 0 <= i /\ message p + 8 * i + 8 <= zlen mem) l ->
  forall v, exists w, for_each (eval_turn mem p P) l v = Ret w.
Proof.
  intros Hm. induction 1 as [|i l [Hi Hl] _ IH]; intros v; [by exists v|]. cbn [for_each].
  assert (exists w, eval_turn mem p P i v = Ret w) as (w & ->); [|apply IH]. unfold eval_turn.
  destruct (message_word_ok mem p (2 * i)) as (a & ->); [lia..|]. destruct (message_word_ok mem p (2 * i + 1)) as (b & ->); [lia..|].
  by eexists.
Qed.

(** EIA1 reads the message by words of four octets. *)
Lemma eia1_ok p k mem len : key p = Some k -> 16 <= zlen k -> blength p = 8 * len -> 0 < len < 2 ^ 28 -> 0 <= message p ->
  message p + 4 * ((len + 3) / 4) <= zlen mem -> exists m, stream_compute_integrity_eia1 p mem = Ret m /\ zlen m = 4 /\ octets m.
Proof.
  intros Hkey Hk Hb Hl Hm Hlen. unfold stream_compute_integrity_eia1, key_word. rewrite Hkey, !bget_ok by lia. cbn [mbind cres_bind].
  assert (HD : (blength p + 63) / 64 + 1 - 2 = (len - 1) / 8).
  { rewrite Hb. replace (8 * len + 63) with (8 * (len - 1) + 7 + 1 * 64) by lia. rewrite Z.div_add by lia.
    enough ((8 * (len - 1) + 7) / 64 = (len - 1) / 8) by lia. symmetry.
    apply (Z.div_unique _ _ _ (8 * ((len - 1) mod 8) + 7)); Z.div_mod_to_equations; lia. }
  assert (Hq : 8 * ((len - 1) / 8) + 4 <= 4 * ((len + 3) / 4)) by (Z.div_mod_to_equations; lia).
  match goal with |- context [for_each (eval_turn _ _ ?P) ?l ?v] => assert (exists w, for_each (eval_turn mem p P) l v = Ret w) as (w & ->) end.
  { apply eval_turns_ok; [done|]. apply list.Forall_forall. intros i Hi. rewrite HD in Hi. unfold zrange in Hi. apply elem_of_seqZ in Hi. Z.div_mod_to_equations. lia. }
  cbn [mbind cres_bind]. unfold last_block. rewrite HD.
  destruct (message_word_ok mem p (2 * ((len - 1) / 8))) as (a & ->); [lia|Z.div_mod_to_equations; lia|lia|]. cbn [mbind cres_bind].
  assert (Hr : forall v, exists m, @Ret (list Z) (store32 v) = Ret m /\ zlen m = 4 /\ octets m).
  { intros v. eexists. split; [reflexivity|]. split; [done|]. repeat constructor; try apply Z.mod_pos_bound; lia. }
  destruct (32 <? _) eqn:E; [|apply Hr]. destruct (message_word_ok mem p (2 * ((len - 1) / 8) + 1)) as (b & ->); [lia|Z.div_mod_to_equations; lia| |apply Hr].
  apply Z.ltb_lt in E. rewrite Hb in E. replace (8 * len mod 64) with (8 * (len mod 8)) in E.
  2:{ change 64 with (8 * 8). by rewrite Z.mul_mod_distr_l by lia. }
  destruct (8 * (len mod 8) =? 0) eqn:E0; bool_to_prop; Z.div_mod_to_equations; lia.
Qed.

Lemma eia2_value p k mem len : key p = Some k -> 16 <= zlen k -> key_length p = 16 -> blength p = 8 * len -> 0 <= len -> 0 <= message p ->
  message p + len <= zlen mem -> stream_compute_integrity EIA2_128_ALG_ID p mem =
    Ret (Some (take 4 (aes_cmac (take 16 k) (count_block p ++ take (Z.to_nat len) (drop (Z.to_nat (message p)) mem))))).
Proof.
  intros Hkey Hk Hkl Hb Hl Hm Hlen. unfold stream_compute_integrity. cbn [Z.eqb EIA1_128_ALG_ID EIA2_128_ALG_ID Pos.eqb].
  unfold stream_compute_integrity_eia2, byte_length. rewrite Hkey, Hkl, Hb. replace (Z.land (8 * len) 7) with 0.
  2:{ change 7 with (2 ^ 3 - 1). rewrite land_mask by lia. change (2 ^ 3) with 8. rewrite Z.mul_comm. symmetry. apply Z.mod_mul. lia. }
  replace (Z.shiftr (8 * len) 3) with len by (rewrite Z.shiftr_div_pow2 by lia; change (2 ^ 3) with 8; rewrite Z.mul_comm; symmetry; apply Z.div_mul; lia).
  cbn [Z.ltb Z.compare]. rewrite (bget_ok k) by lia. cbn [mbind cres_bind]. by rewrite bget_ok by lia.
Qed.

Lemma integrity_ok algorithm p k mem len :
  algorithm = EIA0_ALG_ID \/ algorithm = EIA1_128_ALG_ID \/ algorithm = EIA2_128_ALG_ID ->
  key p = Some k -> 16 <= zlen k -> key_length p = 16 -> blength p = 8 * len -> 0 < len < 2 ^ 28 -> 0 <= message p ->
  message p + 4 * ((len + 3) / 4) <= zlen mem ->
  exists r, stream_compute_integrity algorithm p mem = Ret r /\ (forall m, r = Some m -> zlen m = 4 /\ octets m) /\ (algorithm <> EIA0_ALG_ID -> r <> None).
Proof.
  intros Ha Hkey Hk Hkl Hb Hl Hm Hlen. unfold stream_compute_integrity.
  destruct Ha as [->|[->| ->]]; cbn [Z.eqb EIA0_ALG_ID EIA1_128_ALG_ID EIA2_128_ALG_ID Pos.eqb].
  - exists None. done.
  - destruct (eia1_ok p k mem len) as (m & -> & Hm4); [done..|]. exists (Some m). split_and!; [done|by intros ? [= <-]|done].
  - pose proof (eia2_value p k mem len) as E. unfold stream_compute_integrity in E. cbn [Z.eqb EIA1_128_ALG_ID EIA2_128_ALG_ID Pos.eqb] in E.
    rewrite E by (done || lia || (Z.div_mod_to_equations; lia)). eexists. split; [reflexivity|]. split; [|done]. intros m [= <-].
    split; [unfold zlen; by rewrite length_take, aes_cmac_length|]. apply Forall_take, aes_cmac_octets.
Qed.

(** EEA0 leaves the message. *)
Lemma eea0_same k p len mem : cipher_ready EEA0_ALG_ID k p len -> 0 <= message p -> message p + len <= zlen mem ->
  stream_encrypt EEA0_ALG_ID p (message p) mem = Ret (0, mem).
Proof.
  intros Hr Hm Hl. rewrite (stream_encrypt_eq EEA0_ALG_ID k p len mem Hr Hm Hl). unfold cipher, span. cbn [Z.eqb EEA0_ALG_ID EEA1_128_ALG_ID].
  pose proof (cr_len _ _ _ _ Hr). by rewrite Z2Nat.inj_add, <- drop_drop, take_drop, take_drop by lia.
Qed.
End Cipher.

(** ** Witnesses *)

(** A counter mode whose stream is made of the octet [5]. *)
#[global] Instance w_crypto : Crypto := {
  aes_ctr _ _ d := (fun o => Z.lxor o 5) <$> d;
  aes_cmac _ d := replicate 16 (u8 (sumZ d));
}.

#[global] Instance w_crypto_ok : CryptoOk.
Proof.
  split; intros; cbn.
  - apply length_fmap.
  - apply Forall_fmap. eapply Forall_impl; [|exact H]. intros o Ho. cbn in *. apply lxor_octet; lia.
  - induction H as [|o d Ho _ IH]; [done|]. cbn. rewrite IH. f_equal. by rewrite Z.lxor_assoc, Z.lxor_nilpotent, Z.lxor_0_r.
  - done.
  - repeat constructor; apply (u8_range (sumZ d)).
Qed.

Lemma stream_decrypt_inverts_witness :
  exists mem', stream_encrypt 1 (StreamCipher (Some hex_key) 16 0xFA556B26 3 1 0 120) 0 (hex_text ++ [0]) = Ret (0, mem') /\
    stream_encrypt 1 (StreamCipher (Some hex_key) 16 0xFA556B26 3 1 0 120) 0 mem' = Ret (0, hex_text ++ [0]).
Proof.
  destruct (stream_decrypt_inverts 1 hex_key (StreamCipher (Some hex_key) 16 0xFA556B26 3 1 0 120) 15 (hex_text ++ [0])) as (mem' & E1 & E2 & _).
  - constructor; cbn; try done; auto.
  - cbn. lia.
  - vm_compute. discriminate.
  - repeat constructor; lia.
  - by exists mem'.
Defined.
