(* ===== verification/PdcpData.v ===== *)
(** The data path of PDCP: [pdcp_data_req] and [pdcp_data_ind] of
    [openair2/LAYER2/PDCP_v10.1.0/pdcp.c] with [pdcp_apply_security] and [pdcp_validate_security]
    of [pdcp_security.c], in the default build (security and the tunnels of the eNB enabled, no
    emulation).

    An SDU gets a sequence number, a header and, on a signalling bearer, a MAC-I, is ciphered in
    the memory block of the PDU and given to RLC; the receiver reads the number, keeps its COUNT,
    deciphers and hands the SDU to RRC, to the tunnel of the user or to the list of the network
    driver.  The sequence numbers are the ones of [Pdcp], the algorithms the ones of [Osa], the
    table of the entities the one of [Hashtable]; RLC is behind the interface [RlcRequests].
    Logs, traces and time measurements are left out. *)
From stdpp Require Import base list numbers gmap.
From coqutil Require Import Byte.
From Stdlib Require Import ZArith Lia.
From S2P Require Import Prelude SplitIface Hashtable MemBlock RlcRrc Pdcp Osa.
Open Scope Z_scope.

(** ** Constants *)

Definition MAX_IP_PACKET_SIZE : Z := 1500.
Definition PDCP_TRANSMISSION_MODE_CONTROL : Z := 1.
Definition PDCP_TRANSMISSION_MODE_DATA : Z := 2.
Definition PDCP_TRANSMISSION_MODE_TRANSPARENT : Z := 3.
Definition PDCP_CONTROL_PLANE_DATA_PDU_SN_SIZE : Z := 1.
Definition PDCP_CONTROL_PLANE_DATA_PDU_MAC_I_SIZE : Z := 4.
Definition PDCP_USER_PLANE_DATA_PDU_LONG_SN_HEADER_SIZE : Z := 2.
Definition PDCP_USER_PLANE_DATA_PDU_SHORT_SN_HEADER_SIZE : Z := 1.
Definition PDCP_SN_5BIT : Z := 5.
Definition PDCP_SN_7BIT : Z := 7.
Definition PDCP_SN_12BIT : Z := 12.
Definition SECU_DIRECTION_UPLINK : Z := 0.
Definition SECU_DIRECTION_DOWNLINK : Z := 1.
(** [sizeof(pdcp_data_ind_header_t)] *)
Definition PDCP_DATA_IND_HEADER_SIZE : Z := 16.

(** ** State *)

(** [pdcp_s]: the members of the sequence numbering are the record of [Pdcp]; a key is an address,
    0 for [NULL]. *)
Record pdcp_entity := PdcpEntity {
  pe_sn : pdcp_t;
  header_compression_profile : Z;         (* uint16_t *)
  is_ue : bool;
  is_srb : bool;
  cipheringAlgorithm : Z;                 (* uint8_t *)
  integrityProtAlgorithm : Z;             (* uint8_t *)
  kUPenc : Z;
  kRRCint : Z;
  kRRCenc : Z;
  security_activated : Z;                 (* uint8_t *)
  status_report : Z;                      (* uint8_t *)
  lcid : Z;                               (* unsigned int *)
  pe_rb_id : Z;                           (* uint16_t *)
  first_missing_pdu : Z;                  (* short *)
}.

Definition set_sn (e : pdcp_entity) (x : pdcp_t) : pdcp_entity :=
  PdcpEntity x (header_compression_profile e) (is_ue e) (is_srb e) (cipheringAlgorithm e) (integrityProtAlgorithm e)
    (kUPenc e) (kRRCint e) (kRRCenc e) (security_activated e) (status_report e) (lcid e) (pe_rb_id e) (first_missing_pdu e).

(** What the upper layers get: [rrc_data_ind], the message [GTPV1U_ENB_TUNNEL_DATA_REQ], and the
    blocks added to [pdcp_sdu_list] with the identity and the size of their header. *)
Inductive pdcp_upper :=
| RRC_DATA_IND (c : protocol_ctxt_t) (rb_id : Z) (sdu : list Z)
| GTPV1U_ENB_TUNNEL_DATA_REQ (rnti rab_id : Z) (sdu : list Z)
| PDCP_SDU (rb_id data_size : Z) (sdu : list Z).

(** [pdcp_mbms_t] *)
Record pdcp_mbms_t := PdcpMbms { instanciated_instance : bool; mbms_rb_id : Z }.

(** The globals of the layer: the table, the entities and the keys by address, what the upper
    layers got, the tables of the multicast bearers and of the identities, and the RLC below. *)
Record pdcp_globals (R : Type) := PdcpGlobals {
  pdcp_coll_p : option hash_table_t;
  pdcp_heap : gmap Z pdcp_entity;
  key_heap : gmap Z (list Z);
  pdcp_out : list pdcp_upper;
  pdcp_mbms_array_ue : list (list (list pdcp_mbms_t));
  pdcp_mbms_array_eNB : list (list (list pdcp_mbms_t));
  pdcp_eNB_UE_instance_to_rnti : list Z;
  pdcp_eNB_UE_instance_to_rnti_index : Z;
  pdcp_UE_UE_module_id_to_rnti : list Z;
  pdcp_rlc : R;
}.
Arguments PdcpGlobals {R} _ _ _ _ _ _ _ _ _ _.
Arguments pdcp_coll_p {R} _.
Arguments pdcp_heap {R} _.
Arguments key_heap {R} _.
Arguments pdcp_out {R} _.
Arguments pdcp_mbms_array_ue {R} _.
Arguments pdcp_mbms_array_eNB {R} _.
Arguments pdcp_eNB_UE_instance_to_rnti {R} _.
Arguments pdcp_eNB_UE_instance_to_rnti_index {R} _.
Arguments pdcp_UE_UE_module_id_to_rnti {R} _.
Arguments pdcp_rlc {R} _.

(** What PDCP asks of RLC: [rlc_data_req] with the context, the flags of signalling and multicast,
    the bearer, the unit identifier, the confirmation, the size and the octets of the block; the
    result is the status. *)
Class RlcRequests (R : Type) :=
  pdcp_rlc_req : protocol_ctxt_t -> bool -> bool -> Z -> Z -> Z -> Z -> list Z -> R -> cres (R * Z).

(** [get_free_mem_block]: the octets of the block, nothing for [NULL]; and the global [otg_enabled]
    of the traffic generator. *)
Class PdcpEnv := {
  pdcp_block : Z -> option (list Z);
  otg_enabled : Z;
}.

Section Data.
Context {R : Type} `{RlcRequests R} `{Crypto} `{PdcpEnv}.
Abbreviation globals := (pdcp_globals R).

Definition set_heap (s : globals) (h : gmap Z pdcp_entity) : globals :=
  PdcpGlobals (pdcp_coll_p s) h (key_heap s) (pdcp_out s) (pdcp_mbms_array_ue s) (pdcp_mbms_array_eNB s)
    (pdcp_eNB_UE_instance_to_rnti s) (pdcp_eNB_UE_instance_to_rnti_index s) (pdcp_UE_UE_module_id_to_rnti s) (pdcp_rlc s).
Definition set_entity (s : globals) (p : Z) (e : pdcp_entity) : globals := set_heap s (<[p := e]> (pdcp_heap s)).
Definition set_pdcp_rlc (s : globals) (r : R) : globals :=
  PdcpGlobals (pdcp_coll_p s) (pdcp_heap s) (key_heap s) (pdcp_out s) (pdcp_mbms_array_ue s) (pdcp_mbms_array_eNB s)
    (pdcp_eNB_UE_instance_to_rnti s) (pdcp_eNB_UE_instance_to_rnti_index s) (pdcp_UE_UE_module_id_to_rnti s) r.
Definition hand_up (s : globals) (u : pdcp_upper) : globals :=
  PdcpGlobals (pdcp_coll_p s) (pdcp_heap s) (key_heap s) (pdcp_out s ++ [u]) (pdcp_mbms_array_ue s) (pdcp_mbms_array_eNB s)
    (pdcp_eNB_UE_instance_to_rnti s) (pdcp_eNB_UE_instance_to_rnti_index s) (pdcp_UE_UE_module_id_to_rnti s) (pdcp_rlc s).

Definition PDCP_COLL_KEY_VALUE (c : protocol_ctxt_t) (rb_id : Z) (srb_flag : bool) : Z :=
  Z.lor (Z.lor (Z.lor (Z.lor (u64 (module_id c)) (u64 (Z.shiftl (u64 (rnti c)) 8))) (u64 (Z.shiftl (u64 (enb_flag c)) 24)))
    (u64 (Z.shiftl (u64 rb_id) 25))) (u64 (Z.shiftl (u64 (b2z srb_flag)) 33)).

(** ** Security *)

(** The octets from [key + off] on; reading behind a key, or a key that was freed, is out of
    bounds. *)
Definition key_from (kh : gmap Z (list Z)) (key off : Z) : option (list Z) :=
  if key + off =? 0 then None else Some (match kh !! key with Some k => drop (Z.to_nat off) k | None => [] end).

Definition pdcp_apply_security (kh : gmap Z (list Z)) (e : pdcp_entity) (srb_flagP : bool)
  (rb_id pdcp_header_len current_sn : Z) (mem : list Z) (sdu_buffer_size : Z) : cres (list Z) :=
  _ ← c_assert ((rb_id <? Z.of_nat NB_RB_MAX) && (0 <=? rb_id));
  let direction := if is_ue e then SECU_DIRECTION_UPLINK else SECU_DIRECTION_DOWNLINK in
  let bearer := u8 (rb_id - 1) in
  let count := pdcp_get_next_count_tx (pe_sn e) srb_flagP current_sn in
  mem ← (if srb_flagP then
           mac ← stream_compute_integrity (integrityProtAlgorithm e)
                   (StreamCipher (key_from kh (kRRCint e) 16) 16 count bearer direction 0
                      (u32 (Z.shiftl (pdcp_header_len + sdu_buffer_size) 3))) mem;
           match mac with
           | Some m => bput mem (pdcp_header_len + sdu_buffer_size) m
           | None => Ret mem
           end
         else Ret mem);
  let key := if srb_flagP then key_from kh (kRRCenc e) 0 else key_from kh (kUPenc e) 0 in
  '(_, mem) ← stream_encrypt (cipheringAlgorithm e)
                (StreamCipher key 16 count bearer direction pdcp_header_len (u32 (Z.shiftl sdu_buffer_size 3)))
                pdcp_header_len mem;
  Ret mem.

(** The result is the return value; [sdu_buffer_size] counts the header. *)
Definition pdcp_validate_security (kh : gmap Z (list Z)) (e : pdcp_entity) (srb_flagP : bool)
  (rb_id pdcp_header_len current_sn : Z) (mem : list Z) (sdu_buffer_size : Z) : cres (Z * pdcp_entity * list Z) :=
  _ ← c_assert ((rb_id <? Z.of_nat NB_RB_MAX) && (0 <=? rb_id));
  let direction := if is_ue e then SECU_DIRECTION_DOWNLINK else SECU_DIRECTION_UPLINK in
  let bearer := u8 (rb_id - 1) in
  let '(count, x) := pdcp_get_next_count_rx (pe_sn e) srb_flagP current_sn in
  let e := set_sn e x in
  let key := if srb_flagP then key_from kh (kRRCenc e) 0 else key_from kh (kUPenc e) 0 in
  '(_, mem) ← stream_encrypt (cipheringAlgorithm e)
                (StreamCipher key 16 count bearer direction pdcp_header_len
                   (u32 (Z.shiftl (sdu_buffer_size - pdcp_header_len) 3))) pdcp_header_len mem;
  if srb_flagP then
    r ← stream_check_integrity (integrityProtAlgorithm e)
          (StreamCipher (key_from kh (kRRCint e) 16) 16 count bearer direction 0 (u32 (Z.shiftl sdu_buffer_size 3)))
          sdu_buffer_size mem;
    Ret (if negb (r =? 0) then -1 else 0, e, mem)
  else Ret (0, e, mem).

(** ** Transmission *)

Definition header_len (srb_flagP : bool) : Z :=
  if srb_flagP then PDCP_CONTROL_PLANE_DATA_PDU_SN_SIZE else PDCP_USER_PLANE_DATA_PDU_LONG_SN_HEADER_SIZE.
Definition tailer_len (srb_flagP : bool) : Z := if srb_flagP then PDCP_CONTROL_PLANE_DATA_PDU_MAC_I_SIZE else 0.

(** The header with the next sequence number; [None] when it could not be written. *)
Definition put_header (srb_flagP : bool) (modeP sdu_buffer_sizeP : Z) (mem : list Z) (e : pdcp_entity)
  : cres (Z * pdcp_entity * option (list Z)) :=
  let '(sn, x) := pdcp_get_next_tx_seq_number (Some (pe_sn e)) in
  let e := match x with Some x => set_sn e x | None => e end in
  if srb_flagP then
    let current_sn := u8 sn in
    mem ← bput mem (sdu_buffer_sizeP + header_len srb_flagP) (replicate 4 0);
    '(ok, m) ← pdcp_serialize_control_plane_data_pdu_with_SRB_sn_buffer (Some mem)
                  (Some (Build_pdcp_control_plane_data_pdu_header current_sn));
    Ret (current_sn, e, if (ok : bool) then m else None)
  else
    let dc := if modeP =? PDCP_TRANSMISSION_MODE_DATA then 1 else 0 in
    '(ok, m) ← pdcp_serialize_user_plane_data_pdu_with_long_sn_buffer (Some mem)
                  (Some (Build_pdcp_user_plane_data_pdu_header_with_long_sn dc sn));
    Ret (sn, e, if (ok : bool) then m else None).

(** The PDU of an SDU in the block [mem]; [None] when the SDU is dropped. *)
Definition make_pdu (kh : gmap Z (list Z)) (srb_flagP : bool) (rb_idP modeP sdu_buffer_sizeP : Z) (sdu mem : list Z)
  (e : pdcp_entity) : cres (pdcp_entity * option (list Z)) :=
  '(current_sn, e, m) ← put_header srb_flagP modeP sdu_buffer_sizeP mem e;
  match m with
  | None => Ret (e, None)
  | Some mem =>
      if pdcp_calculate_max_seq_num_for_given_size (seq_num_size (pe_sn e)) <? current_sn then Ret (e, None)
      else
        mem ← memcpy mem (header_len srb_flagP) sdu 0 sdu_buffer_sizeP;
        mem ← bput mem (header_len srb_flagP + sdu_buffer_sizeP) (replicate (Z.to_nat (tailer_len srb_flagP)) 0);
        if negb (security_activated e =? 0) && (negb (cipheringAlgorithm e =? 0) || negb (integrityProtAlgorithm e =? 0)) then
          mem ← pdcp_apply_security kh e srb_flagP (c_rem rb_idP (Z.of_nat maxDRB)) (header_len srb_flagP) current_sn mem
                  sdu_buffer_sizeP;
          Ret (e, Some mem)
        else Ret (e, Some mem)
  end.

(** The result is the value written to [ctxt_pP->configured], if any, and the return value. *)
Definition pdcp_data_req (c : protocol_ctxt_t) (srb_flagP : bool) (rb_idP muiP confirmP sdu_buffer_sizeP : Z)
  (sdu : list Z) (modeP : Z) (s : globals) : cres (globals * option bool * bool) :=
  let tm := modeP =? PDCP_TRANSMISSION_MODE_TRANSPARENT in
  if sdu_buffer_sizeP =? 0 then Ret (s, None, false)
  else if MAX_IP_PACKET_SIZE <? sdu_buffer_sizeP then Trap FExit
  else if negb (rb_idP <? (if tm then NB_RB_MBMS_MAX else if srb_flagP then 3 else Z.of_nat maxDRB)) then Ret (s, None, false)
  else
    '(h_rc, p) ← hashtable_get (pdcp_coll_p s) (PDCP_COLL_KEY_VALUE c rb_idP srb_flagP);
    let found := match h_rc with HASH_TABLE_OK => true | _ => false end in
    if negb found && negb tm then Ret (s, Some false, false)
    else
      let configured := if found then Some true else None in
      if tm then
        match pdcp_block sdu_buffer_sizeP with
        | None => Ret (s, configured, false)
        | Some mem =>
            mem ← memcpy mem 0 sdu 0 sdu_buffer_sizeP;
            '(r, st) ← pdcp_rlc_req c srb_flagP true rb_idP muiP confirmP sdu_buffer_sizeP mem (pdcp_rlc s);
            Ret (set_pdcp_rlc s r, configured, st =? RLC_OP_STATUS_OK)
        end
      else
        let pdcp_pdu_size := u16 (sdu_buffer_sizeP + header_len srb_flagP + tailer_len srb_flagP) in
        match pdcp_block pdcp_pdu_size, pdcp_heap s !! p with
        | None, _ => Ret (s, configured, false)
        | Some _, None => Trap FNull
        | Some mem, Some e =>
            '(e, m) ← make_pdu (key_heap s) srb_flagP rb_idP modeP sdu_buffer_sizeP sdu mem e;
            let s := set_entity s p e in
            match m with
            | None => Ret (s, configured, false)
            | Some mem =>
                '(r, st) ← pdcp_rlc_req c srb_flagP false rb_idP muiP confirmP pdcp_pdu_size mem (pdcp_rlc s);
                Ret (set_pdcp_rlc s r, configured, st =? RLC_OP_STATUS_OK)
            end
        end.

(** ** Reception *)

(** The length of the header and of the trailer, and the sequence number. *)
Definition read_header (srb_flagP : bool) (mem : list Z) (e : pdcp_entity) : cres (Z * Z * Z) :=
  if srb_flagP then
    sn ← pdcp_get_sequence_number_of_pdu_with_SRB_sn (Some mem);
    Ret (PDCP_CONTROL_PLANE_DATA_PDU_SN_SIZE, PDCP_CONTROL_PLANE_DATA_PDU_MAC_I_SIZE, sn)
  else if seq_num_size (pe_sn e) =? PDCP_SN_7BIT then
    sn ← pdcp_get_sequence_number_of_pdu_with_short_sn (Some mem);
    Ret (PDCP_USER_PLANE_DATA_PDU_SHORT_SN_HEADER_SIZE, 0, sn)
  else if seq_num_size (pe_sn e) =? PDCP_SN_12BIT then
    sn ← pdcp_get_sequence_number_of_pdu_with_long_sn (Some mem);
    Ret (PDCP_USER_PLANE_DATA_PDU_LONG_SN_HEADER_SIZE, 0, sn)
  else Ret (0, 0, 0).

(** The deciphering, if the security is activated; its result is not used. *)
Definition decipher (kh : gmap Z (list Z)) (srb_flagP : bool) (rb_idP hdr sn : Z) (mem : list Z) (size : Z)
  (e : pdcp_entity) : cres (pdcp_entity * list Z) :=
  if security_activated e =? 1 then
    '(_, e, mem) ← pdcp_validate_security kh e srb_flagP rb_idP hdr sn mem size; Ret (e, mem)
  else Ret (e, mem).

(** The SDU of a data bearer, with [pdcp_p] as the address of its entity (0 for a multicast
    bearer). *)
Definition deliver_drb (c : protocol_ctxt_t) (srb_flagP : bool) (rb_id sn payload_offset size : Z) (mem : list Z)
  (pdcp_p : Z) (s : globals) : cres globals :=
  if (enb_flag c =? 1) && negb srb_flagP then
    d ← bget mem payload_offset (size - payload_offset);
    Ret (hand_up s (GTPV1U_ENB_TUNNEL_DATA_REQ (rnti c) (rb_id + 4) d))
  else
    match pdcp_block (size - payload_offset + PDCP_DATA_IND_HEADER_SIZE) with
    | None => Ret s
    | Some new_sdu =>
        match (if pdcp_p =? 0 then None else pdcp_heap s !! pdcp_p) with
        | None => Trap FNull
        | Some e =>
            let x := pe_sn e in
            let e := match rlc_mode x with
                     | MODE_AM => set_sn e (Build_pdcp_t (rlc_mode x) (seq_num_size x) (next_pdcp_tx_sn x) (next_pdcp_rx_sn x)
                         (next_pdcp_rx_sn_before_integrity x) (tx_hfn x) (rx_hfn x) (rx_hfn_offset x) sn (missing_pdu_bitmap x))
                     | _ => e
                     end in
            let id := if enb_flag c =? 0 then rb_id else u16 (rb_id + module_id c * Z.of_nat maxDRB) in
            d ← bget mem payload_offset (size - payload_offset);
            _ ← bput new_sdu PDCP_DATA_IND_HEADER_SIZE d;
            Ret (hand_up (set_entity s pdcp_p e) (PDCP_SDU id (size - payload_offset) d))
        end
    end.

(** [sdu_buffer_pP->data] is [mem], of which [sdu_buffer_sizeP] octets were received. *)
Definition pdcp_data_ind (c : protocol_ctxt_t) (srb_flagP MBMS_flagP : bool) (rb_idP sdu_buffer_sizeP : Z) (mem : list Z)
  (s : globals) : cres (globals * bool) :=
  if MBMS_flagP then
    if negb (rb_idP <? NB_RB_MBMS_MAX) then Ret (s, false)
    else if sdu_buffer_sizeP =? 0 then Ret (s, false)
    else if otg_enabled =? 1 then Ret (s, true)
    else s ← deliver_drb c srb_flagP rb_idP 0 0 sdu_buffer_sizeP mem 0 s; Ret (s, true)
  else
    let rb_id := c_rem rb_idP (Z.of_nat maxDRB) in
    if negb (rb_id <? Z.of_nat maxDRB) then Ret (s, false)
    else if negb (0 <? rb_id) then Ret (s, false)
    else
      '(h_rc, p) ← hashtable_get (pdcp_coll_p s) (PDCP_COLL_KEY_VALUE c rb_id srb_flagP);
      match h_rc with
      | HASH_TABLE_OK =>
          if sdu_buffer_sizeP =? 0 then Ret (s, false)
          else match pdcp_heap s !! p with
          | None => Trap FNull
          | Some e =>
              '(hdr, tail, sn) ← read_header srb_flagP mem e;
              if sdu_buffer_sizeP <? hdr + tail then Ret (s, false)
              else
                '(_, x) ← pdcp_is_rx_seq_number_valid sn (Some (pe_sn e)) srb_flagP;
                let e := match x with Some x => set_sn e x | None => e end in
                '(e, mem) ← decipher (key_heap s) srb_flagP rb_idP hdr sn mem (sdu_buffer_sizeP - tail) e;
                let s := set_entity s p e in
                if srb_flagP then
                  d ← bget mem hdr (sdu_buffer_sizeP - hdr - tail);
                  Ret (hand_up s (RRC_DATA_IND c rb_id d), true)
                else if otg_enabled =? 1 then Ret (s, true)
                else s ← deliver_drb c srb_flagP rb_id sn hdr sdu_buffer_sizeP mem p s; Ret (s, true)
          end
      | _ => Ret (s, false)
      end.
End Data.

(** ** A bearer and its PDUs

    A signalling bearer, or a data bearer in unacknowledged mode with numbers of 12 bits. *)

Definition sn_bits (srb : bool) : Z := if srb then PDCP_SN_5BIT else PDCP_SN_12BIT.

Record bearer_sn (srb : bool) (x : pdcp_t) : Prop := {
  bs_ok : pdcp_ok x;
  bs_size : seq_num_size x = sn_bits srb;
  bs_mode : srb = true \/ rlc_mode x = MODE_UM;
  bs_offset : rx_hfn_offset x = 0;
}.

(** The COUNT given to the ciphering of the PDU number [C]: its hyper frame number is already the
    one of the next PDU. *)
Definition count_of (srb : bool) (C : Z) : Z :=
  let n := sn_bits srb in Z.lor (u32 (Z.shiftl ((C + 1) / 2 ^ n) n)) (C mod 2 ^ n).

Definition read_sn (srb : bool) (mem : list Z) : cres Z :=
  if srb then pdcp_get_sequence_number_of_pdu_with_SRB_sn (Some mem)
  else pdcp_get_sequence_number_of_pdu_with_long_sn (Some mem).

(** The keys of an entity whose security is activated. *)
Record secured (kh : gmap Z (list Z)) (srb : bool) (e : pdcp_entity) (k : list Z) : Prop := {
  sc_alg : cipheringAlgorithm e = EEA0_ALG_ID \/ cipheringAlgorithm e = EEA1_128_ALG_ID \/ cipheringAlgorithm e = EEA2_128_ALG_ID;
  sc_key : key_from kh (if srb then kRRCenc e else kUPenc e) 0 = Some k;
  sc_length : 16 <= zlen k;
  sc_integrity : srb = true ->
    (integrityProtAlgorithm e = EIA0_ALG_ID \/ integrityProtAlgorithm e = EIA1_128_ALG_ID \/ integrityProtAlgorithm e = EIA2_128_ALG_ID) /\
    exists ki, key_from kh (kRRCint e) 16 = Some ki /\ 16 <= zlen ki;
}.

Definition security (sec : bool) (kh : gmap Z (list Z)) (srb : bool) (e : pdcp_entity) (k : list Z) : Prop :=
  security_activated e = b2z sec /\ (sec = true -> secured kh srb e k).

Definition params (srb : bool) (k : list Z) (C rb : Z) (down : bool) (size : Z) : stream_cipher_t :=
  StreamCipher (Some k) 16 (count_of srb C) (u8 (rb - 1)) (b2z down) (header_len srb) (8 * size).

Definition pdu_size (srb : bool) (size : Z) : Z := size + header_len srb + tailer_len srb.

(** The PDU of the SDU number [C]. *)
Record carries `{Crypto} (sec srb : bool) (alg : Z) (k : list Z) (C rb : Z) (down : bool) (sdu pdu : list Z) : Prop := {
  ca_length : zlen pdu = pdu_size srb (zlen sdu);
  ca_octets : octets pdu;
  ca_sn : forall r, read_sn srb (pdu ++ r) = Ret (C mod 2 ^ sn_bits srb);
  ca_body : if sec then
      exists d, zlen d = span alg (zlen sdu) /\ octets d /\ take (length sdu) d = sdu /\
        take (length sdu) (drop (Z.to_nat (header_len srb)) pdu) =
          take (length sdu) (cipher alg k (params srb k C rb down (zlen sdu)) d)
    else take (length sdu) (drop (Z.to_nat (header_len srb)) pdu) = sdu;
}.

(** A block in three pieces and a rest. *)
Lemma block_pieces {A} (mem : list A) a b c : 0 <= a -> 0 <= b -> 0 <= c -> a + b + c <= zlen mem ->
  exists m1 m2 m3 r, mem = m1 ++ m2 ++ m3 ++ r /\ zlen m1 = a /\ zlen m2 = b /\ zlen m3 = c.
Proof.
  intros Ha Hb Hc Hl. exists (take (Z.to_nat a) mem), (take (Z.to_nat b) (drop (Z.to_nat a) mem)),
    (take (Z.to_nat c) (drop (Z.to_nat b) (drop (Z.to_nat a) mem))), (drop (Z.to_nat c) (drop (Z.to_nat b) (drop (Z.to_nat a) mem))).
  split; [by rewrite !take_drop|]. unfold zlen in *. rewrite !length_take, !length_drop. lia.
Qed.

Lemma sn_bits_pow srb : 2 ^ sn_bits srb = if srb then 32 else 4096.
Proof. by destruct srb. Qed.

(** The hyper frame numbers of both sides. *)
Lemma count_tx_of srb x C : bearer_sn srb x -> tx_count x = C + 1 -> 0 <= C ->
  pdcp_get_next_count_tx x srb (C mod 2 ^ sn_bits srb) = count_of srb C.
Proof.
  intros [[_ Htx _ _ _ _] Hs _ _] Hc HC. unfold tx_count in Hc. rewrite Hs in *. unfold pdcp_get_next_count_tx, count_of.
  assert (Hh : tx_hfn x = (C + 1) / 2 ^ sn_bits srb) by (apply (Z.div_unique _ _ _ (next_pdcp_tx_sn x)); lia).
  rewrite Hh, Hs. pose proof (Z.mod_pos_bound C (2 ^ sn_bits srb)) as Hm. rewrite sn_bits_pow in *.
  destruct srb; cbn [sn_bits PDCP_SN_5BIT PDCP_SN_12BIT Z.eqb PDCP_Config__rlc_UM__pdcp_SN_Size_len7bits] in *; f_equal.
  - change 31 with (2 ^ 5 - 1). rewrite land_mask by lia. apply Z.mod_small. lia.
  - change 4095 with (2 ^ 12 - 1). rewrite land_mask by lia. apply Z.mod_small. lia.
Qed.

Lemma count_rx_of srb x C : bearer_sn srb x -> rx_count x = C + 1 -> 0 <= C ->
  pdcp_get_next_count_rx x srb (C mod 2 ^ sn_bits srb) = (count_of srb C, x).
Proof.
  intros [[_ _ Hrx _ Hhr _] Hs _ Ho] Hc HC. unfold rx_count in Hc. rewrite Hs in *. unfold pdcp_get_next_count_rx, count_of.
  assert (Hh : rx_hfn x = (C + 1) / 2 ^ sn_bits srb) by (apply (Z.div_unique _ _ _ (next_pdcp_rx_sn x)); lia).
  assert (Hx : set_rx x (next_pdcp_rx_sn x) (next_pdcp_rx_sn_before_integrity x) (rx_hfn x) 0 = x) by (destruct x; cbn in Ho; by subst).
  rewrite Hx, Ho, Z.add_0_r, (u32_small (rx_hfn x)), Hh, Hs by done. pose proof (Z.mod_pos_bound C (2 ^ sn_bits srb)) as Hm. rewrite sn_bits_pow in *.
  f_equal.
  destruct srb; cbn [sn_bits PDCP_SN_5BIT PDCP_SN_12BIT Z.eqb PDCP_Config__rlc_UM__pdcp_SN_Size_len7bits] in *; f_equal.
  - change 31 with (2 ^ 5 - 1). rewrite land_mask by lia. apply Z.mod_small. lia.
  - change 4095 with (2 ^ 12 - 1). rewrite land_mask by lia. apply Z.mod_small. lia.
Qed.

Section Pdu.
Context `{HCr : CryptoOk}.

(** One more PDU of a bearer. *)
Lemma next_pdcp_sn srb x C : bearer_sn srb x -> tx_count x = C -> C + 1 < 2 ^ 32 * 2 ^ sn_bits srb ->
  exists x', pdcp_get_next_tx_seq_number (Some x) = (C mod 2 ^ sn_bits srb, Some x') /\ bearer_sn srb x' /\ tx_count x' = C + 1 /\
    rx_count x' = rx_count x /\ 0 <= C.
Proof.
  intros [Hok Hs Hm Ho] HC Hmax. destruct (tx_step x Hok) as (x' & E & Hok' & Hs' & Hc & Hm' & Ho' & Hr). rewrite Hs in *.
  assert (Hx : next_pdcp_tx_sn x = C mod 2 ^ sn_bits srb /\ 0 <= C).
  { destruct Hok as [_ Htx _ Hth _ _]. unfold tx_count in HC. rewrite Hs in *. pose proof (sn_bits_pow srb). split; [|destruct srb; lia].
    apply (Z.mod_unique _ _ (tx_hfn x)); lia. }
  destruct Hx as [Hx H0]. exists x'. rewrite <- Hx. split_and!; try done; [|rewrite Hc, HC; apply Z.mod_small; lia].
  constructor; try done; [by rewrite Hm'|by rewrite Ho'].
Qed.

Lemma put_header_ok srb mode size (m1 m2 m3 r : list Z) e C :
  bearer_sn srb (pe_sn e) -> tx_count (pe_sn e) = C -> C + 1 < 2 ^ 32 * 2 ^ sn_bits srb ->
  zlen m1 = header_len srb -> zlen m2 = size -> zlen m3 = tailer_len srb ->
  exists x' h, put_header srb mode size (m1 ++ m2 ++ m3 ++ r) e =
      Ret (C mod 2 ^ sn_bits srb, set_sn e x', Some (h ++ m2 ++ replicate (Z.to_nat (tailer_len srb)) 0 ++ r)) /\
    zlen h = header_len srb /\ octets h /\ (forall r, read_sn srb (h ++ r) = Ret (C mod 2 ^ sn_bits srb)) /\
    bearer_sn srb x' /\ tx_count x' = C + 1.
Proof.
  intros Hb HC Hmax H1 H2 H3. destruct (next_pdcp_sn srb _ C Hb HC Hmax) as (x' & E & Hb' & Hc' & _ & H0). unfold put_header. rewrite E.
  assert (Hm : 0 <= C mod 2 ^ sn_bits srb < if srb then 32 else 4096) by (rewrite <- (sn_bits_pow srb); apply Z.mod_pos_bound; destruct srb; lia). exists x'.
  destruct srb; cbn [header_len tailer_len sn_bits] in *.
  - destruct m1 as [|o0 [|]]; try (unfold zlen in H1; cbn in H1; unfold PDCP_CONTROL_PLANE_DATA_PDU_SN_SIZE in H1; lia).
    exists [C mod 2 ^ PDCP_SN_5BIT]. rewrite (u8_small (C mod _)) by lia.
    rewrite (app_assoc [o0]), bput_mid; [|rewrite zlen_app; lia|by rewrite H3]. cbn [mbind cres_bind].
    destruct (srb_header_eq (C mod 2 ^ PDCP_SN_5BIT) o0 (m2 ++ replicate 4 0 ++ r) Hm) as [Es Hr].
    rewrite <- app_assoc. cbn [app]. rewrite Es. cbn [mbind cres_bind]. split_and!; try done. constructor; [lia|constructor].
  - destruct m1 as [|o0 [|o1 [|]]]; try (unfold zlen in H1; cbn in H1; unfold PDCP_USER_PLANE_DATA_PDU_LONG_SN_HEADER_SIZE in H1; lia).
    assert (m3 = []) as -> by (destruct m3; [done|unfold zlen in H3; cbn in H3; lia]).
    destruct (long_header_eq (if mode =? PDCP_TRANSMISSION_MODE_DATA then 1 else 0) (C mod 2 ^ PDCP_SN_12BIT) o0 o1 (m2 ++ [] ++ r)) as (o & lo & Es & Ho & Hlo & _ & Hr);
      [lia|case_if; lia|]. exists [o; lo]. cbn [app] in Es |- *. rewrite Es. cbn [mbind cres_bind]. split_and!; try done.
    repeat constructor; lia.
Qed.

Lemma params_ready kh srb e k C rb down len : secured kh srb e k -> 0 <= len < 2 ^ 28 ->
  cipher_ready (cipheringAlgorithm e) k (params srb k C rb down len) len.
Proof. intros [Ha _ Hl _] Hlen. by constructor. Qed.

Lemma bits_of len : 0 <= len < 2 ^ 28 -> u32 (Z.shiftl len 3) = 8 * len.
Proof. intros Hl. rewrite Z.shiftl_mul_pow2, u32_small by lia. lia. Qed.

Lemma header_range srb : 1 <= header_len srb <= 2 /\ (srb = true -> header_len srb = 1).
Proof. destruct srb; cbn; unfold PDCP_CONTROL_PLANE_DATA_PDU_SN_SIZE, PDCP_USER_PLANE_DATA_PDU_LONG_SN_HEADER_SIZE; lia. Qed.

Lemma tailer_range srb : 0 <= tailer_len srb <= 4 /\ (srb = true -> tailer_len srb = 4).
Proof. destruct srb; cbn; unfold PDCP_CONTROL_PLANE_DATA_PDU_MAC_I_SIZE; lia. Qed.

(** The MAC-I of a signalling PDU. *)
Lemma mac_i_ok kh srb e k p (mem : list Z) len : secured kh srb e k -> srb = true -> key p = key_from kh (kRRCint e) 16 -> key_length p = 16 ->
  message p = 0 -> blength p = 8 * len -> 0 < len < 2 ^ 28 -> len + 3 <= zlen mem ->
  exists m, stream_compute_integrity (integrityProtAlgorithm e) p mem = Ret m /\ (forall x, m = Some x -> zlen x = 4 /\ octets x) /\
    (integrityProtAlgorithm e <> EIA0_ALG_ID -> m <> None).
Proof.
  intros [_ _ _ Hi] Hsrb Hk Hkl Hm Hb Hl Hroom. destruct (Hi Hsrb) as (Ha & ki & Eki & Hki). rewrite Eki in Hk.
  apply (integrity_ok _ p ki mem len); try done; [lia|]. rewrite Hm. Z.div_mod_to_equations. lia.
Qed.

(** Ciphering the octets [b] behind the header [h]. *)
Lemma encrypt_ok alg k p len (h b r : list Z) : cipher_ready alg k p len -> message p = zlen h -> zlen b = len -> octets (b ++ r) ->
  zlen h + span alg len <= zlen (h ++ b ++ r) ->
  exists (d b' r' : list Z), stream_encrypt alg p (zlen h) (h ++ b ++ r) = Ret (0, h ++ b' ++ r') /\ zlen b' = zlen b /\ zlen r' = zlen r /\ octets (b' ++ r') /\
    zlen d = span alg len /\ octets d /\ take (length b) d = b /\ b' = take (length b) (cipher alg k p d).
Proof.
  intros Hr Hm Hb Ho Hl. pose proof (cr_len _ _ _ _ Hr) as Hlen. pose proof (span_range alg len ltac:(lia)) as Hs. rewrite !zlen_app in Hl.
  pose proof (stream_encrypt_eq alg k p len (h ++ b ++ r) Hr) as E. rewrite Hm in E. rewrite E by (rewrite ?zlen_app; pose proof (zlen_nonneg h); lia).
  rewrite Z2Nat.inj_add, <- drop_drop by (pose proof (zlen_nonneg h); lia). replace (Z.to_nat (zlen h)) with (length h) by (unfold zlen; lia).
  rewrite take_app_length, !drop_app_length.
  set (d := take (Z.to_nat (span alg len)) (b ++ r)). set (rest := drop (Z.to_nat (span alg len)) (b ++ r)).
  assert (Hd : zlen d = span alg len) by (unfold d, zlen in *; rewrite length_take, length_app; lia).
  pose proof (cipher_length _ _ _ _ _ Hr Hd) as Hc.
  exists d, (take (length b) (cipher alg k p d)), (drop (length b) (cipher alg k p d) ++ rest).
  assert (Hod : octets d) by by apply Forall_take. assert (Hor : octets rest) by by apply Forall_drop.
  pose proof (cipher_octets alg k p d Hod) as Hoc. assert (Hbr : zlen d + zlen rest = zlen b + zlen r).
  { unfold d, rest. rewrite <- !zlen_app. by rewrite take_drop. }
  split_and!; [by rewrite (app_assoc (take _ _)), take_drop| | | |done|done| |done].
  - unfold zlen in *. rewrite length_take. lia.
  - unfold zlen in *. rewrite length_app, length_drop. lia.
  - rewrite (app_assoc (take _ _)), take_drop. by apply Forall_app.
  - unfold d. rewrite take_take, Nat.min_l by (unfold zlen in *; lia). by rewrite take_app_length.
Qed.

(** Deciphering them in another block. *)
Lemma decrypt_ok alg k p len (h b r d : list Z) : cipher_ready alg k p len -> message p = zlen h -> zlen b = len ->
  zlen h + span alg len <= zlen (h ++ b ++ r) -> zlen d = span alg len -> octets d -> b = take (length b) (cipher alg k p d) ->
  exists r', stream_encrypt alg p (zlen h) (h ++ b ++ r) = Ret (0, h ++ take (length b) d ++ r') /\ zlen r' = zlen r.
Proof.
  intros Hr Hm Hb Hl Hd Hod Eb. pose proof (cr_len _ _ _ _ Hr) as Hlen. pose proof (span_range alg len ltac:(lia)) as Hs. rewrite !zlen_app in Hl.
  pose proof (stream_encrypt_eq alg k p len (h ++ b ++ r) Hr) as E. rewrite Hm in E. rewrite E by (rewrite ?zlen_app; pose proof (zlen_nonneg h); lia).
  rewrite Z2Nat.inj_add, <- drop_drop by (pose proof (zlen_nonneg h); lia). replace (Z.to_nat (zlen h)) with (length h) by (unfold zlen; lia).
  rewrite take_app_length, !drop_app_length.
  set (d2 := take (Z.to_nat (span alg len)) (b ++ r)). set (rest := drop (Z.to_nat (span alg len)) (b ++ r)).
  assert (Hd2 : zlen d2 = span alg len) by (unfold d2, zlen in *; rewrite length_take, length_app; lia).
  pose proof (cipher_length _ _ _ _ _ Hr Hd2) as Hc. assert (Hbr : zlen d2 + zlen rest = zlen b + zlen r).
  { unfold d2, rest. rewrite <- !zlen_app. by rewrite take_drop. }
  assert (E2 : take (length b) (cipher alg k p d2) = take (length b) d).
  { apply (cipher_back alg k p len d d2); try done; [unfold zlen in *; lia|]. rewrite <- Eb. unfold d2.
    rewrite take_take, Nat.min_l by (unfold zlen in *; lia). by rewrite take_app_length. }
  exists (drop (length b) (cipher alg k p d2) ++ rest). rewrite <- E2, (app_assoc (take _ _)), take_drop. split; [done|].
  unfold zlen in *. rewrite length_app, length_drop. lia.
Qed.

(** The security of the PDU number [C], in the block with the header [h], the SDU, the room of the MAC-I and a rest. *)
Lemma apply_ok kh srb e k rb C (h sdu z r : list Z) : secured kh srb e k -> bearer_sn srb (pe_sn e) -> tx_count (pe_sn e) = C + 1 -> 0 <= C ->
  0 < rb < 11 -> 0 < zlen sdu < 2 ^ 16 -> octets (sdu ++ z ++ r) -> zlen h = header_len srb -> zlen z = tailer_len srb ->
  header_len srb + span (cipheringAlgorithm e) (zlen sdu) <= zlen (h ++ sdu ++ z ++ r) ->
  exists (d b' r' : list Z), pdcp_apply_security kh e srb (c_rem rb (Z.of_nat maxDRB)) (header_len srb) (C mod 2 ^ sn_bits srb) (h ++ sdu ++ z ++ r) (zlen sdu) =
      Ret (h ++ b' ++ r') /\ zlen b' = zlen sdu /\ zlen r' = zlen (z ++ r) /\ octets (b' ++ r') /\
    zlen d = span (cipheringAlgorithm e) (zlen sdu) /\ octets d /\ take (length sdu) d = sdu /\
    b' = take (length sdu) (cipher (cipheringAlgorithm e) k (params srb k C rb (negb (is_ue e)) (zlen sdu)) d).
Proof.
  intros Hsec Hb Hc HC Hrb Hsz Ho Hh Hz Hroom. destruct (header_range srb) as [Hh1 Hh2]. destruct (tailer_range srb) as [Ht1 Ht2].
  unfold pdcp_apply_security. change (Z.of_nat maxDRB) with 11. unfold c_rem. rewrite Z.rem_small by lia.
  change (Z.of_nat NB_RB_MAX) with 14. rewrite (proj2 (Z.ltb_lt rb 14)), (proj2 (Z.leb_le 0 rb)) by lia. cbn [andb c_assert mbind cres_bind].
  rewrite (count_tx_of srb _ C Hb Hc HC). rewrite !bits_of by lia.
  set (dir := if is_ue e then _ else _). assert (Hdir : dir = b2z (negb (is_ue e))) by by destruct (is_ue e).
  assert (exists t, (if srb then _ else _) = Ret (h ++ sdu ++ t ++ r) /\ zlen t = zlen z /\ octets (sdu ++ t ++ r)) as (t & -> & Htz & Hot).
  { destruct srb; [|by exists z]. match goal with |- context [stream_compute_integrity _ ?p ?mem] =>
      destruct (mac_i_ok kh true e k p mem (header_len true + zlen sdu)) as (m & -> & Hm & _); [exact Hsec|reflexivity..|lia| |] end.
    - rewrite !zlen_app, Hh, Hz. specialize (Ht2 eq_refl). pose proof (zlen_nonneg r). lia.
    - cbn [mbind cres_bind]. destruct m as [m|]; [|by exists z]. destruct (Hm m eq_refl) as [Hm4 Hmo]. exists m. split_and!.
      + rewrite (app_assoc h), bput_mid; [by rewrite <- app_assoc|rewrite zlen_app; lia|]. rewrite Hm4, Hz. symmetry. by apply Ht2.
      + rewrite Hm4, Hz. symmetry. by apply Ht2.
      + apply Forall_app in Ho as [? Ho]. apply Forall_app in Ho as [? ?]. repeat (apply Forall_app; split); done. }
  cbn [mbind cres_bind]. set (p := StreamCipher _ _ _ _ _ _ _).
  assert (Hp : p = params srb k C rb (negb (is_ue e)) (zlen sdu)).
  { unfold p, params. rewrite Hdir. f_equal. destruct srb; apply (sc_key _ _ _ _ Hsec). }
  rewrite Hp. destruct (encrypt_ok (cipheringAlgorithm e) k (params srb k C rb (negb (is_ue e)) (zlen sdu)) (zlen sdu) h sdu (t ++ r))
    as (d & b' & r' & E & E1 & E2 & E3 & E4 & E5 & E6 & E7); [by apply (params_ready kh); [|lia]|by rewrite Hh|done|done| |].
  { rewrite Hh. rewrite !zlen_app in *. lia. }
  exists d, b', r'. rewrite <- Hh. rewrite E. cbn [mbind cres_bind]. split_and!; try done. by rewrite E2, !zlen_app, Htz.
Qed.

(** The steps of [make_pdu] before the security. *)
Lemma make_pdu_steps kh srb rb mode sdu m1 m2 m3 r e C : bearer_sn srb (pe_sn e) -> tx_count (pe_sn e) = C -> C + 1 < 2 ^ 32 * 2 ^ sn_bits srb ->
  zlen m1 = header_len srb -> zlen m2 = zlen sdu -> zlen m3 = tailer_len srb ->
  exists x' h, zlen h = header_len srb /\ octets h /\ (forall r, read_sn srb (h ++ r) = Ret (C mod 2 ^ sn_bits srb)) /\
    bearer_sn srb x' /\ tx_count x' = C + 1 /\ 0 <= C /\
    let mem := h ++ sdu ++ replicate (Z.to_nat (tailer_len srb)) 0 ++ r in
    make_pdu kh srb rb mode (zlen sdu) sdu (m1 ++ m2 ++ m3 ++ r) e =
      if negb (security_activated e =? 0) && (negb (cipheringAlgorithm e =? 0) || negb (integrityProtAlgorithm e =? 0)) then
        mem ← pdcp_apply_security kh (set_sn e x') srb (c_rem rb (Z.of_nat maxDRB)) (header_len srb) (C mod 2 ^ sn_bits srb) mem (zlen sdu);
        Ret (set_sn e x', Some mem)
      else Ret (set_sn e x', Some mem).
Proof.
  intros Hb HC Hmax H1 H2 H3. destruct (header_range srb) as [Hh1 Hh2]. destruct (tailer_range srb) as [Ht1 Ht2].
  destruct (put_header_ok srb mode (zlen sdu) m1 m2 m3 r e C Hb HC Hmax H1 H2 H3) as (x' & h & Eh & Hh & Hoh & Hrd & Hb' & Hc').
  assert (HC0 : 0 <= C) by (destruct (next_pdcp_sn srb _ C Hb HC Hmax) as (? & _ & _ & _ & _ & ?); done).
  assert (Hm : 0 <= C mod 2 ^ sn_bits srb < if srb then 32 else 4096) by (rewrite <- (sn_bits_pow srb); apply Z.mod_pos_bound; destruct srb; lia).
  exists x', h. split_and!; try done.
  unfold make_pdu. rewrite Eh. cbn [mbind cres_bind set_sn pe_sn]. rewrite (bs_size _ _ Hb'), max_seq_num by (destruct srb; [by left|by do 2 right]).
  rewrite (proj2 (Z.ltb_ge _ (C mod 2 ^ sn_bits srb))) by (rewrite sn_bits_pow in *; destruct srb; lia).
  unfold memcpy. rewrite bget_whole. cbn [mbind cres_bind].
  rewrite bput_mid by (rewrite ?Hh; lia). cbn [mbind cres_bind].
  assert (Hz : zlen (replicate (Z.to_nat (tailer_len srb)) 0) = tailer_len srb) by (unfold zlen; rewrite length_replicate; lia).
  rewrite (app_assoc h), bput_mid by (rewrite ?zlen_app; lia). cbn [mbind cres_bind]. by rewrite <- app_assoc.
Qed.

(** The PDU of an SDU.  The block has room for it; ciphering by words may need a little more. *)
Lemma make_pdu_ok kh sec srb rb mode sdu mem e k C :
  security sec kh srb e k -> bearer_sn srb (pe_sn e) -> tx_count (pe_sn e) = C -> C + 1 < 2 ^ 32 * 2 ^ sn_bits srb ->
  0 < rb < 11 -> 0 < zlen sdu <= MAX_IP_PACKET_SIZE -> octets sdu -> octets mem -> pdu_size srb (zlen sdu) <= zlen mem ->
  (sec = true -> header_len srb + span (cipheringAlgorithm e) (zlen sdu) <= zlen mem) ->
  exists x' mem', make_pdu kh srb rb mode (zlen sdu) sdu mem e = Ret (set_sn e x', Some mem') /\ bearer_sn srb x' /\ tx_count x' = C + 1 /\
    zlen mem' = zlen mem /\
    carries sec srb (cipheringAlgorithm e) k C rb (negb (is_ue e)) sdu (take (Z.to_nat (pdu_size srb (zlen sdu))) mem').
Proof.
  intros [Hact Hsec] Hb HC Hmax Hrb Hsz Hos Hom Hroom Hspan. unfold pdu_size, MAX_IP_PACKET_SIZE in *.
  destruct (header_range srb) as [Hh1 Hh2]. destruct (tailer_range srb) as [Ht1 Ht2].
  destruct (block_pieces mem (header_len srb) (zlen sdu) (tailer_len srb)) as (m1 & m2 & m3 & r & -> & H1 & H2 & H3); [lia..|].
  destruct (make_pdu_steps kh srb rb mode sdu m1 m2 m3 r e C Hb HC Hmax H1 H2 H3) as (x' & h & Hh & Hoh & Hrd & Hb' & Hc' & HC0 & ->).
  set (z := replicate (Z.to_nat (tailer_len srb)) 0) in *. assert (Hz : zlen z = tailer_len srb) by (unfold z, zlen; rewrite length_replicate; lia).
  assert (Hor : octets r) by (repeat (apply Forall_app in Hom as [_ Hom]); done).
  assert (Hoz : octets z) by (apply Forall_replicate; lia). rewrite !zlen_app in Hroom, Hspan.
  rewrite Hact. set (N := Z.to_nat (zlen sdu + header_len srb + tailer_len srb)).
  assert (Hcut : forall b r' : list Z, zlen b = zlen sdu -> zlen r' = zlen (z ++ r) -> octets (b ++ r') ->
    zlen (take N (h ++ b ++ r')) = zlen sdu + header_len srb + tailer_len srb /\ octets (take N (h ++ b ++ r')) /\
    (forall r0, read_sn srb (take N (h ++ b ++ r') ++ r0) = Ret (C mod 2 ^ sn_bits srb)) /\
    take (length sdu) (drop (Z.to_nat (header_len srb)) (take N (h ++ b ++ r'))) = b).
  { intros b r' Hb1 Hr1 Ho1. assert (HN : N = (length h + (length b + (N - length h - length b)))%nat) by (unfold N, zlen in *; lia).
    rewrite zlen_app in Hr1. rewrite HN, !firstn_app_2. split_and!.
    - unfold zlen in *. rewrite !length_app, length_take. lia.
    - apply Forall_app in Ho1 as [? ?]. repeat (apply Forall_app; split); try done. by apply Forall_take.
    - intros r0. rewrite <- app_assoc. apply Hrd.
    - replace (Z.to_nat (header_len srb)) with (length h) by (unfold zlen in *; lia). rewrite drop_app_length.
      replace (length sdu) with (length b) by (unfold zlen in *; lia). apply take_app_length. }
  assert (Hplain : octets (sdu ++ z ++ r)) by (repeat (apply Forall_app; split); done).
  destruct sec; cbn [b2z Z.eqb negb andb].
  2:{ eexists _, _. split; [reflexivity|]. split_and!; try done; [rewrite !zlen_app; lia|].
      destruct (Hcut sdu (z ++ r)) as (A & B & D & F); [done|done|exact Hplain|]. by constructor. }
  specialize (Hspan eq_refl). specialize (Hsec eq_refl). destruct (negb (_ =? 0) || _) eqn:Esec.
  - destruct (apply_ok kh srb (set_sn e x') k rb C h sdu z r) as (d & b' & r' & E & E1 & E2 & E3 & E4 & E5 & E6 & E7);
      [by destruct Hsec|done..|lia|exact Hplain|done|done|change (cipheringAlgorithm (set_sn e x')) with (cipheringAlgorithm e); rewrite !zlen_app; lia|].
    rewrite E. cbn [mbind cres_bind]. eexists _, _. split; [reflexivity|].
    split_and!; try done; [rewrite !zlen_app in *; lia|]. destruct (Hcut b' r' E1 E2 E3) as (A & B & D & F). constructor; try done. exists d. split_and!; try done. by rewrite F.
  - apply orb_false_iff in Esec as [Ea _]. bool_to_prop. rewrite Ea in *.
    eexists _, _. split; [reflexivity|]. split_and!; try done; [rewrite !zlen_app; lia|].
    destruct (Hcut sdu (z ++ r)) as (A & B & D & F); [done|done|exact Hplain|]. constructor; try done.
    exists sdu. split_and!; try done; [by rewrite firstn_all|]. by rewrite F, firstn_all.
Qed.

Lemma security_set_sn sec kh srb e k x : security sec kh srb e k -> security sec kh srb (set_sn e x) k.
Proof. intros [Ha Hs]. split; [done|]. intros Ht. by destruct (Hs Ht). Qed.

Lemma set_sn_same e : set_sn e (pe_sn e) = e.
Proof. by destruct e. Qed.

(** The SDU behind the header of a received PDU; the block may be longer than the PDU. *)
Lemma decipher_ok kh sec srb rb e k C sdu pdu r :
  security sec kh srb e k -> bearer_sn srb (pe_sn e) -> rx_count (pe_sn e) = C + 1 -> 0 <= C -> 0 < rb < 11 ->
  0 < zlen sdu <= MAX_IP_PACKET_SIZE -> carries sec srb (cipheringAlgorithm e) k C rb (is_ue e) sdu pdu ->
  (sec = true -> header_len srb + span (cipheringAlgorithm e) (zlen sdu) <= zlen (pdu ++ r)) ->
  exists mem', decipher kh srb rb (header_len srb) (C mod 2 ^ sn_bits srb) (pdu ++ r) (zlen pdu - tailer_len srb) e = Ret (e, mem') /\
    bget mem' (header_len srb) (zlen sdu) = Ret sdu.
Proof.
  intros [Hact Hsec] Hb Hc HC Hrb Hsz [Hl _ _ Hbody] Hroom. unfold pdu_size, MAX_IP_PACKET_SIZE in *.
  destruct (header_range srb) as [Hh1 Hh2]. destruct (tailer_range srb) as [Ht1 Ht2].
  destruct (block_pieces pdu (header_len srb) (zlen sdu) (tailer_len srb)) as (h & b & t & q & -> & H1 & H2 & H3); [lia..|].
  assert (q = []) as -> by (rewrite !zlen_app in Hl; destruct q; [done|unfold zlen at 4 in Hl; cbn [length] in Hl; lia]).
  rewrite app_nil_r in *. assert (Eb : take (length sdu) (drop (Z.to_nat (header_len srb)) (h ++ b ++ t)) = b).
  { replace (Z.to_nat (header_len srb)) with (length h) by (unfold zlen in *; lia). rewrite drop_app_length.
    replace (length sdu) with (length b) by (unfold zlen in *; lia). apply take_app_length. }
  rewrite Eb in Hbody. assert (Hget : forall r', bget (h ++ sdu ++ r') (header_len srb) (zlen sdu) = Ret sdu).
  { intros r'. rewrite bget_ok by (rewrite ?zlen_app; pose proof (zlen_nonneg r'); lia). f_equal. unfold zlen in *.
    replace (Z.to_nat (header_len srb)) with (length h) by lia. rewrite Nat2Z.id, drop_app_length. apply take_app_length. }
  rewrite <- !app_assoc in *. unfold decipher. rewrite Hact. destruct sec; cbn [b2z Z.eqb].
  2:{ eexists. split; [reflexivity|]. rewrite Hbody. apply Hget. }
  change (1 =? 1) with true. cbn match. specialize (Hsec eq_refl). specialize (Hroom eq_refl). unfold pdcp_validate_security.
  change (Z.of_nat NB_RB_MAX) with 14. rewrite (proj2 (Z.ltb_lt rb 14)), (proj2 (Z.leb_le 0 rb)) by lia. cbn [andb c_assert mbind cres_bind].
  rewrite (count_rx_of srb _ C Hb Hc HC). rewrite set_sn_same. set (dir := if is_ue e then _ else _). assert (Hdir : dir = b2z (is_ue e)) by by destruct (is_ue e).
  rewrite Hl, !bits_of by lia. replace (zlen sdu + header_len srb + tailer_len srb - tailer_len srb - header_len srb) with (zlen sdu) by lia.
  set (p := StreamCipher _ _ _ _ _ _ (8 * zlen sdu)). assert (Hp : p = params srb k C rb (is_ue e) (zlen sdu)).
  { unfold p, params. rewrite Hdir. f_equal. destruct srb; apply (sc_key _ _ _ _ Hsec). }
  destruct Hbody as (d & Hd & Hod & Ed & Ebd). assert (Hlen : length sdu = length b) by (unfold zlen in *; lia).
  destruct (decrypt_ok (cipheringAlgorithm e) k p (zlen sdu) h b (t ++ r) d) as (r' & E & Hr');
    [by rewrite Hp; apply (params_ready kh); [|lia]|by rewrite Hp|lia|by rewrite H1|done|done|by rewrite Hp, <- Hlen|].
  rewrite H1 in E. rewrite E. cbn [mbind cres_bind]. rewrite <- Hlen, Ed. destruct srb; [|eexists; split; [reflexivity|apply Hget]].
  assert (Hchk : exists v, stream_check_integrity (integrityProtAlgorithm e) (StreamCipher (key_from kh (kRRCint e) 16) 16 (count_of true C)
      (u8 (rb - 1)) dir 0 (8 * (zlen sdu + header_len true + tailer_len true - tailer_len true))) (zlen sdu + header_len true + tailer_len true - tailer_len true)
      (h ++ sdu ++ r') = Ret v).
  { unfold stream_check_integrity. specialize (Ht2 eq_refl). rewrite zlen_app in Hr'. destruct (negb _) eqn:En; [|by eexists].
    match goal with |- context [stream_compute_integrity _ ?p ?mem] =>
      destruct (mac_i_ok kh true e k p mem (zlen sdu + header_len true + tailer_len true - tailer_len true)) as (m & -> & Hm & Hn);
        [exact Hsec|reflexivity..|lia| |] end.
    { rewrite !zlen_app. pose proof (zlen_nonneg r). lia. }
    cbn [mbind cres_bind]. destruct m; [|by eexists]. rewrite bget_ok; [by eexists|lia|lia|]. rewrite !zlen_app. pose proof (zlen_nonneg r). lia. }
  destruct Hchk as (v & ->). cbn [mbind cres_bind]. eexists. split; [reflexivity|apply Hget].
Qed.

(** ** The layers *)

(** The entity of a bearer. *)
Definition has_pdcp {R} (s : pdcp_globals R) (c : protocol_ctxt_t) (srb : bool) (rb p : Z) (e : pdcp_entity) : Prop :=
  hashtable_get (pdcp_coll_p s) (PDCP_COLL_KEY_VALUE c rb srb) = Ret (HASH_TABLE_OK, p) /\ pdcp_heap s !! p = Some e /\ p <> 0.

(** What the upper layer gets. *)
Definition handed (c : protocol_ctxt_t) (srb : bool) (rb : Z) (sdu : list Z) : pdcp_upper :=
  if srb then RRC_DATA_IND c rb sdu
  else if enb_flag c =? 1 then GTPV1U_ENB_TUNNEL_DATA_REQ (rnti c) (rb + 4) sdu else PDCP_SDU rb (zlen sdu) sdu.
End Pdu.

(** What the pools and the build give: a block for every PDU, and no traffic generator. *)
Class PdcpEnvOk `{PdcpEnv} := {
  pdcp_block_ok n : 0 < n < 2 ^ 16 -> exists b, pdcp_block n = Some b /\ n <= zlen b /\ octets b;
  otg_off : otg_enabled <> 1;
}.

Section Layers.
Context {R : Type} `{HR : RlcRequests R} `{HCr : CryptoOk} `{HEn : PdcpEnvOk}.

(** EEA1 works on whole words: on a data bearer, blocks with three more octets. *)
Definition word_room (sec srb : bool) (alg : Z) (room : Z -> Z -> Prop) : Prop :=
  sec = true -> srb = false -> alg = EEA1_128_ALG_ID -> forall n z, room n z -> n + 3 <= z.

Definition block_room (n z : Z) : Prop := exists b, pdcp_block n = Some b /\ z = zlen b.

Lemma span_room (sec srb : bool) alg (room : Z -> Z -> Prop) size z : word_room sec srb alg room -> 0 <= size ->
  room (pdu_size srb size) z -> pdu_size srb size <= z -> sec = true -> header_len srb + span alg size <= z.
Proof.
  intros Hw Hs Hr Hz Hsec. unfold pdu_size in *. destruct (tailer_range srb) as [_ Ht]. pose proof (span_range alg size Hs) as Hsp.
  destruct srb; [specialize (Ht eq_refl); lia|]. cbn [tailer_len] in *. unfold span in *. case_if; [|lia]. bool_to_prop.
  specialize (Hw Hsec eq_refl E _ _ Hr). lia.
Qed.

Lemma data_req_ok c sec srb rb p e k C mui confirm mode sdu (s : pdcp_globals R) :
  has_pdcp s c srb rb p e -> security sec (key_heap s) srb e k -> bearer_sn srb (pe_sn e) -> tx_count (pe_sn e) = C ->
  C + 1 < 2 ^ 32 * 2 ^ sn_bits srb -> 0 < rb < (if srb then 3 else 11) -> 0 < zlen sdu <= MAX_IP_PACKET_SIZE -> octets sdu ->
  mode <> PDCP_TRANSMISSION_MODE_TRANSPARENT -> word_room sec srb (cipheringAlgorithm e) block_room ->
  exists x' mem, pdcp_data_req c srb rb mui confirm (zlen sdu) sdu mode s =
      ('(r, st) ← pdcp_rlc_req c srb false rb mui confirm (pdu_size srb (zlen sdu)) mem (pdcp_rlc s);
       Ret (set_pdcp_rlc (set_entity s p (set_sn e x')) r, Some true, st =? RLC_OP_STATUS_OK)) /\
    bearer_sn srb x' /\ tx_count x' = C + 1 /\ pdu_size srb (zlen sdu) <= zlen mem /\
    carries sec srb (cipheringAlgorithm e) k C rb (negb (is_ue e)) sdu (take (Z.to_nat (pdu_size srb (zlen sdu))) mem).
Proof.
  intros (Hget & He & _) Hsec Hb HC Hmax Hrb Hsz Ho Hmode Hw. unfold MAX_IP_PACKET_SIZE in *.
  destruct (header_range srb) as [Hh1 _]. destruct (tailer_range srb) as [Ht1 _].
  unfold pdcp_data_req. rewrite (proj2 (Z.eqb_neq (zlen sdu) 0)) by lia. unfold MAX_IP_PACKET_SIZE. rewrite (proj2 (Z.ltb_ge 1500 (zlen sdu))) by lia.
  rewrite (proj2 (Z.eqb_neq mode _)) by done. cbv zeta. change (Z.of_nat maxDRB) with 11. rewrite (proj2 (Z.ltb_lt rb _)) by apply Hrb. cbn [negb].
  rewrite Hget. cbn [mbind cres_bind negb andb]. rewrite u16_small by lia.
  fold (pdu_size srb (zlen sdu)). destruct (pdcp_block_ok (pdu_size srb (zlen sdu))) as (b & Eb & Hlb & Hob); [unfold pdu_size; lia|].
  rewrite Eb, He. destruct (make_pdu_ok (key_heap s) sec srb rb mode sdu b e k C) as (x' & mem & E & Hb' & Hc' & Hlm & Hca);
    [done..|destruct srb; lia|done|done|done|done| |].
  { intros Hs. apply (span_room sec srb _ block_room); try done; [lia|by exists b]. }
  rewrite E. cbn [mbind cres_bind]. exists x', mem. split_and!; try done. by rewrite Hlm.
Qed.

(** Handing the SDU of a data bearer to the upper layer. *)
Lemma deliver_drb_ok c rb sn hdr size mem p e d (s : pdcp_globals R) : enb_flag c = 0 \/ enb_flag c = 1 -> p <> 0 -> pdcp_heap s !! p = Some e ->
  rlc_mode (pe_sn e) = MODE_UM -> bget mem hdr (size - hdr) = Ret d -> zlen d = size - hdr -> zlen d < 2 ^ 15 ->
  deliver_drb c false rb sn hdr size mem p s = Ret (hand_up s (handed c false rb d)).
Proof.
  intros Hflag Hp He Hm Eg Hl Hs. unfold deliver_drb, handed. cbn [negb]. rewrite andb_true_r, Eg. pose proof (zlen_nonneg d) as Hd.
  destruct (enb_flag c =? 1) eqn:Ef; [done|]. assert (enb_flag c = 0) as -> by (bool_to_prop; lia). cbn [Z.eqb].
  unfold PDCP_DATA_IND_HEADER_SIZE. destruct (pdcp_block_ok (size - hdr + 16)) as (b & -> & Hlb & _); [lia|]. rewrite (proj2 (Z.eqb_neq p 0)) by done.
  rewrite He, Hm. cbn [mbind cres_bind]. rewrite bput_ok by lia. cbn [mbind cres_bind]. rewrite Hl.
  unfold hand_up, set_entity, set_heap. cbn. by rewrite insert_id.
Qed.

Lemma data_ind_ok c sec srb rb p e k C sdu pdu r (s : pdcp_globals R) :
  has_pdcp s c srb rb p e -> security sec (key_heap s) srb e k -> bearer_sn srb (pe_sn e) -> enb_flag c = 0 \/ enb_flag c = 1 ->
  0 <= rx_count (pe_sn e) <= C -> C < rx_count (pe_sn e) + 2 ^ sn_bits srb -> C + 1 < 2 ^ 32 * 2 ^ sn_bits srb -> 0 < rb < 11 ->
  0 < zlen sdu <= MAX_IP_PACKET_SIZE -> carries sec srb (cipheringAlgorithm e) k C rb (is_ue e) sdu pdu ->
  word_room sec srb (cipheringAlgorithm e) (fun n z => n = zlen pdu /\ z = zlen (pdu ++ r)) ->
  exists x', pdcp_data_ind c srb false rb (zlen pdu) (pdu ++ r) s = Ret (hand_up (set_entity s p (set_sn e x')) (handed c srb rb sdu), true) /\
    bearer_sn srb x' /\ rx_count x' = C + 1.
Proof.
  intros (Hget & He & Hp) Hsec Hb Hflag HC HC2 Hmax Hrb Hsz Hca Hw. pose proof (ca_length _ _ _ _ _ _ _ _ _ Hca) as Hl. pose proof (ca_sn _ _ _ _ _ _ _ _ _ Hca r) as Hsn.
  unfold pdu_size, MAX_IP_PACKET_SIZE in *. destruct (header_range srb) as [Hh1 _]. destruct (tailer_range srb) as [Ht1 _].
  destruct Hb as [Hok Hs Hm Hoff]. destruct (rx_step srb (pe_sn e) C Hok Hm) as (x' & Ex & Hok' & Hc' & Hs' & Hm' & Ho'); [rewrite Hs; lia|by rewrite Hs|].
  assert (Hb' : bearer_sn srb x'). { constructor; [done|by rewrite Hs'|by rewrite Hm'|]. rewrite Ho'. by destruct srb. }
  destruct (decipher_ok (key_heap s) sec srb rb (set_sn e x') k C sdu pdu r) as (mem & Ed & Eg); [by apply security_set_sn|done|done|lia|lia|done|done| |].
  { intros Hst. apply (span_room sec srb _ (fun n z => n = zlen pdu /\ z = zlen (pdu ++ r))); unfold pdu_size; [done|lia|by rewrite Hl| |done].
    rewrite zlen_app, Hl. pose proof (zlen_nonneg r). lia. }
  exists x'. split; [|done]. unfold pdcp_data_ind. change (Z.of_nat maxDRB) with 11. unfold c_rem. rewrite Z.rem_small by lia. cbv zeta.
  rewrite (proj2 (Z.ltb_lt rb 11)), (proj2 (Z.ltb_lt 0 rb)) by lia. cbn [negb]. rewrite Hget. cbn [mbind cres_bind].
  rewrite (proj2 (Z.eqb_neq (zlen pdu) 0)) by lia. rewrite He.
  assert (Eh : read_header srb (pdu ++ r) e = Ret (header_len srb, tailer_len srb, C mod 2 ^ sn_bits srb)).
  { unfold read_header. rewrite Hs. destruct srb; cbn [sn_bits PDCP_SN_12BIT PDCP_SN_5BIT PDCP_SN_7BIT Z.eqb Pos.eqb] in *; unfold read_sn in Hsn; rewrite Hsn; done. }
  rewrite Eh. cbn [mbind cres_bind]. rewrite (proj2 (Z.ltb_ge (zlen pdu) _)) by lia. rewrite Hs in Ex. rewrite Ex. cbn [mbind cres_bind].
  rewrite Ed. cbn [mbind cres_bind]. replace (zlen pdu - header_len srb - tailer_len srb) with (zlen sdu) by lia.
  unfold handed. destruct srb; [rewrite Eg; done|]. rewrite (proj2 (Z.eqb_neq otg_enabled 1)) by apply otg_off.
  destruct Hm as [|Hm]; [done|]. cbn [tailer_len] in *.
  rewrite (deliver_drb_ok c rb _ (header_len false) (zlen pdu) mem p (set_sn e x') sdu); try done.
  - apply lookup_insert_eq.
  - by cbn; rewrite Hm', Hm.
  - replace (zlen pdu - header_len false) with (zlen sdu) by lia. done.
  - lia.
  - lia.
Qed.
End Layers.

(** ** Transfer between two layers *)

(** The two ends of a bearer: the sender [e1] and the receiver [e2] agree about the keys, the
    algorithm and the number [C] of the next PDU. *)
Record peers {R1 R2} (c1 c2 : protocol_ctxt_t) (sec srb : bool) (rb alg : Z) (k : list Z) (C p1 p2 : Z) (e1 e2 : pdcp_entity)
  (s1 : pdcp_globals R1) (s2 : pdcp_globals R2) : Prop := {
  pr_sender : has_pdcp s1 c1 srb rb p1 e1;
  pr_receiver : has_pdcp s2 c2 srb rb p2 e2;
  pr_tx : bearer_sn srb (pe_sn e1) /\ tx_count (pe_sn e1) = C;
  pr_rx : bearer_sn srb (pe_sn e2) /\ rx_count (pe_sn e2) = C;
  pr_keys1 : security sec (key_heap s1) srb e1 k;
  pr_keys2 : security sec (key_heap s2) srb e2 k;
  pr_alg : cipheringAlgorithm e1 = alg /\ cipheringAlgorithm e2 = alg;
  pr_sides : is_ue e2 = negb (is_ue e1);
  pr_flag : enb_flag c2 = 0 \/ enb_flag c2 = 1;
  pr_rb : 0 < rb < if srb then 3 else 11;
  pr_start : 0 <= C;
}.

(** Keeping the PDUs that are given to RLC. *)
#[global] Instance pdu_log : RlcRequests (list (list Z)) :=
  fun _ _ _ _ _ _ size mem log => d ← bget mem 0 size; Ret (log ++ [d], RLC_OP_STATUS_OK).

Lemma pdu_log_req c srb mbms rb mui confirm size mem (log : list (list Z)) : 0 <= size <= zlen mem ->
  pdcp_rlc_req c srb mbms rb mui confirm size mem log = Ret (log ++ [take (Z.to_nat size) mem], RLC_OP_STATUS_OK).
Proof. intros Hs. unfold pdcp_rlc_req, pdu_log. by rewrite bget_ok by lia. Qed.

Section Transfer.
Context `{HCr : CryptoOk} `{HEn : PdcpEnvOk}.

Definition send_all {R} `{RlcRequests R} (c : protocol_ctxt_t) (srb : bool) (rb mode : Z) (sdus : list (list Z)) (s : pdcp_globals R)
  : cres (pdcp_globals R) :=
  for_each (fun sdu s => '(s, _, _) ← pdcp_data_req c srb rb 0 0 (zlen sdu) sdu mode s; Ret s) sdus s.

(** Blocks with a PDU and the octets behind it. *)
Definition receive_all {R} (c : protocol_ctxt_t) (srb : bool) (rb : Z) (pdus : list (list Z * list Z)) (s : pdcp_globals R)
  : cres (pdcp_globals R) :=
  for_each (fun pdu s => '(s, _) ← pdcp_data_ind c srb false rb (zlen pdu.1) (pdu.1 ++ pdu.2) s; Ret s) pdus s.

Definition sdu_ok (sdu : list Z) : Prop := 0 < zlen sdu <= MAX_IP_PACKET_SIZE /\ octets sdu.

Lemma has_set_sn {R} (s : pdcp_globals R) c srb rb p e x : has_pdcp s c srb rb p e -> has_pdcp (set_entity s p (set_sn e x)) c srb rb p (set_sn e x).
Proof. intros (Hg & He & Hp). split_and!; [done| |done]. apply lookup_insert_eq. Qed.

Lemma send_run c sec (srb : bool) rb mode k p sdus : 0 < rb < (if srb then 3 else 11) -> mode <> PDCP_TRANSMISSION_MODE_TRANSPARENT ->
  Forall sdu_ok sdus -> forall e C (s : pdcp_globals (list (list Z))), has_pdcp s c srb rb p e -> security sec (key_heap s) srb e k ->
  bearer_sn srb (pe_sn e) -> tx_count (pe_sn e) = C -> C + zlen sdus < 2 ^ 32 * 2 ^ sn_bits srb ->
  word_room sec srb (cipheringAlgorithm e) block_room ->
  exists s' pdus, send_all c srb rb mode sdus s = Ret s' /\ pdcp_rlc s' = pdcp_rlc s ++ pdus /\ length pdus = length sdus /\
    forall i sdu, sdus !! i = Some sdu -> carries sec srb (cipheringAlgorithm e) k (C + Z.of_nat i) rb (negb (is_ue e)) sdu (pdus !!! i).
Proof.
  intros Hrb Hmode. induction 1 as [|sdu sdus [Hsz Ho] _ IH]; intros e C s Hp Hsec Hb HC Hmax Hw.
  { exists s, []. split_and!; try done. by rewrite app_nil_r. }
  change (zlen (sdu :: sdus)) with (Z.of_nat (S (length sdus))) in Hmax. unfold send_all. cbn [for_each].
  destruct (data_req_ok c sec srb rb p e k C 0 0 mode sdu s) as (x & mem & -> & Hb' & Hc' & Hl & Hca); [done..|lia|done|done|done|done|done|].
  assert (Hpos : 0 <= pdu_size srb (zlen sdu)).
  { unfold pdu_size. destruct (header_range srb). destruct (tailer_range srb). pose proof (zlen_nonneg sdu). lia. }
  rewrite pdu_log_req by lia. cbn [mbind cres_bind].
  set (pdu := take _ mem) in *. set (s1 := set_pdcp_rlc _ _).
  destruct (IH (set_sn e x) (C + 1) s1) as (s' & pdus & E & Er & Hlen & Hall); [by apply has_set_sn|by apply security_set_sn|done|done| |done|].
  { unfold zlen in *. lia. }
  exists s', (pdu :: pdus). unfold send_all in E. rewrite E. split_and!; [done| |cbn; by rewrite Hlen|].
  - rewrite Er. unfold s1. cbn. by rewrite <- app_assoc.
  - intros [|i] sdu' Hi; cbn in Hi |- *; [by injection Hi as <-; rewrite Z.add_0_r|].
    replace (C + Z.of_nat (S i)) with (C + 1 + Z.of_nat i) by lia. by apply Hall.
Qed.

Lemma receive_run c sec (srb : bool) rb k p C0 down (sdus pdus : list (list Z)) (got : list (nat * list Z)) : 0 < rb < (if srb then 3 else 11) ->
  enb_flag c = 0 \/ enb_flag c = 1 -> Forall sdu_ok sdus -> C0 + zlen sdus < 2 ^ 32 * 2 ^ sn_bits srb -> 0 <= C0 -> forall alg,
  (forall i sdu, sdus !! i = Some sdu -> carries sec srb alg k (C0 + Z.of_nat i) rb down sdu (pdus !!! i)) ->
  forall j e {R} (s : pdcp_globals R), has_pdcp s c srb rb p e -> security sec (key_heap s) srb e k -> bearer_sn srb (pe_sn e) ->
  cipheringAlgorithm e = alg -> is_ue e = down -> rx_count (pe_sn e) = C0 + j -> 0 <= j -> small_gaps (sn_bits srb) j (Z.of_nat <$> got.*1) ->
  Forall (fun g => (g.1 < length sdus)%nat /\ word_room sec srb alg (fun n z => n = zlen (pdus !!! g.1) /\ z = zlen (pdus !!! g.1 ++ g.2))) got ->
  exists s', receive_all c srb rb ((fun g => (pdus !!! g.1, g.2)) <$> got) s = Ret s' /\
    pdcp_out s' = pdcp_out s ++ ((fun i => handed c srb rb (sdus !!! i)) <$> got.*1).
Proof.
  intros Hrb Hflag Hok Hmax HC0 alg Hall. induction got as [|[i r] got IH]; intros j e R s Hp Hsec Hb Ha Hu Hc Hj Hgap Hgot.
  { exists s. split; [done|]. by rewrite app_nil_r. }
  destruct Hgap as [Hi Hgap]. apply Forall_cons_1 in Hgot as [[Hlt Hw] Hgot]. cbn [fst snd] in *.
  destruct (lookup_lt_is_Some_2 sdus i Hlt) as [sdu Hsdu]. pose proof (Forall_lookup_1 _ _ _ _ Hok Hsdu) as [Hsz _]. pose proof (Hall i sdu Hsdu) as Hca.
  unfold receive_all. cbn [fmap list_fmap for_each fst snd]. rewrite <- Ha, <- Hu in Hca. rewrite <- Ha in Hw.
  assert (Hlt' : Z.of_nat i < zlen sdus) by (unfold zlen; lia).
  destruct (data_ind_ok c sec srb rb p e k (C0 + Z.of_nat i) sdu (pdus !!! i) r s) as (x & -> & Hb' & Hc'); [done..|lia|lia|lia|destruct srb; lia|done|done|done|].
  cbn [mbind cres_bind]. set (s1 := hand_up _ _).
  destruct (IH (Z.of_nat i + 1) (set_sn e x) R s1) as (s' & E & Eo); [by apply (has_set_sn s)|by apply security_set_sn|done|done|done|cbn; lia|lia|done|done|].
  exists s'. unfold receive_all in E. rewrite E. split; [done|]. rewrite Eo. unfold s1. cbn. rewrite <- app_assoc. by rewrite (list_lookup_total_correct _ _ _ Hsdu).
Qed.

End Transfer.

(** ** Where the code goes wrong *)

Section Errors.
Context {R : Type} `{HR : RlcRequests R} `{HCr : CryptoOk} `{HEn : PdcpEnvOk}.

(** The deciphering of a PDU of a signalling bearer and the check of its MAC-I: the octets [plain], the MAC-I [good] that the code
    computes from them, and the one it finds behind them. *)
Lemma validate_srb kh rb e k sn mem n : secured kh true e k -> integrityProtAlgorithm e <> EIA0_ALG_ID -> 0 < rb < 3 ->
  5 < n <= zlen mem -> n < 2 ^ 16 ->
  let count := (pdcp_get_next_count_rx (pe_sn e) true sn).1 in
  let dir := if is_ue e then SECU_DIRECTION_DOWNLINK else SECU_DIRECTION_UPLINK in
  exists plain good mac,
    stream_encrypt (cipheringAlgorithm e) (StreamCipher (Some k) 16 count (u8 (rb - 1)) dir 1 (8 * (n - 5))) 1 mem = Ret (0, plain) /\
    stream_compute_integrity (integrityProtAlgorithm e)
      (StreamCipher (key_from kh (kRRCint e) 16) 16 count (u8 (rb - 1)) dir 0 (8 * (n - 4))) plain = Ret (Some good) /\
    bget plain (n - 4) 4 = Ret mac /\ zlen plain = zlen mem /\
    pdcp_validate_security kh e true rb 1 sn mem (n - 4) =
      Ret (if bool_decide (good = mac) then 0 else -1, set_sn e (pdcp_get_next_count_rx (pe_sn e) true sn).2, plain).
Proof.
  intros Hsec Hi Hrb Hn Hmax count dir. destruct (sc_integrity _ _ _ _ Hsec eq_refl) as (Hia & ki & Eki & Hki).
  set (q := StreamCipher (Some k) 16 count (u8 (rb - 1)) dir 1 (8 * (n - 5))).
  assert (Hr : cipher_ready (cipheringAlgorithm e) k q (n - 5)) by (constructor; try apply (sc_alg _ _ _ _ Hsec); try apply (sc_length _ _ _ _ Hsec); try done; lia).
  pose proof (span_range (cipheringAlgorithm e) (n - 5) ltac:(lia)) as Hs.
  pose proof (stream_encrypt_eq (cipheringAlgorithm e) k q (n - 5) mem Hr) as E. cbn [message q] in E. specialize (E ltac:(lia) ltac:(lia)).
  match type of E with _ = Ret (0, ?p) => set (plain := p) in E end.
  assert (Hpl : zlen plain = zlen mem).
  { unfold plain. set (d := take (Z.to_nat (span (cipheringAlgorithm e) (n - 5))) (drop (Z.to_nat 1) mem)).
    assert (Hd : zlen d = span (cipheringAlgorithm e) (n - 5)) by (unfold d, zlen in *; rewrite length_take, length_drop; lia).
    rewrite !zlen_app, (cipher_length _ _ _ _ _ Hr Hd), Hd. unfold zlen in *. rewrite length_take, length_drop. lia. }
  destruct (integrity_ok (integrityProtAlgorithm e) (StreamCipher (key_from kh (kRRCint e) 16) 16 count (u8 (rb - 1)) dir 0 (8 * (n - 4))) ki plain (n - 4))
    as ([good|] & Ei & _ & Hsome); try done; [lia| | |by destruct (Hsome Hi)].
  { cbn [message]. rewrite Hpl. Z.div_mod_to_equations. lia. }
  eexists plain, good, _. split; [exact E|]. split; [exact Ei|]. split; [by apply bget_ok; lia|]. split; [done|].
  unfold pdcp_validate_security. change (Z.of_nat NB_RB_MAX) with 14. rewrite (proj2 (Z.ltb_lt rb 14)), (proj2 (Z.leb_le 0 rb)) by lia.
  cbn [andb c_assert mbind cres_bind]. rewrite (surjective_pairing (pdcp_get_next_count_rx (pe_sn e) true sn)). fold count dir.
  cbn [cipheringAlgorithm integrityProtAlgorithm kRRCint kRRCenc set_sn]. replace (n - 4 - 1) with (n - 5) by lia. rewrite !bits_of by lia.
  pose proof (sc_key _ _ _ _ Hsec) as Ek. cbn match in Ek. rewrite Ek. fold q. rewrite E. cbn [mbind cres_bind].
  unfold stream_check_integrity. rewrite (proj2 (Z.eqb_neq _ _) Hi). cbn [negb]. rewrite Ei. cbn [mbind cres_bind].
  rewrite bget_ok by lia. cbn [mbind cres_bind]. by case_bool_decide.
Qed.

(** C39: integrity is not enforced.  On a signalling bearer with activated security, EIA1 or EIA2 and any of the three ciphering
    algorithms, take any block of at least six octets.  [pdcp_validate_security] deciphers it, computes the MAC-I [good] of the
    deciphered octets, and returns -1 exactly when the four octets [mac] behind them are others; [pdcp_data_ind] does not look at
    this result: whatever [mac] is, the deciphered message is handed to RRC and the call returns [TRUE]. *)
Theorem forged_pdu_delivered c rb p e k sn mem n (s : pdcp_globals R) v x :
  has_pdcp s c true rb p e -> security true (key_heap s) true e k -> integrityProtAlgorithm e <> EIA0_ALG_ID -> 0 < rb < 3 ->
  5 < n <= zlen mem -> n < 2 ^ 16 -> pdcp_get_sequence_number_of_pdu_with_SRB_sn (Some mem) = Ret sn ->
  pdcp_is_rx_seq_number_valid sn (Some (pe_sn e)) true = Ret (v, Some x) ->
  let count := (pdcp_get_next_count_rx x true sn).1 in
  let dir := if is_ue e then SECU_DIRECTION_DOWNLINK else SECU_DIRECTION_UPLINK in
  exists plain good mac x',
    stream_encrypt (cipheringAlgorithm e) (StreamCipher (Some k) 16 count (u8 (rb - 1)) dir 1 (8 * (n - 5))) 1 mem = Ret (0, plain) /\
    stream_compute_integrity (integrityProtAlgorithm e)
      (StreamCipher (key_from (key_heap s) (kRRCint e) 16) 16 count (u8 (rb - 1)) dir 0 (8 * (n - 4))) plain = Ret (Some good) /\
    bget plain (n - 4) 4 = Ret mac /\
    pdcp_validate_security (key_heap s) (set_sn e x) true rb 1 sn mem (n - 4) =
      Ret (if bool_decide (good = mac) then 0 else -1, set_sn e x', plain) /\
    pdcp_data_ind c true false rb n mem s =
      Ret (hand_up (set_entity s p (set_sn e x')) (RRC_DATA_IND c rb (take (Z.to_nat (n - 5)) (drop 1 plain))), true).
Proof.
  intros (Hget & He & Hp) [Hact Hsec] Hi Hrb Hn Hmax Hsn Hx count dir. specialize (Hsec eq_refl).
  destruct (validate_srb (key_heap s) rb (set_sn e x) k sn mem n) as (plain & good & mac & E1 & E2 & E3 & Hl & Ev);
    [by destruct Hsec|done..|].
  exists plain, good, mac, (pdcp_get_next_count_rx x true sn).2. split; [exact E1|]. split; [exact E2|]. split; [exact E3|]. split; [exact Ev|].
  unfold pdcp_data_ind. change (Z.of_nat maxDRB) with 11. unfold c_rem. rewrite Z.rem_small by lia. cbv zeta.
  rewrite (proj2 (Z.ltb_lt rb 11)), (proj2 (Z.ltb_lt 0 rb)) by lia. cbn [negb]. rewrite Hget. cbn [mbind cres_bind].
  rewrite (proj2 (Z.eqb_neq n 0)) by lia. rewrite He. unfold read_header. rewrite Hsn. cbn [mbind cres_bind].
  unfold PDCP_CONTROL_PLANE_DATA_PDU_SN_SIZE, PDCP_CONTROL_PLANE_DATA_PDU_MAC_I_SIZE. rewrite (proj2 (Z.ltb_ge n _)) by lia.
  rewrite Hx. cbn [mbind cres_bind]. unfold decipher. change (security_activated (set_sn e x)) with (security_activated e). rewrite Hact. cbn [b2z Z.eqb Pos.eqb].
  rewrite Ev. cbn [mbind cres_bind]. rewrite bget_ok by lia. cbn [mbind cres_bind]. by replace (n - 1 - 4) with (n - 5) by lia.
Qed.

(** The header of a data PDU with a number below 256. *)
Lemma short_header_eq sn x0 x1 (b : list Z) : 0 <= sn < 256 ->
  pdcp_serialize_user_plane_data_pdu_with_long_sn_buffer (Some (x0 :: x1 :: b))
    (Some (Build_pdcp_user_plane_data_pdu_header_with_long_sn 1 sn)) = Ret (true, Some (128 :: sn :: b)).
Proof.
  intros Hsn. unfold pdcp_serialize_user_plane_data_pdu_with_long_sn_buffer. cbn [up_dc up_sn]. cbv zeta. rewrite u16_small by lia.
  assert (Hlo : Z.land sn 255 = sn) by (change 255 with (2 ^ 8 - 1); rewrite land_mask by lia; apply Z.mod_small; lia).
  assert (Hhi : Z.shiftr sn 8 = 0) by (rewrite Z.shiftr_div_pow2 by lia; apply Z.div_small; lia). rewrite Hlo, Hhi.
  do 2 (rewrite aset_ok by (unfold zlen; simpl; lia); cbn [mbind cres_bind]). done.
Qed.

(** Bearers with numbers of 7 bits.  [pdcp_data_req] always writes a header of two octets, while [pdcp_data_ind] strips one
    from the PDUs of a data bearer with 7 bits: every SDU is delivered with the sequence number in front of it. *)
Theorem seven_bit_sdu_misread c1 c2 rb p1 p2 e1 e2 sdu (s1 : pdcp_globals (list (list Z))) (s2 : pdcp_globals R) :
  has_pdcp s1 c1 false rb p1 e1 -> has_pdcp s2 c2 false rb p2 e2 -> pdcp_ok (pe_sn e1) -> pdcp_ok (pe_sn e2) ->
  seq_num_size (pe_sn e1) = 7 -> seq_num_size (pe_sn e2) = 7 -> rlc_mode (pe_sn e2) = MODE_UM -> rx_hfn (pe_sn e2) + 2 < 2 ^ 32 ->
  security_activated e1 = 0 -> security_activated e2 = 0 -> enb_flag c2 = 0 \/ enb_flag c2 = 1 -> 0 < rb < 11 -> sdu_ok sdu ->
  exists s1' pdu, pdcp_data_req c1 false rb 0 0 (zlen sdu) sdu PDCP_TRANSMISSION_MODE_DATA s1 = Ret (s1', Some true, true) /\
    pdcp_rlc s1' = pdcp_rlc s1 ++ [pdu] /\
    forall r, exists s2', pdcp_data_ind c2 false false rb (zlen pdu) (pdu ++ r) s2 = Ret (s2', true) /\
      pdcp_out s2' = pdcp_out s2 ++ [handed c2 false rb (next_pdcp_tx_sn (pe_sn e1) :: sdu)].
Proof.
  intros (G1 & H1 & _) (G2 & H2 & P2) Hok1 Hok2 N1 N2 Hm Hh S1 S2 Hflag Hrb [Hsz Ho]. unfold MAX_IP_PACKET_SIZE in *.
  set (sn := next_pdcp_tx_sn (pe_sn e1)). pose proof (ok_tx _ Hok1) as Htx. rewrite N1 in Htx. fold sn in Htx.
  destruct (tx_step _ Hok1) as (x1 & Et & _ & Hs1 & _). fold sn in Et.
  destruct (pdcp_block_ok (zlen sdu + 2)) as (b & Eb & Hlb & _); [lia|].
  destruct (block_pieces b 1 1 (zlen sdu)) as (m0 & m1 & m2 & r & -> & L0 & L1 & L2); [lia..|].
  destruct m0 as [|o0 [|]]; try (unfold zlen in L0; cbn in L0; lia). destruct m1 as [|o1 [|]]; try (unfold zlen in L1; cbn in L1; lia).
  exists (set_pdcp_rlc (set_entity s1 p1 (set_sn e1 x1)) (pdcp_rlc s1 ++ [128 :: sn :: sdu])), (128 :: sn :: sdu). split_and!; [|done|].
  - unfold pdcp_data_req. rewrite (proj2 (Z.eqb_neq (zlen sdu) 0)) by lia. unfold MAX_IP_PACKET_SIZE. rewrite (proj2 (Z.ltb_ge 1500 (zlen sdu))) by lia.
    cbn [Z.eqb Pos.eqb PDCP_TRANSMISSION_MODE_DATA PDCP_TRANSMISSION_MODE_TRANSPARENT]. change (Z.of_nat maxDRB) with 11. rewrite (proj2 (Z.ltb_lt rb 11)) by lia.
    cbn [negb]. rewrite G1. cbn [mbind cres_bind negb andb header_len tailer_len]. unfold PDCP_USER_PLANE_DATA_PDU_LONG_SN_HEADER_SIZE.
    rewrite Z.add_0_r, u16_small by lia. rewrite Eb, H1. unfold make_pdu, put_header. rewrite Et. cbv zeta. cbn [app header_len].
    cbn [Z.eqb Pos.eqb PDCP_TRANSMISSION_MODE_DATA]. rewrite short_header_eq by lia. cbn [mbind cres_bind pe_sn set_sn]. rewrite Hs1, N1, max_seq_num by (by right; left).
    rewrite (proj2 (Z.ltb_ge _ sn)) by lia. unfold memcpy. rewrite bget_whole. cbn [mbind cres_bind]. unfold PDCP_USER_PLANE_DATA_PDU_LONG_SN_HEADER_SIZE.
    change (128 :: sn :: m2 ++ r) with ([128; sn] ++ m2 ++ r). rewrite (bput_mid [128; sn] m2 r sdu 2) by (done || lia). cbn [mbind cres_bind tailer_len replicate Z.to_nat].
    rewrite (app_assoc [128; sn]). change (([128; sn] ++ sdu) ++ r) with (([128; sn] ++ sdu) ++ [] ++ r).
    rewrite (bput_mid ([128; sn] ++ sdu) [] r []) by (done || rewrite zlen_app; done). cbn [mbind cres_bind]. change (security_activated (set_sn e1 x1)) with (security_activated e1). rewrite S1. cbn [Z.eqb negb andb mbind cres_bind].
    rewrite pdu_log_req by (rewrite !zlen_app; change (zlen [128; sn]) with 2; change (zlen (@nil Z)) with 0; pose proof (zlen_nonneg r); lia). cbn [mbind cres_bind].
    replace (Z.to_nat (zlen sdu + 2)) with (length ([128; sn] ++ sdu)) by (rewrite length_app; unfold zlen; cbn; lia).
    rewrite (take_app_length ([128; sn] ++ sdu) ([] ++ r)). done.
  - intros r'. pose proof (ok_rx _ Hok2) as Hrx. pose proof (ok_rx_hfn _ Hok2) as Hrh. rewrite N2 in Hrx.
    set (c := if next_pdcp_rx_sn (pe_sn e2) =? 0 then rx_hfn (pe_sn e2) * 2 ^ 7 else (rx_hfn (pe_sn e2) + 1) * 2 ^ 7).
    destruct (rx_step false (pe_sn e2) c Hok2) as (x2 & Ex & _ & _ & _ & Hm2 & _); [by right|rewrite N2; unfold rx_count, c; rewrite N2; case_if; bool_to_prop; lia|rewrite N2; unfold c; case_if; lia|].
    rewrite N2 in Ex. assert (c mod 2 ^ 7 = 0) as Ec by (unfold c; case_if; apply Z.mod_mul; lia). rewrite Ec in Ex.
    assert (Hl : zlen (128 :: sn :: sdu) = zlen sdu + 2) by (unfold zlen; cbn; lia). rewrite Hl.
    eexists. split; [|shelve]. unfold pdcp_data_ind. change (Z.of_nat maxDRB) with 11. unfold c_rem. rewrite Z.rem_small by lia. cbv zeta.
    rewrite (proj2 (Z.ltb_lt rb 11)), (proj2 (Z.ltb_lt 0 rb)) by lia. cbn [negb]. rewrite G2. cbn [mbind cres_bind].
    rewrite (proj2 (Z.eqb_neq (zlen sdu + 2) 0)) by lia. rewrite H2. unfold read_header. rewrite N2. cbn [Z.eqb Pos.eqb PDCP_SN_7BIT].
    change (pdcp_get_sequence_number_of_pdu_with_short_sn _) with (Ret 0). cbn [mbind cres_bind]. unfold PDCP_USER_PLANE_DATA_PDU_SHORT_SN_HEADER_SIZE.
    rewrite (proj2 (Z.ltb_ge (zlen sdu + 2) _)) by lia. rewrite Ex. cbn [mbind cres_bind]. unfold decipher. cbn [security_activated set_sn]. rewrite S2. cbn [Z.eqb mbind cres_bind].
    rewrite (proj2 (Z.eqb_neq otg_enabled 1)) by apply otg_off.
    rewrite (deliver_drb_ok c2 rb 0 1 (zlen sdu + 2) _ p2 (set_sn e2 x2) (sn :: sdu)); [reflexivity|done|done|apply lookup_insert_eq|by cbn; rewrite Hm2| | |].
    + rewrite bget_ok by (rewrite ?zlen_app, ?Hl; pose proof (zlen_nonneg r'); lia). f_equal. cbn [app]. change (drop (Z.to_nat 1) _) with ((sn :: sdu) ++ r').
      replace (Z.to_nat (zlen sdu + 2 - 1)) with (length (sn :: sdu)) by (unfold zlen; cbn; lia). apply take_app_length.
    + unfold zlen. cbn [length]. lia.
    + unfold zlen in *. cbn [length]. lia.
    Unshelve. done.
Qed.

Lemma eea1_oob p k mem len : cipher_ready EEA1_128_ALG_ID k p len -> zlen mem < message p + 4 * ((len + 3) / 4) ->
  stream_encrypt EEA1_128_ALG_ID p (message p) mem = Trap FOob.
Proof.
  intros Hr Hlt. pose proof (eea1_octets_length k p len (cr_k _ _ _ _ Hr) (cr_bits _ _ _ _ Hr) (cr_len _ _ _ _ Hr)) as HE. unfold eea1_octets in HE.
  destruct Hr as [_ Hkey Hkl Hk Hb Hl]. unfold stream_encrypt. cbn [EEA0_ALG_ID EEA1_128_ALG_ID Z.eqb Pos.eqb]. unfold stream_encrypt_eea1. rewrite Hkey, Hkl.
  cbn [Z.eqb Pos.eqb c_assert mbind cres_bind]. replace (Z.land (blength p) 7) with 0.
  2:{ rewrite Hb. change 7 with (2 ^ 3 - 1). rewrite land_mask by lia. change (2 ^ 3) with 8. rewrite Z.mul_comm. symmetry. apply Z.mod_mul. lia. }
  destruct (eea1_stream_ok k p (Z.to_nat (u32 (blength p + 31) / 32)) Hk) as (KS & EK & _). rewrite EK in *. cbn [mbind cres_bind].
  unfold cut_last. cbn [Z.ltb Z.compare mbind cres_bind]. unfold xor_message, bget. rewrite HE. rewrite (proj2 (Z.leb_gt _ (zlen mem))) by lia. by rewrite andb_false_r.
Qed.

(** EEA1 writes behind a block.  With the blocks of the pools, whose size is the power of two above the requested one, ciphering
    an SDU of [2 ^ j - 3] octets (61, 125, 253, 509 or 1021) on a data bearer with EEA1 goes two octets behind the block of
    the PDU, since the key stream is applied to whole words of four octets. *)
Theorem eea1_overruns_block c rb p e k C mui confirm sdu j (s : pdcp_globals R) :
  has_pdcp s c false rb p e -> security true (key_heap s) false e k -> bearer_sn false (pe_sn e) -> tx_count (pe_sn e) = C ->
  C + 1 < 2 ^ 32 * 2 ^ 12 -> cipheringAlgorithm e = EEA1_128_ALG_ID -> 0 < rb < 11 -> 6 <= j <= 10 -> zlen sdu = 2 ^ j - 3 ->
  (forall n b, pdcp_block n = Some b -> zlen b = block_size (pool_for n)) ->
  pdcp_data_req c false rb mui confirm (zlen sdu) sdu PDCP_TRANSMISSION_MODE_DATA s = Trap FOob.
Proof.
  intros (Hget & He & _) [Hact Hsec] Hb HC Hmax Ha Hrb Hj Hsz Hpool. specialize (Hsec eq_refl).
  assert (Hn : 61 <= zlen sdu <= 1021 /\ block_size (pool_for (zlen sdu + 2)) = zlen sdu + 3 /\ zlen sdu + 3 = 4 * ((zlen sdu + 3) / 4)).
  { rewrite Hsz. assert (j = 6 \/ j = 7 \/ j = 8 \/ j = 9 \/ j = 10) as [-> | [-> | [-> | [-> | ->]]]] by lia; vm_compute; split_and!; done. }
  destruct Hn as (Hr & Hblk & Hdiv).
  unfold pdcp_data_req. rewrite (proj2 (Z.eqb_neq (zlen sdu) 0)) by lia. unfold MAX_IP_PACKET_SIZE. rewrite (proj2 (Z.ltb_ge 1500 (zlen sdu))) by lia.
  cbn [Z.eqb Pos.eqb PDCP_TRANSMISSION_MODE_DATA PDCP_TRANSMISSION_MODE_TRANSPARENT]. change (Z.of_nat maxDRB) with 11. rewrite (proj2 (Z.ltb_lt rb 11)) by lia.
  cbn [negb]. rewrite Hget. cbn [mbind cres_bind negb andb header_len tailer_len]. unfold PDCP_USER_PLANE_DATA_PDU_LONG_SN_HEADER_SIZE.
  rewrite Z.add_0_r, u16_small by lia. destruct (pdcp_block_ok (zlen sdu + 2)) as (b & Eb & _); [lia|]. rewrite Eb, He. apply Hpool in Eb. rewrite Hblk in Eb.
  destruct (block_pieces b (header_len false) (zlen sdu) (tailer_len false)) as (m1 & m2 & m3 & r & -> & H1 & H2 & H3); [cbn; unfold PDCP_USER_PLANE_DATA_PDU_LONG_SN_HEADER_SIZE; lia..|].
  destruct (make_pdu_steps (key_heap s) false rb PDCP_TRANSMISSION_MODE_DATA sdu m1 m2 m3 r e C Hb HC Hmax H1 H2 H3) as (x' & h & Hh & _ & _ & Hb' & Hc' & HC0 & E).
  cbn zeta in E. rewrite E, Hact, Ha. cbn [b2z EEA1_128_ALG_ID Z.eqb negb andb orb]. unfold pdcp_apply_security. change (Z.of_nat maxDRB) with 11. unfold c_rem.
  rewrite Z.rem_small by lia. change (Z.of_nat NB_RB_MAX) with 14. rewrite (proj2 (Z.ltb_lt rb 14)), (proj2 (Z.leb_le 0 rb)) by lia. cbn [andb c_assert mbind cres_bind].
  cbn [cipheringAlgorithm set_sn kUPenc]. rewrite Ha, bits_of by lia. pose proof (sc_key _ _ _ _ Hsec) as Hkey. cbn match in Hkey. rewrite Hkey.
  match goal with |- context [stream_encrypt _ ?q _ _] => pose proof (eea1_oob q k) as Eo; cbn [message] in Eo end.
  rewrite (Eo _ (zlen sdu)); [done|constructor; try done; [by right; left|apply (sc_length _ _ _ _ Hsec)|lia]|].
  rewrite !zlen_app in *. cbn [tailer_len header_len replicate Z.to_nat] in *. unfold PDCP_USER_PLANE_DATA_PDU_LONG_SN_HEADER_SIZE in *. change (zlen (replicate (Z.to_nat 0) 0)) with 0. lia.
Qed.
End Errors.

(** ** Witnesses *)

(** Blocks of the pools. *)
#[global] Instance pool_env : PdcpEnv := {|
  pdcp_block n := Some (replicate (Z.to_nat (block_size (pool_for n))) 0);
  otg_enabled := 0;
|}.

#[global] Instance pool_env_ok : PdcpEnvOk.
Proof.
  split; [|done]. intros n Hn. eexists. split; [reflexivity|]. split; [|apply Forall_replicate; lia]. unfold zlen. rewrite length_replicate.
  unfold block_size, pool_for. case_if; bool_to_prop; [rewrite Z.pow_0_r; lia|].
  pose proof (Z.log2_spec n ltac:(lia)) as [_ Hl]. pose proof (Z.log2_le_mono 64 n ltac:(lia)) as H64. change (Z.log2 64) with 6 in H64.
  replace (2 ^ Z.succ (Z.log2 n)) with (64 * 2 ^ (Z.log2 n - 5)) in Hl; [lia|]. change 64 with (2 ^ 6). rewrite <- Z.pow_add_r by lia. f_equal. lia.
Qed.

(** A layer with one entity at the address 5, whose keys are at 100, 200 and 300. *)
Definition demo_keys : gmap Z (list Z) := {[100 := replicate 32 1; 200 := replicate 32 2; 300 := replicate 32 3]}.

Definition demo_entity (ue srb : bool) (alg integrity bits activated : Z) : pdcp_entity :=
  PdcpEntity (fresh_pdcp (if srb then MODE_AM else MODE_UM) bits) 0 ue srb alg integrity 300 200 100 activated 0 3 1 (-1).

Definition demo_pdcp (c : protocol_ctxt_t) (rb : Z) (srb : bool) (e : pdcp_entity) : pdcp_globals (list (list Z)) :=
  PdcpGlobals (match hashtable_insert true (hashtable_create true 0 208 None) (PDCP_COLL_KEY_VALUE c rb srb) 5 with
               | Ret (_, t, _) => t | Trap _ => None end)
    {[5 := e]} demo_keys [] [] [] [] 0 [] [].

Lemma demo_has c rb srb e : hashtable_get (pdcp_coll_p (demo_pdcp c rb srb e)) (PDCP_COLL_KEY_VALUE c rb srb) = Ret (HASH_TABLE_OK, 5) ->
  has_pdcp (demo_pdcp c rb srb e) c srb rb 5 e.
Proof. intros Hg. by split_and!. Qed.

Lemma demo_sn ue (srb : bool) alg integrity activated : bearer_sn srb (pe_sn (demo_entity ue srb alg integrity (if srb then 5 else 12) activated)).
Proof. constructor; [apply fresh_ok; destruct srb; [by left|by do 2 right]|by destruct srb|destruct srb; [by left|by right]|by destruct srb]. Qed.

Definition demo_enb : protocol_ctxt_t := Ctxt 0 4660 1 7.
Definition demo_ue : protocol_ctxt_t := Ctxt 0 4660 0 7.


(** A message with a MAC-I of zeros, which is not its MAC-I of EIA1. *)
Lemma forged_pdu_delivered_witness :
  exists e' s2', pdcp_validate_security demo_keys (set_sn (demo_entity true true 0 1 5 1) e') true 1 1 0 [0; 10; 11; 12; 0; 0; 0; 0] 4 =
      Ret (-1, set_sn (demo_entity true true 0 1 5 1) e', [0; 10; 11; 12; 0; 0; 0; 0]) /\
    pdcp_data_ind demo_ue true false 1 8 [0; 10; 11; 12; 0; 0; 0; 0] (demo_pdcp demo_ue 1 true (demo_entity true true 0 1 5 1)) = Ret (s2', true) /\
    pdcp_out s2' = [RRC_DATA_IND demo_ue 1 [10; 11; 12]].
Proof.
  destruct (pdcp_is_rx_seq_number_valid 0 (Some (fresh_pdcp MODE_AM 5)) true) as [[b [x|]]|] eqn:Ex; [|discriminate Ex..].
  destruct (forged_pdu_delivered demo_ue 1 5 (demo_entity true true 0 1 5 1) (replicate 32 1) 0 [0; 10; 11; 12; 0; 0; 0; 0] 8
    (demo_pdcp demo_ue 1 true (demo_entity true true 0 1 5 1)) b x) as (plain & good & mac & x' & E1 & E2 & E3 & Ev & E).
  - by apply demo_has; vm_compute.
  - split; [done|]. intros _. constructor; [by left|done|by vm_compute|]. intros _. split; [by right; left|]. exists (replicate 16 2). split; [done|by vm_compute].
  - done.
  - lia.
  - vm_compute. split; [reflexivity|discriminate].
  - lia.
  - reflexivity.
  - exact Ex.
  - vm_compute in Ex. injection Ex as <- <-. vm_compute in E1. injection E1 as <-. vm_compute in E2. injection E2 as <-. vm_compute in E3. injection E3 as <-.
    rewrite bool_decide_false in Ev by discriminate. cbn [take drop Z.to_nat] in E.
    exists x'. eexists. split; [|split; [exact E|reflexivity]]. vm_compute in Ev. injection Ev as <-. vm_compute. reflexivity.
Defined.

Lemma seven_bit_sdu_misread_witness :
  exists s1' pdu s2', pdcp_data_req demo_enb false 1 0 0 2 [60; 61] PDCP_TRANSMISSION_MODE_DATA
      (demo_pdcp demo_enb 1 false (demo_entity false false 0 0 7 0)) = Ret (s1', Some true, true) /\ pdcp_rlc s1' = [pdu] /\
    pdcp_data_ind demo_ue false false 1 (zlen pdu) (pdu ++ []) (demo_pdcp demo_ue 1 false (demo_entity true false 0 0 7 0)) = Ret (s2', true) /\
    pdcp_out s2' = [PDCP_SDU 1 3 [0; 60; 61]].
Proof.
  destruct (seven_bit_sdu_misread demo_enb demo_ue 1 5 5 (demo_entity false false 0 0 7 0) (demo_entity true false 0 0 7 0) [60; 61]
    (demo_pdcp demo_enb 1 false (demo_entity false false 0 0 7 0)) (demo_pdcp demo_ue 1 false (demo_entity true false 0 0 7 0)))
    as (s1' & pdu & E1 & Er & H).
  - by apply demo_has; vm_compute.
  - by apply demo_has; vm_compute.
  - apply fresh_ok. by right; left.
  - apply fresh_ok. by right; left.
  - done.
  - done.
  - done.
  - by vm_compute.
  - done.
  - done.
  - by left.
  - lia.
  - split; [by vm_compute|repeat constructor; lia].
  - destruct (H []) as (s2' & E2 & Eo). exists s1', pdu, s2'. split_and!; [exact E1|exact Er|exact E2|exact Eo].
Defined.

Lemma eea1_overruns_block_witness :
  pdcp_data_req demo_enb false 1 0 0 61 (replicate 61 7) PDCP_TRANSMISSION_MODE_DATA
    (demo_pdcp demo_enb 1 false (demo_entity false false 1 0 12 1)) = Trap FOob.
Proof.
  apply (eea1_overruns_block demo_enb 1 5 (demo_entity false false 1 0 12 1) (replicate 32 3) 0 0 0 (replicate 61 7) 6).
  - by apply demo_has; vm_compute.
  - split; [done|]. intros _. constructor; [by right; left|done|by vm_compute|done].
  - apply (demo_sn false false).
  - done.
  - by vm_compute.
  - done.
  - lia.
  - lia.
  - done.
  - intros n b [= <-]. unfold zlen. rewrite length_replicate. unfold block_size. rewrite Z2Nat.id; [done|]. pose proof (Z.pow_nonneg 2 (pool_for n)). lia.
Defined.
