(* ===== verification/PdcpConfig.v ===== *)
(** The configuration of PDCP by RRC ([openair2/LAYER2/PDCP_v10.1.0/pdcp.c]): the requests with the
    ASN.1 structures ([rrc_pdcp_config_asn1_req], [pdcp_config_req_asn1]), the older request
    ([rrc_pdcp_config_req]), the security ([pdcp_config_set_security]), the removal of a user
    ([pdcp_remove_UE], [pdcp_free]), and the initialisation of the layer.

    The keys are objects of their own store: RRC allocates them, several entities may hold the
    same address, and freeing an address that is not allocated is a fault. *)
From stdpp Require Import base list numbers gmap.
From coqutil Require Import Byte.
From Stdlib Require Import ZArith Lia.
From S2P Require Import Prelude SplitIface RlcPrims Hashtable MemBlock RlcRrc Pdcp Osa PdcpData.
Open Scope Z_scope.

(** ** Structures of RRC *)

(** The values of [config_action_t] that the functions know. *)
Inductive config_action_t :=
| CONFIG_ACTION_ADD
| CONFIG_ACTION_REMOVE
| CONFIG_ACTION_MODIFY
| CONFIG_ACTION_SET_SECURITY_MODE
| CONFIG_ACTION_MBMS_ADD
| CONFIG_ACTION_MBMS_MODIFY
| CONFIG_ACTION_NULL.

(** [PDCP_Config__headerCompression]: the flags of the profiles 1, 2, 3, 4, 6, 0x101, 0x102, 0x103
    and 0x104. *)
Inductive headerCompression_t :=
| headerCompression_PR_NOTHING
| headerCompression_PR_notUsed
| headerCompression_PR_rohc (profiles : list bool)
| headerCompression_PR_other.

(** [PDCP_Config_t]: [statusReportRequired] and [pdcp_SN_Size] where they are present. *)
Record PDCP_Config_t := PdcpConfig {
  rlc_AM : option Z;
  rlc_UM : option Z;
  headerCompression : headerCompression_t;
}.

Record DRB_ToAddMod_t := PdcpDrb { drb_id_of : Z; pdcp_Config : option PDCP_Config_t }.

Definition PDCP_SN_Size_len7bits : Z := 0.
Definition PDCP_SN_Size_len12bits : Z := 1.

(** The local variables of [rrc_pdcp_config_asn1_req] that keep their value from one bearer to the
    next. *)
Record config_vars := ConfigVars {
  v_srb_id : Z;
  v_rlc_type : Pdcp.rlc_mode_t;
  v_drb_sn : Z;
  v_drb_report : Z;
  v_profile : Z;
}.

Section Config.
Context {R : Type}.
Abbreviation globals := (pdcp_globals R).

(** [calloc] for a new entity, and whether the hash table gets memory for a node. *)
Context (calloc : gmap Z pdcp_entity -> Z) (node_alloc : bool).

(** The memory after [calloc] or [memset]. *)
Definition zero_entity : pdcp_entity :=
  PdcpEntity (Build_pdcp_t Pdcp.MODE_NONE 0 0 0 0 0 0 0 0 (replicate 512 0)) 0 false false 0 0 0 0 0 0 0 0 0 0.

Definition set_table (s : globals) (t : option hash_table_t) (h : gmap Z pdcp_entity) (kh : gmap Z (list Z)) : globals :=
  PdcpGlobals t h kh (pdcp_out s) (pdcp_mbms_array_ue s) (pdcp_mbms_array_eNB s)
    (pdcp_eNB_UE_instance_to_rnti s) (pdcp_eNB_UE_instance_to_rnti_index s) (pdcp_UE_UE_module_id_to_rnti s) (pdcp_rlc s).
Definition set_rntis (s : globals) (enb ue : list Z) : globals :=
  PdcpGlobals (pdcp_coll_p s) (pdcp_heap s) (key_heap s) (pdcp_out s) (pdcp_mbms_array_ue s) (pdcp_mbms_array_eNB s)
    enb (pdcp_eNB_UE_instance_to_rnti_index s) ue (pdcp_rlc s).
Definition set_mbms (s : globals) (ue enb : list (list (list pdcp_mbms_t))) : globals :=
  PdcpGlobals (pdcp_coll_p s) (pdcp_heap s) (key_heap s) (pdcp_out s) ue enb
    (pdcp_eNB_UE_instance_to_rnti s) (pdcp_eNB_UE_instance_to_rnti_index s) (pdcp_UE_UE_module_id_to_rnti s) (pdcp_rlc s).

(** ** Security *)

Definition pdcp_config_set_security (security_modeP kRRCenc kRRCint kUPenc : Z) (e : pdcp_entity) : pdcp_entity :=
  if (0 <=? security_modeP) && (security_modeP <=? 0x77) then
    PdcpEntity (pe_sn e) (header_compression_profile e) (is_ue e) (is_srb e) (Z.land security_modeP 0x0f)
      (Z.land (Z.shiftr security_modeP 4) 0xf) kUPenc kRRCint kRRCenc 1 (status_report e) (lcid e) (pe_rb_id e) (first_missing_pdu e)
  else e.

(** [free] of a key. *)
Definition free_key (k : Z) (kh : gmap Z (list Z)) : cres (gmap Z (list Z)) :=
  if k =? 0 then Ret kh else match kh !! k with Some _ => Ret (delete k kh) | None => Trap FNull end.

Definition free_keys (e : pdcp_entity) (kh : gmap Z (list Z)) : cres (gmap Z (list Z)) :=
  kh ← free_key (kUPenc e) kh; kh ← free_key (kRRCint e) kh; free_key (kRRCenc e) kh.

(** The function the table calls on the data of a removed node. *)
Definition pdcp_free (p : Z) (s : globals) : cres globals :=
  if p =? 0 then Ret s
  else match pdcp_heap s !! p with
       | None => Trap FNull
       | Some e => kh ← free_keys e (key_heap s); Ret (set_table s (pdcp_coll_p s) (delete p (pdcp_heap s)) kh)
       end.

(** [hashtable_remove(pdcp_coll_p, key)]. *)
Definition remove_key (key : Z) (s : globals) : cres globals :=
  '(_, t, freed) ← hashtable_remove (pdcp_coll_p s) key;
  for_each pdcp_free freed (set_table s t (pdcp_heap s) (key_heap s)).

(** ** Configuration of an entity *)

Definition sn_size_of (rb_snP : Z) : Z :=
  if rb_snP =? PDCP_SN_Size_len12bits then PDCP_SN_12BIT else if rb_snP =? PDCP_SN_Size_len7bits then PDCP_SN_7BIT else PDCP_SN_5BIT.

(** The members written by [CONFIG_ACTION_ADD] before the security. *)
Definition added_entity (c : protocol_ctxt_t) (srb_flagP : bool) (rlc_modeP : Pdcp.rlc_mode_t) (lc_idP rb_idP rb_snP rb_reportP profileP : Z)
  (e : pdcp_entity) : pdcp_entity :=
  PdcpEntity (Build_pdcp_t rlc_modeP (sn_size_of rb_snP) 0 0 0 0 0 0 4095 (missing_pdu_bitmap (pe_sn e))) profileP
    (negb (enb_flag c =? 1)) srb_flagP (cipheringAlgorithm e) (integrityProtAlgorithm e) (kUPenc e) (kRRCint e) (kRRCenc e)
    (security_activated e) rb_reportP lc_idP rb_idP (-1).

Definition modified_entity (rlc_modeP : Pdcp.rlc_mode_t) (rb_snP rb_reportP profileP : Z) (e : pdcp_entity) : pdcp_entity :=
  let x := pe_sn e in
  PdcpEntity (Build_pdcp_t rlc_modeP (sn_size_of rb_snP) (next_pdcp_tx_sn x) (next_pdcp_rx_sn x) (next_pdcp_rx_sn_before_integrity x)
      (tx_hfn x) (rx_hfn x) (rx_hfn_offset x) (last_submitted_pdcp_rx_sn x) (missing_pdu_bitmap x)) profileP
    (is_ue e) (is_srb e) (cipheringAlgorithm e) (integrityProtAlgorithm e) (kUPenc e) (kRRCint e) (kRRCenc e)
    (security_activated e) rb_reportP (lcid e) (pe_rb_id e) (first_missing_pdu e).

(** [tab[i][j][k] = x] *)
Definition aset3 {A} (tab : list (list (list A))) (i j k : Z) (x : A) : cres (list (list (list A))) :=
  m ← aget tab i; m ← aset2 m j k x; aset tab i m.
Definition aget3 {A} (tab : list (list (list A))) (i j k : Z) : cres A := m ← aget tab i; aget2 m j k.

(** [pdcp_pP] is an address, 0 for [NULL]. *)
Definition pdcp_config_req_asn1 (c : protocol_ctxt_t) (pdcp_pP : Z) (srb_flagP : bool) (rlc_modeP : Pdcp.rlc_mode_t) (actionP : config_action_t)
  (lc_idP mch_idP rb_idP rb_snP rb_reportP profileP security_modeP kRRCenc_pP kRRCint_pP kUPenc_pP : Z) (s : globals) : cres globals :=
  let secure e := if negb (security_modeP =? 0xff) then pdcp_config_set_security security_modeP kRRCenc_pP kRRCint_pP kUPenc_pP e else e in
  match actionP with
  | CONFIG_ACTION_ADD =>
      _ ← c_assert (negb (pdcp_pP =? 0));
      match pdcp_heap s !! pdcp_pP with
      | None => Trap FNull
      | Some e =>
          s ← (if enb_flag c =? 1 then
                 t ← aset (pdcp_eNB_UE_instance_to_rnti s) (pdcp_eNB_UE_instance_to_rnti_index s) (rnti c);
                 Ret (set_rntis s t (pdcp_UE_UE_module_id_to_rnti s))
               else
                 t ← aset (pdcp_UE_UE_module_id_to_rnti s) (module_id c) (rnti c);
                 Ret (set_rntis s (pdcp_eNB_UE_instance_to_rnti s) t));
          Ret (set_entity s pdcp_pP (secure (added_entity c srb_flagP rlc_modeP lc_idP rb_idP rb_snP rb_reportP profileP e)))
      end
  | CONFIG_ACTION_MODIFY =>
      _ ← c_assert (negb (pdcp_pP =? 0));
      match pdcp_heap s !! pdcp_pP with
      | None => Trap FNull
      | Some e => Ret (set_entity s pdcp_pP (secure (modified_entity rlc_modeP rb_snP rb_reportP profileP e)))
      end
  | CONFIG_ACTION_REMOVE =>
      _ ← c_assert (negb (pdcp_pP =? 0));
      match pdcp_heap s !! pdcp_pP with
      | None => Trap FNull
      | Some e => kh ← free_keys e (key_heap s); Ret (set_table s (pdcp_coll_p s) (<[pdcp_pP := zero_entity]> (pdcp_heap s)) kh)
      end
  | CONFIG_ACTION_MBMS_ADD | CONFIG_ACTION_MBMS_MODIFY =>
      if enb_flag c =? 1 then
        t ← aset3 (pdcp_mbms_array_eNB s) (module_id c) mch_idP lc_idP (PdcpMbms true rb_idP); Ret (set_mbms s (pdcp_mbms_array_ue s) t)
      else
        t ← aset3 (pdcp_mbms_array_ue s) (module_id c) mch_idP lc_idP (PdcpMbms true rb_idP); Ret (set_mbms s t (pdcp_mbms_array_eNB s))
  | CONFIG_ACTION_SET_SECURITY_MODE =>
      _ ← c_assert (negb (pdcp_pP =? 0));
      match pdcp_heap s !! pdcp_pP with
      | None => Trap FNull
      | Some e => Ret (set_entity s pdcp_pP (pdcp_config_set_security security_modeP kRRCenc_pP kRRCint_pP kUPenc_pP e))
      end
  | CONFIG_ACTION_NULL => Trap FAssert
  end.

(** The entity of a bearer, added to the table when it is not there: the action, the address and
    the state; nothing when the insertion failed. *)
Definition find_or_add (key : Z) (s : globals) : cres (globals * option (config_action_t * Z)) :=
  '(h_rc, p) ← hashtable_get (pdcp_coll_p s) key;
  match h_rc with
  | HASH_TABLE_OK => Ret (s, Some (CONFIG_ACTION_MODIFY, p))
  | _ =>
      let p := calloc (pdcp_heap s) in
      '(h_rc, t, _) ← hashtable_insert node_alloc (pdcp_coll_p s) key p;
      match h_rc with
      | HASH_TABLE_OK =>
          if p =? 0 then Trap FNull
          else Ret (set_table s t (<[p := zero_entity]> (pdcp_heap s)) (key_heap s), Some (CONFIG_ACTION_ADD, p))
      | _ => Ret (set_table s t (pdcp_heap s) (key_heap s), None)
      end
  end.

Section Request.
Context (c : protocol_ctxt_t) (security_modeP kRRCenc_pP kRRCint_pP kUPenc_pP : Z).

(** One signalling bearer; [false] is the early return. *)
Definition add_srb (b : SRB_ToAddMod) (v : config_vars) (s : globals) : cres (bool * config_vars * globals) :=
  let srb_id := srb_Identity b in
  let v := ConfigVars srb_id Pdcp.MODE_AM (v_drb_sn v) (v_drb_report v) (v_profile v) in
  '(s, f) ← find_or_add (PDCP_COLL_KEY_VALUE c srb_id true) s;
  match f with
  | None => Ret (false, v, s)
  | Some (action, p) =>
      let config s := pdcp_config_req_asn1 c p true Pdcp.MODE_AM action (u16 srb_id) 0 (u16 srb_id) 5 0 0 security_modeP kRRCenc_pP kRRCint_pP kUPenc_pP s in
      s ← match srb_rlc_Config b with
          | None | Some SRB_rlc_Config_PR_NOTHING | Some (SRB_rlc_Config_PR_explicitValue RLC_Config_PR_NOTHING) => Ret s
          | Some (SRB_rlc_Config_PR_explicitValue _) | Some SRB_rlc_Config_PR_defaultValue => config s
          | Some SRB_rlc_Config_PR_other => Trap FAssert
          end;
      Ret (true, v, s)
  end.

Definition profile_of (profiles : list bool) : Z :=
  foldr (fun (x : bool * Z) acc => if x.1 then x.2 else acc) 0
    (zip profiles [0x0001; 0x0002; 0x0003; 0x0004; 0x0006; 0x0101; 0x0102; 0x0103; 0x0104]).

Definition drb_vars (p : PDCP_Config_t) (v : config_vars) : config_vars :=
  let '(rep, sn, ty) := match rlc_AM p with
                        | Some r => (u8 r, PDCP_SN_Size_len12bits, Pdcp.MODE_AM)
                        | None => (v_drb_report v, v_drb_sn v, v_rlc_type v)
                        end in
  let '(sn, ty) := match rlc_UM p with Some n => (u8 n, Pdcp.MODE_UM) | None => (sn, ty) end in
  let profile := match headerCompression p with
                 | headerCompression_PR_NOTHING | headerCompression_PR_notUsed => 0
                 | headerCompression_PR_rohc l => profile_of l
                 | headerCompression_PR_other => v_profile v
                 end in
  ConfigVars (v_srb_id v) ty sn rep profile.

Definition add_drb (b : DRB_ToAddMod_t) (v : config_vars) (s : globals) : cres (bool * config_vars * globals) :=
  let drb_id := drb_id_of b in
  _ ← c_assert (drb_id <? Z.of_nat maxDRB);
  '(s, f) ← find_or_add (PDCP_COLL_KEY_VALUE c drb_id false) s;
  match f with
  | None => Ret (false, v, s)
  | Some (action, p) =>
      match pdcp_Config b with
      | None => Ret (true, v, s)
      | Some cfg =>
          let v := drb_vars cfg v in
          s ← pdcp_config_req_asn1 c p false (v_rlc_type v) action (u16 (drb_id + 2)) 0 (u16 drb_id) (v_drb_sn v) (v_drb_report v) (v_profile v)
                security_modeP kRRCenc_pP kRRCint_pP kUPenc_pP s;
          Ret (true, v, s)
      end
  end.

(** The key of the bearer to release is built from [srb_id], the last signalling bearer of the
    request. *)
Definition release_drb (v : config_vars) (drb_id : Z) (s : globals) : cres globals :=
  let key := PDCP_COLL_KEY_VALUE c (v_srb_id v) false in
  '(h_rc, p) ← hashtable_get (pdcp_coll_p s) key;
  match h_rc with
  | HASH_TABLE_OK =>
      s ← pdcp_config_req_asn1 c p false (v_rlc_type v) CONFIG_ACTION_REMOVE (u16 (drb_id + 2)) 0 (u16 drb_id) 0 0 0
            security_modeP kRRCenc_pP kRRCint_pP kUPenc_pP s;
      remove_key key s
  | _ => Ret s
  end.

(** One multicast session. *)
Definition add_session (i : MBMS_SessionInfo) (s : globals) : cres globals :=
  let lc_id := sessionId_r9 i in
  let mch_id := serviceId_r9 i in
  let drb_id := mch_id * maxSessionPerPMCH + lc_id in
  m ← (if negb (enb_flag c =? 0) then aget3 (pdcp_mbms_array_eNB s) (module_id c) mch_id lc_id
       else aget3 (pdcp_mbms_array_ue s) (module_id c) mch_id lc_id);
  pdcp_config_req_asn1 c 0 false Pdcp.MODE_NONE
    (if instanciated_instance m then CONFIG_ACTION_MBMS_MODIFY else CONFIG_ACTION_MBMS_ADD) lc_id mch_id (u16 drb_id) 0 0 0 0 0 0 0 s.

(** A loop that an early return ends. *)
Fixpoint until_failure {A} (body : A -> config_vars -> globals -> cres (bool * config_vars * globals)) (l : list A) (v : config_vars) (s : globals)
  : cres (bool * config_vars * globals) :=
  match l with
  | [] => Ret (true, v, s)
  | x :: l => '(ok, v, s) ← body x v s; if (ok : bool) then until_failure body l v s else Ret (false, v, s)
  end.

(** The lists are the ones of the arguments, [None] for [NULL]; the sessions are all the sessions of
    the list of channels.  The result is the return value. *)
Definition rrc_pdcp_config_asn1_req (srb2add : option (list SRB_ToAddMod)) (drb2add : option (list DRB_ToAddMod_t))
  (drb2release : option (list Z)) (sessions : option (list MBMS_SessionInfo)) (s : globals) : cres (globals * bool) :=
  let v := ConfigVars 0 Pdcp.MODE_NONE 12 0 0 in
  '(ok, v, s) ← until_failure add_srb (default [] srb2add) v s;
  if negb (ok : bool) then Ret (s, true)
  else
    '(ok, v, s) ← until_failure add_drb (default [] drb2add) v s;
    if negb (ok : bool) then Ret (s, true)
    else
      s ← for_each (release_drb v) (default [] drb2release) s;
      s ← for_each add_session (default [] sessions) s;
      Ret (s, false).
End Request.

(** ** The older request *)

Definition DTCH : Z := 3.

(** The members that the addition writes; the other ones stay. *)
Definition reset_entity (c : protocol_ctxt_t) (srb_flagP : bool) (rb_idP : Z) (e : pdcp_entity) : pdcp_entity :=
  let x := pe_sn e in
  PdcpEntity (Build_pdcp_t (rlc_mode x) (if rb_idP <? DTCH then 5 else 12) 0 0 (next_pdcp_rx_sn_before_integrity x) 0 0 (rx_hfn_offset x) 4095
      (missing_pdu_bitmap x)) (header_compression_profile e)
    (enb_flag c =? 0) srb_flagP (cipheringAlgorithm e) (integrityProtAlgorithm e) (kUPenc e) (kRRCint e) (kRRCenc e)
    (security_activated e) (status_report e) (lcid e) rb_idP (-1).

Definition cleared_entity (e : pdcp_entity) : pdcp_entity :=
  let x := pe_sn e in
  PdcpEntity (Build_pdcp_t (rlc_mode x) 0 0 0 (next_pdcp_rx_sn_before_integrity x) 0 0 (rx_hfn_offset x) 4095 (missing_pdu_bitmap x))
    (header_compression_profile e) (is_ue e) (is_srb e) (cipheringAlgorithm e) (integrityProtAlgorithm e) (kUPenc e) (kRRCint e) (kRRCenc e)
    0 (status_report e) (lcid e) (pe_rb_id e) (-1).

Definition set_algorithms (security_modeP : Z) (e : pdcp_entity) : pdcp_entity :=
  if (0 <=? security_modeP) && (security_modeP <=? 0x77) then
    PdcpEntity (pe_sn e) (header_compression_profile e) (is_ue e) (is_srb e) (Z.land security_modeP 0x0f)
      (Z.land (Z.shiftr security_modeP 4) 0xf) (kUPenc e) (kRRCint e) (kRRCenc e) (security_activated e) (status_report e) (lcid e)
      (pe_rb_id e) (first_missing_pdu e)
  else e.

Definition rrc_pdcp_config_req (c : protocol_ctxt_t) (srb_flagP : bool) (actionP : config_action_t) (rb_idP security_modeP : Z) (s : globals)
  : cres globals :=
  let key := PDCP_COLL_KEY_VALUE c rb_idP srb_flagP in
  '(h_rc, p) ← hashtable_get (pdcp_coll_p s) key;
  match h_rc with
  | HASH_TABLE_OK =>
      match pdcp_heap s !! p with
      | None => Trap FNull
      | Some e =>
          match actionP with
          | CONFIG_ACTION_ADD => Ret (set_entity s p (reset_entity c srb_flagP rb_idP e))
          | CONFIG_ACTION_MODIFY => Ret s
          | CONFIG_ACTION_REMOVE => remove_key key (set_entity s p (cleared_entity e))
          | CONFIG_ACTION_SET_SECURITY_MODE => Ret (set_entity s p (set_algorithms security_modeP e))
          | _ => Trap FAssert
          end
      end
  | _ =>
      match actionP with
      | CONFIG_ACTION_ADD =>
          let p := calloc (pdcp_heap s) in
          '(h_rc, t, _) ← hashtable_insert node_alloc (pdcp_coll_p s) key p;
          match h_rc with
          | HASH_TABLE_OK =>
              if p =? 0 then Trap FNull
              else Ret (set_table s t (<[p := reset_entity c srb_flagP rb_idP zero_entity]> (pdcp_heap s)) (key_heap s))
          | _ => Ret (set_table s t (pdcp_heap s) (key_heap s))
          end
      | _ => Ret s
      end
  end.

(** ** Removal of a user, initialisation and end *)

Definition pdcp_remove_UE (c : protocol_ctxt_t) (s : globals) : cres (globals * Z) :=
  s ← for_each (fun srb_id => remove_key (PDCP_COLL_KEY_VALUE c srb_id true)) (zrange 0 2) s;
  s ← for_each (fun drb_id => remove_key (PDCP_COLL_KEY_VALUE c drb_id false)) (zrange 0 maxDRB) s;
  Ret (s, 1).

Definition maxServiceCount : Z := 16.

(** [garbage] is what [hashtable_create] leaves in the count; the tables of the users of a user
    equipment are zero before the program starts. *)
Definition pdcp_layer_init (alloc : bool) (garbage : Z) (enbs ues : nat) (keys : gmap Z (list Z)) (rlc : R) : cres globals :=
  let none := replicate (Z.to_nat maxServiceCount) (replicate (Z.to_nat maxSessionPerPMCH) (PdcpMbms false 0)) in
  match hashtable_create alloc garbage (Z.of_nat (maxDRB + 2) * 16) None with
  | None => Trap FAssert
  | t => Ret (PdcpGlobals t ∅ keys [] (replicate ues none) (replicate enbs none) (replicate ues 0) 0 (replicate ues 0) rlc)
  end.

(** The list of the SDUs is freed with the blocks it holds. *)
Definition pdcp_layer_cleanup (s : globals) : cres globals :=
  let '(_, freed) := hashtable_destroy (pdcp_coll_p s) in
  for_each pdcp_free freed s.
End Config.

(** ** The table of the entities *)

(** The table is the map [m] from keys to addresses of entities. *)
Record pdcp_rep {R} (s : pdcp_globals R) (m : gmap Z Z) : Prop := {
  rp_table : exists t, pdcp_coll_p s = Some t /\ ht_rep t m;
  rp_heap k p : m !! k = Some p -> p <> 0 /\ is_Some (pdcp_heap s !! p);
  rp_inj k1 k2 p : m !! k1 = Some p -> m !! k2 = Some p -> k1 = k2;
}.

Section Lemmas.
Context {R : Type} (calloc : gmap Z pdcp_entity -> Z).
Context (Hcalloc : forall h, calloc h <> 0 /\ h !! calloc h = None).

Lemma rep_get (s : pdcp_globals R) m k : pdcp_rep s m ->
  hashtable_get (pdcp_coll_p s) k = Ret (match m !! k with Some p => (HASH_TABLE_OK, p) | None => (HASH_TABLE_KEY_NOT_EXISTS, 0) end).
Proof. intros [(t & -> & Ht) _ _]. by destruct (get_rep t m k Ht) as [-> _]. Qed.

Lemma rep_has (s : pdcp_globals R) m c srb rb p e : pdcp_rep s m -> m !! PDCP_COLL_KEY_VALUE c rb srb = Some p -> pdcp_heap s !! p = Some e -> has_pdcp s c srb rb p e.
Proof. intros Hs Hm He. unfold has_pdcp. rewrite (rep_get s m) by done. rewrite Hm. split_and!; [done|done|]. by destruct (rp_heap _ _ Hs _ _ Hm). Qed.

(** A bearer that is not in the table is added with cleared memory. *)
Lemma find_or_add_new (s : pdcp_globals R) m k : pdcp_rep s m -> m !! k = None ->
  exists t p, find_or_add calloc true k s = Ret (set_table s t (<[p := zero_entity]> (pdcp_heap s)) (key_heap s), Some (CONFIG_ACTION_ADD, p)) /\
    pdcp_rep (set_table s t (<[p := zero_entity]> (pdcp_heap s)) (key_heap s)) (<[k := p]> m) /\ p <> 0.
Proof.
  intros Hs Hk. unfold find_or_add. rewrite (rep_get s m) by done. rewrite Hk. cbn [mbind cres_bind].
  destruct (Hcalloc (pdcp_heap s)) as [Hp0 Hp]. set (p := calloc (pdcp_heap s)) in *.
  destruct Hs as [(t & Et & Ht) Hheap Hinj]. rewrite Et. destruct (insert_rep t m k p Ht) as (t' & f & -> & Ht' & _ & _ & _). rewrite Hk. cbn [mbind cres_bind].
  rewrite (proj2 (Z.eqb_neq p 0)) by done. exists (Some t'), p. split; [done|]. split; [|done]. constructor.
  - by exists t'.
  - intros k' p' Hk'. cbn [pdcp_heap set_table]. apply lookup_insert_Some in Hk' as [[-> <-]|[Hne Hk']]; [split; [done|]; by rewrite lookup_insert_eq|].
    destruct (Hheap _ _ Hk') as [H0 He]. split; [done|]. rewrite lookup_insert_ne; [done|]. intros <-. rewrite Hp in He. by destruct He.
  - assert (Hnew : forall k' , m !! k' = Some p -> False) by (intros k' Hk'; destruct (Hheap _ _ Hk') as [_ [e He]]; by rewrite Hp in He).
    intros k1 k2 q H1 H2. apply lookup_insert_Some in H1 as [[E1 P1]|[_ H1]]; apply lookup_insert_Some in H2 as [[E2 P2]|[_ H2]].
    + congruence.
    + rewrite <- P1 in H2. by apply Hnew in H2.
    + rewrite <- P2 in H1. by apply Hnew in H1.
    + by apply (Hinj _ _ q).
Qed.

(** ** One bearer *)

(** A call of [rrc_pdcp_config_asn1_req], the code, for one bearer, as the scenario of [PdcpBearer]
    makes it: a signalling bearer with the default values, or a data bearer in unacknowledged mode
    with numbers of 12 bits.  It is one of the requests the code accepts: [drb_vars] and
    [pdcp_config_req_asn1] also cover acknowledged mode and numbers of 7 bits, and
    [PdcpData.seven_bit_sdu_misread] shows what the data path does with the latter. *)
Definition one_bearer (c : protocol_ctxt_t) (srb : bool) (rb mode kenc kint kup : Z) (s : pdcp_globals R) : cres (pdcp_globals R * bool) :=
  rrc_pdcp_config_asn1_req calloc true c mode kenc kint kup
    (if srb then Some [SrbToAdd rb (Some SRB_rlc_Config_PR_defaultValue)] else None)
    (if srb then None else Some [PdcpDrb rb (Some (PdcpConfig None (Some PDCP_SN_Size_len12bits) headerCompression_PR_notUsed))]) None None s.

(** The room for the identities of the users. *)
Definition rnti_room (c : protocol_ctxt_t) (s : pdcp_globals R) : Prop :=
  0 <= pdcp_eNB_UE_instance_to_rnti_index s < zlen (pdcp_eNB_UE_instance_to_rnti s) /\
  0 <= module_id c < zlen (pdcp_UE_UE_module_id_to_rnti s).

(** What a new bearer holds. *)
Record new_bearer (c : protocol_ctxt_t) (srb : bool) (mode kenc kint kup : Z) (e : pdcp_entity) : Prop := {
  nb_sn : bearer_sn srb (pe_sn e) /\ tx_count (pe_sn e) = 0 /\ rx_count (pe_sn e) = 0;
  nb_side : is_ue e = negb (enb_flag c =? 1);
  nb_security : security_activated e = b2z (mode <=? 0x77);
  nb_algorithms : mode <= 0x77 -> cipheringAlgorithm e = mode mod 16 /\ integrityProtAlgorithm e = mode / 16 /\
    kRRCenc e = kenc /\ kRRCint e = kint /\ kUPenc e = kup;
  nb_plain : 0x77 < mode -> cipheringAlgorithm e = EEA0_ALG_ID;
}.

Lemma mode_fields mode : 0 <= mode <= 0x77 -> Z.land mode 0x0f = mode mod 16 /\ Z.land (Z.shiftr mode 4) 0xf = mode / 16.
Proof.
  intros Hm. change 0x0f with (2 ^ 4 - 1). rewrite !land_mask, Z.shiftr_div_pow2 by lia. split; [done|]. apply Z.mod_small.
  change (2 ^ 4) with 16. Z.div_mod_to_equations. lia.
Qed.

(** The configuration of an entity with cleared memory. *)
Lemma config_add_ok c srb rb lc mode kenc kint kup p (s : pdcp_globals R) : p <> 0 -> pdcp_heap s !! p = Some zero_entity -> rnti_room c s -> 0 <= mode <= 0xff ->
  exists s' e, pdcp_config_req_asn1 c p srb (if srb then Pdcp.MODE_AM else Pdcp.MODE_UM) CONFIG_ACTION_ADD lc 0 rb
      (if srb then 5 else PDCP_SN_Size_len12bits) 0 0 mode kenc kint kup s = Ret (set_entity s' p e) /\
    new_bearer c srb mode kenc kint kup e /\ pdcp_coll_p s' = pdcp_coll_p s /\ pdcp_heap s' = pdcp_heap s /\ key_heap s' = key_heap s /\
    pdcp_out s' = pdcp_out s /\ pdcp_rlc s' = pdcp_rlc s.
Proof.
  intros Hp He [Hr1 Hr2] Hmode. unfold pdcp_config_req_asn1. rewrite (proj2 (Z.eqb_neq p 0)) by done. cbn [negb c_assert mbind cres_bind]. rewrite He.
  set (e0 := added_entity _ _ _ _ _ _ _ _ _). set (e := if negb (mode =? 255) then _ else _).
  assert (Hnew : new_bearer c srb mode kenc kint kup e).
  { assert (Hsn : bearer_sn srb (pe_sn e0) /\ tx_count (pe_sn e0) = 0 /\ rx_count (pe_sn e0) = 0).
    { replace (pe_sn e0) with (fresh_pdcp (if srb then Pdcp.MODE_AM else Pdcp.MODE_UM) (sn_bits srb)) by by destruct srb.
      split_and!; [|done|done]. constructor; [|done|destruct srb; [by left|by right]|done]. apply fresh_ok. destruct srb; [by left|by do 2 right]. }
    unfold e, pdcp_config_set_security. destruct (Z.leb_spec mode 0x77).
    - rewrite (proj2 (Z.eqb_neq mode 255)), (proj2 (Z.leb_le 0 mode)) by lia. cbn [negb andb].
      destruct (mode_fields mode) as [-> ->]; [lia|]. constructor; [done|done|by rewrite (proj2 (Z.leb_le mode 0x77)) by lia|done|lia].
    - rewrite andb_false_r. replace (if negb (mode =? 255) then e0 else e0) with e0 by by case_if.
      constructor; [done|done|by rewrite (proj2 (Z.leb_gt mode 0x77)) by lia|lia|done]. }
  destruct (enb_flag c =? 1); rewrite aset_ok by done; cbn [mbind cres_bind]; (eexists _, e; split; [reflexivity|done]).
Qed.

Lemma one_bearer_ok c srb rb mode kenc kint kup (s : pdcp_globals R) m : pdcp_rep s m -> m !! PDCP_COLL_KEY_VALUE c rb srb = None -> rnti_room c s ->
  0 < rb < 11 -> 0 <= mode <= 0xff ->
  exists s' p e, one_bearer c srb rb mode kenc kint kup s = Ret (s', false) /\ has_pdcp s' c srb rb p e /\
    new_bearer c srb mode kenc kint kup e /\ pdcp_rep s' (<[PDCP_COLL_KEY_VALUE c rb srb := p]> m) /\
    key_heap s' = key_heap s /\ pdcp_out s' = pdcp_out s /\ pdcp_rlc s' = pdcp_rlc s.
Proof.
  intros Hs Hm Hr Hrb Hmode. destruct (find_or_add_new s m _ Hs Hm) as (t & p & E & Hs1 & Hp). set (s1 := set_table _ _ _ _) in *.
  destruct (config_add_ok c srb rb (if srb then rb else rb + 2) mode kenc kint kup p s1) as (s2 & e & Ec & Hnew & T1 & T2 & T3 & T4 & T5);
    [done|apply lookup_insert_eq|done|done|].
  assert (Hs2 : pdcp_rep (set_entity s2 p e) (<[PDCP_COLL_KEY_VALUE c rb srb := p]> m)).
  { destruct Hs1 as [A B C]. constructor; [by cbn; rewrite T1| |done]. intros k q Hq. destruct (B k q Hq) as [Q0 Q1]. split; [done|].
    cbn. rewrite T2. destruct (decide (p = q)) as [<-|Hne]; [by rewrite lookup_insert_eq|by rewrite lookup_insert_ne]. }
  exists (set_entity s2 p e), p, e. split_and!; try done.
  - unfold one_bearer, rrc_pdcp_config_asn1_req. destruct srb; cbn [default id until_failure mbind cres_bind].
    + unfold add_srb. cbn [srb_Identity srb_rlc_Config]. rewrite E. cbn [mbind cres_bind]. rewrite u16_small by lia. rewrite Ec. done.
    + unfold add_drb. cbn [drb_id_of pdcp_Config]. change (Z.of_nat maxDRB) with 11. rewrite (proj2 (Z.ltb_lt rb 11)) by lia. cbn [c_assert mbind cres_bind].
      rewrite E. cbn [mbind cres_bind drb_vars rlc_AM rlc_UM headerCompression v_rlc_type v_drb_sn v_drb_report v_profile].
      rewrite !u16_small by lia. change (u8 PDCP_SN_Size_len12bits) with PDCP_SN_Size_len12bits. rewrite Ec. done.
  - apply (rep_has _ _ _ _ _ _ _ Hs2); [apply lookup_insert_eq|]. apply lookup_insert_eq.
Qed.
End Lemmas.

(** ** Removal *)

Section Removal.
Context {R : Type}.

Definition key_of (e : pdcp_entity) (k : Z) : Prop := k = kUPenc e \/ k = kRRCint e \/ k = kRRCenc e.

(** The keys of the bearers that [pdcp_remove_UE] looks for. *)
Definition removed_keys (c : protocol_ctxt_t) : list Z :=
  ((fun i => PDCP_COLL_KEY_VALUE c i true) <$> zrange 0 2) ++ ((fun i => PDCP_COLL_KEY_VALUE c i false) <$> zrange 0 maxDRB).

Lemma for_each_keys {S} (f : Z -> S -> cres S) (g : Z -> Z) l : forall s, for_each (fun i => f (g i)) l s = for_each f (g <$> l) s.
Proof. induction l as [|i l IH]; intros s; [done|]. cbn. destruct (f (g i) s); [apply IH|done]. Qed.

Lemma remove_UE_eq c (s : pdcp_globals R) : pdcp_remove_UE c s = (s ← for_each remove_key (removed_keys c) s; Ret (s, 1)).
Proof.
  unfold pdcp_remove_UE, removed_keys. rewrite for_each_app, (for_each_keys remove_key (fun i => PDCP_COLL_KEY_VALUE c i true)).
  destruct (for_each remove_key _ s) as [s1|]; [|done]. cbn [mbind cres_bind]. by rewrite (for_each_keys remove_key (fun i => PDCP_COLL_KEY_VALUE c i false)).
Qed.

(** Freeing the keys of an entity. *)
Lemma free_key_cases k kh : free_key k kh = Trap FNull \/ exists kh', free_key k kh = Ret kh' /\ kh' ⊆ kh /\ (k <> 0 -> kh' !! k = None).
Proof.
  unfold free_key. destruct (Z.eqb_spec k 0); [right; exists kh; by split_and!|]. destruct (kh !! k); [right|by left].
  eexists. split_and!; [reflexivity|apply delete_subseteq|]. intros _. apply lookup_delete_eq.
Qed.

Lemma free_keys_cases e kh : free_keys e kh = Trap FNull \/
  exists kh', free_keys e kh = Ret kh' /\ kh' ⊆ kh /\ forall k, key_of e k -> k <> 0 -> kh' !! k = None /\ is_Some (kh !! k).
Proof.
  unfold free_keys.
  assert (Hstep : forall k kh0 kh1, free_key k kh0 = Ret kh1 -> k <> 0 -> is_Some (kh0 !! k)).
  { intros k kh0 kh1 Hf Hk. unfold free_key in Hf. rewrite (proj2 (Z.eqb_neq k 0)) in Hf by done. destruct (kh0 !! k) eqn:E; [by eexists|done]. }
  destruct (free_key_cases (kUPenc e) kh) as [->|(k1 & E1 & S1 & N1)]; [by left|]. rewrite E1. cbn [mbind cres_bind].
  destruct (free_key_cases (kRRCint e) k1) as [->|(k2 & E2 & S2 & N2)]; [by left|]. rewrite E2. cbn [mbind cres_bind].
  destruct (free_key_cases (kRRCenc e) k2) as [->|(k3 & E3 & S3 & N3)]; [by left|]. right. exists k3. split; [done|].
  split; [by etrans; [|etrans]|]. assert (Hsub : forall (a b : gmap Z (list Z)) k, a ⊆ b -> is_Some (a !! k) -> is_Some (b !! k)).
  { intros a b k Hab [x Hx]. exists x. by eapply lookup_weaken. }
  assert (Hnone : forall (a b : gmap Z (list Z)) k, a ⊆ b -> b !! k = None -> a !! k = None) by (intros; by eapply lookup_weaken_None).
  intros k [->|[->| ->]] Hk; split.
  - apply (Hnone _ _ _ S3), (Hnone _ _ _ S2), (N1 Hk).
  - by eapply Hstep.
  - apply (Hnone _ _ _ S3), (N2 Hk).
  - apply (Hsub _ _ _ S1). by eapply Hstep.
  - by apply N3.
  - apply (Hsub _ _ _ S1), (Hsub _ _ _ S2). by eapply Hstep.
Qed.

(** The removal of a bearer. *)
Lemma remove_key_cases (s : pdcp_globals R) m K : pdcp_rep s m ->
  remove_key K s = Trap FNull \/
  exists s', remove_key K s = Ret s' /\ pdcp_rep s' (delete K m) /\ key_heap s' ⊆ key_heap s /\
    (forall K' p, K' <> K -> m !! K' = Some p -> pdcp_heap s' !! p = pdcp_heap s !! p) /\
    (forall p e k, m !! K = Some p -> pdcp_heap s !! p = Some e -> key_of e k -> k <> 0 -> key_heap s' !! k = None /\ is_Some (key_heap s !! k)).
Proof.
  intros [(t & Et & Ht) Hheap Hinj]. unfold remove_key. rewrite Et. destruct (remove_rep t m K Ht) as (t' & f & -> & Ht' & _ & _ & Hf & _). cbn [mbind cres_bind].
  destruct (m !! K) as [p|] eqn:Em; rewrite Hf.
  2:{ right. eexists. split; [reflexivity|]. rewrite delete_id in * by done. split_and!; try done. constructor; [by exists t'|done|done]. }
  destruct (Hheap _ _ Em) as [Hp [e He]]. unfold free_data. rewrite (proj2 (Z.eqb_neq p 0)) by done. cbn [for_each]. unfold pdcp_free. rewrite (proj2 (Z.eqb_neq p 0)) by done.
  cbn [set_table pdcp_heap key_heap]. rewrite He. destruct (free_keys_cases e (key_heap s)) as [->|(kh & -> & Hsub & Hk)]; [by left|right]. cbn [mbind cres_bind].
  eexists. split; [reflexivity|]. cbn [set_table pdcp_heap key_heap pdcp_coll_p]. split_and!.
  - constructor; cbn [set_table pdcp_heap key_heap pdcp_coll_p].
    + by exists t'.
    + intros k q Hq. apply lookup_delete_Some in Hq as [Hne Hq]. destruct (Hheap _ _ Hq) as [Q0 Q1]. split; [done|]. rewrite lookup_delete_ne; [done|].
      intros <-. apply Hne. by apply (Hinj _ _ p).
    + intros k1 k2 q H1 H2. apply lookup_delete_Some in H1 as [_ H1]. apply lookup_delete_Some in H2 as [_ H2]. by apply (Hinj _ _ q).
  - done.
  - intros K' q Hne Hq. rewrite lookup_delete_ne; [done|]. intros <-. apply Hne. by apply (Hinj _ _ p).
  - intros q e' k Hq He'. injection Hq as <-. rewrite He in He'. injection He' as <-. apply Hk.
Qed.

(** A bearer whose key was freed stops the removal. *)
Lemma remove_freed Ks : forall (s : pdcp_globals R) m K p e k, pdcp_rep s m -> K ∈ Ks -> m !! K = Some p -> pdcp_heap s !! p = Some e ->
  key_of e k -> k <> 0 -> key_heap s !! k = None -> for_each remove_key Ks s = Trap FNull.
Proof.
  induction Ks as [|K1 Ks IH]; intros s m K p e k Hs HK Hm He Hk Hk0 Hn; [by apply elem_of_nil in HK|]. cbn [for_each].
  destruct (remove_key_cases s m K1 Hs) as [->|(s' & -> & Hs' & Hsub & Hother & Hfree)]; [done|]. cbn [mbind cres_bind].
  destruct (decide (K = K1)) as [->|Hne].
  - destruct (Hfree p e k Hm He Hk Hk0) as [_ [x Hx]]. by rewrite Hn in Hx.
  - apply (IH s' (delete K1 m) K p e k); try done.
    + apply elem_of_cons in HK as [|]; done.
    + by rewrite lookup_delete_ne.
    + by rewrite (Hother K p).
    + by eapply lookup_weaken_None.
Qed.

Lemma remove_shared Ks : forall (s : pdcp_globals R) m K1 K2 p1 p2 e1 e2 k, pdcp_rep s m -> K1 ∈ Ks -> K2 ∈ Ks -> K1 <> K2 ->
  m !! K1 = Some p1 -> pdcp_heap s !! p1 = Some e1 -> m !! K2 = Some p2 -> pdcp_heap s !! p2 = Some e2 ->
  key_of e1 k -> key_of e2 k -> k <> 0 -> for_each remove_key Ks s = Trap FNull.
Proof.
  induction Ks as [|K Ks IH]; intros s m K1 K2 p1 p2 e1 e2 k Hs H1 H2 Hne M1 E1 M2 E2 A1 A2 Hk; [by apply elem_of_nil in H1|]. cbn [for_each].
  destruct (remove_key_cases s m K Hs) as [->|(s' & -> & Hs' & Hsub & Hother & Hfree)]; [done|]. cbn [mbind cres_bind].
  apply elem_of_cons in H1 as [->|H1]; apply elem_of_cons in H2 as [->|H2]; try done.
  - destruct (Hfree p1 e1 k M1 E1 A1 Hk) as [Hn _]. apply (remove_freed Ks s' (delete K m) K2 p2 e2 k); try done; [by rewrite lookup_delete_ne|by rewrite (Hother K2 p2)].
  - destruct (Hfree p2 e2 k M2 E2 A2 Hk) as [Hn _]. apply (remove_freed Ks s' (delete K m) K1 p1 e1 k); try done; [by rewrite lookup_delete_ne|by rewrite (Hother K1 p1)].
  - destruct (decide (K = K1)) as [->|N1]; [|destruct (decide (K = K2)) as [->|N2]].
    + destruct (Hfree p1 e1 k M1 E1 A1 Hk) as [Hn _]. apply (remove_freed Ks s' (delete K1 m) K2 p2 e2 k); try done; [by rewrite lookup_delete_ne|by rewrite (Hother K2 p2)].
    + destruct (Hfree p2 e2 k M2 E2 A2 Hk) as [Hn _]. apply (remove_freed Ks s' (delete K2 m) K1 p1 e1 k); try done; [by rewrite lookup_delete_ne|by rewrite (Hother K1 p1)].
    + apply (IH s' (delete K m) K1 K2 p1 p2 e1 e2 k); try done; [by rewrite lookup_delete_ne|by rewrite (Hother K1 p1)|by rewrite lookup_delete_ne|by rewrite (Hother K2 p2)].
Qed.

(** What is not in the list stays. *)
Lemma remove_others Ks : forall (s s' : pdcp_globals R) m K p, pdcp_rep s m -> K ∉ Ks -> m !! K = Some p -> for_each remove_key Ks s = Ret s' ->
  exists m', pdcp_rep s' m' /\ m' !! K = Some p /\ pdcp_heap s' !! p = pdcp_heap s !! p.
Proof.
  induction Ks as [|K1 Ks IH]; intros s s' m K p Hs HK Hm E; cbn [for_each] in E; [injection E as <-; by exists m|].
  apply not_elem_of_cons in HK as [Hne HK]. destruct (remove_key_cases s m K1 Hs) as [Et|(s1 & E1 & Hs1 & _ & Hother & _)]; [by rewrite Et in E|].
  rewrite E1 in E. cbn [mbind cres_bind] in E. destruct (IH s1 s' (delete K1 m) K p Hs1 HK) as (m' & H1 & H2 & H3); [by rewrite lookup_delete_ne|done|].
  exists m'. split_and!; try done. by rewrite H3, (Hother K p).
Qed.
End Removal.

(** ** Properties *)

Lemma pdcp_key_value c rb (srb : bool) : ctxt_ok c -> 0 <= rb < 2 ^ 8 ->
  PDCP_COLL_KEY_VALUE c rb srb = module_id c + rnti c * 2 ^ 8 + enb_flag c * 2 ^ 24 + rb * 2 ^ 25 + b2z srb * 2 ^ 33.
Proof. intros (Hm & Hr & He) Hb. apply (key_value (module_id c) (rnti c) (enb_flag c) rb (b2z srb)); try done. by destruct srb. Qed.

Lemma elem_removed_keys c K : K ∈ removed_keys c -> exists rb srb, K = PDCP_COLL_KEY_VALUE c rb srb /\ 0 <= rb < (if srb : bool then 2 else 11).
Proof.
  unfold removed_keys, zrange. intros HK. apply elem_of_app in HK as [HK|HK]; apply list_elem_of_fmap in HK as (i & -> & Hi); apply elem_of_seqZ in Hi.
  - by exists i, true.
  - by exists i, false.
Qed.

(** C40: keys are freed twice.  [pdcp_remove_UE] visits the entities of the signalling bearers 0 and 1 and of the data bearers 0 to
    10 of a user ([removed_keys]; the signalling bearer 2 is not among them), and [pdcp_free] frees the keys of each entity it
    finds.  Whenever two of these bearers hold the same key, not null, it frees memory that is not allocated any more.  Bearers
    that are added with a security mode of at most 0x77 hold the pointers of the request, so two bearers of one request do; a
    request with the mode 0xff leaves the keys null, and the theorem says nothing about such bearers. *)
Theorem remove_UE_frees_twice {R} c (s : pdcp_globals R) m K1 K2 p1 p2 e1 e2 k :
  pdcp_rep s m -> K1 ∈ removed_keys c -> K2 ∈ removed_keys c -> K1 <> K2 ->
  m !! K1 = Some p1 -> pdcp_heap s !! p1 = Some e1 -> m !! K2 = Some p2 -> pdcp_heap s !! p2 = Some e2 ->
  key_of e1 k -> key_of e2 k -> k <> 0 -> pdcp_remove_UE c s = Trap FNull.
Proof. intros. rewrite remove_UE_eq, (remove_shared _ s m K1 K2 p1 p2 e1 e2 k) by done. done. Qed.

(** Bearers survive their release.  A request that only releases data bearers builds the key from the variable of the signalling
    bearers: without a data bearer 0 nothing is released and the state stays as it is.  And [pdcp_remove_UE] stops before the
    signalling bearer 2: its entity stays in the table with all its state. *)
Theorem bearers_survive_release {R} (calloc : gmap Z pdcp_entity -> Z) c mode kenc kint kup ds (s : pdcp_globals R) m :
  pdcp_rep s m -> ctxt_ok c ->
  (m !! PDCP_COLL_KEY_VALUE c 0 false = None -> rrc_pdcp_config_asn1_req calloc true c mode kenc kint kup None None (Some ds) None s = Ret (s, false)) /\
  (forall s' r p e, has_pdcp s c true 2 p e -> pdcp_remove_UE c s = Ret (s', r) -> has_pdcp s' c true 2 p e).
Proof.
  intros Hs Hc. split.
  - intros Hm. unfold rrc_pdcp_config_asn1_req. cbn [default id until_failure mbind cres_bind negb]. 
    assert (Hd : forall v, v_srb_id v = 0 -> for_each (release_drb c mode kenc kint kup v) ds s = Ret s).
    { intros v Hv. assert (Hr : forall d, release_drb c mode kenc kint kup v d s = Ret s) by (intros d; unfold release_drb; by rewrite Hv, (rep_get s m _ Hs), Hm).
      induction ds as [|d ds IH]; [done|]. cbn [for_each]. by rewrite Hr. }
    by rewrite Hd.
  - intros s' r p e (Hg & He & Hp) E. rewrite (rep_get s m _ Hs) in Hg. destruct (m !! _) as [q|] eqn:Em; [|done]. injection Hg as ->.
    rewrite remove_UE_eq in E. destruct (for_each remove_key _ s) as [s1|] eqn:E1; [|done]. cbn [mbind cres_bind] in E. injection E as <- <-.
    assert (HK : PDCP_COLL_KEY_VALUE c 2 true ∉ removed_keys c).
    { intros HK. apply elem_removed_keys in HK as (rb & srb & HK & Hrb). rewrite !pdcp_key_value in HK by (done || destruct srb; lia). destruct srb; cbn in HK; lia. }
    destruct (remove_others _ s s1 m _ p Hs HK Em E1) as (m' & Hs' & Hm' & Hh). apply (rep_has _ m'); [done|done|]. by rewrite Hh.
Qed.

(** ** Witnesses *)

Lemma init_rep {R} garbage enbs ues keys (rlc : R) : exists s, pdcp_layer_init true garbage enbs ues keys rlc = Ret s /\ pdcp_rep s ∅ /\
  key_heap s = keys /\ pdcp_out s = [] /\ pdcp_rlc s = rlc /\ pdcp_eNB_UE_instance_to_rnti_index s = 0 /\
  zlen (pdcp_eNB_UE_instance_to_rnti s) = Z.of_nat ues /\ zlen (pdcp_UE_UE_module_id_to_rnti s) = Z.of_nat ues.
Proof.
  unfold pdcp_layer_init. destruct (hashtable_create true garbage (Z.of_nat (maxDRB + 2) * 16) None) as [t|] eqn:Et; [|done].
  eexists. split; [reflexivity|]. split_and!; try done; [|unfold zlen; cbn; by rewrite length_replicate..]. constructor.
  - exists t. split; [done|]. by apply (rep_empty garbage (Z.of_nat (maxDRB + 2) * 16) None).
  - intros k p Hk. by rewrite lookup_empty in Hk.
  - intros k1 k2 p Hk. by rewrite lookup_empty in Hk.
Qed.

(** A layer that was initialised, with the keys of [PdcpData], and the bearers added to it. *)
Definition demo_layer : pdcp_globals (list (list Z)) :=
  match pdcp_layer_init true 0 1 16 demo_keys [] with Ret s => s | Trap _ => PdcpGlobals None ∅ ∅ [] [] [] [] 0 [] [] end.

Lemma demo_layer_rep : pdcp_rep demo_layer ∅.
Proof. destruct (init_rep 0 1 16 demo_keys (@nil (list Z))) as (s & E & Hs & _). unfold demo_layer. by rewrite E. Qed.

Definition demo_bearer (srb : bool) (rb mode : Z) (s : pdcp_globals (list (list Z))) : pdcp_globals (list (list Z)) :=
  match one_bearer fresh_address demo_enb srb rb mode 100 200 300 s with Ret (s', _) => s' | Trap _ => s end.

Lemma demo_bearer_ok srb rb mode s m p : pdcp_rep s m -> m !! PDCP_COLL_KEY_VALUE demo_enb rb srb = None -> rnti_room demo_enb s -> 0 < rb < 11 -> 0 <= mode <= 0xff ->
  hashtable_get (pdcp_coll_p (demo_bearer srb rb mode s)) (PDCP_COLL_KEY_VALUE demo_enb rb srb) = Ret (HASH_TABLE_OK, p) ->
  pdcp_rep (demo_bearer srb rb mode s) (<[PDCP_COLL_KEY_VALUE demo_enb rb srb := p]> m).
Proof.
  intros Hs Hm Hr Hrb Hmode. destruct (one_bearer_ok fresh_address fresh_address_ok demo_enb srb rb mode 100 200 300 s m) as (s' & q & e & E & _ & _ & Hs' & _); [done..|].
  unfold demo_bearer. rewrite E, (rep_get s' _ _ Hs'), lookup_insert_eq. intros [= <-]. done.
Qed.

(** A data bearer and a signalling bearer of one user. *)
Definition demo_two (rb mode : Z) : pdcp_globals (list (list Z)) := demo_bearer true rb mode (demo_bearer false 1 mode demo_layer).

Definition demo_map (rb : Z) : gmap Z Z :=
  <[PDCP_COLL_KEY_VALUE demo_enb rb true := 2]> (<[PDCP_COLL_KEY_VALUE demo_enb 1 false := 1]> ∅).

Lemma demo_two_rep rb mode : rb = 1 \/ rb = 2 -> mode = 0x22 \/ mode = 0xff -> pdcp_rep (demo_two rb mode) (demo_map rb).
Proof.
  intros Hrb Hmode. apply demo_bearer_ok; [apply demo_bearer_ok; [apply demo_layer_rep|done|by vm_compute|lia|lia|]|..]; try lia;
    destruct Hrb as [-> | ->], Hmode as [-> | ->]; by vm_compute.
Qed.

(** A user with the signalling bearer 1 and the data bearer 1, configured with the same keys. *)
Lemma remove_UE_frees_twice_witness : pdcp_remove_UE demo_enb (demo_two 1 0x22) = Trap FNull.
Proof.
  destruct (pdcp_heap (demo_two 1 0x22) !! 2) as [e1|] eqn:E1; [|by vm_compute in E1].
  destruct (pdcp_heap (demo_two 1 0x22) !! 1) as [e2|] eqn:E2; [|by vm_compute in E2].
  apply (remove_UE_frees_twice demo_enb (demo_two 1 0x22) (demo_map 1) (PDCP_COLL_KEY_VALUE demo_enb 1 true)
    (PDCP_COLL_KEY_VALUE demo_enb 1 false) 2 1 e1 e2 100).
  - apply demo_two_rep; by left.
  - apply (bool_decide_unpack _). by vm_compute.
  - apply (bool_decide_unpack _). by vm_compute.
  - by vm_compute.
  - by vm_compute.
  - exact E1.
  - by vm_compute.
  - exact E2.
  - vm_compute in E1. injection E1 as <-. by do 2 right.
  - vm_compute in E2. injection E2 as <-. by do 2 right.
  - lia.
Defined.

(** A user with the signalling bearer 2 and the data bearer 1: the release of the data bearer does nothing, and after its removal
    the user keeps the signalling bearer. *)
Lemma bearers_survive_release_witness :
  let s := demo_two 2 0xff in
  rrc_pdcp_config_asn1_req fresh_address true demo_enb 0xff 0 0 0 None None (Some [1]) None s = Ret (s, false) /\
  exists s' e, pdcp_remove_UE demo_enb s = Ret (s', 1) /\ has_pdcp s' demo_enb true 2 2 e.
Proof.
  set (s := demo_two 2 0xff).
  assert (Hs : pdcp_rep s (demo_map 2)) by (apply demo_two_rep; by right).
  destruct (bearers_survive_release fresh_address demo_enb 0xff 0 0 0 [1] s (demo_map 2) Hs) as [H1 H2]; [by vm_compute|].
  split; [apply H1; by vm_compute|].
  destruct (pdcp_heap s !! 2) as [e|] eqn:E; [|by vm_compute in E].
  assert (Hr : match pdcp_remove_UE demo_enb s with Ret (_, r) => r =? 1 | Trap _ => false end = true) by (vm_compute; reflexivity).
  destruct (pdcp_remove_UE demo_enb s) as [[s' r]|] eqn:Er; [|discriminate Hr]. apply Z.eqb_eq in Hr. subst r.
  exists s', e. split; [reflexivity|].
  apply (H2 s' 1 2 e); [|reflexivity]. apply (rep_has s (demo_map 2)); [exact Hs|by vm_compute|exact E].
Defined.
