(* ===== verification/PdcpBearer.v ===== *)
(** A data bearer from PDCP to PDCP.

    The PDCP layers of the eNB and of the user ([PdcpData], configured as in [PdcpConfig]) run over
    the RLC layers of [RlcRrc] and [RlcBearer]: PDCP gives its PDUs to [rlc_data_req], the MAC
    carries what RLC has to send, and RLC gives the PDUs it reassembles to [pdcp_data_ind] with
    [rlc_data_ind] of [openair2/LAYER2/RLC/rlc.c].  The theorem puts the configuration of both
    layers, the ciphering, the segmentation, the transport and the reassembly together.  The bearer
    is one of unacknowledged mode with PDCP sequence numbers of 12 bits. *)
From stdpp Require Import base list numbers gmap.
From coqutil Require Import Byte.
From Stdlib Require Import ZArith Lia.
From S2P Require Import Prelude SplitIface RlcPrims Hashtable RlcTm RlcMac RlcUm RlcUmTx RlcAmEntity RlcUmEntity RlcRrc RlcBearer RlcAmBearer MemBlock Pdcp Osa PdcpData PdcpConfig.
Open Scope Z_scope.

(** ** The layers of a node *)

(** RLC below PDCP: the octets of the block become the bytes of the SDU of RLC. *)
#[global] Instance rlc_below {AM} `{AmOps AM} : RlcRequests (rlc_globals AM) :=
  fun c srb mbms rb mui confirm size mem g => rlc_data_req true c (b2z srb) (b2z mbms) rb mui confirm size (byte.of_Z <$> mem) g.

Section Node.
Context {AM : Type} `{HA : AmOps AM} `{HE : RlcEntity AM} `{HB : BlockAlloc} `{HCr : Crypto} `{HEn : PdcpEnv}.

(** PDCP with RLC below. *)
Abbreviation node := (pdcp_globals (rlc_globals AM)).

(** The SDUs that RLC has delivered go to PDCP; [behind] are the octets of the block behind them. *)
Definition rlc_data_ind (c : protocol_ctxt_t) (srb mbms : bool) (rb : Z) (behind : list Z) (sdu : list byte) (n : node) : cres node :=
  '(n, _) ← pdcp_data_ind c srb mbms rb (zlen sdu) ((byte.unsigned <$> sdu) ++ behind) n; Ret n.

(** An SDU of the upper layer, or a transport opportunity. *)
Inductive bearer_event :=
| SduReq (sdu : list Z)
| Opportunity (tb : Z).

Definition node_step (c1 c2 : protocol_ctxt_t) (d : Z) (behind : list Z) (ev : Z * bearer_event) (n : node * node) : cres (node * node) :=
  match ev.2 with
  | SduReq sdu =>
      '(n1, _, _) ← pdcp_data_req (at_frame c1 ev.1) false d 0 0 (zlen sdu) sdu PDCP_TRANSMISSION_MODE_DATA n.1; Ret (n1, n.2)
  | Opportunity tb =>
      '(r1, r2) ← transport c1 c2 d ev.1 tb (pdcp_rlc n.1) (pdcp_rlc n.2);
      n2 ← for_each (rlc_data_ind c2 false false d behind)
             (drop (length (rlc_delivered (g_rlc (pdcp_rlc n.2)))) (rlc_delivered (g_rlc r2))) (set_pdcp_rlc n.2 r2);
      Ret (set_pdcp_rlc n.1 r1, n2)
  end.

(** RRC adds the bearer to PDCP and to RLC. *)
Definition add_bearer (pcalloc : gmap Z pdcp_entity -> Z) (rcalloc : gmap Z (rlc_union AM um_object) -> Z) (c : protocol_ctxt_t)
  (d : Z) (down up : bool) (t mode kenc kint kup : Z) (n : node) : cres node :=
  '(n, _) ← one_bearer pcalloc c false d mode kenc kint kup n;
  '(r, _) ← add_um_bearer rcalloc c d down up t (pdcp_rlc n);
  Ret (set_pdcp_rlc n r).
End Node.

(** The SDUs of a run, and what RLC sees: PDUs with a header of two octets. *)
Definition requested (evs : list bearer_event) : list (list Z) :=
  omap (fun ev => match ev with SduReq sdu => Some sdu | Opportunity _ => None end) evs.

Definition rlc_event (ev : bearer_event) : um_event :=
  match ev with
  | SduReq sdu => Submit (replicate (length sdu + 2) Byte.x00)
  | Opportunity tb => Grant tb
  end.

(** ** What RLC does depends on the lengths only *)

Definition same_length (q q' : list waiting) : Prop := Forall2 (fun w w' => length w.1 = length w'.1 /\ length w.2 = length w'.2) q q'.

Lemma pack_same q q' : same_length q q' -> forall T c, let '(fs, last, rest, slack) := pack T c q in
  exists fs' rest', pack T c q' = (fs', last, rest', slack) /\ length fs' = length fs /\ same_length rest rest'.
Proof.
  induction 1 as [|[a d] [a' d'] q q' [H1 H2] Hq IH]; intros T c; cbn [pack]; [by eexists _, _; split_and!; [reflexivity| |constructor]|].
  cbn [fst snd] in *. replace (zlen d') with (zlen d) by (unfold zlen; by rewrite H2).
  destruct (T <? zlen d).
  { eexists _, _. split_and!; [reflexivity|done|]. constructor; [|done]. cbn. rewrite !length_app, !length_take, !length_drop. lia. }
  destruct (zlen d =? T); [by eexists _, _|]. destruct (zlen d + c =? T); [by eexists _, _|]. destruct (zlen d + c <? T); [|by eexists _, _].
  specialize (IH (T - (zlen d + c)) (3 - c)). destruct (pack _ _ q) as [[[fs last] rest] slack]. destruct IH as (fs' & rest' & -> & Hf & Hr).
  eexists _, _. split_and!; [reflexivity|cbn; by rewrite Hf|done].
Qed.

Lemma queue_bytes_same q q' : same_length q q' -> queue_bytes q = queue_bytes q'.
Proof.
  induction 1 as [|w w' q q' [_ Hw] _ IH]; [done|]. change (zlen w.2 + queue_bytes q = zlen w'.2 + queue_bytes q'). rewrite IH. unfold zlen. by rewrite Hw.
Qed.

Lemma pdu_room_same five nb q q' : same_length q q' -> pdu_room five nb q = pdu_room five nb q'.
Proof. intros Hq. unfold pdu_room. by rewrite (queue_bytes_same q q' Hq), (Forall2_length _ _ _ Hq). Qed.

(** The size of a PDU is all that RLC sees of it. *)
Definition same_event (ev ev' : um_event) : Prop :=
  match ev, ev' with
  | Submit a, Submit b => length a = length b
  | Grant x, Grant y => x = y
  | _, _ => False
  end.

Lemma event_same five ev ev' q q' : same_event ev ev' -> same_length q q' -> event_ok five true ev q ->
  event_ok five true ev' q' /\ same_length (queue_step five ev q) (queue_step five ev' q').
Proof.
  intros Hev Hq Hok. destruct ev as [a|x], ev' as [b|y]; try done; cbn [same_event] in Hev.
  - cbn [event_ok queue_step] in *. rewrite <- (queue_bytes_same q q' Hq). unfold zlen in *. rewrite <- Hev. split; [done|].
    apply Forall2_app; [done|]. repeat constructor. done.
  - subst y. destruct Hok as [Hx Hok]. cbn [event_ok queue_step]. rewrite <- (pdu_room_same five x q q' Hq).
    pose proof (pack_same q q' Hq (pdu_room five x q) 2) as Hp. destruct (pack _ _ q) as [[[fs last] rest] slack] eqn:Ep.
    destruct Hp as (fs' & rest' & -> & Hf & Hr). split.
    + split; [done|]. intros Hne Hh. unfold zlen in *. rewrite Hf. apply Hok; [|done]. intros ->. by apply Forall2_nil_inv_l in Hq.
    + destruct Hq as [|w w' q q' Hw Hq]; [constructor|]. case_match; [done|by constructor].
Qed.

(** ** The two nodes *)

Lemma octets_bytes l : octets l -> byte.unsigned <$> (byte.of_Z <$> l) = l.
Proof.
  intros Hl. rewrite <- list_fmap_compose. induction Hl as [|o l Ho _ IH]; [done|]. cbn. rewrite IH. f_equal.
  rewrite byte.unsigned_of_Z. unfold byte.wrap. by apply Z.mod_small.
Qed.

(** Only the first octets of the block count. *)
Lemma data_req_prefix {AM} `{AmOps AM} c rb mui confirm size mem (g : rlc_globals AM) : 0 <= size <= zlen mem ->
  rlc_data_req true c 0 0 rb mui confirm size mem g = rlc_data_req true c 0 0 rb mui confirm size (take (Z.to_nat size) mem) g.
Proof.
  intros Hs. assert (E : bget (take (Z.to_nat size) mem) 0 size = bget mem 0 size).
  { rewrite !bget_ok by (unfold zlen in *; rewrite ?length_take; lia). f_equal. rewrite !drop_0, take_take. f_equal. lia. }
  unfold rlc_data_req. cbn [Z.eqb negb mbind cres_bind]. destruct (c_assert _); [|done]. destruct (c_assert _); [|done]. cbn [mbind cres_bind].
  destruct (find_entity _ _) as [[[p u]|]|]; [|done..]. cbn [mbind cres_bind]. by destruct u; rewrite ?E.
Qed.

Section Link.
Context {AM : Type} `{HA : AmOps AM} `{HE : RlcEntity AM} `{HB : BlockAllocOk} `{HCr : CryptoOk} `{HEn : PdcpEnvOk}.
Abbreviation node := (pdcp_globals (rlc_globals AM)).
Context (c1 c2 : protocol_ctxt_t) (d : Z) (down : bool) (sec : bool) (alg : Z) (k : list Z) (behind : list Z).
Context (Hd : 1 <= d <= 10) (Hc2 : enb_flag c2 = 0).
Context (Hroom : word_room sec false alg block_room) (Hbehind : sec = true -> alg = EEA1_128_ALG_ID -> 3 <= zlen behind).

(** One end of the bearer in its layer. *)
Definition pdcp_end (c : protocol_ctxt_t) (ue : bool) (count : pdcp_t -> Z) (n : Z) (s : node) : Prop :=
  exists p e, has_pdcp s c false d p e /\ security sec (key_heap s) false e k /\ bearer_sn false (pe_sn e) /\ cipheringAlgorithm e = alg /\
    is_ue e = ue /\ count (pe_sn e) = n.

(** After the SDUs [sdus] were requested: the PDUs of the first ones, [out], have been delivered by RLC, the other PDUs are in the
    queue [q] of the sender. *)
Record nodes_link (base : list (list byte)) (up0 : list pdcp_upper) (sdus : list (list Z)) (q : list waiting) (out : list (list byte))
  (n : node * node) : Prop := {
  nl_layers : layers_link c1 c2 d down base q out (pdcp_rlc n.1, pdcp_rlc n.2);
  nl_sender : pdcp_end c1 false tx_count (zlen sdus) n.1;
  nl_receiver : pdcp_end c2 true rx_count (zlen out) n.2;
  nl_length : length (out ++ sdus_of q) = length sdus;
  nl_pdus i sdu : sdus !! i = Some sdu -> exists pdu, (out ++ sdus_of q) !! i = Some (byte.of_Z <$> pdu) /\
    carries sec false alg k (Z.of_nat i) d true sdu pdu;
  nl_sdus : Forall sdu_ok sdus;
  nl_count : zlen sdus < 2 ^ 32 * 2 ^ sn_bits false;
  nl_out : pdcp_out n.2 = up0 ++ (handed c2 false d <$> take (length out) sdus);
}.

(** An SDU is requested. *)
Lemma request_nodes base up0 sdus q out n f sdu : nodes_link base up0 sdus q out n -> sdu_ok sdu ->
  zlen sdus + 1 < 2 ^ 32 * 2 ^ sn_bits false -> event_ok down true (Submit (replicate (length sdu + 2) Byte.x00)) q ->
  exists n' pdu, node_step c1 c2 d behind (f, SduReq sdu) n = Ret n' /\ length pdu = (length sdu + 2)%nat /\
    nodes_link base up0 (sdus ++ [sdu]) (q ++ [([], pdu)]) out n'.
Proof.
  intros [Hl (p & e & Hp & Hsec & Hb & Ha & Hue & Hc) Hr Hlen Hpdus Hsdus _ Hout] [Hsz Ho] Hmax Hev. destruct n as [n1 n2]. cbn [fst snd] in *.
  unfold node_step. cbn [fst snd].
  destruct (data_req_ok (at_frame c1 f) sec false d p e k (zlen sdus) 0 0 PDCP_TRANSMISSION_MODE_DATA sdu n1)
    as (x & mem & -> & Hb' & Hc' & Hm & Hca); [exact Hp|exact Hsec|exact Hb|exact Hc|exact Hmax|lia|exact Hsz|exact Ho|done|by rewrite Ha|].
  change (pdu_size false (zlen sdu)) with (zlen sdu + 2 + 0) in *. rewrite Z.add_0_r in *. set (pdu := take _ mem) in *.
  pose proof (zlen_nonneg sdu) as Hs0. assert (Hpl : length pdu = (length sdu + 2)%nat) by (unfold pdu, zlen in *; rewrite length_take; lia).
  assert (Hbp : length (byte.of_Z <$> pdu) = (length sdu + 2)%nat) by by rewrite length_fmap.
  destruct (submit_layers c1 c2 d down base q out (pdcp_rlc n1, pdcp_rlc n2) f (byte.of_Z <$> pdu)) as ([r1 r2] & E & Hl'); [lia|done| |].
  { cbn [event_ok] in *. unfold zlen in *. rewrite length_replicate in Hev. by rewrite Hbp. }
  unfold bearer_step in E. cbn [fst snd] in E. unfold pdcp_rlc_req, rlc_below. rewrite data_req_prefix by (unfold zlen in *; rewrite length_fmap; lia).
  rewrite <- fmap_take. fold pdu. replace (zlen (byte.of_Z <$> pdu)) with (zlen sdu + 2) in E by (unfold zlen in *; lia). cbn [b2z].
  destruct (rlc_data_req _ _ _ _ _ _ _ _ _ _) as [[r st]|]; [|done]. cbn [mbind cres_bind] in E |- *. injection E as <- <-.
  eexists _, (byte.of_Z <$> pdu). split; [reflexivity|]. split; [done|].
  assert (Hq : out ++ sdus_of (q ++ [([], byte.of_Z <$> pdu)]) = (out ++ sdus_of q) ++ [byte.of_Z <$> pdu]) by (unfold sdus_of; by rewrite fmap_app, app_assoc).
  assert (Hn : zlen (sdus ++ [sdu]) = zlen sdus + 1) by by rewrite zlen_app.
  constructor; cbn [fst snd]; try done.
  - exists p, (set_sn e x). split_and!; [by apply (has_set_sn n1)|by apply security_set_sn|done|done|done|]. cbn. by rewrite Hc', Hn.
  - rewrite Hq, !length_app, <- Hlen, length_app. done.
  - intros i sdu' Hi. rewrite Hq. apply lookup_app_Some in Hi as [Hi|[Hge Hi]].
    + destruct (Hpdus i sdu' Hi) as (pdu' & Hi' & Hca'). exists pdu'. split; [by apply lookup_app_l_Some|done].
    + apply list_lookup_singleton_Some in Hi as [Hi <-]. exists pdu. split; [rewrite lookup_app_r by lia; by rewrite Hlen, Hi|].
      rewrite Ha, Hue in Hca. replace (Z.of_nat i) with (zlen sdus) by (unfold zlen; lia). exact Hca.
  - apply Forall_app. split; [done|]. by constructor.
  - by rewrite Hn.
  - rewrite Hout, take_app_le; [done|]. rewrite <- Hlen, length_app. lia.
Qed.

(** RLC gives PDUs to PDCP. *)
Lemma indicate_nodes up0 sdus rest dn : Forall sdu_ok sdus -> zlen sdus < 2 ^ 32 * 2 ^ sn_bits false -> forall out n2,
  pdcp_end c2 true rx_count (zlen out) n2 -> length (out ++ dn ++ rest) = length sdus ->
  (forall i sdu, sdus !! i = Some sdu -> exists pdu, (out ++ dn ++ rest) !! i = Some (byte.of_Z <$> pdu) /\
    carries sec false alg k (Z.of_nat i) d true sdu pdu) ->
  pdcp_out n2 = up0 ++ (handed c2 false d <$> take (length out) sdus) ->
  exists n2', for_each (rlc_data_ind c2 false false d behind) dn n2 = Ret n2' /\ pdcp_end c2 true rx_count (zlen (out ++ dn)) n2' /\
    pdcp_out n2' = up0 ++ (handed c2 false d <$> take (length (out ++ dn)) sdus) /\ pdcp_rlc n2' = pdcp_rlc n2.
Proof.
  intros Hsdus Hmax. induction dn as [|b dn IH]; intros out n2 Hend Hlen Hpdus Hout.
  { exists n2. by rewrite app_nil_r. }
  destruct Hend as (p & e & Hp & Hsec & Hb & Ha & Hue & Hc). destruct (lookup_lt_is_Some_2 sdus (length out)) as [sdu Hi].
  { rewrite <- Hlen, length_app. cbn. lia. }
  destruct (Hpdus _ _ Hi) as (pdu & Hpdu & Hca). change ((b :: dn) ++ rest) with (b :: dn ++ rest) in *. rewrite list_lookup_middle in Hpdu by done. injection Hpdu as ->.
  pose proof (Forall_lookup_1 _ _ _ _ Hsdus Hi) as [Hsz _].
  assert (Hn : zlen out < zlen sdus) by (apply lookup_lt_Some in Hi; unfold zlen; lia). change (Z.of_nat (length out)) with (zlen out) in Hca.
  destruct (data_ind_ok c2 sec false d p e k (zlen out) sdu pdu behind n2) as (x & Ei & Hb' & Hc');
    [exact Hp|exact Hsec|exact Hb|by left|rewrite Hc; pose proof (zlen_nonneg out); lia|rewrite Hc; rewrite sn_bits_pow; lia|lia|lia|exact Hsz|by rewrite Ha, Hue| |].
  { rewrite Ha. intros Hs _ Halg z1 z2 [-> ->]. rewrite zlen_app. specialize (Hbehind Hs Halg). lia. }
  set (n3 := hand_up _ _) in Ei. assert (E1 : rlc_data_ind c2 false false d behind (byte.of_Z <$> pdu) n2 = Ret n3).
  { unfold rlc_data_ind. rewrite octets_bytes by apply (ca_octets _ _ _ _ _ _ _ _ _ Hca).
    replace (zlen (byte.of_Z <$> pdu)) with (zlen pdu) by (unfold zlen; by rewrite length_fmap). by rewrite Ei. }
  cbn [for_each]. rewrite E1. cbn [mbind cres_bind]. destruct (IH (out ++ [byte.of_Z <$> pdu]) n3) as (n2' & E & Hend' & Hout' & Hr').
  - exists p, (set_sn e x). split_and!; [by apply (has_set_sn n2)|by apply security_set_sn|done|done|done|]. cbn [pe_sn set_sn]. by rewrite Hc', zlen_app.
  - rewrite <- app_assoc. exact Hlen.
  - intros i sdu' Hi'. rewrite <- app_assoc. exact (Hpdus i sdu' Hi').
  - unfold n3. cbn [pdcp_out hand_up set_entity set_heap]. rewrite Hout, length_app. cbn [length]. rewrite Nat.add_1_r, (take_S_r _ _ _ Hi), fmap_app, app_assoc. done.
  - exists n2'. rewrite <- app_assoc in Hend', Hout'. split_and!; done.
Qed.

(** A transport opportunity. *)
Lemma opportunity_nodes base up0 sdus q out n f tb : nodes_link base up0 sdus q out n -> event_ok down true (Grant tb) q ->
  tb <= Z.of_nat MAX_DLSCH_PAYLOAD_BYTES ->
  exists n' out', node_step c1 c2 d behind (f, Opportunity tb) n = Ret n' /\ nodes_link base up0 sdus (queue_step down (Grant tb) q) out' n'.
Proof.
  intros [Hl Hs Hr Hlen Hpdus Hsdus Hmax Hout] Hev Htb. destruct n as [n1 n2]. cbn [fst snd] in *.
  destruct (transport_layers c1 c2 d down base q out (pdcp_rlc n1, pdcp_rlc n2) f tb) as ([r1 r2] & dn & E & Hl' & Hdn); [lia|done..|].
  unfold node_step. cbn [fst snd]. unfold bearer_step in E. cbn [fst snd] in E. rewrite E. cbn [mbind cres_bind].
  pose proof (ll_delivered _ _ _ _ _ _ _ _ Hl) as D1. pose proof (ll_delivered _ _ _ _ _ _ _ _ Hl') as D2. cbn [fst snd] in D1, D2.
  rewrite D1, D2, app_assoc, drop_app_length. rewrite Hdn in Hlen, Hpdus.
  destruct (indicate_nodes up0 sdus _ dn Hsdus Hmax out (set_pdcp_rlc n2 r2) Hr Hlen Hpdus Hout) as (n2' & -> & Hend & Hout' & Hr').
  cbn [mbind cres_bind]. eexists _, (out ++ dn). split; [reflexivity|]. constructor; cbn [fst snd]; try done.
  - by rewrite Hr'.
  - by rewrite <- app_assoc.
  - rewrite <- app_assoc. exact Hpdus.
Qed.

(** A run. *)
Lemma run_nodes base up0 evs : forall sdus q q0 out n, nodes_link base up0 sdus q out n -> same_length q0 q ->
  events_ok down true (rlc_event <$> evs.*2) q0 -> Forall sdu_ok (requested evs.*2) ->
  Forall (fun ev => match ev.2 with Opportunity tb => tb <= Z.of_nat MAX_DLSCH_PAYLOAD_BYTES | SduReq _ => True end) evs ->
  zlen sdus + zlen (requested evs.*2) < 2 ^ 32 * 2 ^ sn_bits false ->
  exists n' q' out', for_each (node_step c1 c2 d behind) evs n = Ret n' /\ nodes_link base up0 (sdus ++ requested evs.*2) q' out' n'.
Proof.
  induction evs as [|[f ev] evs IH]; intros sdus q q0 out n Hl Hq Hok Hsdus Htb Hmax.
  { exists n, q, out. cbn. by rewrite app_nil_r. }
  cbn [fmap list_fmap snd] in *. destruct Hok as [Hev Hok]. apply Forall_cons_1 in Htb as [Ht Htb]. cbn [for_each].
  destruct ev as [sdu|tb]; cbn [rlc_event] in *.
  - change (requested (SduReq sdu :: evs.*2)) with (sdu :: requested evs.*2) in *. apply Forall_cons_1 in Hsdus as [Hsdu Hsdus].
    change (zlen (sdu :: requested evs.*2)) with (Z.of_nat (S (length (requested evs.*2)))) in Hmax.
    destruct (event_same down (Submit (replicate (length sdu + 2) Byte.x00)) (Submit (replicate (length sdu + 2) Byte.x00)) q0 q eq_refl Hq Hev) as [Hev' _].
    destruct (request_nodes base up0 sdus q out n f sdu Hl Hsdu) as (n1 & pdu & -> & Hpl & Hl1); [lia|done|]. cbn [mbind cres_bind].
    replace (sdus ++ sdu :: requested evs.*2) with ((sdus ++ [sdu]) ++ requested evs.*2) by by rewrite <- app_assoc.
    apply (IH _ _ _ _ _ Hl1) with (2 := Hok); try done; [|rewrite zlen_app; change (zlen [sdu]) with 1; unfold zlen in *; lia].
    cbn [queue_step]. apply Forall2_app; [done|]. repeat constructor. cbn [snd]. by rewrite length_replicate.
  - change (requested (Opportunity tb :: evs.*2)) with (requested evs.*2) in *.
    destruct (event_same down (Grant tb) (Grant tb) q0 q eq_refl Hq Hev) as [Hev' Hq'].
    destruct (opportunity_nodes base up0 sdus q out n f tb Hl Hev' Ht) as (n1 & out1 & -> & Hl1). cbn [mbind cres_bind].
    by apply (IH _ _ _ _ _ Hl1) with (2 := Hok).
Qed.
End Link.

(** ** Property *)

Section Property.
Context {AM : Type} `{HA : AmOps AM} `{HE : RlcEntity AM} `{HB : BlockAllocOk} `{HCr : CryptoOk} `{HEn : PdcpEnvOk}.
Abbreviation node := (pdcp_globals (rlc_globals AM)).
Context (pcalloc : gmap Z pdcp_entity -> Z) (rcalloc : gmap Z (rlc_union AM um_object) -> Z).

(** A node that does not know the bearer yet, in any state of its other bearers. *)
Definition bearer_free (c : protocol_ctxt_t) (d : Z) (n : node) : Prop :=
  exists m B, pdcp_rep n m /\ m !! PDCP_COLL_KEY_VALUE c d false = None /\ rnti_room c n /\
    bearers_rep (pdcp_rlc n) B /\ B !! bearer_key c 0 d = None.

(** The key of the user plane and the ciphering algorithm of a security mode. *)
Definition bearer_secure (mode kup : Z) (k : list Z) (n : node) : Prop :=
  mode <= 0x77 -> (mode mod 16 = EEA0_ALG_ID \/ mode mod 16 = EEA1_128_ALG_ID \/ mode mod 16 = EEA2_128_ALG_ID) /\
    kup <> 0 /\ key_heap n !! kup = Some k /\ 16 <= zlen k.

(** EEA1 needs the room of whole words in the blocks of both sides. *)
Definition words_fit (mode : Z) (behind : list Z) : Prop :=
  mode <= 0x77 -> mode mod 16 = EEA1_128_ALG_ID -> (forall n b, pdcp_block n = Some b -> n + 3 <= zlen b) /\ 3 <= zlen behind.

Definition mode_algorithm (mode : Z) : Z := if mode <=? 0x77 then mode mod 16 else EEA0_ALG_ID.

(** The configuration of one side. *)
Lemma add_bearer_ok c d down up t ms mode kenc kint kup k n : (forall h, pcalloc h <> 0 /\ h !! pcalloc h = None) ->
  (forall h, rcalloc h <> 0 /\ h !! rcalloc h = None) -> 1 <= d <= 10 -> 0 <= t < 31 -> aget t_Reordering_tab t = Ret ms -> 0 <= mode <= 0xff ->
  bearer_free c d n -> bearer_secure mode kup k n ->
  exists n', add_bearer pcalloc rcalloc c d down up t mode kenc kint kup n = Ret n' /\
    has_um (pdcp_rlc n') (bearer_key c 0 d) (if 0 <? enb_flag c then um_conf (sn_len up) (sn_len down) ms else um_conf (sn_len down) (sn_len up) ms) /\
    rlc_delivered (g_rlc (pdcp_rlc n')) = rlc_delivered (g_rlc (pdcp_rlc n)) /\ pdcp_out n' = pdcp_out n /\
    pdcp_end d (mode <=? 0x77) (mode_algorithm mode) k c (negb (enb_flag c =? 1)) tx_count 0 n' /\
    pdcp_end d (mode <=? 0x77) (mode_algorithm mode) k c (negb (enb_flag c =? 1)) rx_count 0 n'.
Proof.
  intros Hpc Hrc Hd Ht Ems Hmode (m & B & Hm & Hmn & Hroom & HBr & HBn) Hk. unfold add_bearer.
  destruct (one_bearer_ok pcalloc Hpc c false d mode kenc kint kup n m) as (n1 & p & e & -> & Hp & Hnew & _ & Hkh & Ho & Hr); [done..|lia|lia|].
  cbn [mbind cres_bind]. rewrite Hr. destruct (add_um_bearer_ok rcalloc Hrc c d down up t ms (pdcp_rlc n) B) as (r & -> & Hum & Hdel); [lia|done..|].
  cbn [mbind cres_bind]. eexists. split; [reflexivity|]. destruct Hnew as [(Hb & Htx & Hrx) Hside Hact Halg Hplain].
  assert (Hall : has_pdcp (set_pdcp_rlc n1 r) c false d p e /\ security (mode <=? 0x77) (key_heap n1) false e k /\ cipheringAlgorithm e = mode_algorithm mode).
  { unfold mode_algorithm. destruct (Z.leb_spec mode 0x77) as [Hle|Hgt].
    - destruct (Halg Hle) as (Ha & _ & _ & _ & Hkup). destruct (Hk Hle) as (Hcases & Hk0 & Hkk & Hkl). split_and!; [exact Hp| |done].
      split; [exact Hact|]. intros _. constructor; [by rewrite Ha| |done|done]. unfold key_from. rewrite Hkup, Z.add_0_r, Hkh, Hkk.
      by rewrite (proj2 (Z.eqb_neq kup 0)).
    - split_and!; [exact Hp|by split|by apply Hplain]. }
  destruct Hall as (A1 & A2 & A3). split_and!; [exact Hum|exact Hdel|exact Ho|by exists p, e..].
Qed.
End Property.


(** ** Witness *)

#[local] Instance demo_blocks : BlockAlloc := fresh_block.
#[local] Instance demo_blocks_ok : BlockAllocOk := fresh_block_ok.
#[local] Instance demo_peek : HeadPeek := no_peek.

Definition demo_events : list (Z * bearer_event) :=
  [(7, SduReq [1; 2; 3]); (8, SduReq [4; 5]); (9, Opportunity 5); (10, Opportunity 10)].

(** Layers that have just been initialised. *)
Lemma demo_node_free c (g : rlc_globals am_entity) : module_id c = 0 -> bearers_rep g ∅ ->
  exists n, pdcp_layer_init true 0 1 16 demo_keys g = Ret n /\ bearer_free c 1 n /\ bearer_secure 0x22 300 (replicate 32 3) n /\ pdcp_out n = [].
Proof.
  intros Hc Hg. destruct (init_rep 0 1 16 demo_keys g) as (n & E & Hn & Hk & Ho & Hr & Hi & Hl1 & Hl2). exists n. split_and!; try done.
  - exists ∅, ∅. split_and!; try done; [|by rewrite Hr]. unfold rnti_room. rewrite Hi, Hl1, Hl2, Hc. lia.
  - intros _. rewrite Hk. split_and!; [by do 2 right|done|done|by vm_compute].
Qed.

