(* ===== verification/MacHeader.v ===== *)
(** The headers of the MAC PDUs of the shared channels, in both directions.

    Downlink: [generate_dlsch_header] of the eNB ([eNB_scheduler_dlsch.c]), [parse_header] and the
    walk over the payload in [ue_send_sdu] of the user ([ue_procedures.c]).  Uplink:
    [generate_ulsch_header] of the user and [parse_ulsch_header] of the eNB ([eNB_scheduler_ulsch.c]); the
    walk of the eNB over the payload is in [MacUlsch].  A subheader is written through packed bit fields: the first octet
    holds the LCID in its five low bits, then E and R; a length follows on one or two octets, with the
    bit F on top.  In the DU of the split these are the blocks whose payload goes through the
    mailboxes of [SplitDU]. *)
From stdpp Require Import base list numbers.
From coqutil Require Import Byte.
From Stdlib Require Import ZArith Lia.
From S2P Require Import Prelude.
Open Scope Z_scope.

(** ** Constants ([defs.h]) *)

Definition UE_CONT_RES : Z := 28.
Definition TIMING_ADV_CMD : Z := 29.
Definition DRX_CMD : Z := 30.
Definition SHORT_PADDING : Z := 31.
Definition EXTENDED_POWER_HEADROOM : Z := 25.
Definition POWER_HEADROOM : Z := 26.
Definition CRNTI : Z := 27.
Definition TRUNCATED_BSR : Z := 28.
Definition SHORT_BSR : Z := 29.
Definition LONG_BSR : Z := 30.
Definition MAX_NUM_CE : nat := 5.
Definition MAC_NB_RB_MAX : nat := 14.

(** ** Writing a header *)

(** The variables of the two functions: the buffer, [mac_header_ptr] as an offset, [first_element],
    [last_size], and the control elements collected so far (at most 7 of the 16 octets). *)
Record hdr := Hdr {
  h_mem : list byte;
  h_ptr : Z;
  h_first : bool;
  h_last : Z;
  h_ces : list byte;
}.

(** [mac_header_ptr->E = 1] *)
Definition set_E (h : hdr) : cres hdr :=
  o ← octet (h_mem h) (h_ptr h);
  mem ← put_octet (h_mem h) (h_ptr h) (Z.lor o 32);
  Ret (Hdr mem (h_ptr h) (h_first h) (h_last h) (h_ces h)).

(** The place of the next subheader, [step] octets behind the last one. *)
Definition next_sub (step : Z) (h : hdr) : cres hdr :=
  if h_first h then
    h ← set_E h; Ret (Hdr (h_mem h) (h_ptr h + step) true (h_last h) (h_ces h))
  else Ret (Hdr (h_mem h) (h_ptr h) true (h_last h) (h_ces h)).

(** A subheader of one octet, with R and E clear; [ce] is its control element. *)
Definition put_fixed (lcid : Z) (ce : list byte) (h : hdr) : cres hdr :=
  mem ← put_octet (h_mem h) (h_ptr h) (Z.land lcid 31);
  Ret (Hdr mem (h_ptr h) (h_first h) 1 (h_ces h ++ ce)).

Definition put_ce (lcid : Z) (ce : list byte) (h : hdr) : cres hdr :=
  h ← next_sub 1 h; put_fixed lcid ce h.

(** [SCH_SUBHEADER_SHORT] or [SCH_SUBHEADER_LONG]; the latter has a fourth octet of padding. *)
Definition put_sized (lcid len : Z) (h : hdr) : cres hdr :=
  mem ← put_octet (h_mem h) (h_ptr h) (Z.land lcid 31);
  if len <? 128 then
    mem ← put_octet mem (h_ptr h + 1) (Z.land len 127);
    Ret (Hdr mem (h_ptr h) (h_first h) 2 (h_ces h))
  else
    mem ← put_octet mem (h_ptr h + 1) (Z.lor 128 (Z.land (Z.shiftr len 8) 127));
    mem ← put_octet mem (h_ptr h + 2) (Z.land len 255);
    mem ← put_octet mem (h_ptr h + 3) 0;
    Ret (Hdr mem (h_ptr h) (h_first h) 3 (h_ces h)).

Definition put_sdu (sdu_lengths sdu_lcids : list Z) (i : Z) (h : hdr) : cres hdr :=
  len ← aget sdu_lengths i;
  lcid ← aget sdu_lcids i;
  h ← next_sub (h_last h) h; put_sized lcid len h.

(** One or two octets of padding at the start. *)
Definition put_short_padding (short_padding : Z) (h : hdr) : cres hdr :=
  h ← (if (short_padding =? 1) || (short_padding =? 2) then
         h ← put_fixed SHORT_PADDING [] h;
         Ret (Hdr (h_mem h) (h_ptr h) true (h_last h) (h_ces h))
       else Ret h);
  if short_padding =? 2 then put_ce SHORT_PADDING [] h else Ret h.

(** The end of the subheaders, and the control elements behind them. *)
Definition put_end (post_padding : Z) (h : hdr) : cres (list byte * Z) :=
  h ← (if 0 <? post_padding then
         h ← set_E h;
         put_fixed SHORT_PADDING [] (Hdr (h_mem h) (h_ptr h + h_last h) (h_first h) (h_last h) (h_ces h))
       else Ret h);
  let ptr := h_ptr h + 1 in
  mem ← (if 0 <? zlen (h_ces h) then bput (h_mem h) ptr (h_ces h) else Ret (h_mem h));
  Ret (mem, u8 (ptr + u8 (zlen (h_ces h)))).

(** The result is the buffer and the size of the header.  [ue_cont_res_id] is [None] for [NULL]. *)
Definition generate_dlsch_header (mac_header : list byte) (num_sdus : nat) (sdu_lengths sdu_lcids : list Z)
  (drx_cmd timing_advance_cmd : Z) (ue_cont_res_id : option (list byte)) (short_padding post_padding : Z)
  : cres (list byte * Z) :=
  h ← put_short_padding short_padding (Hdr mac_header 0 false 0 []);
  h ← (if negb (drx_cmd =? 255) then put_ce DRX_CMD [] h else Ret h);
  h ← (if negb (timing_advance_cmd =? 0)
       then put_ce TIMING_ADV_CMD [byte.of_Z (Z.land (timing_advance_cmd + 31) 63)] h else Ret h);
  h ← match ue_cont_res_id with
      | Some id => ce ← bget id 0 6; put_ce UE_CONT_RES ce h
      | None => Ret h
      end;
  h ← for_each (put_sdu sdu_lengths sdu_lcids) (zrange 0 num_sdus) h;
  put_end post_padding h.

(** [BSR_LONG]: the four buffer sizes, 6 bits each; the structure has 32 bits. *)
Record BSR_LONG := BsrLong { Buffer_size0 : Z; Buffer_size1 : Z; Buffer_size2 : Z; Buffer_size3 : Z }.
Definition BSR_LONG_SIZE : Z := 4.

(** The four octets written for a long report. *)
Definition long_bsr_ce (b : BSR_LONG) : list byte :=
  byte.of_Z <$>
    [u8 (Z.lor (Z.shiftl (Buffer_size0 b) 2) (Z.shiftr (Z.land (Buffer_size1 b) 48) 4));
     u8 (Z.lor (Z.shiftl (Z.land (Buffer_size1 b) 15) 4) (Z.shiftr (Z.land (Buffer_size2 b) 60) 2));
     u8 (Z.lor (Z.shiftl (Z.land (Buffer_size2 b) 3) 2) (Z.land (Buffer_size3 b) 63));
     0].

(** The reports of one octet are given as that octet.  [crnti] is copied as a 16-bit integer of the
    machine, the low octet first. *)
Definition generate_ulsch_header (mac_header : list byte) (num_sdus : nat) (short_padding : Z)
  (sdu_lengths sdu_lcids : list Z) (power_headroom : option byte) (crnti : option Z)
  (truncated_bsr short_bsr : option byte) (long_bsr : option BSR_LONG) (post_padding : Z)
  : cres (list byte * Z) :=
  h ← put_short_padding short_padding (Hdr mac_header 0 false 0 []);
  h ← match power_headroom with Some ph => put_ce POWER_HEADROOM [ph] h | None => Ret h end;
  h ← match crnti with
      | Some c => put_ce CRNTI [byte.of_Z (u8 c); byte.of_Z (u8 (Z.shiftr c 8))] h
      | None => Ret h
      end;
  h ← match truncated_bsr, short_bsr, long_bsr with
      | Some b, _, _ => put_ce TRUNCATED_BSR [b] h
      | None, Some b, _ => put_ce SHORT_BSR [b] h
      | None, None, Some b => put_ce LONG_BSR (long_bsr_ce b) h
      | None, None, None => Ret h
      end;
  h ← for_each (put_sdu sdu_lengths sdu_lcids) (zrange 0 num_sdus) h;
  put_end post_padding h.

(** ** Reading a header *)

(** The variables of the two functions, with the arrays of the caller. *)
Record parsed := Parsed {
  p_ptr : Z;
  p_ce_len : Z;               (* uint16_t *)
  p_ces : list Z;             (* rx_ces[MAX_NUM_CE] *)
  p_num_ce : Z;               (* uint8_t *)
  p_lcids : list Z;           (* rx_lcids[NB_RB_MAX] *)
  p_lengths : list Z;         (* rx_lengths[NB_RB_MAX], uint16_t *)
  p_num_sdu : Z;              (* uint8_t *)
}.

(** The implicit length of the last SDU: what the block has left. *)
Definition last_length (tb_length ptr : Z) (p : parsed) : cres Z :=
  for_each (fun i len => l ← aget (p_lengths p) i; Ret (u16 (len - l)))
    (zrange 0 (Z.to_nat (p_num_sdu p))) (u16 (tb_length - ptr - p_ce_len p)).

Definition parse_sdu (mem : list byte) (tb_length : Z) (more : bool) (lcid : Z) (p : parsed) : cres parsed :=
  '(ptr, length) ←
    (if negb more then
       length ← last_length tb_length (p_ptr p + 1) p; Ret (p_ptr p + 1, length)
     else
       o ← octet mem (p_ptr p + 1);
       if Z.testbit o 7 then
         o3 ← octet mem (p_ptr p + 2);
         Ret (p_ptr p + 3, Z.lor (Z.shiftl (Z.land o 127) 8) (Z.land o3 255))
       else Ret (p_ptr p + 2, Z.land o 127));
  lcids ← aset (p_lcids p) (p_num_sdu p) lcid;
  lengths ← aset (p_lengths p) (p_num_sdu p) length;
  Ret (Parsed ptr (p_ce_len p) (p_ces p) (p_num_ce p) lcids lengths (u8 (p_num_sdu p + 1))).

Definition parse_ce (ce_size : Z -> cres Z) (lcid : Z) (p : parsed) : cres parsed :=
  if lcid =? SHORT_PADDING then
    Ret (Parsed (p_ptr p + 1) (p_ce_len p) (p_ces p) (p_num_ce p) (p_lcids p) (p_lengths p) (p_num_sdu p))
  else
    ces ← aset (p_ces p) (p_num_ce p) lcid;
    n ← ce_size lcid;
    Ret (Parsed (p_ptr p + 1) (u16 (p_ce_len p + n)) ces (u8 (p_num_ce p + 1)) (p_lcids p) (p_lengths p) (p_num_sdu p)).

(** The loop of both functions, which differ by the first LCID of a control element and the sizes of
    the elements. *)
Fixpoint parse_loop (fuel : nat) (first_ce : Z) (ce_size : Z -> cres Z) (mem : list byte) (tb_length : Z) (p : parsed)
  : cres parsed :=
  match fuel with
  | O => Trap FFuel
  | S fuel =>
      o ← octet mem (p_ptr p);
      let more := Z.testbit o 5 in
      let lcid := Z.land o 31 in
      p ← (if lcid <? first_ce then parse_sdu mem tb_length more lcid p else parse_ce ce_size lcid p);
      if more then parse_loop fuel first_ce ce_size mem tb_length p else Ret p
  end.

Definition dl_ce_size (lcid : Z) : cres Z :=
  Ret (if lcid =? TIMING_ADV_CMD then 1 else if lcid =? UE_CONT_RES then 6 else 0).

Definition ul_ce_size (lcid : Z) : cres Z :=
  if lcid =? LONG_BSR then Ret 3
  else if lcid =? CRNTI then Ret 2
  else if (lcid =? POWER_HEADROOM) || (lcid =? TRUNCATED_BSR) || (lcid =? SHORT_BSR) then Ret 1
  else Trap FExit.

(** The arrays of the caller, whatever they hold. *)
Definition parse_start (ces lcids lengths : list Z) : parsed := Parsed 0 0 ces 0 lcids lengths 0.

Definition parse_header (mem : list byte) (ces lcids lengths : list Z) (tb_length : Z) : cres parsed :=
  parse_loop (S (length mem)) UE_CONT_RES dl_ce_size mem tb_length (parse_start ces lcids lengths).

Definition parse_ulsch_header (mem : list byte) (ces lcids lengths : list Z) (tb_length : Z) : cres parsed :=
  parse_loop (S (length mem)) EXTENDED_POWER_HEADROOM ul_ce_size mem tb_length (parse_start ces lcids lengths).

(** ** The user receives a PDU ([ue_send_sdu]) *)

(** What the function reads and changes: the state of the random access, the message 3 that was sent
    ([CCCH_pdu.payload]), and the calls it makes: the timing advances, the end of the random access
    (successful or not), and the SDUs given to RRC and RLC by logical channel. *)
Record ue_mac := UeMac {
  RA_active : Z;
  RA_contention_resolution_timer_active : Z;
  CCCH_payload : list byte;
  ta_log : list Z;
  ra_log : list bool;
  sdu_log : list (Z * list byte);
}.

Fixpoint same_octets (a : list byte) (i : Z) (b : list byte) (j : Z) (n : nat) : cres bool :=
  match n with
  | O => Ret true
  | S n => x ← octet a i; y ← octet b j; if x =? y then same_octets a (i + 1) b (j + 1) n else Ret false
  end.

(** The loop over the control elements at [ptr]; [None] is the return after a contention.  The loop
    that compares the contention resolution identity uses the index of the outer one. *)
Fixpoint ue_ce_loop (fuel : nat) (mem : list byte) (p : parsed) (i ptr : Z) (u : ue_mac) : cres (option Z * ue_mac) :=
  match fuel with
  | O => Trap FFuel
  | S fuel =>
      if i <? p_num_ce p then
        ce ← aget (p_ces p) i;
        if ce =? UE_CONT_RES then
          if RA_active u =? 1 then
            ok ← same_octets (CCCH_payload u) 3 mem ptr 6;
            let u := UeMac 0 0 (CCCH_payload u) (ta_log u) (ra_log u ++ [ok]) (sdu_log u) in
            if negb ok then Ret (None, u) else ue_ce_loop fuel mem p 7 (ptr + 6) u
          else ue_ce_loop fuel mem p (i + 1) (ptr + 6) u
        else if ce =? TIMING_ADV_CMD then
          v ← octet mem ptr;
          ue_ce_loop fuel mem p (i + 1) (ptr + 1)
            (UeMac (RA_active u) (RA_contention_resolution_timer_active u) (CCCH_payload u) (ta_log u ++ [v]) (ra_log u) (sdu_log u))
        else if ce =? DRX_CMD then ue_ce_loop fuel mem p (i + 1) (ptr + 1) u
        else ue_ce_loop fuel mem p (i + 1) ptr u
      else Ret (Some ptr, u)
  end.

(** One SDU: the CCCH goes to RRC, the other bearers to RLC, an unknown channel is left out. *)
Definition ue_sdu (mem : list byte) (p : parsed) (i : Z) (s : Z * ue_mac) : cres (Z * ue_mac) :=
  lcid ← aget (p_lcids p) i;
  len ← aget (p_lengths p) i;
  u ← (if lcid <? Z.of_nat MAC_NB_RB_MAX then
         d ← bget mem s.1 len;
         Ret (UeMac (RA_active s.2) (RA_contention_resolution_timer_active s.2) (CCCH_payload s.2) (ta_log s.2) (ra_log s.2)
                (sdu_log s.2 ++ [(lcid, d)]))
       else Ret s.2);
  Ret (s.1 + len, u).

Definition ue_send_sdu (sdu : list byte) (sdu_len : Z) (ces lcids lengths : list Z) (u : ue_mac) : cres ue_mac :=
  p ← parse_header sdu ces lcids lengths sdu_len;
  '(ptr, u) ← ue_ce_loop 256 sdu p 0 (p_ptr p) u;
  match ptr with
  | None => Ret u
  | Some ptr => '(_, u) ← for_each (ue_sdu sdu p) (zrange 0 (Z.to_nat (p_num_sdu p))) (ptr, u); Ret u
  end.

(** ** Specification: a header as a list of subheaders *)

(** A subheader of one octet, or one with a length. *)
Record sub := Sub { s_lcid : Z; s_len : option Z }.

Definition enc_len (n : Z) : list Z := if n <? 128 then [n] else [128 + n / 256; n mod 256].

Definition enc_sub (more : bool) (s : sub) : list Z :=
  (s_lcid s + (if more then 32 else 0)) :: match s_len s with Some n => enc_len n | None => [] end.

(** The octets of subheaders that are followed by another one. *)
Definition enc_subs (l : list sub) : list Z := l ≫= enc_sub true.

(** Lengths on 15 bits, for the channels below [first_ce] only. *)
Definition sub_wf (first_ce : Z) (s : sub) : Prop :=
  match s_len s with
  | Some n => 0 <= s_lcid s < first_ce /\ 0 <= n < 2 ^ 15
  | None => first_ce <= s_lcid s
  end /\ 0 <= s_lcid s < 32.

(** The state of the writing functions: [l] has been written, its last subheader without the bit E, and
    [rest] follows it in the buffer. *)
Inductive hdr_at : list sub -> list byte -> hdr -> Prop :=
| at_start rest ces : hdr_at [] rest (Hdr rest 0 false 0 ces)
| at_sub pre s rest ces :
    hdr_at (pre ++ [s]) rest
      (Hdr ((byte.of_Z <$> enc_subs pre) ++ (byte.of_Z <$> enc_sub false s) ++ rest) (zlen (enc_subs pre)) true
         (zlen (enc_sub false s)) ces).

(** ** Writing *)

Lemma enc_subs_snoc l s : enc_subs (l ++ [s]) = enc_subs l ++ enc_sub true s.
Proof. unfold enc_subs. rewrite bind_app. cbn. by rewrite app_nil_r. Qed.

Lemma enc_subs_app l k : enc_subs (l ++ k) = enc_subs l ++ enc_subs k.
Proof. apply bind_app. Qed.

Lemma set_E_octet x : 0 <= x < 32 -> Z.lor x 32 = x + 32.
Proof. intros Hx. change 32 with (Z.shiftl 1 5) at 1. rewrite lor_shiftl_add by lia. lia. Qed.

(** The bit E of the subheader at the end of a known prefix. *)
Lemma set_E_at A s rest first last ces : 0 <= s_lcid s < 32 ->
  set_E (Hdr ((byte.of_Z <$> A) ++ (byte.of_Z <$> enc_sub false s) ++ rest) (zlen A) first last ces) =
    Ret (Hdr ((byte.of_Z <$> A ++ enc_sub true s) ++ rest) (zlen A) first last ces).
Proof.
  intros Hs. unfold set_E. cbn [h_mem h_ptr h_first h_last h_ces enc_sub fmap list_fmap app]. rewrite Z.add_0_r.
  rewrite octet_app by (by rewrite zlen_fmap). cbn [mbind cres_bind].
  rewrite byte.unsigned_of_Z. unfold byte.wrap. rewrite Z.mod_small, set_E_octet by lia.
  rewrite put_octet_app by (by rewrite zlen_fmap). cbn [mbind cres_bind]. rewrite u8_small by lia.
  rewrite fmap_app. by rewrite <- app_assoc.
Qed.

Lemma next_sub_ok l rest h : hdr_at l rest h -> Forall (fun s => 0 <= s_lcid s < 32) l ->
  next_sub (h_last h) h =
    Ret (Hdr ((byte.of_Z <$> enc_subs l) ++ rest) (zlen (enc_subs l)) true (h_last h) (h_ces h)).
Proof.
  intros [|pre s rest0 ces] Hl; [done|]. apply Forall_app in Hl as [_ Hs]. apply Forall_cons_1 in Hs as [Hs _].
  unfold next_sub. cbn [h_first h_last h_ces]. rewrite set_E_at by exact Hs. cbn [mbind cres_bind h_mem h_ptr h_last h_ces].
  rewrite enc_subs_snoc, zlen_app. by destruct (s_len s).
Qed.

(** The octets of a subheader behind a prefix. *)
Lemma put_fixed_ok A lcid ce r rest first last ces : 0 <= lcid < 32 ->
  put_fixed lcid ce (Hdr ((byte.of_Z <$> A) ++ r :: rest) (zlen A) first last ces) =
    Ret (Hdr ((byte.of_Z <$> A) ++ (byte.of_Z <$> enc_sub false (Sub lcid None)) ++ rest) (zlen A) first 1 (ces ++ ce)).
Proof.
  intros Hl. unfold put_fixed. cbn [h_mem h_ptr h_first h_ces]. rewrite put_octet_app by (by rewrite zlen_fmap).
  cbn [mbind cres_bind enc_sub s_lcid s_len fmap list_fmap app]. change 31 with (2 ^ 5 - 1).
  rewrite land_mask, Z.mod_small, u8_small, Z.add_0_r by lia. done.
Qed.

Lemma put_sized_ok A lcid len rest first last ces : 0 <= lcid < 32 -> 0 <= len < 2 ^ 15 -> 4 <= zlen rest ->
  exists rest', put_sized lcid len (Hdr ((byte.of_Z <$> A) ++ rest) (zlen A) first last ces) =
      Ret (Hdr ((byte.of_Z <$> A) ++ (byte.of_Z <$> enc_sub false (Sub lcid (Some len))) ++ rest') (zlen A) first
             (zlen (enc_sub false (Sub lcid (Some len)))) ces) /\
    zlen rest' + zlen (enc_len len) + 1 = zlen rest.
Proof.
  intros Hl Hn Hr. destruct rest as [|r0 [|r1 [|r2 [|r3 rest]]]]; try (unfold zlen in Hr; cbn in Hr; lia).
  unfold put_sized. cbn [h_mem h_ptr h_first h_ces]. rewrite put_octet_app by (by rewrite zlen_fmap). cbn [mbind cres_bind].
  change 31 with (2 ^ 5 - 1). rewrite land_mask, (Z.mod_small lcid), (u8_small lcid) by lia.
  change 127 with (2 ^ 7 - 1). change 255 with (2 ^ 8 - 1). rewrite !land_mask by lia. unfold enc_sub, enc_len.
  cbn [s_lcid s_len]. rewrite Z.add_0_r. rewrite (cons_middle (byte.of_Z lcid)), (app_assoc _ [byte.of_Z lcid]).
  destruct (Z.ltb_spec len 128).
  { rewrite put_octet_app by (rewrite zlen_app, zlen_fmap; done). cbn [mbind cres_bind]. rewrite Z.mod_small, u8_small by lia.
    eexists. split; [rewrite <- app_assoc; reflexivity|]. unfold zlen. cbn [length]. lia. }
  rewrite put_octet_app by (rewrite zlen_app, zlen_fmap; done). cbn [mbind cres_bind].
  rewrite (cons_middle (byte.of_Z (u8 _))), (app_assoc _ [byte.of_Z (u8 _)]).
  rewrite put_octet_app by (rewrite !zlen_app, zlen_fmap; unfold zlen; cbn [length]; lia). cbn [mbind cres_bind].
  rewrite (cons_middle (byte.of_Z (u8 (len mod _)))), (app_assoc _ [byte.of_Z (u8 (len mod _))]).
  rewrite put_octet_app by (rewrite !zlen_app, zlen_fmap; unfold zlen; cbn [length]; lia). cbn [mbind cres_bind].
  rewrite Z.lor_comm. change 128 with (Z.shiftl 1 7). rewrite lor_shiftl_add, Z.shiftr_div_pow2 by (lia || apply Z.mod_pos_bound; lia).
  assert (0 <= len / 2 ^ 8 < 2 ^ 7) by (split; [apply Z.div_pos; lia|apply Z.div_lt_upper_bound; lia]).
  pose proof (Z.mod_pos_bound len (2 ^ 8) ltac:(lia)).
  rewrite (Z.mod_small (len / 2 ^ 8)), (u8_small (_ + _)), (u8_small (len mod _)) by lia.
  eexists. split; [rewrite <- !app_assoc, Z.add_comm; reflexivity|]. unfold zlen. cbn [length]. lia.
Qed.

(** A header under construction: its subheaders, its control elements and the octets left. *)
Definition emits (l : list sub) (ces : list byte) (n : Z) (h : hdr) : Prop :=
  exists rest, hdr_at l rest h /\ h_ces h = ces /\ zlen rest = n.

Definition lcids_ok (l : list sub) : Prop := Forall (fun s => 0 <= s_lcid s < 32) l.

Lemma emit_ce l ces n h lcid ce : emits l ces n h -> lcids_ok l -> Forall (fun s => s_len s = None) l ->
  0 <= lcid < 32 -> 1 <= n ->
  exists h', put_ce lcid ce h = Ret h' /\ emits (l ++ [Sub lcid None]) (ces ++ ce) (n - 1) h'.
Proof.
  intros (rest & Hh & Hc & Hn) Hl Hf Hlcid Hle.
  assert (Hnext : next_sub 1 h = next_sub (h_last h) h).
  { destruct Hh as [|pre s rest ces0]; [done|]. apply Forall_app in Hf as [_ Hf]. apply Forall_cons_1 in Hf as [Hf _].
    cbn [h_last]. unfold enc_sub. by rewrite Hf. }
  unfold put_ce. rewrite Hnext, (next_sub_ok l rest h Hh Hl). cbn [mbind cres_bind].
  destruct rest as [|r rest]; [unfold zlen in Hn; cbn in Hn; lia|]. rewrite put_fixed_ok by done.
  eexists. split; [reflexivity|]. exists rest. split; [|split; [by rewrite Hc|unfold zlen in *; cbn [length] in Hn; lia]].
  exact (at_sub l (Sub lcid None) rest (h_ces h ++ ce)).
Qed.

Lemma emit_sdu l ces n h lens lcids i lcid len : emits l ces n h -> lcids_ok l ->
  aget lens i = Ret len -> aget lcids i = Ret lcid -> 0 <= lcid < 32 -> 0 <= len < 2 ^ 15 -> 4 <= n ->
  exists h', put_sdu lens lcids i h = Ret h' /\
    emits (l ++ [Sub lcid (Some len)]) ces (n - 1 - zlen (enc_len len)) h'.
Proof.
  intros (rest & Hh & Hc & Hn) Hl E1 E2 Hlcid Hlen Hle. unfold put_sdu. rewrite E1, E2. cbn [mbind cres_bind].
  rewrite (next_sub_ok l rest h Hh Hl). cbn [mbind cres_bind].
  destruct (put_sized_ok (enc_subs l) lcid len rest true (h_last h) (h_ces h)) as (rest' & -> & Hr); [done|done|lia|].
  eexists. split; [reflexivity|]. exists rest'. split; [exact (at_sub l (Sub lcid (Some len)) rest' (h_ces h))|].
  split; [done|lia].
Qed.

(** The SDUs of a PDU: logical channel and length. *)
Definition sdu_subs (sdus : list (Z * Z)) : list sub := (fun d => Sub d.1 (Some d.2)) <$> sdus.
Definition sdus_wf (first_ce : Z) (sdus : list (Z * Z)) : Prop :=
  Forall (fun d => 0 <= d.1 < first_ce /\ 0 <= d.2 < 2 ^ 15) sdus.

(** The arrays of the caller. *)
Definition arrays_hold (lens lcids : list Z) (sdus : list (Z * Z)) : Prop :=
  take (length sdus) lens = sdus.*2 /\ take (length sdus) lcids = sdus.*1.

Lemma take_lookup_fmap {A B} (f : A -> B) (a : list B) (l : list A) i x :
  take (length l) a = f <$> l -> l !! i = Some x -> aget a (Z.of_nat i) = Ret (f x).
Proof.
  intros Ht Hi. apply aget_ok; [lia|]. rewrite Nat2Z.id. pose proof (lookup_lt_Some _ _ _ Hi).
  rewrite <- (lookup_take_lt a (length l)), Ht, list_lookup_fmap, Hi by done. done.
Qed.

Lemma enc_len_size n : 1 <= zlen (enc_len n) <= 2.
Proof. unfold enc_len, zlen. case_if; cbn; lia. Qed.

Lemma lcids_sdus l first_ce sdus : lcids_ok l -> sdus_wf first_ce sdus -> first_ce <= 32 -> lcids_ok (l ++ sdu_subs sdus).
Proof.
  intros Hl Hs Hf. apply Forall_app. split; [done|]. apply Forall_fmap. eapply Forall_impl; [|exact Hs]. intros d [Hd _]. cbn. lia.
Qed.

Lemma emit_sdus l ces n h lens lcids first_ce sdus : emits l ces n h -> lcids_ok l -> sdus_wf first_ce sdus -> first_ce <= 32 ->
  arrays_hold lens lcids sdus -> 3 * zlen sdus + 4 <= n ->
  exists h' n', for_each (put_sdu lens lcids) (zrange 0 (length sdus)) h = Ret h' /\ emits (l ++ sdu_subs sdus) ces n' h' /\
    n - 3 * zlen sdus <= n'.
Proof.
  intros Hh Hl Hs Hf [Ha Hb] Hn.
  assert (Hgen : forall k, (k <= length sdus)%nat -> exists h' n', for_each (put_sdu lens lcids) (zrange 0 k) h = Ret h' /\
    emits (l ++ sdu_subs (take k sdus)) ces n' h' /\ n - 3 * Z.of_nat k <= n').
  { induction k as [|k IH]; intros Hk.
    - exists h, n. cbn. rewrite app_nil_r. split_and!; [done|done|lia].
    - destruct IH as (h1 & n1 & E1 & Hh1 & Hn1); [lia|]. destruct (lookup_lt_is_Some_2 sdus k) as [d Hd]; [lia|].
      pose proof (Forall_lookup_1 _ _ _ _ Hs Hd) as [Hd1 Hd2].
      destruct (emit_sdu (l ++ sdu_subs (take k sdus)) ces n1 h1 lens lcids (Z.of_nat k) d.1 d.2) as (h2 & E2 & Hh2).
      + done.
      + apply (lcids_sdus _ first_ce); [done| |done]. by apply Forall_take.
      + by apply (take_lookup_fmap snd _ sdus).
      + by apply (take_lookup_fmap fst _ sdus).
      + lia.
      + done.
      + unfold zlen in Hn. lia.
      + eexists h2, _. rewrite zrange_snoc, for_each_app, E1. cbn [mbind cres_bind for_each]. rewrite E2. cbn [mbind cres_bind].
        split; [done|]. split.
        * rewrite (take_S_r _ _ _ Hd). unfold sdu_subs. rewrite fmap_app, app_assoc. exact Hh2.
        * pose proof (enc_len_size d.2). lia. }
  destruct (Hgen (length sdus) ltac:(lia)) as (h' & n' & E & He & Hle). rewrite take_ge in He by lia. by exists h', n'.
Qed.

(** The octets of a closed header: the last subheader has one octet, padding when there is some behind. *)
Definition closed (l : list sub) (post_padding : Z) : list sub * Z :=
  if 0 <? post_padding then (l, SHORT_PADDING)
  else (removelast l, List.last (s_lcid <$> l) 0).

Definition header_code (l : list sub) (post_padding : Z) : list Z :=
  enc_subs (closed l post_padding).1 ++ [(closed l post_padding).2].

Lemma put_end_ok l ces n h post : emits l ces n h -> lcids_ok l -> l <> [] -> 1 + zlen ces <= n ->
  exists tail, put_end post h =
    Ret ((byte.of_Z <$> header_code l post) ++ ces ++ tail, u8 (zlen (header_code l post) + u8 (zlen ces))).
Proof.
  intros (rest & Hh & Hc & Hn) Hl Hne Hle. unfold put_end, header_code, closed.
  destruct Hh as [|pre s rest ces0]; [done|]. cbn [h_ces] in Hc. subst ces0. pose proof (zlen_nonneg ces).
  pose proof Hl as Hs. apply Forall_app in Hs as [_ Hs]. apply Forall_cons_1 in Hs as [Hs _].
  assert (Hput : forall A last (r : list byte), zlen ces <= zlen r -> exists tail,
    (mem ← (if 0 <? zlen ces then bput ((byte.of_Z <$> A ++ [last]) ++ r) (zlen A + 1) ces
            else Ret ((byte.of_Z <$> A ++ [last]) ++ r)); Ret (mem, u8 (zlen A + 1 + u8 (zlen ces)))) =
    Ret ((byte.of_Z <$> A ++ [last]) ++ ces ++ tail, u8 (zlen (A ++ [last]) + u8 (zlen ces)))).
  { intros A lst r Hr. assert (Hp : zlen (byte.of_Z <$> A ++ [lst]) = zlen A + 1) by (rewrite zlen_fmap, zlen_app; done).
    exists (drop (length ces) r). destruct (Z.ltb_spec 0 (zlen ces)).
    - rewrite bput_ok by (rewrite ?zlen_app, ?Hp; pose proof (zlen_nonneg A); lia). cbn [mbind cres_bind].
      rewrite <- Hp. unfold zlen. rewrite Nat2Z.id, take_app_length, drop_app_ge, Nat.add_sub_swap, Nat.sub_diag by lia.
      f_equal. f_equal. by rewrite length_fmap.
    - cbn [mbind cres_bind]. destruct ces; [|unfold zlen in *; cbn in *; lia]. cbn. by rewrite zlen_app. }
  destruct (Z.ltb_spec 0 post).
  - rewrite set_E_at by exact Hs. cbn [mbind cres_bind h_mem h_ptr h_first h_last h_ces].
    destruct rest as [|r rest]; [unfold zlen in *; cbn in *; lia|].
    replace (zlen (enc_subs pre) + zlen (enc_sub false s)) with (zlen (enc_subs pre ++ enc_sub true s))
      by (rewrite zlen_app; by destruct (s_len s)).
    rewrite put_fixed_ok by (unfold SHORT_PADDING; lia). cbn [mbind cres_bind h_mem h_ptr h_ces fst snd].
    rewrite enc_subs_snoc, app_nil_r, app_assoc, <- fmap_app.
    apply Hput. unfold zlen in *. cbn [length] in *. lia.
  - cbn [mbind cres_bind h_mem h_ptr h_ces fst snd]. rewrite removelast_last, (fmap_app s_lcid). change (s_lcid <$> [s]) with [s_lcid s]. rewrite List.last_last.
    unfold enc_sub. cbn [fmap list_fmap]. rewrite Z.add_0_r, <- app_comm_cons, cons_middle, app_assoc.
    change [byte.of_Z (s_lcid s)] with (byte.of_Z <$> [s_lcid s]). rewrite <- fmap_app.
    apply Hput. rewrite zlen_app. pose proof (zlen_nonneg (byte.of_Z <$> match s_len s with Some n => enc_len n | None => [] end)). lia.
Qed.

(** *** The control elements in front of the SDUs *)

(** The state while only subheaders of one octet have been written; [c] lists the LCIDs with the octets
    of their control elements, [n] is the size of the buffer. *)
Definition ce_sub (c : Z * list byte) : sub := Sub c.1 None.

Definition ctl (c : list (Z * list byte)) (n : Z) (h : hdr) : Prop :=
  emits (ce_sub <$> c) (mjoin c.*2) (n - zlen c) h /\ Forall (fun c => 0 <= c.1 < 32) c.

Lemma ctl_subs c : Forall (fun c : Z * list byte => 0 <= c.1 < 32) c ->
  lcids_ok (ce_sub <$> c) /\ Forall (fun s => s_len s = None) (ce_sub <$> c).
Proof. intros Hc. split; apply Forall_fmap; [exact Hc|]. by apply Forall_true. Qed.

Lemma ctl_put c n h lcid ce : ctl c n h -> 0 <= lcid < 32 -> zlen c < n ->
  exists h', put_ce lcid ce h = Ret h' /\ ctl (c ++ [(lcid, ce)]) n h'.
Proof.
  intros [Hh Hc] Hl Hn. destruct (ctl_subs c Hc) as [H1 H2].
  destruct (emit_ce _ _ _ h lcid ce Hh H1 H2) as (h' & E & Hh'); [done|lia|]. exists h'. split; [done|]. split.
  - rewrite !fmap_app, join_app, zlen_app. cbn [fmap list_fmap mjoin list_join ce_sub fst snd]. rewrite app_nil_r.
    change (zlen [(lcid, ce)]) with 1. by rewrite Z.sub_add_distr.
  - apply Forall_app. split; [done|]. apply Forall_cons_2; [done|by apply Forall_nil_2].
Qed.

Definition opt_ce (b : bool) (lcid : Z) (ce : list byte) : list (Z * list byte) := if b then [(lcid, ce)] else [].

Lemma ctl_opt (b : bool) c n h lcid ce : ctl c n h -> 0 <= lcid < 32 -> zlen c < n ->
  exists h', (if b then put_ce lcid ce h else Ret h) = Ret h' /\ ctl (c ++ opt_ce b lcid ce) n h'.
Proof.
  intros Hc Hl Hn. destruct b; [by apply ctl_put|]. exists h. cbn. by rewrite app_nil_r.
Qed.

Definition padding_ces (short_padding : Z) : list (Z * list byte) :=
  if short_padding =? 1 then [(SHORT_PADDING, [])]
  else if short_padding =? 2 then [(SHORT_PADDING, []); (SHORT_PADDING, [])] else [].

Lemma ctl_padding k mem : 2 <= zlen mem ->
  exists h, put_short_padding k (Hdr mem 0 false 0 []) = Ret h /\ ctl (padding_ces k) (zlen mem) h.
Proof.
  intros Hm. unfold put_short_padding, padding_ces. destruct mem as [|r mem]; [unfold zlen in Hm; cbn in Hm; lia|].
  pose proof (put_fixed_ok [] SHORT_PADDING [] r mem false 0 []) as Hp. cbn [fmap list_fmap app] in Hp.
  change (zlen (@nil Z)) with 0 in Hp. specialize (Hp ltac:(unfold SHORT_PADDING; lia)).
  assert (Hone : ctl [(SHORT_PADDING, [])] (zlen (r :: mem))
    (Hdr ((byte.of_Z <$> enc_sub false (Sub SHORT_PADDING None)) ++ mem) 0 true 1 [])).
  { split; [|by repeat constructor]. exists mem. split; [exact (at_sub [] (Sub SHORT_PADDING None) mem [])|].
    split; [done|unfold zlen; cbn [length]; lia]. }
  destruct (Z.eqb_spec k 1) as [->|].
  - cbn [orb]. rewrite Hp. cbn [mbind cres_bind Z.eqb]. eexists. split; [reflexivity|]. exact Hone.
  - destruct (Z.eqb_spec k 2) as [->|]; cbn [orb].
    + rewrite Hp. cbn [mbind cres_bind h_mem h_ptr h_last h_ces].
      apply (ctl_put [(SHORT_PADDING, [])] (zlen (r :: mem)) _ SHORT_PADDING []); [exact Hone|unfold SHORT_PADDING; lia|].
      change (zlen [_]) with 1. lia.
    + cbn [mbind cres_bind]. eexists. split; [reflexivity|]. split; [|by apply Forall_nil_2]. exists (r :: mem).
      split; [apply at_start|]. split; [done|]. change (zlen []) with 0. lia.
Qed.

(** From the control elements to the whole header. *)
Lemma finish_header c n h lens lcids first_ce sdus post : ctl c n h -> sdus_wf first_ce sdus -> first_ce <= 32 ->
  arrays_hold lens lcids sdus -> c <> [] \/ sdus <> [] ->
  zlen c + 3 * zlen sdus + zlen (mjoin c.*2) + 4 <= n ->
  exists tail, (h ← for_each (put_sdu lens lcids) (zrange 0 (length sdus)) h; put_end post h) =
    Ret ((byte.of_Z <$> header_code ((ce_sub <$> c) ++ sdu_subs sdus) post) ++ mjoin c.*2 ++ tail,
         u8 (zlen (header_code ((ce_sub <$> c) ++ sdu_subs sdus) post) + u8 (zlen (mjoin c.*2)))).
Proof.
  intros [Hh Hc] Hs Hf Ha Hne Hn. destruct (ctl_subs c Hc) as [H1 _]. pose proof (zlen_nonneg (mjoin c.*2)).
  destruct (emit_sdus _ _ _ h lens lcids first_ce sdus Hh H1 Hs Hf Ha) as (h' & n' & -> & Hh' & Hn'); [lia|].
  cbn [mbind cres_bind]. apply (put_end_ok _ _ n'); [done|by apply (lcids_sdus _ first_ce)| |lia].
  destruct c; [|done]. by destruct sdus; [destruct Hne|].
Qed.

(** *** The two functions *)

(** The control elements of a downlink header. *)
Definition dl_ces (drx ta : Z) (cont_res : option (list byte)) (short_padding : Z) : list (Z * list byte) :=
  padding_ces short_padding ++ opt_ce (negb (drx =? 255)) DRX_CMD [] ++
  opt_ce (negb (ta =? 0)) TIMING_ADV_CMD [byte.of_Z (Z.land (ta + 31) 63)] ++
  match cont_res with Some id => [(UE_CONT_RES, id)] | None => [] end.

Lemma padding_ces_len k : zlen (padding_ces k) <= 2.
Proof. unfold padding_ces. repeat case_if; unfold zlen; cbn; lia. Qed.

Lemma generate_dlsch_ok mem sdus lens lcids drx ta cont_res k post :
  sdus_wf UE_CONT_RES sdus -> arrays_hold lens lcids sdus -> (forall id, cont_res = Some id -> zlen id = 6) ->
  dl_ces drx ta cont_res k <> [] \/ sdus <> [] -> 3 * zlen sdus + 20 <= zlen mem ->
  let c := dl_ces drx ta cont_res k in
  exists tail, generate_dlsch_header mem (length sdus) lens lcids drx ta cont_res k post =
    Ret ((byte.of_Z <$> header_code ((ce_sub <$> c) ++ sdu_subs sdus) post) ++ mjoin c.*2 ++ tail,
         u8 (zlen (header_code ((ce_sub <$> c) ++ sdu_subs sdus) post) + u8 (zlen (mjoin c.*2)))).
Proof.
  intros Hs Ha Hid Hne Hm c. unfold generate_dlsch_header. pose proof (padding_ces_len k). pose proof (zlen_nonneg sdus).
  destruct (ctl_padding k mem) as (h0 & -> & C0); [lia|]. cbn [mbind cres_bind].
  destruct (ctl_opt (negb (drx =? 255)) _ _ h0 DRX_CMD [] C0) as (h1 & -> & C1); [unfold DRX_CMD; lia|lia|]. cbn [mbind cres_bind].
  assert (Hlen : forall b l ce, zlen (opt_ce b l ce) <= 1) by (intros [] ? ?; unfold zlen; cbn; lia).
  pose proof (Hlen (negb (drx =? 255)) DRX_CMD []).
  pose proof (Hlen (negb (ta =? 0)) TIMING_ADV_CMD [byte.of_Z (Z.land (ta + 31) 63)]).
  destruct (ctl_opt (negb (ta =? 0)) _ _ h1 TIMING_ADV_CMD [byte.of_Z (Z.land (ta + 31) 63)] C1) as (h2 & -> & C2);
    [unfold TIMING_ADV_CMD; lia|rewrite zlen_app; lia|]. cbn [mbind cres_bind].
  assert (C3 : exists h3, match cont_res with Some id => ce ← bget id 0 6; put_ce UE_CONT_RES ce h2 | None => Ret h2 end = Ret h3 /\
    ctl c (zlen mem) h3).
  { unfold c, dl_ces. destruct cont_res as [id|].
    - rewrite bget_ok by (rewrite ?(Hid id) by done; lia). cbn [mbind cres_bind].
      rewrite drop_0, take_ge by (specialize (Hid id eq_refl); unfold zlen in Hid; lia). rewrite !app_assoc.
      apply ctl_put; [done|unfold UE_CONT_RES; lia|]. rewrite !zlen_app. lia.
    - exists h2. rewrite !app_nil_r, app_assoc. done. }
  destruct C3 as (h3 & -> & C3). cbn [mbind cres_bind]. apply (finish_header c (zlen mem) h3 lens lcids UE_CONT_RES sdus post); try done.
  unfold c, dl_ces. rewrite !fmap_app, !join_app, !zlen_app.
  assert (zlen (mjoin (padding_ces k).*2) = 0) as -> by (unfold padding_ces; by repeat case_if).
  destruct (negb (drx =? 255)), (negb (ta =? 0)), cont_res as [id|]; cbn [opt_ce fmap list_fmap mjoin list_join snd];
    rewrite ?app_nil_r, ?(Hid id) by done; unfold zlen in *; cbn [length] in *; lia.
Qed.

(** The control elements of an uplink header. *)
Definition bsr_ces (tb sb : option byte) (lb : option BSR_LONG) : list (Z * list byte) :=
  match tb, sb, lb with
  | Some b, _, _ => [(TRUNCATED_BSR, [b])]
  | None, Some b, _ => [(SHORT_BSR, [b])]
  | None, None, Some b => [(LONG_BSR, long_bsr_ce b)]
  | None, None, None => []
  end.

Definition ul_ces (short_padding : Z) (phr : option byte) (crnti : option Z) (tb sb : option byte) (lb : option BSR_LONG)
  : list (Z * list byte) :=
  padding_ces short_padding ++ match phr with Some b => [(POWER_HEADROOM, [b])] | None => [] end ++
  match crnti with Some c => [(CRNTI, [byte.of_Z (u8 c); byte.of_Z (u8 (Z.shiftr c 8))])] | None => [] end ++
  bsr_ces tb sb lb.

(** One more element when there is one. *)
Lemma ctl_option {A} (o : option A) (f : A -> Z * list byte) c n h : ctl c n h -> (forall a, 0 <= (f a).1 < 32) -> zlen c < n ->
  exists h', match o with Some a => put_ce (f a).1 (f a).2 h | None => Ret h end = Ret h' /\
    ctl (c ++ match o with Some a => [f a] | None => [] end) n h'.
Proof.
  intros Hc Hl Hn. destruct o as [a|]; [|exists h; by rewrite app_nil_r]. destruct (f a) as [x y] eqn:Ef. cbn [fst snd].
  apply ctl_put; [done| |done]. specialize (Hl a). by rewrite Ef in Hl.
Qed.

Lemma generate_ulsch_ok mem sdus lens lcids k phr crnti tb sb lb post :
  sdus_wf EXTENDED_POWER_HEADROOM sdus -> arrays_hold lens lcids sdus ->
  ul_ces k phr crnti tb sb lb <> [] \/ sdus <> [] -> 3 * zlen sdus + 20 <= zlen mem ->
  let c := ul_ces k phr crnti tb sb lb in
  exists tail, generate_ulsch_header mem (length sdus) k lens lcids phr crnti tb sb lb post =
    Ret ((byte.of_Z <$> header_code ((ce_sub <$> c) ++ sdu_subs sdus) post) ++ mjoin c.*2 ++ tail,
         u8 (zlen (header_code ((ce_sub <$> c) ++ sdu_subs sdus) post) + u8 (zlen (mjoin c.*2)))).
Proof.
  intros Hs Ha Hne Hm c. unfold generate_ulsch_header. pose proof (padding_ces_len k). pose proof (zlen_nonneg sdus).
  destruct (ctl_padding k mem) as (h0 & -> & C0); [lia|]. cbn [mbind cres_bind].
  assert (Hlen : forall A (o : option A) (f : A -> Z * list byte), zlen (match o with Some a => [f a] | None => [] end) <= 1)
    by (intros A [] f; unfold zlen; cbn; lia).
  destruct (ctl_option phr (fun b => (POWER_HEADROOM, [b])) _ _ h0 C0) as (h1 & E1 & C1); [cbn; unfold POWER_HEADROOM; lia|lia|].
  cbn [fst snd] in E1. rewrite E1. cbn [mbind cres_bind]. pose proof (Hlen _ phr (fun b => (POWER_HEADROOM, [b]))) as L1.
  destruct (ctl_option crnti (fun c => (CRNTI, [byte.of_Z (u8 c); byte.of_Z (u8 (Z.shiftr c 8))])) _ _ h1 C1) as (h2 & E2 & C2);
    [cbn; unfold CRNTI; lia|rewrite zlen_app; lia|].
  cbn [fst snd] in E2. rewrite E2. cbn [mbind cres_bind].
  pose proof (Hlen _ crnti (fun c => (CRNTI, [byte.of_Z (u8 c); byte.of_Z (u8 (Z.shiftr c 8))]))) as L2.
  assert (C3 : exists h3, match tb, sb, lb with
      | Some b, _, _ => put_ce TRUNCATED_BSR [b] h2
      | None, Some b, _ => put_ce SHORT_BSR [b] h2
      | None, None, Some b => put_ce LONG_BSR (long_bsr_ce b) h2
      | None, None, None => Ret h2
      end = Ret h3 /\ ctl c (zlen mem) h3).
  { unfold c, ul_ces. rewrite !app_assoc. unfold bsr_ces.
    destruct tb, sb, lb; try (apply ctl_put; [done|unfold TRUNCATED_BSR, SHORT_BSR, LONG_BSR; lia|rewrite !zlen_app; lia]).
    exists h2. by rewrite app_nil_r. }
  destruct C3 as (h3 & -> & C3). cbn [mbind cres_bind].
  apply (finish_header c (zlen mem) h3 lens lcids EXTENDED_POWER_HEADROOM sdus post); try done.
  unfold c, ul_ces. rewrite !fmap_app, !join_app, !zlen_app.
  assert (zlen (mjoin (padding_ces k).*2) = 0) as -> by (unfold padding_ces; by repeat case_if).
  destruct phr, crnti, tb, sb, lb; cbn [bsr_ces fmap list_fmap mjoin list_join snd app];
    unfold zlen in *; cbn [length long_bsr_ce fmap list_fmap app] in *; lia.
Qed.

(** ** Reading *)

(** What a header says: control elements in order, without the padding, and SDUs. *)
Definition ces_of (l : list sub) : list Z :=
  l ≫= fun s => match s_len s with None => if s_lcid s =? SHORT_PADDING then [] else [s_lcid s] | Some _ => [] end.
Definition sdus_of (l : list sub) : list (Z * Z) :=
  l ≫= fun s => match s_len s with Some n => [(s_lcid s, n)] | None => [] end.

(** The LCIDs of control elements. *)
Definition ce_lcids (c : list (Z * list byte)) : list Z := c ≫= fun x => if x.1 =? SHORT_PADDING then [] else [x.1].

Section Parse.
Context (first_ce : Z) (ce_size : Z -> cres Z) (size : Z -> Z).

(** The sizes of the elements that are known. *)
Definition known (lcid : Z) : Prop := ce_size lcid = Ret (size lcid) /\ 0 <= size lcid <= 6.

(** The state of the reading functions at [ptr], behind the subheaders [l]. *)
Record parsed_at (ptr : Z) (l : list sub) (p : parsed) : Prop := {
  pa_ptr : p_ptr p = ptr;
  pa_ce_len : p_ce_len p = sumZ (size <$> ces_of l);
  pa_num_ce : p_num_ce p = zlen (ces_of l);
  pa_ces : take (length (ces_of l)) (p_ces p) = ces_of l;
  pa_ces_len : length (p_ces p) = MAX_NUM_CE;
  pa_num_sdu : p_num_sdu p = zlen (sdus_of l);
  pa_lcids : take (length (sdus_of l)) (p_lcids p) = (sdus_of l).*1;
  pa_lcids_len : length (p_lcids p) = MAC_NB_RB_MAX;
  pa_lengths : take (length (sdus_of l)) (p_lengths p) = (sdus_of l).*2;
  pa_lengths_len : length (p_lengths p) = MAC_NB_RB_MAX;
}.

(** The elements fit the arrays of the caller. *)
Definition fits (l : list sub) : Prop := (length (ces_of l) <= MAX_NUM_CE)%nat /\ (length (sdus_of l) <= MAC_NB_RB_MAX)%nat.

Lemma take_set {A B} (f : A -> B) (a : list B) (k : list A) x : take (length k) a = f <$> k -> (length k < length a)%nat ->
  take (length (k ++ [x])) (<[length k := f x]> a) = f <$> (k ++ [x]).
Proof.
  intros Ht Hk. rewrite length_app. cbn [length]. rewrite Nat.add_1_r.
  rewrite (take_S_r _ _ (f x)) by (by apply list_lookup_insert_eq). by rewrite take_insert_ge, Ht, fmap_app by lia.
Qed.

Lemma ces_of_snoc l s : ces_of (l ++ [s]) = ces_of l ++ ces_of [s].
Proof. unfold ces_of. by rewrite bind_app. Qed.
Lemma sdus_of_snoc l s : sdus_of (l ++ [s]) = sdus_of l ++ sdus_of [s].
Proof. unfold sdus_of. by rewrite bind_app. Qed.

(** An SDU is recorded. *)
Lemma record_sdu ptr0 ptr l p lcid len : parsed_at ptr0 l p -> fits (l ++ [Sub lcid (Some len)]) ->
  exists lcids lengths, aset (p_lcids p) (p_num_sdu p) lcid = Ret lcids /\ aset (p_lengths p) (p_num_sdu p) len = Ret lengths /\
    parsed_at ptr (l ++ [Sub lcid (Some len)])
      (Parsed ptr (p_ce_len p) (p_ces p) (p_num_ce p) lcids lengths (u8 (p_num_sdu p + 1))).
Proof.
  intros [P1 P2 P3 P4 P5 P6 P7 P8 P9 P10] [_ Hf]. rewrite sdus_of_snoc in Hf. cbn in Hf. rewrite length_app in Hf. cbn in Hf.
  unfold MAC_NB_RB_MAX in *. rewrite P6.
  rewrite !aset_ok by (unfold zlen in *; lia). eexists _, _. split; [reflexivity|]. split; [reflexivity|].
  unfold zlen at 1 2. rewrite Nat2Z.id.
  assert (Hc : ces_of (l ++ [Sub lcid (Some len)]) = ces_of l) by (rewrite ces_of_snoc; cbn; by rewrite app_nil_r).
  assert (Hs : sdus_of (l ++ [Sub lcid (Some len)]) = sdus_of l ++ [(lcid, len)]) by (by rewrite sdus_of_snoc).
  constructor; cbn [p_ptr p_ce_len p_num_ce p_ces p_num_sdu p_lcids p_lengths]; rewrite ?Hc, ?Hs; try done.
  - rewrite zlen_app. change (zlen [(lcid, len)]) with 1. apply u8_small. unfold zlen. lia.
  - apply (take_set fst _ _ (lcid, len)); [done|lia].
  - by rewrite length_insert.
  - apply (take_set snd _ _ (lcid, len)); [done|lia].
  - by rewrite length_insert.
Qed.

Lemma sum_bound (l : list Z) b : 0 <= b -> Forall (fun x => 0 <= x <= b) l -> 0 <= sumZ l <= b * zlen l.
Proof.
  intros Hb. induction 1 as [|x l Hx _ IH]; [unfold zlen; cbn; lia|]. unfold sumZ in *. unfold zlen in *. cbn [foldr length]. lia.
Qed.

Lemma sumZ_app l k : sumZ (l ++ k) = sumZ l + sumZ k.
Proof. unfold sumZ. induction l as [|x l IH]; cbn [app foldr]; [lia|]. rewrite IH. lia. Qed.

(** The control elements are known, and the lengths have 15 bits. *)
Definition subs_wf (l : list sub) : Prop :=
  Forall (fun s => sub_wf first_ce s /\ (s_len s = None -> s_lcid s <> SHORT_PADDING -> known (s_lcid s))) l.

Lemma ces_known l : subs_wf l -> Forall known (ces_of l).
Proof.
  intros Hl. unfold ces_of. apply Forall_bind. eapply Forall_impl; [|exact Hl]. intros s [_ Hs]. cbn.
  destruct (s_len s); [by apply Forall_nil_2|]. destruct (Z.eqb_spec (s_lcid s) SHORT_PADDING); [by apply Forall_nil_2|].
  apply Forall_cons_2; [by apply Hs|by apply Forall_nil_2].
Qed.

Lemma ce_total l : subs_wf l -> fits l -> 0 <= sumZ (size <$> ces_of l) <= 30.
Proof.
  intros Hl [Hf _]. destruct (sum_bound (size <$> ces_of l) 6) as [H1 H2]; [lia| |].
  - apply Forall_fmap. eapply Forall_impl; [|exact (ces_known l Hl)]. intros c [_ Hc]. exact Hc.
  - rewrite zlen_fmap in H2. unfold zlen, MAX_NUM_CE in *. lia.
Qed.

(** A control element is recorded. *)
Lemma record_ce ptr l p lcid : parsed_at ptr l p -> fits (l ++ [Sub lcid None]) -> subs_wf (l ++ [Sub lcid None]) ->
  exists p', parse_ce ce_size lcid p = Ret p' /\ parsed_at (ptr + 1) (l ++ [Sub lcid None]) p'.
Proof.
  intros HP Hf Hw. pose proof (ce_total _ Hw Hf) as Htot. pose proof HP as [P1 P2 P3 P4 P5 P6 P7 P8 P9 P10].
  assert (Hs : sdus_of (l ++ [Sub lcid None]) = sdus_of l) by (rewrite sdus_of_snoc; cbn; by rewrite app_nil_r).
  destruct Hf as [Hf _]. rewrite ces_of_snoc in Hf, Htot. unfold parse_ce. cbn in Hf, Htot.
  apply Forall_app in Hw as [_ Hw]. apply Forall_cons_1 in Hw as [[_ Hk] _]. cbn [s_len s_lcid] in Hk.
  destruct (Z.eqb_spec lcid SHORT_PADDING) as [->|Hne].
  - assert (Hc : ces_of (l ++ [Sub SHORT_PADDING None]) = ces_of l) by (rewrite ces_of_snoc; cbn; by rewrite app_nil_r).
    eexists. split; [reflexivity|]. constructor; cbn [p_ptr p_ce_len p_num_ce p_ces p_num_sdu p_lcids p_lengths];
      rewrite ?Hc, ?Hs; try done. lia.
  - rewrite length_app in Hf. cbn in Hf. unfold MAX_NUM_CE in *. rewrite aset_ok by (unfold zlen in *; lia). cbn [mbind cres_bind].
    destruct (Hk eq_refl Hne) as [-> Hsize]. cbn [mbind cres_bind].
    assert (Hc : ces_of (l ++ [Sub lcid None]) = ces_of l ++ [lcid]).
    { rewrite ces_of_snoc. f_equal. cbn. by rewrite (proj2 (Z.eqb_neq _ _)). }
    rewrite fmap_app, sumZ_app in Htot. cbn in Htot.
    eexists. split; [reflexivity|]. constructor; cbn [p_ptr p_ce_len p_num_ce p_ces p_num_sdu p_lcids p_lengths];
      rewrite ?Hc, ?Hs; try done.
    + lia.
    + rewrite fmap_app, sumZ_app, P2. cbn. rewrite Z.add_0_r in *. apply u16_small. lia.
    + rewrite P3, zlen_app. change (zlen [lcid]) with 1. apply u8_small. unfold zlen. lia.
    + rewrite P3. unfold zlen. rewrite Nat2Z.id. rewrite <- (list_fmap_id (ces_of l ++ [lcid])) at 2.
      apply (take_set id _ _ lcid); [by rewrite list_fmap_id|lia].
    + by rewrite length_insert.
Qed.

(** *** The octets of a subheader *)

Lemma more_octet x : 0 <= x < 32 -> Z.testbit (x + 32) 5 = true /\ Z.land (x + 32) 31 = x.
Proof.
  intros Hx. split.
  - apply Z.testbit_true; [lia|]. change (2 ^ 5) with 32. rewrite <- (Z.mul_1_l 32) at 1. rewrite Z.div_add, Z.div_small by lia. done.
  - change 31 with (2 ^ 5 - 1). rewrite land_mask by lia. change (2 ^ 5) with 32. rewrite <- (Z.mul_1_l 32) at 1.
    rewrite Z.mod_add, Z.mod_small by lia. done.
Qed.

Lemma last_octet x : 0 <= x < 32 -> Z.testbit x 5 = false /\ Z.land x 31 = x.
Proof.
  intros Hx. split; [apply (testbit_above x 5); lia|]. change 31 with (2 ^ 5 - 1). rewrite land_mask, Z.mod_small by lia. done.
Qed.

Lemma octet_here pre x l tail : 0 <= x < 256 -> octet ((byte.of_Z <$> pre ++ x :: l) ++ tail) (zlen pre) = Ret x.
Proof. intros Hx. rewrite <- (Z.add_0_r (zlen pre)). by apply (enc_octet_at pre (x :: l) tail 0). Qed.

(** The length behind the first octet. *)
Lemma read_len A n more tail : 0 <= n < 2 ^ 15 ->
  (o ← octet ((byte.of_Z <$> A ++ enc_len n ++ more) ++ tail) (zlen A);
   if Z.testbit o 7 then
     o3 ← octet ((byte.of_Z <$> A ++ enc_len n ++ more) ++ tail) (zlen A + 1);
     Ret (zlen A + 2, Z.lor (Z.shiftl (Z.land o 127) 8) (Z.land o3 255))
   else Ret (zlen A + 1, Z.land o 127)) = Ret (zlen A + zlen (enc_len n), n).
Proof.
  intros Hn. unfold enc_len. destruct (Z.ltb_spec n 128) as [Hs|Hl].
  - cbn [app]. rewrite octet_here by lia. cbn [mbind cres_bind].
    rewrite (testbit_above n 7) by lia. change 127 with (2 ^ 7 - 1). rewrite land_mask, Z.mod_small by lia. done.
  - assert (0 <= n / 256 < 2 ^ 7) by (split; [apply Z.div_pos; lia|apply Z.div_lt_upper_bound; lia]).
    pose proof (Z.mod_pos_bound n 256 ltac:(lia)).
    cbn [app]. rewrite octet_here by lia. cbn [mbind cres_bind].
    assert (Z.testbit (128 + n / 256) 7 = true) as ->.
    { apply Z.testbit_true; [lia|]. change (2 ^ 7) with 128. rewrite <- (Z.mul_1_l 128) at 1. rewrite Z.add_comm.
      rewrite Z.div_add, Z.div_small by lia. done. }
    change 1 with (Z.of_nat 1) at 1. rewrite (enc_octet_at A _ _ 1 (n mod 256)) by (done || lia). cbn [mbind cres_bind].
    change 127 with (2 ^ 7 - 1). change 255 with (2 ^ 8 - 1). rewrite !land_mask by lia. change (2 ^ 7) with 128. change (2 ^ 8) with 256.
    replace ((128 + n / 256) mod 128) with (n / 256)
      by (replace (128 + n / 256) with (n / 256 + 1 * 128) by lia; rewrite Z.mod_add, Z.mod_small by lia; done).
    rewrite Z.mod_mod by lia.
    rewrite Z.lor_comm, lor_shiftl_add by lia. do 2 f_equal. rewrite (Z.div_mod n 256) at 3 by lia. lia.
Qed.

Lemma parse_sdu_sized d p lcid n more tail tb : p_ptr p = zlen (enc_subs d) -> 0 <= n < 2 ^ 15 ->
  parse_sdu ((byte.of_Z <$> enc_subs (d ++ [Sub lcid (Some n)]) ++ more) ++ tail) tb true lcid p =
    (lcids ← aset (p_lcids p) (p_num_sdu p) lcid;
     lengths ← aset (p_lengths p) (p_num_sdu p) n;
     Ret (Parsed (zlen (enc_subs (d ++ [Sub lcid (Some n)]))) (p_ce_len p) (p_ces p) (p_num_ce p) lcids lengths (u8 (p_num_sdu p + 1)))).
Proof.
  intros Hp Hn. unfold parse_sdu. cbn [negb]. rewrite Hp.
  pose proof (read_len (enc_subs d ++ [lcid + 32]) n more tail Hn) as Hr.
  rewrite zlen_app in Hr. change (zlen [lcid + 32]) with 1 in Hr. rewrite <- !Z.add_assoc in Hr.
  rewrite !enc_subs_snoc, zlen_app. unfold enc_sub. cbn [s_lcid s_len]. rewrite <- !app_assoc in *. cbn [app] in *.
  change (1 + 1) with 2 in Hr. change (1 + 2) with 3 in Hr. rewrite Hr. cbn [mbind cres_bind].
  by replace (1 + zlen (enc_len n)) with (zlen ((lcid + 32) :: enc_len n)) by (unfold zlen; cbn [length]; lia).
Qed.

Lemma parse_sized d p lcid n more tail tb : parsed_at (zlen (enc_subs d)) d p -> fits (d ++ [Sub lcid (Some n)]) ->
  0 <= n < 2 ^ 15 ->
  exists p', parse_sdu ((byte.of_Z <$> enc_subs (d ++ [Sub lcid (Some n)]) ++ more) ++ tail) tb true lcid p = Ret p' /\
    parsed_at (zlen (enc_subs (d ++ [Sub lcid (Some n)]))) (d ++ [Sub lcid (Some n)]) p'.
Proof.
  intros HP Hf Hn. rewrite parse_sdu_sized by (done || apply HP).
  destruct (record_sdu (zlen (enc_subs d)) (zlen (enc_subs (d ++ [Sub lcid (Some n)]))) d p lcid n HP Hf) as (a & b & -> & -> & HP').
  cbn [mbind cres_bind]. by eexists.
Qed.

(** The implicit length. *)
Lemma last_length_ok ptr0 d p tb ptr : parsed_at ptr0 d p ->
  last_length tb ptr p = Ret (u16 (tb - ptr - sumZ (size <$> ces_of d) - sumZ (sdus_of d).*2)).
Proof.
  intros [P1 P2 P3 P4 P5 P6 P7 P8 P9 P10]. unfold last_length. rewrite P6, P2. unfold zlen. rewrite Nat2Z.id.
  set (x := tb - ptr - _).
  assert (Hgen : forall k, (k <= length (sdus_of d))%nat ->
    for_each (fun i len => l ← aget (p_lengths p) i; Ret (u16 (len - l))) (zrange 0 k) (u16 x) =
      Ret (u16 (x - sumZ (take k (sdus_of d).*2)))).
  { induction k as [|k IH]; intros Hk; [cbn; by rewrite Z.sub_0_r|].
    rewrite zrange_snoc, for_each_app, IH by lia. cbn [mbind cres_bind for_each].
    destruct (lookup_lt_is_Some_2 (sdus_of d) k) as [e He]; [lia|].
    rewrite (take_lookup_fmap snd _ (sdus_of d) k e P9 He). cbn [mbind cres_bind].
    rewrite (take_S_r _ _ e.2) by (by rewrite list_lookup_fmap, He). rewrite sumZ_app. cbn. f_equal.
    unfold u16. rewrite Zminus_mod_idemp_l. f_equal. lia. }
  rewrite Hgen by lia. by rewrite take_ge by (rewrite length_fmap; lia).
Qed.

(** *** The loop *)

(** The subheader of the last octet, with its implicit length. *)
Definition last_sub (z : Z) (l : list sub) (tb : Z) : sub :=
  if z <? first_ce
  then Sub z (Some (u16 (tb - zlen (enc_subs l) - 1 - sumZ (size <$> ces_of l) - sumZ (sdus_of l).*2)))
  else Sub z None.

Lemma fits_prefix l k : fits (l ++ k) -> fits l.
Proof. unfold fits, ces_of, sdus_of. rewrite !bind_app, !length_app. lia. Qed.

Lemma parse_last fuel d p z tb tail : parsed_at (zlen (enc_subs d)) d p -> 0 <= z < 32 ->
  fits (d ++ [last_sub z d tb]) -> (first_ce <= z -> subs_wf (d ++ [Sub z None])) ->
  exists p', parse_loop (S fuel) first_ce ce_size ((byte.of_Z <$> enc_subs d ++ [z]) ++ tail) tb p = Ret p' /\
    parsed_at (zlen (enc_subs d) + 1) (d ++ [last_sub z d tb]) p'.
Proof.
  intros HP Hz Hf Hw. cbn [parse_loop]. rewrite (pa_ptr _ _ _ HP).
  rewrite octet_here by lia. cbn [mbind cres_bind].
  destruct (last_octet z Hz) as [-> ->]. unfold last_sub in *. destruct (Z.ltb_spec z first_ce) as [Hlt|Hge].
  - unfold parse_sdu. cbn [negb]. rewrite (pa_ptr _ _ _ HP), (last_length_ok _ _ _ _ _ HP). cbn [mbind cres_bind].
    rewrite Z.sub_add_distr.
    destruct (record_sdu (zlen (enc_subs d)) (zlen (enc_subs d) + 1) d p z _ HP Hf) as (a & b & -> & -> & HP').
    cbn [mbind cres_bind]. by eexists.
  - destruct (record_ce _ d p z HP Hf (Hw Hge)) as (p' & -> & HP'). cbn [mbind cres_bind]. by exists p'.
Qed.

(** A subheader that is followed by another one. *)
Lemma parse_more fuel d p s rest tail tb : p_ptr p = zlen (enc_subs d) -> 0 <= s_lcid s < 32 ->
  let mem := (byte.of_Z <$> enc_subs (d ++ [s]) ++ rest) ++ tail in
  parse_loop (S fuel) first_ce ce_size mem tb p =
    (p ← (if s_lcid s <? first_ce then parse_sdu mem tb true (s_lcid s) p else parse_ce ce_size (s_lcid s) p);
     parse_loop fuel first_ce ce_size mem tb p).
Proof.
  intros Hp Hs mem. cbn [parse_loop]. rewrite Hp.
  assert (Eo : octet mem (zlen (enc_subs d)) = Ret (s_lcid s + 32)).
  { unfold mem. rewrite enc_subs_snoc, <- app_assoc. apply octet_here. lia. }
  rewrite Eo. cbn [mbind cres_bind]. by destruct (more_octet (s_lcid s) Hs) as [-> ->].
Qed.

Lemma enc_subs_split d s r rest : enc_subs (d ++ s :: r) ++ rest = enc_subs (d ++ [s]) ++ (enc_subs r ++ rest).
Proof. unfold enc_subs. rewrite (app_assoc _ (r ≫= _)), <- bind_app, <- app_assoc. done. Qed.

Lemma parse_loop_ok z tb tail r : forall d p fuel, parsed_at (zlen (enc_subs d)) d p -> 0 <= z < 32 ->
  subs_wf (d ++ r) -> fits (d ++ r ++ [last_sub z (d ++ r) tb]) -> (first_ce <= z -> subs_wf (d ++ r ++ [Sub z None])) ->
  (length r < fuel)%nat ->
  exists p', parse_loop fuel first_ce ce_size ((byte.of_Z <$> enc_subs (d ++ r) ++ [z]) ++ tail) tb p = Ret p' /\
    parsed_at (zlen (enc_subs (d ++ r)) + 1) (d ++ r ++ [last_sub z (d ++ r) tb]) p'.
Proof.
  induction r as [|s r IH]; intros d p fuel HP Hz Hw Hf Hlast Hfuel; destruct fuel as [|fuel]; try (cbn in Hfuel; lia).
  - rewrite app_nil_r in *. by apply parse_last.
  - rewrite enc_subs_split.
    assert (Happ : forall k, d ++ (s :: r) ++ k = (d ++ [s]) ++ r ++ k) by (intros k; by rewrite <- !app_assoc).
    replace (d ++ s :: r) with ((d ++ [s]) ++ r) in * by (by rewrite <- app_assoc). rewrite Happ in *.
    assert (Hs : subs_wf (d ++ [s])) by (by apply Forall_app in Hw as [Hw _]).
    assert (Hfs : fits (d ++ [s])) by (by apply (fits_prefix _ (r ++ [last_sub z ((d ++ [s]) ++ r) tb]))).
    pose proof Hs as Hs1. apply Forall_app in Hs1 as [_ Hs1]. apply Forall_cons_1 in Hs1 as [[[Hlen Hlc] _] _].
    rewrite parse_more by (done || apply HP).
    assert (Hstep : exists p1, (if s_lcid s <? first_ce
        then parse_sdu ((byte.of_Z <$> enc_subs (d ++ [s]) ++ enc_subs r ++ [z]) ++ tail) tb true (s_lcid s) p
        else parse_ce ce_size (s_lcid s) p) = Ret p1 /\ parsed_at (zlen (enc_subs (d ++ [s]))) (d ++ [s]) p1).
    { destruct s as [lcid [n|]]; cbn [s_lcid s_len] in *.
      - rewrite (proj2 (Z.ltb_lt lcid first_ce)) by lia. apply parse_sized; (done || lia).
      - rewrite (proj2 (Z.ltb_ge lcid first_ce)) by lia. rewrite enc_subs_snoc, zlen_app. by apply record_ce. }
    destruct Hstep as (p1 & -> & HP1). cbn [mbind cres_bind]. rewrite app_assoc, <- enc_subs_app.
    apply IH; (done || cbn in Hfuel; lia).
Qed.

(** More SDUs than the arrays have room for: the write is outside of the array. *)
Lemma parse_too_many rest tail tb r : forall d p fuel, parsed_at (zlen (enc_subs d)) d p -> fits d ->
  Forall (fun s => sub_wf first_ce s /\ s_len s <> None) r -> (MAC_NB_RB_MAX < length (sdus_of d) + length r)%nat -> (length r <= fuel)%nat ->
  parse_loop fuel first_ce ce_size ((byte.of_Z <$> enc_subs (d ++ r) ++ rest) ++ tail) tb p = Trap FOob.
Proof.
  induction r as [|s r IH]; intros d p fuel HP Hf Hr Hmany Hfuel; [destruct Hf; cbn in Hmany; lia|].
  destruct fuel as [|fuel]; [cbn in Hfuel; lia|]. apply Forall_cons_1 in Hr as [[[Hs Hlc] Hsome] Hr]. rewrite enc_subs_split.
  rewrite parse_more by (done || apply HP). destruct s as [lcid [n|]]; [|done]. cbn [s_lcid s_len] in *.
  rewrite (proj2 (Z.ltb_lt lcid first_ce)) by lia.
  destruct (decide (length (sdus_of d) = MAC_NB_RB_MAX)) as [Hfull|Hroom].
  - rewrite parse_sdu_sized by (lia || apply HP).
    rewrite (aset_oob (p_lcids p)); [done|]. rewrite (pa_num_sdu _ _ _ HP). unfold zlen. rewrite (pa_lcids_len _ _ _ HP), Hfull. lia.
  - assert (Hf' : fits (d ++ [Sub lcid (Some n)])).
    { unfold fits in *. rewrite ces_of_snoc, sdus_of_snoc, !length_app. cbn. lia. }
    destruct (parse_sized d p lcid n (enc_subs r ++ rest) tail tb HP Hf' ltac:(lia)) as (p1 & -> & HP1). cbn [mbind cres_bind].
    rewrite app_assoc, <- enc_subs_app. apply IH; try done; [rewrite sdus_of_snoc, length_app; cbn in *; lia|cbn in Hfuel; lia].
Qed.

Lemma enc_subs_length l : (length l <= length (enc_subs l))%nat.
Proof. induction l as [|s l IH]; [done|]. unfold enc_subs in *. cbn. rewrite length_app. lia. Qed.

Lemma parse_start_at ces lcids lengths : length ces = MAX_NUM_CE -> length lcids = MAC_NB_RB_MAX -> length lengths = MAC_NB_RB_MAX ->
  parsed_at (zlen (enc_subs [])) [] (parse_start ces lcids lengths).
Proof. intros H1 H2 H3. by constructor. Qed.

(** A closed header is read back as it was written.  Without padding behind, the length of the last SDU
    is what the size of the block says. *)
Lemma parse_code l post tb tail ces lcids lengths : first_ce <= 31 -> subs_wf l -> fits l -> l <> [] ->
  length ces = MAX_NUM_CE -> length lcids = MAC_NB_RB_MAX -> length lengths = MAC_NB_RB_MAX ->
  (post <= 0 -> tb = zlen (header_code l post) + sumZ (size <$> ces_of l) + sumZ (sdus_of l).*2) ->
  let mem := (byte.of_Z <$> header_code l post) ++ tail in
  exists p L, parse_loop (S (length mem)) first_ce ce_size mem tb (parse_start ces lcids lengths) = Ret p /\
    parsed_at (zlen (header_code l post)) L p /\ ces_of L = ces_of l /\ sdus_of L = sdus_of l.
Proof.
  intros Hfce Hw Hf Hne H1 H2 H3 Htb mem. unfold mem, header_code in *.
  assert (Hfuel : forall k z, (length k < S (length ((byte.of_Z <$> enc_subs k ++ [z]) ++ tail)))%nat).
  { intros k z. rewrite !length_app, length_fmap, length_app. pose proof (enc_subs_length k). lia. }
  pose proof (parse_start_at ces lcids lengths H1 H2 H3) as H0. unfold closed in *.
  destruct (Z.ltb_spec 0 post) as [Hpost|Hpost]; cbn [fst snd] in *.
  - assert (Hlast : last_sub SHORT_PADDING l tb = Sub SHORT_PADDING None).
    { unfold last_sub. by rewrite (proj2 (Z.ltb_ge _ _)) by (unfold SHORT_PADDING; lia). }
    assert (Hces : ces_of (l ++ [Sub SHORT_PADDING None]) = ces_of l) by (rewrite ces_of_snoc; cbn; by rewrite app_nil_r).
    assert (Hsdus : sdus_of (l ++ [Sub SHORT_PADDING None]) = sdus_of l) by (rewrite sdus_of_snoc; cbn; by rewrite app_nil_r).
    destruct (parse_loop_ok SHORT_PADDING tb tail l [] _ (S (length ((byte.of_Z <$> enc_subs l ++ [SHORT_PADDING]) ++ tail)))
      H0 ltac:(unfold SHORT_PADDING; lia) Hw) as (p & E & HP); cbn [app] in *.
    + rewrite Hlast. unfold fits. by rewrite Hces, Hsdus.
    + intros _. apply Forall_app. split; [done|]. apply Forall_cons_2; [|by apply Forall_nil_2].
      split; [split; cbn; unfold SHORT_PADDING; lia|done].
    + apply Hfuel.
    + rewrite Hlast in HP. exists p, (l ++ [Sub SHORT_PADDING None]). rewrite zlen_app. by split_and!.
  - destruct (exists_last Hne) as (pre & s & ->). rewrite removelast_last in *.
    rewrite (fmap_app s_lcid) in *. change (s_lcid <$> [s]) with [s_lcid s] in *. rewrite List.last_last in *.
    pose proof Hw as Hws. apply Forall_app in Hws as [Hwp Hws]. apply Forall_cons_1 in Hws as [[[Hlen Hlc] Hk] _].
    assert (Hlast : last_sub (s_lcid s) pre tb = s).
    { unfold last_sub. destruct s as [lcid [n|]]; cbn [s_lcid s_len] in *.
      - rewrite (proj2 (Z.ltb_lt _ _)) by lia. do 2 f_equal. specialize (Htb Hpost).
        rewrite ces_of_snoc, sdus_of_snoc in Htb. cbn in Htb. rewrite app_nil_r, !fmap_app, sumZ_app, zlen_app in Htb. cbn in Htb.
        change (zlen [lcid]) with 1 in Htb. replace (tb - _ - _ - _ - _) with n by lia. apply u16_small. lia.
      - by rewrite (proj2 (Z.ltb_ge _ _)) by lia. }
    destruct (parse_loop_ok (s_lcid s) tb tail pre [] _ (S (length ((byte.of_Z <$> enc_subs pre ++ [s_lcid s]) ++ tail))) H0 Hlc Hwp)
      as (p & E & HP); cbn [app] in *.
    + by rewrite Hlast.
    + intros Hge. destruct s as [lcid [n|]]; cbn [s_lcid s_len] in *; [lia|done].
    + apply Hfuel.
    + rewrite Hlast in HP. exists p, (pre ++ [s]). rewrite zlen_app. by split_and!.
Qed.

(** The subheaders of control elements and SDUs. *)
Lemma ces_of_header c sdus : ces_of ((ce_sub <$> c) ++ sdu_subs sdus) = ce_lcids c.
Proof.
  unfold ces_of. rewrite bind_app. replace (sdu_subs sdus ≫= _) with (@nil Z)
    by (symmetry; induction sdus as [|d sdus IH]; [done|exact IH]). rewrite app_nil_r.
  induction c as [|[x e] c IH]; [done|]. cbn. by rewrite IH.
Qed.

Lemma sdus_of_header c sdus : sdus_of ((ce_sub <$> c) ++ sdu_subs sdus) = sdus.
Proof.
  unfold sdus_of. rewrite bind_app. replace ((ce_sub <$> c) ≫= _) with (@nil (Z * Z))
    by (symmetry; induction c as [|x c IH]; [done|exact IH]). cbn [app].
  induction sdus as [|[x n] sdus IH]; [done|]. unfold sdu_subs in *. cbn in *. by rewrite IH.
Qed.

Lemma header_wf c sdus : Forall (fun x : Z * list byte => first_ce <= x.1 < 32 /\ (x.1 <> SHORT_PADDING -> known x.1)) c ->
  0 <= first_ce <= 32 -> sdus_wf first_ce sdus -> subs_wf ((ce_sub <$> c) ++ sdu_subs sdus).
Proof.
  intros Hc Hfce Hs. apply Forall_app. split; apply Forall_fmap.
  - eapply Forall_impl; [|exact Hc]. intros x [Hx Hk]. split; [split; cbn; lia|]. intros _. exact Hk.
  - eapply Forall_impl; [|exact Hs]. intros d [Hd Hn]. split; [split; cbn; [done|lia]|done].
Qed.
End Parse.

(** ** The payload *)

Lemma bget_middle (A x B : list byte) : bget (A ++ x ++ B) (zlen A) (zlen x) = Ret x.
Proof.
  rewrite bget_ok by (rewrite ?zlen_app; pose proof (zlen_nonneg A); pose proof (zlen_nonneg x); pose proof (zlen_nonneg B); lia).
  unfold zlen. by rewrite !Nat2Z.id, drop_app_length, take_app_length.
Qed.

(** The octets of the SDUs between [A] and [B]. *)
Lemma sdu_data (A B : list byte) (sdus : list (Z * list byte)) i d : sdus !! i = Some d ->
  bget (A ++ mjoin sdus.*2 ++ B) (zlen A + zlen (mjoin (take i sdus).*2)) (zlen d.2) = Ret d.2.
Proof.
  intros Hi. rewrite <- (take_drop_middle sdus i d Hi) at 1. rewrite fmap_app, fmap_cons, join_app. cbn [mjoin list_join].
  rewrite <- !app_assoc, (app_assoc A), <- zlen_app. apply bget_middle.
Qed.

Definition sizes (sdus : list (Z * list byte)) : list (Z * Z) := (fun d => (d.1, zlen d.2)) <$> sdus.

Lemma sizes_sum sdus : sumZ (sizes sdus).*2 = zlen (mjoin sdus.*2).
Proof.
  induction sdus as [|d sdus IH]; [done|].
  change (mjoin (d :: sdus).*2) with (d.2 ++ mjoin sdus.*2). rewrite zlen_app, <- IH. done.
Qed.

(** What the arrays of the receiver hold for SDU [i]. *)
Lemma sdu_entry sz ptr l p sdus i d : parsed_at sz ptr l p -> sdus_of l = sizes sdus -> sdus !! i = Some d ->
  aget (p_lcids p) (Z.of_nat i) = Ret d.1 /\ aget (p_lengths p) (Z.of_nat i) = Ret (zlen d.2).
Proof.
  intros [P1 P2 P3 P4 P5 P6 P7 P8 P9 P10] Hs Hi. rewrite Hs in *.
  assert (Hi' : sizes sdus !! i = Some (d.1, zlen d.2)) by (unfold sizes; by rewrite list_lookup_fmap, Hi).
  split; [exact (take_lookup_fmap fst _ (sizes sdus) i _ P7 Hi')|exact (take_lookup_fmap snd _ (sizes sdus) i _ P9 Hi')].
Qed.

(** A loop over the SDUs goes through all of them. *)
Lemma sdu_walk {S} (body : Z -> Z * S -> cres (Z * S)) (f : S -> Z * list byte -> S) base (sdus : list (Z * list byte)) s0 :
  (forall i d s, sdus !! i = Some d -> body (Z.of_nat i) (base + zlen (mjoin (take i sdus).*2), s) =
     Ret (base + zlen (mjoin (take (Datatypes.S i) sdus).*2), f s d)) ->
  for_each body (zrange 0 (length sdus)) (base, s0) = Ret (base + zlen (mjoin sdus.*2), foldl f s0 sdus).
Proof.
  intros Hb. assert (Hgen : forall k, (k <= length sdus)%nat -> for_each body (zrange 0 k) (base, s0) =
    Ret (base + zlen (mjoin (take k sdus).*2), foldl f s0 (take k sdus))).
  { induction k as [|k IH]; intros Hk; [cbn; rewrite Z.add_0_r; done|].
    rewrite zrange_snoc, for_each_app, IH by lia. cbn [mbind cres_bind for_each].
    destruct (lookup_lt_is_Some_2 sdus k) as [d Hd]; [lia|]. rewrite (Hb k d _ Hd). cbn [mbind cres_bind].
    rewrite (take_S_r _ _ _ Hd), foldl_app. done. }
  rewrite Hgen, take_ge by lia. done.
Qed.

Lemma next_place base (sdus : list (Z * list byte)) i d : sdus !! i = Some d ->
  base + zlen (mjoin (take i sdus).*2) + zlen d.2 = base + zlen (mjoin (take (S i) sdus).*2).
Proof.
  intros Hi. rewrite (take_S_r _ _ _ Hi), fmap_app, join_app, zlen_app. cbn [fmap list_fmap mjoin list_join]. rewrite app_nil_r. lia.
Qed.

(** *** Downlink *)

Definition log_sdu (u : ue_mac) (d : Z * list byte) : ue_mac :=
  UeMac (RA_active u) (RA_contention_resolution_timer_active u) (CCCH_payload u) (ta_log u) (ra_log u) (sdu_log u ++ [d]).

Lemma log_sdus sdus : forall u, sdu_log (foldl log_sdu u sdus) = sdu_log u ++ sdus /\ ta_log (foldl log_sdu u sdus) = ta_log u.
Proof.
  induction sdus as [|d sdus IH]; intros u; cbn [foldl]; [by rewrite app_nil_r|].
  destruct (IH (log_sdu u d)) as [-> ->]. cbn. by rewrite <- app_assoc.
Qed.

Lemma ue_sdus_ok sz ptr l p A B sdus u : parsed_at sz ptr l p -> sdus_of l = sizes sdus ->
  Forall (fun d => d.1 < Z.of_nat MAC_NB_RB_MAX) sdus ->
  for_each (ue_sdu (A ++ mjoin sdus.*2 ++ B) p) (zrange 0 (length sdus)) (zlen A, u) =
    Ret (zlen A + zlen (mjoin sdus.*2), foldl log_sdu u sdus).
Proof.
  intros HP Hs Hl. apply sdu_walk. intros i d s Hi. unfold ue_sdu. destruct (sdu_entry _ _ _ _ _ _ _ HP Hs Hi) as [-> ->].
  cbn [mbind cres_bind fst snd]. pose proof (Forall_lookup_1 _ _ _ _ Hl Hi) as Hd. rewrite (proj2 (Z.ltb_lt _ _)) by exact Hd.
  rewrite (sdu_data A B sdus i d Hi). cbn [mbind cres_bind]. rewrite (next_place _ _ _ _ Hi). by destruct d.
Qed.

(** The steps of the loop over the control elements. *)
Lemma ue_ce_end fuel mem p i ptr u : p_num_ce p <= i -> ue_ce_loop (S fuel) mem p i ptr u = Ret (Some ptr, u).
Proof. intros Hi. cbn [ue_ce_loop]. by rewrite (proj2 (Z.ltb_ge _ _)). Qed.

Lemma ue_ce_ta fuel mem p i ptr u v : i < p_num_ce p -> aget (p_ces p) i = Ret TIMING_ADV_CMD -> octet mem ptr = Ret v ->
  ue_ce_loop (S fuel) mem p i ptr u = ue_ce_loop fuel mem p (i + 1) (ptr + 1)
    (UeMac (RA_active u) (RA_contention_resolution_timer_active u) (CCCH_payload u) (ta_log u ++ [v]) (ra_log u) (sdu_log u)).
Proof.
  intros Hi Ha Ho. cbn [ue_ce_loop]. rewrite (proj2 (Z.ltb_lt _ _)), Ha by done. cbn [mbind cres_bind].
  change (TIMING_ADV_CMD =? UE_CONT_RES) with false. change (TIMING_ADV_CMD =? TIMING_ADV_CMD) with true. cbn match. by rewrite Ho.
Qed.

(** The identity of the contention resolution is the one the user sent. *)
Definition contention_ok (u : ue_mac) (mem : list byte) (ptr : Z) : Prop :=
  RA_active u = 1 -> same_octets (CCCH_payload u) 3 mem ptr 6 = Ret true.

Lemma ue_ce_cont fuel mem p i ptr u : i + 1 = p_num_ce p -> p_num_ce p <= 7 -> aget (p_ces p) i = Ret UE_CONT_RES ->
  contention_ok u mem ptr ->
  exists u', ue_ce_loop (S (S fuel)) mem p i ptr u = Ret (Some (ptr + 6), u') /\ ta_log u' = ta_log u /\ sdu_log u' = sdu_log u.
Proof.
  intros Hi Hn Ha Hc. remember (S fuel) as f. cbn [ue_ce_loop]. subst f.
  rewrite (proj2 (Z.ltb_lt i _)), Ha by lia. cbn [mbind cres_bind]. change (UE_CONT_RES =? UE_CONT_RES) with true. cbn match.
  destruct (Z.eqb_spec (RA_active u) 1) as [Hra|Hra].
  - rewrite (Hc Hra). cbn [mbind cres_bind negb]. rewrite ue_ce_end by lia. by eexists.
  - rewrite ue_ce_end by lia. by eexists.
Qed.

(** Bytes compared with themselves. *)
Lemma same_octets_ok (A1 B1 A2 B2 id : list byte) :
  same_octets (A1 ++ id ++ B1) (zlen A1) (A2 ++ id ++ B2) (zlen A2) (length id) = Ret true.
Proof.
  revert A1 A2. induction id as [|b id IH]; intros A1 A2; [done|]. cbn [length same_octets app].
  rewrite !octet_app by done. cbn [mbind cres_bind]. rewrite Z.eqb_refl.
  specialize (IH (A1 ++ [b]) (A2 ++ [b])). rewrite !zlen_app in IH. rewrite <- !app_assoc in IH. exact IH.
Qed.

(** *** The block of a PDU *)

(** The header, the SDUs one after the other and the padding, as the scheduler puts them together. *)
Definition mac_pdu (header : list byte) (offset : Z) (sdus : list (Z * list byte)) (padding : list byte) : list byte :=
  take (Z.to_nat offset) header ++ mjoin sdus.*2 ++ padding.

Lemma header_code_bound l post : l <> [] -> zlen (header_code l post) <= 3 * zlen l + 1.
Proof.
  intros Hne. assert (Hb : forall k, zlen (enc_subs k) <= 3 * zlen k).
  { induction k as [|s k IH]; [done|]. change (enc_subs (s :: k)) with (enc_sub true s ++ enc_subs k). rewrite zlen_app.
    assert (zlen (enc_sub true s) <= 3) by (unfold enc_sub, enc_len; destruct (s_len s); [case_if|]; unfold zlen; cbn; lia).
    unfold zlen in *. cbn [length]. lia. }
  unfold header_code, closed. rewrite zlen_app. change (zlen [_]) with 1. case_if; cbn [fst]; [specialize (Hb l); lia|].
  destruct (exists_last Hne) as (pre & s & ->). rewrite removelast_last. specialize (Hb pre). rewrite zlen_app. change (zlen [s]) with 1. lia.
Qed.

Lemma mac_pdu_eq l post (ces tail : list byte) sdus padding : l <> [] -> 3 * zlen l + 1 + zlen ces < 256 ->
  mac_pdu ((byte.of_Z <$> header_code l post) ++ ces ++ tail) (u8 (zlen (header_code l post) + u8 (zlen ces))) sdus padding =
    (byte.of_Z <$> header_code l post) ++ ces ++ mjoin sdus.*2 ++ padding.
Proof.
  intros Hne Hlt. pose proof (header_code_bound l post Hne). pose proof (zlen_nonneg (header_code l post)). pose proof (zlen_nonneg ces).
  pose proof (zlen_nonneg l). rewrite (u8_small (zlen ces)), u8_small by lia. unfold mac_pdu.
  rewrite <- (zlen_fmap byte.of_Z), <- zlen_app, (app_assoc _ ces tail). unfold zlen at 1. rewrite Nat2Z.id, take_app_length.
  by rewrite <- app_assoc.
Qed.

(** SDUs with a length of 15 bits, few enough for the arrays of the receiver. *)
Definition payload_ok (first_ce : Z) (sdus : list (Z * list byte)) : Prop :=
  Forall (fun d => 0 <= d.1 < first_ce /\ zlen d.2 < 2 ^ 15) sdus /\ (length sdus <= MAC_NB_RB_MAX)%nat.

Lemma payload_sizes first_ce sdus : payload_ok first_ce sdus -> sdus_wf first_ce (sizes sdus) /\ zlen (sizes sdus) <= 14.
Proof.
  intros [Hs Hl]. split.
  - apply Forall_fmap. eapply Forall_impl; [|exact Hs]. intros d [H1 H2]. cbn. pose proof (zlen_nonneg d.2). lia.
  - unfold sizes. rewrite zlen_fmap. unfold zlen, MAC_NB_RB_MAX in *. lia.
Qed.

(** Reading a whole block: the control elements and the SDUs are those that were written. *)
Lemma parse_pdu first_ce ce_size size c sdus post padding ces lcids lengths :
  0 <= first_ce <= 31 -> Forall (fun x : Z * list byte => first_ce <= x.1 < 32 /\ (x.1 <> SHORT_PADDING -> known ce_size size x.1)) c ->
  (length (ce_lcids c) <= MAX_NUM_CE)%nat -> sumZ (size <$> ce_lcids c) = zlen (mjoin c.*2) ->
  payload_ok first_ce sdus -> c <> [] \/ sdus <> [] -> (post <= 0 -> padding = []) ->
  length ces = MAX_NUM_CE -> length lcids = MAC_NB_RB_MAX -> length lengths = MAC_NB_RB_MAX ->
  let H := header_code ((ce_sub <$> c) ++ sdu_subs (sizes sdus)) post in
  let pdu := (byte.of_Z <$> H) ++ mjoin c.*2 ++ mjoin sdus.*2 ++ padding in
  exists p L, parse_loop (S (length pdu)) first_ce ce_size pdu (zlen pdu) (parse_start ces lcids lengths) = Ret p /\
    parsed_at size (zlen H) L p /\ ces_of L = ce_lcids c /\ sdus_of L = sizes sdus.
Proof.
  intros Hfce Hc Hnc Hsum Hp Hne Hpad H1 H2 H3 H pdu. destruct (payload_sizes _ _ Hp) as [Hs _]. destruct Hp as [_ Hlen].
  pose (L := (ce_sub <$> c) ++ sdu_subs (sizes sdus)).
  assert (Hce : ces_of L = ce_lcids c) by apply ces_of_header. assert (Hsd : sdus_of L = sizes sdus) by apply sdus_of_header.
  destruct (parse_code first_ce ce_size size L post (zlen pdu) (mjoin c.*2 ++ mjoin sdus.*2 ++ padding) ces lcids lengths)
    as (p & L' & E & HP & Hc' & Hs'); try done.
  - lia.
  - apply header_wf; (done || lia).
  - unfold fits. rewrite Hce, Hsd. split; [done|]. unfold sizes. by rewrite length_fmap.
  - unfold L. destruct c; [|done]. by destruct sdus; [destruct Hne|].
  - intros Hpost. unfold pdu. rewrite (Hpad Hpost), app_nil_r, !zlen_app, zlen_fmap, Hce, Hsd, Hsum, sizes_sum. change (header_code L post) with H. lia.
  - exists p, L'. by rewrite Hc', Hs', Hce, Hsd.
Qed.

Lemma ce_entry sz ptr L p i c : parsed_at sz ptr L p -> ces_of L !! i = Some c -> aget (p_ces p) (Z.of_nat i) = Ret c.
Proof.
  intros HP Hi. apply (take_lookup_fmap id _ (ces_of L) i c); [|done]. rewrite list_fmap_id. exact (pa_ces _ _ _ _ HP).
Qed.

(** *** Downlink round trip *)

Definition dl_size (lcid : Z) : Z := if lcid =? TIMING_ADV_CMD then 1 else if lcid =? UE_CONT_RES then 6 else 0.

Lemma dl_known lcid : known dl_ce_size dl_size lcid.
Proof. split; [done|]. unfold dl_size. repeat case_if; lia. Qed.

Lemma padding_lcids k : ce_lcids (padding_ces k) = [].
Proof. unfold padding_ces. by repeat case_if. Qed.

Lemma padding_octets k : mjoin (padding_ces k).*2 = [].
Proof. unfold padding_ces. by repeat case_if. Qed.

(** The elements without the padding, and their octets. *)
Definition dl_elements (ta : Z) (cont_res : option (list byte)) : list (Z * list byte) :=
  opt_ce (negb (ta =? 0)) TIMING_ADV_CMD [byte.of_Z (Z.land (ta + 31) 63)] ++
  match cont_res with Some id => [(UE_CONT_RES, id)] | None => [] end.

Lemma dl_ces_split ta cont_res k : dl_ces 255 ta cont_res k = padding_ces k ++ dl_elements ta cont_res.
Proof. done. Qed.

Lemma dl_lcids ta cont_res k : ce_lcids (dl_ces 255 ta cont_res k) = (dl_elements ta cont_res).*1.
Proof.
  rewrite dl_ces_split. unfold ce_lcids at 1. rewrite bind_app. fold (ce_lcids (padding_ces k)). rewrite padding_lcids.
  unfold dl_elements. destruct (negb (ta =? 0)), cont_res; done.
Qed.

Lemma dl_octets ta cont_res k : mjoin (dl_ces 255 ta cont_res k).*2 = mjoin (dl_elements ta cont_res).*2.
Proof. by rewrite dl_ces_split, fmap_app, join_app, padding_octets. Qed.

Lemma dl_elements_sum ta cont_res : (forall id, cont_res = Some id -> zlen id = 6) ->
  sumZ (dl_size <$> (dl_elements ta cont_res).*1) = zlen (mjoin (dl_elements ta cont_res).*2).
Proof.
  intros Hid. unfold dl_elements. destruct cont_res as [x|]; [specialize (Hid x eq_refl)|]; destruct (negb (ta =? 0));
    cbn [opt_ce app fmap list_fmap fst snd mjoin list_join]; rewrite ?app_nil_r; unfold sumZ, zlen in *; cbn [foldr length];
    try change (dl_size UE_CONT_RES) with 6; try change (dl_size TIMING_ADV_CMD) with 1; lia.
Qed.

Lemma ta_range ta : 0 <= Z.land (ta + 31) 63 < 64.
Proof. change 63 with (2 ^ 6 - 1). rewrite land_mask by lia. apply Z.mod_pos_bound. lia. Qed.

(** The message 3 whose octets 3 to 8 are the identity. *)
Definition sent_identity (u : ue_mac) (id : list byte) : Prop := exists A B, CCCH_payload u = A ++ id ++ B /\ zlen A = 3.

(** The user goes through the control elements. *)
Lemma ue_ces_ok fuel ta cont_res ptr L p A B u : (3 <= fuel)%nat -> parsed_at dl_size ptr L p ->
  ces_of L = (dl_elements ta cont_res).*1 -> zlen A = ptr ->
  (forall id, cont_res = Some id -> zlen id = 6 /\ (RA_active u = 1 -> sent_identity u id)) ->
  exists u', ue_ce_loop fuel (A ++ mjoin (dl_elements ta cont_res).*2 ++ B) p 0 ptr u =
      Ret (Some (ptr + zlen (mjoin (dl_elements ta cont_res).*2)), u') /\
    ta_log u' = ta_log u ++ (if ta =? 0 then [] else [Z.land (ta + 31) 63]) /\ sdu_log u' = sdu_log u.
Proof.
  intros Hf HP HL HA Hid. destruct fuel as [|[|[|fuel]]]; try lia. pose proof (pa_num_ce _ _ _ _ HP) as Hn. rewrite HL in Hn.
  pose proof (fun i c => ce_entry _ _ _ _ i c HP) as He. rewrite HL in He. unfold dl_elements in *. pose proof (ta_range ta).
  assert (Hcont : forall id A' u', cont_res = Some id -> CCCH_payload u' = CCCH_payload u -> RA_active u' = RA_active u ->
    contention_ok u' (A' ++ id ++ B) (zlen A')).
  { intros id A' u' E Ec Er Hra. rewrite Er in Hra. destruct (Hid id E) as [H6 Hs]. destruct (Hs Hra) as (C & D & Hc & HC).
    rewrite Ec, Hc, <- HC. replace 6%nat with (length id) by (unfold zlen in H6; lia). apply same_octets_ok. }
  destruct (Z.eqb_spec ta 0) as [->|Hta]; cbn [negb opt_ce app] in *; destruct cont_res as [id|]; cbn in Hn, He.
  - destruct (ue_ce_cont (S fuel) (A ++ id ++ B) p 0 ptr u) as (u' & E & H1 & H2);
      [rewrite Hn; done|rewrite Hn; unfold zlen; cbn; lia|by apply (He 0%nat)|subst ptr; by apply Hcont|].
    exists u'. cbn [fmap list_fmap mjoin list_join snd]. rewrite !app_nil_r, E, H1, (proj1 (Hid id eq_refl)). done.
  - exists u. cbn [fmap list_fmap mjoin list_join]. rewrite ue_ce_end by (rewrite Hn; done). rewrite Z.add_0_r, app_nil_r. done.
  - cbn [fmap list_fmap mjoin list_join snd]. rewrite app_nil_r.
    rewrite (ue_ce_ta _ _ p 0 ptr u (Z.land (ta + 31) 63));
      [|rewrite Hn; unfold zlen; cbn; lia|by apply (He 0%nat)|].
    2:{ cbn [app]. rewrite octet_app by done. by rewrite byte.unsigned_of_Z; unfold byte.wrap; rewrite Z.mod_small by lia. }
    match goal with |- context [ue_ce_loop _ _ p _ _ ?v] => set (u1 := v) end.
    destruct (ue_ce_cont fuel (A ++ (byte.of_Z (Z.land (ta + 31) 63) :: id) ++ B) p (0 + 1) (ptr + 1) u1) as (u' & E & H1 & H2);
      [rewrite Hn; done|rewrite Hn; unfold zlen; cbn; lia|by apply (He 1%nat)| |].
    + cbn [app]. rewrite cons_middle, app_assoc. replace (ptr + 1) with (zlen (A ++ [byte.of_Z (Z.land (ta + 31) 63)]))
        by (rewrite zlen_app, HA; done). by apply Hcont.
    + exists u'. cbn [app] in E |- *. rewrite E, H1, H2. split; [|done]. unfold zlen in *. cbn [length]. destruct (Hid id eq_refl) as [H6 _].
      do 3 f_equal. lia.
  - exists (UeMac (RA_active u) (RA_contention_resolution_timer_active u) (CCCH_payload u) (ta_log u ++ [Z.land (ta + 31) 63]) (ra_log u) (sdu_log u)).
    cbn [fmap list_fmap mjoin list_join snd app].
    rewrite (ue_ce_ta _ _ p 0 ptr u (Z.land (ta + 31) 63));
      [|rewrite Hn; unfold zlen; cbn; lia|by apply (He 0%nat)|].
    2:{ cbn [app]. rewrite octet_app by done. by rewrite byte.unsigned_of_Z; unfold byte.wrap; rewrite Z.mod_small by lia. }
    rewrite ue_ce_end by (rewrite Hn; done). done.
Qed.

Lemma dl_ces_wf ta cont_res k :
  Forall (fun x : Z * list byte => UE_CONT_RES <= x.1 < 32 /\ (x.1 <> SHORT_PADDING -> known dl_ce_size dl_size x.1)) (dl_ces 255 ta cont_res k).
Proof.
  rewrite dl_ces_split. assert (H : Forall (fun x : Z * list byte => UE_CONT_RES <= x.1 < 32) (padding_ces k ++ dl_elements ta cont_res)).
  { unfold padding_ces, dl_elements, opt_ce. repeat case_if; destruct cont_res; repeat constructor; done. }
  eapply Forall_impl; [|exact H]. intros x Hx. split; [exact Hx|intros _; apply dl_known].
Qed.

Lemma dl_elements_few ta cont_res : (length (dl_elements ta cont_res) <= 2)%nat.
Proof. unfold dl_elements, opt_ce. case_if; destruct cont_res; cbn; lia. Qed.

Lemma dl_elements_octets ta cont_res : (forall id, cont_res = Some id -> zlen id = 6) -> zlen (mjoin (dl_elements ta cont_res).*2) <= 7.
Proof.
  intros Hid. rewrite <- (dl_elements_sum ta cont_res Hid). unfold dl_elements, opt_ce. by case_if; destruct cont_res.
Qed.

Lemma payload_weaken a b sdus : payload_ok a sdus -> a <= b -> payload_ok b sdus.
Proof. intros [Hs Hl] Hab. split; [|done]. eapply Forall_impl; [|exact Hs]. intros d [H1 H2]. cbn. lia. Qed.

Lemma cres_ret_bind {A B} (f : A -> cres B) x : (Ret x ≫= f) = f x.
Proof. done. Qed.

(** The user goes through the payload. *)
Lemma ue_walk fuel ta cont_res ptr L p A sdus padding u : (3 <= fuel)%nat -> parsed_at dl_size ptr L p ->
  ces_of L = (dl_elements ta cont_res).*1 -> sdus_of L = sizes sdus -> zlen A = ptr ->
  Forall (fun d => d.1 < Z.of_nat MAC_NB_RB_MAX) sdus ->
  (forall id, cont_res = Some id -> zlen id = 6 /\ (RA_active u = 1 -> sent_identity u id)) ->
  let pdu := A ++ mjoin (dl_elements ta cont_res).*2 ++ mjoin sdus.*2 ++ padding in
  exists u',
    ('(ptr, u) ← ue_ce_loop fuel pdu p 0 (p_ptr p) u;
     match ptr with
     | None => Ret u
     | Some ptr => '(_, u) ← for_each (ue_sdu pdu p) (zrange 0 (Z.to_nat (p_num_sdu p))) (ptr, u); Ret u
     end) = Ret u' /\
    sdu_log u' = sdu_log u ++ sdus /\ ta_log u' = ta_log u ++ (if ta =? 0 then [] else [Z.land (ta + 31) 63]).
Proof.
  intros Hf HP Hce Hsd HA Hl Hid pdu. unfold pdu.
  destruct (ue_ces_ok fuel ta cont_res ptr L p A (mjoin sdus.*2 ++ padding) u Hf HP Hce HA Hid) as (u1 & E1 & T1 & S1).
  exists (foldl log_sdu u1 sdus). destruct (log_sdus sdus u1) as [-> ->]. rewrite T1, S1. split; [|done].
  rewrite (pa_ptr _ _ _ _ HP), E1. cbn [mbind cres_bind].
  rewrite (pa_num_sdu _ _ _ _ HP), Hsd. unfold zlen at 1, sizes at 1. rewrite Nat2Z.id, length_fmap.
  rewrite app_assoc, <- HA, <- zlen_app. rewrite (ue_sdus_ok _ _ _ _ _ _ _ _ HP Hsd); done.
Qed.

(** C14: A downlink PDU put together from [generate_dlsch_header] reaches the user as it was meant: for
    any SDUs of known channels with lengths on 15 bits, with or without a timing advance, a contention
    resolution identity, short padding and padding at the end, [ue_send_sdu] gives the SDUs to RLC in
    order and unchanged, the timing advance (plus 31, on 6 bits) to the physical layer, and reads
    nothing outside the block, provided no DRX command is sent and the identity is that of message 3
    when a random access is active. *)
Theorem dl_pdu_round_trip mem sdus lens lcids ta cont_res k post padding ces rx_lcids rx_lengths u :
  payload_ok (Z.of_nat MAC_NB_RB_MAX) sdus -> arrays_hold lens lcids (sizes sdus) ->
  dl_ces 255 ta cont_res k <> [] \/ sdus <> [] ->
  (forall id, cont_res = Some id -> zlen id = 6 /\ (RA_active u = 1 -> sent_identity u id)) ->
  (post <= 0 -> padding = []) -> 62 <= zlen mem ->
  length ces = MAX_NUM_CE -> length rx_lcids = MAC_NB_RB_MAX -> length rx_lengths = MAC_NB_RB_MAX ->
  exists header offset u',
    generate_dlsch_header mem (length sdus) lens lcids 255 ta cont_res k post = Ret (header, offset) /\
    ue_send_sdu (mac_pdu header offset sdus padding) (zlen (mac_pdu header offset sdus padding)) ces rx_lcids rx_lengths u = Ret u' /\
    sdu_log u' = sdu_log u ++ sdus /\ ta_log u' = ta_log u ++ (if ta =? 0 then [] else [Z.land (ta + 31) 63]).
Proof.
  intros Hp Ha Hne Hid Hpad Hm H1 H2 H3. pose proof (payload_weaken _ UE_CONT_RES _ Hp ltac:(done)) as Hp'.
  destruct (payload_sizes _ _ Hp') as [Hs Hz]. assert (Hid' : forall id, cont_res = Some id -> zlen id = 6) by (intros id Hc; by apply Hid).
  assert (Hlen : length (sizes sdus) = length sdus) by apply length_fmap. set (c := dl_ces 255 ta cont_res k) in *.
  assert (Hne' : c <> [] \/ sizes sdus <> []) by (destruct Hne; [by left|right; by destruct sdus]).
  destruct (generate_dlsch_ok mem (sizes sdus) lens lcids 255 ta cont_res k post) as (tail & Hg); [done|done|done|done|lia|].
  fold c in Hg. cbv zeta in Hg. rewrite Hlen in Hg. set (l := (ce_sub <$> c) ++ sdu_subs (sizes sdus)) in *.
  pose proof (dl_elements_octets ta cont_res Hid') as H7. pose proof (dl_elements_few ta cont_res) as Hfew.
  assert (Hoct : mjoin c.*2 = mjoin (dl_elements ta cont_res).*2) by apply dl_octets.
  assert (Hl : zlen l <= 18).
  { unfold l, c, sdu_subs. rewrite dl_ces_split, zlen_app, !zlen_fmap, zlen_app. pose proof (padding_ces_len k). unfold zlen in *. lia. }
  assert (Hlne : l <> []) by (unfold l; destruct Hne' as [?|?]; [by destruct c|destruct c; [by destruct (sizes sdus)|done]]).
  rewrite Hoct in Hg. do 2 eexists. pose proof (mac_pdu_eq l post (mjoin (dl_elements ta cont_res).*2) tail sdus padding Hlne ltac:(apply (Z.le_lt_trans _ (55 + 7)); [apply Z.add_le_mono; [lia|exact H7]|lia])) as Hpdu.
  destruct (parse_pdu UE_CONT_RES dl_ce_size dl_size c sdus post padding ces rx_lcids rx_lengths) as (p & L & E & HP & Hce & Hsd);
    try done; [by apply dl_ces_wf|unfold c; rewrite dl_lcids, length_fmap; unfold MAX_NUM_CE; lia|
               unfold c; by rewrite dl_lcids, dl_octets, dl_elements_sum|].
  fold l in E, HP. unfold c in Hce. rewrite dl_lcids in Hce. rewrite Hoct in *.
  destruct (ue_walk 256 ta cont_res _ L p (byte.of_Z <$> header_code l post) sdus padding u ltac:(lia) HP Hce Hsd) as (u1 & E1 & HS & HT);
    [by rewrite zlen_fmap|destruct Hp as [Hp _]; eapply Forall_impl; [|exact Hp]; intros d Hd; apply Hd|done|].
  exists u1. split; [exact Hg|]. rewrite Hpdu. split; [|done]. unfold ue_send_sdu, parse_header. rewrite E, cres_ret_bind. exact E1.
Qed.

(** *** Any block *)

(** A result that is not the end of the fuel. *)
Definition stops {A} (r : cres A) : Prop := r <> Trap FFuel.

Lemma stops_bind {A B} (m : cres A) (f : A -> cres B) : stops m -> (forall x, m = Ret x -> stops (f x)) -> stops (m ≫= f).
Proof. unfold stops. destruct m; cbn [mbind cres_bind]; [auto|congruence]. Qed.

Lemma cres_bind_inv {A B} (m : cres A) (f : A -> cres B) y : (m ≫= f) = Ret y -> exists x, m = Ret x /\ f x = Ret y.
Proof. destruct m as [x|]; [by exists x|done]. Qed.

Lemma stops_trap {A B} f : stops (Trap f : cres A) -> stops (Trap f : cres B).
Proof. unfold stops. congruence. Qed.

Lemma stops_aget {A} (a : list A) i : stops (aget a i).
Proof. unfold stops, aget. destruct (0 <=? i); [|done]. by destruct (a !! Z.to_nat i). Qed.

Lemma stops_aset {A} (a : list A) i x : stops (aset a i x).
Proof. unfold stops, aset. by destruct (_ && _). Qed.

Lemma stops_octet mem i : stops (octet mem i).
Proof. unfold octet. by apply stops_bind; [apply stops_aget|]. Qed.

Lemma stops_for_each {I S} (f : I -> S -> cres S) l : (forall i s, stops (f i s)) -> forall s, stops (for_each f l s).
Proof. intros Hf. induction l as [|i l IH]; intros s; [done|]. cbn [for_each]. apply stops_bind; [apply Hf|]. intros x _. apply IH. Qed.

Lemma octet_range mem i o : octet mem i = Ret o -> 0 <= i < zlen mem.
Proof.
  unfold octet, aget. destruct (Z.leb_spec 0 i); [|done]. destruct (mem !! Z.to_nat i) eqn:E; [|done]. intros _.
  apply lookup_lt_Some in E. unfold zlen. lia.
Qed.

Lemma stops_parse_sdu mem tb more lcid p : stops (parse_sdu mem tb more lcid p).
Proof.
  unfold parse_sdu. apply stops_bind.
  - destruct more; cbn [negb].
    + apply stops_bind; [apply stops_octet|]. intros o _. case_if; [|done]. by apply stops_bind; [apply stops_octet|].
    + apply stops_bind; [|done]. unfold last_length. apply stops_for_each. intros i s. by apply stops_bind; [apply stops_aget|].
  - intros [ptr len] _. apply stops_bind; [apply stops_aset|]. intros lcids _. by apply stops_bind; [apply stops_aset|].
Qed.

Lemma stops_parse_ce ce_size lcid p : (forall l, stops (ce_size l)) -> stops (parse_ce ce_size lcid p).
Proof.
  intros Hc. unfold parse_ce. case_if; [done|]. apply stops_bind; [apply stops_aset|]. intros ces _. by apply stops_bind; [apply Hc|].
Qed.

(** A subheader is left behind; the last one takes one octet. *)
Lemma parse_sdu_moves mem tb more lcid p q : parse_sdu mem tb more lcid p = Ret q ->
  p_ptr p < p_ptr q /\ (more = false -> p_ptr q = p_ptr p + 1).
Proof.
  unfold parse_sdu. intros E. apply cres_bind_inv in E as ([ptr len] & E1 & E2). cres_inv. cbn [p_ptr].
  destruct more; cbn [negb] in E1; cres_inv; [|done || lia]. destruct (Z.testbit _ _); cres_inv; split; (done || lia).
Qed.

Lemma parse_ce_moves ce_size lcid p q : parse_ce ce_size lcid p = Ret q -> p_ptr q = p_ptr p + 1.
Proof.
  unfold parse_ce. intros E. destruct (lcid =? SHORT_PADDING); by cres_inv.
Qed.

Lemma parse_loop_stops first_ce ce_size mem tb : (forall l, stops (ce_size l)) ->
  forall fuel p, zlen mem - p_ptr p < Z.of_nat fuel -> (0 < fuel)%nat ->
  stops (parse_loop fuel first_ce ce_size mem tb p) /\
  forall q, parse_loop fuel first_ce ce_size mem tb p = Ret q -> p_ptr p < p_ptr q <= zlen mem.
Proof.
  intros Hc. induction fuel as [|fuel IH]; intros p Hf H0; [lia|]. cbn [parse_loop].
  destruct (octet mem (p_ptr p)) as [o|f] eqn:Eo; [|pose proof (stops_octet mem (p_ptr p)) as H; rewrite Eo in H; split; [exact (stops_trap f H)|done]].
  apply octet_range in Eo. cbn [mbind cres_bind]. set (more := Z.testbit o 5). set (step := if _ <? _ then _ else _).
  assert (Hs : stops step) by (unfold step; case_if; [apply stops_parse_sdu|by apply stops_parse_ce]).
  assert (Hm : forall q, step = Ret q -> p_ptr p < p_ptr q /\ (more = false -> p_ptr q = p_ptr p + 1)).
  { intros q. unfold step. case_if; [apply parse_sdu_moves|]. intros Hq. apply parse_ce_moves in Hq. lia. }
  destruct step as [q|f]; [|split; [exact (stops_trap f Hs)|done]]. destruct (Hm q eq_refl) as [Hlt Hlast]. cbn [mbind cres_bind]. destruct more.
  - destruct (IH q ltac:(lia) ltac:(lia)) as [IH1 IH2]. split; [exact IH1|]. intros r Hr. specialize (IH2 r Hr). lia.
  - split; [done|]. intros r [= <-]. specialize (Hlast eq_refl). lia.
Qed.

(** C33: Reading a header ends on every block, whatever its octets: the loops of [parse_header] and
    [parse_ulsch_header] take at most one turn for each octet, and when they return the payload starts
    behind the first octet and not behind the end of the block. *)
Theorem parse_terminates mem ces lcids lengths tb :
  stops (parse_header mem ces lcids lengths tb) /\ stops (parse_ulsch_header mem ces lcids lengths tb) /\
  (forall p, parse_header mem ces lcids lengths tb = Ret p \/ parse_ulsch_header mem ces lcids lengths tb = Ret p ->
     0 < p_ptr p <= zlen mem).
Proof.
  assert (Hd : forall l, stops (dl_ce_size l)) by done.
  assert (Hu : forall l, stops (ul_ce_size l)) by (intros l; unfold ul_ce_size; by repeat case_if).
  destruct (parse_loop_stops UE_CONT_RES dl_ce_size mem tb Hd (S (length mem)) (parse_start ces lcids lengths)) as [D1 D2];
    [cbn; unfold zlen; lia|lia|].
  destruct (parse_loop_stops EXTENDED_POWER_HEADROOM ul_ce_size mem tb Hu (S (length mem)) (parse_start ces lcids lengths)) as [U1 U2];
    [cbn; unfold zlen; lia|lia|].
  split; [exact D1|]. split; [exact U1|]. intros p [Hp|Hp]; [exact (D2 p Hp)|exact (U2 p Hp)].
Qed.

(** The readers do not check how many SDUs a header announces: a block that starts with more than 14
    subheaders with a length is written outside of the arrays [rx_lcids] and [rx_lengths] of the caller,
    at the user and at the eNB. *)
Theorem too_many_sdus_overflow sdus tail tb ces lcids lengths :
  sdus_wf EXTENDED_POWER_HEADROOM sdus -> (MAC_NB_RB_MAX < length sdus)%nat ->
  length ces = MAX_NUM_CE -> length lcids = MAC_NB_RB_MAX -> length lengths = MAC_NB_RB_MAX ->
  let mem := (byte.of_Z <$> enc_subs (sdu_subs sdus)) ++ tail in
  parse_header mem ces lcids lengths tb = Trap FOob /\ parse_ulsch_header mem ces lcids lengths tb = Trap FOob.
Proof.
  intros Hs Hmany H1 H2 H3 mem.
  assert (Hw : forall first_ce, EXTENDED_POWER_HEADROOM <= first_ce -> Forall (fun s => sub_wf first_ce s /\ s_len s <> None) (sdu_subs sdus)).
  { intros first_ce Hf. apply Forall_fmap. eapply Forall_impl; [|exact Hs]. intros d [Hd Hn].
    unfold EXTENDED_POWER_HEADROOM in *. split; [split; cbn; lia|done]. }
  assert (Hlen : (length (sdu_subs sdus) <= S (length mem))%nat).
  { pose proof (enc_subs_length (sdu_subs sdus)). unfold mem. rewrite length_app, length_fmap. lia. }
  assert (Hall : forall first_ce ce_size (size : Z -> Z), EXTENDED_POWER_HEADROOM <= first_ce ->
    parse_loop (S (length mem)) first_ce ce_size mem tb (parse_start ces lcids lengths) = Trap FOob).
  { intros first_ce ce_size size Hf. pose proof (parse_too_many first_ce ce_size size [] tail tb (sdu_subs sdus) [] (parse_start ces lcids lengths)
      (S (length mem)) (parse_start_at _ _ _ _ H1 H2 H3)) as H. rewrite app_nil_r in H. apply H; [split; cbn; lia|by apply Hw| |done].
    unfold sdu_subs. by rewrite length_fmap. }
  split; by apply (Hall _ _ dl_size).
Qed.

(** ** Witnesses *)

Definition w_sdus : list (Z * list byte) := [(3, zeros 5); (1, zeros 200)].
Definition w_id : list byte := byte.of_Z <$> [1; 2; 3; 4; 5; 6].
Definition w_ue : ue_mac := UeMac 1 1 (zeros 3 ++ w_id ++ []) [] [] [].

Lemma dl_pdu_round_trip_witness : exists header offset u',
  generate_dlsch_header (zeros 64) 2 [5; 200] [3; 1] 255 11 (Some w_id) 2 3 = Ret (header, offset) /\
  ue_send_sdu (mac_pdu header offset w_sdus (zeros 3)) (zlen (mac_pdu header offset w_sdus (zeros 3)))
    (replicate MAX_NUM_CE 0) (replicate MAC_NB_RB_MAX 0) (replicate MAC_NB_RB_MAX 0) w_ue = Ret u' /\
  sdu_log u' = w_sdus /\ ta_log u' = [42].
Proof.
  apply (dl_pdu_round_trip (zeros 64) w_sdus [5; 200] [3; 1] 11 (Some w_id) 2 3 (zeros 3) (replicate MAX_NUM_CE 0)
           (replicate MAC_NB_RB_MAX 0) (replicate MAC_NB_RB_MAX 0) w_ue); try reflexivity.
  - split; [|vm_compute; lia]. repeat apply Forall_cons_2; try apply Forall_nil_2; vm_compute; intuition discriminate.
  - split; reflexivity.
  - right. discriminate.
  - intros id [= <-]. split; [reflexivity|]. intros _. exists (zeros 3), []. split; reflexivity.
  - vm_compute. congruence.
  - vm_compute. discriminate.
Defined.

Lemma too_many_sdus_overflow_witness :
  parse_header ((byte.of_Z <$> enc_subs (sdu_subs (replicate 15 (3, 1)))) ++ zeros 20) (replicate MAX_NUM_CE 0)
    (replicate MAC_NB_RB_MAX 0) (replicate MAC_NB_RB_MAX 0) 60 = Trap FOob.
Proof.
  apply (too_many_sdus_overflow (replicate 15 (3, 1)) (zeros 20) 60 (replicate MAX_NUM_CE 0) (replicate MAC_NB_RB_MAX 0)
           (replicate MAC_NB_RB_MAX 0)); try reflexivity.
  - repeat apply Forall_cons_2; try apply Forall_nil_2; cbn; unfold EXTENDED_POWER_HEADROOM; lia.
  - vm_compute. lia.
Defined.
