(* ===== verification/MacUeList.v ===== *)
(** The users of an eNB in its MAC layer: [UE_list_t] of [defs.h], the primitives of
    [eNB_scheduler_primitives.c] and the sorting of the users in [pre_processor.c].

    The users of a cell are nodes of an array: [next] links the active users from [head] and the free
    nodes from [avail], [next_ul] links the active users in the order of the uplink scheduler.  The
    abstraction is three lists of nodes; every operation is shown to act on them as on plain lists. *)
From S2P Require Import Prelude.
From coqutil Require Import Byte.
From Stdlib Require Import ZArith Lia.
From stdpp Require Import base list sets numbers.
Open Scope Z_scope.

(** ** Data ([defs.h]) *)

Definition NUMBER_OF_UE_MAX : Z := 16.
Definition MAX_NUM_CCs : Z := 1.
Definition NB_RA_PROC_MAX : nat := 4.
Definition NOT_A_RNTI : Z := 0.

(** The fields of [UE_TEMPLATE] that the modelled functions use. *)
Record UE_TEMPLATE := UeTemplate {
  rnti : Z;                              (* uint16_t *)
  oldNDI : list Z;
  oldNDI_UL : list Z;
  ul_active : Z;
  configured : Z;
  ul_SR : Z;
  bsr_info : list Z;                     (* uint8_t[4] *)
  lcgidmap : list Z;                     (* long[11] *)
  phr_info : Z;                          (* int8_t *)
  phr_info_configured : Z;
  dl_buffer_info : list Z;               (* uint32_t[11] *)
  dl_buffer_total : Z;                   (* uint32_t *)
  dl_buffer_head_sdu_creation_time_max : Z;
  ul_total_buffer : Z;                   (* uint32_t *)
  ul_buffer_creation_time : list Z;      (* uint32_t[4] *)
  ul_buffer_info : list Z;               (* uint32_t[4] *)
  pre_assigned_mcs_ul : Z;               (* uint8_t *)
}.

Record UE_sched_ctrl := SchedCtrl {
  round : list Z;                        (* uint8_t[MAX_NUM_CCs] *)
  ul_inactivity_timer : Z;
  ul_failure_timer : Z;
  ul_scheduled : Z;
  ul_out_of_sync : Z;
  phr_received : Z;
}.

Record eNB_UE_STATS := UeStats {
  num_pdu_rx : list Z;                   (* uint32_t[NB_RB_MAX] *)
  num_bytes_rx : list Z;
  num_errors_rx : Z;
  pdu_bytes_rx : Z;
  total_pdu_bytes_rx : Z;
  total_num_pdus_rx : Z;
  total_num_errors_rx : Z;
}.

Record RA_TEMPLATE := RaTemplate {
  RA_active : Z;
  generate_rar : Z;
  generate_Msg4 : Z;
  wait_ack_Msg4 : Z;
  RA_rnti : Z;
  cont_res_id : list byte;
  timing_offset : Z;
  RRC_timer : Z;
}.

(** The links of [UE_list_t] ... *)
Record ue_links := Links {
  next : list Z;
  head : Z;
  next_ul : list Z;
  head_ul : Z;
  avail : Z;
  num_UEs : Z;
  active : list Z;
}.

(** ... and what it holds for each node; the first index is the component carrier, where there is one. *)
Record ue_data := UeData {
  UE_template : list (list UE_TEMPLATE);
  pCC_id : list Z;
  ordered_CCids : list (list Z);
  numactiveCCs : list Z;
  ordered_ULCCids : list (list Z);
  numactiveULCCs : list Z;
  eNB_UE_stats : list (list eNB_UE_STATS);
  sched_ctrl : list UE_sched_ctrl;
}.

(** The scheduling status of a user, downlink or uplink ([eNB_dlsch_info], [eNB_ulsch_info]). *)
Inductive UE_STATUS := S_NONE | S_WAITING | S_SCHEDULED | S_BUFFERED.
Record sch_info := SchInfo { i_rnti : Z; i_status : UE_STATUS }.

(** The calls of the MAC to its neighbours. *)
Inductive mac_call :=
| PhyRemoveUe (rnti : Z)
| RrcUlInSync (cc rnti : Z)
| RrcDataInd (rnti : Z) (sdu : list byte)
| RlcDataInd (rnti channel : Z) (sdu : list byte)
| PuschStatsBsr (ue index value : Z).

(** The counters of received blocks of a carrier ([eNB_STATS]). *)
Record eNB_STATS := EnbStats { ulsch_bytes_rx : Z; total_ulsch_bytes_rx : Z; total_ulsch_pdus_rx : Z }.

Record eNB_MAC := EnbMac {
  links : ue_links;
  udata : ue_data;
  ulsch_info : list (list sch_info);
  dlsch_info : list (list sch_info);
  RA_template : list (list RA_TEMPLATE);
  eNB_stats : list eNB_STATS;
  mac_calls : list mac_call;
}.

(** Arrays with two indices. *)
Definition aget2 {A} (a : list (list A)) (i j : Z) : cres A := r ← aget a i; aget r j.
Definition aupd2 {A} (a : list (list A)) (i j : Z) (f : A -> cres A) : cres (list (list A)) :=
  r ← aget a i; x ← aget r j; x ← f x; r ← aset r j x; aset a i r.

(** ** Walking the links *)

(** [for (i=h; i>=0; i=next[i])] with a body that may return.  A list of users has at most
    [NUMBER_OF_UE_MAX] nodes. *)
Definition LIST_FUEL : nat := 17.

Fixpoint walk {R} (fuel : nat) (nx : list Z) (i : Z) (body : Z -> cres (option R)) : cres (option R) :=
  match fuel with
  | O => Trap FFuel
  | S fuel =>
      if i <? 0 then Ret None
      else
        r ← body i;
        match r with
        | Some r => Ret (Some r)
        | None => n ← aget nx i; walk fuel nx n body
        end
  end.

Definition UE_PCCID (d : ue_data) (ue_idP : Z) : cres Z := aget (pCC_id d) ue_idP.

Definition find_UE_id (m : eNB_MAC) (rntiP : Z) : cres Z :=
  r ← walk LIST_FUEL (next (links m)) (head (links m))
        (fun UE_id =>
           cc ← UE_PCCID (udata m) UE_id;
           t ← aget2 (UE_template (udata m)) cc UE_id;
           Ret (if rnti t =? rntiP then Some UE_id else None));
  Ret (match r with Some UE_id => UE_id | None => -1 end).

Definition UE_RNTI (d : ue_data) (ue_idP : Z) : cres Z :=
  cc ← UE_PCCID d ue_idP;
  t ← aget2 (UE_template d) cc ue_idP;
  Ret (if 0 <? rnti t then rnti t else NOT_A_RNTI).

(** ** Initialisation ([mac_top_init]) *)

Definition links_init : ue_links :=
  let n := zrange 1 15 ++ [-1] in
  Links n (-1) n (-1) 0 0 (replicate 16 0).

(** The memory is cleared when it is allocated. *)
Definition zero_template : UE_TEMPLATE :=
  UeTemplate 0 (replicate 8 0) (replicate 8 0) 0 0 0 (replicate 4 0) (replicate 11 0) 0 0 (replicate 11 0) 0 0 0 (replicate 4 0) (replicate 4 0) 0.

Definition zero_ctrl : UE_sched_ctrl := SchedCtrl [0] 0 0 0 0 0.
Definition zero_stats : eNB_UE_STATS := UeStats (replicate 14 0) (replicate 14 0) 0 0 0 0 0.
Definition zero_ra : RA_TEMPLATE := RaTemplate 0 0 0 0 0 (zeros 6) 0 0.

Definition mac_init : eNB_MAC :=
  let per_ue {A} (x : A) := replicate 16 x in
  EnbMac links_init
    (UeData [per_ue zero_template] (per_ue 0) [per_ue 0] (per_ue 0) [per_ue 0] (per_ue 0) [per_ue zero_stats] (per_ue zero_ctrl))
    [per_ue (SchInfo 0 S_NONE)] [per_ue (SchInfo 0 S_NONE)] [replicate NB_RA_PROC_MAX zero_ra] [EnbStats 0 0 0] [].

(** ** Adding a user *)

Definition new_template (rntiP harq_pidP : Z) (t : UE_TEMPLATE) : UE_TEMPLATE :=
  UeTemplate rntiP ((fun j => if j =? 0 then 1 else 0) <$> zrange 0 8) ((fun j => if j =? harq_pidP then 0 else 1) <$> zrange 0 8)
    (ul_active t) 0 (ul_SR t) (bsr_info t) (lcgidmap t) (phr_info t) (phr_info_configured t) (dl_buffer_info t) (dl_buffer_total t)
    (dl_buffer_head_sdu_creation_time_max t) (ul_total_buffer t) (ul_buffer_creation_time t) (ul_buffer_info t) (pre_assigned_mcs_ul t).

Definition add_links (l : ue_links) (UE_id : Z) : cres ue_links :=
  n ← aget (next l) (avail l);
  nx ← aset (next l) UE_id (head l);
  nu ← aset (next_ul l) UE_id (head_ul l);
  a ← aset (active l) UE_id 1;
  Ret (Links nx UE_id nu UE_id n (i32 (num_UEs l + 1)) a).

Definition add_data (d : ue_data) (cc_idP UE_id rntiP harq_pidP : Z) : cres ue_data :=
  t ← aupd2 (UE_template d) cc_idP UE_id (fun t => Ret (new_template rntiP harq_pidP t));
  nc ← aset (numactiveCCs d) UE_id 1;
  nu ← aset (numactiveULCCs d) UE_id 1;
  p ← aset (pCC_id d) UE_id cc_idP;
  oc ← aupd2 (ordered_CCids d) 0 UE_id (fun _ => Ret cc_idP);
  ou ← aupd2 (ordered_ULCCids d) 0 UE_id (fun _ => Ret cc_idP);
  c ← aset (sched_ctrl d) UE_id zero_ctrl;
  Ret (UeData t p oc nc ou nu (eNB_UE_stats d) c).

Definition set_status (s : UE_STATUS) (i : sch_info) : cres sch_info := Ret (SchInfo (i_rnti i) s).

Definition add_new_ue (cc_idP rntiP harq_pidP : Z) (m : eNB_MAC) : cres (Z * eNB_MAC) :=
  if 0 <=? avail (links m) then
    let UE_id := avail (links m) in
    _ ← c_assert (UE_id <? NUMBER_OF_UE_MAX);
    l ← add_links (links m) UE_id;
    d ← add_data (udata m) cc_idP UE_id rntiP harq_pidP;
    ui ← aupd2 (ulsch_info m) cc_idP UE_id (set_status S_WAITING);
    di ← aupd2 (dlsch_info m) cc_idP UE_id (set_status S_WAITING);
    Ret (UE_id, EnbMac l d ui di (RA_template m) (eNB_stats m) (mac_calls m))
  else Ret (-1, m).

(** ** Removing a user *)

Definition cleared_template (t : UE_TEMPLATE) : cres UE_TEMPLATE :=
  b ← aset (bsr_info t) 0 0; b ← aset b 1 0; b ← aset b 2 0; b ← aset b 3 0;
  Ret (UeTemplate NOT_A_RNTI (oldNDI t) (oldNDI_UL t) 0 (configured t) 0 b (lcgidmap t) (phr_info t) (phr_info_configured t)
         (dl_buffer_info t) (dl_buffer_total t) (dl_buffer_head_sdu_creation_time_max t) (ul_total_buffer t)
         (ul_buffer_creation_time t) (ul_buffer_info t) (pre_assigned_mcs_ul t)).

(** The loop that looks for the node [id] and remembers the one before it. *)
Fixpoint locate (fuel : nat) (nx : list Z) (i prev id : Z) : cres (option Z) :=
  match fuel with
  | O => Trap FFuel
  | S fuel =>
      if i <? 0 then Ret None
      else if i =? id then Ret (Some prev)
      else n ← aget nx i; locate fuel nx n i id
  end.

(** Unlinking a node: the new links and head. *)
Definition unlink (nx : list Z) (h prev id : Z) : cres (list Z * Z) :=
  n ← aget nx id;
  if id =? h then Ret (nx, n) else nx ← aset nx prev n; Ret (nx, h).

(** The two loops; the boolean is [ret == 0]. *)
Definition remove_links (l : ue_links) (UE_id : Z) : cres (ue_links * bool) :=
  p ← locate LIST_FUEL (next l) (head l) (head l) UE_id;
  '(l, ret) ←
    match p with
    | Some prev =>
        '(nx, h) ← unlink (next l) (head l) prev UE_id;
        nx ← aset nx UE_id (avail l);
        a ← aset (active l) UE_id 0;
        Ret (Links nx h (next_ul l) (head_ul l) UE_id (i32 (num_UEs l - 1)) a, true)
    | None => Ret (l, false)
    end;
  p ← locate LIST_FUEL (next_ul l) (head_ul l) (head_ul l) UE_id;
  match p with
  | Some prev =>
      '(nu, h) ← unlink (next_ul l) (head_ul l) prev UE_id;
      nu ← aset nu UE_id (avail l);
      Ret (Links (next l) (head l) nu h (avail l) (num_UEs l) (active l), true)
  | None => Ret (l, ret)
  end.

Definition ended_ra (r : RA_TEMPLATE) : RA_TEMPLATE := RaTemplate 0 0 0 0 0 (cont_res_id r) 0 20.

(** The first active random access of [rnti] is ended. *)
Fixpoint end_first_ra (rnti : Z) (l : list RA_TEMPLATE) : list RA_TEMPLATE :=
  match l with
  | [] => []
  | r :: l' => if (RA_active r =? 1) && (RA_rnti r =? rnti) then ended_ra r :: l' else r :: end_first_ra rnti l'
  end.

Definition rrc_mac_remove_ue (rntiP : Z) (m : eNB_MAC) : cres (Z * eNB_MAC) :=
  UE_id ← find_UE_id m rntiP;
  cc ← UE_PCCID (udata m) UE_id;
  if UE_id =? -1 then
    Ret (0, EnbMac (links m) (udata m) (ulsch_info m) (dlsch_info m) (RA_template m) (eNB_stats m) (mac_calls m ++ [PhyRemoveUe rntiP]))
  else
    let d := udata m in
    t ← aupd2 (UE_template d) cc UE_id cleared_template;
    ui ← aupd2 (ulsch_info m) cc UE_id (fun _ => Ret (SchInfo NOT_A_RNTI S_NONE));
    di ← aupd2 (dlsch_info m) cc UE_id (fun _ => Ret (SchInfo NOT_A_RNTI S_NONE));
    '(l, ret) ← remove_links (links m) UE_id;
    ras ← aget (RA_template m) cc;
    ra ← aset (RA_template m) cc (end_first_ra rntiP ras);
    let d := UeData t (pCC_id d) (ordered_CCids d) (numactiveCCs d) (ordered_ULCCids d) (numactiveULCCs d) (eNB_UE_stats d) (sched_ctrl d) in
    if (ret : bool) then Ret (0, EnbMac l d ui di ra (eNB_stats m) (mac_calls m ++ [PhyRemoveUe rntiP])) else Trap FExit.

(** ** Exchanging two users *)

(** [prev] on the links of one direction. *)
Definition prev (nx : list Z) (h nodeP : Z) : cres Z :=
  if nodeP =? h then Ret nodeP
  else
    r ← walk LIST_FUEL nx h (fun j => n ← aget nx j; Ret (if n =? nodeP then Some j else None));
    Ret (match r with Some j => j | None => -1 end).

Definition swap_nodes (nx : list Z) (h nodeiP nodejP : Z) : cres (list Z * Z) :=
  prev_i ← prev nx h nodeiP;
  prev_j ← prev nx h nodejP;
  if (prev_i <? 0) || (prev_j <? 0) then Trap FExit
  else
    next_i ← aget nx nodeiP;
    next_j ← aget nx nodejP;
    if next_i =? nodejP then
      nx ← aset nx nodeiP next_j;
      nx ← aset nx nodejP nodeiP;
      if nodeiP =? h then Ret (nx, nodejP) else nx ← aset nx prev_i nodejP; Ret (nx, h)
    else if next_j =? nodeiP then
      nx ← aset nx nodejP next_i;
      nx ← aset nx nodeiP nodejP;
      if nodejP =? h then Ret (nx, nodeiP) else nx ← aset nx prev_j nodeiP; Ret (nx, h)
    else
      nx ← aset nx nodejP next_i;
      nx ← aset nx nodeiP next_j;
      if nodeiP =? h then nx ← aset nx prev_j nodeiP; Ret (nx, nodejP)
      else if nodejP =? h then nx ← aset nx prev_i nodejP; Ret (nx, nodeiP)
      else nx ← aset nx prev_i nodejP; nx ← aset nx prev_j nodeiP; Ret (nx, h).

Definition swap_UEs (ul_flag : bool) (nodeiP nodejP : Z) (l : ue_links) : cres ue_links :=
  if ul_flag then
    '(nu, h) ← swap_nodes (next_ul l) (head_ul l) nodeiP nodejP;
    Ret (Links (next l) (head l) nu h (avail l) (num_UEs l) (active l))
  else
    '(nx, h) ← swap_nodes (next l) (head l) nodeiP nodejP;
    Ret (Links nx h (next_ul l) (head_ul l) (avail l) (num_UEs l) (active l)).

(** ** Sorting the users ([pre_processor.c]) *)

(** The largest HARQ round over the carriers; [UE_id] has 8 bits there. *)
Definition maxround (m : eNB_MAC) (rntiP : Z) : cres Z :=
  for_each (fun CC_id round_max =>
      UE_id ← find_UE_id m rntiP;
      c ← aget (sched_ctrl (udata m)) (u8 UE_id);
      r ← aget (round c) CC_id;
      Ret (if round_max <? r then r else round_max))
    (zrange 0 (Z.to_nat MAX_NUM_CCs)) 0.

(** The loop of both sorting functions: [ul_flag] chooses the links, [decide] says whether the two users
    are exchanged.  A turn compares the user [i] with the user [ii] and goes on behind [ii], wherever the
    exchange has put it. *)
Definition next_of (ul_flag : bool) (l : ue_links) : list Z := if ul_flag then next_ul l else next l.
Definition head_of (ul_flag : bool) (l : ue_links) : Z := if ul_flag then head_ul l else head l.

Definition set_links (m : eNB_MAC) (l : ue_links) : eNB_MAC :=
  EnbMac l (udata m) (ulsch_info m) (dlsch_info m) (RA_template m) (eNB_stats m) (mac_calls m).

Definition SORT_FUEL : nat := 289.

Fixpoint sort_inner (fuel : nat) (ul_flag : bool) (decide : eNB_MAC -> Z -> Z -> cres bool) (i ii : Z) (m : eNB_MAC) : cres eNB_MAC :=
  match fuel with
  | O => Trap FFuel
  | S fuel =>
      if ii <? 0 then Ret m
      else
        b ← decide m i ii;
        l ← (if (b : bool) then swap_UEs ul_flag i ii (links m) else Ret (links m));
        n ← aget (next_of ul_flag l) ii;
        sort_inner fuel ul_flag decide i n (set_links m l)
  end.

Fixpoint sort_outer (fuel : nat) (ul_flag : bool) (decide : eNB_MAC -> Z -> Z -> cres bool) (i : Z) (m : eNB_MAC) : cres eNB_MAC :=
  match fuel with
  | O => Trap FFuel
  | S fuel =>
      if i <? 0 then Ret m
      else
        n ← aget (next_of ul_flag (links m)) i;
        m ← sort_inner SORT_FUEL ul_flag decide i n m;
        n ← aget (next_of ul_flag (links m)) i;
        sort_outer fuel ul_flag decide n m
  end.

(** A user that takes part: it has an RNTI and is in sync. *)
Definition takes_part (m : eNB_MAC) (UE_id : Z) : cres (option Z) :=
  r ← UE_RNTI (udata m) UE_id;
  if r =? NOT_A_RNTI then Ret None
  else c ← aget (sched_ctrl (udata m)) UE_id; Ret (if ul_out_of_sync c =? 1 then None else Some r).

Definition template_of (m : eNB_MAC) (UE_id : Z) : cres UE_TEMPLATE :=
  cc ← UE_PCCID (udata m) UE_id; aget2 (UE_template (udata m)) cc UE_id.

(** *** The statistics of the physical layer ([phy_procedures_lte_common.c])

    Of the state of the physical layer on a carrier, [PHY_VARS_eNB], the lookup reads the shared channels of the
    users, two spatial streams each, by the RNTI of the first one, and the statistics at the same index.  The search
    of contention-based access, which is compiled only with the option [CBA], is left out. *)
Record LTE_eNB_UE_stats := PhyStats { DL_cqi : list Z (* uint8_t[2] *) }.
Record PHY_VARS_eNB := PhyEnb {
  dlsch : list (list (option Z));        (* [None]: a null pointer; else the RNTI of the channel *)
  UE_stats : list LTE_eNB_UE_stats;
}.

(** [PHY_vars_eNB_g[Mod_id]]: a pointer for each carrier. *)
Definition phy_g : Type := list (option PHY_VARS_eNB).

Fixpoint find_ue_from (ids : list Z) (rnti : Z) (eNB : PHY_VARS_eNB) : cres Z :=
  match ids with
  | [] => Ret (-1)
  | i :: ids => d ← aget2 (dlsch eNB) i 0; if bool_decide (d = Some rnti) then Ret i else find_ue_from ids rnti eNB
  end.

Definition find_ue (rnti : Z) (eNB : PHY_VARS_eNB) : cres Z := find_ue_from (zrange 0 (Z.to_nat NUMBER_OF_UE_MAX)) rnti eNB.

Definition get_UE_stats (PHY_vars_eNB_g : phy_g) (CC_id rnti : Z) : cres (option LTE_eNB_UE_stats) :=
  e ← aget PHY_vars_eNB_g (u8 CC_id);
  match e with
  | None => Ret None
  | Some eNB =>
      UE_id ← find_ue (u16 rnti) eNB;
      if UE_id =? -1 then Ret None else s ← aget (UE_stats eNB) UE_id; Ret (Some s)
  end.

Section SortDL.
Context (PHY_vars_eNB_g : phy_g).

Definition maxcqi (m : eNB_MAC) (UE_id : Z) : cres Z :=
  k ← aget (numactiveCCs (udata m)) UE_id;
  for_each (fun n CQI =>
      CC_id ← aget2 (ordered_CCids (udata m)) n UE_id;
      r ← UE_RNTI (udata m) UE_id;
      st ← get_UE_stats PHY_vars_eNB_g CC_id r;
      match st with
      | None => Trap FExit
      | Some st => c ← aget (DL_cqi st) 0; Ret (if CQI <? c then c else CQI)
      end)
    (zrange 0 (Z.to_nat k)) 0.

Definition decide_dl (m : eNB_MAC) (UE_id1 UE_id2 : Z) : cres bool :=
  r1 ← takes_part m UE_id1;
  match r1 with
  | None => Ret false
  | Some rnti1 =>
      t1 ← template_of m UE_id1;
      cqi1 ← maxcqi m UE_id1;
      round1 ← maxround m rnti1;
      r2 ← takes_part m UE_id2;
      match r2 with
      | None => Ret false
      | Some rnti2 =>
          cqi2 ← maxcqi m UE_id2;
          round2 ← maxround m rnti2;
          t2 ← template_of m UE_id2;
          if round1 <? round2 then Ret true
          else if round2 =? round1 then
            a1 ← aget (dl_buffer_info t1) 1; b1 ← aget (dl_buffer_info t1) 2;
            a2 ← aget (dl_buffer_info t2) 1; b2 ← aget (dl_buffer_info t2) 2;
            Ret (if u32 (a1 + b1) <? u32 (a2 + b2) then true
                 else if dl_buffer_head_sdu_creation_time_max t1 <? dl_buffer_head_sdu_creation_time_max t2 then true
                 else if dl_buffer_total t1 <? dl_buffer_total t2 then true
                 else cqi1 <? cqi2)
          else Ret false
      end
  end.

Definition sort_UEs (m : eNB_MAC) : cres eNB_MAC := sort_outer LIST_FUEL false decide_dl (head (links m)) m.
End SortDL.

Definition decide_ul (m : eNB_MAC) (UE_id1 UE_id2 : Z) : cres bool :=
  r1 ← takes_part m UE_id1;
  match r1 with
  | None => Ret false
  | Some rnti1 =>
      t1 ← template_of m UE_id1;
      round1 ← maxround m rnti1;
      r2 ← takes_part m UE_id2;
      match r2 with
      | None => Ret false
      | Some rnti2 =>
          t2 ← template_of m UE_id2;
          round2 ← maxround m rnti2;
          if round1 <? round2 then Ret true
          else if round2 =? round1 then
            b1 ← aget (ul_buffer_info t1) 0; b2 ← aget (ul_buffer_info t2) 0;
            Ret (if b1 <? b2 then true
                 else if ul_total_buffer t1 <? ul_total_buffer t2 then true
                 else if pre_assigned_mcs_ul t1 <? pre_assigned_mcs_ul t2 then 0 <? ul_total_buffer t2
                 else false)
          else Ret false
      end
  end.

Definition sort_ue_ul (m : eNB_MAC) : cres eNB_MAC := sort_outer LIST_FUEL true decide_ul (head_ul (links m)) m.

(** ** Segments of links *)

(** From [h], through the nodes of [l], to [e]. *)
Fixpoint seg (nx : list Z) (h : Z) (l : list Z) (e : Z) : Prop :=
  match l with
  | [] => h = e
  | x :: l' => h = x /\ 0 <= x /\ exists n, nx !! Z.to_nat x = Some n /\ seg nx n l' e
  end.

(** A whole list ends with a negative link. *)
Definition chain (nx : list Z) (h : Z) (l : list Z) : Prop := exists e, e < 0 /\ seg nx h l e.

Lemma seg_app nx h l k e : seg nx h (l ++ k) e <-> exists n, seg nx h l n /\ seg nx n k e.
Proof.
  revert h. induction l as [|x l IH]; intros h; cbn.
  - split; [intros H; by exists h|by intros (n & -> & H)].
  - split.
    + intros (-> & Hx & n & Hn & H). apply IH in H as (k' & H1 & H2). exists k'. split; [|done]. split; [done|]. split; [done|]. by exists n.
    + intros (k' & (-> & Hx & n & Hn & H1) & H2). split; [done|]. split; [done|]. exists n. split; [done|]. apply IH. by exists k'.
Qed.

Lemma seg_nonneg nx h l e : seg nx h l e -> Forall (fun x => 0 <= x) l.
Proof. revert h. induction l as [|x l IH]; intros h; [by constructor|]. intros (_ & Hx & n & _ & H). constructor; [done|by apply (IH n)]. Qed.

(** A link of another node does not matter. *)
Lemma seg_frame nx h l e x v : seg nx h l e -> 0 <= x -> x ∉ l -> seg (<[Z.to_nat x := v]> nx) h l e.
Proof.
  revert h. induction l as [|y l IH]; intros h; [done|]. intros (-> & Hy & n & Hn & H) Hx Hni.
  apply not_elem_of_cons in Hni as [Hne Hni]. split; [done|]. split; [done|]. exists n. split; [|by apply IH].
  rewrite list_lookup_insert_ne; [done|]. lia.
Qed.

(** The link of the last node is the end of the segment. *)
Lemma seg_last nx h l x e v : seg nx h (l ++ [x]) e -> x ∉ l -> seg (<[Z.to_nat x := v]> nx) h (l ++ [x]) v.
Proof.
  intros H Hni. apply seg_app in H as (n & H1 & -> & Hx & k & Hk & ->). apply seg_app. exists x.
  split; [by apply seg_frame|]. split; [done|]. split; [done|]. exists v. split; [|done].
  apply list_lookup_insert_eq. by apply lookup_lt_Some in Hk.
Qed.

Lemma seg_single nx x n : 0 <= x -> nx !! Z.to_nat x = Some n -> seg nx x [x] n.
Proof. intros Hx Hn. split; [done|]. split; [done|]. by exists n. Qed.

Lemma chain_cons nx h x l : chain nx h (x :: l) -> h = x /\ 0 <= x /\ exists n, nx !! Z.to_nat x = Some n /\ chain nx n l.
Proof. intros (e & He & -> & Hx & n & Hn & H). split; [done|]. split; [done|]. exists n. split; [done|]. by exists e. Qed.

Lemma chain_nil nx h : chain nx h [] -> h < 0.
Proof. by intros (e & He & ->). Qed.

Lemma chain_frame nx h l x v : chain nx h l -> 0 <= x -> x ∉ l -> chain (<[Z.to_nat x := v]> nx) h l.
Proof. intros (e & He & H) Hx Hni. exists e. split; [done|by apply seg_frame]. Qed.

Lemma chain_link nx x v l : 0 <= x -> (Z.to_nat x < length nx)%nat -> chain nx v l -> x ∉ l -> chain (<[Z.to_nat x := v]> nx) x (x :: l).
Proof.
  intros Hx Hl (e & He & H) Hni. exists e. split; [done|]. split; [done|]. split; [done|]. exists v.
  split; [by apply list_lookup_insert_eq|by apply seg_frame].
Qed.

(** ** Loops over a list *)

(** The first result of a body along a list. *)
Fixpoint first_some {R} (f : Z -> option R) (l : list Z) : option R :=
  match l with
  | [] => None
  | x :: l' => match f x with Some r => Some r | None => first_some f l' end
  end.

Lemma walk_ok {R} nx (body : Z -> cres (option R)) f l : forall h fuel, chain nx h l -> (length l < fuel)%nat ->
  (forall x, x ∈ l -> body x = Ret (f x)) -> walk fuel nx h body = Ret (first_some f l).
Proof.
  induction l as [|x l IH]; intros h fuel Hc Hf Hb; (destruct fuel as [|fuel]; [cbn in Hf; lia|]); cbn [walk first_some].
  - apply chain_nil in Hc. by rewrite (proj2 (Z.ltb_lt _ _)).
  - apply chain_cons in Hc as (-> & Hx & n & Hn & Hc). rewrite (proj2 (Z.ltb_ge _ _)) by done.
    rewrite (Hb x) by apply list_elem_of_here. cbn [mbind cres_bind]. destruct (f x); [done|].
    rewrite (aget_ok _ _ n) by done. cbn [mbind cres_bind]. apply IH; [done|cbn in Hf; lia|]. intros y Hy. by apply Hb, list_elem_of_further.
Qed.

Lemma last_cons_default {A} (l : list A) a d : List.last l a = List.last (a :: l) d.
Proof. revert a. induction l as [|b l IH]; intros a; [done|]. cbn [List.last] in *. destruct l; [done|]. apply (IH a). Qed.

Lemma locate_ok nx id l : forall h pr A B fuel, chain nx h l -> (length l < fuel)%nat -> l = A ++ id :: B -> id ∉ A ->
  locate fuel nx h pr id = Ret (Some (List.last A pr)).
Proof.
  induction l as [|x l IH]; intros h pr A B fuel Hc Hf Hl Hni; [by destruct A|]. destruct fuel as [|fuel]; [cbn in Hf; lia|].
  apply chain_cons in Hc as (-> & Hx & n & Hn & Hc). cbn [locate]. rewrite (proj2 (Z.ltb_ge _ _)) by done.
  destruct A as [|a A]; injection Hl as -> ->; [by rewrite Z.eqb_refl|]. apply not_elem_of_cons in Hni as [Hne Hni].
  rewrite (proj2 (Z.eqb_neq _ _)) by done. rewrite (aget_ok _ _ n) by done. cbn [mbind cres_bind].
  rewrite (IH n a A B fuel) by (done || cbn in Hf; lia). by rewrite (last_cons_default A a pr).
Qed.

(** ** Unlinking a node *)

Lemma chain_middle nx h A x B : chain nx h (A ++ x :: B) -> exists n, seg nx h A x /\ 0 <= x /\ nx !! Z.to_nat x = Some n /\ chain nx n B.
Proof.
  intros (e & He & H). apply seg_app in H as (k & HA & -> & Hx & n & Hn & HB). exists n. split; [done|]. split; [done|]. split; [done|]. by exists e.
Qed.

Lemma chain_join nx h A x n B : seg nx h A x -> 0 <= x -> nx !! Z.to_nat x = Some n -> chain nx n B -> chain nx h (A ++ x :: B).
Proof. intros HA Hx Hn (e & He & HB). exists e. split; [done|]. apply seg_app. exists x. split; [done|]. split; [done|]. split; [done|]. by exists n. Qed.

Lemma seg_chain nx h A n B : seg nx h A n -> chain nx n B -> chain nx h (A ++ B).
Proof. intros HA (e & He & HB). exists e. split; [done|]. apply seg_app. by exists n. Qed.

Lemma seg_head nx h A n : A <> [] -> seg nx h A n -> h ∈ A.
Proof. destruct A as [|a A]; [done|]. intros _ (-> & _). apply list_elem_of_here. Qed.

(** The node is taken out of its list; every list it is not in stays. *)
Lemma unlink_ok nx h A id B : chain nx h (A ++ id :: B) -> NoDup (A ++ id :: B) ->
  exists nx' h', unlink nx h (List.last A h) id = Ret (nx', h') /\ chain nx' h' (A ++ B) /\ length nx' = length nx /\
    (forall v k, chain nx v k -> (forall x, x ∈ k -> x ∉ A) -> chain nx' v k).
Proof.
  intros Hc Hnd. destruct (chain_middle _ _ _ _ _ Hc) as (n & HA & Hx & Hn & HB). unfold unlink. rewrite (aget_ok _ _ n) by done.
  cbn [mbind cres_bind]. apply list.NoDup_app in Hnd as (HndA & Hdis & HndB).
  destruct A as [|a A0] using rev_ind.
  { cbn in HA. subst h. rewrite Z.eqb_refl. exists nx, n. split; [done|]. split; [done|]. split; [done|]. done. }
  clear IHA0. rewrite List.last_last. assert (Hh : h ∈ A0 ++ [a]) by (apply (seg_head nx h _ id); [by destruct A0|done]).
  rewrite (proj2 (Z.eqb_neq id h)) by (intros ->; apply (Hdis h Hh), list_elem_of_here).
  assert (Ha : 0 <= a /\ exists v, nx !! Z.to_nat a = Some v).
  { apply seg_app in HA as (k & _ & -> & Ha & v & Hv & _). split; [done|by exists v]. }
  destruct Ha as [Ha (v & Hv)]. pose proof (lookup_lt_Some _ _ _ Hv) as Hlt.
  rewrite aset_ok by (unfold zlen; lia). cbn [mbind cres_bind]. do 2 eexists. split; [reflexivity|].
  assert (HaA0 : a ∉ A0) by (apply list.NoDup_app in HndA as (_ & Hd & _); intros Hin; apply (Hd a Hin), list_elem_of_here).
  split; [|split].
  - apply (seg_chain _ _ _ n); [by apply (seg_last _ _ _ _ id)|]. apply chain_frame; [done|done|].
    intros Hin. apply (Hdis a); [set_solver|by apply list_elem_of_further].
  - apply length_insert.
  - intros w k Hk Hd. apply chain_frame; [done|done|]. intros Hin. apply (Hd a Hin). set_solver.
Qed.

(** ** Exchanging two nodes *)

Lemma seg_links nx h l e y : seg nx h l e -> y ∈ l -> 0 <= y /\ exists n, nx !! Z.to_nat y = Some n /\ n ∈ l ++ [e].
Proof.
  revert h. induction l as [|x l IH]; intros h H Hy; [by apply elem_of_nil in Hy|]. destruct H as (-> & Hx & n & Hn & H).
  apply elem_of_cons in Hy as [->|Hy].
  - split; [done|]. exists n. split; [done|]. destruct l as [|z l]; [cbn in H; subst; cbn; set_solver|]. destruct H as (-> & _). set_solver.
  - destruct (IH n H Hy) as (Hy0 & k & Hk & Hin). split; [done|]. exists k. split; [done|]. cbn. by apply list_elem_of_further.
Qed.

Lemma first_some_app {R} (f : Z -> option R) l k : (forall x, x ∈ l -> f x = None) -> first_some f (l ++ k) = first_some f k.
Proof.
  induction l as [|x l IH]; intros H; [done|]. cbn. rewrite (H x) by apply list_elem_of_here. apply IH. intros y Hy. by apply H, list_elem_of_further.
Qed.

(** The node before [x]; the first node counts as its own predecessor. *)
Lemma prev_ok nx h A x B : chain nx h (A ++ x :: B) -> NoDup (A ++ x :: B) -> (length (A ++ x :: B) < LIST_FUEL)%nat ->
  prev nx h x = Ret (List.last A x).
Proof.
  intros Hc Hnd Hf. destruct (chain_middle _ _ _ _ _ Hc) as (n & HA & Hx & Hn & HB). unfold prev.
  destruct A as [|a A] using rev_ind; [cbn in HA; subst h; by rewrite Z.eqb_refl|]. clear IHA. rewrite List.last_last.
  apply list.NoDup_app in Hnd as (HndA & Hdis & _). assert (Hh : h ∈ A ++ [a]) by (apply (seg_head nx h _ x); [by destruct A|done]).
  rewrite (proj2 (Z.eqb_neq x h)) by (intros ->; apply (Hdis h Hh), list_elem_of_here).
  set (f := fun j => match nx !! Z.to_nat j with Some n => if n =? x then Some j else None | None => None end).
  rewrite (walk_ok _ _ f _ _ _ Hc Hf).
  - cbn [mbind cres_bind]. rewrite <- app_assoc. cbn [app]. pose proof HA as HA'. apply seg_app in HA' as (k & HA0 & -> & Ha & v & Hv & ->).
    rewrite first_some_app.
    + cbn [first_some]. unfold f at 1. by rewrite Hv, Z.eqb_refl.
    + intros y Hy. destruct (seg_links _ _ _ _ _ HA0 Hy) as (_ & z & Hz & Hin). unfold f. rewrite Hz.
      rewrite (proj2 (Z.eqb_neq z x)); [done|]. intros ->. apply (Hdis x Hin), list_elem_of_here.
  - intros y Hy. destruct Hc as (e & He & Hs). destruct (seg_links _ _ _ _ _ Hs Hy) as (Hy0 & z & Hz & _).
    rewrite (aget_ok _ _ z) by done. cbn [mbind cres_bind]. unfold f. by rewrite Hz.
Qed.

Lemma last_elem {A} (l : list A) d : l <> [] -> List.last l d ∈ l.
Proof. intros Hl. destruct (exists_last Hl) as (k & x & ->). rewrite List.last_last. set_solver. Qed.

Lemma seg_lt nx h l e y : seg nx h l e -> y ∈ l -> 0 <= y < zlen nx.
Proof. intros H Hy. destruct (seg_links _ _ _ _ _ H Hy) as (H0 & n & Hn & _). apply lookup_lt_Some in Hn. unfold zlen. lia. Qed.

(** Redirecting the end of a segment: the link of its last node, or the head when it is empty. *)
Definition redirect (nx : list Z) (h : Z) (A : list Z) (v : Z) : list Z * Z :=
  match A with [] => (nx, v) | _ => (<[Z.to_nat (List.last A h) := v]> nx, h) end.

Lemma redirect_ok nx h A e v : seg nx h A e -> NoDup A -> seg (redirect nx h A v).1 (redirect nx h A v).2 A v.
Proof.
  intros H Hnd. destruct A as [|a A] using rev_ind; [done|]. clear IHA. unfold redirect.
  destruct (A ++ [a]) as [|b k] eqn:E; [by destruct A|]. cbn [fst snd]. rewrite <- E in *. rewrite List.last_last.
  apply (seg_last _ _ _ _ e); [done|]. apply list.NoDup_app in Hnd as (_ & Hd & _). intros Hin. apply (Hd a Hin), list_elem_of_here.
Qed.

Lemma redirect_frame nx h A v w k e t : seg nx h A e -> (forall x, x ∈ k -> x ∉ A) ->
  seg nx w k t -> seg (redirect nx h A v).1 w k t.
Proof.
  intros HA Hd Hk. destruct A as [|a A]; [done|]. unfold redirect. cbn [fst].
  pose proof (last_elem (a :: A) h ltac:(done)) as Hl. apply seg_frame; [done| |].
  - apply (seg_lt _ _ _ _ _ HA Hl).
  - intros Hin. by apply (Hd _ Hin).
Qed.

Lemma seg_set nx x v : 0 <= x < zlen nx -> seg (<[Z.to_nat x := v]> nx) x [x] v.
Proof. intros Hx. apply seg_single; [lia|]. apply list_lookup_insert_eq. unfold zlen in Hx. lia. Qed.

(** The two updates of the first step, for the nodes themselves. *)
Lemma set_two nx i j vi vj : 0 <= i < zlen nx -> 0 <= j < zlen nx -> i <> j ->
  let nx1 := <[Z.to_nat j := vj]> (<[Z.to_nat i := vi]> nx) in
  seg nx1 i [i] vi /\ seg nx1 j [j] vj /\
  (forall w k t, seg nx w k t -> i ∉ k -> j ∉ k -> seg nx1 w k t).
Proof.
  intros Hi Hj Hne nx1. split; [|split].
  - apply seg_frame; [by apply seg_set|lia|]. set_solver.
  - apply seg_set. by rewrite zlen_insert.
  - intros w k t Hk Hni Hnj. apply seg_frame; [|lia|done]. apply seg_frame; [done|lia|done].
Qed.

Lemma insert_two_comm (nx : list Z) i j vi vj : 0 <= i -> 0 <= j -> i <> j ->
  <[Z.to_nat j := vj]> (<[Z.to_nat i := vi]> nx) = <[Z.to_nat i := vi]> (<[Z.to_nat j := vj]> nx).
Proof. intros. apply list_insert_insert_ne. lia. Qed.

(** What an exchange has to give: the list with the two nodes in each other's place; lists of other nodes stay. *)
Definition exchanged (nx : list Z) (A : list Z) (i : Z) (B : list Z) (j : Z) (C : list Z) (r : list Z * Z) : Prop :=
  chain r.1 r.2 (A ++ j :: B ++ i :: C) /\ length r.1 = length nx /\
  (forall v k, chain nx v k -> (forall x, x ∈ k -> x ∉ A ++ i :: B ++ j :: C) -> chain r.1 v k).

Lemma redirect_length nx h A v : length (redirect nx h A v).1 = length nx.
Proof. destruct A; [done|]. apply length_insert. Qed.

(** Adjacent nodes. *)
Lemma exchange_adjacent nx h A i j C nj : seg nx h A i -> NoDup (A ++ i :: j :: C) -> 0 <= i < zlen nx -> 0 <= j < zlen nx ->
  chain nx nj C ->
  exchanged nx A i [] j C (redirect (<[Z.to_nat j := i]> (<[Z.to_nat i := nj]> nx)) h A j).
Proof.
  intros HA Hnd Hi Hj HC. apply list.NoDup_app in Hnd as (HndA & Hdis & Hnd). apply list.NoDup_cons in Hnd as [Hni Hnd].
  apply list.NoDup_cons in Hnd as [Hnj HndC]. assert (Hne : i <> j) by set_solver.
  destruct (set_two nx i j nj i Hi Hj Hne) as (Si & Sj & Fr). set (nx1 := <[Z.to_nat j := i]> _) in *.
  assert (HA1 : seg nx1 h A i) by (apply Fr; [done|set_solver..]).
  pose proof (redirect_ok nx1 h A i j HA1 HndA) as HA2.
  assert (Fr2 : forall w k t, seg nx1 w k t -> (forall x, x ∈ k -> x ∉ A) -> seg (redirect nx1 h A j).1 w k t)
    by (intros w k t Hk Hd; by apply (redirect_frame _ _ _ _ _ _ i)).
  split; [|split].
  - apply (seg_chain _ _ _ j); [done|]. apply (seg_chain _ _ [j] i); [apply Fr2; [done|set_solver]|].
    apply (seg_chain _ _ [i] nj); [apply Fr2; [done|set_solver]|]. destruct HC as (e & He & HC). exists e. split; [done|].
    apply Fr2; [apply Fr; [done|set_solver..]|set_solver].
  - rewrite redirect_length. unfold nx1. by rewrite !length_insert.
  - intros v k (e & He & Hk) Hd. assert (Hik : i ∉ k) by (intros Hin; apply (Hd i Hin); set_solver).
    assert (Hjk : j ∉ k) by (intros Hin; apply (Hd j Hin); set_solver). exists e. split; [done|]. apply Fr2; [by apply Fr|set_solver].
Qed.

(** Nodes with others between them. *)
Lemma exchange_apart nx h A i B j C ni nj : seg nx h A i -> seg nx ni B j -> B <> [] -> NoDup (A ++ i :: B ++ j :: C) ->
  0 <= i < zlen nx -> 0 <= j < zlen nx -> chain nx nj C ->
  let r := redirect (<[Z.to_nat j := ni]> (<[Z.to_nat i := nj]> nx)) h A j in
  exchanged nx A i B j C (<[Z.to_nat (List.last B j) := i]> r.1, r.2).
Proof.
  intros HA HB HBne Hnd Hi Hj HC r. apply list.NoDup_app in Hnd as (HndA & Hdis & Hnd). apply list.NoDup_cons in Hnd as [Hni Hnd].
  apply list.NoDup_app in Hnd as (HndB & HdisB & Hnd). apply list.NoDup_cons in Hnd as [Hnj HndC]. assert (Hne : i <> j) by set_solver.
  destruct (set_two nx i j nj ni Hi Hj Hne) as (Si & Sj & Fr). set (nx1 := <[Z.to_nat j := ni]> _) in *.
  assert (HA1 : seg nx1 h A i) by (apply Fr; [done|set_solver..]).
  pose proof (redirect_ok nx1 h A i j HA1 HndA) as HA2. fold r in HA2. pose proof (last_elem B j HBne) as Hl.
  assert (Hl0 : 0 <= List.last B j) by (apply (seg_lt _ _ _ _ _ HB Hl)).
  assert (Fr2 : forall w k t, seg nx1 w k t -> (forall x, x ∈ k -> x ∉ A) -> seg r.1 w k t)
    by (intros w k t Hk Hd; by apply (redirect_frame _ _ _ _ _ _ i)).
  assert (Fr3 : forall w k t, seg nx1 w k t -> (forall x, x ∈ k -> x ∉ A) -> List.last B j ∉ k ->
    seg (<[Z.to_nat (List.last B j) := i]> r.1) w k t) by (intros w k t Hk Hd Hlk; apply seg_frame; [by apply Fr2|done|done]).
  split; [|split]; cbn [fst snd].
  - apply (seg_chain _ _ _ j); [apply seg_frame; [done|done|set_solver]|].
    apply (seg_chain _ _ [j] ni); [apply Fr3; [done|set_solver..]|].
    apply (seg_chain _ _ B i).
    { assert (HB1 : seg r.1 ni B j) by (apply Fr2; [apply Fr; [done|set_solver..]|set_solver]).
      destruct (exists_last HBne) as (B0 & b & ->). rewrite List.last_last. apply (seg_last _ _ _ _ j); [done|].
      apply list.NoDup_app in HndB as (_ & Hd & _). intros Hin. apply (Hd b Hin), list_elem_of_here. }
    apply (seg_chain _ _ [i] nj); [apply Fr3; [done|set_solver..]|]. destruct HC as (e & He & HC). exists e. split; [done|].
    apply Fr3; [apply Fr; [done|set_solver..]|set_solver..].
  - rewrite length_insert. unfold r. rewrite redirect_length. unfold nx1. by rewrite !length_insert.
  - intros v k (e & He & Hk) Hd. assert (Hin : forall x, x ∈ A ++ i :: B ++ j :: C -> x ∉ k) by (intros x Hx Hk'; by apply (Hd x Hk')).
    exists e. split; [done|]. apply Fr3; [apply Fr; [done|apply Hin; set_solver..]|set_solver|apply Hin; set_solver].
Qed.

Lemma redirect_code {T} (nx : list Z) h A i v (k : list Z * Z -> cres T) : seg nx h A i -> i ∉ A ->
  (if i =? h then k (nx, v) else nx' ← aset nx (List.last A i) v; k (nx', h)) = k (redirect nx h A v).
Proof.
  intros HA Hni. destruct A as [|a A]; [cbn in HA; subst h; by rewrite Z.eqb_refl|].
  pose proof (seg_head nx h (a :: A) i ltac:(done) HA) as Hh. rewrite (proj2 (Z.eqb_neq i h)) by (intros ->; done).
  pose proof (last_elem (a :: A) i ltac:(done)) as Hl. rewrite aset_ok by (by apply (seg_lt _ _ _ _ _ HA)). cbn [mbind cres_bind].
  unfold redirect. rewrite <- (last_cons_default A a i), (last_cons_default A a h). done.
Qed.

Lemma chain_head nx h l : chain nx h l -> h < 0 \/ h ∈ l.
Proof. destruct l as [|x l]; intros Hc; [left; by apply (chain_nil nx)|]. apply chain_cons in Hc as (-> & _). right. apply list_elem_of_here. Qed.

Lemma swap_nodes_ok nx h A i B j C : chain nx h (A ++ i :: B ++ j :: C) -> NoDup (A ++ i :: B ++ j :: C) ->
  (length (A ++ i :: B ++ j :: C) < LIST_FUEL)%nat ->
  exists r, swap_nodes nx h i j = Ret r /\ exchanged nx A i B j C r.
Proof.
  intros Hc Hnd Hf. assert (Eq : A ++ i :: B ++ j :: C = (A ++ i :: B) ++ j :: C) by (by rewrite <- app_assoc).
  pose proof (prev_ok nx h A i (B ++ j :: C) Hc Hnd Hf) as Pi.
  pose proof (prev_ok nx h (A ++ i :: B) j C) as Pj. rewrite <- Eq in Pj. specialize (Pj Hc Hnd Hf).
  destruct (chain_middle _ _ _ _ _ Hc) as (ni & HA & Hi & Hni & HBC). destruct (chain_middle _ _ _ _ _ HBC) as (nj & HB & Hj & Hnj & HC).
  pose proof (lookup_lt_Some _ _ _ Hni) as Li. pose proof (lookup_lt_Some _ _ _ Hnj) as Lj.
  assert (Ri : 0 <= i < zlen nx) by (unfold zlen; lia). assert (Rj : 0 <= j < zlen nx) by (unfold zlen; lia).
  pose proof Hnd as Hnd'. apply list.NoDup_app in Hnd' as (HndA & Hdis & Hnd'). apply list.NoDup_cons in Hnd' as [HiN Hnd'].
  assert (HiA : i ∉ A) by (intros Hin; apply (Hdis i Hin), list_elem_of_here). assert (Hij : i <> j) by set_solver.
  assert (Hpi : 0 <= List.last A i).
  { destruct A as [|a A]; [cbn; lia|]. apply (seg_lt nx h (a :: A) i); [done|by apply last_elem]. }
  assert (Hpj : 0 <= List.last (A ++ i :: B) j < zlen nx).
  { destruct Hc as (e & _ & Hs). rewrite Eq in Hs. apply seg_app in Hs as (k & Hs & _). apply (seg_lt nx h (A ++ i :: B) k); [done|].
    apply last_elem. by destruct A. }
  unfold swap_nodes. rewrite Pi, Pj. cbn [mbind cres_bind]. rewrite (proj2 (Z.ltb_ge _ _)), (proj2 (Z.ltb_ge _ _)) by lia. cbn [orb].
  rewrite (aget_ok nx i ni) by done. cbn [mbind cres_bind]. rewrite (aget_ok nx j nj) by done. cbn [mbind cres_bind]. destruct B as [|b B].
  - cbn in HB. subst ni. rewrite Z.eqb_refl. rewrite aset_ok by done. cbn [mbind cres_bind]. rewrite aset_ok by (by rewrite zlen_insert).
    cbn [mbind cres_bind]. exists (redirect (<[Z.to_nat j := i]> (<[Z.to_nat i := nj]> nx)) h A j). split.
    + apply (redirect_code _ h A i j Ret); [|done]. destruct (set_two nx i j nj i Ri Rj Hij) as (_ & _ & Fr). apply Fr; [done|done|set_solver].
    + by apply exchange_adjacent.
  - destruct HB as (-> & Hb & nb & Hnb & HB'). assert (Hbj : b <> j) by (intros ->; apply list.NoDup_app in Hnd' as (_ & Hd & _); apply (Hd j); apply list_elem_of_here).
    rewrite (proj2 (Z.eqb_neq b j)) by done.
    assert (Hnji : nj <> i) by (intros ->; destruct (chain_head _ _ _ HC); [lia|set_solver]). rewrite (proj2 (Z.eqb_neq nj i)) by done.
    rewrite aset_ok by done. cbn [mbind cres_bind]. rewrite aset_ok by (by rewrite zlen_insert). cbn [mbind cres_bind].
    rewrite <- insert_two_comm by lia. set (nx1 := <[Z.to_nat j := b]> _).
    assert (Hjh : (j =? h) = false \/ A = []).
    { destruct A as [|a A]; [by right|left]. apply Z.eqb_neq. pose proof (seg_head nx h (a :: A) i ltac:(done) HA). set_solver. }
    assert (HA1 : seg nx1 h A i) by (destruct (set_two nx i j nj b Ri Rj Hij) as (_ & _ & Fr); apply Fr; [done|done|set_solver]).
    exists (<[Z.to_nat (List.last (b :: B) j) := i]> (redirect nx1 h A j).1, (redirect nx1 h A j).2). split; [|apply exchange_apart; try done].
    + assert (El : List.last (A ++ i :: b :: B) j = List.last (b :: B) j).
      { rewrite (app_assoc A [i] (b :: B) : A ++ i :: b :: B = _). destruct (exists_last (l := b :: B) ltac:(done)) as (k & x & ->). by rewrite app_assoc, !List.last_last. }
      rewrite El in *. transitivity (let r := redirect nx1 h A j in nx ← aset r.1 (List.last (b :: B) j) i; Ret (nx, r.2)).
      * rewrite <- (redirect_code nx1 h A i j (fun r => nx ← aset r.1 (List.last (b :: B) j) i; Ret (nx, r.2)) HA1 HiA).
        destruct (Z.eqb_spec i h); [done|]. destruct Hjh as [->| ->]; [done|]. cbn in HA. congruence.
      * cbv zeta. rewrite aset_ok; [done|]. unfold zlen in *. rewrite redirect_length. unfold nx1. rewrite !length_insert. lia.
    + split; [done|]. split; [done|]. by exists nb.
Qed.

(** ** The invariant of the links *)

(** [dl] and [ul] are the active nodes in the order of the two schedulers, [fr] the free ones. *)
Record links_inv (l : ue_links) (dl ul fr : list Z) : Prop := {
  li_next_len : length (next l) = 16%nat;
  li_ul_len : length (next_ul l) = 16%nat;
  li_act_len : length (active l) = 16%nat;
  li_dl : chain (next l) (head l) dl;
  li_ul : chain (next_ul l) (head_ul l) ul;
  li_fr : chain (next l) (avail l) fr;
  li_all : dl ++ fr ≡ₚ zrange 0 16;
  li_perm : ul ≡ₚ dl;
  li_num : num_UEs l = zlen dl;
  li_active : forall x, 0 <= x < 16 -> active l !! Z.to_nat x = Some (b2z (bool_decide (x ∈ dl)));
}.

Lemma nodes_nodup l dl ul fr : links_inv l dl ul fr -> NoDup (dl ++ fr).
Proof. intros H. rewrite (li_all _ _ _ _ H). apply NoDup_seqZ. Qed.

Lemma dl_nodup l dl ul fr : links_inv l dl ul fr -> NoDup dl.
Proof. intros H. apply nodes_nodup in H. by apply list.NoDup_app in H as (H & _). Qed.

Lemma ul_nodup l dl ul fr : links_inv l dl ul fr -> NoDup ul.
Proof. intros H. rewrite (li_perm _ _ _ _ H). by eapply dl_nodup. Qed.

Lemma nodes_length l dl ul fr : links_inv l dl ul fr -> (length dl + length fr = 16)%nat.
Proof. intros H. rewrite <- length_app, (li_all _ _ _ _ H). reflexivity. Qed.

Lemma node_range l dl ul fr x : links_inv l dl ul fr -> x ∈ dl ++ fr -> 0 <= x < 16.
Proof. intros H Hx. rewrite (li_all _ _ _ _ H) in Hx. by apply elem_of_zrange in Hx. Qed.

Lemma dl_short l dl ul fr : links_inv l dl ul fr -> (length dl < LIST_FUEL)%nat.
Proof. intros H. pose proof (nodes_length _ _ _ _ H). unfold LIST_FUEL. lia. Qed.

Lemma ul_short l dl ul fr : links_inv l dl ul fr -> (length ul < LIST_FUEL)%nat.
Proof. intros H. rewrite (li_perm _ _ _ _ H). by eapply dl_short. Qed.

Lemma links_init_inv : links_inv links_init [] [] (zrange 0 16).
Proof.
  constructor; try done; try (exists (-1); split; [lia|]; repeat (split; [done|]; split; [lia|]; eexists; split; [reflexivity|]); done).
  intros x Hx. change (active links_init) with (replicate 16 0). by rewrite lookup_replicate_2 by lia.
Qed.

Lemma active_insert (a : list Z) x v (P Q : Z -> Prop) `{!forall y, Decision (P y), !forall y, Decision (Q y)} :
  (forall y, 0 <= y < 16 -> a !! Z.to_nat y = Some (b2z (bool_decide (P y)))) -> length a = 16%nat -> 0 <= x < 16 ->
  v = b2z (bool_decide (Q x)) -> (forall y, y <> x -> Q y <-> P y) ->
  forall y, 0 <= y < 16 -> <[Z.to_nat x := v]> a !! Z.to_nat y = Some (b2z (bool_decide (Q y))).
Proof.
  intros Ha Hl Hx -> HQ y Hy. destruct (decide (y = x)) as [->|Hne].
  - rewrite list_lookup_insert_eq by lia. done.
  - rewrite list_lookup_insert_ne by lia. rewrite Ha by done. do 2 f_equal. apply bool_decide_ext. by rewrite HQ.
Qed.

Lemma add_links_ok l dl ul x fr : links_inv l dl ul (x :: fr) ->
  exists l', add_links l x = Ret l' /\ links_inv l' (x :: dl) (x :: ul) fr.
Proof.
  intros H. pose proof (nodes_nodup _ _ _ _ H) as Hnd. pose proof (nodes_length _ _ _ _ H) as Hlen. cbn in Hlen.
  assert (Hx : 0 <= x < 16) by (apply (node_range _ _ _ _ x H); set_solver).
  apply list.NoDup_app in Hnd as (Hdl & Hdis & Hfr). apply list.NoDup_cons in Hfr as [Hxf Hfr]. assert (Hxd : x ∉ dl) by (intros Hin; apply (Hdis x Hin); set_solver).
  destruct H as [L1 L2 L3 Cd Cu Cf Hall Hp Hn Ha]. apply chain_cons in Cf as (Hav & _ & n & Hnx & Cf).
  unfold add_links. rewrite Hav, (aget_ok _ _ n) by (lia || done). cbn [mbind cres_bind].
  rewrite !aset_ok by (unfold zlen; lia). cbn [mbind cres_bind]. eexists. split; [reflexivity|]. constructor; cbn [next head next_ul head_ul avail num_UEs active].
  - by rewrite length_insert.
  - by rewrite length_insert.
  - by rewrite length_insert.
  - apply chain_link; [lia|lia|done|done].
  - apply chain_link; [lia|lia|done|]. by rewrite Hp.
  - apply chain_frame; [done|lia|done].
  - rewrite <- Hall. apply Permutation_middle.
  - by apply perm_skip.
  - rewrite Hn. rewrite i32_small by (unfold zlen; lia). unfold zlen. cbn [length]. lia.
  - apply (active_insert _ x 1 (fun y => y ∈ dl) (fun y => y ∈ x :: dl)); [done|done|done| |].
    + by rewrite bool_decide_true by set_solver.
    + intros y Hy. set_solver.
Qed.

Lemma remove_links_ok l A x B A' B' fr : links_inv l (A ++ x :: B) (A' ++ x :: B') fr ->
  exists l', remove_links l x = Ret (l', true) /\ links_inv l' (A ++ B) (A' ++ B') (x :: fr).
Proof.
  intros H. pose proof (nodes_nodup _ _ _ _ H) as Hnd. pose proof (nodes_length _ _ _ _ H) as Hlen.
  pose proof (dl_nodup _ _ _ _ H) as Hd. pose proof (ul_nodup _ _ _ _ H) as Hu. pose proof (dl_short _ _ _ _ H) as Sd. pose proof (ul_short _ _ _ _ H) as Su.
  assert (Hx : 0 <= x < 16) by (apply (node_range _ _ _ _ x H); set_solver).
  apply list.NoDup_app in Hnd as (_ & Hdis & Hfr). destruct H as [L1 L2 L3 Cd Cu Cf Hall Hp Hn Ha].
  assert (Hxf : x ∉ fr) by (intros Hin; apply (Hdis x); set_solver).
  assert (HxA : forall C D, NoDup (C ++ x :: D) -> x ∉ C ++ D).
  { intros C D HCD. apply list.NoDup_app in HCD as (_ & H1 & H2). apply list.NoDup_cons in H2 as [H2 _]. intros Hin.
    apply elem_of_app in Hin as [Hin|Hin]; [apply (H1 x Hin); set_solver|done]. }
  assert (HxC : forall C D, NoDup (C ++ x :: D) -> x ∉ C) by (intros C D HCD; specialize (HxA C D HCD); set_solver).
  unfold remove_links. rewrite (locate_ok _ x _ _ (head l) A B _ Cd Sd eq_refl (HxC _ _ Hd)). cbn [mbind cres_bind].
  destruct (unlink_ok _ _ _ _ _ Cd Hd) as (nx & h & -> & Cd' & Ln & Fr). cbn [mbind cres_bind].
  rewrite !aset_ok by (unfold zlen; lia). cbn [mbind cres_bind next head next_ul head_ul avail num_UEs active].
  rewrite (locate_ok _ x _ _ (head_ul l) A' B' _ Cu Su eq_refl (HxC _ _ Hu)). cbn [mbind cres_bind].
  destruct (unlink_ok _ _ _ _ _ Cu Hu) as (nu & hu & -> & Cu' & Lu & _). cbn [mbind cres_bind].
  rewrite !aset_ok by (unfold zlen; lia). cbn [mbind cres_bind]. eexists. split; [reflexivity|].
  constructor; cbn [next head next_ul head_ul avail num_UEs active].
  - by rewrite length_insert, Ln.
  - by rewrite length_insert, Lu.
  - by rewrite length_insert.
  - apply chain_frame; [done|lia|by apply HxA].
  - apply chain_frame; [done|lia|by apply HxA].
  - apply chain_link; [lia|lia| |done]. apply Fr; [done|]. intros y Hy HyA. apply (Hdis y); set_solver.
  - rewrite <- Hall, <- !app_assoc. cbn [app]. apply Permutation_app_head. symmetry. apply Permutation_middle.
  - apply (Permutation_cons_inv (a := x)). etransitivity; [apply Permutation_middle|]. rewrite Hp. symmetry. apply Permutation_middle.
  - rewrite Hn, i32_small by (unfold zlen in *; lia). unfold zlen. rewrite !length_app. cbn [length]. lia.
  - apply (active_insert _ x 0 (fun y => y ∈ A ++ x :: B) (fun y => y ∈ A ++ B)); [done|done|done| |].
    + by rewrite bool_decide_false by (by apply HxA).
    + intros y Hy. set_solver.
Qed.

(** ** Exchanging and sorting on the lists *)

(** The order of one direction, next to the nodes of the other one. *)
Definition ord_inv (ul_flag : bool) (l : ue_links) (ord other fr : list Z) : Prop :=
  if ul_flag then links_inv l other ord fr else links_inv l ord other fr.

Lemma ord_chain fl l ord other fr : ord_inv fl l ord other fr -> chain (next_of fl l) (head_of fl l) ord.
Proof. destruct fl; intros H; apply H. Qed.

Lemma ord_nodup fl l ord other fr : ord_inv fl l ord other fr -> NoDup ord.
Proof. destruct fl; intros H; [by eapply ul_nodup|by eapply dl_nodup]. Qed.

Lemma ord_short fl l ord other fr : ord_inv fl l ord other fr -> (length ord < LIST_FUEL)%nat.
Proof. destruct fl; intros H; [by eapply ul_short|by eapply dl_short]. Qed.

Lemma exchange_perm (A : list Z) i B j C : A ++ j :: B ++ i :: C ≡ₚ A ++ i :: B ++ j :: C.
Proof.
  apply Permutation_app_head. etransitivity; [apply perm_skip; symmetry; apply Permutation_middle|].
  etransitivity; [apply perm_swap|]. apply perm_skip, Permutation_middle.
Qed.

Lemma swap_UEs_ok fl l A i B j C other fr : ord_inv fl l (A ++ i :: B ++ j :: C) other fr ->
  exists l', swap_UEs fl i j l = Ret l' /\ ord_inv fl l' (A ++ j :: B ++ i :: C) other fr.
Proof.
  intros H. destruct (swap_nodes_ok (next_of fl l) (head_of fl l) A i B j C) as ([nx h] & E & Hc & Hl & Fr);
    [by eapply ord_chain|by eapply ord_nodup|by eapply ord_short|].
  cbn [fst snd] in *. pose proof (exchange_perm A i B j C) as Hp. destruct fl; cbn [next_of head_of ord_inv] in *.
  - eexists. split; [unfold swap_UEs; rewrite E; reflexivity|]. destruct H as [L1 L2 L3 Cd Cu Cf Hall Hpu Hn Ha].
    constructor; cbn [next head next_ul head_ul avail num_UEs active]; try done; [congruence|by rewrite Hp].
  - eexists. split; [unfold swap_UEs; rewrite E; reflexivity|]. pose proof (nodes_nodup _ _ _ _ H) as Hnd.
    destruct H as [L1 L2 L3 Cd Cu Cf Hall Hpu Hn Ha].
    constructor; cbn [next head next_ul head_ul avail num_UEs active]; try done.
    + congruence.
    + apply Fr; [done|]. apply list.NoDup_app in Hnd as (_ & Hd & _). intros x Hx Hin. by apply (Hd x).
    + by rewrite Hp.
    + by rewrite Hp.
    + rewrite Hn. unfold zlen. by rewrite Hp.
    + intros x Hx. rewrite Ha by done. do 2 f_equal. apply bool_decide_ext. by rewrite Hp.
Qed.

(** The sorting of the code, on a list: the user [i] goes down the list, changing place with every user
    that comes first by [gt]; the next turn is for the user behind it. *)
Fixpoint sift (gt : Z -> Z -> bool) (i : Z) (A B1 B2 : list Z) : list Z * list Z :=
  match B2 with
  | [] => (A, B1)
  | x :: B2 => if gt i x then sift gt i (A ++ x :: B1) [] B2 else sift gt i A (B1 ++ [x]) B2
  end.

Fixpoint ue_sort (fuel : nat) (gt : Z -> Z -> bool) (A : list Z) (l : list Z) : list Z :=
  match fuel, l with
  | S fuel, i :: B => let '(P, T) := sift gt i A [] B in ue_sort fuel gt (P ++ [i]) T
  | _, _ => A ++ l
  end.

Lemma sift_perm gt i B2 : forall A B1, (sift gt i A B1 B2).1 ++ (sift gt i A B1 B2).2 ≡ₚ A ++ B1 ++ B2.
Proof.
  induction B2 as [|x B2 IH]; intros A B1; cbn [sift]; [by rewrite app_nil_r|]. destruct (gt i x); rewrite IH.
  - rewrite app_nil_l, <- app_assoc. cbn [app]. apply Permutation_app_head, Permutation_middle.
  - by rewrite <- app_assoc.
Qed.

Lemma sift_shorter gt i B2 : forall A B1, (length (sift gt i A B1 B2).2 <= length B1 + length B2)%nat.
Proof.
  induction B2 as [|x B2 IH]; intros A B1; cbn [sift length]; [cbn; lia|]. destruct (gt i x).
  - specialize (IH (A ++ x :: B1) []). cbn [length] in IH. lia.
  - specialize (IH A (B1 ++ [x])). rewrite length_app in IH. cbn [length] in IH. lia.
Qed.

Lemma ue_sort_perm gt fuel : forall A l, ue_sort fuel gt A l ≡ₚ A ++ l.
Proof.
  induction fuel as [|fuel IH]; intros A l; cbn [ue_sort]; [done|]. destruct l as [|i B]; [done|].
  pose proof (sift_perm gt i B A []) as Hs. destruct (sift gt i A [] B) as [P T]. rewrite IH. cbn [fst snd app] in Hs.
  rewrite <- app_assoc. cbn [app]. etransitivity; [symmetry; apply Permutation_middle|].
  etransitivity; [apply perm_skip; exact Hs|]. apply Permutation_middle.
Qed.

Section Sorting.
(** The decision depends on the users only, not on their order. *)
Context (fl : bool) (dec : eNB_MAC -> Z -> Z -> cres bool) (gt : Z -> Z -> bool) (m0 : eNB_MAC) (els other fr : list Z).
Hypothesis dec_gt : forall l ord i j, ord_inv fl l ord other fr -> ord ≡ₚ els -> i ∈ els -> j ∈ els ->
  dec (set_links m0 l) i j = Ret (gt i j).
Hypothesis gt_irrefl : forall i, gt i i = false.

Lemma inner_skip l ord i : ord_inv fl l ord other fr -> ord ≡ₚ els -> i ∈ els ->
  forall Y Z h fuel, chain (next_of fl l) h (Y ++ Z) -> (forall x, x ∈ Y -> x ∈ els /\ gt i x = false) ->
  exists h', sort_inner (length Y + fuel) fl dec i h (set_links m0 l) = sort_inner fuel fl dec i h' (set_links m0 l) /\ chain (next_of fl l) h' Z.
Proof.
  intros H Hp Hi. induction Y as [|x Y IH]; intros Z h fuel Hc HY; [by exists h|].
  cbn [app] in Hc. apply chain_cons in Hc as (-> & Hx & n & Hn & Hc). destruct (HY x) as [Hxe Hgt]; [apply list_elem_of_here|].
  destruct (IH Z n fuel Hc) as (h' & E & Hc'); [intros y Hy; apply HY; by apply list_elem_of_further|].
  exists h'. split; [|done]. cbn [length Nat.add sort_inner]. rewrite (proj2 (Z.ltb_ge _ _)) by done.
  rewrite (dec_gt l ord i x H Hp Hi Hxe), Hgt. cbn [mbind cres_bind links set_links]. rewrite (aget_ok _ _ n) by done. exact E.
Qed.

Lemma inner_ok i B2 : forall A B1 l h fuel, ord_inv fl l (A ++ i :: B1 ++ B2) other fr -> A ++ i :: B1 ++ B2 ≡ₚ els ->
  chain (next_of fl l) h B2 -> (forall x, x ∈ B1 -> gt i x = false) -> (length B2 * 17 < fuel)%nat ->
  exists l', sort_inner fuel fl dec i h (set_links m0 l) = Ret (set_links m0 l') /\
    let r := sift gt i A B1 B2 in ord_inv fl l' (r.1 ++ i :: r.2) other fr /\ r.1 ++ i :: r.2 ≡ₚ els.
Proof.
  induction B2 as [|x B2 IH]; intros A B1 l h fuel H Hp Hc HB Hf; (destruct fuel as [|fuel]; [lia|]).
  { exists l. cbn [sort_inner sift fst snd]. apply chain_nil in Hc. rewrite (proj2 (Z.ltb_lt _ _)) by done.
    rewrite app_nil_r in *. done. }
  assert (Hmem : forall y, y ∈ A ++ i :: B1 ++ x :: B2 -> y ∈ els) by (intros y; by rewrite Hp).
  assert (Hi : i ∈ els) by (apply Hmem; set_solver). assert (Hx : x ∈ els) by (apply Hmem; set_solver).
  pose proof (ord_short _ _ _ _ _ H) as Hs. rewrite !length_app in Hs. cbn [length] in Hs. rewrite length_app in Hs. cbn [length] in Hs.
  apply chain_cons in Hc as (-> & Hx0 & n & Hn & Hc).
  cbn [sort_inner sift]. rewrite (proj2 (Z.ltb_ge _ _)) by done. rewrite (dec_gt l _ i x H Hp Hi Hx). cbn [mbind cres_bind].
  destruct (gt i x) eqn:Eg.
  - destruct (swap_UEs_ok fl l A i B1 x B2 other fr H) as (l' & E & H'). cbn [links set_links]. rewrite E. cbn [mbind cres_bind].
    assert (Hp' : A ++ x :: B1 ++ i :: B2 ≡ₚ els) by (by rewrite exchange_perm).
    destruct (chain_middle _ _ _ _ _ (ord_chain _ _ _ _ _ H')) as (n' & _ & _ & Hn' & Hc').
    rewrite (aget_ok _ _ n') by done. cbn [mbind cres_bind]. change (set_links (set_links m0 l) l') with (set_links m0 l').
    replace fuel with (length (B1 ++ [i]) + (fuel - length (B1 ++ [i])))%nat
      by (rewrite length_app; unfold LIST_FUEL in Hs; cbn [length]; cbn in Hf; lia).
    destruct (inner_skip l' _ i H' Hp' Hi (B1 ++ [i]) B2 n' (fuel - length (B1 ++ [i]))) as (h' & -> & Hc2).
    + by rewrite <- app_assoc.
    + intros y Hy. apply elem_of_app in Hy as [Hy|Hy].
      * split; [apply Hmem; set_solver|by apply HB].
      * apply list_elem_of_singleton in Hy as ->. split; [done|apply gt_irrefl].
    + apply (IH (A ++ x :: B1) [] l' h').
      * cbn [app]. by rewrite <- app_assoc.
      * cbn [app]. by rewrite <- app_assoc.
      * done.
      * intros y Hy. by apply elem_of_nil in Hy.
      * rewrite length_app. unfold LIST_FUEL in Hs. cbn [length]. cbn in Hf. lia.
  - cbn [mbind cres_bind links set_links]. rewrite (aget_ok _ _ n) by done. cbn [mbind cres_bind]. change (set_links (set_links m0 l) l) with (set_links m0 l).
    apply (IH A (B1 ++ [x]) l n).
    + by rewrite <- app_assoc.
    + by rewrite <- app_assoc.
    + done.
    + intros y Hy. apply elem_of_app in Hy as [Hy|Hy]; [by apply HB|]. by apply list_elem_of_singleton in Hy as ->.
    + cbn in Hf. lia.
Qed.

Lemma outer_ok fuel : forall A B l h, ord_inv fl l (A ++ B) other fr -> A ++ B ≡ₚ els -> chain (next_of fl l) h B -> (length B < fuel)%nat ->
  exists l', sort_outer fuel fl dec h (set_links m0 l) = Ret (set_links m0 l') /\ ord_inv fl l' (ue_sort fuel gt A B) other fr.
Proof.
  induction fuel as [|fuel IH]; intros A B l h H Hp Hc Hf; [lia|]. cbn [sort_outer ue_sort]. destruct B as [|i B].
  { apply chain_nil in Hc. rewrite (proj2 (Z.ltb_lt _ _)) by done. by exists l. }
  apply chain_cons in Hc as (-> & Hi & n & Hn & Hc). rewrite (proj2 (Z.ltb_ge _ _)) by done. cbn [links set_links].
  rewrite (aget_ok _ _ n) by done. cbn [mbind cres_bind].
  pose proof (ord_short _ _ _ _ _ H) as Hs. rewrite length_app in Hs. cbn [length] in Hs.
  destruct (inner_ok i B A [] l n SORT_FUEL) as (l' & E & H' & Hp'); try done.
  { intros y Hy. by apply elem_of_nil in Hy. }
  { unfold LIST_FUEL, SORT_FUEL in *. lia. }
  pose proof (sift_shorter gt i B A []) as Hlen. destruct (sift gt i A [] B) as [P T]. cbn [fst snd] in *.
  rewrite E. cbn [mbind cres_bind links set_links]. destruct (chain_middle _ _ _ _ _ (ord_chain _ _ _ _ _ H')) as (n' & _ & _ & Hn' & Hc').
  rewrite (aget_ok _ _ n') by done. cbn [mbind cres_bind]. apply IH; [by rewrite <- app_assoc|by rewrite <- app_assoc|done|cbn in *; lia].
Qed.
End Sorting.

(** ** The invariant of the users *)

(** An array of one row for each carrier with an entry for each node. *)
Definition grid {A} (P : A -> Prop) (a : list (list A)) : Prop := exists r, a = [r] /\ length r = 16%nat /\ Forall P r.

Definition template_ok (t : UE_TEMPLATE) : Prop :=
  length (bsr_info t) = 4%nat /\ length (dl_buffer_info t) = 11%nat /\ length (ul_buffer_info t) = 4%nat /\
  length (ul_buffer_creation_time t) = 4%nat /\ length (lcgidmap t) = 11%nat.

Definition stats_ok (st : eNB_UE_STATS) : Prop := length (num_pdu_rx st) = 14%nat /\ length (num_bytes_rx st) = 14%nat.

Definition ctrl_ok (c : UE_sched_ctrl) : Prop := length (round c) = 1%nat.

(** What the arrays hold for a node of the primary carrier. *)
Definition tmpl (d : ue_data) (x : Z) : UE_TEMPLATE := default zero_template (mjoin (UE_template d) !! Z.to_nat x).
Definition ctrl (d : ue_data) (x : Z) : UE_sched_ctrl := default zero_ctrl (sched_ctrl d !! Z.to_nat x).

Record data_inv (d : ue_data) (dl : list Z) : Prop := {
  di_templates : grid template_ok (UE_template d);
  di_pcc : length (pCC_id d) = 16%nat;
  di_pcc_dl : forall x, x ∈ dl -> pCC_id d !! Z.to_nat x = Some 0;
  di_ord : grid (fun _ => True) (ordered_CCids d);
  di_ord_dl : forall x, x ∈ dl -> mjoin (ordered_CCids d) !! Z.to_nat x = Some 0;
  di_nact : length (numactiveCCs d) = 16%nat;
  di_nact_dl : forall x, x ∈ dl -> numactiveCCs d !! Z.to_nat x = Some 1;
  di_ordu : grid (fun _ => True) (ordered_ULCCids d);
  di_nactu : length (numactiveULCCs d) = 16%nat;
  di_ctrl : length (sched_ctrl d) = 16%nat /\ Forall ctrl_ok (sched_ctrl d);
  di_rnti : NoDup ((fun x => rnti (tmpl d x)) <$> dl);
  di_pos : forall x, x ∈ dl -> 0 < rnti (tmpl d x);
  di_stats : grid stats_ok (eNB_UE_stats d);
}.

Record mac_inv (m : eNB_MAC) (dl ul fr : list Z) : Prop := {
  mi_links : links_inv (links m) dl ul fr;
  mi_data : data_inv (udata m) dl;
  mi_ulsch : grid (fun _ => True) (ulsch_info m);
  mi_dlsch : grid (fun _ => True) (dlsch_info m);
  mi_ra : exists r, RA_template m = [r];
  mi_stats : exists c, eNB_stats m = [c];
}.

Lemma grid_get {A} (P : A -> Prop) a x : grid P a -> 0 <= x < 16 -> exists v, aget2 a 0 x = Ret v /\ P v /\ mjoin a !! Z.to_nat x = Some v.
Proof.
  intros (r & -> & Hl & HP) Hx. destruct (lookup_lt_is_Some_2 r (Z.to_nat x)) as [v Hv]; [lia|]. exists v. unfold aget2. cbn [mjoin list_join].
  rewrite app_nil_r. split; [|split; [by apply (Forall_lookup_1 _ _ _ _ HP Hv)|done]]. by apply aget_ok; [lia|].
Qed.

Lemma grid_set {A} (P : A -> Prop) a x f v : grid P a -> 0 <= x < 16 -> mjoin a !! Z.to_nat x = Some v -> (exists w, f v = Ret w /\ P w) ->
  exists a', aupd2 a 0 x f = Ret a' /\ grid P a' /\ exists w, f v = Ret w /\ mjoin a' = <[Z.to_nat x := w]> (mjoin a).
Proof.
  intros (r & -> & Hl & HP) Hx Hv (w & Hf & Hw). cbn [mjoin list_join] in Hv. rewrite app_nil_r in Hv. unfold aupd2.
  change (aget [r] 0) with (Ret r). cbn [mbind cres_bind]. rewrite (aget_ok r x v) by (lia || done). cbn [mbind cres_bind]. rewrite Hf. cbn [mbind cres_bind].
  rewrite aset_ok by (unfold zlen; lia). cbn [mbind cres_bind]. exists [<[Z.to_nat x := w]> r]. split; [done|]. split.
  - exists (<[Z.to_nat x := w]> r). split; [done|]. rewrite length_insert. split; [done|]. by apply Forall_insert.
  - exists w. split; [done|]. cbn [mjoin list_join]. by rewrite !app_nil_r.
Qed.

Lemma tmpl_get d dl x : data_inv d dl -> 0 <= x < 16 ->
  aget2 (UE_template d) 0 x = Ret (tmpl d x) /\ template_ok (tmpl d x) /\ mjoin (UE_template d) !! Z.to_nat x = Some (tmpl d x).
Proof.
  intros Hd Hx. destruct (grid_get _ _ x (di_templates _ _ Hd) Hx) as (v & Hv & Hok & Hj). unfold tmpl. rewrite Hj. done.
Qed.

Lemma mac_node m dl ul fr x : mac_inv m dl ul fr -> x ∈ dl -> 0 <= x < 16 /\ UE_PCCID (udata m) x = Ret 0 /\
  aget2 (UE_template (udata m)) 0 x = Ret (tmpl (udata m) x) /\ template_ok (tmpl (udata m) x) /\ 0 < rnti (tmpl (udata m) x).
Proof.
  intros H Hx. assert (Hr : 0 <= x < 16) by (apply (node_range _ _ _ _ x (mi_links _ _ _ _ H)); set_solver).
  destruct (tmpl_get _ _ x (mi_data _ _ _ _ H) Hr) as (H1 & H2 & _). split; [done|]. split; [|split; [done|split; [done|]]].
  - apply aget_ok; [lia|]. by apply (di_pcc_dl _ _ (mi_data _ _ _ _ H)).
  - by apply (di_pos _ _ (mi_data _ _ _ _ H)).
Qed.

(** ** Finding a user *)

Lemma find_UE_id_first m dl ul fr r : mac_inv m dl ul fr ->
  find_UE_id m r = Ret (default (-1) (first_some (fun x => if rnti (tmpl (udata m) x) =? r then Some x else None) dl)).
Proof.
  intros H. unfold find_UE_id. pose proof (mi_links _ _ _ _ H) as HL.
  rewrite (walk_ok _ _ (fun x => if rnti (tmpl (udata m) x) =? r then Some x else None) dl); [|apply HL|by eapply dl_short|].
  - cbn [mbind cres_bind]. by destruct (first_some _ dl).
  - intros x Hx. destruct (mac_node _ _ _ _ x H Hx) as (_ & -> & E & _). cbn [mbind cres_bind]. by rewrite E.
Qed.

Lemma find_UE_id_known m dl ul fr x : mac_inv m dl ul fr -> x ∈ dl -> find_UE_id m (rnti (tmpl (udata m) x)) = Ret x.
Proof.
  intros H Hx. rewrite (find_UE_id_first _ _ _ _ _ H). f_equal. pose proof (di_rnti _ _ (mi_data _ _ _ _ H)) as Hnd.
  apply list_elem_of_split in Hx as (A & B & ->). rewrite first_some_app.
  - cbn. by rewrite Z.eqb_refl.
  - intros y Hy. destruct (Z.eqb_spec (rnti (tmpl (udata m) y)) (rnti (tmpl (udata m) x))) as [E|]; [|done]. exfalso.
    rewrite fmap_app, fmap_cons in Hnd. apply list.NoDup_app in Hnd as (_ & Hd & _).
    apply (Hd (rnti (tmpl (udata m) y))); [by apply (list_elem_of_fmap_2 (fun x => rnti (tmpl (udata m) x)))|]. rewrite E. apply list_elem_of_here.
Qed.

Lemma find_UE_id_unknown m dl ul fr r : mac_inv m dl ul fr -> (forall x, x ∈ dl -> rnti (tmpl (udata m) x) <> r) -> find_UE_id m r = Ret (-1).
Proof.
  intros H Hr. rewrite (find_UE_id_first _ _ _ _ _ H). rewrite <- (app_nil_r dl), first_some_app; [done|].
  intros x Hx. by rewrite (proj2 (Z.eqb_neq _ _)) by (by apply Hr).
Qed.

(** ** Adding and removing *)

Lemma data_frame_lookup {A} (a : list A) x v y : 0 <= x -> 0 <= y -> x <> y -> <[Z.to_nat x := v]> a !! Z.to_nat y = a !! Z.to_nat y.
Proof. intros. apply list_lookup_insert_ne. lia. Qed.

Lemma data_same_rnti d d' (dl : list Z) : (forall x, x ∈ dl -> rnti (tmpl d' x) = rnti (tmpl d x)) ->
  (fun x => rnti (tmpl d' x)) <$> dl = (fun x => rnti (tmpl d x)) <$> dl.
Proof. intros H. apply list_fmap_ext. intros i x Hx. apply H. by apply list_elem_of_lookup_2 in Hx. Qed.

Lemma add_data_ok d dl x r harq : data_inv d dl -> 0 <= x < 16 -> x ∉ dl -> (forall y, y ∈ dl -> 0 <= y < 16) -> 0 < r ->
  (forall y, y ∈ dl -> rnti (tmpl d y) <> r) ->
  exists d', add_data d 0 x r harq = Ret d' /\ data_inv d' (x :: dl) /\ rnti (tmpl d' x) = r /\ ctrl d' x = zero_ctrl /\
    (forall y, 0 <= y -> y <> x -> tmpl d' y = tmpl d y /\ ctrl d' y = ctrl d y).
Proof.
  intros Hd Hx Hni Hrange Hr Hfresh. destruct (tmpl_get d dl x Hd Hx) as (_ & Hok & Hj). unfold add_data.
  pose proof Hd as [Gt Pl Pd Go Od Nl Nd Gu Ul [Cl Cf] Rn Rp Gs].
  destruct (grid_set _ _ x (fun t => Ret (new_template r harq t)) _ Gt Hx Hj) as (t & -> & Gt' & w & [= <-] & Jt);
    [eexists; split; [reflexivity|exact Hok]|]. cbn [mbind cres_bind].
  rewrite !aset_ok by (unfold zlen; lia). cbn [mbind cres_bind].
  destruct (grid_get _ _ x Go Hx) as (o & _ & _ & Jo). destruct (grid_get _ _ x Gu Hx) as (u & _ & _ & Ju).
  destruct (grid_set _ _ x (fun _ => Ret 0) _ Go Hx Jo) as (oc & -> & Go' & w1 & [= <-] & Jo'); [by eexists|]. cbn [mbind cres_bind].
  destruct (grid_set _ _ x (fun _ => Ret 0) _ Gu Hx Ju) as (ou & -> & Gu' & w2 & [= <-] & Ju'); [by eexists|]. cbn [mbind cres_bind].
  eexists. split; [reflexivity|]. set (d' := UeData _ _ _ _ _ _ _ _).
  assert (Tx : tmpl d' x = new_template r harq (tmpl d x)).
  { unfold tmpl at 1. cbn [UE_template d']. rewrite Jt, list_lookup_insert_eq; [done|]. by apply lookup_lt_Some in Hj. }
  assert (Ty : forall y, 0 <= y -> y <> x -> tmpl d' y = tmpl d y /\ ctrl d' y = ctrl d y).
  { intros y Hy Hne. unfold tmpl, ctrl. cbn [UE_template sched_ctrl d']. rewrite Jt, !data_frame_lookup by lia. done. }
  assert (Hfr : forall y, y ∈ dl -> rnti (tmpl d' y) = rnti (tmpl d y)).
  { intros y Hy. destruct (Ty y) as [E _]; [by apply Hrange|intros E; by subst y|by rewrite E]. }
  split; [|split; [by rewrite Tx|split; [|done]]].
  2:{ unfold ctrl. cbn [sched_ctrl d']. by rewrite list_lookup_insert_eq by lia. }
  constructor; cbn [UE_template pCC_id ordered_CCids numactiveCCs ordered_ULCCids numactiveULCCs sched_ctrl eNB_UE_stats d'];
    try done; rewrite ?length_insert; try done.
  - intros y Hy. destruct (decide (y = x)) as [->|Hne]; [by rewrite list_lookup_insert_eq by lia|].
    assert (Hy' : y ∈ dl) by set_solver. pose proof (Hrange y Hy'). rewrite data_frame_lookup by lia. by apply Pd.
  - intros y Hy. rewrite Jo'. apply lookup_lt_Some in Jo. destruct (decide (y = x)) as [->|Hne]; [by rewrite list_lookup_insert_eq|].
    assert (Hy' : y ∈ dl) by set_solver. pose proof (Hrange y Hy'). rewrite data_frame_lookup by lia. by apply Od.
  - intros y Hy. destruct (decide (y = x)) as [->|Hne]; [by rewrite list_lookup_insert_eq by lia|].
    assert (Hy' : y ∈ dl) by set_solver. pose proof (Hrange y Hy'). rewrite data_frame_lookup by lia. by apply Nd.
  - split; [done|]. by apply Forall_insert.
  - cbn [fmap list_fmap]. fold (fmap (M := list) (fun x => rnti (tmpl d' x)) dl). rewrite (data_same_rnti d d' dl Hfr). apply list.NoDup_cons.
    split; [|done]. rewrite Tx. cbn. intros Hin. apply list_elem_of_fmap in Hin as (y & Hy & Hin). by apply (Hfresh y Hin).
  - intros y Hy. destruct (decide (y = x)) as [->|Hne]; [by rewrite Tx|]. assert (y ∈ dl) by set_solver. rewrite Hfr by done. by apply Rp.
Qed.

Lemma add_new_ue_ok m dl ul x fr r harq : mac_inv m dl ul (x :: fr) -> 0 < r -> (forall y, y ∈ dl -> rnti (tmpl (udata m) y) <> r) ->
  exists m', add_new_ue 0 r harq m = Ret (x, m') /\ mac_inv m' (x :: dl) (x :: ul) fr /\ rnti (tmpl (udata m') x) = r /\
    (forall y, y ∈ dl -> tmpl (udata m') y = tmpl (udata m) y /\ ctrl (udata m') y = ctrl (udata m) y) /\ mac_calls m' = mac_calls m.
Proof.
  intros [HL Hd Hu Hdi Hra Hst] Hr Hfresh. assert (Hx : 0 <= x < 16) by (apply (node_range _ _ _ _ x HL); set_solver).
  assert (Hav : avail (links m) = x) by (pose proof (li_fr _ _ _ _ HL) as Cf; by apply chain_cons in Cf as (-> & _)).
  assert (Hrange : forall y, y ∈ dl -> 0 <= y < 16) by (intros y Hy; apply (node_range _ _ _ _ y HL); set_solver).
  assert (Hni : x ∉ dl) by (pose proof (nodes_nodup _ _ _ _ HL) as Hnd; apply list.NoDup_app in Hnd as (_ & Hd' & _); intros Hin; apply (Hd' x Hin); set_solver).
  unfold add_new_ue. rewrite Hav, (proj2 (Z.leb_le 0 x)) by lia. rewrite (proj2 (Z.ltb_lt x NUMBER_OF_UE_MAX)) by (unfold NUMBER_OF_UE_MAX; lia).
  cbn [c_assert mbind cres_bind]. destruct (add_links_ok _ _ _ _ _ HL) as (l & -> & HL'). cbn [mbind cres_bind].
  destruct (add_data_ok _ _ x r harq Hd Hx Hni Hrange Hr Hfresh) as (d & -> & Hd' & Hrx & _ & Hfr). cbn [mbind cres_bind].
  destruct (grid_get _ _ x Hu Hx) as (v1 & _ & _ & J1). destruct (grid_get _ _ x Hdi Hx) as (v2 & _ & _ & J2).
  destruct (grid_set _ _ x (set_status S_WAITING) v1 Hu Hx J1) as (ui & -> & Gu & _); [by eexists|]. cbn [mbind cres_bind].
  destruct (grid_set _ _ x (set_status S_WAITING) v2 Hdi Hx J2) as (di & -> & Gd & _); [by eexists|]. cbn [mbind cres_bind].
  eexists. split; [reflexivity|]. split; [by constructor|]. split; [done|]. split; [|done].
  intros y Hy. apply Hfr; [by apply Hrange|]. intros ->. done.
Qed.

Lemma add_new_ue_full m dl ul r harq : mac_inv m dl ul [] -> add_new_ue 0 r harq m = Ret (-1, m).
Proof.
  intros [HL _ _ _ _]. unfold add_new_ue. pose proof (chain_nil _ _ (li_fr _ _ _ _ HL)). by rewrite (proj2 (Z.leb_gt _ _)).
Qed.

Lemma cleared_ok t : template_ok t -> exists t', cleared_template t = Ret t' /\ template_ok t' /\ rnti t' = NOT_A_RNTI.
Proof.
  intros (H1 & H2 & H3 & H4 & H5). unfold cleared_template. do 4 (rewrite aset_ok by (unfold zlen; rewrite ?length_insert; lia); cbn [mbind cres_bind]).
  eexists. split; [reflexivity|]. split; [|done]. split; [cbn [bsr_info]; by rewrite !length_insert|done].
Qed.

Lemma elem_of_middle (A B : list Z) x y : y ∈ A ++ B -> y ∈ A ++ x :: B.
Proof. set_solver. Qed.

Lemma rrc_mac_remove_ue_ok m A x B A' B' fr : mac_inv m (A ++ x :: B) (A' ++ x :: B') fr ->
  exists m', rrc_mac_remove_ue (rnti (tmpl (udata m) x)) m = Ret (0, m') /\ mac_inv m' (A ++ B) (A' ++ B') (x :: fr) /\
    (forall y, y ∈ A ++ B -> tmpl (udata m') y = tmpl (udata m) y /\ ctrl (udata m') y = ctrl (udata m) y) /\
    mac_calls m' = mac_calls m ++ [PhyRemoveUe (rnti (tmpl (udata m) x))].
Proof.
  intros H. assert (Hin : x ∈ A ++ x :: B) by set_solver. destruct (mac_node _ _ _ _ x H Hin) as (Hx & Hcc & _ & Hok & _).
  unfold rrc_mac_remove_ue. rewrite (find_UE_id_known _ _ _ _ x H Hin). cbn [mbind cres_bind]. rewrite Hcc. cbn [mbind cres_bind].
  rewrite (proj2 (Z.eqb_neq x (-1))) by lia. destruct H as [HL Hd Hu Hdi [ras Hra] Hst].
  destruct (tmpl_get _ _ x Hd Hx) as (_ & _ & Jt). pose proof Hd as [Gt Pl Pd Go Od Nl Nd Gu Ul Cc Rn Rp Gs].
  destruct (cleared_ok _ Hok) as (t' & Et & Ht' & Hr').
  destruct (grid_set _ _ x cleared_template _ Gt Hx Jt) as (t & -> & Gt' & w & Ew & Jt'); [by exists t'|]. cbn [mbind cres_bind].
  assert (w = t') as -> by congruence.
  destruct (grid_get _ _ x Hu Hx) as (v1 & _ & _ & J1). destruct (grid_get _ _ x Hdi Hx) as (v2 & _ & _ & J2).
  destruct (grid_set _ _ x (fun _ => Ret (SchInfo NOT_A_RNTI S_NONE)) v1 Hu Hx J1) as (ui & -> & Gui & _); [by eexists|]. cbn [mbind cres_bind].
  destruct (grid_set _ _ x (fun _ => Ret (SchInfo NOT_A_RNTI S_NONE)) v2 Hdi Hx J2) as (di & -> & Gdi & _); [by eexists|]. cbn [mbind cres_bind].
  destruct (remove_links_ok _ _ _ _ _ _ _ HL) as (l & -> & HL'). cbn [mbind cres_bind]. rewrite Hra.
  change (aget [ras] 0) with (Ret ras). cbn [mbind cres_bind]. rewrite aset_ok by (unfold zlen; cbn; lia). cbn [mbind cres_bind].
  eexists. split; [reflexivity|]. set (d' := UeData _ _ _ _ _ _ _ _).
  assert (Hni : x ∉ A ++ B).
  { pose proof (dl_nodup _ _ _ _ HL) as Hnd. apply list.NoDup_app in Hnd as (_ & H1 & H2). apply list.NoDup_cons in H2 as [H2 _].
    intros Hab. apply elem_of_app in Hab as [Hab|Hab]; [apply (H1 x Hab), list_elem_of_here|done]. }
  assert (Hfr : forall y, y ∈ A ++ B -> tmpl d' y = tmpl (udata m) y /\ ctrl d' y = ctrl (udata m) y).
  { intros y Hy. assert (0 <= y < 16) by (apply (node_range _ _ _ _ y HL), elem_of_app; left; by apply elem_of_middle).
    unfold tmpl, ctrl. cbn [UE_template sched_ctrl d']. rewrite Jt', data_frame_lookup; [done|lia|lia|]. intros ->. done. }
  split; [|split; [exact Hfr|done]]. constructor; cbn [links udata ulsch_info dlsch_info RA_template]; try done; [|by eexists].
  constructor; cbn [UE_template pCC_id ordered_CCids numactiveCCs ordered_ULCCids numactiveULCCs sched_ctrl eNB_UE_stats d']; try done.
  - intros y Hy. by apply Pd, elem_of_middle.
  - intros y Hy. by apply Od, elem_of_middle.
  - intros y Hy. by apply Nd, elem_of_middle.
  - rewrite (data_same_rnti (udata m) d' (A ++ B)) by (intros y Hy; by destruct (Hfr y Hy) as [-> _]).
    rewrite fmap_app in *. rewrite fmap_cons in Rn. apply list.NoDup_app in Rn as (R1 & R2 & R3). apply list.NoDup_cons in R3 as [_ R3].
    apply list.NoDup_app. split; [done|]. split; [|done]. intros y Hy Hy'. apply (R2 y Hy). by apply list_elem_of_further.
  - intros y Hy. destruct (Hfr y Hy) as [-> _]. by apply Rp, elem_of_middle.
Qed.

(** ** The order of the schedulers *)

Definition entry (l : list Z) (i : nat) : Z := default 0 (l !! i).
Definition largest (c : Z) : Z := if 0 <? c then c else 0.

(** The channel quality that the lookup of the physical layer finds, when it finds one. *)
Definition cqi_of (phy : phy_g) (cc r : Z) : option Z :=
  match get_UE_stats phy cc r with Ret (Some st) => DL_cqi st !! 0%nat | _ => None end.

(** The physical layer runs the first carrier, with its arrays as they are declared, and one of its shared channels
    is that of the user [r]. *)
Definition phy_knows (phy : phy_g) (r : Z) : Prop :=
  exists e, phy !! 0%nat = Some (Some e) /\ length (dlsch e) = 16%nat /\ Forall (fun d => length d = 2%nat) (dlsch e) /\
    length (UE_stats e) = 16%nat /\ Forall (fun st => length (DL_cqi st) = 2%nat) (UE_stats e) /\
    Exists (fun d => d !! 0%nat = Some (Some (u16 r))) (dlsch e).

Lemma find_ue_known e r n k : length (dlsch e) = (n + k)%nat -> Forall (fun d => length d = 2%nat) (dlsch e) ->
  Exists (fun d => d !! 0%nat = Some (Some r)) (drop n (dlsch e)) ->
  exists x, find_ue_from (zrange (Z.of_nat n) k) r e = Ret x /\ 0 <= x < Z.of_nat (n + k).
Proof.
  intros Hl H2. revert n Hl. induction k as [|k IH]; intros n Hl Hx.
  - rewrite drop_ge in Hx by lia. by apply Exists_nil in Hx.
  - destruct (lookup_lt_is_Some_2 (dlsch e) n ltac:(lia)) as [d Hd].
    rewrite (drop_S _ d) in Hx by done. rewrite zrange_S. cbn [find_ue_from]. unfold aget2. rewrite (aget_ok _ _ d) by (lia || by rewrite Nat2Z.id).
    cbn [mbind cres_bind]. pose proof (Forall_lookup_1 _ _ _ _ H2 Hd) as Hd2. cbn beta in Hd2.
    destruct (lookup_lt_is_Some_2 d 0 ltac:(lia)) as [v Hv].
    rewrite (aget_ok _ _ v) by (done || lia). cbn [mbind cres_bind]. case_bool_decide as E; [exists (Z.of_nat n); split; [done|lia]|].
    apply Exists_cons in Hx as [Hx|Hx]; [congruence|]. destruct (IH (S n)) as (x & Ex & Hr); [lia|done|].
    exists x. split; [|lia]. rewrite <- Ex. do 2 f_equal. lia.
Qed.

Lemma phy_knows_cqi phy r : phy_knows phy r -> is_Some (cqi_of phy 0 r).
Proof.
  intros (e & E & L1 & F1 & L2 & F2 & Hx). unfold cqi_of, get_UE_stats, find_ue.
  rewrite (aget_ok _ _ (Some e)) by done. cbn [mbind cres_bind].
  destruct (find_ue_known e (u16 r) 0 16) as (x & Ex & Hr); [done|done|done|].
  change (zrange 0 (Z.to_nat NUMBER_OF_UE_MAX)) with (zrange (Z.of_nat 0) 16). rewrite Ex. cbn [mbind cres_bind].
  rewrite (proj2 (Z.eqb_neq _ _)) by lia. destruct (lookup_lt_is_Some_2 (UE_stats e) (Z.to_nat x)) as [st Hst]; [lia|].
  rewrite (aget_ok _ _ st) by (done || lia). cbn [mbind cres_bind].
  apply lookup_lt_is_Some_2. rewrite (Forall_lookup_1 _ _ _ _ F2 Hst). lia.
Qed.

(** [x] gives its place to [y] in the downlink: a later HARQ round, then more signalling data, the older head of the
    queue, more data, a better channel. *)
Definition dl_gt (phy : phy_g) (d : ue_data) (x y : Z) : bool :=
  let r z := largest (entry (round (ctrl d z)) 0) in
  let srb z := u32 (entry (dl_buffer_info (tmpl d z)) 1 + entry (dl_buffer_info (tmpl d z)) 2) in
  let cqi z := largest (default 0 (cqi_of phy 0 (rnti (tmpl d z)))) in
  negb (ul_out_of_sync (ctrl d x) =? 1) && negb (ul_out_of_sync (ctrl d y) =? 1) &&
  (if r x <? r y then true
   else if r y =? r x then
     if srb x <? srb y then true
     else if dl_buffer_head_sdu_creation_time_max (tmpl d x) <? dl_buffer_head_sdu_creation_time_max (tmpl d y) then true
     else if dl_buffer_total (tmpl d x) <? dl_buffer_total (tmpl d y) then true
     else cqi x <? cqi y
   else false).

(** The same for the uplink: the round, the data of the first group, all data, and the modulation if there are any data. *)
Definition ul_gt (d : ue_data) (x y : Z) : bool :=
  let r z := largest (entry (round (ctrl d z)) 0) in
  let lcg0 z := entry (ul_buffer_info (tmpl d z)) 0 in
  negb (ul_out_of_sync (ctrl d x) =? 1) && negb (ul_out_of_sync (ctrl d y) =? 1) &&
  (if r x <? r y then true
   else if r y =? r x then
     if lcg0 x <? lcg0 y then true
     else if ul_total_buffer (tmpl d x) <? ul_total_buffer (tmpl d y) then true
     else if pre_assigned_mcs_ul (tmpl d x) <? pre_assigned_mcs_ul (tmpl d y) then 0 <? ul_total_buffer (tmpl d y)
     else false
   else false).

Lemma dl_gt_irrefl cqi d x : dl_gt cqi d x x = false.
Proof. unfold dl_gt. rewrite !Z.ltb_irrefl, Z.eqb_refl. apply andb_false_r. Qed.

Lemma ul_gt_irrefl d x : ul_gt d x x = false.
Proof. unfold ul_gt. rewrite !Z.ltb_irrefl, Z.eqb_refl. apply andb_false_r. Qed.

Lemma entry_get (l : list Z) i : (Z.to_nat i < length l)%nat -> 0 <= i -> aget l i = Ret (entry l (Z.to_nat i)).
Proof.
  intros Hl Hi. destruct (lookup_lt_is_Some_2 l (Z.to_nat i) Hl) as [v Hv]. unfold entry. rewrite Hv. by apply aget_ok.
Qed.

Section Decisions.
Context (m : eNB_MAC) (dl ul fr : list Z).
Hypothesis inv : mac_inv m dl ul fr.

Lemma rnti_ok x : x ∈ dl -> UE_RNTI (udata m) x = Ret (rnti (tmpl (udata m) x)).
Proof.
  intros Hx. destruct (mac_node _ _ _ _ x inv Hx) as (_ & E1 & E2 & _ & Hp). unfold UE_RNTI. rewrite E1. cbn [mbind cres_bind]. rewrite E2.
  cbn [mbind cres_bind]. by rewrite (proj2 (Z.ltb_lt _ _)).
Qed.

Lemma ctrl_get x : x ∈ dl -> aget (sched_ctrl (udata m)) x = Ret (ctrl (udata m) x) /\ length (round (ctrl (udata m) x)) = 1%nat.
Proof.
  intros Hx. destruct (mac_node _ _ _ _ x inv Hx) as (Hr & _). destruct (di_ctrl _ _ (mi_data _ _ _ _ inv)) as [Hl Hf].
  destruct (lookup_lt_is_Some_2 (sched_ctrl (udata m)) (Z.to_nat x)) as [c Hc]; [lia|]. unfold ctrl. rewrite Hc. cbn.
  split; [apply aget_ok; [lia|done]|]. exact (Forall_lookup_1 _ _ _ _ Hf Hc).
Qed.

Lemma takes_part_ok x : x ∈ dl ->
  takes_part m x = Ret (if ul_out_of_sync (ctrl (udata m) x) =? 1 then None else Some (rnti (tmpl (udata m) x))).
Proof.
  intros Hx. destruct (mac_node _ _ _ _ x inv Hx) as (_ & _ & _ & _ & Hp). unfold takes_part. rewrite (rnti_ok x Hx). cbn [mbind cres_bind].
  rewrite (proj2 (Z.eqb_neq _ _)) by (unfold NOT_A_RNTI; lia). by rewrite (proj1 (ctrl_get x Hx)).
Qed.

Lemma template_get x : x ∈ dl -> template_of m x = Ret (tmpl (udata m) x).
Proof. intros Hx. destruct (mac_node _ _ _ _ x inv Hx) as (_ & E1 & E2 & _). unfold template_of. rewrite E1. exact E2. Qed.

Lemma maxround_ok x : x ∈ dl -> maxround m (rnti (tmpl (udata m) x)) = Ret (largest (entry (round (ctrl (udata m) x)) 0)).
Proof.
  intros Hx. destruct (mac_node _ _ _ _ x inv Hx) as (Hr & _). destruct (ctrl_get x Hx) as [E Hl]. unfold maxround.
  change (zrange 0 (Z.to_nat MAX_NUM_CCs)) with [0]. cbn [for_each]. rewrite (find_UE_id_known _ _ _ _ x inv Hx). cbn [mbind cres_bind].
  rewrite u8_small by lia. rewrite E. cbn [mbind cres_bind]. rewrite entry_get by (cbn; lia). done.
Qed.

Lemma maxcqi_ok phy x : x ∈ dl -> is_Some (cqi_of phy 0 (rnti (tmpl (udata m) x))) ->
  maxcqi phy m x = Ret (largest (default 0 (cqi_of phy 0 (rnti (tmpl (udata m) x))))).
Proof.
  intros Hx [c Hc]. destruct (mac_node _ _ _ _ x inv Hx) as (Hr & _). pose proof (mi_data _ _ _ _ inv) as Hd. unfold maxcqi.
  rewrite (aget_ok _ _ 1) by (lia || by apply (di_nact_dl _ _ Hd)). cbn [mbind cres_bind]. change (zrange 0 (Z.to_nat 1)) with [0]. cbn [for_each].
  destruct (grid_get _ _ x (di_ord _ _ Hd) Hr) as (v & -> & _ & Hv). rewrite (di_ord_dl _ _ Hd x Hx) in Hv. injection Hv as <-. cbn [mbind cres_bind].
  rewrite (rnti_ok x Hx). cbn [mbind cres_bind]. unfold cqi_of in Hc |- *. destruct (get_UE_stats _ _ _) as [[st|]|]; try discriminate.
  cbn [mbind cres_bind]. by rewrite Hc, (aget_ok _ _ c).
Qed.

Lemma template_lengths x : x ∈ dl -> template_ok (tmpl (udata m) x).
Proof. intros Hx. by destruct (mac_node _ _ _ _ x inv Hx) as (_ & _ & _ & H & _). Qed.

Lemma decide_dl_ok phy x y : (forall z, z ∈ dl -> is_Some (cqi_of phy 0 (rnti (tmpl (udata m) z)))) -> x ∈ dl -> y ∈ dl ->
  decide_dl phy m x y = Ret (dl_gt phy (udata m) x y).
Proof.
  intros Hq Hx Hy. destruct (template_lengths x Hx) as (_ & Lx & _). destruct (template_lengths y Hy) as (_ & Ly & _).
  unfold decide_dl, dl_gt. rewrite (takes_part_ok x Hx). cbn [mbind cres_bind].
  destruct (ul_out_of_sync (ctrl (udata m) x) =? 1); [done|]. cbn [negb andb].
  rewrite (template_get x Hx), (maxcqi_ok phy x Hx) by auto. cbn [mbind cres_bind]. rewrite (maxround_ok x Hx). cbn [mbind cres_bind].
  rewrite (takes_part_ok y Hy). cbn [mbind cres_bind]. destruct (ul_out_of_sync (ctrl (udata m) y) =? 1); [done|]. cbn [negb].
  rewrite (maxcqi_ok phy y Hy) by auto. cbn [mbind cres_bind]. rewrite (maxround_ok y Hy), (template_get y Hy). cbn [mbind cres_bind].
  case_if; [done|]. case_if; [|done]. rewrite !entry_get by (rewrite ?Lx, ?Ly; cbn; lia). done.
Qed.

Lemma decide_ul_ok x y : x ∈ dl -> y ∈ dl -> decide_ul m x y = Ret (ul_gt (udata m) x y).
Proof.
  intros Hx Hy. destruct (template_lengths x Hx) as (_ & _ & Lx & _). destruct (template_lengths y Hy) as (_ & _ & Ly & _).
  unfold decide_ul, ul_gt. rewrite (takes_part_ok x Hx). cbn [mbind cres_bind].
  destruct (ul_out_of_sync (ctrl (udata m) x) =? 1); [done|]. cbn [negb andb].
  rewrite (template_get x Hx). cbn [mbind cres_bind]. rewrite (maxround_ok x Hx). cbn [mbind cres_bind].
  rewrite (takes_part_ok y Hy). cbn [mbind cres_bind]. destruct (ul_out_of_sync (ctrl (udata m) y) =? 1); [done|]. cbn [negb].
  rewrite (template_get y Hy). cbn [mbind cres_bind]. rewrite (maxround_ok y Hy). cbn [mbind cres_bind].
  case_if; [done|]. case_if; [|done]. rewrite !entry_get by (rewrite ?Lx, ?Ly; cbn; lia). done.
Qed.
End Decisions.

(** ** The list of users as a whole *)

Lemma data_inv_perm d dl dl' : data_inv d dl -> dl' ≡ₚ dl -> data_inv d dl'.
Proof.
  intros [Gt Pl Pd Go Od Nl Nd Gu Ul Cc Rn Rp Gs] Hp. constructor; try done; try (intros x; rewrite Hp; auto). by rewrite Hp.
Qed.

Lemma mac_inv_links m dl ul fr l dl' ul' : mac_inv m dl ul fr -> links_inv l dl' ul' fr -> dl' ≡ₚ dl -> mac_inv (set_links m l) dl' ul' fr.
Proof. intros [HL Hd Hu Hdi Hra Hst] HL' Hp. constructor; try done. by apply (data_inv_perm _ dl). Qed.

Lemma set_links_same m : set_links m (links m) = m.
Proof. by destruct m. Qed.

Lemma sort_dl_ok phy m dl ul fr : mac_inv m dl ul fr -> (forall x, x ∈ dl -> is_Some (cqi_of phy 0 (rnti (tmpl (udata m) x)))) ->
  exists l', sort_UEs phy m = Ret (set_links m l') /\ mac_inv (set_links m l') (ue_sort LIST_FUEL (dl_gt phy (udata m)) [] dl) ul fr.
Proof.
  intros H Hq. pose proof (mi_links _ _ _ _ H) as HL.
  destruct (outer_ok false (decide_dl phy) (dl_gt phy (udata m)) m dl ul fr) with (fuel := LIST_FUEL) (A := @nil Z) (B := dl) (l := links m) (h := head (links m))
    as (l' & E & HL'); try done.
  - intros l ord i j Ho Hp Hi Hj. apply (decide_dl_ok (set_links m l) ord ul fr); [by apply (mac_inv_links m dl ul)|..].
    + intros z Hz. apply Hq. by rewrite <- Hp.
    + by rewrite Hp.
    + by rewrite Hp.
  - apply dl_gt_irrefl.
  - apply HL.
  - by eapply dl_short.
  - exists l'. rewrite set_links_same in E. split; [exact E|]. apply (mac_inv_links m dl ul); [done|exact HL'|]. apply ue_sort_perm.
Qed.

Lemma sort_ul_ok m dl ul fr : mac_inv m dl ul fr ->
  exists l', sort_ue_ul m = Ret (set_links m l') /\ mac_inv (set_links m l') dl (ue_sort LIST_FUEL (ul_gt (udata m)) [] ul) fr.
Proof.
  intros H. pose proof (mi_links _ _ _ _ H) as HL. pose proof (li_perm _ _ _ _ HL) as Hul.
  destruct (outer_ok true decide_ul (ul_gt (udata m)) m ul dl fr) with (fuel := LIST_FUEL) (A := @nil Z) (B := ul) (l := links m) (h := head_ul (links m))
    as (l' & E & HL'); try done.
  - intros l ord i j Ho Hp Hi Hj. apply (decide_ul_ok (set_links m l) dl ord fr); [by apply (mac_inv_links m dl ul)|..]; by rewrite <- Hul.
  - apply ul_gt_irrefl.
  - apply HL.
  - by eapply ul_short.
  - exists l'. rewrite set_links_same in E. split; [exact E|]. by apply (mac_inv_links m dl ul).
Qed.

Lemma mac_init_inv : mac_inv mac_init [] [] (zrange 0 16).
Proof.
  assert (G : forall A (P : A -> Prop) x, P x -> grid P [replicate 16 x]).
  { intros A P x Hx. exists (replicate 16 x). split; [done|]. rewrite length_replicate. split; [done|]. by apply Forall_replicate. }
  constructor; cbn [links udata ulsch_info dlsch_info RA_template mac_init]; [apply links_init_inv| |by apply G|by apply G|by eexists|by eexists].
  constructor; cbn [UE_template pCC_id ordered_CCids numactiveCCs ordered_ULCCids numactiveULCCs sched_ctrl eNB_UE_stats]; try done; try (by apply G);
    try (intros x Hx; by apply elem_of_nil in Hx); [|constructor].
  split; [done|]. by apply Forall_replicate.
Qed.

(** *** Operations and their specification *)

Inductive ue_op :=
| OpAdd (rnti harq : Z)
| OpRemove (rnti : Z)
| OpSortDl (phy : phy_g)
| OpSortUl.

Definition mac_step (op : ue_op) (m : eNB_MAC) : cres eNB_MAC :=
  match op with
  | OpAdd r harq => '(_, m) ← add_new_ue 0 r harq m; Ret m
  | OpRemove r => '(_, m) ← rrc_mac_remove_ue r m; Ret m
  | OpSortDl phy => sort_UEs phy m
  | OpSortUl => sort_ue_ul m
  end.

(** The connected users: at most 16 RNTIs. *)
Definition users_step (op : ue_op) (s : list Z) : list Z :=
  match op with
  | OpAdd r _ => if (length s <? 16)%nat then r :: s else s
  | OpRemove r => filter (fun x => x <> r) s
  | OpSortDl _ | OpSortUl => s
  end.

(** A user is added once, and only a connected one is removed; when the downlink is sorted the physical layer, in
    whatever state it is, has a channel for each connected user. *)
Definition allowed (op : ue_op) (s : list Z) : Prop :=
  match op with
  | OpAdd r _ => 0 < r /\ r ∉ s
  | OpRemove r => r ∈ s
  | OpSortDl phy => Forall (phy_knows phy) s
  | OpSortUl => True
  end.

Fixpoint allowed_run (ops : list ue_op) (s : list Z) : Prop :=
  match ops with
  | [] => True
  | op :: ops => allowed op s /\ allowed_run ops (users_step op s)
  end.

Definition node_rntis (m : eNB_MAC) (dl : list Z) : list Z := (fun x => rnti (tmpl (udata m) x)) <$> dl.

(** The state of the MAC holds the users [s]. *)
Definition holds (m : eNB_MAC) (s : list Z) : Prop := exists dl ul fr, mac_inv m dl ul fr /\ node_rntis m dl ≡ₚ s.

Lemma node_rntis_same m m' dl : (forall y, y ∈ dl -> tmpl (udata m') y = tmpl (udata m) y) -> node_rntis m' dl = node_rntis m dl.
Proof. intros H. apply data_same_rnti. intros x Hx. by rewrite H. Qed.

Lemma holds_length m dl s : node_rntis m dl ≡ₚ s -> length s = length dl.
Proof. intros H. rewrite <- H. apply length_fmap. Qed.

Lemma filter_others (l : list Z) r : r ∉ l -> filter (fun x => x <> r) l = l.
Proof.
  induction l as [|x l IH]; intros Hr; [done|]. apply not_elem_of_cons in Hr as [Hne Hr]. rewrite filter_cons_True by done. by rewrite IH.
Qed.

Lemma filter_rnti (l k : list Z) r : NoDup (l ++ r :: k) -> filter (fun x => x <> r) (l ++ r :: k) = l ++ k.
Proof.
  intros Hnd. apply list.NoDup_app in Hnd as (_ & H1 & H2). apply list.NoDup_cons in H2 as [H2 _].
  rewrite list.filter_app, filter_cons_False by (intros H; by apply H). rewrite !filter_others; [done|done|].
  intros Hin. apply (H1 r Hin), list_elem_of_here.
Qed.

Lemma mac_step_holds op m s : holds m s -> allowed op s ->
  exists m', mac_step op m = Ret m' /\ holds m' (users_step op s).
Proof.
  intros (dl & ul & fr & H & Hs) Hal. pose proof (holds_length _ _ _ Hs) as Hlen.
  pose proof (nodes_length _ _ _ _ (mi_links _ _ _ _ H)) as Hn. destruct op as [r harq|r|phy|]; cbn [mac_step users_step allowed] in *.
  - destruct Hal as [Hr Hni]. destruct fr as [|x fr].
    + rewrite (add_new_ue_full m dl ul r harq H). cbn [mbind cres_bind]. exists m. split; [done|].
      rewrite (proj2 (Nat.ltb_ge _ _)) by (cbn in Hn; lia). by exists dl, ul, [].
    + destruct (add_new_ue_ok m dl ul x fr r harq H Hr) as (m' & -> & H' & Hx & Hfr & _).
      { intros y Hy <-. apply Hni. rewrite <- Hs. by apply (list_elem_of_fmap_2 (fun x => rnti (tmpl (udata m) x))). }
      cbn [mbind cres_bind]. exists m'. split; [done|]. rewrite (proj2 (Nat.ltb_lt _ _)) by (cbn in Hn; lia).
      exists (x :: dl), (x :: ul), fr. split; [done|]. change (node_rntis m' (x :: dl)) with (rnti (tmpl (udata m') x) :: node_rntis m' dl). rewrite Hx.
      apply perm_skip. rewrite (node_rntis_same m m' dl); [done|]. intros y Hy. by apply Hfr.
  - rewrite <- Hs in Hal. apply list_elem_of_fmap in Hal as (x & -> & Hx).
    assert (Hxu : x ∈ ul) by (by rewrite (li_perm _ _ _ _ (mi_links _ _ _ _ H))).
    apply list_elem_of_split in Hx as (A & B & ->). apply list_elem_of_split in Hxu as (A' & B' & ->).
    destruct (rrc_mac_remove_ue_ok m A x B A' B' fr H) as (m' & -> & H' & Hfr & _). cbn [mbind cres_bind]. exists m'. split; [done|].
    exists (A ++ B), (A' ++ B'), (x :: fr). split; [done|]. rewrite (node_rntis_same m m') by (intros y Hy; by apply Hfr).
    pose proof (di_rnti _ _ (mi_data _ _ _ _ H)) as Hnd. rewrite <- Hs. unfold node_rntis in *. rewrite !fmap_app, fmap_cons in *. by rewrite filter_rnti.
  - destruct (sort_dl_ok phy m dl ul fr H) as (l' & E & H').
    { intros x Hx. apply phy_knows_cqi. rewrite <- Hs in Hal. rewrite list.Forall_forall in Hal. apply Hal.
      by apply (list_elem_of_fmap_2 (fun x => rnti (tmpl (udata m) x))). }
    exists (set_links m l'). split; [done|].
    exists (ue_sort LIST_FUEL (dl_gt phy (udata m)) [] dl), ul, fr. split; [done|]. rewrite <- Hs. apply fmap_Permutation, ue_sort_perm.
  - destruct (sort_ul_ok m dl ul fr H) as (l' & E & H'). exists (set_links m l'). split; [done|].
    by exists dl, (ue_sort LIST_FUEL (ul_gt (udata m)) [] ul), fr.
Qed.

(** C13: The list of users of the MAC implements a set of at most 16 users: from the initial state, for every
    sequence of additions of users with a positive RNTI that is not connected yet, removals of connected users, and
    sorting runs of the two schedulers, those of the downlink while the physical layer has a shared channel for each
    connected user, all operations return, an addition takes effect as long as fewer than 16 users are connected,
    and [find_UE_id] finds exactly the connected users. *)
Theorem ue_list_refines ops : allowed_run ops [] ->
  exists m, for_each mac_step ops mac_init = Ret m /\
    forall r, (r ∈ foldl (fun s op => users_step op s) [] ops -> exists x, find_UE_id m r = Ret x /\ 0 <= x < 16) /\
              (r ∉ foldl (fun s op => users_step op s) [] ops -> find_UE_id m r = Ret (-1)).
Proof.
  assert (Hgen : forall ops m s, holds m s -> allowed_run ops s ->
    exists m', for_each mac_step ops m = Ret m' /\ holds m' (foldl (fun s op => users_step op s) s ops)).
  { induction ops0 as [|op ops0 IH]; intros m s Hh Ha; [by exists m|]. destruct Ha as [Ha1 Ha2].
    destruct (mac_step_holds op m s Hh Ha1) as (m1 & E1 & H1). cbn [for_each foldl]. rewrite E1. by apply (IH m1). }
  intros Ha. destruct (Hgen ops mac_init []) as (m & E & dl & ul & fr & H & Hs); [|done|].
  { exists [], [], (zrange 0 16). split; [apply mac_init_inv|done]. }
  exists m. split; [done|]. intros r. split; intros Hr.
  - rewrite <- Hs in Hr. apply list_elem_of_fmap in Hr as (x & -> & Hx). exists x. split; [by apply (find_UE_id_known m dl ul fr)|].
    by apply (mac_node m dl ul fr).
  - apply (find_UE_id_unknown m dl ul fr); [done|]. intros x Hx <-. apply Hr. rewrite <- Hs. by apply (list_elem_of_fmap_2 (fun x => rnti (tmpl (udata m) x))).
Qed.

(** C32: Sorting the users of the downlink always ends, although the nested loops follow links that they change, and
    loses no user: when the lookup [get_UE_stats] of the physical layer finds the users of the list, [sort_UEs] returns a state in which only the
    links have changed, all invariants hold, and the order of the downlink is that of the reference definition
    [ue_sort] on plain lists, a permutation of the order before; the order of the uplink stays. *)
Theorem sort_UEs_refines phy m dl ul fr : mac_inv m dl ul fr ->
  (forall x, x ∈ dl -> is_Some (cqi_of phy 0 (rnti (tmpl (udata m) x)))) ->
  exists l, sort_UEs phy m = Ret (set_links m l) /\
    let dl' := ue_sort LIST_FUEL (dl_gt phy (udata m)) [] dl in
    mac_inv (set_links m l) dl' ul fr /\ dl' ≡ₚ dl.
Proof.
  intros H Hq. destruct (sort_dl_ok phy m dl ul fr H Hq) as (l & E & H'). exists l. split; [done|]. split; [done|]. apply ue_sort_perm.
Qed.

(** [sort_UEs] does not sort: after an exchange the outer loop goes on behind the user it has moved, so the users
    it has jumped over are never compared.  Of any three users whose priorities grow along the list, the middle one
    ends first and the one with the highest priority second. *)
Theorem sort_UEs_misorders phy m a b c ul fr : mac_inv m [a; b; c] ul fr ->
  (forall x, x ∈ [a; b; c] -> is_Some (cqi_of phy 0 (rnti (tmpl (udata m) x)))) ->
  dl_gt phy (udata m) a b = true -> dl_gt phy (udata m) a c = true -> dl_gt phy (udata m) b c = true ->
  exists l, sort_UEs phy m = Ret (set_links m l) /\ mac_inv (set_links m l) [b; c; a] ul fr.
Proof.
  intros H Hq Hab Hac _. destruct (sort_dl_ok phy m [a; b; c] ul fr H Hq) as (l & E & H'). exists l. split; [done|].
  cbn [ue_sort LIST_FUEL sift app] in H'. rewrite Hab in H'. cbn [sift app] in H'. rewrite Hac in H'. exact H'.
Qed.

(** Removing a user that is not connected reads the array of the primary carriers at index -1, outside of the
    array: the carrier is looked up before the result of the search is tested. *)
Theorem remove_unknown_out_of_bounds m dl ul fr r : mac_inv m dl ul fr -> (forall x, x ∈ dl -> rnti (tmpl (udata m) x) <> r) ->
  rrc_mac_remove_ue r m = Trap FOob.
Proof. intros H Hr. unfold rrc_mac_remove_ue. by rewrite (find_UE_id_unknown m dl ul fr r H Hr). Qed.

(** ** Witnesses *)

(** A physical layer that serves the users 100, 200 and 300. *)
Definition w_phy : phy_g :=
  [Some (PhyEnb ([[Some 300; None]; [Some 100; None]; [None; None]; [Some 200; None]] ++ replicate 12 [None; None]) (replicate 16 (PhyStats [7; 0])))].

Lemma w_phy_knows r : r ∈ [100; 200; 300] -> phy_knows w_phy r.
Proof.
  intros Hr. eexists. split; [reflexivity|]. split; [done|]. split; [by repeat constructor|]. split; [done|]. split; [by repeat constructor|].
  assert (Hc : r = 100 \/ r = 200 \/ r = 300) by set_solver.
  destruct Hc as [->|[->| ->]]; repeat (apply Exists_cons; first [left; reflexivity|right]).
Qed.

Definition w_ops : list ue_op := [OpAdd 100 0; OpAdd 200 1; OpSortDl w_phy; OpAdd 300 2; OpRemove 200; OpSortUl].

Lemma ue_list_refines_witness :
  exists m, for_each mac_step w_ops mac_init = Ret m /\ find_UE_id m 200 = Ret (-1) /\ exists x, find_UE_id m 300 = Ret x.
Proof.
  assert (N : (200 : Z) ∉ [300; 100]) by set_solver. assert (Y : (300 : Z) ∈ [300; 100]) by set_solver.
  destruct (ue_list_refines w_ops) as (m & E & H).
  - cbn. repeat split; try lia; try set_solver. repeat constructor; apply w_phy_knows; set_solver.
  - exists m. split; [exact E|]. change (foldl (fun s op => users_step op s) [] w_ops) with [300; 100] in H. split.
    + destruct (H 200) as [_ H2]. exact (H2 N).
    + destruct (H 300) as [H1 _]. destruct (H1 Y) as (x & Hx & _). by exists x.
Defined.

(** Three users with 10, 20 and 30 bytes to send, the first at the head of the list. *)
Definition w_template (r total : Z) : UE_TEMPLATE :=
  UeTemplate r (replicate 8 0) (replicate 8 0) 0 0 0 (replicate 4 0) (replicate 11 0) 0 0 (replicate 11 0) total 0 0 (replicate 4 0) (replicate 4 0) 0.
Definition w_links : ue_links :=
  Links ([1; 2; -1] ++ zrange 4 12 ++ [-1]) 0 ([1; 2; -1] ++ replicate 13 0) 0 3 3 ([1; 1; 1] ++ replicate 13 0).
Definition w_data : ue_data :=
  UeData [w_template 100 10 :: w_template 200 20 :: w_template 300 30 :: replicate 13 zero_template] (replicate 16 0) [replicate 16 0]
    (replicate 16 1) [replicate 16 0] (replicate 16 1) [replicate 16 zero_stats] (replicate 16 zero_ctrl).
Definition w_mac : eNB_MAC :=
  EnbMac w_links w_data [replicate 16 (SchInfo 0 S_NONE)] [replicate 16 (SchInfo 0 S_NONE)] [replicate NB_RA_PROC_MAX zero_ra] [EnbStats 0 0 0] [].

Lemma w_mac_inv : mac_inv w_mac [0; 1; 2] [0; 1; 2] (zrange 3 13).
Proof.
  assert (Hcase : forall x : Z, x ∈ [0; 1; 2] -> x = 0 \/ x = 1 \/ x = 2) by (intros x Hx; set_solver).
  constructor; [|constructor|exists (replicate 16 (SchInfo 0 S_NONE)); split; [done|]; split; [done|]; by apply Forall_replicate
    |exists (replicate 16 (SchInfo 0 S_NONE)); split; [done|]; split; [done|]; by apply Forall_replicate|by eexists|by eexists];
    try done; try (intros x Hx; destruct (Hcase x Hx) as [->|[->| ->]]; done).
  - constructor; try done; try (exists (-1); split; [lia|]; repeat (split; [done|]; split; [lia|]; eexists; split; [reflexivity|]); done).
    intros x Hx. assert (Hx' : x ∈ zrange 0 16) by (apply elem_of_zrange; lia).
    assert (Hall : Forall (fun x => active w_links !! Z.to_nat x = Some (b2z (bool_decide (x ∈ [0; 1; 2])))) (zrange 0 16))
      by (cbn; repeat constructor). rewrite list.Forall_forall in Hall. by apply Hall.
  - eexists. split; [reflexivity|]. split; [done|]. repeat constructor.
  - exists (replicate 16 0). split; [done|]. split; [done|]. by apply Forall_replicate.
  - exists (replicate 16 0). split; [done|]. split; [done|]. by apply Forall_replicate.
  - split; [done|]. by apply Forall_replicate.
  - cbn. repeat constructor; set_solver.
  - exists (replicate 16 zero_stats). split; [done|]. split; [done|]. by apply Forall_replicate.
Qed.

Lemma w_mac_cqi x : x ∈ [0; 1; 2] -> is_Some (cqi_of w_phy 0 (rnti (tmpl (udata w_mac) x))).
Proof. intros Hx. assert (Hc : x = 0 \/ x = 1 \/ x = 2) by set_solver. destruct Hc as [->|[->| ->]]; by exists 7. Qed.

Lemma sort_UEs_refines_witness : exists l, sort_UEs w_phy w_mac = Ret (set_links w_mac l).
Proof.
  destruct (sort_UEs_refines w_phy w_mac [0; 1; 2] [0; 1; 2] (zrange 3 13) w_mac_inv) as (l & E & _); [exact w_mac_cqi|]. by exists l.
Defined.

Lemma sort_UEs_misorders_witness : exists l, sort_UEs w_phy w_mac = Ret (set_links w_mac l) /\
  mac_inv (set_links w_mac l) [1; 2; 0] [0; 1; 2] (zrange 3 13).
Proof.
  apply (sort_UEs_misorders w_phy w_mac 0 1 2 [0; 1; 2] (zrange 3 13) w_mac_inv); [exact w_mac_cqi|reflexivity|reflexivity|reflexivity].
Defined.

Lemma remove_unknown_out_of_bounds_witness : rrc_mac_remove_ue 400 w_mac = Trap FOob.
Proof.
  apply (remove_unknown_out_of_bounds w_mac [0; 1; 2] [0; 1; 2] (zrange 3 13) 400 w_mac_inv).
  intros x Hx. assert (Hc : x = 0 \/ x = 1 \/ x = 2) by set_solver. destruct Hc as [->|[->| ->]]; done.
Defined.
