(* ===== verification/MacUlsch.v ===== *)
(** The reception of a MAC PDU from a user by the eNB: [rx_sdu] of [eNB_scheduler_ulsch.c] as a whole, with the
    control elements, the delivery of the SDUs to RLC and RRC and the bookkeeping of the users. *)
From S2P Require Import Prelude MacHeader MacUeList.
From coqutil Require Import Byte.
From Stdlib Require Import ZArith Lia.
From stdpp Require Import base list sets numbers.
Open Scope Z_scope.

(** ** Constants *)

Definition PHR_MAPPING_OFFSET : Z := 23.
Definition CCCH : Z := 0.
Definition DCCH : Z := 1.
Definition DCCH1 : Z := 2.
Definition CCCH_PAYLOAD_SIZE_MAX : Z := 128.
Definition SCH_PAYLOAD_SIZE_MAX : Z := 4096.

Definition BSR_TABLE : list Z :=
  [0; 10; 12; 14; 17; 19; 22; 26; 31; 36; 42; 49; 57; 67; 78; 91; 105; 125; 146; 171; 200; 234; 274; 321; 376; 440; 515; 603; 706;
   826; 967; 1132; 1326; 1552; 1817; 2127; 2490; 2915; 3413; 3995; 4677; 5467; 6411; 7505; 8787; 10287; 12043; 14099; 16507; 19325;
   22624; 26487; 31009; 36304; 42502; 49759; 58255; 68201; 79846; 93479; 109439; 128125; 150000; 300000].

(** ** State *)

(** The variables of [rx_sdu]: the MAC, [UE_id], [payload_ptr] as an offset, [*msg3_flagP] ([None] for a null pointer). *)
Record rx_state := Rx {
  rx_mac : eNB_MAC;
  rx_ue : Z;
  rx_ptr : Z;
  rx_msg3 : option Z;
}.

Definition with_mac (s : rx_state) (m : eNB_MAC) : rx_state := Rx m (rx_ue s) (rx_ptr s) (rx_msg3 s).
Definition skip (n : Z) (s : rx_state) : rx_state := Rx (rx_mac s) (rx_ue s) (rx_ptr s + n) (rx_msg3 s).

Definition with_data (m : eNB_MAC) (d : ue_data) : eNB_MAC :=
  EnbMac (links m) d (ulsch_info m) (dlsch_info m) (RA_template m) (eNB_stats m) (mac_calls m).

Definition call (m : eNB_MAC) (c : mac_call) : eNB_MAC :=
  EnbMac (links m) (udata m) (ulsch_info m) (dlsch_info m) (RA_template m) (eNB_stats m) (mac_calls m ++ [c]).

(** Changes of the arrays of a user. *)
Definition upd_template (cc x : Z) (f : UE_TEMPLATE -> cres UE_TEMPLATE) (m : eNB_MAC) : cres eNB_MAC :=
  let d := udata m in
  t ← aupd2 (UE_template d) cc x f;
  Ret (with_data m (UeData t (pCC_id d) (ordered_CCids d) (numactiveCCs d) (ordered_ULCCids d) (numactiveULCCs d) (eNB_UE_stats d) (sched_ctrl d))).

Definition upd_stats (cc x : Z) (f : eNB_UE_STATS -> cres eNB_UE_STATS) (m : eNB_MAC) : cres eNB_MAC :=
  let d := udata m in
  t ← aupd2 (eNB_UE_stats d) cc x f;
  Ret (with_data m (UeData (UE_template d) (pCC_id d) (ordered_CCids d) (numactiveCCs d) (ordered_ULCCids d) (numactiveULCCs d) t (sched_ctrl d))).

Definition upd_ctrl (x : Z) (f : UE_sched_ctrl -> UE_sched_ctrl) (m : eNB_MAC) : cres eNB_MAC :=
  let d := udata m in
  c ← aget (sched_ctrl d) x;
  l ← aset (sched_ctrl d) x (f c);
  Ret (with_data m (UeData (UE_template d) (pCC_id d) (ordered_CCids d) (numactiveCCs d) (ordered_ULCCids d) (numactiveULCCs d) (eNB_UE_stats d) l)).

Definition set_phr (v : Z) (t : UE_TEMPLATE) : UE_TEMPLATE :=
  UeTemplate (rnti t) (oldNDI t) (oldNDI_UL t) (ul_active t) (configured t) (ul_SR t) (bsr_info t) (lcgidmap t) v 1
    (dl_buffer_info t) (dl_buffer_total t) (dl_buffer_head_sdu_creation_time_max t) (ul_total_buffer t)
    (ul_buffer_creation_time t) (ul_buffer_info t) (pre_assigned_mcs_ul t).

Definition set_ul (bsr info creation : list Z) (total : Z) (t : UE_TEMPLATE) : UE_TEMPLATE :=
  UeTemplate (rnti t) (oldNDI t) (oldNDI_UL t) (ul_active t) (configured t) (ul_SR t) bsr (lcgidmap t) (phr_info t) (phr_info_configured t)
    (dl_buffer_info t) (dl_buffer_total t) (dl_buffer_head_sdu_creation_time_max t) total creation info (pre_assigned_mcs_ul t).

(** ** A user is heard *)

Definition in_sync_ctrl (c : UE_sched_ctrl) : UE_sched_ctrl :=
  SchedCtrl (round c) 0 0 (ul_scheduled c) (if 0 <? ul_out_of_sync c then 0 else ul_out_of_sync c) (phr_received c).

(** The timers are reset, and RRC is told when the user was out of sync. *)
Definition heard (cc x r : Z) (m : eNB_MAC) : cres eNB_MAC :=
  c ← aget (sched_ctrl (udata m)) x;
  m ← upd_ctrl x in_sync_ctrl m;
  Ret (if 0 <? ul_out_of_sync c then call m (RrcUlInSync cc r) else m).

(** [ul_scheduled &= ~(1<<harq_pid)] *)
Definition harq_done (harq_pid : Z) (c : UE_sched_ctrl) : UE_sched_ctrl :=
  SchedCtrl (round c) (ul_inactivity_timer c) (ul_failure_timer c) (Z.ldiff (ul_scheduled c) (Z.shiftl 1 harq_pid)) (ul_out_of_sync c) (phr_received c).

(** ** Control elements *)

Definition rx_phr (cc : Z) (mem : list byte) (s : rx_state) : cres rx_state :=
  s' ← (if rx_ue s =? -1 then Ret s
        else
          o ← octet mem (rx_ptr s);
          m ← upd_template cc (rx_ue s) (fun t => Ret (set_phr (i8 (Z.land o 63 - PHR_MAPPING_OFFSET)) t)) (rx_mac s);
          m ← upd_ctrl (rx_ue s) (fun c => SchedCtrl (round c) (ul_inactivity_timer c) (ul_failure_timer c) (ul_scheduled c) (ul_out_of_sync c) 1) m;
          Ret (with_mac s m));
  Ret (skip 1 s').

Definition rx_crnti (cc : Z) (mem : list byte) (s : rx_state) : cres rx_state :=
  o0 ← octet mem (rx_ptr s); o1 ← octet mem (rx_ptr s + 1);
  let v := Z.shiftl o0 8 + o1 in
  x ← find_UE_id (rx_mac s) v;
  m ← (if x =? -1 then Ret (rx_mac s) else heard cc x v (rx_mac s));
  Ret (Rx m x (rx_ptr s + 2) (match rx_msg3 s with Some _ => Some 0 | None => None end)).

(** The size class of one group. *)
Definition short_bsr_update (frame lcgid v : Z) (t : UE_TEMPLATE) : cres UE_TEMPLATE :=
  bsr ← aset (bsr_info t) lcgid v;
  b ← aget BSR_TABLE v;
  info ← aset (ul_buffer_info t) lcgid b;
  c ← aget (ul_buffer_creation_time t) lcgid;
  creation ← (if c =? 0 then aset (ul_buffer_creation_time t) lcgid (u32 frame) else Ret (ul_buffer_creation_time t));
  Ret (set_ul bsr info creation b t).

Definition rx_short_bsr (cc frame subframe : Z) (mem : list byte) (s : rx_state) : cres rx_state :=
  o ← octet mem (rx_ptr s);
  s' ← (if rx_ue s =? -1 then Ret s
        else
          m ← upd_template cc (rx_ue s) (short_bsr_update frame (Z.shiftr o 6) (Z.land o 63)) (rx_mac s);
          Ret (with_mac s (call m (PuschStatsBsr (rx_ue s) (frame * 10 + subframe) (Z.land o 63)))));
  Ret (skip 1 s').

(** One group of a long report: the total counts its new size in place of the old one. *)
Definition long_bsr_group (g v : Z) (t : UE_TEMPLATE) : cres UE_TEMPLATE :=
  old ← aget (ul_buffer_info t) g;
  b ← aget BSR_TABLE v;
  info ← aset (ul_buffer_info t) g b;
  let total := u32 (ul_total_buffer t + b) in
  Ret (set_ul (bsr_info t) info (ul_buffer_creation_time t) (if old <=? total then total - old else 0) t).

Definition long_bsr_creation (frame g v : Z) (t : UE_TEMPLATE) : cres UE_TEMPLATE :=
  c ← aget (ul_buffer_creation_time t) g;
  creation ← (if v =? 0 then aset (ul_buffer_creation_time t) g 0
              else if c =? 0 then aset (ul_buffer_creation_time t) g (u32 frame) else Ret (ul_buffer_creation_time t));
  Ret (set_ul (bsr_info t) (ul_buffer_info t) creation (ul_total_buffer t) t).

Definition long_bsr_update (frame v0 v1 v2 v3 : Z) (t : UE_TEMPLATE) : cres UE_TEMPLATE :=
  b ← aset (bsr_info t) 0 v0; b ← aset b 1 v1; b ← aset b 2 v2; b ← aset b 3 v3;
  let t := set_ul b (ul_buffer_info t) (ul_buffer_creation_time t) (ul_total_buffer t) t in
  t ← long_bsr_group 0 v0 t; t ← long_bsr_group 1 v1 t; t ← long_bsr_group 2 v2 t; t ← long_bsr_group 3 v3 t;
  t ← long_bsr_creation frame 0 v0 t; t ← long_bsr_creation frame 1 v1 t; t ← long_bsr_creation frame 2 v2 t;
  long_bsr_creation frame 3 v3 t.

Definition rx_long_bsr (cc frame : Z) (mem : list byte) (s : rx_state) : cres rx_state :=
  s' ← (if rx_ue s =? -1 then Ret s
        else
          o0 ← octet mem (rx_ptr s); o1 ← octet mem (rx_ptr s + 1); o2 ← octet mem (rx_ptr s + 2);
          m ← upd_template cc (rx_ue s)
                (long_bsr_update frame
                   (Z.shiftr (Z.land o0 252) 2)
                   (Z.lor (Z.shiftl (Z.land o0 3) 4) (Z.shiftr (Z.land o1 240) 4))
                   (Z.lor (Z.shiftl (Z.land o1 15) 2) (Z.shiftr (Z.land o2 192) 6))
                   (Z.land o2 63)) (rx_mac s);
          Ret (with_mac s m));
  Ret (skip 3 s').

Definition rx_ce (cc frame subframe : Z) (mem : list byte) (ce : Z) (s : rx_state) : cres rx_state :=
  if ce =? POWER_HEADROOM then rx_phr cc mem s
  else if ce =? CRNTI then rx_crnti cc mem s
  else if (ce =? TRUNCATED_BSR) || (ce =? SHORT_BSR) then rx_short_bsr cc frame subframe mem s
  else if ce =? LONG_BSR then rx_long_bsr cc frame mem s
  else Ret s.

(** ** SDUs *)

(** A random access of [rntiP] that waits for message 3. *)
Definition rx_ra (registered cc rntiP harq_pid : Z) (payload : list byte) (len ii : Z) (s : rx_state) : cres rx_state :=
  r ← aget2 (RA_template (rx_mac s)) cc ii;
  if (RA_rnti r =? rntiP) && (RA_active r =? 1) then
    '(r, s) ←
      (if rx_ue s <? 0 then
         id ← bget payload (rx_ptr s) 6;
         '(x, m) ← add_new_ue cc (RA_rnti r) harq_pid (rx_mac s);
         if x =? -1 then Trap FExit
         else Ret (RaTemplate (RA_active r) (generate_rar r) (generate_Msg4 r) (wait_ack_Msg4 r) (RA_rnti r) id (timing_offset r) (RRC_timer r),
                   Rx m x (rx_ptr s) (rx_msg3 s))
       else Ret (r, s));
    m ← (if registered =? 1 then d ← bget payload (rx_ptr s) len; Ret (call (rx_mac s) (RrcDataInd rntiP d)) else Ret (rx_mac s));
    ra ← aupd2 (RA_template m) cc ii
           (fun _ => Ret (RaTemplate (RA_active r) (generate_rar r) 1 0 (RA_rnti r) (cont_res_id r) (timing_offset r) (RRC_timer r)));
    Ret (with_mac s (EnbMac (links m) (udata m) (ulsch_info m) (dlsch_info m) ra (eNB_stats m) (mac_calls m)))
  else Ret s.

Definition rx_ccch (registered cc rntiP harq_pid : Z) (mem : list byte) (len : Z) (s : rx_state) : cres rx_state :=
  if CCCH_PAYLOAD_SIZE_MAX <? len then Ret s
  else for_each (rx_ra registered cc rntiP harq_pid mem len) (zrange 0 NB_RA_PROC_MAX) s.

(** The occupancy of the group of the channel goes down. *)
Definition consume (lcid len : Z) (t : UE_TEMPLATE) : cres UE_TEMPLATE :=
  g ← aget (lcgidmap t) lcid;
  b ← aget (ul_buffer_info t) g;
  info ← aset (ul_buffer_info t) g (if len <=? b then b - len else 0);
  Ret (set_ul (bsr_info t) info (ul_buffer_creation_time t) (ul_total_buffer t) t).

Definition count_sdu (lcid len : Z) (st : eNB_UE_STATS) : cres eNB_UE_STATS :=
  n ← aget (num_pdu_rx st) lcid; np ← aset (num_pdu_rx st) lcid (u32 (n + 1));
  k ← aget (num_bytes_rx st) lcid; nb ← aset (num_bytes_rx st) lcid (u32 (k + len));
  Ret (UeStats np nb (num_errors_rx st) (pdu_bytes_rx st) (total_pdu_bytes_rx st) (total_num_pdus_rx st) (total_num_errors_rx st)).

Definition deliver (cc rntiP lcid len : Z) (mem : list byte) (s : rx_state) (m : eNB_MAC) : cres eNB_MAC :=
  d ← bget mem (rx_ptr s) len;
  upd_stats cc (rx_ue s) (count_sdu lcid len) (call m (RlcDataInd rntiP lcid d)).

Definition rx_sdu_case (registered cc rntiP harq_pid : Z) (mem : list byte) (lcid len : Z) (s : rx_state) : cres rx_state :=
  if lcid =? CCCH then rx_ccch registered cc rntiP harq_pid mem len s
  else if (lcid =? DCCH) || (lcid =? DCCH1) then
    if rx_ue s =? -1 then Ret s
    else m ← upd_template cc (rx_ue s) (consume lcid len) (rx_mac s); m ← deliver cc rntiP lcid len mem s m; Ret (with_mac s m)
  else if lcid <? Z.of_nat MAC_NB_RB_MAX then
    if rx_ue s =? -1 then Ret s
    else
      m ← upd_template cc (rx_ue s) (consume lcid len) (rx_mac s);
      m ← (if (len <? SCH_PAYLOAD_SIZE_MAX) && (0 <? len) then deliver cc rntiP lcid len mem s m
           else upd_stats cc (rx_ue s) (fun st => Ret (UeStats (num_pdu_rx st) (num_bytes_rx st) (u32 (num_errors_rx st + 1)) (pdu_bytes_rx st)
                  (total_pdu_bytes_rx st) (total_num_pdus_rx st) (total_num_errors_rx st))) m);
      Ret (with_mac s m)
  else Ret s.

(** ** The whole function *)

(** The loops over the elements and the SDUs. *)
Definition rx_ces_loop (cc frame subframe : Z) (mem : list byte) (p : parsed) (i : Z) (s : rx_state) : cres rx_state :=
  ce ← aget (p_ces p) i; rx_ce cc frame subframe mem ce s.

Definition rx_sdus_loop (registered cc rntiP harq_pid : Z) (mem : list byte) (p : parsed) (i : Z) (s : rx_state) : cres rx_state :=
  lcid ← aget (p_lcids p) i;
  len ← aget (p_lengths p) i;
  s ← rx_sdu_case registered cc rntiP harq_pid mem lcid len s;
  Ret (skip len s).

(** The statistics at the end. *)
Definition rx_end (cc sdu_len : Z) (p : parsed) (s : rx_state) : cres rx_state :=
  if (p_num_sdu p =? 0) && (p_num_ce p =? 0) then
    m ← (if rx_ue s =? -1 then Ret (rx_mac s)
         else upd_stats cc (rx_ue s) (fun st => Ret (UeStats (num_pdu_rx st) (num_bytes_rx st) (num_errors_rx st) (pdu_bytes_rx st) (total_pdu_bytes_rx st)
                (total_num_pdus_rx st) (u32 (total_num_errors_rx st + 1)))) (rx_mac s));
    Ret (Rx m (rx_ue s) (rx_ptr s) (match rx_msg3 s with Some f => Some (if f =? 1 then 0 else f) | None => None end))
  else
    m ← (if rx_ue s =? -1 then Ret (rx_mac s)
         else upd_stats cc (rx_ue s) (fun st => Ret (UeStats (num_pdu_rx st) (num_bytes_rx st) (num_errors_rx st) sdu_len
                (u64 (total_pdu_bytes_rx st + sdu_len)) (u32 (total_num_pdus_rx st + 1)) (total_num_errors_rx st))) (rx_mac s));
    Ret (with_mac s m).

(** The counters of the carrier. *)
Definition count_block (cc sdu_len : Z) (m : eNB_MAC) : cres eNB_MAC :=
  c ← aget (eNB_stats m) cc;
  l ← aset (eNB_stats m) cc (EnbStats sdu_len (u32 (total_ulsch_bytes_rx c + sdu_len)) (u32 (total_ulsch_pdus_rx c + 1)));
  Ret (EnbMac (links m) (udata m) (ulsch_info m) (dlsch_info m) (RA_template m) l (mac_calls m)).

(** [ces], [lcids] and [lengths] are the local arrays; [rx_lengths] is cleared when the user is unknown. *)
Definition rx_sdu (registered cc frame subframe rntiP : Z) (sduP : option (list byte)) (sdu_len harq_pid : Z) (msg3 : option Z)
  (ces lcids lengths : list Z) (m : eNB_MAC) : cres (eNB_MAC * option Z) :=
  x ← find_UE_id m rntiP;
  let lengths := if x =? -1 then replicate MAC_NB_RB_MAX 0 else lengths in
  match sduP with
  | None => m ← upd_ctrl x (harq_done harq_pid) m; Ret (m, msg3)
  | Some sdu =>
      m ← (if x =? -1 then Ret m
           else
             r ← UE_RNTI (udata m) x;
             m ← upd_ctrl x (harq_done harq_pid) m;
             heard cc x r m);
      p ← parse_ulsch_header sdu ces lcids lengths sdu_len;
      m ← count_block cc sdu_len m;
      s ← for_each (rx_ces_loop cc frame subframe sdu p) (zrange 0 (Z.to_nat (p_num_ce p))) (Rx m x (p_ptr p) msg3);
      s ← for_each (rx_sdus_loop registered cc rntiP harq_pid sdu p) (zrange 0 (Z.to_nat (p_num_sdu p))) s;
      s ← rx_end cc sdu_len p s;
      Ret (rx_mac s, rx_msg3 s)
  end.

(** ** The block of a user *)

Definition ul_size (lcid : Z) : Z :=
  if lcid =? LONG_BSR then 3 else if lcid =? CRNTI then 2
  else if (lcid =? POWER_HEADROOM) || (lcid =? TRUNCATED_BSR) || (lcid =? SHORT_BSR) then 1 else 0.

Lemma ul_known lcid : EXTENDED_POWER_HEADROOM < lcid < SHORT_PADDING -> known ul_ce_size ul_size lcid.
Proof.
  unfold EXTENDED_POWER_HEADROOM, SHORT_PADDING. intros H. assert (Hc : lcid = 26 \/ lcid = 27 \/ lcid = 28 \/ lcid = 29 \/ lcid = 30) by lia.
  destruct Hc as [->|[->|[->|[->| ->]]]]; by split.
Qed.

(** Elements that have the size the eNB expects. *)
Definition ul_element (x : Z * list byte) : Prop :=
  EXTENDED_POWER_HEADROOM < x.1 < SHORT_PADDING /\ zlen x.2 = ul_size x.1.

Lemma octet_nth (A B x : list byte) i : (i < length x)%nat ->
  octet (A ++ x ++ B) (zlen A + Z.of_nat i) = Ret (byte.unsigned (nth i x Byte.x00)).
Proof.
  intros Hi. rewrite <- (take_drop i x) at 1. rewrite <- app_assoc, app_assoc.
  replace (zlen A + Z.of_nat i) with (zlen (A ++ take i x)) by (rewrite zlen_app; unfold zlen; rewrite length_take; lia).
  destruct (drop i x) as [|y r] eqn:E; [apply (f_equal length) in E; rewrite length_drop in E; cbn in E; lia|].
  cbn [app]. rewrite octet_app by done. do 2 f_equal. rewrite <- (take_drop i x), E.
  rewrite app_nth2; rewrite length_take_le by lia; [|lia]. by rewrite Nat.sub_diag.
Qed.

Lemma octet_first (A B x : list byte) : (0 < length x)%nat -> octet (A ++ x ++ B) (zlen A) = Ret (byte.unsigned (nth 0 x Byte.x00)).
Proof. intros Hx. rewrite <- (octet_nth A B x 0 Hx). f_equal. lia. Qed.

(** Reading a block whose elements have the sizes the eNB expects. *)
Lemma parse_ul_block c els sdus post padding ces rx_lcids rx_lengths :
  c = els \/ (exists k, c = padding_ces k ++ els) -> Forall ul_element els -> (length els <= MAX_NUM_CE)%nat ->
  payload_ok EXTENDED_POWER_HEADROOM sdus -> c <> [] \/ sdus <> [] -> (post <= 0 -> padding = []) ->
  length ces = MAX_NUM_CE -> length rx_lcids = MAC_NB_RB_MAX -> length rx_lengths = MAC_NB_RB_MAX ->
  let pdu := (byte.of_Z <$> header_code ((ce_sub <$> c) ++ sdu_subs (sizes sdus)) post) ++ mjoin els.*2 ++ mjoin sdus.*2 ++ padding in
  exists p L, parse_ulsch_header pdu ces rx_lcids rx_lengths (zlen pdu) = Ret p /\ p_ptr p = zlen (header_code ((ce_sub <$> c) ++ sdu_subs (sizes sdus)) post) /\
    parsed_at ul_size (p_ptr p) L p /\ ces_of L = els.*1 /\ sdus_of L = sizes sdus.
Proof.
  intros Hc He Hn Hp Hne Hpad H1 H2 H3 pdu.
  assert (Hels : ce_lcids els = els.*1).
  { clear -He. induction He as [|x els [Hx _] _ IH]; [done|]. unfold ce_lcids in *. cbn. rewrite IH.
    rewrite (proj2 (Z.eqb_neq _ _)) by lia. done. }
  assert (Hl : ce_lcids c = els.*1 /\ mjoin c.*2 = mjoin els.*2).
  { destruct Hc as [->|[k ->]]; [done|]. unfold ce_lcids. rewrite bind_app, fmap_app, join_app, padding_octets.
    fold (ce_lcids (padding_ces k)) (ce_lcids els). by rewrite padding_lcids. }
  destruct Hl as [Hl Ho].
  assert (Hwf : Forall (fun x : Z * list byte => EXTENDED_POWER_HEADROOM <= x.1 < 32 /\ (x.1 <> SHORT_PADDING -> known ul_ce_size ul_size x.1)) c).
  { assert (Hw : Forall (fun x : Z * list byte => EXTENDED_POWER_HEADROOM <= x.1 < 32 /\ (x.1 <> SHORT_PADDING -> known ul_ce_size ul_size x.1)) els).
    { eapply Forall_impl; [|exact He]. intros x [Hx _]. split; [unfold SHORT_PADDING in Hx; lia|]. intros _. by apply ul_known. }
    destruct Hc as [->|[k ->]]; [done|]. apply Forall_app. split; [|done].
    unfold padding_ces. repeat case_if; repeat (constructor; [split; done|]); constructor. }
  destruct (parse_pdu EXTENDED_POWER_HEADROOM ul_ce_size ul_size c sdus post padding ces rx_lcids rx_lengths) as (p & L & E & HP & Hce & Hsd);
    try done; [by rewrite Hl, length_fmap| |].
  { rewrite Hl, Ho. clear -He. induction He as [|x els [_ Hx] _ IH]; [done|].
    change (mjoin (x :: els).*2) with (x.2 ++ mjoin els.*2). rewrite zlen_app, <- IH, Hx. done. }
  rewrite Ho in E. rewrite Hl in Hce. exists p, L. split; [exact E|]. pose proof (pa_ptr _ _ _ _ HP) as Hptr. by rewrite Hptr.
Qed.

(** The elements of the user, without the padding. *)
Definition ul_elements (phr : option byte) (crnti : option Z) (tb sb : option byte) (lb : option BSR_LONG) : list (Z * list byte) :=
  match phr with Some b => [(POWER_HEADROOM, [b])] | None => [] end ++
  match crnti with Some c => [(CRNTI, [byte.of_Z (u8 c); byte.of_Z (u8 (Z.shiftr c 8))])] | None => [] end ++
  bsr_ces tb sb lb.

Lemma ul_ces_split k phr crnti tb sb lb : ul_ces k phr crnti tb sb lb = padding_ces k ++ ul_elements phr crnti tb sb lb.
Proof. done. Qed.

Lemma ul_elements_ok phr crnti tb sb : Forall ul_element (ul_elements phr crnti tb sb None).
Proof. unfold ul_elements, bsr_ces. destruct phr, crnti, tb, sb; repeat (constructor; [split; done|]); constructor. Qed.

Lemma ul_elements_few phr crnti tb sb lb :
  zlen (ul_elements phr crnti tb sb lb) <= 3 /\ zlen (mjoin (ul_elements phr crnti tb sb lb).*2) <= 7.
Proof. unfold ul_elements, bsr_ces. destruct phr, crnti, tb, sb, lb; split; vm_compute; discriminate. Qed.

Lemma header_short c sdus : zlen c <= 5 -> zlen sdus <= 14 -> zlen ((ce_sub <$> c) ++ sdu_subs sdus) <= 19.
Proof. intros. unfold sdu_subs. rewrite zlen_app, !zlen_fmap. lia. Qed.

Lemma header_nonempty c sdus : c <> [] \/ sdus <> [] -> (ce_sub <$> c) ++ sdu_subs sdus <> [].
Proof. by destruct c, sdus; intros [?|?]. Qed.

Lemma sizes_nonempty sdus : sdus <> [] -> sizes sdus <> [].
Proof. by destruct sdus. Qed.

(** ** Updates of a user *)

(** The changes [rx_sdu] may make for the user [x]: everything else stays. *)
Record touches (x : Z) (m m' : eNB_MAC) : Prop := {
  to_links : links m' = links m;
  to_ra : RA_template m' = RA_template m;
  to_others : forall y, 0 <= y -> y <> x -> tmpl (udata m') y = tmpl (udata m) y;
  to_rnti : rnti (tmpl (udata m') x) = rnti (tmpl (udata m) x);
  to_map : lcgidmap (tmpl (udata m') x) = lcgidmap (tmpl (udata m) x);
}.

Lemma touches_refl x m : touches x m m.
Proof. by constructor. Qed.

Lemma touches_trans x m1 m2 m3 : touches x m1 m2 -> touches x m2 m3 -> touches x m1 m3.
Proof.
  intros [A1 A2 A3 A4 A5] [B1 B2 B3 B4 B5]. constructor; try congruence. intros y Hy Hne. rewrite B3 by done. by apply A3.
Qed.

Lemma call_inv m dl ul fr c : mac_inv m dl ul fr -> mac_inv (call m c) dl ul fr.
Proof. by intros [HL Hd Hu Hdi Hra Hst]. Qed.

Lemma call_touches x m c : touches x m (call m c).
Proof. by constructor. Qed.

Lemma mjoin_single {A} (r : list A) : mjoin [r] = r.
Proof. cbn. apply app_nil_r. Qed.

Lemma upd_template_ok m dl ul fr x f t' : mac_inv m dl ul fr -> x ∈ dl -> f (tmpl (udata m) x) = Ret t' -> template_ok t' ->
  rnti t' = rnti (tmpl (udata m) x) -> lcgidmap t' = lcgidmap (tmpl (udata m) x) ->
  exists m', upd_template 0 x f m = Ret m' /\ mac_inv m' dl ul fr /\ touches x m m' /\ tmpl (udata m') x = t' /\
    sched_ctrl (udata m') = sched_ctrl (udata m) /\ mac_calls m' = mac_calls m.
Proof.
  intros H Hx Hf Ht Hr Hm. destruct (mac_node _ _ _ _ x H Hx) as (Hrange & _). pose proof H as [HL Hd Hu Hdi Hra Hst].
  destruct (tmpl_get _ _ x Hd Hrange) as (_ & _ & J). pose proof Hd as [Gt Pl Pd Go Od Nl Nd Gu Ul Cc Rn Rp Gs].
  destruct (grid_set _ _ x f _ Gt Hrange J) as (a & Ea & Ga & w & Ew & Ja); [by exists t'|]. assert (w = t') as -> by congruence.
  unfold upd_template. rewrite Ea. cbn [mbind cres_bind]. eexists. split; [reflexivity|]. set (d' := UeData _ _ _ _ _ _ _ _).
  assert (Tx : tmpl d' x = t').
  { unfold tmpl. cbn [UE_template d']. rewrite Ja, list_lookup_insert_eq; [done|]. by apply lookup_lt_Some in J. }
  assert (Ty : forall y, 0 <= y -> y <> x -> tmpl d' y = tmpl (udata m) y).
  { intros y Hy Hne. unfold tmpl. cbn [UE_template d']. by rewrite Ja, data_frame_lookup by lia. }
  assert (Rall : forall y, y ∈ dl -> rnti (tmpl d' y) = rnti (tmpl (udata m) y)).
  { intros y Hy. destruct (decide (y = x)) as [->|Hne]; [by rewrite Tx|]. rewrite Ty; [done| |done]. by apply (mac_node _ _ _ _ y H Hy). }
  split; [|split; [|split; [done|split; [done|done]]]].
  - constructor; try done. change (data_inv d' dl). constructor; try done.
    + by rewrite (data_same_rnti (udata m) d' dl Rall).
    + intros y Hy. change (0 < rnti (tmpl d' y)). rewrite Rall by done. by apply Rp.
  - constructor; try done; cbn [udata with_data]; by rewrite Tx.
Qed.

Lemma upd_ctrl_ok m dl ul fr x f : mac_inv m dl ul fr -> x ∈ dl -> (forall c, ctrl_ok c -> ctrl_ok (f c)) ->
  exists m', upd_ctrl x f m = Ret m' /\ mac_inv m' dl ul fr /\ touches x m m' /\ tmpl (udata m') x = tmpl (udata m) x /\
    ctrl (udata m') x = f (ctrl (udata m) x) /\ mac_calls m' = mac_calls m.
Proof.
  intros H Hx Hf. destruct (mac_node _ _ _ _ x H Hx) as (Hrange & _). destruct (ctrl_get m dl ul fr H x Hx) as [Ec _].
  pose proof H as [HL Hd Hu Hdi Hra Hst]. pose proof Hd as [Gt Pl Pd Go Od Nl Nd Gu Ul [Cl Cf] Rn Rp Gs].
  unfold upd_ctrl. rewrite Ec. cbn [mbind cres_bind]. rewrite aset_ok by (unfold zlen; lia). cbn [mbind cres_bind].
  eexists. split; [reflexivity|]. split; [|split; [by constructor|split; [done|split; [|done]]]].
  - constructor; try done. constructor; try done. cbn [sched_ctrl udata with_data]. rewrite length_insert. split; [done|].
    apply Forall_insert; [done|]. apply Hf. unfold ctrl_ok. by apply (ctrl_get m dl ul fr H x).
  - unfold ctrl at 1. cbn [sched_ctrl udata with_data]. by rewrite list_lookup_insert_eq by lia.
Qed.

Lemma upd_stats_ok m dl ul fr x f : mac_inv m dl ul fr -> x ∈ dl -> (forall st, stats_ok st -> exists st', f st = Ret st' /\ stats_ok st') ->
  exists m', upd_stats 0 x f m = Ret m' /\ mac_inv m' dl ul fr /\ touches x m m' /\ tmpl (udata m') x = tmpl (udata m) x /\ mac_calls m' = mac_calls m.
Proof.
  intros H Hx Hf. destruct (mac_node _ _ _ _ x H Hx) as (Hrange & _). pose proof H as [HL Hd Hu Hdi Hra Hst].
  pose proof Hd as [Gt Pl Pd Go Od Nl Nd Gu Ul Cc Rn Rp Gs]. destruct (grid_get _ _ x Gs Hrange) as (v & _ & Hv & J).
  destruct (grid_set _ _ x f v Gs Hrange J (Hf v Hv)) as (a & Ea & Ga & _). unfold upd_stats. rewrite Ea. cbn [mbind cres_bind].
  eexists. split; [reflexivity|]. split; [|split; [by constructor|done]]. by constructor.
Qed.

(** ** Walking through a payload *)

Lemma rx_walk (body : Z -> rx_state -> cres rx_state) (els : list (Z * list byte)) base (R : nat -> rx_state -> Prop) s0 :
  R 0%nat s0 -> rx_ptr s0 = base ->
  (forall i d s, els !! i = Some d -> R i s -> rx_ptr s = base + zlen (mjoin (take i els).*2) ->
     exists s', body (Z.of_nat i) s = Ret s' /\ R (S i) s' /\ rx_ptr s' = rx_ptr s + zlen d.2) ->
  exists s', for_each body (zrange 0 (length els)) s0 = Ret s' /\ R (length els) s' /\ rx_ptr s' = base + zlen (mjoin els.*2).
Proof.
  intros H0 Hp Hb. assert (Hgen : forall k, (k <= length els)%nat -> exists s', for_each body (zrange 0 k) s0 = Ret s' /\ R k s' /\
    rx_ptr s' = base + zlen (mjoin (take k els).*2)).
  { induction k as [|k IH]; intros Hk; [exists s0; split; [done|]; split; [done|]; change (zlen (mjoin (take 0 els).*2)) with 0; lia|].
    destruct IH as (s1 & E1 & R1 & P1); [lia|]. destruct (lookup_lt_is_Some_2 els k) as [d Hd]; [lia|].
    destruct (Hb k d s1 Hd R1 P1) as (s2 & E2 & R2 & P2). exists s2. rewrite zrange_snoc, for_each_app, E1. cbn [mbind cres_bind for_each].
    rewrite E2. split; [done|]. split; [done|]. by rewrite P2, P1, (next_place _ _ _ _ Hd). }
  destruct (Hgen (length els)) as (s' & E & HR & P); [lia|]. exists s'. rewrite take_ge in P by lia. done.
Qed.

(** The octets of an element of a payload. *)
Lemma payload_split (A B : list byte) (els : list (Z * list byte)) i d : els !! i = Some d ->
  A ++ mjoin els.*2 ++ B = (A ++ mjoin (take i els).*2) ++ d.2 ++ (mjoin (drop (S i) els).*2 ++ B).
Proof.
  intros Hi. rewrite <- (take_drop_middle els i d Hi) at 1. rewrite fmap_app, fmap_cons, join_app. cbn [mjoin list_join]. by rewrite <- !app_assoc.
Qed.

(** ** A known user *)

(** The SDUs that RLC has received, with the RNTI and the channel. *)
Definition rlc_sdus (l : list mac_call) : list (Z * (Z * list byte)) :=
  omap (fun c => match c with RlcDataInd r ch d => Some (r, (ch, d)) | _ => None end) l.

Lemma rlc_sdus_app l k : rlc_sdus (l ++ k) = rlc_sdus l ++ rlc_sdus k.
Proof. apply omap_app. Qed.

Section Known.
Context (m0 : eNB_MAC) (dl ul fr : list Z) (x : Z) (msg3 : option Z).
Hypothesis Hx : x ∈ dl.
Hypothesis Hmap : Forall (fun g => 0 <= g < 4) (lcgidmap (tmpl (udata m0) x)).

(** The state while the block of the user [x] is processed. *)
Record serving (s : rx_state) : Prop := {
  sv_inv : mac_inv (rx_mac s) dl ul fr;
  sv_touch : touches x m0 (rx_mac s);
  sv_ue : rx_ue s = x;
  sv_msg3 : rx_msg3 s = msg3;
}.

Lemma serving_known s : serving s -> (rx_ue s =? -1) = false.
Proof.
  intros H. rewrite (sv_ue _ H). destruct (mac_node _ _ _ _ x (sv_inv _ H) Hx) as (Hr & _). apply Z.eqb_neq. lia.
Qed.

Lemma serving_step s m' n : serving s -> mac_inv m' dl ul fr -> touches x (rx_mac s) m' -> serving (skip n (with_mac s m')).
Proof.
  intros [H1 H2 H3 H4] Hi Ht. constructor; try done. exact (touches_trans _ _ _ _ H2 Ht).
Qed.

Lemma serving_template s : serving s -> template_ok (tmpl (udata (rx_mac s)) x).
Proof. intros H. by destruct (mac_node _ _ _ _ x (sv_inv _ H) Hx) as (_ & _ & _ & Ht & _). Qed.

Lemma rx_phr_ok mem s o : serving s -> octet mem (rx_ptr s) = Ret o ->
  exists s', rx_phr 0 mem s = Ret s' /\ serving s' /\ rx_ptr s' = rx_ptr s + 1 /\
    phr_info (tmpl (udata (rx_mac s')) x) = i8 (Z.land o 63 - PHR_MAPPING_OFFSET) /\
    bsr_info (tmpl (udata (rx_mac s')) x) = bsr_info (tmpl (udata (rx_mac s)) x) /\ mac_calls (rx_mac s') = mac_calls (rx_mac s).
Proof.
  intros H Ho. unfold rx_phr. rewrite (serving_known s H), Ho. cbn [mbind cres_bind]. rewrite (sv_ue _ H).
  set (v := i8 _). destruct (upd_template_ok _ _ _ _ x (fun t => Ret (set_phr v t)) _ (sv_inv _ H) Hx eq_refl (serving_template s H) eq_refl eq_refl)
    as (m1 & -> & I1 & T1 & E1 & _ & C1). cbn [mbind cres_bind].
  destruct (upd_ctrl_ok m1 dl ul fr x (fun c => SchedCtrl (round c) (ul_inactivity_timer c) (ul_failure_timer c) (ul_scheduled c) (ul_out_of_sync c) 1) I1 Hx)
    as (m2 & -> & I2 & T2 & E2 & _ & C2); [done|]. cbn [mbind cres_bind]. eexists. split; [reflexivity|].
  split; [apply serving_step; [done|done|exact (touches_trans _ _ _ _ T1 T2)]|]. split; [done|]. cbn [rx_mac skip with_mac].
  rewrite E2, E1. split; [done|]. split; [done|]. congruence.
Qed.

Lemma bsr_table_get v : 0 <= v < 64 -> exists b, aget BSR_TABLE v = Ret b.
Proof. intros Hv. apply aget_lt. exact Hv. Qed.

Lemma octet_byte mem i o : octet mem i = Ret o -> 0 <= o < 256.
Proof. unfold octet. intros H. cres_inv. apply byte.unsigned_range. Qed.

Lemma short_bsr_update_ok frame g v t : template_ok t -> 0 <= g < 4 -> 0 <= v < 64 ->
  exists t', short_bsr_update frame g v t = Ret t' /\ template_ok t' /\ bsr_info t' = <[Z.to_nat g := v]> (bsr_info t) /\
    rnti t' = rnti t /\ lcgidmap t' = lcgidmap t /\ phr_info t' = phr_info t.
Proof.
  intros (L1 & L2 & L3 & L4 & L5) Hg Hv. unfold short_bsr_update. rewrite (aset_ok (bsr_info t)) by (unfold zlen; lia). cbn [mbind cres_bind].
  destruct (bsr_table_get v Hv) as (b & ->). cbn [mbind cres_bind]. rewrite (aset_ok (ul_buffer_info t)) by (unfold zlen; lia). cbn [mbind cres_bind].
  destruct (aget_lt (ul_buffer_creation_time t) g) as (c & ->); [unfold zlen; lia|]. cbn [mbind cres_bind].
  rewrite (aset_ok (ul_buffer_creation_time t)) by (unfold zlen; lia).
  destruct (c =? 0); cbn [mbind cres_bind]; eexists; (split; [reflexivity|]); (split; [|done]); repeat split; cbn; by rewrite ?length_insert.
Qed.

Lemma rx_short_bsr_ok frame subframe mem s o : serving s -> octet mem (rx_ptr s) = Ret o ->
  exists s', rx_short_bsr 0 frame subframe mem s = Ret s' /\ serving s' /\ rx_ptr s' = rx_ptr s + 1 /\
    phr_info (tmpl (udata (rx_mac s')) x) = phr_info (tmpl (udata (rx_mac s)) x) /\
    bsr_info (tmpl (udata (rx_mac s')) x) = <[Z.to_nat (o / 64) := o mod 64]> (bsr_info (tmpl (udata (rx_mac s)) x)) /\
    rlc_sdus (mac_calls (rx_mac s')) = rlc_sdus (mac_calls (rx_mac s)).
Proof.
  intros H Ho. unfold rx_short_bsr. rewrite Ho. cbn [mbind cres_bind]. rewrite (serving_known s H), (sv_ue _ H).
  rewrite Z.shiftr_div_pow2 by lia. change 63 with (2 ^ 6 - 1). rewrite land_mask by lia. change (2 ^ 6) with 64. apply octet_byte in Ho.
  destruct (short_bsr_update_ok frame (o / 64) (o mod 64) _ (serving_template s H)) as (t & Et & Ht & Hb & Hr & Hm & Hp);
    [split; [apply Z.div_pos; lia|apply Z.div_lt_upper_bound; lia]|apply Z.mod_pos_bound; lia|].
  destruct (upd_template_ok _ _ _ _ x _ t (sv_inv _ H) Hx Et Ht Hr Hm) as (m1 & -> & I1 & T1 & E1 & _ & C1). cbn [mbind cres_bind].
  eexists. split; [reflexivity|]. split; [apply serving_step; [done|by apply call_inv|exact (touches_trans _ _ _ _ T1 (call_touches x m1 _))]|].
  split; [done|]. cbn [rx_mac skip with_mac udata call mac_calls]. rewrite E1, Hb, Hp, rlc_sdus_app, C1. split; [done|]. split; [done|]. by rewrite app_nil_r.
Qed.

Lemma long_bsr_group_ok g v t : template_ok t -> 0 <= g < 4 -> 0 <= v < 64 ->
  exists t', long_bsr_group g v t = Ret t' /\ template_ok t' /\ bsr_info t' = bsr_info t /\ rnti t' = rnti t /\ lcgidmap t' = lcgidmap t /\ phr_info t' = phr_info t.
Proof.
  intros (L1 & L2 & L3 & L4 & L5) Hg Hv. unfold long_bsr_group. destruct (aget_lt (ul_buffer_info t) g) as (o & ->); [unfold zlen; lia|].
  cbn [mbind cres_bind]. destruct (bsr_table_get v Hv) as (b & ->). cbn [mbind cres_bind]. rewrite aset_ok by (unfold zlen; lia). cbn [mbind cres_bind].
  eexists. split; [reflexivity|]. split; [|done]. repeat split; cbn; by rewrite ?length_insert.
Qed.

Lemma long_bsr_creation_ok frame g v t : template_ok t -> 0 <= g < 4 ->
  exists t', long_bsr_creation frame g v t = Ret t' /\ template_ok t' /\ bsr_info t' = bsr_info t /\ rnti t' = rnti t /\ lcgidmap t' = lcgidmap t /\ phr_info t' = phr_info t.
Proof.
  intros (L1 & L2 & L3 & L4 & L5) Hg. unfold long_bsr_creation. destruct (aget_lt (ul_buffer_creation_time t) g) as (c & ->); [unfold zlen; lia|].
  cbn [mbind cres_bind]. rewrite !aset_ok by (unfold zlen; lia).
  destruct (v =? 0), (c =? 0); cbn [mbind cres_bind]; eexists; (split; [reflexivity|]); (split; [|done]); repeat split; cbn; by rewrite ?length_insert.
Qed.

Lemma long_bsr_update_ok frame v0 v1 v2 v3 t : template_ok t -> 0 <= v0 < 64 -> 0 <= v1 < 64 -> 0 <= v2 < 64 -> 0 <= v3 < 64 ->
  exists t', long_bsr_update frame v0 v1 v2 v3 t = Ret t' /\ template_ok t' /\ bsr_info t' = [v0; v1; v2; v3] /\ rnti t' = rnti t /\ lcgidmap t' = lcgidmap t /\ phr_info t' = phr_info t.
Proof.
  intros Ht V0 V1 V2 V3. pose proof Ht as (L1 & L2 & L3 & L4 & L5). unfold long_bsr_update.
  destruct (bsr_info t) as [|b0 [|b1 [|b2 [|b3 [|]]]]] eqn:Eb; try done.
  change (aset [b0; b1; b2; b3] 0 v0) with (Ret [v0; b1; b2; b3]). cbn [mbind cres_bind].
  change (aset [v0; b1; b2; b3] 1 v1) with (Ret [v0; v1; b2; b3]). cbn [mbind cres_bind].
  change (aset [v0; v1; b2; b3] 2 v2) with (Ret [v0; v1; v2; b3]). cbn [mbind cres_bind].
  change (aset [v0; v1; v2; b3] 3 v3) with (Ret [v0; v1; v2; v3]). cbn [mbind cres_bind].
  set (t0 := set_ul _ _ _ _ t). assert (H0 : template_ok t0) by (by repeat split).
  destruct (long_bsr_group_ok 0 v0 t0 H0) as (t1 & -> & H1 & B1 & R1 & M1 & P1); [lia|lia|]. cbn [mbind cres_bind].
  destruct (long_bsr_group_ok 1 v1 t1 H1) as (t2 & -> & H2 & B2 & R2 & M2 & P2); [lia|lia|]. cbn [mbind cres_bind].
  destruct (long_bsr_group_ok 2 v2 t2 H2) as (t3 & -> & H3 & B3 & R3 & M3 & P3); [lia|lia|]. cbn [mbind cres_bind].
  destruct (long_bsr_group_ok 3 v3 t3 H3) as (t4 & -> & H4 & B4 & R4 & M4 & P4); [lia|lia|]. cbn [mbind cres_bind].
  destruct (long_bsr_creation_ok frame 0 v0 t4 H4) as (t5 & -> & H5 & B5 & R5 & M5 & P5); [lia|]. cbn [mbind cres_bind].
  destruct (long_bsr_creation_ok frame 1 v1 t5 H5) as (t6 & -> & H6 & B6 & R6 & M6 & P6); [lia|]. cbn [mbind cres_bind].
  destruct (long_bsr_creation_ok frame 2 v2 t6 H6) as (t7 & -> & H7 & B7 & R7 & M7 & P7); [lia|]. cbn [mbind cres_bind].
  destruct (long_bsr_creation_ok frame 3 v3 t7 H7) as (t8 & -> & H8 & B8 & R8 & M8 & P8); [lia|].
  exists t8. split; [done|]. split; [done|]. split; [by rewrite B8, B7, B6, B5, B4, B3, B2, B1|]. split; [by rewrite R8, R7, R6, R5, R4, R3, R2, R1|].
  split; [by rewrite M8, M7, M6, M5, M4, M3, M2, M1|]. by rewrite P8, P7, P6, P5, P4, P3, P2, P1.
Qed.

(** The sizes in three octets. *)
Definition long_sizes (o0 o1 o2 : Z) : list Z :=
  [Z.shiftr (Z.land o0 252) 2; Z.lor (Z.shiftl (Z.land o0 3) 4) (Z.shiftr (Z.land o1 240) 4);
   Z.lor (Z.shiftl (Z.land o1 15) 2) (Z.shiftr (Z.land o2 192) 6); Z.land o2 63].

(** A bound on a function of an octet, by evaluation. *)
Lemma octet_bound (f : Z -> Z) o : forallb (fun o => (0 <=? f o) && (f o <? 64)) (zrange 0 256) = true -> 0 <= o < 256 -> 0 <= f o < 64.
Proof.
  intros Hf Ho. rewrite forallb_forall in Hf. specialize (Hf o). rewrite andb_true_iff, Z.leb_le, Z.ltb_lt in Hf. apply Hf.
  apply list_elem_of_In, elem_of_zrange. lia.
Qed.

Lemma lor_lt_64 a b : 0 <= a < 64 -> 0 <= b < 64 -> 0 <= Z.lor a b < 64.
Proof.
  intros Ha Hb. assert (H0 : 0 <= Z.lor a b) by (apply Z.lor_nonneg; lia). split; [done|].
  destruct (Z.eq_dec (Z.lor a b) 0) as [->|Hne]; [lia|]. apply (Z.log2_lt_pow2 _ 6); [lia|]. rewrite Z.log2_lor by lia.
  assert (L : forall z, 0 <= z < 64 -> Z.log2 z < 6).
  { intros z Hz. destruct (Z.eq_dec z 0) as [->|]; [cbn; lia|]. apply Z.log2_lt_pow2; lia. }
  apply Z.max_lub_lt; by apply L.
Qed.

Lemma rx_long_bsr_ok frame mem s o0 o1 o2 : serving s -> octet mem (rx_ptr s) = Ret o0 -> octet mem (rx_ptr s + 1) = Ret o1 -> octet mem (rx_ptr s + 2) = Ret o2 ->
  exists s', rx_long_bsr 0 frame mem s = Ret s' /\ serving s' /\ rx_ptr s' = rx_ptr s + 3 /\
    phr_info (tmpl (udata (rx_mac s')) x) = phr_info (tmpl (udata (rx_mac s)) x) /\
    bsr_info (tmpl (udata (rx_mac s')) x) = long_sizes o0 o1 o2 /\ mac_calls (rx_mac s') = mac_calls (rx_mac s).
Proof.
  intros H H0 H1 H2. unfold rx_long_bsr. rewrite (serving_known s H), H0. cbn [mbind cres_bind]. rewrite H1. cbn [mbind cres_bind]. rewrite H2.
  cbn [mbind cres_bind]. rewrite (sv_ue _ H). apply octet_byte in H0, H1, H2.
  destruct (long_bsr_update_ok frame (Z.shiftr (Z.land o0 252) 2) (Z.lor (Z.shiftl (Z.land o0 3) 4) (Z.shiftr (Z.land o1 240) 4))
    (Z.lor (Z.shiftl (Z.land o1 15) 2) (Z.shiftr (Z.land o2 192) 6)) (Z.land o2 63) _ (serving_template s H)) as (t & Et & Ht & Hb & Hr & Hm & Hp).
  { by apply (octet_bound (fun o => Z.shiftr (Z.land o 252) 2)). }
  { apply lor_lt_64; [by apply (octet_bound (fun o => Z.shiftl (Z.land o 3) 4))|by apply (octet_bound (fun o => Z.shiftr (Z.land o 240) 4))]. }
  { apply lor_lt_64; [by apply (octet_bound (fun o => Z.shiftl (Z.land o 15) 2))|by apply (octet_bound (fun o => Z.shiftr (Z.land o 192) 6))]. }
  { by apply (octet_bound (fun o => Z.land o 63)). }
  destruct (upd_template_ok _ _ _ _ x _ t (sv_inv _ H) Hx Et Ht Hr Hm) as (m1 & -> & I1 & T1 & E1 & _ & C1). cbn [mbind cres_bind].
  eexists. split; [reflexivity|]. split; [by apply serving_step|]. split; [done|]. cbn [rx_mac skip with_mac]. rewrite E1, Hb, Hp. done.
Qed.

Lemma consume_ok lcid len t : template_ok t -> 0 <= lcid < 11 -> Forall (fun g => 0 <= g < 4) (lcgidmap t) ->
  exists t', consume lcid len t = Ret t' /\ template_ok t' /\ bsr_info t' = bsr_info t /\ rnti t' = rnti t /\ lcgidmap t' = lcgidmap t /\ phr_info t' = phr_info t.
Proof.
  intros (L1 & L2 & L3 & L4 & L5) Hl Hg. unfold consume. destruct (lookup_lt_is_Some_2 (lcgidmap t) (Z.to_nat lcid)) as [g Eg]; [lia|].
  rewrite (aget_ok _ _ g) by (lia || done). cbn [mbind cres_bind]. pose proof (Forall_lookup_1 _ _ _ _ Hg Eg) as Hgr. cbn in Hgr.
  destruct (aget_lt (ul_buffer_info t) g) as (b & ->); [unfold zlen; lia|]. cbn [mbind cres_bind]. rewrite aset_ok by (unfold zlen; lia).
  cbn [mbind cres_bind]. eexists. split; [reflexivity|]. split; [|done]. repeat split; cbn; by rewrite ?length_insert.
Qed.

Lemma count_sdu_ok lcid len st : stats_ok st -> 0 <= lcid < 14 -> exists st', count_sdu lcid len st = Ret st' /\ stats_ok st'.
Proof.
  intros [L1 L2] Hl. unfold count_sdu. destruct (aget_lt (num_pdu_rx st) lcid) as (n & ->); [unfold zlen; lia|]. cbn [mbind cres_bind].
  rewrite (aset_ok (num_pdu_rx st)) by (unfold zlen; lia). cbn [mbind cres_bind]. destruct (aget_lt (num_bytes_rx st) lcid) as (k & ->); [unfold zlen; lia|].
  cbn [mbind cres_bind]. rewrite aset_ok by (unfold zlen; lia). cbn [mbind cres_bind]. eexists. split; [reflexivity|]. split; cbn; by rewrite length_insert.
Qed.

(** An SDU of a channel of RLC. *)
Lemma rx_sdu_case_ok registered rntiP harq mem lcid len d s : serving s -> 1 <= lcid <= 10 -> 0 < len < 4096 -> bget mem (rx_ptr s) len = Ret d ->
  exists s', rx_sdu_case registered 0 rntiP harq mem lcid len s = Ret s' /\ serving s' /\ rx_ptr s' = rx_ptr s /\
    phr_info (tmpl (udata (rx_mac s')) x) = phr_info (tmpl (udata (rx_mac s)) x) /\
    bsr_info (tmpl (udata (rx_mac s')) x) = bsr_info (tmpl (udata (rx_mac s)) x) /\
    rlc_sdus (mac_calls (rx_mac s')) = rlc_sdus (mac_calls (rx_mac s)) ++ [(rntiP, (lcid, d))].
Proof.
  intros H Hl Hlen Hd. unfold rx_sdu_case. rewrite (proj2 (Z.eqb_neq lcid CCCH)) by (unfold CCCH; lia). rewrite (serving_known s H), (sv_ue _ H).
  destruct (consume_ok lcid len _ (serving_template s H)) as (t & Et & Ht & Hb & Hr & Hm & Hp); [lia|by rewrite (to_map _ _ _ (sv_touch _ H))|].
  destruct (upd_template_ok _ _ _ _ x _ t (sv_inv _ H) Hx Et Ht Hr Hm) as (m1 & E1 & I1 & T1 & X1 & _ & C1).
  destruct (upd_stats_ok (call m1 (RlcDataInd rntiP lcid d)) dl ul fr x (count_sdu lcid len) (call_inv _ _ _ _ _ I1) Hx) as (m2 & E2 & I2 & T2 & X2 & C2);
    [intros st Hst; apply count_sdu_ok; [done|lia]|].
  assert (Ed : deliver 0 rntiP lcid len mem s m1 = Ret m2) by (unfold deliver; rewrite Hd; cbn [mbind cres_bind]; by rewrite (sv_ue _ H)).
  assert (T : touches x (rx_mac s) m2) by (exact (touches_trans _ _ _ _ T1 (touches_trans _ _ _ _ (call_touches x m1 _) T2))).
  assert (Hres : serving (with_mac s m2) /\ rx_ptr (with_mac s m2) = rx_ptr s /\
    phr_info (tmpl (udata m2) x) = phr_info (tmpl (udata (rx_mac s)) x) /\ bsr_info (tmpl (udata m2) x) = bsr_info (tmpl (udata (rx_mac s)) x) /\
    rlc_sdus (mac_calls m2) = rlc_sdus (mac_calls (rx_mac s)) ++ [(rntiP, (lcid, d))]).
  { split; [|split; [done|]]. { destruct H as [K1 K2 K3 K4]. constructor; try done. exact (touches_trans _ _ _ _ K2 T). }
    rewrite X2. cbn [udata call]. rewrite X1, Hb, Hp. split; [done|]. split; [done|]. rewrite C2. cbn [mac_calls call]. by rewrite rlc_sdus_app, C1. }
  exists (with_mac s m2). split; [|exact Hres]. destruct ((lcid =? DCCH) || (lcid =? DCCH1)).
  - rewrite E1. cbn [mbind cres_bind]. by rewrite Ed.
  - rewrite (proj2 (Z.ltb_lt lcid _)) by (unfold MAC_NB_RB_MAX; lia). rewrite E1. cbn [mbind cres_bind].
    rewrite (proj2 (Z.ltb_lt len _)), (proj2 (Z.ltb_lt 0 len)) by (unfold SCH_PAYLOAD_SIZE_MAX; lia). cbn [andb]. by rewrite Ed.
Qed.
End Known.

(** ** The loops over the elements and the SDUs of a known user *)

Definition nth_octet (i : nat) (e : Z * list byte) : Z := byte.unsigned (nth i e.2 Byte.x00).

Definition phr_after (p : Z) (e : Z * list byte) : Z :=
  if e.1 =? POWER_HEADROOM then i8 (Z.land (nth_octet 0 e) 63 - PHR_MAPPING_OFFSET) else p.
Definition bsr_after (b : list Z) (e : Z * list byte) : list Z :=
  if e.1 =? POWER_HEADROOM then b
  else if e.1 =? LONG_BSR then long_sizes (nth_octet 0 e) (nth_octet 1 e) (nth_octet 2 e) else <[Z.to_nat (nth_octet 0 e / 64) := nth_octet 0 e mod 64]> b.

(** The elements that report something of the user. *)
Definition report (e : Z * list byte) : Prop :=
  (e.1 = POWER_HEADROOM \/ e.1 = TRUNCATED_BSR \/ e.1 = SHORT_BSR) /\ length e.2 = 1%nat \/ e.1 = LONG_BSR /\ length e.2 = 3%nat.

Section KnownLoops.
Context (m0 : eNB_MAC) (dl ul fr : list Z) (x : Z) (msg3 : option Z).
Hypothesis Hx : x ∈ dl.
Hypothesis Hmap : Forall (fun g => 0 <= g < 4) (lcgidmap (tmpl (udata m0) x)).

Lemma rx_ces_known frame subframe ptr L p A B els s0 : parsed_at ul_size ptr L p -> ces_of L = els.*1 -> Forall report els ->
  serving m0 dl ul fr x msg3 s0 -> rx_ptr s0 = zlen A ->
  exists s, for_each (rx_ces_loop 0 frame subframe (A ++ mjoin els.*2 ++ B) p) (zrange 0 (length els)) s0 = Ret s /\ serving m0 dl ul fr x msg3 s /\
    rx_ptr s = zlen A + zlen (mjoin els.*2) /\
    phr_info (tmpl (udata (rx_mac s)) x) = foldl phr_after (phr_info (tmpl (udata (rx_mac s0)) x)) els /\
    bsr_info (tmpl (udata (rx_mac s)) x) = foldl bsr_after (bsr_info (tmpl (udata (rx_mac s0)) x)) els /\
    rlc_sdus (mac_calls (rx_mac s)) = rlc_sdus (mac_calls (rx_mac s0)).
Proof.
  intros HP HL He Hs0 Hp0.
  destruct (rx_walk (rx_ces_loop 0 frame subframe (A ++ mjoin els.*2 ++ B) p) els (zlen A)
    (fun i s => serving m0 dl ul fr x msg3 s /\ phr_info (tmpl (udata (rx_mac s)) x) = foldl phr_after (phr_info (tmpl (udata (rx_mac s0)) x)) (take i els) /\
       bsr_info (tmpl (udata (rx_mac s)) x) = foldl bsr_after (bsr_info (tmpl (udata (rx_mac s0)) x)) (take i els) /\
       rlc_sdus (mac_calls (rx_mac s)) = rlc_sdus (mac_calls (rx_mac s0))) s0) as (s & E & (H1 & H2 & H3 & H4) & Hp); [done|done| |].
  2:{ rewrite take_ge in H2, H3 by lia. by exists s. }
  intros i d s Hi (H1 & H2 & H3 & H4) Hp. rewrite (take_S_r _ _ _ Hi), !foldl_app. cbn [foldl].
  unfold rx_ces_loop. rewrite (ce_entry _ _ _ _ i d.1 HP) by (by rewrite HL, list_lookup_fmap, Hi). cbn [mbind cres_bind].
  rewrite (payload_split A B els i d Hi). set (mem := (A ++ _) ++ _). pose proof (Forall_lookup_1 _ _ _ _ He Hi) as Hr.
  assert (Ho : forall k, (k < length d.2)%nat -> octet mem (rx_ptr s + Z.of_nat k) = Ret (nth_octet k d)).
  { intros k Hk. rewrite Hp, <- zlen_app. by apply octet_nth. }
  pose proof (Ho 0%nat) as O0. rewrite Z.add_0_r in O0. unfold rx_ce, phr_after, bsr_after. destruct Hr as [[Hk Hlen]|[Hk Hlen]].
  - assert (Hz : zlen d.2 = 1) by (unfold zlen; lia). rewrite Hz. specialize (O0 ltac:(lia)). destruct Hk as [Hk|Hk].
    + rewrite Hk. cbn [Z.eqb POWER_HEADROOM Pos.eqb]. destruct (rx_phr_ok m0 dl ul fr x msg3 Hx mem s _ H1 O0) as (s' & E & K1 & K2 & K3 & K4 & K5).
      exists s'. split; [exact E|]. split; [|exact K2]. split; [exact K1|]. rewrite K3, K4, K5. done.
    + assert (Ek : rx_ce 0 frame subframe mem d.1 s = rx_short_bsr 0 frame subframe mem s /\ (d.1 =? POWER_HEADROOM) = false /\ (d.1 =? LONG_BSR) = false)
        by (by destruct Hk as [-> | ->]).
      destruct Ek as (Ek & Ek2 & Ek3). unfold rx_ce in Ek. rewrite Ek, Ek2, Ek3.
      destruct (rx_short_bsr_ok m0 dl ul fr x msg3 Hx frame subframe mem s _ H1 O0) as (s' & E & K1 & K2 & K3 & K4 & K5).
      exists s'. split; [exact E|]. split; [|exact K2]. split; [exact K1|]. rewrite K3, K4, K5, H2, H3, H4. done.
  - assert (Hz : zlen d.2 = 3) by (unfold zlen; lia). rewrite Hz, Hk. cbn [Z.eqb POWER_HEADROOM CRNTI TRUNCATED_BSR SHORT_BSR LONG_BSR Pos.eqb orb].
    destruct (rx_long_bsr_ok m0 dl ul fr x msg3 Hx frame mem s _ _ _ H1 (O0 ltac:(lia)) (Ho 1%nat ltac:(lia)) (Ho 2%nat ltac:(lia))) as (s' & E & K1 & K2 & K3 & K4 & K5).
    exists s'. split; [exact E|]. split; [|exact K2]. split; [exact K1|]. rewrite K3, K4, K5, H2, H4. done.
Qed.

Lemma rx_sdus_known registered rntiP harq ptr L p A B sdus s0 : parsed_at ul_size ptr L p -> sdus_of L = sizes sdus ->
  Forall (fun d => 1 <= d.1 <= 10 /\ 0 < zlen d.2 < 4096) sdus -> serving m0 dl ul fr x msg3 s0 -> rx_ptr s0 = zlen A ->
  exists s, for_each (rx_sdus_loop registered 0 rntiP harq (A ++ mjoin sdus.*2 ++ B) p) (zrange 0 (length sdus)) s0 = Ret s /\ serving m0 dl ul fr x msg3 s /\
    phr_info (tmpl (udata (rx_mac s)) x) = phr_info (tmpl (udata (rx_mac s0)) x) /\
    bsr_info (tmpl (udata (rx_mac s)) x) = bsr_info (tmpl (udata (rx_mac s0)) x) /\
    rlc_sdus (mac_calls (rx_mac s)) = rlc_sdus (mac_calls (rx_mac s0)) ++ ((fun d => (rntiP, d)) <$> sdus).
Proof.
  intros HP HL He Hs0 Hp0.
  destruct (rx_walk (rx_sdus_loop registered 0 rntiP harq (A ++ mjoin sdus.*2 ++ B) p) sdus (zlen A)
    (fun i s => serving m0 dl ul fr x msg3 s /\ phr_info (tmpl (udata (rx_mac s)) x) = phr_info (tmpl (udata (rx_mac s0)) x) /\
       bsr_info (tmpl (udata (rx_mac s)) x) = bsr_info (tmpl (udata (rx_mac s0)) x) /\
       rlc_sdus (mac_calls (rx_mac s)) = rlc_sdus (mac_calls (rx_mac s0)) ++ ((fun d => (rntiP, d)) <$> take i sdus)) s0)
    as (s & E & (H1 & H2 & H3 & H4) & _); [by rewrite app_nil_r|done| |].
  2:{ rewrite take_ge in H4 by lia. by exists s. }
  intros i d s Hi (H1 & H2 & H3 & H4) Hp. rewrite (take_S_r _ _ _ Hi), fmap_app. unfold rx_sdus_loop.
  destruct (sdu_entry _ _ _ _ _ _ _ HP HL Hi) as [-> ->]. cbn [mbind cres_bind]. destruct (Forall_lookup_1 _ _ _ _ He Hi) as [Hd Hlen].
  destruct (rx_sdu_case_ok m0 dl ul fr x msg3 Hx Hmap registered rntiP harq (A ++ mjoin sdus.*2 ++ B) d.1 (zlen d.2) d.2 s H1 Hd Hlen)
    as (s' & -> & K1 & K2 & K3 & K4 & K5); [rewrite Hp; by apply sdu_data|]. cbn [mbind cres_bind]. eexists. split; [reflexivity|].
  split; [|cbn [rx_ptr skip]; by rewrite K2]. split; [by destruct K1|]. cbn [rx_mac skip]. rewrite K3, K4, K5, H2, H3, H4. split; [done|]. split; [done|].
  rewrite <- app_assoc. by destruct d.
Qed.
End KnownLoops.

(** ** Whole blocks *)

Lemma heard_ok m dl ul fr x r : mac_inv m dl ul fr -> x ∈ dl ->
  exists m', heard 0 x r m = Ret m' /\ mac_inv m' dl ul fr /\ touches x m m' /\ tmpl (udata m') x = tmpl (udata m) x /\
    rlc_sdus (mac_calls m') = rlc_sdus (mac_calls m).
Proof.
  intros H Hx. unfold heard. destruct (ctrl_get m dl ul fr H x Hx) as [-> _]. cbn [mbind cres_bind].
  destruct (upd_ctrl_ok m dl ul fr x in_sync_ctrl H Hx) as (m1 & -> & I1 & T1 & E1 & _ & C1); [done|]. cbn [mbind cres_bind].
  eexists. split; [reflexivity|]. case_if.
  - split; [by apply call_inv|]. split; [exact (touches_trans _ _ _ _ T1 (call_touches _ _ _))|]. split; [done|].
    cbn [mac_calls call]. rewrite rlc_sdus_app, C1. apply app_nil_r.
  - split; [done|]. split; [done|]. split; [done|]. by rewrite C1.
Qed.

Lemma count_block_ok m dl ul fr x len : mac_inv m dl ul fr ->
  exists m', count_block 0 len m = Ret m' /\ mac_inv m' dl ul fr /\ touches x m m' /\ links m' = links m /\ udata m' = udata m /\
    mac_calls m' = mac_calls m.
Proof.
  intros [HL Hd Hu Hdi Hra [c Hst]]. unfold count_block. rewrite Hst. cbn. eexists. split; [reflexivity|].
  split; [constructor; try done; by eexists|]. by split.
Qed.

(** The start of [rx_sdu] for a connected user. *)
Lemma rx_start m dl ul fr x harq : mac_inv m dl ul fr -> x ∈ dl ->
  exists m', (r ← UE_RNTI (udata m) x; m ← upd_ctrl x (harq_done harq) m; heard 0 x r m) = Ret m' /\ mac_inv m' dl ul fr /\ touches x m m' /\
    tmpl (udata m') x = tmpl (udata m) x /\ rlc_sdus (mac_calls m') = rlc_sdus (mac_calls m).
Proof.
  intros H Hx. rewrite (rnti_ok m dl ul fr H x Hx). cbn [mbind cres_bind].
  destruct (upd_ctrl_ok m dl ul fr x (harq_done harq) H Hx) as (m1 & -> & I1 & T1 & E1 & _ & C1); [done|]. cbn [mbind cres_bind].
  destruct (heard_ok m1 dl ul fr x (rnti (tmpl (udata m) x)) I1 Hx) as (m2 & -> & I2 & T2 & E2 & C2). exists m2. split; [done|]. split; [done|].
  split; [exact (touches_trans _ _ _ _ T1 T2)|]. split; congruence.
Qed.

Lemma rx_end_ok m0 dl ul fr x msg3 p len s : x ∈ dl -> serving m0 dl ul fr x msg3 s -> 0 < p_num_sdu p ->
  exists s', rx_end 0 len p s = Ret s' /\ serving m0 dl ul fr x msg3 s' /\ tmpl (udata (rx_mac s')) x = tmpl (udata (rx_mac s)) x /\
    mac_calls (rx_mac s') = mac_calls (rx_mac s).
Proof.
  intros Hx H Hp. unfold rx_end. rewrite (proj2 (Z.eqb_neq _ _)) by lia. cbn [andb]. rewrite (serving_known m0 dl ul fr x msg3 Hx s H), (sv_ue _ _ _ _ _ _ _ H).
  destruct (upd_stats_ok (rx_mac s) dl ul fr x (fun st => Ret (UeStats (num_pdu_rx st) (num_bytes_rx st) (num_errors_rx st) len
                (u64 (total_pdu_bytes_rx st + len)) (u32 (total_num_pdus_rx st + 1)) (total_num_errors_rx st))) (sv_inv _ _ _ _ _ _ _ H) Hx) as (m & -> & I & T & E & C).
  { intros st Hst. eexists. split; [reflexivity|done]. }
  cbn [mbind cres_bind]. eexists. split; [reflexivity|]. split; [|done]. destruct H as [K1 K2 K3 K4]. constructor; try done. exact (touches_trans _ _ _ _ K2 T).
Qed.

(** A block with short reports and SDUs of RLC channels, from a connected user. *)
Lemma rx_sdu_known registered frame subframe harq msg3 m dl ul fr x c els sdus post padding ces rx_lcids rx_lengths :
  mac_inv m dl ul fr -> x ∈ dl -> Forall (fun g => 0 <= g < 4) (lcgidmap (tmpl (udata m) x)) ->
  c = els \/ (exists k, c = padding_ces k ++ els) -> Forall report els -> (length els <= MAX_NUM_CE)%nat ->
  Forall (fun d => 1 <= d.1 <= 10 /\ 0 < zlen d.2 < 4096) sdus -> sdus <> [] -> (length sdus <= MAC_NB_RB_MAX)%nat -> (post <= 0 -> padding = []) ->
  length ces = MAX_NUM_CE -> length rx_lcids = MAC_NB_RB_MAX -> length rx_lengths = MAC_NB_RB_MAX ->
  let pdu := (byte.of_Z <$> header_code ((ce_sub <$> c) ++ sdu_subs (sizes sdus)) post) ++ mjoin els.*2 ++ mjoin sdus.*2 ++ padding in
  exists m', rx_sdu registered 0 frame subframe (rnti (tmpl (udata m) x)) (Some pdu) (zlen pdu) harq msg3 ces rx_lcids rx_lengths m = Ret (m', msg3) /\
    mac_inv m' dl ul fr /\ touches x m m' /\
    phr_info (tmpl (udata m') x) = foldl phr_after (phr_info (tmpl (udata m) x)) els /\
    bsr_info (tmpl (udata m') x) = foldl bsr_after (bsr_info (tmpl (udata m) x)) els /\
    rlc_sdus (mac_calls m') = rlc_sdus (mac_calls m) ++ ((fun d => (rnti (tmpl (udata m) x), d)) <$> sdus).
Proof.
  intros H Hx Hmap Hc Hels Hn Hsd Hne Hlen Hpad H1 H2 H3 pdu. destruct (mac_node _ _ _ _ x H Hx) as (Hr & _).
  assert (Hel : Forall ul_element els).
  { eapply Forall_impl; [|exact Hels]. intros e [[Hk Hl]|[Hk Hl]]; unfold ul_element, zlen; rewrite Hl; [by destruct Hk as [->|[-> | ->]]|by rewrite Hk]. }
  assert (Hp : payload_ok EXTENDED_POWER_HEADROOM sdus).
  { split; [|done]. eapply Forall_impl; [|exact Hsd]. intros d Hd. cbn in *. unfold EXTENDED_POWER_HEADROOM. lia. }
  unfold rx_sdu. rewrite (find_UE_id_known m dl ul fr x H Hx). cbn [mbind cres_bind]. rewrite (proj2 (Z.eqb_neq x (-1))) by lia.
  destruct (rx_start m dl ul fr x harq H Hx) as (m1 & -> & I1 & T1 & E1 & C1). cbn [mbind cres_bind].
  destruct (parse_ul_block c els sdus post padding ces rx_lcids rx_lengths) as (p & L & Ep & Hptr & HP & HL1 & HL2); try done; [by right|].
  fold pdu in Ep. rewrite Ep. cbn [mbind cres_bind].
  destruct (count_block_ok m1 dl ul fr x (zlen pdu) I1) as (m2 & -> & I2 & T2 & _ & U2 & C2). cbn [mbind cres_bind]. rewrite (pa_num_ce _ _ _ _ HP), (pa_num_sdu _ _ _ _ HP), HL1, HL2.
  replace (Z.to_nat (zlen els.*1)) with (length els) by (unfold zlen; rewrite length_fmap; lia).
  replace (Z.to_nat (zlen (sizes sdus))) with (length sdus) by (unfold zlen, sizes; rewrite length_fmap; lia).
  assert (S1 : serving m dl ul fr x msg3 (Rx m2 x (p_ptr p) msg3)) by (constructor; try done; exact (touches_trans _ _ _ _ T1 T2)).
  set (A := byte.of_Z <$> header_code ((ce_sub <$> c) ++ sdu_subs (sizes sdus)) post) in *.
  assert (Epdu : pdu = (A ++ mjoin els.*2) ++ mjoin sdus.*2 ++ padding) by (unfold pdu; by rewrite app_assoc).
  destruct (rx_ces_known m dl ul fr x msg3 Hx frame subframe _ L p A (mjoin sdus.*2 ++ padding) els _ HP HL1 Hels S1)
    as (s2 & E2 & S2 & P2 & K1 & K2 & K3); [unfold A; by rewrite zlen_fmap|]. fold pdu in E2. rewrite E2. cbn [mbind cres_bind]. rewrite <- zlen_app in P2.
  destruct (rx_sdus_known m dl ul fr x msg3 Hx Hmap registered (rnti (tmpl (udata m) x)) harq _ L p _ padding sdus s2 HP HL2 Hsd S2 P2)
    as (s3 & E3 & S3 & M1 & M2 & M3). rewrite <- Epdu in E3. rewrite E3. cbn [mbind cres_bind].
  assert (Hpos : 0 < p_num_sdu p).
  { rewrite (pa_num_sdu _ _ _ _ HP), HL2. unfold zlen, sizes. rewrite length_fmap. destruct sdus; [done|]. cbn. lia. }
  destruct (rx_end_ok m dl ul fr x msg3 p (zlen pdu) s3 Hx S3 Hpos) as (s4 & -> & S4 & X4 & C4). cbn [mbind cres_bind]. exists (rx_mac s4).
  cbn [rx_mac] in *. rewrite U2, E1 in *. split; [by rewrite (sv_msg3 _ _ _ _ _ _ _ S4)|]. split; [apply S4|]. split; [apply S4|].
  rewrite X4, C4. split; [by rewrite M1, K1|]. split; [by rewrite M2, K2|]. by rewrite M3, K3, C2, C1.
Qed.

(** The three octets that carry the sizes, on the ranges the fields have. *)
Definition long_bsr_octets (b : BSR_LONG) : list byte := take 3 (long_bsr_ce b).

Definition all6 (f : Z -> Z -> bool) : bool := forallb (fun x => forallb (f x) (zrange 0 64)) (zrange 0 64).

Lemma all6_ok f x y : all6 f = true -> 0 <= x < 64 -> 0 <= y < 64 -> f x y = true.
Proof.
  intros Hf Hx Hy. unfold all6 in Hf. rewrite forallb_forall in Hf. specialize (Hf x). rewrite forallb_forall in Hf.
  assert (Hin : forall z, 0 <= z < 64 -> In z (zrange 0 64)).
  { intros z Hz. apply list_elem_of_In, elem_of_zrange. lia. }
  by apply Hf; apply Hin.
Qed.

Lemma long_bsr_read b : 0 <= Buffer_size0 b < 64 -> 0 <= Buffer_size1 b < 64 -> 0 <= Buffer_size2 b < 64 -> 0 <= Buffer_size3 b < 64 ->
  let e := (LONG_BSR, long_bsr_octets b) in
  long_sizes (nth_octet 0 e) (nth_octet 1 e) (nth_octet 2 e) =
    [Buffer_size0 b; Buffer_size1 b; Z.land (Buffer_size2 b) 60; Z.lor (4 * (Buffer_size2 b mod 4)) (Buffer_size3 b)].
Proof.
  destruct b as [s0 s1 s2 s3]. cbn [Buffer_size0 Buffer_size1 Buffer_size2 Buffer_size3]. intros H0 H1 H2 H3.
  unfold nth_octet, long_sizes, long_bsr_octets, long_bsr_ce. cbn [fst snd take nth fmap list_fmap Buffer_size0 Buffer_size1 Buffer_size2 Buffer_size3].
  rewrite !byte.unsigned_of_Z. f_equal; [|f_equal; [|f_equal; [|f_equal]]]; apply Z.eqb_eq.
  - by apply (all6_ok (fun s0 s1 => Z.shiftr (Z.land (byte.wrap (u8 (Z.lor (Z.shiftl s0 2) (Z.shiftr (Z.land s1 48) 4)))) 252) 2 =? s0)).
  - set (o0 := byte.wrap _). set (o1 := byte.wrap _).
    assert (E0 : Z.land o0 3 = Z.shiftr s1 4).
    { apply Z.eqb_eq. by apply (all6_ok (fun s0 s1 => Z.land (byte.wrap (u8 (Z.lor (Z.shiftl s0 2) (Z.shiftr (Z.land s1 48) 4)))) 3 =? Z.shiftr s1 4)). }
    assert (E1 : Z.shiftr (Z.land o1 240) 4 = Z.land s1 15).
    { apply Z.eqb_eq. by apply (all6_ok (fun s1 s2 => Z.shiftr (Z.land (byte.wrap (u8 (Z.lor (Z.shiftl (Z.land s1 15) 4) (Z.shiftr (Z.land s2 60) 2)))) 240) 4 =? Z.land s1 15)). }
    rewrite E0, E1. by apply (all6_ok (fun s1 _ => Z.lor (Z.shiftl (Z.shiftr s1 4) 4) (Z.land s1 15) =? s1) s1 0).
  - set (o1 := byte.wrap _). set (o2 := byte.wrap _).
    assert (E1 : Z.shiftl (Z.land o1 15) 2 = Z.land s2 60).
    { apply Z.eqb_eq. by apply (all6_ok (fun s1 s2 => Z.shiftl (Z.land (byte.wrap (u8 (Z.lor (Z.shiftl (Z.land s1 15) 4) (Z.shiftr (Z.land s2 60) 2)))) 15) 2 =? Z.land s2 60)). }
    assert (E2 : Z.shiftr (Z.land o2 192) 6 = 0).
    { apply Z.eqb_eq. by apply (all6_ok (fun s2 s3 => Z.shiftr (Z.land (byte.wrap (u8 (Z.lor (Z.shiftl (Z.land s2 3) 2) (Z.land s3 63)))) 192) 6 =? 0)). }
    rewrite E1, E2, Z.lor_0_r. apply Z.eqb_refl.
  - by apply (all6_ok (fun s2 s3 => Z.land (byte.wrap (u8 (Z.lor (Z.shiftl (Z.land s2 3) 2) (Z.land s3 63)))) 63 =? Z.lor (4 * (s2 mod 4)) s3)).
Qed.

(** The block the user sends. *)
Lemma ul_pdu_built mem sdus lens lcids k phr crnti tb sb lb post padding :
  payload_ok EXTENDED_POWER_HEADROOM sdus -> arrays_hold lens lcids (sizes sdus) -> sdus <> [] -> 62 <= zlen mem ->
  exists header offset,
    generate_ulsch_header mem (length sdus) k lens lcids phr crnti tb sb lb post = Ret (header, offset) /\
    mac_pdu header offset sdus padding =
      (byte.of_Z <$> header_code ((ce_sub <$> ul_ces k phr crnti tb sb lb) ++ sdu_subs (sizes sdus)) post) ++
      mjoin (ul_elements phr crnti tb sb lb).*2 ++ mjoin sdus.*2 ++ padding.
Proof.
  intros Hp Ha Hne Hm. destruct (payload_sizes _ _ Hp) as [Hs Hz]. pose proof (sizes_nonempty _ Hne) as Hne'.
  destruct (generate_ulsch_ok mem (sizes sdus) lens lcids k phr crnti tb sb lb post) as (tail & Hg); [done|done|by right|lia|].
  cbv zeta in Hg. destruct (ul_elements_few phr crnti tb sb lb) as [Hf Ho]. pose proof (padding_ces_len k).
  assert (Hlen : length (sizes sdus) = length sdus) by apply length_fmap. rewrite Hlen in Hg. do 2 eexists. split; [exact Hg|].
  assert (Hoct : mjoin (ul_ces k phr crnti tb sb lb).*2 = mjoin (ul_elements phr crnti tb sb lb).*2)
    by (by rewrite ul_ces_split, fmap_app, join_app, padding_octets).
  assert (Hh : zlen (ul_ces k phr crnti tb sb lb) <= 5) by (rewrite ul_ces_split, zlen_app; lia).
  rewrite mac_pdu_eq; [by rewrite Hoct|apply header_nonempty; by right|rewrite Hoct; pose proof (header_short _ _ Hh Hz); lia].
Qed.

(** SDUs of the channels that have an entry in [lcgidmap]. *)
Definition rlc_payload (sdus : list (Z * list byte)) : Prop :=
  Forall (fun d => 1 <= d.1 <= 10 /\ 0 < zlen d.2 < 4096) sdus /\ sdus <> [] /\ (length sdus <= MAC_NB_RB_MAX)%nat.

Lemma rlc_payload_ok sdus : rlc_payload sdus -> payload_ok EXTENDED_POWER_HEADROOM sdus.
Proof.
  intros (Hs & _ & Hl). split; [|done]. eapply Forall_impl; [|exact Hs]. intros d Hd. cbn in *. unfold EXTENDED_POWER_HEADROOM. lia.
Qed.

Lemma ul_reports_ok phr tb sb : Forall report (ul_elements phr None tb sb None).
Proof.
  unfold ul_elements, bsr_ces. destruct phr, tb, sb; repeat (constructor; [left; split; [auto|done]|]); constructor.
Qed.

Lemma phr_after_others p l : Forall (fun e : Z * list byte => (e.1 =? POWER_HEADROOM) = false) l -> foldl phr_after p l = p.
Proof. intros Hl. revert p. induction Hl as [|e l He _ IH]; intros p; [done|]. cbn [foldl]. rewrite IH. unfold phr_after. by rewrite He. Qed.

(** C12: An uplink PDU reaches RLC from end to end: for every connected user and every block it builds with
    [generate_ulsch_header] from SDUs on the channels 1 to 10 (fewer than 4096 octets each), with or without a power
    headroom report, a truncated or short buffer status report and padding, [rx_sdu] returns, gives RLC exactly the
    SDUs of the block, in order, unchanged and with the RNTI and the channel of the user, stores the reported values
    for the right logical channel group, and changes nothing for the other users; the invariant of the user list holds. *)
Theorem uplink_pdu_delivered registered frame subframe harq msg3 m dl ul fr x mem sdus lens lcids k phr tb sb post padding ces rx_lcids rx_lengths :
  mac_inv m dl ul fr -> x ∈ dl -> Forall (fun g => 0 <= g < 4) (lcgidmap (tmpl (udata m) x)) ->
  rlc_payload sdus -> arrays_hold lens lcids (sizes sdus) -> (post <= 0 -> padding = []) -> 62 <= zlen mem ->
  length ces = MAX_NUM_CE -> length rx_lcids = MAC_NB_RB_MAX -> length rx_lengths = MAC_NB_RB_MAX ->
  exists header offset m',
    generate_ulsch_header mem (length sdus) k lens lcids phr None tb sb None post = Ret (header, offset) /\
    let pdu := mac_pdu header offset sdus padding in
    rx_sdu registered 0 frame subframe (rnti (tmpl (udata m) x)) (Some pdu) (zlen pdu) harq msg3 ces rx_lcids rx_lengths m = Ret (m', msg3) /\
    rlc_sdus (mac_calls m') = rlc_sdus (mac_calls m) ++ ((fun d => (rnti (tmpl (udata m) x), d)) <$> sdus) /\
    (forall b, phr = Some b -> phr_info (tmpl (udata m') x) = byte.unsigned b mod 64 - 23) /\
    (forall b, match tb with Some b => Some b | None => sb end = Some b ->
       bsr_info (tmpl (udata m') x) = <[Z.to_nat (byte.unsigned b / 64) := byte.unsigned b mod 64]> (bsr_info (tmpl (udata m) x))) /\
    (forall y, 0 <= y -> y <> x -> tmpl (udata m') y = tmpl (udata m) y) /\ mac_inv m' dl ul fr.
Proof.
  intros H Hx Hmap Hp Ha Hpad Hm H1 H2 H3. pose proof (rlc_payload_ok _ Hp) as Hpo. destruct Hp as (Hs & Hne & Hlen).
  destruct (ul_pdu_built mem sdus lens lcids k phr None tb sb None post padding Hpo Ha Hne Hm) as (header & offset & Hg & Hpdu).
  destruct (ul_elements_few phr None tb sb None) as [Hf _].
  destruct (rx_sdu_known registered frame subframe harq msg3 m dl ul fr x (ul_ces k phr None tb sb None) (ul_elements phr None tb sb None) sdus post padding
    ces rx_lcids rx_lengths) as (m' & E & I & T & P & B & C); try done;
    [right; by exists k|apply ul_reports_ok|unfold zlen, MAX_NUM_CE in *; lia|].
  exists header, offset, m'. split; [done|]. cbv zeta. rewrite Hpdu. split; [exact E|]. split; [done|]. split; [|split; [|split; [apply T|done]]].
  - intros b ->. rewrite P. unfold ul_elements. cbn [app foldl].
    rewrite phr_after_others by (unfold bsr_ces; destruct tb, sb; repeat constructor). unfold phr_after, nth_octet. cbn [fst snd nth].
    change (POWER_HEADROOM =? POWER_HEADROOM) with true. cbn match. change 63 with (2 ^ 6 - 1). rewrite land_mask by lia. change (2 ^ 6) with 64.
    pose proof (Z.mod_pos_bound (byte.unsigned b) 64 ltac:(lia)). rewrite i8_small; unfold PHR_MAPPING_OFFSET; lia.
  - intros b Hb. rewrite B. unfold ul_elements. rewrite foldl_app. replace (foldl bsr_after _ (match phr with Some b => _ | None => _ end)) with (bsr_info (tmpl (udata m) x)) by (by destruct phr).
    cbn [app]. destruct tb as [b'|]; [injection Hb as ->|subst sb]; done.
Qed.

(** ** The long buffer status report *)

(** A long buffer status report is misread: the user writes its structure of four octets where the eNB counts
    three, and it shifts the low bits of the third size by 2 instead of 6.  For every connected user, every report and
    every SDU behind it in a block without padding, [rx_sdu] stores the first two sizes right, loses the two low bits
    of the third, mixes them into the fourth, and gives RLC the SDU with one octet too many in front. *)
Theorem long_bsr_misread registered frame subframe harq msg3 m dl ul fr x mem lcid data lens lcids b ces rx_lcids rx_lengths :
  mac_inv m dl ul fr -> x ∈ dl -> Forall (fun g => 0 <= g < 4) (lcgidmap (tmpl (udata m) x)) ->
  0 <= Buffer_size0 b < 64 -> 0 <= Buffer_size1 b < 64 -> 0 <= Buffer_size2 b < 64 -> 0 <= Buffer_size3 b < 64 ->
  1 <= lcid <= 10 -> zlen data < 4095 -> arrays_hold lens lcids (sizes [(lcid, data)]) -> 62 <= zlen mem ->
  length ces = MAX_NUM_CE -> length rx_lcids = MAC_NB_RB_MAX -> length rx_lengths = MAC_NB_RB_MAX ->
  exists header offset m',
    generate_ulsch_header mem 1 0 lens lcids None None None None (Some b) 0 = Ret (header, offset) /\
    let pdu := mac_pdu header offset [(lcid, data)] [] in
    rx_sdu registered 0 frame subframe (rnti (tmpl (udata m) x)) (Some pdu) (zlen pdu) harq msg3 ces rx_lcids rx_lengths m = Ret (m', msg3) /\
    bsr_info (tmpl (udata m') x) = [Buffer_size0 b; Buffer_size1 b; Z.land (Buffer_size2 b) 60; Z.lor (4 * (Buffer_size2 b mod 4)) (Buffer_size3 b)] /\
    rlc_sdus (mac_calls m') = rlc_sdus (mac_calls m) ++ [(rnti (tmpl (udata m) x), (lcid, Byte.x00 :: data))].
Proof.
  intros H Hx Hmap B0 B1 B2 B3 Hl Hd Ha Hm H1 H2 H3. pose proof (zlen_nonneg data) as Hd0.
  destruct (ul_pdu_built mem [(lcid, data)] lens lcids 0 None None None None (Some b) 0 []) as (header & offset & Hg & Hpdu); try done.
  { split; [|cbn; unfold MAC_NB_RB_MAX; lia]. apply Forall_cons_2; [unfold EXTENDED_POWER_HEADROOM; cbn; lia|apply Forall_nil_2]. }
  destruct (rx_sdu_known registered frame subframe harq msg3 m dl ul fr x [(LONG_BSR, long_bsr_octets b)] [(LONG_BSR, long_bsr_octets b)]
    [(lcid, Byte.x00 :: data)] 0 [] ces rx_lcids rx_lengths) as (m' & E & I & T & P & B & C); try done.
  - by left.
  - apply Forall_cons_2; [by right|apply Forall_nil_2].
  - cbn. unfold MAX_NUM_CE. lia.
  - apply Forall_cons_2; [|apply Forall_nil_2]. cbn. unfold zlen in *. cbn [length]. lia.
  - cbn. unfold MAC_NB_RB_MAX. lia.
  - exists header, offset, m'. split; [exact Hg|]. cbv zeta. rewrite Hpdu. split; [exact E|]. split; [|exact C].
    rewrite B. cbn [foldl]. unfold bsr_after. cbn [fst]. change (LONG_BSR =? POWER_HEADROOM) with false. change (LONG_BSR =? LONG_BSR) with true.
    cbn match. by apply long_bsr_read.
Qed.

(** ** The C-RNTI element *)

Definition swapped (c : Z) : Z := c mod 256 * 256 + c / 256.

Definition msg3_after (f : option Z) (e : Z * list byte) : option Z :=
  if e.1 =? CRNTI then (match f with Some _ => Some 0 | None => None end) else f.

(** The elements when the sender is not known, and a C-RNTI does not name anyone. *)
Lemma rx_ces_unknown frame subframe ptr L p A B els m s0 : parsed_at ul_size ptr L p -> ces_of L = els.*1 ->
  Forall (fun e => ul_element e /\ (e.1 = CRNTI -> find_UE_id m (Z.shiftl (nth_octet 0 e) 8 + nth_octet 1 e) = Ret (-1))) els ->
  rx_mac s0 = m -> rx_ue s0 = -1 -> rx_ptr s0 = zlen A ->
  exists s, for_each (rx_ces_loop 0 frame subframe (A ++ mjoin els.*2 ++ B) p) (zrange 0 (length els)) s0 = Ret s /\
    rx_mac s = m /\ rx_ue s = -1 /\ rx_msg3 s = foldl msg3_after (rx_msg3 s0) els.
Proof.
  intros HP HL He Hm Hu Hp0.
  destruct (rx_walk (rx_ces_loop 0 frame subframe (A ++ mjoin els.*2 ++ B) p) els (zlen A)
    (fun i s => rx_mac s = m /\ rx_ue s = -1 /\ rx_msg3 s = foldl msg3_after (rx_msg3 s0) (take i els)) s0) as (s & E & (H1 & H2 & H3) & Hp); [done|done| |].
  2:{ rewrite take_ge in H3 by lia. by exists s. }
  intros i d s Hi (H1 & H2 & H3) Hp. rewrite (take_S_r _ _ _ Hi), !foldl_app. cbn [foldl]. rewrite <- H3.
  unfold rx_ces_loop. rewrite (ce_entry _ _ _ _ i d.1 HP) by (by rewrite HL, list_lookup_fmap, Hi). cbn [mbind cres_bind].
  rewrite (payload_split A B els i d Hi). set (mem := (A ++ _) ++ _). destruct (Forall_lookup_1 _ _ _ _ He Hi) as [[Hr Hz] Hf].
  assert (Ho : forall k, (k < length d.2)%nat -> octet mem (rx_ptr s + Z.of_nat k) = Ret (nth_octet k d)).
  { intros k Hk. rewrite Hp, <- zlen_app. by apply octet_nth. }
  pose proof (Ho 0%nat) as O0. rewrite Z.add_0_r in O0. pose proof (Ho 1%nat) as O1. change (Z.of_nat 1) with 1 in O1.
  unfold EXTENDED_POWER_HEADROOM, SHORT_PADDING in Hr. assert (Hc : d.1 = 26 \/ d.1 = 27 \/ d.1 = 28 \/ d.1 = 29 \/ d.1 = 30) by lia. unfold msg3_after.
  destruct Hc as [Hc|[Hc|[Hc|[Hc|Hc]]]]; rewrite Hc in *; cbn [ul_size Z.eqb Pos.eqb LONG_BSR CRNTI POWER_HEADROOM TRUNCATED_BSR SHORT_BSR orb] in Hz; rewrite Hz;
    unfold zlen in Hz; unfold rx_ce; cbn [Z.eqb Pos.eqb LONG_BSR CRNTI POWER_HEADROOM TRUNCATED_BSR SHORT_BSR orb];
    unfold rx_phr, rx_crnti, rx_short_bsr, rx_long_bsr; rewrite ?O0 by lia; cbn [mbind cres_bind]; rewrite ?O1 by lia; cbn [mbind cres_bind]; cbv zeta;
    rewrite H1, ?H2; try rewrite (Hf eq_refl); eexists; (split; [reflexivity|done]).
Qed.

(** SDUs of RLC channels from a sender that is not known. *)
Lemma rx_sdus_unknown registered rntiP harq mem ptr L p sdus s0 : parsed_at ul_size ptr L p -> sdus_of L = sizes sdus ->
  Forall (fun d => 1 <= d.1) sdus -> rx_ue s0 = -1 ->
  exists n, for_each (rx_sdus_loop registered 0 rntiP harq mem p) (zrange 0 (length sdus)) s0 = Ret (skip n s0).
Proof.
  intros HP HL He Hu.
  destruct (rx_walk (rx_sdus_loop registered 0 rntiP harq mem p) sdus (rx_ptr s0) (fun _ s => s = skip (rx_ptr s - rx_ptr s0) s0) s0) as (s & E & R & _).
  - destruct s0. unfold skip. cbn. f_equal. lia.
  - done.
  - intros i d s Hi Hs _. unfold rx_sdus_loop. destruct (sdu_entry _ _ _ _ _ _ _ HP HL Hi) as [-> ->]. cbn [mbind cres_bind].
    pose proof (Forall_lookup_1 _ _ _ _ He Hi) as Hd. cbn in Hd. rewrite Hs. unfold rx_sdu_case, CCCH. rewrite (proj2 (Z.eqb_neq _ _)) by lia.
    cbn [rx_ue skip]. rewrite Hu. cbn [Z.eqb Pos.eqb]. exists (skip (zlen d.2) (skip (rx_ptr s - rx_ptr s0) s0)). split; [by repeat case_match|].
    split; [|done]. unfold skip. cbn. f_equal. lia.
  - exists (rx_ptr s - rx_ptr s0). by rewrite E, <- R.
Qed.

Lemma swapped_octets c : 0 <= c < 2 ^ 16 ->
  Z.shiftl (byte.unsigned (byte.of_Z (u8 c))) 8 + byte.unsigned (byte.of_Z (u8 (Z.shiftr c 8))) = swapped c.
Proof.
  intros Hc. rewrite !byte.unsigned_of_Z. unfold byte.wrap, u8, swapped. rewrite Z.shiftl_mul_pow2, Z.shiftr_div_pow2, !Z.mod_mod by lia.
  change (2 ^ 8) with 256. rewrite (Z.mod_small (c / 256)) by (split; [apply Z.div_pos|apply Z.div_lt_upper_bound]; lia). done.
Qed.

(** A connected user that comes back with a new temporary identity is not recognised: it names itself by the
    C-RNTI element, which [generate_ulsch_header] fills with the low octet first and [rx_sdu] reads with the high octet
    first.  Unless the exchanged value happens to be the RNTI of somebody, [rx_sdu] delivers none of the SDUs of the
    block, stores none of its reports, changes nothing in the MAC but the counters of the carrier, and yet clears the
    message 3 flag. *)
Theorem crnti_element_loses_sdus registered frame subframe harq f rntiP m dl ul fr y mem sdus lens lcids k phr tb sb post padding ces rx_lcids rx_lengths :
  mac_inv m dl ul fr -> y ∈ dl -> 0 <= rnti (tmpl (udata m) y) < 2 ^ 16 ->
  (forall x, x ∈ dl -> rnti (tmpl (udata m) x) <> rntiP /\ rnti (tmpl (udata m) x) <> swapped (rnti (tmpl (udata m) y))) ->
  rlc_payload sdus -> arrays_hold lens lcids (sizes sdus) -> (post <= 0 -> padding = []) -> 62 <= zlen mem ->
  length ces = MAX_NUM_CE -> length rx_lcids = MAC_NB_RB_MAX -> length rx_lengths = MAC_NB_RB_MAX ->
  exists header offset m',
    generate_ulsch_header mem (length sdus) k lens lcids phr (Some (rnti (tmpl (udata m) y))) tb sb None post = Ret (header, offset) /\
    let pdu := mac_pdu header offset sdus padding in
    count_block 0 (zlen pdu) m = Ret m' /\
    rx_sdu registered 0 frame subframe rntiP (Some pdu) (zlen pdu) harq (Some f) ces rx_lcids rx_lengths m = Ret (m', Some 0) /\
    links m' = links m /\ udata m' = udata m /\ mac_calls m' = mac_calls m.
Proof.
  intros H Hy Hr Hunk Hpay Ha Hpad Hm H1 H2 H3. set (c := rnti (tmpl (udata m) y)) in *. pose proof (rlc_payload_ok _ Hpay) as Hpo. destruct Hpay as (Hs & Hne & Hlen).
  destruct (ul_pdu_built mem sdus lens lcids k phr (Some c) tb sb None post padding Hpo Ha Hne Hm) as (header & offset & Hg & Hpdu).
  cbv zeta. set (pdu := _ ++ _) in Hpdu. destruct (count_block_ok m dl ul fr y (zlen pdu) H) as (m' & Ec & I' & _ & L' & U' & C').
  exists header, offset, m'. split; [done|]. rewrite Hpdu. split; [exact Ec|]. split; [|done]. clear Hpdu. destruct (ul_elements_few phr (Some c) tb sb None) as [Hf _].
  unfold rx_sdu. rewrite (find_UE_id_unknown m dl ul fr rntiP H) by (intros x Hx; by apply Hunk). cbn [mbind cres_bind Z.eqb Pos.eqb].
  destruct (parse_ul_block (ul_ces k phr (Some c) tb sb None) (ul_elements phr (Some c) tb sb None) sdus post padding ces rx_lcids (replicate MAC_NB_RB_MAX 0))
    as (p & L & Ep & Hptr & HP & HL1 & HL2); try done; [right; by exists k|apply ul_elements_ok|unfold zlen, MAX_NUM_CE in *; lia|by right|].
  fold pdu in Ep. rewrite Ep. cbn [mbind cres_bind]. rewrite Ec. cbn [mbind cres_bind]. rewrite (pa_num_ce _ _ _ _ HP), (pa_num_sdu _ _ _ _ HP), HL1, HL2.
  set (els := ul_elements phr (Some c) tb sb None) in *.
  replace (Z.to_nat (zlen els.*1)) with (length els) by (unfold zlen; rewrite length_fmap; lia).
  replace (Z.to_nat (zlen (sizes sdus))) with (length sdus) by (unfold zlen, sizes; rewrite length_fmap; lia).
  destruct (rx_ces_unknown frame subframe _ L p (byte.of_Z <$> header_code ((ce_sub <$> ul_ces k phr (Some c) tb sb None) ++ sdu_subs (sizes sdus)) post)
    (mjoin sdus.*2 ++ padding) els m' (Rx m' (-1) (p_ptr p) (Some f)) HP HL1) as (s & E & S1 & S2 & S3); try done; [|by rewrite zlen_fmap|].
  { apply Forall_and; [apply ul_elements_ok|]. unfold els, ul_elements, bsr_ces. clear -I' U' Hunk Hr.
    assert (Hsw : find_UE_id m' (swapped c) = Ret (-1)) by (apply (find_UE_id_unknown m' dl ul fr); [done|]; intros x Hx; rewrite U'; by apply Hunk).
    assert (Hc : CRNTI = CRNTI -> find_UE_id m' (Z.shiftl (byte.unsigned (byte.of_Z (u8 c))) 8 + byte.unsigned (byte.of_Z (u8 (Z.shiftr c 8)))) = Ret (-1))
      by (intros _; by rewrite swapped_octets).
    destruct phr, tb, sb; repeat (apply Forall_cons_2; [first [exact Hc|intros [=]]|]); apply Forall_nil_2. }
  fold pdu in E. rewrite E. cbn [mbind cres_bind]. destruct (rx_sdus_unknown registered rntiP harq pdu _ L p sdus s HP HL2) as (n & ->); [|done|].
  { eapply Forall_impl; [|exact Hs]. intros d Hd. cbn in *. lia. }
  cbn [mbind cres_bind]. unfold rx_end. assert (Hpos : (p_num_sdu p =? 0) = false).
  { apply Z.eqb_neq. rewrite (pa_num_sdu _ _ _ _ HP), HL2. unfold zlen, sizes. rewrite length_fmap. destruct sdus; [done|]. cbn. lia. }
  rewrite Hpos. cbn [andb rx_ue skip]. rewrite S2. cbn [Z.eqb Pos.eqb mbind cres_bind rx_mac rx_msg3 with_mac skip]. rewrite S1, S3.
  unfold els, ul_elements, bsr_ces. by destruct phr, tb, sb.
Qed.

(** ** Witnesses *)

Definition w_ul_sdus : list (Z * list byte) := [(3, [Byte.x41; Byte.x42]); (1, replicate 200 Byte.x43)].

Lemma w_ul_payload : rlc_payload w_ul_sdus.
Proof.
  split; [|split; [discriminate|vm_compute; lia]]. repeat apply Forall_cons_2; try apply Forall_nil_2; vm_compute; intuition discriminate.
Qed.

Lemma uplink_pdu_delivered_witness : exists header offset m',
  generate_ulsch_header (zeros 64) 2 1 [2; 200] [3; 1] (Some (byte.of_Z 40)) None None (Some (byte.of_Z 70)) None 0 = Ret (header, offset) /\
  rx_sdu 1 0 5 7 200 (Some (mac_pdu header offset w_ul_sdus [])) (zlen (mac_pdu header offset w_ul_sdus [])) 3 None (replicate MAX_NUM_CE 0)
    (replicate MAC_NB_RB_MAX 0) (replicate MAC_NB_RB_MAX 0) w_mac = Ret (m', None) /\
  rlc_sdus (mac_calls m') = (fun d => (200, d)) <$> w_ul_sdus.
Proof.
  assert (Hx : (1 : Z) ∈ [0; 1; 2]) by set_solver.
  destruct (uplink_pdu_delivered 1 5 7 3 None w_mac [0; 1; 2] [0; 1; 2] (zrange 3 13) 1 (zeros 64) w_ul_sdus [2; 200] [3; 1] 1 (Some (byte.of_Z 40))
    None (Some (byte.of_Z 70)) 0 [] (replicate MAX_NUM_CE 0) (replicate MAC_NB_RB_MAX 0) (replicate MAC_NB_RB_MAX 0) w_mac_inv Hx)
    as (header & offset & m' & Hg & E & C & _); try reflexivity.
  - by apply Forall_replicate.
  - apply w_ul_payload.
  - split; reflexivity.
  - vm_compute. discriminate.
  - exists header, offset, m'. split; [exact Hg|]. split; [exact E|exact C].
Defined.

Lemma long_bsr_misread_witness : exists header offset m',
  generate_ulsch_header (zeros 64) 1 0 [2] [3] None None None None (Some (BsrLong 1 2 3 4)) 0 = Ret (header, offset) /\
  rx_sdu 1 0 5 7 200 (Some (mac_pdu header offset [(3, [Byte.x41; Byte.x42])] [])) (zlen (mac_pdu header offset [(3, [Byte.x41; Byte.x42])] [])) 3 None
    (replicate MAX_NUM_CE 0) (replicate MAC_NB_RB_MAX 0) (replicate MAC_NB_RB_MAX 0) w_mac = Ret (m', None) /\
  bsr_info (tmpl (udata m') 1) = [1; 2; 0; 12].
Proof.
  assert (Hx : (1 : Z) ∈ [0; 1; 2]) by set_solver.
  destruct (long_bsr_misread 1 5 7 3 None w_mac [0; 1; 2] [0; 1; 2] (zrange 3 13) 1 (zeros 64) 3 [Byte.x41; Byte.x42] [2] [3] (BsrLong 1 2 3 4)
    (replicate MAX_NUM_CE 0) (replicate MAC_NB_RB_MAX 0) (replicate MAC_NB_RB_MAX 0) w_mac_inv Hx) as (header & offset & m' & Hg & E & B & _);
    try reflexivity; cbn [Buffer_size0 Buffer_size1 Buffer_size2 Buffer_size3]; try lia.
  - by apply Forall_replicate.
  - split; reflexivity.
  - vm_compute. discriminate.
  - exists header, offset, m'. split; [exact Hg|]. split; [exact E|exact B].
Defined.

Lemma crnti_element_loses_sdus_witness : exists header offset m',
  generate_ulsch_header (zeros 64) 2 0 [2; 200] [3; 1] None (Some 200) None None None 0 = Ret (header, offset) /\
  rx_sdu 1 0 5 7 77 (Some (mac_pdu header offset w_ul_sdus [])) (zlen (mac_pdu header offset w_ul_sdus [])) 3 (Some 1) (replicate MAX_NUM_CE 0)
    (replicate MAC_NB_RB_MAX 0) (replicate MAC_NB_RB_MAX 0) w_mac = Ret (m', Some 0) /\ mac_calls m' = [].
Proof.
  assert (Hx : (1 : Z) ∈ [0; 1; 2]) by set_solver.
  destruct (crnti_element_loses_sdus 1 5 7 3 1 77 w_mac [0; 1; 2] [0; 1; 2] (zrange 3 13) 1 (zeros 64) w_ul_sdus [2; 200] [3; 1] 0 None
    None None 0 [] (replicate MAX_NUM_CE 0) (replicate MAC_NB_RB_MAX 0) (replicate MAC_NB_RB_MAX 0) w_mac_inv Hx) as (header & offset & m' & Hg & _ & E & _ & _ & C); try reflexivity.
  - vm_compute. intuition discriminate.
  - intros x Hi. assert (Hc : x = 0 \/ x = 1 \/ x = 2) by set_solver. destruct Hc as [->|[->| ->]]; vm_compute; intuition discriminate.
  - apply w_ul_payload.
  - split; reflexivity.
  - vm_compute. discriminate.
  - exists header, offset, m'. split; [exact Hg|]. split; [exact E|exact C].
Defined.
